(* ===== verification/_CoqProject ===== *)
-Q . S2P
Prelude.v
Tasks.v
OrdMap.v
Types.v
Validation.v
ValidationFacts.v
Codec.v
SocketAddr.v
Dht.v
DhtFacts.v
Trust.v
Aggregation.v
Security.v
SecurityFacts.v
Compute.v
ComputeFacts.v
Float32.v
TrainingPlan.v
Planner.v
PlannerFacts.v
FileSystem.v
Storage.v
StorageFacts.v
StorageRuns.v
StorageExamples.v
Runtime.v
RuntimeFacts.v
Facade.v
NetAddr.v
Network.v
Peers.v
Transport.v
Connections.v
NetworkFacts.v
NetworkPool.v
NetworkExamples.v
NetworkLookups.v
NetworkProtocol.v
NetworkSessions.v
NetworkWitnesses.v
TaskLogic.v
NodeConfig.v
NodeConfigFacts.v
NodeState.v
NodeRuntime.v
NodeJobs.v
NodeArtifacts.v
NodeFacts.v
NodePool.v
NodeExamples.v
TraceLogic.v
V3Model.v
V3Tasks.v
V3Coordinator.v
V3Facts.v
V3Monotone.v
V3Elections.v
V3Aggregates.v
V3Deadlines.v
V3Aside.v
V3Examples.v
V4Model.v
V4Control.v
V4Integrated.v
V4Data.v
V4Node.v
V4Reconfigure.v
V4Driver.v
V4Plans.v
V4Commands.v
V4DriverFacts.v
V4Graphs.v
V4Operator.v
V4Facts.v
V4Pool.v
V4Votes.v
V4Recovery.v
V4Examples.v
WholeNode.v
WholeExamples.v
