(* ===== verification/Prelude.v ===== *)
(** * Intelligence Network: a verification development

    The Intelligence Network is a peer-to-peer node that shares compute for AI jobs: peers find
    each other through a Kademlia DHT over QUIC, exchange signed statements, run bounded jobs,
    store artifacts by content, and train models together under Byzantine-robust rules.  This
    library models the Rust crates below src/crates as Rocq definitions, one file per component,
    and proves what makes each of them correct.

    ** The parts and their files

    - Foundations.  [Prelude]: machine integers with their saturation, [result] with the notations
      [let?] and [;?], lists, counting, the tactics [breflect], [inv_ok] and [dmatch].  [OrdMap]:
      [Ord], stable sorting, deduplication, [BTreeMap].  [Tasks]: the async functions of a crate as
      tasks, their sections interleaved by a pool, with the rule [pool_steps_safe] that carries an
      invariant and a guarantee from sections to all interleavings.  [SocketAddr] and [NetAddr]:
      the address parser, address classes and address text of the standard library.  [Float32]:
      single-precision floats and decimal text.
    - protocol.  [Types]: every type of types.rs.  [Validation]: every routine of validation.rs,
      check by check; [ValidationFacts]: what a validated message guarantees.  [Codec]: the frames
      of codec.rs over a serializer given by the class [Postcard].
    - network.  [Dht] and [DhtFacts]: routing table and record store (dht.rs).  lib.rs is split:
      [Network] (configuration, address policy, signed statements, the records of the shared
      state), [Peers] (one function per critical section: learning peers, installing and displacing
      connections, relay budgets, admission of requests, slots for requests in flight), [Transport]
      (handlers, DHT requests, lookups, publication, as tasks), [Connections] (handshake, read and
      write loops, dialing, sending with its relays, maintenance, the initial state and the entry
      points).  [NetworkFacts] states the invariant and proves it of every section, [NetworkPool] of
      every task and of every interleaving.  [NetworkLookups], [NetworkProtocol] and
      [NetworkSessions] hold the functional theorems; [NetworkExamples] and [NetworkWitnesses] run
      the tasks on concrete input and follow the code where it misses its intention.
    - intelligence.  [Trust] (trust.rs), [Security] and [SecurityFacts] (security.rs), [Aggregation],
      [Planner] and [PlannerFacts] (training_fabric.rs), [TrainingPlan] (training.rs), [Compute] and
      [ComputeFacts] (compute.rs), [Facade] (lib.rs).
    - storage.  [FileSystem]: files, directories, calls, faults and crashes.  [Storage]: every
      operation of LocalStore as a program of calls.  [StorageFacts], [StorageRuns] and
      [StorageExamples]: its theorems.
    - runtime.  [Runtime] and [RuntimeFacts]: admission, permits, cancellation and deadlines of jobs
      as a transition system; built-in executors, bounded reading, sandbox command lines.
    - node, lib.rs.  [NodeConfig] and [NodeConfigFacts]: the configuration, from defaults, file and
      environment to what the network gets.  [NodeState]: the shared state of the node and the
      sections its tasks are made of.  [NodeJobs]: the job history, remote and local execution,
      submission, results.  [NodeArtifacts]: transfers of artifacts and the dispatch of messages.
      [NodeRuntime] connects the node's view of an execution with [Runtime].  [TaskLogic] has the
      rules for pools of such tasks (what a section relates, effects paid for by credits, tasks
      embedded in a larger state); [NodeFacts] and [NodePool] prove them of every task for jobs and
      artifacts; [NodeExamples] has runs.
    - node, the whole.  [WholeNode]: the event loop and the dispatch of messages over all tasks of the
      node, those of both kinds of training included, which share its files and its security state,
      and the theorems about the jobs of a node over every interleaving; [WholeExamples] has runs.
      [V3Aside] proves that distributed training leaves jobs and artifacts alone.
    - node, distributed_training.rs.  [V3Model]: the context of a job and what a node computes from
      it.  [V3Tasks]: the tasks of worker, aggregator and candidate.  [V3Coordinator]: the
      coordinator, the start, the restart and the life of a job.  [TraceLogic] has the
      rules for a task along its trace and for its end; [V3Facts], [V3Monotone], [V3Elections],
      [V3Aggregates] and [V3Deadlines] apply them; [V3Examples] has runs of a sample job.

    - node, frontier_training.rs.  [V4Model]: what a node keeps for planned jobs, its files and hashes.
      [V4Control]: plans, proposals, replicated records and shard migration.  [V4Integrated]: graphs,
      states, probes and votes of integrated jobs.  [V4Data]: tensors, replicas, optimizer states,
      pipeline stages and the backends they run on.  [V4Node]: collectives, robust aggregation, the
      dispatch of messages, capability challenges (the V5 messages of lib.rs), reading the files back and
      resuming jobs.  [V4Reconfigure]:
      probes of the members, elections, and the next graph when a worker fails or joins.  [V4Driver]:
      the driver of a job, from the activation of a graph through its windows to the result, and the
      participant that stands in for a coordinator.  [V4Plans]: the commands of an operator that make,
      replace and activate plans, and seed, move and replicate state.  [V4Commands]: the reference runs
      and the start of an integrated job.  [V4Facts] and [V4Pool] prove the rules of [TaskLogic] of
      every handler, of the driver, of the participant and of the commands; [V4Votes] and [V4Recovery]
      what follows for votes, restarts, the shards kept and collective sums;
      [V4DriverFacts] and [V4Graphs] what a driver knows when it goes on, [V4Operator] what a command
      does; [V4Examples] has runs of sample jobs, a whole run of a driver and the activation of a plan
      among them.

    A struct [S] with field [f] is a record [S] with projection [S_f]; the method [m] of [S] is
    [S_m] when the name [m] alone would be ambiguous; a variant [E::V] is the constructor [E_V].
    Unsigned integers are [N], signed ones [Z], with their widths written out where the source
    saturates, wraps or truncates.  Errors are values of [result].

    ** What is proved

    - Round trips: frames ([Codec.encode_decode_roundtrip], [NetworkSessions.stream_read_back]),
      artifacts and state files of the store ([StorageRuns]).
    - Authenticity and bounds of a node under every interleaving of its tasks, every message and
      every fault of a stream ([NetworkPool]): what it knows about other peers is signed by them, also
      over restarts on the files it has saved itself (records and rotations are not verified again
      when they are loaded), its tables stay within their limits, sequences never roll back, and what it saves, passes on
      and dials is checked.  The DHT adds that queries return the nearest contacts, that lookups are
      sound and never lose ground, and that the admission of requests is exactly a rate limit and a
      replay window.
    - Robustness of learning: admission of training updates does not depend on the order of
      arrival, equivocation is proved before it is punished, aggregates stay within the range of
      the honest updates, endorsement farms are worthless.
    - Planning: every plan passes the validation of the protocol; compute kernels are exact and the
      registry of backends is never clogged.
    - Storage: under any faults and crashes every artifact hashes to its name and a state file is
      old or new; the quota is never exceeded.
    - Jobs: limits are kept, and nothing but the outside world (a process, the consumer of its output,
      the holder of an admission) keeps a job from its end, after which its permits are back.
    - The node, under every interleaving ([WholeNode]): a job identifier runs at most once per stay in
      the history, a restart does not forget a finished job, executions follow the node's policy, what
      a submission returns is for its job and a success has the hash of its output.  A configuration that exposes a process to others
      sandboxes it, and the network accepts exactly the prepared configurations it should.
    - Distributed training: terms and checkpoints of published states never go back, a coordinator
      of a later term has a majority of votes, an aggregate is the median of the updates of its
      contributors, the starts of a job are accepted by its workers, and a job ends once its timers run
      out if its connections take what it sends.
    - Planned jobs: as long as it does not stand for election itself, a node does not grant its vote to
      two candidates of a term, and knows its last vote in each job after a restart; every shard, optimizer
      state and stage it holds passes its check after every interleaving of messages, drivers,
      participants, commands and reads of the disk; collective sums are exact.  A driver runs a graph
      only when every worker has answered that it has the graph and the plan and every holder that it
      has installed its parts, a checkpoint is committed only when its holders have answered to hold it,
      and an election is won only with a majority of votes; the next graph of a job leaves out what has
      failed, keeps every shard and stage on a live worker, and is accepted by the workers that still
      hold the old one unless their own record of signed claims refuses it.  A plan is replaced only when everyone it concerns has
      accepted the proposal and every shard that changes hands has arrived; a job is started only on
      workers that could be reached, with a start that its coordinator accepts ([V4Operator]).
    - Where the code does not do what it means to, a run shows it ([NetworkWitnesses], [NodeExamples],
      [V3Examples], [V4Examples]).

    ** Bounds, fuel and idealisations

    Recursion is structural, or by fuel that is shown or chosen to be enough: the walk over the
    store has depth three because its directories are nested no deeper; decimal and hexadecimal
    text have the digits of their width; [chunks_of] and the group and eviction loops have the
    length of their input; a lookup has the eight rounds of the source, polling loops their counts.
    The loops of a training job that wait for events take fuel and stop when it is used up; the
    theorems hold for every fuel, and [V3Deadlines.training_jobs_end] says how much is enough.  The
    fuel of a driver is the number of messages a loop looks at and of turns it takes; what is said of
    a driver or a command is said of its runs that come to a result, and [V4Examples.dx_job_ends] and
    [V4Examples.ax_prepared_result] are some.  An
    arithmetic panic ends a task ([Profile] says whether overflow is checked).  The vote requests of
    an election are sent one after the other, not by tasks of their own.
    A section of a task reads one value of the clock; [timeout] drops a task at any suspension
    point.  A send of the node is held up as long as its surroundings say that the queue of the
    connection is full.  The streams and channels of a connection are the messages that will arrive on them; the
    one-shot channel of a request is identified by its id; a writer is not stopped when its
    connection ends, so it may still write.  The iteration order of a hash map is that of
    [map_to_list], or given by the surroundings ([shuffle]); no theorem depends on it.  BLAKE3, Ed25519, postcard and serde_json are classes
    with the laws the code relies on, each with an instance that satisfies them.

    ** What is not modelled

    The QUIC endpoint with its TLS configuration, and its shutdown; CUDA driver calls and the
    probing of host memory; the start, the limits and the end of a sandboxed process; argument
    parsing and printing of the command line; log output.  They are calls of other crates or of the
    operating system, and enter as parameters or actions where results depend on them.

    Of the node crate, the admin interface with its JSON, the status reports, the advertisements in
    the DHT and the reference evaluation; the emulator. *)

From Stdlib Require Import String ZArith NArith Lia.
From stdpp Require Import base tactics sets strings numbers list.

(** ** Machine integers

    Unsigned Rust integers are [N], signed ones are [Z]; the widths are written
    out where the source saturates, truncates or compares against a limit. *)

Definition u8_max : N := 255.

Definition u16_max : N := 65535.

Definition u32_max : N := 4294967295.

Definition u64_max : N := 18446744073709551615.

(** A 64-bit target: [usize] is as wide as [u64]. *)
Definition usize_max : N := u64_max.

Declare Scope rust_scope.
Delimit Scope rust_scope with rust.
Local Open Scope N_scope.

(** [a.saturating_add(b)] and friends, at a width given by its maximum. Rust's
    [saturating_sub] on an unsigned type is exactly [N.sub]. *)
Definition sat_add (max a b : N) : N := N.min (a + b) max.

Definition sat_mul (max a b : N) : N := N.min (a * b) max.

Definition sat_sub (a b : N) : N := a - b.

(** [x as u32] and the like: truncation to the low bits. *)
Definition trunc (max a : N) : N := a mod (max + 1).

(** [x.div_ceil(y)]. *)
Definition div_ceil (a b : N) : N := (a + b - 1) / b.

(** [value.unsigned_abs()] of an [i64]. *)
Definition unsigned_abs (z : Z) : N := Z.to_N (Z.abs z).

(** [v.len()] as a [usize]. *)
Definition len {A} (l : list A) : N := N.of_nat (length l).

(** [s.len()] of a Rust string: strings are their UTF-8 bytes. *)
Definition slen (s : string) : N := N.of_nat (String.length s).

(** ** [Result] and early return *)

Inductive result (A E : Type) : Type :=
  | Ok (a : A)
  | Err (e : E).
Arguments Ok {A E} a.
Arguments Err {A E} e.

Definition rbind {A B E} (c : result A E) (k : A -> result B E) : result B E :=
  match c with
  | Ok a => k a
  | Err e => Err e
  end.

Definition map_err {A E F} (f : E -> F) (c : result A E) : result A F :=
  match c with
  | Ok a => Ok a
  | Err e => Err (f e)
  end.

Definition ok_or {A E} (o : option A) (e : E) : result A E :=
  match o with
  | Some a => Ok a
  | None => Err e
  end.

Definition is_ok {A E} (c : result A E) : bool :=
  match c with
  | Ok _ => true
  | Err _ => false
  end.

Definition is_err {A E} (c : result A E) : bool := negb (is_ok c).

(** [if cond { return Err(e); }] *)
Definition fail_if {E} (cond : bool) (e : E) : result unit E :=
  if cond then Err e else Ok tt.

Notation "'let?' x := c 'in' k" := (rbind c (fun x => k))
  (at level 200, x name, c at level 100, k at level 200, right associativity) : rust_scope.
Notation "c ;? k" := (rbind c (fun _ => k))
  (at level 95, right associativity) : rust_scope.

(** [for x in xs { f(x)?; }] *)
Fixpoint for_each {A E} (f : A -> result unit E) (xs : list A) : result unit E :=
  match xs with
  | [] => Ok tt
  | x :: xs => rbind (f x) (fun _ => for_each f xs)
  end.

(** [for x in xs { s = f(s, x)?; }]: a loop that threads a local variable. *)
Fixpoint try_fold {S A E} (f : S -> A -> result S E) (s : S) (xs : list A) : result S E :=
  match xs with
  | [] => Ok s
  | x :: xs => rbind (f s x) (fun s => try_fold f s xs)
  end.

(** [iter.map(f).collect::<Result<Vec<_>, _>>()] *)
Fixpoint try_map {A B E} (f : A -> result B E) (xs : list A) : result (list B) E :=
  match xs with
  | [] => Ok []
  | x :: xs => rbind (f x) (fun y => rbind (try_map f xs) (fun ys => Ok (y :: ys)))
  end.

(** [if let Some(x) = o { f(x)?; }] *)
Definition if_some {A E} (o : option A) (f : A -> result unit E) : result unit E :=
  match o with
  | Some a => f a
  | None => Ok tt
  end.

(** [v.is_empty()] *)
Definition is_empty {A} (xs : list A) : bool :=
  match xs with [] => true | _ => false end.

(** ** Equality and membership tests as booleans *)

Notation "a == b" := (bool_decide (a = b)) (at level 70, no associativity) : rust_scope.
Notation "a != b" := (negb (bool_decide (a = b))) (at level 70, no associativity) : rust_scope.

(** [xs.contains(&x)] *)
Definition contains {A} `{EqDecision A} (x : A) (xs : list A) : bool :=
  bool_decide (x ∈ xs).

(** [xs.iter().collect::<HashSet<_>>().len() != xs.len()] *)
Definition has_duplicates {A} `{EqDecision A} (xs : list A) : bool :=
  negb (len (remove_dups xs) =? len xs).

(** A loop that inserts every element of [xs] in a [HashSet] and stops at the
    first one already there: the set afterwards, or [None] at a duplicate. *)
Fixpoint insert_each {A} `{EqDecision A} (s xs : list A) : option (list A) :=
  match xs with
  | [] => Some s
  | x :: xs => if contains x s then None else insert_each (x :: s) xs
  end.

(** Equality of two [HashSet]s. *)
Definition set_eqb {A} `{EqDecision A} (s t : list A) : bool :=
  forallb (fun x => contains x t) s && forallb (fun x => contains x s) t.

(** ** Loops over vectors *)

(** [v.iter().enumerate()] *)
Definition enumerate {A} (xs : list A) : list (nat * A) := imap pair xs.

(** [v.iter().position(p)] *)
Fixpoint position {A} (p : A -> bool) (xs : list A) : option nat :=
  match xs with
  | [] => None
  | x :: xs => if p x then Some 0%nat else S <$> position p xs
  end.

(** [v.remove(i)] for an index in range. *)
Definition remove_at {A} (i : nat) (xs : list A) : list A := take i xs ++ drop (S i) xs.

(** [v.truncate(limit)], no effect on a vector that is short enough. *)
Definition truncate {A} (limit : N) (xs : list A) : list A :=
  if len xs <=? limit then xs else take (N.to_nat limit) xs.

(** [v.iter().filter(p).count()] *)
Definition count {A} (p : A -> bool) (xs : list A) : N := len (List.filter p xs).

(** [if let Some(e) = v.iter_mut().find(p) { *e = new }]: the first match is replaced. *)
Fixpoint replace_first {A} (p : A -> bool) (new : A) (xs : list A) : list A :=
  match xs with
  | [] => []
  | x :: xs => if p x then new :: xs else x :: replace_first p new xs
  end.

(** ** Automation *)

Create HintDb rust discriminated.

(** Splits a boolean hypothesis into the propositions it decides. *)
Ltac breflect_in H :=
  lazymatch type of H with
  | (_ || _)%bool = false => apply orb_false_iff in H; let H1 := fresh H in
      destruct H as [H1 H]; breflect_in H1; breflect_in H
  | (_ && _)%bool = true => apply andb_true_iff in H; let H1 := fresh H in
      destruct H as [H1 H]; breflect_in H1; breflect_in H
  | negb _ = false => apply negb_false_iff in H; breflect_in H
  | negb _ = true => apply negb_true_iff in H; breflect_in H
  | bool_decide _ = true => apply bool_decide_eq_true_1 in H
  | bool_decide _ = false => apply bool_decide_eq_false_1 in H
  | N.eqb _ _ = true => apply N.eqb_eq in H
  | N.eqb _ _ = false => apply N.eqb_neq in H
  | N.ltb _ _ = true => apply N.ltb_lt in H
  | N.ltb _ _ = false => apply N.ltb_ge in H
  | N.leb _ _ = true => apply N.leb_le in H
  | N.leb _ _ = false => apply N.leb_gt in H
  | Z.leb _ _ = true => apply Z.leb_le in H
  | Z.leb _ _ = false => apply Z.leb_gt in H
  | Z.ltb _ _ = true => apply Z.ltb_lt in H
  | Z.ltb _ _ = false => apply Z.ltb_ge in H
  | _ => idtac
  end.

Ltac breflect :=
  repeat match goal with
  | H : (_ || _)%bool = false |- _ => progress breflect_in H
  | H : (_ && _)%bool = true |- _ => progress breflect_in H
  | H : negb _ = _ |- _ => progress breflect_in H
  | H : bool_decide _ = _ |- _ => progress breflect_in H
  | H : N.eqb _ _ = _ |- _ => progress breflect_in H
  | H : N.ltb _ _ = _ |- _ => progress breflect_in H
  | H : N.leb _ _ = _ |- _ => progress breflect_in H
  | H : Z.leb _ _ = _ |- _ => progress breflect_in H
  | H : Z.ltb _ _ = _ |- _ => progress breflect_in H
  end.

(** Cases on the scrutinee of a [match] or [if] of the goal or of [H]. *)
Ltac dmatch :=
  match goal with
  | |- context [match ?x with _ => _ end] => destruct x eqn:?
  end.

Ltac dmatch_in H :=
  match type of H with
  | context [match ?x with _ => _ end] => destruct x eqn:?
  end.

(** Rewrites a comparison of the goal that the context refutes. *)
Ltac nfalse :=
  match goal with
  | |- context [?a <? ?b] =>
      let Hx := fresh in assert (Hx : (a <? b) = false) by (apply N.ltb_ge; lia); rewrite Hx; clear Hx
  | |- context [?a <=? ?b] =>
      let Hx := fresh in assert (Hx : (a <=? b) = false) by (apply N.leb_gt; lia); rewrite Hx; clear Hx
  | |- context [?a =? ?b] =>
      let Hx := fresh in assert (Hx : (a =? b) = false) by (apply N.eqb_neq; lia); rewrite Hx; clear Hx
  end.

(** Cases on every [match] of [H], innermost scrutinee first. *)
Ltac dmatch_inner H :=
  match type of H with
  | context [match ?x with _ => _ end] =>
      lazymatch x with
      | context [match _ with _ => _ end] => fail
      | _ => destruct x eqn:?
      end
  end.

(** ** Results *)
(** Every error a computation may end in satisfies [P]. *)
Definition errors_in {A E} (P : E -> Prop) (c : result A E) : Prop := forall e, c = Err e -> P e.

Lemma errors_in_ok {A E} (P : E -> Prop) (a : A) : errors_in P (Ok a).
Proof. by intros e [=]. Qed.

Lemma errors_in_err {A E} (P : E -> Prop) (e : E) : P e -> errors_in (A := A) P (Err e).
Proof. by intros ? ? [= <-]. Qed.

Lemma errors_in_rbind {A B E} (P : E -> Prop) (c : result A E) (k : A -> result B E) :
  errors_in P c -> (forall a, errors_in P (k a)) -> errors_in P (rbind c k).
Proof. intros Hc Hk e. destruct c as [a|e']; cbn; [apply Hk|]. intros [= <-]. by apply Hc. Qed.

Lemma errors_in_fail_if {E} (P : E -> Prop) b (e : E) : P e -> errors_in P (fail_if b e).
Proof. intros He e'. destruct b; cbn; [by intros [= <-]|done]. Qed.

Lemma errors_in_ok_or {A E} (P : E -> Prop) (o : option A) (e : E) : P e -> errors_in P (ok_or o e).
Proof. intros He e'. destruct o; cbn; [done|by intros [= <-]]. Qed.

#[export] Hint Resolve errors_in_ok errors_in_err errors_in_fail_if errors_in_ok_or : rust.

(** Follows a chain of fallible steps. *)
Ltac solve_errors :=
  repeat first [ apply errors_in_rbind; [|intros ?] | solve [eauto with rust] | progress cbn zeta
               | dmatch ].

Lemma rbind_ok {A B E} (c : result A E) (k : A -> result B E) b :
  rbind c k = Ok b <-> exists a, c = Ok a /\ k a = Ok b.
Proof.
  destruct c as [a|e]; cbn; split.
  - intros H; by exists a.
  - intros (a' & [= ->] & H); done.
  - done.
  - by intros (? & ? & ?).
Qed.

Lemma map_err_ok {A E F} (f : E -> F) (c : result A E) a : map_err f c = Ok a <-> c = Ok a.
Proof. destruct c; cbn; naive_solver. Qed.

Section Results.
Context {A B S E : Type}.

Lemma fail_if_ok (b : bool) (e : E) u : fail_if b e = Ok u <-> b = false.
Proof. destruct b, u; cbn; naive_solver. Qed.

Lemma for_each_ok (f : A -> result unit E) xs u :
  for_each f xs = Ok u <-> Forall (fun x => f x = Ok tt) xs.
Proof.
  destruct u. induction xs as [|x xs IH]; cbn.
  - split; [constructor | done].
  - rewrite Forall_cons, rbind_ok, <- IH. split.
    + by intros ([] & -> & H).
    + intros [-> H]. by exists tt.
Qed.

Lemma for_each_err (f : A -> result unit E) xs e :
  for_each f xs = Err e -> Exists (fun x => f x = Err e) xs.
Proof.
  induction xs as [|x xs IH]; cbn; [done|].
  destruct (f x) as [u|e'] eqn:Hx; cbn; intros H.
  - right; auto.
  - left. congruence.
Qed.

Lemma if_some_ok (o : option A) (f : A -> result unit E) u :
  if_some o f = Ok u <-> forall a, o = Some a -> f a = Ok tt.
Proof. destruct o, u; cbn; naive_solver. Qed.

(** Induction over a loop that threads a variable. *)
Lemma try_fold_inv (P : list A -> S -> Prop) (f : S -> A -> result S E) s xs s' :
  P [] s ->
  (forall done x s s', P done s -> f s x = Ok s' -> x ∈ xs -> P (done ++ [x]) s') ->
  try_fold f s xs = Ok s' -> P xs s'.
Proof.
  intros H0 Hstep.
  assert (Hgen : forall todo done s, P done s -> (forall x, x ∈ todo -> x ∈ xs) ->
            try_fold f s todo = Ok s' -> P (done ++ todo) s').
  { induction todo as [|x todo IH]; intros done s1 Hd Hin; cbn.
    - intros [= <-]. by rewrite app_nil_r.
    - rewrite rbind_ok. intros (s2 & Hs2 & Hrest).
      replace (done ++ x :: todo) with ((done ++ [x]) ++ todo) by (by rewrite <- app_assoc).
      apply (IH _ s2); [|set_solver|done].
      eapply Hstep; eauto. apply Hin. set_solver. }
  intros H. apply (Hgen xs [] s); auto.
Qed.

Lemma try_map_ok (f : A -> result B E) xs ys :
  try_map f xs = Ok ys <-> Forall2 (fun x y => f x = Ok y) xs ys.
Proof.
  revert ys; induction xs as [|x xs IH]; intros ys; cbn.
  - split; [intros [= <-]; constructor | by inversion 1].
  - rewrite rbind_ok. split.
    + intros (y & Hy & H). apply rbind_ok in H as (ys' & Hys & [= <-]).
      constructor; [done | by apply IH].
    + inversion 1 as [|? y ? ys' Hy Hys]; subst.
      exists y. split; [done|]. apply rbind_ok. exists ys'. by rewrite IH.
Qed.
End Results.

(** Unfolds a hypothesis [c = Ok v] of a chain of [;?], [let?] and [fail_if]. *)
Ltac inv_ok H :=
  lazymatch type of H with
  | rbind _ _ = Ok _ =>
      apply rbind_ok in H; let a := fresh "r" in let H1 := fresh "Hok" in
      destruct H as (a & H1 & H);
      lazymatch type of a with unit => destruct a | _ => idtac end;
      inv_ok H1; inv_ok H
  | fail_if _ _ = Ok _ => apply fail_if_ok in H; breflect_in H
  | for_each _ _ = Ok _ => apply for_each_ok in H
  | if_some _ _ = Ok _ => rewrite if_some_ok in H
  | map_err _ _ = Ok _ => rewrite map_err_ok in H; inv_ok H
  | _ => idtac
  end.

(** ** Vectors *)
Lemma truncate_take {A} limit (xs : list A) : truncate limit xs = take (N.to_nat limit) xs.
Proof.
  unfold truncate. destruct (_ <=? _) eqn:Hl; breflect; [|done].
  unfold len in Hl. rewrite take_ge; [done | lia].
Qed.

Lemma len_cons {A} (x : A) xs : len (x :: xs) = len xs + 1.
Proof. unfold len. cbn. lia. Qed.

Lemma len_app {A} (xs ys : list A) : len (xs ++ ys) = len xs + len ys.
Proof. unfold len. rewrite length_app. lia. Qed.

Lemma len_filter_le {A} (p : A -> bool) xs : len (List.filter p xs) <= len xs.
Proof. unfold len. pose proof (List.filter_length_le p xs). lia. Qed.

Lemma filter_sublist {A} (p : A -> bool) xs : List.filter p xs `sublist_of` xs.
Proof.
  induction xs as [|x xs IH]; cbn; [constructor|].
  destruct (p x); [by apply sublist_skip | by apply sublist_cons].
Qed.

Lemma elem_of_filter_b {A} (p : A -> bool) xs x : x ∈ List.filter p xs <-> x ∈ xs /\ p x = true.
Proof. rewrite !list_elem_of_In. apply List.filter_In. Qed.

Lemma elem_of_concat {A} (xss : list (list A)) x :
  x ∈ concat xss <-> exists xs, xs ∈ xss /\ x ∈ xs.
Proof.
  rewrite list_elem_of_In, in_concat. by setoid_rewrite list_elem_of_In.
Qed.

Lemma enumerate_snd {A} (xs : list A) : snd <$> enumerate xs = xs.
Proof.
  apply list_eq. intros i. rewrite list_lookup_fmap. unfold enumerate. rewrite list_lookup_imap.
  by destruct (xs !! i).
Qed.

Lemma position_Some {A} (p : A -> bool) xs i :
  position p xs = Some i ->
  exists x, xs !! i = Some x /\ p x = true /\ xs ≡ₚ x :: remove_at i xs.
Proof.
  intros Hp. assert (Hx : exists x, xs !! i = Some x /\ p x = true).
  { revert i Hp; induction xs as [|x xs IH]; intros i; cbn; [done|].
    destruct (p x) eqn:Hx; [intros [= <-]; by exists x|].
    intros (j & Hj & ->)%fmap_Some. by apply IH. }
  destruct Hx as (x & Hx & Hpx). exists x. split_and!; [done..|].
  unfold remove_at. rewrite <- delete_take_drop. by apply delete_Permutation.
Qed.

Lemma position_None {A} (p : A -> bool) xs : position p xs = None -> forall x, x ∈ xs -> p x = false.
Proof.
  induction xs as [|y xs IH]; cbn; [set_solver|].
  destruct (p y) eqn:Hy; [done|]. intros ?%fmap_None x [->|?]%elem_of_cons; auto.
Qed.

Lemma filter_nil_b {A} (p : A -> bool) xs : (forall x, x ∈ xs -> p x = false) -> List.filter p xs = [].
Proof.
  induction xs as [|x xs IH]; cbn; intros Hx; [done|].
  rewrite Hx by left. apply IH. intros y Hy. apply Hx. by right.
Qed.

(** ** Counting *)

Definition b2N (b : bool) : N := if b then 1 else 0.

Lemma count_perm {A} (p : A -> bool) xs ys : xs ≡ₚ ys -> count p xs = count p ys.
Proof.
  intros Hp. unfold count, len. f_equal. apply Permutation_length.
  induction Hp; cbn; repeat dmatch; eauto using perm_skip, perm_swap, Permutation_trans.
Qed.

Lemma count_snoc {A} (p : A -> bool) xs x : count p (xs ++ [x]) = count p xs + if p x then 1 else 0.
Proof. unfold count. rewrite List.filter_app, len_app. cbn. by destruct (p x). Qed.

Lemma count_app {A} (p : A -> bool) xs ys : count p (xs ++ ys) = count p xs + count p ys.
Proof. unfold count. by rewrite List.filter_app, len_app. Qed.

Lemma count_nil {A} (p : A -> bool) : count p [] = 0.
Proof. done. Qed.

Lemma count_cons {A} (p : A -> bool) x xs : count p (x :: xs) = b2N (p x) + count p xs.
Proof. unfold count. cbn. destruct (p x); [rewrite len_cons|]; unfold b2N; lia. Qed.

Lemma count_insert {A} (p : A -> bool) xs i x y :
  xs !! i = Some x -> count p (<[i := y]> xs) + b2N (p x) = count p xs + b2N (p y).
Proof.
  revert i. induction xs as [|z xs IH]; intros [|i] Hi; try done.
  - injection Hi as ->. change (<[0%nat := y]> (x :: xs)) with (y :: xs). rewrite !count_cons. lia.
  - specialize (IH i Hi). change (<[S i := y]> (z :: xs)) with (z :: <[i := y]> xs).
    rewrite !count_cons. lia.
Qed.

Lemma count_alter {A} (p : A -> bool) (f : A -> A) xs i :
  (forall x, p (f x) = p x) -> count p (alter f i xs) = count p xs.
Proof.
  intros Hf. revert i. induction xs as [|z xs IH]; intros [|i]; try done.
  - change (alter f 0%nat (z :: xs)) with (f z :: xs). by rewrite !count_cons, Hf.
  - change (alter f (S i) (z :: xs)) with (z :: alter f i xs). by rewrite !count_cons, IH.
Qed.

Lemma count_zero {A} (p : A -> bool) xs : count p xs = 0 <-> Forall (fun x => p x = false) xs.
Proof.
  induction xs as [|x xs IH]; [by split|]. rewrite count_cons, Forall_cons, <- IH.
  unfold b2N. destruct (p x); split; [lia|by intros [? _]|intros; split; [done|lia]|intros [_ ?]; lia].
Qed.

(** Two elements with the same key are the same when keys are not repeated. *)
Lemma NoDup_fmap_eq {A B} (f : A -> B) xs x y :
  NoDup (f <$> xs) -> x ∈ xs -> y ∈ xs -> f x = f y -> x = y.
Proof.
  intros Hnd (i & Hi)%list_elem_of_lookup (j & Hj)%list_elem_of_lookup Hf.
  assert (i = j) as <-; [|congruence].
  eapply (NoDup_lookup _ i j (f y)); [exact Hnd| |].
  - rewrite list_lookup_fmap, Hi. cbn. by rewrite Hf.
  - by rewrite list_lookup_fmap, Hj.
Qed.

(** ** Sets as lists *)

Section Sets.
Context {A : Type} `{EqDecision A}.
Implicit Types (x : A) (xs s : list A).

Lemma contains_true x xs : contains x xs = true <-> x ∈ xs.
Proof. apply bool_decide_eq_true. Qed.

Lemma contains_false x xs : contains x xs = false <-> x ∉ xs.
Proof. apply bool_decide_eq_false. Qed.

Lemma len_le xs n : len xs <= n <-> (length xs <= N.to_nat n)%nat.
Proof. unfold len. lia. Qed.

Lemma is_empty_false xs : is_empty xs = false <-> xs <> [].
Proof. destruct xs; cbn; naive_solver. Qed.

Lemma length_remove_dups_le xs : (length (remove_dups xs) <= length xs)%nat.
Proof. induction xs as [|x xs IH]; cbn; [lia|]. case_decide; cbn; lia. Qed.

Lemma has_duplicates_false xs : has_duplicates xs = false <-> NoDup xs.
Proof.
  unfold has_duplicates, len. rewrite negb_false_iff, N.eqb_eq, Nat2N.inj_iff. split.
  - induction xs as [|x xs IH]; cbn; [constructor|].
    pose proof (length_remove_dups_le xs). case_decide; cbn; [lia|].
    intros [= Hl]. constructor; auto.
  - induction 1 as [|x xs Hx Hnd IH]; cbn; [done|].
    case_decide; [done|]. cbn. by rewrite IH.
Qed.

Lemma insert_each_Some s xs s' :
  insert_each s xs = Some s' <->
  NoDup xs /\ (forall x, x ∈ xs -> x ∉ s) /\ s' = reverse xs ++ s.
Proof.
  revert s; induction xs as [|x xs IH]; intros s; cbn [insert_each].
  - split; [intros [= <-]; split; [constructor|set_solver] | by intros (_ & _ & ->)].
  - destruct (contains x s) eqn:Hx.
    + apply contains_true in Hx. split; [done|]. intros (_ & Hd & _). destruct (Hd x); set_solver.
    + apply contains_false in Hx. rewrite IH, NoDup_cons, reverse_cons, <- app_assoc. cbn [app].
      split; intros (Hnd & Hd & ->).
      * split_and!; try done; [|set_solver]. intros Hin. destruct (Hd x Hin). left.
      * destruct Hnd as [Hnin Hnd]. split_and!; try done. set_solver.
Qed.

Lemma existsb_false (p : A -> bool) xs : existsb p xs = false <-> Forall (fun x => p x = false) xs.
Proof.
  induction xs as [|x xs IH]; cbn; [by split|].
  rewrite orb_false_iff, IH, Forall_cons. done.
Qed.

Lemma forallb_true (p : A -> bool) xs : forallb p xs = true <-> Forall (fun x => p x = true) xs.
Proof.
  induction xs as [|x xs IH]; cbn; [by split|].
  rewrite andb_true_iff, IH, Forall_cons. done.
Qed.

Lemma set_eqb_true xs s :
  set_eqb xs s = true <-> forall x, x ∈ xs <-> x ∈ s.
Proof.
  unfold set_eqb. rewrite andb_true_iff, !forallb_true, !Forall_forall.
  setoid_rewrite contains_true. naive_solver.
Qed.
End Sets.

#[export] Hint Rewrite @contains_true @contains_false @is_empty_false @has_duplicates_false
  @existsb_false @forallb_true @set_eqb_true : rust.

(** A loop that inserts a fresh key per element and checks the element. *)
Lemma try_fold_fresh {A K E} `{EqDecision K} (key : A -> K) (P : A -> Prop)
    (f : list K -> A -> result (list K) E) xs s' :
  (forall s x s', f s x = Ok s' -> s' = key x :: s /\ key x ∉ s /\ P x) ->
  try_fold f [] xs = Ok s' ->
  NoDup (key <$> xs) /\ Forall P xs /\ s' = reverse (key <$> xs).
Proof.
  intros Hf.
  apply (try_fold_inv (fun seen s => NoDup (key <$> seen) /\ Forall P seen /\ s = reverse (key <$> seen))).
  - split_and!; constructor.
  - intros seen x s s2 (Hnd & HP & ->) Hstep _.
    destruct (Hf _ _ _ Hstep) as (-> & Hfresh & HPx).
    rewrite elem_of_reverse in Hfresh.
    rewrite fmap_app, reverse_app. split_and!; [| |done].
    + apply NoDup_app. split_and!; [done| |apply NoDup_singleton].
      intros y Hy ->%list_elem_of_singleton. done.
    + by apply Forall_app; split; [|apply Forall_singleton].
Qed.

(** The converse: fresh keys and elements that pass make the loop succeed. *)
Lemma try_fold_fresh_intro {A K E} `{EqDecision K} (key : A -> K) (P : A -> Prop)
    (f : list K -> A -> result (list K) E) xs s :
  (forall s x, key x ∉ s -> P x -> f s x = Ok (key x :: s)) ->
  NoDup (key <$> xs) -> (forall x, x ∈ xs -> key x ∉ s) -> Forall P xs ->
  try_fold f s xs = Ok (reverse (key <$> xs) ++ s).
Proof.
  intros Hf. revert s. induction xs as [|x xs IH]; intros s Hnd Hs HP; [done|].
  apply Forall_cons in HP as [Hx HP]. apply NoDup_cons in Hnd as [Hfresh Hnd]. cbn [try_fold].
  rewrite Hf by (set_solver || done). cbn [rbind]. rewrite IH; [|done| |done].
  - by rewrite fmap_cons, reverse_cons, <- app_assoc.
  - intros y Hy [Heq|Hin]%elem_of_cons; [|set_solver].
    apply Hfresh. rewrite <- Heq. by apply list_elem_of_fmap_2.
Qed.

Lemma rbind_intro {A B E} (c : result A E) (k : A -> result B E) a b :
  c = Ok a -> k a = Ok b -> rbind c k = Ok b.
Proof. by intros ->. Qed.

Lemma rbind_unit {B E} (c : result unit E) (k : unit -> result B E) b :
  c = Ok tt -> k tt = Ok b -> rbind c k = Ok b.
Proof. by intros ->. Qed.
