(* ===== verification/Tasks.v ===== *)
(** * Concurrent tasks over shared state

    The async functions of the node run as tokio tasks that share state behind locks.  A [Task]
    is the sequence of sections a function runs between its suspension points: each section is
    atomic (it holds the locks it needs, or reads one value), reads its environment (the clock,
    the timers that have run out, the answers of the operating system) and may have effects; it
    can also be blocked.  [Fork] is [tokio::spawn].  A pool interleaves the sections of all its
    tasks in any order.  The file gives the sequential composition of tasks, their cancellation by
    a timer, and the rule by which an invariant and a guarantee proved of every section hold in
    every reachable state of the pool. *)

From Stdlib Require Import String ZArith NArith Lia.
From stdpp Require Import base tactics sets strings numbers list.
From S2P Require Import Prelude.

Section Task.
Context (Env St Eff : Type).

Inductive Task (A : Type) : Type :=
  | Done (a : A)
  | Step (X : Type) (f : Env -> St -> option (X * St * list Eff)) (k : X -> Task A)
  | Fork (t : Task unit) (k : Task A).
End Task.

Arguments Done {Env St Eff A} a.
Arguments Step {Env St Eff A X} f k.
Arguments Fork {Env St Eff A} t k.

Section Tasks.
Context {Env St Eff : Type}.
Notation task := (Task Env St Eff).

Fixpoint tbind {A B : Type} (t : task A) (k : A -> task B) : task B :=
  match t with
  | Done a => k a
  | Step f c => Step f (fun x => tbind (c x) k)
  | Fork t c => Fork t (tbind c k)
  end.

(** A section that is never blocked. *)
Definition atomic {A : Type} (f : Env -> St -> A * St * list Eff) : task A :=
  Step (fun e s => Some (f e s)) Done.

(** A section that only reads. *)
Definition reading {A : Type} (f : Env -> St -> A) : task A := atomic (fun e s => (f e s, s, [])).

(** A section without a result. *)
Definition updating (f : Env -> St -> St) : task unit := atomic (fun e s => (tt, f e s, [])).

Definition spawn (t : task unit) : task unit := Fork t (Done tt).

(** A task that never goes on. *)
Definition forever {A : Type} : task A := Step (X := Empty_set) (fun _ _ => None) (fun x => match x with end).

(** [let _ = t.await;] *)
Definition ignore {A : Type} (t : task A) : task unit := tbind t (fun _ => Done tt).

(** [for x in xs { body(x).await; }] *)
Fixpoint for_task {A : Type} (body : A -> task unit) (xs : list A) : task unit :=
  match xs with
  | [] => Done tt
  | x :: xs => tbind (body x) (fun _ => for_task body xs)
  end.

(** [timeout(duration, t).await]: when the timer has run out at a suspension point the task is
    dropped there, whatever it had still to do. *)
Fixpoint timeout {A : Type} (elapsed : Env -> bool) (t : task A) : task (option A) :=
  match t with
  | Done a => Done (Some a)
  | Step f k =>
      Step
        (fun e s => if elapsed e then Some (None, s, [])
                    else match f e s with
                         | Some (x, s, out) => Some (Some x, s, out)
                         | None => None
                         end)
        (fun r => match r with
                  | None => Done None
                  | Some x => timeout elapsed (k x)
                  end)
  | Fork t k => Fork t (timeout elapsed k)
  end.

(** ** Running one task

    One environment per section; the run stops when they are used up or a section is blocked.
    Forked tasks are left to the pool. *)
Fixpoint run_task {A : Type} (t : task A) (envs : list Env) (s : St) : task A * St * list Eff :=
  match t with
  | Done a => (Done a, s, [])
  | Step f k =>
      match envs with
      | [] => (t, s, [])
      | e :: envs =>
          match f e s with
          | None => (t, s, [])
          | Some (x, s, out) => let '(t, s, out') := run_task (k x) envs s in (t, s, out ++ out')
          end
      end
  | Fork _ k => run_task k envs s
  end.

(** ** The pool *)

Inductive pool_step (Entry : task unit -> Prop)
    : St * list (task unit) -> list Eff -> St * list (task unit) -> Prop :=
  | pool_run i X (f : Env -> St -> option (X * St * list Eff)) k e s ts x s' out :
      ts !! i = Some (Step f k) -> f e s = Some (x, s', out) ->
      pool_step Entry (s, ts) out (s', <[i := k x]> ts)
  | pool_fork i t k s ts :
      ts !! i = Some (Fork t k) ->
      pool_step Entry (s, ts) [] (s, <[i := k]> ts ++ [t])
  | pool_entry t s ts :
      Entry t -> pool_step Entry (s, ts) [] (s, ts ++ [t]).

(** Any number of steps, with all their effects in order. *)
Inductive pool_steps (Entry : task unit -> Prop)
    : St * list (task unit) -> list Eff -> St * list (task unit) -> Prop :=
  | pool_refl p : pool_steps Entry p [] p
  | pool_more p out p' out' p'' :
      pool_steps Entry p out p' -> pool_step Entry p' out' p'' ->
      pool_steps Entry p (out ++ out') p''.

Lemma pool_steps_trans Entry p out p' out' p'' :
  pool_steps Entry p out p' -> pool_steps Entry p' out' p'' -> pool_steps Entry p (out ++ out') p''.
Proof.
  intros Hs. induction 1 as [|p1 out1 p2 out2 p3 H12 IH Hstep]; [by rewrite app_nil_r|].
  rewrite app_assoc. eapply pool_more; eauto.
Qed.

Lemma pool_steps_one Entry p out p' : pool_step Entry p out p' -> pool_steps Entry p out p'.
Proof. intros Hs. eapply (pool_more _ p [] p); [constructor | done]. Qed.

(** A task of the pool can run on its own; the others stay where they are. *)
Lemma run_task_pool Entry (t : task unit) : forall t' envs s s' out ts i,
  run_task t envs s = (t', s', out) -> ts !! i = Some t ->
  exists ts', pool_steps Entry (s, ts) out (s', ts') /\ ts' !! i = Some t' /\
    forall j u, j <> i -> ts !! j = Some u -> ts' !! j = Some u.
Proof.
  revert t. fix IH 1. intros [a|X f k|t k] t' envs s s' out ts i; cbn.
  - intros [= <- <- <-] Hi. eauto using pool_refl.
  - destruct envs as [|e envs]; [intros [= <- <- <-] Hi; eauto using pool_refl|].
    destruct (f e s) as [[[x s1] out1]|] eqn:Hf; [|intros [= <- <- <-] Hi; eauto using pool_refl].
    destruct (run_task (k x) envs s1) as [[t1 s2] out2] eqn:Hr. intros [= <- <- <-] Hi.
    destruct (IH (k x) _ _ _ _ _ (<[i := k x]> ts) i Hr) as (ts' & Hs & Ht & Hj).
    { apply list_lookup_insert_eq. by eapply lookup_lt_Some. }
    exists ts'. split_and!; [|done|].
    + eapply pool_steps_trans; [|exact Hs]. by apply pool_steps_one, (pool_run Entry i X f k e s).
    + intros j u Hne Hu. apply Hj; [done|]. by rewrite list_lookup_insert_ne.
  - intros Hr Hi. destruct (IH k _ _ _ _ _ (<[i := k]> ts ++ [t]) i Hr) as (ts' & Hs & Ht & Hj).
    { rewrite lookup_app_l; [|rewrite length_insert; by eapply lookup_lt_Some].
      apply list_lookup_insert_eq. by eapply lookup_lt_Some. }
    exists ts'. split_and!; [|done|].
    + apply (pool_steps_trans Entry _ [] (s, <[i := k]> ts ++ [t])); [|done].
      by apply pool_steps_one, pool_fork.
    + intros j u Hne Hu. apply Hj; [done|].
      rewrite lookup_app_l; [by rewrite list_lookup_insert_ne|].
      rewrite length_insert. by eapply lookup_lt_Some.
Qed.

(** A task enters the pool and runs on its own. *)
Lemma pool_serves Entry (t : task unit) envs s ts :
  Entry t -> exists ts', pool_steps Entry (s, ts) (run_task t envs s).2 ((run_task t envs s).1.2, ts').
Proof.
  intros Ht. destruct (run_task t envs s) as [[t' s'] out] eqn:Hr.
  destruct (run_task_pool Entry t t' envs s s' out (ts ++ [t]) (length ts) Hr) as (ts' & Hs & _).
  { by apply list_lookup_middle. }
  exists ts'. apply (pool_steps_trans Entry (s, ts) [] (s, ts ++ [t])); [|exact Hs].
  by apply pool_steps_one, pool_entry.
Qed.

(** A second task runs between two parts of the first. *)
Lemma pool_interleaved Entry (t1 t2 : task unit) envs1 envs2 envs3 s t1' s1 out1 t2' s2 out2 t1'' s3 out3 :
  Entry t1 -> Entry t2 ->
  run_task t1 envs1 s = (t1', s1, out1) -> run_task t2 envs2 s1 = (t2', s2, out2) ->
  run_task t1' envs3 s2 = (t1'', s3, out3) ->
  exists ts, pool_steps Entry (s, []) (out1 ++ out2 ++ out3) (s3, ts).
Proof.
  intros Ht1 Ht2 Hr1 Hr2 Hr3.
  destruct (run_task_pool Entry t1 t1' envs1 s s1 out1 [t1; t2] 0 Hr1 eq_refl) as (ts1 & Hs1 & Hi1 & Hj1).
  destruct (run_task_pool Entry t2 t2' envs2 s1 s2 out2 ts1 1 Hr2) as (ts2 & Hs2 & Hi2 & Hj2).
  { by apply Hj1. }
  destruct (run_task_pool Entry t1' t1'' envs3 s2 s3 out3 ts2 0 Hr3) as (ts3 & Hs3 & _).
  { by apply Hj2. }
  exists ts3. apply (pool_steps_trans Entry _ [] (s, [t1; t2])).
  - apply (pool_steps_trans Entry _ [] (s, [t1]) []); apply pool_steps_one;
      [by apply (pool_entry Entry t1 s []) | by apply (pool_entry Entry t2 s [t1])].
  - eapply pool_steps_trans; [exact Hs1|]. eapply pool_steps_trans; eassumption.
Qed.

(** ** Invariants and guarantees

    [I] is the invariant of the shared state, [G] what a section may do to it, [O] what an effect
    may be, [Q] what is known of the result. *)
Section Safe.
Context (I : St -> Prop) (G : St -> St -> Prop) (O : Eff -> Prop).

Fixpoint safe {A : Type} (t : task A) (Q : A -> Prop) : Prop :=
  match t with
  | Done a => Q a
  | Step f k => forall e s x s' out,
      I s -> f e s = Some (x, s', out) -> I s' /\ G s s' /\ Forall O out /\ safe (k x) Q
  | Fork t k => safe t (fun _ => True) /\ safe k Q
  end.

Lemma safe_mono {A : Type} (t : task A) (Q Q' : A -> Prop) :
  safe t Q -> (forall a, Q a -> Q' a) -> safe t Q'.
Proof.
  intros Hs HQ. induction t as [A a|A X f k IH|A t IHt k IHk]; cbn in *.
  - by apply HQ.
  - intros e s x s' out Hi Hf. destruct (Hs e s x s' out Hi Hf) as (? & ? & ? & ?). eauto.
  - destruct Hs as [Ht Hk]. split; eauto.
Qed.

Lemma safe_tbind {A B : Type} (t : task A) (k : A -> task B) Q R :
  safe t R -> (forall a, R a -> safe (k a) Q) -> safe (tbind t k) Q.
Proof.
  intros Hs Hk. induction t as [A a|A X f c IH|A t IHt c IHc]; cbn in *.
  - by apply Hk.
  - intros e s x s' out Hi Hf. destruct (Hs e s x s' out Hi Hf) as (? & ? & ? & ?). eauto.
  - destruct Hs as [Ht Hc]. split; eauto.
Qed.

Lemma safe_atomic {A : Type} (f : Env -> St -> A * St * list Eff) (Q : A -> Prop) :
  (forall e s, I s -> let '(a, s', out) := f e s in I s' /\ G s s' /\ Forall O out /\ Q a) ->
  safe (atomic f) Q.
Proof. intros Hf e s x s' out Hi [= Hx]. specialize (Hf e s Hi). by rewrite Hx in Hf. Qed.

Lemma safe_reading `{!Reflexive G} {A : Type} (f : Env -> St -> A) (Q : A -> Prop) :
  (forall e s, I s -> Q (f e s)) -> safe (reading f) Q.
Proof. intros Hf. apply safe_atomic. intros e s Hi. split_and!; auto. Qed.

Lemma safe_updating (f : Env -> St -> St) :
  (forall e s, I s -> I (f e s) /\ G s (f e s)) -> safe (updating f) (fun _ => True).
Proof. intros Hf. apply safe_atomic. intros e s Hi. destruct (Hf e s Hi). auto. Qed.

Lemma safe_spawn t : safe t (fun _ => True) -> safe (spawn t) (fun _ => True).
Proof. done. Qed.

Lemma safe_forever {A : Type} (Q : A -> Prop) : safe (@forever A) Q.
Proof. by intros e s []. Qed.

Lemma safe_ignore {A : Type} (t : task A) : safe t (fun _ => True) -> safe (ignore t) (fun _ => True).
Proof. intros Ht. by eapply safe_tbind. Qed.

Lemma safe_for {A : Type} (body : A -> task unit) xs :
  Forall (fun x => safe (body x) (fun _ => True)) xs -> safe (for_task body xs) (fun _ => True).
Proof. induction 1; cbn; [done|]. by eapply safe_tbind. Qed.

Lemma safe_timeout `{!Reflexive G} {A : Type} elapsed (t : task A) (Q : A -> Prop) :
  safe t Q -> safe (timeout elapsed t) (fun r => forall a, r = Some a -> Q a).
Proof.
  intros Hs. induction t as [A a|A X f k IH|A t IHt k IHk]; cbn in *.
  - by intros ? [= <-].
  - intros e s x s' out Hi Hf. destruct (elapsed e).
    + injection Hf as <- <- <-. split_and!; auto. done.
    + destruct (f e s) as [[[x0 s0] out0]|] eqn:Hfe; [|done]. injection Hf as <- <- <-.
      destruct (Hs e s x0 s0 out0 Hi Hfe) as (? & ? & ? & ?). eauto.
  - destruct Hs as [Ht Hk]. split; eauto.
Qed.

(** The results of a task whose sections run, each, in some state that satisfies [J]: other tasks
    may have changed the state in between. *)
Inductive outcome (J : St -> Prop) {A : Type} : task A -> A -> Prop :=
  | outcome_done a : outcome J (Done a) a
  | outcome_step X (f : Env -> St -> option (X * St * list Eff)) k e s x s' out a :
      J s -> f e s = Some (x, s', out) -> outcome J (k x) a -> outcome J (Step f k) a
  | outcome_fork t k a : outcome J k a -> outcome J (Fork t k) a.

Lemma safe_outcome {A : Type} (J : St -> Prop) (t : task A) (Q : A -> Prop) a :
  (forall s, J s -> I s) -> safe t Q -> outcome J t a -> Q a.
Proof.
  intros HJ Hs Ho. induction Ho as [a|X f k e s x s' out a Hj Hf _ IH|t k a _ IH]; cbn in Hs.
  - done.
  - destruct (Hs e s x s' out (HJ s Hj) Hf) as (_ & _ & _ & ?). auto.
  - destruct Hs. auto.
Qed.

(** What holds of every section holds of every interleaving. *)
Definition pool_ok (ts : list (task unit)) : Prop := Forall (fun t => safe t (fun _ => True)) ts.

Lemma pool_step_safe (Entry : task unit -> Prop) p out p' :
  Reflexive G -> (forall t, Entry t -> safe t (fun _ => True)) ->
  pool_step Entry p out p' -> I p.1 -> pool_ok p.2 ->
  I p'.1 /\ G p.1 p'.1 /\ Forall O out /\ pool_ok p'.2.
Proof.
  intros HG HE [i X f k e s ts x s' out' Hi Hf|i t k s ts Hi|t s ts Ht] HI Hok; cbn in *.
  - destruct (Forall_lookup_1 _ _ _ _ Hok Hi e s x s' out' HI Hf) as (? & ? & ? & ?).
    split_and!; auto. by apply Forall_insert.
  - destruct (Forall_lookup_1 _ _ _ _ Hok Hi) as [? ?]. split_and!; auto.
    apply Forall_app. split; [by apply Forall_insert | by apply Forall_singleton].
  - split_and!; auto. apply Forall_app. split; [done | by apply Forall_singleton; apply HE].
Qed.

Lemma pool_steps_safe `{!PreOrder G} (Entry : task unit -> Prop) p out p' :
  (forall t, Entry t -> safe t (fun _ => True)) ->
  pool_steps Entry p out p' -> I p.1 -> pool_ok p.2 ->
  I p'.1 /\ G p.1 p'.1 /\ Forall O out /\ pool_ok p'.2.
Proof.
  intros HE. induction 1 as [p|p out p' out' p'' Hsteps IH Hstep]; intros HI Hok.
  - split_and!; auto. reflexivity.
  - destruct (IH HI Hok) as (HI' & HG & Hout & Hok').
    destruct (pool_step_safe Entry p' out' p'' _ HE Hstep HI' Hok') as (? & ? & ? & ?).
    split_and!; auto; [by etransitivity | by apply Forall_app].
Qed.
End Safe.
End Tasks.

(** ** Part of a larger system

    A task that works on a part of the state, in its own part of the surroundings. *)
Section Embed.
Context {Env St Eff Env' St' Eff' : Type}.
Context (part : Env' -> Env) (get : St' -> St) (put : St -> St' -> St') (seen : Eff -> Eff').

Fixpoint embed {A : Type} (t : Task Env St Eff A) : Task Env' St' Eff' A :=
  match t with
  | Done a => Done a
  | Step f k =>
      Step (fun e w => match f (part e) (get w) with
                       | Some (x, s, out) => Some (x, put s w, map seen out)
                       | None => None
                       end) (fun x => embed (k x))
  | Fork t k => Fork (embed t) (embed k)
  end.
End Embed.

Arguments safe {Env St Eff} I G O {A} t Q.

(** Sequential composition, and early return of an error with [?]. *)
Notation "'let!' x := t 'in' k" := (tbind t (fun x => k))
  (at level 200, x name, t at level 100, k at level 200, right associativity) : rust_scope.
Notation "t ;! k" := (tbind t (fun _ => k)) (at level 95, right associativity) : rust_scope.

Definition try_task {Env St Eff A B E} (t : Task Env St Eff (result A E))
    (k : A -> Task Env St Eff (result B E)) : Task Env St Eff (result B E) :=
  tbind t (fun r => match r with Ok a => k a | Err e => Done (Err e) end).

Notation "'try!' x := t 'in' k" := (try_task t (fun x => k))
  (at level 200, x name, t at level 100, k at level 200, right associativity) : rust_scope.
Notation "t ?! k" := (try_task t (fun _ => k)) (at level 95, right associativity) : rust_scope.

Lemma safe_try {Env St Eff A B E} I G O (t : Task Env St Eff (result A E)) k
    (R : A -> Prop) (Q : result B E -> Prop) :
  safe I G O t (fun r => forall a, r = Ok a -> R a) ->
  (forall e, Q (Err e)) -> (forall a, R a -> safe I G O (k a) Q) ->
  safe I G O (try_task t k) Q.
Proof.
  intros Ht He Hk. eapply safe_tbind; [exact Ht|]. intros [a|e] Hr; [by apply Hk, Hr | apply He].
Qed.
