(* ===== verification/OrdMap.v ===== *)
(** * Orders, sorting and ordered maps

    What the source uses of [std::cmp::Ord], the slice sorts, the iterator
    extrema and [std::collections::BTreeMap].  The order of a key type is a class
    [Ord] with its laws in [OrdLaws]; a derived [Ord] of a Rust struct compares
    its fields in declaration order, which is the lexicographic instance on the
    tuple of its fields ([Ord_via]).  A [BTreeMap] is its list of entries in
    increasing key order, so that [keys().next()] and iteration order are the
    ones the code observes. *)

From Stdlib Require Import String Ascii ZArith NArith Lia Sorted Permutation.
From stdpp Require Import base tactics sets strings numbers list.
From S2P Require Import Prelude.
Local Open Scope N_scope.

(** ** Orders *)

Class Ord (A : Type) := cmp : A -> A -> comparison.

Class OrdLaws (A : Type) `{Ord A} : Prop := {
  cmp_eq : forall x y : A, cmp x y = Eq <-> x = y;
  cmp_sym : forall x y : A, cmp y x = CompOpp (cmp x y);
  cmp_trans : forall x y z : A, cmp x y = Lt -> cmp y z = Lt -> cmp x z = Lt
}.

Definition ltb {A} `{Ord A} (x y : A) : bool :=
  match cmp x y with Lt => true | _ => false end.

Definition leb {A} `{Ord A} (x y : A) : bool :=
  match cmp x y with Gt => false | _ => true end.

(** [a.cmp(b).then_with(|| c)] *)
Definition then_with (c d : comparison) : comparison :=
  match c with Eq => d | _ => c end.

#[export] Instance Ord_N : Ord N := N.compare.

#[export] Instance Ord_Z : Ord Z := Z.compare.

#[export] Instance Ord_prod {A B} `{Ord A, Ord B} : Ord (A * B) :=
  fun p q => then_with (cmp p.1 q.1) (cmp p.2 q.2).

Fixpoint list_cmp {A} `{Ord A} (xs ys : list A) : comparison :=
  match xs, ys with
  | [], [] => Eq
  | [], _ :: _ => Lt
  | _ :: _, [] => Gt
  | x :: xs, y :: ys => then_with (cmp x y) (list_cmp xs ys)
  end.

#[export] Instance Ord_list {A} `{Ord A} : Ord (list A) := list_cmp.

#[export] Instance Ord_option {A} `{Ord A} : Ord (option A) :=
  fun o p => match o, p with
  | None, None => Eq
  | None, Some _ => Lt
  | Some _, None => Gt
  | Some x, Some y => cmp x y
  end.

(** The order of a type read through an injection into an ordered type. *)
Definition Ord_via {A B} `{Ord B} (f : A -> B) : Ord A := fun x y => cmp (f x) (f y).

#[export] Instance Ord_string : Ord string :=
  Ord_via (fun s => map N_of_ascii (list_ascii_of_string s)).

(** [std::cmp::Reverse] *)
Record Reverse (A : Type) := mkReverse { reversed : A }.
Arguments mkReverse {A} reversed.
Arguments reversed {A} r.

#[export] Instance Ord_Reverse {A} `{Ord A} : Ord (Reverse A) :=
  fun x y => cmp (reversed y) (reversed x).

(** ** Sorting and extrema *)

Fixpoint insert_by {A K} `{Ord K} (key : A -> K) (x : A) (xs : list A) : list A :=
  match xs with
  | [] => [x]
  | y :: ys => if leb (key x) (key y) then x :: y :: ys else y :: insert_by key x ys
  end.

(** [v.sort_by_key(key)]: stable, so equal keys keep their order. *)
Fixpoint sort_by_key {A K} `{Ord K} (key : A -> K) (xs : list A) : list A :=
  match xs with
  | [] => []
  | x :: xs => insert_by key x (sort_by_key key xs)
  end.

(** [iter.min_by_key(key)]: the first element among those with the least key. *)
Fixpoint min_by_key {A K} `{Ord K} (key : A -> K) (xs : list A) : option A :=
  match xs with
  | [] => None
  | x :: xs =>
      match min_by_key key xs with
      | None => Some x
      | Some y => if leb (key x) (key y) then Some x else Some y
      end
  end.

(** [iter.max_by_key(key)]: the last element among those with the greatest key. *)
Fixpoint max_by_key {A K} `{Ord K} (key : A -> K) (xs : list A) : option A :=
  match xs with
  | [] => None
  | x :: xs =>
      match max_by_key key xs with
      | None => Some x
      | Some y => if ltb (key y) (key x) then Some x else Some y
      end
  end.

(** [v.dedup_by_key(key)]: drops every element whose key equals the previous one's. *)
Fixpoint dedup_from {A K} `{EqDecision K} (key : A -> K) (prev : K) (xs : list A) : list A :=
  match xs with
  | [] => []
  | x :: xs =>
      if bool_decide (key x = prev) then dedup_from key prev xs
      else x :: dedup_from key (key x) xs
  end.

Definition dedup_by_key {A K} `{EqDecision K} (key : A -> K) (xs : list A) : list A :=
  match xs with
  | [] => []
  | x :: xs => x :: dedup_from key (key x) xs
  end.

(** ** [BTreeMap] *)

Notation BTreeMap K V := (list (K * V)).

Fixpoint bt_get {K V} `{Ord K} (k : K) (m : BTreeMap K V) : option V :=
  match m with
  | [] => None
  | (k', v) :: m => match cmp k k' with Eq => Some v | _ => bt_get k m end
  end.

Fixpoint bt_insert {K V} `{Ord K} (k : K) (v : V) (m : BTreeMap K V) : BTreeMap K V :=
  match m with
  | [] => [(k, v)]
  | (k', v') :: m' =>
      match cmp k k' with
      | Lt => (k, v) :: m
      | Eq => (k, v) :: m'
      | Gt => (k', v') :: bt_insert k v m'
      end
  end.

Fixpoint bt_remove {K V} `{Ord K} (k : K) (m : BTreeMap K V) : BTreeMap K V :=
  match m with
  | [] => []
  | (k', v') :: m' =>
      match cmp k k' with
      | Eq => m'
      | _ => (k', v') :: bt_remove k m'
      end
  end.

Definition bt_contains {K V} `{Ord K} (k : K) (m : BTreeMap K V) : bool :=
  match bt_get k m with Some _ => true | None => false end.

(** [map.keys().next()] *)
Definition bt_first_key {K V} (m : BTreeMap K V) : option K := fst <$> head m.

(** [map.retain(p)] *)
Definition bt_retain {K V} (p : K -> V -> bool) (m : BTreeMap K V) : BTreeMap K V :=
  List.filter (fun kv => p kv.1 kv.2) m.

(** The representation invariant: keys strictly increase. *)
Definition bt_wf {K V} `{Ord K} (m : BTreeMap K V) : Prop :=
  StronglySorted (fun p q => cmp p.1 q.1 = Lt) m.

(** ** Laws of the instances *)

#[export] Instance OrdLaws_N : OrdLaws N.
Proof.
  split; unfold cmp, Ord_N.
  - apply N.compare_eq_iff.
  - intros x y. apply N.compare_antisym.
  - intros x y z. rewrite !N.compare_lt_iff. lia.
Qed.

#[export] Instance OrdLaws_Z : OrdLaws Z.
Proof.
  split; unfold cmp, Ord_Z.
  - apply Z.compare_eq_iff.
  - intros x y. apply Z.compare_antisym.
  - intros x y z. rewrite !Z.compare_lt_iff. lia.
Qed.

Lemma OrdLaws_via {A B} `{OrdLaws B} (f : A -> B) (Hinj : forall x y, f x = f y -> x = y) :
  @OrdLaws A (Ord_via f).
Proof.
  split; unfold cmp, Ord_via.
  - intros x y. rewrite cmp_eq. split; [apply Hinj | by intros ->].
  - intros x y. apply cmp_sym.
  - intros x y z. apply cmp_trans.
Qed.

Section Lex.
Context {A B : Type} `{OrdLaws A, OrdLaws B}.

Lemma cmp_refl (x : A) : cmp x x = Eq.
Proof. by apply cmp_eq. Qed.

Lemma cmp_gt_lt (x y : A) : cmp x y = Gt <-> cmp y x = Lt.
Proof. rewrite (cmp_sym x y). destruct (cmp x y); cbn; naive_solver. Qed.

Lemma then_with_trans (x y z : A) (p q r : comparison) :
  then_with (cmp x y) p = Lt -> then_with (cmp y z) q = Lt ->
  (p = Lt -> q = Lt -> r = Lt) ->
  then_with (cmp x z) r = Lt.
Proof.
  destruct (cmp x y) eqn:E1, (cmp y z) eqn:E2; cbn; intros Hp Hq Hr; try discriminate.
  - apply cmp_eq in E1 as ->. apply cmp_eq in E2 as ->. rewrite cmp_refl; cbn; auto.
  - apply cmp_eq in E1 as ->. by rewrite E2.
  - apply cmp_eq in E2 as <-. by rewrite E1.
  - by rewrite (cmp_trans _ _ _ E1 E2).
Qed.

#[export] Instance OrdLaws_prod : OrdLaws (A * B).
Proof.
  split; unfold cmp, Ord_prod.
  - intros [a b] [c d]; cbn. destruct (cmp a c) eqn:E; cbn.
    + apply cmp_eq in E as ->. rewrite cmp_eq. naive_solver.
    + split; [done|]. intros [= -> ->]. by rewrite cmp_refl in E.
    + split; [done|]. intros [= -> ->]. by rewrite cmp_refl in E.
  - intros [a b] [c d]; cbn. rewrite (cmp_sym a c), (cmp_sym b d).
    by destruct (cmp a c).
  - intros [a b] [c d] [e f]; cbn. intros H3 H4.
    apply (then_with_trans _ _ _ _ _ _ H3 H4). apply cmp_trans.
Qed.

#[export] Instance OrdLaws_option : OrdLaws (option A).
Proof.
  split; unfold cmp, Ord_option.
  - intros [x|] [y|]; rewrite ?cmp_eq; naive_solver.
  - intros [x|] [y|]; cbn; auto using cmp_sym.
  - intros [x|] [y|] [z|]; cbn; try done. apply cmp_trans.
Qed.

#[export] Instance OrdLaws_list : OrdLaws (list A).
Proof.
  split; unfold cmp, Ord_list.
  - intros xs; induction xs as [|x xs IH]; intros [|y ys]; cbn; try done.
    destruct (cmp x y) eqn:E; cbn.
    + apply cmp_eq in E as ->. rewrite IH. naive_solver.
    + split; [done|]. intros [= -> ->]. by rewrite cmp_refl in E.
    + split; [done|]. intros [= -> ->]. by rewrite cmp_refl in E.
  - intros xs; induction xs as [|x xs IH]; intros [|y ys]; cbn; try done.
    rewrite (cmp_sym x y), IH. by destruct (cmp x y).
  - intros xs; induction xs as [|x xs IH]; intros [|y ys] [|z zs]; cbn; try done.
    intros H3 H4. apply (then_with_trans _ _ _ _ _ _ H3 H4). apply IH.
Qed.

#[export] Instance OrdLaws_Reverse : OrdLaws (Reverse A).
Proof.
  split; unfold cmp, Ord_Reverse.
  - intros [x] [y]; cbn. rewrite cmp_eq. naive_solver.
  - intros [x] [y]; apply cmp_sym.
  - intros [x] [y] [z]; cbn. intros ? ?. by apply (cmp_trans z y x).
Qed.
End Lex.

#[export] Instance OrdLaws_string : OrdLaws string.
Proof.
  apply OrdLaws_via. intros s t Hst.
  rewrite <- (string_of_list_ascii_of_string s), <- (string_of_list_ascii_of_string t).
  f_equal. revert Hst.
  generalize (list_ascii_of_string s), (list_ascii_of_string t).
  induction l as [|a l IH]; intros [|b l']; cbn; try done.
  intros [= Hab Hl]. f_equal; [|auto].
  by rewrite <- (ascii_N_embedding a), <- (ascii_N_embedding b), Hab.
Qed.

Section OrderLemmas.
Context {A : Type} `{OrdLaws A}.

Lemma ltb_lt (x y : A) : ltb x y = true <-> cmp x y = Lt.
Proof. unfold ltb. destruct (cmp x y); naive_solver. Qed.

Lemma leb_gt (x y : A) : leb x y = false <-> cmp y x = Lt.
Proof. unfold leb. rewrite (cmp_sym x y). destruct (cmp x y); naive_solver. Qed.

Lemma ltb_ge (x y : A) : ltb x y = false <-> leb y x = true.
Proof. unfold ltb, leb. rewrite (cmp_sym x y). by destruct (cmp x y). Qed.

Lemma leb_refl (x : A) : leb x x = true.
Proof. unfold leb. by rewrite cmp_refl. Qed.

Lemma leb_total (x y : A) : leb x y = true \/ leb y x = true.
Proof. unfold leb. rewrite (cmp_sym x y). destruct (cmp x y); naive_solver. Qed.

Lemma leb_le_or (x y : A) : leb x y = true <-> x = y \/ cmp x y = Lt.
Proof.
  rewrite <- cmp_eq. unfold leb. destruct (cmp x y); naive_solver.
Qed.

Lemma leb_trans (x y z : A) : leb x y = true -> leb y z = true -> leb x z = true.
Proof.
  rewrite !leb_le_or. intros [->|Hxy] [->|Hyz]; auto.
  right. by apply (cmp_trans _ y).
Qed.

Lemma leb_antisym (x y : A) : leb x y = true -> leb y x = true -> x = y.
Proof.
  intros [?|Hxy]%leb_le_or [?|Hyx]%leb_le_or; auto.
  apply cmp_gt_lt in Hyx. congruence.
Qed.

Lemma cmp_lt_irrefl (x : A) : cmp x x <> Lt.
Proof. by rewrite cmp_refl. Qed.
End OrderLemmas.

(** ** Sorting lemmas *)

Section SortLemmas.
Context {A K : Type} `{OrdLaws K} (key : A -> K).

Lemma insert_by_perm x xs : insert_by key x xs ≡ₚ x :: xs.
Proof.
  induction xs as [|y ys IH]; cbn; [done|]. dmatch; [done|]. rewrite IH. constructor.
Qed.

Lemma sort_by_key_perm xs : sort_by_key key xs ≡ₚ xs.
Proof. induction xs as [|x xs IH]; cbn; [done|]. by rewrite insert_by_perm, IH. Qed.

Lemma sort_by_key_length xs : length (sort_by_key key xs) = length xs.
Proof. by rewrite sort_by_key_perm. Qed.

Lemma elem_of_sort_by_key x xs : x ∈ sort_by_key key xs <-> x ∈ xs.
Proof. by rewrite sort_by_key_perm. Qed.

Definition key_sorted : list A -> Prop :=
  StronglySorted (fun x y => leb (key x) (key y) = true).

Lemma insert_by_sorted x xs : key_sorted xs -> key_sorted (insert_by key x xs).
Proof.
  induction 1 as [|y ys Hys IH Hall]; cbn.
  - repeat constructor.
  - destruct (leb (key x) (key y)) eqn:Hxy.
    + constructor; [by constructor|]. constructor; [done|].
      eapply Forall_impl; [exact Hall|]. intros z. by apply leb_trans.
    + constructor; [done|]. rewrite insert_by_perm. constructor; [|done].
      destruct (leb_total (key x) (key y)); congruence.
Qed.

Lemma sort_by_key_sorted xs : key_sorted (sort_by_key key xs).
Proof. induction xs; cbn; [constructor | by apply insert_by_sorted]. Qed.

Lemma sort_by_key_head_least xs x ys :
  sort_by_key key xs = x :: ys -> forall y, y ∈ xs -> leb (key x) (key y) = true.
Proof.
  intros Hs y Hy. pose proof (sort_by_key_sorted xs) as Hsort. rewrite Hs in Hsort.
  inversion Hsort as [|? ? ? Hall]; subst.
  apply elem_of_sort_by_key in Hy. rewrite Hs in Hy.
  apply elem_of_cons in Hy as [->|Hy]; [apply leb_refl|].
  rewrite Forall_forall in Hall. by apply Hall.
Qed.

Lemma min_by_key_None xs : min_by_key key xs = None <-> xs = [].
Proof. destruct xs; cbn; [done|]. repeat dmatch; naive_solver. Qed.

Lemma min_by_key_Some xs x :
  min_by_key key xs = Some x ->
  x ∈ xs /\ (forall y, y ∈ xs -> leb (key x) (key y) = true).
Proof.
  revert x; induction xs as [|z xs IH]; intros x; cbn; [done|].
  destruct (min_by_key key xs) as [y|] eqn:Hm.
  - destruct (IH y eq_refl) as [Hin Hle]. destruct (leb (key z) (key y)) eqn:Hzy; intros [= <-].
    + split; [left|]. intros w [->|Hw]%elem_of_cons; [apply leb_refl|].
      eapply leb_trans; eauto.
    + split; [by right|]. intros w [->|Hw]%elem_of_cons; [|by apply Hle].
      destruct (leb_total (key z) (key y)); congruence.
  - intros [= <-]. apply min_by_key_None in Hm as ->. split; [left|].
    intros w Hw. apply list_elem_of_singleton in Hw as ->. apply leb_refl.
Qed.

Lemma max_by_key_None xs : max_by_key key xs = None <-> xs = [].
Proof. destruct xs; cbn; [done|]. repeat dmatch; naive_solver. Qed.

Lemma max_by_key_Some xs x :
  max_by_key key xs = Some x ->
  x ∈ xs /\ (forall y, y ∈ xs -> leb (key y) (key x) = true).
Proof.
  revert x; induction xs as [|z xs IH]; intros x; cbn; [done|].
  destruct (max_by_key key xs) as [y|] eqn:Hm.
  - destruct (IH y eq_refl) as [Hin Hle]. destruct (ltb (key y) (key z)) eqn:Hzy; intros [= <-].
    + apply ltb_lt in Hzy. split; [left|]. intros w [->|Hw]%elem_of_cons; [apply leb_refl|].
      eapply leb_trans; [by apply Hle|]. apply leb_le_or; auto.
    + split; [by right|]. intros w [->|Hw]%elem_of_cons; [|by apply Hle].
      destruct (leb (key z) (key y)) eqn:E; [done|]. apply leb_gt in E.
      apply ltb_lt in E. congruence.
  - intros [= <-]. apply max_by_key_None in Hm as ->. split; [left|].
    intros w Hw. apply list_elem_of_singleton in Hw as ->. apply leb_refl.
Qed.
End SortLemmas.

Section DedupLemmas.
Context {A I : Type} `{EqDecision I} (ident : A -> I).

Lemma dedup_from_sublist prev xs : dedup_from ident prev xs `sublist_of` xs.
Proof.
  revert prev; induction xs as [|x xs IH]; intros prev; cbn; [constructor|].
  case_bool_decide; [by apply sublist_cons | by apply sublist_skip].
Qed.

Lemma dedup_by_key_sublist xs : dedup_by_key ident xs `sublist_of` xs.
Proof. destruct xs; cbn; [constructor | apply sublist_skip, dedup_from_sublist]. Qed.

Lemma dedup_from_covers prev xs x :
  x ∈ xs -> ident x = prev \/ exists y, y ∈ dedup_from ident prev xs /\ ident y = ident x.
Proof.
  revert prev; induction xs as [|z xs IH]; intros prev Hx; [by apply not_elem_of_nil in Hx|].
  cbn. apply elem_of_cons in Hx as [->|Hx]; case_bool_decide as Hz.
  - by left.
  - right. exists z. split; [left | done].
  - auto.
  - right. destruct (IH (ident z) Hx) as [Hi|(y & Hy & Hi)].
    + exists z. split; [left | done].
    + exists y. split; [by right | done].
Qed.

Lemma dedup_by_key_covers xs x :
  x ∈ xs -> exists y, y ∈ dedup_by_key ident xs /\ ident y = ident x.
Proof.
  destruct xs as [|z xs]; [by intros ?%not_elem_of_nil|]. cbn.
  intros [->|Hx]%elem_of_cons; [exists z; split; [left | done]|].
  destruct (dedup_from_covers (ident z) xs x Hx) as [Hi|(y & Hy & Hi)].
  - exists z. split; [left | done].
  - exists y. split; [by right | done].
Qed.

(** On a list sorted by a key that determines the identity, no identity is left twice
    and the keys are strictly increasing. *)
Lemma dedup_by_key_strict {K} `{OrdLaws K} (key : A -> K) xs :
  key_sorted key xs ->
  (forall x y, x ∈ xs -> y ∈ xs -> key x = key y <-> ident x = ident y) ->
  StronglySorted (fun x y => cmp (key x) (key y) = Lt) (dedup_by_key ident xs).
Proof.
  assert (Hgen : forall xs z, key_sorted key (z :: xs) ->
    (forall x y, x ∈ z :: xs -> y ∈ z :: xs -> key x = key y <-> ident x = ident y) ->
    StronglySorted (fun x y => cmp (key x) (key y) = Lt) (z :: dedup_from ident (ident z) xs)).
  { clear xs. induction xs as [|x xs IH]; intros z Hs Hid.
    { repeat constructor. }
    inversion Hs as [|? ? Hs' Hz]; subst. inversion Hz as [|? ? Hzx Hzxs]; subst.
    inversion Hs' as [|? ? Hs'' Hx]; subst. cbn [dedup_from]. case_bool_decide as Hi.
    - apply IH; [by constructor | set_solver].
    - assert (Hlt : cmp (key z) (key x) = Lt).
      { apply leb_le_or in Hzx as [Heq|?]; [|done]. destruct Hi. symmetry. apply Hid; set_solver. }
      constructor.
      + apply IH; [done | set_solver].
      + constructor; [done|]. apply Forall_forall. intros y Hy.
        eapply elem_of_sublist in Hy; [|apply dedup_from_sublist].
        rewrite Forall_forall in Hx. specialize (Hx y Hy).
        apply leb_le_or in Hx as [<-|?]; [done|]. by eapply cmp_trans. }
  destruct xs as [|z xs]; [constructor|]. apply Hgen.
Qed.
End DedupLemmas.

(** ** Map lemmas *)

Section BTreeMapLemmas.
Context {K V : Type} `{OrdLaws K}.
Implicit Types (k : K) (v : V) (m : BTreeMap K V).

Lemma bt_get_insert_eq k v m : bt_get k (bt_insert k v m) = Some v.
Proof.
  induction m as [|[k' v'] m IH]; cbn; [by rewrite cmp_refl|].
  destruct (cmp k k') eqn:E; cbn; rewrite ?cmp_refl, ?E; auto.
Qed.

Lemma bt_get_insert_ne k k' v m :
  k <> k' -> bt_get k' (bt_insert k v m) = bt_get k' m.
Proof.
  intros Hne. induction m as [|[k0 v0] m IH]; cbn.
  - destruct (cmp k' k) eqn:E; auto. apply cmp_eq in E. congruence.
  - destruct (cmp k k0) eqn:E; cbn.
    + apply cmp_eq in E as ->. destruct (cmp k' k0) eqn:E'; auto.
      apply cmp_eq in E'. congruence.
    + destruct (cmp k' k) eqn:E'; auto. apply cmp_eq in E'. congruence.
    + by rewrite IH.
Qed.

Lemma bt_get_remove_ne k k' m :
  k <> k' -> bt_get k' (bt_remove k m) = bt_get k' m.
Proof.
  intros Hne. induction m as [|[k0 v0] m IH]; cbn; [done|].
  destruct (cmp k k0) eqn:E; cbn; rewrite ?IH; auto.
  apply cmp_eq in E as ->. destruct (cmp k' k0) eqn:E'; auto.
  apply cmp_eq in E'. congruence.
Qed.

Lemma bt_get_elem_of k v m : bt_get k m = Some v -> (k, v) ∈ m.
Proof.
  induction m as [|[k0 v0] m IH]; cbn; [done|].
  destruct (cmp k k0) eqn:E; intros Hg; [|right; auto|right; auto].
  apply cmp_eq in E as ->. simplify_eq. left.
Qed.

Lemma bt_get_None k m : bt_get k m = None <-> forall v, (k, v) ∉ m.
Proof.
  induction m as [|[k0 v0] m IH]; cbn; [set_solver|].
  destruct (cmp k k0) eqn:E.
  - apply cmp_eq in E as ->. split; [done|]. intros Hn. destruct (Hn v0). left.
  - rewrite IH. split; intros Hn v; specialize (Hn v); [|set_solver].
    intros [[= -> ->]|?]%elem_of_cons; [by rewrite cmp_refl in E | done].
  - rewrite IH. split; intros Hn v; specialize (Hn v); [|set_solver].
    intros [[= -> ->]|?]%elem_of_cons; [by rewrite cmp_refl in E | done].
Qed.

Lemma elem_of_bt_insert k v m p :
  p ∈ bt_insert k v m -> p = (k, v) \/ p ∈ m.
Proof.
  induction m as [|[k0 v0] m IH]; cbn; [set_solver|].
  destruct (cmp k k0); set_solver.
Qed.

Lemma elem_of_bt_remove k m p : p ∈ bt_remove k m -> p ∈ m.
Proof.
  induction m as [|[k0 v0] m IH]; cbn; [set_solver|].
  destruct (cmp k k0); set_solver.
Qed.

Lemma bt_wf_nil : bt_wf (@nil (K * V)).
Proof. constructor. Qed.

Lemma bt_wf_insert k v m : bt_wf m -> bt_wf (bt_insert k v m).
Proof.
  induction 1 as [|[k0 v0] m Hm IH Hall]; cbn; [repeat constructor|].
  rewrite Forall_forall in Hall.
  destruct (cmp k k0) eqn:E.
  - apply cmp_eq in E as ->. constructor; [done|]. by rewrite Forall_forall.
  - constructor; [by constructor; rewrite ?Forall_forall|]. constructor; [done|].
    rewrite Forall_forall. intros q Hq. eapply cmp_trans; [exact E|]. by apply Hall.
  - constructor; [done|]. rewrite Forall_forall. intros q [->|Hq]%elem_of_bt_insert; auto.
    by apply cmp_gt_lt.
Qed.

Lemma bt_wf_remove k m : bt_wf m -> bt_wf (bt_remove k m).
Proof.
  induction 1 as [|[k0 v0] m Hm IH Hall]; cbn; [constructor|].
  rewrite Forall_forall in Hall.
  destruct (cmp k k0); [done| |]; constructor; auto; rewrite Forall_forall;
    intros q Hq%elem_of_bt_remove; by apply Hall.
Qed.

Lemma elem_of_bt_retain (p : K -> V -> bool) m k v :
  (k, v) ∈ bt_retain p m <-> (k, v) ∈ m /\ p k v = true.
Proof. unfold bt_retain. rewrite !list_elem_of_In, filter_In. naive_solver. Qed.

Lemma bt_wf_retain (p : K -> V -> bool) m : bt_wf m -> bt_wf (bt_retain p m).
Proof.
  induction 1 as [|[k0 v0] m Hm IH Hall]; cbn; [constructor|].
  rewrite Forall_forall in Hall.
  destruct (p k0 v0); [|done]. constructor; [done|]. rewrite Forall_forall.
  intros [k v] [Hq _]%elem_of_bt_retain. by apply Hall.
Qed.

Lemma bt_elem_of_get k v m : bt_wf m -> (k, v) ∈ m -> bt_get k m = Some v.
Proof.
  induction 1 as [|[k0 v0] m Hm IH Hall]; [set_solver|]. rewrite Forall_forall in Hall.
  intros [[= -> ->]|Hin]%elem_of_cons; cbn.
  - by rewrite cmp_refl.
  - pose proof (Hall _ Hin) as Hlt; cbn in Hlt. apply cmp_gt_lt in Hlt. rewrite Hlt. auto.
Qed.

Lemma bt_insert_same k v m : bt_wf m -> bt_get k m = Some v -> bt_insert k v m = m.
Proof.
  induction m as [|[k' v'] m IH]; cbn; [done|]. intros Hwf Hg.
  inversion Hwf as [|? ? Hwf' Hall]; subst.
  destruct (cmp k k') eqn:Hc.
  - injection Hg as ->. by apply cmp_eq in Hc as ->.
  - apply bt_get_elem_of in Hg. rewrite Forall_forall in Hall. apply Hall in Hg. cbn in Hg.
    apply cmp_gt_lt in Hg. congruence.
  - by rewrite IH.
Qed.

Lemma bt_get_remove_eq k m : bt_wf m -> bt_get k (bt_remove k m) = None.
Proof.
  intros Hwf. apply bt_get_None. intros v Hin.
  pose proof (bt_elem_of_get _ _ _ (bt_wf_remove k m Hwf) Hin) as Hg.
  clear Hin. induction Hwf as [|[k0 v0] m Hm IH Hall]; cbn in *; [done|].
  destruct (cmp k k0) eqn:E; cbn in Hg; rewrite ?E in Hg; auto.
  apply cmp_eq in E as ->. apply bt_get_elem_of in Hg.
  rewrite Forall_forall in Hall. apply Hall in Hg. by apply cmp_lt_irrefl in Hg.
Qed.

Lemma bt_get_retain (p : K -> V -> bool) k m :
  bt_wf m ->
  bt_get k (bt_retain p m) = match bt_get k m with
                             | Some v => if p k v then Some v else None
                             | None => None
                             end.
Proof.
  intros Hwf. pose proof (bt_wf_retain p m Hwf) as Hwf'.
  destruct (bt_get k m) as [v|] eqn:Hg; [destruct (p k v) eqn:Hp|].
  - apply bt_elem_of_get; [done|]. apply elem_of_bt_retain. eauto using bt_get_elem_of.
  - apply bt_get_None. intros v' [Hin Hp']%elem_of_bt_retain.
    apply bt_elem_of_get in Hin; [|done]. congruence.
  - apply bt_get_None. intros v [Hin _]%elem_of_bt_retain.
    rewrite bt_get_None in Hg. by apply (Hg v).
Qed.

Lemma bt_insert_length k v m :
  bt_wf m -> length (bt_insert k v m) = if bt_contains k m then length m else S (length m).
Proof.
  unfold bt_contains. induction 1 as [|[k0 v0] m Hm IH Hall]; cbn; [done|].
  rewrite Forall_forall in Hall.
  destruct (cmp k k0) eqn:E; cbn; [done| |].
  - destruct (bt_get k m) eqn:Hg; [|done]. apply bt_get_elem_of in Hg. apply Hall in Hg.
    cbn in Hg. apply (cmp_trans _ _ _ E) in Hg. by apply cmp_lt_irrefl in Hg.
  - rewrite IH. by destruct (bt_get k m).
Qed.

Lemma bt_insert_length_le k v m :
  (length m <= length (bt_insert k v m) <= S (length m))%nat.
Proof.
  induction m as [|[k0 v0] m IH]; cbn; [lia|]. destruct (cmp k k0); cbn; lia.
Qed.

Lemma bt_remove_length k m :
  length (bt_remove k m) = if bt_contains k m then pred (length m) else length m.
Proof.
  unfold bt_contains. induction m as [|[k0 v0] m IH]; cbn; [done|].
  destruct (cmp k k0) eqn:E; cbn; [done| |]; rewrite IH;
    destruct (bt_get k m) eqn:Hg; auto; apply bt_get_elem_of in Hg;
    destruct m; cbn; auto; set_solver.
Qed.

Lemma bt_retain_length (p : K -> V -> bool) m : (length (bt_retain p m) <= length m)%nat.
Proof. apply filter_length_le. Qed.

Lemma bt_first_key_contains m k : bt_first_key m = Some k -> bt_contains k m = true.
Proof.
  destruct m as [|[k0 v0] m]; cbn; [done|]. intros [= ->].
  unfold bt_contains; cbn. by rewrite cmp_refl.
Qed.

Lemma bt_remove_first m k :
  bt_first_key m = Some k -> bt_remove k m = tail m.
Proof. destruct m as [|[k0 v0] m]; cbn; [done|]. intros [= ->]. by rewrite cmp_refl. Qed.
End BTreeMapLemmas.
