(* ===== verification/Types.v ===== *)
(** * Wire types of the protocol ([crates/protocol/src/types.rs])

    Every struct, enum and method of the file, in dependency order.  A struct [S]
    with field [f] is the record [S] with projection [S_f]; a variant [E::V] is
    the constructor [E_V].  Unsigned integers are [N], [i64] is [Z], a [String] is
    the Rocq string of its UTF-8 bytes, a byte array or [Vec<u8>] is a [list N].
    BLAKE3 is code of another crate: it is the operation of the class [Blake3]. *)

From Stdlib Require Import String Ascii ZArith NArith Lia.
From stdpp Require Import base tactics sets strings numbers list.
From S2P Require Import Prelude OrdMap.
Local Open Scope N_scope.

(** ** Hashing *)

(** [blake3::hash] (and [Hasher], which hashes the concatenation of its updates). *)
Class Blake3 := blake3 : list N -> list N.

(** What the code relies on: a digest is 32 bytes. *)
Class Blake3Laws `{Blake3} : Prop := {
  blake3_length : forall bs, length (blake3 bs) = 32%nat;
  blake3_bytes : forall bs, Forall (fun b => b < 256) (blake3 bs)
}.

(** [b"..."] and [s.as_bytes()] *)
Definition as_bytes (s : string) : list N := map N_of_ascii (list_ascii_of_string s).

Definition PROTOCOL_MAJOR : N := 1.

Definition PROTOCOL_MINOR : N := 6.

(** ** Identifiers: the instances of the macro [fixed_id!] *)

Record NodeId := mkNodeId { NodeId_0 : list N }.

#[export] Instance NodeId_eq_dec : EqDecision NodeId.
Proof. solve_decision. Defined.

#[export] Instance NodeId_ord : Ord NodeId := Ord_via NodeId_0.

#[export] Instance NodeId_ord_laws : OrdLaws NodeId.
Proof. apply OrdLaws_via. by intros [] [] [= ->]. Qed.

Definition NodeId_default : NodeId := mkNodeId (repeat 0 32).

Record JobId := mkJobId { JobId_0 : list N }.

#[export] Instance JobId_eq_dec : EqDecision JobId.
Proof. solve_decision. Defined.

#[export] Instance JobId_ord : Ord JobId := Ord_via JobId_0.

#[export] Instance JobId_ord_laws : OrdLaws JobId.
Proof. apply OrdLaws_via. by intros [] [] [= ->]. Qed.

Definition JobId_default : JobId := mkJobId (repeat 0 16).

Record ArtifactId := mkArtifactId { ArtifactId_0 : list N }.

#[export] Instance ArtifactId_eq_dec : EqDecision ArtifactId.
Proof. solve_decision. Defined.

#[export] Instance ArtifactId_ord : Ord ArtifactId := Ord_via ArtifactId_0.

#[export] Instance ArtifactId_ord_laws : OrdLaws ArtifactId.
Proof. apply OrdLaws_via. by intros [] [] [= ->]. Qed.

Definition ArtifactId_default : ArtifactId := mkArtifactId (repeat 0 32).

Record RequestId := mkRequestId { RequestId_0 : list N }.

#[export] Instance RequestId_eq_dec : EqDecision RequestId.
Proof. solve_decision. Defined.

#[export] Instance RequestId_ord : Ord RequestId := Ord_via RequestId_0.

#[export] Instance RequestId_ord_laws : OrdLaws RequestId.
Proof. apply OrdLaws_via. by intros [] [] [= ->]. Qed.

Definition RequestId_default : RequestId := mkRequestId (repeat 0 16).

Record DhtKey := mkDhtKey { DhtKey_0 : list N }.

#[export] Instance DhtKey_eq_dec : EqDecision DhtKey.
Proof. solve_decision. Defined.

#[export] Instance DhtKey_ord : Ord DhtKey := Ord_via DhtKey_0.

#[export] Instance DhtKey_ord_laws : OrdLaws DhtKey.
Proof. apply OrdLaws_via. by intros [] [] [= ->]. Qed.

Definition DhtKey_default : DhtKey := mkDhtKey (repeat 0 32).

(** ** Structs and enums *)

Record VersionRange := mkVersionRange {
  VersionRange_major : N;
  VersionRange_min_minor : N;
  VersionRange_max_minor : N
}.

#[export] Instance VersionRange_eq_dec : EqDecision VersionRange.
Proof. solve_decision. Defined.

Record MetadataEntry := mkMetadataEntry {
  MetadataEntry_key : string;
  MetadataEntry_value : string
}.

#[export] Instance MetadataEntry_eq_dec : EqDecision MetadataEntry.
Proof. solve_decision. Defined.

Record ResourceLimits := mkResourceLimits {
  ResourceLimits_max_input_bytes : N;
  ResourceLimits_max_output_bytes : N;
  ResourceLimits_memory_bytes : N;
  ResourceLimits_cpu_millis : N
}.

#[export] Instance ResourceLimits_eq_dec : EqDecision ResourceLimits.
Proof. solve_decision. Defined.

Inductive CapabilityEvidence :=
  | CapabilityEvidence_Claimed
  | CapabilityEvidence_Observed (successful_jobs : N) (failed_jobs : N) (last_observed_at : N)
  | CapabilityEvidence_Verified (evaluation_id : ArtifactId) (score_basis : string) (observed_at : N).

#[export] Instance CapabilityEvidence_eq_dec : EqDecision CapabilityEvidence.
Proof. solve_decision. Defined.

Inductive BackendHealth :=
  | BackendHealth_Ready
  | BackendHealth_Busy
  | BackendHealth_Degraded
  | BackendHealth_Unavailable.

#[export] Instance BackendHealth_eq_dec : EqDecision BackendHealth.
Proof. solve_decision. Defined.

Inductive BackendKind :=
  | BackendKind_Cpu
  | BackendKind_Cuda
  | BackendKind_Rocm
  | BackendKind_Metal.

#[export] Instance BackendKind_eq_dec : EqDecision BackendKind.
Proof. solve_decision. Defined.

Inductive ComputeFeature :=
  | ComputeFeature_MatrixMultiply
  | ComputeFeature_TensorParallel
  | ComputeFeature_PipelineStage
  | ComputeFeature_PeerToPeer
  | ComputeFeature_UnifiedMemory
  | ComputeFeature_DeterministicKernel.

#[export] Instance ComputeFeature_eq_dec : EqDecision ComputeFeature.
Proof. solve_decision. Defined.

Inductive NumericFormat :=
  | NumericFormat_F32
  | NumericFormat_F16
  | NumericFormat_Bf16.

#[export] Instance NumericFormat_eq_dec : EqDecision NumericFormat.
Proof. solve_decision. Defined.

Record BackendCapabilities := mkBackendCapabilities {
  BackendCapabilities_kind : BackendKind;
  BackendCapabilities_runtime_version : string;
  BackendCapabilities_device_count : N;
  BackendCapabilities_device_memory_bytes : N;
  BackendCapabilities_available_memory_bytes : N;
  BackendCapabilities_formats : list NumericFormat;
  BackendCapabilities_max_tensor_elements : N;
  BackendCapabilities_features : list ComputeFeature;
  BackendCapabilities_device_architecture : option string;
  BackendCapabilities_driver_available : bool;
  BackendCapabilities_runtime_available : bool;
  BackendCapabilities_peer_to_peer : bool;
  BackendCapabilities_unified_memory : bool;
  BackendCapabilities_max_concurrent_tasks : N;
  BackendCapabilities_safety_margin_permille : N;
  BackendCapabilities_health : BackendHealth;
  BackendCapabilities_physical_verified : bool;
  BackendCapabilities_observed_successes : N;
  BackendCapabilities_observed_failures : N
}.

#[export] Instance BackendCapabilities_eq_dec : EqDecision BackendCapabilities.
Proof. solve_decision. Defined.

Record Capability := mkCapability {
  Capability_name : string;
  Capability_version : N;
  Capability_model : option string;
  Capability_resources : ResourceLimits;
  Capability_evidence : CapabilityEvidence;
  Capability_expires_at : N;
  Capability_metadata : list MetadataEntry;
  Capability_compute_backends : list BackendCapabilities
}.

#[export] Instance Capability_eq_dec : EqDecision Capability.
Proof. solve_decision. Defined.

Record PeerRecord := mkPeerRecord {
  PeerRecord_node_id : NodeId;
  PeerRecord_public_key : list N;
  PeerRecord_addresses : list string;
  PeerRecord_capabilities : list Capability;
  PeerRecord_announced_at : N;
  PeerRecord_expires_at : N;
  PeerRecord_observed_latency_ms : option N
}.

#[export] Instance PeerRecord_eq_dec : EqDecision PeerRecord.
Proof. solve_decision. Defined.

Record SignedAnnouncement := mkSignedAnnouncement {
  SignedAnnouncement_record : PeerRecord;
  SignedAnnouncement_signature : list N
}.

#[export] Instance SignedAnnouncement_eq_dec : EqDecision SignedAnnouncement.
Proof. solve_decision. Defined.

Record Hello := mkHello {
  Hello_nonce : list N;
  Hello_supported : VersionRange;
  Hello_record : PeerRecord;
  Hello_signature : list N
}.

#[export] Instance Hello_eq_dec : EqDecision Hello.
Proof. solve_decision. Defined.

Record PeerExchange := mkPeerExchange {
  PeerExchange_peers : list SignedAnnouncement
}.

#[export] Instance PeerExchange_eq_dec : EqDecision PeerExchange.
Proof. solve_decision. Defined.

Inductive DhtNamespace :=
  | DhtNamespace_Peer
  | DhtNamespace_Capability
  | DhtNamespace_Artifact
  | DhtNamespace_Model
  | DhtNamespace_Dataset
  | DhtNamespace_Relay
  | DhtNamespace_Evidence.

#[export] Instance DhtNamespace_eq_dec : EqDecision DhtNamespace.
Proof. solve_decision. Defined.

Record DhtRecord := mkDhtRecord {
  DhtRecord_namespace : DhtNamespace;
  DhtRecord_key : DhtKey;
  DhtRecord_owner : NodeId;
  DhtRecord_owner_public_key : list N;
  DhtRecord_sequence : N;
  DhtRecord_expires_at : N;
  DhtRecord_value : list N;
  DhtRecord_signature : list N
}.

#[export] Instance DhtRecord_eq_dec : EqDecision DhtRecord.
Proof. solve_decision. Defined.

Inductive DhtRequestKind :=
  | DhtRequestKind_Ping
  | DhtRequestKind_FindNode (target : DhtKey)
  | DhtRequestKind_Get (namespace : DhtNamespace) (key : DhtKey)
  | DhtRequestKind_Put (record : DhtRecord).

#[export] Instance DhtRequestKind_eq_dec : EqDecision DhtRequestKind.
Proof. solve_decision. Defined.

Record DhtRequest := mkDhtRequest {
  DhtRequest_request_id : RequestId;
  DhtRequest_origin : NodeId;
  DhtRequest_request : DhtRequestKind
}.

#[export] Instance DhtRequest_eq_dec : EqDecision DhtRequest.
Proof. solve_decision. Defined.

Inductive ErrorCode :=
  | ErrorCode_Malformed
  | ErrorCode_UnsupportedVersion
  | ErrorCode_LimitExceeded
  | ErrorCode_Unauthorized
  | ErrorCode_NotFound
  | ErrorCode_Busy
  | ErrorCode_Duplicate
  | ErrorCode_PolicyDenied
  | ErrorCode_InvalidState
  | ErrorCode_Internal.

#[export] Instance ErrorCode_eq_dec : EqDecision ErrorCode.
Proof. solve_decision. Defined.

Inductive DhtResponseKind :=
  | DhtResponseKind_Pong
  | DhtResponseKind_Nodes (contacts : list SignedAnnouncement)
  | DhtResponseKind_Records (records : list DhtRecord)
  | DhtResponseKind_Stored
  | DhtResponseKind_NotFound
  | DhtResponseKind_Error (code : ErrorCode) (message : string).

#[export] Instance DhtResponseKind_eq_dec : EqDecision DhtResponseKind.
Proof. solve_decision. Defined.

Record DhtResponse := mkDhtResponse {
  DhtResponse_request_id : RequestId;
  DhtResponse_responder : NodeId;
  DhtResponse_response : DhtResponseKind
}.

#[export] Instance DhtResponse_eq_dec : EqDecision DhtResponse.
Proof. solve_decision. Defined.

Inductive AddressTransport :=
  | AddressTransport_QuicUdp.

#[export] Instance AddressTransport_eq_dec : EqDecision AddressTransport.
Proof. solve_decision. Defined.

Inductive AddressSource :=
  | AddressSource_Configured
  | AddressSource_Observed
  | AddressSource_Learned
  | AddressSource_Local
  | AddressSource_Relay.

#[export] Instance AddressSource_eq_dec : EqDecision AddressSource.
Proof. solve_decision. Defined.

Inductive ReachabilityState :=
  | ReachabilityState_PubliclyReachable
  | ReachabilityState_DirectlyReachable
  | ReachabilityState_NatUnknown
  | ReachabilityState_NatRestricted
  | ReachabilityState_RelayRequired
  | ReachabilityState_Unreachable.

#[export] Instance ReachabilityState_eq_dec : EqDecision ReachabilityState.
Proof. solve_decision. Defined.

Record AddressRecord := mkAddressRecord {
  AddressRecord_address : string;
  AddressRecord_transport : AddressTransport;
  AddressRecord_source : AddressSource;
  AddressRecord_expires_at : N;
  AddressRecord_confidence : N;
  AddressRecord_relay : option NodeId
}.

#[export] Instance AddressRecord_eq_dec : EqDecision AddressRecord.
Proof. solve_decision. Defined.

Record AddressUpdate := mkAddressUpdate {
  AddressUpdate_node_id : NodeId;
  AddressUpdate_sequence : N;
  AddressUpdate_addresses : list AddressRecord;
  AddressUpdate_signature : list N
}.

#[export] Instance AddressUpdate_eq_dec : EqDecision AddressUpdate.
Proof. solve_decision. Defined.

Record AddressObservation := mkAddressObservation {
  AddressObservation_subject : NodeId;
  AddressObservation_address : string;
  AddressObservation_observed_by : NodeId;
  AddressObservation_expires_at : N;
  AddressObservation_nonce : list N;
  AddressObservation_signature : list N
}.

#[export] Instance AddressObservation_eq_dec : EqDecision AddressObservation.
Proof. solve_decision. Defined.

Inductive JobKind :=
  | JobKind_Inference
  | JobKind_Evaluation
  | JobKind_Training.

#[export] Instance JobKind_eq_dec : EqDecision JobKind.
Proof. solve_decision. Defined.

Record PrivacyPolicy := mkPrivacyPolicy {
  PrivacyPolicy_allow_input_transfer : bool;
  PrivacyPolicy_allow_output_persistence : bool;
  PrivacyPolicy_require_trusted_peer : bool
}.

#[export] Instance PrivacyPolicy_eq_dec : EqDecision PrivacyPolicy.
Proof. solve_decision. Defined.

Record JobRequest := mkJobRequest {
  JobRequest_job_id : JobId;
  JobRequest_origin : NodeId;
  JobRequest_kind : JobKind;
  JobRequest_capability : string;
  JobRequest_model : option ArtifactId;
  JobRequest_input : list N;
  JobRequest_deadline_ms : N;
  JobRequest_max_output_bytes : N;
  JobRequest_privacy : PrivacyPolicy
}.

#[export] Instance JobRequest_eq_dec : EqDecision JobRequest.
Proof. solve_decision. Defined.

Inductive JobState :=
  | JobState_Received
  | JobState_Validated
  | JobState_Admitted
  | JobState_Queued
  | JobState_Running
  | JobState_Succeeded
  | JobState_Rejected
  | JobState_Cancelled
  | JobState_TimedOut
  | JobState_Failed.

#[export] Instance JobState_eq_dec : EqDecision JobState.
Proof. solve_decision. Defined.

Record Evidence := mkEvidence {
  Evidence_evaluator : NodeId;
  Evidence_evaluation_id : ArtifactId;
  Evidence_score : Z;
  Evidence_score_scale : string;
  Evidence_result_hash : ArtifactId;
  Evidence_observed_at : N;
  Evidence_verified : bool
}.

#[export] Instance Evidence_eq_dec : EqDecision Evidence.
Proof. solve_decision. Defined.

Inductive EvidenceKind :=
  | EvidenceKind_JobCompleted
  | EvidenceKind_Evaluation
  | EvidenceKind_ObservedOnline
  | EvidenceKind_ArtifactVerified
  | EvidenceKind_Endorsement
  | EvidenceKind_ProtocolViolation
  | EvidenceKind_InvalidSignature
  | EvidenceKind_ReplayAttempt
  | EvidenceKind_Equivocation
  | EvidenceKind_CorruptArtifact
  | EvidenceKind_CorruptCheckpoint
  | EvidenceKind_CapabilityFailure
  | EvidenceKind_Timeout
  | EvidenceKind_DhtPoisoning
  | EvidenceKind_TrainingUpdateRejected
  | EvidenceKind_ViolationReport.

#[export] Instance EvidenceKind_eq_dec : EqDecision EvidenceKind.
Proof. solve_decision. Defined.

Record SignedEvidence := mkSignedEvidence {
  SignedEvidence_issuer : NodeId;
  SignedEvidence_issuer_public_key : list N;
  SignedEvidence_subject : NodeId;
  SignedEvidence_kind : EvidenceKind;
  SignedEvidence_sequence : N;
  SignedEvidence_observed_at : N;
  SignedEvidence_expires_at : N;
  SignedEvidence_payload : list N;
  SignedEvidence_signature : list N
}.

#[export] Instance SignedEvidence_eq_dec : EqDecision SignedEvidence.
Proof. solve_decision. Defined.

Inductive JobUpdateKind :=
  | JobUpdateKind_Accepted (state : JobState)
  | JobUpdateKind_Started
  | JobUpdateKind_Chunk (sequence : N) (data : list N)
  | JobUpdateKind_Succeeded (output : list N) (output_hash : ArtifactId) (evidence : option Evidence)
  | JobUpdateKind_Rejected (code : string) (message : string)
  | JobUpdateKind_Cancelled
  | JobUpdateKind_TimedOut
  | JobUpdateKind_Failed (code : string) (message : string).

#[export] Instance JobUpdateKind_eq_dec : EqDecision JobUpdateKind.
Proof. solve_decision. Defined.

Record JobUpdate := mkJobUpdate {
  JobUpdate_job_id : JobId;
  JobUpdate_state : JobState;
  JobUpdate_sequence : N;
  JobUpdate_update : JobUpdateKind
}.

#[export] Instance JobUpdate_eq_dec : EqDecision JobUpdate.
Proof. solve_decision. Defined.

Record CancelJob := mkCancelJob {
  CancelJob_job_id : JobId;
  CancelJob_reason : string
}.

#[export] Instance CancelJob_eq_dec : EqDecision CancelJob.
Proof. solve_decision. Defined.

Record ProtocolError := mkProtocolError {
  ProtocolError_code : ErrorCode;
  ProtocolError_message : string
}.

#[export] Instance ProtocolError_eq_dec : EqDecision ProtocolError.
Proof. solve_decision. Defined.

Record Ping := mkPing {
  Ping_nonce : list N
}.

#[export] Instance Ping_eq_dec : EqDecision Ping.
Proof. solve_decision. Defined.

Record ArtifactRequest := mkArtifactRequest {
  ArtifactRequest_artifact : ArtifactId;
  ArtifactRequest_offset : N;
  ArtifactRequest_max_bytes : N
}.

#[export] Instance ArtifactRequest_eq_dec : EqDecision ArtifactRequest.
Proof. solve_decision. Defined.

Record ArtifactChunk := mkArtifactChunk {
  ArtifactChunk_artifact : ArtifactId;
  ArtifactChunk_offset : N;
  ArtifactChunk_data : list N;
  ArtifactChunk_final_chunk : bool
}.

#[export] Instance ArtifactChunk_eq_dec : EqDecision ArtifactChunk.
Proof. solve_decision. Defined.

Record ArtifactTransferRequest := mkArtifactTransferRequest {
  ArtifactTransferRequest_request_id : RequestId;
  ArtifactTransferRequest_artifact : ArtifactId;
  ArtifactTransferRequest_offset : N;
  ArtifactTransferRequest_max_bytes : N;
  ArtifactTransferRequest_expected_size : N;
  ArtifactTransferRequest_expected_hash : ArtifactId
}.

#[export] Instance ArtifactTransferRequest_eq_dec : EqDecision ArtifactTransferRequest.
Proof. solve_decision. Defined.

Record ArtifactTransferChunk := mkArtifactTransferChunk {
  ArtifactTransferChunk_request_id : RequestId;
  ArtifactTransferChunk_artifact : ArtifactId;
  ArtifactTransferChunk_offset : N;
  ArtifactTransferChunk_total_size : N;
  ArtifactTransferChunk_data : list N;
  ArtifactTransferChunk_final_chunk : bool
}.

#[export] Instance ArtifactTransferChunk_eq_dec : EqDecision ArtifactTransferChunk.
Proof. solve_decision. Defined.

Record KeyRotation := mkKeyRotation {
  KeyRotation_old_node_id : NodeId;
  KeyRotation_old_public_key : list N;
  KeyRotation_new_node_id : NodeId;
  KeyRotation_new_public_key : list N;
  KeyRotation_sequence : N;
  KeyRotation_valid_from : N;
  KeyRotation_valid_until : N;
  KeyRotation_old_signature : list N;
  KeyRotation_new_signature : list N
}.

#[export] Instance KeyRotation_eq_dec : EqDecision KeyRotation.
Proof. solve_decision. Defined.

Record RelayEnvelope := mkRelayEnvelope {
  RelayEnvelope_session_id : RequestId;
  RelayEnvelope_origin : NodeId;
  RelayEnvelope_origin_public_key : list N;
  RelayEnvelope_target : NodeId;
  RelayEnvelope_payload : list N;
  RelayEnvelope_signature : list N
}.

#[export] Instance RelayEnvelope_eq_dec : EqDecision RelayEnvelope.
Proof. solve_decision. Defined.

Inductive ArtifactKind :=
  | ArtifactKind_Model
  | ArtifactKind_Dataset
  | ArtifactKind_Checkpoint
  | ArtifactKind_Evaluation
  | ArtifactKind_Adapter.

#[export] Instance ArtifactKind_eq_dec : EqDecision ArtifactKind.
Proof. solve_decision. Defined.

Record ArtifactShard := mkArtifactShard {
  ArtifactShard_artifact : ArtifactId;
  ArtifactShard_index : N;
  ArtifactShard_size : N
}.

#[export] Instance ArtifactShard_eq_dec : EqDecision ArtifactShard.
Proof. solve_decision. Defined.

Record ArtifactManifest := mkArtifactManifest {
  ArtifactManifest_artifact : ArtifactId;
  ArtifactManifest_kind : ArtifactKind;
  ArtifactManifest_format : string;
  ArtifactManifest_size : N;
  ArtifactManifest_hash : ArtifactId;
  ArtifactManifest_shards : list ArtifactShard;
  ArtifactManifest_owner : option NodeId;
  ArtifactManifest_local_only : bool
}.

#[export] Instance ArtifactManifest_eq_dec : EqDecision ArtifactManifest.
Proof. solve_decision. Defined.

Record ModelManifest := mkModelManifest {
  ModelManifest_artifact : ArtifactId;
  ModelManifest_identity : string;
  ModelManifest_format : string;
  ModelManifest_size : N;
  ModelManifest_weights : list ArtifactShard;
  ModelManifest_capabilities : list string;
  ModelManifest_runtime_requirements : list MetadataEntry;
  ModelManifest_adapters : list ArtifactId;
  ModelManifest_local_path : option string;
  ModelManifest_local_only : bool
}.

#[export] Instance ModelManifest_eq_dec : EqDecision ModelManifest.
Proof. solve_decision. Defined.

Inductive DataLocality :=
  | DataLocality_LocalOnly
  | DataLocality_Selective
  | DataLocality_Streamable.

#[export] Instance DataLocality_eq_dec : EqDecision DataLocality.
Proof. solve_decision. Defined.

Record DatasetManifest := mkDatasetManifest {
  DatasetManifest_artifact : ArtifactId;
  DatasetManifest_identity : string;
  DatasetManifest_format : string;
  DatasetManifest_size : N;
  DatasetManifest_shards : list ArtifactShard;
  DatasetManifest_locality : DataLocality;
  DatasetManifest_sample_policy : string
}.

#[export] Instance DatasetManifest_eq_dec : EqDecision DatasetManifest.
Proof. solve_decision. Defined.

Record CheckpointManifest := mkCheckpointManifest {
  CheckpointManifest_artifact : ArtifactId;
  CheckpointManifest_model : ArtifactId;
  CheckpointManifest_parent : option ArtifactId;
  CheckpointManifest_step : N;
  CheckpointManifest_complete_weights : bool;
  CheckpointManifest_complete_optimizer : bool;
  CheckpointManifest_complete_scheduler : bool;
  CheckpointManifest_complete_rng : bool;
  CheckpointManifest_workers : N;
  CheckpointManifest_hash : ArtifactId
}.

#[export] Instance CheckpointManifest_eq_dec : EqDecision CheckpointManifest.
Proof. solve_decision. Defined.

Inductive SyncMode :=
  | SyncMode_Synchronous
  | SyncMode_BoundedStaleness
  | SyncMode_Asynchronous.

#[export] Instance SyncMode_eq_dec : EqDecision SyncMode.
Proof. solve_decision. Defined.

Record TrainingPlan := mkTrainingPlan {
  TrainingPlan_model : ArtifactId;
  TrainingPlan_dataset : ArtifactId;
  TrainingPlan_checkpoint : option ArtifactId;
  TrainingPlan_workers : N;
  TrainingPlan_sync : SyncMode;
  TrainingPlan_max_steps : N;
  TrainingPlan_checkpoint_every : N;
  TrainingPlan_evaluation_capability : option string
}.

#[export] Instance TrainingPlan_eq_dec : EqDecision TrainingPlan.
Proof. solve_decision. Defined.

Inductive ComputeTaskKind :=
  | ComputeTaskKind_TensorForward
  | ComputeTaskKind_TensorBackward
  | ComputeTaskKind_PipelineForward
  | ComputeTaskKind_PipelineBackward
  | ComputeTaskKind_TrainingStep
  | ComputeTaskKind_CapabilityChallenge.

#[export] Instance ComputeTaskKind_eq_dec : EqDecision ComputeTaskKind.
Proof. solve_decision. Defined.

Record ComputeRequirements := mkComputeRequirements {
  ComputeRequirements_task_kind : ComputeTaskKind;
  ComputeRequirements_required_backend : option BackendKind;
  ComputeRequirements_allowed_backends : list BackendKind;
  ComputeRequirements_required_formats : list NumericFormat;
  ComputeRequirements_required_memory_bytes : N;
  ComputeRequirements_max_tensor_elements : N;
  ComputeRequirements_required_features : list ComputeFeature;
  ComputeRequirements_kernel_id : string;
  ComputeRequirements_kernel_version : N;
  ComputeRequirements_fallback_backends : list BackendKind;
  ComputeRequirements_fallback_allowed : bool
}.

#[export] Instance ComputeRequirements_eq_dec : EqDecision ComputeRequirements.
Proof. solve_decision. Defined.

Record BackendAssignment := mkBackendAssignment {
  BackendAssignment_task_kind : ComputeTaskKind;
  BackendAssignment_worker : NodeId;
  BackendAssignment_backend : BackendKind;
  BackendAssignment_device_index : N;
  BackendAssignment_requirements : ComputeRequirements
}.

#[export] Instance BackendAssignment_eq_dec : EqDecision BackendAssignment.
Proof. solve_decision. Defined.

Record CapabilityChallenge := mkCapabilityChallenge {
  CapabilityChallenge_challenge_id : RequestId;
  CapabilityChallenge_job_id : JobId;
  CapabilityChallenge_worker : NodeId;
  CapabilityChallenge_backend : BackendKind;
  CapabilityChallenge_task_kind : ComputeTaskKind;
  CapabilityChallenge_format : NumericFormat;
  CapabilityChallenge_input_elements : N;
  CapabilityChallenge_seed : N;
  CapabilityChallenge_deadline_ms : N
}.

#[export] Instance CapabilityChallenge_eq_dec : EqDecision CapabilityChallenge.
Proof. solve_decision. Defined.

Record CapabilityChallengeResult := mkCapabilityChallengeResult {
  CapabilityChallengeResult_challenge_id : RequestId;
  CapabilityChallengeResult_worker : NodeId;
  CapabilityChallengeResult_backend : BackendKind;
  CapabilityChallengeResult_success : bool;
  CapabilityChallengeResult_output_hash : ArtifactId;
  CapabilityChallengeResult_elapsed_micros : N;
  CapabilityChallengeResult_allocated_bytes : N;
  CapabilityChallengeResult_health : BackendHealth;
  CapabilityChallengeResult_error : option string
}.

#[export] Instance CapabilityChallengeResult_eq_dec : EqDecision CapabilityChallengeResult.
Proof. solve_decision. Defined.

Record CapabilityEvidenceRecord := mkCapabilityEvidenceRecord {
  CapabilityEvidenceRecord_worker : NodeId;
  CapabilityEvidenceRecord_backend : BackendKind;
  CapabilityEvidenceRecord_observed_at : N;
  CapabilityEvidenceRecord_successful_challenges : N;
  CapabilityEvidenceRecord_failed_challenges : N;
  CapabilityEvidenceRecord_successful_tasks : N;
  CapabilityEvidenceRecord_failed_tasks : N;
  CapabilityEvidenceRecord_last_throughput_micros : N;
  CapabilityEvidenceRecord_last_error : option string
}.

#[export] Instance CapabilityEvidenceRecord_eq_dec : EqDecision CapabilityEvidenceRecord.
Proof. solve_decision. Defined.

Inductive TrainingExecution :=
  | TrainingExecution_Windowed
  | TrainingExecution_AutonomousLocalSgd.

#[export] Instance TrainingExecution_eq_dec : EqDecision TrainingExecution.
Proof. solve_decision. Defined.

Record TrainingSample := mkTrainingSample {
  TrainingSample_feature : Z;
  TrainingSample_target : Z
}.

#[export] Instance TrainingSample_eq_dec : EqDecision TrainingSample.
Proof. solve_decision. Defined.

Record TrainingShardAssignment := mkTrainingShardAssignment {
  TrainingShardAssignment_shard_id : N;
  TrainingShardAssignment_group_id : N;
  TrainingShardAssignment_owners : list NodeId;
  TrainingShardAssignment_replicas : list NodeId;
  TrainingShardAssignment_generation : N;
  TrainingShardAssignment_state_hash : ArtifactId
}.

#[export] Instance TrainingShardAssignment_eq_dec : EqDecision TrainingShardAssignment.
Proof. solve_decision. Defined.

Record TrainingGroup := mkTrainingGroup {
  TrainingGroup_group_id : N;
  TrainingGroup_shard_id : N;
  TrainingGroup_members : list NodeId;
  TrainingGroup_aggregator : NodeId
}.

#[export] Instance TrainingGroup_eq_dec : EqDecision TrainingGroup.
Proof. solve_decision. Defined.

Record TrainingStart := mkTrainingStart {
  TrainingStart_job_id : JobId;
  TrainingStart_coordinator : NodeId;
  TrainingStart_term : N;
  TrainingStart_membership_epoch : N;
  TrainingStart_branch : ArtifactId;
  TrainingStart_plan_hash : ArtifactId;
  TrainingStart_max_windows : N;
  TrainingStart_local_steps : N;
  TrainingStart_max_staleness : N;
  TrainingStart_checkpoint_every : N;
  TrainingStart_execution : TrainingExecution;
  TrainingStart_model_state_bytes : N;
  TrainingStart_shard_state_bytes : N;
  TrainingStart_participants : list NodeId;
  TrainingStart_groups : list TrainingGroup;
  TrainingStart_shards : list TrainingShardAssignment;
  TrainingStart_assignment : TrainingShardAssignment;
  TrainingStart_initial_value : Z;
  TrainingStart_initial_optimizer : Z;
  TrainingStart_samples : list TrainingSample
}.

#[export] Instance TrainingStart_eq_dec : EqDecision TrainingStart.
Proof. solve_decision. Defined.

Record TrainingWindow := mkTrainingWindow {
  TrainingWindow_job_id : JobId;
  TrainingWindow_coordinator : NodeId;
  TrainingWindow_term : N;
  TrainingWindow_membership_epoch : N;
  TrainingWindow_branch : ArtifactId;
  TrainingWindow_window : N;
  TrainingWindow_group_id : N;
  TrainingWindow_shard_id : N;
  TrainingWindow_aggregator : NodeId;
  TrainingWindow_members : list NodeId;
  TrainingWindow_base_generation : N;
  TrainingWindow_local_steps : N;
  TrainingWindow_max_staleness : N
}.

#[export] Instance TrainingWindow_eq_dec : EqDecision TrainingWindow.
Proof. solve_decision. Defined.

Record TrainingUpdate := mkTrainingUpdate {
  TrainingUpdate_job_id : JobId;
  TrainingUpdate_worker : NodeId;
  TrainingUpdate_term : N;
  TrainingUpdate_membership_epoch : N;
  TrainingUpdate_branch : ArtifactId;
  TrainingUpdate_window : N;
  TrainingUpdate_shard_id : N;
  TrainingUpdate_base_generation : N;
  TrainingUpdate_update_sequence : N;
  TrainingUpdate_value : Z;
  TrainingUpdate_optimizer : Z;
  TrainingUpdate_loss : Z;
  TrainingUpdate_samples : N
}.

#[export] Instance TrainingUpdate_eq_dec : EqDecision TrainingUpdate.
Proof. solve_decision. Defined.

Record TrainingAggregate := mkTrainingAggregate {
  TrainingAggregate_job_id : JobId;
  TrainingAggregate_aggregator : NodeId;
  TrainingAggregate_term : N;
  TrainingAggregate_membership_epoch : N;
  TrainingAggregate_branch : ArtifactId;
  TrainingAggregate_window : N;
  TrainingAggregate_group_id : N;
  TrainingAggregate_shard_id : N;
  TrainingAggregate_generation : N;
  TrainingAggregate_value : Z;
  TrainingAggregate_optimizer : Z;
  TrainingAggregate_loss : Z;
  TrainingAggregate_contributors : list NodeId;
  TrainingAggregate_state_artifact : ArtifactId;
  TrainingAggregate_replicas : list NodeId
}.

#[export] Instance TrainingAggregate_eq_dec : EqDecision TrainingAggregate.
Proof. solve_decision. Defined.

Record TrainingShardState := mkTrainingShardState {
  TrainingShardState_job_id : JobId;
  TrainingShardState_owner : NodeId;
  TrainingShardState_term : N;
  TrainingShardState_membership_epoch : N;
  TrainingShardState_branch : ArtifactId;
  TrainingShardState_shard_id : N;
  TrainingShardState_generation : N;
  TrainingShardState_value : Z;
  TrainingShardState_optimizer : Z;
  TrainingShardState_state_hash : ArtifactId
}.

#[export] Instance TrainingShardState_eq_dec : EqDecision TrainingShardState.
Proof. solve_decision. Defined.

Record TrainingShardSummary := mkTrainingShardSummary {
  TrainingShardSummary_shard_id : N;
  TrainingShardSummary_generation : N;
  TrainingShardSummary_state_hash : ArtifactId;
  TrainingShardSummary_providers : list NodeId
}.

#[export] Instance TrainingShardSummary_eq_dec : EqDecision TrainingShardSummary.
Proof. solve_decision. Defined.

Record TrainingState := mkTrainingState {
  TrainingState_job_id : JobId;
  TrainingState_coordinator : NodeId;
  TrainingState_term : N;
  TrainingState_membership_epoch : N;
  TrainingState_branch : ArtifactId;
  TrainingState_window : N;
  TrainingState_checkpoint_generation : N;
  TrainingState_checkpoint : option ArtifactId;
  TrainingState_shards : list TrainingShardSummary
}.

#[export] Instance TrainingState_eq_dec : EqDecision TrainingState.
Proof. solve_decision. Defined.

Inductive TrainingAckKind :=
  | TrainingAckKind_Start
  | TrainingAckKind_State (window : N) (state_hash : ArtifactId)
  | TrainingAckKind_Checkpoint (artifact : ArtifactId)
  | TrainingAckKind_Vote (candidate : NodeId) (term : N) (last_window : N) (granted : bool).

#[export] Instance TrainingAckKind_eq_dec : EqDecision TrainingAckKind.
Proof. solve_decision. Defined.

Record TrainingAck := mkTrainingAck {
  TrainingAck_job_id : JobId;
  TrainingAck_peer : NodeId;
  TrainingAck_term : N;
  TrainingAck_kind : TrainingAckKind
}.

#[export] Instance TrainingAck_eq_dec : EqDecision TrainingAck.
Proof. solve_decision. Defined.

Record TrainingElection := mkTrainingElection {
  TrainingElection_job_id : JobId;
  TrainingElection_candidate : NodeId;
  TrainingElection_term : N;
  TrainingElection_membership_epoch : N;
  TrainingElection_branch : ArtifactId;
  TrainingElection_last_window : N;
  TrainingElection_last_state_hash : ArtifactId
}.

#[export] Instance TrainingElection_eq_dec : EqDecision TrainingElection.
Proof. solve_decision. Defined.

Record TrainingCheckpointShard := mkTrainingCheckpointShard {
  TrainingCheckpointShard_shard_id : N;
  TrainingCheckpointShard_artifact : ArtifactId;
  TrainingCheckpointShard_generation : N;
  TrainingCheckpointShard_providers : list NodeId
}.

#[export] Instance TrainingCheckpointShard_eq_dec : EqDecision TrainingCheckpointShard.
Proof. solve_decision. Defined.

Record TrainingCheckpointManifest := mkTrainingCheckpointManifest {
  TrainingCheckpointManifest_job_id : JobId;
  TrainingCheckpointManifest_model_generation : N;
  TrainingCheckpointManifest_optimizer_generation : N;
  TrainingCheckpointManifest_membership_epoch : N;
  TrainingCheckpointManifest_term : N;
  TrainingCheckpointManifest_checkpoint_generation : N;
  TrainingCheckpointManifest_parent : option ArtifactId;
  TrainingCheckpointManifest_shards : list TrainingCheckpointShard;
  TrainingCheckpointManifest_dataset_progress : list (N * N);
  TrainingCheckpointManifest_hash : ArtifactId
}.

#[export] Instance TrainingCheckpointManifest_eq_dec : EqDecision TrainingCheckpointManifest.
Proof. solve_decision. Defined.

Record TrainingCheckpointOffer := mkTrainingCheckpointOffer {
  TrainingCheckpointOffer_job_id : JobId;
  TrainingCheckpointOffer_creator : NodeId;
  TrainingCheckpointOffer_term : N;
  TrainingCheckpointOffer_checkpoint_generation : N;
  TrainingCheckpointOffer_shard_id : N;
  TrainingCheckpointOffer_artifact : ArtifactId
}.

#[export] Instance TrainingCheckpointOffer_eq_dec : EqDecision TrainingCheckpointOffer.
Proof. solve_decision. Defined.

Record TrainingCheckpointCommit := mkTrainingCheckpointCommit {
  TrainingCheckpointCommit_job_id : JobId;
  TrainingCheckpointCommit_coordinator : NodeId;
  TrainingCheckpointCommit_term : N;
  TrainingCheckpointCommit_membership_epoch : N;
  TrainingCheckpointCommit_branch : ArtifactId;
  TrainingCheckpointCommit_manifest : TrainingCheckpointManifest;
  TrainingCheckpointCommit_quorum : list NodeId
}.

#[export] Instance TrainingCheckpointCommit_eq_dec : EqDecision TrainingCheckpointCommit.
Proof. solve_decision. Defined.

Inductive V4SupportLevel :=
  | V4SupportLevel_Supported
  | V4SupportLevel_Experimental
  | V4SupportLevel_Unsupported.

#[export] Instance V4SupportLevel_eq_dec : EqDecision V4SupportLevel.
Proof. solve_decision. Defined.

Inductive V4AcceleratorFamily :=
  | V4AcceleratorFamily_Cpu
  | V4AcceleratorFamily_Cuda
  | V4AcceleratorFamily_Rocm
  | V4AcceleratorFamily_Metal.

#[export] Instance V4AcceleratorFamily_eq_dec : EqDecision V4AcceleratorFamily.
Proof. solve_decision. Defined.

Inductive V4NumericalFormat :=
  | V4NumericalFormat_F32
  | V4NumericalFormat_F64
  | V4NumericalFormat_F16
  | V4NumericalFormat_Bf16
  | V4NumericalFormat_I8.

#[export] Instance V4NumericalFormat_eq_dec : EqDecision V4NumericalFormat.
Proof. solve_decision. Defined.

Record V4AcceleratorCapability := mkV4AcceleratorCapability {
  V4AcceleratorCapability_family : V4AcceleratorFamily;
  V4AcceleratorCapability_device_model : string;
  V4AcceleratorCapability_device_count : N;
  V4AcceleratorCapability_memory_bytes : N;
  V4AcceleratorCapability_formats : list V4NumericalFormat;
  V4AcceleratorCapability_runtime : string;
  V4AcceleratorCapability_runtime_version : string;
  V4AcceleratorCapability_physical_verified : bool
}.

#[export] Instance V4AcceleratorCapability_eq_dec : EqDecision V4AcceleratorCapability.
Proof. solve_decision. Defined.

Record V4WorkerCapability := mkV4WorkerCapability {
  V4WorkerCapability_node : NodeId;
  V4WorkerCapability_accelerator : V4AcceleratorCapability;
  V4WorkerCapability_memory_bytes : N;
  V4WorkerCapability_compute_units : N;
  V4WorkerCapability_rtt_ms : N;
  V4WorkerCapability_bandwidth_mbps : N;
  V4WorkerCapability_reliability_permille : N;
  V4WorkerCapability_backends : list BackendCapabilities
}.

#[export] Instance V4WorkerCapability_eq_dec : EqDecision V4WorkerCapability.
Proof. solve_decision. Defined.

Inductive V4ParallelismStrategy :=
  | V4ParallelismStrategy_LocalSgd
  | V4ParallelismStrategy_TensorParallel
  | V4ParallelismStrategy_PipelineParallel
  | V4ParallelismStrategy_Hybrid.

#[export] Instance V4ParallelismStrategy_eq_dec : EqDecision V4ParallelismStrategy.
Proof. solve_decision. Defined.

Inductive V4ShardLifecycle :=
  | V4ShardLifecycle_Assigned
  | V4ShardLifecycle_Transferring
  | V4ShardLifecycle_Verified
  | V4ShardLifecycle_Active
  | V4ShardLifecycle_Replicating
  | V4ShardLifecycle_Draining
  | V4ShardLifecycle_Retired
  | V4ShardLifecycle_Failed.

#[export] Instance V4ShardLifecycle_eq_dec : EqDecision V4ShardLifecycle.
Proof. solve_decision. Defined.

Record V4AggregationGroup := mkV4AggregationGroup {
  V4AggregationGroup_group_id : N;
  V4AggregationGroup_members : list NodeId;
  V4AggregationGroup_aggregator : NodeId;
  V4AggregationGroup_parent : option NodeId
}.

#[export] Instance V4AggregationGroup_eq_dec : EqDecision V4AggregationGroup.
Proof. solve_decision. Defined.

Record V4ShardOwnership := mkV4ShardOwnership {
  V4ShardOwnership_shard_id : N;
  V4ShardOwnership_model_generation : N;
  V4ShardOwnership_owners : list NodeId;
  V4ShardOwnership_replicas : list NodeId;
  V4ShardOwnership_ownership_generation : N;
  V4ShardOwnership_content_hash : ArtifactId;
  V4ShardOwnership_state_bytes : N;
  V4ShardOwnership_memory_bytes : N;
  V4ShardOwnership_runtime_requirement : string;
  V4ShardOwnership_lifecycle : V4ShardLifecycle
}.

#[export] Instance V4ShardOwnership_eq_dec : EqDecision V4ShardOwnership.
Proof. solve_decision. Defined.

Record V4TrainingPlan := mkV4TrainingPlan {
  V4TrainingPlan_job_id : JobId;
  V4TrainingPlan_proposer : NodeId;
  V4TrainingPlan_plan_generation : N;
  V4TrainingPlan_model_generation : N;
  V4TrainingPlan_training_epoch : N;
  V4TrainingPlan_membership_epoch : N;
  V4TrainingPlan_coordination_term : N;
  V4TrainingPlan_branch : ArtifactId;
  V4TrainingPlan_strategy : V4ParallelismStrategy;
  V4TrainingPlan_support : V4SupportLevel;
  V4TrainingPlan_workers : list NodeId;
  V4TrainingPlan_groups : list V4AggregationGroup;
  V4TrainingPlan_shards : list V4ShardOwnership;
  V4TrainingPlan_tensor_degree : N;
  V4TrainingPlan_pipeline_stages : N;
  V4TrainingPlan_local_steps : N;
  V4TrainingPlan_max_staleness : N;
  V4TrainingPlan_checkpoint_replication : N;
  V4TrainingPlan_data_locality : DataLocality;
  V4TrainingPlan_accelerator : option V4AcceleratorCapability;
  V4TrainingPlan_worker_capabilities : list V4WorkerCapability;
  V4TrainingPlan_rationale : string;
  V4TrainingPlan_plan_hash : ArtifactId;
  V4TrainingPlan_parent_plan_hash : option ArtifactId;
  V4TrainingPlan_compute_requirements : list ComputeRequirements;
  V4TrainingPlan_backend_assignments : list BackendAssignment
}.

#[export] Instance V4TrainingPlan_eq_dec : EqDecision V4TrainingPlan.
Proof. solve_decision. Defined.

Inductive V4TrainingPhase :=
  | V4TrainingPhase_Planned
  | V4TrainingPhase_Running
  | V4TrainingPhase_Reconfiguring
  | V4TrainingPhase_Paused
  | V4TrainingPhase_Committed
  | V4TrainingPhase_Failed.

#[export] Instance V4TrainingPhase_eq_dec : EqDecision V4TrainingPhase.
Proof. solve_decision. Defined.

Record V4TrainingStateRecord := mkV4TrainingStateRecord {
  V4TrainingStateRecord_job_id : JobId;
  V4TrainingStateRecord_coordinator : NodeId;
  V4TrainingStateRecord_plan_hash : ArtifactId;
  V4TrainingStateRecord_plan_generation : N;
  V4TrainingStateRecord_training_epoch : N;
  V4TrainingStateRecord_membership_epoch : N;
  V4TrainingStateRecord_coordination_term : N;
  V4TrainingStateRecord_optimizer_generation : N;
  V4TrainingStateRecord_checkpoint_generation : N;
  V4TrainingStateRecord_branch : ArtifactId;
  V4TrainingStateRecord_phase : V4TrainingPhase;
  V4TrainingStateRecord_workers : list NodeId;
  V4TrainingStateRecord_shards : list V4ShardOwnership;
  V4TrainingStateRecord_data_progress : list N;
  V4TrainingStateRecord_checkpoint : option ArtifactId;
  V4TrainingStateRecord_state_hash : ArtifactId
}.

#[export] Instance V4TrainingStateRecord_eq_dec : EqDecision V4TrainingStateRecord.
Proof. solve_decision. Defined.

Inductive V4StateAckKind :=
  | V4StateAckKind_TrainingState
  | V4StateAckKind_OptimizerShard
  | V4StateAckKind_Checkpoint.

#[export] Instance V4StateAckKind_eq_dec : EqDecision V4StateAckKind.
Proof. solve_decision. Defined.

Record V4OptimizerShardRecord := mkV4OptimizerShardRecord {
  V4OptimizerShardRecord_job_id : JobId;
  V4OptimizerShardRecord_plan_generation : N;
  V4OptimizerShardRecord_model_generation : N;
  V4OptimizerShardRecord_optimizer_generation : N;
  V4OptimizerShardRecord_shard_id : N;
  V4OptimizerShardRecord_owner : NodeId;
  V4OptimizerShardRecord_replicas : list NodeId;
  V4OptimizerShardRecord_content_hash : ArtifactId;
  V4OptimizerShardRecord_state_bytes : N;
  V4OptimizerShardRecord_state_hash : ArtifactId
}.

#[export] Instance V4OptimizerShardRecord_eq_dec : EqDecision V4OptimizerShardRecord.
Proof. solve_decision. Defined.

Record V4CheckpointRecord := mkV4CheckpointRecord {
  V4CheckpointRecord_job_id : JobId;
  V4CheckpointRecord_plan_generation : N;
  V4CheckpointRecord_model_generation : N;
  V4CheckpointRecord_optimizer_generation : N;
  V4CheckpointRecord_membership_epoch : N;
  V4CheckpointRecord_checkpoint_generation : N;
  V4CheckpointRecord_branch : ArtifactId;
  V4CheckpointRecord_parent : option ArtifactId;
  V4CheckpointRecord_shard_hashes : list ArtifactId;
  V4CheckpointRecord_providers : list NodeId;
  V4CheckpointRecord_complete : bool;
  V4CheckpointRecord_manifest_hash : ArtifactId
}.

#[export] Instance V4CheckpointRecord_eq_dec : EqDecision V4CheckpointRecord.
Proof. solve_decision. Defined.

Record V4StateAck := mkV4StateAck {
  V4StateAck_job_id : JobId;
  V4StateAck_plan_generation : N;
  V4StateAck_generation : N;
  V4StateAck_kind : V4StateAckKind;
  V4StateAck_state_hash : ArtifactId;
  V4StateAck_accepted : bool
}.

#[export] Instance V4StateAck_eq_dec : EqDecision V4StateAck.
Proof. solve_decision. Defined.

Inductive V4ShardMigrationPhase :=
  | V4ShardMigrationPhase_Prepare
  | V4ShardMigrationPhase_Commit
  | V4ShardMigrationPhase_Abort.

#[export] Instance V4ShardMigrationPhase_eq_dec : EqDecision V4ShardMigrationPhase.
Proof. solve_decision. Defined.

Record V4ShardMigration := mkV4ShardMigration {
  V4ShardMigration_job_id : JobId;
  V4ShardMigration_plan_generation : N;
  V4ShardMigration_shard_id : N;
  V4ShardMigration_from : NodeId;
  V4ShardMigration_to : NodeId;
  V4ShardMigration_ownership_generation : N;
  V4ShardMigration_content_hash : ArtifactId;
  V4ShardMigration_state : list N;
  V4ShardMigration_phase : V4ShardMigrationPhase
}.

#[export] Instance V4ShardMigration_eq_dec : EqDecision V4ShardMigration.
Proof. solve_decision. Defined.

Record V4ShardMigrationAck := mkV4ShardMigrationAck {
  V4ShardMigrationAck_job_id : JobId;
  V4ShardMigrationAck_plan_generation : N;
  V4ShardMigrationAck_shard_id : N;
  V4ShardMigrationAck_owner : NodeId;
  V4ShardMigrationAck_ownership_generation : N;
  V4ShardMigrationAck_content_hash : ArtifactId;
  V4ShardMigrationAck_verified : bool;
  V4ShardMigrationAck_phase : V4ShardMigrationPhase
}.

#[export] Instance V4ShardMigrationAck_eq_dec : EqDecision V4ShardMigrationAck.
Proof. solve_decision. Defined.

Record V4ShardMigrationRequest := mkV4ShardMigrationRequest {
  V4ShardMigrationRequest_request_id : JobId;
  V4ShardMigrationRequest_job_id : JobId;
  V4ShardMigrationRequest_proposer : NodeId;
  V4ShardMigrationRequest_proposal_hash : ArtifactId;
  V4ShardMigrationRequest_plan_generation : N;
  V4ShardMigrationRequest_shard_id : N;
  V4ShardMigrationRequest_from : NodeId;
  V4ShardMigrationRequest_to : NodeId;
  V4ShardMigrationRequest_ownership_generation : N;
  V4ShardMigrationRequest_content_hash : ArtifactId;
  V4ShardMigrationRequest_reply_to : NodeId
}.

#[export] Instance V4ShardMigrationRequest_eq_dec : EqDecision V4ShardMigrationRequest.
Proof. solve_decision. Defined.

Record V4ShardMigrationResult := mkV4ShardMigrationResult {
  V4ShardMigrationResult_request_id : JobId;
  V4ShardMigrationResult_job_id : JobId;
  V4ShardMigrationResult_plan_generation : N;
  V4ShardMigrationResult_shard_id : N;
  V4ShardMigrationResult_from : NodeId;
  V4ShardMigrationResult_to : NodeId;
  V4ShardMigrationResult_ownership_generation : N;
  V4ShardMigrationResult_content_hash : ArtifactId;
  V4ShardMigrationResult_accepted : bool;
  V4ShardMigrationResult_reason : string
}.

#[export] Instance V4ShardMigrationResult_eq_dec : EqDecision V4ShardMigrationResult.
Proof. solve_decision. Defined.

Record V4PlanProposalAck := mkV4PlanProposalAck {
  V4PlanProposalAck_job_id : JobId;
  V4PlanProposalAck_plan_generation : N;
  V4PlanProposalAck_proposal_hash : ArtifactId;
  V4PlanProposalAck_accepted : bool;
  V4PlanProposalAck_reason : string
}.

#[export] Instance V4PlanProposalAck_eq_dec : EqDecision V4PlanProposalAck.
Proof. solve_decision. Defined.

Record V4PlanAck := mkV4PlanAck {
  V4PlanAck_job_id : JobId;
  V4PlanAck_plan_generation : N;
  V4PlanAck_plan_hash : ArtifactId;
  V4PlanAck_accepted : bool;
  V4PlanAck_reason : string
}.

#[export] Instance V4PlanAck_eq_dec : EqDecision V4PlanAck.
Proof. solve_decision. Defined.

Record V4TensorInstall := mkV4TensorInstall {
  V4TensorInstall_job_id : JobId;
  V4TensorInstall_plan_generation : N;
  V4TensorInstall_model_generation : N;
  V4TensorInstall_shard_id : N;
  V4TensorInstall_rows : N;
  V4TensorInstall_cols : N;
  V4TensorInstall_row_offset : N;
  V4TensorInstall_weights : list Z;
  V4TensorInstall_state_hash : ArtifactId
}.

#[export] Instance V4TensorInstall_eq_dec : EqDecision V4TensorInstall.
Proof. solve_decision. Defined.

Record V4TensorInstallAck := mkV4TensorInstallAck {
  V4TensorInstallAck_job_id : JobId;
  V4TensorInstallAck_plan_generation : N;
  V4TensorInstallAck_shard_id : N;
  V4TensorInstallAck_state_hash : ArtifactId;
  V4TensorInstallAck_accepted : bool
}.

#[export] Instance V4TensorInstallAck_eq_dec : EqDecision V4TensorInstallAck.
Proof. solve_decision. Defined.

Record V4TensorForward := mkV4TensorForward {
  V4TensorForward_request_id : JobId;
  V4TensorForward_job_id : JobId;
  V4TensorForward_plan_generation : N;
  V4TensorForward_model_generation : N;
  V4TensorForward_shard_id : N;
  V4TensorForward_sequence : N;
  V4TensorForward_input : list Z
}.

#[export] Instance V4TensorForward_eq_dec : EqDecision V4TensorForward.
Proof. solve_decision. Defined.

Record V4TensorForwardResult := mkV4TensorForwardResult {
  V4TensorForwardResult_request_id : JobId;
  V4TensorForwardResult_job_id : JobId;
  V4TensorForwardResult_plan_generation : N;
  V4TensorForwardResult_shard_id : N;
  V4TensorForwardResult_sequence : N;
  V4TensorForwardResult_output : list Z;
  V4TensorForwardResult_state_hash : ArtifactId
}.

#[export] Instance V4TensorForwardResult_eq_dec : EqDecision V4TensorForwardResult.
Proof. solve_decision. Defined.

Record V4TensorBackward := mkV4TensorBackward {
  V4TensorBackward_request_id : JobId;
  V4TensorBackward_job_id : JobId;
  V4TensorBackward_plan_generation : N;
  V4TensorBackward_model_generation : N;
  V4TensorBackward_shard_id : N;
  V4TensorBackward_sequence : N;
  V4TensorBackward_input : list Z;
  V4TensorBackward_upstream : list Z;
  V4TensorBackward_learning_rate_micros : Z
}.

#[export] Instance V4TensorBackward_eq_dec : EqDecision V4TensorBackward.
Proof. solve_decision. Defined.

Record V4TensorBackwardResult := mkV4TensorBackwardResult {
  V4TensorBackwardResult_request_id : JobId;
  V4TensorBackwardResult_job_id : JobId;
  V4TensorBackwardResult_plan_generation : N;
  V4TensorBackwardResult_shard_id : N;
  V4TensorBackwardResult_sequence : N;
  V4TensorBackwardResult_weight_gradient : list Z;
  V4TensorBackwardResult_input_gradient : list Z;
  V4TensorBackwardResult_state_hash : ArtifactId;
  V4TensorBackwardResult_state_generation : N;
  V4TensorBackwardResult_optimizer_state_hash : option ArtifactId;
  V4TensorBackwardResult_optimizer_state_generation : N
}.

#[export] Instance V4TensorBackwardResult_eq_dec : EqDecision V4TensorBackwardResult.
Proof. solve_decision. Defined.

Record V4PipelineInstall := mkV4PipelineInstall {
  V4PipelineInstall_job_id : JobId;
  V4PipelineInstall_plan_generation : N;
  V4PipelineInstall_stage_id : N;
  V4PipelineInstall_stage_count : N;
  V4PipelineInstall_coefficient : Z;
  V4PipelineInstall_bias : Z;
  V4PipelineInstall_state_hash : ArtifactId
}.

#[export] Instance V4PipelineInstall_eq_dec : EqDecision V4PipelineInstall.
Proof. solve_decision. Defined.

Record V4PipelineInstallAck := mkV4PipelineInstallAck {
  V4PipelineInstallAck_job_id : JobId;
  V4PipelineInstallAck_plan_generation : N;
  V4PipelineInstallAck_stage_id : N;
  V4PipelineInstallAck_state_hash : ArtifactId;
  V4PipelineInstallAck_accepted : bool
}.

#[export] Instance V4PipelineInstallAck_eq_dec : EqDecision V4PipelineInstallAck.
Proof. solve_decision. Defined.

Record V4PipelineForward := mkV4PipelineForward {
  V4PipelineForward_request_id : JobId;
  V4PipelineForward_job_id : JobId;
  V4PipelineForward_plan_generation : N;
  V4PipelineForward_stage_id : N;
  V4PipelineForward_stage_count : N;
  V4PipelineForward_microbatch : N;
  V4PipelineForward_activation : list Z;
  V4PipelineForward_next_stage : option NodeId;
  V4PipelineForward_reply_to : NodeId;
  V4PipelineForward_deadline_ms : N
}.

#[export] Instance V4PipelineForward_eq_dec : EqDecision V4PipelineForward.
Proof. solve_decision. Defined.

Record V4PipelineForwardResult := mkV4PipelineForwardResult {
  V4PipelineForwardResult_request_id : JobId;
  V4PipelineForwardResult_job_id : JobId;
  V4PipelineForwardResult_plan_generation : N;
  V4PipelineForwardResult_microbatch : N;
  V4PipelineForwardResult_stage_id : N;
  V4PipelineForwardResult_activation : list Z;
  V4PipelineForwardResult_state_hash : ArtifactId
}.

#[export] Instance V4PipelineForwardResult_eq_dec : EqDecision V4PipelineForwardResult.
Proof. solve_decision. Defined.

Record V4PipelineBackward := mkV4PipelineBackward {
  V4PipelineBackward_request_id : JobId;
  V4PipelineBackward_job_id : JobId;
  V4PipelineBackward_plan_generation : N;
  V4PipelineBackward_stage_id : N;
  V4PipelineBackward_stage_count : N;
  V4PipelineBackward_microbatch : N;
  V4PipelineBackward_gradient : list Z;
  V4PipelineBackward_previous_stage : option NodeId;
  V4PipelineBackward_reply_to : NodeId;
  V4PipelineBackward_deadline_ms : N
}.

#[export] Instance V4PipelineBackward_eq_dec : EqDecision V4PipelineBackward.
Proof. solve_decision. Defined.

Record V4PipelineBackwardResult := mkV4PipelineBackwardResult {
  V4PipelineBackwardResult_request_id : JobId;
  V4PipelineBackwardResult_job_id : JobId;
  V4PipelineBackwardResult_plan_generation : N;
  V4PipelineBackwardResult_microbatch : N;
  V4PipelineBackwardResult_stage_id : N;
  V4PipelineBackwardResult_gradient : list Z;
  V4PipelineBackwardResult_state_hash : ArtifactId
}.

#[export] Instance V4PipelineBackwardResult_eq_dec : EqDecision V4PipelineBackwardResult.
Proof. solve_decision. Defined.

Record V4CollectiveContribute := mkV4CollectiveContribute {
  V4CollectiveContribute_request_id : JobId;
  V4CollectiveContribute_job_id : JobId;
  V4CollectiveContribute_plan_generation : N;
  V4CollectiveContribute_generation : N;
  V4CollectiveContribute_group_id : N;
  V4CollectiveContribute_contributor : NodeId;
  V4CollectiveContribute_aggregator : NodeId;
  V4CollectiveContribute_parent : option NodeId;
  V4CollectiveContribute_expected_contributors : N;
  V4CollectiveContribute_expected_groups : N;
  V4CollectiveContribute_values : list Z;
  V4CollectiveContribute_reply_to : NodeId
}.

#[export] Instance V4CollectiveContribute_eq_dec : EqDecision V4CollectiveContribute.
Proof. solve_decision. Defined.

Record V4CollectiveAggregate := mkV4CollectiveAggregate {
  V4CollectiveAggregate_request_id : JobId;
  V4CollectiveAggregate_job_id : JobId;
  V4CollectiveAggregate_plan_generation : N;
  V4CollectiveAggregate_generation : N;
  V4CollectiveAggregate_group_id : N;
  V4CollectiveAggregate_aggregator : NodeId;
  V4CollectiveAggregate_values : list Z;
  V4CollectiveAggregate_contributors : N;
  V4CollectiveAggregate_expected_groups : N;
  V4CollectiveAggregate_reply_to : NodeId
}.

#[export] Instance V4CollectiveAggregate_eq_dec : EqDecision V4CollectiveAggregate.
Proof. solve_decision. Defined.

Record V4CollectiveResult := mkV4CollectiveResult {
  V4CollectiveResult_request_id : JobId;
  V4CollectiveResult_job_id : JobId;
  V4CollectiveResult_plan_generation : N;
  V4CollectiveResult_generation : N;
  V4CollectiveResult_values : list Z;
  V4CollectiveResult_group_count : N;
  V4CollectiveResult_max_fan_in : N;
  V4CollectiveResult_contributor_bytes : N;
  V4CollectiveResult_root_received_bytes : N
}.

#[export] Instance V4CollectiveResult_eq_dec : EqDecision V4CollectiveResult.
Proof. solve_decision. Defined.

Record V4TrainingBranch := mkV4TrainingBranch {
  V4TrainingBranch_job_id : JobId;
  V4TrainingBranch_branch : ArtifactId;
  V4TrainingBranch_parent_generation : N;
  V4TrainingBranch_model_generation : N;
  V4TrainingBranch_optimizer_generation : N;
  V4TrainingBranch_dataset_progress : N;
  V4TrainingBranch_plan_generation : N;
  V4TrainingBranch_created_by : NodeId
}.

#[export] Instance V4TrainingBranch_eq_dec : EqDecision V4TrainingBranch.
Proof. solve_decision. Defined.

Inductive V4ReconciliationPolicy :=
  | V4ReconciliationPolicy_AbortBranch
  | V4ReconciliationPolicy_SelectBranch
  | V4ReconciliationPolicy_AverageCompatibleState
  | V4ReconciliationPolicy_MergeLocalSgdState
  | V4ReconciliationPolicy_ManualOperatorRequired.

#[export] Instance V4ReconciliationPolicy_eq_dec : EqDecision V4ReconciliationPolicy.
Proof. solve_decision. Defined.

Record V4ReconcileRequest := mkV4ReconcileRequest {
  V4ReconcileRequest_request_id : JobId;
  V4ReconcileRequest_job_id : JobId;
  V4ReconcileRequest_plan_generation : N;
  V4ReconcileRequest_left : V4TrainingBranch;
  V4ReconcileRequest_right : V4TrainingBranch;
  V4ReconcileRequest_policy : V4ReconciliationPolicy;
  V4ReconcileRequest_left_value : Z;
  V4ReconcileRequest_right_value : Z
}.

#[export] Instance V4ReconcileRequest_eq_dec : EqDecision V4ReconcileRequest.
Proof. solve_decision. Defined.

Record V4ReconcileResult := mkV4ReconcileResult {
  V4ReconcileResult_request_id : JobId;
  V4ReconcileResult_job_id : JobId;
  V4ReconcileResult_plan_generation : N;
  V4ReconcileResult_accepted : bool;
  V4ReconcileResult_branch : option ArtifactId;
  V4ReconcileResult_merged_value : option Z;
  V4ReconcileResult_reason : string
}.

#[export] Instance V4ReconcileResult_eq_dec : EqDecision V4ReconcileResult.
Proof. solve_decision. Defined.

Inductive V4ByzantinePolicy :=
  | V4ByzantinePolicy_Mean
  | V4ByzantinePolicy_ClippedMean
  | V4ByzantinePolicy_TrimmedMean
  | V4ByzantinePolicy_CoordinateMedian.

#[export] Instance V4ByzantinePolicy_eq_dec : EqDecision V4ByzantinePolicy.
Proof. solve_decision. Defined.

Record V4ByzantineUpdate := mkV4ByzantineUpdate {
  V4ByzantineUpdate_request_id : JobId;
  V4ByzantineUpdate_job_id : JobId;
  V4ByzantineUpdate_plan_generation : N;
  V4ByzantineUpdate_generation : N;
  V4ByzantineUpdate_worker : NodeId;
  V4ByzantineUpdate_aggregator : NodeId;
  V4ByzantineUpdate_sequence : N;
  V4ByzantineUpdate_values : list Z;
  V4ByzantineUpdate_policy : V4ByzantinePolicy;
  V4ByzantineUpdate_expected_updates : N;
  V4ByzantineUpdate_reply_to : NodeId
}.

#[export] Instance V4ByzantineUpdate_eq_dec : EqDecision V4ByzantineUpdate.
Proof. solve_decision. Defined.

Record V4ByzantineResult := mkV4ByzantineResult {
  V4ByzantineResult_request_id : JobId;
  V4ByzantineResult_job_id : JobId;
  V4ByzantineResult_plan_generation : N;
  V4ByzantineResult_generation : N;
  V4ByzantineResult_policy : V4ByzantinePolicy;
  V4ByzantineResult_aggregate : list Z;
  V4ByzantineResult_accepted_workers : list NodeId;
  V4ByzantineResult_rejected_workers : list NodeId;
  V4ByzantineResult_robust : bool
}.

#[export] Instance V4ByzantineResult_eq_dec : EqDecision V4ByzantineResult.
Proof. solve_decision. Defined.

Record V4TensorGroup := mkV4TensorGroup {
  V4TensorGroup_group_id : N;
  V4TensorGroup_members : list NodeId;
  V4TensorGroup_shard_ids : list N;
  V4TensorGroup_generation : N
}.

#[export] Instance V4TensorGroup_eq_dec : EqDecision V4TensorGroup.
Proof. solve_decision. Defined.

Record V4PipelineStageAssignment := mkV4PipelineStageAssignment {
  V4PipelineStageAssignment_stage_id : N;
  V4PipelineStageAssignment_worker : NodeId;
  V4PipelineStageAssignment_replicas : list NodeId;
  V4PipelineStageAssignment_generation : N
}.

#[export] Instance V4PipelineStageAssignment_eq_dec : EqDecision V4PipelineStageAssignment.
Proof. solve_decision. Defined.

Record V4OptimizerPlacement := mkV4OptimizerPlacement {
  V4OptimizerPlacement_shard_id : N;
  V4OptimizerPlacement_owner : NodeId;
  V4OptimizerPlacement_replicas : list NodeId;
  V4OptimizerPlacement_generation : N
}.

#[export] Instance V4OptimizerPlacement_eq_dec : EqDecision V4OptimizerPlacement.
Proof. solve_decision. Defined.

Record V4ExecutionGraph := mkV4ExecutionGraph {
  V4ExecutionGraph_job_id : JobId;
  V4ExecutionGraph_graph_generation : N;
  V4ExecutionGraph_parent_graph_generation : option N;
  V4ExecutionGraph_proposer : NodeId;
  V4ExecutionGraph_coordinator : NodeId;
  V4ExecutionGraph_reply_to : NodeId;
  V4ExecutionGraph_plan_hash : ArtifactId;
  V4ExecutionGraph_branch : ArtifactId;
  V4ExecutionGraph_training_epoch : N;
  V4ExecutionGraph_membership_epoch : N;
  V4ExecutionGraph_coordination_term : N;
  V4ExecutionGraph_optimizer_generation : N;
  V4ExecutionGraph_checkpoint_generation : N;
  V4ExecutionGraph_workers : list NodeId;
  V4ExecutionGraph_retired_workers : list NodeId;
  V4ExecutionGraph_tensor_groups : list V4TensorGroup;
  V4ExecutionGraph_pipeline_stages : list V4PipelineStageAssignment;
  V4ExecutionGraph_aggregation_groups : list V4AggregationGroup;
  V4ExecutionGraph_shards : list V4ShardOwnership;
  V4ExecutionGraph_optimizer_shards : list V4OptimizerPlacement;
  V4ExecutionGraph_collective_generation : N;
  V4ExecutionGraph_local_steps : N;
  V4ExecutionGraph_max_staleness : N;
  V4ExecutionGraph_checkpoint_replication : N;
  V4ExecutionGraph_strategy : V4ParallelismStrategy;
  V4ExecutionGraph_election_certificate : list NodeId;
  V4ExecutionGraph_backend_assignments : list BackendAssignment;
  V4ExecutionGraph_graph_hash : ArtifactId
}.

#[export] Instance V4ExecutionGraph_eq_dec : EqDecision V4ExecutionGraph.
Proof. solve_decision. Defined.

Inductive V4IntegratedPhase :=
  | V4IntegratedPhase_Preparing
  | V4IntegratedPhase_Running
  | V4IntegratedPhase_Reconfiguring
  | V4IntegratedPhase_Partitioned
  | V4IntegratedPhase_Committed
  | V4IntegratedPhase_Failed.

#[export] Instance V4IntegratedPhase_eq_dec : EqDecision V4IntegratedPhase.
Proof. solve_decision. Defined.

Record V4IntegratedStateRecord := mkV4IntegratedStateRecord {
  V4IntegratedStateRecord_job_id : JobId;
  V4IntegratedStateRecord_graph_generation : N;
  V4IntegratedStateRecord_plan_hash : ArtifactId;
  V4IntegratedStateRecord_branch : ArtifactId;
  V4IntegratedStateRecord_coordinator : NodeId;
  V4IntegratedStateRecord_phase : V4IntegratedPhase;
  V4IntegratedStateRecord_window : N;
  V4IntegratedStateRecord_target_windows : N;
  V4IntegratedStateRecord_initial_loss_micros : Z;
  V4IntegratedStateRecord_current_loss_micros : Z;
  V4IntegratedStateRecord_checkpoint_generation : N;
  V4IntegratedStateRecord_model_generation : N;
  V4IntegratedStateRecord_optimizer_generation : N;
  V4IntegratedStateRecord_membership_epoch : N;
  V4IntegratedStateRecord_collective_generation : N;
  V4IntegratedStateRecord_recovery_count : N;
  V4IntegratedStateRecord_state_hash : ArtifactId
}.

#[export] Instance V4IntegratedStateRecord_eq_dec : EqDecision V4IntegratedStateRecord.
Proof. solve_decision. Defined.

Record V4IntegratedStart := mkV4IntegratedStart {
  V4IntegratedStart_request_id : JobId;
  V4IntegratedStart_graph : V4ExecutionGraph;
  V4IntegratedStart_plan : V4TrainingPlan;
  V4IntegratedStart_windows : N;
  V4IntegratedStart_checkpoint_every : N;
  V4IntegratedStart_reply_to : NodeId
}.

#[export] Instance V4IntegratedStart_eq_dec : EqDecision V4IntegratedStart.
Proof. solve_decision. Defined.

Record V4IntegratedAck := mkV4IntegratedAck {
  V4IntegratedAck_job_id : JobId;
  V4IntegratedAck_graph_generation : N;
  V4IntegratedAck_worker : NodeId;
  V4IntegratedAck_accepted : bool;
  V4IntegratedAck_reason : string
}.

#[export] Instance V4IntegratedAck_eq_dec : EqDecision V4IntegratedAck.
Proof. solve_decision. Defined.

Record V4IntegratedStateAck := mkV4IntegratedStateAck {
  V4IntegratedStateAck_job_id : JobId;
  V4IntegratedStateAck_graph_generation : N;
  V4IntegratedStateAck_state_hash : ArtifactId;
  V4IntegratedStateAck_worker : NodeId;
  V4IntegratedStateAck_accepted : bool
}.

#[export] Instance V4IntegratedStateAck_eq_dec : EqDecision V4IntegratedStateAck.
Proof. solve_decision. Defined.

Record V4IntegratedProbe := mkV4IntegratedProbe {
  V4IntegratedProbe_request_id : JobId;
  V4IntegratedProbe_job_id : JobId;
  V4IntegratedProbe_graph_generation : N;
  V4IntegratedProbe_graph_hash : ArtifactId;
  V4IntegratedProbe_state_hash : ArtifactId;
  V4IntegratedProbe_requester : NodeId
}.

#[export] Instance V4IntegratedProbe_eq_dec : EqDecision V4IntegratedProbe.
Proof. solve_decision. Defined.

Record V4IntegratedProbeAck := mkV4IntegratedProbeAck {
  V4IntegratedProbeAck_request_id : JobId;
  V4IntegratedProbeAck_job_id : JobId;
  V4IntegratedProbeAck_graph_generation : N;
  V4IntegratedProbeAck_responder : NodeId;
  V4IntegratedProbeAck_accepted : bool
}.

#[export] Instance V4IntegratedProbeAck_eq_dec : EqDecision V4IntegratedProbeAck.
Proof. solve_decision. Defined.

Record V4IntegratedElectionRequest := mkV4IntegratedElectionRequest {
  V4IntegratedElectionRequest_request_id : JobId;
  V4IntegratedElectionRequest_job_id : JobId;
  V4IntegratedElectionRequest_graph_generation : N;
  V4IntegratedElectionRequest_graph_hash : ArtifactId;
  V4IntegratedElectionRequest_branch : ArtifactId;
  V4IntegratedElectionRequest_state_hash : ArtifactId;
  V4IntegratedElectionRequest_term : N;
  V4IntegratedElectionRequest_candidate : NodeId
}.

#[export] Instance V4IntegratedElectionRequest_eq_dec : EqDecision V4IntegratedElectionRequest.
Proof. solve_decision. Defined.

Record V4IntegratedElectionVote := mkV4IntegratedElectionVote {
  V4IntegratedElectionVote_job_id : JobId;
  V4IntegratedElectionVote_graph_generation : N;
  V4IntegratedElectionVote_graph_hash : ArtifactId;
  V4IntegratedElectionVote_term : N;
  V4IntegratedElectionVote_candidate : NodeId;
  V4IntegratedElectionVote_voter : NodeId;
  V4IntegratedElectionVote_granted : bool;
  V4IntegratedElectionVote_reason : string
}.

#[export] Instance V4IntegratedElectionVote_eq_dec : EqDecision V4IntegratedElectionVote.
Proof. solve_decision. Defined.

Record V4IntegratedResult := mkV4IntegratedResult {
  V4IntegratedResult_request_id : JobId;
  V4IntegratedResult_job_id : JobId;
  V4IntegratedResult_graph_generation : N;
  V4IntegratedResult_windows_completed : N;
  V4IntegratedResult_initial_loss_micros : Z;
  V4IntegratedResult_final_loss_micros : Z;
  V4IntegratedResult_tensor_steps : N;
  V4IntegratedResult_pipeline_steps : N;
  V4IntegratedResult_collective_rounds : N;
  V4IntegratedResult_checkpoint_generations : N;
  V4IntegratedResult_graph_reconfigurations : N;
  V4IntegratedResult_coordinator_replacements : N;
  V4IntegratedResult_shard_recoveries : N;
  V4IntegratedResult_tensor_recoveries : N;
  V4IntegratedResult_pipeline_recoveries : N;
  V4IntegratedResult_optimizer_recoveries : N;
  V4IntegratedResult_checkpoint_recoveries : N;
  V4IntegratedResult_max_update_fanin : N;
  V4IntegratedResult_all_updates_to_one_coordinator : bool;
  V4IntegratedResult_single_optimizer_authority : bool;
  V4IntegratedResult_single_checkpoint_authority : bool;
  V4IntegratedResult_global_step_barrier : bool;
  V4IntegratedResult_model_must_fit_one_worker : bool;
  V4IntegratedResult_target_reached : bool;
  V4IntegratedResult_branch_reconciled : bool;
  V4IntegratedResult_phase : V4IntegratedPhase;
  V4IntegratedResult_backend_tasks : N;
  V4IntegratedResult_backend_replans : N;
  V4IntegratedResult_backend_fallbacks : N;
  V4IntegratedResult_backend_portable_checkpoint : bool
}.

#[export] Instance V4IntegratedResult_eq_dec : EqDecision V4IntegratedResult.
Proof. solve_decision. Defined.

Record V4TensorReplica := mkV4TensorReplica {
  V4TensorReplica_job_id : JobId;
  V4TensorReplica_plan_generation : N;
  V4TensorReplica_model_generation : N;
  V4TensorReplica_shard_id : N;
  V4TensorReplica_rows : N;
  V4TensorReplica_cols : N;
  V4TensorReplica_row_offset : N;
  V4TensorReplica_weights : list Z;
  V4TensorReplica_state_hash : ArtifactId;
  V4TensorReplica_state_generation : N;
  V4TensorReplica_last_sequence : N;
  V4TensorReplica_ownership_generation : N;
  V4TensorReplica_source : NodeId
}.

#[export] Instance V4TensorReplica_eq_dec : EqDecision V4TensorReplica.
Proof. solve_decision. Defined.

Record V4TensorReplicaAck := mkV4TensorReplicaAck {
  V4TensorReplicaAck_job_id : JobId;
  V4TensorReplicaAck_plan_generation : N;
  V4TensorReplicaAck_shard_id : N;
  V4TensorReplicaAck_state_hash : ArtifactId;
  V4TensorReplicaAck_state_generation : N;
  V4TensorReplicaAck_accepted : bool
}.

#[export] Instance V4TensorReplicaAck_eq_dec : EqDecision V4TensorReplicaAck.
Proof. solve_decision. Defined.

Record V4OptimizerStateInstall := mkV4OptimizerStateInstall {
  V4OptimizerStateInstall_job_id : JobId;
  V4OptimizerStateInstall_plan_generation : N;
  V4OptimizerStateInstall_model_generation : N;
  V4OptimizerStateInstall_optimizer_generation : N;
  V4OptimizerStateInstall_shard_id : N;
  V4OptimizerStateInstall_values : list Z;
  V4OptimizerStateInstall_state_hash : ArtifactId;
  V4OptimizerStateInstall_state_generation : N;
  V4OptimizerStateInstall_sequence : N;
  V4OptimizerStateInstall_last_sequence : N;
  V4OptimizerStateInstall_source : NodeId
}.

#[export] Instance V4OptimizerStateInstall_eq_dec : EqDecision V4OptimizerStateInstall.
Proof. solve_decision. Defined.

Record V4OptimizerStateAck := mkV4OptimizerStateAck {
  V4OptimizerStateAck_job_id : JobId;
  V4OptimizerStateAck_plan_generation : N;
  V4OptimizerStateAck_optimizer_generation : N;
  V4OptimizerStateAck_shard_id : N;
  V4OptimizerStateAck_state_hash : ArtifactId;
  V4OptimizerStateAck_state_generation : N;
  V4OptimizerStateAck_accepted : bool
}.

#[export] Instance V4OptimizerStateAck_eq_dec : EqDecision V4OptimizerStateAck.
Proof. solve_decision. Defined.

Inductive TrainingV4Message :=
  | TrainingV4Message_Plan (value : V4TrainingPlan)
  | TrainingV4Message_StateRecord (value : V4TrainingStateRecord)
  | TrainingV4Message_OptimizerShard (value : V4OptimizerShardRecord)
  | TrainingV4Message_CheckpointRecord (value : V4CheckpointRecord)
  | TrainingV4Message_StateAck (value : V4StateAck)
  | TrainingV4Message_ShardMigration (value : V4ShardMigration)
  | TrainingV4Message_ShardMigrationAck (value : V4ShardMigrationAck)
  | TrainingV4Message_TensorInstall (value : V4TensorInstall)
  | TrainingV4Message_TensorInstallAck (value : V4TensorInstallAck)
  | TrainingV4Message_TensorForward (value : V4TensorForward)
  | TrainingV4Message_TensorForwardResult (value : V4TensorForwardResult)
  | TrainingV4Message_TensorBackward (value : V4TensorBackward)
  | TrainingV4Message_TensorBackwardResult (value : V4TensorBackwardResult)
  | TrainingV4Message_PipelineInstall (value : V4PipelineInstall)
  | TrainingV4Message_PipelineInstallAck (value : V4PipelineInstallAck)
  | TrainingV4Message_PipelineForward (value : V4PipelineForward)
  | TrainingV4Message_PipelineForwardResult (value : V4PipelineForwardResult)
  | TrainingV4Message_PipelineBackward (value : V4PipelineBackward)
  | TrainingV4Message_PipelineBackwardResult (value : V4PipelineBackwardResult)
  | TrainingV4Message_CollectiveContribute (value : V4CollectiveContribute)
  | TrainingV4Message_CollectiveAggregate (value : V4CollectiveAggregate)
  | TrainingV4Message_CollectiveResult (value : V4CollectiveResult)
  | TrainingV4Message_Branch (value : V4TrainingBranch)
  | TrainingV4Message_Reconcile (value : V4ReconcileRequest)
  | TrainingV4Message_ReconcileResult (value : V4ReconcileResult)
  | TrainingV4Message_ByzantineUpdate (value : V4ByzantineUpdate)
  | TrainingV4Message_ByzantineResult (value : V4ByzantineResult)
  | TrainingV4Message_PlanAck (value : V4PlanAck)
  | TrainingV4Message_PlanProposal (value : V4TrainingPlan)
  | TrainingV4Message_PlanProposalAck (value : V4PlanProposalAck)
  | TrainingV4Message_ShardMigrationRequest (value : V4ShardMigrationRequest)
  | TrainingV4Message_ShardMigrationResult (value : V4ShardMigrationResult)
  | TrainingV4Message_IntegratedStart (value : V4IntegratedStart)
  | TrainingV4Message_IntegratedAck (value : V4IntegratedAck)
  | TrainingV4Message_IntegratedState (value : V4IntegratedStateRecord)
  | TrainingV4Message_IntegratedStateAck (value : V4IntegratedStateAck)
  | TrainingV4Message_IntegratedElectionRequest (value : V4IntegratedElectionRequest)
  | TrainingV4Message_IntegratedElectionVote (value : V4IntegratedElectionVote)
  | TrainingV4Message_IntegratedResult (value : V4IntegratedResult)
  | TrainingV4Message_TensorReplica (value : V4TensorReplica)
  | TrainingV4Message_TensorReplicaAck (value : V4TensorReplicaAck)
  | TrainingV4Message_OptimizerStateInstall (value : V4OptimizerStateInstall)
  | TrainingV4Message_OptimizerStateAck (value : V4OptimizerStateAck)
  | TrainingV4Message_IntegratedProbe (value : V4IntegratedProbe)
  | TrainingV4Message_IntegratedProbeAck (value : V4IntegratedProbeAck).

#[export] Instance TrainingV4Message_eq_dec : EqDecision TrainingV4Message.
Proof. solve_decision. Defined.

Inductive TrainingV5Message :=
  | TrainingV5Message_CapabilityChallenge (value : CapabilityChallenge)
  | TrainingV5Message_CapabilityChallengeResult (value : CapabilityChallengeResult)
  | TrainingV5Message_CapabilityEvidence (value : CapabilityEvidenceRecord).

#[export] Instance TrainingV5Message_eq_dec : EqDecision TrainingV5Message.
Proof. solve_decision. Defined.

Inductive TrainingMessage :=
  | TrainingMessage_Start (value : TrainingStart)
  | TrainingMessage_Window (value : TrainingWindow)
  | TrainingMessage_Update (value : TrainingUpdate)
  | TrainingMessage_Aggregate (value : TrainingAggregate)
  | TrainingMessage_ShardState (value : TrainingShardState)
  | TrainingMessage_State (value : TrainingState)
  | TrainingMessage_Ack (value : TrainingAck)
  | TrainingMessage_Election (value : TrainingElection)
  | TrainingMessage_CheckpointOffer (value : TrainingCheckpointOffer)
  | TrainingMessage_CheckpointCommit (value : TrainingCheckpointCommit).

#[export] Instance TrainingMessage_eq_dec : EqDecision TrainingMessage.
Proof. solve_decision. Defined.

Inductive Message :=
  | Message_Hello (value : Hello)
  | Message_PeerExchange (value : PeerExchange)
  | Message_Announcement (value : SignedAnnouncement)
  | Message_JobRequest (value : JobRequest)
  | Message_JobUpdate (value : JobUpdate)
  | Message_CancelJob (value : CancelJob)
  | Message_ArtifactRequest (value : ArtifactRequest)
  | Message_ArtifactChunk (value : ArtifactChunk)
  | Message_Ping (value : Ping)
  | Message_Pong (value : Ping)
  | Message_Goodbye (reason : option string)
  | Message_Error (value : ProtocolError)
  | Message_AddressUpdate (value : AddressUpdate)
  | Message_AddressObservation (value : AddressObservation)
  | Message_ArtifactTransferRequest (value : ArtifactTransferRequest)
  | Message_ArtifactTransferChunk (value : ArtifactTransferChunk)
  | Message_KeyRotation (value : KeyRotation)
  | Message_RelayEnvelope (value : RelayEnvelope)
  | Message_DhtRequest (value : DhtRequest)
  | Message_DhtResponse (value : DhtResponse)
  | Message_Training (value : TrainingMessage)
  | Message_TrainingV4 (value : TrainingV4Message)
  | Message_TrainingV5 (value : TrainingV5Message).

#[export] Instance Message_eq_dec : EqDecision Message.
Proof. solve_decision. Defined.

(** ** Methods *)

(** [NodeId::from_public_key] *)
Definition NodeId_from_public_key `{Blake3} (public_key : list N) : NodeId :=
  mkNodeId (blake3 (as_bytes "intelligence-network/node-id/v1" ++ [0] ++ public_key)).

(** [ArtifactId::from_bytes_hashed] *)
Definition ArtifactId_from_bytes_hashed `{Blake3} (bytes : list N) : ArtifactId :=
  mkArtifactId (blake3 bytes).

Definition DhtNamespace_tag (self : DhtNamespace) : N :=
  match self with
  | DhtNamespace_Peer => 1
  | DhtNamespace_Capability => 2
  | DhtNamespace_Artifact => 3
  | DhtNamespace_Model => 4
  | DhtNamespace_Dataset => 5
  | DhtNamespace_Relay => 6
  | DhtNamespace_Evidence => 7
  end.

(** [DhtKey::for_name] *)
Definition DhtKey_for_name `{Blake3} (namespace : DhtNamespace) (name : string) : DhtKey :=
  mkDhtKey (blake3 (as_bytes "intelligence-network/dht-key/v1" ++ [0]
                    ++ [DhtNamespace_tag namespace] ++ as_bytes name)).

(** The derived orders follow the declaration order of the variants. *)
#[export] Instance DhtNamespace_ord : Ord DhtNamespace := Ord_via DhtNamespace_tag.

#[export] Instance DhtNamespace_ord_laws : OrdLaws DhtNamespace.
Proof. apply OrdLaws_via. by intros [] []. Qed.

Definition BackendKind_index (self : BackendKind) : N :=
  match self with
  | BackendKind_Cpu => 0
  | BackendKind_Cuda => 1
  | BackendKind_Rocm => 2
  | BackendKind_Metal => 3
  end.

#[export] Instance BackendKind_ord : Ord BackendKind := Ord_via BackendKind_index.

#[export] Instance BackendKind_ord_laws : OrdLaws BackendKind.
Proof. apply OrdLaws_via. by intros [] []. Qed.

Definition VersionRange_current : VersionRange :=
  {| VersionRange_major := PROTOCOL_MAJOR;
     VersionRange_min_minor := 0;
     VersionRange_max_minor := PROTOCOL_MINOR |}.

Definition VersionRange_supports (self : VersionRange) (major minor : N) : bool :=
  (self.(VersionRange_major) =? major) && (self.(VersionRange_min_minor) <=? minor)
  && (minor <=? self.(VersionRange_max_minor)).

Definition PrivacyPolicy_default : PrivacyPolicy :=
  {| PrivacyPolicy_allow_input_transfer := true;
     PrivacyPolicy_allow_output_persistence := false;
     PrivacyPolicy_require_trusted_peer := false |}.

Definition JobState_terminal (self : JobState) : bool :=
  match self with
  | JobState_Succeeded | JobState_Rejected | JobState_Cancelled | JobState_TimedOut
  | JobState_Failed => true
  | _ => false
  end.

Definition JobState_can_transition (self next : JobState) : bool :=
  match self, next with
  | JobState_Received, (JobState_Validated | JobState_Rejected) => true
  | JobState_Validated, (JobState_Admitted | JobState_Rejected) => true
  | JobState_Admitted, (JobState_Queued | JobState_Rejected) => true
  | JobState_Admitted, JobState_Running => true
  | JobState_Queued,
      (JobState_Running | JobState_Cancelled | JobState_TimedOut | JobState_Failed) => true
  | JobState_Running,
      (JobState_Succeeded | JobState_Cancelled | JobState_TimedOut | JobState_Failed) => true
  | _, _ => false
  end.

Definition TRAINING_SCALE : Z := 1000000.

Definition TrainingV4Message_minimum_minor (self : TrainingV4Message) : N :=
  match self with
  | TrainingV4Message_IntegratedStart start =>
      if negb (is_empty start.(V4IntegratedStart_graph).(V4ExecutionGraph_backend_assignments))
         || negb (is_empty start.(V4IntegratedStart_plan).(V4TrainingPlan_backend_assignments))
         || negb (is_empty start.(V4IntegratedStart_plan).(V4TrainingPlan_compute_requirements))
      then 6 else 5
  | TrainingV4Message_IntegratedAck _
  | TrainingV4Message_IntegratedState _
  | TrainingV4Message_IntegratedStateAck _
  | TrainingV4Message_IntegratedElectionRequest _
  | TrainingV4Message_IntegratedElectionVote _
  | TrainingV4Message_IntegratedResult _
  | TrainingV4Message_IntegratedProbe _
  | TrainingV4Message_IntegratedProbeAck _
  | TrainingV4Message_TensorBackwardResult _
  | TrainingV4Message_TensorReplica _
  | TrainingV4Message_TensorReplicaAck _
  | TrainingV4Message_OptimizerStateInstall _
  | TrainingV4Message_OptimizerStateAck _ => 5
  | TrainingV4Message_Plan plan | TrainingV4Message_PlanProposal plan =>
      if negb (is_empty plan.(V4TrainingPlan_backend_assignments))
         || negb (is_empty plan.(V4TrainingPlan_compute_requirements))
         || existsb (fun worker => negb (is_empty worker.(V4WorkerCapability_backends)))
              plan.(V4TrainingPlan_worker_capabilities)
      then 6 else 4
  | _ => 4
  end.

Definition Message_kind (self : Message) : N :=
  match self with
  | Message_Hello _ => 1
  | Message_PeerExchange _ => 2
  | Message_Announcement _ => 3
  | Message_JobRequest _ => 4
  | Message_JobUpdate _ => 5
  | Message_CancelJob _ => 6
  | Message_ArtifactRequest _ => 7
  | Message_ArtifactChunk _ => 8
  | Message_Ping _ => 9
  | Message_Pong _ => 10
  | Message_Goodbye _ => 11
  | Message_Error _ => 12
  | Message_AddressUpdate _ => 13
  | Message_AddressObservation _ => 14
  | Message_ArtifactTransferRequest _ => 15
  | Message_ArtifactTransferChunk _ => 16
  | Message_KeyRotation _ => 17
  | Message_RelayEnvelope _ => 18
  | Message_DhtRequest _ => 19
  | Message_DhtResponse _ => 20
  | Message_Training _ => 21
  | Message_TrainingV4 _ => 22
  | Message_TrainingV5 _ => 23
  end.
