(* ===== verification/Validation.v ===== *)
(** * Message validation ([crates/protocol/src/validation.rs])

    Every validation function of the file, in its order of checks, with the error
    each check returns.  A function [f(&value) -> Result<(), ValidationError>] is
    the definition [f]; the method [T::validate] is [T_validate].  A local [HashSet]
    is the list of the elements inserted so far; a loop that fills one is a
    [try_fold], and the long loops of [v4_plan] and [v4_execution_graph] are
    definitions of their own. *)

From Stdlib Require Import String ZArith NArith Lia.
From stdpp Require Import base tactics sets strings numbers list.
From S2P Require Import Prelude OrdMap Types.
Local Open Scope N_scope.
Local Open Scope rust_scope.
Local Open Scope N_scope.

(** ** Limits *)

Definition MAX_FRAME_SIZE : N := 1024 * 1024.

Definition MAX_STRING_LEN : N := 256.

Definition MAX_ADDRESS_LEN : N := 256.

Definition MAX_CAPABILITIES : N := 64.

Definition MAX_PEERS : N := 128.

Definition MAX_METADATA : N := 32.

Definition MAX_JOB_INPUT : N := 64 * 1024.

Definition MAX_JOB_OUTPUT : N := 1024 * 1024.

Definition MAX_ARTIFACT_CHUNK : N := 256 * 1024.

Definition MAX_ARTIFACT_SHARDS : N := 4096.

Definition MAX_ADDRESSES : N := 16.

Definition MAX_RELAY_PAYLOAD : N := 512 * 1024.

Definition MAX_DHT_RECORD_VALUE : N := 8 * 1024.

Definition MAX_DHT_RECORDS : N := 64.

Definition MAX_DHT_CONTACTS : N := 64.

Definition MAX_DHT_QUERY_MESSAGE : N := 128.

Definition MAX_EVIDENCE_PAYLOAD : N := 8 * 1024.

Definition MAX_TRAINING_WORKERS : N := 64.

Definition MAX_TRAINING_GROUPS : N := 32.

Definition MAX_TRAINING_SAMPLES : N := 256.

Definition MAX_TRAINING_CONTRIBUTORS : N := 64.

Definition MAX_TRAINING_SHARDS : N := 64.

Definition MAX_TRAINING_REPLICAS : N := 16.

Definition MAX_TRAINING_STATE_BYTES : N := 2 ^ 40.

Definition MAX_V4_VECTOR : N := 128.

Definition MAX_V4_BYTES : N := 64 * 1024.

Definition MAX_V4_STAGES : N := 16.

Definition MAX_V4_GROUPS : N := 32.

Definition MAX_V4_PLAN_WORKERS : N := 64.

Definition MAX_V5_BACKENDS : N := 8.

Definition MAX_V5_FEATURES : N := 16.

Definition MAX_V5_FORMATS : N := 8.

Definition MAX_V5_ASSIGNMENTS : N := 128.

Definition MAX_V5_REQUIREMENTS : N := 64.

(** ** Errors *)

Inductive ValidationError :=
  | ValidationError_TooLong (field : String.string) (max : N)
  | ValidationError_TooMany (field : String.string) (max : N)
  | ValidationError_Empty (field : String.string)
  | ValidationError_Invalid (field : String.string)
  | ValidationError_Oversized (field : String.string).

#[export] Instance ValidationError_eq_dec : EqDecision ValidationError.
Proof. solve_decision. Defined.

Section Validation.
Context `{Blake3}.

Definition string (value : String.string) (field : String.string)
    : result unit ValidationError :=
  fail_if (value == "")%rust (ValidationError_Empty field) ;?
  fail_if (MAX_STRING_LEN <? slen value) (ValidationError_TooLong field MAX_STRING_LEN).

Definition bytes (value : list N) (max : N) (field : String.string)
    : result unit ValidationError :=
  fail_if (max <? len value) (ValidationError_Oversized field).

Definition backend_capabilities (value : BackendCapabilities) (field : String.string)
    : result unit ValidationError :=
  string value.(BackendCapabilities_runtime_version) field ;?
  fail_if ((value.(BackendCapabilities_device_count) =? 0)
           || (value.(BackendCapabilities_device_memory_bytes) =? 0)
           || (sat_mul u64_max value.(BackendCapabilities_device_memory_bytes)
                 value.(BackendCapabilities_device_count)
               <? value.(BackendCapabilities_available_memory_bytes))
           || (value.(BackendCapabilities_available_memory_bytes) =? 0)
           || is_empty value.(BackendCapabilities_formats)
           || (MAX_V5_FORMATS <? len value.(BackendCapabilities_formats))
           || (value.(BackendCapabilities_max_tensor_elements) =? 0)
           || (MAX_V5_FEATURES <? len value.(BackendCapabilities_features))
           || (value.(BackendCapabilities_max_concurrent_tasks) =? 0)
           || (500 <? value.(BackendCapabilities_safety_margin_permille))
           || (1000000 <? value.(BackendCapabilities_observed_successes))
           || (1000000 <? value.(BackendCapabilities_observed_failures)))
          (ValidationError_Invalid field) ;?
  if_some value.(BackendCapabilities_device_architecture) (fun architecture =>
    string architecture field) ;?
  fail_if (has_duplicates value.(BackendCapabilities_features)
           || has_duplicates value.(BackendCapabilities_formats))
          (ValidationError_Invalid field) ;?
  fail_if (value.(BackendCapabilities_physical_verified)
           && (negb value.(BackendCapabilities_driver_available)
               || negb value.(BackendCapabilities_runtime_available)))
          (ValidationError_Invalid field).

Definition capability (capability : Capability) : result unit ValidationError :=
  string capability.(Capability_name) "capability.name" ;?
  fail_if (capability.(Capability_version) =? 0) (ValidationError_Invalid "capability.version") ;?
  fail_if (128 <? slen capability.(Capability_name))
          (ValidationError_TooLong "capability.name" 128) ;?
  if_some capability.(Capability_model) (fun model => string model "capability.model") ;?
  fail_if (MAX_METADATA <? len capability.(Capability_metadata))
          (ValidationError_TooMany "capability.metadata" MAX_METADATA) ;?
  for_each (fun entry =>
    string entry.(MetadataEntry_key) "capability.metadata.key" ;?
    string entry.(MetadataEntry_value) "capability.metadata.value")
    capability.(Capability_metadata) ;?
  fail_if (MAX_V5_BACKENDS <? len capability.(Capability_compute_backends))
          (ValidationError_TooMany "capability.compute_backends" MAX_V5_BACKENDS) ;?
  try_fold (fun backend_kinds backend =>
    fail_if (contains backend.(BackendCapabilities_kind) backend_kinds)
            (ValidationError_Invalid "capability.compute_backends") ;?
    backend_capabilities backend "capability.compute_backend" ;?
    Ok (backend.(BackendCapabilities_kind) :: backend_kinds))
    [] capability.(Capability_compute_backends) ;?
  fail_if ((capability.(Capability_resources).(ResourceLimits_max_input_bytes) =? 0)
           || (MAX_JOB_INPUT <? capability.(Capability_resources).(ResourceLimits_max_input_bytes))
           || (capability.(Capability_resources).(ResourceLimits_max_output_bytes) =? 0)
           || (MAX_JOB_OUTPUT <? capability.(Capability_resources).(ResourceLimits_max_output_bytes))
           || (capability.(Capability_resources).(ResourceLimits_memory_bytes) =? 0)
           || (capability.(Capability_resources).(ResourceLimits_cpu_millis) =? 0))
          (ValidationError_Invalid "capability.resources") ;?
  match capability.(Capability_evidence) with
  | CapabilityEvidence_Claimed | CapabilityEvidence_Observed _ _ _ => Ok tt
  | CapabilityEvidence_Verified _ score_basis _ =>
      string score_basis "capability.evidence.score_basis"
  end.

Definition peer (peer : PeerRecord) : result unit ValidationError :=
  fail_if (8 <? len peer.(PeerRecord_addresses)) (ValidationError_TooMany "peer.addresses" 8) ;?
  for_each (fun address =>
    fail_if ((address == "")%rust
           || (MAX_ADDRESS_LEN <? slen address))
          (ValidationError_TooLong "peer.address" MAX_ADDRESS_LEN)) peer.(PeerRecord_addresses) ;?
  fail_if (MAX_CAPABILITIES <? len peer.(PeerRecord_capabilities))
          (ValidationError_TooMany "peer.capabilities" MAX_CAPABILITIES) ;?
  for_each (fun capability_value =>
    capability capability_value) peer.(PeerRecord_capabilities) ;?
  fail_if (peer.(PeerRecord_expires_at) <? peer.(PeerRecord_announced_at))
          (ValidationError_Invalid "peer.expiry").

Definition address_record (address : AddressRecord) : result unit ValidationError :=
  fail_if ((address.(AddressRecord_address) == "")%rust
           || (MAX_ADDRESS_LEN <? slen address.(AddressRecord_address)))
          (ValidationError_TooLong "address.address" MAX_ADDRESS_LEN) ;?
  fail_if ((address.(AddressRecord_expires_at) =? 0)
           || (100 <? address.(AddressRecord_confidence)))
          (ValidationError_Invalid "address.metadata").

Definition signature (value : list N) (field : String.string) : result unit ValidationError :=
  fail_if (negb (len value =? 64))
          (ValidationError_Invalid field).

Definition dht_record (record : DhtRecord) : result unit ValidationError :=
  fail_if ((record.(DhtRecord_owner) != NodeId_from_public_key record.(DhtRecord_owner_public_key))%rust
           || (record.(DhtRecord_expires_at) =? 0)
           || (MAX_DHT_RECORD_VALUE <? len record.(DhtRecord_value)))
          (ValidationError_Invalid "dht.record.identity_or_value") ;?
  signature record.(DhtRecord_signature) "dht.record.signature".

Definition signed_evidence (value : SignedEvidence) : result unit ValidationError :=
  fail_if ((value.(SignedEvidence_issuer)
       != NodeId_from_public_key value.(SignedEvidence_issuer_public_key))%rust
           || (value.(SignedEvidence_expires_at) <? value.(SignedEvidence_observed_at)))
          (ValidationError_Invalid "evidence.identity_or_validity") ;?
  fail_if (MAX_EVIDENCE_PAYLOAD <? len value.(SignedEvidence_payload))
          (ValidationError_Oversized "evidence.payload") ;?
  signature value.(SignedEvidence_signature) "evidence.signature".

Definition manifest_shards (shards : list ArtifactShard) (field : String.string) : result unit ValidationError :=
  fail_if (MAX_ARTIFACT_SHARDS <? len shards) (ValidationError_TooMany field MAX_ARTIFACT_SHARDS).

Definition node_id (value : NodeId) (field : String.string) : result unit ValidationError :=
  fail_if ((value == NodeId_default)%rust)
          (ValidationError_Invalid field).

Definition artifact_id (value : ArtifactId) (field : String.string) : result unit ValidationError :=
  fail_if ((value == ArtifactId_default)%rust)
          (ValidationError_Invalid field).

Definition training_job_id (value : JobId) (field : String.string) : result unit ValidationError :=
  fail_if ((value == JobId_default)%rust)
          (ValidationError_Invalid field).

Definition training_nodes (nodes : list NodeId) (field : String.string) (max : N)
    : result unit ValidationError :=
  fail_if (is_empty nodes || (max <? len nodes)) (ValidationError_TooMany field max) ;?
  try_fold (fun seen node =>
    node_id node field ;?
    fail_if (contains node seen) (ValidationError_Invalid field) ;?
    Ok (node :: seen)) [] nodes ;?
  Ok tt.

Definition training_assignment (assignment : TrainingShardAssignment) : result unit ValidationError :=
  training_nodes assignment.(TrainingShardAssignment_owners) "training.shard.owners" MAX_TRAINING_WORKERS ;?
  training_nodes assignment.(TrainingShardAssignment_replicas) "training.shard.replicas" MAX_TRAINING_REPLICAS ;?
  artifact_id assignment.(TrainingShardAssignment_state_hash) "training.shard.state_hash".

Definition training_start (value : TrainingStart) : result unit ValidationError :=
  training_job_id value.(TrainingStart_job_id) "training.start.job_id" ;?
  node_id value.(TrainingStart_coordinator) "training.start.coordinator" ;?
  artifact_id value.(TrainingStart_branch) "training.start.branch" ;?
  artifact_id value.(TrainingStart_plan_hash) "training.start.plan_hash" ;?
  fail_if ((value.(TrainingStart_term) =? 0)
           || (value.(TrainingStart_membership_epoch) =? 0)
           || (value.(TrainingStart_max_windows) =? 0)
           || (value.(TrainingStart_local_steps) =? 0)
           || (1024 <? value.(TrainingStart_local_steps))
           || (1024 <? value.(TrainingStart_max_staleness))
           || (value.(TrainingStart_checkpoint_every) =? 0))
          (ValidationError_Invalid "training.start.generation") ;?
  fail_if ((MAX_TRAINING_STATE_BYTES <? value.(TrainingStart_model_state_bytes))
           || (MAX_TRAINING_STATE_BYTES <? value.(TrainingStart_shard_state_bytes))
           || ((0 <? value.(TrainingStart_model_state_bytes)) && ((value.(TrainingStart_shard_state_bytes)
                =? 0) || (value.(TrainingStart_model_state_bytes) <? value.(TrainingStart_shard_state_bytes)))))
          (ValidationError_Invalid "training.start.state_bytes") ;?
  training_nodes value.(TrainingStart_participants) "training.start.participants" MAX_TRAINING_WORKERS ;?
  fail_if (is_empty value.(TrainingStart_groups)
           || (MAX_TRAINING_GROUPS <? len value.(TrainingStart_groups)))
          (ValidationError_TooMany "training.start.groups" MAX_TRAINING_GROUPS) ;?
  fail_if (is_empty value.(TrainingStart_shards)
           || (MAX_TRAINING_SHARDS <? len value.(TrainingStart_shards)))
          (ValidationError_TooMany "training.start.shards" MAX_TRAINING_SHARDS) ;?
  fail_if (is_empty value.(TrainingStart_samples)
           || (MAX_TRAINING_SAMPLES <? len value.(TrainingStart_samples)))
          (ValidationError_TooMany "training.start.samples" MAX_TRAINING_SAMPLES) ;?
  training_assignment value.(TrainingStart_assignment).

Definition training_window (value : TrainingWindow) : result unit ValidationError :=
  training_job_id value.(TrainingWindow_job_id) "training.window.job_id" ;?
  node_id value.(TrainingWindow_coordinator) "training.window.coordinator" ;?
  node_id value.(TrainingWindow_aggregator) "training.window.aggregator" ;?
  artifact_id value.(TrainingWindow_branch) "training.window.branch" ;?
  fail_if ((value.(TrainingWindow_term) =? 0)
           || (value.(TrainingWindow_membership_epoch) =? 0)
           || (value.(TrainingWindow_local_steps) =? 0))
          (ValidationError_Invalid "training.window.generation") ;?
  training_nodes value.(TrainingWindow_members) "training.window.members" MAX_TRAINING_WORKERS.

Definition training_update (value : TrainingUpdate) : result unit ValidationError :=
  training_job_id value.(TrainingUpdate_job_id) "training.update.job_id" ;?
  node_id value.(TrainingUpdate_worker) "training.update.worker" ;?
  artifact_id value.(TrainingUpdate_branch) "training.update.branch" ;?
  fail_if ((value.(TrainingUpdate_term) =? 0)
           || (value.(TrainingUpdate_membership_epoch) =? 0)
           || (value.(TrainingUpdate_update_sequence) =? 0)
           || (value.(TrainingUpdate_samples) =? 0)
           || (1000000000 <? unsigned_abs value.(TrainingUpdate_value))
           || (1000000000 <? unsigned_abs value.(TrainingUpdate_optimizer))
           || (1000000000 <? unsigned_abs value.(TrainingUpdate_loss)))
          (ValidationError_Invalid "training.update.bounds").

Definition training_aggregate (value : TrainingAggregate) : result unit ValidationError :=
  training_job_id value.(TrainingAggregate_job_id) "training.aggregate.job_id" ;?
  node_id value.(TrainingAggregate_aggregator) "training.aggregate.aggregator" ;?
  artifact_id value.(TrainingAggregate_branch) "training.aggregate.branch" ;?
  artifact_id value.(TrainingAggregate_state_artifact) "training.aggregate.state_artifact" ;?
  fail_if ((value.(TrainingAggregate_term) =? 0)
           || (value.(TrainingAggregate_membership_epoch) =? 0)
           || (value.(TrainingAggregate_generation) =? 0))
          (ValidationError_Invalid "training.aggregate.generation") ;?
  fail_if ((1000000000 <? unsigned_abs value.(TrainingAggregate_value))
           || (1000000000 <? unsigned_abs value.(TrainingAggregate_optimizer))
           || (1000000000 <? unsigned_abs value.(TrainingAggregate_loss)))
          (ValidationError_Invalid "training.aggregate.bounds") ;?
  training_nodes value.(TrainingAggregate_contributors) "training.aggregate.contributors" MAX_TRAINING_CONTRIBUTORS ;?
  training_nodes value.(TrainingAggregate_replicas) "training.aggregate.replicas" MAX_TRAINING_REPLICAS.

Definition training_state (value : TrainingState) : result unit ValidationError :=
  training_job_id value.(TrainingState_job_id) "training.state.job_id" ;?
  node_id value.(TrainingState_coordinator) "training.state.coordinator" ;?
  artifact_id value.(TrainingState_branch) "training.state.branch" ;?
  fail_if ((value.(TrainingState_term) =? 0) || (value.(TrainingState_membership_epoch) =? 0))
          (ValidationError_Invalid "training.state.generation") ;?
  fail_if (is_empty value.(TrainingState_shards)
           || (MAX_TRAINING_SHARDS <? len value.(TrainingState_shards)))
          (ValidationError_TooMany "training.state.shards" MAX_TRAINING_SHARDS) ;?
  try_fold (fun shard_ids shard =>
    fail_if (contains shard.(TrainingShardSummary_shard_id) shard_ids)
            (ValidationError_Invalid "training.state.shard_id") ;?
    artifact_id shard.(TrainingShardSummary_state_hash) "training.state.shard_hash" ;?
    training_nodes shard.(TrainingShardSummary_providers) "training.state.providers"
      MAX_TRAINING_REPLICAS ;?
    Ok (shard.(TrainingShardSummary_shard_id) :: shard_ids)) [] value.(TrainingState_shards) ;?
  if_some value.(TrainingState_checkpoint) (fun checkpoint =>
    artifact_id checkpoint "training.state.checkpoint").

Definition training_election (value : TrainingElection) : result unit ValidationError :=
  training_job_id value.(TrainingElection_job_id) "training.election.job_id" ;?
  node_id value.(TrainingElection_candidate) "training.election.candidate" ;?
  artifact_id value.(TrainingElection_branch) "training.election.branch" ;?
  fail_if ((value.(TrainingElection_term) =? 0)
           || (value.(TrainingElection_membership_epoch) =? 0))
          (ValidationError_Invalid "training.election.generation").

Definition training_checkpoint_offer (value : TrainingCheckpointOffer) : result unit ValidationError :=
  training_job_id value.(TrainingCheckpointOffer_job_id) "training.checkpoint.job_id" ;?
  node_id value.(TrainingCheckpointOffer_creator) "training.checkpoint.creator" ;?
  artifact_id value.(TrainingCheckpointOffer_artifact) "training.checkpoint.artifact" ;?
  fail_if ((value.(TrainingCheckpointOffer_term) =? 0)
           || (value.(TrainingCheckpointOffer_checkpoint_generation) =? 0))
          (ValidationError_Invalid "training.checkpoint.generation").

Definition training_checkpoint_commit (value : TrainingCheckpointCommit) : result unit ValidationError :=
  training_job_id value.(TrainingCheckpointCommit_job_id) "training.commit.job_id" ;?
  node_id value.(TrainingCheckpointCommit_coordinator) "training.commit.coordinator" ;?
  artifact_id value.(TrainingCheckpointCommit_branch) "training.commit.branch" ;?
  fail_if ((value.(TrainingCheckpointCommit_term) =? 0)
           || (value.(TrainingCheckpointCommit_membership_epoch) =? 0)
           || is_empty value.(TrainingCheckpointCommit_quorum))
          (ValidationError_Invalid "training.commit.generation") ;?
  fail_if ((value.(TrainingCheckpointCommit_manifest).(TrainingCheckpointManifest_job_id)
       != value.(TrainingCheckpointCommit_job_id))%rust
           || negb (value.(TrainingCheckpointCommit_manifest).(TrainingCheckpointManifest_membership_epoch)
                =? value.(TrainingCheckpointCommit_membership_epoch))
           || (value.(TrainingCheckpointCommit_term)
                <? value.(TrainingCheckpointCommit_manifest).(TrainingCheckpointManifest_term))
           || (value.(TrainingCheckpointCommit_manifest).(TrainingCheckpointManifest_checkpoint_generation)
                =? 0))
          (ValidationError_Invalid "training.commit.manifest_lineage") ;?
  training_nodes value.(TrainingCheckpointCommit_quorum) "training.commit.quorum" MAX_TRAINING_WORKERS ;?
  fail_if (is_empty value.(TrainingCheckpointCommit_manifest).(TrainingCheckpointManifest_shards)
           || (MAX_TRAINING_SHARDS
                <? len value.(TrainingCheckpointCommit_manifest).(TrainingCheckpointManifest_shards)))
          (ValidationError_TooMany "training.commit.shards" MAX_TRAINING_SHARDS) ;?
  for_each (fun shard =>
    artifact_id shard.(TrainingCheckpointShard_artifact) "training.commit.shard_artifact" ;?
    fail_if (shard.(TrainingCheckpointShard_generation) =? 0)
            (ValidationError_Invalid "training.commit.shard_generation") ;?
    training_nodes shard.(TrainingCheckpointShard_providers) "training.commit.shard_providers" MAX_TRAINING_REPLICAS) value.(TrainingCheckpointCommit_manifest).(TrainingCheckpointManifest_shards) ;?
  artifact_id value.(TrainingCheckpointCommit_manifest).(TrainingCheckpointManifest_hash) "training.commit.manifest_hash".

Definition training_ack (value : TrainingAck) : result unit ValidationError :=
  training_job_id value.(TrainingAck_job_id) "training.ack.job_id" ;?
  node_id value.(TrainingAck_peer) "training.ack.peer" ;?
  fail_if (value.(TrainingAck_term) =? 0) (ValidationError_Invalid "training.ack.term").

Definition training_message (value : TrainingMessage) : result unit ValidationError :=
  match value with
  | TrainingMessage_Start value => training_start value
  | TrainingMessage_Window value => training_window value
  | TrainingMessage_Update value => training_update value
  | TrainingMessage_Aggregate value => training_aggregate value
  | TrainingMessage_ShardState value =>
      training_job_id value.(TrainingShardState_job_id) "training.shard_state.job_id" ;?
      node_id value.(TrainingShardState_owner) "training.shard_state.owner" ;?
      artifact_id value.(TrainingShardState_branch) "training.shard_state.branch" ;?
      fail_if ((value.(TrainingShardState_term) =? 0)
               || (value.(TrainingShardState_membership_epoch) =? 0)
               || (value.(TrainingShardState_generation) =? 0)
               || (1000000000 <? unsigned_abs value.(TrainingShardState_value))
               || (1000000000 <? unsigned_abs value.(TrainingShardState_optimizer)))
              (ValidationError_Invalid "training.shard_state.bounds") ;?
      artifact_id value.(TrainingShardState_state_hash) "training.shard_state.hash"
  | TrainingMessage_State value => training_state value
  | TrainingMessage_Ack value => training_ack value
  | TrainingMessage_Election value => training_election value
  | TrainingMessage_CheckpointOffer value => training_checkpoint_offer value
  | TrainingMessage_CheckpointCommit value => training_checkpoint_commit value
  end.

Definition v4_node_list (nodes : list NodeId) (field : String.string) (max : N)
    : result unit ValidationError :=
  fail_if (is_empty nodes) (ValidationError_Empty field) ;?
  fail_if (max <? len nodes) (ValidationError_TooMany field max) ;?
  try_fold (fun seen node =>
    node_id node field ;?
    fail_if (contains node seen) (ValidationError_Invalid field) ;?
    Ok (node :: seen)) [] nodes ;?
  Ok tt.

Definition v4_vector (values : list Z) (field : String.string) : result unit ValidationError :=
  fail_if (is_empty values)
          (ValidationError_Empty field) ;?
  fail_if (MAX_V4_VECTOR <? len values) (ValidationError_TooMany field MAX_V4_VECTOR) ;?
  fail_if (existsb (fun value => (1000000000 <? unsigned_abs value)) values)
          (ValidationError_Invalid field).

Definition v4_hash (value : ArtifactId) (field : String.string) : result unit ValidationError :=
  artifact_id value field.

Definition compute_requirements (value : ComputeRequirements) (field : String.string)
    : result unit ValidationError :=
  fail_if ((value.(ComputeRequirements_required_memory_bytes) =? 0)
           || (value.(ComputeRequirements_max_tensor_elements) =? 0)
           || (value.(ComputeRequirements_kernel_version) =? 0)
           || (MAX_V5_BACKENDS <? len value.(ComputeRequirements_allowed_backends))
           || (MAX_V5_BACKENDS <? len value.(ComputeRequirements_fallback_backends))
           || is_empty value.(ComputeRequirements_required_formats)
           || (MAX_V5_FORMATS <? len value.(ComputeRequirements_required_formats))
           || (MAX_V5_FEATURES <? len value.(ComputeRequirements_required_features)))
          (ValidationError_Invalid field) ;?
  string value.(ComputeRequirements_kernel_id) field ;?
  for_each (fun backends => fail_if (has_duplicates backends) (ValidationError_Invalid field))
    [value.(ComputeRequirements_allowed_backends); value.(ComputeRequirements_fallback_backends)] ;?
  fail_if ((value.(ComputeRequirements_required_backend) == None)%rust
           && is_empty value.(ComputeRequirements_allowed_backends))
          (ValidationError_Invalid field) ;?
  if_some value.(ComputeRequirements_required_backend) (fun required =>
    fail_if (negb (is_empty value.(ComputeRequirements_allowed_backends))
             && negb (contains required value.(ComputeRequirements_allowed_backends)))
            (ValidationError_Invalid field)) ;?
  fail_if (has_duplicates value.(ComputeRequirements_required_formats)
           || has_duplicates value.(ComputeRequirements_required_features))
          (ValidationError_Invalid field) ;?
  fail_if (negb value.(ComputeRequirements_fallback_allowed)
           && negb (is_empty value.(ComputeRequirements_fallback_backends)))
          (ValidationError_Invalid field).

Definition backend_assignment (value : BackendAssignment) (worker_set : list NodeId)
    (capabilities : list V4WorkerCapability) (field : String.string)
    : result unit ValidationError :=
  node_id value.(BackendAssignment_worker) field ;?
  fail_if (negb (contains value.(BackendAssignment_worker) worker_set)
           || (1024 <? value.(BackendAssignment_device_index)))
          (ValidationError_Invalid field) ;?
  compute_requirements value.(BackendAssignment_requirements) field ;?
  fail_if ((value.(BackendAssignment_requirements).(ComputeRequirements_required_backend)
              != Some value.(BackendAssignment_backend))%rust
           && negb (contains value.(BackendAssignment_backend)
                value.(BackendAssignment_requirements).(ComputeRequirements_allowed_backends)))
          (ValidationError_Invalid field) ;?
  let? worker := ok_or
    (List.find (fun worker => (worker.(V4WorkerCapability_node)
                               == value.(BackendAssignment_worker))%rust) capabilities)
    (ValidationError_Invalid field) in
  let? backend := ok_or
    (List.find (fun backend => (backend.(BackendCapabilities_kind)
                                == value.(BackendAssignment_backend))%rust)
       worker.(V4WorkerCapability_backends))
    (ValidationError_Invalid field) in
  fail_if (negb backend.(BackendCapabilities_runtime_available)
           || (backend.(BackendCapabilities_health) == BackendHealth_Unavailable)%rust
           || ((0 <? backend.(BackendCapabilities_observed_failures))
               && (backend.(BackendCapabilities_observed_successes) =? 0))
           || (backend.(BackendCapabilities_device_count) <=? value.(BackendAssignment_device_index))
           || existsb (fun format => negb (contains format backend.(BackendCapabilities_formats)))
                value.(BackendAssignment_requirements).(ComputeRequirements_required_formats)
           || (sat_mul u64_max backend.(BackendCapabilities_available_memory_bytes)
                 (sat_sub 1000 backend.(BackendCapabilities_safety_margin_permille)) / 1000
               <? value.(BackendAssignment_requirements).(ComputeRequirements_required_memory_bytes))
           || (backend.(BackendCapabilities_max_tensor_elements)
               <? value.(BackendAssignment_requirements).(ComputeRequirements_max_tensor_elements))
           || existsb (fun feature => negb (contains feature backend.(BackendCapabilities_features)))
                value.(BackendAssignment_requirements).(ComputeRequirements_required_features))
          (ValidationError_Invalid field).

Definition v5_challenge (value : CapabilityChallenge) : result unit ValidationError :=
  fail_if ((value.(CapabilityChallenge_challenge_id) == RequestId_default)%rust
           || (value.(CapabilityChallenge_job_id) == JobId_default)%rust
           || (value.(CapabilityChallenge_worker) == NodeId_default)%rust
           || (value.(CapabilityChallenge_task_kind) != ComputeTaskKind_CapabilityChallenge)%rust
           || (value.(CapabilityChallenge_input_elements) =? 0)
           || (MAX_V4_VECTOR <? value.(CapabilityChallenge_input_elements))
           || (value.(CapabilityChallenge_deadline_ms) =? 0)
           || (120000 <? value.(CapabilityChallenge_deadline_ms)))
          (ValidationError_Invalid "v5.challenge.bounds").

Definition v5_challenge_result (value : CapabilityChallengeResult) : result unit ValidationError :=
  fail_if ((value.(CapabilityChallengeResult_challenge_id) == RequestId_default)%rust
           || (value.(CapabilityChallengeResult_worker) == NodeId_default)%rust
           || (value.(CapabilityChallengeResult_elapsed_micros) =? 0)
           || (MAX_TRAINING_STATE_BYTES <? value.(CapabilityChallengeResult_allocated_bytes)))
          (ValidationError_Invalid "v5.challenge_result.bounds") ;?
  if_some value.(CapabilityChallengeResult_error) (fun error =>
    string error "v5.challenge_result.error").

Definition v5_evidence (value : CapabilityEvidenceRecord) : result unit ValidationError :=
  fail_if ((value.(CapabilityEvidenceRecord_worker) == NodeId_default)%rust
           || (value.(CapabilityEvidenceRecord_observed_at) =? 0)
           || (value.(CapabilityEvidenceRecord_last_throughput_micros) =? 0)
           || (1000000 <? value.(CapabilityEvidenceRecord_successful_challenges))
           || (1000000 <? value.(CapabilityEvidenceRecord_failed_challenges))
           || (1000000 <? value.(CapabilityEvidenceRecord_successful_tasks))
           || (1000000 <? value.(CapabilityEvidenceRecord_failed_tasks)))
          (ValidationError_Invalid "v5.evidence.bounds") ;?
  if_some value.(CapabilityEvidenceRecord_last_error) (fun error =>
    string error "v5.evidence.error").

Definition strategy_shape_valid (value : V4TrainingPlan) : bool :=
  match value.(V4TrainingPlan_strategy) with
  | V4ParallelismStrategy_LocalSgd =>
      (value.(V4TrainingPlan_tensor_degree) =? 0) && (value.(V4TrainingPlan_pipeline_stages) =? 0)
  | V4ParallelismStrategy_TensorParallel =>
      (2 <=? value.(V4TrainingPlan_tensor_degree)) && (value.(V4TrainingPlan_pipeline_stages) =? 0)
  | V4ParallelismStrategy_PipelineParallel =>
      (value.(V4TrainingPlan_tensor_degree) =? 0) && (value.(V4TrainingPlan_pipeline_stages) =? 2)
  | V4ParallelismStrategy_Hybrid =>
      (value.(V4TrainingPlan_tensor_degree) =? 2) && (value.(V4TrainingPlan_pipeline_stages) =? 2)
  end.

Definition support_matches_strategy (value : V4TrainingPlan) : bool :=
  match value.(V4TrainingPlan_strategy) with
  | V4ParallelismStrategy_LocalSgd =>
      (value.(V4TrainingPlan_support) == V4SupportLevel_Supported)%rust
  | V4ParallelismStrategy_TensorParallel =>
      (value.(V4TrainingPlan_support) == V4SupportLevel_Supported)%rust
      && (value.(V4TrainingPlan_tensor_degree) =? 2)
  | V4ParallelismStrategy_PipelineParallel =>
      (value.(V4TrainingPlan_support) == V4SupportLevel_Supported)%rust
      && (value.(V4TrainingPlan_pipeline_stages) =? 2)
  | V4ParallelismStrategy_Hybrid =>
      (value.(V4TrainingPlan_support) == V4SupportLevel_Experimental)%rust
      && (value.(V4TrainingPlan_tensor_degree) =? 2)
      && (value.(V4TrainingPlan_pipeline_stages) =? 2)
  end.

(** The loop over [value.worker_capabilities]. *)
Definition v4_plan_worker_capabilities (value : V4TrainingPlan)
    : result (list NodeId) ValidationError :=
  try_fold (fun capability_nodes capability =>
    node_id capability.(V4WorkerCapability_node) "v4.plan.worker_capability.node" ;?
    fail_if (negb (contains capability.(V4WorkerCapability_node) value.(V4TrainingPlan_workers))
             || contains capability.(V4WorkerCapability_node) capability_nodes
             || (capability.(V4WorkerCapability_memory_bytes) =? 0)
             || (capability.(V4WorkerCapability_compute_units) =? 0)
             || (1000 <? capability.(V4WorkerCapability_reliability_permille)))
            (ValidationError_Invalid "v4.plan.worker_capability") ;?
    fail_if ((capability.(V4WorkerCapability_accelerator).(V4AcceleratorCapability_device_count) =? 0)
             || (capability.(V4WorkerCapability_accelerator).(V4AcceleratorCapability_memory_bytes) =? 0)
             || is_empty capability.(V4WorkerCapability_accelerator).(V4AcceleratorCapability_formats))
            (ValidationError_Invalid "v4.plan.worker_accelerator") ;?
    fail_if (MAX_V5_BACKENDS <? len capability.(V4WorkerCapability_backends))
            (ValidationError_TooMany "v5.plan.worker_backends" MAX_V5_BACKENDS) ;?
    for_each (fun backend => backend_capabilities backend "v5.plan.backend_capabilities")
      capability.(V4WorkerCapability_backends) ;?
    Ok (capability.(V4WorkerCapability_node) :: capability_nodes))
    [] value.(V4TrainingPlan_worker_capabilities).

(** The loop over [value.groups], with its sets [group_ids] and [grouped_workers]. *)
Definition v4_plan_group (value : V4TrainingPlan) (sets : list N * list NodeId)
    (group : V4AggregationGroup) : result (list N * list NodeId) ValidationError :=
  let '(group_ids, grouped_workers) := sets in
  fail_if (is_empty group.(V4AggregationGroup_members)
           || (MAX_V4_PLAN_WORKERS <? len group.(V4AggregationGroup_members)))
          (ValidationError_TooMany "v4.plan.group.members" MAX_V4_PLAN_WORKERS) ;?
  v4_node_list group.(V4AggregationGroup_members) "v4.plan.group.members" MAX_V4_PLAN_WORKERS ;?
  fail_if (contains group.(V4AggregationGroup_group_id) group_ids
           || existsb (fun member => negb (contains member value.(V4TrainingPlan_workers)))
                group.(V4AggregationGroup_members))
          (ValidationError_Invalid "v4.plan.group.topology") ;?
  let? grouped_workers := ok_or (insert_each grouped_workers group.(V4AggregationGroup_members))
                            (ValidationError_Invalid "v4.plan.group.topology") in
  fail_if (negb (contains group.(V4AggregationGroup_aggregator) group.(V4AggregationGroup_members))
           || match group.(V4AggregationGroup_parent) with
              | Some parent => negb (contains parent value.(V4TrainingPlan_workers))
              | None => false
              end
           || match group.(V4AggregationGroup_parent) with
              | Some parent => contains parent group.(V4AggregationGroup_members)
              | None => false
              end)
          (ValidationError_Invalid "v4.plan.group.topology") ;?
  Ok (group.(V4AggregationGroup_group_id) :: group_ids, grouped_workers).

(** The loop over [value.shards]. *)
Definition v4_plan_shard (worker_set : list NodeId) (shard_ids : list N)
    (shard : V4ShardOwnership) : result (list N) ValidationError :=
  fail_if (contains shard.(V4ShardOwnership_shard_id) shard_ids)
          (ValidationError_Invalid "v4.plan.shard.id") ;?
  fail_if ((shard.(V4ShardOwnership_model_generation) =? 0)
           || (shard.(V4ShardOwnership_ownership_generation) =? 0)
           || (shard.(V4ShardOwnership_state_bytes) =? 0)
           || (shard.(V4ShardOwnership_memory_bytes) =? 0)
           || (MAX_TRAINING_STATE_BYTES <? shard.(V4ShardOwnership_state_bytes))
           || (MAX_TRAINING_STATE_BYTES <? shard.(V4ShardOwnership_memory_bytes)))
          (ValidationError_Invalid "v4.plan.shard.generation") ;?
  fail_if (negb (len shard.(V4ShardOwnership_owners) =? 1))
          (ValidationError_Invalid "v4.plan.shard.owners") ;?
  v4_node_list shard.(V4ShardOwnership_owners) "v4.plan.shard.owners" MAX_V4_PLAN_WORKERS ;?
  fail_if (existsb (fun node => negb (contains node worker_set))
             (shard.(V4ShardOwnership_owners) ++ shard.(V4ShardOwnership_replicas)))
          (ValidationError_Invalid "v4.plan.shard.worker") ;?
  fail_if (MAX_TRAINING_REPLICAS <? len shard.(V4ShardOwnership_replicas))
          (ValidationError_TooMany "v4.plan.shard.replicas" MAX_TRAINING_REPLICAS) ;?
  fail_if (existsb (fun replica => contains replica shard.(V4ShardOwnership_owners))
             shard.(V4ShardOwnership_replicas))
          (ValidationError_Invalid "v4.plan.shard.replica_owner_overlap") ;?
  (if is_empty shard.(V4ShardOwnership_replicas) then Ok tt
   else v4_node_list shard.(V4ShardOwnership_replicas) "v4.plan.shard.replicas"
          MAX_TRAINING_REPLICAS) ;?
  v4_hash shard.(V4ShardOwnership_content_hash) "v4.plan.shard.hash" ;?
  string shard.(V4ShardOwnership_runtime_requirement) "v4.plan.shard.runtime" ;?
  Ok (shard.(V4ShardOwnership_shard_id) :: shard_ids).

(** The checks after the shard loop: accelerator, parent hash and backend bindings. *)
Definition v4_plan_bindings (value : V4TrainingPlan) : result unit ValidationError :=
  if_some value.(V4TrainingPlan_accelerator) (fun accelerator =>
    string accelerator.(V4AcceleratorCapability_device_model) "v4.plan.accelerator.model" ;?
    string accelerator.(V4AcceleratorCapability_runtime) "v4.plan.accelerator.runtime" ;?
    string accelerator.(V4AcceleratorCapability_runtime_version)
      "v4.plan.accelerator.runtime_version" ;?
    fail_if ((accelerator.(V4AcceleratorCapability_device_count) =? 0)
             || (accelerator.(V4AcceleratorCapability_memory_bytes) =? 0)
             || is_empty accelerator.(V4AcceleratorCapability_formats)
             || (8 <? len accelerator.(V4AcceleratorCapability_formats)))
            (ValidationError_Invalid "v4.plan.accelerator")) ;?
  if_some value.(V4TrainingPlan_parent_plan_hash) (fun parent =>
    v4_hash parent "v4.plan.parent_hash" ;?
    fail_if (parent == value.(V4TrainingPlan_plan_hash))%rust
            (ValidationError_Invalid "v4.plan.parent_hash")) ;?
  fail_if (MAX_V5_REQUIREMENTS <? len value.(V4TrainingPlan_compute_requirements))
          (ValidationError_TooMany "v5.plan.compute_requirements" MAX_V5_REQUIREMENTS) ;?
  for_each (fun requirement => compute_requirements requirement "v5.plan.compute_requirement")
    value.(V4TrainingPlan_compute_requirements) ;?
  fail_if (MAX_V5_ASSIGNMENTS <? len value.(V4TrainingPlan_backend_assignments))
          (ValidationError_TooMany "v5.plan.backend_assignments" MAX_V5_ASSIGNMENTS) ;?
  for_each (fun assignment =>
    backend_assignment assignment value.(V4TrainingPlan_workers)
      value.(V4TrainingPlan_worker_capabilities) "v5.plan.backend_assignment")
    value.(V4TrainingPlan_backend_assignments) ;?
  string value.(V4TrainingPlan_rationale) "v4.plan.rationale".

Definition v4_plan (value : V4TrainingPlan) : result unit ValidationError :=
  training_job_id value.(V4TrainingPlan_job_id) "v4.plan.job_id" ;?
  node_id value.(V4TrainingPlan_proposer) "v4.plan.proposer" ;?
  artifact_id value.(V4TrainingPlan_branch) "v4.plan.branch" ;?
  artifact_id value.(V4TrainingPlan_plan_hash) "v4.plan.hash" ;?
  fail_if (negb (strategy_shape_valid value) || negb (support_matches_strategy value))
          (ValidationError_Invalid "v4.plan.strategy") ;?
  fail_if ((value.(V4TrainingPlan_plan_generation) =? 0)
           || (value.(V4TrainingPlan_model_generation) =? 0)
           || (value.(V4TrainingPlan_training_epoch) =? 0)
           || (value.(V4TrainingPlan_membership_epoch) =? 0)
           || (value.(V4TrainingPlan_coordination_term) =? 0)
           || (value.(V4TrainingPlan_local_steps) =? 0)
           || (1024 <? value.(V4TrainingPlan_local_steps))
           || (1024 <? value.(V4TrainingPlan_max_staleness))
           || (value.(V4TrainingPlan_checkpoint_replication) =? 0)
           || (16 <? value.(V4TrainingPlan_checkpoint_replication))
           || (MAX_V4_STAGES <? value.(V4TrainingPlan_tensor_degree))
           || (MAX_V4_STAGES <? value.(V4TrainingPlan_pipeline_stages)))
          (ValidationError_Invalid "v4.plan.generation") ;?
  fail_if (negb ((2 <=? len value.(V4TrainingPlan_workers))
                 && (len value.(V4TrainingPlan_workers) <=? MAX_V4_PLAN_WORKERS)))
          (ValidationError_Invalid "v4.plan.workers") ;?
  v4_node_list value.(V4TrainingPlan_workers) "v4.plan.workers" MAX_V4_PLAN_WORKERS ;?
  fail_if (negb (len value.(V4TrainingPlan_worker_capabilities)
                 =? len value.(V4TrainingPlan_workers)))
          (ValidationError_Invalid "v4.plan.worker_capabilities") ;?
  v4_plan_worker_capabilities value ;?
  fail_if (is_empty value.(V4TrainingPlan_groups)
           || (MAX_V4_GROUPS <? len value.(V4TrainingPlan_groups)))
          (ValidationError_TooMany "v4.plan.groups" MAX_V4_GROUPS) ;?
  let? sets := try_fold (v4_plan_group value) ([], []) value.(V4TrainingPlan_groups) in
  fail_if (negb (set_eqb sets.2 value.(V4TrainingPlan_workers)))
          (ValidationError_Invalid "v4.plan.group.coverage") ;?
  fail_if (is_empty value.(V4TrainingPlan_shards)
           || (MAX_TRAINING_SHARDS <? len value.(V4TrainingPlan_shards)))
          (ValidationError_TooMany "v4.plan.shards" MAX_TRAINING_SHARDS) ;?
  try_fold (v4_plan_shard value.(V4TrainingPlan_workers)) [] value.(V4TrainingPlan_shards) ;?
  v4_plan_bindings value.

Definition V4TrainingPlan_validate (self : V4TrainingPlan) : result unit ValidationError :=
  v4_plan self.

(** The header checks: identities, generations, membership and certificates. *)
Definition v4_graph_header (value : V4ExecutionGraph) : result unit ValidationError :=
  training_job_id value.(V4ExecutionGraph_job_id) "v4.graph.job_id" ;?
  node_id value.(V4ExecutionGraph_proposer) "v4.graph.proposer" ;?
  node_id value.(V4ExecutionGraph_coordinator) "v4.graph.coordinator" ;?
  node_id value.(V4ExecutionGraph_reply_to) "v4.graph.reply_to" ;?
  v4_hash value.(V4ExecutionGraph_plan_hash) "v4.graph.plan_hash" ;?
  v4_hash value.(V4ExecutionGraph_branch) "v4.graph.branch" ;?
  v4_hash value.(V4ExecutionGraph_graph_hash) "v4.graph.hash" ;?
  fail_if ((value.(V4ExecutionGraph_graph_generation) =? 0)
           || match value.(V4ExecutionGraph_parent_graph_generation) with
              | Some parent =>
                  (parent =? 0) || (value.(V4ExecutionGraph_graph_generation) <=? parent)
              | None => false
              end
           || (value.(V4ExecutionGraph_training_epoch) =? 0)
           || (value.(V4ExecutionGraph_membership_epoch) =? 0)
           || (value.(V4ExecutionGraph_coordination_term) =? 0)
           || (value.(V4ExecutionGraph_optimizer_generation) =? 0)
           || (value.(V4ExecutionGraph_checkpoint_generation) =? 0)
           || (value.(V4ExecutionGraph_collective_generation) =? 0)
           || (value.(V4ExecutionGraph_local_steps) =? 0)
           || (1024 <? value.(V4ExecutionGraph_local_steps))
           || (1024 <? value.(V4ExecutionGraph_max_staleness))
           || (value.(V4ExecutionGraph_checkpoint_replication) =? 0)
           || (16 <? value.(V4ExecutionGraph_checkpoint_replication)))
          (ValidationError_Invalid "v4.graph.generation") ;?
  fail_if (negb ((2 <=? len value.(V4ExecutionGraph_workers))
                 && (len value.(V4ExecutionGraph_workers) <=? MAX_V4_PLAN_WORKERS)))
          (ValidationError_Invalid "v4.graph.workers") ;?
  v4_node_list value.(V4ExecutionGraph_workers) "v4.graph.workers" MAX_V4_PLAN_WORKERS ;?
  fail_if (negb (contains value.(V4ExecutionGraph_proposer) value.(V4ExecutionGraph_workers))
           || negb (contains value.(V4ExecutionGraph_coordinator) value.(V4ExecutionGraph_workers)))
          (ValidationError_Invalid "v4.graph.role_worker") ;?
  fail_if ((MAX_V4_PLAN_WORKERS <? len value.(V4ExecutionGraph_retired_workers))
           || has_duplicates value.(V4ExecutionGraph_retired_workers)
           || existsb (fun worker => contains worker value.(V4ExecutionGraph_workers))
                value.(V4ExecutionGraph_retired_workers))
          (ValidationError_Invalid "v4.graph.retired_workers") ;?
  fail_if ((MAX_V4_PLAN_WORKERS <? len value.(V4ExecutionGraph_election_certificate))
           || has_duplicates value.(V4ExecutionGraph_election_certificate))
          (ValidationError_Invalid "v4.graph.election_certificate").

(** The loop over [value.aggregation_groups], with its sets [group_ids] and [grouped]. *)
Definition v4_graph_aggregation_group (worker_set : list NodeId) (sets : list N * list NodeId)
    (group : V4AggregationGroup) : result (list N * list NodeId) ValidationError :=
  let '(group_ids, grouped) := sets in
  fail_if (contains group.(V4AggregationGroup_group_id) group_ids
           || is_empty group.(V4AggregationGroup_members)
           || negb (forallb (fun member => contains member worker_set)
                      group.(V4AggregationGroup_members)))
          (ValidationError_Invalid "v4.graph.aggregation_group") ;?
  let? grouped := ok_or (insert_each grouped group.(V4AggregationGroup_members))
                    (ValidationError_Invalid "v4.graph.aggregation_group") in
  fail_if (negb (contains group.(V4AggregationGroup_aggregator) group.(V4AggregationGroup_members))
           || match group.(V4AggregationGroup_parent) with
              | Some parent => negb (contains parent worker_set)
              | None => false
              end)
          (ValidationError_Invalid "v4.graph.aggregation_group") ;?
  v4_node_list group.(V4AggregationGroup_members) "v4.graph.aggregation_group.members"
    MAX_V4_PLAN_WORKERS ;?
  Ok (group.(V4AggregationGroup_group_id) :: group_ids, grouped).

(** The loop over [value.tensor_groups], with its sets [tensor_group_ids] and [tensor_shards]. *)
Definition v4_graph_tensor_group (worker_set : list NodeId) (sets : list N * list N)
    (group : V4TensorGroup) : result (list N * list N) ValidationError :=
  let '(tensor_group_ids, tensor_shards) := sets in
  fail_if (contains group.(V4TensorGroup_group_id) tensor_group_ids
           || (len group.(V4TensorGroup_members) <? 2)
           || (MAX_V4_PLAN_WORKERS <? len group.(V4TensorGroup_members))
           || is_empty group.(V4TensorGroup_shard_ids)
           || (group.(V4TensorGroup_generation) =? 0)
           || negb (forallb (fun member => contains member worker_set)
                      group.(V4TensorGroup_members)))
          (ValidationError_Invalid "v4.graph.tensor_group") ;?
  let? tensor_shards := ok_or (insert_each tensor_shards group.(V4TensorGroup_shard_ids))
                          (ValidationError_Invalid "v4.graph.tensor_group") in
  v4_node_list group.(V4TensorGroup_members) "v4.graph.tensor_group.members"
    MAX_V4_PLAN_WORKERS ;?
  Ok (group.(V4TensorGroup_group_id) :: tensor_group_ids, tensor_shards).

(** The loop over [value.pipeline_stages]. *)
Definition v4_graph_pipeline_stage (worker_set : list NodeId) (stages : list N)
    (stage : V4PipelineStageAssignment) : result (list N) ValidationError :=
  fail_if (contains stage.(V4PipelineStageAssignment_stage_id) stages
           || (stage.(V4PipelineStageAssignment_generation) =? 0)
           || negb (contains stage.(V4PipelineStageAssignment_worker) worker_set)
           || (MAX_TRAINING_REPLICAS <? len stage.(V4PipelineStageAssignment_replicas))
           || contains stage.(V4PipelineStageAssignment_worker)
                stage.(V4PipelineStageAssignment_replicas)
           || existsb (fun replica => negb (contains replica worker_set))
                stage.(V4PipelineStageAssignment_replicas))
          (ValidationError_Invalid "v4.graph.pipeline_stage") ;?
  (if is_empty stage.(V4PipelineStageAssignment_replicas) then Ok tt
   else v4_node_list stage.(V4PipelineStageAssignment_replicas)
          "v4.graph.pipeline_stage.replicas" MAX_TRAINING_REPLICAS) ;?
  Ok (stage.(V4PipelineStageAssignment_stage_id) :: stages).

(** The loop over [value.shards]. *)
Definition v4_graph_shard (worker_set : list NodeId) (shard_ids : list N)
    (shard : V4ShardOwnership) : result (list N) ValidationError :=
  fail_if (contains shard.(V4ShardOwnership_shard_id) shard_ids
           || negb (len shard.(V4ShardOwnership_owners) =? 1)
           || (shard.(V4ShardOwnership_model_generation) =? 0)
           || (shard.(V4ShardOwnership_ownership_generation) =? 0)
           || (shard.(V4ShardOwnership_state_bytes) =? 0)
           || (shard.(V4ShardOwnership_memory_bytes) =? 0)
           || negb (forallb (fun owner => contains owner worker_set)
                      shard.(V4ShardOwnership_owners))
           || (MAX_TRAINING_REPLICAS <? len shard.(V4ShardOwnership_replicas))
           || existsb (fun replica => negb (contains replica worker_set)
                                      || contains replica shard.(V4ShardOwnership_owners))
                shard.(V4ShardOwnership_replicas))
          (ValidationError_Invalid "v4.graph.shard") ;?
  v4_hash shard.(V4ShardOwnership_content_hash) "v4.graph.shard.hash" ;?
  Ok (shard.(V4ShardOwnership_shard_id) :: shard_ids).

(** The loop over [value.optimizer_shards]. *)
Definition v4_graph_optimizer_shard (worker_set : list NodeId) (shard_ids : list N)
    (optimizer_ids : list N) (placement : V4OptimizerPlacement)
    : result (list N) ValidationError :=
  fail_if (contains placement.(V4OptimizerPlacement_shard_id) optimizer_ids
           || (placement.(V4OptimizerPlacement_generation) =? 0)
           || negb (contains placement.(V4OptimizerPlacement_shard_id) shard_ids)
           || negb (contains placement.(V4OptimizerPlacement_owner) worker_set)
           || (MAX_TRAINING_REPLICAS <? len placement.(V4OptimizerPlacement_replicas))
           || contains placement.(V4OptimizerPlacement_owner)
                placement.(V4OptimizerPlacement_replicas)
           || existsb (fun replica => negb (contains replica worker_set))
                placement.(V4OptimizerPlacement_replicas))
          (ValidationError_Invalid "v4.graph.optimizer_shard") ;?
  Ok (placement.(V4OptimizerPlacement_shard_id) :: optimizer_ids).

(** The loop over [value.backend_assignments]. *)
Definition v4_graph_backend_assignment (worker_set : list NodeId)
    (assignment : BackendAssignment) : result unit ValidationError :=
  compute_requirements assignment.(BackendAssignment_requirements)
    "v5.graph.backend_requirement" ;?
  node_id assignment.(BackendAssignment_worker) "v5.graph.backend_worker" ;?
  fail_if (negb (contains assignment.(BackendAssignment_worker) worker_set)
           || (1024 <? assignment.(BackendAssignment_device_index)))
          (ValidationError_Invalid "v5.graph.backend_assignment").

Definition v4_execution_graph (value : V4ExecutionGraph) : result unit ValidationError :=
  v4_graph_header value ;?
  fail_if (is_empty value.(V4ExecutionGraph_aggregation_groups)
           || (MAX_V4_GROUPS <? len value.(V4ExecutionGraph_aggregation_groups)))
          (ValidationError_TooMany "v4.graph.aggregation_groups" MAX_V4_GROUPS) ;?
  let worker_set := value.(V4ExecutionGraph_workers) in
  let? sets := try_fold (v4_graph_aggregation_group worker_set) ([], [])
                 value.(V4ExecutionGraph_aggregation_groups) in
  fail_if (negb (set_eqb sets.2 worker_set))
          (ValidationError_Invalid "v4.graph.aggregation_group.coverage") ;?
  fail_if (MAX_V4_GROUPS <? len value.(V4ExecutionGraph_tensor_groups))
          (ValidationError_TooMany "v4.graph.tensor_groups" MAX_V4_GROUPS) ;?
  try_fold (v4_graph_tensor_group worker_set) ([], []) value.(V4ExecutionGraph_tensor_groups) ;?
  fail_if (MAX_V4_STAGES <? len value.(V4ExecutionGraph_pipeline_stages))
          (ValidationError_TooMany "v4.graph.pipeline_stages" MAX_V4_STAGES) ;?
  try_fold (v4_graph_pipeline_stage worker_set) [] value.(V4ExecutionGraph_pipeline_stages) ;?
  fail_if (is_empty value.(V4ExecutionGraph_shards)
           || (MAX_TRAINING_SHARDS <? len value.(V4ExecutionGraph_shards)))
          (ValidationError_TooMany "v4.graph.shards" MAX_TRAINING_SHARDS) ;?
  let? shard_ids := try_fold (v4_graph_shard worker_set) [] value.(V4ExecutionGraph_shards) in
  fail_if (is_empty value.(V4ExecutionGraph_optimizer_shards)
           || (MAX_TRAINING_SHARDS <? len value.(V4ExecutionGraph_optimizer_shards)))
          (ValidationError_TooMany "v4.graph.optimizer_shards" MAX_TRAINING_SHARDS) ;?
  try_fold (v4_graph_optimizer_shard worker_set shard_ids) []
    value.(V4ExecutionGraph_optimizer_shards) ;?
  fail_if (MAX_V5_ASSIGNMENTS <? len value.(V4ExecutionGraph_backend_assignments))
          (ValidationError_TooMany "v5.graph.backend_assignments" MAX_V5_ASSIGNMENTS) ;?
  for_each (v4_graph_backend_assignment worker_set)
    value.(V4ExecutionGraph_backend_assignments).

Definition v4_integrated_state (value : V4IntegratedStateRecord) : result unit ValidationError :=
  training_job_id value.(V4IntegratedStateRecord_job_id) "v4.integrated_state.job_id" ;?
  v4_hash value.(V4IntegratedStateRecord_plan_hash) "v4.integrated_state.plan_hash" ;?
  v4_hash value.(V4IntegratedStateRecord_branch) "v4.integrated_state.branch" ;?
  v4_hash value.(V4IntegratedStateRecord_state_hash) "v4.integrated_state.hash" ;?
  node_id value.(V4IntegratedStateRecord_coordinator) "v4.integrated_state.coordinator" ;?
  fail_if ((value.(V4IntegratedStateRecord_graph_generation) =? 0)
           || (value.(V4IntegratedStateRecord_target_windows) =? 0)
           || (4096 <? value.(V4IntegratedStateRecord_target_windows))
           || (value.(V4IntegratedStateRecord_target_windows) <? value.(V4IntegratedStateRecord_window))
           || (value.(V4IntegratedStateRecord_checkpoint_generation) =? 0)
           || (value.(V4IntegratedStateRecord_model_generation) =? 0)
           || (value.(V4IntegratedStateRecord_optimizer_generation) =? 0)
           || (value.(V4IntegratedStateRecord_membership_epoch) =? 0)
           || (value.(V4IntegratedStateRecord_collective_generation) =? 0))
          (ValidationError_Invalid "v4.integrated_state.generation").

Definition v4_integrated_start (value : V4IntegratedStart) : result unit ValidationError :=
  training_job_id value.(V4IntegratedStart_request_id) "v4.integrated_start.request_id" ;?
  node_id value.(V4IntegratedStart_reply_to) "v4.integrated_start.reply_to" ;?
  fail_if ((value.(V4IntegratedStart_windows) =? 0)
           || (4096 <? value.(V4IntegratedStart_windows))
           || (value.(V4IntegratedStart_checkpoint_every) =? 0))
          (ValidationError_Invalid "v4.integrated_start.bounds") ;?
  fail_if ((value.(V4IntegratedStart_graph).(V4ExecutionGraph_job_id)
       != value.(V4IntegratedStart_plan).(V4TrainingPlan_job_id))%rust
           || (value.(V4IntegratedStart_graph).(V4ExecutionGraph_plan_hash)
                != value.(V4IntegratedStart_plan).(V4TrainingPlan_plan_hash))%rust
           || (value.(V4IntegratedStart_graph).(V4ExecutionGraph_strategy)
                != value.(V4IntegratedStart_plan).(V4TrainingPlan_strategy))%rust
           || (value.(V4IntegratedStart_graph).(V4ExecutionGraph_graph_generation) =? 0)
           || is_err (V4TrainingPlan_validate value.(V4IntegratedStart_plan))
           || is_err (v4_execution_graph value.(V4IntegratedStart_graph)))
          (ValidationError_Invalid "v4.integrated_start.graph").

Definition v4_integrated_ack (value : V4IntegratedAck) : result unit ValidationError :=
  training_job_id value.(V4IntegratedAck_job_id) "v4.integrated_ack.job_id" ;?
  node_id value.(V4IntegratedAck_worker) "v4.integrated_ack.worker" ;?
  fail_if (value.(V4IntegratedAck_graph_generation) =? 0)
          (ValidationError_Invalid "v4.integrated_ack.generation") ;?
  string value.(V4IntegratedAck_reason) "v4.integrated_ack.reason".

Definition v4_integrated_state_ack (value : V4IntegratedStateAck) : result unit ValidationError :=
  training_job_id value.(V4IntegratedStateAck_job_id) "v4.integrated_state_ack.job_id" ;?
  node_id value.(V4IntegratedStateAck_worker) "v4.integrated_state_ack.worker" ;?
  v4_hash value.(V4IntegratedStateAck_state_hash) "v4.integrated_state_ack.hash" ;?
  fail_if (value.(V4IntegratedStateAck_graph_generation) =? 0)
          (ValidationError_Invalid "v4.integrated_state_ack.generation").

Definition v4_integrated_probe (value : V4IntegratedProbe) : result unit ValidationError :=
  training_job_id value.(V4IntegratedProbe_request_id) "v4.integrated_probe.request_id" ;?
  training_job_id value.(V4IntegratedProbe_job_id) "v4.integrated_probe.job_id" ;?
  node_id value.(V4IntegratedProbe_requester) "v4.integrated_probe.requester" ;?
  v4_hash value.(V4IntegratedProbe_graph_hash) "v4.integrated_probe.graph_hash" ;?
  v4_hash value.(V4IntegratedProbe_state_hash) "v4.integrated_probe.state_hash" ;?
  fail_if (value.(V4IntegratedProbe_graph_generation) =? 0)
          (ValidationError_Invalid "v4.integrated_probe.generation").

Definition v4_integrated_probe_ack (value : V4IntegratedProbeAck) : result unit ValidationError :=
  training_job_id value.(V4IntegratedProbeAck_request_id) "v4.integrated_probe_ack.request_id" ;?
  training_job_id value.(V4IntegratedProbeAck_job_id) "v4.integrated_probe_ack.job_id" ;?
  node_id value.(V4IntegratedProbeAck_responder) "v4.integrated_probe_ack.responder" ;?
  fail_if (value.(V4IntegratedProbeAck_graph_generation) =? 0)
          (ValidationError_Invalid "v4.integrated_probe_ack.generation").

Definition v4_integrated_election_request (value : V4IntegratedElectionRequest) : result unit ValidationError :=
  training_job_id value.(V4IntegratedElectionRequest_request_id) "v4.integrated_election.request_id" ;?
  training_job_id value.(V4IntegratedElectionRequest_job_id) "v4.integrated_election.job_id" ;?
  node_id value.(V4IntegratedElectionRequest_candidate) "v4.integrated_election.candidate" ;?
  v4_hash value.(V4IntegratedElectionRequest_graph_hash) "v4.integrated_election.graph_hash" ;?
  v4_hash value.(V4IntegratedElectionRequest_branch) "v4.integrated_election.branch" ;?
  v4_hash value.(V4IntegratedElectionRequest_state_hash) "v4.integrated_election.state_hash" ;?
  fail_if ((value.(V4IntegratedElectionRequest_graph_generation) =? 0)
           || (value.(V4IntegratedElectionRequest_term) =? 0))
          (ValidationError_Invalid "v4.integrated_election.generation").

Definition v4_integrated_election_vote (value : V4IntegratedElectionVote) : result unit ValidationError :=
  training_job_id value.(V4IntegratedElectionVote_job_id) "v4.integrated_election_vote.job_id" ;?
  node_id value.(V4IntegratedElectionVote_candidate) "v4.integrated_election_vote.candidate" ;?
  node_id value.(V4IntegratedElectionVote_voter) "v4.integrated_election_vote.voter" ;?
  v4_hash value.(V4IntegratedElectionVote_graph_hash) "v4.integrated_election_vote.graph_hash" ;?
  fail_if ((value.(V4IntegratedElectionVote_graph_generation) =? 0)
           || (value.(V4IntegratedElectionVote_term) =? 0))
          (ValidationError_Invalid "v4.integrated_election_vote.generation") ;?
  string value.(V4IntegratedElectionVote_reason) "v4.integrated_election_vote.reason".

Definition v4_integrated_result (value : V4IntegratedResult) : result unit ValidationError :=
  training_job_id value.(V4IntegratedResult_request_id) "v4.integrated_result.request_id" ;?
  training_job_id value.(V4IntegratedResult_job_id) "v4.integrated_result.job_id" ;?
  fail_if ((value.(V4IntegratedResult_graph_generation) =? 0)
           || (4096 <? value.(V4IntegratedResult_windows_completed)))
          (ValidationError_Invalid "v4.integrated_result.generation").

Definition v4_tensor_replica (value : V4TensorReplica) : result unit ValidationError :=
  training_job_id value.(V4TensorReplica_job_id) "v4.tensor_replica.job_id" ;?
  node_id value.(V4TensorReplica_source) "v4.tensor_replica.source" ;?
  v4_hash value.(V4TensorReplica_state_hash) "v4.tensor_replica.hash" ;?
  fail_if ((value.(V4TensorReplica_plan_generation) =? 0)
           || (value.(V4TensorReplica_model_generation) =? 0)
           || (value.(V4TensorReplica_state_generation) =? 0)
           || (value.(V4TensorReplica_ownership_generation) =? 0)
           || (value.(V4TensorReplica_rows) =? 0)
           || (value.(V4TensorReplica_cols) =? 0)
           || negb (value.(V4TensorReplica_rows) * value.(V4TensorReplica_cols)
                =? len value.(V4TensorReplica_weights))
           || (MAX_V4_VECTOR * MAX_V4_VECTOR <? len value.(V4TensorReplica_weights))
           || (MAX_V4_VECTOR <? value.(V4TensorReplica_row_offset) + value.(V4TensorReplica_rows))
           || existsb (fun weight => (1000000000
                <? unsigned_abs weight)) value.(V4TensorReplica_weights))
          (ValidationError_Invalid "v4.tensor_replica.shape").

Definition v4_tensor_replica_ack (value : V4TensorReplicaAck) : result unit ValidationError :=
  training_job_id value.(V4TensorReplicaAck_job_id) "v4.tensor_replica_ack.job_id" ;?
  v4_hash value.(V4TensorReplicaAck_state_hash) "v4.tensor_replica_ack.hash" ;?
  fail_if ((value.(V4TensorReplicaAck_plan_generation) =? 0)
           || (value.(V4TensorReplicaAck_state_generation) =? 0))
          (ValidationError_Invalid "v4.tensor_replica_ack.generation").

Definition v4_optimizer_state_install (value : V4OptimizerStateInstall) : result unit ValidationError :=
  training_job_id value.(V4OptimizerStateInstall_job_id) "v4.optimizer_state.job_id" ;?
  node_id value.(V4OptimizerStateInstall_source) "v4.optimizer_state.source" ;?
  v4_hash value.(V4OptimizerStateInstall_state_hash) "v4.optimizer_state.hash" ;?
  fail_if ((value.(V4OptimizerStateInstall_plan_generation) =? 0)
           || (value.(V4OptimizerStateInstall_model_generation) =? 0)
           || (value.(V4OptimizerStateInstall_optimizer_generation) =? 0)
           || (value.(V4OptimizerStateInstall_state_generation) =? 0)
           || (value.(V4OptimizerStateInstall_sequence) =? 0)
           || is_empty value.(V4OptimizerStateInstall_values))
          (ValidationError_Invalid "v4.optimizer_state.generation") ;?
  v4_vector value.(V4OptimizerStateInstall_values) "v4.optimizer_state.values".

Definition v4_optimizer_state_ack (value : V4OptimizerStateAck) : result unit ValidationError :=
  training_job_id value.(V4OptimizerStateAck_job_id) "v4.optimizer_state_ack.job_id" ;?
  v4_hash value.(V4OptimizerStateAck_state_hash) "v4.optimizer_state_ack.hash" ;?
  fail_if ((value.(V4OptimizerStateAck_plan_generation) =? 0)
           || (value.(V4OptimizerStateAck_optimizer_generation) =? 0)
           || (value.(V4OptimizerStateAck_state_generation) =? 0))
          (ValidationError_Invalid "v4.optimizer_state_ack.generation").

Definition v4_training_state (value : V4TrainingStateRecord) : result unit ValidationError :=
  training_job_id value.(V4TrainingStateRecord_job_id) "v4.state.job_id" ;?
  node_id value.(V4TrainingStateRecord_coordinator) "v4.state.coordinator" ;?
  v4_hash value.(V4TrainingStateRecord_plan_hash) "v4.state.plan_hash" ;?
  v4_hash value.(V4TrainingStateRecord_branch) "v4.state.branch" ;?
  v4_hash value.(V4TrainingStateRecord_state_hash) "v4.state.hash" ;?
  fail_if ((value.(V4TrainingStateRecord_plan_generation) =? 0)
           || (value.(V4TrainingStateRecord_training_epoch) =? 0)
           || (value.(V4TrainingStateRecord_membership_epoch) =? 0)
           || (value.(V4TrainingStateRecord_coordination_term) =? 0)
           || (value.(V4TrainingStateRecord_optimizer_generation) =? 0)
           || (value.(V4TrainingStateRecord_checkpoint_generation) =? 0))
          (ValidationError_Invalid "v4.state.generation") ;?
  fail_if (negb ((2 <=? len value.(V4TrainingStateRecord_workers))
                 && (len value.(V4TrainingStateRecord_workers) <=? MAX_V4_PLAN_WORKERS)))
          (ValidationError_Invalid "v4.state.workers") ;?
  v4_node_list value.(V4TrainingStateRecord_workers) "v4.state.workers" MAX_V4_PLAN_WORKERS ;?
  let worker_set := value.(V4TrainingStateRecord_workers) in
  fail_if (is_empty value.(V4TrainingStateRecord_shards)
           || (MAX_TRAINING_SHARDS <? len value.(V4TrainingStateRecord_shards)))
          (ValidationError_TooMany "v4.state.shards" MAX_TRAINING_SHARDS) ;?
  fail_if ((MAX_V4_PLAN_WORKERS <? len value.(V4TrainingStateRecord_data_progress))
           || (negb (is_empty value.(V4TrainingStateRecord_data_progress))
               && negb (len value.(V4TrainingStateRecord_data_progress)
                        =? len value.(V4TrainingStateRecord_workers))))
          (ValidationError_TooMany "v4.state.data_progress" MAX_V4_PLAN_WORKERS) ;?
  try_fold (fun shard_ids shard =>
    fail_if (contains shard.(V4ShardOwnership_shard_id) shard_ids
             || existsb (fun node => negb (contains node worker_set))
                  (shard.(V4ShardOwnership_owners) ++ shard.(V4ShardOwnership_replicas)))
            (ValidationError_Invalid "v4.state.shard.worker") ;?
    fail_if (negb (len shard.(V4ShardOwnership_owners) =? 1))
            (ValidationError_Invalid "v4.state.shard.owners") ;?
    v4_node_list shard.(V4ShardOwnership_owners) "v4.state.shard.owners" MAX_V4_PLAN_WORKERS ;?
    fail_if (MAX_TRAINING_REPLICAS <? len shard.(V4ShardOwnership_replicas))
            (ValidationError_TooMany "v4.state.shard.replicas" MAX_TRAINING_REPLICAS) ;?
    fail_if (existsb (fun replica => contains replica shard.(V4ShardOwnership_owners))
               shard.(V4ShardOwnership_replicas))
            (ValidationError_Invalid "v4.state.shard.replica_owner_overlap") ;?
    v4_hash shard.(V4ShardOwnership_content_hash) "v4.state.shard.hash" ;?
    Ok (shard.(V4ShardOwnership_shard_id) :: shard_ids))
    [] value.(V4TrainingStateRecord_shards) ;?
  if_some value.(V4TrainingStateRecord_checkpoint) (fun checkpoint =>
    v4_hash checkpoint "v4.state.checkpoint").

Definition v4_optimizer_shard (value : V4OptimizerShardRecord) : result unit ValidationError :=
  training_job_id value.(V4OptimizerShardRecord_job_id) "v4.optimizer.job_id" ;?
  node_id value.(V4OptimizerShardRecord_owner) "v4.optimizer.owner" ;?
  v4_hash value.(V4OptimizerShardRecord_content_hash) "v4.optimizer.content_hash" ;?
  v4_hash value.(V4OptimizerShardRecord_state_hash) "v4.optimizer.state_hash" ;?
  fail_if ((value.(V4OptimizerShardRecord_plan_generation) =? 0)
           || (value.(V4OptimizerShardRecord_model_generation) =? 0)
           || (value.(V4OptimizerShardRecord_optimizer_generation) =? 0)
           || (value.(V4OptimizerShardRecord_state_bytes) =? 0)
           || (MAX_TRAINING_STATE_BYTES <? value.(V4OptimizerShardRecord_state_bytes))
           || (MAX_TRAINING_REPLICAS <? len value.(V4OptimizerShardRecord_replicas))
           || contains value.(V4OptimizerShardRecord_owner) value.(V4OptimizerShardRecord_replicas))
          (ValidationError_Invalid "v4.optimizer.bounds") ;?
  if is_empty value.(V4OptimizerShardRecord_replicas) then Ok tt
  else v4_node_list value.(V4OptimizerShardRecord_replicas) "v4.optimizer.replicas"
         MAX_TRAINING_REPLICAS.

Definition v4_checkpoint (value : V4CheckpointRecord) : result unit ValidationError :=
  training_job_id value.(V4CheckpointRecord_job_id) "v4.checkpoint.job_id" ;?
  v4_hash value.(V4CheckpointRecord_branch) "v4.checkpoint.branch" ;?
  v4_hash value.(V4CheckpointRecord_manifest_hash) "v4.checkpoint.manifest_hash" ;?
  fail_if ((value.(V4CheckpointRecord_plan_generation) =? 0)
           || (value.(V4CheckpointRecord_model_generation) =? 0)
           || (value.(V4CheckpointRecord_optimizer_generation) =? 0)
           || (value.(V4CheckpointRecord_membership_epoch) =? 0)
           || (value.(V4CheckpointRecord_checkpoint_generation) =? 0)
           || is_empty value.(V4CheckpointRecord_shard_hashes)
           || (MAX_TRAINING_SHARDS <? len value.(V4CheckpointRecord_shard_hashes)))
          (ValidationError_Invalid "v4.checkpoint.generation") ;?
  for_each (fun hash =>
    v4_hash hash "v4.checkpoint.shard_hash") value.(V4CheckpointRecord_shard_hashes) ;?
  v4_node_list value.(V4CheckpointRecord_providers) "v4.checkpoint.providers" MAX_V4_PLAN_WORKERS ;?
  fail_if (value.(V4CheckpointRecord_complete) && is_empty value.(V4CheckpointRecord_providers))
          (ValidationError_Invalid "v4.checkpoint.providers") ;?
  if_some value.(V4CheckpointRecord_parent) (fun parent =>
    v4_hash parent "v4.checkpoint.parent").

Definition v4_state_ack (value : V4StateAck) : result unit ValidationError :=
  training_job_id value.(V4StateAck_job_id) "v4.state_ack.job_id" ;?
  v4_hash value.(V4StateAck_state_hash) "v4.state_ack.hash" ;?
  fail_if ((value.(V4StateAck_plan_generation) =? 0)
           || (value.(V4StateAck_generation) =? 0))
          (ValidationError_Invalid "v4.state_ack.generation").

Definition v4_shard_migration (value : V4ShardMigration) : result unit ValidationError :=
  training_job_id value.(V4ShardMigration_job_id) "v4.migration.job_id" ;?
  node_id value.(V4ShardMigration_from) "v4.migration.from" ;?
  node_id value.(V4ShardMigration_to) "v4.migration.to" ;?
  v4_hash value.(V4ShardMigration_content_hash) "v4.migration.hash" ;?
  fail_if ((value.(V4ShardMigration_plan_generation) =? 0)
           || (value.(V4ShardMigration_ownership_generation) =? 0)
           || (value.(V4ShardMigration_from) == value.(V4ShardMigration_to))%rust
           || (MAX_V4_BYTES <? len value.(V4ShardMigration_state)))
          (ValidationError_Invalid "v4.migration.bounds") ;?
  fail_if ((value.(V4ShardMigration_phase)
       == V4ShardMigrationPhase_Prepare)%rust && is_empty value.(V4ShardMigration_state)) (ValidationError_Empty "v4.migration.prepare_state") ;?
  fail_if (negb (value.(V4ShardMigration_phase)
       == V4ShardMigrationPhase_Prepare)%rust && negb (is_empty value.(V4ShardMigration_state))) (ValidationError_Invalid "v4.migration.commit_state").

Definition v4_shard_migration_ack (value : V4ShardMigrationAck) : result unit ValidationError :=
  training_job_id value.(V4ShardMigrationAck_job_id) "v4.migration_ack.job_id" ;?
  node_id value.(V4ShardMigrationAck_owner) "v4.migration_ack.owner" ;?
  v4_hash value.(V4ShardMigrationAck_content_hash) "v4.migration_ack.hash" ;?
  fail_if ((value.(V4ShardMigrationAck_plan_generation) =? 0)
           || (value.(V4ShardMigrationAck_ownership_generation) =? 0))
          (ValidationError_Invalid "v4.migration_ack.generation").

Definition v4_shard_migration_request (value : V4ShardMigrationRequest) : result unit ValidationError :=
  training_job_id value.(V4ShardMigrationRequest_request_id) "v4.migration_request.request_id" ;?
  training_job_id value.(V4ShardMigrationRequest_job_id) "v4.migration_request.job_id" ;?
  node_id value.(V4ShardMigrationRequest_proposer) "v4.migration_request.proposer" ;?
  node_id value.(V4ShardMigrationRequest_from) "v4.migration_request.from" ;?
  node_id value.(V4ShardMigrationRequest_to) "v4.migration_request.to" ;?
  node_id value.(V4ShardMigrationRequest_reply_to) "v4.migration_request.reply_to" ;?
  v4_hash value.(V4ShardMigrationRequest_proposal_hash) "v4.migration_request.proposal_hash" ;?
  v4_hash value.(V4ShardMigrationRequest_content_hash) "v4.migration_request.content_hash" ;?
  fail_if ((value.(V4ShardMigrationRequest_plan_generation) =? 0)
           || (value.(V4ShardMigrationRequest_ownership_generation) =? 0)
           || (value.(V4ShardMigrationRequest_from) == value.(V4ShardMigrationRequest_to))%rust
           || (value.(V4ShardMigrationRequest_reply_to)
                != value.(V4ShardMigrationRequest_proposer))%rust)
          (ValidationError_Invalid "v4.migration_request.authorization").

Definition v4_shard_migration_result (value : V4ShardMigrationResult) : result unit ValidationError :=
  training_job_id value.(V4ShardMigrationResult_request_id) "v4.migration_result.request_id" ;?
  training_job_id value.(V4ShardMigrationResult_job_id) "v4.migration_result.job_id" ;?
  node_id value.(V4ShardMigrationResult_from) "v4.migration_result.from" ;?
  node_id value.(V4ShardMigrationResult_to) "v4.migration_result.to" ;?
  v4_hash value.(V4ShardMigrationResult_content_hash) "v4.migration_result.hash" ;?
  fail_if ((value.(V4ShardMigrationResult_plan_generation) =? 0)
           || (value.(V4ShardMigrationResult_ownership_generation) =? 0))
          (ValidationError_Invalid "v4.migration_result.generation") ;?
  string value.(V4ShardMigrationResult_reason) "v4.migration_result.reason".

Definition v4_plan_proposal_ack (value : V4PlanProposalAck) : result unit ValidationError :=
  training_job_id value.(V4PlanProposalAck_job_id) "v4.plan_proposal_ack.job_id" ;?
  v4_hash value.(V4PlanProposalAck_proposal_hash) "v4.plan_proposal_ack.hash" ;?
  fail_if (value.(V4PlanProposalAck_plan_generation) =? 0)
          (ValidationError_Invalid "v4.plan_proposal_ack.generation") ;?
  string value.(V4PlanProposalAck_reason) "v4.plan_proposal_ack.reason".

Definition v4_plan_ack (value : V4PlanAck) : result unit ValidationError :=
  training_job_id value.(V4PlanAck_job_id) "v4.plan_ack.job_id" ;?
  v4_hash value.(V4PlanAck_plan_hash) "v4.plan_ack.hash" ;?
  fail_if (value.(V4PlanAck_plan_generation) =? 0)
          (ValidationError_Invalid "v4.plan_ack.generation") ;?
  string value.(V4PlanAck_reason) "v4.plan_ack.reason".

Definition v4_tensor_install (value : V4TensorInstall) : result unit ValidationError :=
  training_job_id value.(V4TensorInstall_job_id) "v4.tensor_install.job_id" ;?
  v4_hash value.(V4TensorInstall_state_hash) "v4.tensor_install.hash" ;?
  fail_if ((value.(V4TensorInstall_plan_generation) =? 0)
           || (value.(V4TensorInstall_model_generation) =? 0)
           || (value.(V4TensorInstall_rows) =? 0)
           || (value.(V4TensorInstall_cols) =? 0)
           || negb (value.(V4TensorInstall_rows) * value.(V4TensorInstall_cols)
                =? len value.(V4TensorInstall_weights))
           || (MAX_V4_VECTOR * MAX_V4_VECTOR <? len value.(V4TensorInstall_weights))
           || (MAX_V4_VECTOR <? value.(V4TensorInstall_row_offset) + value.(V4TensorInstall_rows)))
          (ValidationError_Invalid "v4.tensor_install.shape") ;?
  fail_if (existsb (fun weight => (1000000000 <? unsigned_abs weight)) value.(V4TensorInstall_weights))
          (ValidationError_Invalid "v4.tensor_install.weights").

Definition v4_tensor_install_ack (value : V4TensorInstallAck) : result unit ValidationError :=
  training_job_id value.(V4TensorInstallAck_job_id) "v4.tensor_install_ack.job_id" ;?
  v4_hash value.(V4TensorInstallAck_state_hash) "v4.tensor_install_ack.hash" ;?
  fail_if (value.(V4TensorInstallAck_plan_generation) =? 0)
          (ValidationError_Invalid "v4.tensor_install_ack.generation").

Definition v4_tensor_forward (value : V4TensorForward) : result unit ValidationError :=
  training_job_id value.(V4TensorForward_job_id) "v4.tensor_forward.job_id" ;?
  training_job_id value.(V4TensorForward_request_id) "v4.tensor_forward.request_id" ;?
  fail_if ((value.(V4TensorForward_plan_generation) =? 0)
           || (value.(V4TensorForward_model_generation) =? 0)
           || (value.(V4TensorForward_sequence) =? 0))
          (ValidationError_Invalid "v4.tensor_forward.generation") ;?
  v4_vector value.(V4TensorForward_input) "v4.tensor_forward.input".

Definition v4_tensor_forward_result (value : V4TensorForwardResult) : result unit ValidationError :=
  training_job_id value.(V4TensorForwardResult_job_id) "v4.tensor_forward_result.job_id" ;?
  training_job_id value.(V4TensorForwardResult_request_id) "v4.tensor_forward_result.request_id" ;?
  v4_hash value.(V4TensorForwardResult_state_hash) "v4.tensor_forward_result.hash" ;?
  fail_if ((value.(V4TensorForwardResult_plan_generation) =? 0)
           || (value.(V4TensorForwardResult_sequence) =? 0))
          (ValidationError_Invalid "v4.tensor_forward_result.generation") ;?
  v4_vector value.(V4TensorForwardResult_output) "v4.tensor_forward_result.output".

Definition v4_tensor_backward (value : V4TensorBackward) : result unit ValidationError :=
  training_job_id value.(V4TensorBackward_job_id) "v4.tensor_backward.job_id" ;?
  training_job_id value.(V4TensorBackward_request_id) "v4.tensor_backward.request_id" ;?
  fail_if ((value.(V4TensorBackward_plan_generation) =? 0)
           || (value.(V4TensorBackward_model_generation) =? 0)
           || (value.(V4TensorBackward_sequence) =? 0)
           || (value.(V4TensorBackward_learning_rate_micros) <=? 0)%Z
           || (1000000 <? value.(V4TensorBackward_learning_rate_micros))%Z)
          (ValidationError_Invalid "v4.tensor_backward.generation") ;?
  v4_vector value.(V4TensorBackward_input) "v4.tensor_backward.input" ;?
  v4_vector value.(V4TensorBackward_upstream) "v4.tensor_backward.upstream".

Definition v4_tensor_backward_result (value : V4TensorBackwardResult)
    : result unit ValidationError :=
  training_job_id value.(V4TensorBackwardResult_job_id) "v4.tensor_backward_result.job_id" ;?
  training_job_id value.(V4TensorBackwardResult_request_id) "v4.tensor_backward_result.request_id" ;?
  v4_hash value.(V4TensorBackwardResult_state_hash) "v4.tensor_backward_result.hash" ;?
  fail_if ((value.(V4TensorBackwardResult_plan_generation) =? 0)
           || (value.(V4TensorBackwardResult_sequence) =? 0)
           || (value.(V4TensorBackwardResult_state_generation) =? 0))
          (ValidationError_Invalid "v4.tensor_backward_result.generation") ;?
  v4_vector value.(V4TensorBackwardResult_weight_gradient)
    "v4.tensor_backward_result.weight_gradient" ;?
  v4_vector value.(V4TensorBackwardResult_input_gradient)
    "v4.tensor_backward_result.input_gradient" ;?
  match value.(V4TensorBackwardResult_optimizer_state_hash) with
  | Some hash =>
      v4_hash hash "v4.tensor_backward_result.optimizer_hash" ;?
      fail_if (value.(V4TensorBackwardResult_optimizer_state_generation) =? 0)
              (ValidationError_Invalid "v4.tensor_backward_result.optimizer_generation")
  | None =>
      fail_if (negb (value.(V4TensorBackwardResult_optimizer_state_generation) =? 0))
              (ValidationError_Invalid "v4.tensor_backward_result.optimizer_hash")
  end.

Definition v4_pipeline_install (value : V4PipelineInstall) : result unit ValidationError :=
  training_job_id value.(V4PipelineInstall_job_id) "v4.pipeline_install.job_id" ;?
  v4_hash value.(V4PipelineInstall_state_hash) "v4.pipeline_install.hash" ;?
  fail_if ((value.(V4PipelineInstall_plan_generation) =? 0)
           || (value.(V4PipelineInstall_stage_count) <? 2)
           || (MAX_V4_STAGES <? value.(V4PipelineInstall_stage_count))
           || (value.(V4PipelineInstall_stage_count) <=? value.(V4PipelineInstall_stage_id))
           || (1000000000 <? unsigned_abs value.(V4PipelineInstall_coefficient))
           || (1000000000 <? unsigned_abs value.(V4PipelineInstall_bias)))
          (ValidationError_Invalid "v4.pipeline_install.stage").

Definition v4_pipeline_install_ack (value : V4PipelineInstallAck) : result unit ValidationError :=
  training_job_id value.(V4PipelineInstallAck_job_id) "v4.pipeline_install_ack.job_id" ;?
  v4_hash value.(V4PipelineInstallAck_state_hash) "v4.pipeline_install_ack.hash" ;?
  fail_if ((value.(V4PipelineInstallAck_plan_generation) =? 0)
           || (MAX_V4_STAGES <=? value.(V4PipelineInstallAck_stage_id)))
          (ValidationError_Invalid "v4.pipeline_install_ack.stage").

Definition v4_pipeline_forward (value : V4PipelineForward) : result unit ValidationError :=
  training_job_id value.(V4PipelineForward_job_id) "v4.pipeline_forward.job_id" ;?
  training_job_id value.(V4PipelineForward_request_id) "v4.pipeline_forward.request_id" ;?
  fail_if ((value.(V4PipelineForward_plan_generation) =? 0)
           || (value.(V4PipelineForward_stage_count) <? 2)
           || (MAX_V4_STAGES <? value.(V4PipelineForward_stage_count))
           || (value.(V4PipelineForward_stage_count) <=? value.(V4PipelineForward_stage_id))
           || (value.(V4PipelineForward_deadline_ms) =? 0)
           || (300000 <? value.(V4PipelineForward_deadline_ms)))
          (ValidationError_Invalid "v4.pipeline_forward.stage") ;?
  v4_vector value.(V4PipelineForward_activation) "v4.pipeline_forward.activation".

Definition v4_pipeline_forward_result (value : V4PipelineForwardResult) : result unit ValidationError :=
  training_job_id value.(V4PipelineForwardResult_job_id) "v4.pipeline_forward_result.job_id" ;?
  training_job_id value.(V4PipelineForwardResult_request_id) "v4.pipeline_forward_result.request_id" ;?
  fail_if ((value.(V4PipelineForwardResult_plan_generation) =? 0)
           || (MAX_V4_STAGES <=? value.(V4PipelineForwardResult_stage_id)))
          (ValidationError_Invalid "v4.pipeline_forward_result.stage") ;?
  v4_vector value.(V4PipelineForwardResult_activation) "v4.pipeline_forward_result.activation" ;?
  v4_hash value.(V4PipelineForwardResult_state_hash) "v4.pipeline_forward_result.hash".

Definition v4_pipeline_backward (value : V4PipelineBackward) : result unit ValidationError :=
  training_job_id value.(V4PipelineBackward_job_id) "v4.pipeline_backward.job_id" ;?
  training_job_id value.(V4PipelineBackward_request_id) "v4.pipeline_backward.request_id" ;?
  fail_if ((value.(V4PipelineBackward_plan_generation) =? 0)
           || (value.(V4PipelineBackward_stage_count) <? 2)
           || (MAX_V4_STAGES <? value.(V4PipelineBackward_stage_count))
           || (value.(V4PipelineBackward_stage_count) <=? value.(V4PipelineBackward_stage_id))
           || (value.(V4PipelineBackward_deadline_ms) =? 0)
           || (300000 <? value.(V4PipelineBackward_deadline_ms)))
          (ValidationError_Invalid "v4.pipeline_backward.stage") ;?
  v4_vector value.(V4PipelineBackward_gradient) "v4.pipeline_backward.gradient".

Definition v4_pipeline_backward_result (value : V4PipelineBackwardResult) : result unit ValidationError :=
  training_job_id value.(V4PipelineBackwardResult_job_id) "v4.pipeline_backward_result.job_id" ;?
  training_job_id value.(V4PipelineBackwardResult_request_id) "v4.pipeline_backward_result.request_id" ;?
  fail_if ((value.(V4PipelineBackwardResult_plan_generation) =? 0)
           || (MAX_V4_STAGES <=? value.(V4PipelineBackwardResult_stage_id)))
          (ValidationError_Invalid "v4.pipeline_backward_result.stage") ;?
  v4_vector value.(V4PipelineBackwardResult_gradient) "v4.pipeline_backward_result.gradient" ;?
  v4_hash value.(V4PipelineBackwardResult_state_hash) "v4.pipeline_backward_result.hash".

Definition v4_collective_contribute (value : V4CollectiveContribute) : result unit ValidationError :=
  training_job_id value.(V4CollectiveContribute_job_id) "v4.collective.job_id" ;?
  training_job_id value.(V4CollectiveContribute_request_id) "v4.collective.request_id" ;?
  node_id value.(V4CollectiveContribute_contributor) "v4.collective.contributor" ;?
  node_id value.(V4CollectiveContribute_aggregator) "v4.collective.aggregator" ;?
  if_some value.(V4CollectiveContribute_parent) (fun parent =>
    node_id parent "v4.collective.parent") ;?
  node_id value.(V4CollectiveContribute_reply_to) "v4.collective.reply_to" ;?
  fail_if ((value.(V4CollectiveContribute_plan_generation) =? 0)
           || (value.(V4CollectiveContribute_generation) =? 0)
           || (value.(V4CollectiveContribute_expected_groups) <=? value.(V4CollectiveContribute_group_id))
           || (value.(V4CollectiveContribute_expected_contributors) =? 0)
           || (MAX_V4_PLAN_WORKERS <? value.(V4CollectiveContribute_expected_contributors))
           || (value.(V4CollectiveContribute_expected_groups) =? 0)
           || (MAX_V4_GROUPS <? value.(V4CollectiveContribute_expected_groups)))
          (ValidationError_Invalid "v4.collective.generation") ;?
  v4_vector value.(V4CollectiveContribute_values) "v4.collective.values".

Definition v4_collective_aggregate (value : V4CollectiveAggregate) : result unit ValidationError :=
  training_job_id value.(V4CollectiveAggregate_job_id) "v4.collective_aggregate.job_id" ;?
  training_job_id value.(V4CollectiveAggregate_request_id) "v4.collective_aggregate.request_id" ;?
  node_id value.(V4CollectiveAggregate_aggregator) "v4.collective_aggregate.aggregator" ;?
  node_id value.(V4CollectiveAggregate_reply_to) "v4.collective_aggregate.reply_to" ;?
  fail_if ((value.(V4CollectiveAggregate_plan_generation) =? 0)
           || (value.(V4CollectiveAggregate_generation) =? 0)
           || (value.(V4CollectiveAggregate_expected_groups) <=? value.(V4CollectiveAggregate_group_id))
           || (value.(V4CollectiveAggregate_contributors) =? 0)
           || (value.(V4CollectiveAggregate_expected_groups) =? 0)
           || (MAX_V4_GROUPS <? value.(V4CollectiveAggregate_expected_groups)))
          (ValidationError_Invalid "v4.collective_aggregate.generation") ;?
  v4_vector value.(V4CollectiveAggregate_values) "v4.collective_aggregate.values".

Definition v4_collective_result (value : V4CollectiveResult) : result unit ValidationError :=
  training_job_id value.(V4CollectiveResult_job_id) "v4.collective_result.job_id" ;?
  training_job_id value.(V4CollectiveResult_request_id) "v4.collective_result.request_id" ;?
  fail_if ((value.(V4CollectiveResult_plan_generation) =? 0)
           || (value.(V4CollectiveResult_generation) =? 0)
           || (value.(V4CollectiveResult_group_count) =? 0)
           || (value.(V4CollectiveResult_max_fan_in) =? 0)
           || (value.(V4CollectiveResult_contributor_bytes)
                <? value.(V4CollectiveResult_root_received_bytes)))
          (ValidationError_Invalid "v4.collective_result.generation") ;?
  v4_vector value.(V4CollectiveResult_values) "v4.collective_result.values".

Definition v4_branch (value : V4TrainingBranch) : result unit ValidationError :=
  training_job_id value.(V4TrainingBranch_job_id) "v4.branch.job_id" ;?
  node_id value.(V4TrainingBranch_created_by) "v4.branch.created_by" ;?
  artifact_id value.(V4TrainingBranch_branch) "v4.branch.id" ;?
  fail_if ((value.(V4TrainingBranch_parent_generation) =? 0)
           || (value.(V4TrainingBranch_model_generation) =? 0)
           || (value.(V4TrainingBranch_optimizer_generation) =? 0)
           || (value.(V4TrainingBranch_plan_generation) =? 0))
          (ValidationError_Invalid "v4.branch.generation").

Definition v4_reconcile (value : V4ReconcileRequest) : result unit ValidationError :=
  training_job_id value.(V4ReconcileRequest_job_id) "v4.reconcile.job_id" ;?
  training_job_id value.(V4ReconcileRequest_request_id) "v4.reconcile.request_id" ;?
  fail_if (value.(V4ReconcileRequest_plan_generation) =? 0)
          (ValidationError_Invalid "v4.reconcile.plan_generation") ;?
  v4_branch value.(V4ReconcileRequest_left) ;?
  v4_branch value.(V4ReconcileRequest_right) ;?
  fail_if ((value.(V4ReconcileRequest_left).(V4TrainingBranch_job_id)
       != value.(V4ReconcileRequest_right).(V4TrainingBranch_job_id))%rust
           || negb (value.(V4ReconcileRequest_left).(V4TrainingBranch_parent_generation)
                =? value.(V4ReconcileRequest_right).(V4TrainingBranch_parent_generation))
           || negb (value.(V4ReconcileRequest_left).(V4TrainingBranch_model_generation)
                =? value.(V4ReconcileRequest_right).(V4TrainingBranch_model_generation))
           || negb (value.(V4ReconcileRequest_left).(V4TrainingBranch_plan_generation)
                =? value.(V4ReconcileRequest_right).(V4TrainingBranch_plan_generation))
           || (value.(V4ReconcileRequest_left).(V4TrainingBranch_branch)
                == value.(V4ReconcileRequest_right).(V4TrainingBranch_branch))%rust)
          (ValidationError_Invalid "v4.reconcile.branch_lineage") ;?
  fail_if ((1000000000 <? unsigned_abs value.(V4ReconcileRequest_left_value))
           || (1000000000 <? unsigned_abs value.(V4ReconcileRequest_right_value)))
          (ValidationError_Invalid "v4.reconcile.values").

Definition v4_reconcile_result (value : V4ReconcileResult) : result unit ValidationError :=
  training_job_id value.(V4ReconcileResult_job_id) "v4.reconcile_result.job_id" ;?
  training_job_id value.(V4ReconcileResult_request_id) "v4.reconcile_result.request_id" ;?
  fail_if (value.(V4ReconcileResult_plan_generation) =? 0)
          (ValidationError_Invalid "v4.reconcile_result.plan_generation") ;?
  if_some value.(V4ReconcileResult_branch) (fun branch =>
    artifact_id branch "v4.reconcile_result.branch") ;?
  string value.(V4ReconcileResult_reason) "v4.reconcile_result.reason".

Definition v4_byzantine_update (value : V4ByzantineUpdate) : result unit ValidationError :=
  training_job_id value.(V4ByzantineUpdate_job_id) "v4.byzantine.job_id" ;?
  training_job_id value.(V4ByzantineUpdate_request_id) "v4.byzantine.request_id" ;?
  node_id value.(V4ByzantineUpdate_worker) "v4.byzantine.worker" ;?
  node_id value.(V4ByzantineUpdate_aggregator) "v4.byzantine.aggregator" ;?
  node_id value.(V4ByzantineUpdate_reply_to) "v4.byzantine.reply_to" ;?
  fail_if ((value.(V4ByzantineUpdate_plan_generation) =? 0)
           || (value.(V4ByzantineUpdate_generation) =? 0)
           || (value.(V4ByzantineUpdate_sequence) =? 0)
           || (value.(V4ByzantineUpdate_expected_updates) =? 0)
           || (MAX_V4_PLAN_WORKERS <? value.(V4ByzantineUpdate_expected_updates)))
          (ValidationError_Invalid "v4.byzantine.generation") ;?
  v4_vector value.(V4ByzantineUpdate_values) "v4.byzantine.values".

Definition v4_byzantine_result (value : V4ByzantineResult) : result unit ValidationError :=
  training_job_id value.(V4ByzantineResult_job_id) "v4.byzantine_result.job_id" ;?
  training_job_id value.(V4ByzantineResult_request_id) "v4.byzantine_result.request_id" ;?
  fail_if ((value.(V4ByzantineResult_plan_generation) =? 0)
           || (value.(V4ByzantineResult_generation) =? 0))
          (ValidationError_Invalid "v4.byzantine_result.generation") ;?
  v4_vector value.(V4ByzantineResult_aggregate) "v4.byzantine_result.aggregate" ;?
  v4_node_list value.(V4ByzantineResult_accepted_workers) "v4.byzantine_result.accepted_workers" MAX_V4_PLAN_WORKERS ;?
  v4_node_list value.(V4ByzantineResult_rejected_workers) "v4.byzantine_result.rejected_workers" MAX_V4_PLAN_WORKERS ;?
  fail_if (existsb (fun worker => contains worker value.(V4ByzantineResult_rejected_workers)) value.(V4ByzantineResult_accepted_workers)
           || (MAX_V4_PLAN_WORKERS
                <? len value.(V4ByzantineResult_accepted_workers) + len value.(V4ByzantineResult_rejected_workers))
           || Bool.eqb value.(V4ByzantineResult_robust) (value.(V4ByzantineResult_policy)
                == V4ByzantinePolicy_Mean)%rust)
          (ValidationError_Invalid "v4.byzantine_result.workers").

Definition training_v4_message (value : TrainingV4Message) : result unit ValidationError :=
  match value with
  | TrainingV4Message_Plan value => v4_plan value
  | TrainingV4Message_PlanAck value => v4_plan_ack value
  | TrainingV4Message_PlanProposal value => v4_plan value
  | TrainingV4Message_PlanProposalAck value => v4_plan_proposal_ack value
  | TrainingV4Message_StateRecord value => v4_training_state value
  | TrainingV4Message_OptimizerShard value => v4_optimizer_shard value
  | TrainingV4Message_CheckpointRecord value => v4_checkpoint value
  | TrainingV4Message_StateAck value => v4_state_ack value
  | TrainingV4Message_ShardMigration value => v4_shard_migration value
  | TrainingV4Message_ShardMigrationAck value => v4_shard_migration_ack value
  | TrainingV4Message_ShardMigrationRequest value => v4_shard_migration_request value
  | TrainingV4Message_ShardMigrationResult value => v4_shard_migration_result value
  | TrainingV4Message_TensorInstall value => v4_tensor_install value
  | TrainingV4Message_TensorInstallAck value => v4_tensor_install_ack value
  | TrainingV4Message_TensorForward value => v4_tensor_forward value
  | TrainingV4Message_TensorForwardResult value => v4_tensor_forward_result value
  | TrainingV4Message_TensorBackward value => v4_tensor_backward value
  | TrainingV4Message_TensorBackwardResult value => v4_tensor_backward_result value
  | TrainingV4Message_PipelineInstall value => v4_pipeline_install value
  | TrainingV4Message_PipelineInstallAck value => v4_pipeline_install_ack value
  | TrainingV4Message_PipelineForward value => v4_pipeline_forward value
  | TrainingV4Message_PipelineForwardResult value => v4_pipeline_forward_result value
  | TrainingV4Message_PipelineBackward value => v4_pipeline_backward value
  | TrainingV4Message_PipelineBackwardResult value => v4_pipeline_backward_result value
  | TrainingV4Message_CollectiveContribute value => v4_collective_contribute value
  | TrainingV4Message_CollectiveAggregate value => v4_collective_aggregate value
  | TrainingV4Message_CollectiveResult value => v4_collective_result value
  | TrainingV4Message_Branch value => v4_branch value
  | TrainingV4Message_Reconcile value => v4_reconcile value
  | TrainingV4Message_ReconcileResult value => v4_reconcile_result value
  | TrainingV4Message_ByzantineUpdate value => v4_byzantine_update value
  | TrainingV4Message_ByzantineResult value => v4_byzantine_result value
  | TrainingV4Message_IntegratedStart value => v4_integrated_start value
  | TrainingV4Message_IntegratedAck value => v4_integrated_ack value
  | TrainingV4Message_IntegratedState value => v4_integrated_state value
  | TrainingV4Message_IntegratedStateAck value => v4_integrated_state_ack value
  | TrainingV4Message_IntegratedProbe value => v4_integrated_probe value
  | TrainingV4Message_IntegratedProbeAck value => v4_integrated_probe_ack value
  | TrainingV4Message_IntegratedElectionRequest value => v4_integrated_election_request value
  | TrainingV4Message_IntegratedElectionVote value => v4_integrated_election_vote value
  | TrainingV4Message_IntegratedResult value => v4_integrated_result value
  | TrainingV4Message_TensorReplica value => v4_tensor_replica value
  | TrainingV4Message_TensorReplicaAck value => v4_tensor_replica_ack value
  | TrainingV4Message_OptimizerStateInstall value => v4_optimizer_state_install value
  | TrainingV4Message_OptimizerStateAck value => v4_optimizer_state_ack value
  end.

Definition training_v5_message (value : TrainingV5Message) : result unit ValidationError :=
  match value with
  | TrainingV5Message_CapabilityChallenge value => v5_challenge value
  | TrainingV5Message_CapabilityChallengeResult value => v5_challenge_result value
  | TrainingV5Message_CapabilityEvidence value => v5_evidence value
  end.

(** ** The [validate] methods *)

Definition Capability_validate (self : Capability) : result unit ValidationError :=
  capability self.

Definition PeerRecord_validate (self : PeerRecord) : result unit ValidationError :=
  peer self.

Definition SignedAnnouncement_validate (self : SignedAnnouncement)
    : result unit ValidationError :=
  peer self.(SignedAnnouncement_record) ;?
  signature self.(SignedAnnouncement_signature) "announcement.signature".

Definition Hello_validate (self : Hello) : result unit ValidationError :=
  peer self.(Hello_record) ;?
  signature self.(Hello_signature) "hello.signature".

Definition PeerExchange_validate (self : PeerExchange) : result unit ValidationError :=
  fail_if (MAX_PEERS <? len self.(PeerExchange_peers))
          (ValidationError_TooMany "peer_exchange.peers" MAX_PEERS) ;?
  for_each SignedAnnouncement_validate self.(PeerExchange_peers).

Definition AddressUpdate_validate (self : AddressUpdate) : result unit ValidationError :=
  fail_if (self.(AddressUpdate_sequence) =? 0)
          (ValidationError_Invalid "address_update.sequence") ;?
  fail_if (MAX_ADDRESSES <? len self.(AddressUpdate_addresses))
          (ValidationError_TooMany "address_update.addresses" MAX_ADDRESSES) ;?
  for_each address_record self.(AddressUpdate_addresses) ;?
  signature self.(AddressUpdate_signature) "address_update.signature".

Definition AddressObservation_validate (self : AddressObservation)
    : result unit ValidationError :=
  fail_if ((self.(AddressObservation_address) == "")%rust
           || (MAX_ADDRESS_LEN <? slen self.(AddressObservation_address)))
          (ValidationError_TooLong "address_observation.address" MAX_ADDRESS_LEN) ;?
  fail_if (self.(AddressObservation_expires_at) =? 0)
          (ValidationError_Invalid "address_observation.expires_at") ;?
  signature self.(AddressObservation_signature) "address_observation.signature".

Definition JobRequest_validate (self : JobRequest) : result unit ValidationError :=
  string self.(JobRequest_capability) "job.capability" ;?
  fail_if (128 <? slen self.(JobRequest_capability))
          (ValidationError_TooLong "job.capability" 128) ;?
  bytes self.(JobRequest_input) MAX_JOB_INPUT "job.input" ;?
  fail_if ((self.(JobRequest_deadline_ms) =? 0)
           || (24 * 60 * 60 * 1000 <? self.(JobRequest_deadline_ms)))
          (ValidationError_Invalid "job.deadline_ms") ;?
  fail_if ((self.(JobRequest_max_output_bytes) =? 0)
           || (MAX_JOB_OUTPUT <? self.(JobRequest_max_output_bytes)))
          (ValidationError_Invalid "job.max_output_bytes").

(** [state_matches] of [JobUpdate::validate] *)
Definition JobUpdate_state_matches (self : JobUpdate) : bool :=
  match self.(JobUpdate_update) with
  | JobUpdateKind_Accepted state => (state == self.(JobUpdate_state))%rust
  | JobUpdateKind_Started | JobUpdateKind_Chunk _ _ =>
      (self.(JobUpdate_state) == JobState_Running)%rust
  | JobUpdateKind_Succeeded _ _ _ => (self.(JobUpdate_state) == JobState_Succeeded)%rust
  | JobUpdateKind_Rejected _ _ => (self.(JobUpdate_state) == JobState_Rejected)%rust
  | JobUpdateKind_Cancelled => (self.(JobUpdate_state) == JobState_Cancelled)%rust
  | JobUpdateKind_TimedOut => (self.(JobUpdate_state) == JobState_TimedOut)%rust
  | JobUpdateKind_Failed _ _ => (self.(JobUpdate_state) == JobState_Failed)%rust
  end.

Definition JobUpdate_validate (self : JobUpdate) : result unit ValidationError :=
  fail_if (self.(JobUpdate_sequence) =? 0) (ValidationError_Invalid "job.sequence") ;?
  fail_if (negb (JobUpdate_state_matches self)) (ValidationError_Invalid "job.state_update") ;?
  match self.(JobUpdate_update) with
  | JobUpdateKind_Chunk _ data => bytes data MAX_ARTIFACT_CHUNK "job.chunk"
  | JobUpdateKind_Succeeded output _ evidence =>
      bytes output MAX_JOB_OUTPUT "job.output" ;?
      if_some evidence (fun value => string value.(Evidence_score_scale) "evidence.score_scale")
  | JobUpdateKind_Rejected code message | JobUpdateKind_Failed code message =>
      string code "job.error.code" ;?
      string message "job.error.message"
  | JobUpdateKind_Accepted _ | JobUpdateKind_Started | JobUpdateKind_Cancelled
  | JobUpdateKind_TimedOut => Ok tt
  end.

Definition ArtifactRequest_validate (self : ArtifactRequest) : result unit ValidationError :=
  fail_if ((self.(ArtifactRequest_max_bytes) =? 0)
           || (MAX_ARTIFACT_CHUNK <? self.(ArtifactRequest_max_bytes)))
          (ValidationError_Invalid "artifact_request.max_bytes").

Definition ArtifactChunk_validate (self : ArtifactChunk) : result unit ValidationError :=
  bytes self.(ArtifactChunk_data) MAX_ARTIFACT_CHUNK "artifact_chunk.data".

Definition ArtifactTransferRequest_validate (self : ArtifactTransferRequest)
    : result unit ValidationError :=
  fail_if ((self.(ArtifactTransferRequest_max_bytes) =? 0)
           || (MAX_ARTIFACT_CHUNK <? self.(ArtifactTransferRequest_max_bytes)))
          (ValidationError_Invalid "artifact_transfer_request.max_bytes").

Definition ArtifactTransferChunk_validate (self : ArtifactTransferChunk)
    : result unit ValidationError :=
  fail_if ((self.(ArtifactTransferChunk_total_size) =? 0)
           || (self.(ArtifactTransferChunk_total_size) <? self.(ArtifactTransferChunk_offset)))
          (ValidationError_Invalid "artifact_transfer_chunk.range") ;?
  bytes self.(ArtifactTransferChunk_data) MAX_ARTIFACT_CHUNK "artifact_transfer_chunk.data" ;?
  fail_if (is_empty self.(ArtifactTransferChunk_data)
           && negb self.(ArtifactTransferChunk_final_chunk))
          (ValidationError_Invalid "artifact_transfer_chunk.data") ;?
  fail_if (self.(ArtifactTransferChunk_total_size)
           <? sat_add u64_max self.(ArtifactTransferChunk_offset)
                (len self.(ArtifactTransferChunk_data)))
          (ValidationError_Invalid "artifact_transfer_chunk.range").

Definition KeyRotation_validate (self : KeyRotation) : result unit ValidationError :=
  fail_if ((self.(KeyRotation_old_node_id) == self.(KeyRotation_new_node_id))%rust
           || (self.(KeyRotation_old_node_id)
                 != NodeId_from_public_key self.(KeyRotation_old_public_key))%rust
           || (self.(KeyRotation_new_node_id)
                 != NodeId_from_public_key self.(KeyRotation_new_public_key))%rust
           || (self.(KeyRotation_sequence) =? 0)
           || (self.(KeyRotation_valid_from) =? 0)
           || (self.(KeyRotation_valid_until) <? self.(KeyRotation_valid_from)))
          (ValidationError_Invalid "key_rotation.identity_or_validity") ;?
  signature self.(KeyRotation_old_signature) "key_rotation.old_signature" ;?
  signature self.(KeyRotation_new_signature) "key_rotation.new_signature".

Definition RelayEnvelope_validate (self : RelayEnvelope) : result unit ValidationError :=
  fail_if ((self.(RelayEnvelope_origin)
              != NodeId_from_public_key self.(RelayEnvelope_origin_public_key))%rust
           || (self.(RelayEnvelope_origin) == self.(RelayEnvelope_target))%rust
           || is_empty self.(RelayEnvelope_payload)
           || (MAX_RELAY_PAYLOAD <? len self.(RelayEnvelope_payload)))
          (ValidationError_Invalid "relay_envelope.identity_or_payload") ;?
  signature self.(RelayEnvelope_signature) "relay_envelope.signature".

Definition ArtifactManifest_validate (self : ArtifactManifest) : result unit ValidationError :=
  string self.(ArtifactManifest_format) "artifact.format" ;?
  manifest_shards self.(ArtifactManifest_shards) "artifact.shards".

Definition ModelManifest_validate (self : ModelManifest) : result unit ValidationError :=
  string self.(ModelManifest_identity) "model.identity" ;?
  string self.(ModelManifest_format) "model.format" ;?
  manifest_shards self.(ModelManifest_weights) "model.weights" ;?
  fail_if (MAX_CAPABILITIES <? len self.(ModelManifest_adapters))
          (ValidationError_TooMany "model.adapters" MAX_CAPABILITIES) ;?
  fail_if (MAX_CAPABILITIES <? len self.(ModelManifest_capabilities))
          (ValidationError_TooMany "model.capabilities" MAX_CAPABILITIES) ;?
  for_each (fun item => string item "model.capability") self.(ModelManifest_capabilities) ;?
  fail_if (MAX_METADATA <? len self.(ModelManifest_runtime_requirements))
          (ValidationError_TooMany "model.runtime_requirements" MAX_METADATA) ;?
  for_each (fun item =>
    string item.(MetadataEntry_key) "model.runtime_requirement.key" ;?
    string item.(MetadataEntry_value) "model.runtime_requirement.value")
    self.(ModelManifest_runtime_requirements) ;?
  if_some self.(ModelManifest_local_path) (fun path => string path "model.local_path").

Definition DatasetManifest_validate (self : DatasetManifest) : result unit ValidationError :=
  string self.(DatasetManifest_identity) "dataset.identity" ;?
  string self.(DatasetManifest_format) "dataset.format" ;?
  string self.(DatasetManifest_sample_policy) "dataset.sample_policy" ;?
  manifest_shards self.(DatasetManifest_shards) "dataset.shards".

Definition CheckpointManifest_validate (self : CheckpointManifest)
    : result unit ValidationError :=
  fail_if (negb self.(CheckpointManifest_complete_weights))
          (ValidationError_Invalid "checkpoint.complete_weights").

Definition TrainingPlan_validate (self : TrainingPlan) : result unit ValidationError :=
  fail_if ((self.(TrainingPlan_workers) =? 0)
           || (1024 <? self.(TrainingPlan_workers))
           || (self.(TrainingPlan_max_steps) =? 0)
           || (self.(TrainingPlan_checkpoint_every) =? 0))
          (ValidationError_Invalid "training.plan.bounds") ;?
  if_some self.(TrainingPlan_evaluation_capability) (fun capability =>
    string capability "training.evaluation_capability").

Definition DhtRecord_validate (self : DhtRecord) : result unit ValidationError :=
  dht_record self.

Definition DhtRequest_validate (self : DhtRequest) : result unit ValidationError :=
  match self.(DhtRequest_request) with
  | DhtRequestKind_Ping | DhtRequestKind_FindNode _ => Ok tt
  | DhtRequestKind_Get _ _ => Ok tt
  | DhtRequestKind_Put record => DhtRecord_validate record
  end.

Definition DhtResponse_validate (self : DhtResponse) : result unit ValidationError :=
  match self.(DhtResponse_response) with
  | DhtResponseKind_Nodes contacts =>
      fail_if (MAX_DHT_CONTACTS <? len contacts)
              (ValidationError_TooMany "dht.response.contacts" MAX_DHT_CONTACTS) ;?
      for_each SignedAnnouncement_validate contacts
  | DhtResponseKind_Records records =>
      fail_if (MAX_DHT_RECORDS <? len records)
              (ValidationError_TooMany "dht.response.records" MAX_DHT_RECORDS) ;?
      for_each DhtRecord_validate records
  | DhtResponseKind_Error _ message => string message "dht.error.message"
  | DhtResponseKind_Pong | DhtResponseKind_Stored | DhtResponseKind_NotFound => Ok tt
  end.

Definition SignedEvidence_validate (self : SignedEvidence) : result unit ValidationError :=
  signed_evidence self.

Definition ProtocolError_validate (self : ProtocolError) : result unit ValidationError :=
  string self.(ProtocolError_message) "protocol_error.message".

Definition Message_validate (self : Message) : result unit ValidationError :=
  match self with
  | Message_Hello value => Hello_validate value
  | Message_PeerExchange value => PeerExchange_validate value
  | Message_Announcement value => SignedAnnouncement_validate value
  | Message_JobRequest value => JobRequest_validate value
  | Message_JobUpdate value => JobUpdate_validate value
  | Message_CancelJob value => string value.(CancelJob_reason) "cancel.reason"
  | Message_ArtifactRequest value => ArtifactRequest_validate value
  | Message_ArtifactChunk value => ArtifactChunk_validate value
  | Message_Ping _ | Message_Pong _ => Ok tt
  | Message_Goodbye reason =>
      match reason with
      | None => Ok tt
      | Some value => string value "goodbye.reason"
      end
  | Message_Error value => ProtocolError_validate value
  | Message_AddressUpdate value => AddressUpdate_validate value
  | Message_AddressObservation value => AddressObservation_validate value
  | Message_ArtifactTransferRequest value => ArtifactTransferRequest_validate value
  | Message_ArtifactTransferChunk value => ArtifactTransferChunk_validate value
  | Message_KeyRotation value => KeyRotation_validate value
  | Message_RelayEnvelope value => RelayEnvelope_validate value
  | Message_DhtRequest value => DhtRequest_validate value
  | Message_DhtResponse value => DhtResponse_validate value
  | Message_Training value => training_message value
  | Message_TrainingV4 value => training_v4_message value
  | Message_TrainingV5 value => training_v5_message value
  end.

Definition V4TrainingStateRecord_validate (self : V4TrainingStateRecord) : result unit ValidationError :=
  v4_training_state self.

Definition V4OptimizerShardRecord_validate (self : V4OptimizerShardRecord) : result unit ValidationError :=
  v4_optimizer_shard self.

Definition V4CheckpointRecord_validate (self : V4CheckpointRecord) : result unit ValidationError :=
  v4_checkpoint self.

Definition V4ExecutionGraph_validate (self : V4ExecutionGraph) : result unit ValidationError :=
  v4_execution_graph self.

Definition V4IntegratedStateRecord_validate (self : V4IntegratedStateRecord) : result unit ValidationError :=
  v4_integrated_state self.

Definition V4IntegratedStart_validate (self : V4IntegratedStart) : result unit ValidationError :=
  v4_integrated_start self.

Definition V4IntegratedAck_validate (self : V4IntegratedAck) : result unit ValidationError :=
  v4_integrated_ack self.

Definition V4IntegratedStateAck_validate (self : V4IntegratedStateAck) : result unit ValidationError :=
  v4_integrated_state_ack self.

Definition V4IntegratedProbe_validate (self : V4IntegratedProbe) : result unit ValidationError :=
  v4_integrated_probe self.

Definition V4IntegratedProbeAck_validate (self : V4IntegratedProbeAck) : result unit ValidationError :=
  v4_integrated_probe_ack self.

Definition V4IntegratedElectionRequest_validate (self : V4IntegratedElectionRequest) : result unit ValidationError :=
  v4_integrated_election_request self.

Definition V4IntegratedElectionVote_validate (self : V4IntegratedElectionVote) : result unit ValidationError :=
  v4_integrated_election_vote self.

Definition V4IntegratedResult_validate (self : V4IntegratedResult) : result unit ValidationError :=
  v4_integrated_result self.

Definition V4TensorReplica_validate (self : V4TensorReplica) : result unit ValidationError :=
  v4_tensor_replica self.

Definition V4TensorReplicaAck_validate (self : V4TensorReplicaAck) : result unit ValidationError :=
  v4_tensor_replica_ack self.

Definition V4OptimizerStateInstall_validate (self : V4OptimizerStateInstall) : result unit ValidationError :=
  v4_optimizer_state_install self.

Definition V4OptimizerStateAck_validate (self : V4OptimizerStateAck) : result unit ValidationError :=
  v4_optimizer_state_ack self.

Definition V4StateAck_validate (self : V4StateAck) : result unit ValidationError :=
  v4_state_ack self.

End Validation.
