(* ===== verification/ValidationFacts.v ===== *)
(** * What validation guarantees

    The structural guarantees the rest of the system relies on once a message has
    passed [Message_validate]: node lists are duplicate-free and never name the
    default identity, the aggregation groups of a plan or graph partition its
    workers, every shard has exactly one owner, and so on. *)

From Stdlib Require Import String ZArith NArith Lia.
From stdpp Require Import base tactics sets strings numbers list.
From S2P Require Import Prelude OrdMap Types Validation.
Local Open Scope N_scope.

(** ** Specifications *)

(** A bounded, duplicate-free list of real identities. *)
Record node_list_ok (nodes : list NodeId) (max : N) : Prop := {
  node_list_nonempty : nodes <> [];
  node_list_bounded : len nodes <= max;
  node_list_nodup : NoDup nodes;
  node_list_real : Forall (fun n => n <> NodeId_default) nodes
}.

(** The aggregation groups partition the workers, each group has its aggregator
    among its members and reports to a worker. *)
Record groups_ok (workers : list NodeId) (groups : list V4AggregationGroup) : Prop := {
  groups_ids : NoDup (V4AggregationGroup_group_id <$> groups);
  groups_partition : concat (V4AggregationGroup_members <$> groups) ≡ₚ workers;
  groups_aggregator : Forall (fun g =>
    g.(V4AggregationGroup_aggregator) ∈ g.(V4AggregationGroup_members)) groups;
  groups_parent : Forall (fun g => forall p,
    g.(V4AggregationGroup_parent) = Some p -> p ∈ workers) groups
}.

(** A shard has one owner, its replicas are other workers. *)
Record shard_ok (workers : list NodeId) (shard : V4ShardOwnership) : Prop := {
  shard_one_owner : exists o, shard.(V4ShardOwnership_owners) = [o] /\ o ∈ workers
                              /\ o ∉ shard.(V4ShardOwnership_replicas);
  shard_replicas : Forall (fun r => r ∈ workers) shard.(V4ShardOwnership_replicas);
  shard_replicas_bounded : len shard.(V4ShardOwnership_replicas) <= MAX_TRAINING_REPLICAS;
  shard_generations : 0 < shard.(V4ShardOwnership_model_generation)
                      /\ 0 < shard.(V4ShardOwnership_ownership_generation)
}.

(** Exactly one group holds a worker. *)
Definition in_exactly_one_group (groups : list V4AggregationGroup) (w : NodeId) : Prop :=
  exists g, g ∈ groups /\ w ∈ g.(V4AggregationGroup_members)
            /\ forall g', g' ∈ groups -> w ∈ g'.(V4AggregationGroup_members) -> g' = g.

(** ** Identities and node lists *)

Section Facts.
Context `{Blake3}.

Lemma node_id_ok n field u : node_id n field = Ok u <-> n <> NodeId_default.
Proof. unfold node_id. rewrite fail_if_ok, bool_decide_eq_false. done. Qed.

Lemma artifact_id_ok a field u : artifact_id a field = Ok u <-> a <> ArtifactId_default.
Proof. unfold artifact_id. rewrite fail_if_ok, bool_decide_eq_false. done. Qed.

Lemma training_job_id_ok j field u : training_job_id j field = Ok u <-> j <> JobId_default.
Proof. unfold training_job_id. rewrite fail_if_ok, bool_decide_eq_false. done. Qed.

Lemma seen_loop_ok nodes field s :
  try_fold (fun seen node =>
    rbind (node_id node field) (fun _ =>
    rbind (fail_if (contains node seen) (ValidationError_Invalid field)) (fun _ =>
    Ok (node :: seen)))) [] nodes = Ok s ->
  NoDup nodes /\ Forall (fun n => n <> NodeId_default) nodes.
Proof.
  intros Hf. apply (try_fold_fresh id (fun n => n <> NodeId_default)) in Hf.
  - rewrite list_fmap_id in Hf. naive_solver.
  - intros seen x s' Hs. inv_ok Hs. apply node_id_ok in Hok. apply contains_false in Hok0.
    by injection Hs as <-.
Qed.

Lemma v4_node_list_ok nodes field max u :
  v4_node_list nodes field max = Ok u -> node_list_ok nodes max.
Proof.
  unfold v4_node_list. intros Hv. inv_ok Hv.
  apply seen_loop_ok in Hok1 as [Hnd Hreal]. apply is_empty_false in Hok. by split.
Qed.

Lemma training_nodes_ok nodes field max u :
  training_nodes nodes field max = Ok u -> node_list_ok nodes max.
Proof.
  unfold training_nodes. intros Hv. inv_ok Hv.
  apply seen_loop_ok in Hok1 as [Hnd Hreal]. apply is_empty_false in Hok0. by split.
Qed.
End Facts.

(** Reads every check that passed as the proposition it decides. *)
Ltac vfacts :=
  repeat match goal with
  | Hv : contains _ _ = true |- _ => apply contains_true in Hv
  | Hv : contains _ _ = false |- _ => apply contains_false in Hv
  | Hv : is_empty _ = false |- _ => apply is_empty_false in Hv
  | Hv : has_duplicates _ = false |- _ => apply has_duplicates_false in Hv
  | Hv : existsb _ _ = false |- _ => apply existsb_false in Hv; rewrite Forall_forall in Hv
  | Hv : forallb _ _ = true |- _ => apply forallb_true in Hv; rewrite Forall_forall in Hv
  | Hv : set_eqb _ _ = true |- _ => rewrite set_eqb_true in Hv
  | Hv : node_id _ _ = Ok _ |- _ => apply node_id_ok in Hv
  | Hv : v4_hash _ _ = Ok _ |- _ => unfold v4_hash in Hv
  | Hv : artifact_id _ _ = Ok _ |- _ => apply artifact_id_ok in Hv
  | Hv : training_job_id _ _ = Ok _ |- _ => apply training_job_id_ok in Hv
  | Hv : v4_node_list _ _ _ = Ok _ |- _ => apply v4_node_list_ok in Hv
  | Hv : training_nodes _ _ _ = Ok _ |- _ => apply training_nodes_ok in Hv
  | Hv : ok_or (insert_each _ _) _ = Ok _ |- _ =>
      let E := fresh "Hins" in
      destruct (insert_each _ _) eqn:E; cbn in Hv; [|discriminate Hv];
      injection Hv as Hv; apply insert_each_Some in E
  end.

(** ** Aggregation groups *)

(** What one iteration of the group loops establishes. *)
Record group_step (workers : list NodeId) (sets : list N * list NodeId)
    (g : V4AggregationGroup) (sets' : list N * list NodeId) : Prop := {
  step_sets : sets' = (g.(V4AggregationGroup_group_id) :: sets.1,
                       reverse g.(V4AggregationGroup_members) ++ sets.2);
  step_id : g.(V4AggregationGroup_group_id) ∉ sets.1;
  step_nodup : NoDup g.(V4AggregationGroup_members);
  step_fresh : forall m, m ∈ g.(V4AggregationGroup_members) -> m ∉ sets.2;
  step_workers : forall m, m ∈ g.(V4AggregationGroup_members) -> m ∈ workers;
  step_aggregator : g.(V4AggregationGroup_aggregator) ∈ g.(V4AggregationGroup_members);
  step_parent : forall p, g.(V4AggregationGroup_parent) = Some p -> p ∈ workers
}.

Lemma groups_fold {E} workers (f : list N * list NodeId -> V4AggregationGroup ->
                                   result (list N * list NodeId) E) groups sets :
  (forall s g s', f s g = Ok s' -> group_step workers s g s') ->
  NoDup workers ->
  try_fold f ([], []) groups = Ok sets ->
  (forall x, x ∈ sets.2 <-> x ∈ workers) ->
  groups_ok workers groups.
Proof.
  intros Hstep Hnd Hf Hcover.
  assert (Hinv : sets.1 = reverse (V4AggregationGroup_group_id <$> groups)
    /\ sets.2 ≡ₚ concat (V4AggregationGroup_members <$> groups)
    /\ NoDup sets.1 /\ NoDup sets.2
    /\ Forall (fun g => g.(V4AggregationGroup_aggregator) ∈ g.(V4AggregationGroup_members)) groups
    /\ Forall (fun g => forall p, g.(V4AggregationGroup_parent) = Some p -> p ∈ workers) groups).
  { revert Hf. apply (try_fold_inv (fun seen s =>
      s.1 = reverse (V4AggregationGroup_group_id <$> seen)
      /\ s.2 ≡ₚ concat (V4AggregationGroup_members <$> seen)
      /\ NoDup s.1 /\ NoDup s.2
      /\ Forall (fun g => g.(V4AggregationGroup_aggregator) ∈ g.(V4AggregationGroup_members)) seen
      /\ Forall (fun g => forall p, g.(V4AggregationGroup_parent) = Some p -> p ∈ workers) seen)).
    - split_and!; constructor.
    - intros seen g s s' (H1 & H2 & H3 & H4 & H5 & H6) Hs _.
      destruct (Hstep _ _ _ Hs) as [-> Hid Hndg Hfresh _ Hagg Hpar].
      rewrite !Forall_app, !Forall_singleton, !fmap_app, concat_app. cbn [fst snd].
      split_and!; auto.
      + rewrite reverse_app, H1. done.
      + rewrite reverse_Permutation, H2. cbn. rewrite app_nil_r. apply Permutation_app_comm.
      + by constructor.
      + apply NoDup_app. rewrite reverse_Permutation. split_and!; auto.
        intros x. rewrite elem_of_reverse. apply Hfresh. }
  destruct Hinv as (H1 & H2 & H3 & H4 & H5 & H6).
  split; auto.
  - rewrite <- (reverse_Permutation (_ <$> groups)), <- H1. done.
  - rewrite <- H2. apply NoDup_Permutation; auto.
Qed.

Lemma groups_ok_exactly_one workers groups w :
  NoDup workers -> groups_ok workers groups -> w ∈ workers -> in_exactly_one_group groups w.
Proof.
  intros Hnd [_ Hpart _ _] Hw. rewrite <- Hpart in Hw, Hnd. clear Hpart.
  induction groups as [|g groups IH]; cbn in *; [set_solver|].
  apply NoDup_app in Hnd as (_ & Hdisj & Hnd).
  assert (Hin : forall g', g' ∈ groups -> w ∈ g'.(V4AggregationGroup_members) ->
                           w ∈ concat (V4AggregationGroup_members <$> groups)).
  { intros g' Hg' Hw'. apply list_elem_of_In, in_concat. exists g'.(V4AggregationGroup_members).
    rewrite <- !list_elem_of_In. split; [|done]. by apply list_elem_of_fmap_2. }
  apply elem_of_app in Hw as [Hw|Hw].
  - exists g. split_and!; [left|done|]. intros g' [->|Hg']%elem_of_cons Hw'; [done|].
    destruct (Hdisj w Hw). eauto.
  - destruct (IH Hnd Hw) as (g0 & Hg0 & Hw0 & Huniq). exists g0. split_and!; [by right|done|].
    intros g' [->|Hg']%elem_of_cons Hw'; [|by apply Huniq].
    destruct (Hdisj w Hw'). eauto.
Qed.

Section Topology.
Context `{Blake3}.

Lemma v4_plan_group_step value s g s' :
  v4_plan_group value s g = Ok s' -> group_step value.(V4TrainingPlan_workers) s g s'.
Proof.
  destruct s as [ids grouped]. unfold v4_plan_group. intros Hv. inv_ok Hv. vfacts.
  destruct Hins as (Hnd & Hfresh & ->). injection Hv as <-. subst.
  split; cbn; auto.
  - intros m Hm. match goal with Hw : forall x, x ∈ _ -> negb _ = false |- _ =>
      apply Hw in Hm; breflect; vfacts end. done.
  - intros p Hp. rewrite Hp in *. breflect. by vfacts.
Qed.

Lemma v4_graph_group_step workers s g s' :
  v4_graph_aggregation_group workers s g = Ok s' -> group_step workers s g s'.
Proof.
  destruct s as [ids grouped]. unfold v4_graph_aggregation_group. intros Hv. inv_ok Hv. vfacts.
  destruct Hins as (Hnd & Hfresh & ->). injection Hv as <-. subst.
  split; cbn; auto.
  - intros m Hm. match goal with Hw : forall x, x ∈ _ -> contains _ _ = true |- _ =>
      apply Hw in Hm; vfacts end. done.
  - intros p Hp. rewrite Hp in *. breflect. by vfacts.
Qed.

Lemma owners_singleton {A} (xs : list A) : len xs = 1 -> exists x, xs = [x].
Proof. unfold len. destruct xs as [|x [|y xs]]; cbn; intros; try lia. by exists x. Qed.

Lemma v4_plan_shard_step workers ids shard ids' :
  v4_plan_shard workers ids shard = Ok ids' ->
  ids' = shard.(V4ShardOwnership_shard_id) :: ids
  /\ shard.(V4ShardOwnership_shard_id) ∉ ids /\ shard_ok workers shard.
Proof.
  unfold v4_plan_shard. intros Hv. inv_ok Hv. vfacts. injection Hv as <-.
  match goal with Hl : len _ = 1 |- _ => destruct (owners_singleton _ Hl) as [o Ho] end.
  match goal with Hw : forall x, x ∈ _ ++ _ -> _ |- _ => rename Hw into Hworkers end.
  match goal with Hw : forall x, x ∈ shard.(V4ShardOwnership_replicas) -> _ |- _ =>
    rename Hw into Hoverlap end.
  rewrite Ho in *.
  assert (Hin : forall n, n ∈ [o] ++ shard.(V4ShardOwnership_replicas) -> n ∈ workers).
  { intros n Hn. apply Hworkers in Hn. breflect. by vfacts. }
  split_and!; [done|done|]. split.
  - exists o. split_and!; [done|apply Hin; set_solver|].
    intros Hr. apply Hoverlap in Hr. vfacts. set_solver.
  - rewrite Forall_forall. intros r Hr. apply Hin. set_solver.
  - done.
  - lia.
Qed.

Lemma v4_graph_shard_step workers ids shard ids' :
  v4_graph_shard workers ids shard = Ok ids' ->
  ids' = shard.(V4ShardOwnership_shard_id) :: ids
  /\ shard.(V4ShardOwnership_shard_id) ∉ ids /\ shard_ok workers shard.
Proof.
  unfold v4_graph_shard. intros Hv. inv_ok Hv. vfacts. injection Hv as <-.
  match goal with Hl : len _ = 1 |- _ => destruct (owners_singleton _ Hl) as [o Ho] end.
  match goal with Hw : forall x, x ∈ shard.(V4ShardOwnership_owners) -> _ |- _ =>
    rename Hw into Howners end.
  match goal with Hw : forall x, x ∈ shard.(V4ShardOwnership_replicas) -> _ |- _ =>
    rename Hw into Hreplicas end.
  rewrite Ho in *.
  assert (Hrep : forall r, r ∈ shard.(V4ShardOwnership_replicas) -> r ∈ workers /\ r ∉ [o]).
  { intros r Hr. apply Hreplicas in Hr. breflect. by vfacts. }
  split_and!; [done|done|]. split.
  - exists o. split_and!; [done| |].
    + assert (Ho1 : contains o workers = true) by (apply Howners; set_solver). by vfacts.
    + intros Hr. apply Hrep in Hr. set_solver.
  - rewrite Forall_forall. intros r Hr. by apply Hrep.
  - done.
  - lia.
Qed.

(** An optimizer shard is placed on a worker, for a model shard of the graph. *)
Definition optimizer_ok (workers : list NodeId) (shards : list V4ShardOwnership)
    (p : V4OptimizerPlacement) : Prop :=
  p.(V4OptimizerPlacement_shard_id) ∈ V4ShardOwnership_shard_id <$> shards
  /\ p.(V4OptimizerPlacement_owner) ∈ workers
  /\ p.(V4OptimizerPlacement_owner) ∉ p.(V4OptimizerPlacement_replicas)
  /\ Forall (fun r => r ∈ workers) p.(V4OptimizerPlacement_replicas).

Lemma v4_graph_optimizer_step workers shards seen p seen' :
  v4_graph_optimizer_shard workers (reverse (V4ShardOwnership_shard_id <$> shards)) seen p = Ok seen' ->
  seen' = p.(V4OptimizerPlacement_shard_id) :: seen
  /\ p.(V4OptimizerPlacement_shard_id) ∉ seen /\ optimizer_ok workers shards p.
Proof.
  unfold v4_graph_optimizer_shard. intros Hv. inv_ok Hv. vfacts. injection Hv as <-.
  split_and!; [done|done|]. unfold optimizer_ok. rewrite <- elem_of_reverse, Forall_forall.
  split_and!; auto. intros r Hr.
  match goal with Hw : forall x, x ∈ _ -> negb _ = false |- _ => apply Hw in Hr end.
  breflect. by vfacts.
Qed.

(** What the header of a validated graph guarantees. *)
Lemma v4_graph_header_sound value :
  v4_graph_header value = Ok tt ->
  node_list_ok value.(V4ExecutionGraph_workers) MAX_V4_PLAN_WORKERS
  /\ 2 <= len value.(V4ExecutionGraph_workers)
  /\ value.(V4ExecutionGraph_coordinator) ∈ value.(V4ExecutionGraph_workers)
  /\ value.(V4ExecutionGraph_proposer) ∈ value.(V4ExecutionGraph_workers)
  /\ (forall w, w ∈ value.(V4ExecutionGraph_retired_workers) ->
        w ∉ value.(V4ExecutionGraph_workers))
  /\ NoDup value.(V4ExecutionGraph_election_certificate)
  /\ (forall p, value.(V4ExecutionGraph_parent_graph_generation) = Some p ->
        0 < p < value.(V4ExecutionGraph_graph_generation)).
Proof.
  unfold v4_graph_header. intros Hv. inv_ok Hv. vfacts. split_and!; auto.
  - intros w Hw. match goal with Hr : forall x, x ∈ value.(V4ExecutionGraph_retired_workers) -> _ |- _ =>
      apply Hr in Hw end. by vfacts.
  - intros p Hp. rewrite Hp in *. breflect. lia.
Qed.

(** A plan that passes validation is one the workers can execute: its workers are distinct
    and within the limit, at least two of them; its groups are well formed and disjoint, and put
    every worker in exactly one group; and its shards have distinct names, each with owners and
    replicas among the workers. *)
Theorem v4_plan_sound value :
  v4_plan value = Ok tt ->
  node_list_ok value.(V4TrainingPlan_workers) MAX_V4_PLAN_WORKERS
  /\ 2 <= len value.(V4TrainingPlan_workers)
  /\ groups_ok value.(V4TrainingPlan_workers) value.(V4TrainingPlan_groups)
  /\ (forall w, w ∈ value.(V4TrainingPlan_workers) ->
        in_exactly_one_group value.(V4TrainingPlan_groups) w)
  /\ NoDup (V4ShardOwnership_shard_id <$> value.(V4TrainingPlan_shards))
  /\ Forall (shard_ok value.(V4TrainingPlan_workers)) value.(V4TrainingPlan_shards).
Proof.
  unfold v4_plan. intros Hv. inv_ok Hv. vfacts.
  match goal with Hn : node_list_ok _ _ |- _ => pose proof (node_list_nodup _ _ Hn) as Hnd end.
  match goal with Hf : try_fold (v4_plan_group value) _ _ = Ok _ |- _ =>
    apply (groups_fold value.(V4TrainingPlan_workers)) in Hf;
    [rename Hf into Hgroups | apply v4_plan_group_step | done | done] end.
  match goal with Hf : try_fold (v4_plan_shard _) _ _ = Ok _ |- _ =>
    apply (try_fold_fresh V4ShardOwnership_shard_id (shard_ok value.(V4TrainingPlan_workers))) in Hf
      as (Hids & Hshards & _); [|apply v4_plan_shard_step] end.
  split_and!; auto. intros w. by apply groups_ok_exactly_one.
Qed.

(** An execution graph that passes validation is consistent: distinct workers within the
    limit, the coordinator among them and no retired worker among them, aggregation groups that
    are well formed and cover the workers without overlap, shards with distinct names placed on
    workers, and one optimizer placement per shard it names, on workers, for a shard that exists. *)
Theorem v4_execution_graph_sound value :
  v4_execution_graph value = Ok tt ->
  node_list_ok value.(V4ExecutionGraph_workers) MAX_V4_PLAN_WORKERS
  /\ value.(V4ExecutionGraph_coordinator) ∈ value.(V4ExecutionGraph_workers)
  /\ (forall w, w ∈ value.(V4ExecutionGraph_retired_workers) ->
        w ∉ value.(V4ExecutionGraph_workers))
  /\ groups_ok value.(V4ExecutionGraph_workers) value.(V4ExecutionGraph_aggregation_groups)
  /\ NoDup (V4ShardOwnership_shard_id <$> value.(V4ExecutionGraph_shards))
  /\ Forall (shard_ok value.(V4ExecutionGraph_workers)) value.(V4ExecutionGraph_shards)
  /\ NoDup (V4OptimizerPlacement_shard_id <$> value.(V4ExecutionGraph_optimizer_shards))
  /\ Forall (optimizer_ok value.(V4ExecutionGraph_workers) value.(V4ExecutionGraph_shards))
       value.(V4ExecutionGraph_optimizer_shards).
Proof.
  unfold v4_execution_graph. intros Hv. inv_ok Hv. vfacts.
  match goal with Hh : v4_graph_header _ = Ok _ |- _ =>
    apply v4_graph_header_sound in Hh as (Hlist & _ & Hcoord & _ & Hret & _) end.
  pose proof (node_list_nodup _ _ Hlist) as Hnd.
  match goal with Hf : try_fold (v4_graph_aggregation_group _) _ _ = Ok _ |- _ =>
    apply (groups_fold value.(V4ExecutionGraph_workers)) in Hf;
    [rename Hf into Hgroups | apply v4_graph_group_step | done | done] end.
  match goal with Hf : try_fold (v4_graph_shard _) _ _ = Ok _ |- _ =>
    apply (try_fold_fresh V4ShardOwnership_shard_id (shard_ok value.(V4ExecutionGraph_workers))) in Hf
      as (Hids & Hshards & ->); [|apply v4_graph_shard_step] end.
  match goal with Hf : try_fold (v4_graph_optimizer_shard _ _) _ _ = Ok _ |- _ =>
    apply (try_fold_fresh V4OptimizerPlacement_shard_id
      (optimizer_ok value.(V4ExecutionGraph_workers) value.(V4ExecutionGraph_shards))) in Hf
      as (Hoids & Hopt & _); [|apply v4_graph_optimizer_step] end.
  split_and!; auto.
Qed.

(** A start message that passes validation carries a valid plan and a valid execution
    graph of the same job and the same plan hash, and a number of windows within the limit. *)
Theorem v4_integrated_start_sound value :
  v4_integrated_start value = Ok tt ->
  v4_plan value.(V4IntegratedStart_plan) = Ok tt
  /\ v4_execution_graph value.(V4IntegratedStart_graph) = Ok tt
  /\ value.(V4IntegratedStart_graph).(V4ExecutionGraph_job_id)
     = value.(V4IntegratedStart_plan).(V4TrainingPlan_job_id)
  /\ value.(V4IntegratedStart_graph).(V4ExecutionGraph_plan_hash)
     = value.(V4IntegratedStart_plan).(V4TrainingPlan_plan_hash)
  /\ 0 < value.(V4IntegratedStart_windows) <= 4096.
Proof.
  assert (Hres : forall c : result unit ValidationError, is_err c = false -> c = Ok tt)
    by (by intros [[]|]).
  unfold v4_integrated_start. intros Hv. inv_ok Hv.
  repeat match goal with He : is_err _ = false |- _ => apply Hres in He end.
  split_and!; auto; lia.
Qed.

(** A Byzantine-aggregation result that rejected nobody never passes validation, whatever
    else it holds. *)
Theorem byzantine_result_without_rejection_invalid value :
  value.(V4ByzantineResult_rejected_workers) = [] ->
  is_err (v4_byzantine_result value) = true.
Proof.
  intros Hr. destruct (v4_byzantine_result value) as [[]|e] eqn:Hv; [|done].
  unfold v4_byzantine_result in Hv. inv_ok Hv. vfacts. rewrite Hr in *.
  by match goal with Hn : node_list_ok [] _ |- _ => destruct (node_list_nonempty _ _ Hn) end.
Qed.
End Topology.

(** ** The job state machine *)

(** How far a job has come. *)
Definition job_stage (state : JobState) : nat :=
  match state with
  | JobState_Received => 0
  | JobState_Validated => 1
  | JobState_Admitted => 2
  | JobState_Queued => 3
  | JobState_Running => 4
  | _ => 5
  end.

Inductive job_path : JobState -> list JobState -> JobState -> Prop :=
  | job_path_nil s : job_path s [] s
  | job_path_cons s s' path t : JobState_can_transition s s' = true -> job_path s' path t ->
      job_path s (s' :: path) t.

Lemma job_transition_stage s s' : JobState_can_transition s s' = true -> (job_stage s < job_stage s')%nat.
Proof. destruct s, s'; cbn; (done || lia). Qed.

Lemma job_path_stage s path t : job_path s path t -> (job_stage s + length path <= job_stage t)%nat.
Proof.
  induction 1 as [s|s s' path t Hs _ IH]; cbn; [lia|]. apply job_transition_stage in Hs. lia.
Qed.

(** A job moves forward through at most five transitions, a state is terminal exactly
    when no transition leaves it, and a job succeeds only after it ran. *)
Theorem job_state_machine :
  (forall s path t, job_path s path t -> (length path <= 5)%nat)
  /\ (forall s, JobState_terminal s = true <-> forall s', JobState_can_transition s s' = false)
  /\ (forall path, job_path JobState_Received path JobState_Succeeded -> JobState_Running ∈ path).
Proof.
  split_and!.
  - intros s path t Hp%job_path_stage. destruct t; cbn in Hp; lia.
  - intros s. split; [by destruct s, s'|]. intros Hno.
    destruct s; try done; [specialize (Hno JobState_Validated)|specialize (Hno JobState_Admitted)
      |specialize (Hno JobState_Queued)|specialize (Hno JobState_Running)
      |specialize (Hno JobState_Succeeded)]; done.
  - intros path Hp. assert (Hgen : forall s t, job_path s path t -> t = JobState_Succeeded ->
      s = JobState_Succeeded \/ s = JobState_Running \/ JobState_Running ∈ path).
    { clear. induction path as [|s' path IH]; intros s t Hp ->; inversion Hp; subst; [auto|].
      destruct (IH s' JobState_Succeeded) as [->|[->|Hin]]; [done|done|..].
      - right; left. destruct s; done.
      - right; right. left.
      - right; right. by right. }
    destruct (Hgen _ _ Hp eq_refl) as [?|[?|?]]; done.
Qed.

(** ** Samples and witnesses *)

Definition vs_node (n : N) : NodeId := mkNodeId (replicate 32 n).

Definition vs_hash (n : N) : ArtifactId := mkArtifactId (replicate 32 n).

Definition vs_job : JobId := mkJobId (replicate 16 1).

Definition vs_capability (n : N) : V4WorkerCapability :=
  mkV4WorkerCapability (vs_node n)
    (mkV4AcceleratorCapability V4AcceleratorFamily_Cpu "Cpu" 1 1024 [V4NumericalFormat_F32]
       "reference" "v4" true)
    1024 1 5 100 990 [].

Definition vs_groups : list V4AggregationGroup :=
  [mkV4AggregationGroup 0 [vs_node 1; vs_node 2] (vs_node 1) None].

Definition vs_shards : list V4ShardOwnership :=
  [mkV4ShardOwnership 0 1 [vs_node 1] [vs_node 2] 1 (vs_hash 3) 512 512 "reference.cpu.i64"
     V4ShardLifecycle_Active].

Definition vs_plan : V4TrainingPlan :=
  mkV4TrainingPlan vs_job (vs_node 1) 1 1 1 1 1 (vs_hash 4) V4ParallelismStrategy_LocalSgd
    V4SupportLevel_Supported [vs_node 1; vs_node 2] vs_groups vs_shards 0 0 4 2 1
    DataLocality_Streamable None [vs_capability 1; vs_capability 2] "sample" (vs_hash 5) None [] [].

Definition vs_graph : V4ExecutionGraph :=
  mkV4ExecutionGraph vs_job 1 None (vs_node 1) (vs_node 1) (vs_node 1) (vs_hash 5) (vs_hash 4)
    1 1 1 1 1 [vs_node 1; vs_node 2] [vs_node 3] [] [] vs_groups vs_shards
    [mkV4OptimizerPlacement 0 (vs_node 1) [vs_node 2] 1] 1 4 2 1 V4ParallelismStrategy_LocalSgd
    [] [] (vs_hash 6).

Lemma v4_plan_sound_witness : in_exactly_one_group vs_groups (vs_node 2).
Proof.
  apply (v4_plan_sound vs_plan); [vm_compute; reflexivity|].
  apply contains_true. vm_compute. reflexivity.
Defined.

Lemma v4_execution_graph_sound_witness : groups_ok [vs_node 1; vs_node 2] vs_groups.
Proof. apply (v4_execution_graph_sound vs_graph). vm_compute. reflexivity. Defined.

Lemma v4_integrated_start_sound_witness : v4_plan vs_plan = Ok tt.
Proof.
  apply (v4_integrated_start_sound (mkV4IntegratedStart vs_job vs_graph vs_plan 8 2 (vs_node 1))).
  vm_compute. reflexivity.
Defined.

Lemma byzantine_result_without_rejection_invalid_witness :
  is_err (v4_byzantine_result
    (mkV4ByzantineResult vs_job vs_job 1 1 V4ByzantinePolicy_CoordinateMedian [1%Z]
       [vs_node 1; vs_node 2] [] true)) = true.
Proof. apply byzantine_result_without_rejection_invalid. reflexivity. Defined.
