(* ===== verification/Codec.v ===== *)
(** * The wire codec (crates/protocol/src/codec.rs)

    A frame is a 16-byte header followed by the postcard encoding of a
    [Message].  Postcard is not part of the repository: its two entry points are
    the fields of the class [Postcard], with the round trip the code relies on in
    [PostcardLaws].  The theorems show that every frame the encoder emits decodes
    to the message it was given, that whatever decodes was validated and matches
    its header, and that the version gates of the encoder are exactly the table
    of minimum minors. *)

From Stdlib Require Import String ZArith NArith Lia.
From stdpp Require Import base tactics sets strings numbers list.
From S2P Require Import Prelude OrdMap Types Validation.
Local Open Scope N_scope.
Local Open Scope rust_scope.

(** ** Little-endian bytes *)

(** [value.to_le_bytes()] of an [n]-byte integer. *)
Fixpoint to_le_bytes (n : nat) (value : N) : list N :=
  match n with
  | O => []
  | S n => value mod 256 :: to_le_bytes n (value / 256)
  end.

(** [from_le_bytes] *)
Fixpoint from_le_bytes (bytes : list N) : N :=
  match bytes with
  | [] => 0
  | b :: bytes => b + 256 * from_le_bytes bytes
  end.

(** [&bytes[from..to]] *)
Definition slice {A} (from to : nat) (xs : list A) : list A := take (to - from) (drop from xs).

(** ** Header and errors *)

Inductive FrameKind :=
  | FrameKind_Hello
  | FrameKind_PeerExchange
  | FrameKind_Announcement
  | FrameKind_JobRequest
  | FrameKind_JobUpdate
  | FrameKind_CancelJob
  | FrameKind_ArtifactRequest
  | FrameKind_ArtifactChunk
  | FrameKind_Ping
  | FrameKind_Pong
  | FrameKind_Goodbye
  | FrameKind_Error
  | FrameKind_AddressUpdate
  | FrameKind_AddressObservation
  | FrameKind_ArtifactTransferRequest
  | FrameKind_ArtifactTransferChunk
  | FrameKind_KeyRotation
  | FrameKind_RelayEnvelope
  | FrameKind_DhtRequest
  | FrameKind_DhtResponse
  | FrameKind_Training
  | FrameKind_TrainingV4
  | FrameKind_TrainingV5.

#[export] Instance FrameKind_eq_dec : EqDecision FrameKind.
Proof. solve_decision. Defined.

(** [kind as u16] *)
Definition FrameKind_as_u16 (self : FrameKind) : N :=
  match self with
  | FrameKind_Hello => 1
  | FrameKind_PeerExchange => 2
  | FrameKind_Announcement => 3
  | FrameKind_JobRequest => 4
  | FrameKind_JobUpdate => 5
  | FrameKind_CancelJob => 6
  | FrameKind_ArtifactRequest => 7
  | FrameKind_ArtifactChunk => 8
  | FrameKind_Ping => 9
  | FrameKind_Pong => 10
  | FrameKind_Goodbye => 11
  | FrameKind_Error => 12
  | FrameKind_AddressUpdate => 13
  | FrameKind_AddressObservation => 14
  | FrameKind_ArtifactTransferRequest => 15
  | FrameKind_ArtifactTransferChunk => 16
  | FrameKind_KeyRotation => 17
  | FrameKind_RelayEnvelope => 18
  | FrameKind_DhtRequest => 19
  | FrameKind_DhtResponse => 20
  | FrameKind_Training => 21
  | FrameKind_TrainingV4 => 22
  | FrameKind_TrainingV5 => 23
  end.

Record FrameHeader := mkFrameHeader {
  FrameHeader_major : N;
  FrameHeader_minor : N;
  FrameHeader_kind : FrameKind;
  FrameHeader_payload_len : N
}.

Definition FRAME_MAGIC : list N := as_bytes "INP1".

Definition FRAME_HEADER_SIZE : N := 16.

(** [postcard::to_allocvec] and [postcard::from_bytes] at type [Message]; [PE] is
    [postcard::Error]. *)
Class Postcard (PE : Type) := {
  to_allocvec : Message -> result (list N) PE;
  from_bytes : list N -> result Message PE
}.

(** What the code relies on: postcard reads back what it wrote. *)
Class PostcardLaws (PE : Type) `{Postcard PE} : Prop := {
  postcard_roundtrip : forall m bs, to_allocvec m = Ok bs -> from_bytes bs = Ok m
}.

Section Codec.
Context {PE : Type} `{Blake3} `{Postcard PE}.

Inductive CodecError :=
  | CodecError_BadMagic
  | CodecError_UnsupportedVersion (major minor : N)
  | CodecError_UnknownKind (kind : N)
  | CodecError_FrameTooLarge (size max : N)
  | CodecError_LengthMismatch (declared actual : N)
  | CodecError_Serialize (error : PE)
  | CodecError_Validation (error : ValidationError)
  | CodecError_KindMismatch (expected actual : FrameKind).

Definition FrameKind_try_from (value : N) : result FrameKind CodecError :=
  match value with
  | 1 => Ok FrameKind_Hello
  | 2 => Ok FrameKind_PeerExchange
  | 3 => Ok FrameKind_Announcement
  | 4 => Ok FrameKind_JobRequest
  | 5 => Ok FrameKind_JobUpdate
  | 6 => Ok FrameKind_CancelJob
  | 7 => Ok FrameKind_ArtifactRequest
  | 8 => Ok FrameKind_ArtifactChunk
  | 9 => Ok FrameKind_Ping
  | 10 => Ok FrameKind_Pong
  | 11 => Ok FrameKind_Goodbye
  | 12 => Ok FrameKind_Error
  | 13 => Ok FrameKind_AddressUpdate
  | 14 => Ok FrameKind_AddressObservation
  | 15 => Ok FrameKind_ArtifactTransferRequest
  | 16 => Ok FrameKind_ArtifactTransferChunk
  | 17 => Ok FrameKind_KeyRotation
  | 18 => Ok FrameKind_RelayEnvelope
  | 19 => Ok FrameKind_DhtRequest
  | 20 => Ok FrameKind_DhtResponse
  | 21 => Ok FrameKind_Training
  | 22 => Ok FrameKind_TrainingV4
  | 23 => Ok FrameKind_TrainingV5
  | _ => Err (CodecError_UnknownKind value)
  end.

Definition FrameHeader_encode (self : FrameHeader) : list N :=
  FRAME_MAGIC
  ++ to_le_bytes 2 self.(FrameHeader_major)
  ++ to_le_bytes 2 self.(FrameHeader_minor)
  ++ to_le_bytes 2 (FrameKind_as_u16 self.(FrameHeader_kind))
  ++ to_le_bytes 2 0
  ++ to_le_bytes 4 self.(FrameHeader_payload_len).

Definition FrameHeader_decode (bytes : list N) (max_frame_size : N)
    : result FrameHeader CodecError :=
  fail_if (slice 0 4 bytes != FRAME_MAGIC) CodecError_BadMagic ;?
  let major := from_le_bytes (slice 4 6 bytes) in
  let minor := from_le_bytes (slice 6 8 bytes) in
  fail_if ((major != PROTOCOL_MAJOR) || (PROTOCOL_MINOR <? minor))
    (CodecError_UnsupportedVersion major minor) ;?
  let? kind := FrameKind_try_from (from_le_bytes (slice 8 10 bytes)) in
  let payload_len := from_le_bytes (slice 12 16 bytes) in
  let frame_size := sat_add usize_max FRAME_HEADER_SIZE payload_len in
  fail_if (max_frame_size <? frame_size)
    (CodecError_FrameTooLarge frame_size max_frame_size) ;?
  Ok {| FrameHeader_major := major;
        FrameHeader_minor := minor;
        FrameHeader_kind := kind;
        FrameHeader_payload_len := payload_len |}.

(** ** Messages *)

Definition kind_of (message : Message) : result FrameKind CodecError :=
  map_err (fun _ => CodecError_UnknownKind (Message_kind message))
    (FrameKind_try_from (Message_kind message)).

Definition encode_message_at_version (message : Message) (max_frame_size major minor : N)
    : result (list N) CodecError :=
  let unsupported := CodecError_UnsupportedVersion major minor in
  fail_if ((major != PROTOCOL_MAJOR) || (PROTOCOL_MINOR <? minor)) unsupported ;?
  map_err CodecError_Validation (Message_validate message) ;?
  fail_if ((minor =? 0) && (13 <=? Message_kind message)) unsupported ;?
  fail_if ((minor <? 2) && (19 <=? Message_kind message)) unsupported ;?
  fail_if ((minor <? 3) && (21 <=? Message_kind message)) unsupported ;?
  fail_if ((minor <? 4) && (22 <=? Message_kind message)) unsupported ;?
  fail_if ((minor <? 6) && (23 <=? Message_kind message)) unsupported ;?
  fail_if match message with
          | Message_TrainingV4 training => minor <? TrainingV4Message_minimum_minor training
          | _ => false
          end unsupported ;?
  let? payload := map_err CodecError_Serialize (to_allocvec message) in
  let frame_size := sat_add usize_max FRAME_HEADER_SIZE (len payload) in
  fail_if (max_frame_size <? frame_size)
    (CodecError_FrameTooLarge frame_size max_frame_size) ;?
  let? kind := kind_of message in
  let header := {| FrameHeader_major := major;
                   FrameHeader_minor := minor;
                   FrameHeader_kind := kind;
                   FrameHeader_payload_len := trunc u32_max (len payload) |} in
  Ok (FrameHeader_encode header ++ payload).

Definition encode_message (message : Message) (max_frame_size : N)
    : result (list N) CodecError :=
  encode_message_at_version message max_frame_size PROTOCOL_MAJOR PROTOCOL_MINOR.

Definition decode_frame (frame : list N) (max_frame_size : N) : result Message CodecError :=
  fail_if (len frame <? FRAME_HEADER_SIZE)
    (CodecError_LengthMismatch FRAME_HEADER_SIZE (len frame)) ;?
  let? header := FrameHeader_decode (take 16 frame) max_frame_size in
  let payload := drop 16 frame in
  fail_if (len payload != header.(FrameHeader_payload_len))
    (CodecError_LengthMismatch header.(FrameHeader_payload_len) (len payload)) ;?
  let? message := map_err CodecError_Serialize (from_bytes payload) in
  let? actual := kind_of message in
  fail_if (actual != header.(FrameHeader_kind))
    (CodecError_KindMismatch header.(FrameHeader_kind) actual) ;?
  map_err CodecError_Validation (Message_validate message) ;?
  Ok message.

(** ** Specifications *)

(** The oldest minor version that may carry a message. *)
Definition required_minor (message : Message) : N :=
  match message with
  | Message_TrainingV5 _ => 6
  | Message_TrainingV4 training => N.max 4 (TrainingV4Message_minimum_minor training)
  | Message_Training _ => 3
  | Message_DhtRequest _ | Message_DhtResponse _ => 2
  | Message_AddressUpdate _ | Message_AddressObservation _ | Message_ArtifactTransferRequest _
  | Message_ArtifactTransferChunk _ | Message_KeyRotation _ | Message_RelayEnvelope _ => 1
  | _ => 0
  end.

(** Headers whose fields fit their wire widths. *)
Definition header_ok (h : FrameHeader) : Prop :=
  h.(FrameHeader_major) <= u16_max /\ h.(FrameHeader_minor) <= u16_max
  /\ h.(FrameHeader_payload_len) <= u32_max.

(** ** Lemmas *)
Lemma from_to_le_bytes n v : v < 256 ^ N.of_nat n -> from_le_bytes (to_le_bytes n v) = v.
Proof.
  revert v; induction n as [|n IH]; intros v Hv.
  - cbn in *. lia.
  - cbn [to_le_bytes from_le_bytes]. rewrite IH.
    + pose proof (N.div_mod v 256). lia.
    + rewrite Nat2N.inj_succ, N.pow_succ_r' in Hv. apply N.Div0.div_lt_upper_bound. lia.
Qed.

Lemma from_to_le_bytes_u16 v : v <= u16_max -> from_le_bytes (to_le_bytes 2 v) = v.
Proof. intros Hv. apply from_to_le_bytes. unfold u16_max in Hv. cbn. lia. Qed.

Lemma from_to_le_bytes_u32 v : v <= u32_max -> from_le_bytes (to_le_bytes 4 v) = v.
Proof. intros Hv. apply from_to_le_bytes. unfold u32_max in Hv. cbn. lia. Qed.

Lemma FrameKind_try_from_as_u16 k : FrameKind_try_from (FrameKind_as_u16 k) = Ok k.
Proof. by destruct k. Qed.

Lemma FrameKind_try_from_ok v k : FrameKind_try_from v = Ok k <-> v = FrameKind_as_u16 k.
Proof.
  split; [|intros ->; apply FrameKind_try_from_as_u16].
  unfold FrameKind_try_from. intros Hk.
  repeat (dmatch_in Hk; try discriminate Hk); by injection Hk as <-.
Qed.

Lemma kind_of_total message : exists k, kind_of message = Ok k /\ FrameKind_as_u16 k = Message_kind message.
Proof. destruct message; eexists; split; reflexivity. Qed.

Lemma kind_of_ok message k : kind_of message = Ok k <-> FrameKind_as_u16 k = Message_kind message.
Proof.
  destruct (kind_of_total message) as (k' & -> & Hk'). split.
  - by intros [= <-].
  - intros Hk. f_equal. rewrite <- Hk' in Hk.
    pose proof (FrameKind_try_from_as_u16 k) as H1. rewrite Hk, FrameKind_try_from_as_u16 in H1.
    congruence.
Qed.

Lemma FrameHeader_encode_length h : length (FrameHeader_encode h) = 16%nat.
Proof. reflexivity. Qed.

Lemma FrameHeader_encode_decode h max :
  header_ok h -> h.(FrameHeader_major) = PROTOCOL_MAJOR ->
  h.(FrameHeader_minor) <= PROTOCOL_MINOR ->
  FRAME_HEADER_SIZE + h.(FrameHeader_payload_len) <= max ->
  FrameHeader_decode (FrameHeader_encode h) max = Ok h.
Proof.
  destruct h as [major minor kind plen]. intros (H1 & H2 & H3) Hmaj Hmin Hmax. cbn in *.
  unfold FrameHeader_decode, FrameHeader_encode, slice.
  cbn [FrameHeader_major FrameHeader_minor FrameHeader_kind FrameHeader_payload_len].
  change (take (4 - 0) _) with FRAME_MAGIC.
  change (take (6 - 4) _) with (to_le_bytes 2 major).
  change (take (8 - 6) _) with (to_le_bytes 2 minor).
  change (take (10 - 8) _) with (to_le_bytes 2 (FrameKind_as_u16 kind)).
  change (take (16 - 12) _) with (to_le_bytes 4 plen).
  rewrite !from_to_le_bytes_u16, from_to_le_bytes_u32 by (done || by destruct kind).
  rewrite bool_decide_true, FrameKind_try_from_as_u16 by done. cbn.
  subst major. rewrite bool_decide_true by done. cbn.
  destruct (PROTOCOL_MINOR <? minor) eqn:?; breflect; [lia|]. cbn.
  unfold sat_add, FRAME_HEADER_SIZE in *. destruct (max <? _) eqn:Hm; breflect; [lia|]. done.
Qed.

Lemma slice_app {A} i j (xs ys : list A) :
  (j <= length xs)%nat -> slice i j (xs ++ ys) = slice i j xs.
Proof.
  intros Hj. unfold slice. destruct (decide (i <= j)%nat).
  - rewrite drop_app_le, take_app_le by (rewrite ?length_drop; lia). done.
  - by replace (j - i)%nat with 0%nat by lia.
Qed.

(** The six version gates in a row let a message through exactly when the
    negotiated minor reaches [required_minor]. *)
Lemma version_gates {B} message minor (u : CodecError) (k : result B CodecError) :
  (fail_if ((minor =? 0) && (13 <=? Message_kind message)) u ;?
   fail_if ((minor <? 2) && (19 <=? Message_kind message)) u ;?
   fail_if ((minor <? 3) && (21 <=? Message_kind message)) u ;?
   fail_if ((minor <? 4) && (22 <=? Message_kind message)) u ;?
   fail_if ((minor <? 6) && (23 <=? Message_kind message)) u ;?
   fail_if match message with
           | Message_TrainingV4 training => minor <? TrainingV4Message_minimum_minor training
           | _ => false
           end u ;? k)
  = if minor <? required_minor message then Err u else k.
Proof.
  destruct message; cbn [Message_kind required_minor]; cbn -[N.ltb N.eqb N.max];
    repeat match goal with
    | |- context [?a <? ?b] => destruct (a <? b) eqn:?; breflect; cbn
    | |- context [?a =? ?b] => destruct (a =? b) eqn:?; breflect; cbn
    end; try done; lia.
Qed.

Lemma encode_unfold message max major minor :
  encode_message_at_version message max major minor =
  let u := CodecError_UnsupportedVersion major minor in
  (fail_if ((major != PROTOCOL_MAJOR) || (PROTOCOL_MINOR <? minor)) u ;?
   map_err CodecError_Validation (Message_validate message) ;?
   if minor <? required_minor message then Err u else
   let? payload := map_err CodecError_Serialize (to_allocvec message) in
   let frame_size := sat_add usize_max FRAME_HEADER_SIZE (len payload) in
   fail_if (max <? frame_size) (CodecError_FrameTooLarge frame_size max) ;?
   let? kind := kind_of message in
   Ok (FrameHeader_encode {| FrameHeader_major := major;
                             FrameHeader_minor := minor;
                             FrameHeader_kind := kind;
                             FrameHeader_payload_len := trunc u32_max (len payload) |}
       ++ payload)).
Proof. unfold encode_message_at_version. cbn zeta. by rewrite version_gates. Qed.

(** What an emitted frame is made of. *)
Lemma encode_ok message max major minor bytes :
  encode_message_at_version message max major minor = Ok bytes ->
  major = PROTOCOL_MAJOR /\ minor <= PROTOCOL_MINOR
  /\ Message_validate message = Ok tt /\ required_minor message <= minor
  /\ exists payload kind,
      to_allocvec message = Ok payload /\ kind_of message = Ok kind
      /\ sat_add usize_max FRAME_HEADER_SIZE (len payload) <= max
      /\ bytes = FrameHeader_encode {| FrameHeader_major := major;
                                       FrameHeader_minor := minor;
                                       FrameHeader_kind := kind;
                                       FrameHeader_payload_len := trunc u32_max (len payload) |}
                 ++ payload.
Proof.
  rewrite encode_unfold. cbn zeta. intros He. inv_ok He.
  destruct (minor <? required_minor message) eqn:Hr; [done|]. breflect. inv_ok He.
  split_and!; try done. eexists _, _; split_and!; eauto. congruence.
Qed.

Lemma trunc_small max a : a <= max -> trunc max a = a.
Proof. intros. apply N.mod_small. lia. Qed.

Lemma decode_frame_app h payload max :
  length h = 16%nat ->
  decode_frame (h ++ payload) max =
  (let? header := FrameHeader_decode h max in
   fail_if (len payload != header.(FrameHeader_payload_len))
     (CodecError_LengthMismatch header.(FrameHeader_payload_len) (len payload)) ;?
   let? message := map_err CodecError_Serialize (from_bytes payload) in
   let? actual := kind_of message in
   fail_if (actual != header.(FrameHeader_kind))
     (CodecError_KindMismatch header.(FrameHeader_kind) actual) ;?
   map_err CodecError_Validation (Message_validate message) ;?
   Ok message).
Proof.
  intros Hl. unfold decode_frame.
  assert (Hlen : len (h ++ payload) <? FRAME_HEADER_SIZE = false).
  { apply N.ltb_ge. unfold len, FRAME_HEADER_SIZE. rewrite length_app. lia. }
  rewrite Hlen, take_app_length', drop_app_length' by done. done.
Qed.

Lemma FrameHeader_decode_ok bytes max h :
  FrameHeader_decode bytes max = Ok h ->
  slice 0 4 bytes = FRAME_MAGIC
  /\ from_le_bytes (slice 4 6 bytes) = PROTOCOL_MAJOR
  /\ from_le_bytes (slice 6 8 bytes) <= PROTOCOL_MINOR
  /\ from_le_bytes (slice 8 10 bytes) = FrameKind_as_u16 h.(FrameHeader_kind)
  /\ from_le_bytes (slice 12 16 bytes) = h.(FrameHeader_payload_len)
  /\ sat_add usize_max FRAME_HEADER_SIZE h.(FrameHeader_payload_len) <= max.
Proof.
  unfold FrameHeader_decode. intros Hd. inv_ok Hd. injection Hd as <-.
  match goal with Hk : FrameKind_try_from _ = _ |- _ => apply FrameKind_try_from_ok in Hk end.
  by split_and!.
Qed.

(** ** Theorems *)

(** Encoding then decoding a header that fits its wire widths, speaks a supported
    version and stays under the frame limit gives the header back, whatever the limit. *)
Theorem frame_header_roundtrip h max :
  header_ok h -> h.(FrameHeader_major) = PROTOCOL_MAJOR ->
  h.(FrameHeader_minor) <= PROTOCOL_MINOR ->
  FRAME_HEADER_SIZE + h.(FrameHeader_payload_len) <= max ->
  length (FrameHeader_encode h) = 16%nat
  /\ FrameHeader_decode (FrameHeader_encode h) max = Ok h.
Proof. split; [apply FrameHeader_encode_length | by apply FrameHeader_encode_decode]. Qed.

(** What the header of an emitted frame says, and what the frame decodes to. *)
Lemma encoded_frame `{!PostcardLaws PE} message max max' major minor bytes :
  encode_message_at_version message max major minor = Ok bytes ->
  len bytes <= max' -> len bytes <= FRAME_HEADER_SIZE + u32_max ->
  exists header payload,
    bytes = FrameHeader_encode header ++ payload
    /\ FrameHeader_decode (FrameHeader_encode header) max' = Ok header
    /\ header.(FrameHeader_payload_len) = len payload
    /\ decode_frame bytes max' = Ok message.
Proof.
  intros (-> & Hmin & Hval & _ & payload & kind & Hp & Hk & _ & ->)%encode_ok Hlen Hlen32.
  assert (Hb : FRAME_HEADER_SIZE + len payload <= max' /\ len payload <= u32_max).
  { unfold len, FRAME_HEADER_SIZE in *. rewrite length_app, FrameHeader_encode_length in *. lia. }
  destruct Hb as [Hb Hb32]. rewrite trunc_small in * by done.
  assert (Hd : FrameHeader_decode (FrameHeader_encode {| FrameHeader_major := PROTOCOL_MAJOR;
    FrameHeader_minor := minor; FrameHeader_kind := kind; FrameHeader_payload_len := len payload |}) max'
    = Ok {| FrameHeader_major := PROTOCOL_MAJOR; FrameHeader_minor := minor;
            FrameHeader_kind := kind; FrameHeader_payload_len := len payload |}).
  { apply FrameHeader_encode_decode; try done. repeat split; try done. by transitivity PROTOCOL_MINOR. }
  eexists _, payload. split_and!; [done | exact Hd | done |].
  rewrite decode_frame_app, Hd by apply FrameHeader_encode_length.
  cbn -[len]. rewrite bool_decide_true by done. cbn.
  rewrite (postcard_roundtrip _ _ Hp). cbn. rewrite Hk. cbn.
  rewrite bool_decide_true by done. cbn. by rewrite Hval.
Qed.

(** (C1) Every frame the encoder emits, at any negotiated minor, decodes to the message
    it was built from, under every limit the frame fits whose payload length fits the
    header's 32 bits. *)
Theorem encode_decode_roundtrip `{!PostcardLaws PE} message max max' major minor bytes :
  encode_message_at_version message max major minor = Ok bytes ->
  len bytes <= max' -> len bytes <= FRAME_HEADER_SIZE + u32_max ->
  decode_frame bytes max' = Ok message.
Proof.
  intros He Hlen Hlen32. by destruct (encoded_frame _ _ _ _ _ _ He Hlen Hlen32) as (? & ? & _ & _ & _ & ?).
Qed.

(** What a receiver may rely on of a frame: size, magic, version, kind and declared length
    agree with each other, and the payload is a valid message of that kind. *)
Definition frame_ok (frame : list N) (max : N) (message : Message) : Prop :=
  Message_validate message = Ok tt
  /\ len frame <= max
  /\ slice 0 4 frame = FRAME_MAGIC
  /\ from_le_bytes (slice 4 6 frame) = PROTOCOL_MAJOR
  /\ from_le_bytes (slice 6 8 frame) <= PROTOCOL_MINOR
  /\ from_le_bytes (slice 8 10 frame) = Message_kind message
  /\ FRAME_HEADER_SIZE + from_le_bytes (slice 12 16 frame) = len frame
  /\ from_bytes (drop 16 frame) = Ok message.

Lemma decode_frame_only frame max message :
  decode_frame frame max = Ok message -> len frame <= usize_max -> frame_ok frame max message.
Proof.
  intros Hd Hsz.
  destruct (decide (len frame < FRAME_HEADER_SIZE)) as [Hs|Hs].
  { unfold decode_frame in Hd. apply N.ltb_lt in Hs. by rewrite Hs in Hd. }
  unfold FRAME_HEADER_SIZE, len in Hs.
  assert (Hl : length (take 16 frame) = 16%nat) by (rewrite length_take; lia).
  pose proof (take_drop 16 frame) as Hf.
  remember (take 16 frame) as hd eqn:Hhd. remember (drop 16 frame) as tl eqn:Htl.
  rewrite <- Hf, decode_frame_app in Hd by done. inv_ok Hd.
  injection Hd as ->. apply kind_of_ok in Hok2.
  apply FrameHeader_decode_ok in Hok as (Hm & Hmaj & Hmin & Hk & Hpl & Hmax).
  assert (Hlen : len frame = 16 + len tl).
  { rewrite <- Hf. unfold len. rewrite length_app. lia. }
  unfold frame_ok. rewrite <- Htl. rewrite <- Hf, !slice_app, Hm, Hk, Hpl, Hf by lia.
  unfold sat_add, FRAME_HEADER_SIZE in *. split_and!; try done; first [lia | congruence].
Qed.

Lemma decode_frame_accepts frame max message :
  frame_ok frame max message -> len frame <= usize_max -> decode_frame frame max = Ok message.
Proof.
  intros (Hv & Hmax & Hm & Hmaj & Hmin & Hk & Hl & Hp) Hsz.
  unfold FRAME_HEADER_SIZE in *.
  assert (Hl16 : length (take 16 frame) = 16%nat) by (rewrite length_take; unfold len in *; lia).
  pose proof (take_drop 16 frame) as Hf.
  assert (Hlen : len frame = 16 + len (drop 16 frame)).
  { rewrite <- Hf at 1. unfold len. rewrite length_app. lia. }
  destruct (kind_of_total message) as (k & Hko & Hku).
  remember (take 16 frame) as hd eqn:Hhd. remember (drop 16 frame) as tl eqn:Htl.
  rewrite <- Hf in Hm, Hmaj, Hmin, Hk, Hl. rewrite slice_app in Hm, Hmaj, Hmin, Hk, Hl by lia.
  rewrite Hf in Hl. rewrite <- Hf, decode_frame_app by done.
  unfold FrameHeader_decode. rewrite Hm, Hmaj, Hk, <- Hku, FrameKind_try_from_as_u16.
  rewrite !bool_decide_true by done.
  destruct (PROTOCOL_MINOR <? _) eqn:?; breflect; [lia|]. cbn -[len slice].
  unfold sat_add, FRAME_HEADER_SIZE in *.
  destruct (max <? _) eqn:?; breflect; [lia|]. cbn -[len slice].
  rewrite bool_decide_true by lia. cbn -[slice]. rewrite Hp. cbn -[slice]. rewrite Hko.
  cbn -[slice]. rewrite bool_decide_true by done. cbn -[slice]. by rewrite Hv.
Qed.

(** The decoder is exact: a frame that fits the address space decodes to a message
    exactly when it is no longer than the limit, carries the protocol's magic and a supported
    version, declares the length and the kind it has, and its payload deserializes to that
    message and the message passes validation. *)
Theorem decode_frame_exact frame max message :
  len frame <= usize_max ->
  decode_frame frame max = Ok message <-> frame_ok frame max message.
Proof.
  intros Hsz. split; intros Hd; [by apply decode_frame_only | by apply decode_frame_accepts].
Qed.

(** For a valid message and a supported version the encoder refuses the version
    exactly when the minor is below the oldest one that may carry the message. *)
Theorem encode_version_gate message max minor :
  Message_validate message = Ok tt -> minor <= PROTOCOL_MINOR ->
  encode_message_at_version message max PROTOCOL_MAJOR minor
    = Err (CodecError_UnsupportedVersion PROTOCOL_MAJOR minor)
  <-> minor < required_minor message.
Proof.
  intros Hv Hm. rewrite encode_unfold, Hv. cbn -[N.ltb FRAME_HEADER_SIZE].
  assert (PROTOCOL_MINOR <? minor = false) as -> by by apply N.ltb_ge.
  rewrite bool_decide_true by done. cbn -[N.ltb FRAME_HEADER_SIZE].
  destruct (minor <? required_minor message) eqn:Hr; breflect; [done|].
  split; [|lia]. destruct (kind_of_total message) as (k & Hk & _).
  destruct (to_allocvec message); cbn -[N.ltb FRAME_HEADER_SIZE]; [|done].
  unfold fail_if. destruct (max <? _); cbn; [done|]. by rewrite Hk.
Qed.

(** No message that fails validation is ever put on the wire, and no emitted frame
    is longer than the limit. *)
Theorem encode_message_safe message max bytes :
  encode_message message max = Ok bytes -> max < usize_max ->
  Message_validate message = Ok tt /\ len bytes <= max.
Proof.
  intros (_ & _ & Hv & _ & payload & kind & _ & _ & Hs & ->)%encode_ok Hmax.
  split; [done|]. unfold len, sat_add, FRAME_HEADER_SIZE in *.
  rewrite length_app, FrameHeader_encode_length. lia.
Qed.
End Codec.

(** ** Witnesses

    A concrete postcard for one message, a ping with an 8-byte nonce. *)

Definition sample_blake3 : Blake3 := fun bs => replicate 32 (len bs mod 256).

Definition sample_nonce : list N := [1; 2; 3; 4; 5; 6; 7; 8].

Definition sample_message : Message := Message_Ping (mkPing sample_nonce).

Definition sample_postcard : Postcard unit := {|
  to_allocvec m := if bool_decide (m = sample_message) then Ok (8 :: sample_nonce) else Err tt;
  from_bytes bs := if bool_decide (bs = 8 :: sample_nonce) then Ok sample_message else Err tt
|}.

Lemma sample_postcard_laws : @PostcardLaws unit sample_postcard.
Proof.
  split. intros m bs. cbn. case_bool_decide; [|done]. intros [= <-]. by subst.
Qed.

Definition sample_frame : list N :=
  [73; 78; 80; 49; 1; 0; 6; 0; 9; 0; 0; 0; 9; 0; 0; 0; 8; 1; 2; 3; 4; 5; 6; 7; 8].

Lemma frame_header_roundtrip_witness :
  @FrameHeader_decode unit
    (FrameHeader_encode (mkFrameHeader 1 6 FrameKind_TrainingV4 1000)) 1048576
  = Ok (mkFrameHeader 1 6 FrameKind_TrainingV4 1000).
Proof.
  apply (@frame_header_roundtrip unit (mkFrameHeader 1 6 FrameKind_TrainingV4 1000) 1048576);
    [repeat split; vm_compute; discriminate | reflexivity | vm_compute; discriminate
    | vm_compute; discriminate].
Defined.

Lemma encode_decode_roundtrip_witness :
  @decode_frame unit sample_blake3 sample_postcard sample_frame 1024 = Ok sample_message.
Proof.
  apply (@encode_decode_roundtrip unit sample_blake3 sample_postcard sample_postcard_laws
           sample_message 1024 1024 1 6 sample_frame);
    [vm_compute; reflexivity | vm_compute; discriminate | vm_compute; discriminate].
Defined.

Lemma decode_frame_exact_witness :
  @frame_ok unit sample_blake3 sample_postcard sample_frame 1024 sample_message.
Proof.
  apply (@decode_frame_exact unit sample_blake3 sample_postcard sample_frame 1024 sample_message);
    [vm_compute; discriminate | vm_compute; reflexivity].
Defined.

Definition sample_dht_request : Message :=
  Message_DhtRequest (mkDhtRequest (mkRequestId (replicate 16 1)) (mkNodeId (replicate 32 7))
    (DhtRequestKind_FindNode (mkDhtKey (replicate 32 3)))).

Lemma encode_version_gate_witness :
  @encode_message_at_version unit sample_blake3 sample_postcard sample_dht_request 1024 1 1
  = Err (CodecError_UnsupportedVersion 1 1).
Proof.
  apply (@encode_version_gate unit sample_blake3 sample_postcard sample_dht_request 1024 1);
    [vm_compute; reflexivity | vm_compute; discriminate | vm_compute; reflexivity].
Defined.

Lemma encode_message_safe_witness :
  @Message_validate sample_blake3 sample_message = Ok tt /\ len sample_frame <= 1024.
Proof.
  apply (@encode_message_safe unit sample_blake3 sample_postcard sample_message 1024 sample_frame);
    vm_compute; reflexivity.
Defined.
