(* ===== verification/SocketAddr.v ===== *)
(** * [std::net::SocketAddr] parsing

    The addresses the network advertises are strings that the code reads with
    [parse::<SocketAddr>()].  This file follows the parser of the standard library:
    an IPv4 address in dotted decimal without leading zeros and a port, or a
    bracketed IPv6 address with an optional scope id and a port.  A parser takes
    the rest of the input and gives the value with what is left of it, or [None]
    with the input untouched. *)

From Stdlib Require Import String Ascii ZArith NArith Lia.
From stdpp Require Import base tactics sets strings numbers list.
From S2P Require Import Prelude.
Local Open Scope N_scope.

Inductive IpAddr :=
  | IpAddr_V4 (bits : N)
  | IpAddr_V6 (bits : N).

(** The scope id of an IPv6 address is zero unless the text names one; the flow information is
    always zero after parsing. *)
Record SocketAddr := mkSocketAddr {
  SocketAddr_ip : IpAddr;
  SocketAddr_port : N;
  SocketAddr_scope_id : N
}.

(** The input as its bytes. *)
Notation input := (list ascii).

Definition parser (A : Type) : Type := input -> option (A * input).

Definition parser_bind {A B} (p : parser A) (k : A -> parser B) : parser B :=
  fun i => match p i with
           | Some (a, rest) => k a rest
           | None => None
           end.

Definition parser_ret {A} (a : A) : parser A := fun i => Some (a, i).

Notation "'do' x <- p ; k" := (parser_bind p (fun x => k))
  (at level 200, x name, p at level 100, k at level 200, right associativity) : rust_scope.
Local Open Scope rust_scope.

(** [read_given_char] *)
Definition read_given_char (c : ascii) : parser unit := fun i =>
  match i with
  | d :: rest => if Ascii.eqb c d then Some (tt, rest) else None
  | [] => None
  end.

(** [char::to_digit] *)
Definition to_digit (radix : N) (c : ascii) : option N :=
  let n := N_of_ascii c in
  let d := if (48 <=? n) && (n <=? 57) then n - 48
           else if (97 <=? n) && (n <=? 122) then n - 87
           else if (65 <=? n) && (n <=? 90) then n - 55
           else 36 in
  if d <? radix then Some d else None.

(** The leading digits of the input and the rest. *)
Fixpoint read_digits (radix : N) (i : input) : list N * input :=
  match i with
  | c :: rest =>
      match to_digit radix c with
      | Some d => let (ds, rest) := read_digits radix rest in (d :: ds, rest)
      | None => ([], i)
      end
  | [] => ([], [])
  end.

Definition digits_value (radix : N) (ds : list N) : N :=
  foldl (fun acc d => acc * radix + d) 0 ds.

(** [read_number(radix, max_digits, allow_zero_prefix)] into a type of maximum [max]. *)
Definition read_number (radix : N) (max_digits : option N) (allow_zero_prefix : bool) (max : N)
    : parser N := fun i =>
  let (ds, rest) := read_digits radix i in
  let has_leading_zero := match ds with 0 :: _ => true | _ => false end in
  if match max_digits with Some m => m <? len ds | None => false end then None
  else if is_empty ds then None
  else if negb allow_zero_prefix && has_leading_zero && (1 <? len ds) then None
  else if max <? digits_value radix ds then None
  else Some (digits_value radix ds, rest).

(** [read_separator(sep, index, inner)] *)
Definition read_separator {A} (sep : ascii) (index : N) (inner : parser A) : parser A :=
  if 0 <? index then do _ <- read_given_char sep; inner else inner.

Definition read_ipv4_addr : parser N :=
  let octet index := read_separator "."%char index (read_number 10 (Some 3) false u8_max) in
  do a <- octet 0; do b <- octet 1; do c <- octet 2; do d <- octet 3;
  parser_ret (((a * 256 + b) * 256 + c) * 256 + d).

(** [read_groups]: up to [limit] groups from index [i] on, the groups read, whether a
    trailing IPv4 address was read, and the rest of the input. *)
Fixpoint read_groups (i : nat) (todo : nat) (i0 : input) : list N * bool * input :=
  match todo with
  | O => ([], false, i0)
  | S todo' =>
      let v4 := match todo' with
                | O => None
                | S _ => read_separator ":"%char (N.of_nat i) read_ipv4_addr i0
                end in
      match v4 with
      | Some (v4_addr, rest) => ([v4_addr / 65536; v4_addr mod 65536], true, rest)
      | None =>
          match read_separator ":"%char (N.of_nat i) (read_number 16 (Some 4) true u16_max) i0 with
          | Some (g, rest) =>
              let '(gs, v4, rest) := read_groups (S i) todo' rest in (g :: gs, v4, rest)
          | None => ([], false, i0)
          end
      end
  end.

Definition groups_value (groups : list N) : N := foldl (fun acc g => acc * 65536 + g) 0 groups.

Definition read_ipv6_addr : parser N := fun i =>
  let '(head, head_ipv4, rest) := read_groups 0 8 i in
  if bool_decide (length head = 8%nat) then Some (groups_value head, rest)
  else if head_ipv4 then None
  else (do _ <- read_given_char ":"%char; do _ <- read_given_char ":"%char; fun rest =>
        let '(tail, _, rest) := read_groups 0 (8 - (length head + 1)) rest in
        let zeros := replicate (8 - length head - length tail) 0 in
        Some (groups_value (head ++ zeros ++ tail), rest)) rest.

Definition read_port : parser N :=
  do _ <- read_given_char ":"%char; read_number 10 None true u16_max.

Definition read_scope_id : parser N :=
  do _ <- read_given_char "%"%char; read_number 10 None true u32_max.

Definition read_socket_addr_v4 : parser SocketAddr :=
  do ip <- read_ipv4_addr; do port <- read_port; parser_ret (mkSocketAddr (IpAddr_V4 ip) port 0).

Definition read_socket_addr_v6 : parser SocketAddr :=
  do _ <- read_given_char "["%char;
  do ip <- read_ipv6_addr;
  do scope_id <- (fun i => match read_scope_id i with Some r => Some r | None => Some (0, i) end);
  do _ <- read_given_char "]"%char;
  do port <- read_port;
  parser_ret (mkSocketAddr (IpAddr_V6 ip) port scope_id).

#[export] Instance IpAddr_eq_dec : EqDecision IpAddr.
Proof. solve_decision. Defined.

#[export] Instance SocketAddr_eq_dec : EqDecision SocketAddr.
Proof. solve_decision. Defined.

(** [s.parse::<SocketAddr>().ok()] *)
Definition SocketAddr_parse (s : string) : option SocketAddr :=
  let i := list_ascii_of_string s in
  let r := match read_socket_addr_v4 i with
           | Some r => Some r
           | None => read_socket_addr_v6 i
           end in
  match r with
  | Some (address, []) => Some address
  | _ => None
  end.

(** ** Samples of the accepted syntax *)
Example parse_v4 :
  SocketAddr_parse "198.51.100.7:4000" = Some (mkSocketAddr (IpAddr_V4 3325256711) 4000 0).
Proof. reflexivity. Qed.

Example parse_v6 :
  SocketAddr_parse "[2001:db8::1]:9000"
  = Some (mkSocketAddr (IpAddr_V6 42540766411282592856903984951653826561) 9000 0).
Proof. reflexivity. Qed.

Example parse_v6_mapped :
  SocketAddr_parse "[::ffff:10.0.0.1%3]:1" = Some (mkSocketAddr (IpAddr_V6 281470849515521) 1 3).
Proof. reflexivity. Qed.

Example parse_rejects :
  forallb (fun s => bool_decide (SocketAddr_parse s = None))
    ["01.2.3.4:5"; "1.2.3.4"; "1.2.3.256:5"; "1.2.3.4:65536"; "[::1]"; "::1:80"; "1.2.3.4:5 "]%string
  = true.
Proof. vm_compute. reflexivity. Qed.

(** ** Ranges *)
Lemma read_number_bound radix digits zero max i n rest :
  read_number radix digits zero max i = Some (n, rest) -> n <= max.
Proof.
  unfold read_number. destruct (read_digits radix i). intros H.
  repeat (dmatch_in H; try discriminate H); injection H as <- <-; breflect; lia.
Qed.

Lemma read_separator_some {A} sep index (p : parser A) i r :
  read_separator sep index p i = Some r -> exists i', p i' = Some r.
Proof.
  unfold read_separator, parser_bind. intros H. repeat (dmatch_in H; try discriminate H); eauto.
Qed.

Lemma read_ipv4_addr_bound i n rest : read_ipv4_addr i = Some (n, rest) -> n < 2 ^ 32.
Proof.
  unfold read_ipv4_addr, parser_bind, parser_ret. intros H.
  repeat (dmatch_in H; try discriminate H). injection H as <- <-. subst.
  repeat match goal with Hr : read_separator _ _ _ _ = _ |- _ =>
    apply read_separator_some in Hr as (? & Hr); apply read_number_bound in Hr; unfold u8_max in Hr
  end. lia.
Qed.

Lemma read_groups_bound i todo inp gs v4 rest :
  read_groups i todo inp = (gs, v4, rest) ->
  Forall (fun g => g < 65536) gs /\ (length gs <= todo)%nat.
Proof.
  revert i inp gs v4 rest; induction todo as [|todo IH]; intros i inp gs v4 rest; cbn [read_groups].
  { intros [= <- <- <-]. split; [constructor | done]. }
  destruct (match todo with 0%nat => None | S _ => _ end) as [[n r]|] eqn:Hv4.
  - intros [= <- <- <-]. destruct todo; [done|]. apply read_separator_some in Hv4 as [? Hb].
    apply read_ipv4_addr_bound in Hb.
    split; [|cbn; lia]. change (2 ^ 32) with 4294967296 in Hb.
    constructor; [|constructor; [|constructor]]; [apply N.Div0.div_lt_upper_bound | apply N.mod_lt]; lia.
  - destruct (read_separator _ _ (read_number _ _ _ _) _) as [[g r]|] eqn:Hg.
    + destruct (read_groups (S i) todo r) as [[gs' v4'] r'] eqn:Hr. intros ?; simplify_eq.
      apply IH in Hr as [Hall Hl]. apply read_separator_some in Hg as [? Hb].
      apply read_number_bound in Hb.
      unfold u16_max in Hb. split; [constructor; [lia | done] | cbn; lia].
    + intros [= <- <- <-]. split; [constructor | cbn; lia].
Qed.

Lemma groups_value_bound gs acc :
  Forall (fun g => g < 65536) gs ->
  foldl (fun acc g => acc * 65536 + g) acc gs < (acc + 1) * 65536 ^ N.of_nat (length gs).
Proof.
  revert acc; induction gs as [|g gs IH]; intros acc Hall.
  - cbn. lia.
  - inversion Hall; subst. cbn [foldl length]. rewrite Nat2N.inj_succ, N.pow_succ_r'.
    eapply N.lt_le_trans; [by apply IH|]. rewrite N.mul_assoc. apply N.mul_le_mono_r. lia.
Qed.

Lemma read_ipv6_addr_bound i n rest : read_ipv6_addr i = Some (n, rest) -> n < 2 ^ 128.
Proof.
  unfold read_ipv6_addr. destruct (read_groups 0 8 i) as [[head v4] r] eqn:Hh.
  apply read_groups_bound in Hh as [Hall Hlen].
  assert (Hval : forall gs, Forall (fun g => g < 65536) gs -> length gs = 8%nat ->
                 groups_value gs < 2 ^ 128).
  { intros gs Hgs Hl. unfold groups_value. pose proof (groups_value_bound gs 0 Hgs) as Hb.
    rewrite Hl in Hb. exact Hb. }
  case_bool_decide as H8; [intros [= <- <-]; by apply Hval|].
  destruct v4; [done|]. unfold parser_bind. intros H.
  repeat (dmatch_in H; try discriminate H).
  match goal with Hr : read_groups _ _ _ = _ |- _ => apply read_groups_bound in Hr as [Hall2 Hl2] end.
  injection H as <- <-. apply Hval.
  - rewrite !Forall_app. split_and!; [done| |done]. by apply Forall_replicate.
  - rewrite !length_app, length_replicate. lia.
Qed.

(** A parsed address has as many bits as its family. *)
Lemma SocketAddr_parse_bound s addr :
  SocketAddr_parse s = Some addr ->
  match addr.(SocketAddr_ip) with
  | IpAddr_V4 bits => bits < 2 ^ 32
  | IpAddr_V6 bits => bits < 2 ^ 128
  end.
Proof.
  unfold SocketAddr_parse, read_socket_addr_v4, read_socket_addr_v6, parser_bind, parser_ret.
  intros H. repeat (dmatch_inner H; try discriminate H); simplify_eq; cbn in *;
    eauto using read_ipv4_addr_bound, read_ipv6_addr_bound.
Qed.
