(* ===== verification/Dht.v ===== *)
(** * Kademlia routing table and record store (crates/network/src/dht.rs)

    [DhtTable] keeps 256 buckets of contacts by the length of the common prefix with
    the local identity, a replacement cache and a protected list; [DhtStore] keeps
    the records of each (namespace, key) by owner.  Both are records updated by
    state passing, with the boolean the Rust method returns.  The theorems about
    them are in [DhtFacts]. *)

From Stdlib Require Import String ZArith NArith Lia.
From stdpp Require Import base tactics sets strings numbers list.
From S2P Require Import Prelude OrdMap Types SocketAddr.
Local Open Scope N_scope.
Local Open Scope rust_scope.

Definition DEFAULT_K : N := 20.

Definition DEFAULT_REPLACEMENT_CACHE : N := 32.

Definition DEFAULT_MAX_RECORDS : N := 2048.

Definition DEFAULT_MAX_RECORDS_PER_KEY : N := 8.

Definition MAX_CONTACTS_PER_SOURCE_PREFIX : N := 4.

(** ** Distance *)

Definition xor_distance (left right : NodeId) : list N :=
  zip_with N.lxor (NodeId_0 left) (NodeId_0 right).

(** [byte.leading_zeros()] of a [u8] *)
Definition leading_zeros8 (byte : N) : N := if byte =? 0 then 8 else 7 - N.log2 byte.

(** The loop of [bucket_index] from byte [index] on. *)
Fixpoint bucket_index_from (index : N) (distance : list N) : N :=
  match distance with
  | [] => 0
  | byte :: distance =>
      if byte =? 0 then bucket_index_from (index + 1) distance
      else sat_sub 255 (index * 8 + leading_zeros8 byte)
  end.

Definition bucket_index (left right : NodeId) : N :=
  bucket_index_from 0 (xor_distance left right).

(** ** Contacts *)

Definition contact_id (contact : SignedAnnouncement) : NodeId :=
  contact.(SignedAnnouncement_record).(PeerRecord_node_id).

Definition contact_expires_at (contact : SignedAnnouncement) : N :=
  contact.(SignedAnnouncement_record).(PeerRecord_expires_at).

Definition contact_announced_at (contact : SignedAnnouncement) : N :=
  contact.(SignedAnnouncement_record).(PeerRecord_announced_at).

Definition address_prefix (contact : SignedAnnouncement) : N :=
  match contact.(SignedAnnouncement_record).(PeerRecord_addresses) with
  | [] => 0
  | address :: _ =>
      match SocketAddr_parse address with
      | None => 0
      | Some address =>
          match address.(SocketAddr_ip) with
          | IpAddr_V4 value => N.shiftr value 8
          | IpAddr_V6 value => N.shiftr value 64
          end
      end
  end.

Definition fresher (previous next : PeerRecord) : bool :=
  (previous.(PeerRecord_announced_at) <? next.(PeerRecord_announced_at))
  || ((next.(PeerRecord_announced_at) =? previous.(PeerRecord_announced_at))
      && (previous.(PeerRecord_expires_at) <=? next.(PeerRecord_expires_at))).

(** [if let Some(existing) = items.iter_mut().find(|item| item.id == contact.id)
    { if fresher(existing, contact) { *existing = contact; return true; } return false; }]:
    the value to return and the list afterwards, or [None] to go on. *)
Definition refresh (contact : SignedAnnouncement) (items : list SignedAnnouncement)
    : option (bool * list SignedAnnouncement) :=
  let same item := contact_id item == contact_id contact in
  match List.find same items with
  | Some existing =>
      if fresher existing.(SignedAnnouncement_record) contact.(SignedAnnouncement_record)
      then Some (true, replace_first same contact items)
      else Some (false, items)
  | None => None
  end.

(** ** The routing table *)

Record DhtTable := mkDhtTable {
  DhtTable_local : NodeId;
  DhtTable_k : N;
  DhtTable_replacement_limit : N;
  DhtTable_buckets : list (list SignedAnnouncement);
  DhtTable_replacements : list SignedAnnouncement;
  DhtTable_protected : list SignedAnnouncement
}.

Record DhtTableStats := mkDhtTableStats {
  DhtTableStats_bucket_count : N;
  DhtTableStats_populated_buckets : N;
  DhtTableStats_contacts : N;
  DhtTableStats_replacement_contacts : N;
  DhtTableStats_protected_contacts : N
}.

Definition DhtTable_new (local : NodeId) (k replacement_limit : N) : DhtTable :=
  {| DhtTable_local := local;
     DhtTable_k := N.max k 1;
     DhtTable_replacement_limit := replacement_limit;
     DhtTable_buckets := replicate 256 [];
     DhtTable_replacements := [];
     DhtTable_protected := [] |}.

Definition with_bucket (self : DhtTable) (index : nat) (bucket : list SignedAnnouncement) : DhtTable :=
  {| DhtTable_local := self.(DhtTable_local);
     DhtTable_k := self.(DhtTable_k);
     DhtTable_replacement_limit := self.(DhtTable_replacement_limit);
     DhtTable_buckets := <[index := bucket]> self.(DhtTable_buckets);
     DhtTable_replacements := self.(DhtTable_replacements);
     DhtTable_protected := self.(DhtTable_protected) |}.

Definition with_replacements (self : DhtTable) (replacements : list SignedAnnouncement) : DhtTable :=
  {| DhtTable_local := self.(DhtTable_local);
     DhtTable_k := self.(DhtTable_k);
     DhtTable_replacement_limit := self.(DhtTable_replacement_limit);
     DhtTable_buckets := self.(DhtTable_buckets);
     DhtTable_replacements := replacements;
     DhtTable_protected := self.(DhtTable_protected) |}.

Definition with_protected (self : DhtTable) (protected : list SignedAnnouncement) : DhtTable :=
  {| DhtTable_local := self.(DhtTable_local);
     DhtTable_k := self.(DhtTable_k);
     DhtTable_replacement_limit := self.(DhtTable_replacement_limit);
     DhtTable_buckets := self.(DhtTable_buckets);
     DhtTable_replacements := self.(DhtTable_replacements);
     DhtTable_protected := protected |}.

Definition add_replacement (self : DhtTable) (contact : SignedAnnouncement) : bool * DhtTable :=
  match refresh contact self.(DhtTable_replacements) with
  | Some (changed, replacements) => (changed, with_replacements self replacements)
  | None =>
      if self.(DhtTable_replacement_limit) =? 0 then (false, self)
      else
        let replacements := self.(DhtTable_replacements) ++ [contact] in
        let replacements :=
          if self.(DhtTable_replacement_limit) <? len replacements
          then drop 1 replacements else replacements in
        (false, with_replacements self replacements)
  end.

(** [bucket.iter().filter(|item| address_prefix(item) == source).count()] *)
Definition same_source (source : N) (bucket : list SignedAnnouncement) : N :=
  count (fun item => address_prefix item =? source) bucket.

(** The oldest contact of another source, by index. *)
Definition victim (source : N) (bucket : list SignedAnnouncement) : option nat :=
  fst <$> min_by_key (fun p => contact_announced_at p.2)
    (List.filter (fun p => negb (address_prefix p.2 =? source)) (enumerate bucket)).

Definition DhtTable_insert (self : DhtTable) (contact : SignedAnnouncement) (now : N)
    : bool * DhtTable :=
  let id := contact_id contact in
  if (id == self.(DhtTable_local)) || (contact_expires_at contact <? now) then (false, self)
  else
    let index := N.to_nat (bucket_index self.(DhtTable_local) id) in
    let bucket := nth index self.(DhtTable_buckets) [] in
    match refresh contact self.(DhtTable_protected) with
    | Some (changed, protected) => (changed, with_protected self protected)
    | None =>
        match refresh contact bucket with
        | Some (changed, bucket) => (changed, with_bucket self index bucket)
        | None =>
            let source := address_prefix contact in
            if len bucket <? self.(DhtTable_k) then
              if same_source source bucket <? MAX_CONTACTS_PER_SOURCE_PREFIX
              then (true, with_bucket self index (bucket ++ [contact]))
              else add_replacement self contact
            else if same_source source bucket <? div_ceil self.(DhtTable_k) 2 then
              match victim source bucket with
              | Some victim => (true, with_bucket self index (<[victim := contact]> bucket))
              | None => add_replacement self contact
              end
            else add_replacement self contact
        end
    end.

Definition DhtTable_protect (self : DhtTable) (contact : SignedAnnouncement) (now : N)
    : bool * DhtTable :=
  if (contact_id contact == self.(DhtTable_local)) || (contact_expires_at contact <? now)
  then (false, self)
  else
    match refresh contact self.(DhtTable_protected) with
    | Some (changed, protected) => (changed, with_protected self protected)
    | None =>
        let protected :=
          if 16 <=? len self.(DhtTable_protected)
          then drop 1 (sort_by_key contact_expires_at self.(DhtTable_protected))
          else self.(DhtTable_protected) in
        (true, with_protected self (protected ++ [contact]))
    end.

(** [retain(|contact| contact.record.expires_at >= now)] *)
Definition live (now : N) (contact : SignedAnnouncement) : bool := now <=? contact_expires_at contact.

Definition DhtTable_expire (self : DhtTable) (now : N) : DhtTable :=
  {| DhtTable_local := self.(DhtTable_local);
     DhtTable_k := self.(DhtTable_k);
     DhtTable_replacement_limit := self.(DhtTable_replacement_limit);
     DhtTable_buckets := List.filter (live now) <$> self.(DhtTable_buckets);
     DhtTable_replacements := List.filter (live now) self.(DhtTable_replacements);
     DhtTable_protected := List.filter (live now) self.(DhtTable_protected) |}.

(** Every contact of the table, in the order the queries chain them. *)
Definition table_contacts (self : DhtTable) : list SignedAnnouncement :=
  concat self.(DhtTable_buckets) ++ self.(DhtTable_replacements) ++ self.(DhtTable_protected).

Definition DhtTable_closest (self : DhtTable) (target : DhtKey) (limit now : N)
    : list SignedAnnouncement :=
  let values := List.filter (live now) (table_contacts self) in
  let values := sort_by_key
    (fun contact => xor_distance (contact_id contact) (mkNodeId (DhtKey_0 target))) values in
  let values := dedup_by_key contact_id values in
  truncate limit values.

(** ** Diverse selection

    The two passes that [closest_diverse] and [get_diverse] share: first one item per
    source, then the remaining items whose identity is not selected yet, each pass
    stopping when [limit] items are selected. *)

Fixpoint one_per_source {A S} `{EqDecision S} (source : A -> S) (limit : N)
    (values : list A) (selected : list A) (sources : list S) : list A :=
  match values with
  | [] => selected
  | value :: values =>
      if limit <=? len selected then selected
      else if contains (source value) sources
           then one_per_source source limit values selected sources
           else one_per_source source limit values (selected ++ [value])
                  (source value :: sources)
  end.

Fixpoint fill {A I} `{EqDecision I} (ident : A -> I) (limit : N)
    (values : list A) (selected : list A) : list A :=
  match values with
  | [] => selected
  | value :: values =>
      if limit <=? len selected then selected
      else if existsb (fun existing => ident existing == ident value) selected
           then fill ident limit values selected
           else fill ident limit values (selected ++ [value])
  end.

Definition DhtTable_closest_diverse (self : DhtTable) (target : DhtKey) (limit now : N)
    : list SignedAnnouncement :=
  let values := DhtTable_closest self target usize_max now in
  let selected := one_per_source address_prefix limit values [] [] in
  fill contact_id limit values selected.

Definition DhtTable_all_contacts (self : DhtTable) (now : N) : list SignedAnnouncement :=
  DhtTable_closest self (mkDhtKey (NodeId_0 self.(DhtTable_local))) usize_max now.

(** [iter.map(Vec::len).sum()] *)
Definition sum_len {A} (vs : list (list A)) : N := foldr (fun v acc => len v + acc) 0 vs.

Definition DhtTable_stats (self : DhtTable) : DhtTableStats :=
  {| DhtTableStats_bucket_count := len self.(DhtTable_buckets);
     DhtTableStats_populated_buckets :=
       count (fun bucket => negb (is_empty bucket)) self.(DhtTable_buckets);
     DhtTableStats_contacts := sum_len self.(DhtTable_buckets);
     DhtTableStats_replacement_contacts := len self.(DhtTable_replacements);
     DhtTableStats_protected_contacts := len self.(DhtTable_protected) |}.

(** ** The record store *)

Notation store_key := (DhtNamespace * DhtKey)%type.

Record DhtStore := mkDhtStore {
  DhtStore_records : BTreeMap store_key (list DhtRecord);
  DhtStore_max_records : N;
  DhtStore_max_records_per_key : N
}.

Record DhtRecordStats := mkDhtRecordStats {
  DhtRecordStats_keys : N;
  DhtRecordStats_records : N;
  DhtRecordStats_expired_records : N
}.

Definition with_records (self : DhtStore) (records : BTreeMap store_key (list DhtRecord)) : DhtStore :=
  {| DhtStore_records := records;
     DhtStore_max_records := self.(DhtStore_max_records);
     DhtStore_max_records_per_key := self.(DhtStore_max_records_per_key) |}.

Definition DhtStore_new (max_records max_records_per_key : N) : DhtStore :=
  {| DhtStore_records := [];
     DhtStore_max_records := N.max max_records 1;
     DhtStore_max_records_per_key := N.max max_records_per_key 1 |}.

Definition record_live (now : N) (record : DhtRecord) : bool :=
  now <=? record.(DhtRecord_expires_at).

(** [records.retain(|_, values| { values.retain(live); !values.is_empty() })] *)
Definition expire_records (now : N) (records : BTreeMap store_key (list DhtRecord))
    : BTreeMap store_key (list DhtRecord) :=
  bt_retain (fun _ values => negb (is_empty values))
    (prod_map id (List.filter (record_live now)) <$> records).

Definition DhtStore_expire (self : DhtStore) (now : N) : DhtStore :=
  with_records self (expire_records now self.(DhtStore_records)).

(** [records.values().map(Vec::len).sum()] *)
Definition total_records (records : BTreeMap store_key (list DhtRecord)) : N :=
  sum_len (snd <$> records).

Definition all_entries (records : BTreeMap store_key (list DhtRecord)) : list (store_key * DhtRecord) :=
  concat ((fun e : store_key * list DhtRecord => pair e.1 <$> e.2) <$> records).

(** [if let Some(values) = records.get_mut(&key) { remove the owner's record; drop an
    empty vector }] *)
Definition evict (key : store_key) (owner : NodeId) (records : BTreeMap store_key (list DhtRecord))
    : BTreeMap store_key (list DhtRecord) :=
  match bt_get key records with
  | None => records
  | Some values =>
      let values := match position (fun record => record.(DhtRecord_owner) == owner) values with
                    | Some index => remove_at index values
                    | None => values
                    end in
      if is_empty values then bt_remove key records else bt_insert key values records
  end.

(** The [while] loop; every round that goes on removes one record, so the number of
    records is enough fuel ([enforce_loop_bound] in [DhtFacts]). *)
Fixpoint enforce_loop (fuel : nat) (max_records : N) (records : BTreeMap store_key (list DhtRecord))
    : BTreeMap store_key (list DhtRecord) :=
  match fuel with
  | O => records
  | S fuel =>
      if max_records <? total_records records then
        match min_by_key (fun e => (e.2.(DhtRecord_sequence), e.2.(DhtRecord_expires_at)))
                (all_entries records) with
        | None => records
        | Some (key, record) =>
            enforce_loop fuel max_records (evict key record.(DhtRecord_owner) records)
        end
      else records
  end.

Definition enforce_total_bound (self : DhtStore) (now : N) : DhtStore :=
  let self := DhtStore_expire self now in
  with_records self
    (enforce_loop (N.to_nat (total_records self.(DhtStore_records)))
       self.(DhtStore_max_records) self.(DhtStore_records)).

Definition DhtStore_put (self : DhtStore) (record : DhtRecord) (now : N) : bool * DhtStore :=
  if record.(DhtRecord_expires_at) <? now then (false, self)
  else
    let key := (record.(DhtRecord_namespace), record.(DhtRecord_key)) in
    let values := default [] (bt_get key self.(DhtStore_records)) in
    let store values := with_records self (bt_insert key values self.(DhtStore_records)) in
    let same item := item.(DhtRecord_owner) == record.(DhtRecord_owner) in
    match List.find same values with
    | Some existing =>
        if record.(DhtRecord_sequence) <=? existing.(DhtRecord_sequence) then (false, store values)
        else (true, store (replace_first same record values))
    | None =>
        if self.(DhtStore_max_records_per_key) <=? len values then
          let values := sort_by_key
            (fun item => (item.(DhtRecord_sequence), item.(DhtRecord_expires_at))) values in
          if match head values with
             | Some item => record.(DhtRecord_sequence) <=? item.(DhtRecord_sequence)
             | None => false
             end
          then (false, store values)
          else (true, enforce_total_bound (store (drop 1 values ++ [record])) now)
        else (true, enforce_total_bound (store (values ++ [record])) now)
    end.

Definition DhtStore_get (self : DhtStore) (namespace : DhtNamespace) (key : DhtKey) (now : N)
    : list DhtRecord * DhtStore :=
  match bt_get (namespace, key) self.(DhtStore_records) with
  | Some values =>
      let values := List.filter (record_live now) values in
      (sort_by_key (fun record => mkReverse record.(DhtRecord_sequence)) values,
       with_records self (bt_insert (namespace, key) values self.(DhtStore_records)))
  | None => ([], self)
  end.

Definition DhtStore_get_diverse (self : DhtStore) (namespace : DhtNamespace) (key : DhtKey)
    (now limit : N) : list DhtRecord * DhtStore :=
  let (values, self) := DhtStore_get self namespace key now in
  let selected :=
    one_per_source (fun record => take 4 (NodeId_0 record.(DhtRecord_owner))) limit values [] [] in
  (fill DhtRecord_owner limit values selected, self).

Definition DhtStore_get_records (self : DhtStore) (now : N) : list DhtRecord :=
  List.filter (record_live now) (concat (snd <$> self.(DhtStore_records))).

Definition DhtStore_stats (self : DhtStore) (now : N) : DhtRecordStats :=
  {| DhtRecordStats_keys := len self.(DhtStore_records);
     DhtRecordStats_records := count (record_live now) (concat (snd <$> self.(DhtStore_records)));
     DhtRecordStats_expired_records :=
       count (fun record => record.(DhtRecord_expires_at) <? now)
         (concat (snd <$> self.(DhtStore_records))) |}.
