(* ===== verification/DhtFacts.v ===== *)
(** * Properties of the DHT

    The bucket index is the logarithm of the XOR distance; the routing table keeps
    its bounds and its bucket discipline through every operation; a query returns
    the closest live contacts in order; the record store keeps its bounds, holds one
    record per owner and never goes back in sequence. *)

From Stdlib Require Import String ZArith NArith Lia Sorted Permutation.
From stdpp Require Import base tactics sets strings numbers sorting list.
From S2P Require Import Prelude OrdMap Types SocketAddr Dht.
Local Open Scope N_scope.

(** ** Byte strings as numbers *)

(** The big-endian value of a byte string. *)
Fixpoint be_value (bytes : list N) : N :=
  match bytes with
  | [] => 0
  | b :: bytes => b * 256 ^ len bytes + be_value bytes
  end.

(** A 32-byte identity. *)
Definition id_wf (n : NodeId) : Prop :=
  length (NodeId_0 n) = 32%nat /\ Forall (fun b => b < 256) (NodeId_0 n).

(** The XOR metric as a number. *)
Definition distance (a b : NodeId) : N := be_value (xor_distance a b).

Lemma be_value_bound bytes : Forall (fun b => b < 256) bytes -> be_value bytes < 256 ^ len bytes.
Proof.
  induction 1 as [|b bytes Hb _ IH]; cbn [be_value]; [cbn; lia|].
  rewrite len_cons, N.pow_add_r. change (256 ^ 1) with 256. nia.
Qed.

Lemma be_value_cmp xs ys :
  Forall (fun b => b < 256) xs -> Forall (fun b => b < 256) ys -> length xs = length ys ->
  cmp xs ys = N.compare (be_value xs) (be_value ys).
Proof.
  intros Hxs. revert ys; induction Hxs as [|x xs Hx Hxs IH]; intros ys Hys Hl.
  { by destruct ys. }
  destruct ys as [|y ys]; [done|]. inversion Hys as [|? ? Hy Hys']; subst. injection Hl as Hl.
  assert (Hlen : len xs = len ys) by (unfold len; congruence).
  pose proof (be_value_bound xs Hxs). pose proof (be_value_bound ys Hys').
  cbn [be_value]. rewrite <- Hlen in *. change (cmp (x :: xs) (y :: ys)) with
    (then_with (N.compare x y) (cmp xs ys)). rewrite (IH ys) by done.
  destruct (N.compare_spec x y) as [->|Hlt|Hlt]; cbn; symmetry.
  - destruct (N.compare_spec (be_value xs) (be_value ys));
      [apply N.compare_eq_iff | apply N.compare_lt_iff | apply N.compare_gt_iff]; nia.
  - apply N.compare_lt_iff. nia.
  - apply N.compare_gt_iff. nia.
Qed.

Lemma lxor_byte a b : a < 256 -> b < 256 -> N.lxor a b < 256.
Proof.
  intros Ha Hb. destruct (decide (N.lxor a b = 0)) as [->|Hne]; [lia|].
  apply N.log2_lt_pow2 with (b := 8); [lia|].
  eapply N.le_lt_trans; [apply N.log2_lxor|].
  apply N.max_lub_lt; (destruct (decide (a = 0)) as [->|]; destruct (decide (b = 0)) as [->|];
    cbn; try lia; apply N.log2_lt_pow2; cbn; lia).
Qed.

Lemma xor_distance_wf a b :
  id_wf a -> id_wf b ->
  length (xor_distance a b) = 32%nat /\ Forall (fun x => x < 256) (xor_distance a b).
Proof.
  intros [La Ha] [Lb Hb]. unfold xor_distance. split.
  - rewrite length_zip_with. lia.
  - clear La Lb. revert Hb. generalize (NodeId_0 b) as ys.
    induction Ha as [|x xs Hx Hxs IH]; intros ys Hys; cbn; [constructor|].
    destruct Hys; constructor; auto using lxor_byte.
Qed.

(** Identities at the same distance of a target are the same. *)
Lemma xor_distance_inj a b t :
  id_wf a -> id_wf b -> id_wf t -> xor_distance a t = xor_distance b t -> a = b.
Proof.
  destruct a as [a], b as [b], t as [t]. intros [La _] [Lb _] [Lt _]. unfold xor_distance. cbn in *.
  intros H. f_equal.
  assert (Hall : forall t a b : list N, length a = length t -> length b = length t ->
            zip_with N.lxor a t = zip_with N.lxor b t -> a = b).
  { clear. induction t as [|x t IH]; intros [|y a] [|z b]; cbn; try done.
    intros [= La] [= Lb] [= Hx Hr]. f_equal; [|by apply IH].
    by rewrite <- (N.lxor_0_r y), <- (N.lxor_nilpotent x), <- N.lxor_assoc, Hx, N.lxor_assoc,
      N.lxor_nilpotent, N.lxor_0_r. }
  apply (Hall t); congruence.
Qed.

Lemma distance_cmp a b t :
  id_wf a -> id_wf b -> id_wf t ->
  cmp (xor_distance a t) (xor_distance b t) = N.compare (distance a t) (distance b t).
Proof.
  intros Ha Hb Ht. destruct (xor_distance_wf a t Ha Ht), (xor_distance_wf b t Hb Ht).
  by apply be_value_cmp; [..|congruence].
Qed.

(** ** The bucket index is the logarithm of the distance *)
Lemma log2_be b bytes :
  0 < b < 256 -> Forall (fun b => b < 256) bytes ->
  N.log2 (be_value (b :: bytes)) = 8 * len bytes + N.log2 b.
Proof.
  intros Hb Hall. cbn [be_value]. pose proof (be_value_bound bytes Hall) as Hv.
  replace (256 ^ len bytes) with (2 ^ (8 * len bytes)) in *
    by (rewrite N.pow_mul_r; done).
  destruct (N.log2_spec b) as [H1 H2]; [lia|].
  apply N.log2_unique; [lia|]. rewrite <- N.add_succ_r, !N.pow_add_r. nia.
Qed.

Lemma bucket_index_from_log2 index bytes :
  Forall (fun b => b < 256) bytes -> index + len bytes = 32 ->
  bucket_index_from index bytes = N.log2 (be_value bytes).
Proof.
  intros Hall. revert index; induction Hall as [|b bytes Hb Hall IH]; intros index Hi; [done|].
  rewrite len_cons in Hi. cbn [bucket_index_from]. destruct (b =? 0) eqn:Hz; breflect.
  - subst b. rewrite IH by lia. cbn [be_value]. by rewrite N.mul_0_l, N.add_0_l.
  - rewrite log2_be by (done || lia). unfold leading_zeros8, sat_sub.
    destruct (b =? 0) eqn:?; breflect; [lia|].
    assert (N.log2 b <= 7); [|lia].
    apply N.lt_succ_r. apply N.log2_lt_pow2; cbn; lia.
Qed.

(** ** Diverse selection *)

Section Fill.
Context {A I : Type} `{EqDecision I} (ident : A -> I).
Implicit Types (values selected : list A).

Lemma fill_spec limit values selected :
  NoDup (ident <$> selected) -> len selected <= limit ->
  exists filled,
    fill ident limit values selected = selected ++ filled
    /\ (forall x, x ∈ filled -> x ∈ values)
    /\ NoDup (ident <$> selected ++ filled)
    /\ len (selected ++ filled) <= limit
    /\ (limit <= len selected -> filled = [])
    /\ (limit <= len (selected ++ filled)
        \/ forall v, v ∈ values -> ident v ∈ ident <$> selected ++ filled).
Proof.
  revert selected; induction values as [|v values IH]; intros selected Hnd Hl; cbn.
  - exists []. rewrite app_nil_r. split_and!; try done. right. by intros v ?%not_elem_of_nil.
  - destruct (limit <=? len selected) eqn:Hlim; breflect.
    + exists []. rewrite app_nil_r. split_and!; try done; [by intros x ?%not_elem_of_nil | by left].
    + destruct (existsb _ selected) eqn:He.
      * destruct (IH selected Hnd Hl) as (filled & -> & Hin & Hnd' & Hl' & Hnil & Hcov).
        exists filled. split_and!; try done; [set_solver|].
        destruct Hcov as [?|Hcov]; [by left|right].
        intros w [->|Hw]%elem_of_cons; [|by apply Hcov].
        apply existsb_exists in He as (x & Hx & Hi). breflect. rewrite <- Hi.
        apply list_elem_of_fmap_2, elem_of_app. left. by apply list_elem_of_In.
      * apply existsb_false in He. rewrite Forall_forall in He.
        destruct (IH (selected ++ [v])) as (filled & -> & Hin & Hnd' & Hl' & Hnil & Hcov).
        -- rewrite fmap_app. apply NoDup_app. split_and!; [done| |apply NoDup_singleton].
           intros i (x & -> & Hx)%list_elem_of_fmap Hi%list_elem_of_singleton.
           specialize (He x Hx). breflect. done.
        -- rewrite len_app. unfold len at 2. cbn. lia.
        -- exists (v :: filled). rewrite <- app_assoc in *. cbn [app] in *. split_and!; try done; [set_solver|lia|].
           destruct Hcov as [?|Hcov]; [by left|right].
           intros w [->|Hw]%elem_of_cons; [|by apply Hcov]. apply list_elem_of_fmap_2. set_solver.
Qed.

Lemma NoDup_fmap_incl_len (xs ys : list A) :
  NoDup (ident <$> xs) -> (forall x, x ∈ xs -> ident x ∈ ident <$> ys) -> len xs <= len ys.
Proof.
  intros Hnd Hin. unfold len.
  assert (length (ident <$> xs) <= length (ident <$> ys))%nat.
  { apply submseteq_length, NoDup_submseteq; [done|].
    intros i (x & -> & Hx)%list_elem_of_fmap. by apply Hin. }
  rewrite !length_fmap in *. lia.
Qed.
End Fill.

Section Diverse.
Context {A S I : Type} `{EqDecision S} `{EqDecision I} (source : A -> S) (ident : A -> I).
Implicit Types (values selected : list A).

Lemma one_per_source_spec limit values selected sources :
  (forall s, s ∈ sources <-> s ∈ source <$> selected) ->
  NoDup (source <$> selected) -> len selected <= limit ->
  exists picked,
    one_per_source source limit values selected sources = selected ++ picked
    /\ picked `sublist_of` values
    /\ NoDup (source <$> selected ++ picked)
    /\ len (selected ++ picked) <= limit
    /\ (limit <= len (selected ++ picked)
        \/ forall v, v ∈ values -> source v ∈ source <$> selected ++ picked).
Proof.
  revert selected sources; induction values as [|v values IH]; intros selected sources Hs Hnd Hl; cbn.
  - exists []. rewrite app_nil_r. split_and!; try done. right. by intros v ?%not_elem_of_nil.
  - destruct (limit <=? len selected) eqn:Hlim; breflect.
    + exists []. rewrite app_nil_r. split_and!; try done; [apply sublist_nil_l | by left].
    + destruct (contains (source v) sources) eqn:Hc; autorewrite with rust in Hc.
      * destruct (IH selected sources Hs Hnd Hl) as (picked & -> & Hsub & Hnd' & Hl' & Hcov).
        exists picked. split_and!; try done; [by apply sublist_cons|].
        destruct Hcov as [?|Hcov]; [by left|right].
        intros w [->|Hw]%elem_of_cons; [|by apply Hcov]. rewrite fmap_app. set_solver.
      * destruct (IH (selected ++ [v]) (source v :: sources)) as (picked & -> & Hsub & Hnd' & Hl' & Hcov).
        -- intros s. rewrite fmap_app, elem_of_cons, elem_of_app, Hs. cbn. set_solver.
        -- rewrite fmap_app. apply NoDup_app. split_and!; [done| |apply NoDup_singleton].
           intros s Hin ->%list_elem_of_singleton. by apply Hc, Hs.
        -- rewrite len_app. unfold len at 2. cbn. lia.
        -- exists (v :: picked). rewrite <- app_assoc in *. split_and!; try done; [by apply sublist_skip|].
           destruct Hcov as [?|Hcov]; [by left|right].
           intros w [->|Hw]%elem_of_cons; [|by apply Hcov]. apply list_elem_of_fmap_2. set_solver.
Qed.

(** The two passes select as many items as fit, each identity once, and repeat a source
    only when every source of the candidates is represented. *)
Record diverse (limit : N) (values selected : list A) : Prop := {
  diverse_subset : forall x, x ∈ selected -> x ∈ values;
  diverse_nodup : NoDup (ident <$> selected);
  diverse_len : len selected = N.min limit (len values);
  diverse_sources : forall v, v ∈ values -> source v ∉ source <$> selected ->
                    NoDup (source <$> selected)
}.

Lemma diverse_selection limit values :
  NoDup (ident <$> values) ->
  diverse limit values
    (fill ident limit values (one_per_source source limit values [] [])).
Proof.
  intros Hnd.
  destruct (one_per_source_spec limit values [] []) as (picked & -> & Hsub & Hnds & Hlp & Hcovs);
    [done | constructor | unfold len; cbn; lia |]. cbn [app] in *.
  destruct (fill_spec ident limit values picked) as (filled & -> & Hin & Hndi & Hl & Hnil & Hcov); [|done|].
  { eapply sublist_NoDup; [exact Hnd|]. by apply fmap_sublist. }
  assert (Hinp : forall x, x ∈ picked -> x ∈ values) by (intros; by eapply elem_of_sublist).
  split; [|done| |].
  - intros x [?|?]%elem_of_app; auto.
  - assert (len (picked ++ filled) <= len values).
    { apply (NoDup_fmap_incl_len ident); [done|]. intros x [?|?]%elem_of_app; apply list_elem_of_fmap_2; auto. }
    destruct Hcov as [?|Hcov]; [lia|].
    assert (len values <= len (picked ++ filled)) by by apply (NoDup_fmap_incl_len ident). lia.
  - intros v Hv Hnot. destruct Hcovs as [Hfull|Hcovs].
    + rewrite Hnil in * by done. by rewrite app_nil_r.
    + destruct Hnot. rewrite fmap_app. apply elem_of_app. left. by apply Hcovs.
Qed.
End Diverse.

(** ** The routing table: invariant *)

(** A list of contacts: each identity once, well formed and not the local one. *)
Record contacts_ok (local : NodeId) (items : list SignedAnnouncement) : Prop := {
  contacts_nodup : NoDup (contact_id <$> items);
  contacts_wf : Forall (fun c => id_wf (contact_id c)) items;
  contacts_foreign : Forall (fun c => contact_id c <> local) items
}.

(** Bucket [i] holds at most [k] contacts, all at a distance of logarithm [i]. *)
Record bucket_ok (local : NodeId) (k : N) (i : nat) (items : list SignedAnnouncement) : Prop := {
  bucket_contacts : contacts_ok local items;
  bucket_bounded : len items <= k;
  bucket_distance : Forall (fun c => bucket_index local (contact_id c) = N.of_nat i) items
}.

Record table_ok (self : DhtTable) : Prop := {
  table_local_wf : id_wf self.(DhtTable_local);
  table_buckets_256 : length self.(DhtTable_buckets) = 256%nat;
  table_buckets : forall i b, self.(DhtTable_buckets) !! i = Some b ->
    bucket_ok self.(DhtTable_local) self.(DhtTable_k) i b;
  table_replacements : contacts_ok self.(DhtTable_local) self.(DhtTable_replacements);
  table_replacements_bounded : len self.(DhtTable_replacements) <= self.(DhtTable_replacement_limit);
  table_protected : contacts_ok self.(DhtTable_local) self.(DhtTable_protected);
  table_protected_bounded : len self.(DhtTable_protected) <= 16
}.

(** One call of the public interface. *)
Inductive table_step : DhtTable -> DhtTable -> Prop :=
  | step_insert self contact now : id_wf (contact_id contact) ->
      table_step self (DhtTable_insert self contact now).2
  | step_protect self contact now : id_wf (contact_id contact) ->
      table_step self (DhtTable_protect self contact now).2
  | step_expire self now : table_step self (DhtTable_expire self now).

Inductive table_reachable (local : NodeId) (k limit : N) : DhtTable -> Prop :=
  | reach_new : table_reachable local k limit (DhtTable_new local k limit)
  | reach_step self self' : table_reachable local k limit self -> table_step self self' ->
      table_reachable local k limit self'.

(** *** Lists of contacts *)
Lemma contacts_ok_nil local : contacts_ok local [].
Proof. split; constructor. Qed.

Lemma contacts_ok_sublist local items items' :
  contacts_ok local items -> items' `sublist_of` items -> contacts_ok local items'.
Proof.
  intros [Hnd Hwf Hf] Hs. split.
  - eapply sublist_NoDup; [done|]. by apply fmap_sublist.
  - rewrite Forall_forall in *. eauto using elem_of_sublist.
  - rewrite Forall_forall in *. eauto using elem_of_sublist.
Qed.

Lemma contacts_ok_perm local items items' :
  contacts_ok local items -> items' ≡ₚ items -> contacts_ok local items'.
Proof. intros [Hnd Hwf Hf] Hp. split; by rewrite Hp. Qed.

Lemma contacts_ok_snoc local items c :
  contacts_ok local items -> id_wf (contact_id c) -> contact_id c <> local ->
  contact_id c ∉ contact_id <$> items -> contacts_ok local (items ++ [c]).
Proof.
  intros [Hnd Hwf Hf] H1 H2 H3. split.
  - rewrite fmap_app. apply NoDup_app. split_and!; [done| |apply NoDup_singleton].
    intros i Hi ->%list_elem_of_singleton. done.
  - apply Forall_app. split; [done | by apply Forall_singleton].
  - apply Forall_app. split; [done | by apply Forall_singleton].
Qed.

(** Refreshing changes no identity. *)
Lemma replace_first_ids c items :
  contact_id <$> replace_first (fun i => bool_decide (contact_id i = contact_id c)) c items
  = contact_id <$> items.
Proof.
  induction items as [|i items IH]; cbn; [done|].
  case_bool_decide as Hi; cbn; [by rewrite Hi | by rewrite IH].
Qed.

Lemma refresh_Some c items b items' :
  refresh c items = Some (b, items') ->
  contact_id <$> items' = contact_id <$> items /\ (b = true -> c ∈ items')
  /\ (b = false -> items' = items).
Proof.
  unfold refresh. destruct (List.find _ items) as [e|] eqn:Hf; [|done].
  destruct (fresher _ _); intros [= <- <-]; [|by split_and!].
  split_and!; [apply replace_first_ids| |done]. intros _.
  clear -Hf. induction items as [|i items IH]; cbn in *; [done|].
  case_bool_decide; [left | right; by apply IH].
Qed.

Lemma refresh_None c items : refresh c items = None -> contact_id c ∉ contact_id <$> items.
Proof.
  unfold refresh. destruct (List.find _ items) as [e|] eqn:Hf; [by destruct (fresher _ _)|].
  intros _ (x & Hc & Hx)%list_elem_of_fmap.
  apply list_elem_of_In in Hx. eapply List.find_none in Hf; [|exact Hx]. breflect. congruence.
Qed.

Lemma Forall_ids (P : NodeId -> Prop) items items' :
  contact_id <$> items' = contact_id <$> items ->
  Forall (fun c => P (contact_id c)) items -> Forall (fun c => P (contact_id c)) items'.
Proof.
  intros Hids HP. apply (Forall_fmap contact_id P). rewrite Hids. by apply (Forall_fmap contact_id P).
Qed.

Lemma contacts_ok_ids local items items' :
  contact_id <$> items' = contact_id <$> items -> contacts_ok local items ->
  contacts_ok local items'.
Proof.
  intros Hids [Hnd Hwf Hf]. split; [by rewrite Hids| |].
  - by apply (Forall_ids id_wf items).
  - by apply (Forall_ids (fun n => n <> local) items).
Qed.

Lemma len_ids items items' :
  contact_id <$> items' = contact_id <$> items -> len items' = len items.
Proof. intros H. unfold len. by rewrite <- (length_fmap contact_id), H, length_fmap. Qed.

(** *** Preservation *)
Lemma table_ok_new local k limit : id_wf local -> table_ok (DhtTable_new local k limit).
Proof.
  intros Hl. split; cbn [DhtTable_new DhtTable_local DhtTable_buckets DhtTable_replacements
    DhtTable_protected DhtTable_k DhtTable_replacement_limit]; auto using contacts_ok_nil.
  - intros i b [-> _]%lookup_replicate. split; [apply contacts_ok_nil | unfold len; cbn; lia | constructor].
  - unfold len; cbn; lia.
  - unfold len; cbn; lia.
Qed.

Lemma table_ok_with_replacements self items :
  table_ok self -> contacts_ok self.(DhtTable_local) items ->
  len items <= self.(DhtTable_replacement_limit) -> table_ok (with_replacements self items).
Proof. intros [] ? ?. by split. Qed.

Lemma table_ok_with_protected self items :
  table_ok self -> contacts_ok self.(DhtTable_local) items ->
  len items <= 16 -> table_ok (with_protected self items).
Proof. intros [] ? ?. by split. Qed.

Lemma table_ok_with_bucket self i items :
  table_ok self -> bucket_ok self.(DhtTable_local) self.(DhtTable_k) i items ->
  table_ok (with_bucket self i items).
Proof.
  intros Hok Hb. destruct Hok. split; try done.
  - cbn. by rewrite length_insert.
  - cbn. intros j b Hj. destruct (decide (i = j)) as [<-|Hne].
    + apply list_lookup_insert_Some in Hj as [(_ & <- & _)|[? _]]; done.
    + rewrite list_lookup_insert_ne in Hj by done. auto.
Qed.

Lemma add_replacement_ok self c :
  table_ok self -> id_wf (contact_id c) -> contact_id c <> self.(DhtTable_local) ->
  table_ok (add_replacement self c).2.
Proof.
  intros Hok Hwf Hne. pose proof Hok as [_ _ _ Hr Hrb _ _]. unfold add_replacement.
  destruct (refresh c _) as [[b items]|] eqn:Href; cbn.
  - apply refresh_Some in Href as (Hids & _). apply table_ok_with_replacements; [done| |].
    + by eapply contacts_ok_ids.
    + by rewrite (len_ids _ _ Hids).
  - apply refresh_None in Href. destruct (_ =? 0) eqn:Hz; breflect; [done|]. cbn.
    pose proof (contacts_ok_snoc _ _ _ Hr Hwf Hne Href) as Hs.
    rewrite len_app, len_cons, (eq_refl : len [] = 0) in *.
    destruct (_ <? _) eqn:Hlt; breflect; apply table_ok_with_replacements; try done.
    + eapply contacts_ok_sublist; [exact Hs | apply sublist_drop].
    + unfold len in *. rewrite length_drop, length_app. cbn. lia.
    + rewrite len_app, len_cons, (eq_refl : len [] = 0). lia.
Qed.

Lemma insert_contacts_perm (i : nat) (c : SignedAnnouncement) items :
  (i < length items)%nat -> <[i := c]> items ≡ₚ delete i items ++ [c].
Proof.
  intros Hi. rewrite insert_take_drop, delete_take_drop by done.
  rewrite <- app_assoc. apply Permutation_app_head. apply Permutation_cons_append.
Qed.

Lemma contacts_ok_insert local i c items :
  contacts_ok local items -> id_wf (contact_id c) -> contact_id c <> local ->
  contact_id c ∉ contact_id <$> items -> contacts_ok local (<[i := c]> items).
Proof.
  intros Hok Hwf Hne Hnew. destruct (decide (i < length items)%nat) as [Hi|Hi].
  - eapply contacts_ok_perm; [|by apply insert_contacts_perm].
    apply contacts_ok_snoc; try done.
    + eapply contacts_ok_sublist; [done | apply sublist_delete].
    + intros Hin. apply Hnew. eapply elem_of_sublist; [done|]. apply fmap_sublist, sublist_delete.
  - by rewrite list_insert_ge by lia.
Qed.

Lemma bucket_index_le local id : bucket_index local id <= 255.
Proof.
  unfold bucket_index. generalize 0 as i. induction (xor_distance local id) as [|b bs IH]; intros i; cbn.
  - lia.
  - destruct (b =? 0); [apply IH | unfold sat_sub; lia].
Qed.

Lemma table_bucket_lookup self id :
  table_ok self ->
  let i := N.to_nat (bucket_index self.(DhtTable_local) id) in
  self.(DhtTable_buckets) !! i = Some (nth i self.(DhtTable_buckets) []).
Proof.
  intros Hok i. destruct (nth_lookup_or_length self.(DhtTable_buckets) i []) as [H|H]; [done|].
  rewrite (table_buckets_256 _ Hok) in H.
  pose proof (bucket_index_le self.(DhtTable_local) id). subst i. lia.
Qed.

Lemma DhtTable_insert_ok self c now :
  table_ok self -> id_wf (contact_id c) -> table_ok (DhtTable_insert self c now).2.
Proof.
  intros Hok Hwf. unfold DhtTable_insert.
  destruct (_ || _) eqn:Hg; [done|]. breflect.
  set (i := N.to_nat (bucket_index _ _)).
  pose proof (table_bucket_lookup self (contact_id c) Hok) as Hi. fold i in Hi.
  set (bucket := nth i _ _) in *.
  pose proof (table_buckets _ Hok _ _ Hi) as [Hbc Hbb Hbd].
  pose proof Hok as [_ _ _ _ _ Hp Hpb].
  assert (Hci : bucket_index self.(DhtTable_local) (contact_id c) = N.of_nat i) by (subst i; lia).
  destruct (refresh c self.(DhtTable_protected)) as [[b items]|] eqn:Hrp; cbn [snd].
  { apply refresh_Some in Hrp as (Hids & _).
    apply table_ok_with_protected; [done | by eapply contacts_ok_ids | by rewrite (len_ids _ _ Hids)]. }
  destruct (refresh c bucket) as [[b items]|] eqn:Hrb; cbn [snd].
  { apply refresh_Some in Hrb as (Hids & _). apply table_ok_with_bucket; [done|]. split.
    - by eapply contacts_ok_ids.
    - by rewrite (len_ids _ _ Hids).
    - by apply (Forall_ids (fun n => bucket_index _ n = _) bucket). }
  apply refresh_None in Hrb.
  destruct (len bucket <? _) eqn:Hk; breflect.
  - destruct (same_source _ _ <? _); [|by apply add_replacement_ok].
    apply table_ok_with_bucket; [done|]. split.
    + by apply contacts_ok_snoc.
    + rewrite len_app, len_cons, (eq_refl : len [] = 0). lia.
    + apply Forall_app. split; [done | by apply Forall_singleton].
  - destruct (same_source _ _ <? _); [|by apply add_replacement_ok].
    destruct (victim _ _) as [v|]; [|by apply add_replacement_ok].
    apply table_ok_with_bucket; [done|]. split.
    + by apply contacts_ok_insert.
    + unfold len in *. rewrite length_insert. done.
    + by apply Forall_insert.
Qed.

Lemma DhtTable_protect_ok self c now :
  table_ok self -> id_wf (contact_id c) -> table_ok (DhtTable_protect self c now).2.
Proof.
  intros Hok Hwf. pose proof Hok as [_ _ _ _ _ Hp Hpb]. unfold DhtTable_protect.
  destruct (_ || _) eqn:Hg; [done|]. breflect.
  destruct (refresh c _) as [[b items]|] eqn:Hrp; cbn [snd].
  { apply refresh_Some in Hrp as (Hids & _).
    apply table_ok_with_protected; [done | by eapply contacts_ok_ids | by rewrite (len_ids _ _ Hids)]. }
  apply refresh_None in Hrp.
  set (sorted := sort_by_key _ _).
  assert (Hs : sorted ≡ₚ self.(DhtTable_protected)) by apply sort_by_key_perm.
  destruct (16 <=? _) eqn:H16; breflect; apply table_ok_with_protected; try done.
  - apply contacts_ok_snoc; try done.
    + eapply contacts_ok_sublist; [by eapply contacts_ok_perm | apply sublist_drop].
    + intros Hin. apply Hrp. rewrite <- Hs. eapply elem_of_sublist; [done|].
      apply fmap_sublist, sublist_drop.
  - rewrite len_app, len_cons, (eq_refl : len [] = 0). unfold len in *.
    rewrite length_drop, (Permutation_length Hs). lia.
  - by apply contacts_ok_snoc.
  - rewrite len_app, len_cons, (eq_refl : len [] = 0). lia.
Qed.

Lemma DhtTable_expire_ok self now : table_ok self -> table_ok (DhtTable_expire self now).
Proof.
  intros [Hl H256 Hb Hr Hrb Hp Hpb]. split; cbn; try done.
  - by rewrite length_fmap.
  - intros i b (b' & -> & Hi)%list_lookup_fmap_Some. destruct (Hb _ _ Hi) as [Hc Hk Hd]. split.
    + by eapply contacts_ok_sublist, filter_sublist.
    + eapply N.le_trans; [apply len_filter_le | done].
    + rewrite Forall_forall in *. intros c Hc'. apply Hd.
      eapply elem_of_sublist; [done | apply filter_sublist].
  - by eapply contacts_ok_sublist, filter_sublist.
  - eapply N.le_trans; [apply len_filter_le | done].
  - by eapply contacts_ok_sublist, filter_sublist.
  - eapply N.le_trans; [apply len_filter_le | done].
Qed.

Lemma table_reachable_ok local k limit self :
  id_wf local -> table_reachable local k limit self ->
  table_ok self /\ self.(DhtTable_local) = local /\ self.(DhtTable_k) = N.max k 1
  /\ self.(DhtTable_replacement_limit) = limit.
Proof.
  intros Hl. induction 1 as [|self self' Hr (IH & E1 & E2 & E3) Hs].
  - split_and!; [by apply table_ok_new | done..].
  - rewrite <- E1, <- E2, <- E3. destruct Hs as [self c now Hw|self c now Hw|self now].
    + split; [by apply DhtTable_insert_ok|].
      unfold DhtTable_insert, add_replacement. by repeat (dmatch; try done).
    + split; [by apply DhtTable_protect_ok|].
      unfold DhtTable_protect. by repeat (dmatch; try done).
    + split; [by apply DhtTable_expire_ok | done].
Qed.

(** ** Queries *)

Definition target_id (target : DhtKey) : NodeId := mkNodeId (DhtKey_0 target).

Lemma table_contacts_ok self c :
  table_ok self -> c ∈ table_contacts self -> id_wf (contact_id c) /\ contact_id c <> self.(DhtTable_local).
Proof.
  intros [_ _ Hb Hr _ Hp _]. unfold table_contacts. rewrite !elem_of_app, elem_of_concat.
  assert (Hget : forall items, contacts_ok self.(DhtTable_local) items -> c ∈ items ->
            id_wf (contact_id c) /\ contact_id c <> self.(DhtTable_local)).
  { intros items [_ Hwf Hf]. rewrite Forall_forall in *. auto. }
  intros [(b & (i & Hi)%list_elem_of_lookup & Hc)|[?|?]]; [|by apply Hget in Hr|by apply Hget in Hp].
  destruct (Hb _ _ Hi) as [Hbc _ _]. by eapply Hget.
Qed.

(** What a query promises: the closest live contacts, each once, nearest first. *)
Record closest_ok (self : DhtTable) (target : DhtKey) (limit now : N)
    (res : list SignedAnnouncement) : Prop := {
  closest_bounded : len res <= limit;
  closest_nodup : NoDup (contact_id <$> res);
  closest_sorted : StronglySorted (fun c d =>
    distance (contact_id c) (target_id target) < distance (contact_id d) (target_id target)) res;
  closest_live : forall c, c ∈ res -> c ∈ table_contacts self /\ now <= contact_expires_at c;
  closest_complete : forall c, c ∈ table_contacts self -> now <= contact_expires_at c ->
    contact_id c ∈ contact_id <$> res
    \/ (len res = limit /\ forall d, d ∈ res ->
          distance (contact_id d) (target_id target) < distance (contact_id c) (target_id target))
}.

Lemma DhtTable_closest_ok self target limit now :
  table_ok self -> id_wf (target_id target) ->
  closest_ok self target limit now (DhtTable_closest self target limit now).
Proof.
  intros Hok Ht. unfold DhtTable_closest. rewrite truncate_take.
  set (key := fun c => xor_distance (contact_id c) (mkNodeId (DhtKey_0 target))).
  set (values := List.filter (live now) (table_contacts self)).
  assert (Hval : forall c, c ∈ values <-> c ∈ table_contacts self /\ now <= contact_expires_at c).
  { intros c. unfold values. rewrite elem_of_filter_b. unfold live. by rewrite N.leb_le. }
  assert (Hwf : forall c, c ∈ values -> id_wf (contact_id c)).
  { intros c [Hc _]%Hval. by apply table_contacts_ok in Hc as [? _]. }
  set (sorted := sort_by_key key values).
  assert (Hs : forall c, c ∈ sorted <-> c ∈ values) by (intros c; apply elem_of_sort_by_key).
  set (uniq := dedup_by_key contact_id sorted).
  assert (Hstrict : StronglySorted (fun c d =>
            distance (contact_id c) (target_id target) < distance (contact_id d) (target_id target)) uniq).
  { assert (Hsub : forall c, c ∈ uniq -> id_wf (contact_id c)).
    { intros c Hc. apply Hwf, Hs. eapply elem_of_sublist; [done | apply dedup_by_key_sublist]. }
    assert (Hk : StronglySorted (fun c d => cmp (key c) (key d) = Lt) uniq).
    { apply (dedup_by_key_strict contact_id key sorted); [apply sort_by_key_sorted|].
      intros c d Hc%Hs%Hwf Hd%Hs%Hwf. unfold key. split; [by apply xor_distance_inj | by intros ->]. }
    revert Hsub. induction Hk as [|c cs Hcs IH Hall]; intros Hsub; constructor.
    - apply IH. set_solver.
    - rewrite Forall_forall in *. intros d Hd. specialize (Hall d Hd).
      unfold key in Hall. rewrite distance_cmp in Hall by (done || apply Hsub; set_solver).
      by apply N.compare_lt_iff. }
  assert (Hcov : forall c, c ∈ values -> exists d, d ∈ uniq /\ contact_id d = contact_id c).
  { intros c Hc%Hs. by apply dedup_by_key_covers. }
  assert (Hus : forall c, c ∈ uniq -> c ∈ values).
  { intros c Hc. apply Hs. eapply elem_of_sublist; [done | apply dedup_by_key_sublist]. }
  rewrite <- (take_drop (N.to_nat limit) uniq) in Hstrict, Hcov.
  apply StronglySorted_app in Hstrict as (Hcross & Htake & _).
  split.
  - unfold len. rewrite length_take. lia.
  - clear -Htake. induction Htake as [|c cs Hcs IH Hall]; cbn; [constructor|].
    constructor; [|done]. intros (d & Hid & Hd)%list_elem_of_fmap.
    rewrite Forall_forall in Hall. specialize (Hall d Hd). rewrite Hid in Hall. lia.
  - done.
  - intros c Hc. apply Hval, Hus. eapply elem_of_sublist; [done | apply sublist_take].
  - intros c Hc He. destruct (Hcov c) as (d & [Hd|Hd]%elem_of_app & Hid); [by apply Hval|..].
    + left. rewrite <- Hid. by apply list_elem_of_fmap_2.
    + right. split.
      * unfold len. rewrite length_take. destruct (decide (length uniq <= N.to_nat limit)%nat) as [Hle|]; [|lia].
        rewrite drop_ge in Hd by done. by apply not_elem_of_nil in Hd.
      * intros e He'. rewrite <- Hid. by apply Hcross.
Qed.

(** ** The record store: invariant *)

(** The records of a key: filed under their own key, one per owner, bounded. *)
Record entry_ok (max_per_key : N) (k : store_key) (values : list DhtRecord) : Prop := {
  entry_keyed : Forall (fun r => (r.(DhtRecord_namespace), r.(DhtRecord_key)) = k) values;
  entry_owners : NoDup (DhtRecord_owner <$> values);
  entry_bounded : len values <= max_per_key
}.

Definition entries_ok (max_per_key : N) (m : BTreeMap store_key (list DhtRecord)) : Prop :=
  bt_wf m /\ forall k values, (k, values) ∈ m -> entry_ok max_per_key k values.

Record store_ok (self : DhtStore) : Prop := {
  store_entries : entries_ok self.(DhtStore_max_records_per_key) self.(DhtStore_records);
  store_total : total_records self.(DhtStore_records) <= self.(DhtStore_max_records);
  store_per_key_positive : 0 < self.(DhtStore_max_records_per_key)
}.

Inductive store_step : DhtStore -> DhtStore -> Prop :=
  | step_put self record now : store_step self (DhtStore_put self record now).2
  | step_get self namespace key now : store_step self (DhtStore_get self namespace key now).2
  | step_get_diverse self namespace key now limit :
      store_step self (DhtStore_get_diverse self namespace key now limit).2
  | step_store_expire self now : store_step self (DhtStore_expire self now).

Inductive store_reachable (max_records max_per_key : N) : DhtStore -> Prop :=
  | reach_store_new : store_reachable max_records max_per_key (DhtStore_new max_records max_per_key)
  | reach_store_step self self' : store_reachable max_records max_per_key self ->
      store_step self self' -> store_reachable max_records max_per_key self'.

(** *** Counting records *)
Lemma total_cons k vs (m : BTreeMap store_key (list DhtRecord)) :
  total_records ((k, vs) :: m) = len vs + total_records m.
Proof. done. Qed.

Lemma total_insert k vs m :
  bt_wf m ->
  total_records (bt_insert k vs m) + len (default [] (bt_get k m)) = total_records m + len vs.
Proof.
  induction 1 as [|[k0 v0] m Hm IH Hall].
  - cbn [bt_insert]. rewrite total_cons. change (len (default [] (bt_get k []))) with 0. lia.
  - cbn [bt_insert bt_get]. destruct (cmp k k0) eqn:E; rewrite !total_cons; cbn -[len total_records N.add].
    + lia.
    + assert (bt_get k m = None) as ->; [|cbn -[len total_records N.add]; change (len (@nil DhtRecord)) with 0; lia].
      apply bt_get_None. intros v Hin. rewrite Forall_forall in Hall.
      specialize (Hall _ Hin). cbn in Hall. pose proof (cmp_trans _ _ _ E Hall) as Hbad.
      by apply cmp_lt_irrefl in Hbad.
    + lia.
Qed.

Lemma total_remove k m :
  total_records (bt_remove k m) + len (default [] (bt_get k m)) = total_records m.
Proof.
  induction m as [|[k0 v0] m IH]; [done|]. cbn [bt_remove bt_get].
  destruct (cmp k k0) eqn:E; rewrite ?total_cons; cbn -[len total_records N.add]; lia.
Qed.

Lemma elem_of_all_entries m k r :
  (k, r) ∈ all_entries m <-> exists values, (k, values) ∈ m /\ r ∈ values.
Proof.
  unfold all_entries. rewrite elem_of_concat. split.
  - intros (es & ([k' vs] & -> & Hin)%list_elem_of_fmap & (r' & [= -> ->] & Hr)%list_elem_of_fmap).
    by exists vs.
  - intros (vs & Hin & Hr). exists (pair k <$> vs). split.
    + apply list_elem_of_fmap. by exists (k, vs).
    + by apply list_elem_of_fmap_2.
Qed.

Lemma all_entries_nil m : all_entries m = [] -> total_records m = 0.
Proof.
  induction m as [|[k vs] m IH]; [done|]. rewrite total_cons.
  unfold all_entries. cbn -[total_records len].
  intros [Hv Hm]%app_eq_nil. apply fmap_nil_inv in Hv as ->. by rewrite IH.
Qed.

(** *** Preservation of the entries *)
Lemma entry_ok_perm max k vs vs' : entry_ok max k vs -> vs' ≡ₚ vs -> entry_ok max k vs'.
Proof.
  intros [Hk Ho Hb] Hp. split; [by rewrite Hp | by rewrite Hp | unfold len in *; by rewrite Hp].
Qed.

Lemma entry_ok_sublist max k vs vs' : entry_ok max k vs -> vs' `sublist_of` vs -> entry_ok max k vs'.
Proof.
  intros [Hk Ho Hb] Hs. split.
  - rewrite Forall_forall in *. eauto using elem_of_sublist.
  - eapply sublist_NoDup; [done|]. by apply fmap_sublist.
  - apply sublist_length in Hs. unfold len in *. lia.
Qed.

Lemma entries_ok_insert max k vs m :
  entries_ok max m -> entry_ok max k vs -> entries_ok max (bt_insert k vs m).
Proof.
  intros [Hwf Hm] Hv. split; [by apply bt_wf_insert|].
  intros k' vs' [[= -> ->]|Hin]%elem_of_bt_insert; auto.
Qed.

Lemma entries_ok_remove max k m : entries_ok max m -> entries_ok max (bt_remove k m).
Proof.
  intros [Hwf Hm]. split; [by apply bt_wf_remove|].
  intros k' vs' Hin%elem_of_bt_remove. auto.
Qed.

Lemma entries_ok_get max m k vs : entries_ok max m -> bt_get k m = Some vs -> entry_ok max k vs.
Proof. intros [_ Hm] Hg%bt_get_elem_of. auto. Qed.

Lemma entries_ok_expire max now m : entries_ok max m -> entries_ok max (expire_records now m).
Proof.
  intros [Hwf Hm]. split.
  - apply bt_wf_retain. clear Hm. induction Hwf as [|[k v] m Hm IH Hall]; cbn; constructor; [done|].
    rewrite Forall_forall in *. intros [k' v'] (p & Hp & Hin)%list_elem_of_fmap.
    specialize (Hall p Hin). destruct p. simplify_eq/=. done.
  - intros k vs [Hin _]%elem_of_bt_retain.
    apply list_elem_of_fmap in Hin as ([k' vs'] & [= -> ->] & Hin).
    eapply entry_ok_sublist; [by apply Hm | apply filter_sublist].
Qed.

Lemma expire_records_cons now k vs m :
  expire_records now ((k, vs) :: m) =
  if is_empty (List.filter (record_live now) vs) then expire_records now m
  else (k, List.filter (record_live now) vs) :: expire_records now m.
Proof. unfold expire_records, bt_retain. cbn. by destruct (is_empty _). Qed.

Lemma total_expire now m : total_records (expire_records now m) <= total_records m.
Proof.
  induction m as [|[k vs] m IH]; [done|]. rewrite expire_records_cons.
  pose proof (len_filter_le (record_live now) vs).
  destruct (is_empty _); rewrite ?total_cons; lia.
Qed.

(** *** The records of a key *)

Definition values_at (k : store_key) (m : BTreeMap store_key (list DhtRecord)) : list DhtRecord :=
  default [] (bt_get k m).

Lemma all_entries_values m k r : bt_wf m -> (k, r) ∈ all_entries m <-> r ∈ values_at k m.
Proof.
  intros Hwf. rewrite elem_of_all_entries. unfold values_at. split.
  - intros (vs & Hin & Hr). by rewrite (bt_elem_of_get _ _ _ Hwf Hin).
  - destruct (bt_get k m) as [vs|] eqn:Hg; cbn; [|by intros ?%not_elem_of_nil].
    intros Hr. exists vs. split; [by apply bt_get_elem_of | done].
Qed.

Lemma values_at_ok max k m : entries_ok max m -> entry_ok max k (values_at k m).
Proof.
  intros Hm. unfold values_at. destruct (bt_get k m) eqn:Hg; cbn; [by eapply entries_ok_get|].
  split; [constructor | constructor | unfold len; cbn; lia].
Qed.

Lemma values_at_insert_eq k vs m : values_at k (bt_insert k vs m) = vs.
Proof. unfold values_at. by rewrite bt_get_insert_eq. Qed.

Lemma values_at_insert_ne k k' vs m : k <> k' -> values_at k' (bt_insert k vs m) = values_at k' m.
Proof. intros. unfold values_at. by rewrite bt_get_insert_ne. Qed.

Lemma total_insert_values k vs m :
  bt_wf m -> total_records (bt_insert k vs m) + len (values_at k m) = total_records m + len vs.
Proof. apply total_insert. Qed.

(** *** Eviction *)

Definition without_owner (owner : NodeId) (values : list DhtRecord) : list DhtRecord :=
  match position (fun record => bool_decide (record.(DhtRecord_owner) = owner)) values with
  | Some index => remove_at index values
  | None => values
  end.

Lemma without_owner_perm values r :
  NoDup (DhtRecord_owner <$> values) -> r ∈ values ->
  values ≡ₚ r :: without_owner r.(DhtRecord_owner) values.
Proof.
  intros Hnd Hr. unfold without_owner. destruct (position _ values) as [i|] eqn:Hp.
  - apply position_Some in Hp as (x & Hx & Howner & Hperm). breflect.
    assert (x = r) as <-; [|done].
    eapply NoDup_fmap_eq; [exact Hnd | by eapply list_elem_of_lookup_2 | done | done].
  - by eapply position_None in Hp; [breflect|exact Hr].
Qed.

Lemma without_owner_sublist owner values : without_owner owner values `sublist_of` values.
Proof.
  unfold without_owner. destruct (position _ _); [|done].
  unfold remove_at. rewrite <- delete_take_drop. apply sublist_delete.
Qed.

Lemma evict_values max k owner m :
  entries_ok max m -> values_at k m <> [] ->
  entries_ok max (evict k owner m)
  /\ values_at k (evict k owner m) = without_owner owner (values_at k m)
  /\ (forall k', k <> k' -> values_at k' (evict k owner m) = values_at k' m)
  /\ total_records (evict k owner m) + len (values_at k m)
     = total_records m + len (without_owner owner (values_at k m)).
Proof.
  intros Hok Hne. pose proof Hok as [Hwf _].
  pose proof (values_at_ok _ k _ Hok) as Hv.
  pose proof (entry_ok_sublist _ _ _ _ Hv (without_owner_sublist owner _)) as Hv'.
  unfold evict. fold (without_owner owner). unfold values_at at 1 in Hne.
  destruct (bt_get k m) as [vs|] eqn:Hg; [|done].
  assert (Hvs : values_at k m = vs) by (unfold values_at; by rewrite Hg). rewrite Hvs in *.
  cbn zeta. change (match position _ vs with Some index => remove_at index vs | None => vs end)
    with (without_owner owner vs).
  destruct (is_empty (without_owner owner vs)) eqn:He.
  - assert (Hnil : without_owner owner vs = []) by (by destruct (without_owner owner vs)).
    pose proof (total_remove k m) as Ht. fold (values_at k m) in Ht. rewrite Hvs in Ht. rewrite Hnil.
    split_and!; [by apply entries_ok_remove|..].
    + unfold values_at. by rewrite bt_get_remove_eq.
    + intros k' Hk. unfold values_at. by rewrite bt_get_remove_ne.
    + rewrite Ht. by rewrite N.add_0_r.
  - pose proof (total_insert_values k (without_owner owner vs) m Hwf) as Ht. rewrite Hvs in Ht.
    split_and!; [by apply entries_ok_insert | apply values_at_insert_eq
                | intros; by apply values_at_insert_ne | done].
Qed.

(** Evicting a record that is there removes exactly that record. *)
Lemma evict_spec max k r m :
  entries_ok max m -> (k, r) ∈ all_entries m ->
  let m' := evict k r.(DhtRecord_owner) m in
  entries_ok max m'
  /\ total_records m' + 1 = total_records m
  /\ (forall e, e ∈ all_entries m' -> e ∈ all_entries m)
  /\ (forall e, e ∈ all_entries m -> e = (k, r) \/ e ∈ all_entries m').
Proof.
  intros Hok Hin m'. pose proof Hok as [Hwf _]. apply all_entries_values in Hin; [|done].
  pose proof (without_owner_perm _ _ (entry_owners _ _ _ (values_at_ok _ k _ Hok)) Hin) as Hperm.
  destruct (evict_values max k r.(DhtRecord_owner) m Hok) as (Hok' & Hk & Hother & Ht).
  { intros Hnil. rewrite Hnil in Hin. by apply not_elem_of_nil in Hin. }
  fold m' in Hok', Hk, Hother, Ht. pose proof Hok' as [Hwf' _]. split_and!; [done|..].
  - assert (len (values_at k m) = len (without_owner r.(DhtRecord_owner) (values_at k m)) + 1).
    { unfold len. rewrite Hperm at 1. cbn. lia. }
    lia.
  - intros [k' e]. rewrite !all_entries_values by done. destruct (decide (k = k')) as [<-|Hne].
    + rewrite Hk. intros He. rewrite Hperm. by right.
    + by rewrite Hother.
  - intros [k' e]. rewrite !all_entries_values by done. destruct (decide (k = k')) as [<-|Hne].
    + rewrite Hk, Hperm at 1. intros [->|?]%elem_of_cons; [by left | by right].
    + rewrite Hother by done. by right.
Qed.

(** The order in which records are given up. *)
Definition eviction_key (e : store_key * DhtRecord) : N * N :=
  (e.2.(DhtRecord_sequence), e.2.(DhtRecord_expires_at)).

(** With enough fuel the loop ends under the bound, and gives up the least records. *)
Lemma enforce_loop_spec max fuel bound m :
  entries_ok max m -> (N.to_nat (total_records m) <= fuel)%nat ->
  let m' := enforce_loop fuel bound m in
  entries_ok max m' /\ total_records m' <= bound
  /\ (total_records m <= bound -> m' = m)
  /\ (forall e, e ∈ all_entries m' -> e ∈ all_entries m)
  /\ (forall e e', e ∈ all_entries m -> e ∉ all_entries m' -> e' ∈ all_entries m' ->
        leb (eviction_key e) (eviction_key e') = true).
Proof.
  revert m; induction fuel as [|fuel IH]; intros m Hok Hf; cbn [enforce_loop].
  { split_and!; try done; lia. }
  destruct (bound <? total_records m) eqn:Hb; breflect.
  2:{ split_and!; try done; lia. }
  destruct (min_by_key _ _) as [[k r]|] eqn:Hmin.
  2:{ apply min_by_key_None, all_entries_nil in Hmin. lia. }
  apply min_by_key_Some in Hmin as [Hin Hleast].
  destruct (evict_spec max k r m Hok Hin) as (Hok1 & Ht1 & Hsub & Hcov).
  destruct (IH (evict k r.(DhtRecord_owner) m)) as (Hok2 & Ht2 & _ & Hsub2 & Hev); [done | lia |].
  split_and!; try done.
  - lia.
  - auto.
  - intros e e' He Hne He'. destruct (Hcov e He) as [->|He1]; [|by apply Hev].
    apply (Hleast e'). auto.
Qed.

(** *** Preservation by the operations *)
Lemma bt_get_fmap (f : list DhtRecord -> list DhtRecord) (k : store_key) m :
  bt_get k (prod_map id f <$> m) = f <$> bt_get k m.
Proof.
  induction m as [|[k0 v0] m IH]; [done|]. rewrite fmap_cons. cbn [prod_map fst snd bt_get id].
  destruct (cmp k (id k0)) eqn:E; unfold id in E; rewrite E; auto.
Qed.

Lemma bt_wf_fmap (f : list DhtRecord -> list DhtRecord) (m : BTreeMap store_key (list DhtRecord)) :
  bt_wf m -> bt_wf (prod_map id f <$> m).
Proof.
  intros Hwf. unfold bt_wf in *. eapply StronglySorted_fmap; [|done]. by intros [] [].
Qed.

Lemma values_at_expire now k m :
  bt_wf m -> values_at k (expire_records now m) = List.filter (record_live now) (values_at k m).
Proof.
  intros Hwf. unfold values_at, expire_records.
  rewrite bt_get_retain, bt_get_fmap by (by apply bt_wf_fmap).
  destruct (bt_get k m) as [vs|]; cbn; [|done]. by destruct (List.filter _ vs).
Qed.

Lemma enforce_total_bound_spec self now :
  entries_ok self.(DhtStore_max_records_per_key) self.(DhtStore_records) ->
  let m := expire_records now self.(DhtStore_records) in
  let self' := enforce_total_bound self now in
  entries_ok self.(DhtStore_max_records_per_key) self'.(DhtStore_records)
  /\ total_records self'.(DhtStore_records) <= self.(DhtStore_max_records)
  /\ (total_records m <= self.(DhtStore_max_records) -> self'.(DhtStore_records) = m)
  /\ (forall e, e ∈ all_entries self'.(DhtStore_records) -> e ∈ all_entries m)
  /\ (forall e e', e ∈ all_entries m -> e ∉ all_entries self'.(DhtStore_records) ->
        e' ∈ all_entries self'.(DhtStore_records) ->
        leb (eviction_key e) (eviction_key e') = true).
Proof.
  intros Hok. apply enforce_loop_spec; [by apply entries_ok_expire | done].
Qed.

Lemma expire_entries now m e :
  bt_wf m -> e ∈ all_entries (expire_records now m) <-> e ∈ all_entries m /\ record_live now e.2 = true.
Proof.
  intros Hwf. destruct e as [k r].
  assert (bt_wf (expire_records now m)) by (apply bt_wf_retain; by apply bt_wf_fmap).
  rewrite !all_entries_values, values_at_expire, elem_of_filter_b by done. done.
Qed.

Definition record_key (r : DhtRecord) : store_key := (r.(DhtRecord_namespace), r.(DhtRecord_key)).

Lemma entry_ok_snoc max k vs r :
  entry_ok max k vs -> record_key r = k -> r.(DhtRecord_owner) ∉ DhtRecord_owner <$> vs ->
  len vs < max -> entry_ok max k (vs ++ [r]).
Proof.
  intros [Hk Ho Hb] Hr Hnew Hlt. split.
  - apply Forall_app. split; [done | by apply Forall_singleton].
  - rewrite fmap_app. apply NoDup_app. split_and!; [done| |apply NoDup_singleton].
    intros o Hin ->%list_elem_of_singleton. done.
  - rewrite len_app, len_cons. change (len (@nil DhtRecord)) with 0. lia.
Qed.

Lemma replace_owner_spec r e vs :
  let same := fun item => bool_decide (item.(DhtRecord_owner) = r.(DhtRecord_owner)) in
  List.find same vs = Some e ->
  e ∈ vs /\ e.(DhtRecord_owner) = r.(DhtRecord_owner)
  /\ DhtRecord_owner <$> replace_first same r vs = DhtRecord_owner <$> vs
  /\ r ∈ replace_first same r vs
  /\ (forall x, x ∈ replace_first same r vs -> x = r \/ x ∈ vs).
Proof.
  intros same Hf. pose proof (List.find_some _ _ Hf) as [Hin Hsame]. unfold same in Hsame. breflect.
  split_and!; [by apply list_elem_of_In | done|..]; clear Hin; subst same.
  - induction vs as [|x vs IH]; cbn in *; [done|]. case_bool_decide as Hx; cbn; [by rewrite Hx|].
    by rewrite IH.
  - induction vs as [|x vs IH]; cbn in *; [done|]. case_bool_decide as Hx; [left | right; auto].
  - clear Hf. induction vs as [|y vs IH]; cbn; [set_solver|]. case_bool_decide; set_solver.
Qed.

Lemma entry_ok_replace max k r vs vs' :
  entry_ok max k vs -> record_key r = k ->
  DhtRecord_owner <$> vs' = DhtRecord_owner <$> vs ->
  (forall x, x ∈ vs' -> x = r \/ x ∈ vs) -> entry_ok max k vs'.
Proof.
  intros [Hk Ho Hb] Hr Hids Hin. split.
  - rewrite Forall_forall in *. intros x [->|?]%Hin; auto.
  - by rewrite Hids.
  - unfold len. by rewrite <- (length_fmap DhtRecord_owner vs'), Hids, length_fmap.
Qed.

(** What [put] does, by cases, in terms of the records of the key it writes. *)
Inductive put_result (self : DhtStore) (r : DhtRecord) (now : N) : bool -> DhtStore -> Prop :=
  | put_expired :
      r.(DhtRecord_expires_at) < now -> put_result self r now false self
  | put_refused vs :
      vs ≡ₚ values_at (record_key r) self.(DhtStore_records) -> vs <> [] ->
      put_result self r now false
        (with_records self (bt_insert (record_key r) vs self.(DhtStore_records)))
  | put_replaced e vs :
      now <= r.(DhtRecord_expires_at) ->
      e ∈ values_at (record_key r) self.(DhtStore_records) ->
      e.(DhtRecord_owner) = r.(DhtRecord_owner) -> e.(DhtRecord_sequence) < r.(DhtRecord_sequence) ->
      DhtRecord_owner <$> vs = DhtRecord_owner <$> values_at (record_key r) self.(DhtStore_records) ->
      r ∈ vs ->
      (forall x, x ∈ vs -> x = r \/ x ∈ values_at (record_key r) self.(DhtStore_records)) ->
      put_result self r now true
        (with_records self (bt_insert (record_key r) vs self.(DhtStore_records)))
  | put_added kept :
      now <= r.(DhtRecord_expires_at) ->
      kept ⊆+ values_at (record_key r) self.(DhtStore_records) ->
      len kept < self.(DhtStore_max_records_per_key) ->
      r.(DhtRecord_owner) ∉ DhtRecord_owner <$> values_at (record_key r) self.(DhtStore_records) ->
      put_result self r now true
        (enforce_total_bound
           (with_records self (bt_insert (record_key r) (kept ++ [r]) self.(DhtStore_records))) now).

Lemma DhtStore_put_cases self r now :
  store_ok self -> put_result self r now (DhtStore_put self r now).1 (DhtStore_put self r now).2.
Proof.
  intros [Hok _ Hpos]. unfold DhtStore_put. fold (record_key r).
  fold (values_at (record_key r) self.(DhtStore_records)).
  set (vs := values_at _ _).
  pose proof (entry_bounded _ _ _ (values_at_ok _ (record_key r) _ Hok)) as Hb. fold vs in Hb.
  destruct (_ <? now) eqn:Hexp; breflect; [by constructor|].
  destruct (List.find _ vs) as [e|] eqn:Hf.
  - destruct (replace_owner_spec r e vs Hf) as (He & Howner & Hids & Hin & Hsub).
    destruct (_ <=? _) eqn:Hseq; breflect.
    + apply put_refused; [done|]. fold vs. intros Hnil. rewrite Hnil in He. by apply not_elem_of_nil in He.
    + by eapply (put_replaced _ _ _ e).
  - assert (Hnew : r.(DhtRecord_owner) ∉ DhtRecord_owner <$> vs).
    { intros (x & Hx & Hin)%list_elem_of_fmap. apply list_elem_of_In in Hin.
      eapply List.find_none in Hf; [|exact Hin]. breflect. congruence. }
    destruct (_ <=? len vs) eqn:Hfull; breflect.
    + set (sorted := sort_by_key _ vs).
      assert (Hp : sorted ≡ₚ vs) by apply sort_by_key_perm.
      assert (Hne : sorted <> []).
      { intros Hnil. rewrite Hnil in Hp. apply Permutation_nil in Hp. rewrite Hp in Hfull.
        unfold len in Hfull. cbn in Hfull. lia. }
      destruct (match head sorted with Some _ => _ | None => _ end); [by apply put_refused|].
      apply put_added; try done.
      * fold vs. rewrite <- Hp. apply sublist_submseteq, sublist_drop.
      * unfold len in *. rewrite length_drop. rewrite <- Hp in Hb. destruct sorted; [done|]. cbn in *. lia.
    + by apply put_added.
Qed.

Lemma store_ok_new max_records max_per_key : store_ok (DhtStore_new max_records max_per_key).
Proof.
  split; cbn -[N.max].
  - split; [constructor | by intros ? ? ?%not_elem_of_nil].
  - unfold total_records, sum_len. cbn. lia.
  - lia.
Qed.

Lemma store_ok_same_len self k vs :
  store_ok self -> entry_ok self.(DhtStore_max_records_per_key) k vs ->
  len vs <= len (values_at k self.(DhtStore_records)) ->
  store_ok (with_records self (bt_insert k vs self.(DhtStore_records))).
Proof.
  intros [Hok Ht Hpos] Hvs Hl.
  split; cbn [with_records DhtStore_records DhtStore_max_records DhtStore_max_records_per_key];
    [by apply entries_ok_insert| |done].
  pose proof (total_insert_values k vs _ (proj1 Hok)). lia.
Qed.

Lemma entry_ok_added self r kept :
  store_ok self -> kept ⊆+ values_at (record_key r) self.(DhtStore_records) ->
  len kept < self.(DhtStore_max_records_per_key) ->
  r.(DhtRecord_owner) ∉ DhtRecord_owner <$> values_at (record_key r) self.(DhtStore_records) ->
  entries_ok self.(DhtStore_max_records_per_key)
    (bt_insert (record_key r) (kept ++ [r]) self.(DhtStore_records)).
Proof.
  intros [Hok _ _] Hk Hl Hnew. apply entries_ok_insert; [done|].
  pose proof (values_at_ok _ (record_key r) _ Hok) as Hv.
  assert (Hsub : DhtRecord_owner <$> kept ⊆+ DhtRecord_owner <$> values_at (record_key r) self.(DhtStore_records)).
  { apply fmap_submseteq, Hk. }
  apply entry_ok_snoc; [|done| |done].
  - destruct Hv as [Hkey Hown Hb]. split.
    + rewrite Forall_forall in *. intros x Hx. apply Hkey. by eapply elem_of_submseteq.
    + apply submseteq_Permutation in Hsub as (rest & Hp). rewrite Hp in Hown.
      by apply NoDup_app in Hown as [? _].
    + lia.
  - intros Hin. apply Hnew. by eapply elem_of_submseteq.
Qed.

Lemma DhtStore_put_ok self r now : store_ok self -> store_ok (DhtStore_put self r now).2.
Proof.
  intros Hs. pose proof Hs as [Hok Ht Hpos].
  pose proof (values_at_ok _ (record_key r) _ Hok) as Hv.
  destruct (DhtStore_put_cases self r now Hs) as
    [_|vs Hp _|e vs _ _ _ _ Hids _ Hsub|kept _ Hk Hl Hnew]; [done|..].
  - apply store_ok_same_len; [done | by eapply entry_ok_perm | unfold len; by rewrite Hp].
  - apply store_ok_same_len; [done | by eapply entry_ok_replace |].
    unfold len. by rewrite <- (length_fmap DhtRecord_owner vs), Hids, length_fmap.
  - pose proof (entry_ok_added self r kept Hs Hk Hl Hnew) as Hok'.
    destruct (enforce_total_bound_spec (with_records self
      (bt_insert (record_key r) (kept ++ [r]) self.(DhtStore_records))) now Hok') as (H1 & H2 & _).
    by split.
Qed.

Lemma DhtStore_get_ok self namespace key now :
  store_ok self -> store_ok (DhtStore_get self namespace key now).2.
Proof.
  intros Hs. unfold DhtStore_get. destruct (bt_get _ _) as [vs|] eqn:Hg; cbn; [|done].
  apply store_ok_same_len; [done| |].
  - eapply entry_ok_sublist; [|apply filter_sublist]. eapply entries_ok_get; [|exact Hg]. by destruct Hs.
  - unfold values_at. rewrite Hg. apply len_filter_le.
Qed.

Lemma store_step_ok self self' : store_ok self -> store_step self self' -> store_ok self'.
Proof.
  intros Hs Hstep. destruct Hstep as [self r now|self ns key now|self ns key now limit|self now].
  - by apply DhtStore_put_ok.
  - by apply DhtStore_get_ok.
  - unfold DhtStore_get_diverse. pose proof (DhtStore_get_ok self ns key now Hs).
    by destruct (DhtStore_get self ns key now).
  - destruct Hs as [Hok Ht Hpos].
    split; cbn [with_records DhtStore_expire DhtStore_records DhtStore_max_records
      DhtStore_max_records_per_key]; [by apply entries_ok_expire| |done].
    pose proof (total_expire now self.(DhtStore_records)). lia.
Qed.

Lemma store_step_limits self self' :
  store_step self self' ->
  self'.(DhtStore_max_records) = self.(DhtStore_max_records)
  /\ self'.(DhtStore_max_records_per_key) = self.(DhtStore_max_records_per_key).
Proof.
  intros [s r now|s ns key now|s ns key now limit|s now].
  - unfold DhtStore_put. cbn zeta. by repeat (dmatch; try done).
  - unfold DhtStore_get. by dmatch.
  - unfold DhtStore_get_diverse, DhtStore_get. by destruct (bt_get _ _).
  - done.
Qed.

Lemma store_reachable_ok max_records max_per_key self :
  store_reachable max_records max_per_key self ->
  store_ok self /\ self.(DhtStore_max_records) = N.max max_records 1
  /\ self.(DhtStore_max_records_per_key) = N.max max_per_key 1.
Proof.
  induction 1 as [|self self' _ (Hok & E1 & E2) Hstep].
  - split; [apply store_ok_new | done].
  - apply store_step_limits in Hstep as Hl. destruct Hl as [-> ->].
    split; [by eapply store_step_ok | done].
Qed.

(** Every entry after a [put] was there before or is the record put, which is then newer
    than what its owner had under that key. *)
Lemma put_entries self r now k x :
  store_ok self ->
  x ∈ values_at k (DhtStore_put self r now).2.(DhtStore_records) ->
  x ∈ values_at k self.(DhtStore_records)
  \/ (x = r /\ k = record_key r /\ forall e, e ∈ values_at k self.(DhtStore_records) ->
        e.(DhtRecord_owner) = r.(DhtRecord_owner) -> e.(DhtRecord_sequence) < r.(DhtRecord_sequence)).
Proof.
  intros Hs. pose proof Hs as [Hok _ _].
  assert (Hins : forall vs, x ∈ values_at k (bt_insert (record_key r) vs self.(DhtStore_records)) ->
            (k = record_key r /\ x ∈ vs) \/ x ∈ values_at k self.(DhtStore_records)).
  { intros vs. destruct (decide (k = record_key r)) as [->|Hne].
    - rewrite values_at_insert_eq. auto.
    - rewrite values_at_insert_ne by congruence. auto. }
  destruct (DhtStore_put_cases self r now Hs) as
    [_|vs Hp _|e vs _ He Ho Hseq Hids _ Hsub|kept _ Hk Hl Hnew]; [auto|..].
  - intros [[-> Hx]|]%Hins; [|auto]. left. by rewrite <- Hp.
  - intros [[-> Hx]|]%Hins; [|auto]. apply Hsub in Hx as [->|]; [|auto].
    right. split_and!; [done..|]. intros e' He' Ho'.
    assert (e' = e) as ->; [|done].
    pose proof (entry_owners _ _ _ (values_at_ok _ (record_key r) _ Hok)) as Hnd.
    eapply NoDup_fmap_eq; [exact Hnd | done | done | congruence].
  - pose proof (entry_ok_added self r kept Hs Hk Hl Hnew) as Hok'.
    edestruct (enforce_total_bound_spec (with_records self _) now Hok') as (H1 & _ & _ & Hsub & _).
    intros Hx. apply all_entries_values in Hx; [|exact (proj1 H1)].
    apply Hsub, expire_entries in Hx as [Hx _]; [|exact (proj1 Hok')].
    apply all_entries_values, Hins in Hx as [[-> Hx]|]; [|auto|exact (proj1 Hok')].
    apply elem_of_app in Hx as [Hx|Hx]; [left; by eapply elem_of_submseteq|].
    apply list_elem_of_singleton in Hx as ->. right. split_and!; [done..|].
    intros e He Ho. destruct Hnew. rewrite <- Ho. by apply list_elem_of_fmap_2.
Qed.

(** *** Source prefixes *)
Lemma victim_spec source bucket v :
  victim source bucket = Some v ->
  exists c, bucket !! v = Some c /\ address_prefix c <> source.
Proof.
  unfold victim. intros ([j c] & [Hin _]%min_by_key_Some & ->)%fmap_Some.
  apply elem_of_filter_b in Hin as [Hin Hs]. cbn in Hs. breflect.
  unfold enumerate in Hin. apply elem_of_lookup_imap in Hin as (j' & c' & [= -> ->] & Hj).
  by exists c'.
Qed.

Lemma replace_victim_sources source bucket v contact :
  victim (address_prefix contact) bucket = Some v ->
  same_source source (<[v := contact]> bucket)
  <= same_source source bucket + if address_prefix contact =? source then 1 else 0.
Proof.
  intros (c & Hc & _)%victim_spec. unfold same_source.
  rewrite (count_perm _ _ _ (insert_contacts_perm v contact bucket (lookup_lt_Some _ _ _ Hc))).
  rewrite count_snoc. apply delete_Permutation in Hc.
  rewrite (count_perm _ bucket _ Hc). unfold count at 2. cbn.
  fold (count (fun item => address_prefix item =? source) (delete v bucket)).
  destruct (address_prefix c =? source); rewrite ?len_cons; unfold count; lia.
Qed.

(** ** Theorems *)

(** The bucket of a contact is the binary logarithm of its XOR distance: the position
    of the first bit in which the identities differ. *)
Theorem bucket_index_is_log2 left right :
  id_wf left -> id_wf right -> bucket_index left right = N.log2 (distance left right).
Proof.
  intros Hl Hr. destruct (xor_distance_wf left right Hl Hr) as [Hlen Hb].
  apply bucket_index_from_log2; [done|]. unfold len. by rewrite Hlen.
Qed.

(** (C33) Whatever contacts are inserted, protected or expired, in whatever order, the
    table keeps its 256 buckets, every bucket holds at most [k] distinct foreign contacts
    of its own distance, and the two side lists stay within their limits. *)
Theorem routing_table_invariant local k limit self :
  id_wf local -> table_reachable local k limit self ->
  table_ok self /\ self.(DhtTable_local) = local /\ self.(DhtTable_k) = N.max k 1
  /\ self.(DhtTable_replacement_limit) = limit.
Proof. apply table_reachable_ok. Qed.

(** (C4) A query on a reachable table returns the closest live contacts: at most [limit],
    each identity once, nearest first, and a live contact is left out only when the answer
    is full of strictly nearer ones. *)
Theorem closest_returns_nearest local k cache self target limit now :
  id_wf local -> table_reachable local k cache self -> id_wf (target_id target) ->
  closest_ok self target limit now (DhtTable_closest self target limit now).
Proof.
  intros Hl Hr Ht. apply DhtTable_closest_ok; [|done].
  by destruct (table_reachable_ok _ _ _ _ Hl Hr).
Qed.

(** The diverse query answers from the same candidates, each identity once and as many
    as fit, and holds two contacts of one address prefix only when every candidate's prefix
    is represented. *)
Theorem closest_diverse_selects self target limit now :
  table_ok self -> id_wf (target_id target) ->
  diverse address_prefix contact_id limit
    (DhtTable_closest self target usize_max now)
    (DhtTable_closest_diverse self target limit now).
Proof.
  intros Hok Ht. apply diverse_selection.
  by destruct (DhtTable_closest_ok self target usize_max now Hok Ht).
Qed.

(** An insertion that reports success left the contact in the table, alive. *)
Theorem insert_true_stored self contact now self' :
  table_ok self -> DhtTable_insert self contact now = (true, self') ->
  contact ∈ table_contacts self' /\ now <= contact_expires_at contact.
Proof.
  intros Hok. unfold DhtTable_insert.
  destruct (_ || _) eqn:Hg; [done|]. breflect.
  pose proof (table_bucket_lookup self (contact_id contact) Hok) as Hi. cbn zeta in Hi.
  set (i := N.to_nat _) in *. set (bucket := nth i _ _) in *.
  assert (Hbucket : forall b, contact ∈ b -> contact ∈ table_contacts (with_bucket self i b)).
  { intros b Hb. apply elem_of_app. left. apply elem_of_concat. exists b. split; [|done].
    eapply (list_elem_of_lookup_2 _ i). apply list_lookup_insert_eq. by eapply lookup_lt_Some. }
  assert (Hrepl : forall s, add_replacement self contact = (true, s) -> contact ∈ table_contacts s).
  { intros s. unfold add_replacement. destruct (refresh _ _) as [[b items]|] eqn:Hr; [|by dmatch].
    intros [= -> <-]. apply refresh_Some in Hr as (_ & Hin & _).
    apply elem_of_app. right. apply elem_of_app. left. by apply Hin. }
  assert (Hvic : forall v, victim (address_prefix contact) bucket = Some v -> (v < length bucket)%nat).
  { intros v (c & Hc & _)%victim_spec. by eapply lookup_lt_Some. }
  intros Hins. split; [|lia].
  destruct (refresh contact self.(DhtTable_protected)) as [[b items]|] eqn:Hrp.
  { injection Hins as -> <-. apply refresh_Some in Hrp as (_ & Hin & _).
    apply elem_of_app. right. apply elem_of_app. right. by apply Hin. }
  destruct (refresh contact bucket) as [[b items]|] eqn:Hrb.
  { injection Hins as -> <-. apply refresh_Some in Hrb as (_ & Hin & _). auto. }
  destruct (_ <? _); [destruct (_ <? _)|destruct (_ <? _)]; auto.
  - injection Hins as <-. apply Hbucket. set_solver.
  - destruct (victim _ _) as [v|] eqn:Hv; [|auto]. injection Hins as <-. apply Hbucket.
    eapply (list_elem_of_lookup_2 _ v). apply list_lookup_insert_eq. by apply Hvic.
Qed.

(** (C34) In every reachable store each key holds at most [max_records_per_key] records, all
    filed under their own key and with distinct owners, and the whole store at most
    [max_records]. *)
Theorem record_store_invariant max_records max_per_key self :
  store_reachable max_records max_per_key self ->
  store_ok self /\ self.(DhtStore_max_records) = N.max max_records 1
  /\ self.(DhtStore_max_records_per_key) = N.max max_per_key 1.
Proof. apply store_reachable_ok. Qed.

(** A [put] never takes an owner back: what the store holds for an owner under a key
    afterwards has at least the sequence of what it held before. *)
Theorem put_sequence_monotone self record now k before after :
  store_ok self ->
  before ∈ values_at k self.(DhtStore_records) ->
  after ∈ values_at k (DhtStore_put self record now).2.(DhtStore_records) ->
  before.(DhtRecord_owner) = after.(DhtRecord_owner) ->
  before.(DhtRecord_sequence) <= after.(DhtRecord_sequence).
Proof.
  intros Hs Hb Ha Ho. destruct (put_entries _ _ _ _ _ Hs Ha) as [Ha'|(-> & _ & Hlt)].
  - assert (before = after) as ->; [|done].
    eapply (NoDup_fmap_eq DhtRecord_owner); [|done..].
    apply (entry_owners _ _ _ (values_at_ok _ k _ (store_entries _ Hs))).
  - specialize (Hlt _ Hb Ho). lia.
Qed.

(** A [put] that reports success on a store with room left the record stored. *)
Theorem put_true_stored self record now self' :
  store_ok self -> DhtStore_put self record now = (true, self') ->
  total_records self.(DhtStore_records) < self.(DhtStore_max_records) ->
  record ∈ values_at (record_key record) self'.(DhtStore_records).
Proof.
  intros Hs Hput Hroom. pose proof (DhtStore_put_cases self record now Hs) as Hc.
  rewrite Hput in Hc. cbn [fst snd] in Hc.
  inversion Hc as [|?|e vs ? ? ? ? ? Hin ? Hb Hself|kept Hnow Hk Hl Hnew Hb Hself]; subst.
  - cbn [with_records DhtStore_records]. by rewrite values_at_insert_eq.
  - pose proof (entry_ok_added self record kept Hs Hk Hl Hnew) as Hok'.
    edestruct (enforce_total_bound_spec (with_records self _) now Hok') as (_ & _ & Hsame & _ & _).
    cbn [with_records DhtStore_records DhtStore_max_records] in Hsame. rewrite Hsame.
    + rewrite values_at_expire, values_at_insert_eq by exact (proj1 Hok').
      apply elem_of_filter_b. split; [set_solver|]. unfold record_live. by apply N.leb_le.
    + eapply N.le_trans; [apply total_expire|].
      pose proof (total_insert_values (record_key record) (kept ++ [record]) _
        (proj1 (store_entries _ Hs))) as Ht.
      apply submseteq_length in Hk. unfold len in *. rewrite length_app in Ht. cbn [length] in Ht. lia.
Qed.

(** Enforcing the total bound terminates under it, and what is given up has the least
    (sequence, expiry) of the live records: no evicted record outranks a kept one. *)
Theorem eviction_gives_up_least self now :
  entries_ok self.(DhtStore_max_records_per_key) self.(DhtStore_records) ->
  let live := all_entries (DhtStore_expire self now).(DhtStore_records) in
  let kept := all_entries (enforce_total_bound self now).(DhtStore_records) in
  total_records (enforce_total_bound self now).(DhtStore_records) <= self.(DhtStore_max_records)
  /\ (forall e, e ∈ kept -> e ∈ live)
  /\ (forall e e', e ∈ live -> e ∉ kept -> e' ∈ kept ->
        leb (eviction_key e) (eviction_key e') = true).
Proof.
  intros Hok live kept.
  by destruct (enforce_total_bound_spec self now Hok) as (_ & Ht & _ & Hsub & Hev).
Qed.

(** A lookup answers with the live records of the key, newest sequence first, and the
    diverse lookup with a selection of them that repeats an owner prefix only when every
    prefix is represented. *)
Theorem store_lookup_spec self namespace key now limit :
  store_ok self ->
  let res := (DhtStore_get self namespace key now).1 in
  res ≡ₚ List.filter (record_live now) (values_at (namespace, key) self.(DhtStore_records))
  /\ StronglySorted (fun r s => s.(DhtRecord_sequence) <= r.(DhtRecord_sequence)) res
  /\ diverse (fun r => take 4 (NodeId_0 r.(DhtRecord_owner))) DhtRecord_owner limit res
       (DhtStore_get_diverse self namespace key now limit).1.
Proof.
  intros Hs res.
  set (live := List.filter (record_live now) (values_at (namespace, key) self.(DhtStore_records))).
  assert (Hres : res = sort_by_key (fun r => mkReverse r.(DhtRecord_sequence)) live).
  { subst res live. unfold DhtStore_get, values_at. by destruct (bt_get _ _). }
  assert (Hp : res ≡ₚ live) by (rewrite Hres; apply sort_by_key_perm).
  split_and!; [done|..].
  - pose proof (sort_by_key_sorted (fun r => mkReverse r.(DhtRecord_sequence)) live) as Hsort.
    rewrite <- Hres in Hsort. unfold key_sorted in Hsort. clear Hres Hp.
    induction Hsort as [|r rs Hrs IH Hall]; [constructor|]. constructor; [done|].
    rewrite Forall_forall in *. intros s Hin. specialize (Hall s Hin). revert Hall.
    unfold leb, cmp, Ord_Reverse, cmp, Ord_N. cbn.
    destruct (N.compare_spec s.(DhtRecord_sequence) r.(DhtRecord_sequence)); (done || lia).
  - assert (Hd : (DhtStore_get_diverse self namespace key now limit).1
      = fill DhtRecord_owner limit res
          (one_per_source (fun r => take 4 (NodeId_0 r.(DhtRecord_owner))) limit res [] [])).
    { subst res. unfold DhtStore_get_diverse. by destruct (DhtStore_get _ _ _ _). }
    rewrite Hd. apply diverse_selection. rewrite Hp. unfold live.
    eapply sublist_NoDup; [|apply fmap_sublist, filter_sublist].
    apply (entry_owners _ _ _ (values_at_ok _ (namespace, key) _ (store_entries _ Hs))).
Qed.

(** A contact new to the table is filed in a bucket only while its address prefix is
    rare there: afterwards the bucket holds at most four contacts of that prefix, or half of
    [k] once it is full, and no more of any other prefix. *)
Theorem new_contact_source_bound self contact now i b b' source :
  table_ok self ->
  refresh contact self.(DhtTable_protected) = None ->
  refresh contact (nth (N.to_nat (bucket_index self.(DhtTable_local) (contact_id contact)))
                     self.(DhtTable_buckets) []) = None ->
  self.(DhtTable_buckets) !! i = Some b ->
  (DhtTable_insert self contact now).2.(DhtTable_buckets) !! i = Some b' ->
  same_source source b' <= same_source source b
  \/ (source = address_prefix contact
      /\ same_source source b' <= N.max MAX_CONTACTS_PER_SOURCE_PREFIX (div_ceil self.(DhtTable_k) 2)).
Proof.
  intros Hok Hp Hb Hi Hi'. unfold DhtTable_insert in Hi'.
  pose proof (table_bucket_lookup self (contact_id contact) Hok) as Hl. cbn zeta in Hl.
  set (j := N.to_nat _) in *. set (bucket := nth j _ _) in *.
  assert (Hrepl : (add_replacement self contact).2.(DhtTable_buckets) !! i = Some b' ->
                  same_source source b' <= same_source source b).
  { unfold add_replacement. intros Ha. repeat dmatch_in Ha; cbn in Ha; simplify_eq; done. }
  assert (Hset : forall items, (with_bucket self j items).(DhtTable_buckets) !! i = Some b' ->
            (forall s, same_source s items
               <= same_source s bucket + if address_prefix contact =? s then 1 else 0) ->
            same_source (address_prefix contact) bucket + 1
              <= N.max MAX_CONTACTS_PER_SOURCE_PREFIX (div_ceil self.(DhtTable_k) 2) ->
            same_source source b' <= same_source source b
            \/ (source = address_prefix contact /\ same_source source b'
                  <= N.max MAX_CONTACTS_PER_SOURCE_PREFIX (div_ceil self.(DhtTable_k) 2))).
  { intros items Hit Hle Hbound. cbn in Hit. destruct (decide (j = i)) as [<-|Hne].
    - rewrite list_lookup_insert_eq in Hit by (by eapply lookup_lt_Some).
      injection Hit as <-. assert (b = bucket) as -> by congruence. specialize (Hle source).
      destruct (_ =? _) eqn:Heq; breflect; [subst source; right; split; [done | lia] | left; lia].
    - rewrite list_lookup_insert_ne in Hit by done. left. by assert (b' = b) as -> by congruence. }
  destruct (_ || _); [left; by assert (b' = b) as -> by (cbn in Hi'; congruence)|].
  rewrite Hp, Hb in Hi'. destruct (_ <? self.(DhtTable_k)); destruct (_ <? _) eqn:Hlt;
    try (left; by apply Hrepl); breflect.
  - apply (Hset (bucket ++ [contact])); [done| |unfold MAX_CONTACTS_PER_SOURCE_PREFIX in *; lia].
    intros s. unfold same_source. by rewrite count_snoc.
  - destruct (victim _ _) as [v|] eqn:Hv; [|left; by apply Hrepl].
    apply (Hset (<[v := contact]> bucket)); [done| |lia].
    intros s. by apply replace_victim_sources.
Qed.

(** ** Samples and witnesses *)

Definition sample_local : NodeId := mkNodeId (replicate 32 0).

(** An identity of bucket 255 and a contact of it. *)
Definition sample_id (n : N) : NodeId := mkNodeId (128 + n :: replicate 31 0).

Definition sample_contact (n : N) (announced_at : N) (address : string) : SignedAnnouncement :=
  mkSignedAnnouncement
    (mkPeerRecord (sample_id n) (replicate 32 n) [address] [] announced_at 1000 None) [].

Definition insert_all (self : DhtTable) (contacts : list SignedAnnouncement) : DhtTable :=
  foldl (fun self c => (DhtTable_insert self c 10).2) self contacts.

Lemma sample_id_wf n : n < 128 -> id_wf (sample_id n).
Proof.
  intros Hn. split; [done|]. constructor; [lia|]. by apply Forall_replicate.
Qed.

Lemma insert_all_reachable local k limit self contacts :
  Forall (fun c => id_wf (contact_id c)) contacts -> table_reachable local k limit self ->
  table_reachable local k limit (insert_all self contacts).
Proof.
  intros Hall. revert self. induction Hall as [|c cs Hc _ IH]; intros self Hr; cbn; [done|].
  apply IH. eapply reach_step; [done | by apply step_insert].
Qed.

Definition decimal (n : N) : string :=
  if n <? 10 then String (Ascii.ascii_of_N (48 + n)) ""
  else String (Ascii.ascii_of_N (48 + n / 10)) (String (Ascii.ascii_of_N (48 + n mod 10)) "").

(** Twenty peers of twenty networks, and the same peers announced again from one. *)
Definition scattered : list SignedAnnouncement :=
  (fun n => sample_contact n 1 ("10.0." +:+ decimal n +:+ ".1:4000")%string) <$> (N.of_nat <$> seq 0 20).

Definition gathered : list SignedAnnouncement :=
  (fun n => sample_contact n 2 ("10.9.9." +:+ decimal n +:+ ":4000")%string) <$> (N.of_nat <$> seq 0 20).

Definition captured : DhtTable :=
  insert_all (insert_all (DhtTable_new sample_local 20 32) scattered) gathered.

Lemma samples_wf : Forall (fun c => id_wf (contact_id c)) (scattered ++ gathered).
Proof.
  apply Forall_app. split; apply Forall_fmap, Forall_forall; intros n (m & -> & Hm)%list_elem_of_fmap;
    apply elem_of_seq in Hm; apply sample_id_wf; lia.
Qed.

Lemma sample_reachable : table_reachable sample_local 20 32 captured.
Proof.
  pose proof samples_wf as [Hs Hg]%Forall_app.
  by apply insert_all_reachable; [|apply insert_all_reachable; [|constructor]].
Qed.

(** The prefix limits only guard new identities: peers that are already in a bucket can
    all announce themselves again from one network, and fill the whole bucket with it. *)
Theorem refresh_escapes_source_bound :
  exists self bucket source,
    table_reachable sample_local 20 32 self
    /\ self.(DhtTable_buckets) !! 255%nat = Some bucket
    /\ len bucket = self.(DhtTable_k)
    /\ same_source source bucket = len bucket
    /\ N.max MAX_CONTACTS_PER_SOURCE_PREFIX (div_ceil self.(DhtTable_k) 2) < same_source source bucket.
Proof.
  exists captured, gathered, 657673. split.
  - apply sample_reachable.
  - vm_compute. by split_and!.
Qed.

Lemma bucket_index_is_log2_witness :
  bucket_index sample_local (sample_id 3) = N.log2 (distance sample_local (sample_id 3)).
Proof.
  apply (bucket_index_is_log2 sample_local (sample_id 3)).
  - split; [reflexivity | by apply Forall_replicate].
  - by apply sample_id_wf.
Defined.

Lemma sample_local_wf : id_wf sample_local.
Proof. split; [done | by apply Forall_replicate]. Qed.

Lemma routing_table_invariant_witness : table_ok captured.
Proof.
  apply (routing_table_invariant sample_local 20 32 captured);
    [apply sample_local_wf | apply sample_reachable].
Defined.

Definition sample_target : DhtKey := mkDhtKey (replicate 32 7).

Lemma sample_target_wf : id_wf (target_id sample_target).
Proof. split; [done | by apply Forall_replicate]. Qed.

Lemma closest_returns_nearest_witness :
  closest_ok captured sample_target 3 10 (DhtTable_closest captured sample_target 3 10).
Proof.
  apply (closest_returns_nearest sample_local 20 32 captured sample_target 3 10);
    [apply sample_local_wf | apply sample_reachable | apply sample_target_wf].
Defined.

Lemma captured_ok : table_ok captured.
Proof. apply (table_reachable_ok sample_local 20 32); [apply sample_local_wf | apply sample_reachable]. Qed.

Lemma closest_diverse_selects_witness :
  len (DhtTable_closest_diverse captured sample_target 5 10) = 5.
Proof.
  rewrite (diverse_len _ _ _ _ _
    (closest_diverse_selects captured sample_target 5 10 captured_ok sample_target_wf)).
  vm_compute. reflexivity.
Defined.

Definition fresh_table : DhtTable := DhtTable_new sample_local 20 32.

Lemma fresh_table_ok : table_ok fresh_table.
Proof. apply table_ok_new, sample_local_wf. Qed.

Definition sample_contact0 : SignedAnnouncement := sample_contact 1 1 "10.0.0.1:4000".

Lemma insert_true_stored_witness :
  sample_contact0 ∈ table_contacts (DhtTable_insert fresh_table sample_contact0 10).2.
Proof.
  apply (insert_true_stored fresh_table sample_contact0 10);
    [apply fresh_table_ok | vm_compute; reflexivity].
Defined.

Lemma new_contact_source_bound_witness :
  exists b', (DhtTable_insert fresh_table sample_contact0 10).2.(DhtTable_buckets) !! 255%nat = Some b'
  /\ (same_source 655360 b' <= 0 \/ 655360 = address_prefix sample_contact0
      /\ same_source 655360 b' <= N.max MAX_CONTACTS_PER_SOURCE_PREFIX (div_ceil 20 2)).
Proof.
  exists [sample_contact0]. split; [vm_compute; reflexivity|].
  apply (new_contact_source_bound fresh_table sample_contact0 10 255 [] [sample_contact0] 655360);
    [apply fresh_table_ok | vm_compute; reflexivity..].
Defined.

(** Records of three owners under one key, in a store of two records per key. *)
Definition sample_record (owner sequence : N) : DhtRecord :=
  mkDhtRecord DhtNamespace_Peer (mkDhtKey (replicate 32 5)) (sample_id owner) (replicate 32 owner)
    sequence 100 [] [].

Definition put_all (self : DhtStore) (records : list DhtRecord) : DhtStore :=
  foldl (fun self r => (DhtStore_put self r 10).2) self records.

Lemma put_all_reachable max max_per_key self records :
  store_reachable max max_per_key self -> store_reachable max max_per_key (put_all self records).
Proof.
  revert self; induction records as [|r rs IH]; intros self Hr; cbn; [done|].
  apply IH. eapply reach_store_step; [done | constructor].
Qed.

Definition sample_store : DhtStore :=
  put_all (DhtStore_new 8 2) [sample_record 1 4; sample_record 2 6].

Lemma sample_store_ok : store_ok sample_store.
Proof. apply (store_reachable_ok 8 2), put_all_reachable. constructor. Qed.

Lemma record_store_invariant_witness : store_ok (put_all sample_store [sample_record 3 5]).
Proof.
  apply (record_store_invariant 8 2). apply put_all_reachable, put_all_reachable. constructor.
Defined.

Lemma put_sequence_monotone_witness :
  (sample_record 1 4).(DhtRecord_sequence) <= (sample_record 1 9).(DhtRecord_sequence).
Proof.
  apply (put_sequence_monotone sample_store (sample_record 1 9) 10
           (record_key (sample_record 1 4)) (sample_record 1 4) (sample_record 1 9));
    [apply sample_store_ok | | | reflexivity].
  - apply contains_true. vm_compute. reflexivity.
  - apply contains_true. vm_compute. reflexivity.
Defined.

Lemma put_true_stored_witness :
  sample_record 3 5 ∈ values_at (record_key (sample_record 3 5))
    (DhtStore_put sample_store (sample_record 3 5) 10).2.(DhtStore_records).
Proof.
  apply (put_true_stored sample_store (sample_record 3 5) 10);
    [apply sample_store_ok | vm_compute; reflexivity | vm_compute; reflexivity].
Defined.

Lemma eviction_gives_up_least_witness :
  total_records (enforce_total_bound
    (mkDhtStore sample_store.(DhtStore_records) 1 2) 10).(DhtStore_records) <= 1.
Proof.
  apply (eviction_gives_up_least (mkDhtStore sample_store.(DhtStore_records) 1 2) 10).
  apply (store_entries _ sample_store_ok).
Defined.

Lemma store_lookup_spec_witness :
  (DhtStore_get sample_store DhtNamespace_Peer (mkDhtKey (replicate 32 5)) 10).1
  ≡ₚ [sample_record 1 4; sample_record 2 6].
Proof.
  rewrite (proj1 (store_lookup_spec sample_store DhtNamespace_Peer (mkDhtKey (replicate 32 5)) 10 1
    sample_store_ok)).
  vm_compute. reflexivity.
Defined.
