(* ===== verification/Trust.v ===== *)
(** * Evidence graph and trust decisions (crates/intelligence/src/trust.rs)

    [EvidenceGraph] keeps a bounded list of signed observations about peers, one per
    (issuer, subject, kind), and [decision] derives a local score and maturity from
    the live ones.  Signature verification (ed25519) and the serialization of the
    signed fields (postcard) are parameters.  The theorems show the bounds of the
    graph, that an issuer cannot roll back its own statement, and how far
    endorsements and reports by others can move a decision. *)

From Stdlib Require Import String ZArith NArith Lia.
From stdpp Require Import base tactics sets strings numbers list.
From S2P Require Import Prelude OrdMap Types Validation.
Local Open Scope N_scope.
Local Open Scope rust_scope.

(** The verification of [ed25519_dalek]: key bytes, message and signature bytes; false
    when the key or the signature does not parse. *)
Class Ed25519 := ed25519_verify : list N -> list N -> list N -> bool.

(** [postcard::to_allocvec] at the tuple of signed evidence fields. *)
Class EvidencePostcard := evidence_fields_to_allocvec :
  NodeId * list N * NodeId * EvidenceKind * N * N * N * list N -> result (list N) String.string.

Inductive SybilClaimLevel :=
  | SybilClaimLevel_Unmitigated
  | SybilClaimLevel_BasicDefenses
  | SybilClaimLevel_CaptureResistantUnderTestedModel
  | SybilClaimLevel_GlobalSolved.

Inductive IdentityMaturity :=
  | IdentityMaturity_New
  | IdentityMaturity_Observed
  | IdentityMaturity_Established
  | IdentityMaturity_TrustedLocally
  | IdentityMaturity_Degraded
  | IdentityMaturity_Quarantined.

#[export] Instance IdentityMaturity_eq_dec : EqDecision IdentityMaturity.
Proof. solve_decision. Defined.

Record TrustPolicy := mkTrustPolicy {
  TrustPolicy_max_evidence : N;
  TrustPolicy_max_clock_skew_seconds : N;
  TrustPolicy_max_endorsements_per_issuer : N;
  TrustPolicy_max_endorsement_depth : N;
  TrustPolicy_established_direct_successes : N;
  TrustPolicy_established_independent_issuers : N;
  TrustPolicy_trusted_direct_successes : N;
  TrustPolicy_trusted_independent_issuers : N;
  TrustPolicy_quarantine_negative_evidence : N;
  TrustPolicy_max_indirect_negative_influence : N;
  TrustPolicy_direct_observation_ttl_seconds : N
}.

Definition default_negative_threshold : N := 3.

Definition default_indirect_negative_limit : N := 8.

Definition default_direct_observation_ttl : N := 900.

Definition TrustPolicy_default : TrustPolicy :=
  {| TrustPolicy_max_evidence := 4096;
     TrustPolicy_max_clock_skew_seconds := 300;
     TrustPolicy_max_endorsements_per_issuer := 32;
     TrustPolicy_max_endorsement_depth := 1;
     TrustPolicy_established_direct_successes := 3;
     TrustPolicy_established_independent_issuers := 2;
     TrustPolicy_trusted_direct_successes := 5;
     TrustPolicy_trusted_independent_issuers := 3;
     TrustPolicy_quarantine_negative_evidence := default_negative_threshold;
     TrustPolicy_max_indirect_negative_influence := default_indirect_negative_limit;
     TrustPolicy_direct_observation_ttl_seconds := default_direct_observation_ttl |}.

Inductive TrustError :=
  | TrustError_Invalid (message : String.string)
  | TrustError_InvalidSignature.

Record TrustDecision := mkTrustDecision {
  TrustDecision_subject : NodeId;
  TrustDecision_score : N;
  TrustDecision_maturity : IdentityMaturity;
  TrustDecision_direct_successes : N;
  TrustDecision_direct_failures : N;
  TrustDecision_local_direct_successes : N;
  TrustDecision_local_direct_failures : N;
  TrustDecision_independent_issuers : N;
  TrustDecision_indirect_negative_reports : N;
  TrustDecision_endorsement_influence : N;
  TrustDecision_quarantined : bool;
  TrustDecision_accepted_evidence : N;
  TrustDecision_rejected_evidence : N;
  TrustDecision_reason : String.string
}.

Record EvidenceGraph := mkEvidenceGraph {
  EvidenceGraph_policy : TrustPolicy;
  EvidenceGraph_entries : list SignedEvidence;
  EvidenceGraph_rejected : N;
  EvidenceGraph_local_issuer : option NodeId
}.

Definition EvidenceGraph_new (policy : TrustPolicy) : result EvidenceGraph TrustError :=
  if (policy.(TrustPolicy_max_evidence) =? 0)
     || (policy.(TrustPolicy_max_endorsements_per_issuer) =? 0)
     || (policy.(TrustPolicy_max_endorsement_depth) =? 0)
     || (policy.(TrustPolicy_direct_observation_ttl_seconds) =? 0)
  then Err (TrustError_Invalid "trust bounds must be positive")
  else Ok {| EvidenceGraph_policy := policy;
             EvidenceGraph_entries := [];
             EvidenceGraph_rejected := 0;
             EvidenceGraph_local_issuer := None |}.

Definition with_local_issuer (self : EvidenceGraph) (issuer : NodeId) : EvidenceGraph :=
  {| EvidenceGraph_policy := self.(EvidenceGraph_policy);
     EvidenceGraph_entries := self.(EvidenceGraph_entries);
     EvidenceGraph_rejected := self.(EvidenceGraph_rejected);
     EvidenceGraph_local_issuer := Some issuer |}.

Definition with_entries (self : EvidenceGraph) (entries : list SignedEvidence) : EvidenceGraph :=
  {| EvidenceGraph_policy := self.(EvidenceGraph_policy);
     EvidenceGraph_entries := entries;
     EvidenceGraph_rejected := self.(EvidenceGraph_rejected);
     EvidenceGraph_local_issuer := self.(EvidenceGraph_local_issuer) |}.

(** [self.rejected = self.rejected.saturating_add(1)] *)
Definition count_rejected (self : EvidenceGraph) : EvidenceGraph :=
  {| EvidenceGraph_policy := self.(EvidenceGraph_policy);
     EvidenceGraph_entries := self.(EvidenceGraph_entries);
     EvidenceGraph_rejected := sat_add usize_max self.(EvidenceGraph_rejected) 1;
     EvidenceGraph_local_issuer := self.(EvidenceGraph_local_issuer) |}.

Definition is_negative (kind : EvidenceKind) : bool :=
  match kind with
  | EvidenceKind_ProtocolViolation | EvidenceKind_InvalidSignature | EvidenceKind_ReplayAttempt
  | EvidenceKind_Equivocation | EvidenceKind_CorruptArtifact | EvidenceKind_CorruptCheckpoint
  | EvidenceKind_CapabilityFailure | EvidenceKind_Timeout | EvidenceKind_DhtPoisoning
  | EvidenceKind_TrainingUpdateRejected => true
  | _ => false
  end.

Definition is_positive (kind : EvidenceKind) : bool :=
  match kind with
  | EvidenceKind_JobCompleted | EvidenceKind_Evaluation | EvidenceKind_ObservedOnline
  | EvidenceKind_ArtifactVerified => true
  | _ => false
  end.

(** [matches!(kind, JobCompleted | Evaluation | ArtifactVerified)] *)
Definition is_success (kind : EvidenceKind) : bool :=
  match kind with
  | EvidenceKind_JobCompleted | EvidenceKind_Evaluation | EvidenceKind_ArtifactVerified => true
  | _ => false
  end.

(** [!matches!(kind, Endorsement | ViolationReport)] *)
Definition is_direct (kind : EvidenceKind) : bool :=
  match kind with
  | EvidenceKind_Endorsement | EvidenceKind_ViolationReport => false
  | _ => true
  end.

(** [existing.issuer == evidence.issuer && ...subject && ...kind] *)
Definition same_statement (existing evidence : SignedEvidence) : bool :=
  (existing.(SignedEvidence_issuer) == evidence.(SignedEvidence_issuer))
  && (existing.(SignedEvidence_subject) == evidence.(SignedEvidence_subject))
  && (existing.(SignedEvidence_kind) == evidence.(SignedEvidence_kind)).

(** The index of the entry to give up. *)
Definition oldest_entry (entries : list SignedEvidence) : nat :=
  default 0%nat (fst <$> min_by_key
    (fun p => (p.2.(SignedEvidence_expires_at), p.2.(SignedEvidence_observed_at),
               p.2.(SignedEvidence_sequence))) (enumerate entries)).

Section Trust.
Context `{Blake3} `{Ed25519} `{EvidencePostcard}.

Definition evidence_signing_bytes (evidence : SignedEvidence) : result (list N) TrustError :=
  map_err TrustError_Invalid
    (evidence_fields_to_allocvec
       (evidence.(SignedEvidence_issuer), evidence.(SignedEvidence_issuer_public_key),
        evidence.(SignedEvidence_subject), evidence.(SignedEvidence_kind),
        evidence.(SignedEvidence_sequence), evidence.(SignedEvidence_observed_at),
        evidence.(SignedEvidence_expires_at), evidence.(SignedEvidence_payload))).

Definition verify_signed_evidence (evidence : SignedEvidence) : bool :=
  if is_err (SignedEvidence_validate evidence)
     || (evidence.(SignedEvidence_issuer)
         != NodeId_from_public_key evidence.(SignedEvidence_issuer_public_key))
  then false
  else match evidence_signing_bytes evidence with
       | Err _ => false
       | Ok bytes => ed25519_verify evidence.(SignedEvidence_issuer_public_key) bytes
                       evidence.(SignedEvidence_signature)
       end.

Definition EvidenceGraph_insert (self : EvidenceGraph) (evidence : SignedEvidence) (now : N)
    : result bool TrustError * EvidenceGraph :=
  if is_err (SignedEvidence_validate evidence)
     || (evidence.(SignedEvidence_expires_at) <? now)
     || (sat_add u64_max now self.(EvidenceGraph_policy).(TrustPolicy_max_clock_skew_seconds)
         <? evidence.(SignedEvidence_observed_at))
     || negb (verify_signed_evidence evidence)
  then (Err TrustError_InvalidSignature, count_rejected self)
  else
    let entries := self.(EvidenceGraph_entries) in
    match position (fun existing => same_statement existing evidence) entries with
    | Some index =>
        match entries !! index with
        | Some existing =>
            if evidence.(SignedEvidence_sequence) <=? existing.(SignedEvidence_sequence)
            then (Ok false, count_rejected self)
            else (Ok true, with_entries self (<[index := evidence]> entries))
        | None => (Ok false, self)
        end
    | None =>
        let entries :=
          if self.(EvidenceGraph_policy).(TrustPolicy_max_evidence) <=? len entries
          then remove_at (oldest_entry entries) entries else entries in
        (Ok true, with_entries self (entries ++ [evidence]))
    end.
End Trust.

Definition EvidenceGraph_expire (self : EvidenceGraph) (now : N) : EvidenceGraph :=
  with_entries self
    (List.filter (fun item => now <=? item.(SignedEvidence_expires_at))
       self.(EvidenceGraph_entries)).

(** [entries.filter(|item| item.subject == subject && item.expires_at >= now)] *)
Definition live_about (subject : NodeId) (now : N) (entries : list SignedEvidence)
    : list SignedEvidence :=
  List.filter (fun item => (item.(SignedEvidence_subject) == subject)
                           && (now <=? item.(SignedEvidence_expires_at))) entries.

(** The endorser has its own positive evidence, issued by somebody else. *)
Definition endorser_has_direct (entries : list SignedEvidence) (now : N) (issuer : NodeId) : bool :=
  existsb (fun candidate =>
    (candidate.(SignedEvidence_subject) == issuer)
    && (candidate.(SignedEvidence_issuer) != issuer)
    && (now <=? candidate.(SignedEvidence_expires_at))
    && is_positive candidate.(SignedEvidence_kind)) entries.

(** One round of the endorsement loop: the set of endorsers and the count accepted. *)
Definition accept_endorsement (self : EvidenceGraph) (subject : NodeId) (now : N)
    (acc : list NodeId * N) (item : SignedEvidence) : list NodeId * N :=
  let (endorsers, accepted) := acc in
  if (item.(SignedEvidence_issuer) == subject)
     || contains item.(SignedEvidence_issuer) endorsers
     || (self.(EvidenceGraph_policy).(TrustPolicy_max_endorsements_per_issuer) <=? len endorsers)
  then acc
  else if endorser_has_direct self.(EvidenceGraph_entries) now item.(SignedEvidence_issuer)
  then (item.(SignedEvidence_issuer) :: endorsers, sat_add usize_max accepted 1)
  else acc.

Definition accepted_endorsements (self : EvidenceGraph) (subject : NodeId) (now : N)
    (live : list SignedEvidence) : N :=
  (foldl (accept_endorsement self subject now) ([], 0)
     (List.filter (fun item => item.(SignedEvidence_kind) == EvidenceKind_Endorsement) live)).2.

Definition maturity_reason (maturity : IdentityMaturity) : String.string :=
  match maturity with
  | IdentityMaturity_New => "no independent direct evidence"
  | IdentityMaturity_Observed => "direct evidence exists but has not matured"
  | IdentityMaturity_Established => "bounded direct evidence from independent issuers"
  | IdentityMaturity_TrustedLocally => "local policy threshold satisfied"
  | IdentityMaturity_Degraded => "negative evidence outweighs positive evidence"
  | IdentityMaturity_Quarantined => "local quarantine policy is active"
  end.

Definition EvidenceGraph_decision (self : EvidenceGraph) (subject : NodeId) (now : N)
    : TrustDecision :=
  let policy := self.(EvidenceGraph_policy) in
  let live := live_about subject now self.(EvidenceGraph_entries) in
  let direct := List.filter (fun item => is_direct item.(SignedEvidence_kind)) live in
  let direct_successes := count (fun item => is_success item.(SignedEvidence_kind)) direct in
  let direct_failures := count (fun item => is_negative item.(SignedEvidence_kind)) direct in
  let is_local item := match self.(EvidenceGraph_local_issuer) with
                       | None => true
                       | Some issuer => item.(SignedEvidence_issuer) == issuer
                       end in
  let local_direct_successes :=
    count (fun item => is_local item && is_success item.(SignedEvidence_kind)) direct in
  let local_direct_failures :=
    count (fun item => is_local item && is_negative item.(SignedEvidence_kind)) direct in
  let indirect_negative_reports :=
    N.min (count (fun item => item.(SignedEvidence_kind) == EvidenceKind_ViolationReport) live)
      policy.(TrustPolicy_max_indirect_negative_influence) in
  let independent_issuers :=
    len (remove_dups (List.filter (fun issuer => issuer != subject)
                        (SignedEvidence_issuer <$> direct))) in
  let accepted_endorsements := accepted_endorsements self subject now live in
  let remote_direct_successes := sat_sub direct_successes local_direct_successes in
  let remote_direct_failures := sat_sub direct_failures local_direct_failures in
  let mul := sat_mul usize_max in
  let add := sat_add usize_max in
  let positive_score :=
    add (add (add (mul local_direct_successes 15) (mul remote_direct_successes 5))
           (mul independent_issuers 10))
      (mul accepted_endorsements 3) in
  let negative_score :=
    add (add (mul local_direct_failures 20) (mul remote_direct_failures 5))
      (mul indirect_negative_reports 2) in
  let score := trunc u8_max (N.min (sat_sub positive_score negative_score) 100) in
  let quarantined := policy.(TrustPolicy_quarantine_negative_evidence) <=? direct_failures in
  let maturity :=
    if quarantined then IdentityMaturity_Quarantined
    else if (positive_score <? negative_score) && ((0 <? direct_failures) || (0 <? direct_successes))
    then IdentityMaturity_Degraded
    else if (policy.(TrustPolicy_trusted_direct_successes) <=? direct_successes)
            && (policy.(TrustPolicy_trusted_independent_issuers) <=? independent_issuers)
    then IdentityMaturity_TrustedLocally
    else if (policy.(TrustPolicy_established_direct_successes) <=? direct_successes)
            && (policy.(TrustPolicy_established_independent_issuers) <=? independent_issuers)
    then IdentityMaturity_Established
    else if negb (is_empty direct) then IdentityMaturity_Observed
    else IdentityMaturity_New in
  {| TrustDecision_subject := subject;
     TrustDecision_score := score;
     TrustDecision_maturity := maturity;
     TrustDecision_direct_successes := direct_successes;
     TrustDecision_direct_failures := direct_failures;
     TrustDecision_local_direct_successes := local_direct_successes;
     TrustDecision_local_direct_failures := local_direct_failures;
     TrustDecision_independent_issuers := independent_issuers;
     TrustDecision_indirect_negative_reports := indirect_negative_reports;
     TrustDecision_endorsement_influence := accepted_endorsements;
     TrustDecision_quarantined := quarantined;
     TrustDecision_accepted_evidence := add (len direct) accepted_endorsements;
     TrustDecision_rejected_evidence := self.(EvidenceGraph_rejected);
     TrustDecision_reason := maturity_reason maturity |}.

Definition sybil_claim_level (self : EvidenceGraph) : SybilClaimLevel :=
  SybilClaimLevel_BasicDefenses.

(** ** Invariant of the graph *)

Definition statement (e : SignedEvidence) : NodeId * NodeId * EvidenceKind :=
  (e.(SignedEvidence_issuer), e.(SignedEvidence_subject), e.(SignedEvidence_kind)).

Lemma same_statement_true e e' : same_statement e e' = true <-> statement e = statement e'.
Proof.
  unfold same_statement, statement. rewrite !andb_true_iff, !bool_decide_eq_true. split.
  - intros [[E1 E2] E3]. congruence.
  - intros E. by injection E as E1 E2 E3.
Qed.

Lemma elem_of_remove_at {A} i (xs : list A) x : x ∈ remove_at i xs -> x ∈ xs.
Proof.
  unfold remove_at. rewrite <- delete_take_drop. intros Hx.
  eapply elem_of_sublist; [exact Hx | apply sublist_delete].
Qed.

Lemma elem_of_list_insert {A} (i : nat) (x : A) (xs : list A) y : y ∈ <[i := x]> xs -> y = x \/ y ∈ xs.
Proof.
  intros (j & Hj)%list_elem_of_lookup. apply list_lookup_insert_Some in Hj as [(_ & <- & _)|[_ Hj]].
  - by left.
  - right. by eapply list_elem_of_lookup_2.
Qed.

Section TrustFacts.
Context `{Blake3} `{Ed25519} `{EvidencePostcard}.

(** Bounded, one entry per statement, every entry carries a valid signature. *)
Record graph_ok (self : EvidenceGraph) : Prop := {
  graph_positive : 0 < self.(EvidenceGraph_policy).(TrustPolicy_max_evidence);
  graph_bounded : len self.(EvidenceGraph_entries)
                  <= self.(EvidenceGraph_policy).(TrustPolicy_max_evidence);
  graph_nodup : NoDup (statement <$> self.(EvidenceGraph_entries));
  graph_verified : Forall (fun e => verify_signed_evidence e = true) self.(EvidenceGraph_entries)
}.

Inductive graph_reachable (policy : TrustPolicy) : EvidenceGraph -> Prop :=
  | graph_reach_new g : EvidenceGraph_new policy = Ok g -> graph_reachable policy g
  | graph_reach_local g issuer : graph_reachable policy g ->
      graph_reachable policy (with_local_issuer g issuer)
  | graph_reach_insert g e now : graph_reachable policy g ->
      graph_reachable policy (EvidenceGraph_insert g e now).2
  | graph_reach_expire g now : graph_reachable policy g ->
      graph_reachable policy (EvidenceGraph_expire g now).

Lemma graph_ok_sub g entries :
  graph_ok g -> entries `sublist_of` g.(EvidenceGraph_entries) -> graph_ok (with_entries g entries).
Proof.
  intros [Hp Hb Hn Hv] Hs. split; cbn; [done|..].
  - apply sublist_length in Hs. unfold len in *. lia.
  - eapply sublist_NoDup; [done|]. by apply fmap_sublist.
  - rewrite Forall_forall in *. eauto using elem_of_sublist.
Qed.

Lemma graph_ok_rejected g : graph_ok g -> graph_ok (count_rejected g).
Proof. intros []. by split. Qed.

Lemma insert_statements (entries : list SignedEvidence) i e e' :
  entries !! i = Some e' -> statement e' = statement e ->
  statement <$> <[i := e]> entries = statement <$> entries.
Proof.
  intros Hi Hs. rewrite list_fmap_insert. apply list_insert_id.
  rewrite list_lookup_fmap, Hi. cbn. by rewrite Hs.
Qed.

(** What an insertion does, by cases. *)
Inductive insert_result (g : EvidenceGraph) (e : SignedEvidence)
    : result bool TrustError -> EvidenceGraph -> Prop :=
  | insert_rejected : insert_result g e (Err TrustError_InvalidSignature) (count_rejected g)
  | insert_stale e' : e' ∈ g.(EvidenceGraph_entries) -> statement e' = statement e ->
      e.(SignedEvidence_sequence) <= e'.(SignedEvidence_sequence) ->
      insert_result g e (Ok false) (count_rejected g)
  | insert_update i e' : verify_signed_evidence e = true ->
      g.(EvidenceGraph_entries) !! i = Some e' -> statement e' = statement e ->
      e'.(SignedEvidence_sequence) < e.(SignedEvidence_sequence) ->
      insert_result g e (Ok true) (with_entries g (<[i := e]> g.(EvidenceGraph_entries)))
  | insert_new entries : verify_signed_evidence e = true ->
      entries `sublist_of` g.(EvidenceGraph_entries) ->
      (0 < g.(EvidenceGraph_policy).(TrustPolicy_max_evidence) ->
       len g.(EvidenceGraph_entries) <= g.(EvidenceGraph_policy).(TrustPolicy_max_evidence) ->
       len entries < g.(EvidenceGraph_policy).(TrustPolicy_max_evidence)) ->
      statement e ∉ statement <$> g.(EvidenceGraph_entries) ->
      insert_result g e (Ok true) (with_entries g (entries ++ [e])).

Lemma oldest_entry_lt entries : entries <> [] -> (oldest_entry entries < length entries)%nat.
Proof.
  intros Hne. unfold oldest_entry. destruct (min_by_key _ _) as [[i e]|] eqn:Hm; cbn.
  - apply min_by_key_Some in Hm as [Hin _]. unfold enumerate in Hin.
    apply elem_of_lookup_imap in Hin as (i' & e' & [= -> ->] & Hi). by eapply lookup_lt_Some.
  - destruct entries; [done | cbn; lia].
Qed.

Lemma EvidenceGraph_insert_cases g e now :
  insert_result g e (EvidenceGraph_insert g e now).1 (EvidenceGraph_insert g e now).2.
Proof.
  unfold EvidenceGraph_insert. destruct (_ || _) eqn:Hg; [constructor|]. breflect.
  destruct (position _ _) as [i|] eqn:Hp.
  - apply position_Some in Hp as (e' & Hi & Hs & _). rewrite same_statement_true in Hs. rewrite Hi.
    destruct (_ <=? _) eqn:Hseq; breflect; cbn.
    + eapply insert_stale; [by eapply list_elem_of_lookup_2 | done | done].
    + by eapply insert_update.
  - cbn. assert (Hnew : statement e ∉ statement <$> g.(EvidenceGraph_entries)).
    { intros (x & Hx & Hin)%list_elem_of_fmap.
      pose proof (position_None _ _ Hp x Hin) as Hf. cbn in Hf.
      assert (same_statement x e = true) by (by apply same_statement_true). congruence. }
    apply insert_new; [done| | |done].
    + dmatch; [|done]. unfold remove_at. rewrite <- delete_take_drop. apply sublist_delete.
    + intros Hpos Hle. destruct (_ <=? _) eqn:Hfull; breflect; [|done].
      assert (Hne : g.(EvidenceGraph_entries) <> []).
      { intros Hnil. rewrite Hnil in Hfull. unfold len in Hfull. cbn in Hfull. lia. }
      apply oldest_entry_lt in Hne. unfold len in *. unfold remove_at.
      rewrite <- delete_take_drop, length_delete; [lia|].
      by apply lookup_lt_is_Some.
Qed.

Lemma graph_ok_insert g e now : graph_ok g -> graph_ok (EvidenceGraph_insert g e now).2.
Proof.
  intros Hok. pose proof Hok as [Hp Hb Hn Hv].
  destruct (EvidenceGraph_insert_cases g e now) as
    [|e' _ _ _|i e' Hver Hi Hs Hlt|entries Hver Hsub Hlen Hnew]; auto using graph_ok_rejected.
  - split; cbn; [done| |by erewrite insert_statements|by apply Forall_insert].
    unfold len in *. by rewrite length_insert.
  - destruct (graph_ok_sub g entries Hok Hsub) as [_ _ Hn' Hv']. cbn in *. split; cbn; [done|..].
    + rewrite len_app, len_cons. change (len (@nil SignedEvidence)) with 0. specialize (Hlen Hp Hb). lia.
    + rewrite fmap_app. apply NoDup_app. split_and!; [done| |apply NoDup_singleton].
      intros s Hin ->%list_elem_of_singleton. apply Hnew.
      eapply elem_of_sublist; [exact Hin | by apply fmap_sublist].
    + apply Forall_app. split; [done | by apply Forall_singleton].
Qed.

Lemma graph_reachable_ok policy g :
  graph_reachable policy g -> graph_ok g /\ g.(EvidenceGraph_policy) = policy.
Proof.
  induction 1 as [g Hn|g issuer _ [IH Hp]|g e now _ [IH Hp]|g now _ [IH Hp]].
  - unfold EvidenceGraph_new in Hn. destruct (_ || _) eqn:Hz; [done|]. breflect.
    injection Hn as <-. split; [|done]. split; cbn; [lia | unfold len; cbn; lia | constructor..].
  - split; [|done]. by destruct IH; split.
  - split; [by apply graph_ok_insert|]. rewrite <- Hp.
    by destruct (EvidenceGraph_insert_cases g e now).
  - split; [|done]. apply graph_ok_sub; [done | apply filter_sublist].
Qed.

(** Whatever evidence arrives, the graph stays within its bound, holds one entry per
    (issuer, subject, kind), and only entries whose signature verifies. *)
Theorem evidence_graph_invariant policy g :
  graph_reachable policy g -> graph_ok g /\ g.(EvidenceGraph_policy) = policy.
Proof. apply graph_reachable_ok. Qed.

(** An issuer's statement never goes back in sequence, and an insertion that reports
    [true] left the evidence in the graph. *)
Theorem evidence_insert_monotone g e now :
  graph_ok g ->
  (forall before after, before ∈ g.(EvidenceGraph_entries) ->
     after ∈ (EvidenceGraph_insert g e now).2.(EvidenceGraph_entries) ->
     statement before = statement after ->
     before.(SignedEvidence_sequence) <= after.(SignedEvidence_sequence))
  /\ ((EvidenceGraph_insert g e now).1 = Ok true ->
      e ∈ (EvidenceGraph_insert g e now).2.(EvidenceGraph_entries)).
Proof.
  intros Hok. pose proof (graph_nodup _ Hok) as Hn.
  assert (Hsame : forall x y, x ∈ g.(EvidenceGraph_entries) -> y ∈ g.(EvidenceGraph_entries) ->
            statement x = statement y -> x.(SignedEvidence_sequence) <= y.(SignedEvidence_sequence)).
  { intros x y Hx Hy Hs. by rewrite (NoDup_fmap_eq statement _ x y Hn Hx Hy Hs). }
  destruct (EvidenceGraph_insert_cases g e now) as
    [|e' _ _ _|i e' Hver Hi Hs Hlt|entries Hver Hsub Hlen Hnew]; (split; [|cbn; try done]).
  - exact Hsame.
  - exact Hsame.
  - intros x y Hx Hy Hst. cbn in Hy. apply elem_of_list_insert in Hy as [->|Hy]; [|by apply Hsame].
    assert (x = e') as ->; [|lia].
    eapply NoDup_fmap_eq; [exact Hn | done | by eapply list_elem_of_lookup_2 | congruence].
  - intros _. eapply (list_elem_of_lookup_2 _ i), list_lookup_insert_eq. by eapply lookup_lt_Some.
  - intros x y Hx Hy Hst. cbn in Hy. apply elem_of_app in Hy as [Hy|Hy].
    + apply Hsame; [done | by eapply elem_of_sublist | done].
    + apply list_elem_of_singleton in Hy as ->. destruct Hnew. rewrite <- Hst.
      by apply list_elem_of_fmap_2.
  - intros _. set_solver.
Qed.
End TrustFacts.

(** ** What moves a decision *)

(** A live statement of the graph about [subject]. *)
Definition live_entry (g : EvidenceGraph) (now : N) (subject : NodeId) (e : SignedEvidence) : Prop :=
  e ∈ g.(EvidenceGraph_entries) /\ e.(SignedEvidence_subject) = subject
  /\ now <= e.(SignedEvidence_expires_at).

(** A peer with positive evidence issued by somebody else. *)
Definition vouched (g : EvidenceGraph) (now : N) (peer : NodeId) : Prop :=
  exists c, live_entry g now peer c /\ c.(SignedEvidence_issuer) <> peer
            /\ is_positive c.(SignedEvidence_kind) = true.

Lemma elem_of_live_about g now subject e :
  e ∈ live_about subject now g.(EvidenceGraph_entries) <-> live_entry g now subject e.
Proof.
  unfold live_about, live_entry. rewrite elem_of_filter_b, andb_true_iff, bool_decide_eq_true, N.leb_le.
  naive_solver.
Qed.

Lemma endorser_has_direct_true g now peer :
  endorser_has_direct g.(EvidenceGraph_entries) now peer = true <-> vouched g now peer.
Proof.
  unfold endorser_has_direct, vouched, live_entry. rewrite existsb_exists.
  setoid_rewrite andb_true_iff. setoid_rewrite andb_true_iff. setoid_rewrite andb_true_iff.
  setoid_rewrite negb_true_iff. setoid_rewrite bool_decide_eq_true.
  setoid_rewrite bool_decide_eq_false. setoid_rewrite N.leb_le. setoid_rewrite list_elem_of_In.
  naive_solver.
Qed.

(** The endorsers that count: distinct, not the subject, vouched for by others. *)
Record endorsers_ok (g : EvidenceGraph) (subject : NodeId) (now : N) (endorsers : list NodeId) : Prop := {
  endorsers_nodup : NoDup endorsers;
  endorsers_bounded : len endorsers <= g.(EvidenceGraph_policy).(TrustPolicy_max_endorsements_per_issuer);
  endorsers_vouched : forall p, p ∈ endorsers -> p <> subject /\ vouched g now p
    /\ exists e, live_entry g now subject e /\ e.(SignedEvidence_issuer) = p
                 /\ e.(SignedEvidence_kind) = EvidenceKind_Endorsement
}.

Lemma accept_endorsement_ok g subject now acc item :
  live_entry g now subject item -> item.(SignedEvidence_kind) = EvidenceKind_Endorsement ->
  endorsers_ok g subject now acc.1 -> acc.2 <= len acc.1 ->
  let acc' := accept_endorsement g subject now acc item in
  endorsers_ok g subject now acc'.1 /\ acc'.2 <= len acc'.1.
Proof.
  destruct acc as [endorsers accepted]. cbn [fst snd]. intros Hlive Hkind Hok Hle.
  unfold accept_endorsement. destruct (_ || _) eqn:Hg; [done|]. breflect.
  destruct (endorser_has_direct _ _ _) eqn:Hd; [|done]. cbn [fst snd].
  apply endorser_has_direct_true in Hd. destruct Hok as [Hnd Hb Hv]. split.
  - apply contains_false in Hg0. split; [by constructor | rewrite len_cons; lia |].
    intros p [->|Hp]%elem_of_cons; [|by apply Hv]. split_and!; [done..|]. by exists item.
  - rewrite len_cons. unfold sat_add. lia.
Qed.

Lemma accepted_endorsements_ok g subject now :
  exists endorsers, endorsers_ok g subject now endorsers
    /\ accepted_endorsements g subject now (live_about subject now g.(EvidenceGraph_entries))
       <= len endorsers.
Proof.
  unfold accepted_endorsements. set (items := List.filter _ _).
  assert (Hitems : Forall (fun e => live_entry g now subject e
            /\ e.(SignedEvidence_kind) = EvidenceKind_Endorsement) items).
  { apply Forall_forall. intros e [He Hk]%elem_of_filter_b. breflect. by apply elem_of_live_about in He. }
  assert (Hgen : forall acc, endorsers_ok g subject now acc.1 -> acc.2 <= len acc.1 ->
            let acc' := foldl (accept_endorsement g subject now) acc items in
            endorsers_ok g subject now acc'.1 /\ acc'.2 <= len acc'.1).
  { induction Hitems as [|e items [He Hk] _ IH]; intros acc Hok Hle; [done|]. cbn [foldl].
    destruct (accept_endorsement_ok g subject now acc e He Hk Hok Hle) as [Hok' Hle']. by apply IH. }
  destruct (Hgen ([], 0)) as [Hok Hle]; [|cbn; lia|].
  - split; cbn; [constructor | unfold len; cbn; lia | by intros p ?%not_elem_of_nil].
  - eexists. split; [exact Hok | exact Hle].
Qed.

(** The endorsements that count come from distinct peers other than the subject, within
    the policy's limit, each vouched for by the positive evidence of somebody else; and the
    score is a percentage. *)
Theorem endorsement_influence_bounded g subject now :
  let d := EvidenceGraph_decision g subject now in
  d.(TrustDecision_score) <= 100
  /\ exists endorsers, endorsers_ok g subject now endorsers
       /\ d.(TrustDecision_endorsement_influence) <= len endorsers.
Proof.
  cbn zeta. split.
  - cbn [EvidenceGraph_decision TrustDecision_score]. unfold trunc, u8_max.
    rewrite N.mod_small; lia.
  - apply accepted_endorsements_ok.
Qed.

Lemma no_direct g subject now :
  (forall e, live_entry g now subject e -> is_direct e.(SignedEvidence_kind) = false) ->
  List.filter (fun item => is_direct item.(SignedEvidence_kind))
    (live_about subject now g.(EvidenceGraph_entries)) = [].
Proof. intros Hd. apply filter_nil_b. intros e He%elem_of_live_about. by apply Hd. Qed.

(** Hearsay alone never moves a peer: when all that is known of it is endorsements and
    reports by others, however many, it stays new and is not quarantined. *)
Theorem hearsay_keeps_peer_new g subject now :
  0 < g.(EvidenceGraph_policy).(TrustPolicy_quarantine_negative_evidence) ->
  0 < g.(EvidenceGraph_policy).(TrustPolicy_trusted_direct_successes) ->
  0 < g.(EvidenceGraph_policy).(TrustPolicy_established_direct_successes) ->
  (forall e, live_entry g now subject e -> is_direct e.(SignedEvidence_kind) = false) ->
  let d := EvidenceGraph_decision g subject now in
  d.(TrustDecision_maturity) = IdentityMaturity_New /\ d.(TrustDecision_quarantined) = false.
Proof.
  intros Hq Ht He Hd. cbn zeta. unfold EvidenceGraph_decision. rewrite no_direct by done.
  cbn -[N.leb sat_add sat_mul sat_sub accepted_endorsements].
  unfold count. cbn [List.filter]. change (len (@nil SignedEvidence)) with 0.
  repeat match goal with |- context [?a <=? 0] =>
    let Hz := fresh in assert (Hz : a <=? 0 = false) by (apply N.leb_gt; lia); rewrite Hz end.
  cbn. rewrite andb_false_r. done.
Qed.

(** A cluster that endorses itself gains nothing: if no endorser of the subject is
    vouched for by anybody but itself, the subject's endorsements count for zero, and with
    no direct evidence its score is zero. *)
Theorem endorsement_farm_worthless g subject now :
  (forall e, live_entry g now subject e -> e.(SignedEvidence_kind) = EvidenceKind_Endorsement ->
     ~ vouched g now e.(SignedEvidence_issuer)) ->
  let d := EvidenceGraph_decision g subject now in
  d.(TrustDecision_endorsement_influence) = 0
  /\ ((forall e, live_entry g now subject e -> is_direct e.(SignedEvidence_kind) = false) ->
      d.(TrustDecision_score) = 0).
Proof.
  intros Hv. cbn zeta.
  assert (Hzero : accepted_endorsements g subject now
                    (live_about subject now g.(EvidenceGraph_entries)) = 0).
  { destruct (accepted_endorsements_ok g subject now) as (endorsers & [_ _ Hvouch] & Hle).
    destruct endorsers as [|p ps]; [unfold len in Hle; cbn in Hle; lia|].
    destruct (Hvouch p) as (_ & Hp & e & He & <- & Hk); [left|]. by destruct (Hv e). }
  split; [exact Hzero|]. intros Hd. unfold EvidenceGraph_decision.
  cbn [TrustDecision_score]. rewrite no_direct, Hzero by done.
  unfold count. cbn [List.filter fmap list_fmap remove_dups]. done.
Qed.

(** A peer is established or trusted only on direct evidence: enough successes, and as
    many distinct issuers other than the peer itself as the policy asks. *)
Theorem maturity_needs_independent_issuers g subject now :
  let d := EvidenceGraph_decision g subject now in
  let p := g.(EvidenceGraph_policy) in
  (d.(TrustDecision_maturity) = IdentityMaturity_TrustedLocally ->
     p.(TrustPolicy_trusted_direct_successes) <= d.(TrustDecision_direct_successes)
     /\ p.(TrustPolicy_trusted_independent_issuers) <= d.(TrustDecision_independent_issuers))
  /\ (d.(TrustDecision_maturity) = IdentityMaturity_Established ->
     p.(TrustPolicy_established_direct_successes) <= d.(TrustDecision_direct_successes)
     /\ p.(TrustPolicy_established_independent_issuers) <= d.(TrustDecision_independent_issuers))
  /\ exists issuers, NoDup issuers /\ len issuers = d.(TrustDecision_independent_issuers)
     /\ forall i, i ∈ issuers -> i <> subject /\ exists e, live_entry g now subject e
          /\ e.(SignedEvidence_issuer) = i /\ is_direct e.(SignedEvidence_kind) = true.
Proof.
  cbn zeta. split_and!.
  - unfold EvidenceGraph_decision. cbn [TrustDecision_maturity TrustDecision_direct_successes
      TrustDecision_independent_issuers]. intros Hm.
    repeat (dmatch_in Hm; try discriminate Hm). by breflect.
  - unfold EvidenceGraph_decision. cbn [TrustDecision_maturity TrustDecision_direct_successes
      TrustDecision_independent_issuers]. intros Hm.
    repeat (dmatch_in Hm; try discriminate Hm). by breflect.
  - refine (ex_intro _ _ (conj _ (conj eq_refl _))); [apply NoDup_remove_dups|].
    intros i Hi. rewrite elem_of_remove_dups in Hi. apply elem_of_filter_b in Hi as [Hi Hne]. breflect.
    split; [done|]. apply list_elem_of_fmap in Hi as (e & -> & He).
    apply elem_of_filter_b in He as [He Hd]. exists e. by apply elem_of_live_about in He.
Qed.

(** ** Samples and witnesses *)

(** A hash that repeats the last byte, a signature check that accepts the byte 1, and a
    serialization that keeps the sequence. *)
Definition sample_hash : Blake3 := fun bs => replicate 32 (List.last bs 0).

Definition sample_verify : Ed25519 := fun _ _ signature => bool_decide (head signature = Some 1).

Definition sample_fields : EvidencePostcard := fun fields => Ok [fields.1.1.1.2].

Definition sample_key (n : N) : list N := replicate 32 n.

Definition sample_peer (n : N) : NodeId := mkNodeId (replicate 32 n).

Definition sample_evidence (issuer subject : N) (kind : EvidenceKind) (sequence : N) : SignedEvidence :=
  mkSignedEvidence (sample_peer issuer) (sample_key issuer) (sample_peer subject) kind sequence
    5 100 [] (replicate 64 1).

Definition add_all (g : EvidenceGraph) (es : list SignedEvidence) : EvidenceGraph :=
  foldl (fun g e => (@EvidenceGraph_insert sample_hash sample_verify sample_fields g e 10).2) g es.

Definition empty_graph : EvidenceGraph := mkEvidenceGraph TrustPolicy_default [] 0 None.

Lemma empty_graph_reachable :
  @graph_reachable sample_hash sample_verify sample_fields TrustPolicy_default empty_graph.
Proof. by apply graph_reach_new. Qed.

Lemma add_all_reachable policy g es :
  @graph_reachable sample_hash sample_verify sample_fields policy g ->
  @graph_reachable sample_hash sample_verify sample_fields policy (add_all g es).
Proof.
  revert g; induction es as [|e es IH]; intros g Hr; cbn; [done|]. by apply IH, graph_reach_insert.
Qed.

(** Three kinds of failure reported by peer 2 about peer 3. *)
Definition accusations : list SignedEvidence :=
  [sample_evidence 2 3 EvidenceKind_Timeout 1; sample_evidence 2 3 EvidenceKind_CorruptArtifact 1;
   sample_evidence 2 3 EvidenceKind_ReplayAttempt 1].

Lemma evidence_graph_invariant_witness :
  @graph_ok sample_hash sample_verify sample_fields (add_all empty_graph accusations).
Proof.
  apply (@evidence_graph_invariant sample_hash sample_verify sample_fields TrustPolicy_default).
  apply add_all_reachable, empty_graph_reachable.
Defined.

Lemma empty_graph_ok : @graph_ok sample_hash sample_verify sample_fields empty_graph.
Proof. apply (graph_reachable_ok TrustPolicy_default), empty_graph_reachable. Qed.

Lemma evidence_insert_monotone_witness :
  sample_evidence 2 3 EvidenceKind_Evaluation 1
  ∈ (add_all empty_graph [sample_evidence 2 3 EvidenceKind_Evaluation 1]).(EvidenceGraph_entries).
Proof.
  apply (@evidence_insert_monotone sample_hash sample_verify sample_fields empty_graph
           (sample_evidence 2 3 EvidenceKind_Evaluation 1) 10 empty_graph_ok).
  vm_compute. reflexivity.
Defined.

(** A farm: peers 2 and 3 endorse each other and report peer 4. *)
Definition farm : EvidenceGraph :=
  add_all empty_graph
    [sample_evidence 2 3 EvidenceKind_Endorsement 1; sample_evidence 3 2 EvidenceKind_Endorsement 1;
     sample_evidence 2 4 EvidenceKind_ViolationReport 1;
     sample_evidence 3 4 EvidenceKind_ViolationReport 1].

Lemma farm_hearsay now subject e :
  live_entry farm now subject e -> is_direct e.(SignedEvidence_kind) = false.
Proof.
  intros (He & _). revert He. revert e. apply Forall_forall. vm_compute. repeat constructor.
Qed.

Lemma hearsay_keeps_peer_new_witness :
  (EvidenceGraph_decision farm (sample_peer 4) 10).(TrustDecision_quarantined) = false.
Proof.
  apply (hearsay_keeps_peer_new farm (sample_peer 4) 10); [vm_compute; reflexivity..|].
  apply farm_hearsay.
Defined.

Lemma endorsement_farm_worthless_witness :
  (EvidenceGraph_decision farm (sample_peer 3) 10).(TrustDecision_score) = 0.
Proof.
  apply (endorsement_farm_worthless farm (sample_peer 3) 10); [|apply farm_hearsay].
  intros e _ _ Hv. apply endorser_has_direct_true in Hv. revert Hv.
  unfold endorser_has_direct. rewrite existsb_exists. intros (c & Hc & Hp).
  apply andb_true_iff in Hp as [_ Hp]. apply list_elem_of_In in Hc. revert c Hc Hp.
  apply (Forall_forall (fun c => is_positive c.(SignedEvidence_kind) = true -> False)).
  vm_compute. repeat constructor; discriminate.
Defined.

(** Direct evidence counts whoever signed it: three failures signed by one remote
    issuer quarantine a peer of which the local node has seen no failure. *)
Theorem one_remote_issuer_can_quarantine :
  exists g, @graph_reachable sample_hash sample_verify sample_fields TrustPolicy_default g
    /\ g.(EvidenceGraph_local_issuer) = Some (sample_peer 1)
    /\ (forall e, e ∈ g.(EvidenceGraph_entries) -> e.(SignedEvidence_issuer) = sample_peer 2)
    /\ let d := EvidenceGraph_decision g (sample_peer 3) 10 in
       d.(TrustDecision_local_direct_failures) = 0
       /\ d.(TrustDecision_quarantined) = true.
Proof.
  exists (add_all (with_local_issuer empty_graph (sample_peer 1)) accusations). split_and!.
  - apply add_all_reachable, graph_reach_local, empty_graph_reachable.
  - reflexivity.
  - apply Forall_forall. vm_compute. repeat constructor.
  - vm_compute. by split.
Qed.
