(* ===== verification/Aggregation.v ===== *)
(** * Byzantine-robust aggregation (crates/intelligence/src/training_fabric.rs)

    [aggregate_updates] drops the update vectors that exceed the clipping bound and
    combines the others coordinate by coordinate under a policy.  Values are [i64]
    as [Z]; the intermediate sums of at most 64 values are [i128] in the source and
    exact here, and integer division truncates towards zero ([Z.quot]).  The theorems
    show that the result does not depend on the order of the updates, stays within
    the clip, ignores what was rejected, and for the median and the trimmed mean
    stays within the range of the honest workers. *)

From Stdlib Require Import String ZArith NArith Lia Sorted Permutation.
From stdpp Require Import base tactics sets strings numbers sorting list.
From S2P Require Import Prelude OrdMap Types.
Local Open Scope Z_scope.
Local Open Scope rust_scope.

Record V4ByzantineReport := mkV4ByzantineReport {
  V4ByzantineReport_policy : V4ByzantinePolicy;
  V4ByzantineReport_aggregate : list Z;
  V4ByzantineReport_accepted_updates : N;
  V4ByzantineReport_rejected_updates : N;
  V4ByzantineReport_coordinate_count : N
}.

(** The planner errors that aggregation and reconciliation raise. *)
Inductive V4PlannerError :=
  | V4PlannerError_InvalidModelSize
  | V4PlannerError_InvalidWorkerCount (max : N)
  | V4PlannerError_InsufficientWorkers
  | V4PlannerError_InvalidTensorDegree
  | V4PlannerError_InvalidPipelineStages
  | V4PlannerError_UnsupportedStrategy
  | V4PlannerError_InvalidTopology
  | V4PlannerError_InvalidLocalSteps
  | V4PlannerError_InvalidReplication
  | V4PlannerError_InvalidWorkerProfile
  | V4PlannerError_InvalidUpdates
  | V4PlannerError_IncompatibleBranches
  | V4PlannerError_UnsupportedBackendAssignment (reason : string).

(** [value.clamp(-clip, clip)] *)
Definition clamp (clip value : Z) : Z := Z.max (- clip) (Z.min value clip).

(** [values.iter().sum()] *)
Fixpoint sum (values : list Z) : Z :=
  match values with
  | [] => 0
  | value :: values => value + sum values
  end.

(** [total / values.len()] *)
Definition mean (values : list Z) : Z := Z.quot (sum values) (Z.of_nat (length values)).

(** [values.sort_unstable()] *)
Definition sort (values : list Z) : list Z := sort_by_key (fun v => v) values.

(** [&values[1..values.len() - 1]] *)
Definition trim (values : list Z) : list Z := take (length values - 2) (drop 1 values).

Definition median (values : list Z) : Z :=
  let values := sort values in
  let middle := (length values / 2)%nat in
  if (length values mod 2 =? 0)%nat
  then Z.quot (nth (middle - 1) values 0 + nth middle values 0) 2
  else nth middle values 0.

(** One coordinate of the aggregate. *)
Definition combine (policy : V4ByzantinePolicy) (values : list Z) : Z :=
  match policy with
  | V4ByzantinePolicy_Mean | V4ByzantinePolicy_ClippedMean => mean values
  | V4ByzantinePolicy_TrimmedMean =>
      if (3 <=? length values)%nat then mean (trim (sort values)) else mean values
  | V4ByzantinePolicy_CoordinateMedian => median values
  end.

(** [update.iter().all(|value| value.unsigned_abs() <= clip_abs as u64)] *)
Definition within_clip (clip_abs : Z) (update : list Z) : bool :=
  forallb (fun value => (unsigned_abs value <=? Z.to_N clip_abs)%N) update.

(** The values of a coordinate; every vector has the same width, so the default of [nth]
    is never used. *)
Definition column (clip_abs : Z) (accepted : list (list Z)) (coordinate : nat) : list Z :=
  (fun update => clamp clip_abs (nth coordinate update 0)) <$> accepted.

Definition aggregate_updates (policy : V4ByzantinePolicy) (updates : list (list Z)) (clip_abs : Z)
    : result V4ByzantineReport V4PlannerError :=
  let first := default [] (head updates) in
  fail_if (is_empty updates || (64 <? len updates)%N || is_empty first || (128 <? len first)%N
           || (clip_abs <=? 0)
           || existsb (fun update => negb (len update =? len first)%N) updates)
    V4PlannerError_InvalidUpdates ;?
  let rejected := count (fun update =>
    existsb (fun value => (Z.to_N clip_abs <? unsigned_abs value)%N) update) updates in
  let accepted := List.filter (within_clip clip_abs) updates in
  fail_if (is_empty accepted) V4PlannerError_InvalidUpdates ;?
  let width := length first in
  let aggregate := (fun coordinate => clamp clip_abs (combine policy (column clip_abs accepted coordinate)))
                     <$> seq 0 width in
  Ok {| V4ByzantineReport_policy := policy;
        V4ByzantineReport_aggregate := aggregate;
        V4ByzantineReport_accepted_updates := len accepted;
        V4ByzantineReport_rejected_updates := rejected;
        V4ByzantineReport_coordinate_count := N.of_nat width |}.

(** ** Order does not matter *)
Lemma sum_perm vs vs' : vs ≡ₚ vs' -> sum vs = sum vs'.
Proof. induction 1; cbn; lia. Qed.

Lemma mean_perm vs vs' : vs ≡ₚ vs' -> mean vs = mean vs'.
Proof. intros Hp. unfold mean. by rewrite (sum_perm vs vs' Hp), (Permutation_length Hp). Qed.

Lemma sort_sorted vs : StronglySorted Z.le (sort vs).
Proof.
  pose proof (sort_by_key_sorted (fun v : Z => v) vs) as Hs. unfold key_sorted in Hs.
  fold (sort vs) in Hs. induction Hs as [|v vs' Hs IH Hall]; constructor; [done|].
  rewrite Forall_forall in *. intros w Hw. specialize (Hall w Hw).
  unfold leb, cmp, Ord_Z in Hall. destruct (Z.compare_spec v w); (done || lia).
Qed.

Lemma sort_perm vs : sort vs ≡ₚ vs.
Proof. apply sort_by_key_perm. Qed.

Lemma sort_length vs : length (sort vs) = length vs.
Proof. apply Permutation_length, sort_perm. Qed.

Lemma sort_perm_eq vs vs' : vs ≡ₚ vs' -> sort vs = sort vs'.
Proof.
  intros Hp. eapply (StronglySorted_unique Z.le); [apply sort_sorted..|].
  by rewrite !sort_perm.
Qed.

Lemma combine_perm policy vs vs' : vs ≡ₚ vs' -> combine policy vs = combine policy vs'.
Proof.
  intros Hp. unfold combine, median.
  rewrite (sort_perm_eq vs vs' Hp), (mean_perm vs vs' Hp), (Permutation_length Hp). done.
Qed.

Lemma filter_perm {A} (p : A -> bool) xs ys : xs ≡ₚ ys -> List.filter p xs ≡ₚ List.filter p ys.
Proof.
  induction 1; cbn; repeat dmatch; eauto using perm_skip, perm_swap, Permutation_trans.
Qed.

(** ** Ranges *)
Lemma sum_range lo hi vs :
  Forall (fun v => lo <= v <= hi) vs ->
  lo * Z.of_nat (length vs) <= sum vs <= hi * Z.of_nat (length vs).
Proof. induction 1; cbn [sum length]; lia. Qed.

Lemma quot_range lo hi a n : 0 < n -> lo * n <= a <= hi * n -> lo <= Z.quot a n <= hi.
Proof.
  intros Hn [Hlo Hhi].
  pose proof (Z.rem_bound_abs a n ltac:(lia)) as Hr.
  pose proof (Z.rem_sign_mul a n ltac:(lia)) as Hs.
  pose proof (Z.quot_rem' a n) as Hq. set (q := Z.quot a n) in *. set (r := Z.rem a n) in *.
  assert (Hrr : - n < r < n) by lia. split.
  - destruct (Z.le_gt_cases lo q); [done|]. assert (q + 1 <= lo) by lia.
    assert ((q + 1) * n <= lo * n) by (apply Z.mul_le_mono_nonneg_r; lia). nia.
  - destruct (Z.le_gt_cases q hi); [done|]. assert (hi + 1 <= q) by lia.
    assert ((hi + 1) * n <= q * n) by (apply Z.mul_le_mono_nonneg_r; lia). nia.
Qed.

Lemma mean_range lo hi vs :
  vs <> [] -> Forall (fun v => lo <= v <= hi) vs -> lo <= mean vs <= hi.
Proof.
  intros Hne Hall. unfold mean. apply quot_range; [|by apply sum_range].
  destruct vs; [done|]. cbn. lia.
Qed.

Definition in_range (lo hi v : Z) : bool := (lo <=? v) && (v <=? hi).

(** How many values are in the honest range. *)
Definition honest (lo hi : Z) (vs : list Z) : nat := length (List.filter (in_range lo hi) vs).

Lemma in_range_true lo hi v : in_range lo hi v = true <-> lo <= v <= hi.
Proof. unfold in_range. rewrite andb_true_iff, !Z.leb_le. done. Qed.

Lemma honest_app lo hi vs ws : honest lo hi (vs ++ ws) = (honest lo hi vs + honest lo hi ws)%nat.
Proof. unfold honest. by rewrite List.filter_app, length_app. Qed.

Lemma honest_le lo hi vs : (honest lo hi vs <= length vs)%nat.
Proof. apply List.filter_length_le. Qed.

Lemma honest_perm lo hi vs ws : vs ≡ₚ ws -> honest lo hi vs = honest lo hi ws.
Proof. intros Hp. unfold honest. apply Permutation_length, filter_perm, Hp. Qed.

Lemma honest_none lo hi vs : Forall (fun v => v < lo \/ hi < v) vs -> honest lo hi vs = 0%nat.
Proof.
  intros Hall. unfold honest. induction Hall as [|v vs Hv _ IH]; cbn; [done|].
  destruct (in_range lo hi v) eqn:Hr; [|done]. apply in_range_true in Hr. lia.
Qed.

Lemma split_at_nth (vs : list Z) m :
  (m < length vs)%nat -> vs = take m vs ++ nth m vs 0 :: drop (S m) vs.
Proof.
  intros Hm. rewrite <- (take_drop m vs) at 1. f_equal.
  destruct (nth_lookup_or_length vs m 0) as [Hl|]; [|lia]. by apply drop_S.
Qed.

(** A sorted list with a value below the range at [m] has everything up to [m] below it. *)
Lemma honest_below lo hi vs m :
  StronglySorted Z.le vs -> (m < length vs)%nat -> nth m vs 0 < lo ->
  (honest lo hi vs + m < length vs)%nat.
Proof.
  intros Hs Hm Hlt. rewrite (split_at_nth vs m Hm) in Hs. set (x := nth m vs 0) in *.
  apply StronglySorted_app in Hs as (Hcross & _ & _).
  assert (Hlow : honest lo hi (take m vs) = 0%nat).
  { apply honest_none, Forall_forall. intros v Hv. left.
    assert (v <= x) by (apply Hcross; [done | left]). lia. }
  rewrite (split_at_nth vs m Hm) at 1. fold x. rewrite honest_app, Hlow.
  change (x :: drop (S m) vs) with ([x] ++ drop (S m) vs). rewrite honest_app.
  assert (honest lo hi [x] = 0%nat) as -> by (apply honest_none; constructor; [lia | constructor]).
  pose proof (honest_le lo hi (drop (S m) vs)). rewrite length_drop in *. lia.
Qed.

Lemma honest_above lo hi vs m :
  StronglySorted Z.le vs -> (m < length vs)%nat -> hi < nth m vs 0 ->
  (honest lo hi vs <= m)%nat.
Proof.
  intros Hs Hm Hlt. rewrite (split_at_nth vs m Hm) in Hs. set (x := nth m vs 0) in *.
  apply StronglySorted_app in Hs as (_ & _ & Hs). apply StronglySorted_inv in Hs as [_ Hx].
  rewrite (split_at_nth vs m Hm). fold x. rewrite honest_app, (honest_none _ _ (x :: _)).
  - pose proof (honest_le lo hi (take m vs)). rewrite length_take in *. lia.
  - constructor; [lia|]. rewrite Forall_forall in *. intros v Hv. specialize (Hx v Hv). lia.
Qed.

Lemma nth_range lo hi vs m :
  StronglySorted Z.le vs -> (m < length vs)%nat ->
  (m < honest lo hi vs)%nat -> (length vs <= honest lo hi vs + m)%nat ->
  lo <= nth m vs 0 <= hi.
Proof.
  intros Hs Hm H1 H2. split.
  - destruct (Z.le_gt_cases lo (nth m vs 0)); [done|].
    assert (honest lo hi vs + m < length vs)%nat by (by apply honest_below). lia.
  - destruct (Z.le_gt_cases (nth m vs 0) hi); [done|].
    assert (honest lo hi vs <= m)%nat by (by apply honest_above). lia.
Qed.

(** With a majority of the values in a range, the median is in it. *)
Lemma median_range lo hi vs :
  (length vs < 2 * honest lo hi vs)%nat -> lo <= median vs <= hi.
Proof.
  intros Hmaj. unfold median. pose proof (sort_sorted vs) as Hs.
  rewrite <- (honest_perm lo hi (sort vs) vs) in Hmaj by apply sort_perm.
  rewrite <- (sort_length vs) in Hmaj. set (ss := sort vs) in *.
  pose proof (honest_le lo hi ss) as Hle.
  pose proof (Nat.div_mod (length ss) 2 ltac:(lia)) as Hdm.
  pose proof (Nat.mod_upper_bound (length ss) 2 ltac:(lia)) as Hmod.
  destruct (length ss mod 2 =? 0)%nat eqn:He.
  - apply Nat.eqb_eq in He.
    assert (lo <= nth (length ss / 2 - 1) ss 0 <= hi) by (apply nth_range; [done | lia..]).
    assert (lo <= nth (length ss / 2) ss 0 <= hi) by (apply nth_range; [done | lia..]).
    apply quot_range; lia.
  - apply Nat.eqb_neq in He. apply nth_range; [done | lia..].
Qed.

Lemma elem_of_trim vs v :
  v ∈ trim vs -> exists m, (0 < m)%nat /\ (m < length vs - 1)%nat /\ nth m vs 0 = v.
Proof.
  unfold trim. intros (i & Hi)%list_elem_of_lookup.
  apply lookup_take_Some in Hi as [Hi Hlt]. rewrite lookup_drop in Hi.
  exists (1 + i)%nat. pose proof (lookup_lt_Some _ _ _ Hi). split_and!; [lia | lia |].
  by apply nth_lookup_Some.
Qed.

(** With at most one value outside a range, the trimmed mean is in it. *)
Lemma trimmed_mean_range lo hi vs :
  (3 <= length vs)%nat -> (length vs <= honest lo hi vs + 1)%nat ->
  lo <= mean (trim (sort vs)) <= hi.
Proof.
  intros H3 Hh. pose proof (sort_sorted vs) as Hs.
  rewrite <- (honest_perm lo hi (sort vs) vs) in Hh by apply sort_perm.
  rewrite <- (sort_length vs) in Hh, H3. set (ss := sort vs) in *.
  apply mean_range.
  - intros Hnil. apply (f_equal length) in Hnil. unfold trim in Hnil.
    rewrite length_take, length_drop in Hnil. cbn in Hnil. lia.
  - apply Forall_forall. intros v (m & H1 & H2 & <-)%elem_of_trim.
    apply nth_range; [done | lia..].
Qed.

(** How many dishonest values a policy absorbs. *)
Definition absorbs (policy : V4ByzantinePolicy) (n good : nat) : Prop :=
  match policy with
  | V4ByzantinePolicy_Mean | V4ByzantinePolicy_ClippedMean => (n <= good)%nat
  | V4ByzantinePolicy_TrimmedMean => (n <= good)%nat \/ (3 <= n /\ n <= good + 1)%nat
  | V4ByzantinePolicy_CoordinateMedian => (n < 2 * good)%nat
  end.

Lemma honest_all lo hi vs : (length vs <= honest lo hi vs)%nat -> Forall (fun v => lo <= v <= hi) vs.
Proof.
  induction vs as [|v vs IH]; [constructor|]. pose proof (honest_le lo hi vs) as Hle.
  unfold honest in *. cbn. destruct (in_range lo hi v) eqn:Hr; cbn; intros Hl; [|lia].
  constructor; [by apply in_range_true | apply IH; lia].
Qed.

Lemma combine_range policy lo hi vs :
  vs <> [] -> absorbs policy (length vs) (honest lo hi vs) -> lo <= combine policy vs <= hi.
Proof.
  intros Hne Habs.
  assert (Hmean : (length vs <= honest lo hi vs)%nat -> lo <= mean vs <= hi).
  { intros Hall%honest_all. by apply mean_range. }
  destruct policy; cbn [combine absorbs] in *; auto using median_range.
  destruct (3 <=? length vs)%nat eqn:E.
  - apply Nat.leb_le in E. apply trimmed_mean_range; lia.
  - apply Nat.leb_gt in E. apply Hmean. lia.
Qed.

(** ** Theorems *)

(** What an aggregation that succeeds computed. *)
Lemma aggregate_updates_ok policy updates clip report :
  aggregate_updates policy updates clip = Ok report ->
  let accepted := List.filter (within_clip clip) updates in
  0 < clip /\ accepted <> []
  /\ Forall (fun u => length u = N.to_nat report.(V4ByzantineReport_coordinate_count)) updates
  /\ report.(V4ByzantineReport_aggregate)
     = (fun i => clamp clip (combine policy (column clip accepted i)))
         <$> seq 0 (N.to_nat report.(V4ByzantineReport_coordinate_count))
  /\ report.(V4ByzantineReport_accepted_updates) = len accepted
  /\ (report.(V4ByzantineReport_accepted_updates) + report.(V4ByzantineReport_rejected_updates)
      = len updates)%N.
Proof.
  unfold aggregate_updates. intros Ha. inv_ok Ha. injection Ha as <-. cbn.
  rewrite Nat2N.id. split_and!; try done.
  - by apply is_empty_false.
  - match goal with He : existsb _ updates = false |- _ => apply existsb_false in He;
      eapply Forall_impl; [exact He|] end.
    intros u Hu. cbn in Hu. breflect. unfold len in Hu. lia.
  - unfold count, len, within_clip. clear. induction updates as [|u updates IH]; [done|]. cbn.
    assert (Hx : existsb (fun value => (Z.to_N clip <? unsigned_abs value)%N) u
                 = negb (forallb (fun value => (unsigned_abs value <=? Z.to_N clip)%N) u)).
    { induction u as [|v u IHu]; [done|]. cbn. rewrite IHu, negb_andb. f_equal.
      destruct (_ <? _)%N eqn:E1, (_ <=? _)%N eqn:E2; try done; breflect; lia. }
    rewrite Hx. destruct (forallb _ u); cbn; lia.
Qed.

(** The guard of the aggregation as a property of the bag of updates. *)
Definition shape_ok (updates : list (list Z)) (clip : Z) (w : N) : Prop :=
  updates <> [] /\ (len updates <= 64)%N /\ (0 < w <= 128)%N /\ 0 < clip
  /\ Forall (fun u => len u = w) updates.

Definition guard (updates : list (list Z)) (clip_abs : Z) : bool :=
  let first := default [] (head updates) in
  is_empty updates || (64 <? len updates)%N || is_empty first || (128 <? len first)%N
  || (clip_abs <=? 0) || existsb (fun update => negb (len update =? len first)%N) updates.

Lemma guard_false updates clip :
  guard updates clip = false <-> shape_ok updates clip (len (default [] (head updates))).
Proof.
  unfold guard, shape_ok. rewrite !orb_false_iff, existsb_false, !is_empty_false, !N.ltb_ge, Z.leb_gt.
  assert (Hall : Forall (fun u => negb (len u =? len (default [] (head updates)))%N = false) updates
                 <-> Forall (fun u => len u = len (default [] (head updates))) updates).
  { apply Forall_iff. intros u. by rewrite negb_false_iff, N.eqb_eq. }
  rewrite Hall. assert (Hl : default [] (head updates) <> [] <-> (0 < len (default [] (head updates)))%N).
  { destruct (default [] (head updates)); unfold len; cbn; split; (done || lia). }
  rewrite Hl. naive_solver lia.
Qed.

Lemma shape_ok_width updates clip w :
  shape_ok updates clip w -> len (default [] (head updates)) = w.
Proof.
  intros (Hne & _ & _ & _ & Hall). destruct updates as [|u us]; [done|]. by inversion Hall.
Qed.

Lemma shape_ok_perm updates updates' clip w :
  updates ≡ₚ updates' -> shape_ok updates clip w -> shape_ok updates' clip w.
Proof.
  intros Hp (Hne & Hl & Hw & Hc & Hall). split_and!; try done; try lia.
  - intros ->. by apply Permutation_nil_r in Hp.
  - unfold len in *. by rewrite <- Hp.
  - by rewrite <- Hp.
Qed.

Lemma guard_perm updates updates' clip :
  updates ≡ₚ updates' ->
  guard updates clip = guard updates' clip
  /\ (guard updates clip = false ->
      length (default [] (head updates)) = length (default [] (head updates'))).
Proof.
  intros Hp.
  assert (Hone : forall us us', us ≡ₚ us' -> guard us clip = false ->
            guard us' clip = false /\ len (default [] (head us)) = len (default [] (head us'))).
  { intros us us' Hus Hg%guard_false. pose proof (shape_ok_perm _ _ _ _ Hus Hg) as Hs.
    split; [|by rewrite (shape_ok_width _ _ _ Hs)].
    apply guard_false. by rewrite (shape_ok_width _ _ _ Hs). }
  split.
  - destruct (guard updates clip) eqn:E1, (guard updates' clip) eqn:E2; try done.
    + by destruct (Hone _ _ (symmetry Hp) E2) as [? _]; congruence.
    + by destruct (Hone _ _ Hp E1) as [? _]; congruence.
  - intros Hg. destruct (Hone _ _ Hp Hg) as [_ Hl]. unfold len in Hl. lia.
Qed.

(** The order in which updates arrive does not matter: any permutation of them gives
    the same report, or the same error. *)
Theorem aggregate_order_independent policy updates updates' clip :
  updates ≡ₚ updates' ->
  aggregate_updates policy updates clip = aggregate_updates policy updates' clip.
Proof.
  intros Hp. unfold aggregate_updates. fold (guard updates clip) (guard updates' clip).
  destruct (guard_perm updates updates' clip Hp) as [<- Hw].
  destruct (guard updates clip) eqn:Hg; [done|]. cbn. rewrite Hw by done.
  pose proof (filter_perm (within_clip clip) _ _ Hp) as Hacc.
  set (acc := List.filter _ updates) in *. set (acc' := List.filter _ updates') in *.
  assert (is_empty acc = is_empty acc') as ->.
  { destruct acc, acc'; try done; [by apply Permutation_nil_l in Hacc | by apply Permutation_nil_r in Hacc]. }
  destruct (is_empty acc'); [done|]. cbn. f_equal. f_equal.
  - apply list_fmap_ext. intros _ i _. f_equal. apply combine_perm.
    unfold column. by rewrite Hacc.
  - unfold len. by rewrite Hacc.
  - unfold count, len. by rewrite (filter_perm _ _ _ Hp).
Qed.

Lemma clamp_range clip v : 0 < clip -> - clip <= clamp clip v <= clip.
Proof. unfold clamp. lia. Qed.

(** The aggregate has the width of the updates, every coordinate is within the clip, and
    accepted and rejected updates add up. *)
Theorem aggregate_bounded policy updates clip report :
  aggregate_updates policy updates clip = Ok report ->
  length report.(V4ByzantineReport_aggregate)
    = N.to_nat report.(V4ByzantineReport_coordinate_count)
  /\ Forall (fun v => - clip <= v <= clip) report.(V4ByzantineReport_aggregate)
  /\ (0 < report.(V4ByzantineReport_accepted_updates))%N
  /\ (report.(V4ByzantineReport_accepted_updates) + report.(V4ByzantineReport_rejected_updates)
      = len updates)%N.
Proof.
  intros (Hc & Hne & _ & Hagg & Hacc & Hsum)%aggregate_updates_ok. rewrite Hagg. split_and!; try done.
  - by rewrite length_fmap, length_seq.
  - apply Forall_forall. intros v (i & -> & _)%list_elem_of_fmap. by apply clamp_range.
  - rewrite Hacc. destruct (List.filter _ _); [done|]. unfold len. cbn. lia.
Qed.

Lemma clamp_honest clip lo hi v : lo <= v <= hi -> - clip <= v <= clip -> lo <= clamp clip v <= hi.
Proof. unfold clamp. lia. Qed.

Lemma within_clip_nth clip u i : 0 < clip -> within_clip clip u = true -> - clip <= nth i u 0 <= clip.
Proof.
  intros Hc Hw. apply forallb_true in Hw. rewrite Forall_forall in Hw.
  destruct (nth_in_or_default i u 0) as [Hin| ->]; [|lia].
  apply list_elem_of_In in Hin. specialize (Hw _ Hin). breflect. unfold unsigned_abs in Hw. lia.
Qed.

(** Accepted values are not changed by the clamp, so the honest ones stay honest. *)
Lemma column_accepted clip accepted i :
  0 < clip -> Forall (fun u => within_clip clip u = true) accepted ->
  column clip accepted i = (fun u => nth i u 0) <$> accepted.
Proof.
  intros Hc Hall. unfold column. apply list_fmap_ext. intros k u Hu.
  rewrite Forall_forall in Hall. specialize (Hall u (list_elem_of_lookup_2 _ _ _ Hu)).
  pose proof (within_clip_nth clip u i Hc Hall). unfold clamp. lia.
Qed.

(** (C5) Dishonest workers cannot pull a coordinate out of the honest range: the median stays
    in any range that holds a majority of the accepted values, the trimmed mean in any range
    that holds all but one of at least three, the means in any range that holds all. *)
Theorem aggregate_honest_range policy updates clip report lo hi i v :
  aggregate_updates policy updates clip = Ok report ->
  let values := (fun u => nth i u 0) <$> List.filter (within_clip clip) updates in
  absorbs policy (length values) (honest lo hi values) ->
  report.(V4ByzantineReport_aggregate) !! i = Some v -> - clip <= lo -> hi <= clip ->
  lo <= v <= hi.
Proof.
  intros (Hc & Hne & _ & Hagg & _ & _)%aggregate_updates_ok values Habs Hv Hlo Hhi.
  rewrite Hagg in Hv. apply list_lookup_fmap_Some in Hv as (j & -> & Hj).
  apply lookup_seq in Hj as [-> Hi]. cbn [Nat.add].
  rewrite column_accepted.
  - assert (lo <= combine policy values <= hi); [|fold values; unfold clamp; lia].
    apply combine_range; [|done]. intros Hnil. apply fmap_nil_inv in Hnil. done.
  - done.
  - apply Forall_forall. by intros u [_ Hu]%elem_of_filter_b.
Qed.

Lemma filter_idemp {A} (p : A -> bool) xs : List.filter p (List.filter p xs) = List.filter p xs.
Proof.
  induction xs as [|x xs IH]; cbn; [done|]. destruct (p x) eqn:Hp; cbn; [by rewrite Hp, IH | done].
Qed.

Lemma Forall_head (P : list Z -> Prop) updates :
  updates <> [] -> Forall P updates -> P (default [] (head updates)).
Proof. intros Hne Hall. by destruct Hall. Qed.

(** Rejected updates have no influence: aggregating only the accepted ones gives the
    same aggregate. *)
Theorem aggregate_ignores_rejected policy updates clip report :
  aggregate_updates policy updates clip = Ok report ->
  exists report', aggregate_updates policy (List.filter (within_clip clip) updates) clip = Ok report'
    /\ report'.(V4ByzantineReport_aggregate) = report.(V4ByzantineReport_aggregate)
    /\ report'.(V4ByzantineReport_rejected_updates) = 0%N.
Proof.
  intros Ha. pose proof Ha as (Hc & Hne & Hw & Hagg & _ & _)%aggregate_updates_ok.
  unfold aggregate_updates in Ha. fold (guard updates clip) in Ha.
  destruct (guard updates clip) eqn:Hg; [done|]. apply guard_false in Hg.
  set (acc := List.filter (within_clip clip) updates) in *.
  assert (Hs : shape_ok acc clip (len (default [] (head updates)))).
  { destruct Hg as (_ & Hl & Hwd & _ & Hall). split_and!; try done; try lia.
    - pose proof (len_filter_le (within_clip clip) updates). fold acc in H. lia.
    - rewrite Forall_forall in *. intros u [Hu _]%elem_of_filter_b. auto. }
  pose proof (shape_ok_width _ _ _ Hs) as Hwidth.
  assert (Hg' : guard acc clip = false) by (apply guard_false; by rewrite Hwidth).
  unfold aggregate_updates. fold (guard acc clip). rewrite Hg'. cbn.
  assert (Hidem : List.filter (within_clip clip) acc = acc) by apply filter_idemp. rewrite Hidem.
  apply is_empty_false in Hne. rewrite Hne. cbn. eexists. split; [done|]. split.
  - cbn. rewrite Hagg. f_equal. f_equal.
    pose proof (Forall_head _ _ (proj1 Hg) Hw) as Hu. cbn in Hu. unfold len in Hwidth. lia.
  - cbn. unfold count. rewrite filter_nil_b; [done|]. intros u [_ Hu]%elem_of_filter_b.
    apply existsb_false. apply forallb_true in Hu. eapply Forall_impl; [exact Hu|].
    intros v Hv. cbn in *. breflect. by apply N.ltb_ge.
Qed.

(** ** Samples and witnesses *)

(** Two honest workers, one that lies within the clip and one beyond it. *)
Definition sample_updates : list (list Z) := [[10; -20]; [12; -22]; [90; -90]; [1000; 0]].

Example sample_median :
  V4ByzantineReport_aggregate <$> match aggregate_updates V4ByzantinePolicy_CoordinateMedian sample_updates 100
                                  with Ok r => Some r | Err _ => None end
  = Some [12; -22].
Proof. reflexivity. Qed.

Lemma aggregate_order_independent_witness :
  aggregate_updates V4ByzantinePolicy_TrimmedMean sample_updates 100
  = aggregate_updates V4ByzantinePolicy_TrimmedMean [[1000; 0]; [12; -22]; [90; -90]; [10; -20]] 100.
Proof.
  apply (aggregate_order_independent V4ByzantinePolicy_TrimmedMean sample_updates).
  unfold sample_updates. solve_Permutation.
Defined.

Definition sample_report : V4ByzantineReport :=
  mkV4ByzantineReport V4ByzantinePolicy_CoordinateMedian [12; -22] 3 1 2.

Lemma aggregate_bounded_witness :
  Forall (fun v => - 100 <= v <= 100) sample_report.(V4ByzantineReport_aggregate).
Proof.
  apply (aggregate_bounded V4ByzantinePolicy_CoordinateMedian sample_updates 100 sample_report).
  vm_compute. reflexivity.
Defined.

Lemma aggregate_honest_range_witness : 10 <= 12 <= 12.
Proof.
  apply (aggregate_honest_range V4ByzantinePolicy_CoordinateMedian sample_updates 100 sample_report
           10 12 0 12); [vm_compute; reflexivity | cbn; vm_compute; lia | reflexivity | lia | lia].
Defined.

Lemma aggregate_ignores_rejected_witness :
  exists report', aggregate_updates V4ByzantinePolicy_CoordinateMedian
                    [[10; -20]; [12; -22]; [90; -90]] 100 = Ok report'
    /\ report'.(V4ByzantineReport_aggregate) = [12; -22]
    /\ report'.(V4ByzantineReport_rejected_updates) = 0%N.
Proof.
  apply (aggregate_ignores_rejected V4ByzantinePolicy_CoordinateMedian sample_updates 100 sample_report).
  vm_compute. reflexivity.
Defined.
