(* ===== verification/Security.v ===== *)
(** * Local adversarial-trust state (crates/intelligence/src/security.rs)

    [LocalSecurityState] is the ledger a node keeps about its peers: the training
    contributions it admitted, the contexts and claims it saw, temporary quarantines,
    observations and a bounded event log.  Operations pass the state explicitly and
    return what the Rust method returns.  BLAKE3, ed25519 and postcard are parameters.
    The theorems about it are in [SecurityFacts]. *)

From Stdlib Require Import String Ascii ZArith NArith Lia.
From stdpp Require Import base tactics sets strings numbers list.
From S2P Require Import Prelude OrdMap Types Validation Codec Trust Aggregation.
Local Open Scope N_scope.
Local Open Scope rust_scope.

Definition MAX_SECURITY_DETAIL : N := 256.

Definition MAX_SECURITY_SCOPE : N := 128.

Definition MAX_CLAIM_KEY : N := 128.

Inductive SecurityProfile :=
  | SecurityProfile_Open
  | SecurityProfile_Balanced
  | SecurityProfile_Strict.

Inductive SecurityEventKind :=
  | SecurityEventKind_ReplayRejected
  | SecurityEventKind_StaleStateRejected
  | SecurityEventKind_DuplicateContributionRejected
  | SecurityEventKind_EquivocationDetected
  | SecurityEventKind_InvalidStateRejected
  | SecurityEventKind_ArtifactCorrupt
  | SecurityEventKind_CheckpointCorrupt
  | SecurityEventKind_OptimizerStateRejected
  | SecurityEventKind_CapabilityFailed
  | SecurityEventKind_TrainingUpdateRejected
  | SecurityEventKind_EvaluatorDisagreement
  | SecurityEventKind_EvaluatorSelection
  | SecurityEventKind_DhtPoisoningRejected
  | SecurityEventKind_ResourceRateLimited
  | SecurityEventKind_PeerQuarantined.

#[export] Instance SecurityEventKind_eq_dec : EqDecision SecurityEventKind.
Proof. solve_decision. Defined.

Inductive CriticalRole :=
  | CriticalRole_CheckpointProvider
  | CriticalRole_OptimizerReplica
  | CriticalRole_TensorRecoveryProvider
  | CriticalRole_Aggregator
  | CriticalRole_Evaluator
  | CriticalRole_PlanParticipant.

Record SecurityPolicy := mkSecurityPolicy {
  SecurityPolicy_profile : SecurityProfile;
  SecurityPolicy_max_events : N;
  SecurityPolicy_max_replay_entries : N;
  SecurityPolicy_max_claims : N;
  SecurityPolicy_quarantine_seconds : N;
  SecurityPolicy_min_direct_successes_for_critical_role : N;
  SecurityPolicy_max_direct_failures_for_critical_role : N;
  SecurityPolicy_max_training_value : Z;
  SecurityPolicy_max_challenge_per_peer_window : N;
  SecurityPolicy_challenge_window_seconds : N;
  SecurityPolicy_max_evaluators_per_source_group : N;
  SecurityPolicy_direct_observation_ttl_seconds : N
}.

Definition SecurityPolicy_default : SecurityPolicy :=
  {| SecurityPolicy_profile := SecurityProfile_Balanced;
     SecurityPolicy_max_events := 2048;
     SecurityPolicy_max_replay_entries := 4096;
     SecurityPolicy_max_claims := 2048;
     SecurityPolicy_quarantine_seconds := 300;
     SecurityPolicy_min_direct_successes_for_critical_role := 1;
     SecurityPolicy_max_direct_failures_for_critical_role := 2;
     SecurityPolicy_max_training_value := 100 * TRAINING_SCALE;
     SecurityPolicy_max_challenge_per_peer_window := 8;
     SecurityPolicy_challenge_window_seconds := 60;
     SecurityPolicy_max_evaluators_per_source_group := 1;
     SecurityPolicy_direct_observation_ttl_seconds := 900 |}.

Definition SecurityPolicy_for_profile (profile : SecurityProfile) : SecurityPolicy :=
  let d := SecurityPolicy_default in
  let policy min_successes max_failures quarantine challenges :=
    {| SecurityPolicy_profile := profile;
       SecurityPolicy_max_events := d.(SecurityPolicy_max_events);
       SecurityPolicy_max_replay_entries := d.(SecurityPolicy_max_replay_entries);
       SecurityPolicy_max_claims := d.(SecurityPolicy_max_claims);
       SecurityPolicy_quarantine_seconds := quarantine;
       SecurityPolicy_min_direct_successes_for_critical_role := min_successes;
       SecurityPolicy_max_direct_failures_for_critical_role := max_failures;
       SecurityPolicy_max_training_value := d.(SecurityPolicy_max_training_value);
       SecurityPolicy_max_challenge_per_peer_window := challenges;
       SecurityPolicy_challenge_window_seconds := d.(SecurityPolicy_challenge_window_seconds);
       SecurityPolicy_max_evaluators_per_source_group :=
         d.(SecurityPolicy_max_evaluators_per_source_group);
       SecurityPolicy_direct_observation_ttl_seconds :=
         d.(SecurityPolicy_direct_observation_ttl_seconds) |} in
  match profile with
  | SecurityProfile_Open => policy 0 3 300 4
  | SecurityProfile_Balanced => policy 1 2 300 8
  | SecurityProfile_Strict => policy 2 1 600 4
  end.

Inductive SecurityError :=
  | SecurityError_InvalidPolicy (message : String.string)
  | SecurityError_InvalidRecord (message : String.string)
  | SecurityError_UnauthorizedTraining
  | SecurityError_StaleTraining
  | SecurityError_DuplicateTraining
  | SecurityError_TrainingEquivocation
  | SecurityError_Quarantined
  | SecurityError_TrainingBounds
  | SecurityError_InvalidEquivocationProof.

#[export] Instance SecurityError_eq_dec : EqDecision SecurityError.
Proof. solve_decision. Defined.

Definition SecurityPolicy_validate (self : SecurityPolicy) : result unit SecurityError :=
  fail_if ((self.(SecurityPolicy_max_events) =? 0)
           || (self.(SecurityPolicy_max_replay_entries) =? 0)
           || (self.(SecurityPolicy_max_claims) =? 0)
           || (self.(SecurityPolicy_quarantine_seconds) =? 0)
           || (self.(SecurityPolicy_challenge_window_seconds) =? 0)
           || (self.(SecurityPolicy_max_challenge_per_peer_window) =? 0)
           || (self.(SecurityPolicy_max_evaluators_per_source_group) =? 0)
           || (self.(SecurityPolicy_max_training_value) <=? 0)%Z
           || (self.(SecurityPolicy_direct_observation_ttl_seconds) =? 0))
    (SecurityError_InvalidPolicy "V6 security bounds must be positive").

Record SecurityEvent := mkSecurityEvent {
  SecurityEvent_sequence : N;
  SecurityEvent_observed_at : N;
  SecurityEvent_subject : option NodeId;
  SecurityEvent_kind : SecurityEventKind;
  SecurityEvent_scope : String.string;
  SecurityEvent_detail : String.string
}.

Record TrainingContribution := mkTrainingContribution {
  TrainingContribution_job_id : JobId;
  TrainingContribution_worker : NodeId;
  TrainingContribution_branch : ArtifactId;
  TrainingContribution_plan_generation : N;
  TrainingContribution_generation : N;
  TrainingContribution_sequence : N;
  TrainingContribution_values : list Z
}.

#[export] Instance TrainingContribution_eq_dec : EqDecision TrainingContribution.
Proof. solve_decision. Defined.

Record TrainingContext := mkTrainingContext {
  TrainingContext_job_id : JobId;
  TrainingContext_branch : ArtifactId;
  TrainingContext_plan_generation : N;
  TrainingContext_generation : N
}.

Inductive TrainingAdmission :=
  | TrainingAdmission_Accepted
  | TrainingAdmission_Duplicate.

#[export] Instance TrainingAdmission_eq_dec : EqDecision TrainingAdmission.
Proof. solve_decision. Defined.

Record CapabilityConfidence := mkCapabilityConfidence {
  CapabilityConfidence_successful_challenges : N;
  CapabilityConfidence_failed_challenges : N;
  CapabilityConfidence_successful_tasks : N;
  CapabilityConfidence_failed_tasks : N;
  CapabilityConfidence_last_observed_at : N
}.

Definition confidence_permille (self : CapabilityConfidence) : N :=
  let successes := sat_add u32_max self.(CapabilityConfidence_successful_challenges)
                     self.(CapabilityConfidence_successful_tasks) in
  let failures := sat_add u32_max self.(CapabilityConfidence_failed_challenges)
                    self.(CapabilityConfidence_failed_tasks) in
  let total := sat_add u32_max successes failures in
  if total =? 0 then 0
  else trunc u16_max (N.min (sat_mul u32_max successes 1000 / total) 1000).

Record PeerObservation := mkPeerObservation {
  PeerObservation_direct_successes : N;
  PeerObservation_direct_failures : N;
  PeerObservation_last_observed_at : N
}.

Record SignedStateClaim := mkSignedStateClaim {
  SignedStateClaim_signer : NodeId;
  SignedStateClaim_signer_public_key : list N;
  SignedStateClaim_object : String.string;
  SignedStateClaim_job_id : option JobId;
  SignedStateClaim_branch : option ArtifactId;
  SignedStateClaim_generation : N;
  SignedStateClaim_sequence : N;
  SignedStateClaim_digest : ArtifactId;
  SignedStateClaim_expires_at : N;
  SignedStateClaim_signature : list N
}.

Record EquivocationProof := mkEquivocationProof {
  EquivocationProof_first : SignedStateClaim;
  EquivocationProof_second : SignedStateClaim
}.

(** *** Keys of the maps, ordered field by field *)

Record ReplayKey := mkReplayKey {
  ReplayKey_job_id : JobId;
  ReplayKey_worker : NodeId;
  ReplayKey_branch : ArtifactId;
  ReplayKey_generation : N;
  ReplayKey_sequence : N
}.

#[export] Instance ReplayKey_ord : Ord ReplayKey :=
  Ord_via (fun k => (k.(ReplayKey_job_id), (k.(ReplayKey_worker), (k.(ReplayKey_branch),
                    (k.(ReplayKey_generation), k.(ReplayKey_sequence)))))).

#[export] Instance ReplayKey_ord_laws : OrdLaws ReplayKey.
Proof. apply OrdLaws_via. intros [] []; cbn. congruence. Qed.

Record StreamKey := mkStreamKey {
  StreamKey_job_id : JobId;
  StreamKey_worker : NodeId;
  StreamKey_branch : ArtifactId
}.

#[export] Instance StreamKey_ord : Ord StreamKey :=
  Ord_via (fun k => (k.(StreamKey_job_id), (k.(StreamKey_worker), k.(StreamKey_branch)))).

#[export] Instance StreamKey_ord_laws : OrdLaws StreamKey.
Proof. apply OrdLaws_via. intros [] []; cbn. congruence. Qed.

Record ClaimKey := mkClaimKey {
  ClaimKey_signer : NodeId;
  ClaimKey_object : String.string;
  ClaimKey_job_id : option JobId;
  ClaimKey_branch : option ArtifactId;
  ClaimKey_generation : N;
  ClaimKey_sequence : N
}.

#[export] Instance ClaimKey_ord : Ord ClaimKey :=
  Ord_via (fun k => (k.(ClaimKey_signer), (k.(ClaimKey_object), (k.(ClaimKey_job_id),
                    (k.(ClaimKey_branch), (k.(ClaimKey_generation), k.(ClaimKey_sequence))))))).

#[export] Instance ClaimKey_ord_laws : OrdLaws ClaimKey.
Proof. apply OrdLaws_via. intros [] []; cbn. congruence. Qed.

Record CapabilityKey := mkCapabilityKey {
  CapabilityKey_peer : NodeId;
  CapabilityKey_backend : BackendKind
}.

#[export] Instance CapabilityKey_ord : Ord CapabilityKey :=
  Ord_via (fun k => (k.(CapabilityKey_peer), k.(CapabilityKey_backend))).

#[export] Instance CapabilityKey_ord_laws : OrdLaws CapabilityKey.
Proof. apply OrdLaws_via. intros [] []; cbn. congruence. Qed.

Record TrustAssessment := mkTrustAssessment {
  TrustAssessment_peer : NodeId;
  TrustAssessment_score : Z;
  TrustAssessment_maturity : IdentityMaturity;
  TrustAssessment_direct_successes : N;
  TrustAssessment_direct_failures : N;
  TrustAssessment_quarantined : bool;
  TrustAssessment_reason : String.string
}.

Record LocalSecurityState := mkLocalSecurityState {
  LocalSecurityState_local_node : NodeId;
  LocalSecurityState_policy : SecurityPolicy;
  LocalSecurityState_events : list SecurityEvent;
  LocalSecurityState_replay : BTreeMap ReplayKey ArtifactId;
  LocalSecurityState_rejected_replay : BTreeMap ReplayKey ArtifactId;
  LocalSecurityState_latest : BTreeMap StreamKey (N * N);
  LocalSecurityState_contexts : BTreeMap JobId TrainingContext;
  LocalSecurityState_claims : BTreeMap ClaimKey SignedStateClaim;
  LocalSecurityState_authenticated_claims : BTreeMap ClaimKey ArtifactId;
  LocalSecurityState_quarantined : BTreeMap NodeId N;
  LocalSecurityState_capabilities : BTreeMap CapabilityKey CapabilityConfidence;
  LocalSecurityState_observations : BTreeMap NodeId PeerObservation;
  LocalSecurityState_next_event_sequence : N
}.

(** Field updates. *)
Definition set_events (self : LocalSecurityState) (events : list SecurityEvent)
    (next_event_sequence : N) : LocalSecurityState :=
  {| LocalSecurityState_local_node := self.(LocalSecurityState_local_node);
     LocalSecurityState_policy := self.(LocalSecurityState_policy);
     LocalSecurityState_events := events;
     LocalSecurityState_replay := self.(LocalSecurityState_replay);
     LocalSecurityState_rejected_replay := self.(LocalSecurityState_rejected_replay);
     LocalSecurityState_latest := self.(LocalSecurityState_latest);
     LocalSecurityState_contexts := self.(LocalSecurityState_contexts);
     LocalSecurityState_claims := self.(LocalSecurityState_claims);
     LocalSecurityState_authenticated_claims := self.(LocalSecurityState_authenticated_claims);
     LocalSecurityState_quarantined := self.(LocalSecurityState_quarantined);
     LocalSecurityState_capabilities := self.(LocalSecurityState_capabilities);
     LocalSecurityState_observations := self.(LocalSecurityState_observations);
     LocalSecurityState_next_event_sequence := next_event_sequence |}.

Definition set_replay (self : LocalSecurityState) (replay : BTreeMap ReplayKey ArtifactId)
    : LocalSecurityState :=
  {| LocalSecurityState_local_node := self.(LocalSecurityState_local_node);
     LocalSecurityState_policy := self.(LocalSecurityState_policy);
     LocalSecurityState_events := self.(LocalSecurityState_events);
     LocalSecurityState_replay := replay;
     LocalSecurityState_rejected_replay := self.(LocalSecurityState_rejected_replay);
     LocalSecurityState_latest := self.(LocalSecurityState_latest);
     LocalSecurityState_contexts := self.(LocalSecurityState_contexts);
     LocalSecurityState_claims := self.(LocalSecurityState_claims);
     LocalSecurityState_authenticated_claims := self.(LocalSecurityState_authenticated_claims);
     LocalSecurityState_quarantined := self.(LocalSecurityState_quarantined);
     LocalSecurityState_capabilities := self.(LocalSecurityState_capabilities);
     LocalSecurityState_observations := self.(LocalSecurityState_observations);
     LocalSecurityState_next_event_sequence := self.(LocalSecurityState_next_event_sequence) |}.

Definition set_rejected_replay (self : LocalSecurityState) (rejected_replay : BTreeMap ReplayKey ArtifactId)
    : LocalSecurityState :=
  {| LocalSecurityState_local_node := self.(LocalSecurityState_local_node);
     LocalSecurityState_policy := self.(LocalSecurityState_policy);
     LocalSecurityState_events := self.(LocalSecurityState_events);
     LocalSecurityState_replay := self.(LocalSecurityState_replay);
     LocalSecurityState_rejected_replay := rejected_replay;
     LocalSecurityState_latest := self.(LocalSecurityState_latest);
     LocalSecurityState_contexts := self.(LocalSecurityState_contexts);
     LocalSecurityState_claims := self.(LocalSecurityState_claims);
     LocalSecurityState_authenticated_claims := self.(LocalSecurityState_authenticated_claims);
     LocalSecurityState_quarantined := self.(LocalSecurityState_quarantined);
     LocalSecurityState_capabilities := self.(LocalSecurityState_capabilities);
     LocalSecurityState_observations := self.(LocalSecurityState_observations);
     LocalSecurityState_next_event_sequence := self.(LocalSecurityState_next_event_sequence) |}.

Definition set_latest (self : LocalSecurityState) (latest : BTreeMap StreamKey (N * N))
    : LocalSecurityState :=
  {| LocalSecurityState_local_node := self.(LocalSecurityState_local_node);
     LocalSecurityState_policy := self.(LocalSecurityState_policy);
     LocalSecurityState_events := self.(LocalSecurityState_events);
     LocalSecurityState_replay := self.(LocalSecurityState_replay);
     LocalSecurityState_rejected_replay := self.(LocalSecurityState_rejected_replay);
     LocalSecurityState_latest := latest;
     LocalSecurityState_contexts := self.(LocalSecurityState_contexts);
     LocalSecurityState_claims := self.(LocalSecurityState_claims);
     LocalSecurityState_authenticated_claims := self.(LocalSecurityState_authenticated_claims);
     LocalSecurityState_quarantined := self.(LocalSecurityState_quarantined);
     LocalSecurityState_capabilities := self.(LocalSecurityState_capabilities);
     LocalSecurityState_observations := self.(LocalSecurityState_observations);
     LocalSecurityState_next_event_sequence := self.(LocalSecurityState_next_event_sequence) |}.

Definition set_contexts (self : LocalSecurityState) (contexts : BTreeMap JobId TrainingContext)
    : LocalSecurityState :=
  {| LocalSecurityState_local_node := self.(LocalSecurityState_local_node);
     LocalSecurityState_policy := self.(LocalSecurityState_policy);
     LocalSecurityState_events := self.(LocalSecurityState_events);
     LocalSecurityState_replay := self.(LocalSecurityState_replay);
     LocalSecurityState_rejected_replay := self.(LocalSecurityState_rejected_replay);
     LocalSecurityState_latest := self.(LocalSecurityState_latest);
     LocalSecurityState_contexts := contexts;
     LocalSecurityState_claims := self.(LocalSecurityState_claims);
     LocalSecurityState_authenticated_claims := self.(LocalSecurityState_authenticated_claims);
     LocalSecurityState_quarantined := self.(LocalSecurityState_quarantined);
     LocalSecurityState_capabilities := self.(LocalSecurityState_capabilities);
     LocalSecurityState_observations := self.(LocalSecurityState_observations);
     LocalSecurityState_next_event_sequence := self.(LocalSecurityState_next_event_sequence) |}.

Definition set_claims (self : LocalSecurityState) (claims : BTreeMap ClaimKey SignedStateClaim)
    : LocalSecurityState :=
  {| LocalSecurityState_local_node := self.(LocalSecurityState_local_node);
     LocalSecurityState_policy := self.(LocalSecurityState_policy);
     LocalSecurityState_events := self.(LocalSecurityState_events);
     LocalSecurityState_replay := self.(LocalSecurityState_replay);
     LocalSecurityState_rejected_replay := self.(LocalSecurityState_rejected_replay);
     LocalSecurityState_latest := self.(LocalSecurityState_latest);
     LocalSecurityState_contexts := self.(LocalSecurityState_contexts);
     LocalSecurityState_claims := claims;
     LocalSecurityState_authenticated_claims := self.(LocalSecurityState_authenticated_claims);
     LocalSecurityState_quarantined := self.(LocalSecurityState_quarantined);
     LocalSecurityState_capabilities := self.(LocalSecurityState_capabilities);
     LocalSecurityState_observations := self.(LocalSecurityState_observations);
     LocalSecurityState_next_event_sequence := self.(LocalSecurityState_next_event_sequence) |}.

Definition set_authenticated_claims (self : LocalSecurityState) (authenticated_claims : BTreeMap ClaimKey ArtifactId)
    : LocalSecurityState :=
  {| LocalSecurityState_local_node := self.(LocalSecurityState_local_node);
     LocalSecurityState_policy := self.(LocalSecurityState_policy);
     LocalSecurityState_events := self.(LocalSecurityState_events);
     LocalSecurityState_replay := self.(LocalSecurityState_replay);
     LocalSecurityState_rejected_replay := self.(LocalSecurityState_rejected_replay);
     LocalSecurityState_latest := self.(LocalSecurityState_latest);
     LocalSecurityState_contexts := self.(LocalSecurityState_contexts);
     LocalSecurityState_claims := self.(LocalSecurityState_claims);
     LocalSecurityState_authenticated_claims := authenticated_claims;
     LocalSecurityState_quarantined := self.(LocalSecurityState_quarantined);
     LocalSecurityState_capabilities := self.(LocalSecurityState_capabilities);
     LocalSecurityState_observations := self.(LocalSecurityState_observations);
     LocalSecurityState_next_event_sequence := self.(LocalSecurityState_next_event_sequence) |}.

Definition set_quarantined (self : LocalSecurityState) (quarantined : BTreeMap NodeId N)
    : LocalSecurityState :=
  {| LocalSecurityState_local_node := self.(LocalSecurityState_local_node);
     LocalSecurityState_policy := self.(LocalSecurityState_policy);
     LocalSecurityState_events := self.(LocalSecurityState_events);
     LocalSecurityState_replay := self.(LocalSecurityState_replay);
     LocalSecurityState_rejected_replay := self.(LocalSecurityState_rejected_replay);
     LocalSecurityState_latest := self.(LocalSecurityState_latest);
     LocalSecurityState_contexts := self.(LocalSecurityState_contexts);
     LocalSecurityState_claims := self.(LocalSecurityState_claims);
     LocalSecurityState_authenticated_claims := self.(LocalSecurityState_authenticated_claims);
     LocalSecurityState_quarantined := quarantined;
     LocalSecurityState_capabilities := self.(LocalSecurityState_capabilities);
     LocalSecurityState_observations := self.(LocalSecurityState_observations);
     LocalSecurityState_next_event_sequence := self.(LocalSecurityState_next_event_sequence) |}.

Definition set_capabilities (self : LocalSecurityState) (capabilities : BTreeMap CapabilityKey CapabilityConfidence)
    : LocalSecurityState :=
  {| LocalSecurityState_local_node := self.(LocalSecurityState_local_node);
     LocalSecurityState_policy := self.(LocalSecurityState_policy);
     LocalSecurityState_events := self.(LocalSecurityState_events);
     LocalSecurityState_replay := self.(LocalSecurityState_replay);
     LocalSecurityState_rejected_replay := self.(LocalSecurityState_rejected_replay);
     LocalSecurityState_latest := self.(LocalSecurityState_latest);
     LocalSecurityState_contexts := self.(LocalSecurityState_contexts);
     LocalSecurityState_claims := self.(LocalSecurityState_claims);
     LocalSecurityState_authenticated_claims := self.(LocalSecurityState_authenticated_claims);
     LocalSecurityState_quarantined := self.(LocalSecurityState_quarantined);
     LocalSecurityState_capabilities := capabilities;
     LocalSecurityState_observations := self.(LocalSecurityState_observations);
     LocalSecurityState_next_event_sequence := self.(LocalSecurityState_next_event_sequence) |}.

Definition set_observations (self : LocalSecurityState) (observations : BTreeMap NodeId PeerObservation)
    : LocalSecurityState :=
  {| LocalSecurityState_local_node := self.(LocalSecurityState_local_node);
     LocalSecurityState_policy := self.(LocalSecurityState_policy);
     LocalSecurityState_events := self.(LocalSecurityState_events);
     LocalSecurityState_replay := self.(LocalSecurityState_replay);
     LocalSecurityState_rejected_replay := self.(LocalSecurityState_rejected_replay);
     LocalSecurityState_latest := self.(LocalSecurityState_latest);
     LocalSecurityState_contexts := self.(LocalSecurityState_contexts);
     LocalSecurityState_claims := self.(LocalSecurityState_claims);
     LocalSecurityState_authenticated_claims := self.(LocalSecurityState_authenticated_claims);
     LocalSecurityState_quarantined := self.(LocalSecurityState_quarantined);
     LocalSecurityState_capabilities := self.(LocalSecurityState_capabilities);
     LocalSecurityState_observations := observations;
     LocalSecurityState_next_event_sequence := self.(LocalSecurityState_next_event_sequence) |}.

Definition LocalSecurityState_new (local_node : NodeId) (policy : SecurityPolicy)
    : result LocalSecurityState SecurityError :=
  SecurityPolicy_validate policy ;?
  Ok {| LocalSecurityState_local_node := local_node;
        LocalSecurityState_policy := policy;
        LocalSecurityState_events := [];
        LocalSecurityState_replay := [];
        LocalSecurityState_rejected_replay := [];
        LocalSecurityState_latest := [];
        LocalSecurityState_contexts := [];
        LocalSecurityState_claims := [];
        LocalSecurityState_authenticated_claims := [];
        LocalSecurityState_quarantined := [];
        LocalSecurityState_capabilities := [];
        LocalSecurityState_observations := [];
        LocalSecurityState_next_event_sequence := 1 |}.

Definition LocalSecurityState_validate (self : LocalSecurityState) : result unit SecurityError :=
  let policy := self.(LocalSecurityState_policy) in
  SecurityPolicy_validate policy ;?
  fail_if ((self.(LocalSecurityState_local_node) == NodeId_default)
           || (policy.(SecurityPolicy_max_events) <? len self.(LocalSecurityState_events))
           || (policy.(SecurityPolicy_max_replay_entries) <? len self.(LocalSecurityState_replay))
           || (policy.(SecurityPolicy_max_replay_entries)
               <? len self.(LocalSecurityState_rejected_replay))
           || (policy.(SecurityPolicy_max_claims) <? len self.(LocalSecurityState_claims))
           || (policy.(SecurityPolicy_max_claims)
               <? len self.(LocalSecurityState_authenticated_claims)))
    (SecurityError_InvalidRecord "persisted V6 security state exceeds local bounds") ;?
  fail_if (existsb (fun event =>
             (MAX_SECURITY_SCOPE <? slen event.(SecurityEvent_scope))
             || (MAX_SECURITY_DETAIL <? slen event.(SecurityEvent_detail)))
           self.(LocalSecurityState_events))
    (SecurityError_InvalidRecord "persisted security event exceeds local bounds").

(** ** Events *)

(** A UTF-8 continuation byte. *)
Definition is_continuation (c : ascii) : bool := (128 <=? N_of_ascii c) && (N_of_ascii c <? 192).

(** [value.chars().take(max).collect()]: a character is a leading byte with its
    continuation bytes. *)
Fixpoint truncate_chars (max : nat) (value : String.string) : String.string :=
  match value with
  | EmptyString => EmptyString
  | String c value =>
      if is_continuation c then String c (truncate_chars max value)
      else match max with
           | O => EmptyString
           | S max => String c (truncate_chars max value)
           end
  end.

Definition event (self : LocalSecurityState) (observed_at : N) (subject : option NodeId)
    (kind : SecurityEventKind) (scope detail : String.string) : LocalSecurityState :=
  let scope := truncate_chars (N.to_nat MAX_SECURITY_SCOPE) scope in
  let detail := truncate_chars (N.to_nat MAX_SECURITY_DETAIL) detail in
  let events := self.(LocalSecurityState_events) in
  if existsb (fun event =>
       (event.(SecurityEvent_subject) == subject) && (event.(SecurityEvent_kind) == kind)
       && (event.(SecurityEvent_scope) == scope) && (event.(SecurityEvent_detail) == detail)) events
  then self
  else
    let events := if self.(LocalSecurityState_policy).(SecurityPolicy_max_events) <=? len events
                  then drop 1 events else events in
    let sequence := self.(LocalSecurityState_next_event_sequence) in
    set_events self
      (events ++ [mkSecurityEvent sequence observed_at subject kind scope detail])
      (sat_add u64_max sequence 1).

Definition record_event (self : LocalSecurityState) (observed_at : N) (subject : option NodeId)
    (kind : SecurityEventKind) (scope detail : String.string) : LocalSecurityState :=
  event self observed_at subject kind scope detail.

(** ** Quarantine *)

Definition is_quarantined (self : LocalSecurityState) (peer : NodeId) (now : N)
    : bool * LocalSecurityState :=
  let quarantined := bt_retain (fun _ until => now <=? until) self.(LocalSecurityState_quarantined) in
  (match bt_get peer quarantined with Some until => now <=? until | None => false end,
   set_quarantined self quarantined).

Definition quarantine (self : LocalSecurityState) (peer : NodeId) (now : N)
    (kind : SecurityEventKind) (detail : String.string) : LocalSecurityState :=
  let until := sat_add u64_max now
                 self.(LocalSecurityState_policy).(SecurityPolicy_quarantine_seconds) in
  let until := match bt_get peer self.(LocalSecurityState_quarantined) with
               | Some value => N.max value until
               | None => until
               end in
  let self := set_quarantined self (bt_insert peer until self.(LocalSecurityState_quarantined)) in
  let self := event self now (Some peer) kind "quarantine" detail in
  event self now (Some peer) SecurityEventKind_PeerQuarantined "quarantine"
    "local quarantine applied; no network-wide ban was published".

(** ** Training *)

(** [while map.len() >= max_entries { remove the first key }]; every round removes an entry,
    so the length of the map is enough fuel. *)
Fixpoint bound_map_loop {K V} `{Ord K} (fuel : nat) (map : BTreeMap K V) (max_entries : N)
    : BTreeMap K V :=
  match fuel with
  | O => map
  | S fuel =>
      if max_entries <=? len map then
        match bt_first_key map with
        | None => map
        | Some key => bound_map_loop fuel (bt_remove key map) max_entries
        end
      else map
  end.

Definition bound_map {K V} `{Ord K} (map : BTreeMap K V) (max_entries : N) : BTreeMap K V :=
  bound_map_loop (length map) map max_entries.

Definition bound_replay (self : LocalSecurityState) : LocalSecurityState :=
  set_replay self (bound_map self.(LocalSecurityState_replay)
    self.(LocalSecurityState_policy).(SecurityPolicy_max_replay_entries)).

Definition observe_context (self : LocalSecurityState) (context : TrainingContext) (now : N)
    : result unit SecurityError * LocalSecurityState :=
  let accept := (Ok tt, set_contexts self
    (bt_insert context.(TrainingContext_job_id) context self.(LocalSecurityState_contexts))) in
  if (context.(TrainingContext_job_id) == JobId_default)
     || (context.(TrainingContext_branch) == ArtifactId_default)
     || (context.(TrainingContext_plan_generation) =? 0)
     || (context.(TrainingContext_generation) =? 0)
  then (Err (SecurityError_InvalidRecord "training context lineage is incomplete"),
        event self now None SecurityEventKind_InvalidStateRejected "training_context"
          "zero or missing lineage field")
  else
    match bt_get context.(TrainingContext_job_id) self.(LocalSecurityState_contexts) with
    | Some previous =>
        if (context.(TrainingContext_plan_generation) <? previous.(TrainingContext_plan_generation))
           || (context.(TrainingContext_generation) <? previous.(TrainingContext_generation))
        then (Err SecurityError_StaleTraining,
              event self now None SecurityEventKind_StaleStateRejected "training_context"
                "older plan or model generation")
        else if (context.(TrainingContext_plan_generation)
                   =? previous.(TrainingContext_plan_generation))
                && (context.(TrainingContext_generation) =? previous.(TrainingContext_generation))
                && (context.(TrainingContext_branch) != previous.(TrainingContext_branch))
        then (Err SecurityError_TrainingEquivocation,
              event self now None SecurityEventKind_EquivocationDetected "training_context"
                "conflicting branch at the same generation")
        else accept
    | None => accept
    end.

(** [postcard::to_allocvec] at the tuple of contribution fields; [None] when it fails. *)
Class ContributionPostcard := contribution_to_allocvec :
  JobId * NodeId * ArtifactId * N * N * N * list Z -> option (list N).

(** [postcard::to_allocvec] at the tuple of claim fields. *)
Class ClaimPostcard := claim_to_allocvec :
  NodeId * list N * String.string * option JobId * option ArtifactId * N * N * ArtifactId * N
  -> result (list N) String.string.

Section Security.
Context `{Blake3} `{Ed25519} `{ContributionPostcard} `{ClaimPostcard}.

Definition contribution_digest (contribution : TrainingContribution) : ArtifactId :=
  let bytes := default [] (contribution_to_allocvec
    (contribution.(TrainingContribution_job_id), contribution.(TrainingContribution_worker),
     contribution.(TrainingContribution_branch), contribution.(TrainingContribution_plan_generation),
     contribution.(TrainingContribution_generation), contribution.(TrainingContribution_sequence),
     contribution.(TrainingContribution_values))) in
  ArtifactId_from_bytes_hashed bytes.

(** The lineage, vector and magnitude checks. *)
Definition contribution_out_of_bounds (self : LocalSecurityState) (c : TrainingContribution) : bool :=
  (c.(TrainingContribution_job_id) == JobId_default)
  || (c.(TrainingContribution_branch) == ArtifactId_default)
  || (c.(TrainingContribution_plan_generation) =? 0)
  || (c.(TrainingContribution_generation) =? 0)
  || (c.(TrainingContribution_sequence) =? 0)
  || is_empty c.(TrainingContribution_values)
  || (MAX_V4_VECTOR <? len c.(TrainingContribution_values))
  || existsb (fun value =>
       unsigned_abs self.(LocalSecurityState_policy).(SecurityPolicy_max_training_value)
       <? unsigned_abs value) c.(TrainingContribution_values).

Definition replay_key (c : TrainingContribution) : ReplayKey :=
  {| ReplayKey_job_id := c.(TrainingContribution_job_id);
     ReplayKey_worker := c.(TrainingContribution_worker);
     ReplayKey_branch := c.(TrainingContribution_branch);
     ReplayKey_generation := c.(TrainingContribution_generation);
     ReplayKey_sequence := c.(TrainingContribution_sequence) |}.

Definition stream_key (c : TrainingContribution) : StreamKey :=
  {| StreamKey_job_id := c.(TrainingContribution_job_id);
     StreamKey_worker := c.(TrainingContribution_worker);
     StreamKey_branch := c.(TrainingContribution_branch) |}.

Definition contribution_context (c : TrainingContribution) : TrainingContext :=
  {| TrainingContext_job_id := c.(TrainingContribution_job_id);
     TrainingContext_branch := c.(TrainingContribution_branch);
     TrainingContext_plan_generation := c.(TrainingContribution_plan_generation);
     TrainingContext_generation := c.(TrainingContribution_generation) |}.

(** [self.latest.get(&stream)] is ahead of the contribution. *)
Definition behind_latest (self : LocalSecurityState) (c : TrainingContribution) : bool :=
  match bt_get (stream_key c) self.(LocalSecurityState_latest) with
  | Some (generation, sequence) =>
      (c.(TrainingContribution_generation) <? generation)
      || ((c.(TrainingContribution_generation) =? generation)
          && (c.(TrainingContribution_sequence) <? sequence))
  | None => false
  end.

Definition admit_training_update (self : LocalSecurityState) (contribution : TrainingContribution)
    (members : list NodeId) (now : N) : result TrainingAdmission SecurityError * LocalSecurityState :=
  let worker := contribution.(TrainingContribution_worker) in
  let reject self kind detail := event self now (Some worker) kind "training_update" detail in
  if negb (contains worker members)
  then (Err SecurityError_UnauthorizedTraining,
        reject self SecurityEventKind_TrainingUpdateRejected
          "worker is outside the authenticated job membership")
  else if contribution_out_of_bounds self contribution
  then (Err SecurityError_TrainingBounds,
        reject self SecurityEventKind_TrainingUpdateRejected
          "lineage, vector, or magnitude bound failed")
  else
    let digest := contribution_digest contribution in
    let key := replay_key contribution in
    if (bt_get key self.(LocalSecurityState_replay) == Some digest)
       || (bt_get key self.(LocalSecurityState_rejected_replay) == Some digest)
    then (Err SecurityError_DuplicateTraining,
          reject self SecurityEventKind_DuplicateContributionRejected
            "same signed contribution was submitted twice")
    else
      let (quarantined, self) := is_quarantined self worker now in
      if quarantined
      then (Err SecurityError_Quarantined,
            reject self SecurityEventKind_TrainingUpdateRejected "worker is locally quarantined")
      else
        let (context, self) := observe_context self (contribution_context contribution) now in
        match context with
        | Err error => (Err error, self)
        | Ok _ =>
            if behind_latest self contribution
            then (Err SecurityError_StaleTraining,
                  reject self SecurityEventKind_StaleStateRejected "older generation or sequence")
            else if bt_contains key self.(LocalSecurityState_replay)
            then
              let rejected := bound_map self.(LocalSecurityState_rejected_replay)
                self.(LocalSecurityState_policy).(SecurityPolicy_max_replay_entries) in
              let rejected := match bt_get key rejected with
                              | Some _ => rejected
                              | None => bt_insert key digest rejected
                              end in
              let self := set_rejected_replay self rejected in
              (Err SecurityError_TrainingEquivocation,
               quarantine self worker now SecurityEventKind_EquivocationDetected
                 "same contribution sequence carried different values")
            else
              let self := bound_replay self in
              let self := set_replay self (bt_insert key digest self.(LocalSecurityState_replay)) in
              let self := set_latest self
                (bt_insert (stream_key contribution)
                   (contribution.(TrainingContribution_generation),
                    contribution.(TrainingContribution_sequence))
                   self.(LocalSecurityState_latest)) in
              (Ok TrainingAdmission_Accepted, self)
        end.
End Security.

(** ** Observations and capabilities *)

Definition record_direct_observation (self : LocalSecurityState) (peer : NodeId) (success : bool)
    (now : N) : LocalSecurityState :=
  let observation := default (mkPeerObservation 0 0 now)
    (bt_get peer self.(LocalSecurityState_observations)) in
  let observation :=
    if success
    then mkPeerObservation (sat_add u32_max observation.(PeerObservation_direct_successes) 1)
           observation.(PeerObservation_direct_failures) now
    else mkPeerObservation observation.(PeerObservation_direct_successes)
           (sat_add u32_max observation.(PeerObservation_direct_failures) 1) now in
  let self := set_observations self
    (bt_insert peer observation self.(LocalSecurityState_observations)) in
  if success then self
  else event self now (Some peer) SecurityEventKind_TrainingUpdateRejected "direct_observation"
         "direct job observation failed".

(** The entry of a capability, empty when it is new. *)
Definition capability_entry (self : LocalSecurityState) (key : CapabilityKey) (now : N)
    : CapabilityConfidence :=
  default (mkCapabilityConfidence 0 0 0 0 now) (bt_get key self.(LocalSecurityState_capabilities)).

Definition record_capability_challenge (self : LocalSecurityState) (peer : NodeId)
    (backend : BackendKind) (success : bool) (now : N) : LocalSecurityState :=
  let key := mkCapabilityKey peer backend in
  let c := capability_entry self key now in
  let c := mkCapabilityConfidence
    (if success then sat_add u32_max c.(CapabilityConfidence_successful_challenges) 1
     else c.(CapabilityConfidence_successful_challenges))
    (if success then c.(CapabilityConfidence_failed_challenges)
     else sat_add u32_max c.(CapabilityConfidence_failed_challenges) 1)
    c.(CapabilityConfidence_successful_tasks) c.(CapabilityConfidence_failed_tasks) now in
  let self := set_capabilities self (bt_insert key c self.(LocalSecurityState_capabilities)) in
  if success then self
  else event self now (Some peer) SecurityEventKind_CapabilityFailed "capability_challenge"
         "challenge result did not verify the advertised backend".

Definition record_capability_task (self : LocalSecurityState) (peer : NodeId)
    (backend : BackendKind) (success : bool) (now : N) : LocalSecurityState :=
  let key := mkCapabilityKey peer backend in
  let c := capability_entry self key now in
  let c := mkCapabilityConfidence
    c.(CapabilityConfidence_successful_challenges) c.(CapabilityConfidence_failed_challenges)
    (if success then sat_add u32_max c.(CapabilityConfidence_successful_tasks) 1
     else c.(CapabilityConfidence_successful_tasks))
    (if success then c.(CapabilityConfidence_failed_tasks)
     else sat_add u32_max c.(CapabilityConfidence_failed_tasks) 1) now in
  set_capabilities self (bt_insert key c self.(LocalSecurityState_capabilities)).

Definition capability_confidence (self : LocalSecurityState) (peer : NodeId)
    (backend : BackendKind) : option CapabilityConfidence :=
  bt_get (mkCapabilityKey peer backend) self.(LocalSecurityState_capabilities).

(** The observation that still counts at [now]. *)
Definition current_observation (self : LocalSecurityState) (peer : NodeId) (now : N)
    : PeerObservation :=
  let observation := default (mkPeerObservation 0 0 0)
    (bt_get peer self.(LocalSecurityState_observations)) in
  if (observation.(PeerObservation_last_observed_at) =? 0)
     || (sat_sub now observation.(PeerObservation_last_observed_at)
         <=? self.(LocalSecurityState_policy).(SecurityPolicy_direct_observation_ttl_seconds))
  then observation
  else mkPeerObservation 0 0 observation.(PeerObservation_last_observed_at).

Definition assessment_reason (maturity : IdentityMaturity) : String.string :=
  match maturity with
  | IdentityMaturity_New => "no direct local observation"
  | IdentityMaturity_Observed => "bounded direct observation exists"
  | IdentityMaturity_Established => "repeated direct observation exists"
  | IdentityMaturity_TrustedLocally => "local trust threshold satisfied"
  | IdentityMaturity_Degraded => "recent direct failures outweigh successes"
  | IdentityMaturity_Quarantined => "temporary local quarantine is active"
  end.

(** The scores are [i16]; 20 * 12 is far below its limit, so nothing saturates. *)
Definition assessment (self : LocalSecurityState) (peer : NodeId) (now : N)
    : TrustAssessment * LocalSecurityState :=
  let observation := current_observation self peer now in
  let (quarantined, self) := is_quarantined self peer now in
  let positive := (Z.of_N (N.min observation.(PeerObservation_direct_successes) 20) * 5)%Z in
  let negative := (Z.of_N (N.min observation.(PeerObservation_direct_failures) 20) * 12)%Z in
  let score := Z.max (-100) (Z.min (positive - negative) 100) in
  let maturity :=
    if quarantined then IdentityMaturity_Quarantined
    else if (score <? 0)%Z then IdentityMaturity_Degraded
    else if 3 <=? observation.(PeerObservation_direct_successes) then IdentityMaturity_Established
    else if 0 <? observation.(PeerObservation_direct_successes) then IdentityMaturity_Observed
    else IdentityMaturity_New in
  ({| TrustAssessment_peer := peer;
      TrustAssessment_score := score;
      TrustAssessment_maturity := maturity;
      TrustAssessment_direct_successes := observation.(PeerObservation_direct_successes);
      TrustAssessment_direct_failures := observation.(PeerObservation_direct_failures);
      TrustAssessment_quarantined := quarantined;
      TrustAssessment_reason := assessment_reason maturity |}, self).

Definition eligible_for_critical_role (self : LocalSecurityState) (peer : NodeId)
    (role : CriticalRole) (now : N) : bool * LocalSecurityState :=
  let (quarantined, self) := is_quarantined self peer now in
  if quarantined then (false, self)
  else
    let (assessment, self) := assessment self peer now in
    let policy := self.(LocalSecurityState_policy) in
    let requires_observation :=
      match role with CriticalRole_PlanParticipant => false | _ => true end
      && match policy.(SecurityPolicy_profile) with SecurityProfile_Open => false | _ => true end in
    ((negb requires_observation
      || (trunc u32_max policy.(SecurityPolicy_min_direct_successes_for_critical_role)
          <=? assessment.(TrustAssessment_direct_successes)))
     && (assessment.(TrustAssessment_direct_failures)
         <=? trunc u32_max policy.(SecurityPolicy_max_direct_failures_for_critical_role))
     && (assessment.(TrustAssessment_maturity) != IdentityMaturity_Degraded)
     && (assessment.(TrustAssessment_maturity) != IdentityMaturity_Quarantined), self).

(** ** Claims *)

Section Claims.
Context `{Blake3} `{Ed25519} `{ClaimPostcard}.

Definition claim_signing_bytes (claim : SignedStateClaim) : result (list N) SecurityError :=
  map_err SecurityError_InvalidRecord
    (claim_to_allocvec
       (claim.(SignedStateClaim_signer), claim.(SignedStateClaim_signer_public_key),
        claim.(SignedStateClaim_object), claim.(SignedStateClaim_job_id),
        claim.(SignedStateClaim_branch), claim.(SignedStateClaim_generation),
        claim.(SignedStateClaim_sequence), claim.(SignedStateClaim_digest),
        claim.(SignedStateClaim_expires_at))).

Definition verify_claim (claim : SignedStateClaim) (now : N) : result unit SecurityError :=
  fail_if ((claim.(SignedStateClaim_signer)
            != NodeId_from_public_key claim.(SignedStateClaim_signer_public_key))
           || (claim.(SignedStateClaim_expires_at) <? now)
           || (claim.(SignedStateClaim_object) == EmptyString)
           || (MAX_CLAIM_KEY <? slen claim.(SignedStateClaim_object)))
    (SecurityError_InvalidRecord "claim identity or expiry is invalid") ;?
  let? bytes := claim_signing_bytes claim in
  fail_if (negb (ed25519_verify claim.(SignedStateClaim_signer_public_key) bytes
                   claim.(SignedStateClaim_signature)))
    SecurityError_InvalidEquivocationProof.

Definition EquivocationProof_verify (self : EquivocationProof) (now : N) : bool :=
  let first := self.(EquivocationProof_first) in
  let second := self.(EquivocationProof_second) in
  (first.(SignedStateClaim_signer) == second.(SignedStateClaim_signer))
  && (first.(SignedStateClaim_signer_public_key) == second.(SignedStateClaim_signer_public_key))
  && (first.(SignedStateClaim_object) == second.(SignedStateClaim_object))
  && (first.(SignedStateClaim_job_id) == second.(SignedStateClaim_job_id))
  && (first.(SignedStateClaim_branch) == second.(SignedStateClaim_branch))
  && (first.(SignedStateClaim_generation) =? second.(SignedStateClaim_generation))
  && (first.(SignedStateClaim_sequence) =? second.(SignedStateClaim_sequence))
  && (first.(SignedStateClaim_digest) != second.(SignedStateClaim_digest))
  && is_ok (verify_claim first now)
  && is_ok (verify_claim second now).

Definition claim_key (claim : SignedStateClaim) : ClaimKey :=
  {| ClaimKey_signer := claim.(SignedStateClaim_signer);
     ClaimKey_object := claim.(SignedStateClaim_object);
     ClaimKey_job_id := claim.(SignedStateClaim_job_id);
     ClaimKey_branch := claim.(SignedStateClaim_branch);
     ClaimKey_generation := claim.(SignedStateClaim_generation);
     ClaimKey_sequence := claim.(SignedStateClaim_sequence) |}.

(** [if map.len() >= max { remove the first key }] *)
Definition make_room {K V} `{Ord K} (max : N) (map : BTreeMap K V) : BTreeMap K V :=
  if max <=? len map then
    match bt_first_key map with
    | Some key => bt_remove key map
    | None => map
    end
  else map.

Definition observe_claim (self : LocalSecurityState) (claim : SignedStateClaim) (now : N)
    : result (option EquivocationProof) SecurityError * LocalSecurityState :=
  match verify_claim claim now with
  | Err error => (Err error, self)
  | Ok _ =>
      if (MAX_CLAIM_KEY <? slen claim.(SignedStateClaim_object))
         || (claim.(SignedStateClaim_signer) == NodeId_default)
         || (claim.(SignedStateClaim_sequence) =? 0)
         || (claim.(SignedStateClaim_generation) =? 0)
         || (claim.(SignedStateClaim_digest) == ArtifactId_default)
      then (Err (SecurityError_InvalidRecord "state claim bounds are invalid"), self)
      else
        let key := claim_key claim in
        match bt_get key self.(LocalSecurityState_claims) with
        | Some previous =>
            if previous.(SignedStateClaim_digest) == claim.(SignedStateClaim_digest)
            then (Ok None, self)
            else
              let proof := mkEquivocationProof previous claim in
              if negb (EquivocationProof_verify proof now)
              then (Err SecurityError_InvalidEquivocationProof, self)
              else (Ok (Some proof),
                    quarantine self claim.(SignedStateClaim_signer) now
                      SecurityEventKind_EquivocationDetected
                      "two valid signed claims conflict at one generation and sequence")
        | None =>
            let claims := make_room self.(LocalSecurityState_policy).(SecurityPolicy_max_claims)
                            self.(LocalSecurityState_claims) in
            (Ok None, set_claims self (bt_insert key claim claims))
        end
  end.
End Claims.

Definition observe_authenticated_claim (self : LocalSecurityState) (signer : NodeId)
    (object : String.string) (job_id : option JobId) (branch : option ArtifactId)
    (generation sequence : N) (digest : ArtifactId) (now : N)
    : result bool SecurityError * LocalSecurityState :=
  if (signer == NodeId_default) || (object == EmptyString) || (MAX_CLAIM_KEY <? slen object)
     || (generation =? 0) || (sequence =? 0) || (digest == ArtifactId_default)
  then (Err (SecurityError_InvalidRecord "authenticated state claim bounds are invalid"),
        event self now (Some signer) SecurityEventKind_InvalidStateRejected "authenticated_claim"
          "state claim bounds are invalid")
  else
    let key := mkClaimKey signer object job_id branch generation sequence in
    match bt_get key self.(LocalSecurityState_authenticated_claims) with
    | Some previous =>
        if previous == digest then (Ok false, self)
        else (Err SecurityError_TrainingEquivocation,
              quarantine self signer now SecurityEventKind_EquivocationDetected
                "authenticated peer sent conflicting state for one generation and sequence")
    | None =>
        let claims := make_room self.(LocalSecurityState_policy).(SecurityPolicy_max_claims)
                        self.(LocalSecurityState_authenticated_claims) in
        (Ok true, set_authenticated_claims self (bt_insert key digest claims))
    end.

(** ** Evaluator selection *)

Record EvaluatorCandidate := mkEvaluatorCandidate {
  EvaluatorCandidate_node : NodeId;
  EvaluatorCandidate_maturity : IdentityMaturity;
  EvaluatorCandidate_direct_successes : N;
  EvaluatorCandidate_source_group : N
}.

Record EvaluatorSelection := mkEvaluatorSelection {
  EvaluatorSelection_selected : list NodeId;
  EvaluatorSelection_source_groups : N;
  EvaluatorSelection_rejected : list NodeId
}.

(** The derived order of [IdentityMaturity]. *)
Definition maturity_rank (maturity : IdentityMaturity) : N :=
  match maturity with
  | IdentityMaturity_New => 0
  | IdentityMaturity_Observed => 1
  | IdentityMaturity_Established => 2
  | IdentityMaturity_TrustedLocally => 3
  | IdentityMaturity_Degraded => 4
  | IdentityMaturity_Quarantined => 5
  end.

Definition barred (candidate : EvaluatorCandidate) : bool :=
  match candidate.(EvaluatorCandidate_maturity) with
  | IdentityMaturity_Degraded | IdentityMaturity_Quarantined => true
  | _ => false
  end.

(** The first pass: one candidate after the other while the group has room. *)
Fixpoint select_by_group (max_per_group count : N) (ordered : list EvaluatorCandidate)
    (selected : list NodeId) (group_counts : BTreeMap N N) : list NodeId * BTreeMap N N :=
  match ordered with
  | [] => (selected, group_counts)
  | candidate :: ordered =>
      if count <=? len selected then (selected, group_counts)
      else
        let group := candidate.(EvaluatorCandidate_source_group) in
        let count_for_group := default 0 (bt_get group group_counts) in
        if N.max max_per_group 1 <=? count_for_group
        then select_by_group max_per_group count ordered selected group_counts
        else select_by_group max_per_group count ordered
               (selected ++ [candidate.(EvaluatorCandidate_node)])
               (bt_insert group (count_for_group + 1) group_counts)
  end.

(** The second pass: whoever is left. *)
Fixpoint select_remaining (count : N) (ordered : list EvaluatorCandidate) (selected : list NodeId)
    : list NodeId :=
  match ordered with
  | [] => selected
  | candidate :: ordered =>
      if count <=? len selected then selected
      else if contains candidate.(EvaluatorCandidate_node) selected
           then select_remaining count ordered selected
           else select_remaining count ordered (selected ++ [candidate.(EvaluatorCandidate_node)])
  end.

Section Evaluators.
Context `{Blake3}.

Definition deterministic_rank (seed : N) (node : NodeId) : N :=
  from_le_bytes (take 8 (blake3 (to_le_bytes 8 seed ++ NodeId_0 node))).

Definition evaluator_key (seed : N) (candidate : EvaluatorCandidate)
    : Reverse N * (N * (Reverse N * NodeId)) :=
  (mkReverse (maturity_rank candidate.(EvaluatorCandidate_maturity)),
   (deterministic_rank seed candidate.(EvaluatorCandidate_node),
    (mkReverse (N.min candidate.(EvaluatorCandidate_direct_successes) 3),
     candidate.(EvaluatorCandidate_node)))).

Definition select_evaluators (candidates : list EvaluatorCandidate) (count seed : N)
    (max_per_source_group : N) : EvaluatorSelection :=
  let ordered := sort_by_key (evaluator_key seed)
    (List.filter (fun candidate => negb (barred candidate)) candidates) in
  let (selected, group_counts) := select_by_group max_per_source_group count ordered [] [] in
  let selected := select_remaining count ordered selected in
  {| EvaluatorSelection_selected := selected;
     EvaluatorSelection_source_groups := len group_counts;
     EvaluatorSelection_rejected :=
       (EvaluatorCandidate_node <$> List.filter barred candidates)
       ++ (EvaluatorCandidate_node <$>
             List.filter (fun candidate =>
               negb (contains candidate.(EvaluatorCandidate_node) selected)) ordered) |}.
End Evaluators.

(** ** Aggregation behind the local bounds *)

Record RobustAggregationReport := mkRobustAggregationReport {
  RobustAggregationReport_policy : V4ByzantinePolicy;
  RobustAggregationReport_aggregate : list Z;
  RobustAggregationReport_accepted_updates : N;
  RobustAggregationReport_rejected_updates : N;
  RobustAggregationReport_communication_fanin : N
}.

(** [error.to_string()] of the one error aggregation raises. *)
Definition planner_error_message : String.string :=
  "V4 update vectors must be non-empty, equal length, and bounded".

Definition aggregate_v6_updates (policy : V4ByzantinePolicy) (updates : list (list Z)) (clip_abs : Z)
    : result RobustAggregationReport SecurityError :=
  let first := default [] (head updates) in
  fail_if (is_empty updates || (64 <? len updates)
           || existsb (fun update =>
                is_empty update || (MAX_V4_VECTOR <? len update)
                || negb (len update =? len first)
                || existsb (fun value => unsigned_abs clip_abs <? unsigned_abs value) update) updates
           || (clip_abs <=? 0)%Z)
    SecurityError_TrainingBounds ;?
  let? report := map_err (fun _ => SecurityError_InvalidRecord planner_error_message)
    (aggregate_updates policy updates clip_abs) in
  Ok {| RobustAggregationReport_policy := policy;
        RobustAggregationReport_aggregate := report.(V4ByzantineReport_aggregate);
        RobustAggregationReport_accepted_updates := report.(V4ByzantineReport_accepted_updates);
        RobustAggregationReport_rejected_updates := report.(V4ByzantineReport_rejected_updates);
        RobustAggregationReport_communication_fanin := len updates |}.
