(* ===== verification/SecurityFacts.v ===== *)
(** * Properties of the local security state

    Every reachable state passes its own validation; a contribution is admitted once
    and only from a member in good standing; a conflicting one quarantines its sender
    for exactly the policy's time; classification does not depend on the order in
    which concurrent frames are processed; critical roles and evaluators are given
    only to eligible peers. *)

From Stdlib Require Import String Ascii ZArith NArith Lia Sorted Permutation.
From stdpp Require Import base tactics sets strings numbers sorting list.
From S2P Require Import Prelude OrdMap Types Validation Codec Dht DhtFacts Trust Aggregation Security.
Local Open Scope N_scope.

(** ** Projections of the updates *)

Create HintDb sec discriminated.

(** Everything but the event log. *)
Definition core (s : LocalSecurityState) :=
  (s.(LocalSecurityState_local_node), s.(LocalSecurityState_policy), s.(LocalSecurityState_replay),
   s.(LocalSecurityState_rejected_replay), s.(LocalSecurityState_latest),
   s.(LocalSecurityState_contexts), s.(LocalSecurityState_claims),
   s.(LocalSecurityState_authenticated_claims), s.(LocalSecurityState_quarantined),
   s.(LocalSecurityState_capabilities), s.(LocalSecurityState_observations)).

Lemma core_event s now subject kind scope detail : core (event s now subject kind scope detail) = core s.
Proof. unfold event. by destruct (existsb _ _). Qed.

Section EventProjections.
Context (s : LocalSecurityState) (now : N) (subject : option NodeId) (kind : SecurityEventKind)
  (scope detail : String.string).
Let s' := event s now subject kind scope detail.

Lemma event_policy : s'.(LocalSecurityState_policy) = s.(LocalSecurityState_policy).
Proof. subst s'. unfold event. by destruct (existsb _ _). Qed.

Lemma event_replay : s'.(LocalSecurityState_replay) = s.(LocalSecurityState_replay).
Proof. subst s'. unfold event. by destruct (existsb _ _). Qed.

Lemma event_rejected : s'.(LocalSecurityState_rejected_replay) = s.(LocalSecurityState_rejected_replay).
Proof. subst s'. unfold event. by destruct (existsb _ _). Qed.

Lemma event_latest : s'.(LocalSecurityState_latest) = s.(LocalSecurityState_latest).
Proof. subst s'. unfold event. by destruct (existsb _ _). Qed.

Lemma event_contexts : s'.(LocalSecurityState_contexts) = s.(LocalSecurityState_contexts).
Proof. subst s'. unfold event. by destruct (existsb _ _). Qed.

Lemma event_quarantined : s'.(LocalSecurityState_quarantined) = s.(LocalSecurityState_quarantined).
Proof. subst s'. unfold event. by destruct (existsb _ _). Qed.
End EventProjections.

#[export] Hint Rewrite event_policy event_replay event_rejected event_latest event_contexts
  event_quarantined : sec.

(** ** Bounded maps *)
Lemma bound_map_loop_spec {K V} `{OrdLaws K} fuel (m : BTreeMap K V) max :
  bt_wf m -> 0 < max -> (length m <= fuel)%nat ->
  bt_wf (bound_map_loop fuel m max) /\ len (bound_map_loop fuel m max) < max
  /\ (len m < max -> bound_map_loop fuel m max = m)
  /\ (forall e, e ∈ bound_map_loop fuel m max -> e ∈ m).
Proof.
  intros Hwf Hmax. revert m Hwf. induction fuel as [|fuel IH]; intros m Hwf Hf; cbn.
  { destruct m; [|cbn in Hf; lia]. by split_and!. }
  destruct (max <=? len m) eqn:Hl; breflect; [|split_and!; try done].
  destruct m as [|[k v] m]; [unfold len in Hl; cbn in Hl; lia|].
  cbn [bt_first_key head fmap option_fmap option_map fst].
  rewrite (bt_remove_first ((k, v) :: m) k) by done. cbn [tail].
  unfold bt_wf in *. apply StronglySorted_inv in Hwf as [Hwf _].
  destruct (IH m Hwf) as (H1 & H2 & _ & H3); [cbn in Hf; lia|]. split_and!; try done.
  - rewrite len_cons in Hl |- *. lia.
  - intros e He. right. auto.
Qed.

Lemma bound_map_spec {K V} `{OrdLaws K} (m : BTreeMap K V) max :
  bt_wf m -> 0 < max ->
  bt_wf (bound_map m max) /\ len (bound_map m max) < max
  /\ (len m < max -> bound_map m max = m)
  /\ (forall e, e ∈ bound_map m max -> e ∈ m).
Proof. intros. by apply bound_map_loop_spec. Qed.

Lemma len_bt_insert {K V} `{OrdLaws K} k v (m : BTreeMap K V) :
  len (bt_insert k v m) <= len m + 1.
Proof. unfold len. pose proof (bt_insert_length_le k v m). lia. Qed.

Lemma make_room_spec {K V} `{OrdLaws K} (m : BTreeMap K V) max :
  bt_wf m -> 0 < max -> len m <= max ->
  bt_wf (make_room max m) /\ len (make_room max m) < max.
Proof.
  intros Hwf Hmax Hl. unfold make_room. destruct (max <=? len m) eqn:Hf; breflect; [|done].
  destruct m as [|[k v] m]; [unfold len in Hf; cbn in Hf; lia|].
  cbn [bt_first_key head fmap option_fmap option_map fst].
  rewrite (bt_remove_first ((k, v) :: m) k) by done. cbn [tail].
  unfold bt_wf in *. apply StronglySorted_inv in Hwf as [Hwf _]. rewrite len_cons in Hl.
  split; [done | lia].
Qed.

(** ** The state invariant *)

Definition event_short (e : SecurityEvent) : Prop :=
  slen e.(SecurityEvent_scope) <= MAX_SECURITY_SCOPE
  /\ slen e.(SecurityEvent_detail) <= MAX_SECURITY_DETAIL.

(** A bounded well-formed map. *)
Definition map_ok {K V} `{Ord K} (max : N) (m : BTreeMap K V) : Prop := bt_wf m /\ len m <= max.

Record sec_ok (s : LocalSecurityState) : Prop := {
  sec_policy : SecurityPolicy_validate s.(LocalSecurityState_policy) = Ok tt;
  sec_local : s.(LocalSecurityState_local_node) <> NodeId_default;
  sec_events : len s.(LocalSecurityState_events)
               <= s.(LocalSecurityState_policy).(SecurityPolicy_max_events);
  sec_events_short : Forall event_short s.(LocalSecurityState_events);
  sec_replay : map_ok s.(LocalSecurityState_policy).(SecurityPolicy_max_replay_entries)
                 s.(LocalSecurityState_replay);
  sec_rejected : map_ok s.(LocalSecurityState_policy).(SecurityPolicy_max_replay_entries)
                   s.(LocalSecurityState_rejected_replay);
  sec_claims : map_ok s.(LocalSecurityState_policy).(SecurityPolicy_max_claims)
                 s.(LocalSecurityState_claims);
  sec_auth_claims : map_ok s.(LocalSecurityState_policy).(SecurityPolicy_max_claims)
                      s.(LocalSecurityState_authenticated_claims);
  sec_quarantined : bt_wf s.(LocalSecurityState_quarantined)
}.

Lemma policy_positive p :
  SecurityPolicy_validate p = Ok tt ->
  0 < p.(SecurityPolicy_max_events) /\ 0 < p.(SecurityPolicy_max_replay_entries)
  /\ 0 < p.(SecurityPolicy_max_claims) /\ 0 < p.(SecurityPolicy_quarantine_seconds).
Proof. unfold SecurityPolicy_validate. intros Hv. inv_ok Hv. lia. Qed.

(** The invariant is what [validate] checks. *)
Lemma sec_ok_validates s : sec_ok s -> LocalSecurityState_validate s = Ok tt.
Proof.
  intros [Hp Hl He Hs [_ Hr] [_ Hrr] [_ Hc] [_ Ha] _]. unfold LocalSecurityState_validate. rewrite Hp. cbn.
  assert (Hb : forall a b, a <= b -> b <? a = false) by (intros; apply N.ltb_ge; lia).
  rewrite bool_decide_false, !Hb by done. cbn.
  assert (Hx : existsb (fun event =>
             (MAX_SECURITY_SCOPE <? slen event.(SecurityEvent_scope))
             || (MAX_SECURITY_DETAIL <? slen event.(SecurityEvent_detail)))
           s.(LocalSecurityState_events) = false); [|by rewrite Hx].
  apply existsb_false. eapply Forall_impl; [exact Hs|]. intros e [H1 H2]. by rewrite !Hb.
Qed.

Definition ascii_only (s : String.string) : Prop :=
  Forall (fun c => N_of_ascii c < 128) (list_ascii_of_string s).

Lemma truncate_chars_ascii max s :
  ascii_only s -> slen (truncate_chars max s) <= N.of_nat max.
Proof.
  unfold ascii_only, slen. revert max; induction s as [|c s IH]; intros max Ha; cbn; [lia|].
  inversion Ha as [|? ? Hc Hs]; subst. unfold is_continuation.
  assert (128 <=? N_of_ascii c = false) as -> by (apply N.leb_gt; lia). cbn.
  destruct max as [|max]; [cbn; lia|]. cbn [String.length]. specialize (IH max Hs). lia.
Qed.

Lemma sec_ok_event s now subject kind scope detail :
  ascii_only scope -> ascii_only detail -> sec_ok s -> sec_ok (event s now subject kind scope detail).
Proof.
  intros Hsc Hd Hok. unfold event. destruct (existsb _ _); [done|].
  destruct Hok. destruct (policy_positive _ sec_policy0) as (Hpos & _).
  split; try done; cbn [set_events LocalSecurityState_events LocalSecurityState_policy].
  - rewrite len_app, len_cons. change (len (@nil SecurityEvent)) with 0.
    destruct (_ <=? _) eqn:Hf; breflect; [|lia].
    unfold len in *. rewrite length_drop. lia.
  - apply Forall_app. split.
    + destruct (_ <=? _); [|done]. rewrite Forall_forall in *. intros e He.
      apply sec_events_short0. eapply elem_of_sublist; [done | apply sublist_drop].
    + apply Forall_singleton. split; cbn [SecurityEvent_scope SecurityEvent_detail].
      * eapply N.le_trans; [by apply truncate_chars_ascii|]. by rewrite N2Nat.id.
      * eapply N.le_trans; [by apply truncate_chars_ascii|]. by rewrite N2Nat.id.
Qed.

(** Decides [ascii_only] of a literal. *)
Ltac ascii := solve [unfold ascii_only; cbn; repeat constructor; cbn; lia].

#[export] Hint Extern 1 (ascii_only _) => ascii : sec.

Lemma sec_ok_quarantined s m :
  sec_ok s -> bt_wf m -> sec_ok (set_quarantined s m).
Proof. intros [] Hm. by split. Qed.

Lemma sec_ok_is_quarantined s peer now : sec_ok s -> sec_ok (is_quarantined s peer now).2.
Proof. intros Hok. apply sec_ok_quarantined; [done|]. apply bt_wf_retain. by destruct Hok. Qed.

Lemma sec_ok_quarantine s peer now kind detail :
  ascii_only detail -> sec_ok s -> sec_ok (quarantine s peer now kind detail).
Proof.
  intros Hd Hok. unfold quarantine. apply sec_ok_event; [ascii..|]. apply sec_ok_event; [ascii|done|].
  apply sec_ok_quarantined; [done|]. apply bt_wf_insert. by destruct Hok.
Qed.

Lemma sec_ok_observe_context s context now : sec_ok s -> sec_ok (observe_context s context now).2.
Proof.
  intros Hok. unfold observe_context.
  repeat (dmatch; try (apply sec_ok_event; [ascii..|done])); by destruct Hok; split.
Qed.

Section Invariant.
Context `{Blake3} `{Ed25519} `{ContributionPostcard} `{ClaimPostcard}.

Lemma sec_ok_rejected s k d :
  sec_ok s ->
  let rejected := bound_map s.(LocalSecurityState_rejected_replay)
                    s.(LocalSecurityState_policy).(SecurityPolicy_max_replay_entries) in
  sec_ok (set_rejected_replay s
            (match bt_get k rejected with Some _ => rejected | None => bt_insert k d rejected end)).
Proof.
  intros Hok rejected. pose proof Hok as [Hp _ _ _ _ [Hwf Hl] _ _ _].
  destruct (policy_positive _ Hp) as (_ & Hpos & _).
  destruct (bound_map_spec _ _ Hwf Hpos) as (Hwf' & Hl' & _). fold rejected in Hwf', Hl'.
  destruct Hok. split; try done. cbn. destruct (bt_get k rejected).
  - split; [done | lia].
  - split; [by apply bt_wf_insert|]. pose proof (len_bt_insert k d rejected). lia.
Qed.

Lemma sec_ok_admit s c members now : sec_ok s -> sec_ok (admit_training_update s c members now).2.
Proof.
  intros Hok. unfold admit_training_update.
  destruct (negb _); [apply sec_ok_event; [ascii..|done]|].
  destruct (contribution_out_of_bounds _ _); [apply sec_ok_event; [ascii..|done]|].
  destruct (_ || _); [apply sec_ok_event; [ascii..|done]|].
  pose proof (sec_ok_is_quarantined s c.(TrainingContribution_worker) now Hok) as Hq.
  destruct (is_quarantined _ _ _) as [q s1]. cbn [snd] in Hq.
  destruct q; [apply sec_ok_event; [ascii..|done]|].
  pose proof (sec_ok_observe_context s1 (contribution_context c) now Hq) as Hctx.
  destruct (observe_context _ _ _) as [[u|e] s2]; cbn [snd] in Hctx; [|done].
  destruct (behind_latest _ _); [apply sec_ok_event; [ascii..|done]|].
  destruct (bt_contains _ _).
  - apply sec_ok_quarantine; [ascii|]. by apply sec_ok_rejected.
  - pose proof Hctx as [Hp _ _ _ [Hwf Hl] _ _ _ _].
    destruct (policy_positive _ Hp) as (_ & Hpos & _).
    destruct (bound_map_spec _ _ Hwf Hpos) as (Hwf' & Hl' & _).
    destruct Hctx. split; try done. cbn. split; [by apply bt_wf_insert|].
    match goal with |- len (bt_insert ?k ?d ?m) <= _ => pose proof (len_bt_insert k d m) end. lia.
Qed.

Lemma sec_ok_observe_claim s claim now : sec_ok s -> sec_ok (observe_claim s claim now).2.
Proof.
  intros Hok. unfold observe_claim. destruct (verify_claim _ _); [|done]. destruct (_ || _); [done|].
  destruct (bt_get _ _); [repeat (dmatch; try done); by apply sec_ok_quarantine; [ascii|]|].
  pose proof Hok as [Hp _ _ _ _ _ [Hwf Hl] _ _]. destruct (policy_positive _ Hp) as (_ & _ & Hpos & _).
  destruct (make_room_spec _ _ Hwf Hpos Hl) as [Hwf' Hl'].
  destruct Hok. split; try done. cbn. split; [by apply bt_wf_insert|].
  match goal with |- len (bt_insert ?k ?d ?m) <= _ => pose proof (len_bt_insert k d m) end. lia.
Qed.

Lemma sec_ok_observe_authenticated_claim s signer object job branch generation sequence digest now :
  sec_ok s ->
  sec_ok (observe_authenticated_claim s signer object job branch generation sequence digest now).2.
Proof.
  intros Hok. unfold observe_authenticated_claim.
  destruct (_ || _); [apply sec_ok_event; [ascii..|done]|].
  destruct (bt_get _ _); [dmatch; [done|]; by apply sec_ok_quarantine; [ascii|]|].
  pose proof Hok as [Hp _ _ _ _ _ _ [Hwf Hl] _]. destruct (policy_positive _ Hp) as (_ & _ & Hpos & _).
  destruct (make_room_spec _ _ Hwf Hpos Hl) as [Hwf' Hl'].
  destruct Hok. split; try done. cbn. split; [by apply bt_wf_insert|].
  match goal with |- len (bt_insert ?k ?d ?m) <= _ => pose proof (len_bt_insert k d m) end. lia.
Qed.

(** One call of the public interface, with the event texts in ASCII. *)
Inductive sec_step : LocalSecurityState -> LocalSecurityState -> Prop :=
  | sec_step_event s at_ subject kind scope detail : ascii_only scope -> ascii_only detail ->
      sec_step s (record_event s at_ subject kind scope detail)
  | sec_step_quarantined s peer now : sec_step s (is_quarantined s peer now).2
  | sec_step_context s context now : sec_step s (observe_context s context now).2
  | sec_step_admit s c members now : sec_step s (admit_training_update s c members now).2
  | sec_step_observation s peer success now :
      sec_step s (record_direct_observation s peer success now)
  | sec_step_challenge s peer backend success now :
      sec_step s (record_capability_challenge s peer backend success now)
  | sec_step_task s peer backend success now :
      sec_step s (record_capability_task s peer backend success now)
  | sec_step_assessment s peer now : sec_step s (assessment s peer now).2
  | sec_step_eligible s peer role now : sec_step s (eligible_for_critical_role s peer role now).2
  | sec_step_claim s claim now : sec_step s (observe_claim s claim now).2
  | sec_step_authenticated s signer object job branch generation sequence digest now :
      sec_step s (observe_authenticated_claim s signer object job branch generation sequence digest now).2.

Inductive sec_reachable (local : NodeId) (policy : SecurityPolicy) : LocalSecurityState -> Prop :=
  | sec_reach_new s : LocalSecurityState_new local policy = Ok s -> sec_reachable local policy s
  | sec_reach_step s s' : sec_reachable local policy s -> sec_step s s' -> sec_reachable local policy s'.

Lemma sec_step_ok s s' : sec_ok s -> sec_step s s' -> sec_ok s'.
Proof.
  intros Hok Hstep; destruct Hstep.
  - by apply sec_ok_event.
  - by apply sec_ok_is_quarantined.
  - by apply sec_ok_observe_context.
  - by apply sec_ok_admit.
  - unfold record_direct_observation. destruct success; [|apply sec_ok_event; [ascii..|]];
      by destruct Hok; split.
  - unfold record_capability_challenge. destruct success; [|apply sec_ok_event; [ascii..|]];
      by destruct Hok; split.
  - by destruct Hok; split.
  - exact (sec_ok_is_quarantined s peer now Hok).
  - unfold eligible_for_critical_role, assessment.
    pose proof (sec_ok_is_quarantined s peer now Hok) as Hq.
    destruct (is_quarantined s peer now) as [[] s1]; [done|]. cbn [snd] in Hq.
    pose proof (sec_ok_is_quarantined s1 peer now Hq) as Hq2.
    by destruct (is_quarantined s1 peer now).
  - by apply sec_ok_observe_claim.
  - by apply sec_ok_observe_authenticated_claim.
Qed.

Lemma sec_reachable_ok local policy s :
  local <> NodeId_default -> sec_reachable local policy s -> sec_ok s.
Proof.
  intros Hl. induction 1 as [s Hn|s s' _ IH Hs]; [|by eapply sec_step_ok].
  unfold LocalSecurityState_new in Hn. inv_ok Hn. injection Hn as <-.
  assert (Hmap : forall K V (o : Ord K) max, map_ok max (@nil (K * V))).
  { intros. split; [constructor | unfold len; cbn; lia]. }
  split; cbn; auto; try constructor. unfold len. cbn. lia.
Qed.

(** Whatever a node observes, admits or rejects, its security state stays within the
    policy's bounds and passes its own validation, so that it is not thrown away when it is
    loaded again. *)
Theorem security_state_validates local policy s :
  local <> NodeId_default -> sec_reachable local policy s ->
  LocalSecurityState_validate s = Ok tt.
Proof. intros Hl Hr. apply sec_ok_validates. by eapply sec_reachable_ok. Qed.
End Invariant.

(** ** Training contributions *)

Section Admission.
Context `{Blake3} `{Ed25519} `{ContributionPostcard} `{ClaimPostcard}.
Implicit Types (s : LocalSecurityState) (c : TrainingContribution) (members : list NodeId).

(** The context is complete and does not fall behind, or fork, the job's last one. *)
Definition context_fits s (context : TrainingContext) : Prop :=
  context.(TrainingContext_job_id) <> JobId_default
  /\ context.(TrainingContext_branch) <> ArtifactId_default
  /\ 0 < context.(TrainingContext_plan_generation) /\ 0 < context.(TrainingContext_generation)
  /\ forall previous, bt_get context.(TrainingContext_job_id) s.(LocalSecurityState_contexts) = Some previous ->
       previous.(TrainingContext_plan_generation) <= context.(TrainingContext_plan_generation)
       /\ previous.(TrainingContext_generation) <= context.(TrainingContext_generation)
       /\ (context.(TrainingContext_plan_generation) = previous.(TrainingContext_plan_generation) ->
           context.(TrainingContext_generation) = previous.(TrainingContext_generation) ->
           context.(TrainingContext_branch) = previous.(TrainingContext_branch)).

Definition quarantined_at s (peer : NodeId) (now : N) : Prop :=
  exists until, bt_get peer s.(LocalSecurityState_quarantined) = Some until /\ now <= until.

(** The sender is a member in good standing and the contribution is acceptable but for what
    was already recorded at its position. *)
Record admissible s c members (now : N) : Prop := {
  adm_member : c.(TrainingContribution_worker) ∈ members;
  adm_bounds : contribution_out_of_bounds s c = false;
  adm_standing : ~ quarantined_at s c.(TrainingContribution_worker) now;
  adm_context : context_fits s (contribution_context c);
  adm_latest : behind_latest s c = false
}.

Lemma observe_context_ok s context now :
  context_fits s context <->
  observe_context s context now
  = (Ok tt, set_contexts s (bt_insert context.(TrainingContext_job_id) context
                              s.(LocalSecurityState_contexts))).
Proof.
  unfold context_fits, observe_context. split.
  - intros (Hj & Hbr & Hpg & Hgn & Hprev).
    rewrite (bool_decide_false _ Hj), (bool_decide_false _ Hbr).
    do 2 nfalse. cbn.
    destruct (bt_get _ _) as [previous|]; [|done].
    destruct (Hprev previous eq_refl) as (Hp & Hg & Hb).
    do 2 nfalse. cbn.
    destruct (TrainingContext_plan_generation context =? _) eqn:E1; [|done].
    destruct (TrainingContext_generation context =? _) eqn:E2; [|done]. breflect.
    rewrite (bool_decide_true _ (Hb E1 E2)). done.
  - intros Hobs. destruct (_ || _) eqn:Hg; [done|]. breflect. split_and!; try done; try lia.
    intros previous Hprev. rewrite Hprev in Hobs.
    destruct (_ || _) eqn:Hs; [done|]. breflect.
    destruct (_ && _) eqn:Hf; [done|]. split_and!; [done..|]. intros E1 E2.
    rewrite E1, E2, !N.eqb_refl in Hf. cbn in Hf. breflect. done.
Qed.

Lemma is_quarantined_fst s peer now :
  bt_wf s.(LocalSecurityState_quarantined) ->
  (is_quarantined s peer now).1 = true <-> quarantined_at s peer now.
Proof.
  intros Hwf. unfold is_quarantined, quarantined_at. cbn [fst]. rewrite bt_get_retain by done.
  destruct (bt_get peer _) as [until|]; [|naive_solver].
  destruct (now <=? until) eqn:Hu; breflect; [rewrite N.leb_le|]; naive_solver lia.
Qed.

Lemma behind_latest_ext s s' c :
  s'.(LocalSecurityState_latest) = s.(LocalSecurityState_latest) ->
  behind_latest s' c = behind_latest s c.
Proof. intros He. unfold behind_latest. by rewrite He. Qed.

(** The state after quarantine expiry and the context update of an admission. *)
Definition after_context s c (now : N) : LocalSecurityState :=
  let s1 := (is_quarantined s c.(TrainingContribution_worker) now).2 in
  set_contexts s1 (bt_insert c.(TrainingContribution_job_id) (contribution_context c)
                     s1.(LocalSecurityState_contexts)).

Lemma admit_unfold s c members now :
  sec_ok s -> admissible s c members now ->
  bt_get (replay_key c) s.(LocalSecurityState_replay) <> Some (contribution_digest c) ->
  bt_get (replay_key c) s.(LocalSecurityState_rejected_replay) <> Some (contribution_digest c) ->
  admit_training_update s c members now =
  let s2 := after_context s c now in
  let key := replay_key c in
  if bt_contains key s.(LocalSecurityState_replay)
  then
    let rejected := bound_map s.(LocalSecurityState_rejected_replay)
      s.(LocalSecurityState_policy).(SecurityPolicy_max_replay_entries) in
    let rejected := match bt_get key rejected with
                    | Some _ => rejected
                    | None => bt_insert key (contribution_digest c) rejected
                    end in
    (Err SecurityError_TrainingEquivocation,
     quarantine (set_rejected_replay s2 rejected) c.(TrainingContribution_worker) now
       SecurityEventKind_EquivocationDetected "same contribution sequence carried different values")
  else
    let s3 := bound_replay s2 in
    let s4 := set_replay s3 (bt_insert key (contribution_digest c) s3.(LocalSecurityState_replay)) in
    (Ok TrainingAdmission_Accepted,
     set_latest s4 (bt_insert (stream_key c)
       (c.(TrainingContribution_generation), c.(TrainingContribution_sequence))
       s4.(LocalSecurityState_latest))).
Proof.
  intros Hok [Hm Hb Hs Hc Hl] Hnr Hnrr. unfold admit_training_update.
  apply contains_true in Hm. rewrite Hm, Hb. cbn [negb].
  rewrite (bool_decide_false _ Hnr), (bool_decide_false _ Hnrr). cbn [orb].
  assert (Hq : (is_quarantined s c.(TrainingContribution_worker) now).1 = false).
  { apply not_true_iff_false. intros E. by apply is_quarantined_fst in E; [|by destruct Hok]. }
  destruct (is_quarantined s c.(TrainingContribution_worker) now) as [q s1] eqn:E1.
  cbn [fst] in Hq. subst q.
  assert (Hs1 : s1 = (is_quarantined s c.(TrainingContribution_worker) now).2) by (by rewrite E1).
  assert (Hc1 : context_fits s1 (contribution_context c)) by (by rewrite Hs1).
  rewrite (proj1 (observe_context_ok s1 (contribution_context c) now) Hc1).
  unfold after_context. rewrite E1. cbn [snd]. cbn zeta.
  rewrite (behind_latest_ext s) by (by rewrite Hs1). rewrite Hl. by rewrite Hs1.
Qed.

(** A recorded contribution is a duplicate, whatever the standing of its sender. *)
Lemma recorded_duplicate s c members now :
  c.(TrainingContribution_worker) ∈ members -> contribution_out_of_bounds s c = false ->
  bt_get (replay_key c) s.(LocalSecurityState_replay) = Some (contribution_digest c)
  \/ bt_get (replay_key c) s.(LocalSecurityState_rejected_replay) = Some (contribution_digest c) ->
  (admit_training_update s c members now).1 = Err SecurityError_DuplicateTraining
  /\ core (admit_training_update s c members now).2 = core s.
Proof.
  intros Hm Hb Hr. unfold admit_training_update. apply contains_true in Hm. rewrite Hm, Hb. cbn [negb].
  assert (Hd : bool_decide (bt_get (replay_key c) s.(LocalSecurityState_replay) = Some (contribution_digest c))
               || bool_decide (bt_get (replay_key c) s.(LocalSecurityState_rejected_replay)
                               = Some (contribution_digest c)) = true).
  { apply orb_true_iff. rewrite !bool_decide_eq_true. done. }
  rewrite Hd. split; [done | apply core_event].
Qed.

(** What an admission leaves behind. *)
Lemma admit_fresh s c members now :
  sec_ok s -> admissible s c members now ->
  bt_get (replay_key c) s.(LocalSecurityState_replay) = None ->
  bt_get (replay_key c) s.(LocalSecurityState_rejected_replay) <> Some (contribution_digest c) ->
  let s' := (admit_training_update s c members now).2 in
  (admit_training_update s c members now).1 = Ok TrainingAdmission_Accepted
  /\ bt_get (replay_key c) s'.(LocalSecurityState_replay) = Some (contribution_digest c)
  /\ s'.(LocalSecurityState_rejected_replay) = s.(LocalSecurityState_rejected_replay)
  /\ s'.(LocalSecurityState_policy) = s.(LocalSecurityState_policy)
  /\ bt_get (stream_key c) s'.(LocalSecurityState_latest)
     = Some (c.(TrainingContribution_generation), c.(TrainingContribution_sequence))
  /\ bt_get c.(TrainingContribution_job_id) s'.(LocalSecurityState_contexts)
     = Some (contribution_context c)
  /\ (forall peer t, now <= t -> quarantined_at s' peer t -> quarantined_at s peer t).
Proof.
  intros Hok Hadm Hnone Hrej. cbn zeta.
  rewrite admit_unfold by (done || congruence).
  unfold bt_contains. rewrite Hnone. cbn [fst snd set_latest set_replay bound_replay after_context
    LocalSecurityState_replay LocalSecurityState_rejected_replay LocalSecurityState_policy
    LocalSecurityState_latest LocalSecurityState_contexts set_contexts].
  rewrite !bt_get_insert_eq. split_and!; try done.
  intros peer t Ht (until & Hu & Hle). cbn in Hu. rewrite bt_get_retain in Hu by (by destruct Hok).
  destruct (bt_get peer s.(LocalSecurityState_quarantined)) as [u|] eqn:Hg; [|done].
  destruct (now <=? u); [|done]. injection Hu as ->. by exists until.
Qed.

Lemma quarantine_at s peer now kind detail t :
  now <= t -> t <= sat_add u64_max now
                   s.(LocalSecurityState_policy).(SecurityPolicy_quarantine_seconds) ->
  quarantined_at (quarantine s peer now kind detail) peer t.
Proof.
  intros Hnow Ht. unfold quarantine, quarantined_at. autorewrite with sec.
  cbn [set_quarantined LocalSecurityState_quarantined]. rewrite bt_get_insert_eq.
  eexists. split; [done|]. destruct (bt_get peer _); lia.
Qed.

(** What a conflicting contribution leaves behind. *)
Lemma admit_conflict s c members now :
  sec_ok s -> admissible s c members now ->
  (exists d, bt_get (replay_key c) s.(LocalSecurityState_replay) = Some d /\ d <> contribution_digest c) ->
  bt_get (replay_key c) s.(LocalSecurityState_rejected_replay) <> Some (contribution_digest c) ->
  let s' := (admit_training_update s c members now).2 in
  (admit_training_update s c members now).1 = Err SecurityError_TrainingEquivocation
  /\ s'.(LocalSecurityState_replay) = s.(LocalSecurityState_replay)
  /\ s'.(LocalSecurityState_policy) = s.(LocalSecurityState_policy)
  /\ (bt_get (replay_key c) s.(LocalSecurityState_rejected_replay) = None ->
      bt_get (replay_key c) s'.(LocalSecurityState_rejected_replay) = Some (contribution_digest c))
  /\ (forall t, now <= t ->
      t <= sat_add u64_max now s.(LocalSecurityState_policy).(SecurityPolicy_quarantine_seconds) ->
      quarantined_at s' c.(TrainingContribution_worker) t).
Proof.
  intros Hok Hadm (d & Hd & Hne) Hrej. cbn zeta.
  rewrite admit_unfold by (done || congruence).
  unfold bt_contains. rewrite Hd. cbn [fst snd]. split_and!; [done|..].
  - unfold quarantine. by autorewrite with sec.
  - unfold quarantine. by autorewrite with sec.
  - intros Hnone. unfold quarantine. autorewrite with sec.
    cbn [set_quarantined set_rejected_replay LocalSecurityState_rejected_replay].
    set (bound := bound_map _ _).
    assert (bt_get (replay_key c) bound = None) as ->; [|apply bt_get_insert_eq].
    destruct (policy_positive _ (sec_policy _ Hok)) as (_ & Hpos & _).
    destruct (bound_map_spec _ _ (proj1 (sec_rejected _ Hok)) Hpos) as (_ & _ & _ & Hsub).
    apply bt_get_None. intros v Hv%Hsub. by apply bt_get_None with (v := v) in Hnone.
  - intros t Hnow Ht. by apply quarantine_at.
Qed.

(** Two contributions at one position of one stream. *)
Definition same_position (a b : TrainingContribution) : Prop :=
  replay_key a = replay_key b /\ contribution_context a = contribution_context b.

Lemma admissible_after s a b members now :
  sec_ok s -> admissible s a members now -> admissible s b members now -> same_position a b ->
  bt_get (replay_key a) s.(LocalSecurityState_replay) = None ->
  bt_get (replay_key a) s.(LocalSecurityState_rejected_replay) <> Some (contribution_digest a) ->
  admissible (admit_training_update s a members now).2 b members now.
Proof.
  intros Hok Ha Hb [Hkey Hctx] Hnone Hrej.
  destruct (admit_fresh s a members now Hok Ha Hnone Hrej) as (_ & _ & _ & Hpol & Hlat & Hc & Hq).
  set (s' := (admit_training_update s a members now).2) in *.
  destruct Hb as [Hm Hbd Hs Hf _]. split; [done|..].
  - unfold contribution_out_of_bounds in *. by rewrite Hpol.
  - intros Hqt. by apply Hs, Hq.
  - destruct Hf as (Hj & Hbr & Hpg & Hgn & _). split_and!; try done.
    assert (Hjob : a.(TrainingContribution_job_id) = b.(TrainingContribution_job_id)).
    { by injection Hctx. }
    intros previous Hprev. cbn in Hprev. rewrite <- Hjob, Hc, Hctx in Hprev. injection Hprev as <-.
    split_and!; [lia | lia | done].
  - unfold behind_latest. assert (Hst : stream_key b = stream_key a).
    { unfold stream_key. injection Hkey as -> -> -> _ _. done. }
    rewrite Hst, Hlat. injection Hkey as _ _ _ -> ->. by rewrite !N.ltb_irrefl, andb_false_r.
Qed.

(** Processes frames one after the other. *)
Fixpoint admit_all s (frames : list TrainingContribution) members now
    : list (result TrainingAdmission SecurityError) :=
  match frames with
  | [] => []
  | c :: frames =>
      let (r, s) := admit_training_update s c members now in r :: admit_all s frames members now
  end.

(** Two conflicting frames that the state has not seen. *)
Record conflicting s (a b : TrainingContribution) members now : Prop := {
  conf_a : admissible s a members now;
  conf_b : admissible s b members now;
  conf_position : same_position a b;
  conf_digest : contribution_digest a <> contribution_digest b;
  conf_new : bt_get (replay_key a) s.(LocalSecurityState_replay) = None;
  conf_new_rejected : bt_get (replay_key a) s.(LocalSecurityState_rejected_replay) = None
}.

Lemma conflicting_sym s a b members now : conflicting s a b members now -> conflicting s b a members now.
Proof. intros [Ha Hb [Hk Hc] Hd Hn Hr]. split; try done; by rewrite <- Hk. Qed.

(** The first frame is admitted, the other is an equivocation, and then both are duplicates. *)
Lemma conflicting_run s a b members now :
  sec_ok s -> conflicting s a b members now ->
  let s1 := (admit_training_update s a members now).2 in
  let s2 := (admit_training_update s1 b members now).2 in
  (admit_training_update s a members now).1 = Ok TrainingAdmission_Accepted
  /\ (admit_training_update s1 a members now).1 = Err SecurityError_DuplicateTraining
  /\ core (admit_training_update s1 a members now).2 = core s1
  /\ (admit_training_update s1 b members now).1 = Err SecurityError_TrainingEquivocation
  /\ (admit_training_update s2 a members now).1 = Err SecurityError_DuplicateTraining
  /\ (admit_training_update s2 b members now).1 = Err SecurityError_DuplicateTraining.
Proof.
  intros Hok Hconf. pose proof Hconf as [Ha Hb [Hkey Hctx] Hd Hn Hr]. cbn zeta.
  assert (Hr' : bt_get (replay_key a) s.(LocalSecurityState_rejected_replay) <> Some (contribution_digest a))
    by congruence.
  destruct (admit_fresh s a members now Hok Ha Hn Hr') as (Hacc & Hrep & Hrj & Hpol & _).
  pose proof (admissible_after s a b members now Hok Ha Hb (conj Hkey Hctx) Hn Hr') as Hb1.
  pose proof (sec_ok_admit s a members now Hok) as Hok1.
  set (s1 := (admit_training_update s a members now).2) in *.
  assert (Hba : contribution_out_of_bounds s1 a = false).
  { unfold contribution_out_of_bounds. rewrite Hpol. apply Ha. }
  destruct (admit_conflict s1 b members now Hok1 Hb1) as (Heq & Hrep2 & Hpol2 & Hrj2 & _).
  { exists (contribution_digest a). by rewrite <- Hkey. }
  { rewrite Hrj, <- Hkey, Hr. done. }
  set (s2 := (admit_training_update s1 b members now).2) in *.
  assert (Hbounds : forall c, contribution_out_of_bounds s c = false -> contribution_out_of_bounds s2 c = false).
  { intros c Hc. unfold contribution_out_of_bounds. rewrite Hpol2, Hpol. exact Hc. }
  split_and!; [done| | |done|..].
  - by apply recorded_duplicate; [apply Ha | | left].
  - by apply recorded_duplicate; [apply Ha | | left].
  - apply recorded_duplicate; [apply Ha | by apply Hbounds, Ha | left]. by rewrite Hrep2.
  - apply recorded_duplicate; [apply Hb | by apply Hbounds, Hb | right].
    apply Hrj2. by rewrite Hrj, <- Hkey.
Qed.

(** The event log has no influence on what is decided. *)
Lemma is_quarantined_core s s' peer now :
  core s = core s' ->
  (is_quarantined s peer now).1 = (is_quarantined s' peer now).1
  /\ core (is_quarantined s peer now).2 = core (is_quarantined s' peer now).2.
Proof.
  destruct s, s'. unfold core. cbn. intros Hc. injection Hc as -> -> -> -> -> -> -> -> -> -> ->. done.
Qed.

Lemma observe_context_core s s' context now :
  core s = core s' ->
  (observe_context s context now).1 = (observe_context s' context now).1
  /\ core (observe_context s context now).2 = core (observe_context s' context now).2.
Proof.
  intros Hc. assert (Hctx : s.(LocalSecurityState_contexts) = s'.(LocalSecurityState_contexts)).
  { unfold core in Hc. congruence. }
  unfold observe_context. rewrite Hctx.
  assert (Hset : forall m, core (set_contexts s m) = core (set_contexts s' m)).
  { intros m. unfold core in *. cbn. congruence. }
  repeat (dmatch; cbn [fst snd]; rewrite ?core_event; auto).
Qed.

Lemma admit_core s s' c members now :
  core s = core s' ->
  (admit_training_update s c members now).1 = (admit_training_update s' c members now).1.
Proof.
  intros Hc. unfold admit_training_update. destruct (negb _); [done|].
  assert (contribution_out_of_bounds s c = contribution_out_of_bounds s' c) as ->.
  { unfold contribution_out_of_bounds, core in *. by injection Hc as _ -> _ _ _ _ _ _ _ _ _. }
  destruct (contribution_out_of_bounds s' c); [done|].
  assert (s.(LocalSecurityState_replay) = s'.(LocalSecurityState_replay)
          /\ s.(LocalSecurityState_rejected_replay) = s'.(LocalSecurityState_rejected_replay)) as [-> ->].
  { unfold core in Hc. split; congruence. }
  destruct (_ || _); [done|].
  destruct (is_quarantined_core s s' c.(TrainingContribution_worker) now Hc) as [Hq Hc1].
  destruct (is_quarantined s _ _) as [q s1], (is_quarantined s' _ _) as [q' s1']. cbn [fst snd] in Hq, Hc1.
  subst q'. destruct q; [done|].
  destruct (observe_context_core s1 s1' (contribution_context c) now Hc1) as [Ho Hc2].
  destruct (observe_context s1 _ _) as [[u|e] s2], (observe_context s1' _ _) as [[u'|e'] s2'];
    cbn [fst snd] in Ho, Hc2; try discriminate Ho; [|cbn [fst]; congruence].
  assert (Hl : behind_latest s2 c = behind_latest s2' c).
  { apply behind_latest_ext. unfold core in Hc2. congruence. }
  rewrite Hl. destruct (behind_latest s2' c); [done|].
  assert (s2.(LocalSecurityState_replay) = s2'.(LocalSecurityState_replay)) as ->.
  { unfold core in Hc2. congruence. }
  by destruct (bt_contains _ _).
Qed.
(** The same contribution is never counted twice while it is remembered: once recorded,
    admitted or refused as conflicting, it is a duplicate for every later submission,
    whatever the standing of its sender. *)
Theorem recorded_contribution_is_duplicate s c members now :
  c.(TrainingContribution_worker) ∈ members -> contribution_out_of_bounds s c = false ->
  bt_get (replay_key c) s.(LocalSecurityState_replay) = Some (contribution_digest c)
  \/ bt_get (replay_key c) s.(LocalSecurityState_rejected_replay) = Some (contribution_digest c) ->
  (admit_training_update s c members now).1 = Err SecurityError_DuplicateTraining
  /\ core (admit_training_update s c members now).2 = core s.
Proof. apply recorded_duplicate. Qed.

(** (C3) Concurrent handlers may process the two copies of a frame and a conflicting one in any
    order: one frame is admitted, the conflicting one is an equivocation, and the copy is a
    duplicate. *)
Theorem admission_order_independent s a b members now frames :
  sec_ok s -> conflicting s a b members now ->
  frames ∈ [[a; a; b]; [a; b; a]; [b; a; a]] ->
  admit_all s frames members now
  ≡ₚ [Ok TrainingAdmission_Accepted; Err SecurityError_DuplicateTraining;
      Err SecurityError_TrainingEquivocation].
Proof.
  intros Hok Hconf Hin.
  pose proof (conflicting_run s a b members now Hok Hconf) as Hab.
  pose proof (conflicting_run s b a members now Hok (conflicting_sym _ _ _ _ _ Hconf)) as Hba.
  cbn zeta in Hab, Hba.
  destruct Hab as (A1 & A2 & A3 & A4 & A5 & A6), Hba as (B1 & B2 & B3 & B4 & B5 & B6).
  repeat (apply elem_of_cons in Hin as [->|Hin]); [..|by apply not_elem_of_nil in Hin];
    cbn [admit_all].
  - destruct (admit_training_update s a members now) as [r1 s1]. cbn [fst snd] in *.
    pose proof (admit_core _ _ b members now A3) as Hc. rewrite A4 in Hc.
    destruct (admit_training_update s1 a members now) as [r2 s2]. cbn [fst snd] in *.
    destruct (admit_training_update s2 b members now) as [r3 s3]. cbn [fst snd] in *. by subst.
  - destruct (admit_training_update s a members now) as [r1 s1]. cbn [fst snd] in *.
    destruct (admit_training_update s1 b members now) as [r2 s2]. cbn [fst snd] in *.
    destruct (admit_training_update s2 a members now) as [r3 s3]. cbn [fst snd] in *. subst.
    apply Permutation_skip, Permutation_swap.
  - destruct (admit_training_update s b members now) as [r1 s1]. cbn [fst snd] in *.
    destruct (admit_training_update s1 a members now) as [r2 s2]. cbn [fst snd] in *.
    destruct (admit_training_update s2 a members now) as [r3 s3]. cbn [fst snd] in *. subst.
    apply Permutation_skip, Permutation_swap.
Qed.

(** A conflicting payload at an admitted position quarantines its sender for exactly the
    policy's time: it is refused as an equivocation, and until the quarantine ends the sender
    stays quarantined. *)
Theorem equivocation_quarantines s c members now t :
  sec_ok s -> admissible s c members now ->
  (exists d, bt_get (replay_key c) s.(LocalSecurityState_replay) = Some d /\ d <> contribution_digest c) ->
  bt_get (replay_key c) s.(LocalSecurityState_rejected_replay) <> Some (contribution_digest c) ->
  now <= t ->
  let s' := (admit_training_update s c members now).2 in
  (admit_training_update s c members now).1 = Err SecurityError_TrainingEquivocation
  /\ ((is_quarantined s' c.(TrainingContribution_worker) t).1 = true
      <-> t <= sat_add u64_max now s.(LocalSecurityState_policy).(SecurityPolicy_quarantine_seconds)).
Proof.
  intros Hok Hadm Hd Hrej Hnow. cbn zeta.
  destruct (admit_conflict s c members now Hok Hadm Hd Hrej) as (Heq & _ & _ & _ & Hq).
  split; [done|]. rewrite is_quarantined_fst by (by apply sec_ok_admit).
  split; [|by apply Hq]. intros (until & Hu & Ht).
  destruct Hd as (d & Hd & Hne). rewrite admit_unfold in Hu by (done || congruence).
  unfold bt_contains in Hu. rewrite Hd in Hu. cbn [snd] in Hu. unfold quarantine in Hu.
  autorewrite with sec in Hu. cbn [set_quarantined LocalSecurityState_quarantined] in Hu.
  rewrite bt_get_insert_eq in Hu. injection Hu as <-.
  pose proof (adm_standing _ _ _ _ Hadm) as Hnq.
  cbn [set_rejected_replay after_context set_contexts LocalSecurityState_quarantined
    LocalSecurityState_policy is_quarantined snd set_quarantined] in Ht.
  destruct (bt_get _ (bt_retain _ _)) as [u|] eqn:Hg; [|done].
  rewrite bt_get_retain in Hg by (by destruct Hok).
  destruct (bt_get c.(TrainingContribution_worker) s.(LocalSecurityState_quarantined)) as [u'|] eqn:Hg'; [|done].
  destruct (now <=? u') eqn:Hle; [|done]. breflect. destruct Hnq. by exists u'.
Qed.

(** (C32) Only a member that is not quarantined is admitted, with a contribution within the
    bounds, of the job's current lineage, not behind the stream and new at its position; the
    contribution and its position are then remembered. *)
Theorem admission_sound s c members now admission s' :
  sec_ok s -> admit_training_update s c members now = (Ok admission, s') ->
  admission = TrainingAdmission_Accepted
  /\ admissible s c members now
  /\ bt_get (replay_key c) s.(LocalSecurityState_replay) = None
  /\ bt_get (replay_key c) s'.(LocalSecurityState_replay) = Some (contribution_digest c)
  /\ bt_get (stream_key c) s'.(LocalSecurityState_latest)
     = Some (c.(TrainingContribution_generation), c.(TrainingContribution_sequence)).
Proof.
  intros Hok Ha. pose proof Ha as Hadm. unfold admit_training_update in Hadm.
  destruct (contains _ members) eqn:Hm; [cbn [negb] in Hadm|done].
  destruct (contribution_out_of_bounds s c) eqn:Hb; [done|].
  destruct (_ || _) eqn:Hdup; [done|]. breflect.
  destruct (is_quarantined s _ _) as [q s1] eqn:Hq.
  pose proof (is_quarantined_fst s c.(TrainingContribution_worker) now (sec_quarantined _ Hok)) as Hqf.
  rewrite Hq in Hqf. cbn [fst] in Hqf. destruct q; [done|].
  assert (Hs1 : s1 = (is_quarantined s c.(TrainingContribution_worker) now).2) by (by rewrite Hq).
  destruct (observe_context s1 _ _) as [[[]|e] s2] eqn:Ho; [|done].
  assert (Hfit : context_fits s1 (contribution_context c)).
  { apply (observe_context_ok s1 _ now). rewrite Ho. f_equal.
    unfold observe_context in Ho. repeat (dmatch_in Ho; try discriminate Ho); by injection Ho. }
  assert (Hs2 : s2 = set_contexts s1 (bt_insert c.(TrainingContribution_job_id)
                       (contribution_context c) s1.(LocalSecurityState_contexts))).
  { apply (observe_context_ok s1 _ now) in Hfit. rewrite Ho in Hfit. by injection Hfit. }
  destruct (behind_latest s2 c) eqn:Hl; [done|].
  destruct (bt_contains _ _) eqn:Hc; [done|].
  assert (Hadmissible : admissible s c members now).
  { split; [by apply contains_true | done | | by subst s1 |].
    - intros Hx. by apply Hqf in Hx.
    - by rewrite <- (behind_latest_ext s s2) by (subst s2 s1; done). }
  assert (Hnone : bt_get (replay_key c) s.(LocalSecurityState_replay) = None).
  { subst s2 s1. unfold bt_contains in Hc. cbn in Hc. by destruct (bt_get _ _). }
  split_and!; [by injection Hadm | done | done |..];
    (destruct (admit_fresh s c members now) as (_ & Hr & _ & _ & Hlat & _); [done..|];
     by rewrite Ha in Hr, Hlat).
Qed.
End Admission.

(** ** Critical roles *)

(** Asking twice gives the same answer. *)
Lemma is_quarantined_again s peer now :
  bt_wf s.(LocalSecurityState_quarantined) ->
  (is_quarantined (is_quarantined s peer now).2 peer now).1 = (is_quarantined s peer now).1.
Proof.
  intros Hwf. unfold is_quarantined. cbn [fst snd set_quarantined LocalSecurityState_quarantined].
  rewrite !bt_get_retain by (done || by apply bt_wf_retain).
  destruct (bt_get peer s.(LocalSecurityState_quarantined)) as [u|]; [|done].
  destruct (now <=? u) eqn:Hu; [|done]. by rewrite Hu.
Qed.

(** A critical role goes only to a peer that is not quarantined, whose recent failures
    are within the policy and do not outweigh its successes, and, unless the profile is open
    or the role is mere participation, with the successes the policy asks for. *)
Theorem critical_role_sound s peer role now :
  sec_ok s ->
  (eligible_for_critical_role s peer role now).1 = true ->
  let o := current_observation s peer now in
  let p := s.(LocalSecurityState_policy) in
  ~ quarantined_at s peer now
  /\ o.(PeerObservation_direct_failures)
     <= trunc u32_max p.(SecurityPolicy_max_direct_failures_for_critical_role)
  /\ (12 * N.min o.(PeerObservation_direct_failures) 20
      <= 5 * N.min o.(PeerObservation_direct_successes) 20)
  /\ (role <> CriticalRole_PlanParticipant -> p.(SecurityPolicy_profile) <> SecurityProfile_Open ->
      trunc u32_max p.(SecurityPolicy_min_direct_successes_for_critical_role)
      <= o.(PeerObservation_direct_successes)).
Proof.
  intros Hok He. cbn zeta. unfold eligible_for_critical_role in He.
  pose proof (is_quarantined_fst s peer now (sec_quarantined _ Hok)) as Hqf.
  pose proof (is_quarantined_again s peer now (sec_quarantined _ Hok)) as Hq.
  destruct (is_quarantined s peer now) as [q s1] eqn:E1. cbn [fst snd] in Hqf, Hq.
  assert (Hs1 : s1 = (is_quarantined s peer now).2) by (by rewrite E1).
  destruct q; [done|].
  assert (Hnq : ~ quarantined_at s peer now) by (rewrite <- Hqf; done).
  assert (Hobs : current_observation s1 peer now = current_observation s peer now) by (by subst s1).
  assert (Hpol : s1.(LocalSecurityState_policy) = s.(LocalSecurityState_policy)) by (by subst s1).
  unfold assessment in He. rewrite Hobs in He.
  assert (E2 : exists s2, is_quarantined s1 peer now = (false, s2)
            /\ s2.(LocalSecurityState_policy) = s.(LocalSecurityState_policy)).
  { exists (is_quarantined s1 peer now).2. split; [|by subst s1].
    by destruct (is_quarantined s1 peer now) as [[] ?]. }
  destruct E2 as (s2 & E2 & Hpol2). rewrite E2 in He.
  cbn [fst snd TrustAssessment_direct_successes TrustAssessment_direct_failures
       TrustAssessment_maturity] in He. rewrite Hpol2 in He.
  set (o := current_observation s peer now) in *.
  apply andb_true_iff in He as [He Hm2]. apply andb_true_iff in He as [He Hm1].
  apply andb_true_iff in He as [Hs Hf]. breflect. split_and!; try done.
  - destruct (_ <? 0)%Z eqn:Hneg; [done|]. breflect. lia.
  - intros Hrole Hopen. apply orb_true_iff in Hs as [Hs|Hs]; [|by breflect].
    by destruct role, (s.(LocalSecurityState_policy).(SecurityPolicy_profile)).
Qed.

(** ** Evaluators *)

Section EvaluatorFacts.
Context `{Blake3}.
Implicit Types (candidates ordered : list EvaluatorCandidate).

Lemma select_by_group_spec cap count ordered selected groups :
  len selected <= count ->
  exists picked,
    (select_by_group cap count ordered selected groups).1 = selected ++ picked
    /\ picked `sublist_of` EvaluatorCandidate_node <$> ordered
    /\ len (selected ++ picked) <= count.
Proof.
  revert selected groups; induction ordered as [|c ordered IH]; intros selected groups Hl; cbn.
  - exists []. by rewrite app_nil_r.
  - destruct (count <=? len selected) eqn:Hc; breflect.
    + exists []. rewrite app_nil_r. split_and!; [done | apply sublist_nil_l | done].
    + destruct (_ <=? default 0 _).
      * destruct (IH selected groups Hl) as (picked & Hp & Hs & Hlen). exists picked.
        split_and!; [done | by apply sublist_cons | done].
      * destruct (IH (selected ++ [c.(EvaluatorCandidate_node)])
          (bt_insert c.(EvaluatorCandidate_source_group)
             (default 0 (bt_get c.(EvaluatorCandidate_source_group) groups) + 1) groups))
          as (picked & Hp & Hs & Hlen).
        { rewrite len_app, len_cons. change (len (@nil NodeId)) with 0. lia. }
        exists (c.(EvaluatorCandidate_node) :: picked). rewrite <- app_assoc in Hp, Hlen.
        split_and!; [done | by apply sublist_skip | done].
Qed.

Lemma select_remaining_fill count ordered selected :
  select_remaining count ordered selected
  = fill (fun n : NodeId => n) count (EvaluatorCandidate_node <$> ordered) selected.
Proof.
  revert selected; induction ordered as [|c ordered IH]; intros selected; cbn; [done|].
  assert (Hx : existsb (fun e => bool_decide (e = c.(EvaluatorCandidate_node))) selected
               = contains c.(EvaluatorCandidate_node) selected).
  { apply Bool.eq_true_iff_eq. rewrite contains_true, existsb_exists. split.
    - intros (x & Hx & He). breflect. subst x. by apply list_elem_of_In.
    - intros Hin. exists c.(EvaluatorCandidate_node). split; [by apply list_elem_of_In|].
      by apply bool_decide_true. }
  rewrite Hx. by rewrite !IH.
Qed.

(** The candidates in the order they are considered. *)
Definition ranked seed candidates : list EvaluatorCandidate :=
  sort_by_key (evaluator_key seed) (List.filter (fun c => negb (barred c)) candidates).

Lemma select_evaluators_selected candidates count seed cap :
  NoDup (EvaluatorCandidate_node <$> candidates) ->
  let selected := (select_evaluators candidates count seed cap).(EvaluatorSelection_selected) in
  let nodes := EvaluatorCandidate_node <$> ranked seed candidates in
  NoDup nodes /\ NoDup selected /\ (forall n, n ∈ selected -> n ∈ nodes)
  /\ len selected = N.min count (len nodes).
Proof.
  intros Hnd. cbn zeta. set (nodes := EvaluatorCandidate_node <$> ranked seed candidates).
  assert (Hn : NoDup nodes).
  { unfold nodes, ranked. rewrite sort_by_key_perm.
    eapply sublist_NoDup; [exact Hnd|]. apply fmap_sublist, filter_sublist. }
  unfold select_evaluators. fold (ranked seed candidates).
  destruct (select_by_group_spec cap count (ranked seed candidates) [] []) as (picked & Hp & Hs & Hl).
  { unfold len. cbn. lia. }
  destruct (select_by_group _ _ _ _ _) as [sel groups]. cbn [fst app] in Hp, Hl. subst sel.
  cbn [EvaluatorSelection_selected]. rewrite select_remaining_fill. fold nodes.
  destruct (fill_spec (fun n : NodeId => n) count nodes picked) as (filled & -> & Hin & Hnd' & Hl' & _ & Hcov).
  { rewrite list_fmap_id. by eapply sublist_NoDup. }
  { done. }
  rewrite list_fmap_id in Hnd', Hcov.
  assert (Hsub : forall n, n ∈ picked ++ filled -> n ∈ nodes).
  { intros n [Hx|Hx]%elem_of_app; [by eapply elem_of_sublist | by apply Hin]. }
  assert (Hle : forall xs ys : list NodeId, NoDup xs -> (forall x, x ∈ xs -> x ∈ ys) -> len xs <= len ys).
  { intros xs ys Hxs Hxy. unfold len. pose proof (submseteq_length _ _ (NoDup_submseteq xs ys Hxs Hxy)). lia. }
  split_and!; [done | done | done |].
  pose proof (Hle _ _ Hnd' Hsub). destruct Hcov as [Hfull|Hcov]; [lia|].
  pose proof (Hle _ _ Hn Hcov). lia.
Qed.

Lemma filter_split {A} (p : A -> bool) xs :
  List.filter p xs ++ List.filter (fun x => negb (p x)) xs ≡ₚ xs.
Proof.
  induction xs as [|x xs IH]; cbn; [done|]. destruct (p x); cbn; [by rewrite IH|].
  rewrite <- Permutation_middle. by rewrite IH.
Qed.

(** Evaluator selection divides the candidates: nobody is both selected and rejected or
    lost, nobody degraded or quarantined is selected, and as many are selected as were asked
    for and are eligible. *)
Theorem select_evaluators_partition candidates count seed cap :
  NoDup (EvaluatorCandidate_node <$> candidates) ->
  let r := select_evaluators candidates count seed cap in
  r.(EvaluatorSelection_selected) ++ r.(EvaluatorSelection_rejected)
    ≡ₚ EvaluatorCandidate_node <$> candidates
  /\ (forall c, c ∈ candidates -> barred c = true ->
        c.(EvaluatorCandidate_node) ∉ r.(EvaluatorSelection_selected))
  /\ len r.(EvaluatorSelection_selected)
     = N.min count (len (List.filter (fun c => negb (barred c)) candidates)).
Proof.
  intros Hnd r. destruct (select_evaluators_selected candidates count seed cap Hnd) as (Hn & Hs & Hsub & Hlen).
  fold r in Hs, Hsub, Hlen. set (sel := r.(EvaluatorSelection_selected)) in *.
  set (nodes := EvaluatorCandidate_node <$> ranked seed candidates) in *.
  assert (Hnodes : nodes ≡ₚ EvaluatorCandidate_node <$> List.filter (fun c => negb (barred c)) candidates).
  { unfold nodes, ranked. by rewrite sort_by_key_perm. }
  assert (Hrej : r.(EvaluatorSelection_rejected)
    = (EvaluatorCandidate_node <$> List.filter barred candidates)
      ++ (EvaluatorCandidate_node <$> List.filter (fun c =>
            negb (contains c.(EvaluatorCandidate_node) sel)) (ranked seed candidates))).
  { subst sel r. unfold select_evaluators. fold (ranked seed candidates). by destruct (select_by_group _ _ _ _ _). }
  split_and!.
  - rewrite Hrej, Permutation_app_comm, <- app_assoc.
    assert (Hrest : (EvaluatorCandidate_node <$> List.filter (fun c =>
              negb (contains c.(EvaluatorCandidate_node) sel)) (ranked seed candidates)) ++ sel ≡ₚ nodes).
    { rewrite <- (filter_split (fun n => contains n sel) nodes).
      rewrite (Permutation_app_comm (EvaluatorCandidate_node <$> _)). f_equiv.
      - apply NoDup_Permutation; [done | |].
        + eapply sublist_NoDup; [exact Hn | apply filter_sublist].
        + intros n. rewrite elem_of_filter_b, contains_true. naive_solver.
      - unfold nodes. clear. induction (ranked seed candidates) as [|c cs IH]; [done|]. cbn.
        destruct (contains _ _); cbn; by rewrite IH. }
    rewrite Hrest, Hnodes, <- fmap_app. by rewrite filter_split.
  - intros c Hc Hb Hin%Hsub. rewrite Hnodes in Hin. apply list_elem_of_fmap in Hin as (c' & He & Hc').
    apply elem_of_filter_b in Hc' as [Hc' Hb'].
    rewrite (NoDup_fmap_eq EvaluatorCandidate_node candidates c c' Hnd Hc Hc' He) in Hb.
    by rewrite Hb in Hb'.
  - rewrite Hlen. f_equal. unfold len. by rewrite Hnodes, length_fmap.
Qed.

(** The selection depends on the seed and on the set of candidates, not on the order in
    which they are listed. *)
Theorem select_evaluators_order_independent candidates candidates' count seed cap :
  NoDup (EvaluatorCandidate_node <$> candidates) -> candidates ≡ₚ candidates' ->
  (select_evaluators candidates count seed cap).(EvaluatorSelection_selected)
  = (select_evaluators candidates' count seed cap).(EvaluatorSelection_selected).
Proof.
  intros Hnd Hp. assert (Hranked : ranked seed candidates = ranked seed candidates').
  { unfold ranked. eapply (StronglySorted_unique_strong
      (fun x y => leb (evaluator_key seed x) (evaluator_key seed y) = true)).
    - intros x y Hx Hy H1 H2. pose proof (leb_antisym _ _ H1 H2) as He.
      apply elem_of_sort_by_key, elem_of_filter_b in Hx as [Hx _].
      apply elem_of_sort_by_key, elem_of_filter_b in Hy as [Hy _]. rewrite <- Hp in Hy.
      apply (NoDup_fmap_eq EvaluatorCandidate_node candidates); [done..|]. by injection He.
    - apply sort_by_key_sorted.
    - apply sort_by_key_sorted.
    - rewrite !sort_by_key_perm. by apply filter_perm. }
  unfold select_evaluators. fold (ranked seed candidates) (ranked seed candidates').
  rewrite Hranked. by destruct (select_by_group _ _ _ _ _).
Qed.
End EvaluatorFacts.

(** ** Signed claims *)

(** A node convicts a peer of equivocation only on two claims that carry the peer's valid
    signature, are filed under one object, lineage, generation and sequence, and differ in
    their digest; the peer is then quarantined for the policy's time. *)
Theorem equivocation_proof_sound `{Blake3} `{Ed25519} `{ClaimPostcard} s claim now proof s' :
  observe_claim s claim now = (Ok (Some proof), s') ->
  let first := proof.(EquivocationProof_first) in
  let second := proof.(EquivocationProof_second) in
  second = claim
  /\ bt_get (claim_key claim) s.(LocalSecurityState_claims) = Some first
  /\ first.(SignedStateClaim_signer) = claim.(SignedStateClaim_signer)
  /\ first.(SignedStateClaim_signer_public_key) = claim.(SignedStateClaim_signer_public_key)
  /\ claim_key first = claim_key claim
  /\ first.(SignedStateClaim_digest) <> claim.(SignedStateClaim_digest)
  /\ verify_claim first now = Ok tt /\ verify_claim claim now = Ok tt
  /\ (forall t, now <= t ->
      t <= sat_add u64_max now s.(LocalSecurityState_policy).(SecurityPolicy_quarantine_seconds) ->
      quarantined_at s' claim.(SignedStateClaim_signer) t).
Proof.
  unfold observe_claim. destruct (verify_claim claim now) as [[]|e] eqn:Hv; [|done].
  destruct (_ || _); [done|]. destruct (bt_get _ _) as [previous|] eqn:Hg; [|done].
  destruct (bool_decide _); [done|].
  destruct (EquivocationProof_verify _ now) eqn:Hp; [|done]. cbn [negb]. intros Ho.
  injection Ho as <- <-. unfold EquivocationProof_verify in Hp. cbn in Hp. breflect. cbn.
  assert (Hok : forall c : result unit SecurityError, is_ok c = true -> c = Ok tt) by (by intros [[]|]).
  split_and!; auto.
  - unfold claim_key. congruence.
  - intros t. apply quarantine_at.
Qed.

(** ** Capability confidence *)

(** The confidence of a capability is its success rate in permille as long as the product
    fits 32 bits; past 4294967 successes the multiplication saturates, and a peer that never
    failed is no longer at 1000. *)
Theorem confidence_permille_saturates c :
  let successes := c.(CapabilityConfidence_successful_challenges) + c.(CapabilityConfidence_successful_tasks) in
  let failures := c.(CapabilityConfidence_failed_challenges) + c.(CapabilityConfidence_failed_tasks) in
  0 < successes + failures <= u32_max ->
  (successes * 1000 <= u32_max -> confidence_permille c = successes * 1000 / (successes + failures))
  /\ (4294967 < successes -> confidence_permille c < 1000).
Proof.
  cbn zeta. intros Ht. unfold confidence_permille.
  set (s := c.(CapabilityConfidence_successful_challenges) + _) in *.
  set (f := c.(CapabilityConfidence_failed_challenges) + _) in *.
  assert (Hsat : forall a b, a + b <= u32_max -> sat_add u32_max a b = a + b)
    by (intros; unfold sat_add; lia).
  rewrite !(Hsat (CapabilityConfidence_successful_challenges c)),
    !(Hsat (CapabilityConfidence_failed_challenges c)) by (fold s f; lia).
  fold s f. rewrite !Hsat by lia.
  destruct (s + f =? 0) eqn:Hz; breflect; [lia|]. unfold sat_mul. split.
  - intros Hs. rewrite (N.min_l _ u32_max) by done.
    assert (s * 1000 / (s + f) <= 1000).
    { apply N.Div0.div_le_upper_bound. nia. }
    rewrite (N.min_l _ 1000) by done. unfold trunc. apply N.mod_small. unfold u16_max. lia.
  - intros Hs. assert (Hq : N.min (s * 1000) u32_max / (s + f) < 1000).
    { apply N.Div0.div_lt_upper_bound. unfold u32_max in *. lia. }
    unfold trunc, u16_max. rewrite N.mod_small; lia.
Qed.

(** ** Samples and witnesses *)

Definition sec_hash : Blake3 := fun bs => bs.

Definition sec_contributions : ContributionPostcard :=
  fun fields => Some (Z.to_N <$> fields.2).

Definition sec_verify : Ed25519 := fun _ _ signature => bool_decide (head signature = Some 1).

Definition sec_claim_bytes : ClaimPostcard := fun fields => Ok [fields.2].

#[local] Existing Instances sec_hash sec_contributions sec_verify sec_claim_bytes.

Definition sec_peer (n : N) : NodeId := mkNodeId (replicate 32 n).

Definition sec_policy_with (max_replay : N) : SecurityPolicy :=
  mkSecurityPolicy SecurityProfile_Balanced 16 max_replay 4 300 1 2 (100 * TRAINING_SCALE) 8 60 1 900.

Definition sec_new (max_replay : N) : LocalSecurityState :=
  match LocalSecurityState_new (sec_peer 9) (sec_policy_with max_replay) with
  | Ok s => s
  | Err _ => mkLocalSecurityState (sec_peer 9) (sec_policy_with max_replay) [] [] [] [] [] [] [] [] [] [] 1
  end.

Definition sec_contribution (job worker sequence : N) (value : Z) : TrainingContribution :=
  mkTrainingContribution (mkJobId (replicate 16 job)) (sec_peer worker) (mkArtifactId (replicate 32 4))
    1 1 sequence [value].

Definition sec_members : list NodeId := [sec_peer 1; sec_peer 2].

Lemma sec_new_reachable max : 0 < max -> sec_reachable (sec_peer 9) (sec_policy_with max) (sec_new max).
Proof.
  intros Hm. apply sec_reach_new. unfold sec_new, LocalSecurityState_new, SecurityPolicy_validate. cbn.
  destruct max; [lia | done].
Qed.

Lemma sec_peer_real : sec_peer 9 <> NodeId_default.
Proof. done. Qed.

Lemma security_state_validates_witness :
  LocalSecurityState_validate
    (admit_training_update (sec_new 4) (sec_contribution 1 1 1 5) sec_members 10).2 = Ok tt.
Proof.
  apply (security_state_validates (sec_peer 9) (sec_policy_with 4)); [apply sec_peer_real|].
  eapply sec_reach_step; [by apply sec_new_reachable | constructor].
Defined.

Definition sec_admitted : LocalSecurityState :=
  (admit_training_update (sec_new 4) (sec_contribution 1 1 1 5) sec_members 10).2.

Lemma recorded_contribution_is_duplicate_witness :
  (admit_training_update sec_admitted (sec_contribution 1 1 1 5) sec_members 20).1
  = Err SecurityError_DuplicateTraining.
Proof.
  apply (recorded_contribution_is_duplicate sec_admitted (sec_contribution 1 1 1 5) sec_members 20);
    [apply contains_true; vm_compute; reflexivity | vm_compute; reflexivity
    | left; vm_compute; reflexivity].
Defined.

Lemma sec_new_ok : sec_ok (sec_new 4).
Proof. apply (sec_reachable_ok (sec_peer 9) (sec_policy_with 4)); [done | by apply sec_new_reachable]. Qed.

Lemma sec_admissible value :
  contribution_out_of_bounds (sec_new 4) (sec_contribution 1 1 1 value) = false ->
  admissible (sec_new 4) (sec_contribution 1 1 1 value) sec_members 10.
Proof.
  intros Hv. split.
  - apply contains_true. vm_compute. reflexivity.
  - done.
  - by intros (u & Hu & _).
  - by split_and!.
  - done.
Qed.

Lemma sec_conflicting :
  conflicting (sec_new 4) (sec_contribution 1 1 1 5) (sec_contribution 1 1 1 6) sec_members 10.
Proof. split; [by apply sec_admissible | by apply sec_admissible | done | done | done | done]. Qed.

Lemma admission_order_independent_witness :
  admit_all (sec_new 4)
    [sec_contribution 1 1 1 6; sec_contribution 1 1 1 5; sec_contribution 1 1 1 5] sec_members 10
  ≡ₚ [Ok TrainingAdmission_Accepted; Err SecurityError_DuplicateTraining;
      Err SecurityError_TrainingEquivocation].
Proof.
  apply (admission_order_independent (sec_new 4) (sec_contribution 1 1 1 5) (sec_contribution 1 1 1 6)
           sec_members 10); [apply sec_new_ok | apply sec_conflicting | set_solver].
Defined.

Lemma sec_admitted_ok : sec_ok sec_admitted.
Proof. apply sec_ok_admit, sec_new_ok. Qed.

Lemma sec_admissible_again :
  admissible sec_admitted (sec_contribution 1 1 1 6) sec_members 10.
Proof.
  apply (admissible_after (sec_new 4) (sec_contribution 1 1 1 5)); try done;
    [apply sec_new_ok | by apply sec_admissible | by apply sec_admissible].
Qed.

Lemma equivocation_quarantines_witness :
  (is_quarantined (admit_training_update sec_admitted (sec_contribution 1 1 1 6) sec_members 10).2
     (sec_peer 1) 310).1 = true.
Proof.
  apply (equivocation_quarantines sec_admitted (sec_contribution 1 1 1 6) sec_members 10 310);
    [apply sec_admitted_ok | apply sec_admissible_again
    | exists (contribution_digest (sec_contribution 1 1 1 5)); vm_compute; split; [reflexivity | discriminate]
    | vm_compute; discriminate | vm_compute; discriminate | vm_compute; discriminate].
Defined.

Lemma admission_sound_witness :
  bt_get (replay_key (sec_contribution 1 1 1 5)) sec_admitted.(LocalSecurityState_replay)
  = Some (contribution_digest (sec_contribution 1 1 1 5)).
Proof.
  apply (admission_sound (sec_new 4) (sec_contribution 1 1 1 5) sec_members 10
           TrainingAdmission_Accepted sec_admitted); [apply sec_new_ok | vm_compute; reflexivity].
Defined.

Definition sec_observed : LocalSecurityState := record_direct_observation (sec_new 4) (sec_peer 1) true 10.

Lemma critical_role_sound_witness : ~ quarantined_at sec_observed (sec_peer 1) 20.
Proof.
  apply (critical_role_sound sec_observed (sec_peer 1) CriticalRole_Aggregator 20);
    [|vm_compute; reflexivity].
  eapply sec_step_ok; [apply sec_new_ok | constructor].
Defined.

Definition sec_candidates : list EvaluatorCandidate :=
  [mkEvaluatorCandidate (sec_peer 1) IdentityMaturity_Established 3 1;
   mkEvaluatorCandidate (sec_peer 2) IdentityMaturity_Quarantined 3 1;
   mkEvaluatorCandidate (sec_peer 3) IdentityMaturity_New 0 2].

Lemma sec_candidates_nodup : NoDup (EvaluatorCandidate_node <$> sec_candidates).
Proof. apply has_duplicates_false. vm_compute. reflexivity. Qed.

Lemma select_evaluators_partition_witness :
  len (select_evaluators sec_candidates 5 7 1).(EvaluatorSelection_selected) = 2.
Proof.
  rewrite (proj2 (proj2 (select_evaluators_partition sec_candidates 5 7 1 sec_candidates_nodup))).
  vm_compute. reflexivity.
Defined.

Lemma select_evaluators_order_independent_witness :
  (select_evaluators sec_candidates 2 7 1).(EvaluatorSelection_selected)
  = (select_evaluators (rev sec_candidates) 2 7 1).(EvaluatorSelection_selected).
Proof.
  apply (select_evaluators_order_independent sec_candidates (rev sec_candidates) 2 7 1);
    [apply sec_candidates_nodup | apply Permutation_rev].
Defined.

Definition sec_claim (digest : N) : SignedStateClaim :=
  mkSignedStateClaim (NodeId_from_public_key (replicate 32 1)) (replicate 32 1) "checkpoint"
    None None 1 1 (mkArtifactId (replicate 32 digest)) 100 [1].

Definition sec_claimed : LocalSecurityState := (observe_claim (sec_new 4) (sec_claim 1) 10).2.

Lemma equivocation_proof_sound_witness :
  verify_claim (sec_claim 1) 10 = Ok tt.
Proof.
  apply (equivocation_proof_sound sec_claimed (sec_claim 2) 10
           (mkEquivocationProof (sec_claim 1) (sec_claim 2))
           (observe_claim sec_claimed (sec_claim 2) 10).2).
  vm_compute. reflexivity.
Defined.

Lemma confidence_permille_saturates_witness :
  confidence_permille (mkCapabilityConfidence 5000000 0 0 0 1) < 1000.
Proof.
  apply (confidence_permille_saturates (mkCapabilityConfidence 5000000 0 0 0 1));
    [vm_compute; split; [reflexivity | discriminate] | vm_compute; reflexivity].
Defined.

(** Replay protection lasts as long as the bounded replay map: once the entry of a
    stream's last contribution is evicted by another job's, the same contribution is admitted
    a second time. *)
Theorem evicted_contribution_admitted_twice :
  SecurityPolicy_validate (sec_policy_with 1) = Ok tt
  /\ admit_all (sec_new 1)
       [sec_contribution 1 1 1 5; sec_contribution 2 2 1 5; sec_contribution 1 1 1 5] sec_members 10
     = [Ok TrainingAdmission_Accepted; Ok TrainingAdmission_Accepted; Ok TrainingAdmission_Accepted].
Proof. vm_compute. by split. Qed.

(** A string of [n] two-byte characters. *)
Fixpoint accents (n : nat) : String.string :=
  match n with
  | O => EmptyString
  | S n => String (ascii_of_N 195) (String (ascii_of_N 169) (accents n))
  end.

(** Events are cut to 256 characters but validated for 256 bytes: an event whose detail
    is not ASCII makes the whole persisted state fail its own validation. *)
Theorem multibyte_event_invalidates_state :
  LocalSecurityState_validate (sec_new 4) = Ok tt
  /\ LocalSecurityState_validate
       (record_event (sec_new 4) 10 None SecurityEventKind_ArtifactCorrupt "artifact" (accents 200))
     = Err (SecurityError_InvalidRecord "persisted security event exceeds local bounds").
Proof. vm_compute. by split. Qed.
