(* ===== verification/Compute.v ===== *)
(** * The compute boundary

    Models [crates/intelligence/src/compute.rs]: the bounded compute task, the checks every
    backend makes, the reference CPU backend, the emulated accelerator (the build without a
    native CUDA runtime), and the registry that selects a backend, runs a task on it, keeps
    health overrides and the evidence of capability challenges.

    The trait [ComputeBackend] is a class; the registry is polymorphic in it, and what it
    relies on is the class [BackendLaws], which both backends satisfy. A panic is [None]. The
    build profile decides what an arithmetic overflow does: it is the class [Profile]. The
    clock is an argument: the microseconds a task took. The memory of the host, which the
    source reads from [/proc/meminfo], is an argument as well. The driver API of the native
    CUDA runtime is foreign code and is not modelled.

    A [HashMap] is a sorted association list: its iteration order is unspecified, and the
    source sorts what it iterates, except in [evidence]. *)

From Stdlib Require Import String ZArith NArith Lia.
From stdpp Require Import base tactics sets strings numbers list.
From S2P Require Import Prelude OrdMap Types.

Local Open Scope N_scope.
Local Open Scope rust_scope.

(** ** Signed integers *)

Definition i64_min : Z := -9223372036854775808.

Definition i64_max : Z := 9223372036854775807.

Definition i128_min : Z := - 2 ^ 127.

Definition i128_max : Z := 2 ^ 127 - 1.

(** [value.clamp(lo, hi)] *)
Definition clamp_to (lo hi value : Z) : Z := Z.max lo (Z.min value hi).

Definition i64_saturating_mul (a b : Z) : Z := clamp_to i64_min i64_max (a * b).

Definition i64_saturating_add (a b : Z) : Z := clamp_to i64_min i64_max (a + b).

(** The two's complement value of the low 64 bits: [x as i64] and [wrapping_add]. *)
Definition wrap_i64 (z : Z) : Z := ((z - i64_min) mod 2 ^ 64 + i64_min)%Z.

Definition wrap_i128 (z : Z) : Z := ((z - i128_min) mod 2 ^ 128 + i128_min)%Z.

(** [value.to_le_bytes()] of an [i64]. *)
Fixpoint le_bytes (n : nat) (v : N) : list N :=
  match n with
  | O => []
  | S n => v mod 256 :: le_bytes n (v / 256)
  end.

Definition i64_to_le_bytes (z : Z) : list N := le_bytes 8 (Z.to_N (z mod 2 ^ 64)).

(** ** Panics

    A computation that may panic: [None] is the panic. *)

(** [overflow-checks]: on in the development profile, off in the release profile. *)
Class Profile := overflow_checks : bool.

Section Overflow.
Context `{Profile}.

(** [a * b] at [u16]. *)
Definition u16_mul (a b : N) : option N :=
  if a * b <=? u16_max then Some (a * b)
  else if overflow_checks then None else Some (trunc u16_max (a * b)).

Definition i128_add (a b : Z) : option Z :=
  if ((i128_min <=? a + b) && (a + b <=? i128_max))%Z then Some (a + b)%Z
  else if overflow_checks then None else Some (wrap_i128 (a + b)).

Definition i64_add (a b : Z) : option Z :=
  if ((i64_min <=? a + b) && (a + b <=? i64_max))%Z then Some (a + b)%Z
  else if overflow_checks then None else Some (wrap_i64 (a + b)).

(** [iter.sum()]: a left fold from zero. *)
Fixpoint sum_with (add : Z -> Z -> option Z) (acc : Z) (xs : list Z) : option Z :=
  match xs with
  | [] => Some acc
  | x :: xs => acc ← add acc x; sum_with add acc xs
  end.
End Overflow.

(** [values[start..start + n]], which panics out of range. *)
Definition slice_from {A} (start n : N) (values : list A) : option (list A) :=
  if start + n <=? len values then Some (take (N.to_nat n) (drop (N.to_nat start) values)) else None.

(** ** Tasks *)

Definition MAX_TASK_ELEMENTS : N := 128 * 128.

Definition MAX_TASK_BYTES : N := 8 * 1024 * 1024.

Definition MAX_QUEUE : N := 32.

Inductive ComputeOperation :=
  | ComputeOperation_MatrixVector (rows cols : N)
  | ComputeOperation_MatrixTransposeVector (rows cols : N)
  | ComputeOperation_Affine (coefficient bias : Z)
  | ComputeOperation_Gradient (coefficient : Z)
  | ComputeOperation_ElementwiseMultiply
  | ComputeOperation_Challenge.

Record ComputeTask := mkComputeTask {
  ComputeTask_operation : ComputeOperation;
  ComputeTask_requirements : ComputeRequirements;
  ComputeTask_input_elements : N;
  ComputeTask_output_elements : N;
  ComputeTask_graph_generation : N;
  ComputeTask_model_generation : N;
  ComputeTask_shard_id : N;
  ComputeTask_deadline_ms : N
}.

Record ComputeInput := mkComputeInput {
  ComputeInput_values : list Z;
  ComputeInput_format : NumericFormat
}.

Record PreparedTask := mkPreparedTask {
  PreparedTask_task : ComputeTask;
  PreparedTask_backend : BackendKind;
  PreparedTask_reserved_bytes : N
}.

Record ComputeOutput := mkComputeOutput {
  ComputeOutput_values : list Z;
  ComputeOutput_format : NumericFormat;
  ComputeOutput_backend : BackendKind;
  ComputeOutput_elapsed_micros : N;
  ComputeOutput_converted : bool
}.

Inductive ComputeError :=
  | ComputeError_Unavailable
  | ComputeError_Unsupported
  | ComputeError_InvalidTask (detail : string)
  | ComputeError_OutOfMemory
  | ComputeError_QueueFull
  | ComputeError_Timeout
  | ComputeError_NativeFailure (detail : string)
  | ComputeError_Overflow.

#[export] Instance ComputeError_eq_dec : EqDecision ComputeError.
Proof. solve_decision. Defined.

Definition ComputeError_to_string (self : ComputeError) : string :=
  match self with
  | ComputeError_Unavailable => "backend is unavailable"
  | ComputeError_Unsupported => "backend does not support the requested task"
  | ComputeError_InvalidTask detail => "compute task is malformed: " ++ detail
  | ComputeError_OutOfMemory => "compute task exceeds safe memory"
  | ComputeError_QueueFull => "compute task queue is full"
  | ComputeError_Timeout => "compute task timed out"
  | ComputeError_NativeFailure detail => "native backend failed: " ++ detail
  | ComputeError_Overflow => "checked arithmetic overflow"
  end.

Definition apply_memory_share (available_bytes : N) (shared_bytes : option N) : N * bool :=
  match shared_bytes with
  | Some 0 => (1, false)
  | Some limit => (N.max (N.min available_bytes limit) 1, true)
  | None => (N.max available_bytes 1, true)
  end.

(** [a.checked_add(b)] and [a.checked_mul(b)] at [u64]. *)
Definition u64_checked (value : N) : option N := if value <=? u64_max then Some value else None.

Definition checked_elements (elements : N) : result N ComputeError :=
  fail_if ((elements =? 0) || (MAX_TASK_ELEMENTS <? elements))
    (ComputeError_InvalidTask "tensor element count is outside the bounded task limit") ;?
  ok_or (u64_checked (elements * 8)) ComputeError_Overflow.

Definition validate_task_shape (task : ComputeTask) : result unit ComputeError :=
  let input_elements := task.(ComputeTask_input_elements) in
  let output_elements := task.(ComputeTask_output_elements) in
  let memory := task.(ComputeTask_requirements).(ComputeRequirements_required_memory_bytes) in
  fail_if ((task.(ComputeTask_graph_generation) =? 0)
           || (task.(ComputeTask_model_generation) =? 0)
           || (task.(ComputeTask_deadline_ms) =? 0)
           || (120000 <? task.(ComputeTask_deadline_ms))
           || (memory =? 0))
    (ComputeError_InvalidTask "generation, deadline, or memory requirement is invalid") ;?
  let? input_bytes := checked_elements input_elements in
  let? output_bytes := checked_elements output_elements in
  let? total := ok_or (value ← u64_checked (input_bytes + output_bytes); u64_checked (value + memory))
                  ComputeError_Overflow in
  fail_if (MAX_TASK_BYTES <? total) ComputeError_OutOfMemory ;?
  match task.(ComputeTask_operation) with
  | ComputeOperation_MatrixVector rows cols =>
      fail_if ((rows =? 0) || (cols =? 0) || negb (cols =? input_elements)
               || negb (rows =? output_elements))
        (ComputeError_InvalidTask "matrix-vector shape does not match task metadata")
  | ComputeOperation_MatrixTransposeVector rows cols =>
      fail_if ((rows =? 0) || (cols =? 0) || negb (rows =? input_elements)
               || negb (cols =? output_elements))
        (ComputeError_InvalidTask "transposed matrix-vector shape does not match task metadata")
  | ComputeOperation_Affine _ _ | ComputeOperation_Gradient _ =>
      fail_if (negb (input_elements =? output_elements))
        (ComputeError_InvalidTask "elementwise shape does not match task metadata")
  | ComputeOperation_ElementwiseMultiply | ComputeOperation_Challenge => Ok tt
  end.

(** [available_memory_bytes.saturating_mul(1000 - safety_margin_permille) / 1000] *)
Definition safe_memory (capabilities : BackendCapabilities) : N :=
  sat_mul u64_max capabilities.(BackendCapabilities_available_memory_bytes)
    (sat_sub 1000 capabilities.(BackendCapabilities_safety_margin_permille)) / 1000.

(** The backend is the required one or one of the allowed ones. *)
Definition backend_admitted (requirements : ComputeRequirements) (kind : BackendKind) : bool :=
  (requirements.(ComputeRequirements_required_backend) == Some kind)
  || contains kind requirements.(ComputeRequirements_allowed_backends).

Definition validate_requirements (capabilities : BackendCapabilities) (task : ComputeTask)
    : result unit ComputeError :=
  let requirements := task.(ComputeTask_requirements) in
  validate_task_shape task ;?
  fail_if (negb capabilities.(BackendCapabilities_runtime_available)
           || (capabilities.(BackendCapabilities_health) == BackendHealth_Unavailable))
    ComputeError_Unavailable ;?
  fail_if (negb (backend_admitted requirements capabilities.(BackendCapabilities_kind)))
    ComputeError_Unsupported ;?
  fail_if ((safe_memory capabilities <? requirements.(ComputeRequirements_required_memory_bytes))
           || (capabilities.(BackendCapabilities_max_tensor_elements)
               <? sat_add u64_max task.(ComputeTask_input_elements) task.(ComputeTask_output_elements))
           || existsb (fun format => negb (contains format capabilities.(BackendCapabilities_formats)))
                requirements.(ComputeRequirements_required_formats)
           || existsb (fun feature => negb (contains feature capabilities.(BackendCapabilities_features)))
                requirements.(ComputeRequirements_required_features))
    ComputeError_Unsupported.

(** ** The backend interface *)

Class ComputeBackend (B : Type) := {
  backend_kind : B -> BackendKind;
  backend_capabilities : B -> BackendCapabilities;
  backend_validate : B -> ComputeTask -> result unit ComputeError;
  backend_prepare : B -> ComputeTask -> result PreparedTask ComputeError * B;
  backend_execute : B -> PreparedTask -> list ComputeInput -> N ->
                    option (result ComputeOutput ComputeError * B);
  backend_synchronize : B -> result unit ComputeError * B;
  backend_health : B -> BackendHealth
}.

(** ** Operations *)

(** The bound of the results of the reference kernels. *)
Definition clamp_result (value : Z) : Z := clamp_to (-1000000000) 1000000000 value.

Section Kernels.
Context `{Profile}.

(** The products of the zipped values, summed at [i128], where each product fits. *)
Definition dot (left right : list Z) : option Z :=
  sum_with i128_add 0 (zip_with Z.mul left right).

Definition matrix_vector (rows cols : N) (matrix vector : list Z) : option (list Z) :=
  mapM (fun row => values ← slice_from (N.of_nat row * cols) cols matrix;
                   total ← dot values vector;
                   Some (clamp_result total))
    (seq 0 (N.to_nat rows)).

(** The values are read by index, which panics out of range. *)
Definition matrix_transpose_vector (rows cols : N) (matrix vector : list Z) : option (list Z) :=
  mapM (fun col =>
          products ← mapM (fun row => cell ← matrix !! (row * N.to_nat cols + col)%nat;
                                      factor ← vector !! row;
                                      Some (i64_saturating_mul cell factor))
                       (seq 0 (N.to_nat rows));
          sum_with i64_add 0 products)
    (seq 0 (N.to_nat cols)).

(** The [match] of [CpuBackend::execute] on the operation. *)
Definition run_operation (operation : ComputeOperation) (inputs : list ComputeInput)
    : option (result (list Z) ComputeError) :=
  let invalid detail := Some (Err (ComputeError_InvalidTask detail)) in
  match operation with
  | ComputeOperation_MatrixVector rows cols =>
      let detail := "matrix-vector buffers do not match checked dimensions"%string in
      match inputs with
      | [matrix; vector] =>
          size ← u16_mul rows cols;
          if negb (len matrix.(ComputeInput_values) =? size)
             || negb (len vector.(ComputeInput_values) =? cols)
          then invalid detail
          else values ← matrix_vector rows cols matrix.(ComputeInput_values)
                          vector.(ComputeInput_values);
               Some (Ok values)
      | _ => invalid detail
      end
  | ComputeOperation_Affine coefficient bias =>
      match inputs with
      | [input] =>
          Some (Ok ((fun value => clamp_result (value * coefficient + bias))
                    <$> input.(ComputeInput_values)))
      | _ => invalid "affine task requires one input"%string
      end
  | ComputeOperation_MatrixTransposeVector rows cols =>
      let detail := "transposed matrix-vector buffers do not match checked dimensions"%string in
      match inputs with
      | [matrix; vector] =>
          size ← u16_mul rows cols;
          if negb (len matrix.(ComputeInput_values) =? size)
             || negb (len vector.(ComputeInput_values) =? rows)
          then invalid detail
          else values ← matrix_transpose_vector rows cols matrix.(ComputeInput_values)
                          vector.(ComputeInput_values);
               Some (Ok values)
      | _ => invalid detail
      end
  | ComputeOperation_Gradient coefficient =>
      match inputs with
      | [input] =>
          Some (Ok ((fun value => clamp_result (value * coefficient))
                    <$> input.(ComputeInput_values)))
      | _ => invalid "gradient task requires one input"%string
      end
  | ComputeOperation_ElementwiseMultiply =>
      let detail := "elementwise multiply buffers do not match"%string in
      match inputs with
      | [first; second] =>
          if negb (len first.(ComputeInput_values) =? len second.(ComputeInput_values))
          then invalid detail
          else Some (Ok (zip_with i64_saturating_mul first.(ComputeInput_values)
                           second.(ComputeInput_values)))
      | _ => invalid detail
      end
  | ComputeOperation_Challenge =>
      match inputs with
      | [input] =>
          Some (Ok ((fun value => i64_saturating_add (i64_saturating_mul value 2) 1)
                    <$> input.(ComputeInput_values)))
      | _ => invalid "challenge task requires one input"%string
      end
  end.
End Kernels.

(** ** The reference CPU backend *)

Record CpuBackend := mkCpuBackend {
  CpuBackend_capabilities : BackendCapabilities;
  CpuBackend_queued : N;
  CpuBackend_reserved_bytes : N
}.

(** The features every backend advertises. *)
Definition reference_features : list ComputeFeature :=
  [ComputeFeature_MatrixMultiply; ComputeFeature_TensorParallel; ComputeFeature_PipelineStage;
   ComputeFeature_DeterministicKernel].

(** [arch] is [std::env::consts::ARCH], [device_memory] what [host_available_memory()] found. *)
Definition CpuBackend_new (arch : string) (device_memory : N) (shared_memory_bytes : option N)
    : CpuBackend :=
  let (available_memory, sharing_enabled) := apply_memory_share device_memory shared_memory_bytes in
  {| CpuBackend_capabilities :=
       {| BackendCapabilities_kind := BackendKind_Cpu;
          BackendCapabilities_runtime_version := "native-reference-1";
          BackendCapabilities_device_count := 1;
          BackendCapabilities_device_memory_bytes := device_memory;
          BackendCapabilities_available_memory_bytes := available_memory;
          BackendCapabilities_formats := [NumericFormat_F32];
          BackendCapabilities_max_tensor_elements := MAX_TASK_ELEMENTS;
          BackendCapabilities_features := reference_features;
          BackendCapabilities_device_architecture := Some arch;
          BackendCapabilities_driver_available := true;
          BackendCapabilities_runtime_available := sharing_enabled;
          BackendCapabilities_peer_to_peer := false;
          BackendCapabilities_unified_memory := true;
          BackendCapabilities_max_concurrent_tasks := 2;
          BackendCapabilities_safety_margin_permille := 100;
          BackendCapabilities_health :=
            if sharing_enabled then BackendHealth_Ready else BackendHealth_Unavailable;
          BackendCapabilities_physical_verified := true;
          BackendCapabilities_observed_successes := 0;
          BackendCapabilities_observed_failures := 0 |};
     CpuBackend_queued := 0;
     CpuBackend_reserved_bytes := 0 |}.

(** The bytes a task reserves, the same in both backends. *)
Definition reserved_for (task : ComputeTask) : result N ComputeError :=
  let? elements := ok_or (u64_checked (task.(ComputeTask_input_elements)
                                       + task.(ComputeTask_output_elements)))
                     ComputeError_Overflow in
  let? bytes := ok_or (u64_checked (elements * 8)) ComputeError_Overflow in
  ok_or (u64_checked (task.(ComputeTask_requirements).(ComputeRequirements_required_memory_bytes)
                      + bytes))
    ComputeError_Overflow.

(** [queued + 1] and [queued - 1] at [u16], the reservation at [u64]. *)
Definition CpuBackend_acquire (self : CpuBackend) (bytes : N) : CpuBackend :=
  {| CpuBackend_capabilities := self.(CpuBackend_capabilities);
     CpuBackend_queued := sat_add u16_max self.(CpuBackend_queued) 1;
     CpuBackend_reserved_bytes := sat_add u64_max self.(CpuBackend_reserved_bytes) bytes |}.

Definition CpuBackend_release (self : CpuBackend) (bytes : N) : CpuBackend :=
  {| CpuBackend_capabilities := self.(CpuBackend_capabilities);
     CpuBackend_queued := sat_sub self.(CpuBackend_queued) 1;
     CpuBackend_reserved_bytes := sat_sub self.(CpuBackend_reserved_bytes) bytes |}.

Definition CpuBackend_validate (self : CpuBackend) (task : ComputeTask) : result unit ComputeError :=
  validate_requirements self.(CpuBackend_capabilities) task.

Definition CpuBackend_prepare (self : CpuBackend) (task : ComputeTask)
    : result PreparedTask ComputeError * CpuBackend :=
  let capabilities := self.(CpuBackend_capabilities) in
  let checked :=
    CpuBackend_validate self task ;?
    let? reserved_bytes := reserved_for task in
    fail_if (safe_memory capabilities
             <? sat_add u64_max self.(CpuBackend_reserved_bytes) reserved_bytes)
      ComputeError_OutOfMemory ;?
    fail_if (sat_add u16_max capabilities.(BackendCapabilities_max_concurrent_tasks) MAX_QUEUE
             <=? self.(CpuBackend_queued))
      ComputeError_QueueFull ;?
    Ok reserved_bytes in
  match checked with
  | Err error => (Err error, self)
  | Ok reserved_bytes =>
      (Ok (mkPreparedTask task BackendKind_Cpu reserved_bytes),
       CpuBackend_acquire self reserved_bytes)
  end.

Section Cpu.
Context `{Profile}.

Definition CpuBackend_execute (self : CpuBackend) (prepared : PreparedTask)
    (inputs : list ComputeInput) (elapsed : N)
    : option (result ComputeOutput ComputeError * CpuBackend) :=
  if existsb (fun input => input.(ComputeInput_format) != NumericFormat_F32) inputs
  then Some (Err ComputeError_Unsupported, self)
  else
    computed ← run_operation prepared.(PreparedTask_task).(ComputeTask_operation) inputs;
    match computed with
    | Err error => Some (Err error, self)
    | Ok values =>
        Some (Ok {| ComputeOutput_values := values;
                    ComputeOutput_format := NumericFormat_F32;
                    ComputeOutput_backend := BackendKind_Cpu;
                    ComputeOutput_elapsed_micros := N.max elapsed 1;
                    ComputeOutput_converted := false |},
              CpuBackend_release self prepared.(PreparedTask_reserved_bytes))
    end.

Definition CpuBackend_synchronize (self : CpuBackend) : result unit ComputeError * CpuBackend :=
  (Ok tt, mkCpuBackend self.(CpuBackend_capabilities) 0 0).

#[export] Instance CpuBackend_ComputeBackend : ComputeBackend CpuBackend := {
  backend_kind _ := BackendKind_Cpu;
  backend_capabilities self := self.(CpuBackend_capabilities);
  backend_validate := CpuBackend_validate;
  backend_prepare := CpuBackend_prepare;
  backend_execute := CpuBackend_execute;
  backend_synchronize := CpuBackend_synchronize;
  backend_health self := self.(CpuBackend_capabilities).(BackendCapabilities_health)
}.
End Cpu.

(** ** The emulated accelerator

    The build without a native CUDA runtime: [native_ready] is false. [emulate] is whether the
    environment asks for emulation. *)

Record OptionalAcceleratorBackend := mkOptionalAcceleratorBackend {
  OptionalAcceleratorBackend_capabilities : BackendCapabilities;
  OptionalAcceleratorBackend_emulate : bool;
  OptionalAcceleratorBackend_queued : N;
  OptionalAcceleratorBackend_reserved_bytes : N
}.

Definition OptionalAcceleratorBackend_new (kind : BackendKind) (emulate runtime_available : bool)
    (runtime_version : string) (shared_memory_bytes : option N) : OptionalAcceleratorBackend :=
  let device_memory := if emulate then 512 * 1024 * 1024 else 1 in
  let (available_memory, sharing_enabled) := apply_memory_share device_memory shared_memory_bytes in
  let ready := emulate && sharing_enabled in
  {| OptionalAcceleratorBackend_capabilities :=
       {| BackendCapabilities_kind := kind;
          BackendCapabilities_runtime_version := runtime_version;
          BackendCapabilities_device_count := 1;
          BackendCapabilities_device_memory_bytes := device_memory;
          BackendCapabilities_available_memory_bytes := available_memory;
          BackendCapabilities_formats := [NumericFormat_F32];
          BackendCapabilities_max_tensor_elements := MAX_TASK_ELEMENTS;
          BackendCapabilities_features := reference_features;
          BackendCapabilities_device_architecture := None;
          BackendCapabilities_driver_available := runtime_available;
          BackendCapabilities_runtime_available := ready;
          BackendCapabilities_peer_to_peer := false;
          BackendCapabilities_unified_memory := false;
          BackendCapabilities_max_concurrent_tasks := 1;
          BackendCapabilities_safety_margin_permille := 150;
          BackendCapabilities_health :=
            if ready then BackendHealth_Ready else BackendHealth_Unavailable;
          BackendCapabilities_physical_verified := false;
          BackendCapabilities_observed_successes := 0;
          BackendCapabilities_observed_failures := 0 |};
     OptionalAcceleratorBackend_emulate := emulate;
     OptionalAcceleratorBackend_queued := 0;
     OptionalAcceleratorBackend_reserved_bytes := 0 |}.

Definition accelerator_usage (self : OptionalAcceleratorBackend) (queued reserved_bytes : N)
    : OptionalAcceleratorBackend :=
  {| OptionalAcceleratorBackend_capabilities := self.(OptionalAcceleratorBackend_capabilities);
     OptionalAcceleratorBackend_emulate := self.(OptionalAcceleratorBackend_emulate);
     OptionalAcceleratorBackend_queued := queued;
     OptionalAcceleratorBackend_reserved_bytes := reserved_bytes |}.

Definition OptionalAcceleratorBackend_prepare (self : OptionalAcceleratorBackend) (task : ComputeTask)
    : result PreparedTask ComputeError * OptionalAcceleratorBackend :=
  let capabilities := self.(OptionalAcceleratorBackend_capabilities) in
  let checked :=
    validate_requirements capabilities task ;?
    fail_if (negb self.(OptionalAcceleratorBackend_emulate)) ComputeError_Unavailable ;?
    fail_if (capabilities.(BackendCapabilities_max_concurrent_tasks)
             <=? self.(OptionalAcceleratorBackend_queued)) ComputeError_QueueFull ;?
    let? reserved_bytes := reserved_for task in
    fail_if (safe_memory capabilities
             <? sat_add u64_max self.(OptionalAcceleratorBackend_reserved_bytes) reserved_bytes)
      ComputeError_OutOfMemory ;?
    Ok reserved_bytes in
  match checked with
  | Err error => (Err error, self)
  | Ok reserved_bytes =>
      (Ok (mkPreparedTask task capabilities.(BackendCapabilities_kind) reserved_bytes),
       accelerator_usage self (sat_add u16_max self.(OptionalAcceleratorBackend_queued) 1)
         (sat_add u64_max self.(OptionalAcceleratorBackend_reserved_bytes) reserved_bytes))
  end.

Definition with_backend (requirements : ComputeRequirements) (kind : BackendKind)
    : ComputeRequirements :=
  {| ComputeRequirements_task_kind := requirements.(ComputeRequirements_task_kind);
     ComputeRequirements_required_backend := Some kind;
     ComputeRequirements_allowed_backends := [kind];
     ComputeRequirements_required_formats := requirements.(ComputeRequirements_required_formats);
     ComputeRequirements_required_memory_bytes :=
       requirements.(ComputeRequirements_required_memory_bytes);
     ComputeRequirements_max_tensor_elements :=
       requirements.(ComputeRequirements_max_tensor_elements);
     ComputeRequirements_required_features := requirements.(ComputeRequirements_required_features);
     ComputeRequirements_kernel_id := requirements.(ComputeRequirements_kernel_id);
     ComputeRequirements_kernel_version := requirements.(ComputeRequirements_kernel_version);
     ComputeRequirements_fallback_backends := requirements.(ComputeRequirements_fallback_backends);
     ComputeRequirements_fallback_allowed := requirements.(ComputeRequirements_fallback_allowed) |}.

(** The task handed to the reference backend. *)
Definition reference_task (task : ComputeTask) : ComputeTask :=
  {| ComputeTask_operation := task.(ComputeTask_operation);
     ComputeTask_requirements := with_backend task.(ComputeTask_requirements) BackendKind_Cpu;
     ComputeTask_input_elements := task.(ComputeTask_input_elements);
     ComputeTask_output_elements := task.(ComputeTask_output_elements);
     ComputeTask_graph_generation := task.(ComputeTask_graph_generation);
     ComputeTask_model_generation := task.(ComputeTask_model_generation);
     ComputeTask_shard_id := task.(ComputeTask_shard_id);
     ComputeTask_deadline_ms := task.(ComputeTask_deadline_ms) |}.

Section Accelerator.
Context `{Profile}.

(** The host the emulation runs on: what [CpuBackend::new(None)] reads. *)
Context (arch : string) (host_memory : N).

Definition OptionalAcceleratorBackend_execute (self : OptionalAcceleratorBackend)
    (prepared : PreparedTask) (inputs : list ComputeInput) (elapsed : N)
    : option (result ComputeOutput ComputeError * OptionalAcceleratorBackend) :=
  if negb self.(OptionalAcceleratorBackend_emulate) then Some (Err ComputeError_Unavailable, self)
  else
    let cpu := CpuBackend_new arch host_memory None in
    let reference := mkPreparedTask (reference_task prepared.(PreparedTask_task)) BackendKind_Cpu
                       prepared.(PreparedTask_reserved_bytes) in
    computed ← CpuBackend_execute cpu reference inputs elapsed;
    match computed with
    | (Err error, _) => Some (Err error, self)
    | (Ok output, _) =>
        Some (Ok {| ComputeOutput_values := output.(ComputeOutput_values);
                    ComputeOutput_format := output.(ComputeOutput_format);
                    ComputeOutput_backend :=
                      self.(OptionalAcceleratorBackend_capabilities).(BackendCapabilities_kind);
                    ComputeOutput_elapsed_micros := N.max elapsed 1;
                    ComputeOutput_converted := output.(ComputeOutput_converted) |},
              accelerator_usage self (sat_sub self.(OptionalAcceleratorBackend_queued) 1)
                (sat_sub self.(OptionalAcceleratorBackend_reserved_bytes)
                   prepared.(PreparedTask_reserved_bytes)))
    end.

#[export] Instance OptionalAcceleratorBackend_ComputeBackend
    : ComputeBackend OptionalAcceleratorBackend := {
  backend_kind self := self.(OptionalAcceleratorBackend_capabilities).(BackendCapabilities_kind);
  backend_capabilities self := self.(OptionalAcceleratorBackend_capabilities);
  backend_validate self := validate_requirements self.(OptionalAcceleratorBackend_capabilities);
  backend_prepare := OptionalAcceleratorBackend_prepare;
  backend_execute := OptionalAcceleratorBackend_execute;
  backend_synchronize self := (Ok tt, accelerator_usage self 0 0);
  backend_health self :=
    self.(OptionalAcceleratorBackend_capabilities).(BackendCapabilities_health)
}.

(** [Box<dyn ComputeBackend>]: one of the two. *)
Inductive AnyBackend :=
  | AnyBackend_Cpu (backend : CpuBackend)
  | AnyBackend_Accelerator (backend : OptionalAcceleratorBackend).

Definition on_backend {R} (self : AnyBackend) (cpu : CpuBackend -> R)
    (accelerator : OptionalAcceleratorBackend -> R) : R :=
  match self with
  | AnyBackend_Cpu backend => cpu backend
  | AnyBackend_Accelerator backend => accelerator backend
  end.

#[export] Instance AnyBackend_ComputeBackend : ComputeBackend AnyBackend := {
  backend_kind self := on_backend self backend_kind backend_kind;
  backend_capabilities self := on_backend self backend_capabilities backend_capabilities;
  backend_validate self := on_backend self backend_validate backend_validate;
  backend_prepare self task :=
    on_backend self
      (fun b => let (r, b) := backend_prepare b task in (r, AnyBackend_Cpu b))
      (fun b => let (r, b) := backend_prepare b task in (r, AnyBackend_Accelerator b));
  backend_execute self prepared inputs elapsed :=
    on_backend self
      (fun b => '(r, b) ← backend_execute b prepared inputs elapsed; Some (r, AnyBackend_Cpu b))
      (fun b => '(r, b) ← backend_execute b prepared inputs elapsed;
                Some (r, AnyBackend_Accelerator b));
  backend_synchronize self :=
    on_backend self
      (fun b => let (r, b) := backend_synchronize b in (r, AnyBackend_Cpu b))
      (fun b => let (r, b) := backend_synchronize b in (r, AnyBackend_Accelerator b));
  backend_health self := on_backend self backend_health backend_health
}.
End Accelerator.

(** ** The registry *)

Record BackendRegistry (B : Type) := mkBackendRegistry {
  BackendRegistry_backends : BTreeMap BackendKind B;
  BackendRegistry_evidence : BTreeMap BackendKind CapabilityEvidenceRecord;
  BackendRegistry_health_overrides : BTreeMap BackendKind BackendHealth
}.
Arguments mkBackendRegistry {B} _ _ _.
Arguments BackendRegistry_backends {B} _.
Arguments BackendRegistry_evidence {B} _.
Arguments BackendRegistry_health_overrides {B} _.

(** [capability.health = ..] and the observations, as the registry overlays them. *)
Definition with_health (c : BackendCapabilities) (health : BackendHealth) : BackendCapabilities :=
  mkBackendCapabilities c.(BackendCapabilities_kind) c.(BackendCapabilities_runtime_version)
    c.(BackendCapabilities_device_count) c.(BackendCapabilities_device_memory_bytes)
    c.(BackendCapabilities_available_memory_bytes) c.(BackendCapabilities_formats)
    c.(BackendCapabilities_max_tensor_elements) c.(BackendCapabilities_features)
    c.(BackendCapabilities_device_architecture) c.(BackendCapabilities_driver_available)
    (if health == BackendHealth_Unavailable then false
     else c.(BackendCapabilities_runtime_available))
    c.(BackendCapabilities_peer_to_peer) c.(BackendCapabilities_unified_memory)
    c.(BackendCapabilities_max_concurrent_tasks) c.(BackendCapabilities_safety_margin_permille)
    health c.(BackendCapabilities_physical_verified) c.(BackendCapabilities_observed_successes)
    c.(BackendCapabilities_observed_failures).

Definition with_observations (c : BackendCapabilities) (successes failures : N)
    : BackendCapabilities :=
  mkBackendCapabilities c.(BackendCapabilities_kind) c.(BackendCapabilities_runtime_version)
    c.(BackendCapabilities_device_count) c.(BackendCapabilities_device_memory_bytes)
    c.(BackendCapabilities_available_memory_bytes) c.(BackendCapabilities_formats)
    c.(BackendCapabilities_max_tensor_elements) c.(BackendCapabilities_features)
    c.(BackendCapabilities_device_architecture) c.(BackendCapabilities_driver_available)
    c.(BackendCapabilities_runtime_available) c.(BackendCapabilities_peer_to_peer)
    c.(BackendCapabilities_unified_memory) c.(BackendCapabilities_max_concurrent_tasks)
    c.(BackendCapabilities_safety_margin_permille) c.(BackendCapabilities_health)
    c.(BackendCapabilities_physical_verified) successes failures.

(** [matches!(&result, Err(Unavailable | NativeFailure(_) | OutOfMemory | Timeout))] *)
Definition is_backend_fault (result : result ComputeOutput ComputeError) : bool :=
  match result with
  | Err ComputeError_Unavailable | Err (ComputeError_NativeFailure _)
  | Err ComputeError_OutOfMemory | Err ComputeError_Timeout => true
  | _ => false
  end.

Section Registry.
Context {B : Type} `{ComputeBackend B}.

Definition BackendRegistry_empty : BackendRegistry B := mkBackendRegistry [] [] [].

Definition BackendRegistry_register (self : BackendRegistry B) (backend : B) : BackendRegistry B :=
  let kind := backend_kind backend in
  mkBackendRegistry (bt_insert kind backend self.(BackendRegistry_backends))
    self.(BackendRegistry_evidence) (bt_remove kind self.(BackendRegistry_health_overrides)).

(** The closure of [capabilities]. *)
Definition registered_capability (self : BackendRegistry B) (backend : B) : BackendCapabilities :=
  let capability := backend_capabilities backend in
  let capability :=
    match bt_get capability.(BackendCapabilities_kind) self.(BackendRegistry_health_overrides) with
    | Some health => with_health capability health
    | None => capability
    end in
  match bt_get capability.(BackendCapabilities_kind) self.(BackendRegistry_evidence) with
  | Some evidence =>
      with_observations capability evidence.(CapabilityEvidenceRecord_successful_challenges)
        evidence.(CapabilityEvidenceRecord_failed_challenges)
  | None => capability
  end.

Definition BackendRegistry_capabilities (self : BackendRegistry B) : list BackendCapabilities :=
  sort_by_key (fun value => BackendKind_index value.(BackendCapabilities_kind))
    (registered_capability self <$> self.(BackendRegistry_backends).*2).

Definition BackendRegistry_advertised_capabilities (self : BackendRegistry B)
    : list BackendCapabilities :=
  List.filter (fun capability =>
    capability.(BackendCapabilities_runtime_available)
    && (capability.(BackendCapabilities_health) != BackendHealth_Unavailable))
    (BackendRegistry_capabilities self).

Definition BackendRegistry_health (self : BackendRegistry B) (kind : BackendKind) : BackendHealth :=
  match bt_get kind self.(BackendRegistry_health_overrides) with
  | Some health => health
  | None => match bt_get kind self.(BackendRegistry_backends) with
            | Some backend => backend_health backend
            | None => BackendHealth_Unavailable
            end
  end.

Definition BackendRegistry_validate (self : BackendRegistry B) (kind : BackendKind)
    (task : ComputeTask) : result unit ComputeError :=
  let? backend := ok_or (bt_get kind self.(BackendRegistry_backends)) ComputeError_Unavailable in
  backend_validate backend task.

Definition BackendRegistry_set_health (self : BackendRegistry B) (kind : BackendKind)
    (health : BackendHealth) : BackendRegistry B :=
  mkBackendRegistry self.(BackendRegistry_backends) self.(BackendRegistry_evidence)
    (bt_insert kind health self.(BackendRegistry_health_overrides)).

Definition with_registered (self : BackendRegistry B) (kind : BackendKind) (backend : B)
    : BackendRegistry B :=
  mkBackendRegistry (bt_insert kind backend self.(BackendRegistry_backends))
    self.(BackendRegistry_evidence) self.(BackendRegistry_health_overrides).

(** The run of a prepared task: a late result is a timeout, and a failure resets the backend. *)
Definition run_prepared (backend : B) (prepared : PreparedTask) (task : ComputeTask)
    (inputs : list ComputeInput) (elapsed : N)
    : option (result ComputeOutput ComputeError * B) :=
  '(result, backend) ← backend_execute backend prepared inputs elapsed;
  let result := match result with
                | Ok output =>
                    if sat_mul u64_max task.(ComputeTask_deadline_ms) 1000
                       <? output.(ComputeOutput_elapsed_micros)
                    then Err ComputeError_Timeout else Ok output
                | Err error => Err error
                end in
  Some (result, if is_err result then (backend_synchronize backend).2 else backend).

Definition BackendRegistry_execute (self : BackendRegistry B) (kind : BackendKind)
    (task : ComputeTask) (inputs : list ComputeInput) (elapsed : N)
    : option (result ComputeOutput ComputeError * BackendRegistry B) :=
  if BackendRegistry_health self kind == BackendHealth_Unavailable
  then Some (Err ComputeError_Unavailable, self)
  else
    match bt_get kind self.(BackendRegistry_backends) with
    | None => Some (Err ComputeError_Unavailable, self)
    | Some backend =>
        match backend_validate backend task with
        | Err error => Some (Err error, self)
        | Ok _ =>
            match backend_prepare backend task with
            | (Err error, backend) => Some (Err error, with_registered self kind backend)
            | (Ok prepared, backend) =>
                '(result, backend) ← run_prepared backend prepared task inputs elapsed;
                let self := with_registered self kind backend in
                let self := if is_backend_fault result
                            then BackendRegistry_set_health self kind BackendHealth_Unavailable
                            else self in
                Some (result, self)
            end
        end
    end.

Definition BackendRegistry_synchronize (self : BackendRegistry B) (kind : BackendKind)
    : result unit ComputeError * BackendRegistry B :=
  match bt_get kind self.(BackendRegistry_backends) with
  | None => (Err ComputeError_Unavailable, self)
  | Some backend =>
      let (result, backend) := backend_synchronize backend in
      (result, with_registered self kind backend)
  end.

Definition BackendRegistry_get_evidence (self : BackendRegistry B) : list CapabilityEvidenceRecord :=
  self.(BackendRegistry_evidence).*2.

(** ** Capability challenges *)

Definition challenge_elements (challenge : CapabilityChallenge) : N :=
  N.max (N.min challenge.(CapabilityChallenge_input_elements) MAX_TASK_ELEMENTS) 1.

Definition challenge_task (challenge : CapabilityChallenge) : ComputeTask :=
  let input_elements := challenge_elements challenge in
  {| ComputeTask_operation := ComputeOperation_Challenge;
     ComputeTask_requirements :=
       {| ComputeRequirements_task_kind := ComputeTaskKind_CapabilityChallenge;
          ComputeRequirements_required_backend := Some challenge.(CapabilityChallenge_backend);
          ComputeRequirements_allowed_backends := [challenge.(CapabilityChallenge_backend)];
          ComputeRequirements_required_formats := [challenge.(CapabilityChallenge_format)];
          ComputeRequirements_required_memory_bytes := sat_mul u64_max input_elements 8;
          ComputeRequirements_max_tensor_elements := input_elements;
          ComputeRequirements_required_features := [ComputeFeature_DeterministicKernel];
          ComputeRequirements_kernel_id := "v5.capability.challenge.v1";
          ComputeRequirements_kernel_version := 1;
          ComputeRequirements_fallback_backends := [];
          ComputeRequirements_fallback_allowed := false |};
     ComputeTask_input_elements := input_elements;
     ComputeTask_output_elements := input_elements;
     ComputeTask_graph_generation := 1;
     ComputeTask_model_generation := 1;
     ComputeTask_shard_id := 0;
     ComputeTask_deadline_ms := challenge.(CapabilityChallenge_deadline_ms) |}.

(** [(seed as i64).wrapping_add(i64::from(index))] for every index. *)
Definition challenge_values (challenge : CapabilityChallenge) : list Z :=
  (fun index => wrap_i64 (wrap_i64 (Z.of_N challenge.(CapabilityChallenge_seed)) + Z.of_nat index))
  <$> seq 0 (N.to_nat (challenge_elements challenge)).

Definition challenge_expected (challenge : CapabilityChallenge) : list Z :=
  (fun value => i64_saturating_add (i64_saturating_mul value 2) 1) <$> challenge_values challenge.

Definition challenge_result (self : BackendRegistry B) (challenge : CapabilityChallenge)
    (success : bool) (output_hash : ArtifactId) (elapsed allocated_bytes : N)
    (error : option string) : CapabilityChallengeResult :=
  {| CapabilityChallengeResult_challenge_id := challenge.(CapabilityChallenge_challenge_id);
     CapabilityChallengeResult_worker := challenge.(CapabilityChallenge_worker);
     CapabilityChallengeResult_backend := challenge.(CapabilityChallenge_backend);
     CapabilityChallengeResult_success := success;
     CapabilityChallengeResult_output_hash := output_hash;
     CapabilityChallengeResult_elapsed_micros := N.max elapsed 1;
     CapabilityChallengeResult_allocated_bytes := allocated_bytes;
     CapabilityChallengeResult_health :=
       BackendRegistry_health self challenge.(CapabilityChallenge_backend);
     CapabilityChallengeResult_error := error |}.

(** The closure of [tap]: the evidence after a result. *)
Definition record_challenge (self : BackendRegistry B) (challenge : CapabilityChallenge)
    (now_secs : N) (result : CapabilityChallengeResult) : BackendRegistry B :=
  let kind := challenge.(CapabilityChallenge_backend) in
  let entry := default (mkCapabilityEvidenceRecord challenge.(CapabilityChallenge_worker) kind
                          now_secs 0 0 0 0 1 None)
                 (bt_get kind self.(BackendRegistry_evidence)) in
  let success := result.(CapabilityChallengeResult_success) in
  let entry :=
    {| CapabilityEvidenceRecord_worker := entry.(CapabilityEvidenceRecord_worker);
       CapabilityEvidenceRecord_backend := entry.(CapabilityEvidenceRecord_backend);
       CapabilityEvidenceRecord_observed_at := now_secs;
       CapabilityEvidenceRecord_successful_challenges :=
         (if success then sat_add u32_max entry.(CapabilityEvidenceRecord_successful_challenges) 1
          else entry.(CapabilityEvidenceRecord_successful_challenges));
       CapabilityEvidenceRecord_failed_challenges :=
         (if success then entry.(CapabilityEvidenceRecord_failed_challenges)
          else sat_add u32_max entry.(CapabilityEvidenceRecord_failed_challenges) 1);
       CapabilityEvidenceRecord_successful_tasks := entry.(CapabilityEvidenceRecord_successful_tasks);
       CapabilityEvidenceRecord_failed_tasks := entry.(CapabilityEvidenceRecord_failed_tasks);
       CapabilityEvidenceRecord_last_throughput_micros :=
         result.(CapabilityChallengeResult_elapsed_micros);
       CapabilityEvidenceRecord_last_error :=
         (if success then None else result.(CapabilityChallengeResult_error)) |} in
  mkBackendRegistry self.(BackendRegistry_backends)
    (bt_insert kind entry self.(BackendRegistry_evidence))
    self.(BackendRegistry_health_overrides).

Section Challenge.
Context `{Blake3}.

(** [elapsed] is the time of the task, [total] the time until the result is built. *)
Definition BackendRegistry_challenge (self : BackendRegistry B) (challenge : CapabilityChallenge)
    (now_secs elapsed total : N) : option (CapabilityChallengeResult * BackendRegistry B) :=
  let kind := challenge.(CapabilityChallenge_backend) in
  let allocated := sat_mul u64_max (challenge_elements challenge) 8 in
  '(outcome, self) ← BackendRegistry_execute self kind (challenge_task challenge)
    [mkComputeInput (challenge_values challenge) challenge.(CapabilityChallenge_format)] elapsed;
  let result :=
    match outcome with
    | Ok output =>
        if output.(ComputeOutput_values) != challenge_expected challenge
        then challenge_result self challenge false ArtifactId_default total allocated
               (Some "capability challenge output mismatch"%string)
        else challenge_result self challenge true
               (mkArtifactId (blake3 (concat (i64_to_le_bytes <$> output.(ComputeOutput_values)))))
               total allocated None
    | Err error => challenge_result self challenge false ArtifactId_default total 0
                     (Some (ComputeError_to_string error))
    end in
  Some (result, record_challenge self challenge now_secs result).
End Challenge.
End Registry.

(** ** Capability matching *)

Definition reference_backend_capability (kind : BackendKind) (memory_bytes : N)
    (physical_verified : bool) : BackendCapabilities :=
  let memory_bytes := N.max memory_bytes 1 in
  {| BackendCapabilities_kind := kind;
     BackendCapabilities_runtime_version := "reference-profile-1";
     BackendCapabilities_device_count := 1;
     BackendCapabilities_device_memory_bytes := memory_bytes;
     BackendCapabilities_available_memory_bytes := memory_bytes;
     BackendCapabilities_formats := [NumericFormat_F32];
     BackendCapabilities_max_tensor_elements := MAX_TASK_ELEMENTS;
     BackendCapabilities_features := reference_features;
     BackendCapabilities_device_architecture := None;
     BackendCapabilities_driver_available := physical_verified;
     BackendCapabilities_runtime_available := true;
     BackendCapabilities_peer_to_peer := false;
     BackendCapabilities_unified_memory :=
       match kind with BackendKind_Cpu | BackendKind_Metal => true | _ => false end;
     BackendCapabilities_max_concurrent_tasks := 1;
     BackendCapabilities_safety_margin_permille := 100;
     BackendCapabilities_health := BackendHealth_Ready;
     BackendCapabilities_physical_verified := physical_verified;
     BackendCapabilities_observed_successes := 0;
     BackendCapabilities_observed_failures := 0 |}.

Definition backend_can_run (capabilities : BackendCapabilities) (requirements : ComputeRequirements)
    : bool :=
  is_ok (validate_requirements capabilities
    {| ComputeTask_operation := ComputeOperation_Challenge;
       ComputeTask_requirements := requirements;
       ComputeTask_input_elements := 1;
       ComputeTask_output_elements := 1;
       ComputeTask_graph_generation := 1;
       ComputeTask_model_generation := 1;
       ComputeTask_shard_id := 0;
       ComputeTask_deadline_ms := 1000 |}).

Definition backend_satisfies_requirements (capabilities : BackendCapabilities)
    (requirements : ComputeRequirements) : bool :=
  if negb capabilities.(BackendCapabilities_runtime_available)
     || (capabilities.(BackendCapabilities_health) == BackendHealth_Unavailable)
  then false
  else if (0 <? capabilities.(BackendCapabilities_observed_failures))
          && (capabilities.(BackendCapabilities_observed_successes) =? 0)
  then false
  else if negb (backend_admitted requirements capabilities.(BackendCapabilities_kind))
  then false
  else (requirements.(ComputeRequirements_required_memory_bytes) <=? safe_memory capabilities)
       && (requirements.(ComputeRequirements_max_tensor_elements)
           <=? capabilities.(BackendCapabilities_max_tensor_elements))
       && forallb (fun format => contains format capabilities.(BackendCapabilities_formats))
            requirements.(ComputeRequirements_required_formats)
       && forallb (fun feature => contains feature capabilities.(BackendCapabilities_features))
            requirements.(ComputeRequirements_required_features).

Definition default_requirements (task_kind : ComputeTaskKind) (backend : BackendKind) (elements : N)
    (kernel_id : string) : ComputeRequirements :=
  {| ComputeRequirements_task_kind := task_kind;
     ComputeRequirements_required_backend := Some backend;
     ComputeRequirements_allowed_backends := [backend];
     ComputeRequirements_required_formats := [NumericFormat_F32];
     ComputeRequirements_required_memory_bytes := N.max (sat_mul u64_max elements 8) 8;
     ComputeRequirements_max_tensor_elements := N.max elements 1;
     ComputeRequirements_required_features := [ComputeFeature_DeterministicKernel];
     ComputeRequirements_kernel_id := kernel_id;
     ComputeRequirements_kernel_version := 1;
     ComputeRequirements_fallback_backends := [];
     ComputeRequirements_fallback_allowed := false |}.

(** [seed.to_le_bytes().repeat(2)] has the 16 bytes of a request id. *)
Definition new_challenge (job_id : JobId) (worker : NodeId) (backend : BackendKind)
    (format : NumericFormat) (seed : N) : CapabilityChallenge :=
  {| CapabilityChallenge_challenge_id := mkRequestId (le_bytes 8 seed ++ le_bytes 8 seed);
     CapabilityChallenge_job_id := job_id;
     CapabilityChallenge_worker := worker;
     CapabilityChallenge_backend := backend;
     CapabilityChallenge_task_kind := ComputeTaskKind_CapabilityChallenge;
     CapabilityChallenge_format := format;
     CapabilityChallenge_input_elements := 16;
     CapabilityChallenge_seed := seed;
     CapabilityChallenge_deadline_ms := 5000 |}.
