(* ===== verification/ComputeFacts.v ===== *)
(** * Facts about the compute boundary

    The laws a backend must satisfy for the registry ([BackendLaws]) and their instances; the
    registry keeps no reservation between tasks and withdraws a backend that timed out; the
    reference backend passes honest challenges and a failed challenge disqualifies a backend;
    the matrix kernels compute what they should, and are adjoint to each other. *)

From Stdlib Require Import String ZArith NArith Lia.
From stdpp Require Import base tactics sets strings numbers list.
From S2P Require Import Prelude OrdMap Types Compute.

Local Open Scope N_scope.
Local Open Scope rust_scope.

(** ** What the registry relies on *)

(** [ready] holds of a backend between tasks. *)
Class BackendLaws (B : Type) `{ComputeBackend B} := {
  ready : B -> Prop;
  ready_kind b : ready b -> (backend_capabilities b).(BackendCapabilities_kind) = backend_kind b;
  ready_health b : ready b -> (backend_capabilities b).(BackendCapabilities_health) = backend_health b;
  prepare_error b task e b' : backend_prepare b task = (Err e, b') -> b' = b;
  prepare_not_full b task b' : ready b -> backend_prepare b task <> (Err ComputeError_QueueFull, b');
  validate_errors b task e :
    backend_validate b task = Err e -> e <> ComputeError_QueueFull /\ e <> ComputeError_Timeout;
  prepare_no_timeout b task e b' : backend_prepare b task = (Err e, b') -> e <> ComputeError_Timeout;
  execute_released b task p b1 inputs elapsed o b2 :
    ready b -> backend_prepare b task = (Ok p, b1) ->
    backend_execute b1 p inputs elapsed = Some (Ok o, b2) -> b2 = b;
  execute_error b task p b1 inputs elapsed e b2 :
    ready b -> backend_prepare b task = (Ok p, b1) ->
    backend_execute b1 p inputs elapsed = Some (Err e, b2) ->
    e <> ComputeError_QueueFull /\ (backend_synchronize b2).2 = b;
  synchronize_ready b : ready b -> (backend_synchronize b).2 = b
}.

(** ** The two backends satisfy it *)

(** The errors that concern the task or the backend, not the queue or the clock. *)
Definition task_error (e : ComputeError) : Prop :=
  e <> ComputeError_QueueFull /\ e <> ComputeError_Timeout.

#[local] Hint Extern 1 (task_error _) => split; discriminate : rust.

Lemma checked_elements_errors n : errors_in task_error (checked_elements n).
Proof. unfold checked_elements. solve_errors. Qed.

#[local] Hint Resolve checked_elements_errors : rust.

Lemma validate_task_shape_errors task : errors_in task_error (validate_task_shape task).
Proof. unfold validate_task_shape. solve_errors. Qed.

#[local] Hint Resolve validate_task_shape_errors : rust.

Lemma validate_requirements_errors c task : errors_in task_error (validate_requirements c task).
Proof. unfold validate_requirements. solve_errors. Qed.

Lemma reserved_for_errors task : errors_in task_error (reserved_for task).
Proof. unfold reserved_for. solve_errors. Qed.

(** What [reserved_for] returns fits 64 bits. *)
Lemma reserved_for_ok task bytes : reserved_for task = Ok bytes -> bytes <= u64_max.
Proof.
  unfold reserved_for, u64_checked. intros Hr. inv_ok Hr.
  dmatch_in Hr; [|done]. injection Hr as <-. by breflect.
Qed.

Section Instances.
Context `{Profile}.

Definition cpu_ready (b : CpuBackend) : Prop :=
  b.(CpuBackend_queued) = 0 /\ b.(CpuBackend_reserved_bytes) = 0
  /\ b.(CpuBackend_capabilities).(BackendCapabilities_kind) = BackendKind_Cpu.

Lemma CpuBackend_prepare_cases b task r b' :
  CpuBackend_prepare b task = (r, b') ->
  (exists e, r = Err e /\ b' = b /\ e <> ComputeError_Timeout
     /\ (e = ComputeError_QueueFull -> 32 <= b.(CpuBackend_queued)))
  \/ (exists bytes, r = Ok (mkPreparedTask task BackendKind_Cpu bytes) /\ bytes <= u64_max
      /\ b' = CpuBackend_acquire b bytes).
Proof.
  unfold CpuBackend_prepare. intros Hp.
  destruct (CpuBackend_validate b task) as [u|e] eqn:Hv; cbn in Hp.
  2:{ simplify_eq. left. apply validate_requirements_errors in Hv as [??]. by exists e. }
  destruct (reserved_for task) as [bytes|e] eqn:Hr; cbn in Hp.
  2:{ simplify_eq. left. apply reserved_for_errors in Hr as [??]. by exists e. }
  destruct (safe_memory _ <? _); cbn in Hp; [simplify_eq; left; by eexists|].
  destruct (_ <=? b.(CpuBackend_queued)) eqn:Hq; cbn in Hp; simplify_eq.
  - left. eexists; split_and!; [done|done|done|]. intros _. breflect.
    unfold sat_add, MAX_QUEUE, u16_max in Hq. lia.
  - right. exists bytes. apply reserved_for_ok in Hr. eauto.
Qed.

(** A kernel refuses its buffers, and nothing else. *)
Lemma run_operation_error op inputs e :
  run_operation op inputs = Some (Err e) -> exists detail, e = ComputeError_InvalidTask detail.
Proof.
  unfold run_operation. intros Hrun.
  repeat first [ done | progress simplify_option_eq | by eexists | dmatch_in Hrun ].
Qed.

Lemma CpuBackend_execute_cases b p inputs elapsed r b' :
  CpuBackend_execute b p inputs elapsed = Some (r, b') ->
  (exists e, r = Err e /\ b' = b /\ e <> ComputeError_QueueFull)
  \/ (exists o, r = Ok o /\ b' = CpuBackend_release b p.(PreparedTask_reserved_bytes)).
Proof.
  unfold CpuBackend_execute. intros He.
  destruct (existsb _ _); [simplify_eq; left; by eexists|].
  destruct (run_operation _ _) as [[vs|e]|] eqn:Hrun; cbn in He; simplify_eq; [eauto|].
  left. exists e. apply run_operation_error in Hrun as (detail & ->). done.
Qed.

#[export] Program Instance CpuBackend_laws : BackendLaws CpuBackend := {
  ready := cpu_ready
}.
Next Obligation. by intros b (_ & _ & ?). Qed.
Next Obligation. done. Qed.
Next Obligation. intros b task e b' Hp. by apply CpuBackend_prepare_cases in Hp as [(?&?&?&?)|(?&?&?)]. Qed.
Next Obligation.
  intros b task b' (Hq & _) Hp. apply CpuBackend_prepare_cases in Hp as [(e&?&?&?&Hf)|(?&?&?)]; simplify_eq.
  specialize (Hf eq_refl). lia.
Qed.
Next Obligation. intros b task e. apply validate_requirements_errors. Qed.
Next Obligation.
  intros b task e b' Hp. apply CpuBackend_prepare_cases in Hp as [(?&?&?&?&?)|(?&?&?)]; by simplify_eq.
Qed.
Next Obligation.
  intros b task p b1 inputs elapsed o b2 (Hq & Hr & Hk) Hp He.
  apply CpuBackend_prepare_cases in Hp as [(?&?&?)|(bytes&?&Hb&->)]; simplify_eq.
  apply CpuBackend_execute_cases in He as [(?&?&?)|(?&?&->)]; simplify_eq.
  destruct b as [c q rb]; cbn in *; subst. unfold CpuBackend_release, CpuBackend_acquire, sat_sub, sat_add.
  cbn [CpuBackend_capabilities CpuBackend_queued CpuBackend_reserved_bytes PreparedTask_reserved_bytes].
  f_equal. lia.
Qed.
Next Obligation.
  intros b task p b1 inputs elapsed e b2 (Hq & Hr & Hk) Hp He.
  apply CpuBackend_prepare_cases in Hp as [(?&?&?)|(bytes&?&Hb&->)]; simplify_eq.
  apply CpuBackend_execute_cases in He as [(?&?&->&?)|(?&?&?)]; simplify_eq.
  destruct b; cbn in *; subst. split; [congruence|done].
Qed.
Next Obligation. intros [] (Hq & Hr & Hk). cbn in *. by subst. Qed.

Context (arch : string) (host_memory : N).

Definition accelerator_ready (b : OptionalAcceleratorBackend) : Prop :=
  b.(OptionalAcceleratorBackend_queued) = 0 /\ b.(OptionalAcceleratorBackend_reserved_bytes) = 0
  /\ 0 < b.(OptionalAcceleratorBackend_capabilities).(BackendCapabilities_max_concurrent_tasks).

Lemma accelerator_prepare_cases b task r b' :
  OptionalAcceleratorBackend_prepare b task = (r, b') ->
  (exists e, r = Err e /\ b' = b /\ e <> ComputeError_Timeout
     /\ (e = ComputeError_QueueFull ->
         b.(OptionalAcceleratorBackend_capabilities).(BackendCapabilities_max_concurrent_tasks)
         <= b.(OptionalAcceleratorBackend_queued)))
  \/ (exists bytes,
        r = Ok (mkPreparedTask task
                  b.(OptionalAcceleratorBackend_capabilities).(BackendCapabilities_kind) bytes)
      /\ bytes <= u64_max
      /\ b' = accelerator_usage b (sat_add u16_max b.(OptionalAcceleratorBackend_queued) 1)
                (sat_add u64_max b.(OptionalAcceleratorBackend_reserved_bytes) bytes)).
Proof.
  unfold OptionalAcceleratorBackend_prepare. intros Hp.
  destruct (validate_requirements _ task) as [u|e] eqn:Hv; cbn in Hp.
  2:{ simplify_eq. left. apply validate_requirements_errors in Hv as [??]. by exists e. }
  destruct (negb _); cbn in Hp; [simplify_eq; left; by eexists|].
  destruct (_ <=? b.(OptionalAcceleratorBackend_queued)) eqn:Hq; cbn in Hp.
  { simplify_eq. left. eexists; split_and!; [done|done|done|]. intros _. by breflect. }
  destruct (reserved_for task) as [bytes|e] eqn:Hr; cbn in Hp.
  2:{ simplify_eq. left. apply reserved_for_errors in Hr as [??]. by exists e. }
  destruct (safe_memory _ <? _); cbn in Hp; simplify_eq; [left; by eexists|].
  right. exists bytes. apply reserved_for_ok in Hr. eauto.
Qed.

Lemma accelerator_execute_cases b p inputs elapsed r b' :
  OptionalAcceleratorBackend_execute arch host_memory b p inputs elapsed = Some (r, b') ->
  (exists e, r = Err e /\ b' = b /\ e <> ComputeError_QueueFull)
  \/ (exists o, r = Ok o
      /\ b' = accelerator_usage b (sat_sub b.(OptionalAcceleratorBackend_queued) 1)
                (sat_sub b.(OptionalAcceleratorBackend_reserved_bytes)
                   p.(PreparedTask_reserved_bytes))).
Proof.
  unfold OptionalAcceleratorBackend_execute. intros He.
  destruct (negb _); [simplify_eq; left; by eexists|].
  destruct (CpuBackend_execute _ _ _ _) as [[r' cpu]|] eqn:Hc; cbn in He; [|done].
  apply CpuBackend_execute_cases in Hc as [(e & -> & _ & Hf)|(o & -> & _)]; simplify_eq; eauto.
Qed.

#[local] Instance accelerator_backend : ComputeBackend OptionalAcceleratorBackend :=
  OptionalAcceleratorBackend_ComputeBackend arch host_memory.

#[export] Program Instance OptionalAcceleratorBackend_laws : BackendLaws OptionalAcceleratorBackend := {
  ready := accelerator_ready
}.
Next Obligation. done. Qed.
Next Obligation. done. Qed.
Next Obligation. intros b task e b' Hp. by apply accelerator_prepare_cases in Hp as [(?&?&?&?)|(?&?&?)]. Qed.
Next Obligation.
  intros b task b' (Hq & _ & Hm) Hp.
  apply accelerator_prepare_cases in Hp as [(e&?&?&?&Hf)|(?&?&?)]; simplify_eq.
  specialize (Hf eq_refl). lia.
Qed.
Next Obligation. intros b task e. apply validate_requirements_errors. Qed.
Next Obligation.
  intros b task e b' Hp. apply accelerator_prepare_cases in Hp as [(?&?&?&?&?)|(?&?&?)]; by simplify_eq.
Qed.
Next Obligation.
  intros b task p b1 inputs elapsed o b2 (Hq & Hr & Hk) Hp He.
  apply accelerator_prepare_cases in Hp as [(?&?&?)|(bytes&?&Hb&->)]; simplify_eq.
  apply accelerator_execute_cases in He as [(?&?&?)|(?&?&->)]; simplify_eq.
  destruct b as [c em q rb]; cbn in *; subst. unfold accelerator_usage, sat_sub, sat_add.
  cbn [OptionalAcceleratorBackend_capabilities OptionalAcceleratorBackend_queued
       OptionalAcceleratorBackend_emulate OptionalAcceleratorBackend_reserved_bytes].
  f_equal. lia.
Qed.
Next Obligation.
  intros b task p b1 inputs elapsed e b2 (Hq & Hr & Hk) Hp He.
  apply accelerator_prepare_cases in Hp as [(?&?&?)|(bytes&?&Hb&->)]; simplify_eq.
  apply accelerator_execute_cases in He as [(?&?&->&?)|(?&?&?)]; simplify_eq.
  destruct b; cbn in *; subst. split; [congruence|done].
Qed.
Next Obligation. intros [] (Hq & Hr & Hk). cbn in *. by subst. Qed.

(** A boxed backend inherits them. *)
#[local] Instance any_backend : ComputeBackend AnyBackend := AnyBackend_ComputeBackend arch host_memory.

Ltac any_backend_step b :=
  destruct b as [b|b]; cbn in *;
  repeat match goal with
         | Hp : (let (r, b) := ?c in _) = _ |- _ => destruct c eqn:?; simplify_eq
         | Hx : on_backend (_ _) _ _ = _ |- _ => progress cbn in Hx
         | Hx : (?c ≫= _) = Some _ |- _ => destruct c as [[]|] eqn:?; cbn in *; [simplify_eq|done]
         end.

#[export] Program Instance AnyBackend_laws : BackendLaws AnyBackend := {
  ready b := on_backend b cpu_ready accelerator_ready
}.
Next Obligation.
  intros b Hb. any_backend_step b; [exact (@ready_kind CpuBackend _ _ b Hb) | done].
Qed.
Next Obligation. intros b Hb. by any_backend_step b. Qed.
Next Obligation.
  intros b task e b' Hp. any_backend_step b; f_equal;
    [eapply (@prepare_error CpuBackend _ _) | eapply (@prepare_error _ accelerator_backend _)]; done.
Qed.
Next Obligation.
  intros b task b' Hb Hp. any_backend_step b;
    [eapply (@prepare_not_full CpuBackend _ _) | eapply (@prepare_not_full _ accelerator_backend _)]; done.
Qed.
Next Obligation. intros b task e Hp. any_backend_step b; by apply validate_requirements_errors in Hp. Qed.
Next Obligation.
  intros b task e b' Hp. any_backend_step b;
    [eapply (@prepare_no_timeout CpuBackend _ _) | eapply (@prepare_no_timeout _ accelerator_backend _)];
    done.
Qed.
Next Obligation.
  intros b task p b1 inputs elapsed o b2 Hb Hp He. any_backend_step b; f_equal;
    [eapply (@execute_released CpuBackend _ _) | eapply (@execute_released _ accelerator_backend _)]; done.
Qed.
Next Obligation.
  intros b task p b1 inputs elapsed e b2 Hb Hp He. any_backend_step b.
  - destruct (@execute_error CpuBackend _ CpuBackend_laws b task p _ inputs elapsed e _ Hb ltac:(eassumption)
                ltac:(eassumption)) as [? Hs]. split; [done|]. by rewrite <- Hs.
  - destruct (@execute_error _ accelerator_backend OptionalAcceleratorBackend_laws b task p _ inputs elapsed e _ Hb ltac:(eassumption)
                ltac:(eassumption)) as [? Hs]. split; [done|]. by rewrite <- Hs.
Qed.
Next Obligation.
  intros b Hb. any_backend_step b; f_equal;
    [exact (@synchronize_ready CpuBackend _ CpuBackend_laws b Hb) | exact (@synchronize_ready _ accelerator_backend OptionalAcceleratorBackend_laws b Hb)].
Qed.
End Instances.

(** ** The registry *)

Section Registry.
Context {B : Type} `{BackendLaws B} `{Blake3}.

Definition registry_ok (r : BackendRegistry B) : Prop :=
  bt_wf r.(BackendRegistry_backends)
  /\ forall kind b, (kind, b) ∈ r.(BackendRegistry_backends) -> backend_kind b = kind /\ ready b.

(** A run gives the backend back as it was, whatever its result. *)
Lemma run_prepared_released b task p b1 inputs elapsed res b2 :
  ready b -> backend_prepare b task = (Ok p, b1) ->
  run_prepared b1 p task inputs elapsed = Some (res, b2) ->
  b2 = b /\ res <> Err ComputeError_QueueFull.
Proof.
  intros Hb Hp. unfold run_prepared.
  destruct (backend_execute b1 p inputs elapsed) as [[[o|e] b']|] eqn:He; cbn; intros Hr; [| |done].
  - pose proof (execute_released _ _ _ _ _ _ _ _ Hb Hp He) as ->.
    destruct (_ <? _); simplify_eq/=; [|done]. split; [by apply synchronize_ready|done].
  - destruct (execute_error _ _ _ _ _ _ _ _ Hb Hp He) as [Hf Hs]. simplify_eq/=.
    split; [done|]. congruence.
Qed.

Lemma execute_keeps_backends r kind task inputs elapsed res r' :
  registry_ok r -> BackendRegistry_execute r kind task inputs elapsed = Some (res, r') ->
  r'.(BackendRegistry_backends) = r.(BackendRegistry_backends)
  /\ r'.(BackendRegistry_evidence) = r.(BackendRegistry_evidence)
  /\ res <> Err ComputeError_QueueFull.
Proof.
  intros [Hwf Hok]. unfold BackendRegistry_execute. intros He.
  destruct (bool_decide _); [by simplify_eq|].
  destruct (bt_get kind _) as [b|] eqn:Hg; [|by simplify_eq].
  pose proof (bt_get_elem_of _ _ _ Hg) as Hin. apply Hok in Hin as [Hk Hb].
  destruct (backend_validate b task) eqn:Hv.
  2:{ apply validate_errors in Hv as [? _]. simplify_eq. split_and!; congruence. }
  destruct (backend_prepare b task) as [[p|e] b1] eqn:Hp.
  - destruct (run_prepared b1 p task inputs elapsed) as [[res' b2]|] eqn:Hr; [|done].
    destruct (run_prepared_released _ _ _ _ _ _ _ _ Hb Hp Hr) as [-> Hf]. cbn in He.
    destruct (is_backend_fault res'); simplify_eq/=; by rewrite bt_insert_same by done.
  - pose proof (prepare_error _ _ _ _ Hp) as ->. simplify_eq/=. rewrite bt_insert_same by done.
    split_and!; try done. intros [= ->]. by eapply prepare_not_full.
Qed.

Inductive registry_step : BackendRegistry B -> BackendRegistry B -> Prop :=
  | step_register r b : ready b -> registry_step r (BackendRegistry_register r b)
  | step_execute r kind task inputs elapsed res r' :
      BackendRegistry_execute r kind task inputs elapsed = Some (res, r') -> registry_step r r'
  | step_set_health r kind health : registry_step r (BackendRegistry_set_health r kind health)
  | step_synchronize r kind : registry_step r (BackendRegistry_synchronize r kind).2
  | step_challenge r challenge now elapsed total res r' :
      BackendRegistry_challenge r challenge now elapsed total = Some (res, r') -> registry_step r r'.

Inductive registry_reachable : BackendRegistry B -> Prop :=
  | reachable_empty : registry_reachable BackendRegistry_empty
  | reachable_step r r' : registry_reachable r -> registry_step r r' -> registry_reachable r'.

Lemma challenge_run r challenge now elapsed total res r' :
  BackendRegistry_challenge r challenge now elapsed total = Some (res, r') ->
  exists outcome r1,
    BackendRegistry_execute r challenge.(CapabilityChallenge_backend) (challenge_task challenge)
      [mkComputeInput (challenge_values challenge) challenge.(CapabilityChallenge_format)] elapsed
    = Some (outcome, r1)
    /\ r' = record_challenge r1 challenge now res
    /\ (res.(CapabilityChallengeResult_success) = true <->
        exists o, outcome = Ok o /\ o.(ComputeOutput_values) = challenge_expected challenge).
Proof.
  unfold BackendRegistry_challenge. intros Hc.
  destruct (BackendRegistry_execute _ _ _ _ _) as [[outcome r1]|] eqn:He; cbn in Hc; [|done].
  exists outcome, r1. split; [done|]. simplify_eq. split; [done|].
  destruct outcome as [o|e]; cbn; [|naive_solver].
  destruct (decide (o.(ComputeOutput_values) = challenge_expected challenge)) as [Hv|Hv].
  - rewrite bool_decide_true by done. naive_solver.
  - rewrite bool_decide_false by done. naive_solver.
Qed.

Lemma registry_step_ok r r' : registry_ok r -> registry_step r r' -> registry_ok r'.
Proof.
  intros Hr Hs. destruct Hs as [r b Hb| | r kind health | r kind | ].
  - destruct Hr as [Hwf Hok]. split; cbn; [by apply bt_wf_insert|].
    intros kind b' [[= -> ->]|Hin]%elem_of_bt_insert; [done|by apply Hok].
  - unfold registry_ok. by erewrite (proj1 (execute_keeps_backends _ _ _ _ _ _ _ Hr ltac:(eassumption))).
  - done.
  - unfold BackendRegistry_synchronize. destruct (bt_get kind _) as [b|] eqn:Hg; [|done].
    pose proof (proj2 Hr _ _ (bt_get_elem_of _ _ _ Hg)) as [_ Hb].
    pose proof (synchronize_ready _ Hb) as Hsy. destruct (backend_synchronize b); cbn in *; subst.
    unfold registry_ok. cbn. rewrite bt_insert_same; [done|apply Hr|done].
  - match goal with Hc : BackendRegistry_challenge _ _ _ _ _ = _ |- _ =>
      apply challenge_run in Hc as (outcome & r1 & He & -> & _) end.
    unfold registry_ok. cbn. by erewrite (proj1 (execute_keeps_backends _ _ _ _ _ _ _ Hr He)).
Qed.

Lemma registry_reachable_ok r : registry_reachable r -> registry_ok r.
Proof.
  induction 1 as [|r r' _ IH Hs]; [|by eapply registry_step_ok].
  split; [apply bt_wf_nil|]. cbn. by intros kind b []%not_elem_of_nil.
Qed.

(** Work never clogs a backend: whatever tasks, challenges, failures and timeouts came
    before, running another task leaves every backend as it was, with no reservation and no
    queued task, and is never refused for a full queue. *)
Theorem registry_never_clogged r kind task inputs elapsed res r' :
  registry_reachable r ->
  BackendRegistry_execute r kind task inputs elapsed = Some (res, r') ->
  res <> Err ComputeError_QueueFull
  /\ r'.(BackendRegistry_backends) = r.(BackendRegistry_backends)
  /\ (forall k b, bt_get k r'.(BackendRegistry_backends) = Some b -> backend_kind b = k /\ ready b).
Proof.
  intros Hr%registry_reachable_ok He.
  destruct (execute_keeps_backends _ _ _ _ _ _ _ Hr He) as (Hb & _ & Hf).
  split_and!; try done. intros k b Hg. apply bt_get_elem_of in Hg. rewrite Hb in Hg. by apply Hr.
Qed.

(** Only the clock makes a task time out, and then the backend is overridden. *)
Lemma execute_timeout r kind task inputs elapsed r' :
  registry_ok r ->
  BackendRegistry_execute r kind task inputs elapsed = Some (Err ComputeError_Timeout, r') ->
  bt_get kind r'.(BackendRegistry_health_overrides) = Some BackendHealth_Unavailable.
Proof.
  intros [Hwf Hok]. unfold BackendRegistry_execute. intros He.
  destruct (bool_decide _); [by simplify_eq|].
  destruct (bt_get kind _) as [b|] eqn:Hg; [|by simplify_eq].
  destruct (backend_validate b task) eqn:Hv; [|by apply validate_errors in Hv as [_ ?]; simplify_eq].
  destruct (backend_prepare b task) as [[p|e] b1] eqn:Hp;
    [|by apply prepare_no_timeout in Hp; simplify_eq].
  destruct (run_prepared b1 p task inputs elapsed) as [[res' b2]|] eqn:Hr; cbn in He; [|done].
  injection He as -> <-. cbn. apply bt_get_insert_eq.
Qed.

(** A capability the registry lists is that of a backend it holds, under the backend's kind. *)
Lemma listed_capability r c :
  registry_ok r -> c ∈ BackendRegistry_capabilities r ->
  exists b, bt_get c.(BackendCapabilities_kind) r.(BackendRegistry_backends) = Some b
    /\ c = registered_capability r b
    /\ (backend_capabilities b).(BackendCapabilities_kind) = c.(BackendCapabilities_kind).
Proof.
  intros [Hwf Hok] (b & -> & ((k & b') & -> & Hin)%list_elem_of_fmap)%elem_of_sort_by_key%list_elem_of_fmap.
  cbn. destruct (Hok _ _ Hin) as [Hk Hb]. exists b'.
  assert (Hkind : (registered_capability r b').(BackendCapabilities_kind)
                  = (backend_capabilities b').(BackendCapabilities_kind)).
  { unfold registered_capability. by repeat dmatch. }
  rewrite Hkind, (ready_kind _ Hb), Hk. split_and!; [by apply bt_elem_of_get|done|done].
Qed.

(** A backend that missed its deadline is withdrawn: from then on its health is
    unavailable, it is not among the advertised capabilities, and every task for it is refused
    without touching it. *)
Theorem timeout_withdraws_backend r kind task inputs elapsed r' :
  registry_reachable r ->
  BackendRegistry_execute r kind task inputs elapsed = Some (Err ComputeError_Timeout, r') ->
  BackendRegistry_health r' kind = BackendHealth_Unavailable
  /\ (forall c, c ∈ BackendRegistry_advertised_capabilities r' -> c.(BackendCapabilities_kind) <> kind)
  /\ (forall task' inputs' elapsed',
        BackendRegistry_execute r' kind task' inputs' elapsed'
        = Some (Err ComputeError_Unavailable, r')).
Proof.
  intros Hr%registry_reachable_ok He. pose proof (execute_timeout _ _ _ _ _ _ Hr He) as Ho.
  assert (Hh : BackendRegistry_health r' kind = BackendHealth_Unavailable).
  { unfold BackendRegistry_health. by rewrite Ho. }
  split_and!; [done| |].
  - intros c [Hc Ha]%elem_of_filter_b Hk. breflect_in Ha.
    assert (Hr' : registry_ok r').
    { unfold registry_ok. by rewrite (proj1 (execute_keeps_backends _ _ _ _ _ _ _ Hr He)). }
    apply (listed_capability _ _ Hr') in Hc as (b & _ & -> & Hbk). apply Ha. subst kind.
    unfold registered_capability in *. rewrite Hbk, Ho. by dmatch.
  - intros. unfold BackendRegistry_execute. by rewrite Hh, bool_decide_true.
Qed.

Lemma registered_observed r b e :
  bt_get (backend_capabilities b).(BackendCapabilities_kind) r.(BackendRegistry_evidence) = Some e ->
  (registered_capability r b).(BackendCapabilities_observed_failures)
    = e.(CapabilityEvidenceRecord_failed_challenges)
  /\ (registered_capability r b).(BackendCapabilities_observed_successes)
    = e.(CapabilityEvidenceRecord_successful_challenges).
Proof. intros He. unfold registered_capability. destruct (bt_get _ (BackendRegistry_health_overrides r)); cbn; by rewrite He. Qed.

(** A backend is believed only on its record: after a failed challenge, a backend that has
    never passed one satisfies no requirement, whatever it claims. *)
Theorem failed_challenge_disqualifies r challenge now elapsed total res r' c requirements :
  registry_reachable r ->
  BackendRegistry_challenge r challenge now elapsed total = Some (res, r') ->
  res.(CapabilityChallengeResult_success) = false ->
  (forall e, bt_get challenge.(CapabilityChallenge_backend) r.(BackendRegistry_evidence) = Some e ->
     e.(CapabilityEvidenceRecord_successful_challenges) = 0) ->
  c ∈ BackendRegistry_capabilities r' ->
  c.(BackendCapabilities_kind) = challenge.(CapabilityChallenge_backend) ->
  backend_satisfies_requirements c requirements = false.
Proof.
  intros Hr%registry_reachable_ok Hc Hs Hev Hin Hk.
  assert (Hr' : registry_ok r') by (eapply registry_step_ok; [done|by eapply step_challenge]).
  apply challenge_run in Hc as (outcome & r1 & He & -> & _).
  destruct (execute_keeps_backends _ _ _ _ _ _ _ Hr He) as (_ & Hsame & _).
  apply (listed_capability _ _ Hr') in Hin as (b & _ & Hcap & Hbk).
  assert (Hobs : 0 < c.(BackendCapabilities_observed_failures)
                 /\ c.(BackendCapabilities_observed_successes) = 0).
  { rewrite Hcap. edestruct registered_observed as [-> ->].
    { rewrite Hbk, Hk. apply bt_get_insert_eq. }
    cbn. rewrite Hs, Hsame. unfold sat_add, u32_max. split; [lia|].
    destruct (bt_get _ r.(BackendRegistry_evidence)) as [e|]; cbn; [by apply Hev|done]. }
  unfold backend_satisfies_requirements. dmatch; [done|].
  destruct Hobs as [Hf Hz]. apply N.ltb_lt in Hf. by rewrite Hf, Hz.
Qed.
End Registry.

(** ** Challenges on the reference backend *)

(** Decides the comparisons of the goal that follow from the context. *)
Ltac in_bounds :=
  repeat match goal with
         | |- context [?a =? 0] => rewrite (proj2 (N.eqb_neq a 0)) by lia
         | |- context [?a <? ?b] => rewrite (proj2 (N.ltb_ge a b)) by lia
         | |- context [?a <=? ?b] => rewrite (proj2 (N.leb_le a b)) by lia
         | |- context [?a <=? ?b] => rewrite (proj2 (N.leb_gt a b)) by lia
         | _ => progress cbn -[N.mul N.add N.min safe_memory challenge_elements]
         end.

Section CpuChallenge.
Context `{Profile} `{Blake3}.

Lemma challenge_shape_ok challenge :
  0 < challenge.(CapabilityChallenge_deadline_ms) <= 120000 ->
  challenge_elements challenge <= 8192 ->
  validate_task_shape (challenge_task challenge) = Ok tt.
Proof.
  intros Hd Hn. assert (1 <= challenge_elements challenge) by (unfold challenge_elements; lia).
  unfold validate_task_shape, checked_elements, u64_checked, sat_mul, MAX_TASK_ELEMENTS,
    MAX_TASK_BYTES, challenge_task. cbn -[N.mul N.add N.min].
  unfold sat_mul, u64_max in *. set (n := challenge_elements challenge) in *.
  rewrite (N.min_l (n * 8)) by lia.
  by in_bounds.
Qed.

(** What a challenge asks of the reference backend beyond its shape. *)
Definition challenge_fits (b : CpuBackend) (challenge : CapabilityChallenge) : Prop :=
  challenge.(CapabilityChallenge_backend) = BackendKind_Cpu
  /\ challenge.(CapabilityChallenge_format) = NumericFormat_F32
  /\ 0 < challenge.(CapabilityChallenge_deadline_ms) <= 120000
  /\ challenge_elements challenge <= 8192
  /\ 24 * challenge_elements challenge <= safe_memory b.(CpuBackend_capabilities).

Lemma challenge_admitted arch memory share challenge :
  let b := CpuBackend_new arch memory share in
  share <> Some 0 -> challenge_fits b challenge ->
  CpuBackend_validate b (challenge_task challenge) = Ok tt
  /\ exists bytes b', CpuBackend_prepare b (challenge_task challenge)
       = (Ok (mkPreparedTask (challenge_task challenge) BackendKind_Cpu bytes), b').
Proof.
  intros b Hshare (Hk & Hf & Hd & Hn & Hm).
  assert (1 <= challenge_elements challenge) by (unfold challenge_elements; lia).
  assert (Hcaps : b.(CpuBackend_capabilities).(BackendCapabilities_runtime_available) = true
    /\ b.(CpuBackend_capabilities).(BackendCapabilities_health) = BackendHealth_Ready).
  { subst b. unfold CpuBackend_new, apply_memory_share. by destruct share as [[|]|]. }
  assert (Hc : b.(CpuBackend_capabilities).(BackendCapabilities_kind) = BackendKind_Cpu
    /\ b.(CpuBackend_capabilities).(BackendCapabilities_formats) = [NumericFormat_F32]
    /\ b.(CpuBackend_capabilities).(BackendCapabilities_max_tensor_elements) = MAX_TASK_ELEMENTS
    /\ b.(CpuBackend_capabilities).(BackendCapabilities_features) = reference_features
    /\ b.(CpuBackend_capabilities).(BackendCapabilities_max_concurrent_tasks) = 2
    /\ b.(CpuBackend_queued) = 0 /\ b.(CpuBackend_reserved_bytes) = 0).
  { subst b. unfold CpuBackend_new. by destruct (apply_memory_share _ _). }
  destruct Hcaps as [Hrun Hh]. destruct Hc as (Hck & Hcf & Hce & Hcx & Hcc & Hq & Hr).
  assert (Hval : CpuBackend_validate b (challenge_task challenge) = Ok tt).
  { unfold CpuBackend_validate, validate_requirements. rewrite challenge_shape_ok, Hrun, Hh by done.
    unfold backend_admitted. rewrite Hck, Hce, Hcf, Hcx. cbn -[safe_memory challenge_elements].
    rewrite Hk, Hf. rewrite bool_decide_false, bool_decide_true by done.
    change (contains NumericFormat_F32 [NumericFormat_F32]) with true.
    change (contains ComputeFeature_DeterministicKernel reference_features) with true.
    unfold sat_mul, sat_add, u64_max, MAX_TASK_ELEMENTS in *. by in_bounds. }
  split; [done|]. unfold CpuBackend_prepare. rewrite Hval, Hq, Hr, Hcc.
  unfold reserved_for, u64_checked. cbn -[safe_memory challenge_elements N.mul N.add].
  unfold sat_mul, sat_add, u64_max, u16_max, MAX_QUEUE in *. in_bounds. by eexists _, _.
Qed.

Lemma challenge_computed b' p challenge elapsed :
  p.(PreparedTask_task) = challenge_task challenge ->
  challenge.(CapabilityChallenge_format) = NumericFormat_F32 ->
  exists b2, CpuBackend_execute b' p
    [mkComputeInput (challenge_values challenge) challenge.(CapabilityChallenge_format)] elapsed
    = Some (Ok (mkComputeOutput (challenge_expected challenge) NumericFormat_F32 BackendKind_Cpu
                  (N.max elapsed 1) false), b2).
Proof. intros Hp Hf. unfold CpuBackend_execute. rewrite Hp, Hf. cbn. by eexists. Qed.

(** An honest node passes its own challenges: on the reference backend, not withdrawn, a
    challenge in the backend's format that fits its memory, of at most half the largest task,
    answered within the deadline, succeeds with the hash of the expected values, and the success
    is recorded. *)
Theorem reference_backend_passes_challenge r arch memory share challenge now elapsed total :
  let b := CpuBackend_new arch memory share in
  bt_get BackendKind_Cpu r.(BackendRegistry_backends) = Some b ->
  BackendRegistry_health r BackendKind_Cpu <> BackendHealth_Unavailable ->
  share <> Some 0 -> challenge_fits b challenge ->
  elapsed <= challenge.(CapabilityChallenge_deadline_ms) * 1000 ->
  exists res r', BackendRegistry_challenge r challenge now elapsed total = Some (res, r')
    /\ res.(CapabilityChallengeResult_success) = true
    /\ res.(CapabilityChallengeResult_error) = None
    /\ res.(CapabilityChallengeResult_output_hash)
       = mkArtifactId (blake3 (concat (i64_to_le_bytes <$> challenge_expected challenge)))
    /\ exists e, bt_get BackendKind_Cpu r'.(BackendRegistry_evidence) = Some e
         /\ 0 < e.(CapabilityEvidenceRecord_successful_challenges)
         /\ e.(CapabilityEvidenceRecord_last_error) = None.
Proof.
  intros b Hg Hh Hshare Hfit Hel.
  destruct (challenge_admitted arch memory share challenge Hshare Hfit) as (Hv & bytes & b1 & Hp).
  fold b in Hv, Hp. destruct Hfit as (Hk & Hf & Hd & Hn & Hm).
  unfold BackendRegistry_challenge. rewrite Hk.
  unfold BackendRegistry_execute. rewrite bool_decide_false, Hg by done. cbn -[challenge_task].
  rewrite Hv, Hp. unfold run_prepared. cbn -[challenge_task].
  destruct (challenge_computed b1 (mkPreparedTask (challenge_task challenge) BackendKind_Cpu bytes)
              challenge elapsed eq_refl Hf) as [b2 ->]. cbn -[challenge_expected N.mul].
  unfold sat_mul, u64_max. rewrite (proj2 (N.ltb_ge _ _)) by lia. cbn -[challenge_expected].
  rewrite bool_decide_true by done. do 2 eexists. split; [done|]. cbn -[challenge_expected].
  split_and!; [done..|]. eexists. rewrite Hk, bt_get_insert_eq. split; [done|]. cbn.
  unfold sat_add, u32_max. split; [lia|done].
Qed.
End CpuChallenge.

(** ** The matrix kernels *)

Section Kernels.
Context `{Profile}.

(** Values small enough for the sums of a row not to leave 128 bits. *)
Definition small (v : Z) : Prop := (- 2 ^ 55 <= v <= 2 ^ 55)%Z.

Definition dot_spec (left right : list Z) : Z := foldr Z.add 0%Z (zip_with Z.mul left right).

Lemma sum_with_exact add lo hi (bound : Z) xs acc :
  (forall a b, lo <= a + b <= hi -> add a b = Some (a + b))%Z ->
  Forall (fun x => - bound <= x <= bound)%Z xs -> (0 <= bound)%Z ->
  (lo <= acc - bound * Z.of_nat (length xs) /\ acc + bound * Z.of_nat (length xs) <= hi)%Z ->
  sum_with add acc xs = Some (acc + foldr Z.add 0 xs)%Z.
Proof.
  intros Hadd Hall Hb. revert acc. induction Hall as [|x xs Hx Hall IH]; intros acc Hacc.
  - cbn. f_equal. lia.
  - cbn [sum_with length] in *. rewrite Hadd by nia. cbn. rewrite IH by nia. f_equal. cbn. lia.
Qed.

Lemma i128_add_exact a b : (i128_min <= a + b <= i128_max)%Z -> i128_add a b = Some (a + b)%Z.
Proof.
  intros [H1 H2]. unfold i128_add. apply Z.leb_le in H1, H2. by rewrite H1, H2.
Qed.

Lemma i64_add_exact a b : (i64_min <= a + b <= i64_max)%Z -> i64_add a b = Some (a + b)%Z.
Proof.
  intros [H1 H2]. unfold i64_add. apply Z.leb_le in H1, H2. by rewrite H1, H2.
Qed.

Lemma zip_mul_bounded bound left right :
  Forall (fun v => - bound <= v <= bound)%Z left -> Forall (fun v => - bound <= v <= bound)%Z right ->
  (0 <= bound)%Z ->
  Forall (fun v => - (bound * bound) <= v <= bound * bound)%Z (zip_with Z.mul left right).
Proof.
  intros Hl Hr Hb. revert right Hr. induction Hl as [|x xs Hx _ IH]; intros [|y ys] Hr; cbn; [done..|].
  inversion Hr; subst. constructor; [nia|by apply IH].
Qed.

Lemma dot_exact left right :
  Forall small left -> Forall small right -> len left <= u16_max -> dot left right = Some (dot_spec left right).
Proof.
  intros Hl Hr Hn. unfold dot, dot_spec.
  rewrite (sum_with_exact _ i128_min i128_max (2 ^ 55 * 2 ^ 55)); [f_equal; lia|apply i128_add_exact| |lia|].
  - by apply zip_mul_bounded.
  - rewrite length_zip_with. unfold len, u16_max, i128_min, i128_max in *. lia.
Qed.

Lemma mapM_total {A C} (f : A -> option C) (g : A -> C) xs :
  (forall x, x ∈ xs -> f x = Some (g x)) -> mapM f xs = Some (g <$> xs).
Proof.
  induction xs as [|x xs IH]; intros Hf; cbn; [done|].
  rewrite Hf, IH by set_solver. done.
Qed.

Lemma Forall_slice {A} (P : A -> Prop) i n (xs : list A) : Forall P xs -> Forall P (take n (drop i xs)).
Proof. intros HP. by apply Forall_take, Forall_drop. Qed.

(** Row [i] of a matrix stored by rows. *)
Definition matrix_row (cols : N) (matrix : list Z) (i : nat) : list Z :=
  take (N.to_nat cols) (drop (i * N.to_nat cols) matrix).

Lemma matrix_vector_rows rows cols matrix vector :
  rows * cols <= u16_max -> len matrix = rows * cols -> 0 < rows ->
  Forall small matrix -> Forall small vector ->
  matrix_vector rows cols matrix vector
  = Some ((fun i => clamp_result (dot_spec (matrix_row cols matrix i) vector)) <$> seq 0 (N.to_nat rows)).
Proof.
  intros Hsz Hlen Hpos Hm Hv. unfold matrix_vector. apply mapM_total. intros i Hi%elem_of_seq.
  unfold slice_from. rewrite (proj2 (N.leb_le _ _)) by nia. cbn.
  rewrite N2Nat.inj_mul, Nat2N.id. fold (matrix_row cols matrix i). rewrite dot_exact; [done| |done|].
  - by apply Forall_slice.
  - unfold len, matrix_row. rewrite length_take. unfold u16_max in *. nia.
Qed.

(** The matrix-vector kernel is exact: for a matrix whose size fits 16 bits, buffers of
    the declared sizes and values of at most 55 bits, in every build profile the result is, row
    by row, the clamped inner product over the integers. *)
Theorem matrix_vector_exact rows cols matrix vector format :
  0 < rows -> rows * cols <= u16_max ->
  len matrix = rows * cols -> len vector = cols -> Forall small matrix -> Forall small vector ->
  run_operation (ComputeOperation_MatrixVector rows cols)
    [mkComputeInput matrix format; mkComputeInput vector format]
  = Some (Ok ((fun i => clamp_result (dot_spec (matrix_row cols matrix i) vector))
              <$> seq 0 (N.to_nat rows))).
Proof.
  intros Hpos Hsz Hm Hv Hsm Hsv. unfold run_operation, u16_mul.
  rewrite (proj2 (N.leb_le _ _)) by done. cbn -[len]. rewrite Hm, Hv, !N.eqb_refl. cbn.
  by rewrite matrix_vector_rows.
Qed.

(** ** The kernels are adjoint *)

Definition zsum (n : nat) (f : nat -> Z) : Z := foldr Z.add 0%Z (f <$> seq 0 n).

Lemma zsum_S n f : zsum (S n) f = (zsum n f + f n)%Z.
Proof.
  unfold zsum. rewrite seq_S, fmap_app. cbn. generalize (f <$> seq 0 n) as xs. intros xs.
  induction xs as [|x xs IH]; cbn; lia.
Qed.

Lemma zsum_ext n f g : (forall i, (i < n)%nat -> f i = g i) -> zsum n f = zsum n g.
Proof. induction n as [|n IH]; intros Hfg; [done|]. rewrite !zsum_S, IH, Hfg; auto. Qed.

Lemma zsum_add n f g : zsum n (fun i => f i + g i)%Z = (zsum n f + zsum n g)%Z.
Proof. induction n as [|n IH]; [done|]. rewrite !zsum_S, IH. lia. Qed.

Lemma zsum_scale n k f : zsum n (fun i => k * f i)%Z = (k * zsum n f)%Z.
Proof. induction n as [|n IH]; [cbn; lia|]. rewrite !zsum_S, IH. lia. Qed.

Lemma zsum_swap n m (f : nat -> nat -> Z) :
  zsum n (fun i => zsum m (fun j => f i j)) = zsum m (fun j => zsum n (fun i => f i j)).
Proof.
  induction n as [|n IH].
  - cbn. induction m as [|m IHm]; [done|]. rewrite zsum_S, <- IHm. done.
  - rewrite zsum_S, IH, <- zsum_add. apply zsum_ext. intros j Hj. by rewrite zsum_S.
Qed.

Lemma zsum_bound n f (k : Z) : (forall i, (i < n)%nat -> - k <= f i <= k)%Z ->
  (- (k * Z.of_nat n) <= zsum n f <= k * Z.of_nat n)%Z.
Proof.
  induction n as [|n IH]; intros Hf; [cbn; lia|]. rewrite zsum_S.
  pose proof (IH ltac:(auto)). pose proof (Hf n ltac:(auto)). lia.
Qed.

Lemma dot_spec_zsum n left right : length left = n -> length right = n ->
  dot_spec left right = zsum n (fun i => nth i left 0 * nth i right 0)%Z.
Proof.
  revert left right. induction n as [|n IH]; intros left right; [by destruct left|].
  destruct left as [|x xs], right as [|y ys]; cbn; try done. intros [= Hx] [= Hy].
  unfold dot_spec. cbn. fold (dot_spec xs ys). rewrite (IH xs ys Hx Hy). unfold zsum. cbn.
  rewrite <- seq_shift, <- list_fmap_compose. done.
Qed.

Definition within (k v : Z) : Prop := (- k <= v <= k)%Z.

Lemma nth_within k xs i : Forall (within k) xs -> (0 <= k)%Z -> within k (nth i xs 0%Z).
Proof.
  intros Hall Hk. destruct (nth_in_or_default i xs 0%Z) as [Hin| ->]; [|unfold within; lia].
  rewrite Forall_forall in Hall. apply Hall. by apply list_elem_of_In.
Qed.

Lemma lookup_nth_lt {A} (d : A) xs i : (i < length xs)%nat -> xs !! i = Some (nth i xs d).
Proof.
  intros Hi. destruct (lookup_lt_is_Some_2 xs i Hi) as [x Hx]. by rewrite Hx, (nth_lookup_Some _ _ d x Hx).
Qed.

Lemma nth_slice {A} (d : A) s n xs j : (j < n)%nat -> nth j (take n (drop s xs)) d = nth (s + j) xs d.
Proof. intros Hj. rewrite !nth_lookup. by rewrite lookup_take_lt, lookup_drop by done. Qed.

Lemma matrix_transpose_vector_columns rows cols matrix vector k :
  rows * cols <= u16_max -> len matrix = rows * cols -> len vector = rows -> 0 < cols ->
  Forall (within k) matrix -> Forall (within k) vector -> (0 <= k)%Z -> (k * k <= 1000000000)%Z ->
  matrix_transpose_vector rows cols matrix vector
  = Some ((fun j => zsum (N.to_nat rows)
            (fun i => nth (i * N.to_nat cols + j) matrix 0 * nth i vector 0)%Z)
          <$> seq 0 (N.to_nat cols)).
Proof.
  intros Hsz Hm Hv Hpos Hbm Hbv Hk Hkk. unfold matrix_transpose_vector. apply mapM_total.
  intros j Hj%elem_of_seq.
  set (g := fun i => (nth (i * N.to_nat cols + j) matrix 0 * nth i vector 0)%Z).
  assert (Hg : forall i, within (k * k) (g i)).
  { intros i. pose proof (nth_within k matrix (i * N.to_nat cols + j) Hbm Hk).
    pose proof (nth_within k vector i Hbv Hk). unfold within, g in *. nia. }
  erewrite (mapM_total _ g).
  - cbn. rewrite (sum_with_exact _ i64_min i64_max (k * k)); [done|apply i64_add_exact| |nia|].
    + apply Forall_forall. intros v (i & -> & _)%list_elem_of_fmap. apply Hg.
    + rewrite length_fmap, length_seq. unfold i64_min, i64_max, u16_max in *. nia.
  - intros i Hi%elem_of_seq. unfold len in *.
    rewrite (lookup_nth_lt 0%Z matrix), (lookup_nth_lt 0%Z vector) by nia. cbn. f_equal.
    pose proof (Hg i) as Hgi. unfold within, i64_saturating_mul, clamp_to, i64_min, i64_max in *.
    unfold g in *. lia.
Qed.

Lemma small_within k v : (k * k <= 1000000000)%Z -> within k v -> small v.
Proof. unfold small, within. nia. Qed.

Lemma matrix_row_dot rows cols matrix x i :
  len matrix = rows * cols -> len x = cols -> (i < N.to_nat rows)%nat ->
  dot_spec (matrix_row cols matrix i) x
  = zsum (N.to_nat cols) (fun j => nth (i * N.to_nat cols + j) matrix 0 * nth j x 0)%Z.
Proof.
  intros Hm Hx Hi. unfold len in *. rewrite (dot_spec_zsum (N.to_nat cols)).
  - apply zsum_ext. intros j Hj. unfold matrix_row. by rewrite nth_slice.
  - unfold matrix_row. rewrite length_take, length_drop. nia.
  - lia.
Qed.

(** The forward and the transposed kernel are adjoint, as back-propagation needs: for
    values within [k] where no clamp applies, the inner product of [M x] with [y] is that of [x]
    with the transposed product of [M] and [y]. *)
Theorem kernels_adjoint rows cols matrix x y k format :
  0 < rows -> 0 < cols -> rows * cols <= u16_max ->
  len matrix = rows * cols -> len x = cols -> len y = rows ->
  Forall (within k) matrix -> Forall (within k) x -> Forall (within k) y ->
  (0 <= k)%Z -> (k * k * Z.of_N cols <= 1000000000)%Z ->
  exists u w,
    run_operation (ComputeOperation_MatrixVector rows cols)
      [mkComputeInput matrix format; mkComputeInput x format] = Some (Ok u)
    /\ run_operation (ComputeOperation_MatrixTransposeVector rows cols)
         [mkComputeInput matrix format; mkComputeInput y format] = Some (Ok w)
    /\ dot_spec u y = dot_spec w x.
Proof.
  intros Hr Hc Hsz Hm Hx Hy Hbm Hbx Hby Hk Hkc. assert (k * k <= 1000000000)%Z as Hkk by nia.
  assert (Hsmall : forall l, Forall (within k) l -> Forall small l).
  { intros l Hl. eapply Forall_impl; [exact Hl|]. intros v. by apply small_within. }
  unfold run_operation, u16_mul. rewrite (proj2 (N.leb_le _ _)) by done. cbn -[len].
  rewrite Hm, Hx, Hy, !N.eqb_refl. cbn. rewrite matrix_vector_rows by auto.
  rewrite (matrix_transpose_vector_columns rows cols matrix y k) by done.
  do 2 eexists. split; [done|]. split; [done|]. unfold len in *.
  rewrite (dot_spec_zsum (N.to_nat rows)), (dot_spec_zsum (N.to_nat cols))
    by (rewrite ?length_fmap, ?length_seq; lia).
  set (cell := fun i j => nth (i * N.to_nat cols + j) matrix 0%Z).
  transitivity (zsum (N.to_nat rows) (fun i => zsum (N.to_nat cols)
                  (fun j => nth i y 0 * (cell i j * nth j x 0)))%Z).
  - apply zsum_ext. intros i Hi. rewrite zsum_scale, Z.mul_comm. f_equal.
    rewrite (nth_lookup (_ <$> _)), list_lookup_fmap, lookup_seq_lt by done. cbn.
    rewrite (matrix_row_dot rows) by (unfold len; done).
    assert (within 1000000000 (zsum (N.to_nat cols) (fun j => cell i j * nth j x 0)%Z)) as Hz.
    { pose proof (zsum_bound (N.to_nat cols) (fun j => cell i j * nth j x 0)%Z (k * k)) as Hb.
      assert (Hcell : forall j, (j < N.to_nat cols)%nat -> (- (k * k) <= cell i j * nth j x 0 <= k * k)%Z).
      { intros j _. pose proof (nth_within k matrix (i * N.to_nat cols + j) Hbm Hk).
        pose proof (nth_within k x j Hbx Hk). unfold within, cell in *. nia. }
      specialize (Hb Hcell). unfold within. lia. }
    unfold within, clamp_result, clamp_to, cell in *. lia.
  - rewrite zsum_swap. apply zsum_ext. intros j Hj.
    rewrite (nth_lookup (_ <$> _)), list_lookup_fmap, lookup_seq_lt by done. cbn.
    rewrite Z.mul_comm, <- zsum_scale. apply zsum_ext. intros i Hi. unfold cell. lia.
Qed.
End Kernels.

(** ** Tasks on a concrete registry *)

Definition cs_profile : Profile := true.

Definition cs_hash : Blake3 := fun bs => replicate 32 (List.last bs 0).

Definition cs_cpu : CpuBackend := CpuBackend_new "x86_64" 1073741824 None.

Definition cs_registry : BackendRegistry CpuBackend :=
  @BackendRegistry_register _ (@CpuBackend_ComputeBackend cs_profile) BackendRegistry_empty cs_cpu.

Definition cs_requirements : ComputeRequirements :=
  default_requirements ComputeTaskKind_CapabilityChallenge BackendKind_Cpu 256 "kernel".

Definition cs_task (operation : ComputeOperation) (input output : N) : ComputeTask :=
  mkComputeTask operation cs_requirements input output 1 1 0 100.

Definition cs_challenge : CapabilityChallenge :=
  new_challenge (mkJobId (replicate 16 1)) (mkNodeId (replicate 32 1)) BackendKind_Cpu
    NumericFormat_F32 7.

Definition cs_execute (elapsed : N) :=
  @BackendRegistry_execute _ (@CpuBackend_ComputeBackend cs_profile) cs_registry BackendKind_Cpu
    (cs_task (ComputeOperation_Gradient 3) 2 2) [mkComputeInput [1%Z; 2%Z] NumericFormat_F32] elapsed.

(** A challenge in a format the reference backend does not have. *)
Definition cs_failed_challenge :=
  @BackendRegistry_challenge _ (@CpuBackend_ComputeBackend cs_profile) cs_hash cs_registry
    (new_challenge (mkJobId (replicate 16 1)) (mkNodeId (replicate 32 1)) BackendKind_Cpu
       NumericFormat_F16 7) 10 5 5.

Lemma cs_reachable :
  @registry_reachable _ _ (@CpuBackend_laws cs_profile) cs_hash cs_registry.
Proof. eapply reachable_step; [apply reachable_empty | apply step_register; by split_and!]. Qed.

(** A task the checks admit may have a matrix no buffer can hold: the size is multiplied
    at 16 bits, so a matrix of 256 by 256 panics in a build with overflow checks, and is refused
    in a build without, whatever the buffers of the right size hold. *)
Theorem large_matrix_admitted_but_refused :
  exists task, validate_requirements cs_cpu.(CpuBackend_capabilities) task = Ok tt
    /\ task.(ComputeTask_operation) = ComputeOperation_MatrixVector 256 256
    /\ forall matrix vector format, len matrix = 256 * 256 ->
         let inputs := [mkComputeInput matrix format; mkComputeInput vector format] in
         @run_operation true task.(ComputeTask_operation) inputs = None
         /\ exists detail, @run_operation false task.(ComputeTask_operation) inputs
                           = Some (Err (ComputeError_InvalidTask detail)).
Proof.
  exists (cs_task (ComputeOperation_MatrixVector 256 256) 256 256).
  split; [reflexivity|]. split; [reflexivity|]. intros matrix vector format Hm inputs. split.
  - reflexivity.
  - unfold run_operation. cbn -[len u16_mul]. change (@u16_mul false 256 256) with (Some 0).
    cbn -[len]. rewrite Hm. cbn -[len]. by eexists.
Qed.

(** ** Witnesses *)
Lemma registry_never_clogged_witness :
  exists res r', cs_execute 5 = Some (res, r') /\ res <> Err ComputeError_QueueFull.
Proof.
  eexists _, _. split; [vm_compute; reflexivity|].
  eapply (@registry_never_clogged _ _ (@CpuBackend_laws cs_profile) cs_hash cs_registry BackendKind_Cpu
            (cs_task (ComputeOperation_Gradient 3) 2 2) [mkComputeInput [1%Z; 2%Z] NumericFormat_F32] 5);
    [apply cs_reachable | vm_compute; reflexivity].
Defined.

Lemma timeout_withdraws_backend_witness :
  exists r', cs_execute 200000 = Some (Err ComputeError_Timeout, r')
    /\ @BackendRegistry_health _ (@CpuBackend_ComputeBackend cs_profile) r' BackendKind_Cpu
       = BackendHealth_Unavailable.
Proof.
  eexists. split; [vm_compute; reflexivity|].
  eapply (@timeout_withdraws_backend _ _ (@CpuBackend_laws cs_profile) cs_hash cs_registry BackendKind_Cpu
            (cs_task (ComputeOperation_Gradient 3) 2 2) [mkComputeInput [1%Z; 2%Z] NumericFormat_F32]
            200000);
    [apply cs_reachable | vm_compute; reflexivity].
Defined.

Lemma failed_challenge_disqualifies_witness :
  exists res r' c, cs_failed_challenge = Some (res, r')
    /\ c ∈ @BackendRegistry_capabilities _ (@CpuBackend_ComputeBackend cs_profile) r'
    /\ backend_satisfies_requirements c cs_requirements = false.
Proof.
  eexists _, _, _. split; [vm_compute; reflexivity|].
  split; [vm_compute; by left|].
  eapply (@failed_challenge_disqualifies _ _ (@CpuBackend_laws cs_profile) cs_hash cs_registry
            (new_challenge (mkJobId (replicate 16 1)) (mkNodeId (replicate 32 1)) BackendKind_Cpu
               NumericFormat_F16 7) 10 5 5);
    [apply cs_reachable | vm_compute; reflexivity | vm_compute; reflexivity
    | intros e [=] | vm_compute; by left | vm_compute; reflexivity].
Defined.

Lemma reference_backend_passes_challenge_witness :
  exists res r',
    @BackendRegistry_challenge _ (@CpuBackend_ComputeBackend cs_profile) cs_hash cs_registry
      cs_challenge 10 5 5 = Some (res, r')
    /\ res.(CapabilityChallengeResult_success) = true.
Proof.
  destruct (@reference_backend_passes_challenge cs_profile cs_hash cs_registry "x86_64" 1073741824 None
              cs_challenge 10 5 5) as (res & r' & Hc & Hs & _);
    [vm_compute; reflexivity | vm_compute; discriminate | discriminate
    | repeat split; vm_compute; congruence | vm_compute; discriminate | eauto].
Defined.

Lemma matrix_vector_exact_witness :
  @run_operation cs_profile (ComputeOperation_MatrixVector 2 3)
    [mkComputeInput [1; 2; 3; 4; 5; 6]%Z NumericFormat_F32;
     mkComputeInput [1; 0; -1]%Z NumericFormat_F32] = Some (Ok [-2; -2]%Z).
Proof.
  rewrite (@matrix_vector_exact cs_profile 2 3 [1; 2; 3; 4; 5; 6]%Z [1; 0; -1]%Z NumericFormat_F32);
    [vm_compute; reflexivity | vm_compute; reflexivity | vm_compute; discriminate
    | vm_compute; reflexivity | vm_compute; reflexivity
    | repeat constructor; vm_compute; discriminate | repeat constructor; vm_compute; discriminate].
Defined.

Lemma kernels_adjoint_witness :
  exists u w, @run_operation cs_profile (ComputeOperation_MatrixVector 2 3)
      [mkComputeInput [1; 2; 3; 4; 5; 6]%Z NumericFormat_F32;
       mkComputeInput [1; 0; -1]%Z NumericFormat_F32] = Some (Ok u)
    /\ @run_operation cs_profile (ComputeOperation_MatrixTransposeVector 2 3)
      [mkComputeInput [1; 2; 3; 4; 5; 6]%Z NumericFormat_F32;
       mkComputeInput [3; 5]%Z NumericFormat_F32] = Some (Ok w)
    /\ dot_spec u [3; 5]%Z = dot_spec w [1; 0; -1]%Z.
Proof.
  apply (@kernels_adjoint cs_profile 2 3 [1; 2; 3; 4; 5; 6]%Z [1; 0; -1]%Z [3; 5]%Z 10 NumericFormat_F32);
    try (vm_compute; (reflexivity || discriminate));
    repeat constructor; vm_compute; discriminate.
Defined.
