(* ===== verification/Float32.v ===== *)
(** * Single-precision floats and text

    What the planners use of [f32] and of formatting: a float is its 32 bits, as it travels and
    as [to_bits] reads it; arithmetic is the IEEE 754 arithmetic of the Standard Library's
    [SpecFloat] at 24 bits of precision; conversions to integers saturate. Text is hexadecimal
    and decimal, with the two-digit rounding of [{:.2}]. *)

From Stdlib Require Import Ascii String ZArith NArith Lia SpecFloat.
From stdpp Require Import base tactics sets strings numbers list.
From S2P Require Import Prelude OrdMap Types.

Local Open Scope N_scope.

(** ** Floats *)

(** The bits of an [f32]; also what [to_bits] returns. *)
Notation f32 := N (only parsing).

Definition f32_prec : Z := 24.

Definition f32_emax : Z := 128.

Definition f32_value (bits : f32) : spec_float :=
  let sign := N.testbit bits 31 in
  let exponent := (bits / 2 ^ 23) mod 256 in
  let fraction := bits mod 2 ^ 23 in
  if exponent =? 255 then (if fraction =? 0 then S754_infinity sign else S754_nan)
  else if exponent =? 0 then
    match fraction with N0 => S754_zero sign | Npos m => S754_finite sign m (-149) end
  else match fraction + 2 ^ 23 with
       | N0 => S754_nan
       | Npos m => S754_finite sign m (Z.of_N exponent - 150)
       end.

Definition f32_mul : spec_float -> spec_float -> spec_float := SFmul f32_prec f32_emax.

Definition f32_add : spec_float -> spec_float -> spec_float := SFadd f32_prec f32_emax.

Definition f32_sub : spec_float -> spec_float -> spec_float := SFsub f32_prec f32_emax.

Definition f32_div : spec_float -> spec_float -> spec_float := SFdiv f32_prec f32_emax.

(** [n as f32] of an unsigned integer: rounded to nearest, ties to even. *)
Definition f32_of_N (n : N) : spec_float := binary_normalize f32_prec f32_emax (Z.of_N n) 0 false.

Definition f32_is_finite (x : spec_float) : bool :=
  match x with S754_zero _ | S754_finite _ _ _ => true | _ => false end.

Definition f32_0 : spec_float := S754_zero false.

Definition f32_1 : spec_float := f32_of_N 1.

Definition f32_100 : spec_float := f32_of_N 100.

Definition f32_1000 : spec_float := f32_of_N 1000.

(** The literals [0.5] and [0.8]: [0.8] is rounded to single precision. *)
Definition f32_half : spec_float := f32_value 0x3F000000.

Definition f32_four_fifths : spec_float := f32_value 0x3F4CCCCD.

(** [(0.0..=1.0).contains(&x)] *)
Definition f32_in_unit (x : spec_float) : bool := (SFleb f32_0 x && SFleb x f32_1)%bool.

(** [x.clamp(lo, hi)]; a NaN is left alone. *)
Definition f32_clamp (lo hi x : spec_float) : spec_float :=
  let x := if SFltb x lo then lo else x in if SFltb hi x then hi else x.

(** [f32::min]: the other argument when one is NaN. *)
Definition f32_min (x y : spec_float) : spec_float :=
  match x, y with
  | S754_nan, _ => y
  | _, S754_nan => x
  | _, _ => if SFltb y x then y else x
  end.

(** [x.round() as uN]: half away from zero, then a saturating conversion. *)
Definition f32_round_to (max : N) (x : spec_float) : N :=
  match x with
  | S754_nan | S754_zero _ | S754_finite true _ _ | S754_infinity true => 0
  | S754_infinity false => max
  | S754_finite false m e =>
      let value := if (0 <=? e)%Z then (Z.pos m * 2 ^ e)%Z
                   else ((Z.pos m + 2 ^ (- e - 1)) / 2 ^ (- e))%Z in
      N.min (Z.to_N value) max
  end.

(** ** Text *)

Definition hex_digit (d : N) : ascii := ascii_of_N (if d <? 10 then 48 + d else 87 + d).

(** [hex::encode(bytes)] *)
Fixpoint hex_encode (bytes : list N) : string :=
  match bytes with
  | [] => EmptyString
  | b :: bytes => String (hex_digit (b / 16)) (String (hex_digit (b mod 16)) (hex_encode bytes))
  end.

(** [{}] of an unsigned integer: its digits, the last one first in [decimal_digits]. The
    fuel is the number of binary digits, never less than the decimal ones. *)
Fixpoint decimal_digits (fuel : nat) (n : N) (acc : string) : string :=
  match fuel with
  | O => acc
  | S fuel =>
      let acc := String (ascii_of_N (48 + n mod 10)) acc in
      if n <? 10 then acc else decimal_digits fuel (n / 10) acc
  end.

Definition decimal (n : N) : string := decimal_digits (S (N.size_nat n)) n EmptyString.

(** [{:.2}] of a float: the decimal expansion rounded to two places, ties to even. *)
Definition two_places (x : spec_float) : string :=
  let show (negative : bool) (hundredths : N) :=
    ((if negative then "-" else "") ++ decimal (hundredths / 100)%N ++ "."
     ++ decimal (hundredths / 10 mod 10)%N ++ decimal (hundredths mod 10)%N)%string in
  match x with
  | S754_nan => "NaN"
  | S754_infinity s => if s then "-inf" else "inf"
  | S754_zero s => show s 0
  | S754_finite s m e =>
      let scaled := (100 * Z.pos m)%Z in
      show s (Z.to_N (if (0 <=? e)%Z then (scaled * 2 ^ e)%Z
                      else let q := (scaled / 2 ^ (- e))%Z in
                           let r := (scaled mod 2 ^ (- e))%Z in
                           match Z.compare (2 * r) (2 ^ (- e)) with
                           | Lt => q
                           | Gt => (q + 1)%Z
                           | Eq => if Z.even q then q else (q + 1)%Z
                           end))
  end%string.

Example decimal_sample : decimal 1073741824 = "1073741824"%string /\ decimal 0 = "0"%string.
Proof. by vm_compute. Qed.

Example two_places_sample :
  two_places (f32_value 0x3F733333) = "0.95"%string /\ two_places f32_1 = "1.00"%string.
Proof. by vm_compute. Qed.

Example f32_sample :
  f32_round_to u64_max (f32_mul (f32_value 0x3F733333) f32_1000) = 950
  /\ f32_four_fifths = f32_div (f32_of_N 4) (f32_of_N 5).
Proof. by vm_compute. Qed.

(** ** Rounding does not pass an integer bound *)
Lemma iter_pos_nat {A} (f : A -> A) p x : SpecFloat.iter_pos f p x = Nat.iter (Pos.to_nat p) f x.
Proof.
  revert x. induction p as [p IH|p IH|]; intros x; cbn [SpecFloat.iter_pos].
  - rewrite !IH, Pos2Nat.inj_xI, <- Nat.iter_add, Nat.iter_swap. cbn. by rewrite Nat.add_0_r.
  - rewrite !IH, Pos2Nat.inj_xO, <- Nat.iter_add. cbn. by rewrite Nat.add_0_r.
  - done.
Qed.

(** Shifting right [n] times floors, and remembers whether anything was lost. *)
Lemma shr_iter mx n :
  (0 <= mx)%Z ->
  let rec := Nat.iter n shr_1 (Build_shr_record mx false false) in
  (0 <= shr_m rec /\ shr_m rec * 2 ^ Z.of_nat n <= mx
   /\ (shr_r rec || shr_s rec = true -> shr_m rec * 2 ^ Z.of_nat n < mx))%Z.
Proof.
  intros Hmx. induction n as [|n IH]; [cbn; lia|]. cbv zeta in *. rewrite Nat.iter_succ.
  destruct (Nat.iter n shr_1 _) as [m r s]. cbn in IH. destruct IH as (Hm & Hle & Hlt).
  rewrite Nat2Z.inj_succ, Z.pow_succ_r by lia.
  assert (0 < 2 ^ Z.of_nat n)%Z by (apply Z.pow_pos_nonneg; lia).
  destruct m as [|[p|p|]|]; cbn [shr_1 shr_m shr_r shr_s orb]; [| | | |lia].
  - split_and!; [lia|lia|]. intros Hs. assert (r || s = true)%bool as Hrs by (by destruct r, s).
    specialize (Hlt Hrs). lia.
  - split_and!; nia.
  - split_and!; [nia|nia|]. intros Hs. assert (r || s = true)%bool as Hrs by (by destruct r, s).
    specialize (Hlt Hrs). nia.
  - split_and!; nia.
Qed.

Lemma digits2_bound p k : (0 <= k)%Z -> (Z.pos p < 2 ^ k)%Z -> (Z.pos (digits2_pos p) <= k)%Z.
Proof.
  revert k. induction p as [p IH|p IH|]; intros k Hk Hp; cbn [digits2_pos].
  1,2: destruct (decide (k = 0%Z)) as [->|]; [cbn in Hp; lia|];
    replace k with (Z.succ (k - 1)) in Hp by lia; rewrite Z.pow_succ_r in Hp by lia;
    assert (Z.pos p < 2 ^ (k - 1))%Z by lia;
    pose proof (IH (k - 1)%Z ltac:(lia) ltac:(done)); lia.
  destruct (decide (k = 0%Z)) as [->|]; [cbn in Hp; lia|lia].
Qed.

(** One normalisation step of the rounding keeps a value below an integer bound. *)
Lemma shr_fexp_bound (bound m e : Z) rec e' :
  (0 <= m)%Z -> (e <= -14)%Z -> (0 < bound < 2 ^ 10)%Z -> (m <= bound * 2 ^ (- e))%Z ->
  shr_fexp f32_prec f32_emax m e loc_Exact = (rec, e') ->
  (e' <= -14 /\ 0 <= shr_m rec <= bound * 2 ^ (- e')
   /\ 0 <= round_nearest_even (shr_m rec) (loc_of_shr_record rec) <= bound * 2 ^ (- e'))%Z.
Proof.
  intros Hm He Hb Hle. unfold shr_fexp, shr.
  assert (Hdig : (fexp f32_prec f32_emax (Zdigits2 m + e) <= -14)%Z).
  { unfold fexp, emin, f32_prec, f32_emax. destruct m as [|p|]; cbn [Zdigits2]; [lia| |lia].
    assert (Z.pos p < 2 ^ (10 - e))%Z.
    { replace (10 - e)%Z with (10 + - e)%Z by lia. rewrite Z.pow_add_r by lia.
      assert (0 < 2 ^ (- e))%Z by (apply Z.pow_pos_nonneg; lia). nia. }
    pose proof (digits2_bound p (10 - e) ltac:(lia) ltac:(done)). lia. }
  assert (Hround : forall r, (0 <= shr_m r)%Z ->
            (shr_m r <= round_nearest_even (shr_m r) (loc_of_shr_record r) <= shr_m r + 1)%Z
            /\ (shr_r r || shr_s r = false ->
                round_nearest_even (shr_m r) (loc_of_shr_record r) = shr_m r)).
  { intros [q [] []]; cbn; try lia. destruct (Z.even q); lia. }
  destruct (_ - e)%Z as [|n|n] eqn:Hn; intros [= <- <-]; cbn -[Z.pow]; [lia| |lia].
  rewrite iter_pos_nat. pose proof (shr_iter m (Pos.to_nat n) Hm) as Hs. cbv zeta in Hs.
  set (r := Nat.iter _ _ _) in *. destruct Hs as (H0 & Hfl & Hlost). rewrite positive_nat_Z in *.
  destruct (Hround r H0) as [Hr1 Hr2]. fold (Z.add e (Z.pos n)).
  assert (Hpow : (2 ^ (- e) = 2 ^ (- (e + Z.pos n)) * 2 ^ Z.pos n)%Z).
  { rewrite <- Z.pow_add_r by lia. f_equal. lia. }
  assert (0 < 2 ^ Z.pos n)%Z by (apply Z.pow_pos_nonneg; lia).
  rewrite Hpow in Hle. destruct (shr_r r || shr_s r) eqn:Hl.
  - specialize (Hlost eq_refl). split_and!; [lia|lia|nia|lia|nia].
  - specialize (Hr2 eq_refl). rewrite Hr2. split_and!; [lia|lia|nia|lia|nia].
Qed.

Lemma binary_round_bound (bound : Z) m e :
  (e <= -14)%Z -> (0 < bound < 2 ^ 10)%Z -> (Z.pos m <= bound * 2 ^ (- e))%Z ->
  match binary_round_aux f32_prec f32_emax false (Z.pos m) e loc_Exact with
  | S754_zero s => s = false
  | S754_finite s m' e' => s = false /\ (e' <= -14)%Z /\ (Z.pos m' <= bound * 2 ^ (- e'))%Z
  | _ => False
  end.
Proof.
  intros He Hb Hm. unfold binary_round_aux.
  destruct (shr_fexp _ _ (Z.pos m) e loc_Exact) as [r1 e1] eqn:H1.
  apply (shr_fexp_bound bound) in H1 as (He1 & _ & Hq1); [|lia..].
  destruct (shr_fexp _ _ (round_nearest_even _ _) e1 loc_Exact) as [r2 e2] eqn:H2.
  apply (shr_fexp_bound bound) in H2 as (He2 & Hm2 & _); [|lia..].
  destruct (shr_m r2) as [|p|]; [done| |lia]. unfold f32_emax, f32_prec.
  rewrite (proj2 (Z.leb_le _ _)) by lia. split_and!; [done|lia|lia].
Qed.

(** A float of the unit interval is at most one, exactly. *)
Lemma f32_unit_cases bits :
  f32_in_unit (f32_value bits) = true ->
  match f32_value bits with
  | S754_zero _ => True
  | S754_finite s m e => s = false /\ (e <= -23)%Z /\ (Z.pos m <= 2 ^ (- e))%Z
  | _ => False
  end.
Proof.
  unfold f32_in_unit. intros [H0 H1]%andb_true_iff. revert H0 H1.
  assert (Hm : match f32_value bits with S754_finite _ m e => (Z.pos m < 2 ^ 24)%Z | _ => True end).
  { unfold f32_value. assert (bits mod 2 ^ 23 < 2 ^ 23) by (apply N.mod_lt; done).
    destruct (_ =? 255); [by destruct (_ =? 0)|]. destruct (_ =? 0).
    - destruct (bits mod 2 ^ 23); [done|]. lia.
    - destruct (bits mod 2 ^ 23 + 2 ^ 23) eqn:Hf; [done|]. lia. }
  change f32_1 with (S754_finite false 8388608 (-23)). remember 8388608%positive as k eqn:Hone.
  unfold f32_0.
  destruct (f32_value bits) as [s|s| |s m e]; [done|by destruct s|done|].
  unfold SFleb, SFcompare. destruct s; [intros Hf; discriminate Hf|]. intros _.
  destruct (Z.compare_spec e (-23)) as [->|Hlt|Hgt]; [| |intros Hf; discriminate Hf].
  - intros Hc. fold (Pos.compare m k) in Hc. split_and!; [done|lia|].
    destruct (Pos.compare_spec m k); [lia|lia|discriminate Hc].
  - intros _. split_and!; [done|lia|].
    assert (2 ^ 24 <= 2 ^ (- e))%Z by (apply Z.pow_le_mono_r; lia). lia.
Qed.

(** A reliability in permille is at most a thousand. *)
Lemma f32_permille_bound bits max :
  f32_in_unit (f32_value bits) = true ->
  f32_round_to max (f32_mul (f32_value bits) f32_1000) <= 1000.
Proof.
  intros Hu%f32_unit_cases. change f32_1000 with (S754_finite false 16384000 (-14)).
  unfold f32_mul, SFmul. destruct (f32_value bits) as [s|s| |s m e]; [cbn; lia|done|done|].
  destruct Hu as (-> & He & Hm). change (xorb false false) with false. change (-23)%Z with (Z.opp 23) in He.
  pose proof (binary_round_bound 1000 (m * 16384000) (e + -14)) as Hb.
  assert (2 ^ (- (e + -14)) = 2 ^ (- e) * 2 ^ 14)%Z as Hp.
  { rewrite <- Z.pow_add_r by lia. f_equal. lia. }
  specialize (Hb ltac:(lia) ltac:(lia) ltac:(lia)).
  destruct (binary_round_aux _ _ _ _ _ _) as [s|s| |s m' e']; [cbn; lia|done|done|].
  destruct Hb as (-> & He' & Hm'). unfold f32_round_to. rewrite (proj2 (Z.leb_gt 0 e')) by lia.
  assert (Hpow : (2 ^ (- e') = 2 * 2 ^ (- e' - 1))%Z).
  { rewrite <- Z.pow_succ_r by lia. f_equal. lia. }
  assert (0 < 2 ^ (- e' - 1))%Z by (apply Z.pow_pos_nonneg; lia).
  assert ((Z.pos m' + 2 ^ (- e' - 1)) / 2 ^ (- e') < 1001)%Z; [|lia].
  apply Z.div_lt_upper_bound; lia.
Qed.

(** ** The order of floats *)

(** Floats other than NaN compare as their class, exponent and mantissa do. *)
Definition f32_key (x : spec_float) : Z * (Z * Z) :=
  match x with
  | S754_infinity true => (-2, (0, 0))
  | S754_finite true m e => (-1, (- e, Z.neg m))
  | S754_zero _ | S754_nan => (0, (0, 0))
  | S754_finite false m e => (1, (e, Z.pos m))
  | S754_infinity false => (2, (0, 0))
  end%Z.

Definition f32_is_nan (x : spec_float) : bool := match x with S754_nan => true | _ => false end.

Lemma SFcompare_key x y :
  f32_is_nan x = false -> f32_is_nan y = false -> SFcompare x y = Some (cmp (f32_key x) (f32_key y)).
Proof.
  destruct x as [[]|[]| |[] m e], y as [[]|[]| |[] m' e']; try done; intros _ _; cbn; f_equal.
  - unfold cmp, Ord_prod, then_with, cmp, Ord_Z. cbn. rewrite Z.compare_opp.
    destruct (Z.compare_spec e' e), (Z.compare_spec e e'); try lia; try done.
  - change (cmp (e, Z.pos m) (e', Z.pos m')) with (then_with (e ?= e')%Z (m ?= m')%positive).
    by destruct (e ?= e')%Z.
Qed.

Lemma SFleb_key x y :
  f32_is_nan x = false -> f32_is_nan y = false -> SFleb x y = leb (f32_key x) (f32_key y).
Proof.
  intros Hx Hy. unfold SFleb, leb. rewrite SFcompare_key by done. by destruct (cmp _ _).
Qed.

Lemma SFltb_key x y :
  f32_is_nan x = false -> f32_is_nan y = false -> SFltb x y = ltb (f32_key x) (f32_key y).
Proof.
  intros Hx Hy. unfold SFltb, ltb. rewrite SFcompare_key by done. by destruct (cmp _ _).
Qed.

Lemma f32_min_le a x y :
  f32_is_nan a = false -> f32_is_nan x = false -> f32_is_nan y = false ->
  f32_is_nan (f32_min x y) = false
  /\ (SFleb a (f32_min x y) = true -> SFleb a x = true /\ SFleb a y = true).
Proof.
  intros Ha Hx Hy.
  assert (f32_min x y = if SFltb y x then y else x) as -> by (by destruct x, y).
  destruct (SFltb y x) eqn:Hlt; rewrite SFltb_key in Hlt by done; rewrite !SFleb_key by done.
  - split; [done|]. intros Hay. split; [|done]. apply (leb_trans _ (f32_key y)); [done|].
    apply leb_le_or. right. by apply ltb_lt.
  - split; [done|]. intros Hax. split; [done|]. apply (leb_trans _ (f32_key x)); [done|].
    by apply ltb_ge.
Qed.

(** A bound on the least element bounds every element. *)
Lemma f32_min_fold a x xs :
  f32_is_nan a = false -> f32_is_nan x = false -> Forall (fun y => f32_is_nan y = false) xs ->
  SFleb a (foldl f32_min x xs) = true -> SFleb a x = true /\ Forall (fun y => SFleb a y = true) xs.
Proof.
  intros Ha Hx Hall. revert x Hx. induction Hall as [|y ys Hy Hall IH]; intros x Hx; cbn; [done|].
  destruct (f32_min_le a x y Ha Hx Hy) as [Hn Hle]. intros Hf. apply IH in Hf as [Hm Hys]; [|done].
  apply Hle in Hm as [??]. by split; [|constructor].
Qed.

(** ** The length of a number *)
Lemma decimal_digits_length k fuel n acc :
  n < 10 ^ N.of_nat (S k) -> slen (decimal_digits fuel n acc) <= slen acc + N.of_nat (S k).
Proof.
  revert fuel n acc. induction k as [|k IH]; intros [|fuel] n acc Hn; cbn [decimal_digits]; try lia.
  - change (10 ^ N.of_nat 1) with 10 in Hn. rewrite (proj2 (N.ltb_lt n 10)) by done. unfold slen. cbn [String.length]. lia.
  - destruct (n <? 10); [unfold slen; cbn [String.length]; lia|].
    assert (n / 10 < 10 ^ N.of_nat (S k)).
    { apply N.Div0.div_lt_upper_bound. rewrite (Nat2N.inj_succ (S k)), N.pow_succ_r' in Hn. lia. }
    etransitivity; [by apply IH|]. unfold slen. cbn [String.length]. lia.
Qed.

Lemma decimal_length n : n <= u64_max -> slen (decimal n) <= 20.
Proof.
  intros Hn. unfold decimal. etransitivity; [apply (decimal_digits_length 19)|].
  - unfold u64_max in Hn. cbn. lia.
  - by vm_compute.
Qed.

Lemma slen_app s t : slen (s ++ t)%string = slen s + slen t.
Proof.
  unfold slen. induction s as [|c s IH]; [done|].
  change (String c s ++ t)%string with (String c (s ++ t)%string). cbn [String.length]. lia.
Qed.
