(* ===== verification/TrainingPlan.v ===== *)
(** * Placement of a training job

    Models [crates/intelligence/src/training.rs]: worker profiles and [plan_training], which
    selects workers for a job and the synchronisation strategy they can sustain, with what its
    decisions guarantee. *)

From Stdlib Require Import Ascii String ZArith NArith Lia SpecFloat.
From stdpp Require Import base tactics sets strings numbers sorting list.
From S2P Require Import Prelude OrdMap Types Float32.

Local Open Scope N_scope.
Local Open Scope rust_scope.

Inductive HardwareKind :=
  | HardwareKind_Cpu
  | HardwareKind_AppleSilicon
  | HardwareKind_AmdGpu
  | HardwareKind_NvidiaConsumer
  | HardwareKind_A100
  | HardwareKind_H100
  | HardwareKind_B200
  | HardwareKind_Unknown.

#[export] Instance HardwareKind_eq_dec : EqDecision HardwareKind.
Proof. solve_decision. Defined.

Record WorkerProfile := mkWorkerProfile {
  WorkerProfile_node : NodeId;
  WorkerProfile_hardware : HardwareKind;
  WorkerProfile_memory_bytes : N;
  WorkerProfile_compute_units : N;
  WorkerProfile_rtt_ms : N;
  WorkerProfile_throughput_mbps : N;
  WorkerProfile_reliability : f32;
  WorkerProfile_dataset_available : bool;
  WorkerProfile_backends : list BackendCapabilities
}.

Inductive TrainingStrategy :=
  | TrainingStrategy_SynchronousDataParallel
  | TrainingStrategy_BoundedStaleness
  | TrainingStrategy_LocalSgd
  | TrainingStrategy_Unsupported.

#[export] Instance TrainingStrategy_eq_dec : EqDecision TrainingStrategy.
Proof. solve_decision. Defined.

Inductive StrategySupport :=
  | StrategySupport_Supported
  | StrategySupport_Experimental
  | StrategySupport_Unsupported.

Record TrainingPlanDecision := mkTrainingPlanDecision {
  TrainingPlanDecision_strategy : TrainingStrategy;
  TrainingPlanDecision_support : StrategySupport;
  TrainingPlanDecision_selected_workers : list NodeId;
  TrainingPlanDecision_rejected_workers : list NodeId;
  TrainingPlanDecision_synchronization_timeout_ms : N;
  TrainingPlanDecision_checkpoint_replicas : N;
  TrainingPlanDecision_data_locality : DataLocality;
  TrainingPlanDecision_rationale : string
}.

Inductive PlannerError :=
  | PlannerError_InsufficientWorkers
  | PlannerError_InvalidModelSize
  | PlannerError_LocalityViolation.

Definition is_local_only (locality : DataLocality) : bool :=
  match locality with DataLocality_LocalOnly => true | _ => false end.

(** The filter of both planners, for the memory a worker must have. *)
Definition worker_eligible (required_memory : N) (locality : DataLocality) (worker : WorkerProfile)
    : bool :=
  let reliability := f32_value worker.(WorkerProfile_reliability) in
  (required_memory <=? worker.(WorkerProfile_memory_bytes))
  && (0 <? worker.(WorkerProfile_compute_units))
  && f32_is_finite reliability
  && SFleb f32_half reliability
  && (negb (is_local_only locality) || worker.(WorkerProfile_dataset_available)).

(** The key of the sort: the shortest round trip first, then the larger bits of the
    reliability. *)
Definition placement_key (worker : WorkerProfile) : N * Reverse N :=
  (worker.(WorkerProfile_rtt_ms), mkReverse worker.(WorkerProfile_reliability)).

(** [iter.max()] with its default. *)
Definition max_rtt (workers : list WorkerProfile) : N :=
  foldl N.max 0 (WorkerProfile_rtt_ms <$> workers).

Definition min_reliability (workers : list WorkerProfile) : spec_float :=
  foldl f32_min f32_1 ((fun worker => f32_value worker.(WorkerProfile_reliability)) <$> workers).

Definition plan_training (model_bytes : N) (data_locality : DataLocality) (requested_workers : N)
    (workers : list WorkerProfile) : result TrainingPlanDecision PlannerError :=
  fail_if (model_bytes =? 0) PlannerError_InvalidModelSize ;?
  let required_memory := sat_mul u64_max model_bytes 2 in
  let eligible := List.filter (worker_eligible required_memory data_locality) workers in
  let eligible := sort_by_key placement_key eligible in
  let eligible := truncate (N.max requested_workers 2) eligible in
  fail_if (len eligible <? 2)
    (if is_local_only data_locality
        && (2 <=? count (fun worker => required_memory <=? worker.(WorkerProfile_memory_bytes)) workers)
     then PlannerError_LocalityViolation else PlannerError_InsufficientWorkers) ;?
  let selected_workers := WorkerProfile_node <$> eligible in
  let rejected_workers := WorkerProfile_node <$>
    List.filter (fun worker => negb (contains worker.(WorkerProfile_node) selected_workers)) workers in
  let max_rtt := max_rtt eligible in
  let synchronous := (max_rtt <=? 200) && SFleb f32_four_fifths (min_reliability eligible) in
  Ok {| TrainingPlanDecision_strategy :=
          (if synchronous then TrainingStrategy_SynchronousDataParallel
           else TrainingStrategy_BoundedStaleness);
        TrainingPlanDecision_support :=
          (if synchronous then StrategySupport_Supported else StrategySupport_Experimental);
        TrainingPlanDecision_selected_workers := selected_workers;
        TrainingPlanDecision_rejected_workers := rejected_workers;
        TrainingPlanDecision_synchronization_timeout_ms :=
          (if synchronous then N.max (sat_mul u64_max max_rtt 4) 1000
           else N.max (sat_mul u64_max max_rtt 6) 2000);
        TrainingPlanDecision_checkpoint_replicas := N.min (len eligible) 3;
        TrainingPlanDecision_data_locality := data_locality;
        TrainingPlanDecision_rationale :=
          (if synchronous
           then "bounded synchronous data parallelism fits measured RTT and reliability"
           else "slow or unreliable workers require timeout and bounded staleness; replanning remains enabled")
     |}.

(** ** Selection *)

(** What is left of a sorted list when only its first [n] elements are kept comes after them. *)
Lemma sorted_take_best {A K} `{OrdLaws K} (key : A -> K) n (xs : list A) x y :
  x ∈ take n (sort_by_key key xs) -> y ∈ xs -> y ∉ take n (sort_by_key key xs) ->
  leb (key x) (key y) = true /\ length (take n (sort_by_key key xs)) = n.
Proof.
  intros Hx Hy Hny. pose proof (sort_by_key_sorted key xs) as Hs.
  rewrite <- (elem_of_sort_by_key key) in Hy. revert Hx Hy Hny.
  rewrite <- (take_drop n (sort_by_key key xs)) in Hs |- * at 2. unfold key_sorted in Hs.
  intros Hx [?|Hy]%elem_of_app Hny; [done|]. split.
  - apply StronglySorted_app in Hs as (Hcross & _ & _). by apply Hcross.
  - rewrite length_take. destruct (decide (n <= length (sort_by_key key xs))%nat); [lia|].
    rewrite drop_ge in Hy by lia. by apply not_elem_of_nil in Hy.
Qed.

(** The selected and the rejected divide the candidates. *)
Lemma selected_rejected {A B} `{EqDecision B} (f : A -> B) (xs sel : list A) :
  NoDup (f <$> xs) -> NoDup sel -> (forall x, x ∈ sel -> x ∈ xs) ->
  (f <$> sel) ++ (f <$> List.filter (fun x => negb (contains (f x) (f <$> sel))) xs) ≡ₚ f <$> xs.
Proof.
  intros Hnd Hs Hin.
  assert (Hfs : NoDup (f <$> sel)).
  { apply NoDup_fmap_2_strong; [|done]. intros x y Hx Hy Hxy. exact (NoDup_fmap_eq f xs x y Hnd (Hin x Hx) (Hin y Hy) Hxy). }
  assert (Hmem : forall x, x ∈ List.filter (fun x => negb (contains (f x) (f <$> sel))) xs
                 <-> x ∈ xs /\ f x ∉ f <$> sel).
  { intros x. unfold contains. by rewrite elem_of_filter_b, negb_true_iff, bool_decide_eq_false. }
  apply NoDup_Permutation; [|done|].
  - apply NoDup_app. split; [done|]. split.
    + intros v Hv (x & -> & [_ Hx]%Hmem)%list_elem_of_fmap. done.
    + apply NoDup_fmap_2_strong.
      * intros x y [Hx _]%Hmem [Hy _]%Hmem Hxy. exact (NoDup_fmap_eq f xs x y Hnd Hx Hy Hxy).
      * eapply sublist_NoDup; [|apply filter_sublist]. by eapply NoDup_fmap_1.
  - intros v. rewrite elem_of_app, !list_elem_of_fmap. setoid_rewrite Hmem. split.
    + intros [(x & -> & Hx)|(x & -> & [Hx _])]; eauto.
    + intros (x & -> & Hx). destruct (decide (f x ∈ f <$> sel)) as [Hf|Hf]; [left|right; eauto].
      by apply list_elem_of_fmap in Hf.
Qed.

Lemma max_rtt_bound workers w : w ∈ workers -> w.(WorkerProfile_rtt_ms) <= max_rtt workers.
Proof.
  unfold max_rtt. generalize 0 as acc.
  assert (Hacc : forall ws acc, acc <= foldl N.max acc (WorkerProfile_rtt_ms <$> ws)).
  { induction ws as [|w' ws IH]; intros acc; cbn; [lia|]. etransitivity; [|apply IH]. lia. }
  induction workers as [|w' ws IH]; intros acc; [by intros ?%not_elem_of_nil|]. cbn.
  intros [->|Hw]%elem_of_cons; [|by apply IH]. etransitivity; [|apply Hacc]. lia.
Qed.

(** What a decision promises of the workers it selected. *)
Record placement_ok (required : N) (locality : DataLocality) (requested : N)
    (workers selected : list WorkerProfile) (d : TrainingPlanDecision) : Prop := {
  placement_selected : d.(TrainingPlanDecision_selected_workers) = WorkerProfile_node <$> selected;
  placement_divides : d.(TrainingPlanDecision_selected_workers)
    ++ d.(TrainingPlanDecision_rejected_workers) ≡ₚ WorkerProfile_node <$> workers;
  placement_size : 2 <= len selected <= N.max requested 2;
  placement_eligible w : w ∈ selected -> w ∈ workers /\ worker_eligible required locality w = true;
  placement_best w w' : w ∈ selected -> w' ∈ workers -> w' ∉ selected ->
    worker_eligible required locality w' = true ->
    leb (placement_key w) (placement_key w') = true /\ len selected = N.max requested 2;
  placement_strategy w : w ∈ selected ->
    d.(TrainingPlanDecision_strategy) = TrainingStrategy_SynchronousDataParallel ->
    w.(WorkerProfile_rtt_ms) <= 200
    /\ SFleb f32_four_fifths (f32_value w.(WorkerProfile_reliability)) = true;
  placement_timeout w : w ∈ selected ->
    N.min (4 * w.(WorkerProfile_rtt_ms)) u64_max
    <= d.(TrainingPlanDecision_synchronization_timeout_ms);
  placement_replicas : 2 <= d.(TrainingPlanDecision_checkpoint_replicas) <= 3
}.

Lemma eligible_not_nan required locality w :
  worker_eligible required locality w = true -> f32_is_nan (f32_value w.(WorkerProfile_reliability)) = false.
Proof.
  unfold worker_eligible. intros He. breflect_in He. by destruct (f32_value _).
Qed.

Lemma synchronous_workers required locality sel w :
  (forall w, w ∈ sel -> worker_eligible required locality w = true) ->
  SFleb f32_four_fifths (min_reliability sel) = true -> w ∈ sel ->
  SFleb f32_four_fifths (f32_value w.(WorkerProfile_reliability)) = true.
Proof.
  intros Hel Hm Hw. apply f32_min_fold in Hm as [_ Hall]; [|done|done|].
  - rewrite Forall_forall in Hall. apply Hall, list_elem_of_fmap. by exists w.
  - apply Forall_forall. intros v (w' & -> & Hw')%list_elem_of_fmap.
    eapply eligible_not_nan. by apply Hel.
Qed.

(** A placement is sound: it selects at least two and at most the requested workers, all
    of them able to hold the job and, for local-only data, holding the data; it passes over an
    able worker only for better ones when it has enough; selected and rejected divide the
    candidates; and it plans synchronous rounds only on workers that are all fast and reliable,
    with a timeout beyond four of their round trips. *)
Theorem plan_training_sound model_bytes locality requested workers d :
  NoDup (WorkerProfile_node <$> workers) ->
  plan_training model_bytes locality requested workers = Ok d ->
  exists selected, placement_ok (sat_mul u64_max model_bytes 2) locality requested workers selected d.
Proof.
  intros Hnd Hp. unfold plan_training in Hp. inv_ok Hp. revert Hp.
  set (eligible := List.filter _ workers) in *. rewrite truncate_take in *.
  set (n := N.to_nat (N.max requested 2)) in *.
  set (sel := take n (sort_by_key placement_key eligible)) in *. intros [= <-]. exists sel.
  assert (Hsub : forall w, w ∈ sel -> w ∈ workers /\ worker_eligible (sat_mul u64_max model_bytes 2) locality w = true).
  { intros w Hw%subseteq_take%elem_of_sort_by_key. by apply elem_of_filter_b in Hw. }
  assert (Hsel : NoDup sel).
  { eapply sublist_NoDup; [|apply sublist_take]. rewrite sort_by_key_perm.
    eapply sublist_NoDup; [|apply filter_sublist]. by eapply NoDup_fmap_1. }
  assert (Hlen : len sel <= N.max requested 2).
  { unfold len, sel, n. rewrite length_take. lia. }
  split; cbn.
  - done.
  - apply selected_rejected; [done|done|]. intros w Hw. by apply Hsub.
  - lia.
  - apply Hsub.
  - intros w w' Hw Hw' Hn Hel.
    destruct (sorted_take_best placement_key n eligible w w') as [Hb Hl];
      [done|by apply elem_of_filter_b|done|].
    split; [done|]. unfold len, sel. rewrite Hl. unfold n. lia.
  - intros w Hw Hs. pose proof (max_rtt_bound sel w Hw).
    destruct (_ && _) eqn:Hsync in Hs; [|done]. breflect_in Hsync.
    split; [lia|]. eapply synchronous_workers; [|done|done]. intros w' Hw'. by apply Hsub.
  - intros w Hw. pose proof (max_rtt_bound sel w Hw). unfold sat_mul. destruct (_ && _); lia.
  - lia.
Qed.

(** ** A concrete placement *)

Definition tp_worker (i rtt reliability : N) : WorkerProfile :=
  mkWorkerProfile (mkNodeId (replicate 32 i)) HardwareKind_Cpu 4096 4 rtt 100 reliability true [].

(** Reliabilities 0.95, 0.9, 0.3 and 0.99. *)
Definition tp_workers : list WorkerProfile :=
  [tp_worker 1 20 0x3F733333; tp_worker 2 10 0x3F666666; tp_worker 3 5 0x3E99999A;
   tp_worker 4 20 0x3F7D70A4].

Lemma plan_training_sound_witness :
  exists d selected, plan_training 1000 DataLocality_LocalOnly 2 tp_workers = Ok d
    /\ d.(TrainingPlanDecision_selected_workers) = [mkNodeId (replicate 32 2); mkNodeId (replicate 32 4)]
    /\ placement_ok 2000 DataLocality_LocalOnly 2 tp_workers selected d.
Proof.
  eexists. edestruct (plan_training_sound 1000 DataLocality_LocalOnly 2 tp_workers) as [selected Hok];
    [by apply (bool_decide_unpack _); vm_compute | vm_compute; reflexivity |].
  exists selected. split; [vm_compute; reflexivity|]. split; [reflexivity | exact Hok].
Defined.
