(* ===== verification/Planner.v ===== *)
(** * The training-fabric planner

    Models the planning half of [crates/intelligence/src/training_fabric.rs]: [plan_v4] from a
    request to a plan (checks, selection by score, topology groups, shards, backend
    assignments, strategy support, plan hash), [rebalance_shard], [reconcile_branches] and
    [communication_estimate]. Aggregation, the other half, is in [Aggregation].

    Scores are single-precision floats ([Float32]). The sums of link qualities stay far below
    64 bits (at most 4096 links of at most 4.3e12), so they are plain sums. The plan's encoding
    for its hash is the operation of the class [PlanPostcard]. *)

From Stdlib Require Import Ascii String ZArith NArith Lia SpecFloat.
From stdpp Require Import base tactics sets strings numbers list.
From S2P Require Import Prelude OrdMap Types Validation Aggregation Compute Float32 TrainingPlan.

Local Open Scope N_scope.
Local Open Scope rust_scope.

Definition MAX_PLANNER_WORKERS : N := 64.

Definition MAX_GROUP_SIZE : N := 4.

Definition MAX_TENSOR_DEGREE : N := 8.

Definition MAX_PIPELINE_STAGES : N := 16.

Record V4PlannerObjective := mkV4PlannerObjective {
  V4PlannerObjective_throughput_weight : N;
  V4PlannerObjective_bandwidth_weight : N;
  V4PlannerObjective_fault_tolerance_weight : N;
  V4PlannerObjective_locality_weight : N
}.

Record V4TopologyLink := mkV4TopologyLink {
  V4TopologyLink_from : NodeId;
  V4TopologyLink_to : NodeId;
  V4TopologyLink_rtt_ms : N;
  V4TopologyLink_bandwidth_mbps : N;
  V4TopologyLink_reliability : f32
}.

Record V4PlanRequest := mkV4PlanRequest {
  V4PlanRequest_job_id : JobId;
  V4PlanRequest_proposer : NodeId;
  V4PlanRequest_model_bytes : N;
  V4PlanRequest_requested_workers : N;
  V4PlanRequest_strategy : V4ParallelismStrategy;
  V4PlanRequest_tensor_degree : N;
  V4PlanRequest_pipeline_stages : N;
  V4PlanRequest_local_steps : N;
  V4PlanRequest_max_staleness : N;
  V4PlanRequest_checkpoint_replication : N;
  V4PlanRequest_data_locality : DataLocality;
  V4PlanRequest_workers : list WorkerProfile;
  V4PlanRequest_links : list V4TopologyLink;
  V4PlanRequest_objective : V4PlannerObjective;
  V4PlanRequest_backend_requirements : list ComputeRequirements
}.

Record V4PlanDecision := mkV4PlanDecision {
  V4PlanDecision_plan : V4TrainingPlan;
  V4PlanDecision_selected_workers : list NodeId;
  V4PlanDecision_rejected_workers : list NodeId;
  V4PlanDecision_explanations : list String.string
}.

Record V4RebalanceDecision := mkV4RebalanceDecision {
  V4RebalanceDecision_shard_id : N;
  V4RebalanceDecision_from : NodeId;
  V4RebalanceDecision_to : NodeId;
  V4RebalanceDecision_accepted : bool;
  V4RebalanceDecision_reason : String.string;
  V4RebalanceDecision_next_ownership_generation : N
}.

Record V4BranchDecision := mkV4BranchDecision {
  V4BranchDecision_accepted : bool;
  V4BranchDecision_branch : option ArtifactId;
  V4BranchDecision_value : option Z;
  V4BranchDecision_reason : String.string
}.

Record V4CommunicationEstimate := mkV4CommunicationEstimate {
  V4CommunicationEstimate_parameter_count : N;
  V4CommunicationEstimate_workers : N;
  V4CommunicationEstimate_groups : N;
  V4CommunicationEstimate_precision_bytes : N;
  V4CommunicationEstimate_tensor_degree : N;
  V4CommunicationEstimate_pipeline_stages : N;
  V4CommunicationEstimate_model_bytes : N;
  V4CommunicationEstimate_optimizer_bytes : N;
  V4CommunicationEstimate_activation_bytes_per_microbatch : N;
  V4CommunicationEstimate_local_update_bytes_per_window : N;
  V4CommunicationEstimate_cross_group_bytes_per_window : N;
  V4CommunicationEstimate_checkpoint_bytes : N;
  V4CommunicationEstimate_notes : String.string
}.

(** ** Scores *)

Definition worker_score (worker : WorkerProfile) (objective : V4PlannerObjective) : spec_float :=
  let weight n := f32_of_N (N.max n 1) in
  let throughput := f32_of_N (N.max worker.(WorkerProfile_throughput_mbps) 1) in
  let latency := f32_div f32_1 (f32_of_N (N.max worker.(WorkerProfile_rtt_ms) 1)) in
  f32_add
    (f32_add
       (f32_add
          (f32_mul throughput (weight objective.(V4PlannerObjective_throughput_weight)))
          (f32_mul (f32_mul latency (weight objective.(V4PlannerObjective_bandwidth_weight))) f32_100))
       (f32_mul (f32_value worker.(WorkerProfile_reliability))
          (weight objective.(V4PlannerObjective_fault_tolerance_weight))))
    (f32_mul (f32_of_N (if worker.(WorkerProfile_dataset_available) then 1 else 0))
       (weight objective.(V4PlannerObjective_locality_weight))).

(** The quality of one link, in both scores. *)
Definition link_value (link : V4TopologyLink) : N :=
  let reliability_permille :=
    f32_round_to u64_max (f32_mul (f32_value link.(V4TopologyLink_reliability)) f32_1000) in
  sat_mul u64_max link.(V4TopologyLink_bandwidth_mbps) reliability_permille
  / N.max link.(V4TopologyLink_rtt_ms) 1.

Definition sum_N (values : list N) : N := foldl N.add 0 values.

Definition topology_score (node : NodeId) (links : list V4TopologyLink) : N :=
  sum_N (link_value <$>
    List.filter (fun link => (link.(V4TopologyLink_from) == node) || (link.(V4TopologyLink_to) == node))
      links).

Definition link_quality (left right : NodeId) (links : list V4TopologyLink) : N :=
  match List.find (fun link =>
          ((link.(V4TopologyLink_from) == left) && (link.(V4TopologyLink_to) == right))
          || ((link.(V4TopologyLink_from) == right) && (link.(V4TopologyLink_to) == left))) links with
  | Some link => link_value link
  | None => 0
  end.

(** ** Groups *)

Definition group_quality (members : list NodeId) (links : list V4TopologyLink) (node : NodeId) : N :=
  sum_N ((fun member => link_quality member node links) <$> members).

(** The inner loop of [topology_groups]: the best connected node joins, the smallest among
    equals. It runs at most [MAX_GROUP_SIZE] times. *)
Fixpoint grow_group (fuel : nat) (links : list V4TopologyLink) (members remaining : list NodeId)
    : list NodeId * list NodeId :=
  match fuel with
  | O => (members, remaining)
  | S fuel =>
      if (len members <? MAX_GROUP_SIZE) && negb (is_empty remaining) then
        let candidate := max_by_key
          (fun entry => (group_quality members links entry.2, mkReverse entry.2))
          (enumerate remaining) in
        let candidate_index := match candidate with Some (index, _) => index | None => 0%nat end in
        match remaining !! candidate_index with
        | Some node => grow_group fuel links (members ++ [node]) (remove_at candidate_index remaining)
        | None => (members, remaining)
        end
      else (members, remaining)
  end.

Fixpoint topology_groups_loop (fuel : nat) (links : list V4TopologyLink) (remaining : list NodeId)
    : list (list NodeId) :=
  match fuel, remaining with
  | S fuel, first :: rest =>
      let (members, remaining) := grow_group (N.to_nat MAX_GROUP_SIZE) links [first] rest in
      members :: topology_groups_loop fuel links remaining
  | _, _ => []
  end.

Definition topology_groups (selected : list NodeId) (links : list V4TopologyLink)
    : list (list NodeId) :=
  topology_groups_loop (length selected) links selected.

(** The aggregation groups of a plan: the first member aggregates, and every group but the
    first reports to the first worker. *)
Definition aggregation_groups (selected : list NodeId) (links : list V4TopologyLink)
    : list V4AggregationGroup :=
  (fun entry : nat * list NodeId =>
     {| V4AggregationGroup_group_id := trunc u16_max (N.of_nat entry.1);
        V4AggregationGroup_members := entry.2;
        V4AggregationGroup_aggregator := default NodeId_default (head entry.2);
        V4AggregationGroup_parent :=
          if (0 <? entry.1)%nat then Some (default NodeId_default (head selected)) else None |})
  <$> enumerate (topology_groups selected links).

(** ** Capabilities *)

Definition strategy_support (strategy : V4ParallelismStrategy) (tensor_degree pipeline_stages : N)
    : V4SupportLevel :=
  match strategy with
  | V4ParallelismStrategy_LocalSgd => V4SupportLevel_Supported
  | V4ParallelismStrategy_TensorParallel =>
      if tensor_degree =? 2 then V4SupportLevel_Supported else V4SupportLevel_Unsupported
  | V4ParallelismStrategy_PipelineParallel =>
      if pipeline_stages =? 2 then V4SupportLevel_Supported else V4SupportLevel_Unsupported
  | V4ParallelismStrategy_Hybrid =>
      if (tensor_degree =? 2) && (pipeline_stages =? 2) then V4SupportLevel_Experimental
      else V4SupportLevel_Unsupported
  end.

(** [{:?}] of the hardware. *)
Definition HardwareKind_debug (hardware : HardwareKind) : String.string :=
  match hardware with
  | HardwareKind_Cpu => "Cpu"
  | HardwareKind_AppleSilicon => "AppleSilicon"
  | HardwareKind_AmdGpu => "AmdGpu"
  | HardwareKind_NvidiaConsumer => "NvidiaConsumer"
  | HardwareKind_A100 => "A100"
  | HardwareKind_H100 => "H100"
  | HardwareKind_B200 => "B200"
  | HardwareKind_Unknown => "Unknown"
  end.

(** [{:?}] of a task kind. *)
Definition ComputeTaskKind_debug (kind : ComputeTaskKind) : String.string :=
  match kind with
  | ComputeTaskKind_TensorForward => "TensorForward"
  | ComputeTaskKind_TensorBackward => "TensorBackward"
  | ComputeTaskKind_PipelineForward => "PipelineForward"
  | ComputeTaskKind_PipelineBackward => "PipelineBackward"
  | ComputeTaskKind_TrainingStep => "TrainingStep"
  | ComputeTaskKind_CapabilityChallenge => "CapabilityChallenge"
  end.

Definition accelerator_family (hardware : HardwareKind) : V4AcceleratorFamily :=
  match hardware with
  | HardwareKind_Cpu | HardwareKind_Unknown => V4AcceleratorFamily_Cpu
  | HardwareKind_AppleSilicon => V4AcceleratorFamily_Metal
  | HardwareKind_AmdGpu => V4AcceleratorFamily_Rocm
  | HardwareKind_NvidiaConsumer | HardwareKind_A100 | HardwareKind_H100 | HardwareKind_B200 =>
      V4AcceleratorFamily_Cuda
  end.

Definition worker_capability (worker : WorkerProfile) : V4WorkerCapability :=
  {| V4WorkerCapability_node := worker.(WorkerProfile_node);
     V4WorkerCapability_accelerator :=
       {| V4AcceleratorCapability_family := accelerator_family worker.(WorkerProfile_hardware);
          V4AcceleratorCapability_device_model := HardwareKind_debug worker.(WorkerProfile_hardware);
          V4AcceleratorCapability_device_count := 1;
          V4AcceleratorCapability_memory_bytes := worker.(WorkerProfile_memory_bytes);
          V4AcceleratorCapability_formats := [V4NumericalFormat_I8; V4NumericalFormat_F32];
          V4AcceleratorCapability_runtime := "reference";
          V4AcceleratorCapability_runtime_version := "v4";
          V4AcceleratorCapability_physical_verified :=
            worker.(WorkerProfile_hardware) == HardwareKind_Cpu |};
     V4WorkerCapability_memory_bytes := worker.(WorkerProfile_memory_bytes);
     V4WorkerCapability_compute_units := worker.(WorkerProfile_compute_units);
     V4WorkerCapability_rtt_ms := worker.(WorkerProfile_rtt_ms);
     V4WorkerCapability_bandwidth_mbps := worker.(WorkerProfile_throughput_mbps);
     V4WorkerCapability_reliability_permille :=
       f32_round_to u16_max
         (f32_mul (f32_clamp f32_0 f32_1 (f32_value worker.(WorkerProfile_reliability))) f32_1000);
     V4WorkerCapability_backends :=
       if is_empty worker.(WorkerProfile_backends)
       then [reference_backend_capability BackendKind_Cpu worker.(WorkerProfile_memory_bytes) true]
       else worker.(WorkerProfile_backends) |}.

(** [worker.backends.iter().any(|b| backend_satisfies_requirements(b, requirement))] *)
Definition worker_satisfies (requirement : ComputeRequirements) (worker : WorkerProfile) : bool :=
  existsb (fun backend => backend_satisfies_requirements backend requirement)
    (worker_capability worker).(V4WorkerCapability_backends).

(** ** The plan *)

(** [postcard::to_allocvec] of a plan; [None] is a serialization error. *)
Class PlanPostcard := plan_bytes : V4TrainingPlan -> option (list N).

Definition with_plan_hash (plan : V4TrainingPlan) (hash : ArtifactId) : V4TrainingPlan :=
  {| V4TrainingPlan_job_id := plan.(V4TrainingPlan_job_id);
     V4TrainingPlan_proposer := plan.(V4TrainingPlan_proposer);
     V4TrainingPlan_plan_generation := plan.(V4TrainingPlan_plan_generation);
     V4TrainingPlan_model_generation := plan.(V4TrainingPlan_model_generation);
     V4TrainingPlan_training_epoch := plan.(V4TrainingPlan_training_epoch);
     V4TrainingPlan_membership_epoch := plan.(V4TrainingPlan_membership_epoch);
     V4TrainingPlan_coordination_term := plan.(V4TrainingPlan_coordination_term);
     V4TrainingPlan_branch := plan.(V4TrainingPlan_branch);
     V4TrainingPlan_strategy := plan.(V4TrainingPlan_strategy);
     V4TrainingPlan_support := plan.(V4TrainingPlan_support);
     V4TrainingPlan_workers := plan.(V4TrainingPlan_workers);
     V4TrainingPlan_groups := plan.(V4TrainingPlan_groups);
     V4TrainingPlan_shards := plan.(V4TrainingPlan_shards);
     V4TrainingPlan_tensor_degree := plan.(V4TrainingPlan_tensor_degree);
     V4TrainingPlan_pipeline_stages := plan.(V4TrainingPlan_pipeline_stages);
     V4TrainingPlan_local_steps := plan.(V4TrainingPlan_local_steps);
     V4TrainingPlan_max_staleness := plan.(V4TrainingPlan_max_staleness);
     V4TrainingPlan_checkpoint_replication := plan.(V4TrainingPlan_checkpoint_replication);
     V4TrainingPlan_data_locality := plan.(V4TrainingPlan_data_locality);
     V4TrainingPlan_accelerator := plan.(V4TrainingPlan_accelerator);
     V4TrainingPlan_worker_capabilities := plan.(V4TrainingPlan_worker_capabilities);
     V4TrainingPlan_rationale := plan.(V4TrainingPlan_rationale);
     V4TrainingPlan_plan_hash := hash;
     V4TrainingPlan_parent_plan_hash := plan.(V4TrainingPlan_parent_plan_hash);
     V4TrainingPlan_compute_requirements := plan.(V4TrainingPlan_compute_requirements);
     V4TrainingPlan_backend_assignments := plan.(V4TrainingPlan_backend_assignments) |}.

(** [eligible.sort_by(..)]: a stable insertion by a comparison. *)
Fixpoint insert_with {A} (compare : A -> A -> comparison) (x : A) (xs : list A) : list A :=
  match xs with
  | [] => [x]
  | y :: ys => match compare x y with Gt => y :: insert_with compare x ys | _ => x :: y :: ys end
  end.

Fixpoint sort_with {A} (compare : A -> A -> comparison) (xs : list A) : list A :=
  match xs with
  | [] => []
  | x :: xs => insert_with compare x (sort_with compare xs)
  end.

(** The closure of the sort: higher score, better connected, smaller identity first. *)
Definition compare_workers (objective : V4PlannerObjective) (links : list V4TopologyLink)
    (left right : WorkerProfile) : comparison :=
  then_with
    (then_with
       (default Eq (SFcompare (worker_score right objective) (worker_score left objective)))
       (cmp (topology_score right.(WorkerProfile_node) links)
          (topology_score left.(WorkerProfile_node) links)))
    (cmp left.(WorkerProfile_node) right.(WorkerProfile_node)).

Definition invalid_profile (worker : WorkerProfile) : bool :=
  let reliability := f32_value worker.(WorkerProfile_reliability) in
  negb (f32_is_finite reliability) || negb (f32_in_unit reliability)
  || (worker.(WorkerProfile_memory_bytes) =? 0) || (worker.(WorkerProfile_compute_units) =? 0).

Definition invalid_link (worker_ids : list NodeId) (link : V4TopologyLink) : bool :=
  let reliability := f32_value link.(V4TopologyLink_reliability) in
  (link.(V4TopologyLink_from) == link.(V4TopologyLink_to))
  || negb (contains link.(V4TopologyLink_from) worker_ids)
  || negb (contains link.(V4TopologyLink_to) worker_ids)
  || (link.(V4TopologyLink_rtt_ms) =? 0) || (link.(V4TopologyLink_bandwidth_mbps) =? 0)
  || negb (f32_is_finite reliability) || negb (f32_in_unit reliability).

(** The checks of the request, up to the advertised capabilities. *)
Definition check_request (request : V4PlanRequest) : result unit V4PlannerError :=
  let workers := request.(V4PlanRequest_workers) in
  let worker_ids := WorkerProfile_node <$> workers in
  fail_if (request.(V4PlanRequest_model_bytes) =? 0) V4PlannerError_InvalidModelSize ;?
  fail_if (negb ((2 <=? request.(V4PlanRequest_requested_workers))
                 && (request.(V4PlanRequest_requested_workers) <=? MAX_PLANNER_WORKERS)))
    (V4PlannerError_InvalidWorkerCount MAX_PLANNER_WORKERS) ;?
  fail_if (MAX_TENSOR_DEGREE <? request.(V4PlanRequest_tensor_degree))
    V4PlannerError_InvalidTensorDegree ;?
  fail_if (MAX_PIPELINE_STAGES <? request.(V4PlanRequest_pipeline_stages))
    V4PlannerError_InvalidPipelineStages ;?
  fail_if (request.(V4PlanRequest_local_steps) =? 0) V4PlannerError_InvalidLocalSteps ;?
  fail_if ((request.(V4PlanRequest_checkpoint_replication) =? 0)
           || (16 <? request.(V4PlanRequest_checkpoint_replication)))
    V4PlannerError_InvalidReplication ;?
  fail_if (is_empty workers) V4PlannerError_InsufficientWorkers ;?
  fail_if (MAX_V5_REQUIREMENTS <? len request.(V4PlanRequest_backend_requirements))
    (V4PlannerError_UnsupportedBackendAssignment
       "backend requirement list exceeds the bounded planner limit") ;?
  fail_if (has_duplicates worker_ids || existsb invalid_profile workers)
    V4PlannerError_InvalidWorkerProfile ;?
  fail_if ((sat_mul usize_max MAX_PLANNER_WORKERS MAX_PLANNER_WORKERS
            <? len request.(V4PlanRequest_links))
           || existsb (invalid_link worker_ids) request.(V4PlanRequest_links))
    V4PlannerError_InvalidTopology ;?
  for_each (fun requirement =>
    fail_if (count (worker_satisfies requirement) workers =? 0)
      (V4PlannerError_UnsupportedBackendAssignment
         ("no advertised worker satisfies "
          ++ ComputeTaskKind_debug requirement.(ComputeRequirements_task_kind)
          ++ " / kernel " ++ requirement.(ComputeRequirements_kernel_id))%string))
    request.(V4PlanRequest_backend_requirements).

(** The memory a worker must have for its shard and the copy it may hold. *)
Definition shard_memory (request : V4PlanRequest) : N :=
  let requested := N.min request.(V4PlanRequest_requested_workers)
                     (len request.(V4PlanRequest_workers)) in
  sat_mul u64_max (div_ceil request.(V4PlanRequest_model_bytes) (N.max requested 2)) 2.

Definition eligible_workers (request : V4PlanRequest) : list WorkerProfile :=
  List.filter (worker_eligible (shard_memory request) request.(V4PlanRequest_data_locality))
    request.(V4PlanRequest_workers).

Definition cannot_execute (requirement : ComputeRequirements) : V4PlannerError :=
  V4PlannerError_UnsupportedBackendAssignment
    ("selected workers cannot execute kernel " ++ requirement.(ComputeRequirements_kernel_id))%string.

(** The selected workers, best first. *)
Definition select_workers (request : V4PlanRequest) : result (list WorkerProfile) V4PlannerError :=
  let eligible := eligible_workers request in
  fail_if (len eligible <? 2) V4PlannerError_InsufficientWorkers ;?
  let eligible := sort_with (compare_workers request.(V4PlanRequest_objective)
                               request.(V4PlanRequest_links)) eligible in
  let eligible := truncate request.(V4PlanRequest_requested_workers) eligible in
  fail_if (len eligible <? 2) V4PlannerError_InsufficientWorkers ;?
  for_each (fun requirement =>
    fail_if (negb (existsb (worker_satisfies requirement) eligible)) (cannot_execute requirement))
    request.(V4PlanRequest_backend_requirements) ;?
  Ok eligible.

(** The assignment of one requirement: the nearest selected worker that can run it. *)
Definition assign_backend (eligible : list WorkerProfile) (requirement : ComputeRequirements)
    : result BackendAssignment V4PlannerError :=
  let candidates := omap (fun worker =>
    backend ← List.find (fun backend => backend_satisfies_requirements backend requirement)
                (worker_capability worker).(V4WorkerCapability_backends);
    Some (worker, backend.(BackendCapabilities_kind))) eligible in
  let? candidate := ok_or
    (min_by_key (fun entry => (entry.1.(WorkerProfile_rtt_ms), entry.1.(WorkerProfile_node)))
       candidates)
    (cannot_execute requirement) in
  Ok {| BackendAssignment_task_kind := requirement.(ComputeRequirements_task_kind);
        BackendAssignment_worker := candidate.1.(WorkerProfile_node);
        BackendAssignment_backend := candidate.2;
        BackendAssignment_device_index := 0;
        BackendAssignment_requirements := requirement |}.

Definition explanation (request : V4PlanRequest) (worker : WorkerProfile) : String.string :=
  hex_encode (NodeId_0 worker.(WorkerProfile_node))
  ++ " selected: memory=" ++ decimal worker.(WorkerProfile_memory_bytes)
  ++ " >= shard_memory=" ++ decimal (shard_memory request)
  ++ ", hardware=" ++ HardwareKind_debug worker.(WorkerProfile_hardware)
  ++ ", RTT=" ++ decimal worker.(WorkerProfile_rtt_ms)
  ++ "ms, bandwidth=" ++ decimal worker.(WorkerProfile_throughput_mbps)
  ++ "Mbps, reliability=" ++ two_places (f32_value worker.(WorkerProfile_reliability))
  ++ ", topology_score="
  ++ decimal (topology_score worker.(WorkerProfile_node) request.(V4PlanRequest_links)).

Section Plan.
Context `{Blake3} `{PlanPostcard}.

Definition hash_plan (plan : V4TrainingPlan) : ArtifactId :=
  let unsigned := with_plan_hash plan (mkArtifactId (replicate 32 0)) in
  let encoded := default (as_bytes "intelligence-network:v4-plan:serialization-error")
                   (plan_bytes unsigned) in
  ArtifactId_from_bytes_hashed encoded.

(** One shard per selected worker, replicated on the first other one. *)
Definition plan_shard (request : V4PlanRequest) (selected : list NodeId) (entry : nat * NodeId)
    : V4ShardOwnership :=
  let index := N.of_nat entry.1 in
  let owner := entry.2 in
  let replica := List.find (fun candidate => candidate != owner) selected in
  let state_bytes := div_ceil request.(V4PlanRequest_model_bytes) (len selected) in
  {| V4ShardOwnership_shard_id := trunc u16_max index;
     V4ShardOwnership_model_generation := 1;
     V4ShardOwnership_owners := [owner];
     V4ShardOwnership_replicas := match replica with Some replica => [replica] | None => [] end;
     V4ShardOwnership_ownership_generation := 1;
     V4ShardOwnership_content_hash :=
       ArtifactId_from_bytes_hashed (as_bytes
         ("v4:" ++ hex_encode (JobId_0 request.(V4PlanRequest_job_id)) ++ ":" ++ decimal index
          ++ ":" ++ decimal request.(V4PlanRequest_model_bytes))%string);
     V4ShardOwnership_state_bytes := N.max state_bytes 1;
     V4ShardOwnership_memory_bytes := N.max (sat_mul u64_max state_bytes 2) 1;
     V4ShardOwnership_runtime_requirement := "reference.cpu.i64";
     V4ShardOwnership_lifecycle := V4ShardLifecycle_Active |}.

Definition rationale (request : V4PlanRequest) (selected : list NodeId) : String.string :=
  "selected " ++ decimal (len selected) ++ " workers with shard memory >= "
  ++ decimal (shard_memory request) ++ " bytes; groups use <= " ++ decimal MAX_GROUP_SIZE
  ++ " members; local SGD and bounded generation transitions avoid a global per-step barrier".

Definition unhashed_plan (request : V4PlanRequest) (eligible : list WorkerProfile)
    (backend_assignments : list BackendAssignment) (support : V4SupportLevel) : V4TrainingPlan :=
  let selected_workers := WorkerProfile_node <$> eligible in
  {| V4TrainingPlan_job_id := request.(V4PlanRequest_job_id);
     V4TrainingPlan_proposer := request.(V4PlanRequest_proposer);
     V4TrainingPlan_plan_generation := 1;
     V4TrainingPlan_model_generation := 1;
     V4TrainingPlan_training_epoch := 1;
     V4TrainingPlan_membership_epoch := 1;
     V4TrainingPlan_coordination_term := 1;
     V4TrainingPlan_branch := ArtifactId_from_bytes_hashed (as_bytes
       ("v4-branch:" ++ hex_encode (JobId_0 request.(V4PlanRequest_job_id)) ++ ":1")%string);
     V4TrainingPlan_strategy := request.(V4PlanRequest_strategy);
     V4TrainingPlan_support := support;
     V4TrainingPlan_workers := selected_workers;
     V4TrainingPlan_groups := aggregation_groups selected_workers request.(V4PlanRequest_links);
     V4TrainingPlan_shards := plan_shard request selected_workers <$> enumerate selected_workers;
     V4TrainingPlan_tensor_degree := request.(V4PlanRequest_tensor_degree);
     V4TrainingPlan_pipeline_stages := request.(V4PlanRequest_pipeline_stages);
     V4TrainingPlan_local_steps := request.(V4PlanRequest_local_steps);
     V4TrainingPlan_max_staleness := request.(V4PlanRequest_max_staleness);
     V4TrainingPlan_checkpoint_replication :=
       N.min request.(V4PlanRequest_checkpoint_replication) (trunc u16_max (len selected_workers));
     V4TrainingPlan_data_locality := request.(V4PlanRequest_data_locality);
     V4TrainingPlan_accelerator := None;
     V4TrainingPlan_worker_capabilities := worker_capability <$> eligible;
     V4TrainingPlan_rationale := rationale request selected_workers;
     V4TrainingPlan_plan_hash := mkArtifactId (replicate 32 0);
     V4TrainingPlan_parent_plan_hash := None;
     V4TrainingPlan_compute_requirements := request.(V4PlanRequest_backend_requirements);
     V4TrainingPlan_backend_assignments := backend_assignments |}.

Definition plan_v4 (request : V4PlanRequest) : result V4PlanDecision V4PlannerError :=
  check_request request ;?
  let? eligible := select_workers request in
  let selected_workers := WorkerProfile_node <$> eligible in
  let rejected_workers := WorkerProfile_node <$>
    List.filter (fun worker => negb (contains worker.(WorkerProfile_node) selected_workers))
      request.(V4PlanRequest_workers) in
  let? backend_assignments :=
    try_map (assign_backend eligible) request.(V4PlanRequest_backend_requirements) in
  let support := strategy_support request.(V4PlanRequest_strategy)
                   request.(V4PlanRequest_tensor_degree) request.(V4PlanRequest_pipeline_stages) in
  fail_if (support == V4SupportLevel_Unsupported) V4PlannerError_UnsupportedStrategy ;?
  let plan := unhashed_plan request eligible backend_assignments support in
  Ok {| V4PlanDecision_plan := with_plan_hash plan (hash_plan plan);
        V4PlanDecision_selected_workers := selected_workers;
        V4PlanDecision_rejected_workers := rejected_workers;
        V4PlanDecision_explanations := explanation request <$> eligible |}.

(** ** Reconciliation *)

Definition compatible_branches (left right : V4TrainingBranch) : bool :=
  (left.(V4TrainingBranch_job_id) == right.(V4TrainingBranch_job_id))
  && (left.(V4TrainingBranch_parent_generation) =? right.(V4TrainingBranch_parent_generation))
  && (left.(V4TrainingBranch_model_generation) =? right.(V4TrainingBranch_model_generation))
  && (left.(V4TrainingBranch_optimizer_generation) =? right.(V4TrainingBranch_optimizer_generation))
  && (left.(V4TrainingBranch_dataset_progress) =? right.(V4TrainingBranch_dataset_progress))
  && (left.(V4TrainingBranch_plan_generation) =? right.(V4TrainingBranch_plan_generation))
  && (left.(V4TrainingBranch_branch) != right.(V4TrainingBranch_branch)).

Definition reconcile_branches (left right : V4TrainingBranch) (policy : V4ReconciliationPolicy)
    (left_value right_value : Z) : result V4BranchDecision V4PlannerError :=
  if negb (compatible_branches left right) then
    match policy with
    | V4ReconciliationPolicy_AbortBranch | V4ReconciliationPolicy_ManualOperatorRequired
    | V4ReconciliationPolicy_SelectBranch =>
        Ok (mkV4BranchDecision false None None
              "incompatible branch lineage requires explicit operator policy")
    | _ => Err V4PlannerError_IncompatibleBranches
    end
  else
    match policy with
    | V4ReconciliationPolicy_AverageCompatibleState
    | V4ReconciliationPolicy_MergeLocalSgdState =>
        let merged := wrap_i64 (Z.quot (left_value + right_value) 2) in
        let branch := ArtifactId_from_bytes_hashed (as_bytes
          ("v4-merge:" ++ hex_encode (ArtifactId_0 left.(V4TrainingBranch_branch)) ++ ":"
           ++ hex_encode (ArtifactId_0 right.(V4TrainingBranch_branch)) ++ ":"
           ++ decimal left.(V4TrainingBranch_parent_generation))%string) in
        Ok (mkV4BranchDecision true (Some branch) (Some merged)
              "compatible local-SGD branches with equal data progress merged from a common generation")
    | V4ReconciliationPolicy_SelectBranch =>
        Ok (mkV4BranchDecision true (Some left.(V4TrainingBranch_branch)) (Some left_value)
              "operator-selected branch retained; the alternate branch was not merged")
    | V4ReconciliationPolicy_AbortBranch | V4ReconciliationPolicy_ManualOperatorRequired =>
        Ok (mkV4BranchDecision false None None
              "policy does not permit automatic branch reconciliation")
    end.
End Plan.

(** ** Rebalancing *)

Definition rebalance_shard (shard : V4ShardOwnership) (candidate : WorkerProfile) (now_ms : N)
    (last_migration_ms : option N) (cooldown_ms : N)
    (minimum_gain source_score candidate_score : f32) : V4RebalanceDecision :=
  let node := candidate.(WorkerProfile_node) in
  let reason :=
    if shard.(V4ShardOwnership_lifecycle) != V4ShardLifecycle_Active
    then "shard is not active"%string
    else if is_empty shard.(V4ShardOwnership_owners)
    then "active shard has no current owner"%string
    else if contains node shard.(V4ShardOwnership_owners)
            || contains node shard.(V4ShardOwnership_replicas)
    then "candidate already stores the shard"%string
    else if candidate.(WorkerProfile_memory_bytes) <? shard.(V4ShardOwnership_memory_bytes)
    then "candidate cannot fit shard memory requirement"%string
    else if match last_migration_ms with
            | Some last => sat_sub now_ms last <? cooldown_ms
            | None => false
            end
    then "migration cooldown has not elapsed"%string
    else if SFltb (f32_sub (f32_value source_score) (f32_value candidate_score))
              (f32_value minimum_gain)
    then "candidate does not provide the configured hysteresis gain"%string
    else EmptyString in
  {| V4RebalanceDecision_shard_id := shard.(V4ShardOwnership_shard_id);
     V4RebalanceDecision_from := default NodeId_default (head shard.(V4ShardOwnership_owners));
     V4RebalanceDecision_to := node;
     V4RebalanceDecision_accepted := reason == EmptyString;
     V4RebalanceDecision_reason :=
       if reason == EmptyString
       then "candidate improves placement under current topology and policy"%string else reason;
     V4RebalanceDecision_next_ownership_generation :=
       sat_add u64_max shard.(V4ShardOwnership_ownership_generation) 1 |}.

(** ** Communication *)

Definition communication_estimate (parameter_count workers groups precision_bytes tensor_degree
    pipeline_stages : N) : V4CommunicationEstimate :=
  let workers := N.max workers 1 in
  let groups := N.max 1 (N.min groups workers) in
  let precision := N.max precision_bytes 1 in
  let model_bytes := sat_mul u64_max parameter_count precision in
  let optimizer_bytes := sat_mul u64_max model_bytes 2 in
  {| V4CommunicationEstimate_parameter_count := parameter_count;
     V4CommunicationEstimate_workers := workers;
     V4CommunicationEstimate_groups := groups;
     V4CommunicationEstimate_precision_bytes := precision_bytes;
     V4CommunicationEstimate_tensor_degree := tensor_degree;
     V4CommunicationEstimate_pipeline_stages := pipeline_stages;
     V4CommunicationEstimate_model_bytes := model_bytes;
     V4CommunicationEstimate_optimizer_bytes := optimizer_bytes;
     V4CommunicationEstimate_activation_bytes_per_microbatch :=
       sat_mul u64_max (parameter_count / N.max pipeline_stages 1) precision;
     V4CommunicationEstimate_local_update_bytes_per_window := N.max (model_bytes / workers) 1;
     V4CommunicationEstimate_cross_group_bytes_per_window :=
       N.max (sat_mul u64_max model_bytes (sat_sub groups 1) / groups) 1;
     V4CommunicationEstimate_checkpoint_bytes := sat_add u64_max model_bytes optimizer_bytes;
     V4CommunicationEstimate_notes := "modeled byte counts; no tensors are allocated" |}.
