(* ===== verification/PlannerFacts.v ===== *)
(** * Facts about the planner

    The topology groups of a plan divide the selected workers into groups of at most four; a
    plan passes the protocol's validation, under the conditions the planner does not check
    itself; selection divides the candidates; branches are reconciled only when their lineage
    agrees, and a shard moves only to a worker that can take it. *)

From Stdlib Require Import Ascii String ZArith NArith Lia SpecFloat.
From stdpp Require Import base tactics sets strings numbers list.
From S2P Require Import Prelude OrdMap Types Validation ValidationFacts Aggregation Compute Float32 TrainingPlan Planner.

Local Open Scope N_scope.
Local Open Scope rust_scope.

(** ** Topology groups *)
Lemma NoDup_concat_elem {A} (xss : list (list A)) xs : NoDup (concat xss) -> xs ∈ xss -> NoDup xs.
Proof.
  induction xss as [|ys yss IH]; cbn; [by intros _ ?%not_elem_of_nil|].
  intros (Hy & _ & Hys)%NoDup_app [->|Hx]%elem_of_cons; auto.
Qed.

Lemma elem_of_enumerate {A} (xs : list A) i x : (i, x) ∈ enumerate xs <-> xs !! i = Some x.
Proof.
  unfold enumerate. rewrite list_elem_of_lookup. setoid_rewrite list_lookup_imap_Some. split.
  - by intros (j & y & Hj & [= -> ->]).
  - intros Hx. by exists i, x.
Qed.

Lemma remove_at_perm {A} i (xs : list A) x : xs !! i = Some x -> x :: remove_at i xs ≡ₚ xs.
Proof. intros Hx. unfold remove_at. rewrite Permutation_middle, take_drop_middle by done. done. Qed.

(** Growing a group keeps its first members, moves the others over, and stops at four. *)
Lemma grow_group_spec links fuel members remaining members' remaining' :
  (4 <= fuel + length members)%nat -> (length members <= 4)%nat ->
  grow_group fuel links members remaining = (members', remaining') ->
  (exists joined, members' = members ++ joined) /\ members' ++ remaining' ≡ₚ members ++ remaining
  /\ (length members' <= 4)%nat /\ (length members' = 4%nat \/ remaining' = []).
Proof.
  revert members remaining. induction fuel as [|fuel IH]; intros members remaining Hf Hm; cbn [grow_group].
  { intros [= <- <-]. split; [by exists []; rewrite app_nil_r|]. split_and!; [done|done|left; lia]. }
  unfold MAX_GROUP_SIZE, len. destruct (_ <? 4) eqn:Hlt; cbn [andb]; breflect.
  2:{ intros [= <- <-]. split; [by exists []; rewrite app_nil_r|]. split_and!; [done|done|left; lia]. }
  destruct remaining as [|r rest]; cbn [is_empty negb].
  { intros [= <- <-]. split; [by exists []; rewrite app_nil_r|]. split_and!; [done|done|by right]. }
  set (remaining := r :: rest). destruct (max_by_key _ (enumerate remaining)) as [[i n]|] eqn:Hmax.
  2:{ apply max_by_key_None in Hmax. done. }
  apply max_by_key_Some in Hmax as [Hin _]. apply elem_of_enumerate in Hin. rewrite Hin. intros Hg.
  apply IH in Hg as ((joined & ->) & Hp & Hl & Hd); [|rewrite length_app; cbn; lia..].
  split; [exists ([n] ++ joined); by rewrite <- app_assoc|]. split_and!; [|done|done].
  rewrite Hp, <- app_assoc. f_equiv. by apply remove_at_perm.
Qed.

(** The groups of a list of workers: its first worker leads the first group, they are
    non-empty, hold at most four members, and all but the last are full. *)
Lemma topology_groups_loop_spec links fuel remaining :
  (length remaining <= fuel)%nat ->
  let groups := topology_groups_loop fuel links remaining in
  concat groups ≡ₚ remaining
  /\ Forall (fun g => g <> [] /\ (length g <= 4)%nat) groups
  /\ (4 * length groups <= length remaining + 3)%nat
  /\ (forall n ns, remaining = n :: ns -> exists g gs, groups = (n :: g) :: gs).
Proof.
  revert remaining. induction fuel as [|fuel IH]; intros [|first rest] Hf; cbn in *; try lia.
  1,2: split_and!; [done|constructor|lia|done].
  destruct (grow_group _ links [first] rest) as [members remaining] eqn:Hg.
  change (N.to_nat MAX_GROUP_SIZE) with 4%nat in Hg.
  apply grow_group_spec in Hg as ((joined & ->) & Hp & Hl & Hd); [|cbn; lia..].
  assert (Hlen : (length ([first] ++ joined) + length remaining = S (length rest))%nat).
  { rewrite <- length_app, Hp. done. }
  assert (Hr : (length remaining <= fuel)%nat) by (cbn in Hlen; lia).
  destruct (IH remaining Hr) as (IHp & IHall & IHlen & _). split_and!.
  - cbn. rewrite IHp. done.
  - constructor; [done|apply IHall].
  - cbn. destruct Hd as [Hd| ->]; [cbn in *; lia|].
    destruct fuel; cbn; lia.
  - intros n ns [= -> ->]. by eexists _, _.
Qed.

Lemma topology_groups_spec links selected :
  let groups := topology_groups selected links in
  concat groups ≡ₚ selected
  /\ Forall (fun g => g <> [] /\ (length g <= 4)%nat) groups
  /\ (4 * length groups <= length selected + 3)%nat
  /\ (forall n ns, selected = n :: ns -> exists g gs, groups = (n :: g) :: gs).
Proof. by apply topology_groups_loop_spec. Qed.

(** ** Validation of what the planner builds *)

Section Validates.
Context `{Blake3}.

Lemma v4_node_list_intro nodes field max : node_list_ok nodes max -> v4_node_list nodes field max = Ok tt.
Proof.
  intros [Hne Hb Hnd Hreal]. unfold v4_node_list.
  apply rbind_unit; [by apply fail_if_ok, is_empty_false|].
  apply rbind_unit; [by apply fail_if_ok, N.ltb_ge|].
  eapply rbind_intro; [|done].
  apply (try_fold_fresh_intro id (fun n => n <> NodeId_default)); [|by rewrite list_fmap_id| |done].
  - intros s n Hn Hd. apply rbind_unit; [by apply node_id_ok|].
    apply rbind_unit; [by apply fail_if_ok, contains_false|done].
  - intros n _. apply not_elem_of_nil.
Qed.

Lemma node_list_sub nodes max sub max' :
  node_list_ok nodes max -> sub <> [] -> len sub <= max' -> NoDup sub ->
  (forall n, n ∈ sub -> n ∈ nodes) -> node_list_ok sub max'.
Proof.
  intros Hok Hne Hl Hnd Hsub. split; [done..|]. apply Forall_forall. intros n Hn.
  pose proof (node_list_real _ _ Hok) as Hr. rewrite Forall_forall in Hr. by apply Hr, Hsub.
Qed.

(** A group that passes the check of the plan, apart from overlaps with other groups. *)
Record group_fits (workers : list NodeId) (g : V4AggregationGroup) : Prop := {
  fits_list : node_list_ok g.(V4AggregationGroup_members) MAX_V4_PLAN_WORKERS;
  fits_members n : n ∈ g.(V4AggregationGroup_members) -> n ∈ workers;
  fits_aggregator : g.(V4AggregationGroup_aggregator) ∈ g.(V4AggregationGroup_members);
  fits_parent p : g.(V4AggregationGroup_parent) = Some p ->
    p ∈ workers /\ p ∉ g.(V4AggregationGroup_members)
}.

Lemma v4_plan_group_intro value ids grouped g :
  group_fits value.(V4TrainingPlan_workers) g -> g.(V4AggregationGroup_group_id) ∉ ids ->
  (forall n, n ∈ g.(V4AggregationGroup_members) -> n ∉ grouped) ->
  v4_plan_group value (ids, grouped) g
  = Ok (g.(V4AggregationGroup_group_id) :: ids, reverse g.(V4AggregationGroup_members) ++ grouped).
Proof.
  intros [Hl Hm Ha Hp] Hid Hfresh. unfold v4_plan_group.
  apply rbind_unit.
  { apply fail_if_ok, orb_false_iff. split; [apply is_empty_false; apply Hl|].
    apply N.ltb_ge. apply Hl. }
  apply rbind_unit; [by apply v4_node_list_intro|].
  apply rbind_unit.
  { apply fail_if_ok, orb_false_iff. split; [by apply contains_false|].
    apply existsb_false, Forall_forall. intros n Hn. apply negb_false_iff, contains_true. by apply Hm. }
  eapply rbind_intro.
  { assert (insert_each grouped g.(V4AggregationGroup_members)
            = Some (reverse g.(V4AggregationGroup_members) ++ grouped)) as ->; [|done].
    apply insert_each_Some. split_and!; [apply Hl|done|done]. }
  apply rbind_unit; [|done].
  apply fail_if_ok. rewrite (proj2 (contains_true _ _) Ha). cbn.
  destruct g.(V4AggregationGroup_parent) as [p|]; [|done]. destruct (Hp p eq_refl) as [Hpw Hpm].
  rewrite (proj2 (contains_true _ _) Hpw), (proj2 (contains_false _ _) Hpm). done.
Qed.

Lemma v4_plan_groups_intro value groups ids grouped :
  Forall (group_fits value.(V4TrainingPlan_workers)) groups ->
  NoDup (V4AggregationGroup_group_id <$> groups) ->
  (forall g, g ∈ groups -> g.(V4AggregationGroup_group_id) ∉ ids) ->
  NoDup (concat (V4AggregationGroup_members <$> groups)) ->
  (forall n, n ∈ concat (V4AggregationGroup_members <$> groups) -> n ∉ grouped) ->
  exists ids' grouped', try_fold (v4_plan_group value) (ids, grouped) groups = Ok (ids', grouped')
    /\ forall n, n ∈ grouped' <-> n ∈ concat (V4AggregationGroup_members <$> groups) \/ n ∈ grouped.
Proof.
  intros Hall. revert ids grouped. induction Hall as [|g gs Hg _ IH]; intros ids grouped Hid Hfi Hnd Hfm.
  { exists ids, grouped. split; [done|]. cbn. set_solver. }
  rewrite !fmap_cons in *. cbn [concat try_fold] in *.
  apply NoDup_cons in Hid as [Hgid Hid]. apply NoDup_app in Hnd as (_ & Hdis & Hnd).
  rewrite v4_plan_group_intro; [|done|set_solver|set_solver]. cbn [rbind].
  destruct (IH (g.(V4AggregationGroup_group_id) :: ids)
              (reverse g.(V4AggregationGroup_members) ++ grouped)) as (ids' & grouped' & Hf & Hin).
  - done.
  - intros g' Hg' [He|Hi]%elem_of_cons; [|set_solver]. apply Hgid. rewrite <- He.
    by apply list_elem_of_fmap_2.
  - done.
  - intros n Hn. rewrite elem_of_app, elem_of_reverse. set_solver.
  - exists ids', grouped'. split; [done|]. intros n. rewrite Hin, !elem_of_app, elem_of_reverse. tauto.
Qed.

Lemma enumerate_fst {A} (xs : list A) : fst <$> enumerate xs = seq 0 (length xs).
Proof.
  apply list_eq. intros i. rewrite list_lookup_fmap. unfold enumerate. rewrite list_lookup_imap.
  destruct (xs !! i) eqn:Hi; cbn.
  - apply lookup_lt_Some in Hi. by rewrite lookup_seq_lt.
  - apply lookup_ge_None in Hi. by rewrite lookup_seq_ge.
Qed.

(** Positions below 65536 keep their number at 16 bits. *)
Lemma enumerate_ids_nodup {A} (xs : list A) :
  len xs <= u16_max -> NoDup ((fun e : nat * A => trunc u16_max (N.of_nat e.1)) <$> enumerate xs).
Proof.
  intros Hl. unfold len in Hl.
  assert ((fun e : nat * A => trunc u16_max (N.of_nat e.1)) <$> enumerate xs
          = (fun i => trunc u16_max (N.of_nat i)) <$> (fst <$> enumerate xs)) as ->
    by (by rewrite <- list_fmap_compose).
  rewrite enumerate_fst. apply NoDup_fmap_2_strong; [|apply NoDup_seq].
  intros i j Hi%elem_of_seq Hj%elem_of_seq. unfold trunc, u16_max in *.
  rewrite !N.mod_small by lia. lia.
Qed.

Lemma aggregation_groups_members selected links :
  V4AggregationGroup_members <$> aggregation_groups selected links = topology_groups selected links.
Proof.
  unfold aggregation_groups. rewrite <- list_fmap_compose. apply enumerate_snd.
Qed.

Lemma aggregation_groups_fit selected links :
  node_list_ok selected MAX_V4_PLAN_WORKERS ->
  let groups := aggregation_groups selected links in
  Forall (group_fits selected) groups
  /\ NoDup (V4AggregationGroup_group_id <$> groups)
  /\ concat (V4AggregationGroup_members <$> groups) ≡ₚ selected
  /\ groups <> [] /\ len groups <= MAX_V4_GROUPS.
Proof.
  intros Hok groups. destruct (topology_groups_spec links selected) as (Hp & Hall & Hlen & Hfirst).
  assert (Hm : V4AggregationGroup_members <$> groups = topology_groups selected links)
    by apply aggregation_groups_members.
  assert (Hlg : length groups = length (topology_groups selected links)).
  { by rewrite <- Hm, length_fmap. }
  pose proof (node_list_bounded _ _ Hok) as Hb. unfold len, MAX_V4_PLAN_WORKERS in Hb.
  assert (Hnd : NoDup (concat (topology_groups selected links))) by (rewrite Hp; apply Hok).
  assert (Hg16 : (length (topology_groups selected links) <= 16)%nat) by lia.
  destruct selected as [|first rest]; [by destruct (node_list_nonempty _ _ Hok)|].
  destruct (Hfirst first rest eq_refl) as (g0 & gs & Hgs).
  split_and!.
  - apply Forall_forall. intros g ((i & members) & -> & Hin%elem_of_enumerate)%list_elem_of_fmap.
    assert (Hmem : members ∈ topology_groups (first :: rest) links) by (by eapply list_elem_of_lookup_2).
    rewrite Forall_forall in Hall. destruct (Hall _ Hmem) as [Hne Hl4].
    assert (Hsub : forall n, n ∈ members -> n ∈ first :: rest).
    { intros n Hn. rewrite <- Hp. apply elem_of_concat. eauto. }
    split; cbn [V4AggregationGroup_members V4AggregationGroup_aggregator V4AggregationGroup_parent].
    + eapply node_list_sub; [done|done| |by eapply NoDup_concat_elem|done].
      unfold len, MAX_V4_PLAN_WORKERS. cbn. lia.
    + done.
    + destruct members; [done|]. cbn. by left.
    + intros p. destruct i as [|i]; cbn; [done|]. intros [= <-]. split; [by left|].
      rewrite Hgs in Hin, Hnd. cbn in Hin, Hnd. apply NoDup_cons in Hnd as [Hf _].
      intros Hfm. apply Hf. apply elem_of_app. right. apply elem_of_concat. exists members.
      split; [by eapply list_elem_of_lookup_2|done].
  - unfold groups, aggregation_groups. rewrite <- list_fmap_compose. apply enumerate_ids_nodup.
    unfold len, u16_max. lia.
  - by rewrite Hm.
  - intros Hnil. rewrite Hnil in Hlg. rewrite Hgs in Hlg. done.
  - unfold len, MAX_V4_GROUPS. lia.
Qed.

(** ** Shards *)

Context `{PlanPostcard}.

Lemma shard_bytes_bounded model n :
  2 <= n -> model <= 2 ^ 40 -> 2 * div_ceil model n <= 2 ^ 40.
Proof.
  intros Hn Hm. unfold div_ceil.
  assert ((model + n - 1) / n < 2 ^ 39 + 1); [|lia].
  apply N.Div0.div_lt_upper_bound. nia.
Qed.

Lemma plan_shard_replicas request selected entry :
  let replicas := (plan_shard request selected entry).(V4ShardOwnership_replicas) in
  len replicas <= 1 /\ NoDup replicas /\ forall r, r ∈ replicas -> r ∈ selected /\ r <> entry.2.
Proof.
  cbn. destruct (List.find _ selected) as [r|] eqn:Hf.
  - apply List.find_some in Hf as [Hin Hne]. breflect.
    split_and!; [unfold len; cbn; lia|apply NoDup_singleton|].
    intros r' ->%list_elem_of_singleton. by rewrite list_elem_of_In.
  - split_and!; [unfold len; cbn; lia|constructor|]. by intros r ?%not_elem_of_nil.
Qed.

Lemma v4_plan_shard_intro request selected ids entry :
  node_list_ok selected MAX_V4_PLAN_WORKERS -> 2 <= len selected ->
  request.(V4PlanRequest_model_bytes) <= 2 ^ 40 -> entry.2 ∈ selected ->
  (plan_shard request selected entry).(V4ShardOwnership_content_hash) <> ArtifactId_default ->
  (plan_shard request selected entry).(V4ShardOwnership_shard_id) ∉ ids ->
  v4_plan_shard selected ids (plan_shard request selected entry)
  = Ok ((plan_shard request selected entry).(V4ShardOwnership_shard_id) :: ids).
Proof.
  intros Hok Hn Hm Hin Hhash Hid. unfold v4_plan_shard.
  destruct (plan_shard_replicas request selected entry) as (Hr1 & Hrnd & Hr).
  pose proof (shard_bytes_bounded _ _ Hn Hm) as Hbytes.
  set (replicas := V4ShardOwnership_replicas _) in *.
  change (V4ShardOwnership_owners (plan_shard request selected entry)) with [entry.2].
  apply rbind_unit; [by apply fail_if_ok, contains_false|].
  apply rbind_unit.
  { apply fail_if_ok. cbn -[N.pow div_ceil N.max sat_mul]. unfold MAX_TRAINING_STATE_BYTES, sat_mul, u64_max.
    repeat (apply orb_false_iff; split); first [apply N.eqb_neq | apply N.ltb_ge]; lia. }
  apply rbind_unit; [done|].
  apply rbind_unit.
  { apply v4_node_list_intro. eapply node_list_sub; [done|done|by vm_compute|apply NoDup_singleton|].
    by intros n ->%list_elem_of_singleton. }
  apply rbind_unit.
  { apply fail_if_ok, existsb_false, Forall_forall. intros n Hn'. apply negb_false_iff, contains_true.
    apply elem_of_app in Hn' as [->%list_elem_of_singleton|Hn']; [done|by apply Hr]. }
  apply rbind_unit; [apply fail_if_ok, N.ltb_ge; unfold MAX_TRAINING_REPLICAS; lia|].
  apply rbind_unit.
  { apply fail_if_ok, existsb_false, Forall_forall. intros r Hr'. apply contains_false.
    intros ->%list_elem_of_singleton. by apply Hr in Hr' as [_ ?]. }
  apply rbind_unit.
  { destruct replicas as [|r rs] eqn:Hrep; [done|]. cbn [is_empty]. apply v4_node_list_intro.
    eapply node_list_sub; [done|done|unfold MAX_TRAINING_REPLICAS; lia|done|]. intros n Hn'. by apply Hr. }
  apply rbind_unit; [by apply artifact_id_ok|]. done.
Qed.

Lemma v4_plan_shards_intro request selected :
  node_list_ok selected MAX_V4_PLAN_WORKERS -> 2 <= len selected ->
  request.(V4PlanRequest_model_bytes) <= 2 ^ 40 ->
  let shards := plan_shard request selected <$> enumerate selected in
  Forall (fun s => s.(V4ShardOwnership_content_hash) <> ArtifactId_default) shards ->
  exists ids, try_fold (v4_plan_shard selected) [] shards = Ok ids.
Proof.
  intros Hok Hn Hm shards Hh. eexists.
  apply (try_fold_fresh_intro V4ShardOwnership_shard_id
           (fun s => exists entry, s = plan_shard request selected entry /\ entry.2 ∈ selected
              /\ s.(V4ShardOwnership_content_hash) <> ArtifactId_default)).
  - intros ids s Hid (entry & -> & Hin & Hhash). by apply v4_plan_shard_intro.
  - unfold shards. rewrite <- list_fmap_compose. apply enumerate_ids_nodup.
    pose proof (node_list_bounded _ _ Hok). unfold MAX_V4_PLAN_WORKERS, u16_max in *. lia.
  - intros s _. apply not_elem_of_nil.
  - apply Forall_forall. intros s Hs. rewrite Forall_forall in Hh. pose proof (Hh s Hs) as Hhash.
    apply list_elem_of_fmap in Hs as ((i & n) & -> & Hin%elem_of_enumerate).
    exists (i, n). split_and!; [done|by eapply list_elem_of_lookup_2|done].
Qed.

(** ** Capabilities *)

(** A worker whose advertised backends are valid and of distinct kinds. *)
Record worker_ok (w : WorkerProfile) : Prop := {
  worker_profile : invalid_profile w = false;
  worker_memory : w.(WorkerProfile_memory_bytes) <= u64_max;
  worker_backends_bounded : len w.(WorkerProfile_backends) <= MAX_V5_BACKENDS;
  worker_backends_valid b field : b ∈ w.(WorkerProfile_backends) ->
    Validation.backend_capabilities b field = Ok tt;
  worker_backends_kinds : NoDup (BackendCapabilities_kind <$> w.(WorkerProfile_backends))
}.

Lemma reference_capability_valid memory field :
  memory <= u64_max ->
  Validation.backend_capabilities (reference_backend_capability BackendKind_Cpu memory true) field = Ok tt.
Proof.
  intros Hm. unfold Validation.backend_capabilities.
  apply rbind_unit; [done|]. apply rbind_unit; [|done]. apply fail_if_ok.
  cbn -[N.max N.mul N.min]. unfold sat_mul. rewrite N.mul_1_r.
  assert (HN : N.max memory 1 <> 0) by lia. apply N.eqb_neq in HN. rewrite HN. cbn -[N.max N.min].
  rewrite (proj2 (N.ltb_ge _ _)) by (unfold u64_max in *; lia). done.
Qed.

(** The backends a capability lists are those of the worker, or the reference one. *)
Lemma capability_backends w :
  worker_ok w ->
  let backends := (worker_capability w).(V4WorkerCapability_backends) in
  len backends <= MAX_V5_BACKENDS
  /\ (forall b field, b ∈ backends -> Validation.backend_capabilities b field = Ok tt)
  /\ NoDup (BackendCapabilities_kind <$> backends).
Proof.
  intros [_ Hm Hb Hv Hk]. cbn. destruct (w.(WorkerProfile_backends)) as [|b bs]; cbn [is_empty].
  - split_and!; [by vm_compute| |apply NoDup_singleton].
    intros b field ->%list_elem_of_singleton. by apply reference_capability_valid.
  - split_and!; [done|done|done].
Qed.

Lemma clamp_unit x : f32_is_nan x = false -> f32_in_unit x = true -> f32_clamp f32_0 f32_1 x = x.
Proof.
  intros Hn [Hlo Hhi]%andb_true_iff. unfold f32_clamp. rewrite SFleb_key in Hlo, Hhi by done.
  rewrite (SFltb_key x f32_0), (proj2 (ltb_ge _ _)) by done. rewrite SFltb_key by done.
  by rewrite (proj2 (ltb_ge _ _)).
Qed.

Lemma worker_permille w :
  invalid_profile w = false -> (worker_capability w).(V4WorkerCapability_reliability_permille) <= 1000.
Proof.
  unfold invalid_profile. intros Hi. breflect_in Hi. cbn.
  rewrite clamp_unit; [by apply f32_permille_bound| |done]. by destruct (f32_value _).
Qed.

Lemma worker_capabilities_intro value eligible :
  value.(V4TrainingPlan_workers) = WorkerProfile_node <$> eligible ->
  value.(V4TrainingPlan_worker_capabilities) = worker_capability <$> eligible ->
  node_list_ok value.(V4TrainingPlan_workers) MAX_V4_PLAN_WORKERS -> Forall worker_ok eligible ->
  exists nodes, v4_plan_worker_capabilities value = Ok nodes.
Proof.
  intros Hw Hc Hok Hall. unfold v4_plan_worker_capabilities. rewrite Hc. eexists.
  apply (try_fold_fresh_intro V4WorkerCapability_node
           (fun c => exists w, c = worker_capability w /\ worker_ok w
              /\ w.(WorkerProfile_node) ∈ value.(V4TrainingPlan_workers))).
  - intros seen c Hfresh (w & -> & Hwok & Hin).
    destruct (capability_backends w Hwok) as (Hlen & Hval & _).
    pose proof (worker_permille w (worker_profile _ Hwok)) as Hpm.
    pose proof (worker_profile _ Hwok) as Hprof. unfold invalid_profile in Hprof. breflect_in Hprof.
    pose proof (node_list_real _ _ Hok) as Hreal. rewrite Forall_forall in Hreal.
    apply rbind_unit; [by apply node_id_ok, Hreal|].
    apply rbind_unit.
    { apply fail_if_ok. rewrite (proj2 (contains_true _ _) Hin), (proj2 (contains_false _ _) Hfresh).
      cbn -[V4WorkerCapability_reliability_permille].
      repeat (apply orb_false_iff; split); first [by apply N.eqb_neq | apply N.ltb_ge]; lia. }
    apply rbind_unit.
    { apply fail_if_ok. cbn. rewrite (proj2 (N.eqb_neq _ _)) by done. done. }
    apply rbind_unit; [by apply fail_if_ok, N.ltb_ge|].
    apply rbind_unit; [|done]. apply for_each_ok, Forall_forall. intros b Hb. by apply Hval.
  - rewrite <- list_fmap_compose. rewrite Hw in Hok. apply Hok.
  - intros c _. apply not_elem_of_nil.
  - apply Forall_forall. intros c (w & -> & Hin)%list_elem_of_fmap. exists w.
    rewrite Forall_forall in Hall. split_and!; [done|by apply Hall|].
    rewrite Hw. by apply list_elem_of_fmap_2.
Qed.

(** ** Assignments and rationale *)
Lemma find_key {A K} `{EqDecision K} (key : A -> K) (xs : list A) x :
  NoDup (key <$> xs) -> x ∈ xs -> List.find (fun y => key y == key x) xs = Some x.
Proof.
  intros Hnd Hx. destruct (List.find _ xs) as [y|] eqn:Hf.
  - apply List.find_some in Hf as [Hy Heq]. rewrite <- list_elem_of_In in Hy. breflect.
    f_equal. by apply (NoDup_fmap_eq key xs).
  - apply (List.find_none _ _) with (x := x) in Hf; [|by apply list_elem_of_In].
    by rewrite bool_decide_true in Hf.
Qed.

Lemma assign_backend_ok eligible requirement a :
  assign_backend eligible requirement = Ok a ->
  exists w b, w ∈ eligible /\ b ∈ (worker_capability w).(V4WorkerCapability_backends)
    /\ backend_satisfies_requirements b requirement = true
    /\ a = mkBackendAssignment requirement.(ComputeRequirements_task_kind) w.(WorkerProfile_node)
             b.(BackendCapabilities_kind) 0 requirement.
Proof.
  unfold assign_backend. intros Ha. inv_ok Ha. injection Ha as <-.
  destruct (min_by_key _ _) as [[w kind]|] eqn:Hmin; cbn in Hok; [|done]. injection Hok as <-.
  apply min_by_key_Some in Hmin as [Hin _].
  apply list_elem_of_omap in Hin as (w' & Hw & Hb).
  destruct (List.find _ _) as [b|] eqn:Hf; cbn in Hb; [|done]. injection Hb as <- <-.
  apply List.find_some in Hf as [Hfb Hs]. rewrite <- list_elem_of_In in Hfb. by exists w', b.
Qed.

(** A backend that satisfies a requirement for the planner passes the plan's check. *)
Lemma backend_assignment_intro eligible requirement a field :
  assign_backend eligible requirement = Ok a -> Forall worker_ok eligible ->
  node_list_ok (WorkerProfile_node <$> eligible) MAX_V4_PLAN_WORKERS ->
  (forall field, compute_requirements requirement field = Ok tt) ->
  backend_assignment a (WorkerProfile_node <$> eligible) (worker_capability <$> eligible) field = Ok tt.
Proof.
  intros (w & b & Hw & Hb & Hs & ->)%assign_backend_ok Hall Hnodes Hreq.
  rewrite Forall_forall in Hall. destruct (capability_backends w (Hall w Hw)) as (_ & Hval & Hkinds).
  assert (Hwn : w.(WorkerProfile_node) ∈ WorkerProfile_node <$> eligible) by (by apply list_elem_of_fmap_2).
  pose proof (node_list_real _ _ Hnodes) as Hreal. rewrite Forall_forall in Hreal.
  unfold backend_assignment. cbn [BackendAssignment_worker BackendAssignment_device_index
    BackendAssignment_requirements BackendAssignment_backend].
  apply rbind_unit; [by apply node_id_ok, Hreal|].
  apply rbind_unit; [apply fail_if_ok; by rewrite (proj2 (contains_true _ _) Hwn)|].
  apply rbind_unit; [done|].
  unfold backend_satisfies_requirements, backend_admitted in Hs.
  destruct (negb _ || _) eqn:Hrun in Hs; [done|]. destruct (_ && _) eqn:Hobs in Hs; [done|].
  destruct (negb (_ || _)) eqn:Hadm in Hs; [done|]. breflect_in Hs.
  apply rbind_unit.
  { apply fail_if_ok. apply negb_false_iff, orb_true_iff in Hadm as [Hadm|Hadm].
    - by rewrite Hadm.
    - by rewrite Hadm, andb_false_r. }
  assert (Hf : List.find (fun c => c.(V4WorkerCapability_node) == w.(WorkerProfile_node))
                 (worker_capability <$> eligible) = Some (worker_capability w)).
  { apply (find_key V4WorkerCapability_node _ (worker_capability w)).
    - rewrite <- list_fmap_compose. apply Hnodes.
    - by apply list_elem_of_fmap_2. }
  rewrite Hf. cbn [ok_or rbind].
  rewrite (find_key BackendCapabilities_kind _ b Hkinds Hb). cbn [ok_or rbind].
  apply fail_if_ok. apply orb_false_iff in Hrun as [Hrun1 Hrun2]. rewrite Hrun1, Hrun2, Hobs. cbn [orb].
  pose proof (Hval b field Hb) as Hvb. unfold Validation.backend_capabilities in Hvb. inv_ok Hvb.
  unfold safe_memory in *.
  repeat (apply orb_false_iff; split); try (apply N.leb_gt; lia); try (apply N.ltb_ge; lia).
  1,2: apply existsb_false, Forall_forall; intros x Hx; apply negb_false_iff.
  - rewrite forallb_forall in *. match goal with Hf : forall x, In x _ -> contains x _ = true |- _ => apply Hf end.
    by apply list_elem_of_In.
  - match goal with Hfe : forallb _ (ComputeRequirements_required_features _) = true |- _ =>
      rewrite forallb_forall in Hfe; apply Hfe end. by apply list_elem_of_In.
Qed.

Lemma rationale_valid request selected field :
  len selected <= u64_max -> Validation.string (rationale request selected) field = Ok tt.
Proof.
  intros Hl. unfold Validation.string. apply rbind_unit; [done|]. apply fail_if_ok, N.ltb_ge.
  unfold rationale. rewrite !slen_app. pose proof (decimal_length _ Hl).
  assert (slen (decimal (shard_memory request)) <= 20).
  { apply decimal_length. unfold shard_memory, sat_mul. lia. }
  change (slen (decimal MAX_GROUP_SIZE)) with 1. unfold MAX_STRING_LEN.
  repeat match goal with |- context [slen ?s] =>
    lazymatch s with String _ _ => let n := eval vm_compute in (slen s) in change (slen s) with n end end.
  lia.
Qed.

(** ** Selection *)
Lemma insert_with_perm {A} (compare : A -> A -> comparison) x xs : insert_with compare x xs ≡ₚ x :: xs.
Proof.
  induction xs as [|y ys IH]; cbn; [done|]. destruct (compare x y); [done|done|].
  rewrite IH. apply Permutation_swap.
Qed.

Lemma sort_with_perm {A} (compare : A -> A -> comparison) xs : sort_with compare xs ≡ₚ xs.
Proof. induction xs as [|x xs IH]; cbn; [done|]. by rewrite insert_with_perm, IH. Qed.

Lemma check_request_ok request u :
  check_request request = Ok u ->
  NoDup (WorkerProfile_node <$> request.(V4PlanRequest_workers))
  /\ Forall (fun w => invalid_profile w = false) request.(V4PlanRequest_workers)
  /\ 2 <= request.(V4PlanRequest_requested_workers) <= MAX_PLANNER_WORKERS
  /\ request.(V4PlanRequest_tensor_degree) <= MAX_TENSOR_DEGREE
  /\ request.(V4PlanRequest_pipeline_stages) <= MAX_PIPELINE_STAGES
  /\ 0 < request.(V4PlanRequest_local_steps)
  /\ 0 < request.(V4PlanRequest_checkpoint_replication) <= 16
  /\ len request.(V4PlanRequest_backend_requirements) <= MAX_V5_REQUIREMENTS.
Proof.
  unfold check_request. intros Hc. inv_ok Hc.
  repeat match goal with
         | Hd : has_duplicates _ = false |- _ => apply has_duplicates_false in Hd
         | He : existsb invalid_profile _ = false |- _ => apply existsb_false in He
         end.
  split_and!; try done; lia.
Qed.

(** The selected workers are eligible, distinct, and between two and the requested number. *)
Lemma select_workers_ok request eligible :
  NoDup (WorkerProfile_node <$> request.(V4PlanRequest_workers)) ->
  select_workers request = Ok eligible ->
  2 <= len eligible <= request.(V4PlanRequest_requested_workers)
  /\ NoDup (WorkerProfile_node <$> eligible)
  /\ forall w, w ∈ eligible -> w ∈ request.(V4PlanRequest_workers)
       /\ worker_eligible (shard_memory request) request.(V4PlanRequest_data_locality) w = true.
Proof.
  intros Hnd Hs. unfold select_workers in Hs. inv_ok Hs. injection Hs as <-. rewrite truncate_take in *.
  set (sorted := sort_with _ _) in *. assert (Hsub : forall w, w ∈ sorted -> w ∈ eligible_workers request).
  { intros w. unfold sorted. by rewrite sort_with_perm. }
  split_and!; [lia| | |].
  - unfold len. rewrite length_take. lia.
  - eapply sublist_NoDup; [|apply fmap_sublist, sublist_take]. unfold sorted. rewrite sort_with_perm.
    eapply sublist_NoDup; [|apply fmap_sublist, filter_sublist]. done.
  - intros w Hw%subseteq_take%Hsub. by apply elem_of_filter_b in Hw.
Qed.

(** ** The plan passes validation *)

(** What the planner leaves to the caller: real identities, limits the protocol has and the
    planner does not check, a strategy without parameters it does not use, valid capabilities
    and requirements, and digests that are not the reserved zero. *)
Record request_ok (request : V4PlanRequest) (d : V4PlanDecision) : Prop := {
  request_job : request.(V4PlanRequest_job_id) <> JobId_default;
  request_proposer : request.(V4PlanRequest_proposer) <> NodeId_default;
  request_nodes w : w ∈ request.(V4PlanRequest_workers) -> w.(WorkerProfile_node) <> NodeId_default;
  request_workers w : w ∈ request.(V4PlanRequest_workers) -> worker_ok w;
  request_model : request.(V4PlanRequest_model_bytes) <= 2 ^ 40;
  request_steps : request.(V4PlanRequest_local_steps) <= 1024;
  request_staleness : request.(V4PlanRequest_max_staleness) <= 1024;
  request_shape : match request.(V4PlanRequest_strategy) with
                  | V4ParallelismStrategy_LocalSgd =>
                      request.(V4PlanRequest_tensor_degree) = 0
                      /\ request.(V4PlanRequest_pipeline_stages) = 0
                  | V4ParallelismStrategy_TensorParallel =>
                      request.(V4PlanRequest_pipeline_stages) = 0
                  | V4ParallelismStrategy_PipelineParallel =>
                      request.(V4PlanRequest_tensor_degree) = 0
                  | V4ParallelismStrategy_Hybrid => True
                  end;
  request_requirements r field : r ∈ request.(V4PlanRequest_backend_requirements) ->
    compute_requirements r field = Ok tt;
  request_branch : d.(V4PlanDecision_plan).(V4TrainingPlan_branch) <> ArtifactId_default;
  request_hash : d.(V4PlanDecision_plan).(V4TrainingPlan_plan_hash) <> ArtifactId_default;
  request_shards : Forall (fun s => s.(V4ShardOwnership_content_hash) <> ArtifactId_default)
                     d.(V4PlanDecision_plan).(V4TrainingPlan_shards)
}.

Lemma plan_strategy_valid request eligible assignments support hash :
  strategy_support request.(V4PlanRequest_strategy) request.(V4PlanRequest_tensor_degree)
    request.(V4PlanRequest_pipeline_stages) = support -> support <> V4SupportLevel_Unsupported ->
  match request.(V4PlanRequest_strategy) with
  | V4ParallelismStrategy_LocalSgd =>
      request.(V4PlanRequest_tensor_degree) = 0 /\ request.(V4PlanRequest_pipeline_stages) = 0
  | V4ParallelismStrategy_TensorParallel => request.(V4PlanRequest_pipeline_stages) = 0
  | V4ParallelismStrategy_PipelineParallel => request.(V4PlanRequest_tensor_degree) = 0
  | V4ParallelismStrategy_Hybrid => True
  end ->
  let plan := with_plan_hash (unhashed_plan request eligible assignments support) hash in
  strategy_shape_valid plan = true /\ support_matches_strategy plan = true.
Proof.
  intros Hs Hu Hshape. unfold strategy_support in Hs. unfold strategy_shape_valid, support_matches_strategy.
  cbn. subst support. generalize dependent request.(V4PlanRequest_tensor_degree).
  generalize dependent request.(V4PlanRequest_pipeline_stages). intros stages degree Hu Hshape.
  destruct request.(V4PlanRequest_strategy); [destruct Hshape as [-> ->]|subst stages|subst degree|].
  - done.
  - destruct (degree =? 2) eqn:Hd; [|done]. apply N.eqb_eq in Hd. by rewrite Hd.
  - destruct (stages =? 2) eqn:Hd; [|done]. by cbn.
  - destruct (degree =? 2) eqn:Hd, (stages =? 2) eqn:Hg; done.
Qed.

Lemma plan_v4_ok request d :
  plan_v4 request = Ok d ->
  exists eligible assignments support, check_request request = Ok tt /\ select_workers request = Ok eligible
    /\ try_map (assign_backend eligible) request.(V4PlanRequest_backend_requirements) = Ok assignments
    /\ strategy_support request.(V4PlanRequest_strategy) request.(V4PlanRequest_tensor_degree)
         request.(V4PlanRequest_pipeline_stages) = support
    /\ support <> V4SupportLevel_Unsupported
    /\ d.(V4PlanDecision_selected_workers) = WorkerProfile_node <$> eligible
    /\ d.(V4PlanDecision_rejected_workers) = WorkerProfile_node <$>
         List.filter (fun w => negb (contains w.(WorkerProfile_node) (WorkerProfile_node <$> eligible)))
           request.(V4PlanRequest_workers)
    /\ exists hash, d.(V4PlanDecision_plan)
         = with_plan_hash (unhashed_plan request eligible assignments support) hash.
Proof.
  unfold plan_v4. intros Hp. apply rbind_ok in Hp as ([] & Hc & Hp).
  apply rbind_ok in Hp as (eligible & Hs & Hp). apply rbind_ok in Hp as (assignments & Ha & Hp).
  apply rbind_ok in Hp as (u & Hu & Hp). injection Hp as <-. apply fail_if_ok in Hu. breflect.
  do 3 eexists. split_and!; try done. by eexists.
Qed.

Lemma plan_bindings_valid request eligible assignments support hash :
  let plan := with_plan_hash (unhashed_plan request eligible assignments support) hash in
  try_map (assign_backend eligible) request.(V4PlanRequest_backend_requirements) = Ok assignments ->
  len request.(V4PlanRequest_backend_requirements) <= MAX_V5_REQUIREMENTS ->
  (forall r field, r ∈ request.(V4PlanRequest_backend_requirements) -> compute_requirements r field = Ok tt) ->
  Forall worker_ok eligible ->
  node_list_ok (WorkerProfile_node <$> eligible) MAX_V4_PLAN_WORKERS ->
  v4_plan_bindings plan = Ok tt.
Proof.
  intros plan Ha Hl Hr Hw Hn. apply try_map_ok in Ha.
  assert (Hla : len assignments = len request.(V4PlanRequest_backend_requirements)).
  { unfold len. by rewrite (Forall2_length _ _ _ Ha). }
  unfold v4_plan_bindings.
  apply rbind_unit; [done|]. apply rbind_unit; [done|].
  apply rbind_unit; [by apply fail_if_ok, N.ltb_ge|].
  apply rbind_unit; [apply for_each_ok, Forall_forall; intros r Hin; by apply Hr|].
  apply rbind_unit.
  { apply fail_if_ok, N.ltb_ge. cbn -[len]. rewrite Hla. unfold MAX_V5_REQUIREMENTS, MAX_V5_ASSIGNMENTS in *.
    lia. }
  apply rbind_unit.
  { apply for_each_ok, Forall_forall. intros a Hin. cbn in Hin.
    apply list_elem_of_lookup in Hin as (i & Hi).
    destruct (Forall2_lookup_r _ _ _ _ _ Ha Hi) as (r & Hri & Hra).
    eapply backend_assignment_intro; [done|done|done|]. intros field. apply Hr.
    by eapply list_elem_of_lookup_2. }
  apply rationale_valid. pose proof (node_list_bounded _ _ Hn). unfold MAX_V4_PLAN_WORKERS, u64_max in *. lia.
Qed.

Lemma eligible_node_list request eligible :
  select_workers request = Ok eligible -> check_request request = Ok tt ->
  (forall w, w ∈ request.(V4PlanRequest_workers) -> w.(WorkerProfile_node) <> NodeId_default) ->
  node_list_ok (WorkerProfile_node <$> eligible) MAX_V4_PLAN_WORKERS
  /\ len (WorkerProfile_node <$> eligible) = len eligible
  /\ 2 <= len eligible <= MAX_PLANNER_WORKERS
  /\ forall w, w ∈ eligible -> w ∈ request.(V4PlanRequest_workers).
Proof.
  intros Hs Hc Hnodes. destruct (check_request_ok _ _ Hc) as (Hnd & _ & Hrw & _).
  destruct (select_workers_ok _ _ Hnd Hs) as (Hlen & Hsnd & Hsel).
  assert (Hl : len (WorkerProfile_node <$> eligible) = len eligible) by (unfold len; by rewrite length_fmap).
  unfold MAX_PLANNER_WORKERS, MAX_V4_PLAN_WORKERS in *.
  split; [split|split_and!; [done|lia|lia|intros w Hw; by apply Hsel]].
  - intros Hnil. apply fmap_nil_inv in Hnil as ->. unfold len in Hlen. cbn in Hlen. lia.
  - lia.
  - done.
  - apply Forall_forall. intros n (w & -> & Hw)%list_elem_of_fmap. apply Hnodes. by apply Hsel.
Qed.

(** The groups of a plan pass the loop over the groups, and cover the workers. *)
Lemma plan_groups_valid plan selected links :
  plan.(V4TrainingPlan_workers) = selected ->
  plan.(V4TrainingPlan_groups) = aggregation_groups selected links ->
  node_list_ok selected MAX_V4_PLAN_WORKERS ->
  is_empty plan.(V4TrainingPlan_groups) || (MAX_V4_GROUPS <? len plan.(V4TrainingPlan_groups)) = false
  /\ exists sets, try_fold (v4_plan_group plan) ([], []) plan.(V4TrainingPlan_groups) = Ok sets
       /\ set_eqb sets.2 selected = true.
Proof.
  intros Hw Hg Hok.
  destruct (aggregation_groups_fit selected links Hok) as (Hfit & Hids & Hperm & Hne & Hgl).
  rewrite <- Hg in *. rewrite <- Hw in Hfit. split.
  { apply orb_false_iff. split; [by apply is_empty_false|by apply N.ltb_ge]. }
  destruct (v4_plan_groups_intro plan plan.(V4TrainingPlan_groups) [] [] Hfit Hids)
    as (ids & grouped & Hfold & Hin).
  { intros g _. apply not_elem_of_nil. }
  { rewrite Hperm. apply Hok. }
  { intros n _. apply not_elem_of_nil. }
  exists (ids, grouped). split; [done|]. apply set_eqb_true. intros n. cbn [snd].
  rewrite Hin, Hperm. split; [by intros [?|?%not_elem_of_nil]|by left].
Qed.

(** The shards of a plan pass the loop over the shards, and are as many as the workers. *)
Lemma plan_shards_valid request selected :
  let shards := plan_shard request selected <$> enumerate selected in
  node_list_ok selected MAX_V4_PLAN_WORKERS -> 2 <= len selected ->
  request.(V4PlanRequest_model_bytes) <= 2 ^ 40 ->
  Forall (fun s => s.(V4ShardOwnership_content_hash) <> ArtifactId_default) shards ->
  is_empty shards || (MAX_TRAINING_SHARDS <? len shards) = false
  /\ exists ids, try_fold (v4_plan_shard selected) [] shards = Ok ids.
Proof.
  intros shards Hok Hl Hm Hh. split; [|by apply v4_plan_shards_intro].
  assert (Hlen : len shards = len selected).
  { unfold len, shards, enumerate. by rewrite length_fmap, length_imap. }
  pose proof (node_list_bounded _ _ Hok). apply orb_false_iff. split.
  - apply is_empty_false. intros Hnil. rewrite Hnil in Hlen. unfold len in *. cbn in Hlen. lia.
  - apply N.ltb_ge. rewrite Hlen. done.
Qed.

(** (C6) The planner and the protocol agree: every plan the planner produces passes the
    validation that a receiver runs on it, provided the request has what the planner does not
    check itself (see [request_ok]). *)
Theorem planner_output_validates request d :
  plan_v4 request = Ok d -> request_ok request d ->
  v4_plan d.(V4PlanDecision_plan) = Ok tt.
Proof.
  intros (eligible & assignments & support & Hc & Hs & Ha & Hsup & Hu & _ & _ & hash & Hplan)%plan_v4_ok
    [Hjob Hprop Hnodes Hworkers Hmodel Hsteps Hstale Hshape Hrq Hbr Hh Hsh].
  rewrite Hplan in *. clear Hplan d.
  destruct (check_request_ok _ _ Hc) as (_ & _ & _ & Htd & Hps & Hls & Hcr & Hlr).
  destruct (eligible_node_list _ _ Hs Hc Hnodes) as (Hok & Hlen' & Hlen & Hsel).
  assert (Hwok : Forall worker_ok eligible) by (apply Forall_forall; eauto).
  destruct (plan_strategy_valid request eligible assignments support hash Hsup Hu Hshape) as [Hst1 Hst2].
  set (plan := with_plan_hash _ hash) in *. unfold v4_plan.
  apply rbind_unit; [by apply training_job_id_ok|]. apply rbind_unit; [by apply node_id_ok|].
  apply rbind_unit; [by apply artifact_id_ok|]. apply rbind_unit; [by apply artifact_id_ok|].
  apply rbind_unit; [by rewrite Hst1, Hst2|].
  apply rbind_unit.
  { apply fail_if_ok. cbn -[len N.min]. unfold trunc, u16_max, MAX_V4_STAGES, MAX_TENSOR_DEGREE,
      MAX_PIPELINE_STAGES, MAX_PLANNER_WORKERS in *. rewrite Hlen', N.mod_small by lia.
    repeat (apply orb_false_iff; split); first [apply N.eqb_neq | apply N.ltb_ge]; lia. }
  apply rbind_unit.
  { apply fail_if_ok, negb_false_iff, andb_true_iff. cbn -[len]. rewrite Hlen'.
    unfold MAX_V4_PLAN_WORKERS, MAX_PLANNER_WORKERS in *. split; apply N.leb_le; lia. }
  apply rbind_unit; [by apply v4_node_list_intro|].
  apply rbind_unit.
  { apply fail_if_ok, negb_false_iff, N.eqb_eq. cbn. unfold len. by rewrite !length_fmap. }
  destruct (worker_capabilities_intro plan eligible eq_refl eq_refl Hok Hwok) as [nodes Hcaps].
  eapply rbind_intro; [exact Hcaps|].
  destruct (plan_groups_valid plan _ _ eq_refl eq_refl Hok) as (Hgl & sets & Hg & Hcov).
  apply rbind_unit; [by apply fail_if_ok|]. eapply rbind_intro; [exact Hg|].
  apply rbind_unit; [by apply fail_if_ok, negb_false_iff|].
  destruct (plan_shards_valid request _ Hok) as (Hsl & ids & Hshards); [lia|done|done|].
  apply rbind_unit; [by apply fail_if_ok|]. eapply rbind_intro; [exact Hshards|].
  by apply plan_bindings_valid.
Qed.

(** A plan places the job on workers that can carry it: selected and rejected workers
    divide the candidates, every selected worker has the memory of a shard and its copy, the
    groups divide the selected workers into groups of at most four led by one of their members,
    and every selected worker owns exactly one shard, with a replica on another worker. *)
Theorem plan_v4_places_job request d :
  plan_v4 request = Ok d ->
  let selected := d.(V4PlanDecision_selected_workers) in
  let plan := d.(V4PlanDecision_plan) in
  selected ++ d.(V4PlanDecision_rejected_workers)
    ≡ₚ WorkerProfile_node <$> request.(V4PlanRequest_workers)
  /\ 2 <= len selected <= request.(V4PlanRequest_requested_workers)
  /\ (forall w, w ∈ request.(V4PlanRequest_workers) -> w.(WorkerProfile_node) ∈ selected ->
        worker_eligible (shard_memory request) request.(V4PlanRequest_data_locality) w = true)
  /\ concat (V4AggregationGroup_members <$> plan.(V4TrainingPlan_groups)) ≡ₚ selected
  /\ Forall (fun g => len g.(V4AggregationGroup_members) <= MAX_GROUP_SIZE
        /\ g.(V4AggregationGroup_aggregator) ∈ g.(V4AggregationGroup_members)) plan.(V4TrainingPlan_groups)
  /\ concat (V4ShardOwnership_owners <$> plan.(V4TrainingPlan_shards)) = selected
  /\ Forall (fun s => exists r, s.(V4ShardOwnership_replicas) = [r] /\ r ∈ selected
        /\ r ∉ s.(V4ShardOwnership_owners)) plan.(V4TrainingPlan_shards).
Proof.
  intros (eligible & assignments & support & Hc & Hs & _ & _ & _ & Hd1 & Hd2 & hash & Hplan)%plan_v4_ok.
  cbv zeta. rewrite Hplan, Hd1, Hd2. destruct (check_request_ok _ _ Hc) as (Hnd & _).
  destruct (select_workers_ok _ _ Hnd Hs) as (Hlen & Hsnd & Hsel).
  assert (Hl : len (WorkerProfile_node <$> eligible) = len eligible) by (unfold len; by rewrite length_fmap).
  destruct (topology_groups_spec request.(V4PlanRequest_links) (WorkerProfile_node <$> eligible))
    as (Hp & Hall & _).
  split_and!; [| |lia| | | | |].
  - apply selected_rejected; [done|by eapply NoDup_fmap_1|]. intros w Hw. by apply Hsel.
  - lia.
  - intros w Hw (w' & Heq & Hw')%list_elem_of_fmap. apply Hsel in Hw' as [Hw' Hel].
    by rewrite (NoDup_fmap_eq _ _ _ _ Hnd Hw Hw' Heq).
  - cbn. rewrite aggregation_groups_members. done.
  - cbn. apply Forall_forall. intros g ((i & members) & -> & Hin%elem_of_enumerate)%list_elem_of_fmap.
    apply list_elem_of_lookup_2 in Hin. rewrite Forall_forall in Hall. destruct (Hall _ Hin) as [Hne Hl4].
    cbn. unfold len, MAX_GROUP_SIZE. split; [lia|]. destruct members; [done|]. cbn. by left.
  - cbn. rewrite <- list_fmap_compose. etransitivity; [|apply enumerate_snd].
    generalize (enumerate (WorkerProfile_node <$> eligible)). intros es.
    induction es as [|e es IH]; [done|]. cbn in *. by f_equal.
  - cbn. apply Forall_forall. intros s ((i & n) & -> & Hin%elem_of_enumerate)%list_elem_of_fmap.
    destruct (plan_shard_replicas request (WorkerProfile_node <$> eligible) (i, n)) as (_ & _ & Hr).
    cbn in *. destruct (List.find _ _) as [r|] eqn:Hf.
    + exists r. destruct (Hr r) as [Hr1 Hr2]; [by left|]. split_and!; [done|done|].
      by intros ->%list_elem_of_singleton.
    + exfalso. unfold len in Hlen. destruct eligible as [|a [|b rest]]; [cbn in Hlen; lia..|].
      rewrite !fmap_cons in Hsnd, Hf. apply NoDup_cons in Hsnd as [Hab _]. apply Hab.
      cbn in Hf. destruct (decide (WorkerProfile_node a = n)) as [Ha|Ha];
        [rewrite (bool_decide_true _ Ha) in Hf|by rewrite (bool_decide_false _ Ha) in Hf].
      cbn in Hf. destruct (decide (WorkerProfile_node b = n)) as [Hb|Hb];
        [rewrite Ha, <- Hb; by left|by rewrite (bool_decide_false _ Hb) in Hf].
Qed.

(** The planner accepts a local-SGD request that also asks for tensor or pipeline
    parallelism, and its plan never passes validation. *)
Theorem local_sgd_with_degrees_rejected request d :
  plan_v4 request = Ok d -> request.(V4PlanRequest_strategy) = V4ParallelismStrategy_LocalSgd ->
  0 < request.(V4PlanRequest_tensor_degree) + request.(V4PlanRequest_pipeline_stages) ->
  is_err (v4_plan d.(V4PlanDecision_plan)) = true.
Proof.
  intros (eligible & assignments & support & _ & _ & _ & _ & _ & _ & _ & hash & ->)%plan_v4_ok Hs Hd.
  destruct (v4_plan _) as [u|e] eqn:Hv; [|done]. unfold v4_plan in Hv. inv_ok Hv.
  match goal with Hst : strategy_shape_valid _ = true |- _ =>
    unfold strategy_shape_valid in Hst; cbn in Hst; rewrite Hs in Hst; breflect_in Hst end.
  lia.
Qed.

(** ** Reconciliation *)
Lemma compatible_branches_true left right :
  compatible_branches left right = true <->
  left.(V4TrainingBranch_job_id) = right.(V4TrainingBranch_job_id)
  /\ left.(V4TrainingBranch_parent_generation) = right.(V4TrainingBranch_parent_generation)
  /\ left.(V4TrainingBranch_model_generation) = right.(V4TrainingBranch_model_generation)
  /\ left.(V4TrainingBranch_optimizer_generation) = right.(V4TrainingBranch_optimizer_generation)
  /\ left.(V4TrainingBranch_dataset_progress) = right.(V4TrainingBranch_dataset_progress)
  /\ left.(V4TrainingBranch_plan_generation) = right.(V4TrainingBranch_plan_generation)
  /\ left.(V4TrainingBranch_branch) <> right.(V4TrainingBranch_branch).
Proof.
  unfold compatible_branches.
  rewrite !andb_true_iff, !N.eqb_eq, negb_true_iff, bool_decide_eq_true, bool_decide_eq_false. tauto.
Qed.

Lemma compatible_branches_sym left right :
  compatible_branches right left = compatible_branches left right.
Proof. apply eq_true_iff_eq. rewrite !compatible_branches_true. intuition congruence. Qed.

(** Two branches are merged or selected only when they are different branches of one job
    that agree on every generation and on the data they have seen; a merged value lies between
    the two values and does not depend on their order; and a policy that asks for an operator
    decides nothing. *)
Theorem reconcile_needs_common_lineage left right policy lv rv d :
  reconcile_branches left right policy lv rv = Ok d ->
  (i64_min <= lv <= i64_max)%Z -> (i64_min <= rv <= i64_max)%Z ->
  (d.(V4BranchDecision_accepted) = true ->
     left.(V4TrainingBranch_job_id) = right.(V4TrainingBranch_job_id)
     /\ left.(V4TrainingBranch_parent_generation) = right.(V4TrainingBranch_parent_generation)
     /\ left.(V4TrainingBranch_model_generation) = right.(V4TrainingBranch_model_generation)
     /\ left.(V4TrainingBranch_optimizer_generation) = right.(V4TrainingBranch_optimizer_generation)
     /\ left.(V4TrainingBranch_dataset_progress) = right.(V4TrainingBranch_dataset_progress)
     /\ left.(V4TrainingBranch_plan_generation) = right.(V4TrainingBranch_plan_generation)
     /\ left.(V4TrainingBranch_branch) <> right.(V4TrainingBranch_branch)
     /\ policy <> V4ReconciliationPolicy_AbortBranch
     /\ policy <> V4ReconciliationPolicy_ManualOperatorRequired
     /\ exists v, d.(V4BranchDecision_value) = Some v /\ (Z.min lv rv <= v <= Z.max lv rv)%Z)
  /\ (d.(V4BranchDecision_accepted) = false ->
     d.(V4BranchDecision_branch) = None /\ d.(V4BranchDecision_value) = None)
  /\ (policy = V4ReconciliationPolicy_MergeLocalSgdState ->
     exists d', reconcile_branches right left policy rv lv = Ok d'
       /\ d'.(V4BranchDecision_value) = d.(V4BranchDecision_value)).
Proof.
  intros Hr Hl Hrv.
  assert (Hmid : (Z.min lv rv <= wrap_i64 (Z.quot (lv + rv) 2) <= Z.max lv rv)%Z).
  { assert (Hq : (Z.min lv rv <= Z.quot (lv + rv) 2 <= Z.max lv rv)%Z)
      by (Z.to_euclidean_division_equations; lia).
    unfold wrap_i64, i64_min, i64_max in *. rewrite Z.mod_small; lia. }
  pose proof (compatible_branches_sym left right) as Hsym.
  unfold reconcile_branches in *. rewrite Hsym.
  destruct (compatible_branches left right) eqn:Hcomp; cbn in *; [apply compatible_branches_true in Hcomp|].
  - destruct policy; injection Hr as <-; cbn; (split; [|split]); try done.
    all: try (intros _; destruct Hcomp as (?&?&?&?&?&?&?); split_and!; try done; eexists; split; [done|lia]).
    intros _. eexists. split; [done|]. cbn. by rewrite Z.add_comm.
  - destruct policy; try done; injection Hr as <-; cbn; (split; [|split]); done.
Qed.
End Validates.

(** ** Rebalancing *)

(** A shard moves exactly when it is active and owned, the candidate does not hold it yet
    and has the memory, the cooldown has passed and the gain is not below the threshold; the
    move then has a new ownership generation. *)
Theorem rebalance_accepts_exactly shard candidate now last cooldown gain source_score candidate_score :
  let d := rebalance_shard shard candidate now last cooldown gain source_score candidate_score in
  (d.(V4RebalanceDecision_accepted) = true <->
     shard.(V4ShardOwnership_lifecycle) = V4ShardLifecycle_Active
     /\ shard.(V4ShardOwnership_owners) <> []
     /\ candidate.(WorkerProfile_node) ∉ shard.(V4ShardOwnership_owners)
     /\ candidate.(WorkerProfile_node) ∉ shard.(V4ShardOwnership_replicas)
     /\ shard.(V4ShardOwnership_memory_bytes) <= candidate.(WorkerProfile_memory_bytes)
     /\ (forall l, last = Some l -> cooldown <= now - l)
     /\ SFltb (f32_sub (f32_value source_score) (f32_value candidate_score)) (f32_value gain) = false)
  /\ (shard.(V4ShardOwnership_ownership_generation) < u64_max ->
      shard.(V4ShardOwnership_ownership_generation) < d.(V4RebalanceDecision_next_ownership_generation)).
Proof.
  split; [|cbn; unfold sat_add; lia]. unfold rebalance_shard. cbn.
  destruct (decide (shard.(V4ShardOwnership_lifecycle) = V4ShardLifecycle_Active)) as [Ha|Ha];
    [rewrite (bool_decide_true _ Ha)|rewrite (bool_decide_false _ Ha)]; cbn; [|naive_solver].
  destruct (is_empty shard.(V4ShardOwnership_owners)) eqn:He.
  { cbn. destruct shard.(V4ShardOwnership_owners); naive_solver. }
  apply is_empty_false in He.
  destruct (contains _ _ || contains _ _) eqn:Hin.
  { cbn. apply orb_true_iff in Hin as [Hin|Hin]; apply contains_true in Hin; naive_solver. }
  apply orb_false_iff in Hin as [H1%contains_false H2%contains_false].
  destruct (_ <? shard.(V4ShardOwnership_memory_bytes)) eqn:Hm; breflect; [cbn; split; [done|lia]|].
  destruct (match last with Some _ => _ | None => _ end) eqn:Hc.
  { cbn. split; [done|]. intros (_ & _ & _ & _ & _ & Hcd & _). destruct last as [l|]; [|done].
    specialize (Hcd l eq_refl). breflect. unfold sat_sub in Hc. lia. }
  assert (Hcd : forall l, last = Some l -> cooldown <= now - l).
  { intros l ->. breflect. done. }
  destruct (SFltb _ _); cbn; naive_solver.
Qed.

(** The hysteresis test is written so that a score that is not a number passes it: a shard
    moves on scores nobody computed. *)
Theorem rebalance_accepts_nan_scores :
  exists shard candidate nan,
    f32_value nan = S754_nan
    /\ (rebalance_shard shard candidate 0 None 0 0x3F800000 nan nan).(V4RebalanceDecision_accepted) = true.
Proof.
  exists (mkV4ShardOwnership 0 1 [mkNodeId (replicate 32 1)] [] 1 (mkArtifactId (replicate 32 1)) 1 1
            "reference.cpu.i64" V4ShardLifecycle_Active), (tp_worker 2 10 0x3F666666), 0x7FC00000.
  by vm_compute.
Qed.

(** ** A concrete plan *)

Definition pl_hash : Blake3 := fun _ => replicate 32 9.

Definition pl_postcard : PlanPostcard := fun _ => None.

Definition pl_link (i j rtt : N) : V4TopologyLink :=
  mkV4TopologyLink (mkNodeId (replicate 32 i)) (mkNodeId (replicate 32 j)) rtt 1000 0x3F733333.

(** Six workers, one of them unreliable, and a requirement for the reference kernel. *)
Definition pl_request (strategy : V4ParallelismStrategy) (degree stages : N) : V4PlanRequest :=
  mkV4PlanRequest (mkJobId (replicate 16 1)) (mkNodeId (replicate 32 1)) 4000 5 strategy degree stages
    4 2 3 DataLocality_Streamable
    (tp_workers ++ [tp_worker 5 30 0x3F7D70A4; tp_worker 6 15 0x3F733333])
    [pl_link 1 6 2; pl_link 2 4 3; pl_link 1 4 50] (mkV4PlannerObjective 1 1 1 1)
    [default_requirements ComputeTaskKind_TrainingStep BackendKind_Cpu 16 "kernel"].

Definition pl_decision (strategy : V4ParallelismStrategy) (degree stages : N)
    : result V4PlanDecision V4PlannerError :=
  @plan_v4 pl_hash pl_postcard (pl_request strategy degree stages).

Example pl_decision_groups :
  match pl_decision V4ParallelismStrategy_LocalSgd 0 0 with
  | Ok d => len <$> (V4AggregationGroup_members <$> d.(V4PlanDecision_plan).(V4TrainingPlan_groups))
  | Err _ => []
  end = [4; 1].
Proof. by vm_compute. Qed.

Lemma pl_worker_ok w : w ∈ (pl_request V4ParallelismStrategy_LocalSgd 0 0).(V4PlanRequest_workers) ->
  worker_ok w /\ w.(WorkerProfile_node) <> NodeId_default.
Proof.
  cbn. intros Hw. repeat (apply elem_of_cons in Hw as [->|Hw]); [..|by apply not_elem_of_nil in Hw].
  all: split; [split; [vm_compute; reflexivity | vm_compute; discriminate | vm_compute; discriminate
                      | intros b field Hb; by apply not_elem_of_nil in Hb | constructor]
              | discriminate].
Qed.

Lemma planner_output_validates_witness :
  exists d, pl_decision V4ParallelismStrategy_LocalSgd 0 0 = Ok d
    /\ v4_plan d.(V4PlanDecision_plan) = Ok tt.
Proof.
  eexists. split; [vm_compute; reflexivity|].
  apply (@planner_output_validates pl_hash pl_postcard (pl_request V4ParallelismStrategy_LocalSgd 0 0));
    [vm_compute; reflexivity|].
  split.
  - discriminate.
  - discriminate.
  - intros w Hw. by apply pl_worker_ok.
  - intros w Hw. by apply pl_worker_ok.
  - vm_compute; discriminate.
  - vm_compute; discriminate.
  - vm_compute; discriminate.
  - split; reflexivity.
  - intros r field ->%list_elem_of_singleton. vm_compute. reflexivity.
  - discriminate.
  - discriminate.
  - repeat constructor; discriminate.
Defined.

Lemma plan_v4_places_job_witness :
  exists d, pl_decision V4ParallelismStrategy_Hybrid 2 2 = Ok d
    /\ 2 <= len d.(V4PlanDecision_selected_workers) <= 5.
Proof.
  eexists. split; [vm_compute; reflexivity|].
  eapply (@plan_v4_places_job pl_hash pl_postcard (pl_request V4ParallelismStrategy_Hybrid 2 2)).
  vm_compute; reflexivity.
Defined.

Lemma local_sgd_with_degrees_rejected_witness :
  exists d, pl_decision V4ParallelismStrategy_LocalSgd 2 0 = Ok d
    /\ is_err (v4_plan d.(V4PlanDecision_plan)) = true.
Proof.
  eexists. split; [vm_compute; reflexivity|].
  apply (@local_sgd_with_degrees_rejected pl_hash pl_postcard (pl_request V4ParallelismStrategy_LocalSgd 2 0));
    vm_compute; reflexivity.
Defined.

Definition pl_branch (name : N) : V4TrainingBranch :=
  mkV4TrainingBranch (mkJobId (replicate 16 1)) (mkArtifactId (replicate 32 name)) 3 4 5 6 7
    (mkNodeId (replicate 32 1)).

Lemma reconcile_needs_common_lineage_witness :
  exists d, @reconcile_branches pl_hash (pl_branch 1) (pl_branch 2)
              V4ReconciliationPolicy_MergeLocalSgdState 10 (-4) = Ok d
    /\ exists v, d.(V4BranchDecision_value) = Some v /\ (-4 <= v <= 10)%Z.
Proof.
  eexists. split; [vm_compute; reflexivity|].
  apply (@reconcile_needs_common_lineage pl_hash (pl_branch 1) (pl_branch 2)
           V4ReconciliationPolicy_MergeLocalSgdState 10 (-4));
    [vm_compute; reflexivity | vm_compute; split; discriminate | vm_compute; split; discriminate | reflexivity].
Defined.
