(* ===== verification/FileSystem.v ===== *)
(** * The file system under the local store

    [crates/storage/src/lib.rs] works on four directories below its root: artifacts,
    quarantine, state and state/transfers. This file models what it uses of [std::fs]: the
    paths it builds, the files below the root with their contents and modification times, the
    calls it makes ([Op], with the answer [Res] of each), and programs made of these calls
    ([Prog]).

    A program runs under a schedule of faults. Any call may be refused by the operating system
    with any error, and the process may be killed at any call; a write that is cut short by
    either leaves a prefix of its bytes. [run []] is the run without faults. [always] is the
    weakest condition under which an invariant of the files holds at every point of every run,
    with or without faults, and [always_sound] ties it to [run]. *)

From Stdlib Require Import Ascii String ZArith NArith Lia.
From stdpp Require Import base tactics sets strings numbers list gmap.
From S2P Require Import Prelude OrdMap Types.

Local Open Scope N_scope.
Local Open Scope rust_scope.

(** ** Paths *)

Inductive Dir := RootDir | ArtifactsDir | QuarantineDir | StateDir | TransfersDir.

#[export] Instance Dir_eq_dec : EqDecision Dir.
Proof. solve_decision. Defined.

(** The files below the root. A quarantined file is named after the artifact, whether it was a
    partial transfer, the time and the sequence number; [RootPath] stands for files that other
    components keep directly in the root. *)
Inductive Path :=
  | ArtifactPath (artifact : ArtifactId)
  | PartialPath (artifact : ArtifactId)
  | QuarantinePath (partial : bool) (artifact : ArtifactId) (millis sequence : N)
  | StatePath (name : string)
  | RootPath (name : string).

#[export] Instance Path_eq_dec : EqDecision Path.
Proof. solve_decision. Defined.

#[export] Instance ArtifactId_countable : Countable ArtifactId.
Proof. by apply (inj_countable' ArtifactId_0 mkArtifactId); intros []. Defined.

Definition path_code (p : Path) :
    ArtifactId + ArtifactId + (bool * ArtifactId * N * N) + string + string :=
  match p with
  | ArtifactPath a => inl (inl (inl (inl a)))
  | PartialPath a => inl (inl (inl (inr a)))
  | QuarantinePath b a t s => inl (inl (inr (b, a, t, s)))
  | StatePath n => inl (inr n)
  | RootPath n => inr n
  end.

Definition path_decode
    (c : ArtifactId + ArtifactId + (bool * ArtifactId * N * N) + string + string) : Path :=
  match c with
  | inl (inl (inl (inl a))) => ArtifactPath a
  | inl (inl (inl (inr a))) => PartialPath a
  | inl (inl (inr (b, a, t, s))) => QuarantinePath b a t s
  | inl (inr n) => StatePath n
  | inr n => RootPath n
  end.

#[export] Instance Path_countable : Countable Path.
Proof. by apply (inj_countable' path_code path_decode); intros []. Defined.

Definition parent (p : Path) : Dir :=
  match p with
  | ArtifactPath _ => ArtifactsDir
  | PartialPath _ => TransfersDir
  | QuarantinePath _ _ _ _ => QuarantineDir
  | StatePath _ => StateDir
  | RootPath _ => RootDir
  end.

Definition subdirs (d : Dir) : list Dir :=
  match d with
  | RootDir => [ArtifactsDir; QuarantineDir; StateDir]
  | StateDir => [TransfersDir]
  | _ => []
  end.

(** What a path leads to. *)
Inductive Entry :=
  | DirEntry (dir : Dir)
  | FileEntry (path : Path).

(** [root.join("state").join(name)] for a name without separators: three names lead to
    directories. *)
Definition state_entry (name : string) : Entry :=
  if (name == "transfers") then DirEntry TransfersDir
  else if (name == ".") then DirEntry StateDir
  else if (name == "..") then DirEntry RootDir
  else FileEntry (StatePath name).

(** ** Files and calls *)

Record FileData := mkFileData {
  content : list N;
  modified : N
}.

Notation Files := (gmap Path FileData).

(** [now] is the clock, [sequence] the process-wide counter of temporary names. *)
Record World := mkWorld {
  files : Files;
  now : N;
  sequence : N;
  process_id : N;
  dir_len : N
}.

Definition set_files (w : World) (f : Files) : World :=
  {| files := f; now := w.(now); sequence := w.(sequence); process_id := w.(process_id);
     dir_len := w.(dir_len) |}.

Inductive IoError :=
  | NotFound
  | AlreadyExists
  | IsADirectory
  | UnexpectedEof
  | OtherError.

#[export] Instance IoError_eq_dec : EqDecision IoError.
Proof. solve_decision. Defined.

Record Metadata := mkMetadata {
  is_dir : bool;
  meta_len : N;
  meta_modified : N
}.

Inductive Op :=
  | OpMetadata (e : Entry)
  | OpReadDir (d : Dir)
  | OpCreateDir (d : Dir)
  | OpRead (e : Entry)
  | OpReadExact (p : Path) (offset : N) (length : nat)
  | OpCreateNew (p : Path)
  | OpOpenAppend (p : Path)
  | OpWriteAll (p : Path) (bytes : list N)
  | OpSync (p : Path)
  | OpRename (p : Path) (target : Entry)
  | OpRemove (p : Path)
  | OpNow
  | OpSequence
  | OpProcessId.

Definition Res (o : Op) : Type :=
  match o with
  | OpMetadata _ => Metadata
  | OpReadDir _ => list Entry
  | OpRead _ | OpReadExact _ _ _ => list N
  | OpNow | OpSequence | OpProcessId => N
  | _ => unit
  end.

(** The calls that ask the operating system to do something. *)
Definition fallible (o : Op) : bool :=
  match o with
  | OpNow | OpSequence | OpProcessId => false
  | _ => true
  end.

Definition file_len (f : FileData) : N := len f.(content).

Definition paths (f : Files) : list Path := (map_to_list f).*1.

Definition in_dir (d : Dir) (f : Files) : list Path :=
  List.filter (fun p => (parent p == d)) (paths f).

Definition append_file (w : World) (p : Path) (bytes : list N) : World :=
  match w.(files) !! p with
  | Some f => set_files w (<[p := {| content := f.(content) ++ bytes; modified := w.(now) |}]> w.(files))
  | None => w
  end.

(** A call that is not disturbed. *)
Definition perform (o : Op) (w : World) : World * result (Res o) IoError :=
  match o return World * result (Res o) IoError with
  | OpMetadata e =>
      (w, match e with
          | DirEntry _ => Ok {| is_dir := true; meta_len := w.(dir_len); meta_modified := w.(now) |}
          | FileEntry p =>
              match w.(files) !! p with
              | Some f => Ok {| is_dir := false; meta_len := file_len f;
                                meta_modified := f.(modified) |}
              | None => Err NotFound
              end
          end)
  | OpReadDir d => (w, Ok (map DirEntry (subdirs d) ++ map FileEntry (in_dir d w.(files))))
  | OpCreateDir _ => (w, Ok tt)
  | OpRead e =>
      (w, match e with
          | DirEntry _ => Err IsADirectory
          | FileEntry p => match w.(files) !! p with
                           | Some f => Ok f.(content)
                           | None => Err NotFound
                           end
          end)
  | OpReadExact p offset length =>
      (w, match w.(files) !! p with
          | Some f =>
              let rest := drop (N.to_nat offset) f.(content) in
              if (List.length rest <? length)%nat then Err UnexpectedEof else Ok (take length rest)
          | None => Err NotFound
          end)
  | OpCreateNew p =>
      match w.(files) !! p with
      | Some _ => (w, Err AlreadyExists)
      | None => (set_files w (<[p := {| content := []; modified := w.(now) |}]> w.(files)), Ok tt)
      end
  | OpOpenAppend p =>
      match w.(files) !! p with
      | Some _ => (w, Ok tt)
      | None => (set_files w (<[p := {| content := []; modified := w.(now) |}]> w.(files)), Ok tt)
      end
  | OpWriteAll p bytes => (append_file w p bytes, Ok tt)
  | OpSync _ => (w, Ok tt)
  | OpRename p target =>
      match w.(files) !! p, target with
      | None, _ => (w, Err NotFound)
      | Some _, DirEntry _ => (w, Err IsADirectory)
      | Some f, FileEntry q => (set_files w (<[q := f]> (delete p w.(files))), Ok tt)
      end
  | OpRemove p =>
      match w.(files) !! p with
      | Some _ => (set_files w (delete p w.(files)), Ok tt)
      | None => (w, Err NotFound)
      end
  | OpNow => (w, Ok w.(now))
  | OpSequence =>
      ({| files := w.(files); now := w.(now); sequence := trunc u64_max (w.(sequence) + 1);
          process_id := w.(process_id); dir_len := w.(dir_len) |}, Ok w.(sequence))
  | OpProcessId => (w, Ok w.(process_id))
  end.

(** What a call that is cut short leaves behind: [written] bytes of a write. *)
Definition cut_short (o : Op) (written : nat) (w : World) : World :=
  match o with
  | OpWriteAll p bytes => append_file w p (take written bytes)
  | _ => w
  end.

(** ** Programs and their runs *)

Inductive Prog (A : Type) : Type :=
  | Ret (a : A)
  | Do (o : Op) (k : result (Res o) IoError -> Prog A).
Arguments Ret {A} a.
Arguments Do {A} o k.

Fixpoint bind {A B} (p : Prog A) (f : A -> Prog B) : Prog B :=
  match p with
  | Ret a => f a
  | Do o k => Do o (fun r => bind (k r) f)
  end.

Definition call (o : Op) : Prog (result (Res o) IoError) := Do o Ret.

(** The value of a call that cannot fail. *)
Definition ask {A} (r : result A IoError) (default : A) : A :=
  match r with Ok a => a | Err _ => default end.

Inductive Fault :=
  | NoFault
  | Refused (e : IoError) (written : nat)
  | Killed (written : nat).

Fixpoint run {A} (schedule : list Fault) (p : Prog A) (w : World) : World * option A :=
  match p with
  | Ret a => (w, Some a)
  | Do o k =>
      let go s := run s (k (perform o w).2) (perform o w).1 in
      match schedule with
      | Refused e written :: s =>
          if fallible o then run s (k (Err e)) (cut_short o written w) else go s
      | Killed written :: _ => (cut_short o written w, None)
      | NoFault :: s => go s
      | [] => go []
      end
  end.

(** A run without faults ends with a value ([run_complete]). *)
Fixpoint exec {A} (p : Prog A) (w : World) : World * A :=
  match p with
  | Ret a => (w, a)
  | Do o k => exec (k (perform o w).2) (perform o w).1
  end.

Lemma run_complete {A} (p : Prog A) w :
  run [] p w = ((exec p w).1, Some (exec p w).2).
Proof. revert w. induction p as [a|o k IH]; intros w; cbn; [done|]. apply IH. Qed.

Lemma exec_bind {A B} (p : Prog A) (f : A -> Prog B) w :
  exec (bind p f) w = exec (f (exec p w).2) (exec p w).1.
Proof. revert w. induction p as [a|o k IH]; intros w; cbn; [done|]. apply IH. Qed.

Notation "'let*' x := p 'in' k" := (bind p (fun x => k))
  (at level 200, x name, p at level 100, k at level 200, right associativity) : rust_scope.

(** ** Invariants of every run *)

Section Always.
Context (I : Files -> Prop).

(** [always Q p w]: wherever a run of [p] from [w] stops, [I] holds of the files, and [Q] of the
    value and the state when it ends. *)
Fixpoint always {A} (Q : A -> World -> Prop) (p : Prog A) (w : World) : Prop :=
  I w.(files) /\
  match p with
  | Ret a => Q a w
  | Do o k =>
      always Q (k (perform o w).2) (perform o w).1 /\
      forall n, I (cut_short o n w).(files) /\
                (fallible o = true -> forall e, always Q (k (Err e)) (cut_short o n w))
  end.

Lemma always_now {A} (Q : A -> World -> Prop) p w : always Q p w -> I w.(files).
Proof. destruct p; cbn; by intros [? _]. Qed.

Lemma always_sound {A} (Q : A -> World -> Prop) p w schedule :
  always Q p w ->
  I (run schedule p w).1.(files) /\
  forall a, (run schedule p w).2 = Some a -> Q a (run schedule p w).1.
Proof.
  revert w schedule. induction p as [a|o k IH]; intros w schedule.
  - intros [HI HQ]. split; [done|]. by intros ? [= <-].
  - intros (HI & Hgo & Hcut).
    destruct schedule as [|[|e n|n] s]; cbn.
    + by apply IH.
    + by apply IH.
    + destruct (fallible o) eqn:Hf; apply IH; [by apply Hcut|done].
    + split; [apply Hcut|done].
Qed.

Lemma always_mono {A} (Q R : A -> World -> Prop) p w :
  (forall a w, I w.(files) -> Q a w -> R a w) -> always Q p w -> always R p w.
Proof.
  intros HQR. revert w. induction p as [a|o k IH]; intros w; cbn.
  - intros [HI HQ]. split; [done|]. by apply HQR.
  - intros (HI & Hgo & Hcut). split; [done|]. split; [by apply IH|].
    intros n. destruct (Hcut n) as [HI' Hn]. split; [done|]. intros Hf e. by apply IH, Hn.
Qed.

Lemma always_bind {A B} (Q : B -> World -> Prop) (p : Prog A) (f : A -> Prog B) w :
  always (fun a w' => always Q (f a) w') p w -> always Q (bind p f) w.
Proof.
  revert w. induction p as [a|o k IH]; intros w; cbn.
  - by intros [_ HQ].
  - intros (HI & Hgo & Hcut). split; [done|]. split; [by apply IH|].
    intros n. destruct (Hcut n) as [HI' Hn]. split; [done|]. intros Hf e. by apply IH, Hn.
Qed.

Lemma always_ret {A} (Q : A -> World -> Prop) a w : I w.(files) -> Q a w -> always Q (Ret a) w.
Proof. by split. Qed.

(** The rule for one call: what it does to the files keeps [I] whether it is done, cut short
    or refused. *)
Lemma always_call o (Q : result (Res o) IoError -> World -> Prop) w :
  I w.(files) -> I (perform o w).1.(files) -> Q (perform o w).2 (perform o w).1 ->
  (forall n, I (cut_short o n w).(files)) ->
  (fallible o = true -> forall n e, Q (Err e) (cut_short o n w)) ->
  always Q (call o) w.
Proof. intros. cbn. split; [done|]. split; [done|]. intros n. split; [done|]. intros; split; auto. Qed.
End Always.

Lemma always_weaken {A} (I J : Files -> Prop) (Q : A -> World -> Prop) p w :
  (forall f, I f -> J f) -> always I Q p w -> always J Q p w.
Proof.
  intros HIJ. revert w. induction p as [a|o k IH]; intros w; cbn; [by intros [? ?]; auto|].
  intros (HI & Hgo & Hcut). split; [by apply HIJ|]. split; [by apply IH|].
  intros n. destruct (Hcut n) as [HI' Hn]. split; [by apply HIJ|]. intros Hf e. by apply IH, Hn.
Qed.

(** ** Programs by the calls they make *)

(** Every call [p] can make, whatever the answers, is in [S]. *)
Fixpoint calls_only {A} (S : Op -> bool) (p : Prog A) : Prop :=
  match p with
  | Ret _ => True
  | Do o k => S o = true /\ forall r, calls_only S (k r)
  end.

Lemma calls_only_bind {A B} S (p : Prog A) (f : A -> Prog B) :
  calls_only S p -> (forall a, calls_only S (f a)) -> calls_only S (bind p f).
Proof.
  intros Hp Hf. induction p as [a|o k IH]; cbn in *; [done|].
  destruct Hp as [Ho Hk]. split; [done|]. intros r. by apply IH.
Qed.

Lemma calls_only_call S o : S o = true -> calls_only S (call o).
Proof. by intros Ho. Qed.

Lemma calls_only_mono {A} (S T : Op -> bool) (p : Prog A) :
  (forall o, S o = true -> T o = true) -> calls_only S p -> calls_only T p.
Proof.
  intros HST. induction p as [a|o k IH]; cbn; [done|]. intros [Ho Hk]. split; [by apply HST|].
  intros r. by apply IH.
Qed.

(** An invariant that every call in [S] keeps, done or cut short, holds throughout. *)
Lemma always_calls_only {A} (I : Files -> Prop) (S : Op -> bool) (Q : A -> World -> Prop) p w :
  (forall o w, S o = true -> I w.(files) ->
     I (perform o w).1.(files) /\ forall n, I (cut_short o n w).(files)) ->
  calls_only S p -> I w.(files) -> (forall a w', I w'.(files) -> Q a w') -> always I Q p w.
Proof.
  intros HS Hp HI HQ. revert w HI. induction p as [a|o k IH]; intros w HI; cbn in *; [by auto|].
  destruct Hp as [Ho Hk]. destruct (HS o w Ho HI) as [Hdone Hcut].
  split; [done|]. split; [by apply IH|]. intros n. split; [done|]. intros _ e. by apply IH.
Qed.

(** A call that only asks. *)
Definition asks (o : Op) : bool :=
  match o with
  | OpCreateNew _ | OpOpenAppend _ | OpWriteAll _ _ | OpRename _ _ | OpRemove _ => false
  | _ => true
  end.

(** An invariant survives a program that only asks, and the files are what they were. *)
Lemma always_asks {A} (I : Files -> Prop) (Q : A -> World -> Prop) p w :
  calls_only asks p -> I w.(files) -> (forall a w', w'.(files) = w.(files) -> Q a w') ->
  always I Q p w.
Proof.
  intros Hp HI HQ. remember (files w) as f eqn:Hf. symmetry in Hf. revert w Hf.
  induction p as [a|o k IH]; intros w Hf; cbn in *; rewrite Hf; [by auto|].
  destruct Hp as [Ho Hk].
  assert (Hsame : (perform o w).1.(files) = f /\ forall n, (cut_short o n w).(files) = f)
    by (by destruct o).
  destruct Hsame as [Hdone Hcut]. split; [done|]. split; [by apply IH|].
  intros n. rewrite Hcut. split; [done|]. intros _ e. apply IH; auto.
Qed.

(** A call that creates nothing among the artifacts. *)
Definition spares_artifacts (o : Op) : bool :=
  match o with
  | OpCreateNew p | OpOpenAppend p | OpWriteAll p _ | OpRename _ (FileEntry p) =>
      (parent p != ArtifactsDir)
  | _ => true
  end.

(** An invariant about the artifacts alone, which survives the loss of files. *)
Record about_artifacts (I : Files -> Prop) : Prop := {
  about_delete : forall f p, I f -> I (delete p f);
  about_insert : forall f p d, parent p <> ArtifactsDir -> I f -> I (<[p := d]> f)
}.

(** [I] does not care what [p] holds. *)
Definition open_to (I : Files -> Prop) (p : Path) : Prop := forall f d, I f -> I (<[p := d]> f).

Lemma append_file_keeps (I : Files -> Prop) w p bytes :
  open_to I p -> I w.(files) -> I (append_file w p bytes).(files).
Proof. intros HI Hw. unfold append_file. destruct (_ !! p); [by apply HI|done]. Qed.

Lemma about_artifacts_open (I : Files -> Prop) p :
  about_artifacts I -> parent p <> ArtifactsDir -> open_to I p.
Proof. intros HI Hp f d. by apply HI. Qed.

Lemma spares_artifacts_keeps (I : Files -> Prop) :
  about_artifacts I -> forall o w, spares_artifacts o = true -> I w.(files) ->
  I (perform o w).1.(files) /\ forall n, I (cut_short o n w).(files).
Proof.
  intros HI o w Ho Hw. split.
  - destruct o as [| | | | |p|p|p bytes| |p [d|q]|p| | |]; cbn in Ho |- *; breflect; try done.
    + destruct (_ !! p); [done|by apply HI].
    + destruct (_ !! p); [done|by apply HI].
    + by apply append_file_keeps, Hw; apply about_artifacts_open.
    + by destruct (_ !! p).
    + destruct (_ !! p); [|done]. by apply HI; [|apply HI].
    + destruct (_ !! p); [by apply HI|done].
  - intros n. destruct o; cbn in Ho |- *; breflect; try done.
    by apply append_file_keeps, Hw; apply about_artifacts_open.
Qed.

Lemma always_spares {A} (I : Files -> Prop) (Q : A -> World -> Prop) p w :
  about_artifacts I -> calls_only spares_artifacts p -> I w.(files) ->
  (forall a w', I w'.(files) -> Q a w') -> always I Q p w.
Proof. intros HI. apply always_calls_only. by apply spares_artifacts_keeps. Qed.

Lemma asks_spares {A} (p : Prog A) : calls_only asks p -> calls_only spares_artifacts p.
Proof. apply calls_only_mono. by intros []. Qed.

(** A call that asks, removes a file or moves one to the quarantine. *)
Definition tidies (o : Op) : bool :=
  match o with
  | OpRename _ (FileEntry (QuarantinePath _ _ _ _)) | OpRemove _ => true
  | _ => asks o
  end.

Lemma asks_tidies {A} (p : Prog A) : calls_only asks p -> calls_only tidies p.
Proof. apply calls_only_mono. by intros []. Qed.

Lemma tidies_spares {A} (p : Prog A) : calls_only tidies p -> calls_only spares_artifacts p.
Proof. apply calls_only_mono. intros o. by destruct o as [| | | | | | | | |? [|[]]| | | |]. Qed.

#[export] Hint Resolve calls_only_bind calls_only_call asks_spares asks_tidies : rust.

(** ** Sizes *)

(** The bytes of all files. *)
Definition total_len (f : Files) : N := map_fold (fun _ d acc => file_len d + acc) 0 f.

Lemma total_len_insert_new f p d : f !! p = None -> total_len (<[p := d]> f) = file_len d + total_len f.
Proof.
  intros Hp. unfold total_len.
  apply (map_fold_insert_L (M := gmap Path) (fun _ d acc => file_len d + acc)); [|done]. intros; lia.
Qed.

Lemma total_len_delete f p d : f !! p = Some d -> total_len f = file_len d + total_len (delete p f).
Proof.
  intros Hp. rewrite <- (insert_delete_id f p d Hp) at 1.
  apply total_len_insert_new, lookup_delete_eq.
Qed.

Definition opt_len (o : option FileData) : N :=
  match o with Some d => file_len d | None => 0 end.

Lemma total_len_delete_opt f p : total_len f = opt_len (f !! p) + total_len (delete p f).
Proof.
  destruct (f !! p) as [d|] eqn:Hp; cbn; [by apply total_len_delete|].
  by rewrite delete_id.
Qed.

Lemma total_len_insert f p d : total_len (<[p := d]> f) + opt_len (f !! p) = file_len d + total_len f.
Proof.
  rewrite (total_len_delete_opt f p), <- insert_delete_eq, total_len_insert_new by apply lookup_delete_eq.
  lia.
Qed.

(** Moving a file keeps its bytes and frees those of the file it replaces. *)
Lemma total_len_rename f p q d :
  f !! p = Some d -> p <> q ->
  total_len (<[q := d]> (delete p f)) + opt_len (f !! q) = total_len f.
Proof.
  intros Hp Hpq. pose proof (total_len_insert (delete p f) q d) as Hq.
  rewrite lookup_delete_ne in Hq by done. rewrite (total_len_delete f p d Hp). lia.
Qed.
