(* ===== verification/Storage.v ===== *)
(** * Content-addressed artifact store (crates/storage/src/lib.rs)

    [LocalStore] as programs over the file system of [FileSystem]: artifacts stored under the
    hash of their content, imports, resumable partial transfers, quarantine of damaged files
    with its garbage collection, quota accounting, and the bounded JSON state files with the
    six collections the node persists in them.

    The root path is implicit in [Path]. A file read or hashed in pieces is read at once: BLAKE3
    hashes the concatenation of its updates. The source of an import lies outside the store
    ([Source]: what its metadata says, whether it opens, and what successive reads return).
    serde_json is the parameter [Json]. *)

From Stdlib Require Import Ascii String ZArith NArith Lia.
From stdpp Require Import base tactics sets strings numbers list gmap.
From S2P Require Import Prelude OrdMap Types Validation Float32 FileSystem.

Local Open Scope N_scope.
Local Open Scope rust_scope.

Definition MAX_STATE_BYTES : N := 8 * 1024 * 1024.

Definition MAX_PERSISTED_JOBS : N := 4096.

Definition MAX_PERSISTED_PEERS : N := 2048.

Definition MAX_PERSISTED_ROTATIONS : N := 2048.

Definition MAX_PERSISTED_DHT_RECORDS : N := 4096.

Definition MAX_PERSISTED_DHT_CONTACTS : N := 2048.

Definition MAX_PERSISTED_EVIDENCE : N := 4096.

Definition MAX_QUARANTINE_FRACTION : N := 8.

Definition STATE_FORMAT_VERSION : N := 1.

Inductive StorageError :=
  | StorageError_Io (error : IoError)
  | StorageError_Json (error : String.string)
  | StorageError_ArtifactTooLarge (artifact : ArtifactId) (size max : N)
  | StorageError_Integrity (artifact : ArtifactId)
  | StorageError_QuotaExceeded (used requested quota : N)
  | StorageError_InvalidState (message : String.string).

#[export] Instance StorageError_eq_dec : EqDecision StorageError.
Proof. solve_decision. Defined.

Record LocalStore := mkLocalStore {
  LocalStore_quota_bytes : N;
  LocalStore_max_artifact_bytes : N
}.

(** ** Sequencing: [?] on a program *)

Definition io {A} (p : Prog (result A IoError)) : Prog (result A StorageError) :=
  bind p (fun r => Ret (map_err StorageError_Io r)).

Definition try_bind {A B} (p : Prog (result A StorageError))
    (k : A -> Prog (result B StorageError)) : Prog (result B StorageError) :=
  bind p (fun r => match r with Ok a => k a | Err e => Ret (Err e) end).

Notation "'let*?' x := p 'in' k" := (try_bind p (fun x => k))
  (at level 200, x name, p at level 100, k at level 200, right associativity) : rust_scope.

Definition fail {A} (e : StorageError) : Prog (result A StorageError) := Ret (Err e).

Definition metadata (p : Path) : Prog (result Metadata IoError) := call (OpMetadata (FileEntry p)).

Definition read_file (e : Entry) : Prog (result (list N) IoError) := call (OpRead e).

(** Seeks to [offset] and fills a buffer of [length] bytes. *)
Definition read_exact (p : Path) (offset : N) (length : nat) : Prog (result (list N) IoError) :=
  call (OpReadExact p offset length).

(** [path.exists()] *)
Definition exists_path (p : Path) : Prog bool :=
  let* r := metadata p in Ret (is_ok r).

(** ** Accounting *)

(** The loop of [walk] over one directory, given how to walk a subdirectory. *)
Fixpoint walk_entries (walk : Dir -> Prog (result N IoError)) (total : N) (entries : list Entry)
    : Prog (result N IoError) :=
  match entries with
  | [] => Ret (Ok total)
  | entry :: entries =>
      let* m := call (OpMetadata entry) in
      match m with
      | Err NotFound => walk_entries walk total entries
      | Err e => Ret (Err e)
      | Ok m =>
          match m.(is_dir), entry with
          | true, DirEntry dir =>
              let* r := walk dir in
              match r with
              | Ok size => walk_entries walk (sat_add u64_max total size) entries
              | Err NotFound => walk_entries walk total entries
              | Err e => Ret (Err e)
              end
          | _, _ => walk_entries walk (sat_add u64_max total m.(meta_len)) entries
          end
      end
  end.

(** [depth] bounds the nesting of directories. *)
Fixpoint walk (depth : nat) (dir : Dir) : Prog (result N IoError) :=
  match depth with
  | O => Ret (Ok 0)
  | S depth =>
      let* r := call (OpReadDir dir) in
      match r with
      | Err e => Ret (Err e)
      | Ok entries => walk_entries (walk depth) 0 entries
      end
  end.

(** The tree has three levels: the root, its directories, and state/transfers. *)
Definition used_bytes : Prog (result N StorageError) := io (walk 3 RootDir).

(** ** Temporary and quarantined files *)

Definition temp_path (prefix : String.string) : Prog Path :=
  let* s := call OpSequence in
  let* p := call OpProcessId in
  let* t := call OpNow in
  Ret (StatePath ("." ++ prefix ++ "." ++ decimal (ask p 0) ++ "." ++ decimal (ask t 0) ++ "."
                  ++ decimal (ask s 0))%string).

(** The entries of the quarantine: modification time, path and length, with their total. *)
Fixpoint quarantined (entries : list Entry) (total : N) (found : list (N * Path * N))
    : Prog (result (list (N * Path * N) * N) StorageError) :=
  match entries with
  | [] => Ret (Ok (found, total))
  | entry :: entries =>
      let* m := call (OpMetadata entry) in
      match m with
      | Err NotFound => quarantined entries total found
      | Err e => fail (StorageError_Io e)
      | Ok m =>
          match m.(is_dir), entry with
          | false, FileEntry path =>
              quarantined entries (sat_add u64_max total m.(meta_len))
                (found ++ [(m.(meta_modified), path, m.(meta_len))])
          | _, _ => quarantined entries total found
          end
      end
  end.

Fixpoint remove_oldest (limit : N) (entries : list (N * Path * N)) (total reclaimed : N)
    : Prog (result N StorageError) :=
  match entries with
  | [] => Ret (Ok reclaimed)
  | (_, path, size) :: entries =>
      if total <=? limit then Ret (Ok reclaimed)
      else
        let*? _ := io (call (OpRemove path)) in
        remove_oldest limit entries (sat_sub total size) (sat_add u64_max reclaimed size)
  end.

Section Store.
Context `{Blake3}.
Context (self : LocalStore).

Definition garbage_collect : Prog (result N StorageError) :=
  let*? entries := io (call (OpReadDir QuarantineDir)) in
  let*? found := quarantined entries 0 [] in
  remove_oldest (self.(LocalStore_quota_bytes) / MAX_QUARANTINE_FRACTION)
    (sort_by_key (fun e => e.1.1) found.1) found.2 0.

Definition quarantine_partial (artifact : ArtifactId) (path : Path)
    : Prog (result unit StorageError) :=
  let* s := call OpSequence in
  let* t := call OpNow in
  let*? _ := io (call (OpRename path (FileEntry (QuarantinePath true artifact (ask t 0) (ask s 0))))) in
  let*? _ := garbage_collect in
  Ret (Ok tt).

Definition quarantine (artifact : ArtifactId) (path : Path) : Prog (result unit StorageError) :=
  let* s := call OpSequence in
  let* t := call OpNow in
  let*? _ := io (call (OpRename path (FileEntry (QuarantinePath false artifact (ask t 0) (ask s 0))))) in
  let*? _ := garbage_collect in
  Ret (Ok tt).

Definition open : Prog (result unit StorageError) :=
  if (self.(LocalStore_quota_bytes) =? 0) || (self.(LocalStore_max_artifact_bytes) =? 0)
     || (self.(LocalStore_quota_bytes) <? self.(LocalStore_max_artifact_bytes))
  then fail (StorageError_InvalidState
               "storage quota and artifact limit must be positive and ordered")
  else
    let*? _ := io (call (OpCreateDir ArtifactsDir)) in
    let*? _ := io (call (OpCreateDir QuarantineDir)) in
    let*? _ := io (call (OpCreateDir StateDir)) in
    let*? _ := io (call (OpCreateDir TransfersDir)) in
    let*? _ := garbage_collect in
    Ret (Ok tt).

(** ** Artifacts *)

Definition hash_file (path : Path) : Prog (result ArtifactId StorageError) :=
  let*? bytes := io (read_file (FileEntry path)) in
  Ret (Ok (ArtifactId_from_bytes_hashed bytes)).

Definition too_large (artifact : ArtifactId) (size : N) : StorageError :=
  StorageError_ArtifactTooLarge artifact size self.(LocalStore_max_artifact_bytes).

Definition verify_artifact (artifact : ArtifactId) : Prog (result unit StorageError) :=
  let path := ArtifactPath artifact in
  let*? m := io (metadata path) in
  if self.(LocalStore_max_artifact_bytes) <? m.(meta_len) then
    let*? _ := quarantine artifact path in fail (too_large artifact m.(meta_len))
  else
    let*? hash := hash_file path in
    if hash != artifact then
      let*? _ := quarantine artifact path in fail (StorageError_Integrity artifact)
    else Ret (Ok tt).

(** Writes a new file in full. *)
Definition write_new (temp : Path) (bytes : list N) : Prog (result unit StorageError) :=
  let*? _ := io (call (OpCreateNew temp)) in
  let*? _ := io (call (OpWriteAll temp bytes)) in
  io (call (OpSync temp)).

Definition put_artifact_with_id (artifact : ArtifactId) (bytes : list N)
    : Prog (result unit StorageError) :=
  if self.(LocalStore_max_artifact_bytes) <? len bytes then fail (too_large artifact (len bytes))
  else if ArtifactId_from_bytes_hashed bytes != artifact then
    fail (StorageError_Integrity artifact)
  else
    let path := ArtifactPath artifact in
    let* present := exists_path path in
    if (present : bool) then verify_artifact artifact
    else
      let*? used := used_bytes in
      if self.(LocalStore_quota_bytes) <? sat_add u64_max used (len bytes) then
        fail (StorageError_QuotaExceeded used (len bytes) self.(LocalStore_quota_bytes))
      else
        let* temp := temp_path "artifact" in
        let*? _ := write_new temp bytes in
        let* renamed := call (OpRename temp (FileEntry path)) in
        match renamed with
        | Err error =>
            let* _ := call (OpRemove temp) in
            let* present := exists_path path in
            if (present : bool) then verify_artifact artifact else fail (StorageError_Io error)
        | Ok _ => Ret (Ok tt)
        end.

Definition put_artifact (bytes : list N) : Prog (result ArtifactId StorageError) :=
  let artifact := ArtifactId_from_bytes_hashed bytes in
  let*? _ := put_artifact_with_id artifact bytes in
  Ret (Ok artifact).

(** A file outside the store: the length its metadata reports, whether it opens, what
    successive reads return until the end, and the error that ends them early. *)
Record Source := mkSource {
  source_len : result N IoError;
  source_open : result unit IoError;
  source_chunks : list (list N);
  source_error : option IoError
}.

(** The copying loop. *)
Fixpoint copy_chunks (temp : Path) (chunks : list (list N)) (error : option IoError)
    : Prog (result unit StorageError) :=
  match chunks with
  | [] => match error with Some e => fail (StorageError_Io e) | None => Ret (Ok tt) end
  | chunk :: chunks =>
      let*? _ := io (call (OpWriteAll temp chunk)) in
      copy_chunks temp chunks error
  end.

Definition import_artifact (source : Source) : Prog (result (ArtifactId * N) StorageError) :=
  let*? size := io (Ret source.(source_len)) in
  if self.(LocalStore_max_artifact_bytes) <? size then fail (too_large ArtifactId_default size)
  else
    let*? used := used_bytes in
    if self.(LocalStore_quota_bytes) <? sat_add u64_max used size then
      fail (StorageError_QuotaExceeded used size self.(LocalStore_quota_bytes))
    else
      let* temp := temp_path "artifact-import" in
      let*? _ := io (Ret source.(source_open)) in
      let*? _ := io (call (OpCreateNew temp)) in
      let*? _ := copy_chunks temp source.(source_chunks) source.(source_error) in
      let*? _ := io (call (OpSync temp)) in
      let artifact := ArtifactId_from_bytes_hashed (concat source.(source_chunks)) in
      let destination := ArtifactPath artifact in
      let* present := exists_path destination in
      if (present : bool) then
        let*? _ := io (call (OpRemove temp)) in
        let*? _ := verify_artifact artifact in
        Ret (Ok (artifact, size))
      else
        let* renamed := call (OpRename temp (FileEntry destination)) in
        match renamed with
        | Err error =>
            let* _ := call (OpRemove temp) in
            fail (StorageError_Io error)
        | Ok _ => Ret (Ok (artifact, size))
        end.

Definition get_artifact (artifact : ArtifactId) : Prog (result (list N) StorageError) :=
  let path := ArtifactPath artifact in
  let*? m := io (metadata path) in
  if self.(LocalStore_max_artifact_bytes) <? m.(meta_len) then
    let*? _ := quarantine artifact path in fail (too_large artifact m.(meta_len))
  else
    let*? bytes := io (read_file (FileEntry path)) in
    if ArtifactId_from_bytes_hashed bytes != artifact then
      let*? _ := quarantine artifact path in fail (StorageError_Integrity artifact)
    else Ret (Ok bytes).

Definition has_artifact (artifact : ArtifactId) : Prog bool :=
  let* r := metadata (ArtifactPath artifact) in
  Ret (match r with Ok m => negb m.(is_dir) | Err _ => false end).

Definition artifact_size (artifact : ArtifactId) : Prog (result N StorageError) :=
  let*? m := io (metadata (ArtifactPath artifact)) in
  if self.(LocalStore_max_artifact_bytes) <? m.(meta_len) then fail (too_large artifact m.(meta_len))
  else Ret (Ok m.(meta_len)).

Definition read_artifact_range (artifact : ArtifactId) (offset max_bytes : N)
    : Prog (result (list N * N) StorageError) :=
  if max_bytes =? 0 then
    fail (StorageError_InvalidState "artifact range must request at least one byte")
  else
    let*? size := artifact_size artifact in
    if size <? offset then
      fail (StorageError_InvalidState "artifact range starts beyond the artifact")
    else
      let length := N.to_nat (N.min (sat_sub size offset) max_bytes) in
      let*? bytes := io (read_exact (ArtifactPath artifact) offset length) in
      Ret (Ok (bytes, size)).

(** ** Partial transfers *)

Definition partial_artifact_size (artifact : ArtifactId) : Prog (result N StorageError) :=
  let* m := metadata (PartialPath artifact) in
  match m with
  | Ok m =>
      if self.(LocalStore_max_artifact_bytes) <? m.(meta_len)
      then fail (too_large artifact m.(meta_len)) else Ret (Ok m.(meta_len))
  | Err NotFound => Ret (Ok 0)
  | Err error => fail (StorageError_Io error)
  end.

Definition write_partial_artifact (artifact : ArtifactId) (expected_size offset : N)
    (bytes : list N) : Prog (result N StorageError) :=
  if (expected_size =? 0) || (self.(LocalStore_max_artifact_bytes) <? expected_size)
  then fail (too_large artifact expected_size)
  else
    let*? current := partial_artifact_size artifact in
    if is_empty bytes || negb (offset =? current)
       || (expected_size <? sat_add u64_max offset (len bytes))
    then fail (StorageError_InvalidState
                 "partial artifact chunk is not the next contiguous range")
    else
      let*? used := used_bytes in
      let base_used := sat_sub used current in
      if self.(LocalStore_quota_bytes) <? sat_add u64_max base_used expected_size then
        fail (StorageError_QuotaExceeded base_used expected_size self.(LocalStore_quota_bytes))
      else
        let path := PartialPath artifact in
        let*? _ := io (call (OpOpenAppend path)) in
        let*? _ := io (call (OpWriteAll path bytes)) in
        let*? _ := io (call (OpSync path)) in
        Ret (Ok (sat_add u64_max offset (len bytes))).

Definition finalize_partial_artifact (artifact : ArtifactId) (expected_size : N)
    (expected_hash : ArtifactId) : Prog (result unit StorageError) :=
  let partial := PartialPath artifact in
  let*? m := io (metadata partial) in
  if negb (m.(meta_len) =? expected_size) || (expected_hash != artifact)
  then fail (StorageError_Integrity artifact)
  else
    let*? hash := hash_file partial in
    if hash != expected_hash then
      let*? _ := quarantine_partial artifact partial in fail (StorageError_Integrity artifact)
    else
      let destination := ArtifactPath artifact in
      let* present := exists_path destination in
      if (present : bool) then
        let*? _ := io (call (OpRemove partial)) in verify_artifact artifact
      else
        let*? _ := io (call (OpRename partial (FileEntry destination))) in
        Ret (Ok tt).

Definition discard_partial_artifact (artifact : ArtifactId) : Prog (result unit StorageError) :=
  let* r := call (OpRemove (PartialPath artifact)) in
  match r with
  | Ok _ => Ret (Ok tt)
  | Err NotFound => Ret (Ok tt)
  | Err error => fail (StorageError_Io error)
  end.
End Store.

(** ** State files *)

(** serde_json at a type: [to_vec] and [from_slice]. *)
Class Json (T : Type) := {
  to_vec : T -> result (list N) String.string;
  from_slice : list N -> result T String.string
}.

(** A value written by [to_vec] is read back. *)
Class JsonLaws (T : Type) `{Json T} : Prop := {
  from_slice_to_vec : forall (v : T) b, to_vec v = Ok b -> from_slice b = Ok v
}.

Fixpoint has_char (c : ascii) (s : String.string) : bool :=
  match s with
  | EmptyString => false
  | String d s => (c == d) || has_char c s
  end.

(** [name.contains('/') || name.contains('\\') || name.is_empty()] *)
Definition not_local (name : String.string) : bool :=
  has_char "/" name || has_char "\" name || (name == EmptyString).

Record PersistedJob := mkPersistedJob {
  PersistedJob_job_id : JobId;
  PersistedJob_origin : NodeId;
  PersistedJob_state : JobState;
  PersistedJob_updated_at : N;
  PersistedJob_output_hash : option ArtifactId;
  PersistedJob_output : option (list N);
  PersistedJob_error : option String.string
}.

(** [PeerState], [RotationState], [JobStateFile], [DhtState], [DhtContactState] and
    [EvidenceState]: a format version and a list. *)
Record StateFile (T : Type) := mkStateFile {
  StateFile_version : N;
  StateFile_items : list T
}.
Arguments mkStateFile {T} _ _.
Arguments StateFile_version {T} _.
Arguments StateFile_items {T} _.

(** The shape shared by the six pairs of functions: what a collection is stored as and checked
    against. *)
Record Collection (T : Type) := mkCollection {
  Collection_name : String.string;
  Collection_max : N;
  Collection_too_many : String.string;
  Collection_check : T -> result unit StorageError
}.
Arguments mkCollection {T} _ _ _ _.
Arguments Collection_name {T} _.
Arguments Collection_max {T} _.
Arguments Collection_too_many {T} _.
Arguments Collection_check {T} _ _.

Section StateFiles.
Context `{Blake3}.
Context (self : LocalStore).

Definition write_json {T} `{Json T} (name : String.string) (value : T)
    : Prog (result unit StorageError) :=
  if not_local name then fail (StorageError_InvalidState "state file name is not local")
  else
    let*? bytes := Ret (map_err StorageError_Json (to_vec value)) in
    if MAX_STATE_BYTES <? len bytes then fail (StorageError_InvalidState "state file exceeds bound")
    else
      let* m := call (OpMetadata (state_entry name)) in
      let previous_size := match m with Ok m => m.(meta_len) | Err _ => 0 end in
      let*? used := used_bytes in
      let used := sat_sub used previous_size in
      if self.(LocalStore_quota_bytes) <? sat_add u64_max used (len bytes) then
        fail (StorageError_QuotaExceeded used (len bytes) self.(LocalStore_quota_bytes))
      else
        let* temp := temp_path "state" in
        let*? _ := write_new temp bytes in
        let*? _ := io (call (OpRename temp (state_entry name))) in
        Ret (Ok tt).

Definition read_json {T} `{Json T} (name : String.string) : Prog (result (option T) StorageError) :=
  if not_local name then fail (StorageError_InvalidState "state file name is not local")
  else
    let* m := call (OpMetadata (state_entry name)) in
    match m with
    | Ok m =>
        if MAX_STATE_BYTES <? m.(meta_len) then
          fail (StorageError_InvalidState "state file exceeds bound")
        else
          let*? bytes := io (read_file (state_entry name)) in
          Ret (map_err StorageError_Json (let? value := from_slice bytes in Ok (Some value)))
    | Err NotFound => Ret (Ok None)
    | Err error => fail (StorageError_Io error)
    end.

Definition read_json_or_default {T} `{Json T} (name : String.string) (default : T)
    : Prog (result T StorageError) :=
  let*? value := read_json name in
  Ret (Ok (match value with Some value => value | None => default end)).

Definition validate_state_version (version : N) : result unit StorageError :=
  fail_if (STATE_FORMAT_VERSION <? version)
    (StorageError_InvalidState ("state format version " ++ decimal version
       ++ " is newer than supported version " ++ decimal STATE_FORMAT_VERSION)%string).

(** [ValidationError::to_string] *)
Definition ValidationError_to_string (error : ValidationError) : String.string :=
  (match error with
   | ValidationError_TooLong field max => field ++ " exceeds maximum length " ++ decimal max
   | ValidationError_TooMany field max => field ++ " exceeds maximum count " ++ decimal max
   | ValidationError_Empty field => field ++ " must not be empty"
   | ValidationError_Invalid field => field ++ " has invalid value"
   | ValidationError_Oversized field => field ++ " exceeds the protocol frame limit"
   end)%string.

Definition invalid_entry (error : ValidationError) : StorageError :=
  StorageError_InvalidState (ValidationError_to_string error).

Definition check_items {T} (c : Collection T) (items : list T) : result unit StorageError :=
  fail_if (c.(Collection_max) <? len items)
    (StorageError_InvalidState c.(Collection_too_many)) ;?
  for_each c.(Collection_check) items.

Definition save_items {T} `{Json (StateFile T)} (c : Collection T) (items : list T)
    : Prog (result unit StorageError) :=
  let*? _ := Ret (check_items c items) in
  write_json c.(Collection_name) (mkStateFile STATE_FORMAT_VERSION items).

Definition load_items {T} `{Json (StateFile T)} (c : Collection T)
    : Prog (result (list T) StorageError) :=
  let*? state := read_json_or_default c.(Collection_name) (mkStateFile STATE_FORMAT_VERSION []) in
  Ret (validate_state_version state.(StateFile_version) ;?
       check_items c state.(StateFile_items) ;?
       Ok state.(StateFile_items)).

Definition peer_records : Collection PeerRecord :=
  mkCollection "peers.json" MAX_PERSISTED_PEERS "peer state exceeds local bound"
    (fun peer => map_err invalid_entry (PeerRecord_validate peer)).

Definition key_rotations : Collection KeyRotation :=
  mkCollection "rotations.json" MAX_PERSISTED_ROTATIONS "key rotation state exceeds local bound"
    (fun rotation => map_err invalid_entry (KeyRotation_validate rotation)).

Definition dht_records : Collection DhtRecord :=
  mkCollection "dht.json" MAX_PERSISTED_DHT_RECORDS "DHT record state exceeds local bound"
    (fun record => map_err invalid_entry (DhtRecord_validate record)).

Definition dht_contacts : Collection SignedAnnouncement :=
  mkCollection "dht-contacts.json" MAX_PERSISTED_DHT_CONTACTS
    "DHT contact state exceeds local bound"
    (fun contact => map_err invalid_entry (SignedAnnouncement_validate contact)).

Definition evidence : Collection SignedEvidence :=
  mkCollection "evidence.json" MAX_PERSISTED_EVIDENCE "evidence state exceeds local bound"
    (fun item => map_err invalid_entry (SignedEvidence_validate item)).

Definition jobs : Collection PersistedJob :=
  mkCollection "jobs.json" MAX_PERSISTED_JOBS "job state exceeds local bound"
    (fun job => fail_if (match job.(PersistedJob_output) with
                         | Some output => MAX_JOB_OUTPUT <? len output
                         | None => false
                         end)
                  (StorageError_InvalidState "persisted job output exceeds bound")).

Definition save_peer_records `{Json (StateFile PeerRecord)} := save_items peer_records.

Definition load_peer_records `{Json (StateFile PeerRecord)} := load_items peer_records.

Definition save_key_rotations `{Json (StateFile KeyRotation)} := save_items key_rotations.

Definition load_key_rotations `{Json (StateFile KeyRotation)} := load_items key_rotations.

Definition save_dht_records `{Json (StateFile DhtRecord)} := save_items dht_records.

Definition load_dht_records `{Json (StateFile DhtRecord)} := load_items dht_records.

Definition save_dht_contacts `{Json (StateFile SignedAnnouncement)} := save_items dht_contacts.

Definition load_dht_contacts `{Json (StateFile SignedAnnouncement)} := load_items dht_contacts.

Definition save_evidence `{Json (StateFile SignedEvidence)} := save_items evidence.

Definition load_evidence `{Json (StateFile SignedEvidence)} := load_items evidence.

Definition save_jobs `{Json (StateFile PersistedJob)} := save_items jobs.

Definition load_jobs `{Json (StateFile PersistedJob)} := load_items jobs.
End StateFiles.
