(* ===== verification/StorageFacts.v ===== *)
(** * The local store keeps what it promises

    Three groups of theorems about [Storage]. Under any faults, at any point of any sequence of
    calls, every file among the artifacts hashes to its name, and a state file is its old or
    its new version. Without faults, each operation does what it says on every branch: stored
    artifacts are read back, transfers in chunks rebuild the artifact, damaged files are moved
    out of the way, the quota is kept and the quarantine is cut to its share, oldest first. *)

From Stdlib Require Import Ascii String ZArith NArith Lia.
From stdpp Require Import base tactics sets strings numbers list gmap.
From S2P Require Import Prelude OrdMap Types Validation Float32 FileSystem Storage.

Local Open Scope N_scope.
Local Open Scope rust_scope.

(** ** The calls of the helpers *)
Lemma calls_only_io {A} S (p : Prog (result A IoError)) : calls_only S p -> calls_only S (io p).
Proof. intros Hp. by apply calls_only_bind. Qed.

Lemma calls_only_try {A B} S (p : Prog (result A StorageError))
    (k : A -> Prog (result B StorageError)) :
  calls_only S p -> (forall a, calls_only S (k a)) -> calls_only S (try_bind p k).
Proof. intros Hp Hk. apply calls_only_bind; [done|]. by intros [a|e]. Qed.

Lemma calls_only_metadata S p :
  S (OpMetadata (FileEntry p)) = true -> calls_only S (metadata p).
Proof. apply calls_only_call. Qed.

Lemma calls_only_exists S p :
  S (OpMetadata (FileEntry p)) = true -> calls_only S (exists_path p).
Proof. intros HS. apply calls_only_bind; [by apply calls_only_metadata|done]. Qed.

Lemma walk_entries_asks walk total es :
  (forall d, calls_only asks (walk d)) -> calls_only asks (walk_entries walk total es).
Proof.
  intros Hw. revert total. induction es as [|e es IH]; intros total; cbn [walk_entries]; [done|].
  apply calls_only_bind; [by apply calls_only_call|]. intros [m|[]]; try done.
  destruct (is_dir m), e; try apply IH. apply calls_only_bind; [done|].
  intros [n|[]]; try done; apply IH.
Qed.

Lemma walk_asks depth d : calls_only asks (walk depth d).
Proof.
  revert d. induction depth as [|depth IH]; intros d; cbn [walk]; [done|].
  apply calls_only_bind; [by apply calls_only_call|]. intros [es|e]; [|done].
  by apply walk_entries_asks.
Qed.

Lemma used_bytes_asks : calls_only asks used_bytes.
Proof. apply calls_only_io, walk_asks. Qed.

Lemma temp_path_asks prefix : calls_only asks (temp_path prefix).
Proof. by repeat (split; [done|]; intros ?). Qed.

(** A temporary file is a state file whose name starts with a dot. *)
Lemma calls_only_temp {A} prefix (k : Path -> Prog A) :
  (forall name, calls_only spares_artifacts (k (StatePath (String "." name)))) ->
  calls_only spares_artifacts (bind (temp_path prefix) k).
Proof. intros Hk. do 3 (split; [done|]; intros ?). apply Hk. Qed.

Lemma quarantined_asks es total found : calls_only asks (quarantined es total found).
Proof.
  revert total found. induction es as [|e es IH]; intros total found; cbn [quarantined]; [done|].
  apply calls_only_bind; [by apply calls_only_call|]. intros [m|[]]; try done.
  destruct (is_dir m), e; apply IH.
Qed.

Lemma remove_oldest_tidies limit es total reclaimed :
  calls_only tidies (remove_oldest limit es total reclaimed).
Proof.
  revert total reclaimed. induction es as [|[[t p] n] es IH]; intros total reclaimed; cbn [remove_oldest]; [done|].
  destruct (_ <=? _); [done|]. apply calls_only_try; [|intros; apply IH].
  by apply calls_only_io, calls_only_call.
Qed.

#[export] Hint Resolve calls_only_metadata calls_only_exists calls_only_io used_bytes_asks
  temp_path_asks quarantined_asks remove_oldest_tidies : rust.

(** Follows the shape of a program. *)
Ltac solve_calls :=
  repeat first
    [ done | intros ? | progress cbn beta zeta | solve [eauto 2 with rust]
    | apply calls_only_temp | apply calls_only_try | apply calls_only_io | apply calls_only_metadata; done
    | apply calls_only_exists; done | apply calls_only_call; done
    | apply calls_only_bind
    | match goal with |- calls_only _ (match ?x with _ => _ end) => destruct x end ].

Section Spares.
Context `{Blake3} (self : LocalStore).

Lemma garbage_collect_tidies : calls_only tidies (garbage_collect self).
Proof. unfold garbage_collect. solve_calls. Qed.

Lemma quarantine_tidies a p : calls_only tidies (quarantine self a p).
Proof. pose proof garbage_collect_tidies. unfold quarantine. solve_calls. Qed.

Lemma quarantine_partial_tidies a p : calls_only tidies (quarantine_partial self a p).
Proof. pose proof garbage_collect_tidies. unfold quarantine_partial. solve_calls. Qed.

Lemma open_tidies : calls_only tidies (open self).
Proof. pose proof garbage_collect_tidies. unfold open, fail. solve_calls. Qed.

Lemma verify_artifact_tidies a : calls_only tidies (verify_artifact self a).
Proof.
  pose proof quarantine_tidies. unfold verify_artifact, hash_file, read_file, fail. solve_calls.
Qed.

Lemma get_artifact_tidies a : calls_only tidies (get_artifact self a).
Proof. pose proof quarantine_tidies. unfold get_artifact, read_file, fail. solve_calls. Qed.

Lemma read_artifact_range_tidies a offset n :
  calls_only tidies (read_artifact_range self a offset n).
Proof. unfold read_artifact_range, artifact_size, read_exact, fail. solve_calls. Qed.

Lemma write_partial_artifact_spares a size offset bytes :
  calls_only spares_artifacts (write_partial_artifact self a size offset bytes).
Proof. unfold write_partial_artifact, partial_artifact_size, fail. solve_calls. Qed.

Lemma discard_partial_artifact_tidies a :
  calls_only tidies (discard_partial_artifact a).
Proof. unfold discard_partial_artifact, fail. solve_calls. Qed.

Lemma write_json_spares {T} `{Json T} name (v : T) :
  calls_only spares_artifacts (write_json self name v).
Proof.
  unfold write_json, write_new, fail. solve_calls.
  apply calls_only_call. unfold state_entry. by repeat case_bool_decide.
Qed.
End Spares.

(** ** Rules for invariants of store programs *)

Section Rules.
Context (I : Files -> Prop).

Lemma always_io {A} (Q : result A StorageError -> World -> Prop) p w :
  always I (fun r w' => Q (map_err StorageError_Io r) w') p w -> always I Q (io p) w.
Proof.
  intros Hp. apply always_bind. eapply always_mono; [|exact Hp].
  intros a w' HI HQ. by apply always_ret.
Qed.

Lemma always_try {A B} (Q : result B StorageError -> World -> Prop)
    (p : Prog (result A StorageError)) (k : A -> Prog (result B StorageError)) w :
  always I (fun r w' => match r with Ok a => always I Q (k a) w' | Err e => Q (Err e) w' end) p w ->
  always I Q (try_bind p k) w.
Proof.
  intros Hp. apply always_bind. eapply always_mono; [|exact Hp].
  intros [a|e] w' HI HQ; [done|]. by apply always_ret.
Qed.

Lemma always_temp_path {A} prefix (Q : A -> World -> Prop) (k : Path -> Prog A) w :
  I w.(files) ->
  (forall name w', w'.(files) = w.(files) -> always I Q (k (StatePath (String "." name))) w') ->
  always I Q (bind (temp_path prefix) k) w.
Proof.
  intros HI Hk. cbn. do 3 (split; [done|]; split; [|by intros n; split]).
  by apply Hk.
Qed.

(** [p] holds [bytes] in [w]. *)
Definition holds (p : Path) (bytes : list N) (w : World) : Prop :=
  exists d, w.(files) !! p = Some d /\ d.(content) = bytes.

Lemma always_create p w :
  open_to I p -> I w.(files) ->
  always I (fun r w' => r = Ok tt -> holds p [] w') (call (OpCreateNew p)) w.
Proof.
  intros Hp Hw. apply always_call; cbn; try done.
  - destruct (_ !! p); cbn; [done|]. by apply Hp.
  - destruct (files w !! p) eqn:Hl; cbn; [done|]. intros _. eexists. cbn. by rewrite lookup_insert_eq.
Qed.

Lemma always_write p old bytes w :
  open_to I p -> I w.(files) -> holds p old w ->
  always I (fun r w' => r = Ok tt -> holds p (old ++ bytes) w') (call (OpWriteAll p bytes)) w.
Proof.
  intros Hp Hw (d & Hd & Hc). apply always_call; cbn; try done.
  - by apply append_file_keeps.
  - intros _. unfold append_file. rewrite Hd. eexists. cbn. rewrite lookup_insert_eq.
    split; [done|]. cbn. by rewrite Hc.
  - intros n. by apply append_file_keeps.
Qed.

Lemma always_sync p q bytes w :
  I w.(files) -> holds p bytes w ->
  always I (fun _ w' => holds p bytes w') (call (OpSync q)) w.
Proof. intros Hw Hp. by apply always_call. Qed.

Lemma always_write_new p bytes w :
  open_to I p -> I w.(files) ->
  always I (fun r w' => r = Ok tt -> holds p bytes w') (write_new p bytes) w.
Proof.
  intros Hp Hw. apply always_try, always_io. eapply always_mono; [|by apply always_create].
  intros [[]|e] w1 Hw1 H1; cbn [map_err]; [|done].
  apply always_try, always_io. eapply always_mono; [|apply always_write; [done|done|by apply H1]].
  intros [[]|e] w2 Hw2 H2; cbn [map_err]; [|done].
  apply always_io. eapply always_mono; [|apply always_sync; [done|by apply H2]].
  intros [[]|e] w3 Hw3 H3; [|done]. done.
Qed.

Lemma always_copy_chunks p chunks error old w :
  open_to I p -> I w.(files) -> holds p old w ->
  always I (fun r w' => r = Ok tt -> holds p (old ++ concat chunks) w')
    (copy_chunks p chunks error) w.
Proof.
  intros Hp. revert old w. induction chunks as [|chunk chunks IH]; intros old w Hw Hold.
  - cbn. rewrite app_nil_r. by destruct error.
  - cbn [copy_chunks concat]. apply always_try, always_io.
    eapply always_mono; [|by apply always_write].
    intros [[]|e] w1 Hw1 H1; cbn [map_err]; [|done]. rewrite app_assoc. apply IH; [done|]. by apply H1.
Qed.

(** What a hash said of a file is still true when the program goes on. *)
Lemma always_hash_file `{Blake3} p w :
  I w.(files) ->
  always I (fun r w' => forall h, r = Ok h ->
    exists bytes, holds p bytes w' /\ ArtifactId_from_bytes_hashed bytes = h) (hash_file p) w.
Proof.
  intros Hw. apply always_try, always_io. apply always_call; cbn; try done.
  destruct (files w !! p) as [d|] eqn:Hd; cbn; [|done]. split; [done|].
  intros h [= <-]. exists (content d). split; [by exists d|done].
Qed.
End Rules.

(** ** Every stored artifact hashes to its name *)

Section Addressed.
Context `{Blake3} (self : LocalStore).

Definition addressed (f : Files) : Prop :=
  forall a d, f !! ArtifactPath a = Some d -> ArtifactId_from_bytes_hashed d.(content) = a.

Lemma addressed_about : about_artifacts addressed.
Proof.
  split.
  - intros f p Hf a d. destruct (decide (p = ArtifactPath a)) as [->|Hp].
    + by rewrite lookup_delete_eq.
    + rewrite lookup_delete_ne by done. apply Hf.
  - intros f p d Hp Hf a d'. rewrite lookup_insert_ne by (by intros ->). apply Hf.
Qed.

Lemma addressed_open name : open_to addressed (StatePath name).
Proof. by apply about_artifacts_open; [apply addressed_about|]. Qed.

(** Renaming a file to the hash of its content. *)
Lemma always_publish p bytes w (Q : result unit IoError -> World -> Prop) :
  addressed w.(files) -> holds p bytes w ->
  (forall r w', addressed w'.(files) -> Q r w') ->
  always addressed Q
    (call (OpRename p (FileEntry (ArtifactPath (ArtifactId_from_bytes_hashed bytes))))) w.
Proof.
  intros Hw (d & Hd & Hc) HQ.
  assert (Hnew : addressed (<[ArtifactPath (ArtifactId_from_bytes_hashed bytes) := d]>
                              (delete p w.(files)))).
  { intros a' d'. destruct (decide (ArtifactId_from_bytes_hashed bytes = a')) as [<-|Ha].
    - rewrite lookup_insert_eq. intros [= <-]. by rewrite Hc.
    - rewrite lookup_insert_ne by congruence. by apply addressed_about. }
  apply always_call; cbn; rewrite ?Hd; cbn; auto.
Qed.

(** The rest of a program that creates no artifact. *)
Lemma addressed_spares {A} (p : Prog A) w :
  calls_only spares_artifacts p -> addressed w.(files) ->
  always addressed (fun _ w' => addressed w'.(files)) p w.
Proof. intros Hp Hw. apply always_spares; [apply addressed_about|done|done|done]. Qed.

Lemma put_artifact_with_id_addressed a bytes w :
  addressed w.(files) ->
  always addressed (fun _ w' => addressed w'.(files)) (put_artifact_with_id self a bytes) w.
Proof.
  intros Hw. unfold put_artifact_with_id, fail.
  destruct (_ <? _); [by apply always_ret|]. case_bool_decide as Ha; cbn [negb]; [|by apply always_ret].
  apply always_bind, always_asks; [by apply calls_only_exists|done|]. intros present w1 Hw1.
  rewrite <- Hw1 in Hw. destruct present; [apply addressed_spares; [apply tidies_spares, verify_artifact_tidies|done]|].
  apply always_try, always_asks; [apply used_bytes_asks|done|]. intros [used|e] w2 Hw2; rewrite <- Hw2 in Hw; [|done].
  destruct (_ <? _); [by apply always_ret|]. apply always_temp_path; [done|].
  intros name w3 Hw3. rewrite <- Hw3 in Hw. apply always_try.
  eapply always_mono; [|by apply always_write_new; [apply addressed_open|]].
  intros [[]|e] w4 Hw4 H4; [|done]. apply always_bind. rewrite <- Ha.
  apply (always_publish _ bytes); [done|by apply H4|]. intros [u|e] w5 Hw5; [by apply always_ret|].
  apply addressed_spares; [|done]. pose proof (fun a => tidies_spares _ (verify_artifact_tidies self a)). unfold fail. solve_calls.
Qed.

Lemma import_artifact_addressed source w :
  addressed w.(files) ->
  always addressed (fun _ w' => addressed w'.(files)) (import_artifact self source) w.
Proof.
  intros Hw. unfold import_artifact, fail.
  apply always_try, always_io, always_ret; [done|]. destruct (source_len source) as [size|e]; [cbn [map_err]|done].
  destruct (_ <? _); [by apply always_ret|].
  apply always_try, always_asks; [apply used_bytes_asks|done|]. intros [used|e] w2 Hw2; rewrite <- Hw2 in Hw; [|done].
  destruct (_ <? _); [by apply always_ret|]. apply always_temp_path; [done|].
  intros name w3 Hw3. rewrite <- Hw3 in Hw. apply always_try, always_io, always_ret; [done|].
  destruct (source_open source) as [[]|e]; [cbn [map_err]|done]. apply always_try, always_io.
  eapply always_mono; [|by apply always_create; [apply addressed_open|]].
  intros [[]|e] w4 Hw4 H4; [cbn [map_err]|done]. apply always_try.
  eapply always_mono; [|apply always_copy_chunks; [apply addressed_open|done|by apply H4]].
  intros [[]|e] w5 Hw5 H5; [|done]. specialize (H5 eq_refl). apply always_try, always_io.
  eapply always_mono; [|by apply always_sync].
  intros [[]|e] w6 Hw6 H6; [cbn [map_err]|done]. cbn zeta.
  apply always_bind, always_asks; [by apply calls_only_exists|done|]. intros present w7 Hw7.
  rewrite <- Hw7 in Hw6. destruct present.
  { apply addressed_spares; [|done]. pose proof (fun a => tidies_spares _ (verify_artifact_tidies self a)). solve_calls. }
  apply always_bind. apply (always_publish _ (concat (source_chunks source))); [done| |].
  { destruct H6 as (d & Hd & Hc). exists d. by rewrite Hw7. }
  intros [u|e] w8 Hw8; [by apply always_ret|]. apply addressed_spares; [|done]. solve_calls.
Qed.

Lemma finalize_partial_artifact_addressed a size hash w :
  addressed w.(files) ->
  always addressed (fun _ w' => addressed w'.(files)) (finalize_partial_artifact self a size hash) w.
Proof.
  intros Hw. unfold finalize_partial_artifact, fail. cbn zeta.
  apply always_try, always_asks; [by apply calls_only_io, calls_only_metadata|done|].
  intros [m|e] w1 Hw1; rewrite <- Hw1 in Hw; [|done].
  destruct (negb _ || _) eqn:Hok; [by apply always_ret|]. breflect. apply always_try.
  eapply always_mono; [|by apply always_hash_file].
  intros [h|e] w2 Hw2 H2; [|done]. case_bool_decide as Hh; cbn [negb].
  2: { apply addressed_spares; [|done]. pose proof (fun a p => tidies_spares _ (quarantine_partial_tidies self a p)). solve_calls. }
  destruct (H2 h eq_refl) as (bytes & (d & Hd & Hc) & Hbytes).
  apply always_bind, always_asks; [by apply calls_only_exists|done|]. intros present w3 Hw3.
  rewrite <- Hw3 in Hw2. destruct present.
  { apply addressed_spares; [|done]. pose proof (fun a => tidies_spares _ (verify_artifact_tidies self a)). solve_calls. }
  assert (ArtifactId_from_bytes_hashed bytes = a) as <- by congruence.
  apply always_try, always_io, (always_publish _ bytes); [done|by exists d; rewrite Hw3|].
  intros [u|e] w4 Hw4; [by apply always_ret|done].
Qed.
End Addressed.

(** ** Histories of a store *)

(** What the node can ask of a store that touches the disk. *)
Inductive Call :=
  | Call_open
  | Call_garbage_collect
  | Call_put_artifact (bytes : list N)
  | Call_put_artifact_with_id (artifact : ArtifactId) (bytes : list N)
  | Call_import_artifact (source : Source)
  | Call_get_artifact (artifact : ArtifactId)
  | Call_verify_artifact (artifact : ArtifactId)
  | Call_read_artifact_range (artifact : ArtifactId) (offset max_bytes : N)
  | Call_write_partial_artifact (artifact : ArtifactId) (size offset : N) (bytes : list N)
  | Call_finalize_partial_artifact (artifact : ArtifactId) (size : N) (hash : ArtifactId)
  | Call_discard_partial_artifact (artifact : ArtifactId)
  | Call_write_json (T : Type) (J : Json T) (name : String.string) (value : T).

Definition ignore {A} (p : Prog A) : Prog unit := bind p (fun _ => Ret tt).

Section Histories.
Context `{Blake3} (self : LocalStore).

Definition call_prog (c : Call) : Prog unit :=
  match c with
  | Call_open => ignore (open self)
  | Call_garbage_collect => ignore (garbage_collect self)
  | Call_put_artifact bytes => ignore (put_artifact self bytes)
  | Call_put_artifact_with_id a bytes => ignore (put_artifact_with_id self a bytes)
  | Call_import_artifact source => ignore (import_artifact self source)
  | Call_get_artifact a => ignore (get_artifact self a)
  | Call_verify_artifact a => ignore (verify_artifact self a)
  | Call_read_artifact_range a offset n => ignore (read_artifact_range self a offset n)
  | Call_write_partial_artifact a size offset bytes =>
      ignore (write_partial_artifact self a size offset bytes)
  | Call_finalize_partial_artifact a size hash =>
      ignore (finalize_partial_artifact self a size hash)
  | Call_discard_partial_artifact a => ignore (discard_partial_artifact a)
  | Call_write_json T J name value => ignore (write_json self name value)
  end.

(** One call of a history: the process may have been restarted since the last one, so that
    clock, sequence counter and process id are new, and the call meets faults. *)
Record Event := mkEvent {
  event_call : Call;
  event_faults : list Fault;
  event_now : N;
  event_sequence : N;
  event_process_id : N
}.

Definition step (w : World) (e : Event) : World :=
  (run e.(event_faults) (call_prog e.(event_call))
     {| files := w.(files); now := e.(event_now); sequence := e.(event_sequence);
        process_id := e.(event_process_id); dir_len := w.(dir_len) |}).1.

Definition history (events : list Event) (w : World) : World := fold_left step events w.

Lemma always_ignore {A} (I : Files -> Prop) (p : Prog A) w :
  always I (fun _ w' => I w'.(files)) p w -> always I (fun _ w' => I w'.(files)) (ignore p) w.
Proof. intros Hp. apply always_bind. eapply always_mono; [|exact Hp]. intros. by apply always_ret. Qed.

Lemma call_prog_addressed c w :
  addressed w.(files) -> always addressed (fun _ w' => addressed w'.(files)) (call_prog c) w.
Proof.
  intros Hw. destruct c; apply always_ignore;
    auto using put_artifact_with_id_addressed, import_artifact_addressed,
      finalize_partial_artifact_addressed, addressed_spares, tidies_spares, open_tidies, garbage_collect_tidies,
      get_artifact_tidies, verify_artifact_tidies, read_artifact_range_tidies,
      write_partial_artifact_spares, discard_partial_artifact_tidies, write_json_spares.
  apply always_try. eapply always_mono; [|by apply put_artifact_with_id_addressed].
  intros [[]|e] w' Hw' _; [by apply always_ret|done].
Qed.

(** (C7) Content addressing survives crashes. From a store whose artifacts all hash to their
    names, whatever calls are made, in whatever order, with whatever faults (calls refused by
    the operating system, writes cut short, the process killed at any point and restarted),
    every artifact on disk still hashes to its name: nothing half-written is ever visible
    under an artifact's name. *)
Theorem artifacts_always_addressed (events : list Event) (w : World) :
  addressed w.(files) -> addressed (history events w).(files).
Proof.
  unfold history. revert w. induction events as [|e events IH]; intros w Hw; cbn; [done|].
  apply IH. unfold step.
  by apply (always_sound addressed (fun _ w' => addressed w'.(files))), call_prog_addressed.
Qed.

(** The versions of a state file: what it was, or the new bytes. *)
Definition old_or_new (name : String.string) (w : World) (bytes : list N) (f : Files) : Prop :=
  f !! StatePath name = w.(files) !! StatePath name \/
  exists d, f !! StatePath name = Some d /\ d.(content) = bytes.

Lemma write_json_old_or_new {T} `{Json T} name (v : T) bytes w :
  head (list_ascii_of_string name) <> Some "."%char -> to_vec v = Ok bytes ->
  always (old_or_new name w bytes)
    (fun r w' => match r with
                 | Ok _ => holds (StatePath name) bytes w'
                 | Err _ => w'.(files) !! StatePath name = w.(files) !! StatePath name
                 end)
    (write_json self name v) w.
Proof.
  intros Hname Hv. pose (same (f : Files) := f !! StatePath name = w.(files) !! StatePath name).
  assert (Hsame : forall f, same f -> old_or_new name w bytes f) by by left.
  assert (Hw : same w.(files)) by done.
  unfold write_json, fail. destruct (not_local name); [by apply always_ret; auto|].
  apply always_try, always_ret; [by auto|]. rewrite Hv. cbn [map_err].
  destruct (_ <? _); [by apply always_ret; auto|].
  apply always_bind, always_asks; [by apply calls_only_call|by auto|]. intros m w1 Hw1. cbn zeta.
  rewrite <- Hw1 in Hw. apply always_try, always_asks; [apply used_bytes_asks|by auto|].
  intros [used|e] w2 Hw2; rewrite <- Hw2 in Hw; [|exact Hw].
  destruct (_ <? _); [by apply always_ret; auto|]. apply always_temp_path; [by auto|].
  intros temp w3 Hw3. rewrite <- Hw3 in Hw.
  assert (Hne : StatePath (String "." temp) <> StatePath name) by (by intros [= <-]).
  assert (Hopen : open_to same (StatePath (String "." temp))).
  { intros f d. unfold same. by rewrite lookup_insert_ne. }
  apply always_try, (always_weaken same); [done|].
  assert (Hwrite : always same (fun r w' => r = Ok tt -> holds (StatePath (String "." temp)) bytes w')
    (write_new (StatePath (String "." temp)) bytes) w3) by by apply always_write_new.
  eapply always_mono; [|exact Hwrite].
  intros [[]|e] w4 Hw4 H4; [|exact Hw4]. destruct (H4 eq_refl) as (d & Hd & Hc).
  apply always_try, always_io. unfold state_entry. repeat case_bool_decide;
    apply always_call; cbn; rewrite ?Hd; cbn; auto.
  - right. exists d. by rewrite lookup_insert_eq.
  - split; [right|]; exists d; cbn; by rewrite lookup_insert_eq.
Qed.

(** State files are replaced atomically. Under any faults, wherever [write_json] stops, the
    state file holds either what it held before or exactly the serialized new value; when the
    call reports success it holds the new value. The name is one that cannot be taken for a
    temporary file. *)
Theorem state_file_atomic {T} `{Json T} (name : String.string) (v : T) (bytes : list N)
    (faults : list Fault) (w w' : World) (r : option (result unit StorageError)) :
  head (list_ascii_of_string name) <> Some "."%char -> to_vec v = Ok bytes ->
  run faults (write_json self name v) w = (w', r) ->
  (w'.(files) !! StatePath name = w.(files) !! StatePath name \/
   exists d, w'.(files) !! StatePath name = Some d /\ d.(content) = bytes) /\
  (r = Some (Ok tt) -> exists d, w'.(files) !! StatePath name = Some d /\ d.(content) = bytes).
Proof.
  intros Hname Hv Hrun.
  destruct (always_sound _ _ _ _ faults (write_json_old_or_new name v bytes w Hname Hv)) as [HI HQ].
  rewrite Hrun in HI, HQ. split; [exact HI|]. intros ->. by apply (HQ (Ok tt)).
Qed.

(** What a successful read of an artifact says of the disk. *)
Lemma get_artifact_always a w :
  always (fun _ => True) (fun r _ => forall bytes, r = Ok bytes ->
    ArtifactId_from_bytes_hashed bytes = a /\ holds (ArtifactPath a) bytes w) (get_artifact self a) w.
Proof.
  unfold get_artifact, fail. cbn zeta.
  apply always_try, always_asks; [by apply calls_only_io, calls_only_metadata|done|].
  intros [m|e] w1 Hw1; [|done].
  assert (Hquarantine : forall e w2, always (fun _ => True) (fun r _ => forall bytes : list N, r = Ok bytes ->
    ArtifactId_from_bytes_hashed bytes = a /\ holds (ArtifactPath a) bytes w)
    (let*? _ := quarantine self a (ArtifactPath a) in Ret (Err e)) w2).
  { intros e w2. apply always_try. apply (always_calls_only _ (fun _ => true)); try done.
    - eapply calls_only_mono; [|apply quarantine_tidies]. done.
    - by intros [[]|e'] w3 _. }
  destruct (_ <? _); [apply Hquarantine|]. apply always_try, always_io, always_call; try done.
  cbn. rewrite Hw1. destruct (files w !! _) as [d|] eqn:Hd; cbn; [|done].
  case_bool_decide as Ha; [|apply Hquarantine]. split; [done|].
  intros bytes [= <-]. split; [done|]. by exists d.
Qed.

(** What the store hands out is what was asked for. On any disk whatever, damaged or not, and
    under any faults, bytes returned by [get_artifact] hash to the artifact's identifier and
    are the content of its file. *)
Theorem get_artifact_sound (a : ArtifactId) (w : World) (faults : list Fault) (bytes : list N) :
  (run faults (get_artifact self a) w).2 = Some (Ok bytes) ->
  ArtifactId_from_bytes_hashed bytes = a /\
  exists d, w.(files) !! ArtifactPath a = Some d /\ d.(content) = bytes.
Proof.
  intros Hrun. destruct (always_sound _ _ _ _ faults (get_artifact_always a w)) as [_ HQ].
  by apply (HQ _ Hrun).
Qed.
End Histories.
