(* ===== verification/StorageRuns.v ===== *)
(** * The local store without faults

    What the operations of [Storage] do on a disk where no call is refused: quota accounting
    counts every byte below the root, garbage collection cuts the quarantine to its share by
    removing the oldest files, artifacts are read back as they were put, transfers in chunks
    rebuild the artifact, and no sequence of operations exceeds the quota. *)

From Stdlib Require Import Ascii String ZArith NArith Lia.
From stdpp Require Import base tactics sets strings numbers sorting list gmap.
From S2P Require Import Prelude OrdMap Types Validation Float32 FileSystem Storage StorageFacts.

Local Open Scope N_scope.
Local Open Scope rust_scope.

(** ** Equations of [exec] *)
Lemma exec_try {A B} (p : Prog (result A StorageError)) (k : A -> Prog (result B StorageError)) w :
  exec (try_bind p k) w =
  match (exec p w).2 with
  | Ok a => exec (k a) (exec p w).1
  | Err e => ((exec p w).1, Err e)
  end.
Proof. unfold try_bind. rewrite exec_bind. by destruct (exec p w) as [w' [a|e]]. Qed.

Lemma exec_io {A} (p : Prog (result A IoError)) w :
  exec (io p) w = ((exec p w).1, map_err StorageError_Io (exec p w).2).
Proof. unfold io. by rewrite exec_bind. Qed.

Lemma exec_call o w : exec (call o) w = perform o w.
Proof. cbn. by destruct (perform o w). Qed.

(** What [metadata] says of a file that may be missing. *)
Definition stat (o : option FileData) : result Metadata IoError :=
  match o with
  | Some d => Ok {| is_dir := false; meta_len := file_len d; meta_modified := d.(modified) |}
  | None => Err NotFound
  end.

Lemma exec_metadata p w : exec (metadata p) w = (w, stat (w.(files) !! p)).
Proof. done. Qed.

Lemma exec_read_file p w :
  exec (read_file (FileEntry p)) w
  = (w, match w.(files) !! p with Some d => Ok d.(content) | None => Err NotFound end).
Proof. done. Qed.

Lemma exec_exists_path p w :
  exec (exists_path p) w = (w, match w.(files) !! p with Some _ => true | None => false end).
Proof. unfold exists_path. rewrite exec_bind, exec_metadata. cbn. by destruct (_ !! p). Qed.

Lemma exec_hash_file `{Blake3} p w :
  exec (hash_file p) w
  = (w, match w.(files) !! p with
        | Some d => Ok (ArtifactId_from_bytes_hashed d.(content))
        | None => Err (StorageError_Io NotFound)
        end).
Proof.
  unfold hash_file. rewrite exec_try, exec_io, exec_read_file. by destruct (_ !! p).
Qed.

(** ** Accounting *)

Definition sum_paths (f : Files) (ps : list Path) : N :=
  foldr (fun p acc => opt_len (f !! p) + acc) 0 ps.

Lemma sum_paths_cons f p ps : sum_paths f (p :: ps) = opt_len (f !! p) + sum_paths f ps.
Proof. done. Qed.

Lemma sum_paths_total f : sum_paths f (paths f) = total_len f.
Proof.
  unfold total_len, sum_paths, paths. rewrite map_fold_foldr.
  assert (Hall : forall pd, pd ∈ map_to_list f -> f !! pd.1 = Some pd.2)
    by (intros [p d]; apply elem_of_map_to_list).
  induction (map_to_list f) as [|[p d] l IH]; cbn; [done|].
  rewrite IH by (intros; apply Hall; by right).
  pose proof (Hall (p, d)) as Hp. cbn in Hp. by rewrite Hp by left.
Qed.

Lemma sum_paths_dirs f ps :
  sum_paths f ps =
  sum_paths f (List.filter (fun p => (parent p == ArtifactsDir)) ps)
  + sum_paths f (List.filter (fun p => (parent p == QuarantineDir)) ps)
  + (sum_paths f (List.filter (fun p => (parent p == TransfersDir)) ps)
     + sum_paths f (List.filter (fun p => (parent p == StateDir)) ps))
  + sum_paths f (List.filter (fun p => (parent p == RootDir)) ps).
Proof.
  induction ps as [|p ps IH]; [done|].
  rewrite sum_paths_cons, IH.
  destruct p; cbn [List.filter parent]; repeat (case_bool_decide; try done);
    rewrite sum_paths_cons; lia.
Qed.

Lemma in_dir_present f d p : p ∈ in_dir d f -> is_Some (f !! p).
Proof.
  unfold in_dir, paths. rewrite elem_of_filter_b. intros [([p' d'] & -> & Hp)%list_elem_of_fmap _].
  apply elem_of_map_to_list in Hp. by exists d'.
Qed.

Lemma in_dir_elem f d p : p ∈ in_dir d f <-> is_Some (f !! p) /\ parent p = d.
Proof.
  split.
  - intros Hp. split; [by eapply in_dir_present|]. unfold in_dir in Hp.
    apply elem_of_filter_b in Hp as [_ Hd]. by breflect.
  - intros [[x Hx] <-]. unfold in_dir, paths. apply elem_of_filter_b. split.
    + apply list_elem_of_fmap. exists (p, x). split; [done|]. by apply elem_of_map_to_list.
    + by apply bool_decide_eq_true_2.
Qed.

Lemma NoDup_in_dir f d : NoDup (in_dir d f).
Proof.
  unfold in_dir. eapply sublist_NoDup; [|apply filter_sublist].
  apply NoDup_fst_map_to_list.
Qed.

Lemma sat_add_min t n : sat_add u64_max (N.min t u64_max) n = N.min (t + n) u64_max.
Proof. unfold sat_add. lia. Qed.

Lemma exec_walk_files walk w ps t :
  (forall p, p ∈ ps -> is_Some (w.(files) !! p)) ->
  exec (walk_entries walk (N.min t u64_max) (map FileEntry ps)) w
  = (w, Ok (N.min (t + sum_paths w.(files) ps) u64_max)).
Proof.
  revert t. induction ps as [|p ps IH]; intros t Hps; cbn -[u64_max sat_add]; [by rewrite N.add_0_r|].
  destruct (Hps p) as [d Hd]; [by left|]. rewrite Hd. cbn -[u64_max sat_add].
  rewrite sat_add_min, IH by (intros; apply Hps; by right). by rewrite N.add_assoc.
Qed.

Lemma exec_walk_dirs walk w ds ps t (g : Dir -> N) :
  (forall d, d ∈ ds -> exec (walk d) w = (w, Ok (N.min (g d) u64_max))) ->
  (forall p, p ∈ ps -> is_Some (w.(files) !! p)) ->
  exec (walk_entries walk (N.min t u64_max) (map DirEntry ds ++ map FileEntry ps)) w
  = (w, Ok (N.min (t + foldr (fun d acc => g d + acc) 0 ds + sum_paths w.(files) ps) u64_max)).
Proof.
  intros Hds Hps. revert t. induction ds as [|d ds IH]; intros t.
  - cbn [map app foldr]. rewrite N.add_0_r. by apply exec_walk_files.
  - cbn -[u64_max sat_add sum_paths]. rewrite exec_bind, (Hds d) by left. cbn -[u64_max sat_add sum_paths].
    replace (sat_add u64_max (N.min t u64_max) (N.min (g d) u64_max)) with (N.min (t + g d) u64_max)
      by (unfold sat_add; lia).
    rewrite IH by (intros; apply Hds; by right). by rewrite N.add_assoc.
Qed.

(** The bytes of the files directly in a directory. *)
Definition dir_bytes (f : Files) (d : Dir) : N := sum_paths f (in_dir d f).

Lemma exec_walk_leaf n w d :
  subdirs d = [] -> exec (walk (S n) d) w = (w, Ok (N.min (dir_bytes w.(files) d) u64_max)).
Proof.
  intros Hd. cbn -[u64_max walk_entries]. rewrite Hd. cbn [map app].
  apply (exec_walk_files _ w _ 0). intros p. apply in_dir_present.
Qed.

Lemma exec_walk_state n w :
  exec (walk (S (S n)) StateDir) w
  = (w, Ok (N.min (dir_bytes w.(files) TransfersDir + dir_bytes w.(files) StateDir) u64_max)).
Proof.
  change (exec (walk (S (S n)) StateDir) w) with
    (exec (walk_entries (walk (S n)) 0
       (map DirEntry (subdirs StateDir) ++ map FileEntry (in_dir StateDir w.(files)))) w).
  rewrite (exec_walk_dirs _ w _ _ 0 (dir_bytes w.(files))).
  - cbn [subdirs foldr]. unfold dir_bytes. do 3 f_equal. lia.
  - intros d ->%list_elem_of_singleton. by apply exec_walk_leaf.
  - intros p. apply in_dir_present.
Qed.

(** [used_bytes] counts the bytes of every file below the root, up to [u64::MAX]. *)
Lemma exec_used_bytes w : exec used_bytes w = (w, Ok (N.min (total_len w.(files)) u64_max)).
Proof.
  unfold used_bytes. rewrite exec_io.
  change (exec (walk 3 RootDir) w) with
    (exec (walk_entries (walk 2) 0
       (map DirEntry (subdirs RootDir) ++ map FileEntry (in_dir RootDir w.(files)))) w).
  rewrite (exec_walk_dirs _ w _ _ 0 (fun d =>
    match d with
    | StateDir => dir_bytes w.(files) TransfersDir + dir_bytes w.(files) StateDir
    | _ => dir_bytes w.(files) d
    end)).
  - rewrite <- sum_paths_total, (sum_paths_dirs _ (paths _)). cbn [map_err subdirs foldr fst snd].
    unfold dir_bytes, in_dir. do 3 f_equal. lia.
  - intros d Hd. cbn [subdirs] in Hd.
    repeat (apply elem_of_cons in Hd as [->|Hd]); [..|by apply not_elem_of_nil in Hd].
    + by apply exec_walk_leaf.
    + by apply exec_walk_leaf.
    + apply exec_walk_state.
  - intros p. apply in_dir_present.
Qed.

(** ** Garbage collection *)

Definition delete_paths (f : Files) (ps : list Path) : Files := fold_left (fun f p => delete p f) ps f.

Lemma lookup_delete_paths f ps q :
  delete_paths f ps !! q = if contains q ps then None else f !! q.
Proof.
  revert f. induction ps as [|p ps IH]; intros f; [done|].
  change (delete_paths f (p :: ps)) with (delete_paths (delete p f) ps).
  rewrite IH. unfold contains. destruct (decide (q = p)) as [->|Hq].
  - rewrite (bool_decide_eq_true_2 (p ∈ p :: ps)) by left. rewrite lookup_delete_eq. by case_bool_decide.
  - rewrite lookup_delete_ne by done. rewrite (bool_decide_ext _ (q ∈ p :: ps)); [done|set_solver].
Qed.

Definition sizes (es : list (N * Path * N)) : N := foldr (fun e acc => e.2 + acc) 0 es.

Lemma sizes_app es fs : sizes (es ++ fs) = sizes es + sizes fs.
Proof. unfold sizes. induction es as [|e es IH]; cbn; [done|]. rewrite IH. lia. Qed.

Lemma sizes_perm es fs : es ≡ₚ fs -> sizes es = sizes fs.
Proof. unfold sizes. induction 1; cbn; lia. Qed.

Lemma set_files_id w : set_files w w.(files) = w.
Proof. by destruct w. Qed.

Definition entry_path (e : N * Path * N) : Path := e.1.2.

(** The loop removes a prefix: enough to come down to the limit and not one file more. *)
Lemma exec_remove_oldest limit es total reclaimed w :
  NoDup (map entry_path es) -> (forall e, e ∈ es -> is_Some (w.(files) !! entry_path e)) ->
  exists gone kept, es = gone ++ kept /\
    exec (remove_oldest limit es total (N.min reclaimed u64_max)) w
    = (set_files w (delete_paths w.(files) (map entry_path gone)),
       Ok (N.min (reclaimed + sizes gone) u64_max)) /\
    (kept = [] \/ total - sizes gone <= limit) /\
    (forall g x, gone = g ++ [x] -> limit < total - sizes g).
Proof.
  revert total reclaimed w. induction es as [|[[t p] n] es IH]; intros total reclaimed w Hnd Hin.
  - exists [], []. cbn. rewrite set_files_id, N.add_0_r. split_and!; auto.
    intros [|y g] x Hg; by inversion Hg.
  - cbn [remove_oldest]. destruct (total <=? limit) eqn:Hl; breflect.
    + exists [], ((t, p, n) :: es). cbn. rewrite set_files_id, N.add_0_r. split_and!; auto.
      * right. lia.
      * intros [|y g] x Hg; by inversion Hg.
    + destruct (Hin (t, p, n)) as [d Hd]; [by left|]. cbn in Hd.
      rewrite exec_try, exec_io, exec_call. cbn [perform]. rewrite Hd. cbn [fst snd map_err].
      rewrite sat_add_min. inversion Hnd as [|? ? Hp Hnd']; subst.
      edestruct (IH (sat_sub total n) (reclaimed + n) (set_files w (delete p (files w))))
        as (gone & kept & -> & Hex & Hk & Hmin); [done| |].
      { intros e He. cbn. rewrite lookup_delete_ne; [apply Hin; by right|].
        intros ->. apply Hp. apply list_elem_of_fmap. by exists e. }
      exists ((t, p, n) :: gone), kept. rewrite Hex. cbn [sizes foldr map entry_path].
      split_and!; [done| | |].
      * cbn. fold (sizes gone). do 3 f_equal. lia.
      * cbn. fold (sizes gone). destruct Hk as [->|Hk]; [by left|right]. unfold sat_sub in Hk. lia.
      * intros [|y g] x Hg; inversion Hg; subst; [cbn; lia|].
        specialize (Hmin g x eq_refl). unfold sat_sub in Hmin. cbn. fold (sizes g). lia.
Qed.

Definition entry_of (f : Files) (p : Path) : N * Path * N :=
  (match f !! p with Some d => d.(modified) | None => 0 end, p, opt_len (f !! p)).

Lemma exec_quarantined w ps t found :
  (forall p, p ∈ ps -> is_Some (w.(files) !! p)) ->
  exec (quarantined (map FileEntry ps) (N.min t u64_max) found) w
  = (w, Ok (found ++ map (entry_of w.(files)) ps, N.min (t + sum_paths w.(files) ps) u64_max)).
Proof.
  revert t found. induction ps as [|p ps IH]; intros t found Hps.
  - cbn. by rewrite N.add_0_r, app_nil_r.
  - destruct (Hps p) as [d Hd]; [by left|].
    assert (He : entry_of w.(files) p = (d.(modified), p, file_len d))
      by (unfold entry_of; by rewrite Hd).
    cbn -[u64_max sat_add entry_of sum_paths]. rewrite He, Hd. cbn -[u64_max sat_add entry_of sum_paths].
    rewrite sat_add_min, IH by (intros; apply Hps; by right).
    by rewrite <- app_assoc, sum_paths_cons, Hd, N.add_assoc.
Qed.

Lemma sizes_entries f ps : sizes (map (entry_of f) ps) = sum_paths f ps.
Proof. induction ps as [|p ps IH]; [done|]. rewrite sum_paths_cons, <- IH. done. Qed.

Lemma entry_path_of f ps : map entry_path (map (entry_of f) ps) = ps.
Proof. rewrite map_map. cbn. apply map_id. Qed.

Lemma sum_paths_perm f ps qs : ps ≡ₚ qs -> sum_paths f ps = sum_paths f qs.
Proof. unfold sum_paths. induction 1; cbn; lia. Qed.

Lemma sum_paths_ext f g ps :
  (forall p, p ∈ ps -> f !! p = g !! p) -> sum_paths f ps = sum_paths g ps.
Proof.
  induction ps as [|p ps IH]; intros Hfg; [done|].
  rewrite !sum_paths_cons, Hfg, IH; [done| |by left]. intros; apply Hfg; by right.
Qed.

(** The outcome of a garbage collection: only quarantined files go, the oldest first, as few as
    needed to bring the quarantine down to [limit]. *)
Record collected (limit : N) (f f' : Files) : Prop := {
  collected_subset : forall p, f' !! p = None \/ f' !! p = f !! p;
  collected_elsewhere : forall p, parent p <> QuarantineDir -> f' !! p = f !! p;
  collected_limit : dir_bytes f' QuarantineDir <= limit;
  collected_oldest : forall p q d e,
    f !! p = Some d -> f' !! p = None -> parent q = QuarantineDir -> f' !! q = Some e ->
    d.(modified) <= e.(modified);
  collected_needed : f' = f \/
    exists p d, f !! p = Some d /\ f' !! p = None /\
                limit < dir_bytes f' QuarantineDir + file_len d
}.

Lemma NoDup_map_perm {A B} (g : A -> B) xs ys : xs ≡ₚ ys -> NoDup (map g ys) -> NoDup (map g xs).
Proof. intros Hp. by rewrite Hp. Qed.

Lemma in_dir_delete_paths f d gone kept :
  in_dir d f ≡ₚ gone ++ kept -> in_dir d (delete_paths f gone) ≡ₚ kept.
Proof.
  intros Hp. pose proof (NoDup_in_dir f d) as Hnd. rewrite Hp in Hnd.
  apply NoDup_app in Hnd as (_ & Hdis & Hk).
  apply NoDup_Permutation; [apply NoDup_in_dir|done|]. intros p. rewrite in_dir_elem, lookup_delete_paths.
  assert (Hf : p ∈ gone ++ kept <-> is_Some (f !! p) /\ parent p = d) by (by rewrite <- Hp, in_dir_elem).
  unfold contains. case_bool_decide as Hg.
  - split; [by intros [[? ?] _]|]. intros Hkp. exfalso. by apply (Hdis p).
  - rewrite <- Hf. set_solver.
Qed.

Lemma delete_paths_nil f : delete_paths f [] = f.
Proof. done. Qed.

Lemma key_sorted_app_le (gone kept : list (N * Path * N)) x y :
  key_sorted (fun e : N * Path * N => e.1.1) (gone ++ kept) -> x ∈ gone -> y ∈ kept ->
  x.1.1 <= y.1.1.
Proof.
  unfold key_sorted. intros Hs Hx Hy.
  pose proof (StronglySorted_app_1_elem_of _ _ _ _ _ Hs Hx Hy) as Hle. clear Hs.
  apply N.compare_le_iff. intros Hc. unfold leb, cmp, Ord_N in Hle. by rewrite Hc in Hle.
Qed.

Lemma dir_bytes_total f d : dir_bytes f d <= total_len f.
Proof.
  rewrite <- sum_paths_total, sum_paths_dirs. unfold dir_bytes, in_dir. destruct d; lia.
Qed.

Lemma total_len_delete_paths f ps :
  NoDup ps -> total_len (delete_paths f ps) + sum_paths f ps = total_len f.
Proof.
  revert f. induction ps as [|p ps IH]; intros f Hnd; [by rewrite N.add_0_r|].
  inversion Hnd as [|? ? Hp Hps]; subst.
  change (delete_paths f (p :: ps)) with (delete_paths (delete p f) ps).
  rewrite sum_paths_cons, (total_len_delete_opt f p), <- (IH (delete p f)) by done.
  rewrite (sum_paths_ext (delete p f) f ps); [lia|].
  intros q Hq. apply lookup_delete_ne. by intros ->.
Qed.

Lemma collected_lookup f gone p d : delete_paths f gone !! p = Some d -> f !! p = Some d.
Proof. rewrite lookup_delete_paths. by destruct (contains p gone). Qed.

Lemma last_case {A} (xs : list A) : xs = [] \/ exists ys y, xs = ys ++ [y].
Proof. destruct xs as [|y ys _] using rev_ind; [by left|right]. by exists ys, y. Qed.

(** Which prefix of the sorted quarantine goes. *)
Section CollectedPrefix.
Context (f : Files) (gone kept : list (N * Path * N)).
Context (Hsort : sort_by_key (fun e : N * Path * N => e.1.1)
                   (map (entry_of f) (in_dir QuarantineDir f)) = gone ++ kept).

Lemma prefix_perm : map (entry_of f) (in_dir QuarantineDir f) ≡ₚ gone ++ kept.
Proof. by rewrite <- Hsort, sort_by_key_perm. Qed.

Lemma prefix_paths : in_dir QuarantineDir f ≡ₚ map entry_path gone ++ map entry_path kept.
Proof. by rewrite <- map_app, <- prefix_perm, entry_path_of. Qed.

Lemma prefix_entry e :
  e ∈ gone ++ kept -> e = entry_of f (entry_path e) /\ entry_path e ∈ in_dir QuarantineDir f.
Proof. rewrite <- prefix_perm. by intros (p & -> & Hp)%list_elem_of_fmap. Qed.

Lemma prefix_sum : dir_bytes f QuarantineDir = sizes gone + sizes kept.
Proof. unfold dir_bytes. rewrite <- sizes_entries, (sizes_perm _ _ prefix_perm). apply sizes_app. Qed.

Lemma prefix_left : dir_bytes (delete_paths f (map entry_path gone)) QuarantineDir = sizes kept.
Proof.
  unfold dir_bytes. rewrite (sum_paths_perm _ _ _ (in_dir_delete_paths _ _ _ _ prefix_paths)).
  rewrite (sum_paths_ext _ f).
  - rewrite <- sizes_entries. f_equal. rewrite map_map. etransitivity; [|apply map_id].
    apply map_ext_in. intros e He%list_elem_of_In. symmetry. apply prefix_entry. set_solver.
  - intros p Hp. rewrite lookup_delete_paths. unfold contains. case_bool_decide as Hg; [|done].
    pose proof (NoDup_in_dir f QuarantineDir) as Hnd. rewrite prefix_paths in Hnd.
    apply NoDup_app in Hnd as (_ & Hdis & _). by destruct (Hdis p).
Qed.

Lemma prefix_gone p :
  delete_paths f (map entry_path gone) !! p = None -> is_Some (f !! p) ->
  exists x, p = entry_path x /\ x ∈ gone.
Proof.
  rewrite lookup_delete_paths. unfold contains. case_bool_decide as Hp.
  - by apply list_elem_of_fmap in Hp.
  - by intros -> [? ?].
Qed.

Lemma prefix_oldest p q d e :
  f !! p = Some d -> delete_paths f (map entry_path gone) !! p = None ->
  parent q = QuarantineDir -> delete_paths f (map entry_path gone) !! q = Some e ->
  d.(modified) <= e.(modified).
Proof.
  intros Hp (x & -> & Hx)%prefix_gone Hq He; [|by exists d].
  assert (Hqk : q ∈ map entry_path kept).
  { rewrite <- (in_dir_delete_paths _ _ _ _ prefix_paths). apply in_dir_elem. split; [by exists e|done]. }
  apply list_elem_of_fmap in Hqk as (y & -> & Hy).
  pose proof (key_sorted_app_le gone kept x y) as Hle.
  rewrite <- Hsort in Hle. specialize (Hle (sort_by_key_sorted _ _) Hx Hy).
  destruct (prefix_entry x) as [Hx' _]; [set_solver|]. destruct (prefix_entry y) as [Hy' _]; [set_solver|].
  rewrite Hx', Hy' in Hle. cbn in Hle. by rewrite Hp, (collected_lookup _ _ _ _ He) in Hle.
Qed.

Lemma collected_prefix limit :
  (kept = [] \/ dir_bytes f QuarantineDir - sizes gone <= limit) ->
  (forall g x, gone = g ++ [x] -> limit < dir_bytes f QuarantineDir - sizes g) ->
  collected limit f (delete_paths f (map entry_path gone)).
Proof.
  intros Hk Hmin. pose proof prefix_sum as Hsum. split.
  - intros p. rewrite lookup_delete_paths. destruct (contains p _); auto.
  - intros p Hp. rewrite lookup_delete_paths. destruct (contains _ _) eqn:Hc; [|done].
    exfalso. apply contains_true in Hc. apply Hp.
    assert (Hq : p ∈ in_dir QuarantineDir f) by (rewrite prefix_paths; set_solver).
    by apply in_dir_elem in Hq as [_ ?].
  - rewrite prefix_left. destruct Hk as [Hk|Hk]; [rewrite Hk; cbn; lia|lia].
  - apply prefix_oldest.
  - destruct (last_case gone) as [Hg|(g & x & Hg)].
    { left. by rewrite Hg. }
    right. destruct (prefix_entry x) as [Hx Hin]; [set_solver|].
    apply in_dir_elem in Hin as [[d Hd] _]. exists (entry_path x), d. split_and!; [done| |].
    + rewrite lookup_delete_paths. unfold contains. rewrite bool_decide_eq_true_2; [done|].
      apply list_elem_of_fmap. exists x. set_solver.
    + specialize (Hmin g x Hg). rewrite prefix_left. rewrite Hg, sizes_app in Hsum. cbn in Hsum.
      rewrite Hx in Hsum. cbn in Hsum. rewrite Hd in Hsum. cbn in Hsum. lia.
Qed.
End CollectedPrefix.

Section Runs.
Context `{Blake3} (self : LocalStore).

Definition quarantine_limit : N := self.(LocalStore_quota_bytes) / MAX_QUARANTINE_FRACTION.

Lemma exec_garbage_collect w :
  total_len w.(files) <= u64_max ->
  exists f', exec (garbage_collect self) w
             = (set_files w f', Ok (total_len w.(files) - total_len f')) /\
             collected quarantine_limit w.(files) f' /\ total_len f' <= total_len w.(files).
Proof.
  intros Hmax. unfold garbage_collect.
  rewrite exec_try, exec_io, exec_call. cbn [perform subdirs map app fst snd map_err].
  rewrite exec_try, (exec_quarantined w _ 0) by (intros p; apply in_dir_present).
  cbn [fst snd]. rewrite N.add_0_l. fold (dir_bytes w.(files) QuarantineDir).
  rewrite N.min_l by (etransitivity; [apply dir_bytes_total|done]). cbn [app].
  set (es := sort_by_key _ _).
  assert (Hes : es ≡ₚ map (entry_of w.(files)) (in_dir QuarantineDir w.(files)))
    by apply sort_by_key_perm.
  assert (Hnd : NoDup (map entry_path es))
    by (rewrite Hes, entry_path_of; apply NoDup_in_dir).
  edestruct (exec_remove_oldest quarantine_limit es (dir_bytes w.(files) QuarantineDir) 0 w)
    as (gone & kept & Hsplit & Hex & Hk & Hmin); [done| |].
  { intros e. rewrite Hes. intros (p & -> & Hp)%list_elem_of_fmap. by apply in_dir_present in Hp. }
  exists (delete_paths w.(files) (map entry_path gone)).
  rewrite Hsplit, map_app in Hnd. apply NoDup_app in Hnd as (Hnd & _ & _).
  pose proof (total_len_delete_paths w.(files) _ Hnd) as Htotal.
  assert (Hgone : sum_paths w.(files) (map entry_path gone) = sizes gone).
  { rewrite <- sizes_entries. f_equal. rewrite map_map. etransitivity; [|apply map_id].
    apply map_ext_in. intros e He%list_elem_of_In. symmetry. eapply prefix_entry; [done|].
    set_solver. }
  split_and!.
  - etransitivity; [exact Hex|]. do 2 f_equal. lia.
  - by apply (collected_prefix _ gone kept).
  - lia.
Qed.
(** What moving a file out of the way leaves: it is gone, only the quarantine changed besides,
    and the quarantine is within its share. *)
Record discarded (p : Path) (w w' : World) : Prop := {
  discarded_gone : w'.(files) !! p = None;
  discarded_rest : forall q, q <> p -> parent q <> QuarantineDir ->
    w'.(files) !! q = w.(files) !! q;
  discarded_limit : dir_bytes w'.(files) QuarantineDir <= quarantine_limit;
  discarded_total : total_len w'.(files) <= total_len w.(files)
}.

(** The tail shared by [quarantine] and [quarantine_partial]. *)
Definition discard_to (target p : Path) : Prog (result unit StorageError) :=
  let*? _ := io (call (OpRename p (FileEntry target))) in
  let*? _ := garbage_collect self in
  Ret (Ok tt).

Lemma exec_discard_to target p w d :
  total_len w.(files) <= u64_max -> w.(files) !! p = Some d ->
  parent p <> QuarantineDir -> parent target = QuarantineDir ->
  exists w', exec (discard_to target p) w = (w', Ok tt) /\ discarded p w w'.
Proof.
  intros Hmax Hp Hdir Ht. unfold discard_to.
  rewrite exec_try, exec_io, exec_call. cbn [perform]. rewrite Hp. cbn [fst snd map_err].
  assert (Hne : p <> target) by (by intros ->).
  pose proof (total_len_rename w.(files) p target d Hp Hne) as Hren.
  destruct (exec_garbage_collect (set_files w (<[target := d]> (delete p w.(files)))))
    as (f' & Hex & Hcol & Hle); cbn [files set_files] in *; [lia|].
  rewrite exec_try, Hex. cbn [fst snd exec]. eexists. split; [done|]. split; cbn [files set_files].
  - rewrite (collected_elsewhere _ _ _ Hcol) by done.
    by rewrite lookup_insert_ne, lookup_delete_eq by done.
  - intros q Hq Hqd. rewrite (collected_elsewhere _ _ _ Hcol) by done.
    rewrite lookup_insert_ne by congruence. by rewrite lookup_delete_ne.
  - apply (collected_limit _ _ _ Hcol).
  - lia.
Qed.

Lemma discarded_files p w v w' : w.(files) = v.(files) -> discarded p w w' -> discarded p v w'.
Proof. intros Hwv []. split; by rewrite <- ?Hwv. Qed.

Lemma exec_quarantine a p w d :
  total_len w.(files) <= u64_max -> w.(files) !! p = Some d -> parent p <> QuarantineDir ->
  exists w', exec (quarantine self a p) w = (w', Ok tt) /\ discarded p w w'.
Proof.
  intros Hmax Hp Hdir. unfold quarantine. do 2 (rewrite exec_bind, exec_call; cbn [perform fst snd ask]).
  edestruct (exec_discard_to (QuarantinePath false a w.(now) w.(sequence)) p (perform OpSequence w).1 d)
    as (w' & Hex & Hd); [done..|].
  exists w'. split; [apply Hex|]. by eapply discarded_files, Hd.
Qed.

Lemma exec_quarantine_partial a p w d :
  total_len w.(files) <= u64_max -> w.(files) !! p = Some d -> parent p <> QuarantineDir ->
  exists w', exec (quarantine_partial self a p) w = (w', Ok tt) /\ discarded p w w'.
Proof.
  intros Hmax Hp Hdir. unfold quarantine_partial.
  do 2 (rewrite exec_bind, exec_call; cbn [perform fst snd ask]).
  edestruct (exec_discard_to (QuarantinePath true a w.(now) w.(sequence)) p (perform OpSequence w).1 d)
    as (w' & Hex & Hd); [done..|].
  exists w'. split; [apply Hex|]. by eapply discarded_files, Hd.
Qed.

(** ** Reading artifacts *)

Definition sound_file (a : ArtifactId) (d : FileData) : bool :=
  (file_len d <=? self.(LocalStore_max_artifact_bytes))
  && (ArtifactId_from_bytes_hashed d.(content) == a).

(** Why a file that is not sound is refused. *)
Definition damage (a : ArtifactId) (d : FileData) : StorageError :=
  if self.(LocalStore_max_artifact_bytes) <? file_len d then too_large self a (file_len d)
  else StorageError_Integrity a.

Lemma exec_refuse {A} a p w d e :
  total_len w.(files) <= u64_max -> w.(files) !! p = Some d -> parent p <> QuarantineDir ->
  exists w', exec (let*? _ := quarantine self a p in fail (A := A) e) w = (w', Err e) /\
             discarded p w w'.
Proof.
  intros Hmax Hp Hdir. destruct (exec_quarantine a p w d) as (w' & Hex & Hd); [done..|].
  exists w'. rewrite exec_try, Hex. done.
Qed.

(** [get_artifact] on every disk: the file is missing; or it is returned and nothing changes; or
    it is too long or does not hash to the identifier, is refused, and is moved away. *)
Lemma exec_get_artifact a w :
  total_len w.(files) <= u64_max ->
  match w.(files) !! ArtifactPath a with
  | None => exec (get_artifact self a) w = (w, Err (StorageError_Io NotFound))
  | Some d =>
      if sound_file a d then exec (get_artifact self a) w = (w, Ok d.(content))
      else exists w', exec (get_artifact self a) w = (w', Err (damage a d)) /\
                      discarded (ArtifactPath a) w w'
  end.
Proof.
  intros Hmax. unfold get_artifact, sound_file, damage. cbn zeta.
  rewrite exec_try, exec_io, exec_metadata.
  destruct (files w !! ArtifactPath a) as [d|] eqn:Hd; cbn [fst snd map_err meta_len stat]; [|done].
  rewrite N.leb_antisym. destruct (_ <? _); cbn [negb andb]; [by eapply exec_refuse|].
  rewrite exec_try, exec_io, exec_read_file, Hd. cbn [fst snd map_err].
  case_bool_decide; cbn [negb]; [done|]. by eapply exec_refuse.
Qed.

Lemma exec_verify_artifact a w :
  total_len w.(files) <= u64_max ->
  match w.(files) !! ArtifactPath a with
  | None => exec (verify_artifact self a) w = (w, Err (StorageError_Io NotFound))
  | Some d =>
      if sound_file a d then exec (verify_artifact self a) w = (w, Ok tt)
      else exists w', exec (verify_artifact self a) w = (w', Err (damage a d)) /\
                      discarded (ArtifactPath a) w w'
  end.
Proof.
  intros Hmax. unfold verify_artifact, sound_file, damage. cbn zeta.
  rewrite exec_try, exec_io, exec_metadata.
  destruct (files w !! ArtifactPath a) as [d|] eqn:Hd; cbn [fst snd map_err meta_len stat]; [|done].
  rewrite N.leb_antisym. destruct (_ <? _); cbn [negb andb]; [by eapply exec_refuse|].
  rewrite exec_try, exec_hash_file, Hd. cbn [fst snd].
  case_bool_decide; cbn [negb]; [done|]. by eapply exec_refuse.
Qed.

Lemma exec_get_sound a w d :
  total_len w.(files) <= u64_max -> w.(files) !! ArtifactPath a = Some d ->
  file_len d <= self.(LocalStore_max_artifact_bytes) -> ArtifactId_from_bytes_hashed d.(content) = a ->
  exec (get_artifact self a) w = (w, Ok d.(content)).
Proof.
  intros Hmax Hd Hlen Hhash. pose proof (exec_get_artifact a w Hmax) as Hget. rewrite Hd in Hget.
  replace (sound_file a d) with true in Hget; [done|]. symmetry. apply andb_true_iff.
  split; [by apply N.leb_le|by apply bool_decide_eq_true_2].
Qed.

(** ** Writing artifacts *)

Definition bump (w : World) : World := (perform OpSequence w).1.

Definition next_temp (prefix : String.string) (w : World) : Path := (exec (temp_path prefix) w).2.

Lemma exec_temp_path prefix w : exec (temp_path prefix) w = (bump w, next_temp prefix w).
Proof. done. Qed.

Lemma next_temp_state prefix w : exists name, next_temp prefix w = StatePath (String "." name).
Proof. by eexists. Qed.

Lemma exec_write_new p bytes w :
  w.(files) !! p = None ->
  exec (write_new p bytes) w
  = (set_files w (<[p := {| content := bytes; modified := w.(now) |}]> w.(files)), Ok tt).
Proof.
  intros Hp. unfold write_new. rewrite exec_try, exec_io, exec_call. cbn [perform]. rewrite Hp.
  cbn [fst snd map_err]. rewrite exec_try, exec_io, exec_call. cbn [perform fst snd map_err].
  rewrite exec_io. cbn [exec call perform fst snd map_err]. unfold append_file. cbn [files set_files now].
  rewrite lookup_insert_eq. cbn [content app]. by rewrite insert_insert_eq.
Qed.

(** A rename of a new file onto a free name: the file as if it had been written there. *)
Lemma publish_new (f : Files) p q d :
  f !! p = None -> p <> q -> <[q := d]> (delete p (<[p := d]> f)) = <[q := d]> f.
Proof. intros Hp Hpq. by rewrite delete_insert_id. Qed.

(** [put_artifact] on every branch. *)
Lemma exec_put_artifact bytes w :
  let a := ArtifactId_from_bytes_hashed bytes in
  total_len w.(files) <= u64_max -> self.(LocalStore_quota_bytes) < u64_max ->
  w.(files) !! next_temp "artifact" w = None ->
  if self.(LocalStore_max_artifact_bytes) <? len bytes then
    exec (put_artifact self bytes) w = (w, Err (too_large self a (len bytes)))
  else
    match w.(files) !! ArtifactPath a with
    | Some d =>
        if sound_file a d then exec (put_artifact self bytes) w = (w, Ok a)
        else exists w', exec (put_artifact self bytes) w = (w', Err (damage a d)) /\
                        discarded (ArtifactPath a) w w'
    | None =>
        if self.(LocalStore_quota_bytes) <? total_len w.(files) + len bytes then
          exec (put_artifact self bytes) w
          = (w, Err (StorageError_QuotaExceeded (total_len w.(files)) (len bytes)
                       self.(LocalStore_quota_bytes)))
        else
          exec (put_artifact self bytes) w
          = (set_files (bump w) (<[ArtifactPath a := {| content := bytes; modified := w.(now) |}]> w.(files)),
             Ok a)
    end.
Proof.
  intros a Hmax Hquota Htemp. unfold put_artifact. fold a. rewrite exec_try.
  unfold put_artifact_with_id. destruct (_ <? len bytes); [done|].
  fold a. rewrite bool_decide_eq_true_2 by done. cbn [negb]. cbn zeta.
  rewrite exec_bind, exec_exists_path. cbn [fst snd].
  destruct (files w !! ArtifactPath a) as [d|] eqn:Hd.
  - pose proof (exec_verify_artifact a w Hmax) as Hv. rewrite Hd in Hv.
    destruct (sound_file a d); [by rewrite Hv|]. destruct Hv as (w' & Hex & Hdis).
    exists w'. by rewrite Hex.
  - rewrite exec_try, exec_used_bytes. cbn [fst snd]. rewrite N.min_l by done.
    replace (_ <? sat_add u64_max _ _) with (self.(LocalStore_quota_bytes) <? total_len w.(files) + len bytes)
      by (unfold sat_add; apply eq_true_iff_eq; rewrite !N.ltb_lt; lia).
    destruct (_ <? _); [done|]. rewrite exec_bind, exec_temp_path. cbn [fst snd].
    rewrite exec_try, exec_write_new by done. cbn [fst snd].
    rewrite exec_bind, exec_call. cbn [perform files set_files bump fst]. rewrite lookup_insert_eq.
    cbn [fst snd exec]. by rewrite publish_new.
Qed.
(** ** Partial transfers *)

(** What has arrived of an artifact so far. *)
Definition received (a : ArtifactId) (w : World) : list N :=
  match w.(files) !! PartialPath a with Some d => d.(content) | None => [] end.

Lemma received_len a w : len (received a w) = opt_len (w.(files) !! PartialPath a).
Proof. unfold received. by destruct (_ !! _). Qed.

Lemma received_total a w : len (received a w) <= total_len w.(files).
Proof. rewrite received_len, (total_len_delete_opt w.(files) (PartialPath a)). lia. Qed.

Lemma exec_partial_artifact_size a w :
  len (received a w) <= self.(LocalStore_max_artifact_bytes) ->
  exec (partial_artifact_size self a) w = (w, Ok (len (received a w))).
Proof.
  intros Hmax. rewrite received_len in *. unfold partial_artifact_size.
  rewrite exec_bind, exec_metadata. cbn [fst snd].
  destruct (files w !! PartialPath a) as [d|]; [|done]. cbn [stat meta_len opt_len] in *.
  by rewrite (proj2 (N.ltb_ge _ _) Hmax).
Qed.

Lemma exec_append {A} p bytes w (d : FileData) (x : A) :
  w.(files) !! p = Some d \/ w.(files) !! p = None /\ d.(content) = [] ->
  exec (let*? _ := io (call (OpOpenAppend p)) in
        let*? _ := io (call (OpWriteAll p bytes)) in
        let*? _ := io (call (OpSync p)) in
        Ret (Ok x)) w
  = (set_files w (<[p := {| content := d.(content) ++ bytes; modified := w.(now) |}]> w.(files)), Ok x).
Proof.
  intros Hp. cbn. destruct Hp as [Hp|[Hp Hd]]; rewrite Hp; cbn; unfold append_file; cbn.
  - by rewrite Hp.
  - by rewrite lookup_insert_eq, insert_insert_eq, Hd.
Qed.

(** The next chunk of a transfer is appended when it fits. *)
Lemma exec_write_partial a size bytes w :
  let old := received a w in
  total_len w.(files) <= u64_max -> self.(LocalStore_quota_bytes) < u64_max ->
  0 < size <= self.(LocalStore_max_artifact_bytes) ->
  bytes <> [] -> len old + len bytes <= size ->
  total_len w.(files) - len old + size <= self.(LocalStore_quota_bytes) ->
  exec (write_partial_artifact self a size (len old) bytes) w
  = (set_files w (<[PartialPath a := {| content := old ++ bytes; modified := w.(now) |}]> w.(files)),
     Ok (len old + len bytes)).
Proof.
  intros old Hmax Hq Hsize Hbytes Hfit Hquota. unfold write_partial_artifact.
  replace (_ || _) with false by (symmetry; apply orb_false_iff; split; [apply N.eqb_neq|apply N.ltb_ge]; lia).
  rewrite exec_try, exec_partial_artifact_size by (fold old; lia). cbn [fst snd]. fold old.
  replace (is_empty bytes) with false by (by destruct bytes). rewrite N.eqb_refl. cbn [negb orb].
  assert (Hsat : sat_add u64_max (len old) (len bytes) = len old + len bytes) by (unfold sat_add; lia).
  rewrite Hsat, (proj2 (N.ltb_ge _ _) Hfit). rewrite exec_try, exec_used_bytes. cbn [fst snd].
  rewrite N.min_l by done. cbn zeta.
  rewrite (proj2 (N.ltb_ge _ _)) by (unfold sat_add, sat_sub; lia).
  pose proof (exec_append (PartialPath a) bytes w
    (match w.(files) !! PartialPath a with Some d => d | None => mkFileData [] 0 end)
    (len old + len bytes)) as Happ.
  assert (Hold : (match w.(files) !! PartialPath a with Some d => d | None => mkFileData [] 0 end).(content) = old)
    by (unfold old, received; by destruct (_ !! _)).
  rewrite Hold in Happ. apply Happ. destruct (_ !! PartialPath a); auto.
Qed.

(** A sender's loop: each chunk at the offset the last one returned. *)
Fixpoint send_chunks (a : ArtifactId) (size offset : N) (chunks : list (list N))
    : Prog (result N StorageError) :=
  match chunks with
  | [] => Ret (Ok offset)
  | chunk :: chunks =>
      let*? offset := write_partial_artifact self a size offset chunk in
      send_chunks a size offset chunks
  end.

Lemma received_insert a w d : received a (set_files w (<[PartialPath a := d]> w.(files))) = d.(content).
Proof. unfold received. cbn. by rewrite lookup_insert_eq. Qed.

Lemma exec_send_chunks a size chunks w :
  total_len w.(files) <= u64_max -> self.(LocalStore_quota_bytes) < u64_max ->
  0 < size <= self.(LocalStore_max_artifact_bytes) ->
  Forall (fun chunk => chunk <> []) chunks ->
  len (received a w) + len (concat chunks) <= size ->
  total_len w.(files) - len (received a w) + size <= self.(LocalStore_quota_bytes) ->
  exists w', exec (send_chunks a size (len (received a w)) chunks) w
             = (w', Ok (len (received a w) + len (concat chunks))) /\
    received a w' = received a w ++ concat chunks /\
    delete (PartialPath a) w'.(files) = delete (PartialPath a) w.(files) /\
    (received a w' <> [] -> is_Some (w'.(files) !! PartialPath a)).
Proof.
  intros Hmax Hq Hsize Hchunks. revert w Hmax.
  induction Hchunks as [|chunk chunks Hc Hcs IH]; intros w Hmax Hfit Hquota.
  - exists w. cbn [send_chunks concat]. rewrite app_nil_r. cbn. rewrite N.add_0_r.
    split_and!; [done..|]. unfold received. destruct (_ !! _); [by eexists|done].
  - cbn [send_chunks concat] in *. rewrite len_app in Hfit |- *.
    rewrite exec_try, exec_write_partial by (done || lia). cbn [fst snd].
    set (w1 := set_files _ _). assert (Hr : received a w1 = received a w ++ chunk) by apply received_insert.
    pose proof (total_len_insert w.(files) (PartialPath a)
      {| content := received a w ++ chunk; modified := w.(now) |}) as Htot.
    rewrite <- received_len in Htot. unfold file_len in Htot. cbn [content] in Htot. rewrite len_app in Htot.
    pose proof (received_total a w).
    change (<[_ := _]> _) with w1.(files) in Htot.
    edestruct (IH w1) as (w' & Hex & Hrec & Hdel & Hsome); [lia|rewrite Hr, len_app; lia..|].
    exists w'. rewrite Hr, len_app in Hex. rewrite Hex. split_and!.
    + do 2 f_equal. lia.
    + by rewrite Hrec, Hr, app_assoc.
    + rewrite Hdel. cbn. by rewrite delete_insert_eq.
    + done.
Qed.
Lemma exec_finalize a w d :
  w.(files) !! PartialPath a = Some d -> ArtifactId_from_bytes_hashed d.(content) = a ->
  w.(files) !! ArtifactPath a = None ->
  exec (finalize_partial_artifact self a (file_len d) a) w
  = (set_files w (<[ArtifactPath a := d]> (delete (PartialPath a) w.(files))), Ok tt).
Proof.
  intros Hd Hhash Hnone. unfold finalize_partial_artifact. cbn zeta.
  rewrite exec_try, exec_io, exec_metadata, Hd. cbn [fst snd map_err stat meta_len].
  rewrite N.eqb_refl, bool_decide_eq_true_2 by done. cbn [negb orb].
  rewrite exec_try, exec_hash_file, Hd. cbn [fst snd]. rewrite bool_decide_eq_true_2 by done.
  cbn [negb]. rewrite exec_bind, exec_exists_path, Hnone. cbn [fst snd].
  rewrite exec_try, exec_io, exec_call. cbn [perform]. by rewrite Hd.
Qed.

(** ** Theorems *)

(** Storing and reading back. When [put_artifact] reports success, the identifier it returns
    is the hash of the bytes, and reading that artifact at once changes nothing and yields
    bytes with that hash: the very bytes, unless the artifact was there before. *)
Theorem put_get_roundtrip (bytes : list N) (w w' : World) (a : ArtifactId) :
  total_len w.(files) <= u64_max -> self.(LocalStore_quota_bytes) < u64_max ->
  w.(files) !! next_temp "artifact" w = None ->
  exec (put_artifact self bytes) w = (w', Ok a) ->
  a = ArtifactId_from_bytes_hashed bytes /\
  exists got, exec (get_artifact self a) w' = (w', Ok got) /\
    ArtifactId_from_bytes_hashed got = a /\
    (w.(files) !! ArtifactPath a = None -> got = bytes).
Proof.
  intros Hmax Hq Htemp Hput. pose proof (exec_put_artifact bytes w Hmax Hq Htemp) as Hspec.
  rewrite Hput in Hspec. cbn zeta in Hspec.
  destruct (_ <? len bytes) eqn:Hlen; [done|]. breflect.
  destruct (w.(files) !! ArtifactPath _) as [d|] eqn:Hd.
  - destruct (sound_file _ d) eqn:Hs; [|by destruct Hspec as (? & ? & _)].
    injection Hspec as -> ->. split; [done|]. unfold sound_file in Hs. breflect.
    exists (content d). rewrite Hd. by rewrite (exec_get_sound _ _ d).
  - destruct (_ <? _ + _) eqn:Hquota; [done|]. breflect. injection Hspec as -> ->. split; [done|].
    exists bytes. split; [|done]. set (d := mkFileData bytes (now w)).
    apply (exec_get_sound _ _ d); cbn [files set_files]; [|by rewrite lookup_insert_eq|done..].
    rewrite total_len_insert_new by done. unfold file_len. cbn. lia.
Qed.

(** (C35) A transfer in chunks rebuilds the artifact. Whatever has arrived so far and however the rest
    is cut into chunks, when the whole fits the limits, sending the rest and finalizing
    succeeds; the artifact then reads back as the concatenation, the partial file is gone, every
    other file is untouched, and the store has grown by exactly the bytes that were missing. *)
Theorem transfer_roundtrip (a : ArtifactId) (chunks : list (list N)) (w : World) :
  let bytes := received a w ++ concat chunks in
  ArtifactId_from_bytes_hashed bytes = a ->
  w.(files) !! ArtifactPath a = None ->
  bytes <> [] -> len bytes <= self.(LocalStore_max_artifact_bytes) ->
  Forall (fun chunk => chunk <> []) chunks ->
  self.(LocalStore_quota_bytes) < u64_max ->
  total_len w.(files) + len (concat chunks) <= self.(LocalStore_quota_bytes) ->
  exists w1 w2,
    exec (send_chunks a (len bytes) (len (received a w)) chunks) w = (w1, Ok (len bytes)) /\
    exec (finalize_partial_artifact self a (len bytes) a) w1 = (w2, Ok tt) /\
    exec (get_artifact self a) w2 = (w2, Ok bytes) /\
    w2.(files) !! PartialPath a = None /\
    (forall p, p <> PartialPath a -> p <> ArtifactPath a -> w2.(files) !! p = w.(files) !! p) /\
    total_len w2.(files) = total_len w.(files) + len (concat chunks).
Proof.
  intros bytes Hhash Hnone Hne Hmax Hchunks Hq Hquota.
  assert (Hlen : len bytes = len (received a w) + len (concat chunks)) by apply len_app.
  assert (Hpos : 0 < len bytes) by (unfold len; destruct bytes; [done|cbn; lia]).
  pose proof (received_total a w) as Htot.
  destruct (exec_send_chunks a (len bytes) chunks w) as (w1 & Hsend & Hrec & Hdel & Hsome); [done || lia..|].
  destruct Hsome as [d Hd]; [by rewrite Hrec|].
  assert (Hc : d.(content) = bytes) by (unfold received in Hrec at 1; by rewrite Hd in Hrec).
  assert (Hout : forall p, p <> PartialPath a -> w1.(files) !! p = w.(files) !! p).
  { intros p Hp. rewrite <- (lookup_delete_ne w1.(files) (PartialPath a)), Hdel by done.
    by apply lookup_delete_ne. }
  pose proof (exec_finalize a w1 d Hd) as Hfin. rewrite Hc, Hout in Hfin by done.
  unfold file_len in Hfin. rewrite Hc in Hfin. specialize (Hfin Hhash Hnone).
  exists w1, (set_files w1 (<[ArtifactPath a := d]> (delete (PartialPath a) w1.(files)))).
  assert (Htotal : total_len (<[ArtifactPath a := d]> (delete (PartialPath a) w1.(files)))
                   = total_len w.(files) + len (concat chunks)).
  { rewrite Hdel, total_len_insert_new by (by rewrite lookup_delete_ne).
    rewrite (total_len_delete_opt w.(files) (PartialPath a)), <- received_len.
    unfold file_len. rewrite Hc. lia. }
  split_and!; cbn [files set_files]; [by rewrite Hsend, Hlen|done| | | |done].
  - rewrite <- Hc at 1. apply exec_get_sound; cbn [files set_files];
      [lia|by rewrite lookup_insert_eq|unfold file_len; by rewrite Hc|by rewrite Hc].
  - by rewrite lookup_insert_ne, lookup_delete_eq.
  - intros p Hp Ha. rewrite lookup_insert_ne, lookup_delete_ne by done. by apply Hout.
Qed.

(** Damaged artifacts are taken out of service. A file that is longer than an artifact may be or
    does not hash to its name is never returned: the read fails, the artifact is no longer
    there afterwards, every file outside the quarantine is untouched, and the quarantine holds
    at most an eighth of the quota. *)
Theorem damaged_artifact_quarantined (a : ArtifactId) (w : World) (d : FileData) :
  total_len w.(files) <= u64_max ->
  w.(files) !! ArtifactPath a = Some d ->
  (self.(LocalStore_max_artifact_bytes) < file_len d \/ ArtifactId_from_bytes_hashed d.(content) <> a) ->
  exists w' e, exec (get_artifact self a) w = (w', Err e) /\
    exec (has_artifact a) w' = (w', false) /\
    (forall p, p <> ArtifactPath a -> parent p <> QuarantineDir -> w'.(files) !! p = w.(files) !! p) /\
    dir_bytes w'.(files) QuarantineDir <= self.(LocalStore_quota_bytes) / 8.
Proof.
  intros Hmax Hd Hbad. pose proof (exec_get_artifact a w Hmax) as Hget. rewrite Hd in Hget.
  replace (sound_file a d) with false in Hget.
  2: { symmetry. unfold sound_file. apply andb_false_iff. destruct Hbad as [Hb|Hb];
         [left; by apply N.leb_gt|right; by apply bool_decide_eq_false_2]. }
  destruct Hget as (w' & Hex & Hdis). exists w', (damage a d). split; [done|]. split.
  - unfold has_artifact. rewrite exec_bind, exec_metadata, (discarded_gone _ _ _ Hdis). done.
  - split; [apply (discarded_rest _ _ _ Hdis)|apply (discarded_limit _ _ _ Hdis)].
Qed.

(** Garbage collection keeps its budget and no more. It succeeds and reports the bytes it freed;
    only quarantined files go; what is left of the quarantine is at most an eighth of the
    quota; no file is removed while an older one stays; and unless nothing was removed, the
    quarantine with one of the removed files back would exceed the budget. *)
Theorem garbage_collect_exact (w : World) :
  total_len w.(files) <= u64_max ->
  exists f', exec (garbage_collect self) w
             = (set_files w f', Ok (total_len w.(files) - total_len f')) /\
    (forall p, parent p <> QuarantineDir -> f' !! p = w.(files) !! p) /\
    (forall p, f' !! p = None \/ f' !! p = w.(files) !! p) /\
    dir_bytes f' QuarantineDir <= self.(LocalStore_quota_bytes) / 8 /\
    (forall p q d e, w.(files) !! p = Some d -> f' !! p = None ->
       parent q = QuarantineDir -> f' !! q = Some e -> d.(modified) <= e.(modified)) /\
    (f' = w.(files) \/ exists p d, w.(files) !! p = Some d /\ f' !! p = None /\
       self.(LocalStore_quota_bytes) / 8 < dir_bytes f' QuarantineDir + file_len d).
Proof.
  intros Hmax. destruct (exec_garbage_collect w Hmax) as (f' & Hex & [] & _).
  exists f'. by split_and!.
Qed.
(** ** State files *)
Lemma exec_read_json {T} `{Json T} name w d :
  not_local name = false -> state_entry name = FileEntry (StatePath name) ->
  w.(files) !! StatePath name = Some d -> file_len d <= MAX_STATE_BYTES ->
  exec (read_json (T := T) name) w
  = (w, map_err StorageError_Json (let? value := from_slice d.(content) in Ok (Some value))).
Proof.
  intros Hn He Hd Hlen. unfold read_json. rewrite Hn, He, exec_bind.
  replace (exec (call (OpMetadata (FileEntry (StatePath name)))) w)
    with (w, stat (w.(files) !! StatePath name)) by done.
  rewrite Hd. cbn [fst snd stat meta_len]. rewrite (proj2 (N.ltb_ge _ _) Hlen).
  rewrite exec_try, exec_io, exec_read_file, Hd. done.
Qed.

(** A successful [write_json] leaves the serialized value, within the bound, under its name. *)
Lemma write_json_ok {T} `{Json T} name (v : T) w w' :
  head (list_ascii_of_string name) <> Some "."%char ->
  exec (write_json self name v) w = (w', Ok tt) ->
  not_local name = false /\ exists d, w'.(files) !! StatePath name = Some d /\
    to_vec v = Ok d.(content) /\ file_len d <= MAX_STATE_BYTES.
Proof.
  intros Hname Hex. destruct (to_vec v) as [bytes|e] eqn:Hv.
  - destruct (always_sound _ _ _ _ [] (write_json_old_or_new self name v bytes w Hname Hv)) as [_ HQ].
    rewrite run_complete, Hex in HQ. destruct (HQ (Ok tt) eq_refl) as (d & Hd & Hc).
    unfold write_json in Hex. destruct (not_local name); [done|]. split; [done|].
    exists d. rewrite Hc. split_and!; [done..|]. unfold file_len. rewrite Hc.
    rewrite exec_try in Hex. cbn [exec fst snd] in Hex. rewrite Hv in Hex. cbn [map_err] in Hex.
    destruct (_ <? _) eqn:Hl; [done|]. by breflect.
  - unfold write_json in Hex. destruct (not_local name); [done|].
    rewrite exec_try in Hex. cbn [exec fst snd] in Hex. by rewrite Hv in Hex.
Qed.

(** Persisted collections survive a restart. When saving a collection of peer records, rotations,
    DHT records, contacts, evidence or jobs succeeds, loading it yields exactly the saved list,
    given that serde_json reads back what it wrote. *)
Theorem save_load_roundtrip {T} `{JsonLaws (StateFile T)} (c : Collection T) (items : list T)
    (w w' : World) :
  head (list_ascii_of_string c.(Collection_name)) <> Some "."%char ->
  state_entry c.(Collection_name) = FileEntry (StatePath c.(Collection_name)) ->
  exec (save_items self c items) w = (w', Ok tt) ->
  exec (load_items c) w' = (w', Ok items).
Proof.
  intros Hname Hentry Hsave. unfold save_items in Hsave. rewrite exec_try in Hsave. cbn [exec fst snd] in Hsave.
  destruct (check_items c items) as [[]|e] eqn:Hcheck; [|done].
  apply write_json_ok in Hsave as (Hlocal & d & Hd & Hv & Hlen); [|done].
  unfold load_items, read_json_or_default. rewrite !exec_try, (exec_read_json _ _ d) by done.
  rewrite (from_slice_to_vec _ _ Hv). cbn [rbind map_err exec fst snd StateFile_version StateFile_items].
  unfold validate_state_version, fail_if. cbn [N.ltb N.compare STATE_FORMAT_VERSION Pos.compare Pos.compare_cont rbind].
  by rewrite Hcheck.
Qed.
End Runs.

(** * The store stays within its quota

    Whatever is asked of the store, in whatever order, the files below its root never take more
    than the quota when they did not before: every operation that writes has counted the bytes
    it is about to add, and the others add none. *)

(** ** Calls that add no byte *)

Definition shrinks (o : Op) : bool :=
  match o with
  | OpCreateNew _ | OpOpenAppend _ | OpWriteAll _ _ => false
  | _ => true
  end.

Lemma total_len_move f p q d : f !! p = Some d -> total_len (<[q := d]> (delete p f)) <= total_len f.
Proof.
  intros Hp. destruct (decide (p = q)) as [<-|Hpq].
  - rewrite total_len_insert_new by apply lookup_delete_eq. rewrite (total_len_delete f p d Hp). lia.
  - pose proof (total_len_rename f p q d Hp Hpq). lia.
Qed.

Lemma perform_shrinks o w :
  shrinks o = true -> total_len (perform o w).1.(files) <= total_len w.(files).
Proof.
  intros Ho. destruct o as [| | | | | | | | |p [d|q]|p| | |]; cbn in *; try lia; try done.
  - destruct (_ !! p); cbn; lia.
  - destruct (_ !! p) eqn:Hp; cbn; [by apply total_len_move|lia].
  - destruct (_ !! p) as [x|] eqn:Hp; cbn; [|lia].
    pose proof (total_len_delete _ _ _ Hp). lia.
Qed.

Lemma exec_shrinks {A} (p : Prog A) w :
  calls_only shrinks p -> total_len (exec p w).1.(files) <= total_len w.(files).
Proof.
  revert w. induction p as [a|o k IH]; intros w; cbn; [done|]. intros [Ho Hk].
  etransitivity; [by apply IH|]. by apply perform_shrinks.
Qed.

Lemma asks_shrinks {A} (p : Prog A) : calls_only asks p -> calls_only shrinks p.
Proof. apply calls_only_mono. by intros []. Qed.

Lemma tidies_shrinks {A} (p : Prog A) : calls_only tidies p -> calls_only shrinks p.
Proof. apply calls_only_mono. by intros []. Qed.

#[export] Hint Resolve asks_shrinks tidies_shrinks : rust.

(** ** Writes *)
Lemma total_len_append w p bytes :
  total_len (append_file w p bytes).(files) <= total_len w.(files) + len bytes.
Proof.
  unfold append_file. destruct (_ !! p) as [d|] eqn:Hp; [|lia]. cbn [files set_files].
  pose proof (total_len_insert w.(files) p {| content := content d ++ bytes; modified := now w |}) as Ht.
  rewrite Hp in Ht. unfold opt_len, file_len in Ht. cbn in Ht. rewrite len_app in Ht. lia.
Qed.

Lemma total_len_create w p :
  total_len (perform (OpCreateNew p) w).1.(files) <= total_len w.(files).
Proof.
  cbn. destruct (_ !! p) eqn:Hp; cbn; [lia|]. rewrite total_len_insert_new by done.
  unfold file_len, len. cbn [content length]. lia.
Qed.

Lemma total_len_open_append w p :
  total_len (perform (OpOpenAppend p) w).1.(files) <= total_len w.(files).
Proof.
  cbn. destruct (_ !! p) eqn:Hp; cbn; [lia|]. rewrite total_len_insert_new by done.
  unfold file_len, len. cbn [content length]. lia.
Qed.

Lemma write_new_total p bytes w :
  total_len (exec (write_new p bytes) w).1.(files) <= total_len w.(files) + len bytes.
Proof.
  unfold write_new. rewrite exec_try, exec_io, exec_call. cbn [fst snd].
  pose proof (total_len_create w p) as Hc. destruct (perform (OpCreateNew p) w) as [w1 [u|e]]; cbn [map_err fst snd] in *; [|lia].
  rewrite exec_try, exec_io, exec_call. cbn [perform map_err fst snd].
  pose proof (total_len_append w1 p bytes). rewrite exec_io. cbn [exec call perform fst snd]. lia.
Qed.

Lemma copy_chunks_total p chunks error w :
  total_len (exec (copy_chunks p chunks error) w).1.(files) <= total_len w.(files) + len (concat chunks).
Proof.
  revert w. induction chunks as [|chunk chunks IH]; intros w.
  - destruct error; cbn; lia.
  - cbn [copy_chunks concat]. rewrite exec_try, exec_io, exec_call. cbn [perform fst snd map_err].
    rewrite len_app. pose proof (total_len_append w p chunk). pose proof (IH (append_file w p chunk)). lia.
Qed.

(** A step whose failure ends the program: what it adds, and what the rest adds. *)
Lemma exec_try_total {A B} (p : Prog (result A StorageError)) (k : A -> Prog (result B StorageError)) w bound :
  total_len (exec p w).1.(files) <= bound ->
  (forall a, (exec p w).2 = Ok a -> total_len (exec (k a) (exec p w).1).1.(files) <= bound) ->
  total_len (exec (try_bind p k) w).1.(files) <= bound.
Proof. intros Hp Hk. rewrite exec_try. destruct (exec p w) as [w' [a|e]]; cbn in *; auto. Qed.

Lemma exec_shrinks_below {A} (p : Prog A) w bound :
  calls_only shrinks p -> total_len w.(files) <= bound -> total_len (exec p w).1.(files) <= bound.
Proof. intros Hp Hw. etransitivity; [by apply exec_shrinks|done]. Qed.

Section Quota.
Context `{Blake3} (self : LocalStore).
Context (Hquota : self.(LocalStore_quota_bytes) < u64_max).

Definition within (w : World) : Prop := total_len w.(files) <= self.(LocalStore_quota_bytes).

(** The check every writer makes. *)
Lemma reserve_ok w n :
  within w -> (self.(LocalStore_quota_bytes) <? sat_add u64_max (total_len w.(files)) n) = false ->
  total_len w.(files) + n <= self.(LocalStore_quota_bytes).
Proof. unfold within, sat_add. intros Hw Hn. breflect. lia. Qed.

Lemma used_bytes_within w : within w -> exec used_bytes w = (w, Ok (total_len w.(files))).
Proof. unfold within. intros Hw. rewrite exec_used_bytes, N.min_l by lia. done. Qed.

Lemma verify_artifact_shrinks a : calls_only shrinks (verify_artifact self a).
Proof. apply tidies_shrinks, verify_artifact_tidies. Qed.

Lemma put_artifact_with_id_within a bytes w :
  within w -> within (exec (put_artifact_with_id self a bytes) w).1.
Proof.
  intros Hw. unfold put_artifact_with_id, fail. destruct (_ <? _); [done|]. destruct (negb _); [done|].
  cbn zeta. rewrite exec_bind, exec_exists_path. cbn [fst snd].
  destruct (_ !! _); [apply exec_shrinks_below; [apply verify_artifact_shrinks|done]|].
  rewrite exec_try, used_bytes_within by done. cbn [fst snd].
  destruct (_ <? _) eqn:Hres; [done|]. apply reserve_ok in Hres; [|done].
  rewrite exec_bind, exec_temp_path. cbn [fst snd].
  pose proof (write_new_total (next_temp "artifact" w) bytes (bump w)) as Hnew.
  change (files (bump w)) with (files w) in Hnew.
  apply exec_try_total; [lia|]. intros u _. apply exec_shrinks_below; [|lia].
  pose proof verify_artifact_shrinks. solve_calls.
Qed.

Lemma import_artifact_within source w :
  (forall n, source.(source_len) = Ok n -> len (concat source.(source_chunks)) <= n) ->
  within w -> within (exec (import_artifact self source) w).1.
Proof.
  intros Hsource Hw. unfold import_artifact, fail. rewrite exec_try, exec_io. cbn [exec fst snd].
  destruct (source_len source) as [size|e]; [cbn [map_err]|done]. specialize (Hsource size eq_refl).
  destruct (_ <? _); [done|]. rewrite exec_try, used_bytes_within by done. cbn [fst snd].
  destruct (_ <? _) eqn:Hres; [done|]. apply reserve_ok in Hres; [|done].
  rewrite exec_bind, exec_temp_path. cbn [fst snd]. rewrite exec_try, exec_io. cbn [exec fst snd].
  destruct (source_open source) as [u|e]; [cbn [map_err]|done].
  set (temp := next_temp _ w). pose proof (total_len_create (bump w) temp) as Hw1.
  change (files (bump w)) with (files w) in Hw1. unfold within in *.
  rewrite exec_try, exec_io, exec_call. cbn [fst snd].
  destruct (perform (OpCreateNew temp) (bump w)) as [w1 [u'|e]]; cbn [map_err fst snd] in *; [|lia].
  pose proof (copy_chunks_total temp (source_chunks source) (source_error source) w1) as Hcopy.
  apply exec_try_total; [lia|]. intros u2 _. apply exec_shrinks_below; [|lia].
  pose proof verify_artifact_shrinks. solve_calls.
Qed.

Lemma partial_artifact_size_cases a w :
  (exists e, exec (partial_artifact_size self a) w = (w, Err e)) \/
  exec (partial_artifact_size self a) w = (w, Ok (opt_len (w.(files) !! PartialPath a))).
Proof.
  unfold partial_artifact_size. rewrite exec_bind, exec_metadata. cbn [fst snd].
  destruct (_ !! _); [|by right]. cbn [stat meta_len]. destruct (_ <? _); [left; by eexists|by right].
Qed.

Lemma write_partial_artifact_within a size offset bytes w :
  within w -> within (exec (write_partial_artifact self a size offset bytes) w).1.
Proof.
  intros Hw. unfold write_partial_artifact, fail. destruct (_ || _); [done|].
  rewrite exec_try. destruct (partial_artifact_size_cases a w) as [[e Hsize]|Hsize]; rewrite Hsize; [done|].
  cbn [fst snd]. pose proof (total_len_delete_opt w.(files) (PartialPath a)) as Hle.
  destruct (_ || _) eqn:Hok; [done|]. breflect. rewrite exec_try, used_bytes_within by done.
  cbn [fst snd]. cbn zeta. destruct (_ <? _) eqn:Hres; [done|]. breflect.
  unfold within, sat_add, sat_sub in *.
  pose proof (total_len_open_append w (PartialPath a)) as Hopen.
  rewrite exec_try, exec_io, exec_call. cbn [fst snd].
  destruct (perform (OpOpenAppend (PartialPath a)) w) as [w1 [u|e]]; cbn [map_err fst snd] in *; [|lia].
  rewrite exec_try, exec_io, exec_call. cbn [perform fst snd map_err].
  pose proof (total_len_append w1 (PartialPath a) bytes).
  apply exec_shrinks_below; [solve_calls|]. lia.
Qed.
Lemma write_new_taken p bytes w d :
  w.(files) !! p = Some d -> exec (write_new p bytes) w = (w, Err (StorageError_Io AlreadyExists)).
Proof.
  intros Hp. unfold write_new. rewrite exec_try, exec_io, exec_call. cbn [perform]. by rewrite Hp.
Qed.

Lemma write_json_within {T} `{Json T} name (v : T) w q :
  state_entry name = FileEntry q -> within w -> within (exec (write_json self name v) w).1.
Proof.
  intros Hq Hw. unfold write_json, fail. destruct (not_local name); [done|].
  rewrite exec_try. cbn [exec fst snd]. destruct (to_vec v) as [bytes|e]; [cbn [map_err]|done].
  destruct (_ <? _); [done|]. rewrite Hq, exec_bind.
  replace (exec (call (OpMetadata (FileEntry q))) w) with (w, stat (w.(files) !! q)) by done.
  cbn [fst snd]. cbn zeta. rewrite exec_try, used_bytes_within by done. cbn [fst snd].
  replace (match stat (w.(files) !! q) with Ok m => meta_len m | Err _ => 0 end)
    with (opt_len (w.(files) !! q)) by (by destruct (_ !! q)).
  pose proof (total_len_delete_opt w.(files) q) as Hle.
  destruct (_ <? _) eqn:Hres; [done|]. breflect. unfold within, sat_add, sat_sub in *.
  rewrite exec_bind, exec_temp_path. cbn [fst snd]. set (temp := next_temp "state" w).
  destruct ((bump w).(files) !! temp) as [d|] eqn:Htemp.
  { by rewrite exec_try, (write_new_taken _ _ _ d). }
  rewrite exec_try, exec_write_new by done. cbn [fst snd]. rewrite exec_try, exec_io, exec_call.
  cbn [perform files set_files]. rewrite lookup_insert_eq. cbn [fst snd map_err exec files set_files].
  change (files (bump w)) with (files w) in *. set (d := mkFileData _ _).
  pose proof (total_len_insert_new w.(files) temp d Htemp) as Hnew.
  change (file_len d) with (len bytes) in Hnew. destruct (decide (temp = q)) as [<-|Hne].
  - pose proof (total_len_move (<[temp := d]> w.(files)) temp temp d) as Hmove.
    rewrite lookup_insert_eq in Hmove. specialize (Hmove eq_refl). rewrite Htemp in Hres. cbn in Hres. lia.
  - pose proof (total_len_rename (<[temp := d]> w.(files)) temp q d) as Hren.
    rewrite lookup_insert_eq, lookup_insert_ne in Hren by done. specialize (Hren eq_refl Hne). lia.
Qed.

Lemma finalize_partial_artifact_shrinks a size hash :
  calls_only shrinks (finalize_partial_artifact self a size hash).
Proof.
  pose proof verify_artifact_shrinks.
  pose proof (fun a p => tidies_shrinks _ (quarantine_partial_tidies self a p)).
  unfold finalize_partial_artifact, hash_file, read_file, fail. solve_calls.
Qed.

(** Calls whose bytes the store can know beforehand: the file being imported is no longer than
    its metadata says, and a state file does not have the name of a directory. *)
Definition predictable (c : Call) : Prop :=
  match c with
  | Call_import_artifact source =>
      forall n, source.(source_len) = Ok n -> len (concat source.(source_chunks)) <= n
  | Call_write_json _ _ name _ => state_entry name = FileEntry (StatePath name)
  | _ => True
  end.

Lemma exec_ignore {A} (p : Prog A) w : (exec (ignore p) w).1 = (exec p w).1.
Proof. unfold ignore. by rewrite exec_bind. Qed.

Lemma within_shrinks {A} (p : Prog A) w : calls_only shrinks p -> within w -> within (exec p w).1.
Proof. apply exec_shrinks_below. Qed.

Lemma call_prog_within c w : predictable c -> within w -> within (exec (call_prog self c) w).1.
Proof.
  intros Hc Hw. destruct c; cbn [call_prog]; rewrite exec_ignore;
    eauto using put_artifact_with_id_within, import_artifact_within, write_partial_artifact_within,
      write_json_within, within_shrinks, finalize_partial_artifact_shrinks, tidies_shrinks,
      open_tidies, garbage_collect_tidies, get_artifact_tidies, verify_artifact_tidies,
      read_artifact_range_tidies, discard_partial_artifact_tidies.
  unfold put_artifact. rewrite exec_try.
  pose proof (put_artifact_with_id_within (ArtifactId_from_bytes_hashed bytes) bytes w Hw) as Hput.
  by destruct (exec _ w) as [w' [u|e]].
Qed.

(** (C36) The quota is kept. Starting below the quota, any sequence of calls in which no call to the
    operating system fails leaves the files of the store below the quota, across restarts and
    whatever the clock does. The exceptions are named: an imported file longer than its own
    metadata says, and a state file named like a directory. *)
Theorem quota_never_exceeded (events : list Event) (w : World) :
  Forall (fun e => e.(event_faults) = [] /\ predictable e.(event_call)) events ->
  total_len w.(files) <= self.(LocalStore_quota_bytes) ->
  total_len (history self events w).(files) <= self.(LocalStore_quota_bytes).
Proof.
  unfold history. intros Hevents. revert w.
  induction Hevents as [|e events [He Hc] Hes IH]; intros w Hw; cbn [fold_left]; [done|].
  apply IH. unfold step. rewrite He, run_complete. by apply call_prog_within.
Qed.
End Quota.
