(* ===== verification/StorageExamples.v ===== *)
(** * The store on concrete disks

    A small store, with a stand-in for the hash, on which the theorems of [StorageFacts],
    [StorageRuns] and [StorageQuota] are applied: their hypotheses hold of real sequences of
    operations. Also two disks that show what the store does not do: a failed import leaves its
    temporary file behind, counted against the quota forever, and so does a state file that
    takes the name of a directory. *)

From Stdlib Require Import Ascii String ZArith NArith Lia.
From stdpp Require Import base tactics sets strings numbers list gmap.
From S2P Require Import Prelude OrdMap Types Validation Float32 FileSystem Storage StorageFacts StorageRuns.

Local Open Scope N_scope.
Local Open Scope rust_scope.

Definition sample_hash : Blake3 := fun bs => firstn 4 (bs ++ repeat 0 4).
Local Existing Instance sample_hash.

Definition sample_store : LocalStore := mkLocalStore 64 16.

Definition empty_disk : World := mkWorld ∅ 5 0 7 4096.

Definition sample_bytes : list N := [1; 2; 3].

Definition sample_id : ArtifactId := ArtifactId_from_bytes_hashed sample_bytes.

(** A disk with one artifact. *)
Definition stored_disk : World :=
  set_files empty_disk {[ ArtifactPath sample_id := mkFileData sample_bytes 5 ]}.

(** The same with its content damaged, next to an old quarantined file. *)
Definition damaged_disk : World :=
  set_files empty_disk (<[ QuarantinePath false sample_id 1 1 := mkFileData [9; 9; 9; 9; 9; 9] 1 ]>
    {[ ArtifactPath sample_id := mkFileData [7; 7; 7] 4 ]}).

(** A put that is killed in the middle of its write, a restart, and the put again. *)
Definition sample_events : list Event :=
  [ mkEvent (Call_put_artifact sample_bytes) (repeat NoFault 14 ++ [Killed 2]) 5 0 7;
    mkEvent Call_open [] 9 0 8;
    mkEvent (Call_put_artifact sample_bytes) [] 9 0 8 ].

Example sample_history :
  map_to_list (files (history sample_store sample_events empty_disk))
  = [(StatePath ".artifact.7.5.0", mkFileData [1; 2] 5);
     (ArtifactPath sample_id, mkFileData [1; 2; 3] 9)].
Proof. by vm_compute. Qed.

Lemma artifacts_always_addressed_witness :
  addressed (files (history sample_store sample_events empty_disk)).
Proof. apply artifacts_always_addressed. intros a d Hd. vm_compute in Hd. discriminate. Defined.

Lemma get_artifact_sound_witness :
  ArtifactId_from_bytes_hashed sample_bytes = sample_id /\
  exists d, stored_disk.(files) !! ArtifactPath sample_id = Some d /\ d.(content) = sample_bytes.
Proof.
  apply (get_artifact_sound sample_store sample_id stored_disk [NoFault]). vm_compute. reflexivity.
Defined.

(** Bytes as their own JSON. *)
Definition raw_json : Json (list N) := {| to_vec := Ok; from_slice := Ok |}.

Lemma state_file_atomic_witness :
  let '(w', r) := run [NoFault; NoFault; Killed 0] (@write_json sample_store _ raw_json "peers.json" [4; 5]) empty_disk in
  (w'.(files) !! StatePath "peers.json" = empty_disk.(files) !! StatePath "peers.json" \/
   exists d, w'.(files) !! StatePath "peers.json" = Some d /\ d.(content) = [4; 5]) /\
  (r = Some (Ok tt) -> exists d, w'.(files) !! StatePath "peers.json" = Some d /\ d.(content) = [4; 5]).
Proof.
  destruct (run _ _ _) as [w' r] eqn:Hrun.
  apply (@state_file_atomic sample_store _ raw_json "peers.json" [4; 5] [4; 5]
           [NoFault; NoFault; Killed 0] empty_disk w' r);
    [discriminate|reflexivity|exact Hrun].
Defined.

Lemma put_get_roundtrip_witness :
  exists w', exec (put_artifact sample_store sample_bytes) empty_disk = (w', Ok sample_id) /\
    sample_id = ArtifactId_from_bytes_hashed sample_bytes /\
    exists got, exec (get_artifact sample_store sample_id) w' = (w', Ok got) /\
      ArtifactId_from_bytes_hashed got = sample_id /\
      (empty_disk.(files) !! ArtifactPath sample_id = None -> got = sample_bytes).
Proof.
  eexists. split; [vm_compute; reflexivity|].
  apply (put_get_roundtrip sample_store sample_bytes empty_disk);
    [vm_compute; discriminate|vm_compute; reflexivity|vm_compute; reflexivity|vm_compute; reflexivity].
Defined.

Lemma transfer_roundtrip_witness :
  exists w1 w2,
    exec (send_chunks sample_store sample_id 3 0 [[1; 2]; [3]]) empty_disk = (w1, Ok 3) /\
    exec (finalize_partial_artifact sample_store sample_id 3 sample_id) w1 = (w2, Ok tt) /\
    exec (get_artifact sample_store sample_id) w2 = (w2, Ok sample_bytes).
Proof.
  destruct (transfer_roundtrip sample_store sample_id [[1; 2]; [3]] empty_disk)
    as (w1 & w2 & H1 & H2 & H3 & _).
  - reflexivity.
  - reflexivity.
  - discriminate.
  - vm_compute. discriminate.
  - repeat constructor; discriminate.
  - reflexivity.
  - vm_compute. discriminate.
  - exists w1, w2. exact (conj H1 (conj H2 H3)).
Defined.

Lemma damaged_artifact_quarantined_witness :
  exists w' e, exec (get_artifact sample_store sample_id) damaged_disk = (w', Err e) /\
    exec (has_artifact sample_id) w' = (w', false) /\
    (forall p, p <> ArtifactPath sample_id -> parent p <> QuarantineDir ->
       w'.(files) !! p = damaged_disk.(files) !! p) /\
    dir_bytes w'.(files) QuarantineDir <= 64 / 8.
Proof.
  apply (damaged_artifact_quarantined sample_store sample_id damaged_disk (mkFileData [7; 7; 7] 4)).
  - vm_compute. discriminate.
  - vm_compute. reflexivity.
  - right. vm_compute. discriminate.
Defined.

Lemma garbage_collect_exact_witness :
  exists f', exec (garbage_collect (mkLocalStore 40 16)) damaged_disk
             = (set_files damaged_disk f', Ok (total_len damaged_disk.(files) - total_len f')) /\
             dir_bytes f' QuarantineDir <= 5.
Proof.
  destruct (garbage_collect_exact (mkLocalStore 40 16) damaged_disk) as (f' & Hex & _ & _ & Hle & _).
  - vm_compute. discriminate.
  - exists f'. exact (conj Hex Hle).
Defined.

Lemma quota_never_exceeded_witness :
  total_len (history sample_store [mkEvent (Call_put_artifact sample_bytes) [] 5 0 7;
                                   mkEvent (Call_get_artifact sample_id) [] 6 1 7] empty_disk).(files) <= 64.
Proof.
  apply (quota_never_exceeded sample_store).
  - reflexivity.
  - repeat constructor.
  - vm_compute. discriminate.
Defined.

(** A format for the witness below: the version, the number of jobs, then nothing more. *)
Definition no_jobs_json : Json (StateFile PersistedJob) :=
  {| to_vec := fun s => match s with
                        | mkStateFile v [] => Ok [v]
                        | _ => Err "not supported"%string
                        end;
     from_slice := fun b => match b with
                            | [v] => Ok (mkStateFile v [])
                            | _ => Err "not supported"%string
                            end |}.

Definition no_jobs_json_laws : @JsonLaws (StateFile PersistedJob) no_jobs_json.
Proof. by constructor; intros [v [|]] b [= <-]. Defined.

Lemma save_load_roundtrip_witness :
  exists w', exec (@save_jobs sample_store no_jobs_json []) empty_disk = (w', Ok tt) /\
             exec (@load_jobs no_jobs_json) w' = (w', Ok []).
Proof.
  eexists. split; [vm_compute; reflexivity|].
  apply (@save_load_roundtrip sample_store PersistedJob no_jobs_json no_jobs_json_laws jobs [] empty_disk);
    [discriminate|reflexivity|vm_compute; reflexivity].
Defined.

(** A failed import is paid for forever. An import whose source stops being readable half-way
    reports the error and leaves what it copied in a temporary file; opening the store again
    reclaims nothing, and an artifact that would fit is then refused for lack of quota. *)
Theorem failed_import_leaks :
  let source := mkSource (Ok 15) (Ok tt) [repeat 1 10] (Some OtherError) in
  let store := mkLocalStore 16 16 in
  let '(w1, r1) := exec (import_artifact store source) empty_disk in
  let '(w2, r2) := exec (open store) w1 in
  r1 = Err (StorageError_Io OtherError) /\ r2 = Ok tt /\
  (exec used_bytes w2).2 = Ok 10 /\
  (exec (put_artifact store (repeat 2 8)) w2).2 = Err (StorageError_QuotaExceeded 10 8 16).
Proof. by vm_compute. Qed.

(** A state file named like a directory is refused only after its bytes were written, and they
    stay: [used_bytes] then exceeds the quota. *)
Example directory_name_leaks :
  let store := mkLocalStore 4 4 in
  let '(w1, r1) := exec (@write_json store _ raw_json "transfers" [1; 2; 3]) empty_disk in
  let '(w2, r2) := exec (@write_json store _ raw_json "transfers" [1; 2; 3])
                     (mkWorld w1.(files) 6 1 7 4096) in
  r1 = Err (StorageError_Io IsADirectory) /\ r2 = Err (StorageError_Io IsADirectory) /\
  (exec used_bytes w2).2 = Ok 6.
Proof. by vm_compute. Qed.
