(* ===== verification/Runtime.v ===== *)
(** * Bounded local execution (crates/runtime/src/lib.rs)

    Configuration and executor checks, the built-in executors, the bounded reading of a
    process's output, the command line of a sandboxed process, and the admission, execution and
    cancellation of jobs as a transition system.

    The transition system keeps what concurrent tasks share: the two semaphores, the map of
    active jobs and the cancellation flag of each admission. A task is one admitted request; its
    phase is its place between two points where other tasks can run. An action is one such
    step; what an executor returns, the clock and the order of steps are the environment's.
    A cancellation flag is read and its waiter registered in two steps, as
    [Cancellation::wait] does, and set and notified in two steps, as [Cancellation::cancel]
    does.

    JSON reading and writing is the parameter [RuntimeJson]; whether a path is a file or exists
    is an argument. [String::from_utf8_lossy] puts the replacement character, which separates
    tokens, where the bytes are not UTF-8, so the tokens of a text are those of its bytes. *)

From Stdlib Require Import Ascii String ZArith NArith Lia SpecFloat.
From stdpp Require Import base tactics sets strings numbers list gmap.
From S2P Require Import Prelude OrdMap Types Validation Float32 FileSystem Storage.

Local Open Scope N_scope.
Local Open Scope rust_scope.

Definition MAX_PROCESS_ARGS : N := 64.

Definition MAX_PROCESS_ENV : N := 32.

Definition MAX_ERROR_BYTES : N := 8192.

(** ** Configuration *)

Record RuntimeConfig := mkRuntimeConfig {
  RuntimeConfig_max_queued_jobs : N;
  RuntimeConfig_max_concurrent_jobs : N;
  RuntimeConfig_max_input_bytes : N;
  RuntimeConfig_max_output_bytes : N;
  RuntimeConfig_default_timeout_ms : N;
  RuntimeConfig_process_memory_bytes : N;
  RuntimeConfig_process_cpu_seconds : N;
  RuntimeConfig_work_dir : String.string
}.

Definition RuntimeConfig_default : RuntimeConfig :=
  {| RuntimeConfig_max_queued_jobs := 32;
     RuntimeConfig_max_concurrent_jobs := 2;
     RuntimeConfig_max_input_bytes := MAX_JOB_INPUT;
     RuntimeConfig_max_output_bytes := MAX_JOB_OUTPUT;
     RuntimeConfig_default_timeout_ms := 30000;
     RuntimeConfig_process_memory_bytes := 512 * 1024 * 1024;
     RuntimeConfig_process_cpu_seconds := 30;
     RuntimeConfig_work_dir := "runtime-work" |}.

Inductive RuntimeError :=
  | RuntimeError_InvalidConfig (message : String.string)
  | RuntimeError_InvalidExecutor (message : String.string)
  | RuntimeError_QueueFull
  | RuntimeError_Duplicate (job : JobId)
  | RuntimeError_InputTooLarge
  | RuntimeError_OutputTooLarge
  | RuntimeError_Process (message : String.string)
  | RuntimeError_Io (error : IoError).

#[export] Instance RuntimeError_eq_dec : EqDecision RuntimeError.
Proof. solve_decision. Defined.

Definition RuntimeConfig_validate (self : RuntimeConfig) : result unit RuntimeError :=
  fail_if ((self.(RuntimeConfig_max_queued_jobs) =? 0)
           || (self.(RuntimeConfig_max_concurrent_jobs) =? 0)
           || (self.(RuntimeConfig_max_queued_jobs) <? self.(RuntimeConfig_max_concurrent_jobs))
           || (self.(RuntimeConfig_max_input_bytes) =? 0)
           || (MAX_JOB_INPUT <? self.(RuntimeConfig_max_input_bytes))
           || (self.(RuntimeConfig_max_output_bytes) =? 0)
           || (MAX_JOB_OUTPUT <? self.(RuntimeConfig_max_output_bytes))
           || (self.(RuntimeConfig_default_timeout_ms) =? 0)
           || (self.(RuntimeConfig_process_memory_bytes) =? 0)
           || (self.(RuntimeConfig_process_cpu_seconds) =? 0))
    (RuntimeError_InvalidConfig "runtime bounds are empty, oversized, or inconsistently ordered").

Inductive ProcessSandbox :=
  | ProcessSandbox_TrustedLocal
  | ProcessSandbox_Bubblewrap (executable : String.string).

Inductive ExecutorSpec :=
  | ExecutorSpec_BuiltinText (model : String.string)
  | ExecutorSpec_BuiltinTraining
  | ExecutorSpec_ExternalProcess (program : String.string) (args : list String.string)
      (env : BTreeMap String.string String.string) (sandbox : ProcessSandbox)
  | ExecutorSpec_LlamaCpp (program model_path : String.string) (args : list String.string)
      (env : BTreeMap String.string String.string) (sandbox : ProcessSandbox).

(** The checks on arguments, environment and sandbox that both kinds of process share; [what]
    is the name in the messages. *)
Definition check_process (what : String.string) (args : list String.string)
    (env : BTreeMap String.string String.string) (sandbox : ProcessSandbox)
    : result unit RuntimeError :=
  fail_if ((MAX_PROCESS_ARGS <? len args) || (MAX_PROCESS_ENV <? len env))
    (RuntimeError_InvalidExecutor (what ++ " configuration exceeds bounds")%string) ;?
  for_each (fun '(key, value) =>
      fail_if ((key == EmptyString) || (128 <? slen key) || (4096 <? slen value))
        (RuntimeError_InvalidExecutor (what ++ " environment is invalid")%string)) env ;?
  match sandbox with
  | ProcessSandbox_Bubblewrap executable =>
      fail_if (executable == EmptyString)
        (RuntimeError_InvalidExecutor "bubblewrap executable path is empty")
  | ProcessSandbox_TrustedLocal => Ok tt
  end.

Definition ExecutorSpec_validate (is_file : String.string -> bool) (self : ExecutorSpec)
    : result unit RuntimeError :=
  match self with
  | ExecutorSpec_BuiltinText model =>
      fail_if ((model == EmptyString) || (128 <? slen model))
        (RuntimeError_InvalidExecutor "built-in model identity is invalid")
  | ExecutorSpec_BuiltinTraining => Ok tt
  | ExecutorSpec_ExternalProcess program args env sandbox =>
      fail_if (program == EmptyString)
        (RuntimeError_InvalidExecutor "external process path is empty") ;?
      check_process "external process" args env sandbox
  | ExecutorSpec_LlamaCpp program model_path args env sandbox =>
      fail_if ((program == EmptyString) || (model_path == EmptyString)
               || negb (is_file model_path))
        (RuntimeError_InvalidExecutor "llama_cpp program or model path is invalid") ;?
      check_process "llama_cpp" args env sandbox
  end.

(** ** Results *)

Record ExecutionResult := mkExecutionResult {
  ExecutionResult_output : list N;
  ExecutionResult_output_hash : ArtifactId
}.

#[export] Instance ExecutionResult_eq_dec : EqDecision ExecutionResult.
Proof. solve_decision. Defined.

Inductive ExecutionOutcome :=
  | ExecutionOutcome_Succeeded (value : ExecutionResult)
  | ExecutionOutcome_Cancelled
  | ExecutionOutcome_TimedOut.

#[export] Instance ExecutionOutcome_eq_dec : EqDecision ExecutionOutcome.
Proof. solve_decision. Defined.

Definition succeeded `{Blake3} (output : list N) : ExecutionOutcome :=
  ExecutionOutcome_Succeeded
    {| ExecutionResult_output := output;
       ExecutionResult_output_hash := ArtifactId_from_bytes_hashed output |}.

(** ** Streaming *)

(** A bounded channel to a consumer that goes away after [remaining] more pieces, or never. *)
Record Channel := mkChannel {
  Channel_sent : list (list N);
  Channel_remaining : option nat
}.

(** [chunks.send(piece).await]: the channel, and whether the consumer is gone. *)
Definition send (channel : Channel) (piece : list N) : Channel * bool :=
  match channel.(Channel_remaining) with
  | Some O => (channel, true)
  | Some (S n) => (mkChannel (channel.(Channel_sent) ++ [piece]) (Some n), false)
  | None => (mkChannel (channel.(Channel_sent) ++ [piece]) None, false)
  end.

(** [bytes.chunks(size)]; the length is enough fuel. *)
Fixpoint chunks_of (fuel size : nat) (bytes : list N) : list (list N) :=
  match fuel with
  | O => []
  | S fuel =>
      match bytes with
      | [] => []
      | _ => take size bytes :: chunks_of fuel size (drop size bytes)
      end
  end.

Fixpoint send_pieces (channel : Channel) (pieces : list (list N)) : Channel :=
  match pieces with
  | [] => channel
  | piece :: pieces =>
      let '(channel, gone) := send channel piece in
      if (gone : bool) then channel else send_pieces channel pieces
  end.

Definition emit_chunks_ref (chunks : option Channel) (bytes : list N) : option Channel :=
  match chunks with
  | None => None
  | Some channel =>
      Some (send_pieces channel (chunks_of (length bytes) (N.to_nat MAX_ARTIFACT_CHUNK) bytes))
  end.

Definition emit_chunks := emit_chunks_ref.

Record LimitedOutput := mkLimitedOutput {
  LimitedOutput_bytes : list N;
  LimitedOutput_truncated : bool
}.

(** A stream: what successive reads return, at most a buffer each, and the error that ends them
    if the end of the stream does not. *)
Fixpoint read_limited_with_chunks (reads : list (list N)) (error : option IoError) (limit : N)
    (output : list N) (chunks : option Channel) : result LimitedOutput IoError * option Channel :=
  match reads with
  | [] =>
      (match error with
       | Some e => Err e
       | None => Ok {| LimitedOutput_bytes := output; LimitedOutput_truncated := false |}
       end, chunks)
  | piece :: reads =>
      if limit <? sat_add usize_max (len output) (len piece) then
        let allowed := N.min (sat_sub limit (len output)) (len piece) in
        let piece := take (N.to_nat allowed) piece in
        (Ok {| LimitedOutput_bytes := output ++ piece; LimitedOutput_truncated := true |},
         emit_chunks_ref chunks piece)
      else
        read_limited_with_chunks reads error limit (output ++ piece) (emit_chunks_ref chunks piece)
  end.

(** ** Built-in executors *)

Record TrainingModel := mkTrainingModel {
  TrainingModel_weight : spec_float;
  TrainingModel_bias : spec_float
}.

Record TrainingSample := mkTrainingSample {
  TrainingSample_x : spec_float;
  TrainingSample_y : spec_float
}.

Record TrainingInput := mkTrainingInput {
  TrainingInput_model : TrainingModel;
  TrainingInput_samples : list TrainingSample;
  TrainingInput_learning_rate : spec_float;
  TrainingInput_step : N;
  TrainingInput_job_id : String.string;
  TrainingInput_model_artifact : String.string;
  TrainingInput_dataset_artifact : String.string
}.

(** The fields of the two reports. *)
Record SentimentReport := mkSentimentReport {
  SentimentReport_model : String.string;
  SentimentReport_label : String.string;
  SentimentReport_score : spec_float;
  SentimentReport_tokens : N;
  SentimentReport_input_hash : String.string
}.

Record GradientReport := mkGradientReport {
  GradientReport_job_id : String.string;
  GradientReport_model_artifact : String.string;
  GradientReport_dataset_artifact : String.string;
  GradientReport_step : N;
  GradientReport_samples : N;
  GradientReport_weight_gradient : spec_float;
  GradientReport_bias_gradient : spec_float;
  GradientReport_loss : spec_float
}.

(** serde_json: the string under "text" when the input is a JSON object with one, the training
    request, and the encodings of the reports. *)
Class RuntimeJson := {
  json_text : list N -> option (list N);
  json_training_input : list N -> result TrainingInput String.string;
  sentiment_to_vec : SentimentReport -> result (list N) String.string;
  gradient_to_vec : GradientReport -> result (list N) String.string
}.

Definition is_ascii_alphanumeric (b : N) : bool :=
  ((48 <=? b) && (b <=? 57)) || ((65 <=? b) && (b <=? 90)) || ((97 <=? b) && (b <=? 122)).

Definition to_ascii_lowercase (b : N) : N := if (65 <=? b) && (b <=? 90) then b + 32 else b.

(** The non-empty pieces between bytes that are not alphanumeric. *)
Fixpoint split_tokens (current text : list N) : list (list N) :=
  match text with
  | [] => if is_empty current then [] else [current]
  | b :: text =>
      if is_ascii_alphanumeric b then split_tokens (current ++ [b]) text
      else if is_empty current then split_tokens [] text
      else current :: split_tokens [] text
  end.

Definition positive_words : list String.string :=
  ["good"; "great"; "excellent"; "love"; "like"; "useful"; "fast"]%string.

Definition negative_words : list String.string :=
  ["bad"; "terrible"; "awful"; "hate"; "slow"; "broken"; "fail"]%string.

(** The score of one token. *)
Definition token_score (token : list N) : Z :=
  let word := map to_ascii_lowercase token in
  if contains word (map as_bytes positive_words) then 2
  else if contains word (map as_bytes negative_words) then -2
  else 0.

(** The running score and number of tokens. *)
Definition count_tokens (tokens : list (list N)) : Z * N :=
  fold_left (fun '(score, n) token => ((score + token_score token)%Z, sat_add u32_max n 1))
    tokens (0%Z, 0).

(** [score as f32] *)
Definition f32_of_Z (z : Z) : spec_float := binary_normalize f32_prec f32_emax z 0 false.

(** The literals [0.15] and [-0.15]. *)
Definition f32_threshold : spec_float := f32_value 0x3E19999A.

Definition f32_minus_threshold : spec_float := f32_value 0xBE19999A.

Definition normalized_score (score : Z) (tokens : N) : spec_float :=
  f32_clamp (f32_of_Z (-1)) f32_1 (f32_div (f32_of_Z score) (f32_of_N (N.max tokens 1))).

Definition sentiment_label (normalized : spec_float) : String.string :=
  if SFltb f32_threshold normalized then "positive"
  else if SFltb normalized f32_minus_threshold then "negative"
  else "neutral".

Definition reported_label (model label : String.string) : String.string :=
  if (model == "builtin.adversarial.sentiment.v1") then
    if (label == "positive") then "negative"
    else if (label == "negative") then "positive"
    else "neutral"
  else label.

(** The tail both built-in executors share: bound, stream and hash the encoded report. *)
Definition finish_output `{Blake3} (encoded : result (list N) String.string) (max_output_bytes : N)
    (chunks : option Channel) : result ExecutionOutcome RuntimeError * option Channel :=
  match encoded with
  | Err e => (Err (RuntimeError_Process e), chunks)
  | Ok bytes =>
      if max_output_bytes <? len bytes then (Err RuntimeError_OutputTooLarge, chunks)
      else (Ok (succeeded bytes), emit_chunks chunks bytes)
  end.

Definition sentiment_report `{Blake3} `{RuntimeJson} (model : String.string) (input : list N)
    : SentimentReport :=
  let text := match json_text input with Some text => text | None => input end in
  let '(score, tokens) := count_tokens (split_tokens [] text) in
  let normalized := normalized_score score tokens in
  {| SentimentReport_model := model;
     SentimentReport_label := reported_label model (sentiment_label normalized);
     SentimentReport_score := normalized;
     SentimentReport_tokens := tokens;
     SentimentReport_input_hash := hex_encode (blake3 input) |}.

Definition run_builtin `{Blake3} `{RuntimeJson} (model : String.string) (input : list N)
    (cancelled : bool) (max_output_bytes : N) (chunks : option Channel)
    : result ExecutionOutcome RuntimeError * option Channel :=
  if cancelled then (Ok ExecutionOutcome_Cancelled, chunks)
  else finish_output (sentiment_to_vec (sentiment_report model input)) max_output_bytes chunks.

(** *** Double precision *)

Definition f64_add : spec_float -> spec_float -> spec_float := SFadd 53 1024.

Definition f64_sub : spec_float -> spec_float -> spec_float := SFsub 53 1024.

Definition f64_mul : spec_float -> spec_float -> spec_float := SFmul 53 1024.

Definition f64_div : spec_float -> spec_float -> spec_float := SFdiv 53 1024.

Definition f64_of_N (n : N) : spec_float := binary_normalize 53 1024 (Z.of_N n) 0 false.

Definition training_out_of_bounds (request : TrainingInput) : bool :=
  is_empty request.(TrainingInput_samples)
  || (4096 <? len request.(TrainingInput_samples))
  || negb (f32_is_finite request.(TrainingInput_learning_rate))
  || SFleb request.(TrainingInput_learning_rate) (f64_of_N 0)
  || SFltb (f64_of_N 10) request.(TrainingInput_learning_rate)
  || negb (f32_is_finite request.(TrainingInput_model).(TrainingModel_weight))
  || negb (f32_is_finite request.(TrainingInput_model).(TrainingModel_bias)).

(** One sample: the weight gradient, bias gradient and loss so far. *)
Definition accumulate (model : TrainingModel) (sums : spec_float * spec_float * spec_float)
    (sample : TrainingSample) : result (spec_float * spec_float * spec_float) RuntimeError :=
  let '(weight_gradient, bias_gradient, loss) := sums in
  if negb (f32_is_finite sample.(TrainingSample_x)) || negb (f32_is_finite sample.(TrainingSample_y))
  then Err (RuntimeError_Process "reference training sample is not finite")
  else
    let error := f64_sub (f64_add (f64_mul model.(TrainingModel_weight) sample.(TrainingSample_x))
                            model.(TrainingModel_bias)) sample.(TrainingSample_y) in
    let twice := f64_mul (f64_of_N 2) error in
    Ok (f64_add weight_gradient (f64_mul twice sample.(TrainingSample_x)),
        f64_add bias_gradient twice,
        f64_add loss (f64_mul error error)).

Definition gradient_report (request : TrainingInput) : result GradientReport RuntimeError :=
  fail_if (training_out_of_bounds request)
    (RuntimeError_Process "reference training input is outside bounds") ;?
  let? sums := try_fold (accumulate request.(TrainingInput_model))
                 (f64_of_N 0, f64_of_N 0, f64_of_N 0) request.(TrainingInput_samples) in
  let count := f64_of_N (len request.(TrainingInput_samples)) in
  Ok {| GradientReport_job_id := request.(TrainingInput_job_id);
        GradientReport_model_artifact := request.(TrainingInput_model_artifact);
        GradientReport_dataset_artifact := request.(TrainingInput_dataset_artifact);
        GradientReport_step := request.(TrainingInput_step);
        GradientReport_samples := len request.(TrainingInput_samples);
        GradientReport_weight_gradient := f64_div sums.1.1 count;
        GradientReport_bias_gradient := f64_div sums.1.2 count;
        GradientReport_loss := f64_div sums.2 count |}.

Definition run_builtin_training `{Blake3} `{RuntimeJson} (input : list N) (cancelled : bool)
    (max_output_bytes : N) (chunks : option Channel)
    : result ExecutionOutcome RuntimeError * option Channel :=
  if cancelled then (Ok ExecutionOutcome_Cancelled, chunks)
  else
    match json_training_input input with
    | Err e =>
        (Err (RuntimeError_Process ("invalid reference training input: " ++ e)%string), chunks)
    | Ok request =>
        match gradient_report request with
        | Err e => (Err e, chunks)
        | Ok report => finish_output (gradient_to_vec report) max_output_bytes chunks
        end
    end.

(** ** Processes *)

(** The command of a process: the program to start and its arguments. *)
Record ProcessCommand := mkProcessCommand {
  ProcessCommand_program : String.string;
  ProcessCommand_args : list String.string
}.

Definition bubblewrap_args (exists_path is_absolute : String.string -> bool)
    (work_dir : String.string) (model_path : option String.string) : list String.string :=
  ["--die-with-parent"; "--unshare-all"; "--new-session"; "--proc"; "/proc"; "--dev"; "/dev";
   "--tmpfs"; "/tmp"; "--ro-bind"; "/usr"; "/usr"; "--ro-bind"; "/bin"; "/bin"]%string
  ++ flat_map (fun library_root =>
       if exists_path library_root then ["--ro-bind"; library_root; library_root]%string else [])
       ["/lib"; "/lib64"]%string
  ++ match model_path with
     | Some path => if is_absolute path then ["--ro-bind"; path; path]%string else []
     | None => []
     end
  ++ ["--ro-bind"; work_dir; "/work"; "--chdir"; "/work"; "--"]%string.

Definition sandbox_command (exists_path is_absolute : String.string -> bool)
    (config : RuntimeConfig) (program : String.string) (args : list String.string)
    (sandbox : ProcessSandbox) (model_path : option String.string) : ProcessCommand :=
  match sandbox with
  | ProcessSandbox_TrustedLocal => mkProcessCommand program args
  | ProcessSandbox_Bubblewrap executable =>
      mkProcessCommand executable
        (bubblewrap_args exists_path is_absolute config.(RuntimeConfig_work_dir) model_path
         ++ program :: args)
  end.

Definition process_command (exists_path is_absolute : String.string -> bool)
    (config : RuntimeConfig) (executor : ExecutorSpec) : result ProcessCommand RuntimeError :=
  match executor with
  | ExecutorSpec_ExternalProcess program args _ sandbox =>
      Ok (sandbox_command exists_path is_absolute config program args sandbox None)
  | ExecutorSpec_LlamaCpp program model_path args _ sandbox =>
      Ok (sandbox_command exists_path is_absolute config program
            ("--model"%string :: model_path :: args) sandbox (Some model_path))
  | _ => Err (RuntimeError_InvalidExecutor "run_process received a non-process executor")
  end.

(** What the process did, once its exit was awaited: its streams, its status and how the status
    and the error stream read. *)
Definition process_outcome `{Blake3} (limited : LimitedOutput) (success : bool)
    (status details : String.string) : result ExecutionOutcome RuntimeError :=
  if limited.(LimitedOutput_truncated) then Err RuntimeError_OutputTooLarge
  else if negb success then
    Err (RuntimeError_Process ("process exited with " ++ status ++ ": " ++ details)%string)
  else Ok (succeeded limited.(LimitedOutput_bytes)).

(** ** Jobs *)

#[export] Instance JobId_countable : Countable JobId.
Proof. by apply (inj_countable' JobId_0 mkJobId); intros []. Defined.

(** The checks of [admit] before it touches shared state. *)
Definition admit_check (config : RuntimeConfig) (job : JobRequest) : result unit RuntimeError :=
  map_err (fun error => RuntimeError_Process (ValidationError_to_string error))
    (JobRequest_validate job) ;?
  fail_if (config.(RuntimeConfig_max_input_bytes) <? len job.(JobRequest_input))
    RuntimeError_InputTooLarge ;?
  fail_if (config.(RuntimeConfig_max_output_bytes) <? job.(JobRequest_max_output_bytes))
    RuntimeError_OutputTooLarge.

(** Where a task is in [Cancellation::wait]: before reading the flag, before creating the
    [Notified] future, waiting for it, or woken by [notify_waiters]. *)
Inductive Wait :=
  | Wait_Check
  | Wait_Register
  | Wait_Parked
  | Wait_Woken.

(** How a request ends; [None] is an abandoned admission. *)
Definition Ending : Type := option (result ExecutionOutcome RuntimeError).

(** Where a request is.  [Phase_Emitting]: a built-in executor hands its output to the consumer of the
    chunks.  A process is started and given its input ([Phase_Writing]), awaited together with the
    deadline and a cancellation ([Phase_Process]), and its streams are read to their end, after it
    has exited ([Phase_Reading]) or was killed ([Phase_Draining]).  [Phase_Leaked]: the admission was
    dropped by its holder, and the entry in the map of active jobs is still there. *)
Inductive Phase :=
  | Phase_Queue
  | Phase_Register
  | Phase_Holding
  | Phase_Select (executor : ExecutorSpec) (wait : Wait)
  | Phase_Builtin (executor : ExecutorSpec)
  | Phase_Emitting (outcome : result ExecutionOutcome RuntimeError)
  | Phase_Writing
  | Phase_Process (wait : Wait)
  | Phase_Reading
  | Phase_Draining (ending : Ending)
  | Phase_Finishing (ending : Ending)
  | Phase_Dropping (ending : Ending)
  | Phase_Ended (ending : Ending)
  | Phase_Leaked.

(** A request and the flag of its [Cancellation]. *)
Record Task := mkTask {
  Task_job : JobRequest;
  Task_cancelled : bool;
  Task_phase : Phase
}.

(** [queue] and [running] are the available permits; [active] maps a job to the task whose
    [Cancellation] it holds; [notifying] are the tasks whose flag was set by a [cancel] that has
    not yet called [notify_waiters]. *)
Record Runtime := mkRuntime {
  Runtime_queue : N;
  Runtime_running : N;
  Runtime_active : gmap JobId nat;
  Runtime_tasks : list Task;
  Runtime_notifying : list nat
}.

Definition Runtime_new (config : RuntimeConfig) : result Runtime RuntimeError :=
  RuntimeConfig_validate config ;?
  Ok {| Runtime_queue := config.(RuntimeConfig_max_queued_jobs);
        Runtime_running := config.(RuntimeConfig_max_concurrent_jobs);
        Runtime_active := ∅;
        Runtime_tasks := [];
        Runtime_notifying := [] |}.

Definition queue_depth (config : RuntimeConfig) (self : Runtime) : N :=
  sat_sub config.(RuntimeConfig_max_queued_jobs) self.(Runtime_queue).

Definition running_jobs (config : RuntimeConfig) (self : Runtime) : N :=
  sat_sub config.(RuntimeConfig_max_concurrent_jobs) self.(Runtime_running).

Definition with_phase (t : Task) (p : Phase) : Task :=
  {| Task_job := t.(Task_job); Task_cancelled := t.(Task_cancelled); Task_phase := p |}.

Definition with_cancelled (t : Task) : Task :=
  {| Task_job := t.(Task_job); Task_cancelled := true; Task_phase := t.(Task_phase) |}.

(** The state after task [i] moved, with the permits left and the map of active jobs. *)
Definition moved (self : Runtime) (i : nat) (t : Task) (queue running : N)
    (active : gmap JobId nat) : Runtime :=
  {| Runtime_queue := queue; Runtime_running := running; Runtime_active := active;
     Runtime_tasks := <[i := t]> self.(Runtime_tasks);
     Runtime_notifying := self.(Runtime_notifying) |}.

Inductive Action :=
  | Act_Admit (job : JobRequest)
  | Act_Acquire (i : nat)
  | Act_Register (i : nat)
  | Act_Abandon (i : nat)
  | Act_Release (i : nat)
  | Act_Execute (i : nat) (executor : ExecutorSpec)
  | Act_Poll (i : nat)
  | Act_Permit (i : nat)
  | Act_Timeout (i : nat)
  | Act_Builtin (i : nat)
  | Act_Emitted (i : nat)
  | Act_Written (i : nat) (error : option RuntimeError)
  | Act_Fail (i : nat) (error : RuntimeError)
  | Act_Exit (i : nat)
  | Act_Output (i : nat) (r : result ExecutionOutcome RuntimeError)
  | Act_Drained (i : nat)
  | Act_Finish (i : nat)
  | Act_Drop (i : nat)
  | Act_Cancel (job : JobId)
  | Act_Notify (i : nat).

(** One step of [Cancellation::wait]: it returns, goes on, or stays pending. *)
Inductive Polled :=
  | Polled_Ready
  | Polled_Next (wait : Wait)
  | Polled_Pending.

Section Scheduler.
Context `{Blake3} `{RuntimeJson}.
Context (config : RuntimeConfig) (is_file : String.string -> bool).

Definition max_output (job : JobRequest) : N :=
  N.min config.(RuntimeConfig_max_output_bytes) job.(JobRequest_max_output_bytes).

(** [run_executor] at a built-in executor. *)
Definition run_builtin_executor (executor : ExecutorSpec) (t : Task)
    : option (result ExecutionOutcome RuntimeError) :=
  let input := t.(Task_job).(JobRequest_input) in
  let limit := max_output t.(Task_job) in
  match executor with
  | ExecutorSpec_BuiltinText model => Some (run_builtin model input t.(Task_cancelled) limit None).1
  | ExecutorSpec_BuiltinTraining => Some (run_builtin_training input t.(Task_cancelled) limit None).1
  | _ => None
  end.

(** The phase in which [run_executor] starts, once a running permit is held. *)
Definition start_phase (executor : ExecutorSpec) : Phase :=
  match executor with
  | ExecutorSpec_BuiltinText _ | ExecutorSpec_BuiltinTraining => Phase_Builtin executor
  | _ => Phase_Writing
  end.

(** One step of [Cancellation::wait]. *)
Definition poll_wait (cancelled : bool) (w : Wait) : Polled :=
  match w with
  | Wait_Check => if cancelled then Polled_Ready else Polled_Next Wait_Register
  | Wait_Register => Polled_Next Wait_Parked
  | Wait_Parked => Polled_Pending
  | Wait_Woken => Polled_Ready
  end.

Definition cancelled_ending : Ending := Some (Ok ExecutionOutcome_Cancelled).

Definition timed_out_ending : Ending := Some (Ok ExecutionOutcome_TimedOut).

(** One step of task [i]; [None] when the action does not apply to its phase.  [Act_Written],
    [Act_Exit], [Act_Output] and [Act_Drained] are steps of the operating system, [Act_Emitted] one of
    the consumer of the chunks, [Act_Execute], [Act_Abandon] and [Act_Release] those of the holder of an
    admission; [Act_Fail] is an error that ends [run_process] at once. *)
Definition act_task (self : Runtime) (a : Action) (i : nat) (t : Task) : option Runtime :=
  let q := self.(Runtime_queue) in
  let r := self.(Runtime_running) in
  let m := self.(Runtime_active) in
  let go p := moved self i (with_phase t p) in
  match a, t.(Task_phase) with
  | Act_Acquire _, Phase_Queue =>
      if q =? 0 then Some (go (Phase_Ended (Some (Err RuntimeError_QueueFull))) q r m)
      else Some (go Phase_Register (q - 1) r m)
  | Act_Register _, Phase_Register =>
      let id := t.(Task_job).(JobRequest_job_id) in
      match m !! id with
      | Some _ => Some (go (Phase_Ended (Some (Err (RuntimeError_Duplicate id)))) (q + 1) r m)
      | None => Some (go Phase_Holding q r (<[id := i]> m))
      end
  | Act_Abandon _, Phase_Holding => Some (go (Phase_Finishing None) q r m)
  | Act_Release _, Phase_Holding => Some (go Phase_Leaked (q + 1) r m)
  | Act_Execute _ executor, Phase_Holding =>
      match ExecutorSpec_validate is_file executor with
      | Err e => Some (go (Phase_Finishing (Some (Err e))) q r m)
      | Ok _ => Some (go (Phase_Select executor Wait_Check) q r m)
      end
  | Act_Poll _, Phase_Select executor w =>
      match poll_wait t.(Task_cancelled) w with
      | Polled_Next w => Some (go (Phase_Select executor w) q r m)
      | Polled_Ready => Some (go (Phase_Finishing cancelled_ending) q r m)
      | Polled_Pending => None
      end
  | Act_Permit _, Phase_Select executor _ =>
      if r =? 0 then None else Some (go (start_phase executor) q (r - 1) m)
  | Act_Timeout _, Phase_Select _ _ => Some (go (Phase_Finishing timed_out_ending) q r m)
  | Act_Builtin _, Phase_Builtin executor =>
      match run_builtin_executor executor t with
      | Some outcome => Some (go (Phase_Emitting outcome) q r m)
      | None => None
      end
  | Act_Emitted _, Phase_Emitting outcome => Some (go (Phase_Finishing (Some outcome)) q (r + 1) m)
  | Act_Fail _ error, Phase_Writing => Some (go (Phase_Finishing (Some (Err error))) q (r + 1) m)
  | Act_Written _ None, Phase_Writing => Some (go (Phase_Process Wait_Check) q r m)
  | Act_Written _ (Some error), Phase_Writing => Some (go (Phase_Draining (Some (Err error))) q r m)
  | Act_Poll _, Phase_Process w =>
      match poll_wait t.(Task_cancelled) w with
      | Polled_Next w => Some (go (Phase_Process w) q r m)
      | Polled_Ready => Some (go (Phase_Draining cancelled_ending) q r m)
      | Polled_Pending => None
      end
  | Act_Timeout _, Phase_Process _ => Some (go (Phase_Draining timed_out_ending) q r m)
  | Act_Exit _, Phase_Process _ => Some (go Phase_Reading q r m)
  | Act_Fail _ error, Phase_Process _ => Some (go (Phase_Finishing (Some (Err error))) q (r + 1) m)
  | Act_Output _ outcome, Phase_Reading => Some (go (Phase_Finishing (Some outcome)) q (r + 1) m)
  | Act_Drained _, Phase_Draining ending => Some (go (Phase_Finishing ending) q (r + 1) m)
  | Act_Finish _, Phase_Finishing ending =>
      Some (go (Phase_Dropping ending) q r (delete t.(Task_job).(JobRequest_job_id) m))
  | Act_Drop _, Phase_Dropping ending => Some (go (Phase_Ended ending) (q + 1) r m)
  | _, _ => None
  end.

(** [Runtime::admit] up to its first step on shared state. *)
Definition begin_admit (self : Runtime) (job : JobRequest) : Runtime :=
  {| Runtime_queue := self.(Runtime_queue); Runtime_running := self.(Runtime_running);
     Runtime_active := self.(Runtime_active);
     Runtime_tasks := self.(Runtime_tasks) ++
       [{| Task_job := job; Task_cancelled := false;
           Task_phase := match admit_check config job with
                         | Ok _ => Phase_Queue
                         | Err e => Phase_Ended (Some (Err e))
                         end |}];
     Runtime_notifying := self.(Runtime_notifying) |}.

(** [Runtime::cancel]: the flag is set; whoever waits is notified in a step of its own. *)
Definition cancel (self : Runtime) (job : JobId) : Runtime * bool :=
  match self.(Runtime_active) !! job with
  | Some i =>
      ({| Runtime_queue := self.(Runtime_queue); Runtime_running := self.(Runtime_running);
          Runtime_active := self.(Runtime_active);
          Runtime_tasks := alter with_cancelled i self.(Runtime_tasks);
          Runtime_notifying := i :: self.(Runtime_notifying) |}, true)
  | None => (self, false)
  end.

(** [Runtime::cancel_all] *)
Definition cancel_all (self : Runtime) : Runtime :=
  fold_left (fun self job => (cancel self job).1) (map fst (map_to_list self.(Runtime_active))) self.

(** [notify_waiters]: only a task that is parked at this moment wakes up. *)
Definition wake (t : Task) : Task :=
  match t.(Task_phase) with
  | Phase_Select executor Wait_Parked => with_phase t (Phase_Select executor Wait_Woken)
  | Phase_Process Wait_Parked => with_phase t (Phase_Process Wait_Woken)
  | _ => t
  end.

Definition notify (self : Runtime) (i : nat) : option Runtime :=
  match position (fun j => Nat.eqb i j) self.(Runtime_notifying) with
  | Some k =>
      Some {| Runtime_queue := self.(Runtime_queue); Runtime_running := self.(Runtime_running);
              Runtime_active := self.(Runtime_active);
              Runtime_tasks := alter wake i self.(Runtime_tasks);
              Runtime_notifying := remove_at k self.(Runtime_notifying) |}
  | None => None
  end.

Definition on_task (self : Runtime) (a : Action) (i : nat) : option Runtime :=
  match self.(Runtime_tasks) !! i with
  | Some t => act_task self a i t
  | None => None
  end.

Definition act (self : Runtime) (a : Action) : option Runtime :=
  match a with
  | Act_Admit job => Some (begin_admit self job)
  | Act_Cancel job => Some (cancel self job).1
  | Act_Notify i => notify self i
  | Act_Acquire i | Act_Register i | Act_Abandon i | Act_Release i | Act_Execute i _ | Act_Poll i
  | Act_Permit i | Act_Timeout i | Act_Builtin i | Act_Emitted i | Act_Written i _ | Act_Fail i _
  | Act_Exit i | Act_Output i _ | Act_Drained i | Act_Finish i | Act_Drop i => on_task self a i
  end.

Fixpoint act_all (self : Runtime) (actions : list Action) : option Runtime :=
  match actions with
  | [] => Some self
  | a :: actions => match act self a with Some self => act_all self actions | None => None end
  end.
End Scheduler.
