(* ===== verification/RuntimeFacts.v ===== *)
(** * Facts about the runtime

    The transition system of jobs never loses or invents a permit, never runs two admissions of
    one job, and gives everything back when its tasks end, but for the entries of admissions that
    were dropped; every task takes boundedly many steps, and only the outside world can hold it up.
    A built-in job that was cancelled before it started never succeeds. The bounded
    reader returns a prefix of the stream and streams exactly what it returns. Arguments of a
    sandboxed program cannot reach the sandbox's own. *)

From Stdlib Require Import Ascii String ZArith NArith Lia SpecFloat.
From stdpp Require Import base tactics sets strings numbers list gmap.
From S2P Require Import Prelude OrdMap Types Validation Float32 FileSystem Storage Runtime.

Local Open Scope N_scope.
Local Open Scope rust_scope.

(** ** What a task holds in each phase *)

Definition holds_queue (t : Task) : bool :=
  match t.(Task_phase) with Phase_Queue | Phase_Ended _ | Phase_Leaked => false | _ => true end.

Definition holds_running (t : Task) : bool :=
  match t.(Task_phase) with
  | Phase_Builtin _ | Phase_Emitting _ | Phase_Writing | Phase_Process _ | Phase_Reading
  | Phase_Draining _ => true
  | _ => false
  end.

(** The map of active jobs has an entry for the task; that of a dropped admission is never removed. *)
Definition registered (t : Task) : bool :=
  match t.(Task_phase) with
  | Phase_Queue | Phase_Register | Phase_Dropping _ | Phase_Ended _ => false
  | _ => true
  end.

Definition ended (t : Task) : bool :=
  match t.(Task_phase) with Phase_Ended _ | Phase_Leaked => true | _ => false end.

Definition leaked (t : Task) : bool :=
  match t.(Task_phase) with Phase_Leaked => true | _ => false end.

Definition is_builtin (executor : ExecutorSpec) : bool :=
  match executor with
  | ExecutorSpec_BuiltinText _ | ExecutorSpec_BuiltinTraining => true
  | _ => false
  end.

Definition builtin_phase (t : Task) : bool :=
  match t.(Task_phase) with Phase_Builtin executor => is_builtin executor | _ => true end.

Definition task_id (t : Task) : JobId := t.(Task_job).(JobRequest_job_id).

Section Jobs.
Context `{Blake3} `{RuntimeJson}.
Context (config : RuntimeConfig) (is_file : String.string -> bool).

Record rt_ok (s : Runtime) : Prop := {
  rt_queue : s.(Runtime_queue) + count holds_queue s.(Runtime_tasks)
             = config.(RuntimeConfig_max_queued_jobs);
  rt_running : s.(Runtime_running) + count holds_running s.(Runtime_tasks)
               = config.(RuntimeConfig_max_concurrent_jobs);
  rt_active : forall j i, s.(Runtime_active) !! j = Some i ->
    exists t, s.(Runtime_tasks) !! i = Some t /\ task_id t = j /\ registered t = true;
  rt_registered : forall i t, s.(Runtime_tasks) !! i = Some t -> registered t = true ->
    s.(Runtime_active) !! task_id t = Some i;
  rt_builtin : forall i t, s.(Runtime_tasks) !! i = Some t -> builtin_phase t = true
}.

(** A move that keeps the task's job, balances the permits and updates the map in step with
    whether the task is registered. *)
Lemma rt_ok_moved s i t t' q r m :
  rt_ok s -> s.(Runtime_tasks) !! i = Some t -> task_id t' = task_id t ->
  builtin_phase t' = true ->
  q + b2N (holds_queue t') = s.(Runtime_queue) + b2N (holds_queue t) ->
  r + b2N (holds_running t') = s.(Runtime_running) + b2N (holds_running t) ->
  (registered t = false -> registered t' = true -> s.(Runtime_active) !! task_id t = None) ->
  m = (if registered t' then <[task_id t := i]> s.(Runtime_active)
       else if registered t then delete (task_id t) s.(Runtime_active)
       else s.(Runtime_active)) ->
  rt_ok (moved s i t' q r m).
Proof.
  intros [Hq Hr Ha Hreg Hb] Hi Hid Hbuilt Hq' Hr' Hnew Hm.
  pose proof (count_insert holds_queue _ i t t' Hi) as Hcq.
  pose proof (count_insert holds_running _ i t t' Hi) as Hcr.
  assert (Hlen : (i < length s.(Runtime_tasks))%nat) by (by eapply lookup_lt_Some).
  split; cbn [moved Runtime_queue Runtime_running Runtime_active Runtime_tasks]; try lia.
  - intros j k Hk. destruct (decide (k = i)) as [->|Hki].
    + rewrite list_lookup_insert_eq by done. exists t'. split; [done|]. rewrite Hm in Hk.
      destruct (registered t') eqn:Ht'.
      * destruct (decide (j = task_id t)) as [->|Hj]; [done|].
        rewrite lookup_insert_ne in Hk by done. destruct (Ha j i Hk) as (t0 & Ht0 & <- & _).
        naive_solver.
      * destruct (registered t) eqn:Ht.
        -- destruct (decide (j = task_id t)) as [->|Hj]; [by rewrite lookup_delete_eq in Hk|].
           rewrite lookup_delete_ne in Hk by done. destruct (Ha j i Hk) as (t0 & Ht0 & <- & _). naive_solver.
        -- destruct (Ha j i Hk) as (t0 & Ht0 & _ & Hr0). congruence.
    + rewrite list_lookup_insert_ne by done. apply Ha. rewrite Hm in Hk.
      destruct (registered t').
      * destruct (decide (j = task_id t)) as [->|Hj]; [rewrite lookup_insert_eq in Hk; congruence|].
        by rewrite lookup_insert_ne in Hk.
      * destruct (registered t); [|done].
        destruct (decide (j = task_id t)) as [->|Hj]; [by rewrite lookup_delete_eq in Hk|].
        by rewrite lookup_delete_ne in Hk.
  - intros k tk Hk Hrk. destruct (decide (k = i)) as [->|Hki].
    + rewrite list_lookup_insert_eq in Hk by done. injection Hk as <-. rewrite Hid, Hm, Hrk.
      apply lookup_insert_eq.
    + rewrite list_lookup_insert_ne in Hk by done. pose proof (Hreg k tk Hk Hrk) as Hactive.
      assert (Hne : registered t = true \/ registered t' = true -> task_id tk <> task_id t).
      { intros Hor Heq. rewrite Heq in Hactive. destruct (registered t) eqn:Ht.
        - rewrite (Hreg i t Hi Ht) in Hactive. congruence.
        - destruct Hor as [?|Ht']; [done|]. rewrite (Hnew eq_refl Ht') in Hactive. done. }
      rewrite Hm. destruct (registered t'); [rewrite lookup_insert_ne; auto; apply not_eq_sym; auto|].
      destruct (registered t); [|done]. rewrite lookup_delete_ne; auto. apply not_eq_sym. auto.
  - intros k tk Hk. destruct (decide (k = i)) as [->|Hki].
    + rewrite list_lookup_insert_eq in Hk by done. by injection Hk as <-.
    + rewrite list_lookup_insert_ne in Hk by done. by eapply Hb.
Qed.
(** A move that does not change whether the task is registered. *)
Lemma rt_ok_stay s i t t' q r :
  rt_ok s -> s.(Runtime_tasks) !! i = Some t -> task_id t' = task_id t ->
  builtin_phase t' = true -> registered t' = registered t ->
  q + b2N (holds_queue t') = s.(Runtime_queue) + b2N (holds_queue t) ->
  r + b2N (holds_running t') = s.(Runtime_running) + b2N (holds_running t) ->
  rt_ok (moved s i t' q r s.(Runtime_active)).
Proof.
  intros Hs Hi Hid Hb Hreg Hq Hr. eapply rt_ok_moved; try done.
  - rewrite Hreg. congruence.
  - rewrite Hreg. destruct (registered t) eqn:Ht; [|done].
    symmetry. apply insert_id. by apply (rt_registered _ Hs).
Qed.

Lemma start_phase_cases executor :
  start_phase executor = Phase_Builtin executor /\ is_builtin executor = true \/
  start_phase executor = Phase_Writing /\ is_builtin executor = false.
Proof. destruct executor; auto. Qed.

Ltac rt_stay Hs Hi Hp :=
  eapply rt_ok_stay;
    [exact Hs|exact Hi|done|done|
     unfold registered, holds_queue, holds_running; cbn [with_phase Task_phase]; rewrite ?Hp; cbn; lia || done..].

Lemma act_task_ok s a i t s' :
  rt_ok s -> s.(Runtime_tasks) !! i = Some t -> act_task config is_file s a i t = Some s' -> rt_ok s'.
Proof.
  intros Hs Hi. unfold act_task. cbn zeta.
  destruct a; destruct (Task_phase t) as [| | |e w|e|o| |w| |g|g|g|g|] eqn:Hp; try done.
  all: try (destruct error).
  all: try (intros [= <-]; rt_stay Hs Hi Hp).
  - destruct (_ =? 0) eqn:Hq; breflect; intros [= <-]; rt_stay Hs Hi Hp.
  - destruct (Runtime_active s !! _) eqn:Hm; intros [= <-]; [rt_stay Hs Hi Hp|].
    eapply rt_ok_moved; try done; unfold holds_queue, holds_running, registered; cbn [with_phase Task_phase];
      rewrite ?Hp; done.
  - destruct (ExecutorSpec_validate is_file executor); intros [= <-]; rt_stay Hs Hi Hp.
  - destruct (poll_wait _ _); [|  |done]; intros [= <-]; rt_stay Hs Hi Hp.
  - destruct (poll_wait _ _); [|  |done]; intros [= <-]; rt_stay Hs Hi Hp.
  - destruct (_ =? 0) eqn:Hr; [done|]. breflect. intros [= <-].
    destruct (start_phase_cases e) as [[-> He]|[-> He]]; rt_stay Hs Hi Hp.
  - destruct (run_builtin_executor _ _); [|done]. intros [= <-]. rt_stay Hs Hi Hp.
  - intros [= <-].
    eapply rt_ok_moved; try done; unfold holds_queue, holds_running, registered; cbn [with_phase Task_phase];
      rewrite ?Hp; done.
Qed.

(** A change of flags and waits leaves what is held alone. *)
Lemma rt_ok_alter s (f : Task -> Task) i notifying :
  (forall t, holds_queue (f t) = holds_queue t) -> (forall t, holds_running (f t) = holds_running t) ->
  (forall t, registered (f t) = registered t) -> (forall t, builtin_phase (f t) = builtin_phase t) ->
  (forall t, task_id (f t) = task_id t) -> rt_ok s ->
  rt_ok {| Runtime_queue := s.(Runtime_queue); Runtime_running := s.(Runtime_running);
           Runtime_active := s.(Runtime_active);
           Runtime_tasks := alter f i s.(Runtime_tasks); Runtime_notifying := notifying |}.
Proof.
  intros Hq Hr Hreg Hb Hid [Iq Ir Ia Ireg Ib].
  assert (Hlook : forall k, alter f i s.(Runtime_tasks) !! k
            = if decide (k = i) then f <$> s.(Runtime_tasks) !! k else s.(Runtime_tasks) !! k).
  { intros k. destruct (decide (k = i)) as [->|Hk]; [apply list_lookup_alter_eq|by apply list_lookup_alter_ne]. }
  split; cbn; rewrite ?count_alter by done; try done.
  - intros j k Hk. destruct (Ia j k Hk) as (t & Ht & Hj & Hrt). rewrite Hlook, Ht.
    destruct (decide (k = i)); cbn; [exists (f t); rewrite Hid, Hreg|exists t]; done.
  - intros k t. rewrite Hlook. destruct (decide (k = i)); [|apply Ireg].
    intros (t0 & Ht0 & ->)%fmap_Some. rewrite Hreg, Hid. by apply Ireg.
  - intros k t. rewrite Hlook. destruct (decide (k = i)); [|apply Ib].
    intros (t0 & Ht0 & ->)%fmap_Some. rewrite Hb. by apply (Ib k).
Qed.

Lemma wake_cases t :
  wake t = t \/ (exists e, Task_phase t = Phase_Select e Wait_Parked /\ wake t = with_phase t (Phase_Select e Wait_Woken))
  \/ (Task_phase t = Phase_Process Wait_Parked /\ wake t = with_phase t (Phase_Process Wait_Woken)).
Proof.
  unfold wake. destruct (Task_phase t) as [| | |e []|e|o| |[]| |g|g|g|g|] eqn:Hp; auto. right; left. by eexists.
Qed.

Lemma begin_admit_ok s job : rt_ok s -> rt_ok (begin_admit config s job).
Proof.
  intros [Iq Ir Ia Ireg Ib]. unfold begin_admit. set (t := {| Task_job := job |}).
  assert (Ht : holds_queue t = false /\ holds_running t = false /\ registered t = false /\ builtin_phase t = true).
  { unfold t, holds_queue, holds_running, registered, builtin_phase. cbn. by destruct (admit_check _ _). }
  destruct Ht as (Hq & Hr & Hg & Hb).
  assert (Hlook : forall k x, (s.(Runtime_tasks) ++ [t]) !! k = Some x ->
            s.(Runtime_tasks) !! k = Some x \/ x = t).
  { intros k x [Hk|[_ Hk]]%lookup_app_Some; [by left|right].
    by apply list_lookup_singleton_Some in Hk as [_ ->]. }
  split; cbn [Runtime_queue Runtime_running Runtime_tasks Runtime_active].
  - rewrite count_app, count_cons, Hq, count_nil. cbn [b2N]. lia.
  - rewrite count_app, count_cons, Hr, count_nil. cbn [b2N]. lia.
  - intros j i Hi. destruct (Ia j i Hi) as (x & Hx & Hj & Hrx). exists x.
    split; [|done]. by apply lookup_app_l_Some.
  - intros k x [Hk| ->]%Hlook Hx; [by apply Ireg|congruence].
  - intros k x [Hk| ->]%Hlook; [by eapply Ib|done].
Qed.

Lemma act_ok s a s' : rt_ok s -> act config is_file s a = Some s' -> rt_ok s'.
Proof.
  intros Hs. destruct a; cbn [act]; unfold on_task;
    try (destruct (Runtime_tasks s !! i) eqn:Hi; [|done]; by eapply act_task_ok).
  - intros [= <-]. by apply begin_admit_ok.
  - intros [= <-]. unfold cancel. destruct (_ !! job); [|done]. cbn [fst]. by apply rt_ok_alter.
  - unfold notify. destruct (position _ _); [|done]. intros [= <-].
    apply rt_ok_alter; try done; intros t; destruct (wake_cases t) as [-> |[(e & Hp & ->)|[Hp ->]]];
      unfold holds_queue, holds_running, registered, builtin_phase; cbn; rewrite ?Hp; done.
Qed.

Inductive rt_reachable : Runtime -> Prop :=
  | rt_init s : Runtime_new config = Ok s -> rt_reachable s
  | rt_act s a s' : rt_reachable s -> act config is_file s a = Some s' -> rt_reachable s'.

Lemma rt_reachable_ok s : rt_reachable s -> rt_ok s.
Proof.
  induction 1 as [s Hs|s a s' _ IH Ha]; [|by eapply act_ok].
  unfold Runtime_new in Hs. apply rbind_ok in Hs as (_ & _ & [= <-]).
  split; cbn [Runtime_queue Runtime_running Runtime_active Runtime_tasks]; rewrite ?count_nil; try lia; done.
Qed.
(** ** Every job ends *)

Definition wait_rank (w : Wait) : nat :=
  match w with Wait_Check => 3 | Wait_Register => 2 | Wait_Parked => 1 | Wait_Woken => 0 end.

(** How many steps a task can still take. *)
Definition rank (t : Task) : nat :=
  match t.(Task_phase) with
  | Phase_Queue => 15
  | Phase_Register => 14
  | Phase_Holding => 13
  | Phase_Select _ w => 9 + wait_rank w
  | Phase_Writing => 8
  | Phase_Process w => 4 + wait_rank w
  | Phase_Builtin _ => 4
  | Phase_Emitting _ | Phase_Reading | Phase_Draining _ => 3
  | Phase_Finishing _ => 2
  | Phase_Dropping _ => 1
  | Phase_Ended _ | Phase_Leaked => 0
  end%nat.

Definition measure (s : Runtime) : nat :=
  (sum_list_with rank s.(Runtime_tasks) + length s.(Runtime_notifying))%nat.

(** The steps of admitted requests, as opposed to new requests and cancellations. *)
Definition internal (a : Action) : bool :=
  match a with Act_Admit _ | Act_Cancel _ => false | _ => true end.

(** The steps that need nobody else: neither the holder of an admission, nor a process and its
    streams, nor the consumer of the chunks, nor a permit that another job has to give back. *)
Definition own (a : Action) : bool :=
  match a with
  | Act_Acquire _ | Act_Register _ | Act_Poll _ | Act_Timeout _ | Act_Builtin _ | Act_Finish _
  | Act_Drop _ | Act_Notify _ => true
  | _ => false
  end.

(** The awaits without a deadline: for the holder of the admission, for the consumer of the chunks,
    for the process to take its input, and for its streams to be closed. *)
Definition waits_outside (t : Task) : bool :=
  match t.(Task_phase) with
  | Phase_Holding | Phase_Emitting _ | Phase_Writing | Phase_Reading | Phase_Draining _ => true
  | _ => false
  end.

Lemma sum_insert {A} (g : A -> nat) xs i x y :
  xs !! i = Some x -> (sum_list_with g (<[i := y]> xs) + g x = sum_list_with g xs + g y)%nat.
Proof.
  revert i. induction xs as [|z xs IH]; intros [|i] Hi; try done.
  - injection Hi as ->. change (<[0%nat := y]> (x :: xs)) with (y :: xs). cbn [sum_list_with]. lia.
  - specialize (IH i Hi). change (<[S i := y]> (z :: xs)) with (z :: <[i := y]> xs).
    cbn [sum_list_with]. lia.
Qed.

Lemma sum_alter_le {A} (g : A -> nat) (f : A -> A) xs i :
  (forall x, g (f x) <= g x)%nat -> (sum_list_with g (alter f i xs) <= sum_list_with g xs)%nat.
Proof.
  intros Hf. revert i. induction xs as [|z xs IH]; intros [|i]; [done|done|..].
  - change (alter f 0%nat (z :: xs)) with (f z :: xs). specialize (Hf z). cbn. lia.
  - change (alter f (S i) (z :: xs)) with (z :: alter f i xs). specialize (IH i).
    cbn [sum_list_with]. lia.
Qed.

Lemma moved_measure s i t t' q r m :
  s.(Runtime_tasks) !! i = Some t -> (rank t' < rank t)%nat ->
  (measure (moved s i t' q r m) < measure s)%nat.
Proof.
  intros Hi Hlt. unfold measure. cbn [moved Runtime_tasks Runtime_notifying].
  pose proof (sum_insert rank _ i t t' Hi). lia.
Qed.

(** Every step of a task moves it alone, and onwards. *)
Lemma act_task_moved s a i t s' :
  act_task config is_file s a i t = Some s' ->
  exists t' q r m, s' = moved s i t' q r m /\ (rank t' < rank t)%nat.
Proof.
  intros Hact. unfold act_task in Hact. cbn zeta in Hact.
  destruct a; destruct (Task_phase t) as [| | |e w|e|o| |w| |g|g|g|g|] eqn:Hp; try done;
    repeat match type of Hact with
    | (if ?b then _ else _) = _ => destruct b; try done
    | match ?x with _ => _ end = _ => destruct x eqn:?; try done
    end; injection Hact as <-; do 4 eexists; split; try done;
    unfold rank; rewrite Hp; cbn [with_phase Task_phase]; try lia.
  all: try (destruct w; cbn in *; try destruct (Task_cancelled t); simplify_eq; cbn; lia).
  all: try (destruct (start_phase_cases e) as [[-> _]|[-> _]]); cbn; lia.
Qed.

Lemma act_task_measure s a i t s' :
  s.(Runtime_tasks) !! i = Some t -> act_task config is_file s a i t = Some s' ->
  (measure s' < measure s)%nat.
Proof.
  intros Hi (t' & q & r & m & -> & Hlt)%act_task_moved. by eapply moved_measure.
Qed.

Lemma wake_rank t : (rank (wake t) <= rank t)%nat.
Proof.
  destruct (wake_cases t) as [-> |[(e & Hp & ->)|[Hp ->]]]; [done|..]; unfold rank; rewrite Hp; cbn; lia.
Qed.

Lemma act_measure s a s' :
  internal a = true -> act config is_file s a = Some s' -> (measure s' < measure s)%nat.
Proof.
  intros Ha. destruct a; try done; cbn [act]; unfold on_task;
    try (destruct (Runtime_tasks s !! i) eqn:Hi; [|done]; by apply act_task_measure).
  unfold notify. destruct (position _ _) as [k|] eqn:Hk; [|done]. intros [= <-]. unfold measure. cbn.
  apply position_Some in Hk as (x & Hx & _). apply lookup_lt_Some in Hx.
  pose proof (sum_alter_le rank wake s.(Runtime_tasks) i wake_rank).
  unfold remove_at. rewrite length_app, length_take, length_drop. lia.
Qed.

Lemma act_all_measure s actions s' :
  Forall (fun a => internal a = true) actions -> act_all config is_file s actions = Some s' ->
  (length actions + measure s' <= measure s)%nat.
Proof.
  intros Hint. revert s. induction Hint as [|a actions Ha Has IH]; intros s; cbn; [by intros [= <-]|].
  destruct (act _ _ s a) as [s1|] eqn:Hs1; [|done]. intros Hs'. apply IH in Hs'.
  apply act_measure in Hs1; [|done]. lia.
Qed.

Lemma measure_bound s : (measure s <= 15 * length s.(Runtime_tasks) + length s.(Runtime_notifying))%nat.
Proof.
  unfold measure. induction s.(Runtime_tasks) as [|t ts IH]; cbn [sum_list_with length]; [lia|].
  assert (rank t <= 15)%nat; [|lia]. unfold rank.
  destruct (Task_phase t) as [| | |e []|e|o| |[]| |g|g|g|g|]; cbn; lia.
Qed.

(** A task that neither has ended nor waits for somebody else can take a step. *)
Lemma own_enabled s i t :
  rt_ok s -> s.(Runtime_tasks) !! i = Some t -> ended t = false -> waits_outside t = false ->
  exists a, own a = true /\ is_Some (act config is_file s a).
Proof.
  intros Hs Hi Hend Hout. unfold ended in Hend. unfold waits_outside in Hout.
  pose proof (rt_builtin _ Hs i t Hi) as Hb. unfold builtin_phase in Hb.
  assert (Hact : forall a, own a = true -> act config is_file s a = on_task config is_file s a i ->
    is_Some (act_task config is_file s a i t) -> exists a, own a = true /\ is_Some (act config is_file s a)).
  { intros a Ha He Hsome. exists a. split; [done|]. rewrite He. unfold on_task. by rewrite Hi. }
  destruct (Task_phase t) as [| | |e w|e|o| |w| |g|g|g|g|] eqn:Hp; try done.
  - apply (Hact (Act_Acquire i)); [done..|]. cbn. rewrite Hp. destruct (_ =? 0); by eexists.
  - apply (Hact (Act_Register i)); [done..|]. cbn. rewrite Hp. destruct (Runtime_active s !! _); by eexists.
  - apply (Hact (Act_Timeout i)); [done..|]. cbn. rewrite Hp. by eexists.
  - apply (Hact (Act_Builtin i)); [done..|]. cbn. rewrite Hp. by destruct e; try done; eexists.
  - apply (Hact (Act_Timeout i)); [done..|]. cbn. rewrite Hp. by eexists.
  - apply (Hact (Act_Finish i)); [done..|]. cbn. rewrite Hp. by eexists.
  - apply (Hact (Act_Drop i)); [done..|]. cbn. rewrite Hp. by eexists.
Qed.

Lemma outside_enabled s i t :
  s.(Runtime_tasks) !! i = Some t -> waits_outside t = true ->
  exists a, internal a = true /\ is_Some (act config is_file s a).
Proof.
  intros Hi Hout. unfold waits_outside in Hout.
  destruct (Task_phase t) as [| | |e w|e|o| |w| |g|g|g|g|] eqn:Hp; try done.
  - exists (Act_Abandon i). cbn. unfold on_task. rewrite Hi. cbn. rewrite Hp. by split; [|eexists].
  - exists (Act_Emitted i). cbn. unfold on_task. rewrite Hi. cbn. rewrite Hp. by split; [|eexists].
  - exists (Act_Written i None). cbn. unfold on_task. rewrite Hi. cbn. rewrite Hp. by split; [|eexists].
  - exists (Act_Output i (Ok ExecutionOutcome_Cancelled)). cbn. unfold on_task. rewrite Hi. cbn. rewrite Hp.
    by split; [|eexists].
  - exists (Act_Drained i). cbn. unfold on_task. rewrite Hi. cbn. rewrite Hp. by split; [|eexists].
Qed.

Lemma all_ended_quiescent s :
  rt_ok s -> Forall (fun t => ended t = true) s.(Runtime_tasks) ->
  s.(Runtime_queue) = config.(RuntimeConfig_max_queued_jobs) /\
  s.(Runtime_running) = config.(RuntimeConfig_max_concurrent_jobs) /\
  (forall j i, s.(Runtime_active) !! j = Some i ->
     exists t, s.(Runtime_tasks) !! i = Some t /\ leaked t = true).
Proof.
  intros [Iq Ir Ia _ _] Hend.
  assert (Hnone : forall p : Task -> bool, (forall t, ended t = true -> p t = false) ->
            count p s.(Runtime_tasks) = 0).
  { intros p Hp. apply count_zero. eapply Forall_impl; [exact Hend|]. intros t. apply Hp. }
  assert (Hq : count holds_queue s.(Runtime_tasks) = 0).
  { apply Hnone. unfold ended, holds_queue. intros t. by destruct (Task_phase t). }
  assert (Hr : count holds_running s.(Runtime_tasks) = 0).
  { apply Hnone. unfold ended, holds_running. intros t. by destruct (Task_phase t). }
  split_and!; [lia|lia|]. intros j i Hj. destruct (Ia j i Hj) as (t & Ht & _ & Hreg). exists t. split; [done|].
  rewrite Forall_lookup in Hend. specialize (Hend i t Ht).
  unfold ended, registered, leaked in *. by destruct (Task_phase t).
Qed.

Lemma act_all_reachable s actions s' :
  rt_reachable s -> act_all config is_file s actions = Some s' -> rt_reachable s'.
Proof.
  revert s. induction actions as [|a actions IH]; intros s Hs; cbn; [by intros [= <-]|].
  destruct (act _ _ s a) as [s1|] eqn:Hs1; [|done]. apply IH. by eapply rt_act.
Qed.

(** (C28) Nothing but the outside world keeps a job from its end.  From any reachable state of the
    runtime, whatever the order in which its tasks run, they take at most fifteen steps each (and one
    for every notification under way).  When no step is left that the runtime can take on its own,
    its deadlines among them, every request has its outcome, or stands at one of the awaits that have
    no deadline: for the holder of its admission, the consumer of its chunks, the process that is to
    take its input, or the end of the streams of that process.  When nobody moves any more, every
    request has its outcome, both semaphores have all their permits again, and the map of active
    jobs has no entry but those of admissions that were dropped. *)
Theorem jobs_wait_only_outside (s s' : Runtime) (actions : list Action) :
  rt_reachable s -> act_all config is_file s actions = Some s' ->
  Forall (fun a => internal a = true) actions ->
  (length actions <= 15 * length s.(Runtime_tasks) + length s.(Runtime_notifying))%nat /\
  ((forall a, own a = true -> act config is_file s' a = None) ->
   Forall (fun t => ended t = true \/ waits_outside t = true) s'.(Runtime_tasks)) /\
  ((forall a, internal a = true -> act config is_file s' a = None) ->
   Forall (fun t => ended t = true) s'.(Runtime_tasks) /\
   s'.(Runtime_queue) = config.(RuntimeConfig_max_queued_jobs) /\
   s'.(Runtime_running) = config.(RuntimeConfig_max_concurrent_jobs) /\
   (forall j i, s'.(Runtime_active) !! j = Some i ->
      exists t, s'.(Runtime_tasks) !! i = Some t /\ leaked t = true)).
Proof.
  intros Hs Hact Hint. pose proof (rt_reachable_ok _ (act_all_reachable _ _ _ Hs Hact)) as Hok.
  assert (Hown : (forall a, own a = true -> act config is_file s' a = None) ->
    Forall (fun t => ended t = true \/ waits_outside t = true) s'.(Runtime_tasks)).
  { intros Hstuck. apply Forall_lookup. intros i t Hi.
    destruct (ended t) eqn:Ht; [by left|]. destruct (waits_outside t) eqn:Hw; [by right|].
    destruct (own_enabled s' i t Hok Hi Ht Hw) as (a & Ha & s2 & Hs2). by rewrite Hstuck in Hs2. }
  split_and!; [|exact Hown|].
  - pose proof (act_all_measure s actions s' Hint Hact). pose proof (measure_bound s). lia.
  - intros Hstuck. assert (Hend : Forall (fun t => ended t = true) s'.(Runtime_tasks)).
    { assert (Hany : forall a, own a = true -> act config is_file s' a = None)
        by (intros a Ha; apply Hstuck; by destruct a).
      specialize (Hown Hany). rewrite Forall_lookup in Hown |- *. intros i t Hi.
      destruct (Hown i t Hi) as [|Hw]; [done|].
      destruct (outside_enabled s' i t Hi Hw) as (a & Ha & s2 & Hs2). by rewrite Hstuck in Hs2. }
    split; [done|]. by apply all_ended_quiescent.
Qed.

(** (C37) The runtime keeps its limits. In every reachable state the queue depth is the number of
    requests between acquiring and returning a queue permit and never exceeds
    [max_queued_jobs]; the running jobs are those inside an executor and never exceed
    [max_concurrent_jobs]; a job is in the active map exactly while one of its requests is
    registered, which a request whose admission was dropped remains, and no two registered requests
    carry the same job. *)
Theorem runtime_limits_kept (s : Runtime) :
  rt_reachable s ->
  queue_depth config s = count holds_queue s.(Runtime_tasks) /\
  queue_depth config s <= config.(RuntimeConfig_max_queued_jobs) /\
  running_jobs config s = count holds_running s.(Runtime_tasks) /\
  running_jobs config s <= config.(RuntimeConfig_max_concurrent_jobs) /\
  (forall j i, s.(Runtime_active) !! j = Some i <->
     exists t, s.(Runtime_tasks) !! i = Some t /\ task_id t = j /\ registered t = true) /\
  (forall i k t u, s.(Runtime_tasks) !! i = Some t -> s.(Runtime_tasks) !! k = Some u ->
     registered t = true -> registered u = true -> task_id t = task_id u -> i = k).
Proof.
  intros Hs. destruct (rt_reachable_ok s Hs) as [Iq Ir Ia Ireg _].
  unfold queue_depth, running_jobs, sat_sub. split_and!; [lia|lia|lia|lia| |].
  - intros j i. split; [apply Ia|]. intros (t & Ht & <- & Hr). by apply Ireg.
  - intros i k t u Ht Hu Hrt Hru Hid. pose proof (Ireg i t Ht Hrt) as Hi. rewrite Hid, (Ireg k u Hu Hru) in Hi.
    congruence.
Qed.

(** ** Cancellation *)

Definition ending_succeeded (g : Ending) : bool :=
  match g with Some (Ok (ExecutionOutcome_Succeeded _)) => true | _ => false end.

(** A cancelled request that can no longer succeed. *)
Definition doomed (t : Task) : bool :=
  t.(Task_cancelled) &&
  match t.(Task_phase) with
  | Phase_Queue | Phase_Register | Phase_Holding => true
  | Phase_Select executor _ | Phase_Builtin executor => is_builtin executor
  | Phase_Emitting outcome => negb (ending_succeeded (Some outcome))
  | Phase_Writing | Phase_Process _ | Phase_Reading => false
  | Phase_Draining g | Phase_Finishing g | Phase_Dropping g | Phase_Ended g => negb (ending_succeeded g)
  | Phase_Leaked => true
  end.

(** The request at [i] is only ever given to built-in executors. *)
Definition builtin_for (i : nat) (a : Action) : bool :=
  match a with Act_Execute k executor => negb (Nat.eqb k i) || is_builtin executor | _ => true end.

Lemma cancelled_builtin_outcome e t g :
  t.(Task_cancelled) = true -> run_builtin_executor config e t = Some g -> g = Ok ExecutionOutcome_Cancelled.
Proof.
  intros Hc. unfold run_builtin_executor, run_builtin, run_builtin_training. rewrite Hc.
  by destruct e; intros [= <-].
Qed.

Lemma act_task_doomed s a i t s' :
  s.(Runtime_tasks) !! i = Some t -> doomed t = true -> builtin_for i a = true ->
  (forall k executor, a = Act_Execute k executor -> k = i) ->
  act_task config is_file s a i t = Some s' ->
  exists t', s'.(Runtime_tasks) !! i = Some t' /\ doomed t' = true.
Proof.
  intros Hi Hd Hb Hk Hact. apply andb_true_iff in Hd as [Hc Hd].
  assert (Hgo : forall p q r m, doomed (with_phase t p) = true ->
            exists t', (moved s i (with_phase t p) q r m).(Runtime_tasks) !! i = Some t' /\ doomed t' = true).
  { intros p q r m Hp. exists (with_phase t p). split; [|done]. cbn.
    rewrite list_lookup_insert_eq; [done|]. by eapply lookup_lt_Some. }
  assert (Hdoom : forall p, (match p with
    | Phase_Queue | Phase_Register | Phase_Holding => true
    | Phase_Select executor _ | Phase_Builtin executor => is_builtin executor
    | Phase_Emitting outcome => negb (ending_succeeded (Some outcome))
    | Phase_Writing | Phase_Process _ | Phase_Reading => false
    | Phase_Draining g | Phase_Finishing g | Phase_Dropping g | Phase_Ended g => negb (ending_succeeded g)
    | Phase_Leaked => true
    end) = true -> doomed (with_phase t p) = true).
  { intros p Hp. unfold doomed. cbn. by rewrite Hc. }
  unfold act_task in Hact. cbn zeta in Hact.
  destruct a; destruct (Task_phase t) as [| | |e w|e|o| |w| |g|g|g|g|]; try done;
    repeat match type of Hact with
    | (if ?b then _ else _) = _ => destruct b; try done
    | match ?x with _ => _ end = _ => destruct x eqn:?; try done
    end; injection Hact as <-; apply Hgo, Hdoom; try done.
  - rewrite (Hk _ _ eq_refl) in Hb. cbn in Hb. by rewrite Nat.eqb_refl in Hb.
  - by destruct e.
  - by match goal with Hg : run_builtin_executor _ _ _ = Some _ |- _ =>
      rewrite (cancelled_builtin_outcome _ _ _ Hc Hg) end.
Qed.

Lemma doomed_alter s (f : Task -> Task) k i t :
  s.(Runtime_tasks) !! i = Some t -> doomed t = true -> (doomed t = true -> doomed (f t) = true) ->
  exists t', alter f k s.(Runtime_tasks) !! i = Some t' /\ doomed t' = true.
Proof.
  intros Hi Hd Hf. destruct (decide (i = k)) as [->|Hk].
  - rewrite list_lookup_alter_eq, Hi. eexists. split; [done|]. auto.
  - rewrite list_lookup_alter_ne by done. by exists t.
Qed.

Lemma act_task_other s a k u i s' :
  act_task config is_file s a k u = Some s' -> i <> k ->
  s'.(Runtime_tasks) !! i = s.(Runtime_tasks) !! i.
Proof.
  intros (t' & q & r & m & -> & _)%act_task_moved Hik. cbn. by apply list_lookup_insert_ne.
Qed.

Lemma act_doomed s a i t s' :
  s.(Runtime_tasks) !! i = Some t -> doomed t = true -> builtin_for i a = true ->
  act config is_file s a = Some s' ->
  exists t', s'.(Runtime_tasks) !! i = Some t' /\ doomed t' = true.
Proof.
  intros Hi Hd Hb Hact.
  assert (Htask : forall k, (forall j executor, a = Act_Execute j executor -> j = k) ->
            on_task config is_file s a k = Some s' ->
            exists t', s'.(Runtime_tasks) !! i = Some t' /\ doomed t' = true).
  { intros k Hk. unfold on_task. destruct (_ !! k) as [u|] eqn:Hu; [|done]. intros Hs'.
    destruct (decide (i = k)) as [->|Hik].
    - rewrite Hu in Hi. injection Hi as ->. by eapply act_task_doomed.
    - exists t. by rewrite (act_task_other _ _ _ _ _ _ Hs'). }
  destruct a; cbn [act] in Hact; try (eapply Htask; [|exact Hact]; by intros ? ? [=]).
  - injection Hact as <-. exists t. cbn. split; [|done]. by apply lookup_app_l_Some.
  - injection Hact as <-. unfold cancel. destruct (_ !! job); [|by exists t]. cbn [fst Runtime_tasks].
    eapply doomed_alter; [done..|]. intros Ht. unfold doomed in *. cbn.
    by apply andb_true_iff in Ht as [_ Ht].
  - unfold notify in Hact. destruct (position _ _); [|done]. injection Hact as <-. cbn [Runtime_tasks].
    eapply doomed_alter; [done..|]. intros Ht.
    destruct (wake_cases t) as [-> |[(e & Hp & ->)|[Hp ->]]]; [done|..]; unfold doomed in *; cbn;
      rewrite Hp in Ht; done.
Qed.

(** A cancelled built-in job never succeeds. Once [cancel] has reported that it cancelled a job
    whose request is not yet running, then in every continuation in which that request is given
    to a built-in executor, it ends, if at all, without success. *)
Theorem cancelled_builtin_never_succeeds (s s1 s2 : Runtime) (job : JobId) (i : nat) (t t2 : Task)
    (actions : list Action) (g : Ending) :
  rt_reachable s -> cancel s job = (s1, true) ->
  s.(Runtime_tasks) !! i = Some t -> task_id t = job -> t.(Task_phase) = Phase_Holding ->
  act_all config is_file s1 actions = Some s2 ->
  Forall (fun a => builtin_for i a = true) actions ->
  s2.(Runtime_tasks) !! i = Some t2 -> t2.(Task_phase) = Phase_Ended g -> ending_succeeded g = false.
Proof.
  intros Hs Hcancel Hi Hid Hp Hact Hb Hi2 Hp2.
  assert (Hstart : exists t1, s1.(Runtime_tasks) !! i = Some t1 /\ doomed t1 = true).
  { unfold cancel in Hcancel. rewrite <- Hid, (rt_registered _ (rt_reachable_ok s Hs) i t Hi) in Hcancel
      by (unfold registered; by rewrite Hp).
    injection Hcancel as <-. cbn. rewrite list_lookup_alter_eq, Hi. eexists. split; [done|].
    unfold doomed. cbn. by rewrite Hp. }
  clear Hcancel Hi Hid Hp Hs. destruct Hstart as (t1 & Ht1 & Hd1).
  revert s1 t1 Ht1 Hd1 Hact. induction Hb as [|a actions Ha Has IH]; intros s1 t1 Ht1 Hd1; cbn.
  - intros [= <-]. rewrite Ht1 in Hi2. injection Hi2 as ->. unfold doomed in Hd1. rewrite Hp2 in Hd1.
    apply andb_true_iff in Hd1 as [_ Hd1]. by apply negb_true_iff.
  - destruct (act _ _ s1 a) as [s1'|] eqn:Hs1; [|done].
    destruct (act_doomed s1 a i t1 s1' Ht1 Hd1 Ha Hs1) as (t1' & Ht1' & Hd1'). by eapply IH.
Qed.
End Jobs.

(** ** Streams *)
Lemma chunks_of_concat fuel size bytes :
  (0 < size)%nat -> (length bytes <= fuel)%nat -> concat (chunks_of fuel size bytes) = bytes.
Proof.
  intros Hsize. revert bytes. induction fuel as [|fuel IH]; intros [|b bytes] Hlen; try done; [cbn in Hlen; lia|].
  cbn [chunks_of concat]. rewrite IH; [apply take_drop|]. rewrite length_drop. cbn in *. lia.
Qed.

Lemma chunks_of_size fuel size bytes :
  (0 < size)%nat -> Forall (fun piece => piece <> [] /\ (length piece <= size)%nat) (chunks_of fuel size bytes).
Proof.
  intros Hsize. revert bytes. induction fuel as [|fuel IH]; intros [|b bytes]; cbn [chunks_of]; try constructor.
  - split; [destruct size; [lia|done]|]. rewrite length_take. lia.
  - apply IH.
Qed.

Lemma send_pieces_open sent pieces : send_pieces (mkChannel sent None) pieces = mkChannel (sent ++ pieces) None.
Proof.
  revert sent. induction pieces as [|p pieces IH]; intros sent; cbn; [by rewrite app_nil_r|].
  rewrite IH, <- app_assoc. done.
Qed.

(** What a consumer that stays has received. *)
Definition delivered (chunks : option Channel) : list N :=
  match chunks with Some channel => concat channel.(Channel_sent) | None => [] end.

Definition patient (chunks : option Channel) : Prop :=
  exists sent, chunks = Some (mkChannel sent None) /\
    Forall (fun piece => piece <> [] /\ len piece <= MAX_ARTIFACT_CHUNK) sent.

Lemma emit_chunks_patient chunks bytes :
  patient chunks ->
  patient (emit_chunks_ref chunks bytes) /\
  delivered (emit_chunks_ref chunks bytes) = delivered chunks ++ bytes.
Proof.
  intros (sent & -> & Hsent). unfold emit_chunks_ref. rewrite send_pieces_open. cbn [delivered Channel_sent].
  assert (Hpos : (0 < N.to_nat MAX_ARTIFACT_CHUNK)%nat) by (unfold MAX_ARTIFACT_CHUNK; lia).
  split.
  - eexists. split; [done|]. apply Forall_app. split; [done|].
    eapply Forall_impl; [by apply chunks_of_size|]. intros piece [Hne Hle]. split; [done|]. unfold len. lia.
  - rewrite concat_app, chunks_of_concat; done.
Qed.

Section Reader.
Context (error : option IoError) (limit : N) (Hlimit : limit < usize_max).

Lemma read_limited_gen reads output chunks :
  patient chunks -> len output <= limit ->
  match read_limited_with_chunks reads error limit output chunks with
  | (Ok out, after) =>
      let new := take (N.to_nat (limit - len output)) (concat reads) in
      out.(LimitedOutput_bytes) = output ++ new /\
      out.(LimitedOutput_truncated) = (limit <? len output + len (concat reads)) /\
      (out.(LimitedOutput_truncated) = false -> error = None) /\
      patient after /\ delivered after = delivered chunks ++ new
  | (Err e, after) =>
      error = Some e /\ len output + len (concat reads) <= limit /\
      patient after /\ delivered after = delivered chunks ++ concat reads
  end.
Proof.
  revert output chunks. induction reads as [|piece reads IH]; intros output chunks Hp Hlen.
  - cbn [read_limited_with_chunks concat]. change (len []) with 0. rewrite N.add_0_r, take_nil, !app_nil_r.
    destruct error; [done|]. cbn. split_and!; try done. symmetry. by apply N.ltb_ge.
  - cbn [read_limited_with_chunks concat]. rewrite len_app.
    destruct (_ <? sat_add _ _ _) eqn:Hfull; breflect; unfold sat_add in Hfull.
    + cbn zeta. unfold sat_sub. rewrite N.min_l by lia.
      destruct (emit_chunks_patient chunks (take (N.to_nat (limit - len output)) piece) Hp) as [Hp' Hd].
      assert (Htake : take (N.to_nat (limit - len output)) (piece ++ concat reads)
                      = take (N.to_nat (limit - len output)) piece).
      { apply take_app_le. unfold len in *. lia. }
      rewrite Htake. cbn. split_and!; try done. symmetry. apply N.ltb_lt. lia.
    + destruct (emit_chunks_patient chunks piece Hp) as [Hp' Hd].
      specialize (IH (output ++ piece) (emit_chunks_ref chunks piece) Hp'). rewrite len_app in IH.
      specialize (IH ltac:(lia)).
      assert (Htake : piece ++ take (N.to_nat (limit - (len output + len piece))) (concat reads)
                      = take (N.to_nat (limit - len output)) (piece ++ concat reads)).
      { rewrite take_app_ge by (unfold len in *; lia). do 2 f_equal. unfold len in *. lia. }
      destruct (read_limited_with_chunks _ _ _ _ _) as [[out|e] after]; cbn zeta in *.
      * rewrite <- Htake, !app_assoc. rewrite Hd, <- N.add_assoc in IH. done.
      * rewrite Hd in IH. rewrite !app_assoc, N.add_assoc. done.
Qed.
End Reader.

(** The bounded reader is exact. Of a stream that is read in any pieces, it returns the first
    [limit] bytes and says it was cut precisely when there were more; a reading error before
    the limit is reported. A consumer that stays receives exactly the returned bytes, in
    non-empty pieces of at most the size of an artifact chunk. *)
Theorem read_limited_exact (reads : list (list N)) (error : option IoError) (limit : N) :
  limit < usize_max ->
  let all := concat reads in
  let channel := Some (mkChannel [] None) in
  match read_limited_with_chunks reads error limit [] channel with
  | (Ok out, after) =>
      out.(LimitedOutput_bytes) = take (N.to_nat limit) all /\
      out.(LimitedOutput_truncated) = (limit <? len all) /\
      (out.(LimitedOutput_truncated) = false -> error = None) /\
      patient after /\ delivered after = out.(LimitedOutput_bytes)
  | (Err e, after) =>
      error = Some e /\ len all <= limit /\ patient after /\ delivered after = all
  end.
Proof.
  intros Hlimit all channel.
  pose proof (read_limited_gen error limit Hlimit reads [] channel) as Hgen.
  assert (Hp : patient channel) by (by exists []). specialize (Hgen Hp (N.le_0_l _)).
  change (len []) with 0 in Hgen. rewrite N.sub_0_r in Hgen. cbn [app delivered concat channel Channel_sent] in Hgen.
  fold all in Hgen. rewrite N.add_0_l in Hgen.
  destruct (read_limited_with_chunks _ _ _ _ _) as [[out|e] after]; [|done].
  destruct Hgen as (Hb & Ht & He & Hpa & Hd). rewrite Hd, Hb. done.
Qed.

(** ** The sandbox *)

Definition executor_sandbox (executor : ExecutorSpec) : option ProcessSandbox :=
  match executor with
  | ExecutorSpec_ExternalProcess _ _ _ sandbox | ExecutorSpec_LlamaCpp _ _ _ _ sandbox => Some sandbox
  | _ => None
  end.

Definition executor_model_path (executor : ExecutorSpec) : option String.string :=
  match executor with ExecutorSpec_LlamaCpp _ path _ _ _ => Some path | _ => None end.

(** The program and arguments the executor asks for. *)
Definition executor_words (executor : ExecutorSpec) : list String.string :=
  match executor with
  | ExecutorSpec_ExternalProcess program args _ _ => program :: args
  | ExecutorSpec_LlamaCpp program path args _ _ => program :: "--model"%string :: path :: args
  | _ => []
  end.

Section Sandbox.
Context (exists_path is_absolute : String.string -> bool) (config : RuntimeConfig).

Lemma bubblewrap_args_separator model_path :
  config.(RuntimeConfig_work_dir) <> "--"%string -> model_path <> Some "--"%string ->
  exists options,
    bubblewrap_args exists_path is_absolute config.(RuntimeConfig_work_dir) model_path
      = options ++ ["--"%string] /\
    "--"%string ∉ options /\ "--unshare-all"%string ∈ options /\ "--die-with-parent"%string ∈ options.
Proof.
  intros Hwork Hmodel. unfold bubblewrap_args.
  set (libs := flat_map _ _). set (model := match model_path with Some _ => _ | None => _ end).
  assert (Hlibs : "--"%string ∉ libs).
  { unfold libs. cbn [flat_map]. destruct (exists_path "/lib"), (exists_path "/lib64"); cbn;
      rewrite ?not_elem_of_cons; split_and?; try done; apply not_elem_of_nil. }
  assert (Hm : "--"%string ∉ model).
  { unfold model. destruct model_path as [path|]; [|apply not_elem_of_nil].
    assert (path <> "--"%string) by congruence.
    destruct (is_absolute path); [|apply not_elem_of_nil].
    rewrite !not_elem_of_cons. split_and!; try done; apply not_elem_of_nil. }
  exists (["--die-with-parent"; "--unshare-all"; "--new-session"; "--proc"; "/proc"; "--dev"; "/dev";
    "--tmpfs"; "/tmp"; "--ro-bind"; "/usr"; "/usr"; "--ro-bind"; "/bin"; "/bin"]%string
    ++ libs ++ model ++ ["--ro-bind"; config.(RuntimeConfig_work_dir); "/work"; "--chdir"; "/work"]%string).
  split; [by rewrite <- !app_assoc|]. split_and!.
  - rewrite !not_elem_of_app, !not_elem_of_cons. split_and!; try done; apply not_elem_of_nil.
  - apply elem_of_app. left. right. left.
  - apply elem_of_app. left. left.
Qed.

(** A sandboxed program cannot reach the sandbox's own options. The command line is the sandbox's
    executable, options that depend on the configuration and the model's path only, the
    separator, and then the words the executor asks for. The options include the isolating ones
    and do not contain the separator, so nothing the executor asks for is read as an option. *)
Theorem sandbox_arguments_isolated (executor : ExecutorSpec) (executable : String.string) :
  executor_sandbox executor = Some (ProcessSandbox_Bubblewrap executable) ->
  config.(RuntimeConfig_work_dir) <> "--"%string ->
  executor_model_path executor <> Some "--"%string ->
  exists options,
    process_command exists_path is_absolute config executor
      = Ok (mkProcessCommand executable (options ++ "--"%string :: executor_words executor)) /\
    options ++ ["--"%string]
      = bubblewrap_args exists_path is_absolute config.(RuntimeConfig_work_dir)
          (executor_model_path executor) /\
    "--"%string ∉ options /\ "--unshare-all"%string ∈ options /\ "--die-with-parent"%string ∈ options.
Proof.
  intros Hs Hwork Hmodel.
  destruct (bubblewrap_args_separator (executor_model_path executor) Hwork Hmodel) as (options & Hopt & Hin).
  exists options. split; [|done].
  destruct executor; try done; injection Hs as ->; cbn [process_command sandbox_command executor_model_path] in *;
    rewrite Hopt, <- app_assoc; done.
Qed.
End Sandbox.

(** ** Concrete runs *)

Definition rt_hash : Blake3 := fun bs => firstn 4 (bs ++ repeat 0 4).
Local Existing Instance rt_hash.

(** JSON stand-ins: no input is JSON, and a report is encoded as its number of tokens. *)
Definition rt_json : RuntimeJson :=
  {| json_text := fun _ => None;
     json_training_input := fun _ => Err "not JSON"%string;
     sentiment_to_vec := fun r => Ok [r.(SentimentReport_tokens)];
     gradient_to_vec := fun _ => Ok [] |}.
Local Existing Instance rt_json.

Definition rt_config : RuntimeConfig :=
  mkRuntimeConfig 2 1 MAX_JOB_INPUT MAX_JOB_OUTPUT 1000 1 1 "/srv/work".

Definition rt_job (id : N) : JobRequest :=
  mkJobRequest (mkJobId [id]) (mkNodeId [1]) JobKind_Inference "inference.text" None
    (as_bytes "a good day") 500 1024 (PrivacyPolicy_default).

Definition rt_start : Runtime := mkRuntime 2 1 ∅ [] [].

Definition rt_text : ExecutorSpec := ExecutorSpec_BuiltinText "builtin.tiny-sentiment.v1".

Definition rt_process : ExecutorSpec :=
  ExecutorSpec_ExternalProcess "/bin/tool" ["--unshare-net"; "--"]%string []
    (ProcessSandbox_Bubblewrap "/usr/bin/bwrap").

Definition rt_no_files : String.string -> bool := fun _ => false.

Lemma rt_start_reachable : rt_reachable rt_config rt_no_files rt_start.
Proof. by apply rt_init. Defined.

(** Two requests of one job: the second is refused and the first succeeds. *)
Definition rt_actions : list Action :=
  [Act_Admit (rt_job 1); Act_Admit (rt_job 1); Act_Acquire 0; Act_Register 0; Act_Acquire 1;
   Act_Register 1; Act_Execute 0 rt_text; Act_Permit 0; Act_Builtin 0; Act_Emitted 0; Act_Finish 0; Act_Drop 0].

Example rt_actions_run :
  (fun s => (s.(Runtime_queue), s.(Runtime_running), map Task_phase s.(Runtime_tasks)))
    <$> act_all rt_config rt_no_files rt_start rt_actions
  = Some (2, 1, [Phase_Ended (Some (Ok (succeeded [3])));
                 Phase_Ended (Some (Err (RuntimeError_Duplicate (mkJobId [1]))))]).
Proof. by vm_compute. Qed.

Definition rt_admitted : Runtime :=
  default rt_start (act_all rt_config rt_no_files rt_start
    [Act_Admit (rt_job 1); Act_Acquire 0; Act_Register 0]).

Lemma rt_admitted_reachable : rt_reachable rt_config rt_no_files rt_admitted.
Proof.
  eapply (act_all_reachable _ _ rt_start); [apply rt_start_reachable|].
  instantiate (1 := [Act_Admit (rt_job 1); Act_Acquire 0; Act_Register 0]). by vm_compute.
Defined.

(** A process that is started, takes its input, and is killed at its deadline. *)
Definition rt_deadline : list Action :=
  [Act_Execute 0 rt_process; Act_Permit 0; Act_Written 0 None; Act_Timeout 0; Act_Drained 0; Act_Finish 0; Act_Drop 0].

Lemma jobs_wait_only_outside_witness :
  exists s', act_all rt_config rt_no_files rt_admitted rt_deadline = Some s' /\
    map Task_phase s'.(Runtime_tasks) = [Phase_Ended timed_out_ending] /\ (7 <= 15 * 1 + 0)%nat.
Proof.
  eexists. split; [vm_compute; reflexivity|]. split; [vm_compute; reflexivity|].
  eapply (jobs_wait_only_outside rt_config rt_no_files rt_admitted _ rt_deadline
           rt_admitted_reachable); [vm_compute; reflexivity|repeat constructor].
Defined.

Lemma runtime_limits_kept_witness :
  queue_depth rt_config rt_admitted = count holds_queue rt_admitted.(Runtime_tasks).
Proof. apply (runtime_limits_kept rt_config rt_no_files rt_admitted rt_admitted_reachable). Defined.

Lemma cancelled_builtin_never_succeeds_witness :
  exists s2 t2, act_all rt_config rt_no_files (cancel rt_admitted (mkJobId [1])).1
    [Act_Execute 0 rt_text; Act_Permit 0; Act_Builtin 0; Act_Emitted 0; Act_Finish 0; Act_Drop 0] = Some s2 /\
    s2.(Runtime_tasks) !! 0%nat = Some t2 /\ ending_succeeded cancelled_ending = false.
Proof.
  do 2 eexists. split; [vm_compute; reflexivity|]. split; [vm_compute; reflexivity|].
  eapply (cancelled_builtin_never_succeeds rt_config rt_no_files rt_admitted
            (cancel rt_admitted (mkJobId [1])).1 _ (mkJobId [1]) 0 _ _
            [Act_Execute 0 rt_text; Act_Permit 0; Act_Builtin 0; Act_Emitted 0; Act_Finish 0; Act_Drop 0]
            cancelled_ending rt_admitted_reachable).
  - vm_compute. reflexivity.
  - vm_compute. reflexivity.
  - reflexivity.
  - reflexivity.
  - vm_compute. reflexivity.
  - repeat constructor.
  - vm_compute. reflexivity.
  - vm_compute. reflexivity.
Defined.

Lemma read_limited_exact_witness :
  3 < usize_max /\
  let all := concat [[1; 2]; [3; 4]] in
  let channel := Some (mkChannel [] None) in
  match read_limited_with_chunks [[1; 2]; [3; 4]] None 3 [] channel with
  | (Ok out, after) =>
      out.(LimitedOutput_bytes) = take (N.to_nat 3) all /\
      out.(LimitedOutput_truncated) = (3 <? len all) /\
      (out.(LimitedOutput_truncated) = false -> None = None (A := IoError)) /\
      patient after /\ delivered after = out.(LimitedOutput_bytes)
  | (Err e, after) =>
      None = Some e /\ len all <= 3 /\ patient after /\ delivered after = all
  end.
Proof.
  assert (Hlimit : 3 < usize_max) by reflexivity.
  split; [exact Hlimit|]. exact (read_limited_exact [[1; 2]; [3; 4]] None 3 Hlimit).
Defined.

Lemma sandbox_arguments_isolated_witness :
  exists options, process_command (fun _ => true) (fun _ => true) rt_config rt_process
    = Ok (mkProcessCommand "/usr/bin/bwrap"
            (options ++ ["--"; "/bin/tool"; "--unshare-net"; "--"]%string)) /\
    "--"%string ∉ options.
Proof.
  destruct (sandbox_arguments_isolated (fun _ => true) (fun _ => true) rt_config rt_process "/usr/bin/bwrap")
    as (options & Hc & _ & Hn & _); [reflexivity|discriminate|discriminate|].
  exists options. exact (conj Hc Hn).
Defined.

Lemma rt_run_reachable actions s :
  act_all rt_config rt_no_files rt_admitted actions = Some s -> rt_reachable rt_config rt_no_files s.
Proof. apply act_all_reachable, rt_admitted_reachable. Qed.

(** A cancellation can be lost. The flag is read, then the waiter is registered; when a cancel
    sets the flag and notifies in between, it reports success, its notification reaches nobody,
    and the process job stays parked: no step that follows a cancellation is left to it, and its
    exit is taken as if nobody had cancelled. *)
Theorem cancellation_can_be_lost :
  exists s t,
    rt_reachable rt_config rt_no_files s /\
    s.(Runtime_tasks) !! 0%nat = Some t /\ t.(Task_cancelled) = true /\
    t.(Task_phase) = Phase_Process Wait_Parked /\ s.(Runtime_notifying) = [] /\
    act rt_config rt_no_files s (Act_Poll 0) = None /\
    act rt_config rt_no_files s (Act_Notify 0) = None /\
    map Task_phase <$> (Runtime_tasks <$> act_all rt_config rt_no_files s [Act_Exit 0; Act_Output 0 (Ok (succeeded []))])
    = Some [Phase_Finishing (Some (Ok (succeeded [])))].
Proof.
  set (actions := [Act_Execute 0 rt_process; Act_Permit 0; Act_Written 0 None; Act_Poll 0; Act_Cancel (mkJobId [1]);
                   Act_Notify 0; Act_Poll 0]).
  assert (Hrun : exists s, act_all rt_config rt_no_files rt_admitted actions = Some s)
    by (eexists; vm_compute; reflexivity).
  destruct Hrun as [s Hrun]. exists s. eexists. split; [by eapply rt_run_reachable|].
  vm_compute in Hrun. injection Hrun as <-. split_and!; vm_compute; reflexivity.
Qed.

(** A process that does not read its input outlives its deadline and its cancellation: while the
    input is written, neither of them is awaited, and its running permit is not given back. *)
Theorem unread_input_outlives_the_deadline :
  exists s t,
    rt_reachable rt_config rt_no_files s /\
    s.(Runtime_tasks) !! 0%nat = Some t /\ t.(Task_phase) = Phase_Writing /\ t.(Task_cancelled) = true /\
    s.(Runtime_running) = 0 /\ (forall a, own a = true -> act rt_config rt_no_files s a = None).
Proof.
  set (actions := [Act_Execute 0 rt_process; Act_Permit 0; Act_Cancel (mkJobId [1]); Act_Notify 0]).
  assert (Hrun : exists s, act_all rt_config rt_no_files rt_admitted actions = Some s)
    by (eexists; vm_compute; reflexivity).
  destruct Hrun as [s Hrun]. exists s. eexists. split; [by eapply rt_run_reachable|].
  vm_compute in Hrun. injection Hrun as <-. split_and!; [vm_compute; reflexivity..|].
  intros a Ha. destruct a as [| | | | | |i|i|i|i| | | | | | |i|i| |i]; try done;
    destruct i as [|[|i]]; vm_compute; reflexivity.
Qed.

(** An admission that is dropped without [execute] or [abandon] gives its permit back and leaves its
    entry among the active jobs: every later request with its identity is refused as a duplicate. *)
Theorem dropped_admission_blocks_its_job :
  exists s t,
    rt_reachable rt_config rt_no_files s /\
    s.(Runtime_tasks) !! 0%nat = Some t /\ t.(Task_phase) = Phase_Leaked /\
    s.(Runtime_queue) = rt_config.(RuntimeConfig_max_queued_jobs) /\
    map Task_phase <$> (Runtime_tasks <$>
      act_all rt_config rt_no_files s [Act_Admit (rt_job 1); Act_Acquire 1; Act_Register 1])
    = Some [Phase_Leaked; Phase_Ended (Some (Err (RuntimeError_Duplicate (mkJobId [1]))))].
Proof.
  assert (Hrun : exists s, act_all rt_config rt_no_files rt_admitted [Act_Release 0] = Some s)
    by (eexists; vm_compute; reflexivity).
  destruct Hrun as [s Hrun]. exists s. eexists. split; [by eapply rt_run_reachable|].
  vm_compute in Hrun. injection Hrun as <-. split_and!; vm_compute; reflexivity.
Qed.
