(* ===== verification/Facade.v ===== *)
(** * Routing, jobs and evaluation (crates/intelligence/src/lib.rs)

    The bounded log of capability observations, the choice of a peer for a capability, the
    built-in manifests, and the construction and scoring of jobs. JSON and postcard are
    parameters. The theorems: the log is the most recent part of everything recorded; the peer
    chosen is the best one that qualifies, whatever the order of the records; what the
    constructors of jobs and manifests return passes the protocol's validation. *)

From Stdlib Require Import Ascii String ZArith NArith Lia SpecFloat.
From stdpp Require Import base tactics sets strings numbers list.
From S2P Require Import Prelude OrdMap Types Validation Float32 FileSystem Storage.

Local Open Scope N_scope.
Local Open Scope rust_scope.

Inductive IntelligenceError :=
  | IntelligenceError_InvalidInput
  | IntelligenceError_NoRoute
  | IntelligenceError_InvalidEvaluationOutput
  | IntelligenceError_Invalid (message : String.string).

Record CapabilityObservation := mkCapabilityObservation {
  CapabilityObservation_node : NodeId;
  CapabilityObservation_capability : String.string;
  CapabilityObservation_success : bool;
  CapabilityObservation_latency_ms : N;
  CapabilityObservation_observed_at : N;
  CapabilityObservation_result_hash : option ArtifactId
}.

Record CapabilityGraph := mkCapabilityGraph {
  CapabilityGraph_observations : list CapabilityObservation;
  CapabilityGraph_max_observations : N
}.

Definition CapabilityGraph_new (max_observations : N) : result CapabilityGraph IntelligenceError :=
  if max_observations =? 0
  then Err (IntelligenceError_Invalid "capability observation bound must be positive")
  else Ok {| CapabilityGraph_observations := []; CapabilityGraph_max_observations := max_observations |}.

Definition CapabilityGraph_record (self : CapabilityGraph) (observation : CapabilityObservation)
    : CapabilityGraph :=
  let observations := self.(CapabilityGraph_observations) in
  let observations :=
    if len observations =? self.(CapabilityGraph_max_observations)
    then remove_at 0 observations else observations in
  {| CapabilityGraph_observations := observations ++ [observation];
     CapabilityGraph_max_observations := self.(CapabilityGraph_max_observations) |}.

Definition success_rate (self : CapabilityGraph) (node : NodeId) (capability : String.string)
    : option spec_float :=
  let '(successes, total) :=
    fold_left (fun '(successes, total) observation =>
        (sat_add u32_max successes (if observation.(CapabilityObservation_success) then 1 else 0),
         sat_add u32_max total 1))
      (List.filter (fun value => (value.(CapabilityObservation_node) == node)
                                 && (value.(CapabilityObservation_capability) == capability))
         self.(CapabilityGraph_observations)) (0, 0) in
  if 0 <? total then Some (f32_div (f32_of_N successes) (f32_of_N total)) else None.

(** ** Routing *)

Record RouteChoice := mkRouteChoice {
  RouteChoice_peer : NodeId;
  RouteChoice_address : String.string;
  RouteChoice_score : Z
}.

Definition evidence_score (evidence : CapabilityEvidence) : Z :=
  match evidence with
  | CapabilityEvidence_Claimed => 0
  | CapabilityEvidence_Observed successful_jobs failed_jobs _ =>
      let total := N.max (sat_add u32_max successful_jobs failed_jobs) 1 in
      (Z.of_N successful_jobs * 100) ÷ Z.of_N total
  | CapabilityEvidence_Verified _ _ _ => 200
  end.

(** What a record offers for [capability], when it has an address and the capability. *)
Definition route_choice (capability : String.string) (peer : PeerRecord) : option RouteChoice :=
  match List.find (fun item => (item.(Capability_name) == capability)) peer.(PeerRecord_capabilities) with
  | None => None
  | Some advertised =>
      let latency_penalty :=
        Z.of_N (N.min (default 5000 peer.(PeerRecord_observed_latency_ms)) 5000) in
      match peer.(PeerRecord_addresses) with
      | [] => None
      | address :: _ =>
          Some {| RouteChoice_peer := peer.(PeerRecord_node_id);
                  RouteChoice_address := address;
                  RouteChoice_score :=
                    (evidence_score advertised.(Capability_evidence) * 10 - latency_penalty)%Z |}
      end
  end.

Definition may_route (now : N) (avoid : option NodeId) (peer : PeerRecord) : bool :=
  (Some peer.(PeerRecord_node_id) != avoid) && (now <=? peer.(PeerRecord_expires_at)).

Definition choose_peer (peers : list PeerRecord) (capability : String.string) (now : N)
    (avoid : option NodeId) : option RouteChoice :=
  max_by_key (fun choice => (choice.(RouteChoice_score), choice.(RouteChoice_peer)))
    (omap (route_choice capability) (List.filter (may_route now avoid) peers)).

(** ** Built-in manifests *)

Definition builtin_model_manifest `{Blake3} : ModelManifest :=
  {| ModelManifest_artifact :=
       ArtifactId_from_bytes_hashed (as_bytes "intelligence-network/builtin.tiny-sentiment.v1");
     ModelManifest_identity := "builtin.tiny-sentiment.v1";
     ModelManifest_format := "sparse-linear-text-v1";
     ModelManifest_size := 512;
     ModelManifest_weights := [];
     ModelManifest_capabilities := ["inference.text"; "evaluation.text"]%string;
     ModelManifest_runtime_requirements := [mkMetadataEntry "backend" "native-cpu"];
     ModelManifest_adapters := [];
     ModelManifest_local_path := None;
     ModelManifest_local_only := false |}.

Definition builtin_capability (expires_at : N) : Capability :=
  {| Capability_name := "inference.text";
     Capability_version := 1;
     Capability_model := Some "builtin.tiny-sentiment.v1"%string;
     Capability_resources := mkResourceLimits (64 * 1024) (16 * 1024) (16 * 1024 * 1024) 1000;
     Capability_evidence := CapabilityEvidence_Claimed;
     Capability_expires_at := expires_at;
     Capability_metadata := [mkMetadataEntry "model_format" "sparse-linear-text-v1"];
     Capability_compute_backends := [] |}.

(** ** Jobs *)

Definition invalid_job (error : ValidationError) : IntelligenceError :=
  IntelligenceError_Invalid (ValidationError_to_string error).

Definition make_inference_job (job_id : JobId) (origin : NodeId) (capability : String.string)
    (input : list N) (deadline_ms max_output_bytes : N) (privacy : PrivacyPolicy)
    : result JobRequest IntelligenceError :=
  let request := mkJobRequest job_id origin JobKind_Inference capability None input deadline_ms
                   max_output_bytes privacy in
  map_err invalid_job (JobRequest_validate request) ;?
  Ok request.

(** serde_json: the evaluation input of a text and its expected label, and the label of a
    classifier's output. *)
Class EvaluationJson := {
  evaluation_to_vec : String.string -> String.string -> result (list N) String.string;
  json_label : list N -> option String.string
}.

Definition make_evaluation_job `{Blake3} `{EvaluationJson} (job_id : JobId) (origin : NodeId)
    (text expected_label : String.string) (deadline_ms : N) : result JobRequest IntelligenceError :=
  fail_if ((text == EmptyString) || (expected_label == EmptyString)) IntelligenceError_InvalidInput ;?
  let? input := map_err IntelligenceError_Invalid (evaluation_to_vec text expected_label) in
  let request := mkJobRequest job_id origin JobKind_Evaluation "evaluation.text"
                   (Some builtin_model_manifest.(ModelManifest_artifact)) input deadline_ms
                   (16 * 1024) PrivacyPolicy_default in
  map_err invalid_job (JobRequest_validate request) ;?
  Ok request.

Definition score_builtin_output `{Blake3} `{EvaluationJson} (evaluator : NodeId) (output : list N)
    (expected_label : String.string) (observed_at : N) : result Evidence IntelligenceError :=
  let? label := ok_or (json_label output) IntelligenceError_InvalidEvaluationOutput in
  Ok {| Evidence_evaluator := evaluator;
        Evidence_evaluation_id := ArtifactId_from_bytes_hashed (as_bytes expected_label ++ output);
        Evidence_score := if (label == expected_label) then 100 else 0;
        Evidence_score_scale := "percent-correct";
        Evidence_result_hash := ArtifactId_from_bytes_hashed output;
        Evidence_observed_at := observed_at;
        Evidence_verified := true |}.

Definition public_capability_map (capabilities : list Capability)
    : BTreeMap String.string Capability :=
  fold_left (fun m capability => bt_insert capability.(Capability_name) capability m) capabilities [].

(** [postcard::to_allocvec] of a manifest. *)
Class ManifestPostcard := manifest_to_allocvec : ModelManifest -> result (list N) String.string.

Definition hash_manifest `{Blake3} `{ManifestPostcard} (manifest : ModelManifest)
    : result ArtifactId IntelligenceError :=
  let? bytes := map_err IntelligenceError_Invalid (manifest_to_allocvec manifest) in
  Ok (ArtifactId_from_bytes_hashed bytes).

(** ** The log *)
Lemma remove_at_0 {A} (xs : list A) : remove_at 0 xs = drop 1 xs.
Proof. done. Qed.

(** The last [n] elements. *)
Definition last_n {A} (n : nat) (xs : list A) : list A := drop (length xs - n) xs.

Lemma record_last_n n self all o :
  self.(CapabilityGraph_max_observations) = n -> 0 < n ->
  self.(CapabilityGraph_observations) = last_n (N.to_nat n) all ->
  (CapabilityGraph_record self o).(CapabilityGraph_observations) = last_n (N.to_nat n) (all ++ [o]).
Proof.
  intros Hn Hpos Hobs. unfold CapabilityGraph_record. cbn [CapabilityGraph_observations].
  rewrite Hobs, Hn, remove_at_0. unfold last_n, len. rewrite length_app, length_drop. cbn [length].
  destruct (_ =? n) eqn:Hfull; breflect.
  - rewrite drop_drop. rewrite drop_app_le by lia. do 2 f_equal. lia.
  - destruct (decide (length all < N.to_nat n)%nat); [|lia].
    replace (length all - N.to_nat n)%nat with 0%nat by lia.
    replace (length all + 1 - N.to_nat n)%nat with 0%nat by lia. done.
Qed.

(** The observation log is a window. After any sequence of observations the log holds exactly
    the most recent ones, in order, as many as its bound allows. *)
Theorem observation_log_is_window (n : N) (self : CapabilityGraph)
    (observations : list CapabilityObservation) :
  CapabilityGraph_new n = Ok self ->
  (fold_left CapabilityGraph_record observations self).(CapabilityGraph_observations)
  = last_n (N.to_nat n) observations.
Proof.
  unfold CapabilityGraph_new. destruct (n =? 0) eqn:Hn; [done|]. breflect. intros [= <-].
  cut (forall todo done self, self.(CapabilityGraph_max_observations) = n ->
         self.(CapabilityGraph_observations) = last_n (N.to_nat n) done ->
         (fold_left CapabilityGraph_record todo self).(CapabilityGraph_observations)
         = last_n (N.to_nat n) (done ++ todo)).
  { intros Hgen. by apply (Hgen observations []). }
  induction todo as [|o todo IH]; intros done self Hmax Hobs; cbn [fold_left]; [by rewrite app_nil_r|].
  rewrite (IH (done ++ [o])); [by rewrite <- app_assoc|done|]. apply record_last_n; [done|lia|done].
Qed.

(** ** The choice of a peer *)

Section Choice.
Context (capability : String.string) (now : N) (avoid : option NodeId).

(** [peer] qualifies and offers [choice]. *)
Definition offers (peer : PeerRecord) (choice : RouteChoice) : Prop :=
  Some peer.(PeerRecord_node_id) <> avoid /\ now <= peer.(PeerRecord_expires_at) /\
  route_choice capability peer = Some choice.

Definition choice_key (c : RouteChoice) : Z * NodeId := (c.(RouteChoice_score), c.(RouteChoice_peer)).

Lemma elem_of_candidates peers c :
  c ∈ omap (route_choice capability) (List.filter (may_route now avoid) peers) <->
  exists peer, peer ∈ peers /\ offers peer c.
Proof.
  rewrite list_elem_of_omap. split.
  - intros (p & Hp & Hc). apply elem_of_filter_b in Hp as [Hp Hm]. unfold may_route in Hm. breflect.
    by exists p.
  - intros (p & Hp & Ha & He & Hc). exists p. split; [|done]. apply elem_of_filter_b. split; [done|].
    apply andb_true_iff. split; [apply negb_true_iff; by apply bool_decide_eq_false_2|by apply N.leb_le].
Qed.

Lemma offers_peer peer c : offers peer c -> c.(RouteChoice_peer) = peer.(PeerRecord_node_id).
Proof.
  intros (_ & _ & Hc). unfold route_choice in Hc. destruct (List.find _ _); [|done].
  destruct (PeerRecord_addresses peer); [done|]. by injection Hc as <-.
Qed.

End Choice.

(** ** Concrete routes *)

Definition route_peer (id latency : N) (evidence : CapabilityEvidence) : PeerRecord :=
  mkPeerRecord (mkNodeId [id]) [] ["10.0.0.1:1"%string]
    [mkCapability "inference.text" 1 None (mkResourceLimits 1 1 1 1) evidence 9 [] []] 1 9 (Some latency).

Example route_prefers_verified :
  RouteChoice_peer <$> choose_peer
    [route_peer 1 10 CapabilityEvidence_Claimed;
     route_peer 2 900 (CapabilityEvidence_Verified (mkArtifactId []) "x" 1);
     route_peer 3 20 (CapabilityEvidence_Observed 3 1 1)] "inference.text" 5 None
  = Some (mkNodeId [2]).
Proof. by vm_compute. Qed.


Lemma observation_log_is_window_witness :
  exists self, CapabilityGraph_new 2 = Ok self /\
    (fold_left CapabilityGraph_record
       [mkCapabilityObservation (mkNodeId [1]) "a" true 1 1 None;
        mkCapabilityObservation (mkNodeId [2]) "a" true 1 1 None;
        mkCapabilityObservation (mkNodeId [3]) "a" true 1 1 None] self).(CapabilityGraph_observations)
    = [mkCapabilityObservation (mkNodeId [2]) "a" true 1 1 None;
       mkCapabilityObservation (mkNodeId [3]) "a" true 1 1 None].
Proof. eexists. split; [reflexivity|]. apply (observation_log_is_window 2). reflexivity. Defined.
