(* ===== verification/NetAddr.v ===== *)
(** * Classes and text of network addresses

    The predicates of [std::net] by which the network tells public addresses from local ones, and
    the [Display] of a socket address, as far as crates/network/src/lib.rs uses them. *)

From Stdlib Require Import String Ascii ZArith NArith Lia.
From stdpp Require Import base tactics sets strings numbers list.
From S2P Require Import Prelude SocketAddr Float32.
Local Open Scope N_scope.

(** ** Classes *)

(** The [n] leading bits of an address of [width] bits are [prefix]. *)
Definition has_prefix (width n prefix bits : N) : bool := N.shiftr bits (width - n) =? prefix.

Definition is_loopback (ip : IpAddr) : bool :=
  match ip with
  | IpAddr_V4 bits => has_prefix 32 8 127 bits
  | IpAddr_V6 bits => bits =? 1
  end.

Definition is_unspecified (ip : IpAddr) : bool :=
  match ip with
  | IpAddr_V4 bits => bits =? 0
  | IpAddr_V6 bits => bits =? 0
  end.

Definition is_multicast (ip : IpAddr) : bool :=
  match ip with
  | IpAddr_V4 bits => has_prefix 32 4 14 bits
  | IpAddr_V6 bits => has_prefix 128 8 255 bits
  end.

(** [Ipv4Addr::is_private]: 10/8, 172.16/12 and 192.168/16 *)
Definition is_private (bits : N) : bool :=
  has_prefix 32 8 10 bits || has_prefix 32 12 (172 * 16 + 1) bits
  || has_prefix 32 16 (192 * 256 + 168) bits.

(** [Ipv4Addr::is_link_local]: 169.254/16 *)
Definition is_link_local (bits : N) : bool := has_prefix 32 16 (169 * 256 + 254) bits.

(** [Ipv6Addr::is_unique_local]: fc00::/7 *)
Definition is_unique_local (bits : N) : bool := has_prefix 128 7 126 bits.

(** [Ipv6Addr::is_unicast_link_local]: fe80::/10 *)
Definition is_unicast_link_local (bits : N) : bool := has_prefix 128 10 1018 bits.

(** ** Text *)

(** Lower-case hexadecimal digits in front of [rest]; a group has four at most. *)
Fixpoint hex_digits (fuel : nat) (n : N) (rest : string) : string :=
  match fuel with
  | O => rest
  | S fuel =>
      let rest := String (hex_digit (n mod 16)) rest in
      if n <? 16 then rest else hex_digits fuel (n / 16) rest
  end.

(** [{:x}] of a [u16] *)
Definition hex_group (n : N) : string := hex_digits 4 n EmptyString.

Definition ipv4_to_string (bits : N) : string :=
  (decimal (bits / 2 ^ 24) ++ "." ++ decimal (bits / 2 ^ 16 mod 256) ++ "."
   ++ decimal (bits / 2 ^ 8 mod 256) ++ "." ++ decimal (bits mod 256))%string.

(** [segments()] *)
Definition segments (bits : N) : list N :=
  (fun i => bits / 2 ^ (16 * i) mod 65536) <$> [7; 6; 5; 4; 3; 2; 1; 0].

(** The first of the longest runs of zero groups, as its start and length. *)
Fixpoint zero_span (i : nat) (groups : list N) (current longest : nat * nat) : nat * nat :=
  match groups with
  | [] => longest
  | 0 :: groups =>
      let current := (if (current.2 =? 0)%nat then i else current.1, S current.2) in
      zero_span (S i) groups current (if (longest.2 <? current.2)%nat then current else longest)
  | _ :: groups => zero_span (S i) groups (0, 0)%nat longest
  end.

Definition fmt_subslice (groups : list N) : string := String.concat ":" (hex_group <$> groups).

Definition ipv6_to_string (bits : N) : string :=
  if N.shiftr bits 32 =? 65535 then ("::ffff:" ++ ipv4_to_string (bits mod 2 ^ 32))%string
  else
    let groups := segments bits in
    let '(start, run) := zero_span 0 groups (0, 0)%nat (0, 0)%nat in
    if (1 <? run)%nat
    then (fmt_subslice (take start groups) ++ "::" ++ fmt_subslice (drop (start + run) groups))%string
    else fmt_subslice groups.

(** [address.to_string()] *)
Definition SocketAddr_to_string (address : SocketAddr) : string :=
  match address.(SocketAddr_ip) with
  | IpAddr_V4 bits => (ipv4_to_string bits ++ ":" ++ decimal address.(SocketAddr_port))%string
  | IpAddr_V6 bits =>
      ("[" ++ ipv6_to_string bits
       ++ (if (address.(SocketAddr_scope_id) =? 0)%N then EmptyString
           else "%" ++ decimal address.(SocketAddr_scope_id))
       ++ "]:" ++ decimal address.(SocketAddr_port))%string
  end.

(** Samples: the text of an address in canonical form is the text it was parsed from. *)
Example to_string_samples :
  forallb (fun s => bool_decide (SocketAddr_to_string <$> SocketAddr_parse s = Some s))
    ["198.51.100.7:4000"; "0.0.0.0:0"; "[::]:1"; "[::1]:80"; "[2001:db8::1:0:0:1]:9000";
     "[::ffff:10.0.0.1]:65535"; "[fe80::1%3]:1"; "[1:2:3:4:5:6:7:8]:9"; "[1:0:3:4:5:6:7:8]:9"]%string
  = true.
Proof. vm_compute. reflexivity. Qed.

Example to_string_normalizes :
  SocketAddr_to_string <$> SocketAddr_parse "[2001:0db8:0:0::0001%0]:0080"
  = Some "[2001:db8::1]:80"%string.
Proof. vm_compute. reflexivity. Qed.
