(* ===== verification/Network.v ===== *)
(** * Network: configuration, addresses, identities and shared state (crates/network/src/lib.rs)

    The parts of the network crate that are functions of their arguments: the configuration and
    its checks, the local address policy, the lifetimes of records, the signed statements of peers
    and their verification, and the state that the tasks of [Transport] share.  A [HashMap] is a
    [gmap] and a [HashSet] a [gset]; where the code iterates over one, the order is that of
    [map_to_list].  A channel to a connection's writer and a QUIC connection are handles.
    Signatures (ed25519) and the serialization of what is signed (postcard) are parameters. *)

From Stdlib Require Import String ZArith NArith Lia.
From stdpp Require Import base tactics sets strings numbers list gmap.
From S2P Require Import Prelude OrdMap Types Validation Codec SocketAddr Dht Trust FileSystem Storage NetAddr.
Local Open Scope N_scope.
Local Open Scope rust_scope.

Notation str := String.string.

#[export] Instance NodeId_countable : Countable NodeId.
Proof. by apply (inj_countable' NodeId_0 mkNodeId); intros []. Defined.

#[export] Instance RequestId_countable : Countable RequestId.
Proof. by apply (inj_countable' RequestId_0 mkRequestId); intros []. Defined.

Definition MAX_ADDRESS_RETRY_SECS : N := 30.

Definition PEER_TTL_SECONDS : N := 300.

Definition MAX_LEARNED_PEERS : N := 2048.

Definition MAX_SEEN_DHT_REQUESTS : N := 4096.

Definition DHT_REQUESTS_PER_WINDOW : N := 128.

Definition DHT_REQUEST_WINDOW_SECONDS : N := 60.

(** ** Configuration *)

Record NetworkConfig := mkNetworkConfig {
  NetworkConfig_listen_addr : SocketAddr;
  NetworkConfig_advertise_addr : str;
  NetworkConfig_bootstrap : list str;
  NetworkConfig_max_frame_size : N;
  NetworkConfig_max_connections : N;
  NetworkConfig_peer_ttl_seconds : N;
  NetworkConfig_allow_private_addresses : bool;
  NetworkConfig_prefer_relay : bool;
  NetworkConfig_hole_punch_enabled : bool;
  NetworkConfig_hole_punch_max_attempts : N;
  NetworkConfig_relay_addresses : list str;
  NetworkConfig_relay_enabled : bool;
  NetworkConfig_relay_max_sessions : N;
  NetworkConfig_relay_max_bytes : N;
  NetworkConfig_capabilities : list Capability;
  NetworkConfig_dht_enabled : bool;
  NetworkConfig_dht_k : N;
  NetworkConfig_dht_alpha : N;
  NetworkConfig_dht_max_records : N
}.

Inductive NetworkError :=
  | NetworkError_InvalidConfig (message : str)
  | NetworkError_Io (error : IoError)
  | NetworkError_Quic (message : str)
  | NetworkError_Codec (error : @CodecError str)
  | NetworkError_NotConnected
  | NetworkError_PeerTableFull
  | NetworkError_IdentityVerification
  | NetworkError_PeerProtocol (message : str)
  | NetworkError_Storage (error : StorageError).

Definition default_relay_sessions : N := 64.

Definition default_relay_bytes : N := 64 * 1024 * 1024.

Definition default_hole_punch_enabled : bool := true.

Definition default_hole_punch_attempts : N := 4.

Definition default_dht_enabled : bool := true.

Definition default_dht_k : N := DEFAULT_K.

Definition default_dht_alpha : N := 3.

Definition default_dht_max_records : N := DEFAULT_MAX_RECORDS.

Definition NetworkConfig_default : NetworkConfig :=
  {| NetworkConfig_listen_addr := mkSocketAddr (IpAddr_V4 (127 * 2 ^ 24 + 1)) 0 0;
     NetworkConfig_advertise_addr := "127.0.0.1:0";
     NetworkConfig_bootstrap := [];
     NetworkConfig_max_frame_size := MAX_FRAME_SIZE;
     NetworkConfig_max_connections := 64;
     NetworkConfig_peer_ttl_seconds := PEER_TTL_SECONDS;
     NetworkConfig_allow_private_addresses := false;
     NetworkConfig_prefer_relay := false;
     NetworkConfig_hole_punch_enabled := true;
     NetworkConfig_hole_punch_max_attempts := 4;
     NetworkConfig_relay_addresses := [];
     NetworkConfig_relay_enabled := false;
     NetworkConfig_relay_max_sessions := 64;
     NetworkConfig_relay_max_bytes := 64 * 1024 * 1024;
     NetworkConfig_capabilities := [];
     NetworkConfig_dht_enabled := true;
     NetworkConfig_dht_k := DEFAULT_K;
     NetworkConfig_dht_alpha := 3;
     NetworkConfig_dht_max_records := DEFAULT_MAX_RECORDS |}.

(** The text of the error of [parse::<SocketAddr>()]. *)
Definition addr_parse_error : str := "invalid socket address syntax".

Definition invalid (message : str) : NetworkError := NetworkError_InvalidConfig message.

Definition NetworkConfig_validate (self : NetworkConfig) : result unit NetworkError :=
  fail_if ((self.(NetworkConfig_max_frame_size) =? 0)
           || (MAX_FRAME_SIZE <? self.(NetworkConfig_max_frame_size)))
    (invalid "max_frame_size must be positive and within the protocol maximum") ;?
  fail_if ((self.(NetworkConfig_max_connections) =? 0)
           || (self.(NetworkConfig_peer_ttl_seconds) =? 0)
           || (24 * 60 * 60 <? self.(NetworkConfig_peer_ttl_seconds)))
    (invalid "network limits are invalid") ;?
  fail_if ((slen self.(NetworkConfig_advertise_addr) =? 0)
           || (256 <? slen self.(NetworkConfig_advertise_addr)))
    (invalid "advertise_addr is invalid") ;?
  let? _ := ok_or (SocketAddr_parse self.(NetworkConfig_advertise_addr))
    (invalid ("advertise_addr must be SocketAddr: " ++ addr_parse_error)%string) in
  fail_if (MAX_CAPABILITIES <? len self.(NetworkConfig_capabilities))
    (invalid "too many capabilities") ;?
  fail_if (MAX_PEERS <? len self.(NetworkConfig_bootstrap)) (invalid "too many bootstrap peers") ;?
  fail_if ((MAX_PEERS <? len self.(NetworkConfig_relay_addresses))
           || (self.(NetworkConfig_relay_max_sessions) =? 0)
           || (self.(NetworkConfig_relay_max_bytes) =? 0)
           || (MAX_RELAY_PAYLOAD * 4096 <? self.(NetworkConfig_relay_max_bytes)))
    (invalid "relay limits or relay address count are invalid") ;?
  fail_if ((self.(NetworkConfig_hole_punch_max_attempts) =? 0)
           || (16 <? self.(NetworkConfig_hole_punch_max_attempts)))
    (invalid "hole-punch attempt limit is invalid") ;?
  fail_if ((self.(NetworkConfig_dht_k) =? 0)
           || (MAX_DHT_CONTACTS <? self.(NetworkConfig_dht_k))
           || (self.(NetworkConfig_dht_alpha) =? 0)
           || (self.(NetworkConfig_dht_k) <? self.(NetworkConfig_dht_alpha))
           || (self.(NetworkConfig_dht_max_records) =? 0)
           || (16 * DEFAULT_MAX_RECORDS <? self.(NetworkConfig_dht_max_records)))
    (invalid "DHT limits are invalid") ;?
  for_each (fun address =>
      let? _ := ok_or (SocketAddr_parse address)
        (invalid ("peer address is invalid: " ++ addr_parse_error)%string) in
      Ok tt)
    (self.(NetworkConfig_bootstrap) ++ self.(NetworkConfig_relay_addresses)) ;?
  for_each (fun capability =>
      map_err (fun error => invalid (ValidationError_to_string error)) (Capability_validate capability))
    self.(NetworkConfig_capabilities).

(** ** Address policy *)

(** The classes of addresses that neither check lets through. *)
Definition ip_is_local (ip : IpAddr) : bool :=
  is_loopback ip || is_unspecified ip || is_multicast ip
  || match ip with
     | IpAddr_V4 value => is_private value || is_link_local value
     | IpAddr_V6 value => is_unique_local value || is_unicast_link_local value
     end.

Definition address_allowed (config : NetworkConfig) (address : SocketAddr) (source : AddressSource)
    : bool :=
  if address.(SocketAddr_port) =? 0 then false
  else if match source with
          | AddressSource_Configured | AddressSource_Local => true
          | _ => config.(NetworkConfig_allow_private_addresses)
          end then true
  else
    let ip := address.(SocketAddr_ip) in
    if is_loopback ip || is_unspecified ip || is_multicast ip then false
    else negb match ip with
              | IpAddr_V4 value => is_private value || is_link_local value
              | IpAddr_V6 value => is_unique_local value || is_unicast_link_local value
              end.

Definition address_is_public (address : SocketAddr) : bool := negb (ip_is_local address.(SocketAddr_ip)).

(** [address.parse()] gives an address that the policy lets peers announce. *)
Definition learnable (config : NetworkConfig) (address : str) : bool :=
  match SocketAddr_parse address with
  | Some parsed => address_allowed config parsed AddressSource_Learned
  | None => false
  end.

(** The first occurrence of each address, eight at most: [retain(|a| seen.insert(a))]. *)
Fixpoint retain_unseen (seen addresses : list str) : list str :=
  match addresses with
  | [] => []
  | address :: addresses =>
      if contains address seen then retain_unseen seen addresses
      else address :: retain_unseen (address :: seen) addresses
  end.

Definition dedupe_addresses (addresses : list str) : list str :=
  truncate 8 (retain_unseen [] addresses).

(** [sort_by_key(|(_, global)| !*global)]: [false] sorts before [true]. *)
Definition preferred_addresses (config : NetworkConfig) (addresses : list str) : list str :=
  let values := omap (fun address =>
      match SocketAddr_parse address with
      | Some parsed =>
          if address_allowed config parsed AddressSource_Learned
          then Some (address, address_is_public parsed) else None
      | None => None
      end) addresses in
  fst <$> sort_by_key (fun v : str * bool => if v.2 then 0 else 1) values.

Definition reachability_state (config : NetworkConfig) : ReachabilityState :=
  match SocketAddr_parse config.(NetworkConfig_advertise_addr) with
  | Some address =>
      if address_is_public address
         && is_unspecified config.(NetworkConfig_listen_addr).(SocketAddr_ip)
      then ReachabilityState_PubliclyReachable else ReachabilityState_NatUnknown
  | None => ReachabilityState_NatUnknown
  end.

(** ** Lifetimes *)

Definition record_time_valid (config : NetworkConfig) (now : N) (record : PeerRecord) : bool :=
  (record.(PeerRecord_announced_at) <=? sat_add u64_max now 60)
  && (now <=? record.(PeerRecord_expires_at))
  && (sat_sub record.(PeerRecord_expires_at) record.(PeerRecord_announced_at)
      <=? sat_mul u64_max config.(NetworkConfig_peer_ttl_seconds) 2).

Definition record_is_fresher (previous next : PeerRecord) : bool :=
  (previous.(PeerRecord_announced_at) <? next.(PeerRecord_announced_at))
  || ((next.(PeerRecord_announced_at) =? previous.(PeerRecord_announced_at))
      && (previous.(PeerRecord_expires_at) <=? next.(PeerRecord_expires_at))).

Definition dht_expiry_valid (record : DhtRecord) (now peer_ttl_seconds : N) : bool :=
  (now <=? record.(DhtRecord_expires_at))
  && (sat_sub record.(DhtRecord_expires_at) now <=? N.max (sat_mul u64_max peer_ttl_seconds 2) 60).

Definition message_required_minor (message : Message) : N :=
  if 22 <=? Message_kind message then 4
  else if 21 <=? Message_kind message then 3
  else if 19 <=? Message_kind message then 2
  else if 13 <=? Message_kind message then 1
  else 0.

(** ** Identities and signed statements *)

(** The signing half of [ed25519_dalek]: the public key of a secret, and a signature. *)
Class Ed25519Signer := {
  verifying_key : list N -> list N;
  sign_with : list N -> list N -> list N
}.

(** What the code relies on: a signature verifies under the key of its secret. *)
Class Ed25519Laws `{Ed25519} `{Ed25519Signer} : Prop := {
  sign_verifies : forall secret bytes,
    ed25519_verify (verifying_key secret) bytes (sign_with secret bytes) = true;
  sign_length : forall secret bytes, length (sign_with secret bytes) = 64%nat
}.

(** [postcard::to_allocvec] at the tuples that are signed; the error is its text. *)
Class SignedPostcard := {
  hello_to_allocvec : list N * VersionRange * PeerRecord -> result (list N) str;
  record_to_allocvec : PeerRecord -> result (list N) str;
  rotation_to_allocvec : NodeId * list N * NodeId * list N * N * N * N -> result (list N) str;
  addresses_to_allocvec : NodeId * N * list AddressRecord -> result (list N) str;
  relay_to_allocvec : RequestId * NodeId * NodeId * list N -> result (list N) str;
  dht_record_to_allocvec :
    DhtNamespace * DhtKey * NodeId * list N * N * N * list N -> result (list N) str;
  observation_to_allocvec : NodeId * str * NodeId * N * list N -> result (list N) str
}.

Record Identity := mkIdentity {
  Identity_signing_key : list N;
  Identity_public_key : list N;
  Identity_node_id : NodeId;
  Identity_rotation : option KeyRotation
}.

(** [.map_err(|error| NetworkError::PeerProtocol(error.to_string()))] *)
Definition protocol {A} (c : result A str) : result A NetworkError :=
  map_err NetworkError_PeerProtocol c.

Definition validated (c : result unit ValidationError) : result unit NetworkError :=
  map_err (fun error => NetworkError_PeerProtocol (ValidationError_to_string error)) c.

Section Signed.
Context `{Blake3} `{Ed25519} `{Ed25519Signer} `{SignedPostcard}.

Definition Identity_sign (self : Identity) (bytes : list N) : list N :=
  sign_with self.(Identity_signing_key) bytes.

Definition Identity_verify (public_key bytes signature : list N) : bool :=
  ed25519_verify public_key bytes signature.

Definition rotation_signing_bytes (rotation : KeyRotation) : result (list N) str :=
  rotation_to_allocvec
    (rotation.(KeyRotation_old_node_id), rotation.(KeyRotation_old_public_key),
     rotation.(KeyRotation_new_node_id), rotation.(KeyRotation_new_public_key),
     rotation.(KeyRotation_sequence), rotation.(KeyRotation_valid_from),
     rotation.(KeyRotation_valid_until)).

Definition address_signing_bytes (node_id : NodeId) (sequence : N) (addresses : list AddressRecord)
    : result (list N) NetworkError :=
  protocol (addresses_to_allocvec (node_id, sequence, addresses)).

Definition relay_signing_bytes (session_id : RequestId) (origin target : NodeId) (payload : list N)
    : result (list N) NetworkError :=
  protocol (relay_to_allocvec (session_id, origin, target, payload)).

Definition dht_record_signing_bytes (record : DhtRecord) : result (list N) NetworkError :=
  protocol (dht_record_to_allocvec
    (record.(DhtRecord_namespace), record.(DhtRecord_key), record.(DhtRecord_owner),
     record.(DhtRecord_owner_public_key), record.(DhtRecord_sequence),
     record.(DhtRecord_expires_at), record.(DhtRecord_value))).

Definition address_observation_signing_bytes (subject : NodeId) (address : str)
    (observed_by : NodeId) (expires_at : N) (nonce : list N) : result (list N) NetworkError :=
  protocol (observation_to_allocvec (subject, address, observed_by, expires_at, nonce)).

(** [let Ok(bytes) = ... else { return false }; Identity::verify(key, &bytes, &signature)] *)
Definition verifies {E} (public_key : list N) (bytes : result (list N) E) (signature : list N) : bool :=
  match bytes with
  | Ok bytes => Identity_verify public_key bytes signature
  | Err _ => false
  end.

Definition verify_announcement (announcement : SignedAnnouncement) : bool :=
  let record := announcement.(SignedAnnouncement_record) in
  if record.(PeerRecord_node_id) != NodeId_from_public_key record.(PeerRecord_public_key) then false
  else verifies record.(PeerRecord_public_key) (record_to_allocvec record)
         announcement.(SignedAnnouncement_signature).

Definition verify_dht_record (record : DhtRecord) : bool :=
  if is_err (DhtRecord_validate record) then false
  else verifies record.(DhtRecord_owner_public_key) (dht_record_signing_bytes record)
         record.(DhtRecord_signature).

Definition verify_key_rotation (now : N) (rotation : KeyRotation) : bool :=
  if is_err (KeyRotation_validate rotation)
     || (sat_add u64_max now 60 <? rotation.(KeyRotation_valid_from))
     || (rotation.(KeyRotation_valid_until) <? now) then false
  else
    verifies rotation.(KeyRotation_old_public_key) (rotation_signing_bytes rotation)
      rotation.(KeyRotation_old_signature)
    && verifies rotation.(KeyRotation_new_public_key) (rotation_signing_bytes rotation)
         rotation.(KeyRotation_new_signature).

(** The checks of [verify_hello] before the nonce is looked up. *)
Definition hello_check (config : NetworkConfig) (local : NodeId) (now : N) (hello : Hello)
    : result unit NetworkError :=
  let record := hello.(Hello_record) in
  let supported := hello.(Hello_supported) in
  validated (Hello_validate hello) ;?
  fail_if ((record.(PeerRecord_node_id) == local)
           || (supported.(VersionRange_major) != PROTOCOL_MAJOR)
           || (PROTOCOL_MINOR <? supported.(VersionRange_min_minor))
           || (supported.(VersionRange_max_minor) <? supported.(VersionRange_min_minor))
           || (supported.(VersionRange_max_minor) <? VersionRange_current.(VersionRange_min_minor))
           || (record.(PeerRecord_node_id) != NodeId_from_public_key record.(PeerRecord_public_key))
           || negb (record_time_valid config now record))
    NetworkError_IdentityVerification ;?
  let? bytes := protocol (hello_to_allocvec (hello.(Hello_nonce), supported, record)) in
  fail_if (negb (Identity_verify record.(PeerRecord_public_key) bytes hello.(Hello_signature)))
    NetworkError_IdentityVerification.

(** ** Statements of this node *)

Definition local_record (config : NetworkConfig) (identity : Identity) (now : N) : PeerRecord :=
  {| PeerRecord_node_id := identity.(Identity_node_id);
     PeerRecord_public_key := identity.(Identity_public_key);
     PeerRecord_addresses := [config.(NetworkConfig_advertise_addr)];
     PeerRecord_capabilities := config.(NetworkConfig_capabilities);
     PeerRecord_announced_at := now;
     PeerRecord_expires_at := sat_add u64_max now config.(NetworkConfig_peer_ttl_seconds);
     PeerRecord_observed_latency_ms := None |}.

Definition make_hello (config : NetworkConfig) (identity : Identity) (now : N) (nonce : list N)
    : result Hello NetworkError :=
  let supported := VersionRange_current in
  let record := local_record config identity now in
  let? bytes := protocol (hello_to_allocvec (nonce, supported, record)) in
  Ok {| Hello_nonce := nonce;
        Hello_supported := supported;
        Hello_record := record;
        Hello_signature := Identity_sign identity bytes |}.

Definition sign_announcement (identity : Identity) (record : PeerRecord)
    : result SignedAnnouncement NetworkError :=
  let? bytes := protocol (record_to_allocvec record) in
  Ok {| SignedAnnouncement_record := record;
        SignedAnnouncement_signature := Identity_sign identity bytes |}.

Definition sign_address_update (identity : Identity) (addresses : list AddressRecord) (sequence : N)
    : result AddressUpdate NetworkError :=
  let node_id := identity.(Identity_node_id) in
  let? bytes := address_signing_bytes node_id sequence addresses in
  Ok {| AddressUpdate_node_id := node_id;
        AddressUpdate_sequence := sequence;
        AddressUpdate_addresses := addresses;
        AddressUpdate_signature := Identity_sign identity bytes |}.

Definition sign_address_observation (config : NetworkConfig) (identity : Identity) (now : N)
    (nonce : list N) (subject : NodeId) (address : SocketAddr) : result AddressObservation NetworkError :=
  let expires_at := sat_add u64_max now config.(NetworkConfig_peer_ttl_seconds) in
  let address := SocketAddr_to_string address in
  let? bytes := address_observation_signing_bytes subject address identity.(Identity_node_id)
                  expires_at nonce in
  Ok {| AddressObservation_subject := subject;
        AddressObservation_address := address;
        AddressObservation_observed_by := identity.(Identity_node_id);
        AddressObservation_expires_at := expires_at;
        AddressObservation_nonce := nonce;
        AddressObservation_signature := Identity_sign identity bytes |}.
End Signed.

(** [source as u8] *)
Definition AddressSource_as_u8 (source : AddressSource) : N :=
  match source with
  | AddressSource_Configured => 0
  | AddressSource_Observed => 1
  | AddressSource_Learned => 2
  | AddressSource_Local => 3
  | AddressSource_Relay => 4
  end.

Definition address_records (config : NetworkConfig) (now : N) (observed : list AddressObservation)
    : list AddressRecord :=
  let configured :=
    match SocketAddr_parse config.(NetworkConfig_advertise_addr) with
    | Some address =>
        if address_allowed config address AddressSource_Configured then
          [{| AddressRecord_address := SocketAddr_to_string address;
              AddressRecord_transport := AddressTransport_QuicUdp;
              AddressRecord_source := AddressSource_Configured;
              AddressRecord_expires_at := sat_add u64_max now config.(NetworkConfig_peer_ttl_seconds);
              AddressRecord_confidence := 100;
              AddressRecord_relay := None |}]
        else []
    | None => []
    end in
  let learned :=
    (fun observation =>
       {| AddressRecord_address := observation.(AddressObservation_address);
          AddressRecord_transport := AddressTransport_QuicUdp;
          AddressRecord_source := AddressSource_Observed;
          AddressRecord_expires_at := observation.(AddressObservation_expires_at);
          AddressRecord_confidence := 60;
          AddressRecord_relay := None |})
    <$> List.filter (fun observation => now <=? observation.(AddressObservation_expires_at)) observed in
  truncate MAX_ADDRESSES
    (sort_by_key (fun record => (AddressSource_as_u8 record.(AddressRecord_source),
                                 mkReverse record.(AddressRecord_confidence)))
       (configured ++ learned)).

(** [record_observation]: one entry per nonce, the sixteen that expire last. *)
Definition record_observation (now : N) (observation : AddressObservation)
    (observations : list AddressObservation) : list AddressObservation :=
  let observations :=
    List.filter (fun item => (now <=? item.(AddressObservation_expires_at))
                             && (item.(AddressObservation_nonce) != observation.(AddressObservation_nonce)))
      observations in
  let observations := sort_by_key AddressObservation_expires_at (observations ++ [observation]) in
  if 16 <? len observations then drop (N.to_nat (sat_sub (len observations) 16)) observations
  else observations.

(** ** Shared state *)

(** The handles of [senders] and [connections] name a channel and a QUIC connection. *)
Record PeerState := mkPeerState {
  PeerState_records : gmap NodeId PeerRecord;
  PeerState_announcements : gmap NodeId SignedAnnouncement;
  PeerState_address_updates : gmap NodeId AddressUpdate;
  PeerState_rotations : gmap NodeId KeyRotation;
  PeerState_senders : gmap NodeId N;
  PeerState_connections : gmap NodeId N;
  PeerState_connection_ids : gmap NodeId N;
  PeerState_connection_directions : gmap NodeId bool;
  PeerState_versions : gmap NodeId N
}.

Record AddressBackoff := mkAddressBackoff {
  AddressBackoff_failures : N;
  AddressBackoff_next_attempt : N
}.

Record RelaySession := mkRelaySession {
  RelaySession_origin : NodeId;
  RelaySession_target : NodeId;
  RelaySession_bytes : N;
  RelaySession_last_activity : N
}.

(** [pending] holds the requests whose [oneshot] sender waits; [delivered] what was sent on a
    channel and not received yet. *)
Record DhtRuntime := mkDhtRuntime {
  DhtRuntime_table : DhtTable;
  DhtRuntime_store : DhtStore;
  DhtRuntime_pending : gset RequestId;
  DhtRuntime_delivered : gmap RequestId DhtResponse;
  DhtRuntime_seen_requests : gset RequestId;
  DhtRuntime_request_order : list RequestId;
  DhtRuntime_rpc_sent : N;
  DhtRuntime_rpc_received : N;
  DhtRuntime_lookups : N;
  DhtRuntime_lookup_successes : N;
  DhtRuntime_invalid_records : N;
  DhtRuntime_request_windows : gmap NodeId (N * N);
  DhtRuntime_rate_limited_requests : N
}.

Record NetworkMetrics := mkNetworkMetrics {
  NetworkMetrics_bytes_sent : N;
  NetworkMetrics_bytes_received : N;
  NetworkMetrics_protocol_errors : N;
  NetworkMetrics_rejected_connections : N
}.

(** What a [NetworkHandle] shares between tasks.  [joins] are the results of spawned requests that
    were not awaited yet, under the numbers of their join handles. *)
Record Shared := mkShared {
  Shared_peers : PeerState;
  Shared_connecting : gset str;
  Shared_seen_hellos : gset (NodeId * list N);
  Shared_address_backoff : gmap str AddressBackoff;
  Shared_observed_addresses : list AddressObservation;
  Shared_address_sequence : N;
  Shared_connection_sequence : N;
  Shared_relay_routes : gmap NodeId NodeId;
  Shared_relay_session_ids : gmap (NodeId * NodeId) RequestId;
  Shared_relay_sessions : gmap RequestId RelaySession;
  Shared_dht : DhtRuntime;
  Shared_metrics : NetworkMetrics;
  Shared_joins : gmap N (option DhtResponseKind);
  Shared_next_join : N
}.

Definition set_PeerState_records (v : gmap NodeId PeerRecord) (self : PeerState) : PeerState :=
    mkPeerState v self.(PeerState_announcements) self.(PeerState_address_updates)
    self.(PeerState_rotations) self.(PeerState_senders) self.(PeerState_connections)
    self.(PeerState_connection_ids) self.(PeerState_connection_directions)
    self.(PeerState_versions).

Definition set_PeerState_announcements (v : gmap NodeId SignedAnnouncement) (self : PeerState) : PeerState :=
    mkPeerState self.(PeerState_records) v self.(PeerState_address_updates)
    self.(PeerState_rotations) self.(PeerState_senders) self.(PeerState_connections)
    self.(PeerState_connection_ids) self.(PeerState_connection_directions)
    self.(PeerState_versions).

Definition set_PeerState_address_updates (v : gmap NodeId AddressUpdate) (self : PeerState) : PeerState :=
    mkPeerState self.(PeerState_records) self.(PeerState_announcements) v
    self.(PeerState_rotations) self.(PeerState_senders) self.(PeerState_connections)
    self.(PeerState_connection_ids) self.(PeerState_connection_directions)
    self.(PeerState_versions).

Definition set_PeerState_rotations (v : gmap NodeId KeyRotation) (self : PeerState) : PeerState :=
    mkPeerState self.(PeerState_records) self.(PeerState_announcements)
    self.(PeerState_address_updates) v self.(PeerState_senders) self.(PeerState_connections)
    self.(PeerState_connection_ids) self.(PeerState_connection_directions)
    self.(PeerState_versions).

Definition set_PeerState_senders (v : gmap NodeId N) (self : PeerState) : PeerState :=
    mkPeerState self.(PeerState_records) self.(PeerState_announcements)
    self.(PeerState_address_updates) self.(PeerState_rotations) v
    self.(PeerState_connections) self.(PeerState_connection_ids)
    self.(PeerState_connection_directions) self.(PeerState_versions).

Definition set_PeerState_connections (v : gmap NodeId N) (self : PeerState) : PeerState :=
    mkPeerState self.(PeerState_records) self.(PeerState_announcements)
    self.(PeerState_address_updates) self.(PeerState_rotations) self.(PeerState_senders) v
    self.(PeerState_connection_ids) self.(PeerState_connection_directions)
    self.(PeerState_versions).

Definition set_PeerState_connection_ids (v : gmap NodeId N) (self : PeerState) : PeerState :=
    mkPeerState self.(PeerState_records) self.(PeerState_announcements)
    self.(PeerState_address_updates) self.(PeerState_rotations) self.(PeerState_senders)
    self.(PeerState_connections) v self.(PeerState_connection_directions)
    self.(PeerState_versions).

Definition set_PeerState_connection_directions (v : gmap NodeId bool) (self : PeerState) : PeerState :=
    mkPeerState self.(PeerState_records) self.(PeerState_announcements)
    self.(PeerState_address_updates) self.(PeerState_rotations) self.(PeerState_senders)
    self.(PeerState_connections) self.(PeerState_connection_ids) v self.(PeerState_versions).

Definition set_PeerState_versions (v : gmap NodeId N) (self : PeerState) : PeerState :=
    mkPeerState self.(PeerState_records) self.(PeerState_announcements)
    self.(PeerState_address_updates) self.(PeerState_rotations) self.(PeerState_senders)
    self.(PeerState_connections) self.(PeerState_connection_ids)
    self.(PeerState_connection_directions) v.

Definition set_DhtRuntime_table (v : DhtTable) (self : DhtRuntime) : DhtRuntime :=
    mkDhtRuntime v self.(DhtRuntime_store) self.(DhtRuntime_pending)
    self.(DhtRuntime_delivered) self.(DhtRuntime_seen_requests)
    self.(DhtRuntime_request_order) self.(DhtRuntime_rpc_sent)
    self.(DhtRuntime_rpc_received) self.(DhtRuntime_lookups)
    self.(DhtRuntime_lookup_successes) self.(DhtRuntime_invalid_records)
    self.(DhtRuntime_request_windows) self.(DhtRuntime_rate_limited_requests).

Definition set_DhtRuntime_store (v : DhtStore) (self : DhtRuntime) : DhtRuntime :=
    mkDhtRuntime self.(DhtRuntime_table) v self.(DhtRuntime_pending)
    self.(DhtRuntime_delivered) self.(DhtRuntime_seen_requests)
    self.(DhtRuntime_request_order) self.(DhtRuntime_rpc_sent)
    self.(DhtRuntime_rpc_received) self.(DhtRuntime_lookups)
    self.(DhtRuntime_lookup_successes) self.(DhtRuntime_invalid_records)
    self.(DhtRuntime_request_windows) self.(DhtRuntime_rate_limited_requests).

Definition set_DhtRuntime_pending (v : gset RequestId) (self : DhtRuntime) : DhtRuntime :=
    mkDhtRuntime self.(DhtRuntime_table) self.(DhtRuntime_store) v
    self.(DhtRuntime_delivered) self.(DhtRuntime_seen_requests)
    self.(DhtRuntime_request_order) self.(DhtRuntime_rpc_sent)
    self.(DhtRuntime_rpc_received) self.(DhtRuntime_lookups)
    self.(DhtRuntime_lookup_successes) self.(DhtRuntime_invalid_records)
    self.(DhtRuntime_request_windows) self.(DhtRuntime_rate_limited_requests).

Definition set_DhtRuntime_delivered (v : gmap RequestId DhtResponse) (self : DhtRuntime) : DhtRuntime :=
    mkDhtRuntime self.(DhtRuntime_table) self.(DhtRuntime_store) self.(DhtRuntime_pending) v
    self.(DhtRuntime_seen_requests) self.(DhtRuntime_request_order)
    self.(DhtRuntime_rpc_sent) self.(DhtRuntime_rpc_received) self.(DhtRuntime_lookups)
    self.(DhtRuntime_lookup_successes) self.(DhtRuntime_invalid_records)
    self.(DhtRuntime_request_windows) self.(DhtRuntime_rate_limited_requests).

Definition set_DhtRuntime_seen_requests (v : gset RequestId) (self : DhtRuntime) : DhtRuntime :=
    mkDhtRuntime self.(DhtRuntime_table) self.(DhtRuntime_store) self.(DhtRuntime_pending)
    self.(DhtRuntime_delivered) v self.(DhtRuntime_request_order) self.(DhtRuntime_rpc_sent)
    self.(DhtRuntime_rpc_received) self.(DhtRuntime_lookups)
    self.(DhtRuntime_lookup_successes) self.(DhtRuntime_invalid_records)
    self.(DhtRuntime_request_windows) self.(DhtRuntime_rate_limited_requests).

Definition set_DhtRuntime_request_order (v : list RequestId) (self : DhtRuntime) : DhtRuntime :=
    mkDhtRuntime self.(DhtRuntime_table) self.(DhtRuntime_store) self.(DhtRuntime_pending)
    self.(DhtRuntime_delivered) self.(DhtRuntime_seen_requests) v self.(DhtRuntime_rpc_sent)
    self.(DhtRuntime_rpc_received) self.(DhtRuntime_lookups)
    self.(DhtRuntime_lookup_successes) self.(DhtRuntime_invalid_records)
    self.(DhtRuntime_request_windows) self.(DhtRuntime_rate_limited_requests).

Definition set_DhtRuntime_rpc_sent (v : N) (self : DhtRuntime) : DhtRuntime :=
    mkDhtRuntime self.(DhtRuntime_table) self.(DhtRuntime_store) self.(DhtRuntime_pending)
    self.(DhtRuntime_delivered) self.(DhtRuntime_seen_requests)
    self.(DhtRuntime_request_order) v self.(DhtRuntime_rpc_received)
    self.(DhtRuntime_lookups) self.(DhtRuntime_lookup_successes)
    self.(DhtRuntime_invalid_records) self.(DhtRuntime_request_windows)
    self.(DhtRuntime_rate_limited_requests).

Definition set_DhtRuntime_rpc_received (v : N) (self : DhtRuntime) : DhtRuntime :=
    mkDhtRuntime self.(DhtRuntime_table) self.(DhtRuntime_store) self.(DhtRuntime_pending)
    self.(DhtRuntime_delivered) self.(DhtRuntime_seen_requests)
    self.(DhtRuntime_request_order) self.(DhtRuntime_rpc_sent) v self.(DhtRuntime_lookups)
    self.(DhtRuntime_lookup_successes) self.(DhtRuntime_invalid_records)
    self.(DhtRuntime_request_windows) self.(DhtRuntime_rate_limited_requests).

Definition set_DhtRuntime_lookups (v : N) (self : DhtRuntime) : DhtRuntime :=
    mkDhtRuntime self.(DhtRuntime_table) self.(DhtRuntime_store) self.(DhtRuntime_pending)
    self.(DhtRuntime_delivered) self.(DhtRuntime_seen_requests)
    self.(DhtRuntime_request_order) self.(DhtRuntime_rpc_sent)
    self.(DhtRuntime_rpc_received) v self.(DhtRuntime_lookup_successes)
    self.(DhtRuntime_invalid_records) self.(DhtRuntime_request_windows)
    self.(DhtRuntime_rate_limited_requests).

Definition set_DhtRuntime_lookup_successes (v : N) (self : DhtRuntime) : DhtRuntime :=
    mkDhtRuntime self.(DhtRuntime_table) self.(DhtRuntime_store) self.(DhtRuntime_pending)
    self.(DhtRuntime_delivered) self.(DhtRuntime_seen_requests)
    self.(DhtRuntime_request_order) self.(DhtRuntime_rpc_sent)
    self.(DhtRuntime_rpc_received) self.(DhtRuntime_lookups) v
    self.(DhtRuntime_invalid_records) self.(DhtRuntime_request_windows)
    self.(DhtRuntime_rate_limited_requests).

Definition set_DhtRuntime_invalid_records (v : N) (self : DhtRuntime) : DhtRuntime :=
    mkDhtRuntime self.(DhtRuntime_table) self.(DhtRuntime_store) self.(DhtRuntime_pending)
    self.(DhtRuntime_delivered) self.(DhtRuntime_seen_requests)
    self.(DhtRuntime_request_order) self.(DhtRuntime_rpc_sent)
    self.(DhtRuntime_rpc_received) self.(DhtRuntime_lookups)
    self.(DhtRuntime_lookup_successes) v self.(DhtRuntime_request_windows)
    self.(DhtRuntime_rate_limited_requests).

Definition set_DhtRuntime_request_windows (v : gmap NodeId (N * N)) (self : DhtRuntime) : DhtRuntime :=
    mkDhtRuntime self.(DhtRuntime_table) self.(DhtRuntime_store) self.(DhtRuntime_pending)
    self.(DhtRuntime_delivered) self.(DhtRuntime_seen_requests)
    self.(DhtRuntime_request_order) self.(DhtRuntime_rpc_sent)
    self.(DhtRuntime_rpc_received) self.(DhtRuntime_lookups)
    self.(DhtRuntime_lookup_successes) self.(DhtRuntime_invalid_records) v
    self.(DhtRuntime_rate_limited_requests).

Definition set_DhtRuntime_rate_limited_requests (v : N) (self : DhtRuntime) : DhtRuntime :=
    mkDhtRuntime self.(DhtRuntime_table) self.(DhtRuntime_store) self.(DhtRuntime_pending)
    self.(DhtRuntime_delivered) self.(DhtRuntime_seen_requests)
    self.(DhtRuntime_request_order) self.(DhtRuntime_rpc_sent)
    self.(DhtRuntime_rpc_received) self.(DhtRuntime_lookups)
    self.(DhtRuntime_lookup_successes) self.(DhtRuntime_invalid_records)
    self.(DhtRuntime_request_windows) v.

Definition set_NetworkMetrics_bytes_sent (v : N) (self : NetworkMetrics) : NetworkMetrics :=
    mkNetworkMetrics v self.(NetworkMetrics_bytes_received)
    self.(NetworkMetrics_protocol_errors) self.(NetworkMetrics_rejected_connections).

Definition set_NetworkMetrics_bytes_received (v : N) (self : NetworkMetrics) : NetworkMetrics :=
    mkNetworkMetrics self.(NetworkMetrics_bytes_sent) v
    self.(NetworkMetrics_protocol_errors) self.(NetworkMetrics_rejected_connections).

Definition set_NetworkMetrics_protocol_errors (v : N) (self : NetworkMetrics) : NetworkMetrics :=
    mkNetworkMetrics self.(NetworkMetrics_bytes_sent) self.(NetworkMetrics_bytes_received) v
    self.(NetworkMetrics_rejected_connections).

Definition set_NetworkMetrics_rejected_connections (v : N) (self : NetworkMetrics) : NetworkMetrics :=
    mkNetworkMetrics self.(NetworkMetrics_bytes_sent) self.(NetworkMetrics_bytes_received)
    self.(NetworkMetrics_protocol_errors) v.

Definition set_Shared_peers (v : PeerState) (self : Shared) : Shared :=
    mkShared v self.(Shared_connecting) self.(Shared_seen_hellos)
    self.(Shared_address_backoff) self.(Shared_observed_addresses)
    self.(Shared_address_sequence) self.(Shared_connection_sequence)
    self.(Shared_relay_routes) self.(Shared_relay_session_ids) self.(Shared_relay_sessions)
    self.(Shared_dht) self.(Shared_metrics) self.(Shared_joins) self.(Shared_next_join).

Definition set_Shared_connecting (v : gset str) (self : Shared) : Shared :=
    mkShared self.(Shared_peers) v self.(Shared_seen_hellos) self.(Shared_address_backoff)
    self.(Shared_observed_addresses) self.(Shared_address_sequence)
    self.(Shared_connection_sequence) self.(Shared_relay_routes)
    self.(Shared_relay_session_ids) self.(Shared_relay_sessions) self.(Shared_dht)
    self.(Shared_metrics) self.(Shared_joins) self.(Shared_next_join).

Definition set_Shared_seen_hellos (v : gset (NodeId * list N)) (self : Shared) : Shared :=
    mkShared self.(Shared_peers) self.(Shared_connecting) v self.(Shared_address_backoff)
    self.(Shared_observed_addresses) self.(Shared_address_sequence)
    self.(Shared_connection_sequence) self.(Shared_relay_routes)
    self.(Shared_relay_session_ids) self.(Shared_relay_sessions) self.(Shared_dht)
    self.(Shared_metrics) self.(Shared_joins) self.(Shared_next_join).

Definition set_Shared_address_backoff (v : gmap str AddressBackoff) (self : Shared) : Shared :=
    mkShared self.(Shared_peers) self.(Shared_connecting) self.(Shared_seen_hellos) v
    self.(Shared_observed_addresses) self.(Shared_address_sequence)
    self.(Shared_connection_sequence) self.(Shared_relay_routes)
    self.(Shared_relay_session_ids) self.(Shared_relay_sessions) self.(Shared_dht)
    self.(Shared_metrics) self.(Shared_joins) self.(Shared_next_join).

Definition set_Shared_observed_addresses (v : list AddressObservation) (self : Shared) : Shared :=
    mkShared self.(Shared_peers) self.(Shared_connecting) self.(Shared_seen_hellos)
    self.(Shared_address_backoff) v self.(Shared_address_sequence)
    self.(Shared_connection_sequence) self.(Shared_relay_routes)
    self.(Shared_relay_session_ids) self.(Shared_relay_sessions) self.(Shared_dht)
    self.(Shared_metrics) self.(Shared_joins) self.(Shared_next_join).

Definition set_Shared_address_sequence (v : N) (self : Shared) : Shared :=
    mkShared self.(Shared_peers) self.(Shared_connecting) self.(Shared_seen_hellos)
    self.(Shared_address_backoff) self.(Shared_observed_addresses) v
    self.(Shared_connection_sequence) self.(Shared_relay_routes)
    self.(Shared_relay_session_ids) self.(Shared_relay_sessions) self.(Shared_dht)
    self.(Shared_metrics) self.(Shared_joins) self.(Shared_next_join).

Definition set_Shared_connection_sequence (v : N) (self : Shared) : Shared :=
    mkShared self.(Shared_peers) self.(Shared_connecting) self.(Shared_seen_hellos)
    self.(Shared_address_backoff) self.(Shared_observed_addresses)
    self.(Shared_address_sequence) v self.(Shared_relay_routes)
    self.(Shared_relay_session_ids) self.(Shared_relay_sessions) self.(Shared_dht)
    self.(Shared_metrics) self.(Shared_joins) self.(Shared_next_join).

Definition set_Shared_relay_routes (v : gmap NodeId NodeId) (self : Shared) : Shared :=
    mkShared self.(Shared_peers) self.(Shared_connecting) self.(Shared_seen_hellos)
    self.(Shared_address_backoff) self.(Shared_observed_addresses)
    self.(Shared_address_sequence) self.(Shared_connection_sequence) v
    self.(Shared_relay_session_ids) self.(Shared_relay_sessions) self.(Shared_dht)
    self.(Shared_metrics) self.(Shared_joins) self.(Shared_next_join).

Definition set_Shared_relay_session_ids (v : gmap (NodeId * NodeId) RequestId) (self : Shared) : Shared :=
    mkShared self.(Shared_peers) self.(Shared_connecting) self.(Shared_seen_hellos)
    self.(Shared_address_backoff) self.(Shared_observed_addresses)
    self.(Shared_address_sequence) self.(Shared_connection_sequence)
    self.(Shared_relay_routes) v self.(Shared_relay_sessions) self.(Shared_dht)
    self.(Shared_metrics) self.(Shared_joins) self.(Shared_next_join).

Definition set_Shared_relay_sessions (v : gmap RequestId RelaySession) (self : Shared) : Shared :=
    mkShared self.(Shared_peers) self.(Shared_connecting) self.(Shared_seen_hellos)
    self.(Shared_address_backoff) self.(Shared_observed_addresses)
    self.(Shared_address_sequence) self.(Shared_connection_sequence)
    self.(Shared_relay_routes) self.(Shared_relay_session_ids) v self.(Shared_dht)
    self.(Shared_metrics) self.(Shared_joins) self.(Shared_next_join).

Definition set_Shared_dht (v : DhtRuntime) (self : Shared) : Shared :=
    mkShared self.(Shared_peers) self.(Shared_connecting) self.(Shared_seen_hellos)
    self.(Shared_address_backoff) self.(Shared_observed_addresses)
    self.(Shared_address_sequence) self.(Shared_connection_sequence)
    self.(Shared_relay_routes) self.(Shared_relay_session_ids) self.(Shared_relay_sessions)
    v self.(Shared_metrics) self.(Shared_joins) self.(Shared_next_join).

Definition set_Shared_metrics (v : NetworkMetrics) (self : Shared) : Shared :=
    mkShared self.(Shared_peers) self.(Shared_connecting) self.(Shared_seen_hellos)
    self.(Shared_address_backoff) self.(Shared_observed_addresses)
    self.(Shared_address_sequence) self.(Shared_connection_sequence)
    self.(Shared_relay_routes) self.(Shared_relay_session_ids) self.(Shared_relay_sessions)
    self.(Shared_dht) v self.(Shared_joins) self.(Shared_next_join).

Definition set_Shared_joins (v : gmap N (option DhtResponseKind)) (self : Shared) : Shared :=
    mkShared self.(Shared_peers) self.(Shared_connecting) self.(Shared_seen_hellos)
    self.(Shared_address_backoff) self.(Shared_observed_addresses)
    self.(Shared_address_sequence) self.(Shared_connection_sequence)
    self.(Shared_relay_routes) self.(Shared_relay_session_ids) self.(Shared_relay_sessions)
    self.(Shared_dht) self.(Shared_metrics) v self.(Shared_next_join).

Definition set_Shared_next_join (v : N) (self : Shared) : Shared :=
    mkShared self.(Shared_peers) self.(Shared_connecting) self.(Shared_seen_hellos)
    self.(Shared_address_backoff) self.(Shared_observed_addresses)
    self.(Shared_address_sequence) self.(Shared_connection_sequence)
    self.(Shared_relay_routes) self.(Shared_relay_session_ids) self.(Shared_relay_sessions)
    self.(Shared_dht) self.(Shared_metrics) self.(Shared_joins) v.
