(* ===== verification/Peers.v ===== *)
(** * The critical sections of the network (crates/network/src/lib.rs)

    What the handlers of the network do to the shared state while they hold a lock: learning peers,
    address updates and key rotations; the budget of relay sessions; the admission of DHT requests;
    which of two connections to a peer stays.  Each is a function from the state to the result and
    the state afterwards; [Transport] composes them into tasks. *)

From Stdlib Require Import String ZArith NArith Lia.
From stdpp Require Import base tactics sets strings numbers list gmap.
From S2P Require Import Prelude OrdMap Types Validation SocketAddr Dht NetAddr Network.
Local Open Scope N_scope.
Local Open Scope rust_scope.

(** [map.len()] and [map.values().cloned().collect()] *)
Definition msize {K V} `{Countable K} (m : gmap K V) : N := N.of_nat (size m).

Definition values {K V} `{Countable K} (m : gmap K V) : list V := snd <$> map_to_list m.

(** ** Peers *)

(** [records.retain(|_, value| value.expires_at >= now)] *)
Definition retain_live (now : N) (records : gmap NodeId PeerRecord) : gmap NodeId PeerRecord :=
  filter (fun p => now <= p.2.(PeerRecord_expires_at)) records.

(** [announcements.retain(|node_id, _| live_ids.contains(node_id))] *)
Definition retain_known (records : gmap NodeId PeerRecord)
    (announcements : gmap NodeId SignedAnnouncement) : gmap NodeId SignedAnnouncement :=
  filter (fun p => p.1 ∈ dom records) announcements.

(** The checks of [upsert_peer] before it takes the lock: [None] when there is nothing to do. *)
Definition upsert_check (config : NetworkConfig) (local : NodeId) (now : N)
    (announcement : SignedAnnouncement) : result (option PeerRecord) NetworkError :=
  let record := announcement.(SignedAnnouncement_record) in
  if record.(PeerRecord_node_id) == local then Ok None
  else
    validated (PeerRecord_validate record) ;?
    if record.(PeerRecord_expires_at) <? now then Ok None
    else
      fail_if (negb (record_time_valid config now record))
        (NetworkError_PeerProtocol "peer announcement has an invalid lifetime") ;?
      if existsb (fun address => negb (learnable config address)) record.(PeerRecord_addresses)
      then Ok None
      else Ok (Some {| PeerRecord_node_id := record.(PeerRecord_node_id);
                       PeerRecord_public_key := record.(PeerRecord_public_key);
                       PeerRecord_addresses := dedupe_addresses record.(PeerRecord_addresses);
                       PeerRecord_capabilities := record.(PeerRecord_capabilities);
                       PeerRecord_announced_at := record.(PeerRecord_announced_at);
                       PeerRecord_expires_at := record.(PeerRecord_expires_at);
                       PeerRecord_observed_latency_ms := record.(PeerRecord_observed_latency_ms) |}).

(** The section of [upsert_peer] under the peers lock: the records to save and the channels to
    tell, when the record was taken in. *)
Definition upsert_record (now : N) (record : PeerRecord) (announcement : SignedAnnouncement)
    (peers : PeerState) : result (option (list PeerRecord * list N)) NetworkError * PeerState :=
  let id := record.(PeerRecord_node_id) in
  let previous := peers.(PeerState_records) !! id in
  if match previous with Some previous => negb (record_is_fresher previous record) | None => false end
  then (Ok None, peers)
  else
    let crowded := match previous with
                   | Some _ => false
                   | None => MAX_LEARNED_PEERS <=? msize peers.(PeerState_records)
                   end in
    let peers :=
      if crowded then
        let records := retain_live now peers.(PeerState_records) in
        set_PeerState_records records
          (set_PeerState_announcements (retain_known records peers.(PeerState_announcements)) peers)
      else peers in
    if crowded && (MAX_LEARNED_PEERS <=? msize peers.(PeerState_records))
    then (Err NetworkError_PeerTableFull, peers)
    else
      let changed := match peers.(PeerState_announcements) !! id with
                     | Some previous => previous != announcement
                     | None => true
                     end in
      let peers := set_PeerState_records (<[id := record]> peers.(PeerState_records)) peers in
      let peers := set_PeerState_announcements
                     (<[contact_id announcement := announcement]> peers.(PeerState_announcements)) peers in
      (Ok (Some (values peers.(PeerState_records),
                 if changed then values peers.(PeerState_senders) else [])), peers).

Definition with_addresses (record : PeerRecord) (addresses : list str) : PeerRecord :=
  {| PeerRecord_node_id := record.(PeerRecord_node_id);
     PeerRecord_public_key := record.(PeerRecord_public_key);
     PeerRecord_addresses := addresses;
     PeerRecord_capabilities := record.(PeerRecord_capabilities);
     PeerRecord_announced_at := record.(PeerRecord_announced_at);
     PeerRecord_expires_at := record.(PeerRecord_expires_at);
     PeerRecord_observed_latency_ms := record.(PeerRecord_observed_latency_ms) |}.

(** The addresses of an update that are live and that the policy lets through. *)
Definition update_addresses (config : NetworkConfig) (now : N) (update : AddressUpdate) : list str :=
  dedupe_addresses
    (List.filter (learnable config)
       (AddressRecord_address
          <$> List.filter (fun address => now <=? address.(AddressRecord_expires_at))
                update.(AddressUpdate_addresses))).

Definition upsert_address_update (config : NetworkConfig) (now : N) (update : AddressUpdate)
    (peers : PeerState) : option (list PeerRecord) * PeerState :=
  let id := update.(AddressUpdate_node_id) in
  if match peers.(PeerState_address_updates) !! id with
     | Some previous => update.(AddressUpdate_sequence) <=? previous.(AddressUpdate_sequence)
     | None => false
     end
  then (None, peers)
  else
    let addresses := update_addresses config now update in
    let peers := set_PeerState_records
      (alter (fun record => with_addresses record addresses) id peers.(PeerState_records)) peers in
    let peers := set_PeerState_address_updates
      (<[id := update]> peers.(PeerState_address_updates)) peers in
    (Some (values peers.(PeerState_records)), peers).

(** The channels of the connections that speak at least minor version [minor]. *)
Definition senders_speaking (minor : N) (peers : PeerState) : list N :=
  values (filter (fun p => minor <= default 0 (peers.(PeerState_versions) !! p.1))
            peers.(PeerState_senders)).

(** A rotation of the same identity to another one, at least as recent. *)
Definition supersedes (rotation previous : KeyRotation) : bool :=
  (previous.(KeyRotation_old_node_id) == rotation.(KeyRotation_old_node_id))
  && (rotation.(KeyRotation_sequence) <=? previous.(KeyRotation_sequence))
  && (previous.(KeyRotation_new_node_id) != rotation.(KeyRotation_new_node_id)).

Definition upsert_key_rotation (rotation : KeyRotation) (peers : PeerState)
    : result (option (list KeyRotation * list N)) NetworkError * PeerState :=
  if match peers.(PeerState_records) !! rotation.(KeyRotation_old_node_id) with
     | Some old_record => old_record.(PeerRecord_public_key) != rotation.(KeyRotation_old_public_key)
     | None => false
     end
  then (Err NetworkError_IdentityVerification, peers)
  else if existsb (supersedes rotation) (values peers.(PeerState_rotations)) then (Ok None, peers)
  else if match peers.(PeerState_rotations) !! rotation.(KeyRotation_new_node_id) with
          | Some previous => rotation.(KeyRotation_sequence) <=? previous.(KeyRotation_sequence)
          | None => false
          end
  then (Ok None, peers)
  else
    let peers := set_PeerState_rotations
      (<[rotation.(KeyRotation_new_node_id) := rotation]> peers.(PeerState_rotations)) peers in
    (Ok (Some (values peers.(PeerState_rotations), senders_speaking 1 peers)), peers).

(** The pruning of [maintenance_loop]: the records to save. *)
Definition prune_peers (now : N) (peers : PeerState) : PeerState :=
  let records := retain_live now peers.(PeerState_records) in
  set_PeerState_records records
    (set_PeerState_announcements
       (filter (fun p => now <= contact_expires_at p.2)
          (retain_known records peers.(PeerState_announcements))) peers).

(** ** Connections *)

(** The five removals by which a connection is forgotten. *)
Definition forget_link (id : NodeId) (peers : PeerState) : PeerState :=
  set_PeerState_senders (delete id peers.(PeerState_senders))
    (set_PeerState_connections (delete id peers.(PeerState_connections))
       (set_PeerState_connection_ids (delete id peers.(PeerState_connection_ids))
          (set_PeerState_connection_directions (delete id peers.(PeerState_connection_directions))
             (set_PeerState_versions (delete id peers.(PeerState_versions)) peers)))).

Definition install_link (id : NodeId) (sender connection connection_id : N) (outbound : bool)
    (minor : N) (peers : PeerState) : PeerState :=
  set_PeerState_senders (<[id := sender]> peers.(PeerState_senders))
    (set_PeerState_connections (<[id := connection]> peers.(PeerState_connections))
       (set_PeerState_connection_ids (<[id := connection_id]> peers.(PeerState_connection_ids))
          (set_PeerState_connection_directions
             (<[id := outbound]> peers.(PeerState_connection_directions))
             (set_PeerState_versions (<[id := minor]> peers.(PeerState_versions)) peers)))).

(** What the operating system says about channels and connections at one moment. *)
Record Liveness := mkLiveness {
  sender_closed : N -> bool;
  connection_closed : N -> bool
}.

Definition sender_open (l : Liveness) (peers : PeerState) (id : NodeId) : bool :=
  match peers.(PeerState_senders) !! id with
  | Some sender => negb (l.(sender_closed) sender)
  | None => false
  end.

Definition connection_open (l : Liveness) (peers : PeerState) (id : NodeId) : bool :=
  match peers.(PeerState_connections) !! id with
  | Some connection => negb (l.(connection_closed) connection)
  | None => false
  end.

(** The connection that the new one would duplicate: its number and protocol minor. *)
Definition existing_canonical (l : Liveness) (peers : PeerState) (id : NodeId)
    (outbound preferred_outbound : bool) : option (N * N) :=
  if negb (sender_open l peers id) || negb (connection_open l peers id)
     || (peers.(PeerState_connection_directions) !! id != Some preferred_outbound)
     || negb (Bool.eqb outbound preferred_outbound)
  then None
  else
    match peers.(PeerState_connection_ids) !! id with
    | Some connection_id => Some (connection_id, default 0 (peers.(PeerState_versions) !! id))
    | None => None
    end.

(** A connection that finished its handshake, as [connection_task] knows it. *)
Record Handshake := mkHandshake {
  Handshake_peer : PeerRecord;
  Handshake_sender : N;
  Handshake_connection : N;
  Handshake_connection_id : N;
  Handshake_outbound : bool;
  Handshake_minor : N
}.

Inductive Resolution :=
  | Resolution_Rejected
  | Resolution_Full (reason : str)
  | Resolution_Kept (replaced : option N) (records : list PeerRecord).

(** What happens to the connection already there: forgotten (with the connection to close), or
    kept, which rejects the new one. *)
Definition displace (l : Liveness) (preferred_outbound replace_stale_canonical : bool)
    (canonical : option (N * N)) (h : Handshake) (peers : PeerState)
    : bool * option N * PeerState :=
  let id := h.(Handshake_peer).(PeerRecord_node_id) in
  let forgotten := (false, peers.(PeerState_connections) !! id, forget_link id peers) in
  if sender_open l peers id then
    let replace_closed := negb (connection_open l peers id) || negb (sender_open l peers id) in
    let replacing_stale_canonical :=
      replace_stale_canonical
      && match canonical with
         | Some (connection_id, _) => peers.(PeerState_connection_ids) !! id == Some connection_id
         | None => false
         end in
    if replace_closed || replacing_stale_canonical then forgotten
    else
      let keep_new := match peers.(PeerState_connection_directions) !! id with
                      | Some existing => negb (Bool.eqb existing preferred_outbound)
                                         && Bool.eqb h.(Handshake_outbound) preferred_outbound
                      | None => false
                      end in
      if keep_new then forgotten else (true, None, peers)
  else (false, None, peers).

(** The record of the hello is kept when it is no older than the one known. *)
Definition refresh_record (peer : PeerRecord) (peers : PeerState) : PeerState :=
  let id := peer.(PeerRecord_node_id) in
  if match peers.(PeerState_records) !! id with
     | Some previous => record_is_fresher previous peer
     | None => true
     end
  then set_PeerState_records (<[id := peer]> peers.(PeerState_records)) peers
  else peers.

Definition resolve_connection (max_connections now : N) (l : Liveness)
    (preferred_outbound replace_stale_canonical : bool) (canonical : option (N * N))
    (h : Handshake) (peers : PeerState) : Resolution * PeerState :=
  let peer := h.(Handshake_peer) in
  let id := peer.(PeerRecord_node_id) in
  let '(reject, replaced, peers) :=
    displace l preferred_outbound replace_stale_canonical canonical h peers in
  if negb reject && (max_connections <=? msize peers.(PeerState_senders))
  then (Resolution_Full "connection limit", peers)
  else
    let crowded := negb reject && negb (bool_decide (is_Some (peers.(PeerState_records) !! id)))
                   && (MAX_LEARNED_PEERS <=? msize peers.(PeerState_records)) in
    let peers := if crowded
                 then set_PeerState_records (retain_live now peers.(PeerState_records)) peers
                 else peers in
    if crowded && (MAX_LEARNED_PEERS <=? msize peers.(PeerState_records))
    then (Resolution_Full "peer table full", peers)
    else
      let peers := refresh_record peer peers in
      if reject then (Resolution_Rejected, peers)
      else
        let peers := install_link id h.(Handshake_sender) h.(Handshake_connection)
                       h.(Handshake_connection_id) h.(Handshake_outbound) h.(Handshake_minor) peers in
        (Resolution_Kept replaced (values peers.(PeerState_records)), peers).

(** The removals at the end of [connection_task], when the connection is still the current one. *)
Definition close_link (id : NodeId) (connection_id : N) (peers : PeerState) : bool * PeerState :=
  if peers.(PeerState_connection_ids) !! id == Some connection_id
  then (true, forget_link id peers) else (false, peers).

(** ** Handshake nonces *)

(** The nonce set after a hello, or [None] when the nonce was there. *)
Definition admit_hello (id : NodeId) (nonce : list N) (seen : gset (NodeId * list N))
    : option (gset (NodeId * list N)) :=
  if bool_decide ((id, nonce) ∈ seen) then None
  else
    let seen := {[ (id, nonce) ]} ∪ seen in
    Some (if 4096 <? N.of_nat (size seen) then ∅ else seen).

(** ** Relay sessions *)

Definition relay_budget (config : NetworkConfig) (now : N) (envelope : RelayEnvelope)
    (sessions : gmap RequestId RelaySession)
    : result unit NetworkError * gmap RequestId RelaySession :=
  let id := envelope.(RelayEnvelope_session_id) in
  let sessions := filter (fun p => sat_sub now p.2.(RelaySession_last_activity) <= 60) sessions in
  match sessions !! id with
  | Some session =>
      if (session.(RelaySession_origin) != envelope.(RelayEnvelope_origin))
         || (session.(RelaySession_target) != envelope.(RelayEnvelope_target))
      then (Err (NetworkError_PeerProtocol "relay session identity changed"), sessions)
      else
        let bytes := sat_add u64_max session.(RelaySession_bytes)
                       (len envelope.(RelayEnvelope_payload)) in
        let sessions := <[id := {| RelaySession_origin := session.(RelaySession_origin);
                                   RelaySession_target := session.(RelaySession_target);
                                   RelaySession_bytes := bytes;
                                   RelaySession_last_activity := now |}]> sessions in
        if config.(NetworkConfig_relay_max_bytes) <? bytes
        then (Err (NetworkError_PeerProtocol "relay session byte limit exceeded"), sessions)
        else (Ok tt, sessions)
  | None =>
      if config.(NetworkConfig_relay_max_sessions) <=? msize sessions
      then (Err (NetworkError_PeerProtocol "relay session limit exceeded"), sessions)
      else (Ok tt, <[id := {| RelaySession_origin := envelope.(RelayEnvelope_origin);
                              RelaySession_target := envelope.(RelayEnvelope_target);
                              RelaySession_bytes := len envelope.(RelayEnvelope_payload);
                              RelaySession_last_activity := now |}]> sessions)
  end.

(** ** DHT requests *)

Inductive Admission :=
  | Admission_RateLimited
  | Admission_Duplicate
  | Admission_Admitted.

#[export] Instance Admission_eq_dec : EqDecision Admission.
Proof. solve_decision. Defined.

(** The budget of [peer] in the window of [now], after its reset. *)
Definition window_budget (now : N) (peer : NodeId) (windows : gmap NodeId (N * N)) : N * N :=
  let window := now / DHT_REQUEST_WINDOW_SECONDS in
  let budget := default (window, 0) (windows !! peer) in
  if budget.1 =? window then budget else (window, 0).

Definition admit_request (now : N) (peer : NodeId) (id : RequestId) (dht : DhtRuntime)
    : Admission * DhtRuntime :=
  let budget := window_budget now peer dht.(DhtRuntime_request_windows) in
  let over_budget := DHT_REQUESTS_PER_WINDOW <=? budget.2 in
  let budget := if over_budget then budget else (budget.1, sat_add u32_max budget.2 1) in
  let dht := set_DhtRuntime_request_windows
               (<[peer := budget]> dht.(DhtRuntime_request_windows)) dht in
  if over_budget then
    (Admission_RateLimited,
     set_DhtRuntime_rate_limited_requests
       (sat_add u64_max dht.(DhtRuntime_rate_limited_requests) 1) dht)
  else if bool_decide (id ∈ dht.(DhtRuntime_seen_requests)) then (Admission_Duplicate, dht)
  else
    let seen := {[ id ]} ∪ dht.(DhtRuntime_seen_requests) in
    let order := dht.(DhtRuntime_request_order) ++ [id] in
    let '(seen, order) :=
      if MAX_SEEN_DHT_REQUESTS <? len order then
        match order with
        | expired :: order => (seen ∖ {[ expired ]}, order)
        | [] => (seen, order)
        end
      else (seen, order) in
    (Admission_Admitted,
     set_DhtRuntime_seen_requests seen (set_DhtRuntime_request_order order dht)).

(** The counters of the runtime. *)
Definition count_invalid_record (dht : DhtRuntime) : DhtRuntime :=
  set_DhtRuntime_invalid_records (sat_add u64_max dht.(DhtRuntime_invalid_records) 1) dht.

Definition pending_limit (config : NetworkConfig) : N :=
  N.max (sat_mul usize_max config.(NetworkConfig_dht_k) 4) 16.

(** The section of [dht_rpc] that claims a slot for its request. *)
Definition claim_slot (config : NetworkConfig) (id : RequestId) (dht : DhtRuntime)
    : result unit NetworkError * DhtRuntime :=
  if pending_limit config <=? N.of_nat (size dht.(DhtRuntime_pending))
  then (Err (NetworkError_PeerProtocol "DHT request concurrency limit reached"), dht)
  else (Ok tt,
        set_DhtRuntime_pending ({[ id ]} ∪ dht.(DhtRuntime_pending))
          (set_DhtRuntime_rpc_sent (sat_add u64_max dht.(DhtRuntime_rpc_sent) 1) dht)).

Definition release_slot (id : RequestId) (dht : DhtRuntime) : DhtRuntime :=
  set_DhtRuntime_pending (dht.(DhtRuntime_pending) ∖ {[ id ]}) dht.

(** The section of [store_dht_record] that puts a verified record: the records to save. *)
Definition put_record (now : N) (record : DhtRecord) (dht : DhtRuntime)
    : bool * list DhtRecord * DhtRuntime :=
  let (accepted, store) := DhtStore_put dht.(DhtRuntime_store) record now in
  (accepted, DhtStore_get_records store now, set_DhtRuntime_store store dht).

(** ** Backoff *)

(** The state of an address after a failed attempt. *)
Definition backoff_failure (now : N) (state : option AddressBackoff) : AddressBackoff :=
  let failures := match state with Some state => state.(AddressBackoff_failures) | None => 0 end in
  let failures := N.min (sat_add u32_max failures 1) 8 in
  {| AddressBackoff_failures := failures;
     AddressBackoff_next_attempt :=
       sat_add u64_max now (N.min (N.min (2 ^ failures) u64_max) MAX_ADDRESS_RETRY_SECS) |}.
