(* ===== verification/Transport.v ===== *)
(** * Tasks of the network (crates/network/src/lib.rs)

    The async functions of the network crate as [Tasks]: the handlers of what a peer sends, DHT
    requests and lookups, sending with its relays and retries, dialing, the life of a connection
    and the maintenance pass.  The sections are those of [Peers]; every call of [now_secs] between
    them reads the clock again.  A connection is what QUIC gives: its handles, the address of the
    other end and the messages (or the read error) that will arrive on it. *)

From Stdlib Require Import String ZArith NArith Lia.
From stdpp Require Import base tactics sets strings numbers list gmap.
From S2P Require Import Prelude Tasks OrdMap Types Validation Codec SocketAddr Dht Trust FileSystem Storage NetAddr Network Peers.
Local Open Scope N_scope.
Local Open Scope rust_scope.

(** The timers of the crate: [authenticated_ping], the probe of a stale connection, [dht_rpc], the
    deadline of a lookup, and the first message of a connection. *)
Inductive Timer :=
  | Timer_Ping
  | Timer_Probe
  | Timer_Rpc
  | Timer_Lookup
  | Timer_Hello.

Inductive NetworkEvent :=
  | NetworkEvent_PeerConnected (peer : PeerRecord)
  | NetworkEvent_PeerDisconnected (peer : NodeId)
  | NetworkEvent_Message (peer : NodeId) (message : Message)
  | NetworkEvent_ProtocolError (peer : option NodeId).

(** A QUIC connection: [sender] is the channel that [connection_task] makes for it, [incoming] what
    [read_message] will return on its stream, [outgoing] what its writer will receive. *)
Record Connection := mkConnection {
  Connection_handle : N;
  Connection_sender : N;
  Connection_remote_address : SocketAddr;
  Connection_incoming : list (result Message NetworkError);
  Connection_outgoing : list Message
}.

(** What a section can ask of its surroundings. *)
Record Env := mkEnv {
  env_now : N;
  env_elapsed : Timer -> bool;
  env_liveness : Liveness;
  env_storage : option StorageError;
  env_random : list N;
  env_write : option str;
  env_dial : SocketAddr -> result Connection str
}.

Inductive Effect :=
  | Effect_Send (sender : N) (message : Message)
  | Effect_TrySend (sender : N) (message : Message)
  | Effect_Write (connection : N) (frame : list N)
  | Effect_Close (connection : N) (reason : str)
  | Effect_Dial (address : SocketAddr)
  | Effect_Event (event : NetworkEvent)
  | Effect_SavePeerRecords (records : list PeerRecord)
  | Effect_SaveKeyRotations (rotations : list KeyRotation)
  | Effect_SaveDhtRecords (records : list DhtRecord)
  | Effect_SaveDhtContacts (contacts : list SignedAnnouncement).

Notation task := (Task Env Shared Effect).
Notation net A := (task (result A NetworkError)).

(** ** Sections *)

Definition now_secs : task N := reading (fun e _ => e.(env_now)).

Definition random_bytes : task (list N) := reading (fun e _ => e.(env_random)).

Definition random_request_id : task RequestId := reading (fun e _ => mkRequestId e.(env_random)).

Definition elapsed (timer : Timer) (e : Env) : bool := e.(env_elapsed) timer.

Definition emit (effects : list Effect) : task unit := atomic (fun _ s => (tt, s, effects)).

Definition event (ev : NetworkEvent) : task unit := emit [Effect_Event ev].

(** A section under the peers lock. *)
Definition on_peers {A} (f : Env -> PeerState -> A * PeerState) : task A :=
  atomic (fun e s => let (a, peers) := f e s.(Shared_peers) in (a, set_Shared_peers peers s, [])).

Definition read_peers {A} (f : Env -> PeerState -> A) : task A :=
  reading (fun e s => f e s.(Shared_peers)).

(** [peers.lock().await.records.get(&node).map(|record| record.public_key)] *)
Definition read_public_key (node : NodeId) : task (option (list N)) :=
  read_peers (fun _ peers => option_map PeerRecord_public_key (peers.(PeerState_records) !! node)).

(** A section under the DHT lock. *)
Definition on_dht {A} (f : Env -> DhtRuntime -> A * DhtRuntime) : task A :=
  atomic (fun e s => let (a, dht) := f e s.(Shared_dht) in (a, set_Shared_dht dht s, [])).

Definition update_dht (f : DhtRuntime -> DhtRuntime) : task unit :=
  on_dht (fun _ dht => (tt, f dht)).

(** A save of [LocalStore]: it may fail. *)
Definition save (effect : Effect) : net unit :=
  atomic (fun e s =>
    (match e.(env_storage) with
     | None => Ok tt
     | Some error => Err (NetworkError_Storage error)
     end, s, [effect])).

(** [sender.send(message).await.map_err(|_| NetworkError::NotConnected)] *)
Definition channel_send (sender : N) (message : Message) : net unit :=
  atomic (fun e s =>
    if e.(env_liveness).(sender_closed) sender then (Err NetworkError_NotConnected, s, [])
    else (Ok tt, s, [Effect_Send sender message])).

Definition try_send_all (message : Message) (senders : list N) : task unit :=
  emit ((fun sender => Effect_TrySend sender message) <$> senders).

Definition count_metric (f : NetworkMetrics -> NetworkMetrics) : task unit :=
  updating (fun _ s => set_Shared_metrics (f s.(Shared_metrics)) s).

(** [fetch_add(1)] on the counters of the handle: the value before, wrapping at 64 bits. *)
Definition next_connection_id : task N :=
  atomic (fun _ s => let n := s.(Shared_connection_sequence) in
                     (n, set_Shared_connection_sequence (trunc u64_max (n + 1)) s, [])).

Definition next_address_sequence : task N :=
  atomic (fun _ s => let n := s.(Shared_address_sequence) in
                     (n, set_Shared_address_sequence (trunc u64_max (n + 1)) s, [])).

Definition protocol_error : task unit :=
  count_metric (fun m => set_NetworkMetrics_protocol_errors
                           (trunc u64_max (m.(NetworkMetrics_protocol_errors) + 1)) m).

(** [NetworkError::PeerProtocol(message)] *)
Definition refuse {A} (message : str) : net A := Done (Err (NetworkError_PeerProtocol message)).

Section Transport.
Context `{Blake3} `{Ed25519} `{Ed25519Signer} `{SignedPostcard} `{Postcard str}.
Context (config : NetworkConfig) (identity : Identity).
Notation local := identity.(Identity_node_id).

(** ** Handlers of announcements *)

Definition verify_hello (hello : Hello) : net N :=
  let! now := now_secs in
  try! _ := Done (hello_check config local now hello) in
  let record := hello.(Hello_record) in
  try! _ := atomic (fun _ s =>
    match admit_hello record.(PeerRecord_node_id) hello.(Hello_nonce) s.(Shared_seen_hellos) with
    | None => (Err (NetworkError_PeerProtocol "replayed hello nonce"), s, [])
    | Some seen => (Ok tt, set_Shared_seen_hellos seen s, [])
    end) in
  Done (Ok (N.min PROTOCOL_MINOR hello.(Hello_supported).(VersionRange_max_minor))).

Definition upsert_peer (announcement : SignedAnnouncement) : net unit :=
  let! now := now_secs in
  try! checked := Done (upsert_check config local now announcement) in
  match checked with
  | None => Done (Ok tt)
  | Some record =>
      try! taken := on_peers (fun e => upsert_record e.(env_now) record announcement) in
      match taken with
      | None => Done (Ok tt)
      | Some (records, senders) =>
          try! _ := save (Effect_SavePeerRecords records) in
          (if config.(NetworkConfig_dht_enabled) then
             let! authenticated := read_peers (fun _ peers =>
               bool_decide (is_Some (peers.(PeerState_senders) !! contact_id announcement))) in
             on_dht (fun e dht =>
               let table := (DhtTable_insert dht.(DhtRuntime_table) announcement e.(env_now)).2 in
               let table := if authenticated
                            then (DhtTable_protect table announcement e.(env_now)).2 else table in
               (tt, set_DhtRuntime_table table dht))
           else Done tt) ;!
          try_send_all (Message_Announcement announcement) senders ;!
          Done (Ok tt)
      end
  end.

Definition verify_address_update (update : AddressUpdate) : task bool :=
  if is_err (AddressUpdate_validate update) || (update.(AddressUpdate_node_id) == local)
  then Done false
  else
    let! public_key := read_public_key update.(AddressUpdate_node_id) in
    match public_key with
    | None => Done false
    | Some public_key =>
        Done (verifies public_key
          (address_signing_bytes update.(AddressUpdate_node_id) update.(AddressUpdate_sequence)
             update.(AddressUpdate_addresses)) update.(AddressUpdate_signature))
    end.

Definition take_address_update (update : AddressUpdate) : net unit :=
  let! records := on_peers (fun e => upsert_address_update config e.(env_now) update) in
  match records with
  | None => Done (Ok tt)
  | Some records => save (Effect_SavePeerRecords records)
  end.

Definition verify_address_observation (authenticated_peer : NodeId) (observation : AddressObservation)
    : task bool :=
  if is_err (AddressObservation_validate observation)
     || (observation.(AddressObservation_observed_by) != authenticated_peer)
     || (observation.(AddressObservation_subject) != local)
  then Done false
  else
    let! public_key := read_public_key authenticated_peer in
    match public_key with
    | None => Done false
    | Some public_key =>
        Done (verifies public_key
          (address_observation_signing_bytes observation.(AddressObservation_subject)
             observation.(AddressObservation_address) observation.(AddressObservation_observed_by)
             observation.(AddressObservation_expires_at) observation.(AddressObservation_nonce))
          observation.(AddressObservation_signature))
    end.

Definition take_observation (observation : AddressObservation) : task unit :=
  updating (fun e s => set_Shared_observed_addresses
    (record_observation e.(env_now) observation s.(Shared_observed_addresses)) s).

Definition take_key_rotation (rotation : KeyRotation) : net unit :=
  try! taken := on_peers (fun _ => upsert_key_rotation rotation) in
  match taken with
  | None => Done (Ok tt)
  | Some (rotations, senders) =>
      try! _ := save (Effect_SaveKeyRotations rotations) in
      try_send_all (Message_KeyRotation rotation) senders ;!
      Done (Ok tt)
  end.

(** ** Relayed messages *)

Definition handle_relay_envelope (authenticated_peer : NodeId) (envelope : RelayEnvelope)
    : net (option Message) :=
  try! _ := Done (validated (RelayEnvelope_validate envelope)) in
  try! bytes := Done (relay_signing_bytes envelope.(RelayEnvelope_session_id)
    envelope.(RelayEnvelope_origin) envelope.(RelayEnvelope_target) envelope.(RelayEnvelope_payload)) in
  if negb (Identity_verify envelope.(RelayEnvelope_origin_public_key) bytes
             envelope.(RelayEnvelope_signature))
  then Done (Err NetworkError_IdentityVerification)
  else if envelope.(RelayEnvelope_target) == local then
    (if authenticated_peer != envelope.(RelayEnvelope_origin)
     then updating (fun _ s => set_Shared_relay_routes
            (<[envelope.(RelayEnvelope_origin) := authenticated_peer]> s.(Shared_relay_routes)) s)
     else Done tt) ;!
    try! inner := Done (protocol (from_bytes envelope.(RelayEnvelope_payload))) in
    try! _ := Done (validated (Message_validate inner)) in
    match inner with
    | Message_RelayEnvelope _ => refuse "nested relay envelopes are not accepted"
    | _ => Done (Ok (Some inner))
    end
  else if negb config.(NetworkConfig_relay_enabled) then refuse "peer is not configured as a relay"
  else
    try! _ := atomic (fun e s =>
      let (r, sessions) := relay_budget config e.(env_now) envelope s.(Shared_relay_sessions) in
      (r, set_Shared_relay_sessions sessions s, [])) in
    spawn (let! sender := read_peers (fun _ peers =>
             peers.(PeerState_senders) !! envelope.(RelayEnvelope_target)) in
           match sender with
           | Some sender => ignore (channel_send sender (Message_RelayEnvelope envelope))
           | None => Done tt
           end) ;!
    Done (Ok None).

(** ** DHT requests and responses *)

(** The version that a peer negotiated suffices for the message. *)
Definition speaks (peers : PeerState) (node : NodeId) (message : Message) : bool :=
  message_required_minor message <=? default 0 (peers.(PeerState_versions) !! node).

Definition send_connected (node : NodeId) (message : Message) : net unit :=
  try! sender := read_peers (fun _ peers =>
    if negb (speaks peers node message)
    then Err (NetworkError_PeerProtocol "message requires a newer protocol minor")
    else ok_or (peers.(PeerState_senders) !! node) NetworkError_NotConnected) in
  channel_send sender message.

(** [receiver.await] *)
Definition receive (id : RequestId) : net DhtResponse :=
  Step (fun _ s =>
      let dht := s.(Shared_dht) in
      match dht.(DhtRuntime_delivered) !! id with
      | Some response =>
          Some (Ok response,
                set_Shared_dht (set_DhtRuntime_delivered (delete id dht.(DhtRuntime_delivered)) dht) s,
                [])
      | None =>
          if bool_decide (id ∈ dht.(DhtRuntime_pending)) then None
          else Some (Err NetworkError_NotConnected, s, [])
      end) Done.

Definition dht_rpc (peer : NodeId) (request : DhtRequestKind) : net DhtResponseKind :=
  let! request_id := random_request_id in
  try! _ := on_dht (fun _ => claim_slot config request_id) in
  let message := Message_DhtRequest {| DhtRequest_request_id := request_id;
                                       DhtRequest_origin := local;
                                       DhtRequest_request := request |} in
  let! sent := send_connected peer message in
  match sent with
  | Err error => update_dht (release_slot request_id) ;! Done (Err error)
  | Ok _ =>
      let! response := timeout (elapsed Timer_Rpc) (receive request_id) in
      match response with
      | Some (Ok response) => Done (Ok response.(DhtResponse_response))
      | Some (Err error) => Done (Err error)
      | None => update_dht (release_slot request_id) ;! refuse "DHT RPC timed out"
      end
  end.

Definition authenticated_ping (peer : NodeId) : net unit :=
  let! response := timeout (elapsed Timer_Ping) (dht_rpc peer DhtRequestKind_Ping) in
  match response with
  | None => refuse "authenticated ping timed out"
  | Some (Err error) => Done (Err error)
  | Some (Ok DhtResponseKind_Pong) => Done (Ok tt)
  | Some (Ok (DhtResponseKind_Error _ message)) => refuse message
  | Some (Ok _) => refuse "authenticated ping returned an unexpected response"
  end.

Definition store_dht_record (record : DhtRecord) : net bool :=
  let! now := now_secs in
  if negb (verify_dht_record record)
     || negb (dht_expiry_valid record now config.(NetworkConfig_peer_ttl_seconds))
  then update_dht count_invalid_record ;!
       refuse "DHT record signature, owner binding, or expiry is invalid"
  else
    let! put := on_dht (fun e dht => let '(accepted, records, dht) := put_record e.(env_now) record dht in
                                     ((accepted, records), dht)) in
    let (accepted, records) := put : bool * list DhtRecord in
    (if accepted
     then try! _ := save (Effect_SaveDhtRecords records) in Done (Ok true)
     else Done (Ok false)).

(** The answer to an admitted request. *)
Definition answer_request (authenticated_peer : NodeId) (request : DhtRequestKind)
    : net DhtResponseKind :=
  match request with
  | DhtRequestKind_Ping => Done (Ok DhtResponseKind_Pong)
  | DhtRequestKind_FindNode target =>
      on_dht (fun e dht =>
        (Ok (DhtResponseKind_Nodes
           (DhtTable_closest_diverse dht.(DhtRuntime_table) target
              (N.min config.(NetworkConfig_dht_k) MAX_DHT_CONTACTS) e.(env_now))), dht))
  | DhtRequestKind_Get namespace key =>
      on_dht (fun e dht =>
        let (records, store) :=
          DhtStore_get_diverse dht.(DhtRuntime_store) namespace key e.(env_now) MAX_DHT_RECORDS in
        (Ok (if is_empty records then DhtResponseKind_NotFound else DhtResponseKind_Records records),
         set_DhtRuntime_store store dht))
  | DhtRequestKind_Put record =>
      if (record.(DhtRecord_owner) != authenticated_peer) || negb (verify_dht_record record)
      then update_dht count_invalid_record ;!
           Done (Ok (DhtResponseKind_Error ErrorCode_Unauthorized
                       "DHT record owner signature is invalid"))
      else
        try! stored := store_dht_record record in
        Done (Ok (if stored : bool then DhtResponseKind_Stored
                  else DhtResponseKind_Error ErrorCode_Duplicate
                         "DHT record is stale or already stored"))
  end.

Definition handle_dht_request (authenticated_peer : NodeId) (request : DhtRequest) : net unit :=
  try! _ := Done (validated (DhtRequest_validate request)) in
  if request.(DhtRequest_origin) != authenticated_peer
  then Done (Err NetworkError_IdentityVerification)
  else
    let respond response :=
      send_connected authenticated_peer
        (Message_DhtResponse {| DhtResponse_request_id := request.(DhtRequest_request_id);
                                DhtResponse_responder := local;
                                DhtResponse_response := response |}) in
    let! admission := on_dht (fun e =>
      admit_request e.(env_now) authenticated_peer request.(DhtRequest_request_id)) in
    match admission with
    | Admission_RateLimited =>
        respond (DhtResponseKind_Error ErrorCode_Busy "DHT request rate limit reached")
    | Admission_Duplicate =>
        respond (DhtResponseKind_Error ErrorCode_Duplicate "DHT request ID was already processed")
    | Admission_Admitted =>
        try! response := answer_request authenticated_peer request.(DhtRequest_request) in
        respond response
    end.

Definition handle_dht_response (authenticated_peer : NodeId) (response : DhtResponse) : net unit :=
  try! _ := Done (validated (DhtResponse_validate response)) in
  if response.(DhtResponse_responder) != authenticated_peer
  then Done (Err NetworkError_IdentityVerification)
  else
    let id := response.(DhtResponse_request_id) in
    let! waiting := on_dht (fun _ dht =>
      (bool_decide (id ∈ dht.(DhtRuntime_pending)), release_slot id dht)) in
    (if waiting : bool then
       update_dht (fun dht => set_DhtRuntime_rpc_received
                                (sat_add u64_max dht.(DhtRuntime_rpc_received) 1) dht) ;!
       update_dht (fun dht => set_DhtRuntime_delivered
                                (<[id := response]> dht.(DhtRuntime_delivered)) dht)
     else Done tt) ;!
    Done (Ok tt).

(** ** Lookups *)

(** [tokio::spawn(t)]: the number of the join handle. *)
Definition spawn_joined (t : task (option DhtResponseKind)) : task N :=
  let! handle := atomic (fun _ s =>
    let n := s.(Shared_next_join) in (n, set_Shared_next_join (n + 1) s, [])) in
  spawn (let! r := t in
         updating (fun _ s => set_Shared_joins (<[handle := r]> s.(Shared_joins)) s)) ;!
  Done handle.

(** [timeout(remaining, dht_rpc(..)).await], where anything but a response counts as none. *)
Definition rpc_before_deadline (peer : NodeId) (request : DhtRequestKind)
    : task (option DhtResponseKind) :=
  let! r := timeout (elapsed Timer_Lookup) (dht_rpc peer request) in
  Done (match r with Some (Ok response) => Some response | _ => None end).

(** [handle.await] *)
Definition join_rpc (handle : N) : task (option DhtResponseKind) :=
  Step (fun _ s =>
      match s.(Shared_joins) !! handle with
      | Some r => Some (r, set_Shared_joins (delete handle s.(Shared_joins)) s, [])
      | None => None
      end) Done.

(** One spawned request per contact, until the deadline. *)
Fixpoint spawn_rpcs (request : DhtRequestKind) (contacts : list SignedAnnouncement) : task (list N) :=
  match contacts with
  | [] => Done []
  | contact :: contacts =>
      let! late := reading (fun e _ => elapsed Timer_Lookup e) in
      if late : bool then Done []
      else
        let! handle := spawn_joined (rpc_before_deadline (contact_id contact) request) in
        let! handles := spawn_rpcs request contacts in
        Done (handle :: handles)
  end.

(** The writes of [dht_publish]: each looks at the deadline when it runs. *)
Fixpoint spawn_writes (record : DhtRecord) (contacts : list SignedAnnouncement) : task (list N) :=
  match contacts with
  | [] => Done []
  | contact :: contacts =>
      let! handle := spawn_joined
        (let! late := reading (fun e _ => elapsed Timer_Lookup e) in
         if late : bool then Done None
         else rpc_before_deadline (contact_id contact) (DhtRequestKind_Put record)) in
      let! handles := spawn_writes record contacts in
      Done (handle :: handles)
  end.

(** [contact.record.node_id]'s distance to the target *)
Definition distance_to (target : DhtKey) (contact : SignedAnnouncement) : list N :=
  xor_distance (contact_id contact) (mkNodeId (DhtKey_0 target)).

Definition nearest_first (target : DhtKey) (contacts : list SignedAnnouncement)
    : list SignedAnnouncement :=
  sort_by_key (distance_to target) contacts.

(** [.iter().filter(|c| queried.insert(c.id)).take(alpha)]: nothing past the last one taken is
    looked at. *)
Fixpoint next_batch (alpha : nat) (contacts : list SignedAnnouncement) (queried : gset NodeId)
    : list SignedAnnouncement * gset NodeId :=
  match alpha, contacts with
  | S alpha', contact :: contacts =>
      if bool_decide (contact_id contact ∈ queried) then next_batch alpha contacts queried
      else
        let (batch, queried) := next_batch alpha' contacts ({[ contact_id contact ]} ∪ queried) in
        (contact :: batch, queried)
  | _, _ => ([], queried)
  end.

(** A contact of an answer that the lookup takes in. *)
Definition acceptable (now : N) (contact : SignedAnnouncement) : bool :=
  verify_announcement contact && (contact_id contact != local)
  && (now <=? contact_expires_at contact).

Fixpoint absorb (remote candidates : list SignedAnnouncement) (changed : bool)
    : net (list SignedAnnouncement * bool) :=
  match remote with
  | [] => Done (Ok (candidates, changed))
  | contact :: remote =>
      let! now := now_secs in
      if negb (acceptable now contact) then absorb remote candidates changed
      else
        try! _ := upsert_peer contact in
        if existsb (fun item => contact_id item == contact_id contact) candidates
        then absorb remote candidates changed
        else absorb remote (candidates ++ [contact]) true
  end.

Fixpoint absorb_all (handles : list N) (candidates : list SignedAnnouncement) (changed : bool)
    : net (list SignedAnnouncement * bool) :=
  match handles with
  | [] => Done (Ok (candidates, changed))
  | handle :: handles =>
      let! r := join_rpc handle in
      match r with
      | Some (DhtResponseKind_Nodes remote) =>
          try! state := absorb remote candidates changed in
          let (candidates, changed) := state : list SignedAnnouncement * bool in
          absorb_all handles candidates changed
      | _ => absorb_all handles candidates changed
      end
  end.

(** The candidates that a round keeps. *)
Definition shortlist (target : DhtKey) (candidates : list SignedAnnouncement)
    : list SignedAnnouncement :=
  truncate (N.max (sat_mul usize_max config.(NetworkConfig_dht_k) 2) config.(NetworkConfig_dht_alpha))
    (nearest_first target candidates).

Fixpoint find_rounds (rounds : nat) (target : DhtKey) (candidates : list SignedAnnouncement)
    (queried : gset NodeId) : net (list SignedAnnouncement) :=
  match rounds with
  | O => Done (Ok candidates)
  | S rounds =>
      let! late := reading (fun e _ => elapsed Timer_Lookup e) in
      if late : bool then Done (Ok candidates)
      else
        let candidates := shortlist target candidates in
        let (batch, queried) :=
          next_batch (N.to_nat config.(NetworkConfig_dht_alpha)) candidates queried in
        if is_empty batch then Done (Ok candidates)
        else
          let! handles := spawn_rpcs (DhtRequestKind_FindNode target) batch in
          try! state := absorb_all handles candidates false in
          let (candidates, changed) := state : list SignedAnnouncement * bool in
          if changed then find_rounds rounds target candidates queried else Done (Ok candidates)
  end.

Definition dht_find_node (target : DhtKey) : net (list SignedAnnouncement) :=
  if negb config.(NetworkConfig_dht_enabled)
  then Done (Err (NetworkError_InvalidConfig "DHT is disabled"))
  else
    let! candidates := reading (fun e s =>
      DhtTable_closest_diverse s.(Shared_dht).(DhtRuntime_table) target
        config.(NetworkConfig_dht_k) e.(env_now)) in
    try! candidates := find_rounds 8 target candidates ∅ in
    Done (Ok (truncate config.(NetworkConfig_dht_k) (nearest_first target candidates))).

(** [unwrap_or_default()] *)
Definition or_default {A} (t : net (list A)) : task (list A) :=
  let! r := t in Done (match r with Ok v => v | Err _ => [] end).

Definition dht_publish (namespace : DhtNamespace) (name : str) (value : list N)
    (ttl_seconds sequence : N) : net DhtRecord :=
  if negb config.(NetworkConfig_dht_enabled) || (slen name =? 0) || (ttl_seconds =? 0)
     || (sequence =? 0)
  then Done (Err (NetworkError_InvalidConfig "DHT is disabled or publish parameters are invalid"))
  else
    let! now := now_secs in
    let unsigned := {| DhtRecord_namespace := namespace;
                       DhtRecord_key := DhtKey_for_name namespace name;
                       DhtRecord_owner := local;
                       DhtRecord_owner_public_key := identity.(Identity_public_key);
                       DhtRecord_sequence := sequence;
                       DhtRecord_expires_at := sat_add u64_max now ttl_seconds;
                       DhtRecord_value := value;
                       DhtRecord_signature := [] |} in
    try! bytes := Done (dht_record_signing_bytes unsigned) in
    let record := {| DhtRecord_namespace := namespace;
                     DhtRecord_key := unsigned.(DhtRecord_key);
                     DhtRecord_owner := local;
                     DhtRecord_owner_public_key := identity.(Identity_public_key);
                     DhtRecord_sequence := sequence;
                     DhtRecord_expires_at := unsigned.(DhtRecord_expires_at);
                     DhtRecord_value := value;
                     DhtRecord_signature := Identity_sign identity bytes |} in
    try! stored := store_dht_record record in
    if negb stored then refuse "DHT publish sequence is stale or already stored"
    else
      let! contacts := or_default (dht_find_node record.(DhtRecord_key)) in
      let! handles := spawn_writes record (take (N.to_nat config.(NetworkConfig_dht_k)) contacts) in
      for_task (fun handle => ignore (join_rpc handle)) handles ;!
      Done (Ok record).

Fixpoint absorb_records (namespace : DhtNamespace) (key : DhtKey) (remote records : list DhtRecord)
    : net (list DhtRecord) :=
  match remote with
  | [] => Done (Ok records)
  | record :: remote =>
      if verify_dht_record record && (record.(DhtRecord_namespace) == namespace)
         && (record.(DhtRecord_key) == key)
      then
        try! _ := store_dht_record record in
        if existsb (fun existing => (existing.(DhtRecord_owner) == record.(DhtRecord_owner))
                                    && (existing.(DhtRecord_sequence) =? record.(DhtRecord_sequence)))
             records
        then absorb_records namespace key remote records
        else absorb_records namespace key remote (records ++ [record])
      else absorb_records namespace key remote records
  end.

Fixpoint absorb_reads (namespace : DhtNamespace) (key : DhtKey) (handles : list N)
    (records : list DhtRecord) : net (list DhtRecord) :=
  match handles with
  | [] => Done (Ok records)
  | handle :: handles =>
      let! r := join_rpc handle in
      match r with
      | Some (DhtResponseKind_Records remote) =>
          try! records := absorb_records namespace key remote records in
          absorb_reads namespace key handles records
      | _ => absorb_reads namespace key handles records
      end
  end.

(** What [dht_lookup] returns of the records it gathered. *)
Definition lookup_result (now : N) (records : list DhtRecord) : list DhtRecord :=
  dedup_by_key (fun record => (record.(DhtRecord_owner), record.(DhtRecord_sequence)))
    (sort_by_key (fun record => (NodeId_0 record.(DhtRecord_owner), mkReverse record.(DhtRecord_sequence)))
       (List.filter (record_live now) records)).

Definition dht_lookup (namespace : DhtNamespace) (name : str) : net (list DhtRecord) :=
  if negb config.(NetworkConfig_dht_enabled) || (slen name =? 0)
  then Done (Err (NetworkError_InvalidConfig "DHT is disabled or lookup name is empty"))
  else
    let key := DhtKey_for_name namespace name in
    let! records := on_dht (fun e dht =>
      let (records, store) :=
        DhtStore_get_diverse dht.(DhtRuntime_store) namespace key e.(env_now) MAX_DHT_RECORDS in
      (records, set_DhtRuntime_store store
                  (set_DhtRuntime_lookups (sat_add u64_max dht.(DhtRuntime_lookups) 1) dht))) in
    try! contacts := dht_find_node key in
    let! handles := spawn_rpcs (DhtRequestKind_Get namespace key)
                      (take (N.to_nat config.(NetworkConfig_dht_k)) contacts) in
    try! records := absorb_reads namespace key handles records in
    let! now := now_secs in
    let records := lookup_result now records in
    (if is_empty records then Done tt
     else update_dht (fun dht => set_DhtRuntime_lookup_successes
                                   (sat_add u64_max dht.(DhtRuntime_lookup_successes) 1) dht)) ;!
    Done (Ok records).
End Transport.
