(* ===== verification/Connections.v ===== *)
(** * Connections of the network (crates/network/src/lib.rs)

    The life of a connection from handshake to clean-up, dialing with backoff, sending directly or
    through a relay, the maintenance pass, and the state a node starts with; then the pool of all
    the tasks that a node may run. *)

From Stdlib Require Import String ZArith NArith Lia.
From stdpp Require Import base tactics sets strings numbers list gmap.
From S2P Require Import Prelude Tasks OrdMap Types Validation Codec SocketAddr Dht Trust FileSystem Storage NetAddr Network Peers Transport.
Local Open Scope N_scope.
Local Open Scope rust_scope.

(** [sleep(..).await] *)
Definition sleep : task unit := reading (fun _ _ => tt).

(** What a message does to the loop that read it. *)
Inductive Control :=
  | Control_Continue
  | Control_Break
  | Control_Deliver.

Section Connections.
Context `{Blake3} `{Ed25519} `{Ed25519Signer} `{SignedPostcard} `{Postcard str}.
Context (config : NetworkConfig) (identity : Identity).
Notation local := identity.(Identity_node_id).

(** ** Frames on a stream *)

Definition write_message (connection : N) (message : Message) (protocol_minor : N) : net unit :=
  try! frame := Done (map_err NetworkError_Codec
    (encode_message_at_version message config.(NetworkConfig_max_frame_size) PROTOCOL_MAJOR
       protocol_minor)) in
  atomic (fun e s =>
    match e.(env_write) with
    | Some error => (Err (NetworkError_Quic error), s, [])
    | None =>
        let m := s.(Shared_metrics) in
        (Ok tt,
         set_Shared_metrics (set_NetworkMetrics_bytes_sent
           (trunc u64_max (m.(NetworkMetrics_bytes_sent) + len frame)) m) s,
         [Effect_Write connection frame])
    end).

(** [stream.read_exact] of [n] bytes, on a stream that ends after [bytes]. *)
Definition read_exact (n : N) (bytes : list N) : result (list N * list N) NetworkError :=
  if len bytes <? n then Err (NetworkError_Quic "stream finished early")
  else Ok (take (N.to_nat n) bytes, drop (N.to_nat n) bytes).

(** [read_message]: the message and the rest of the stream. *)
Definition read_message (bytes : list N) : result (Message * list N) NetworkError :=
  let max_frame_size := config.(NetworkConfig_max_frame_size) in
  let? head := read_exact FRAME_HEADER_SIZE bytes in
  let (header_bytes, bytes) := head : list N * list N in
  let? header := map_err NetworkError_Codec (FrameHeader_decode header_bytes max_frame_size) in
  let? body := read_exact header.(FrameHeader_payload_len) bytes in
  let (payload, bytes) := body : list N * list N in
  let? message := map_err NetworkError_Codec (decode_frame (header_bytes ++ payload) max_frame_size) in
  Ok (message, bytes).

(** The writer task of a connection: it ends at the first message it cannot write. *)
Fixpoint writer (connection protocol_minor : N) (outgoing : list Message) : task unit :=
  match outgoing with
  | [] => forever
  | message :: outgoing =>
      let! written := write_message connection message protocol_minor in
      match written with
      | Ok _ => writer connection protocol_minor outgoing
      | Err _ => Done tt
      end
  end.

(** ** Messages of an authenticated connection *)

Definition learn (announcement : SignedAnnouncement) : net unit :=
  if verify_announcement announcement && (contact_id announcement != local)
  then upsert_peer config identity announcement else Done (Ok tt).

(** [for item in xs { body(item).await?; }] *)
Fixpoint try_each {A} (body : A -> net unit) (xs : list A) : net unit :=
  match xs with
  | [] => Done (Ok tt)
  | x :: xs => try! _ := body x in try_each body xs
  end.

Definition log_error (t : net unit) : task unit :=
  let! r := t in
  match r with
  | Ok _ => Done tt
  | Err _ => protocol_error
  end.

Definition dispatch (peer message_peer : NodeId) (sender protocol_minor : N) (message : Message)
    : net Control :=
  let deliver t := try! _ := t in Done (Ok Control_Deliver) in
  match message with
  | Message_DhtRequest request =>
      if 2 <=? protocol_minor then
        log_error (handle_dht_request config identity message_peer request) ;!
        Done (Ok Control_Continue)
      else Done (Ok Control_Deliver)
  | Message_DhtResponse response =>
      if 2 <=? protocol_minor then
        log_error (handle_dht_response message_peer response) ;! Done (Ok Control_Continue)
      else Done (Ok Control_Deliver)
  | Message_PeerExchange exchange => deliver (try_each learn exchange.(PeerExchange_peers))
  | Message_Announcement item => deliver (learn item)
  | Message_AddressUpdate update =>
      let! ok := verify_address_update identity update in
      if ok : bool then deliver (take_address_update config update) else Done (Ok Control_Deliver)
  | Message_AddressObservation observation =>
      let! ok := verify_address_observation identity peer observation in
      (if ok : bool then take_observation observation else Done tt) ;! Done (Ok Control_Deliver)
  | Message_KeyRotation rotation =>
      let! now := now_secs in
      if verify_key_rotation now rotation && (rotation.(KeyRotation_new_node_id) == message_peer)
      then deliver (take_key_rotation rotation) else Done (Ok Control_Deliver)
  | Message_Ping ping => deliver (channel_send sender (Message_Pong ping))
  | Message_JobRequest request =>
      if request.(JobRequest_origin) != message_peer then
        try! _ := channel_send sender (Message_Error
          {| ProtocolError_code := ErrorCode_Unauthorized;
             ProtocolError_message := "job origin does not match authenticated peer" |}) in
        Done (Ok Control_Continue)
      else Done (Ok Control_Deliver)
  | Message_Goodbye _ => Done (Ok Control_Break)
  | _ => Done (Ok Control_Deliver)
  end.

Definition report_error (peer : NodeId) : task unit :=
  protocol_error ;! event (NetworkEvent_ProtocolError (Some peer)).

(** A message, its relay envelope removed, from the peer that sent it. *)
Definition process_message (peer message_peer : NodeId) (sender protocol_minor : N)
    (message : Message) : net Control :=
  try! control := dispatch peer message_peer sender protocol_minor message in
  match control with
  | Control_Deliver =>
      event (NetworkEvent_Message message_peer message) ;! Done (Ok Control_Continue)
  | control => Done (Ok control)
  end.

(** One message of the read loop; an error leaves [connection_task] at once. *)
Definition handle_message (peer : NodeId) (sender protocol_minor : N) (message : Message)
    : net Control :=
  match message with
  | Message_RelayEnvelope envelope =>
      let! r := handle_relay_envelope config identity peer envelope in
      match r with
      | Ok (Some inner) =>
          process_message peer envelope.(RelayEnvelope_origin) sender protocol_minor inner
      | Ok None => Done (Ok Control_Continue)
      | Err _ => report_error peer ;! Done (Ok Control_Break)
      end
  | message => process_message peer peer sender protocol_minor message
  end.

(** The read loop, over what the stream delivers; a silent stream leaves it waiting. *)
Fixpoint read_loop (peer : NodeId) (sender protocol_minor : N)
    (incoming : list (result Message NetworkError)) : net unit :=
  match incoming with
  | [] => forever
  | Err _ :: _ => report_error peer ;! Done (Ok tt)
  | Ok message :: incoming =>
      try! control := handle_message peer sender protocol_minor message in
      match control with
      | Control_Break => Done (Ok tt)
      | _ => read_loop peer sender protocol_minor incoming
      end
  end.

Definition clean_up (peer : NodeId) (connection_id : N) : task unit :=
  let! is_current := on_peers (fun _ => close_link peer connection_id) in
  if is_current : bool then
    updating (fun _ s => set_Shared_relay_routes
      (filter (fun p => p.1 <> peer /\ p.2 <> peer) s.(Shared_relay_routes)) s) ;!
    updating (fun _ s => set_Shared_relay_session_ids
      (filter (fun p => p.1.1 <> peer /\ p.1.2 <> peer) s.(Shared_relay_session_ids)) s) ;!
    event (NetworkEvent_PeerDisconnected peer)
  else Done tt.

(** ** Handshake *)

(** The peers told to a new connection. *)
Definition exchange_peers (known : list SignedAnnouncement) (own : SignedAnnouncement)
    : list SignedAnnouncement :=
  truncate MAX_PEERS
    (dedup_by_key contact_id
       (sort_by_key (fun item => NodeId_0 (contact_id item)) (known ++ [own]))).

(** The first message must be a hello in time. *)
Definition first_hello (incoming : list (result Message NetworkError))
    : net (Hello * list (result Message NetworkError)) :=
  let! first := timeout (elapsed Timer_Hello)
    (match incoming with
     | [] => forever
     | first :: rest => let! _ := sleep in Done (first, rest)
     end) in
  match first with
  | None => refuse "hello timeout"
  | Some (Err error, _) => Done (Err error)
  | Some (Ok (Message_Hello hello), rest) => Done (Ok (hello, rest))
  | Some (Ok _, _) => refuse "first message was not hello"
  end.

(** The probe of a canonical connection that may be dead: only the outer timer counts. *)
Definition probe (peer : NodeId) (canonical : option (N * N)) : task bool :=
  match canonical with
  | Some (_, minor) =>
      if 2 <=? minor then
        let! r := timeout (elapsed Timer_Probe) (authenticated_ping config identity peer) in
        Done (match r with None => true | Some _ => false end)
      else Done false
  | None => Done false
  end.

(** [handle.node_id() < peer.node_id] *)
Definition prefers_outbound (peer : NodeId) : bool := ltb (NodeId_0 local) (NodeId_0 peer).

(** What a kept connection is told first. *)
Definition greet (sender protocol_minor : N) (peer : NodeId) (remote : SocketAddr) : net unit :=
  let! now := now_secs in
  try! announcement := Done (sign_announcement identity (local_record config identity now)) in
  try! _ := channel_send sender (Message_Announcement announcement) in
  if 1 <=? protocol_minor then
    let! addresses := reading (fun e s =>
      address_records config e.(env_now) s.(Shared_observed_addresses)) in
    let! sequence := next_address_sequence in
    try! update := Done (sign_address_update identity addresses sequence) in
    try! _ := channel_send sender (Message_AddressUpdate update) in
    let! now := now_secs in
    let! nonce := random_bytes in
    try! _ := match sign_address_observation config identity now nonce peer remote with
              | Ok observation => channel_send sender (Message_AddressObservation observation)
              | Err _ => Done (Ok tt)
              end in
    match identity.(Identity_rotation) with
    | Some rotation => channel_send sender (Message_KeyRotation rotation)
    | None => Done (Ok tt)
    end
  else Done (Ok tt).

(** The life of a connection that stays: an error of the read loop leaves it without [clean_up]. *)
Definition serve (h : Handshake) (incoming : list (result Message NetworkError)) : net unit :=
  let peer := h.(Handshake_peer).(PeerRecord_node_id) in
  try! _ := read_loop peer h.(Handshake_sender) h.(Handshake_minor) incoming in
  clean_up peer h.(Handshake_connection_id) ;!
  Done (Ok tt).

(** A connection after its handshake: whether it stays, and its life if it does. *)
Definition run_connection (h : Handshake) (remote : SocketAddr)
    (incoming : list (result Message NetworkError)) (outgoing : list Message) : net unit :=
  let peer := h.(Handshake_peer).(PeerRecord_node_id) in
  let sender := h.(Handshake_sender) in
  let connection := h.(Handshake_connection) in
  let preferred_outbound := prefers_outbound peer in
  let! canonical := read_peers (fun e peers =>
    existing_canonical e.(env_liveness) peers peer h.(Handshake_outbound) preferred_outbound) in
  let! replace_stale_canonical := probe peer canonical in
  let! resolution := on_peers (fun e =>
    resolve_connection config.(NetworkConfig_max_connections) e.(env_now) e.(env_liveness)
      preferred_outbound replace_stale_canonical canonical h) in
  match resolution with
  | Resolution_Full reason =>
      emit [Effect_Close connection reason] ;! Done (Err NetworkError_PeerTableFull)
  | Resolution_Rejected => emit [Effect_Close connection "duplicate connection"] ;! Done (Ok tt)
  | Resolution_Kept replaced records =>
      try! _ := save (Effect_SavePeerRecords records) in
      emit match replaced with Some old => [Effect_Close old "replaced"] | None => [] end ;!
      event (NetworkEvent_PeerConnected h.(Handshake_peer)) ;!
      try! _ := greet sender h.(Handshake_minor) peer remote in
      spawn (writer connection h.(Handshake_minor) outgoing) ;!
      serve h incoming
  end.

Definition connection_task (connection : Connection) (outbound : bool) : net unit :=
  let handle := connection.(Connection_handle) in
  let! now := now_secs in
  let! nonce := random_bytes in
  try! hello := Done (make_hello config identity now nonce) in
  try! _ := write_message handle (Message_Hello hello) 0 in
  try! first := first_hello connection.(Connection_incoming) in
  let (remote_hello, incoming) := first : Hello * list (result Message NetworkError) in
  try! protocol_minor := verify_hello config identity remote_hello in
  let! known := read_peers (fun e peers =>
    List.filter (live e.(env_now)) (values peers.(PeerState_announcements))) in
  let! now := now_secs in
  try! own := Done (sign_announcement identity (local_record config identity now)) in
  let exchange := mkPeerExchange (exchange_peers known own) in
  try! _ := write_message handle (Message_PeerExchange exchange) protocol_minor in
  let! connection_id := next_connection_id in
  run_connection
    {| Handshake_peer := remote_hello.(Hello_record);
       Handshake_sender := connection.(Connection_sender);
       Handshake_connection := handle;
       Handshake_connection_id := connection_id;
       Handshake_outbound := outbound;
       Handshake_minor := protocol_minor |}
    connection.(Connection_remote_address) incoming connection.(Connection_outgoing).

(** One turn of [accept_loop]. *)
Definition accept (connection : Connection) : task unit :=
  let! connected := read_peers (fun _ peers => msize peers.(PeerState_senders)) in
  if config.(NetworkConfig_max_connections) <=? connected then
    count_metric (fun m => set_NetworkMetrics_rejected_connections
                             (trunc u64_max (m.(NetworkMetrics_rejected_connections) + 1)) m) ;!
    emit [Effect_Close connection.(Connection_handle) "connection limit"]
  else spawn (ignore (connection_task connection false)).

(** ** Dialing *)

Definition outbound_connection (address : SocketAddr) : net unit :=
  try! connection := atomic (fun e s =>
    (map_err NetworkError_Quic (e.(env_dial) address), s, [Effect_Dial address])) in
  connection_task connection true.

Definition is_configured (address : str) : bool :=
  contains address config.(NetworkConfig_bootstrap)
  || contains address config.(NetworkConfig_relay_addresses).

Definition already_connected (l : Liveness) (peers : PeerState) (address : str) : bool :=
  existsb (fun p : NodeId * PeerRecord =>
      contains address p.2.(PeerRecord_addresses) && connection_open l peers p.1
      && sender_open l peers p.1)
    (map_to_list peers.(PeerState_records)).

Definition connect_address (address : str) : net unit :=
  try! parsed := Done (ok_or (SocketAddr_parse address)
    (NetworkError_InvalidConfig ("invalid peer address: " ++ addr_parse_error)%string)) in
  if negb (is_configured address) && negb (address_allowed config parsed AddressSource_Learned)
  then Done (Err (NetworkError_InvalidConfig "peer address is not allowed by local address policy"))
  else
    let! connected := read_peers (fun e peers => already_connected e.(env_liveness) peers address) in
    if connected : bool then Done (Ok tt)
    else
      let key := SocketAddr_to_string parsed in
      let! inserted := atomic (fun _ s =>
        if bool_decide (key ∈ s.(Shared_connecting)) then (false, s, [])
        else (true, set_Shared_connecting ({[ key ]} ∪ s.(Shared_connecting)) s, [])) in
      if negb inserted then Done (Ok tt)
      else
        let! waiting := atomic (fun e s =>
          match s.(Shared_address_backoff) !! key with
          | Some state =>
              if e.(env_now) <? state.(AddressBackoff_next_attempt)
              then (true, set_Shared_connecting (s.(Shared_connecting) ∖ {[ key ]}) s, [])
              else (false, s, [])
          | None => (false, s, [])
          end) in
        if waiting : bool then Done (Ok tt)
        else
          spawn (let! r := outbound_connection parsed in
                 updating (fun _ s => set_Shared_connecting (s.(Shared_connecting) ∖ {[ key ]}) s) ;!
                 updating (fun e s => set_Shared_address_backoff
                   (match r with
                    | Ok _ => delete key s.(Shared_address_backoff)
                    | Err _ => <[key := backoff_failure e.(env_now) (s.(Shared_address_backoff) !! key)]>
                                 s.(Shared_address_backoff)
                    end) s)) ;!
          Done (Ok tt).

(** ** Sending *)

(** Polls the senders [attempts] times for a channel to [node]. *)
Fixpoint poll_sender (attempts : nat) (node : NodeId) : task (option N) :=
  match attempts with
  | O => Done None
  | S attempts =>
      let! found := read_peers (fun _ peers => peers.(PeerState_senders) !! node) in
      match found with
      | Some sender => Done (Some sender)
      | None => sleep ;! poll_sender attempts node
      end
  end.

Definition peer_addresses (peers : PeerState) (node : NodeId) : result (list str) NetworkError :=
  match peers.(PeerState_records) !! node with
  | Some record => Ok (preferred_addresses config record.(PeerRecord_addresses))
  | None => Err NetworkError_NotConnected
  end.

Definition old_minor : NetworkError := NetworkError_PeerProtocol "message requires protocol minor 1".

Definition send_direct (node : NodeId) (message : Message) : net unit :=
  try! sender := read_peers (fun _ peers =>
    if negb (speaks peers node message) then Err old_minor
    else Ok (peers.(PeerState_senders) !! node)) in
  try! sender := match sender with
    | Some sender => Done (Ok (Some sender))
    | None =>
        try! addresses := read_peers (fun _ peers => peer_addresses peers node) in
        for_task (fun address => ignore (connect_address address)) addresses ;!
        let! found := poll_sender 50 node in Done (Ok found)
    end in
  match sender with
  | None => Done (Err NetworkError_NotConnected)
  | Some sender =>
      try! _ := read_peers (fun _ peers =>
        if negb (speaks peers node message) then Err old_minor else Ok tt) in
      channel_send sender message
  end.

Definition direct_connection_available (node : NodeId) : task bool :=
  read_peers (fun e peers =>
    sender_open e.(env_liveness) peers node && connection_open e.(env_liveness) peers node).

Definition relay_candidates : task (list NodeId) :=
  read_peers (fun e peers =>
    map fst (List.filter (fun p : NodeId * PeerRecord =>
        existsb (fun capability => capability.(Capability_name) == "network.relay"%string)
          p.2.(PeerRecord_capabilities)
        && connection_open e.(env_liveness) peers p.1 && sender_open e.(env_liveness) peers p.1
        && (p.1 != local))
      (map_to_list peers.(PeerState_records)))).

Definition send_via_relay (relay target : NodeId) (message : Message) : net unit :=
  if relay == target then Done (Err NetworkError_NotConnected)
  else
    try! _ := Done (validated (Message_validate message)) in
    try! payload := Done (protocol (to_allocvec message)) in
    if MAX_RELAY_PAYLOAD <? len payload then refuse "message is too large for relay transport"
    else
      let! session_id := atomic (fun e s =>
        match s.(Shared_relay_session_ids) !! (relay, target) with
        | Some id => (id, s, [])
        | None =>
            let id := mkRequestId e.(env_random) in
            (id, set_Shared_relay_session_ids
                   (<[(relay, target) := id]> s.(Shared_relay_session_ids)) s, [])
        end) in
      try! bytes := Done (relay_signing_bytes session_id local target payload) in
      let envelope := {| RelayEnvelope_session_id := session_id;
                         RelayEnvelope_origin := local;
                         RelayEnvelope_origin_public_key := identity.(Identity_public_key);
                         RelayEnvelope_target := target;
                         RelayEnvelope_payload := payload;
                         RelayEnvelope_signature := Identity_sign identity bytes |} in
      try! sender := read_peers (fun e peers =>
        if negb (speaks peers relay message) then Err old_minor
        else
          let? sender := ok_or (peers.(PeerState_senders) !! relay) NetworkError_NotConnected in
          fail_if (e.(env_liveness).(sender_closed) sender
                   || match peers.(PeerState_connections) !! relay with
                      | Some connection => e.(env_liveness).(connection_closed) connection
                      | None => false
                      end) NetworkError_NotConnected ;?
          Ok sender) in
      channel_send sender (Message_RelayEnvelope envelope).

Definition remember_route (target relay : NodeId) : task unit :=
  updating (fun _ s => set_Shared_relay_routes (<[target := relay]> s.(Shared_relay_routes)) s).

(** The loop over relays: true when one of them took the message. *)
Fixpoint try_relays (relays : list NodeId) (target : NodeId) (message : Message) : task bool :=
  match relays with
  | [] => Done false
  | relay :: relays =>
      let! sent := send_via_relay relay target message in
      match sent with
      | Ok _ => remember_route target relay ;! Done true
      | Err _ => try_relays relays target message
      end
  end.

(** The polling of [send_via_relay_for_target] when no relay was known. *)
Fixpoint poll_relays (attempts : nat) (target : NodeId) (message : Message) : task bool :=
  match attempts with
  | O => Done false
  | S attempts =>
      let! candidates := relay_candidates in
      let! sent := try_relays (take 1 candidates) target message in
      if sent : bool then Done true else sleep ;! poll_relays attempts target message
  end.

Definition send_via_relay_for_target (target : NodeId) (message : Message) : net unit :=
  let! preferred := reading (fun _ s => s.(Shared_relay_routes) !! target) in
  let! known := relay_candidates in
  let first := match preferred with Some relay => [relay] | None => [] end in
  let candidates := first ++ List.filter (fun relay => negb (contains relay first)) known in
  if is_empty candidates then
    for_task (fun address => ignore (connect_address address)) config.(NetworkConfig_relay_addresses) ;!
    let! sent := poll_relays 20 target message in
    Done (if sent : bool then Ok tt else Err NetworkError_NotConnected)
  else
    let! sent := try_relays candidates target message in
    if sent : bool then Done (Ok tt)
    else
      updating (fun _ s => set_Shared_relay_routes (delete target s.(Shared_relay_routes)) s) ;!
      Done (Err NetworkError_NotConnected).

(** [cond && attempt.await.is_ok() => return Ok(())] *)
Definition attempt (cond : bool) (t : net unit) (otherwise : net unit) : net unit :=
  if cond then let! r := t in match r with Ok _ => Done (Ok tt) | Err _ => otherwise end
  else otherwise.

Definition send_to (node : NodeId) (message : Message) : net unit :=
  let relay_allowed := match message with Message_RelayEnvelope _ => false | _ => true end in
  let! available := if relay_allowed then direct_connection_available node else Done false in
  attempt available (send_direct node message)
  (attempt (config.(NetworkConfig_prefer_relay) && relay_allowed)
     (send_via_relay_for_target node message)
  (let! route := reading (fun _ s => s.(Shared_relay_routes) !! node) in
   attempt (match route with Some _ => relay_allowed | None => false end)
     (match route with
      | Some relay => send_via_relay relay node message
      | None => Done (Err NetworkError_NotConnected)
      end)
  (attempt true (send_direct node message)
   (if relay_allowed then send_via_relay_for_target node message
    else Done (Err NetworkError_NotConnected))))).

Fixpoint reconnect_attempts (todo done : nat) (node : NodeId) (addresses : list str) : net unit :=
  match todo with
  | O => Done (Err NetworkError_NotConnected)
  | S todo =>
      let! connected := read_peers (fun _ peers =>
        bool_decide (is_Some (peers.(PeerState_senders) !! node))) in
      if connected : bool then Done (Ok tt)
      else
        (if (done mod 5 =? 0)%nat
         then for_task (fun address =>
                updating (fun _ s => set_Shared_address_backoff
                  (delete address s.(Shared_address_backoff)) s) ;!
                ignore (connect_address address)) addresses
         else Done tt) ;!
        sleep ;! reconnect_attempts todo (S done) node addresses
  end.

Definition reconnect_peer (node : NodeId) : net unit :=
  try! state := on_peers (fun _ peers =>
    let connection := peers.(PeerState_connections) !! node in
    let forgotten := forget_link node peers in
    (let? addresses := peer_addresses forgotten node in Ok (addresses, connection), forgotten)) in
  let (addresses, connection) := state : list str * option N in
  emit match connection with Some old => [Effect_Close old "reconnect"] | None => [] end ;!
  reconnect_attempts 100 0 node addresses.

(** ** Maintenance *)

(** The addresses that a pass tries: all bootstrap addresses, and the first learned ones while hole
    punching is enabled. *)
Definition maintenance_addresses (peers : PeerState) : list str :=
  let learned := concat ((fun record => preferred_addresses config record.(PeerRecord_addresses))
      <$> List.filter (fun record => record.(PeerRecord_node_id) != local)
            (values peers.(PeerState_records))) in
  config.(NetworkConfig_bootstrap)
  ++ (if config.(NetworkConfig_hole_punch_enabled)
      then take (N.to_nat config.(NetworkConfig_hole_punch_max_attempts)) learned else []).

(** Re-advertising a record of this node to the contacts nearest to its key. *)
Definition readvertise (record : DhtRecord) : task unit :=
  let! contacts := or_default (dht_find_node config identity record.(DhtRecord_key)) in
  for_task (fun contact =>
      ignore (dht_rpc config identity (contact_id contact) (DhtRequestKind_Put record)))
    (take (N.to_nat config.(NetworkConfig_dht_k))
       (List.filter (fun contact => contact_id contact != local) contacts)).

Definition maintenance_pass : task unit :=
  let! addresses := read_peers (fun _ => maintenance_addresses) in
  for_task (fun address => ignore (connect_address address)) addresses ;!
  let! address_update :=
    (if config.(NetworkConfig_hole_punch_enabled) then
       let! addresses := reading (fun e s =>
         address_records config e.(env_now) s.(Shared_observed_addresses)) in
       let! sequence := next_address_sequence in
       Done (match sign_address_update identity addresses sequence with
             | Ok update => Some update
             | Err _ => None
             end)
     else Done None) in
  let! now := now_secs in
  let! dht_state := on_dht (fun _ dht =>
    let table := DhtTable_expire dht.(DhtRuntime_table) now in
    let store := DhtStore_expire dht.(DhtRuntime_store) now in
    ((DhtStore_get_records store now, DhtTable_all_contacts table now),
     set_DhtRuntime_table table (set_DhtRuntime_store store dht))) in
  let (dht_records, dht_contacts) := dht_state : list DhtRecord * list SignedAnnouncement in
  ignore (save (Effect_SaveDhtRecords dht_records)) ;!
  ignore (save (Effect_SaveDhtContacts dht_contacts)) ;!
  for_task readvertise
    (take 16 (List.filter (fun record => record.(DhtRecord_owner) == local) dht_records)) ;!
  let! peers := on_peers (fun _ peers =>
    let peers := prune_peers now peers in (peers, peers)) in
  match address_update with
  | Some update => try_send_all (Message_AddressUpdate update) (senders_speaking 1 peers)
  | None => Done tt
  end ;!
  ignore (save (Effect_SavePeerRecords (values peers.(PeerState_records)))).

(** ** Start *)

(** [items.into_iter().map(|item| (key(item), item)).collect()]: a later item wins. *)
Definition collect {A} (key : A -> NodeId) (items : list A) : gmap NodeId A :=
  fold_left (fun m item => <[key item := item]> m) items ∅.

(** What the store had kept. *)
Record Loaded := mkLoaded {
  Loaded_peer_records : list PeerRecord;
  Loaded_key_rotations : list KeyRotation;
  Loaded_dht_records : list DhtRecord;
  Loaded_dht_contacts : list SignedAnnouncement
}.

Definition start_state (now : N) (loaded : Loaded) : Shared :=
  let records := collect PeerRecord_node_id
    (List.filter (fun record => record.(PeerRecord_node_id) != local) loaded.(Loaded_peer_records)) in
  let store := fold_left (fun store record =>
      if verify_dht_record record
         && dht_expiry_valid record now config.(NetworkConfig_peer_ttl_seconds)
      then (DhtStore_put store record now).2 else store)
    loaded.(Loaded_dht_records)
    (DhtStore_new config.(NetworkConfig_dht_max_records) DEFAULT_MAX_RECORDS_PER_KEY) in
  let table := fold_left (fun table contact =>
      if verify_announcement contact then (DhtTable_insert table contact now).2 else table)
    loaded.(Loaded_dht_contacts)
    (DhtTable_new local config.(NetworkConfig_dht_k) DEFAULT_REPLACEMENT_CACHE) in
  {| Shared_peers :=
       {| PeerState_records := records;
          PeerState_announcements := ∅;
          PeerState_address_updates := ∅;
          PeerState_rotations := collect KeyRotation_new_node_id loaded.(Loaded_key_rotations);
          PeerState_senders := ∅;
          PeerState_connections := ∅;
          PeerState_connection_ids := ∅;
          PeerState_connection_directions := ∅;
          PeerState_versions := ∅ |};
     Shared_connecting := ∅;
     Shared_seen_hellos := ∅;
     Shared_address_backoff := ∅;
     Shared_observed_addresses := [];
     Shared_address_sequence := 1;
     Shared_connection_sequence := 1;
     Shared_relay_routes := ∅;
     Shared_relay_session_ids := ∅;
     Shared_relay_sessions := ∅;
     Shared_dht :=
       {| DhtRuntime_table := table;
          DhtRuntime_store := store;
          DhtRuntime_pending := ∅;
          DhtRuntime_delivered := ∅;
          DhtRuntime_seen_requests := ∅;
          DhtRuntime_request_order := [];
          DhtRuntime_rpc_sent := 0;
          DhtRuntime_rpc_received := 0;
          DhtRuntime_lookups := 0;
          DhtRuntime_lookup_successes := 0;
          DhtRuntime_invalid_records := 0;
          DhtRuntime_request_windows := ∅;
          DhtRuntime_rate_limited_requests := 0 |};
     Shared_metrics := mkNetworkMetrics 0 0 0 0;
     Shared_joins := ∅;
     Shared_next_join := 0 |}.

(** ** The tasks of a node

    A node may at any time accept a connection, run its maintenance pass, or be called through the
    public functions of its handle. *)
Inductive entry : task unit -> Prop :=
  | entry_accept connection : entry (accept connection)
  | entry_maintenance : entry maintenance_pass
  | entry_connect address : entry (ignore (connect_address address))
  | entry_send node message : entry (ignore (send_to node message))
  | entry_send_direct node message : entry (ignore (send_direct node message))
  | entry_reconnect node : entry (ignore (reconnect_peer node))
  | entry_ping node : entry (ignore (authenticated_ping config identity node))
  | entry_publish namespace name value ttl sequence :
      entry (ignore (dht_publish config identity namespace name value ttl sequence))
  | entry_lookup namespace name : entry (ignore (dht_lookup config identity namespace name))
  | entry_find_node target : entry (ignore (dht_find_node config identity target)).

(** The states and effects of a node that started from what its store had kept. *)
Definition node_reaches (now : N) (loaded : Loaded) (out : list Effect) (s : Shared) : Prop :=
  exists ts, pool_steps entry (start_state now loaded, []) out (s, ts).
End Connections.
