(* ===== verification/NetworkFacts.v ===== *)
(** * What holds in every state of a node

    An invariant of the state shared by the tasks of [Transport] and [Connections], a guarantee
    about how it moves, and a condition on effects, proved of every section and so of every
    interleaving of all the tasks a node may run: what a node holds about a peer was signed by that
    peer, sequences of updates and rotations never go back, tables and queues stay within their
    limits, and only configured addresses or those the policy allows are dialed. *)

From Stdlib Require Import String ZArith NArith Lia.
From stdpp Require Import base tactics sets strings numbers list gmap.
From S2P Require Import Prelude Tasks OrdMap Types Validation Codec SocketAddr Dht DhtFacts Trust FileSystem Storage NetAddr Network Peers Transport Connections.
Local Open Scope N_scope.
Local Open Scope rust_scope.

(** ** The contacts and records that the DHT holds *)
Section Held.
Context (P : SignedAnnouncement -> Prop).

Lemma Forall_sublist {A} (Q : A -> Prop) xs ys : Forall Q xs -> ys `sublist_of` xs -> Forall Q ys.
Proof. rewrite !Forall_forall. eauto using elem_of_sublist. Qed.

Lemma Forall_replace_first {A} (Q : A -> Prop) p new xs :
  Forall Q xs -> Q new -> Forall Q (replace_first p new xs).
Proof. induction 1; cbn; intros Hn; [constructor|]. destruct (p x); constructor; auto. Qed.

Lemma Forall_refresh c items b items' :
  refresh c items = Some (b, items') -> Forall P items -> P c -> Forall P items'.
Proof.
  unfold refresh. destruct (List.find _ _); [|done].
  destruct (fresher _ _); intros [= <- <-] Hi Hc; [by apply Forall_replace_first | done].
Qed.

Definition held (self : DhtTable) : Prop :=
  Forall (Forall P) self.(DhtTable_buckets) /\ Forall P self.(DhtTable_replacements)
  /\ Forall P self.(DhtTable_protected).

Lemma held_contacts self : held self <-> Forall P (table_contacts self).
Proof.
  unfold held, table_contacts. rewrite !Forall_app. split; intros (Hb & Hr & Hp); split_and!; try done.
  - apply Forall_forall. intros c (b & Hb' & Hc)%elem_of_concat.
    by apply (proj1 (Forall_forall _ _) (proj1 (Forall_forall _ _) Hb b Hb')).
  - apply Forall_forall. intros b Hb'. apply Forall_forall. intros c Hc.
    apply (proj1 (Forall_forall _ _) Hb), elem_of_concat. eauto.
Qed.

Lemma held_new local k limit : held (DhtTable_new local k limit).
Proof.
  unfold held, DhtTable_new. cbn [DhtTable_buckets DhtTable_replacements DhtTable_protected].
  split_and!; [by apply Forall_replicate | constructor..].
Qed.

Lemma held_bucket self i b : held self -> Forall P b -> held (with_bucket self i b).
Proof. intros (Hb & Hr & Hp) H. split_and!; cbn; [by apply Forall_insert | done..]. Qed.

Lemma held_nth self i : held self -> Forall P (nth i self.(DhtTable_buckets) []).
Proof.
  intros (Hb & _). destruct (nth_in_or_default i self.(DhtTable_buckets) []) as [Hin| ->]; [|constructor].
  rewrite Forall_forall in Hb. by apply Hb, list_elem_of_In.
Qed.

Lemma held_add_replacement self c : held self -> P c -> held (add_replacement self c).2.
Proof.
  intros (Hb & Hr & Hp) Hc. unfold add_replacement.
  destruct (refresh c _) as [[b items]|] eqn:Href; cbn.
  - split_and!; cbn; [done| |done]. by apply (Forall_refresh _ _ _ _ Href).
  - destruct (_ =? 0); [done|]. split_and!; cbn; [done| |done].
    assert (Forall P (self.(DhtTable_replacements) ++ [c])).
    { apply Forall_app. split; [done | by apply Forall_singleton]. }
    destruct (_ <? _); [by apply Forall_drop | done].
Qed.

Lemma held_insert self c now : held self -> P c -> held (DhtTable_insert self c now).2.
Proof.
  intros Hs Hc. pose proof Hs as (Hb & Hr & Hp). unfold DhtTable_insert.
  destruct (_ || _); [done|]. set (i := N.to_nat _). pose proof (held_nth self i Hs) as Hn.
  destruct (refresh c self.(DhtTable_protected)) as [[b items]|] eqn:Href.
  { split_and!; cbn; [done..|]. by apply (Forall_refresh _ _ _ _ Href). }
  destruct (refresh c (nth i _ _)) as [[b items]|] eqn:Hrb.
  { apply held_bucket; [done|]. by apply (Forall_refresh _ _ _ _ Hrb). }
  repeat (dmatch; try by apply held_add_replacement); apply held_bucket; try done.
  - apply Forall_app. split; [done | by apply Forall_singleton].
  - by apply Forall_insert.
Qed.

Lemma held_protect self c now : held self -> P c -> held (DhtTable_protect self c now).2.
Proof.
  intros Hs Hc. pose proof Hs as (Hb & Hr & Hp). unfold DhtTable_protect.
  destruct (_ || _); [done|].
  destruct (refresh c _) as [[b items]|] eqn:Href; split_and!; cbn; try done.
  - by apply (Forall_refresh _ _ _ _ Href).
  - apply Forall_app. split; [|by apply Forall_singleton].
    destruct (_ <=? _); [|done]. apply Forall_drop. by rewrite sort_by_key_perm.
Qed.

Lemma Forall_filter_b {A} (Q : A -> Prop) p xs : Forall Q xs -> Forall Q (List.filter p xs).
Proof. intros Hx. eapply Forall_sublist; [exact Hx | apply filter_sublist]. Qed.

Lemma held_expire self now : held self -> held (DhtTable_expire self now).
Proof.
  intros (Hb & Hr & Hp). split_and!; cbn; try by apply Forall_filter_b.
  apply Forall_fmap. eapply Forall_impl; [done|]. intros b. apply Forall_filter_b.
Qed.

Lemma closest_held self target limit now :
  held self -> Forall P (DhtTable_closest self target limit now).
Proof.
  intros Hs%held_contacts. unfold DhtTable_closest. rewrite truncate_take. apply Forall_take.
  eapply Forall_sublist; [|apply dedup_by_key_sublist].
  rewrite sort_by_key_perm. by apply Forall_filter_b.
Qed.
End Held.

Section Stored.
Context (P : DhtRecord -> Prop).

(** Every record of the store. *)
Definition stored (self : DhtStore) : Prop :=
  forall k r, r ∈ values_at k self.(DhtStore_records) -> P r.

Lemma stored_new max_records max_per_key : stored (DhtStore_new max_records max_per_key).
Proof. intros k r. unfold values_at. cbn. by intros ?%not_elem_of_nil. Qed.

Lemma stored_put self r now : store_ok self -> stored self -> P r -> stored (DhtStore_put self r now).2.
Proof. intros Hok Hs Hr k x Hx. apply put_entries in Hx as [Hx|(-> & _)]; eauto. Qed.

Lemma stored_get self namespace key now : stored self -> stored (DhtStore_get self namespace key now).2.
Proof.
  intros Hs. unfold DhtStore_get. destruct (bt_get _ _) as [vs|] eqn:Hg; [|done].
  intros k r. cbn [snd with_records DhtStore_records]. destruct (decide (k = (namespace, key))) as [->|Hne].
  - rewrite values_at_insert_eq. intros [Hr _]%elem_of_filter_b.
    apply (Hs (namespace, key)). unfold values_at. by rewrite Hg.
  - rewrite values_at_insert_ne by done. apply Hs.
Qed.

Lemma stored_get_diverse self namespace key now limit :
  stored self -> stored (DhtStore_get_diverse self namespace key now limit).2.
Proof.
  intros Hs. unfold DhtStore_get_diverse. pose proof (stored_get self namespace key now Hs) as Hg.
  by destruct (DhtStore_get self namespace key now).
Qed.

Lemma stored_expire self now : store_ok self -> stored self -> stored (DhtStore_expire self now).
Proof.
  intros [Hok _ _] Hs k r. cbn [DhtStore_expire with_records DhtStore_records]. rewrite values_at_expire by exact (proj1 Hok).
  intros [Hr _]%elem_of_filter_b. by eapply Hs.
Qed.

Lemma stored_records self now : store_ok self -> stored self -> Forall P (DhtStore_get_records self now).
Proof.
  intros [[Hwf _] _ _] Hs. apply Forall_filter_b, Forall_forall. intros r (vs & Hvs & Hr)%elem_of_concat.
  apply list_elem_of_fmap in Hvs as ([k vs'] & -> & Hin). apply (Hs k). unfold values_at.
  by rewrite (bt_elem_of_get k vs' _ Hwf Hin).
Qed.
End Stored.

(** ** The invariant *)
Lemma Forall_values {K V} `{Countable K} (P : V -> Prop) (m : gmap K V) :
  map_Forall (fun _ => P) m -> Forall P (values m).
Proof.
  intros Hm. unfold values. apply Forall_fmap, Forall_forall. intros [k v] Hin%elem_of_map_to_list.
  by apply (Hm k v).
Qed.

Lemma map_Forall_filter_sub {K V} `{Countable K} (P : K -> V -> Prop) (Q : K * V -> Prop)
    `{forall x, Decision (Q x)} (m : gmap K V) : map_Forall P m -> map_Forall P (filter Q m).
Proof. intros Hm k v [Hk _]%map_lookup_filter_Some. by apply Hm. Qed.

(** The set of seen request ids and the queue of them hold the same ids, each once. *)
Definition seen_ok (dht : DhtRuntime) : Prop :=
  dht.(DhtRuntime_seen_requests) = list_to_set dht.(DhtRuntime_request_order)
  /\ NoDup dht.(DhtRuntime_request_order)
  /\ len dht.(DhtRuntime_request_order) <= MAX_SEEN_DHT_REQUESTS.

Lemma admit_request_seen now peer id dht : seen_ok dht -> seen_ok (admit_request now peer id dht).2.
Proof.
  intros (He & Hnd & Hlen). unfold admit_request.
  destruct (_ <=? _); [by split|]. case_bool_decide as Hin; [by split|]. cbn in Hin.
  rewrite He, elem_of_list_to_set in Hin.
  set (order := _ ++ [id]).
  assert (Hnd' : NoDup order).
  { apply NoDup_app. split_and!; [done| |apply NoDup_singleton].
    intros x Hx ->%list_elem_of_singleton. done. }
  assert (Hset : {[id]} ∪ dht.(DhtRuntime_seen_requests) = list_to_set order :> gset RequestId).
  { rewrite He. subst order. rewrite list_to_set_app_L. cbn. set_solver. }
  assert (Hlen' : len order = len dht.(DhtRuntime_request_order) + 1).
  { subst order. by rewrite len_app, len_cons. }
  cbn [DhtRuntime_seen_requests DhtRuntime_request_order set_DhtRuntime_request_windows].
  change (DhtRuntime_request_order _ ++ [id]) with order. rewrite Hset. clearbody order.
  unfold seen_ok. destruct (_ <? _) eqn:Hl; breflect; [|by split_and!].
  destruct order as [|x order]; [unfold len in *; cbn in *; lia|].
  apply NoDup_cons in Hnd' as [Hx Hnd']. rewrite len_cons in Hlen'. cbn.
  split_and!; [|done|lia].
  apply set_eq. intros y. rewrite elem_of_difference, elem_of_union, !elem_of_singleton, !elem_of_list_to_set.
  split; [tauto|]. intros Hy. split; [by right|]. by intros ->.
Qed.

Lemma admit_request_rest now peer id dht :
  let dht' := (admit_request now peer id dht).2 in
  dht'.(DhtRuntime_table) = dht.(DhtRuntime_table) /\ dht'.(DhtRuntime_store) = dht.(DhtRuntime_store)
  /\ dht'.(DhtRuntime_pending) = dht.(DhtRuntime_pending).
Proof. cbn zeta. unfold admit_request. repeat case_match; by simplify_eq. Qed.

Section Invariant.
Context `{Blake3} `{!Blake3Laws} `{Ed25519} `{Ed25519Signer} `{SignedPostcard}.
Context (config : NetworkConfig) (local : NodeId).

(** The identity of a record is the digest of its key. *)
Definition bound (record : PeerRecord) : Prop :=
  record.(PeerRecord_node_id) = NodeId_from_public_key record.(PeerRecord_public_key).

(** The update was signed with the key of the identity it speaks for. *)
Definition own_update (update : AddressUpdate) : Prop :=
  exists public_key,
    update.(AddressUpdate_node_id) = NodeId_from_public_key public_key
    /\ verifies public_key
         (address_signing_bytes update.(AddressUpdate_node_id) update.(AddressUpdate_sequence)
            update.(AddressUpdate_addresses)) update.(AddressUpdate_signature) = true.

(** Both identities of the rotation are those of its keys, and both keys signed it. *)
Definition rotation_signed (rotation : KeyRotation) : Prop :=
  KeyRotation_validate rotation = Ok tt
  /\ verifies rotation.(KeyRotation_old_public_key) (rotation_signing_bytes rotation)
       rotation.(KeyRotation_old_signature) = true
  /\ verifies rotation.(KeyRotation_new_public_key) (rotation_signing_bytes rotation)
       rotation.(KeyRotation_new_signature) = true.

(** The five maps of a connection have the same peers. *)
Definition links_agree (peers : PeerState) : Prop :=
  dom peers.(PeerState_connections) = dom peers.(PeerState_senders)
  /\ dom peers.(PeerState_connection_ids) = dom peers.(PeerState_senders)
  /\ dom peers.(PeerState_connection_directions) = dom peers.(PeerState_senders)
  /\ dom peers.(PeerState_versions) = dom peers.(PeerState_senders).

Record peers_ok (peers : PeerState) : Prop := {
  records_bound : map_Forall (fun id record => record.(PeerRecord_node_id) = id /\ bound record)
    peers.(PeerState_records);
  announcements_signed : map_Forall (fun id announcement =>
    contact_id announcement = id /\ verify_announcement announcement = true)
    peers.(PeerState_announcements);
  updates_signed : map_Forall (fun id update => update.(AddressUpdate_node_id) = id /\ own_update update)
    peers.(PeerState_address_updates);
  rotations_signed : map_Forall (fun id rotation =>
    rotation.(KeyRotation_new_node_id) = id /\ rotation_signed rotation) peers.(PeerState_rotations);
  links_agreed : links_agree peers;
  links_bounded : msize peers.(PeerState_senders) <= config.(NetworkConfig_max_connections)
}.

Record dht_ok (dht : DhtRuntime) : Prop := {
  dht_table_reachable : table_reachable local config.(NetworkConfig_dht_k) DEFAULT_REPLACEMENT_CACHE
    dht.(DhtRuntime_table);
  dht_contacts_signed : held (fun contact => verify_announcement contact = true)
    dht.(DhtRuntime_table);
  dht_store_reachable : store_reachable config.(NetworkConfig_dht_max_records)
    DEFAULT_MAX_RECORDS_PER_KEY dht.(DhtRuntime_store);
  dht_records_signed : stored (fun record => verify_dht_record record = true) dht.(DhtRuntime_store);
  dht_pending_bounded : N.of_nat (size dht.(DhtRuntime_pending)) <= pending_limit config;
  dht_seen_exact : seen_ok dht
}.

(** Every entry of [m] is in [m'] with at least its sequence. *)
Definition advances {V} (sequence : V -> N) (m m' : gmap NodeId V) : Prop :=
  forall id v, m !! id = Some v -> exists v', m' !! id = Some v' /\ sequence v <= sequence v'.

Definition peers_progress (peers peers' : PeerState) : Prop :=
  advances AddressUpdate_sequence peers.(PeerState_address_updates) peers'.(PeerState_address_updates)
  /\ advances KeyRotation_sequence peers.(PeerState_rotations) peers'.(PeerState_rotations).

#[export] Instance advances_preorder {V} (sequence : V -> N) : PreOrder (advances sequence).
Proof.
  split.
  - intros m id v Hv. exists v. split; [done | lia].
  - intros m1 m2 m3 H12 H23 id v Hv. destruct (H12 id v Hv) as (v2 & Hv2 & Hle).
    destruct (H23 id v2 Hv2) as (v3 & Hv3 & Hle'). exists v3. split; [done | lia].
Qed.

#[export] Instance peers_progress_preorder : PreOrder peers_progress.
Proof.
  split.
  - intros p. split; reflexivity.
  - intros p1 p2 p3 [] []. split; by etransitivity.
Qed.

Lemma advances_insert {V} (sequence : V -> N) (m : gmap NodeId V) id v :
  (forall old, m !! id = Some old -> sequence old <= sequence v) ->
  advances sequence m (<[id := v]> m).
Proof.
  intros Hle id' old Ho. destruct (decide (id = id')) as [->|Hne].
  - exists v. rewrite lookup_insert_eq. auto.
  - exists old. rewrite lookup_insert_ne by done. split; [done | lia].
Qed.

Lemma announcement_bound announcement :
  verify_announcement announcement = true -> bound announcement.(SignedAnnouncement_record).
Proof. unfold verify_announcement, bound. destruct (bool_decide _) eqn:Hb; [|done]. by breflect. Qed.

Lemma key_id_wf public_key : id_wf (NodeId_from_public_key public_key).
Proof. split; cbn; [apply blake3_length | apply blake3_bytes]. Qed.

Lemma announcement_id_wf announcement :
  verify_announcement announcement = true -> id_wf (contact_id announcement).
Proof. intros Hv%announcement_bound. unfold contact_id. rewrite Hv. apply key_id_wf. Qed.

Lemma records_values peers : peers_ok peers -> Forall bound (values peers.(PeerState_records)).
Proof. intros Hok. apply Forall_values. eapply map_Forall_impl; [by destruct Hok|]. by intros ? ? [_ ?]. Qed.

(** *** Sections that keep it *)
Lemma insert_record_ok peers record :
  peers_ok peers -> bound record ->
  peers_ok (set_PeerState_records
    (<[record.(PeerRecord_node_id) := record]> peers.(PeerState_records)) peers).
Proof.
  intros [Hr Ha Hu Hk Hl Hb] Hbound. split; cbn; try done. by apply map_Forall_insert_2.
Qed.

Lemma retain_records_ok now peers :
  peers_ok peers -> peers_ok (set_PeerState_records (retain_live now peers.(PeerState_records)) peers).
Proof. intros [Hr Ha Hu Hk Hl Hb]. split; cbn; try done. by apply map_Forall_filter_sub. Qed.

Lemma filter_announcements_ok peers (Q : NodeId * SignedAnnouncement -> Prop)
    `{forall x, Decision (Q x)} :
  peers_ok peers ->
  peers_ok (set_PeerState_announcements (filter Q peers.(PeerState_announcements)) peers).
Proof. intros [Hr Ha Hu Hk Hl Hb]. split; cbn; try done. by apply map_Forall_filter_sub. Qed.

Lemma upsert_record_ok now record announcement peers :
  peers_ok peers -> bound record -> contact_id announcement = record.(PeerRecord_node_id) ->
  verify_announcement announcement = true ->
  let '(r, peers') := upsert_record now record announcement peers in
  peers_ok peers' /\ peers_progress peers peers'
  /\ forall records senders, r = Ok (Some (records, senders)) -> Forall bound records.
Proof.
  intros Hok Hb Hid Hv. unfold upsert_record.
  destruct (match _ !! _ with Some _ => negb _ | None => false end); [by split_and!|].
  set (crowded := match _ !! _ with Some _ => false | None => _ end).
  set (peers1 := if crowded then _ else _).
  assert (peers_ok peers1 /\ peers_progress peers peers1) as [Hok1 Hp1].
  { subst peers1. destruct crowded; [|by split]. split; [|by split].
    apply (retain_records_ok now (set_PeerState_announcements _ _)).
    by apply (filter_announcements_ok peers (fun p => p.1 ∈ dom (retain_live now peers.(PeerState_records)))). }
  clearbody peers1. destruct (crowded && _); [by split_and!|].
  pose proof (insert_record_ok peers1 record Hok1 Hb) as Hok2.
  split_and!; [|by split; apply Hp1|].
  - destruct Hok2 as [Hr Ha Hu Hk Hl Hbd]. split; cbn in *; try done.
    rewrite Hid. by apply map_Forall_insert_2.
  - intros records senders [= <- _]. apply (records_values _ Hok2).
Qed.

Lemma upsert_address_update_ok now update peers :
  peers_ok peers -> own_update update ->
  let '(r, peers') := upsert_address_update config now update peers in
  peers_ok peers' /\ peers_progress peers peers'
  /\ forall records, r = Some records -> Forall bound records.
Proof.
  intros Hok Hown. unfold upsert_address_update.
  destruct (match _ !! _ with Some _ => _ <=? _ | None => _ end) eqn:Hseq; [by split_and!|].
  set (peers' := set_PeerState_address_updates _ _).
  assert (Hok' : peers_ok peers').
  { subst peers'. destruct Hok as [Hr Ha Hu Hk Hl Hb]. split; cbn; try done.
    - intros id record. rewrite lookup_alter. case_decide as Heq; [|apply Hr].
      intros (old & Hold & ->)%fmap_Some. subst. by apply Hr in Hold.
    - by apply map_Forall_insert_2. }
  split_and!; [done| |].
  - split; [|done]. apply advances_insert. cbn. intros old Ho. rewrite Ho in Hseq. breflect. lia.
  - intros records [= <-]. exact (records_values peers' Hok').
Qed.

Lemma rotation_values peers : peers_ok peers -> Forall rotation_signed (values peers.(PeerState_rotations)).
Proof. intros Hok. apply Forall_values. eapply map_Forall_impl; [by destruct Hok|]. by intros ? ? [_ ?]. Qed.

Lemma upsert_key_rotation_ok rotation peers :
  peers_ok peers -> rotation_signed rotation ->
  let '(r, peers') := upsert_key_rotation rotation peers in
  peers_ok peers' /\ peers_progress peers peers'
  /\ forall rotations senders, r = Ok (Some (rotations, senders)) -> Forall rotation_signed rotations.
Proof.
  intros Hok Hs. unfold upsert_key_rotation.
  destruct (match _ !! _ with Some _ => _ != _ | None => _ end); [by split_and!|].
  destruct (existsb _ _); [by split_and!|].
  destruct (match _ !! _ with Some _ => _ <=? _ | None => _ end) eqn:Hseq; [by split_and!|].
  set (peers' := set_PeerState_rotations _ _).
  assert (Hok' : peers_ok peers').
  { subst peers'. destruct Hok as [Hr Ha Hu Hk Hl Hb]. split; cbn; try done. by apply map_Forall_insert_2. }
  split_and!; [done| |].
  - split; [done|]. apply advances_insert. cbn. intros old Ho. rewrite Ho in Hseq. breflect. lia.
  - intros rotations senders [= <- _]. exact (rotation_values peers' Hok').
Qed.

Lemma prune_peers_ok now peers :
  peers_ok peers -> peers_ok (prune_peers now peers) /\ peers_progress peers (prune_peers now peers).
Proof.
  intros Hok. split; [|by split]. unfold prune_peers, retain_known. rewrite map_filter_filter.
  apply (retain_records_ok now (set_PeerState_announcements _ _)).
  by apply filter_announcements_ok.
Qed.

Lemma msize_delete {V} (m : gmap NodeId V) id : msize (delete id m) <= msize m.
Proof.
  unfold msize. destruct (m !! id) as [v|] eqn:Hm.
  - rewrite map_size_delete, Hm. lia.
  - rewrite delete_id by done. lia.
Qed.

Lemma forget_link_ok id peers :
  peers_ok peers -> peers_ok (forget_link id peers) /\ peers_progress peers (forget_link id peers).
Proof.
  intros [Hr Ha Hu Hk (Hl1 & Hl2 & Hl3 & Hl4) Hb]. split; [|by split]. split; cbn; try done.
  - unfold links_agree. cbn. rewrite !dom_delete_L. by rewrite Hl1, Hl2, Hl3, Hl4.
  - pose proof (msize_delete peers.(PeerState_senders) id). lia.
Qed.

Lemma install_link_ok id sender connection connection_id outbound minor peers :
  peers_ok peers -> msize peers.(PeerState_senders) < config.(NetworkConfig_max_connections) ->
  let peers' := install_link id sender connection connection_id outbound minor peers in
  peers_ok peers' /\ peers_progress peers peers'.
Proof.
  intros [Hr Ha Hu Hk (Hl1 & Hl2 & Hl3 & Hl4) Hb] Hlt. split; [|by split]. split; cbn; try done.
  - unfold links_agree. cbn. rewrite !dom_insert_L. by rewrite Hl1, Hl2, Hl3, Hl4.
  - unfold msize in *. rewrite map_size_insert. destruct (_ !! id); unfold Datatypes.id; lia.
Qed.

Lemma displace_ok l preferred stale canonical h peers :
  peers_ok peers ->
  peers_ok (displace l preferred stale canonical h peers).2
  /\ peers_progress peers (displace l preferred stale canonical h peers).2.
Proof.
  intros Hok. pose proof (forget_link_ok (h.(Handshake_peer).(PeerRecord_node_id)) peers Hok).
  unfold displace. repeat (case_match; try done).
Qed.

Lemma resolve_connection_ok now l preferred stale canonical h peers :
  peers_ok peers -> bound h.(Handshake_peer) ->
  let '(r, peers') := resolve_connection config.(NetworkConfig_max_connections) now l preferred stale
                        canonical h peers in
  peers_ok peers' /\ peers_progress peers peers'
  /\ forall replaced records, r = Resolution_Kept replaced records -> Forall bound records.
Proof.
  intros Hok Hb. unfold resolve_connection.
  pose proof (displace_ok l preferred stale canonical h peers Hok) as Hd.
  destruct (displace _ _ _ _ _ _) as [[reject replaced] peers1]. cbn in Hd. destruct Hd as [Hok1 Hp1].
  destruct (negb reject && (_ <=? _)) eqn:Hfull; [by split_and!|].
  set (crowded := negb reject && _ && _). set (peers2 := if crowded then _ else _).
  assert (peers_ok peers2 /\ peers_progress peers peers2
    /\ peers2.(PeerState_senders) = peers1.(PeerState_senders)) as (Hok2 & Hp2 & Hs2).
  { subst peers2. destruct crowded; [|done]. split_and!; [by apply retain_records_ok | by split; apply Hp1 | done]. }
  clearbody peers2. destruct (crowded && _); [by split_and!|].
  set (peers3 := refresh_record _ _).
  assert (peers_ok peers3 /\ peers_progress peers peers3
    /\ peers3.(PeerState_senders) = peers1.(PeerState_senders)) as (Hok3 & Hp3 & Hs3).
  { subst peers3. unfold refresh_record.
    destruct (match _ !! _ with Some _ => _ | None => true end); [|done].
    split_and!; [by apply insert_record_ok | by split; apply Hp2 | done]. }
  clearbody peers3. destruct reject; [by split_and!|]. cbn in Hfull. breflect.
  edestruct (install_link_ok (h.(Handshake_peer).(PeerRecord_node_id)) h.(Handshake_sender)
    h.(Handshake_connection) h.(Handshake_connection_id) h.(Handshake_outbound) h.(Handshake_minor)
    peers3 Hok3) as [Hok4 Hp4]; [by rewrite Hs3|].
  split_and!; [done | by etransitivity |]. intros ? ? [= _ <-]. by apply records_values.
Qed.

Lemma close_link_ok id connection_id peers :
  peers_ok peers ->
  peers_ok (close_link id connection_id peers).2
  /\ peers_progress peers (close_link id connection_id peers).2.
Proof. intros Hok. unfold close_link. destruct (bool_decide _); [by apply forget_link_ok | done]. Qed.

(** *** The DHT runtime *)
Lemma dht_store_ok dht : dht_ok dht -> store_ok dht.(DhtRuntime_store).
Proof. intros Hok. by destruct (store_reachable_ok _ _ _ (dht_store_reachable _ Hok)). Qed.

Lemma dht_learn_ok dht announcement now protect :
  dht_ok dht -> verify_announcement announcement = true ->
  let table := (DhtTable_insert dht.(DhtRuntime_table) announcement now).2 in
  let table := if protect : bool then (DhtTable_protect table announcement now).2 else table in
  dht_ok (set_DhtRuntime_table table dht).
Proof.
  intros [Ht Hc Hs Hr Hp Hseen] Hv. pose proof (announcement_id_wf _ Hv) as Hwf.
  assert (Ht1 : table_reachable local config.(NetworkConfig_dht_k) DEFAULT_REPLACEMENT_CACHE
    (DhtTable_insert dht.(DhtRuntime_table) announcement now).2) by (eapply reach_step; [done | by constructor]).
  pose proof (held_insert _ dht.(DhtRuntime_table) announcement now Hc Hv) as Hc1.
  destruct protect; split; cbn; try done.
  - eapply reach_step; [done | by constructor].
  - by apply held_protect.
Qed.

Lemma dht_store_step_ok dht store :
  dht_ok dht -> store_step dht.(DhtRuntime_store) store ->
  stored (fun record => verify_dht_record record = true) store ->
  dht_ok (set_DhtRuntime_store store dht).
Proof. intros [] Hstep Hst. split; cbn; try done. by eapply reach_store_step. Qed.

Lemma dht_expire_ok dht now :
  dht_ok dht ->
  dht_ok (set_DhtRuntime_table (DhtTable_expire dht.(DhtRuntime_table) now)
            (set_DhtRuntime_store (DhtStore_expire dht.(DhtRuntime_store) now) dht)).
Proof.
  intros Hok. pose proof (dht_store_ok _ Hok). pose proof Hok as [Ht Hc Hs Hr Hp Hseen].
  assert (Hok' : dht_ok (set_DhtRuntime_store (DhtStore_expire dht.(DhtRuntime_store) now) dht)).
  { apply dht_store_step_ok; [done | constructor | by apply stored_expire]. }
  destruct Hok'. split; cbn in *; try done.
  - eapply reach_step; [done | constructor].
  - by apply held_expire.
Qed.

Lemma put_record_ok now record dht :
  dht_ok dht -> verify_dht_record record = true ->
  let '(_, records, dht') := put_record now record dht in
  dht_ok dht' /\ Forall (fun record => verify_dht_record record = true) records.
Proof.
  intros Hok Hv. pose proof (dht_store_ok _ Hok) as Hs. pose proof Hok as [_ _ _ Hr _ _].
  unfold put_record. pose proof (stored_put _ _ record now Hs Hr Hv) as Hr'.
  pose proof (DhtStore_put_ok _ record now Hs) as Hs'.
  pose proof (step_put dht.(DhtRuntime_store) record now) as Hstep.
  destruct (DhtStore_put _ record now) as [accepted store]. cbn in *.
  split; [by apply dht_store_step_ok | by apply stored_records].
Qed.

Lemma dht_get_ok dht namespace key now limit :
  dht_ok dht ->
  dht_ok (set_DhtRuntime_store
            (DhtStore_get_diverse dht.(DhtRuntime_store) namespace key now limit).2 dht).
Proof.
  intros Hok. apply dht_store_step_ok; [done | constructor |].
  apply stored_get_diverse. by destruct Hok.
Qed.

Lemma size_remove (X : gset RequestId) id : (size (X ∖ {[ id ]}) <= size X)%nat.
Proof. apply subseteq_size. set_solver. Qed.

Lemma release_slot_ok id dht : dht_ok dht -> dht_ok (release_slot id dht).
Proof.
  intros []. split; cbn; try done. pose proof (size_remove dht.(DhtRuntime_pending) id). lia.
Qed.

Lemma claim_slot_ok id dht : dht_ok dht -> dht_ok (claim_slot config id dht).2.
Proof.
  intros Hok. unfold claim_slot. destruct (_ <=? _) eqn:Hl; [done|]. breflect.
  destruct Hok. split; cbn; try done.
  rewrite size_union_alt, size_singleton.
  pose proof (size_remove dht.(DhtRuntime_pending) id). lia.
Qed.

Lemma admit_request_ok now peer id dht : dht_ok dht -> dht_ok (admit_request now peer id dht).2.
Proof.
  intros []. destruct (admit_request_rest now peer id dht) as (E1 & E2 & E3).
  split; rewrite ?E1, ?E2, ?E3; [done..|]. by apply admit_request_seen.
Qed.
End Invariant.
