(* ===== verification/NetworkPool.v ===== *)
(** * Every interleaving of the tasks of a node

    Each task of [Transport] and [Connections] keeps the invariant of [NetworkFacts], respects its
    guarantee and has only effects that satisfy [effect_ok]; so does any pool of them. *)

From Stdlib Require Import String ZArith NArith Lia.
From stdpp Require Import base tactics sets strings numbers list gmap.
From S2P Require Import Prelude Tasks OrdMap Types Validation Codec SocketAddr Dht DhtFacts Trust FileSystem Storage NetAddr Network Peers Transport Connections NetworkFacts.
Local Open Scope N_scope.
Local Open Scope rust_scope.

Create HintDb net discriminated.

Section Pool.
Context `{Blake3} `{!Blake3Laws} `{Ed25519} `{Ed25519Signer} `{SignedPostcard} `{Postcard str}.
Context (config : NetworkConfig) (identity : Identity).
Notation local := identity.(Identity_node_id).

(** The invariant of the shared state. *)
Record shared_ok (s : Shared) : Prop := {
  shared_peers : peers_ok config s.(Shared_peers);
  shared_dht : dht_ok config local s.(Shared_dht);
  shared_hellos : N.of_nat (size s.(Shared_seen_hellos)) <= 4096;
  shared_observed : len s.(Shared_observed_addresses) <= 16;
  shared_relays : msize s.(Shared_relay_sessions) <= config.(NetworkConfig_relay_max_sessions);
  shared_backoff : map_Forall (fun _ state => state.(AddressBackoff_failures) <= 8)
    s.(Shared_address_backoff)
}.

Definition shared_progress (s s' : Shared) : Prop :=
  peers_progress s.(Shared_peers) s'.(Shared_peers).

#[export] Instance shared_progress_preorder : PreOrder shared_progress.
Proof.
  split; unfold shared_progress.
  - intros s. reflexivity.
  - intros s1 s2 s3 H12 H23. by etransitivity.
Qed.

Lemma progress_same s s' : s'.(Shared_peers) = s.(Shared_peers) -> shared_progress s s'.
Proof. unfold shared_progress. intros ->. reflexivity. Qed.

(** What is saved, passed on, reported and dialed. *)
Definition effect_ok (effect : Effect) : Prop :=
  match effect with
  | Effect_SavePeerRecords records => Forall bound records
  | Effect_SaveKeyRotations rotations => Forall rotation_signed rotations
  | Effect_SaveDhtRecords records => Forall (fun record => verify_dht_record record = true) records
  | Effect_SaveDhtContacts contacts =>
      Forall (fun contact => verify_announcement contact = true) contacts
  | Effect_TrySend _ (Message_Announcement announcement) => verify_announcement announcement = true
  | Effect_TrySend _ (Message_KeyRotation rotation) => rotation_signed rotation
  | Effect_Event (NetworkEvent_PeerConnected peer) => bound peer
  | Effect_Event (NetworkEvent_Message peer (Message_JobRequest request)) =>
      request.(JobRequest_origin) = peer
  | Effect_Dial address =>
      exists text, SocketAddr_parse text = Some address
        /\ (is_configured config text = true
            \/ address_allowed config address AddressSource_Learned = true)
  | _ => True
  end.

Notation ok := (safe shared_ok shared_progress effect_ok).
Notation any := (fun _ => True).

(** ** Sections *)
Lemma ok_now : ok now_secs any.
Proof. by apply safe_reading; [apply _|]. Qed.

Lemma ok_reading {A} (f : Env -> Shared -> A) : ok (reading f) any.
Proof. by apply safe_reading; [apply _|]. Qed.

Lemma ok_emit effects : Forall effect_ok effects -> ok (emit effects) any.
Proof. intros He. apply safe_atomic. intros e s Hs. split; [done|]. split; [by apply progress_same | done]. Qed.

Lemma ok_event ev : effect_ok (Effect_Event ev) -> ok (event ev) any.
Proof. intros He. apply ok_emit. by apply Forall_singleton. Qed.

Lemma ok_on_peers {A} (f : Env -> PeerState -> A * PeerState) (Q : A -> Prop) :
  (forall e peers, peers_ok config peers ->
     let '(a, peers') := f e peers in peers_ok config peers' /\ peers_progress peers peers' /\ Q a) ->
  ok (on_peers f) Q.
Proof.
  intros Hf. apply safe_atomic. intros e s [Hp Hd Hh Ho Hr Hb]. specialize (Hf e _ Hp).
  destruct (f e s.(Shared_peers)) as [a peers']. destruct Hf as (Hp' & Hg & Ha).
  split; [by split|]. by split.
Qed.

Lemma ok_read_peers {A} (f : Env -> PeerState -> A) (Q : A -> Prop) :
  (forall e peers, peers_ok config peers -> Q (f e peers)) -> ok (read_peers f) Q.
Proof. intros Hf. apply safe_reading; [apply _|]. intros e s Hs. apply Hf. by destruct Hs. Qed.

Lemma ok_on_dht {A} (f : Env -> DhtRuntime -> A * DhtRuntime) (Q : A -> Prop) :
  (forall e dht, dht_ok config local dht -> let '(a, dht') := f e dht in dht_ok config local dht' /\ Q a) ->
  ok (on_dht f) Q.
Proof.
  intros Hf. apply safe_atomic. intros e s [Hp Hd Hh Ho Hr Hb]. specialize (Hf e _ Hd).
  destruct (f e s.(Shared_dht)) as [a dht']. destruct Hf as (Hd' & Ha).
  split; [by split|]. split; [by apply progress_same | done].
Qed.

Lemma ok_update_dht f :
  (forall dht, dht_ok config local dht -> dht_ok config local (f dht)) -> ok (update_dht f) any.
Proof. intros Hf. apply ok_on_dht. intros e dht Hd. auto. Qed.

Lemma ok_save effect : effect_ok effect -> ok (save effect) any.
Proof.
  intros He. apply safe_atomic. intros e s Hs.
  split; [done|]. split; [by apply progress_same|]. split; [by apply Forall_singleton | done].
Qed.

Lemma ok_channel_send sender message : ok (channel_send sender message) any.
Proof.
  apply safe_atomic. intros e s Hs. destruct (sender_closed _ _).
  - split; [done|]. split; [by apply progress_same | done].
  - split; [done|]. split; [by apply progress_same|]. split; [by apply Forall_singleton | done].
Qed.

(** A section that leaves alone what the invariant speaks of. *)
Definition same_core (s s' : Shared) : Prop :=
  s'.(Shared_peers) = s.(Shared_peers) /\ s'.(Shared_dht) = s.(Shared_dht)
  /\ s'.(Shared_seen_hellos) = s.(Shared_seen_hellos)
  /\ s'.(Shared_observed_addresses) = s.(Shared_observed_addresses)
  /\ s'.(Shared_relay_sessions) = s.(Shared_relay_sessions)
  /\ s'.(Shared_address_backoff) = s.(Shared_address_backoff).

Lemma same_core_ok s s' : same_core s s' -> shared_ok s -> shared_ok s' /\ shared_progress s s'.
Proof.
  intros (E1 & E2 & E3 & E4 & E5 & E6) []. split.
  - split; by rewrite ?E1, ?E2, ?E3, ?E4, ?E5, ?E6.
  - by apply progress_same.
Qed.

Lemma ok_same_core {A} (f : Env -> Shared -> A * Shared * list Effect) :
  (forall e s, same_core s (f e s).1.2 /\ (f e s).2 = []) -> ok (atomic f) any.
Proof.
  intros Hf. apply safe_atomic. intros e s Hs. specialize (Hf e s).
  destruct (f e s) as [[a s'] out]. cbn in Hf. destruct Hf as [Hsame ->].
  destruct (same_core_ok s s' Hsame Hs). by split.
Qed.

Lemma ok_updating_core (f : Env -> Shared -> Shared) : (forall e s, same_core s (f e s)) -> ok (updating f) any.
Proof. intros Hf. apply safe_updating. intros e s Hs. by apply same_core_ok. Qed.

Lemma ok_count_metric f : ok (count_metric f) any.
Proof. apply ok_updating_core. intros e s. by split_and!. Qed.

Lemma ok_protocol_error : ok protocol_error any.
Proof. apply ok_count_metric. Qed.

Lemma ok_next_connection_id : ok next_connection_id any.
Proof. apply ok_same_core. intros e s. by split_and!. Qed.

Lemma ok_next_address_sequence : ok next_address_sequence any.
Proof. apply ok_same_core. intros e s. by split_and!. Qed.

Lemma ok_timeout {A} (elapsed : Env -> bool) (t : task A) : ok t any -> ok (timeout elapsed t) any.
Proof. intros Ht. eapply safe_mono; [by apply safe_timeout; [apply _|]|]. done. Qed.

Lemma ok_any {A} (t : task A) Q : ok t Q -> ok t any.
Proof. intros Ht. by eapply safe_mono. Qed.

Lemma ok_bind {A B} (t : task A) (k : A -> task B) :
  ok t any -> (forall a, ok (k a) any) -> ok (tbind t k) any.
Proof. intros Ht Hk. eapply safe_tbind; [exact Ht | auto]. Qed.

Lemma ok_try {A B} (t : net A) (k : A -> net B) :
  ok t any -> (forall a, ok (k a) any) -> ok (try_task t k) any.
Proof.
  intros Ht Hk. eapply safe_try; [eapply safe_mono; [exact Ht|]; by intros; exact I | done | auto].
Qed.

Lemma ok_done {A} (a : A) : ok (Done a : task A) any.
Proof. done. Qed.

Lemma ok_spawn (t : task unit) : ok t any -> ok (spawn t) any.
Proof. done. Qed.
End Pool.

(** Follows a task through its sections. *)
Ltac ok_step :=
  first
    [ apply ok_done
    | solve [eauto with net]
    | apply ok_bind; [|intros ?]
    | apply ok_try; [|intros ?]
    | apply ok_spawn
    | apply safe_ignore
    | apply ok_timeout
    | apply safe_forever
    | match goal with
      | |- safe _ _ _ (match ?x with _ => _ end) _ => destruct x eqn:?
      end ].

Ltac ok_steps := repeat ok_step.

#[export] Hint Resolve ok_now ok_reading ok_channel_send ok_count_metric ok_protocol_error
  ok_next_connection_id ok_next_address_sequence : net.

Section NodeTasks.
Context `{Blake3} `{!Blake3Laws} `{Ed25519} `{Ed25519Signer} `{SignedPostcard} `{Postcard str}.
Context (config : NetworkConfig) (identity : Identity).
Notation local := identity.(Identity_node_id).
Notation ok := (safe (shared_ok config identity) shared_progress (effect_ok config)).
Notation any := (fun _ => True).

(** ** Handlers *)
Lemma hello_check_bound now hello :
  hello_check config local now hello = Ok tt -> bound hello.(Hello_record).
Proof. unfold hello_check, bound. intros Hc. inv_ok Hc. done. Qed.

Lemma admit_hello_bounded id nonce seen seen' :
  N.of_nat (size seen) <= 4096 -> admit_hello id nonce seen = Some seen' ->
  N.of_nat (size seen') <= 4096.
Proof.
  intros Hs. unfold admit_hello. destruct (bool_decide _); [done|]. intros [= <-].
  destruct (_ <? _) eqn:Hl; breflect; [rewrite size_empty; lia | done].
Qed.

Lemma verify_hello_ok hello :
  ok (verify_hello config identity hello)
    (fun r => forall minor, r = Ok minor -> bound hello.(Hello_record)).
Proof.
  eapply safe_tbind; [apply ok_now|]. intros now _.
  eapply (safe_try _ _ _ _ _ (fun _ => bound hello.(Hello_record))); [|done|].
  - intros [] Hc. by eapply hello_check_bound.
  - intros _ Hb. eapply (safe_tbind _ _ _ _ _ _ any); [|intros [[]|error] _; cbn; by intros].
    apply safe_atomic. intros e s Hs. destruct (admit_hello _ _ _) as [seen|] eqn:Ha.
    + split; [|split; [by apply progress_same | done]].
      destruct Hs. split; cbn; try done. by eapply admit_hello_bounded.
    + split; [done|]. split; [by apply progress_same | done].
Qed.

Lemma upsert_check_record now announcement record :
  upsert_check config local now announcement = Ok (Some record) ->
  verify_announcement announcement = true ->
  bound record /\ contact_id announcement = record.(PeerRecord_node_id).
Proof.
  unfold upsert_check. intros Hc Hv%announcement_bound.
  destruct (bool_decide _); [done|]. inv_ok Hc.
  destruct (_ <? _); [done|]. inv_ok Hc. destruct (existsb _ _); [done|]. by injection Hc as <-.
Qed.

Lemma ok_try_send_all message senders :
  (forall sender, effect_ok config (Effect_TrySend sender message)) ->
  ok (try_send_all message senders) any.
Proof. intros He. apply ok_emit. apply Forall_fmap, Forall_forall. intros sender _. apply He. Qed.

Lemma upsert_peer_ok announcement :
  verify_announcement announcement = true -> ok (upsert_peer config identity announcement) any.
Proof.
  intros Hv. eapply safe_tbind; [apply ok_now|]. intros now _. unfold try_task at 1. cbn [tbind].
  destruct (upsert_check _ _ _ _) as [[record|]|error] eqn:Hc; [|done..].
  destruct (upsert_check_record _ _ _ Hc Hv) as [Hb Hid].
  eapply (safe_try _ _ _ _ _ (fun taken => forall records senders,
    taken = Some (records, senders) -> Forall bound records)); [|done|].
  - apply ok_on_peers. intros e peers Hp.
    pose proof (upsert_record_ok config e.(env_now) record announcement peers Hp Hb Hid Hv) as Hu.
    destruct (upsert_record _ _ _ _) as [r peers']. destruct Hu as (? & ? & Hr).
    split_and!; [done..|]. intros taken -> records senders ->. by eapply Hr.
  - intros [[records senders]|] Hr; [|done].
    apply ok_try; [apply ok_save; by eapply Hr|]. intros _.
    apply ok_bind; [|intros _; apply ok_bind; [by apply ok_try_send_all | done]].
    destruct (NetworkConfig_dht_enabled _); [|done].
    apply ok_bind; [by apply ok_read_peers|]. intros authenticated.
    apply ok_on_dht. intros e dht Hd. split; [|done]. by apply dht_learn_ok.
Qed.

Lemma read_public_key_ok node :
  ok (read_public_key node) (fun r => forall key, r = Some key -> node = NodeId_from_public_key key).
Proof.
  apply ok_read_peers. intros e peers Hp key. destruct (_ !! node) as [record|] eqn:Hr; [|done].
  intros [= <-]. by apply (records_bound _ _ Hp) in Hr as [<- ?].
Qed.

Lemma verify_address_update_ok update :
  ok (verify_address_update identity update) (fun b => b = true -> own_update update).
Proof.
  unfold verify_address_update. destruct (_ || _); [done|].
  eapply safe_tbind; [apply read_public_key_ok|]. intros [key|] Hk; [|done].
  intros Hv. exists key. split; [by apply Hk | done].
Qed.

Lemma take_address_update_ok update :
  own_update update -> ok (take_address_update config update) any.
Proof.
  intros Hu. eapply (safe_tbind _ _ _ _ _ _ (fun r => forall records, r = Some records -> Forall bound records)).
  - apply ok_on_peers. intros e peers Hp.
    pose proof (upsert_address_update_ok config e.(env_now) update peers Hp Hu) as Hok.
    by destruct (upsert_address_update _ _ _ _).
  - intros [records|] Hr; [|done]. apply ok_save. by apply Hr.
Qed.

Lemma record_observation_bounded now observation observations :
  len (record_observation now observation observations) <= 16.
Proof.
  unfold record_observation. destruct (16 <? _) eqn:Hl; breflect; [|done].
  unfold len, sat_sub in *. rewrite length_drop. lia.
Qed.

Lemma take_observation_ok observation : ok (take_observation observation) any.
Proof.
  apply safe_updating. intros e s []. split; [|by apply progress_same].
  split; cbn; try done. apply record_observation_bounded.
Qed.

Lemma verify_key_rotation_signed now rotation :
  verify_key_rotation now rotation = true -> rotation_signed rotation.
Proof.
  unfold verify_key_rotation, rotation_signed. destruct (_ || _) eqn:Hg; [done|]. breflect.
  intros [H1' H2']%andb_true_iff. split_and!; [|done..].
  by destruct (KeyRotation_validate rotation) as [[]|].
Qed.

Lemma take_key_rotation_ok rotation : rotation_signed rotation -> ok (take_key_rotation rotation) any.
Proof.
  intros Hs. eapply (safe_try _ _ _ _ _ (fun taken => forall rotations senders,
    taken = Some (rotations, senders) -> Forall rotation_signed rotations)); [|done|].
  - apply ok_on_peers. intros e peers Hp.
    pose proof (upsert_key_rotation_ok config rotation peers Hp Hs) as Hok.
    destruct (upsert_key_rotation _ _) as [r peers']. destruct Hok as (? & ? & Hr).
    split_and!; [done..|]. intros taken -> rotations senders ->. by eapply Hr.
  - intros [[rotations senders]|] Hr; [|done].
    apply ok_try; [apply ok_save; by eapply Hr|]. intros _.
    apply ok_bind; [by apply ok_try_send_all | done].
Qed.

Lemma relay_budget_bounded now envelope sessions :
  msize sessions <= config.(NetworkConfig_relay_max_sessions) ->
  msize (relay_budget config now envelope sessions).2 <= config.(NetworkConfig_relay_max_sessions).
Proof.
  intros Hs. unfold relay_budget. set (kept := filter _ sessions).
  assert (Hk : msize kept <= msize sessions).
  { unfold msize. pose proof (map_subseteq_size kept sessions (map_filter_subseteq _ _)). lia. }
  destruct (kept !! _) as [session|] eqn:Hg.
  - destruct (_ || _); cbn; [lia|].
    assert (Hsize : forall session', msize (<[envelope.(RelayEnvelope_session_id) := session']> kept) = msize kept).
    { intros session'. unfold msize. by rewrite map_size_insert_Some. }
    destruct (_ <? _); cbn; rewrite Hsize; lia.
  - destruct (_ <=? _) eqn:Hl; breflect; cbn; [lia|]. unfold msize in *.
    rewrite map_size_insert_None by done. lia.
Qed.

Lemma handle_relay_envelope_ok peer envelope : ok (handle_relay_envelope config identity peer envelope) any.
Proof.
  unfold handle_relay_envelope. apply ok_try; [done|intros _]. apply ok_try; [done|intros bytes].
  destruct (negb _); [done|]. destruct (bool_decide _).
  - apply ok_bind; [destruct (negb _); [|done]; apply ok_updating_core; intros e s; by split_and!|].
    intros _. apply ok_try; [done|intros inner]. apply ok_try; [done|intros _]. by destruct inner.
  - destruct (negb _); [done|]. apply ok_try.
    + apply safe_atomic. intros e s Hs. pose proof (shared_relays _ _ _ Hs) as Hr.
      pose proof (relay_budget_bounded e.(env_now) envelope _ Hr) as Hb.
      destruct (relay_budget _ _ _ _) as [r sessions]. cbn in Hb.
      split; [by destruct Hs | split; [by apply progress_same | done]].
    + intros _. apply ok_bind; [|done]. apply ok_spawn.
      apply ok_bind; [by apply ok_read_peers|]. intros [sender|]; [|done].
      apply safe_ignore, ok_channel_send.
Qed.
End NodeTasks.

#[export] Hint Resolve upsert_peer_ok take_address_update_ok take_observation_ok take_key_rotation_ok
  handle_relay_envelope_ok : net.

(** ** The DHT *)
Section DhtTasks.
Context `{Blake3} `{!Blake3Laws} `{Ed25519} `{Ed25519Signer} `{SignedPostcard} `{Postcard str}.
Context (config : NetworkConfig) (identity : Identity).
Notation local := identity.(Identity_node_id).
Notation ok := (safe (shared_ok config identity) shared_progress (effect_ok config)).
Notation any := (fun _ => True).

Lemma send_connected_ok node message : ok (send_connected node message) any.
Proof. apply ok_try; [by apply ok_read_peers | intros sender; apply ok_channel_send]. Qed.

Lemma ok_release_slot id : ok (update_dht (release_slot id)) any.
Proof. apply ok_update_dht. intros dht. apply release_slot_ok. Qed.

Lemma receive_ok id : ok (receive id) any.
Proof.
  intros e s x s' out Hs. cbn. destruct (s.(Shared_dht).(DhtRuntime_delivered) !! id) as [response|].
  - intros [= <- <- <-]. split; [|split; [by apply progress_same | done]].
    destruct Hs as [Hp [] Hh Ho Hr Hb]. by split.
  - destruct (bool_decide _); [done|]. intros [= <- <- <-].
    split; [done | split; [by apply progress_same | done]].
Qed.

Lemma dht_rpc_ok peer request : ok (dht_rpc config identity peer request) any.
Proof.
  unfold dht_rpc. apply ok_bind; [apply ok_reading|intros id]. apply ok_try.
  { apply ok_on_dht. intros e dht Hd. pose proof (claim_slot_ok config local id dht Hd).
    by destruct (claim_slot _ _ _). }
  intros _. apply ok_bind; [apply send_connected_ok|]. intros [|error].
  - apply ok_bind; [apply ok_timeout, receive_ok|]. intros [[]|]; [done..|].
    apply ok_bind; [apply ok_release_slot | done].
  - apply ok_bind; [apply ok_release_slot | done].
Qed.

Lemma authenticated_ping_ok peer : ok (authenticated_ping config identity peer) any.
Proof.
  apply ok_bind; [apply ok_timeout, dht_rpc_ok|]. by intros [[[]|]|].
Qed.

Lemma ok_count_invalid : ok (update_dht count_invalid_record) any.
Proof. apply ok_update_dht. by intros dht []. Qed.

Lemma store_dht_record_ok record : ok (store_dht_record config record) any.
Proof.
  unfold store_dht_record. apply ok_bind; [apply ok_now|intros now].
  destruct (_ || _) eqn:Hg; [apply ok_bind; [apply ok_count_invalid | done]|]. breflect.
  eapply (safe_tbind _ _ _ _ _ _
    (fun put => Forall (fun record => verify_dht_record record = true) put.2)).
  - apply ok_on_dht. intros e dht Hd.
    pose proof (put_record_ok config local e.(env_now) record dht Hd Hg0) as Hp.
    by destruct (put_record _ _ _) as [[accepted records] dht'].
  - intros [accepted records] Hr. destruct accepted; [|done].
    apply ok_try; [by apply ok_save | done].
Qed.

Lemma answer_request_ok peer request : ok (answer_request config peer request) any.
Proof.
  destruct request as [|target|namespace key|record]; cbn [answer_request]; [done|..].
  - apply ok_on_dht. by intros e dht.
  - apply ok_on_dht. intros e dht Hd.
    pose proof (dht_get_ok config local dht namespace key e.(env_now) MAX_DHT_RECORDS Hd).
    by destruct (DhtStore_get_diverse _ _ _ _ _).
  - destruct (_ || _); [apply ok_bind; [apply ok_count_invalid | done]|].
    apply ok_try; [apply store_dht_record_ok | done].
Qed.

Lemma handle_dht_request_ok peer request : ok (handle_dht_request config identity peer request) any.
Proof.
  unfold handle_dht_request. apply ok_try; [done|intros _]. destruct (negb _); [done|].
  apply ok_bind.
  - apply ok_on_dht. intros e dht Hd.
    pose proof (admit_request_ok config local e.(env_now) peer request.(DhtRequest_request_id) dht Hd).
    by destruct (admit_request _ _ _ _).
  - intros []; try apply send_connected_ok.
    apply ok_try; [apply answer_request_ok | intros response; apply send_connected_ok].
Qed.

Lemma handle_dht_response_ok peer response : ok (handle_dht_response peer response) any.
Proof.
  unfold handle_dht_response. apply ok_try; [done|intros _]. destruct (negb _); [done|].
  apply ok_bind; [apply ok_on_dht; intros e dht Hd; split; [by apply release_slot_ok | done]|].
  intros waiting. apply ok_bind; [|done]. destruct waiting; [|done].
  apply ok_bind; intros; apply ok_update_dht; by intros dht [].
Qed.

(** ** Lookups *)
Lemma ok_spawn_joined t : ok t any -> ok (spawn_joined t) any.
Proof.
  intros Ht. unfold spawn_joined. apply ok_bind; [apply ok_same_core; intros e s; by split_and!|].
  intros handle. apply ok_bind; [|done]. apply ok_spawn. apply ok_bind; [done|]. intros r.
  apply ok_updating_core. intros e s. by split_and!.
Qed.

Lemma join_rpc_ok handle : ok (join_rpc handle) any.
Proof.
  intros e s x s' out Hs. cbn. destruct (s.(Shared_joins) !! handle); [|done]. intros [= <- <- <-].
  split; [by destruct Hs | split; [by apply progress_same | done]].
Qed.

Lemma rpc_before_deadline_ok peer request : ok (rpc_before_deadline config identity peer request) any.
Proof. apply ok_bind; [apply ok_timeout, dht_rpc_ok | done]. Qed.

Lemma spawn_rpcs_ok request contacts : ok (spawn_rpcs config identity request contacts) any.
Proof.
  induction contacts as [|contact contacts IH]; cbn [spawn_rpcs]; [done|].
  apply ok_bind; [apply ok_reading|]. intros late. destruct late; [done|].
  apply ok_bind; [apply ok_spawn_joined, rpc_before_deadline_ok|]. intros handle.
  by apply ok_bind.
Qed.

Lemma spawn_writes_ok record contacts : ok (spawn_writes config identity record contacts) any.
Proof.
  induction contacts as [|contact contacts IH]; cbn [spawn_writes]; [done|].
  apply ok_bind; [|intros handle; by apply ok_bind]. apply ok_spawn_joined.
  apply ok_bind; [apply ok_reading|]. intros late. destruct late; [done | apply rpc_before_deadline_ok].
Qed.

Lemma absorb_ok remote candidates changed : ok (absorb config identity remote candidates changed) any.
Proof.
  revert candidates changed. induction remote as [|contact remote IH]; intros; cbn [absorb]; [done|].
  apply ok_bind; [apply ok_now|]. intros now. destruct (negb _) eqn:Ha; [auto|].
  apply negb_false_iff in Ha. unfold acceptable in Ha. breflect.
  apply ok_try; [by apply upsert_peer_ok|]. intros _. destruct (existsb _ _); auto.
Qed.

Lemma absorb_all_ok handles candidates changed :
  ok (absorb_all config identity handles candidates changed) any.
Proof.
  revert candidates changed. induction handles as [|handle handles IH]; intros; cbn [absorb_all]; [done|].
  apply ok_bind; [apply join_rpc_ok|]. intros [[]|]; auto.
  apply ok_try; [apply absorb_ok|]. intros [candidates' changed']. auto.
Qed.

Lemma find_rounds_ok rounds target candidates queried :
  ok (find_rounds config identity rounds target candidates queried) any.
Proof.
  revert candidates queried. induction rounds as [|rounds IH]; intros; cbn [find_rounds]; [done|].
  apply ok_bind; [apply ok_reading|]. intros late. destruct late; [done|].
  destruct (next_batch _ _ _) as [batch queried']. destruct (is_empty batch); [done|].
  apply ok_bind; [apply spawn_rpcs_ok|]. intros handles.
  apply ok_try; [apply absorb_all_ok|]. intros [candidates' changed]. destruct changed; [auto | done].
Qed.

Lemma dht_find_node_ok target : ok (dht_find_node config identity target) any.
Proof.
  unfold dht_find_node. destruct (negb _); [done|]. apply ok_bind; [apply ok_reading|]. intros candidates.
  apply ok_try; [apply find_rounds_ok | done].
Qed.

Lemma ok_or_default {A} (t : net (list A)) : ok t any -> ok (or_default t) any.
Proof. intros Ht. by apply ok_bind. Qed.

Lemma dht_publish_ok namespace name value ttl sequence :
  ok (dht_publish config identity namespace name value ttl sequence) any.
Proof.
  unfold dht_publish. destruct (_ || _); [done|]. apply ok_bind; [apply ok_now|]. intros now.
  apply ok_try; [done|]. intros bytes. apply ok_try; [apply store_dht_record_ok|]. intros stored.
  destruct (negb stored); [done|]. apply ok_bind; [apply ok_or_default, dht_find_node_ok|].
  intros contacts. apply ok_bind; [apply spawn_writes_ok|]. intros handles. apply ok_bind; [|done].
  apply safe_for. apply Forall_forall. intros handle _. apply safe_ignore, join_rpc_ok.
Qed.

Lemma absorb_records_ok namespace key remote records :
  ok (absorb_records config namespace key remote records) any.
Proof.
  revert records. induction remote as [|record remote IH]; intros; cbn [absorb_records]; [done|].
  destruct (_ && _); [|auto]. apply ok_try; [apply store_dht_record_ok|]. intros _.
  destruct (existsb _ _); auto.
Qed.

Lemma absorb_reads_ok namespace key handles records :
  ok (absorb_reads config namespace key handles records) any.
Proof.
  revert records. induction handles as [|handle handles IH]; intros; cbn [absorb_reads]; [done|].
  apply ok_bind; [apply join_rpc_ok|]. intros [[]|]; auto. apply ok_try; [apply absorb_records_ok | auto].
Qed.

Lemma dht_lookup_ok namespace name : ok (dht_lookup config identity namespace name) any.
Proof.
  unfold dht_lookup. destruct (_ || _); [done|]. apply ok_bind.
  { apply ok_on_dht. intros e dht Hd.
    pose proof (dht_get_ok config local dht namespace (DhtKey_for_name namespace name) e.(env_now)
      MAX_DHT_RECORDS Hd) as Hg. destruct (DhtStore_get_diverse _ _ _ _ _). by destruct Hg. }
  intros records. apply ok_try; [apply dht_find_node_ok|]. intros contacts.
  apply ok_bind; [apply spawn_rpcs_ok|]. intros handles. apply ok_try; [apply absorb_reads_ok|].
  intros records'. apply ok_bind; [apply ok_now|]. intros now. apply ok_bind; [|done].
  destruct (is_empty _); [done|]. apply ok_update_dht. by intros dht [].
Qed.
End DhtTasks.

(** ** Connections *)
Section ConnectionTasks.
Context `{Blake3} `{!Blake3Laws} `{Ed25519} `{Ed25519Signer} `{SignedPostcard} `{Postcard str}.
Context (config : NetworkConfig) (identity : Identity).
Notation local := identity.(Identity_node_id).
Notation ok := (safe (shared_ok config identity) shared_progress (effect_ok config)).
Notation any := (fun _ => True).

Lemma write_message_ok connection message minor : ok (write_message config connection message minor) any.
Proof.
  unfold write_message. apply ok_try; [done|]. intros frame. apply safe_atomic. intros e s Hs.
  destruct (env_write e).
  - split; [done | split; [by apply progress_same | done]].
  - split; [by destruct Hs | split; [by apply progress_same|]].
    split; [by apply Forall_singleton | done].
Qed.

Lemma writer_ok connection minor outgoing : ok (writer config connection minor outgoing) any.
Proof.
  induction outgoing as [|message outgoing IH]; cbn [writer]; [apply safe_forever|].
  apply ok_bind; [apply write_message_ok|]. by intros [].
Qed.

Lemma learn_ok announcement : ok (learn config identity announcement) any.
Proof.
  unfold learn. destruct (_ && _) eqn:Hv; [|done]. breflect. by apply upsert_peer_ok.
Qed.

Lemma try_each_ok {A} (body : A -> net unit) xs : (forall x, ok (body x) any) -> ok (try_each body xs) any.
Proof. intros Hb. induction xs as [|x xs IH]; cbn [try_each]; [done | by apply ok_try]. Qed.

Lemma log_error_ok (t : net unit) : ok t any -> ok (log_error t) any.
Proof. intros Ht. apply ok_bind; [done|]. intros []; [done | apply ok_protocol_error]. Qed.

(** A job request that is delivered comes from the peer it names. *)
Definition delivers (message_peer : NodeId) (message : Message) (r : result Control NetworkError) : Prop :=
  r = Ok Control_Deliver ->
  forall request, message = Message_JobRequest request -> request.(JobRequest_origin) = message_peer.

Lemma deliver_ok message_peer message (t : net unit) :
  (forall request, message <> Message_JobRequest request) -> ok t any ->
  ok (try! _ := t in Done (Ok Control_Deliver)) (delivers message_peer message).
Proof.
  intros Hm Ht. eapply safe_tbind; [exact Ht|]. intros [[]|] _; [|done].
  intros _ request ->. by destruct (Hm request).
Qed.

Lemma dispatch_ok peer message_peer sender minor message :
  ok (dispatch config identity peer message_peer sender minor message) (delivers message_peer message).
Proof.
  destruct message; try done; cbn [dispatch].
  - apply deliver_ok; [done|]. apply try_each_ok, learn_ok.
  - apply deliver_ok; [done | apply learn_ok].
  - destruct (bool_decide _) eqn:Ho; cbn [negb]; [breflect; by intros _ request [= <-]|].
    eapply safe_tbind; [apply ok_channel_send|]. by intros [] _.
  - apply deliver_ok; [done | apply ok_channel_send].
  - eapply safe_tbind; [apply verify_address_update_ok|]. intros verified Hv.
    destruct verified; [|done]. apply deliver_ok; [done|]. by apply take_address_update_ok, Hv.
  - eapply (safe_tbind _ _ _ _ _ _ any);
      [|intros verified _; eapply (safe_tbind _ _ _ _ _ _ any); [|done]].
    + unfold verify_address_observation. destruct (_ || _); [done|].
      apply ok_bind; [eapply ok_any, read_public_key_ok|]. by intros [].
    + destruct verified; [apply take_observation_ok | done].
  - eapply safe_tbind; [apply ok_now|]. intros now _. destruct (_ && _) eqn:Hv; [|done].
    breflect. apply deliver_ok; [done|].
    by eapply take_key_rotation_ok, verify_key_rotation_signed.
  - destruct (2 <=? minor); [|done].
    eapply safe_tbind; [apply log_error_ok, handle_dht_request_ok | done].
  - destruct (2 <=? minor); [|done].
    eapply safe_tbind; [apply log_error_ok, handle_dht_response_ok | done].
Qed.

Lemma report_error_ok peer : ok (report_error peer) any.
Proof. apply ok_bind; [apply ok_protocol_error|]. intros _. by apply ok_event. Qed.

Lemma process_message_ok peer message_peer sender minor message :
  ok (process_message config identity peer message_peer sender minor message) any.
Proof.
  eapply safe_tbind; [apply dispatch_ok|]. intros [[]|] Hd; try done.
  apply ok_bind; [|done]. apply ok_event. destruct message; try done. by apply Hd.
Qed.

Lemma handle_message_ok peer sender minor message :
  ok (handle_message config identity peer sender minor message) any.
Proof.
  unfold handle_message. destruct message; try apply process_message_ok.
  apply ok_bind; [apply handle_relay_envelope_ok|]. intros [[inner|]|]; [apply process_message_ok | done |].
  apply ok_bind; [apply report_error_ok | done].
Qed.

Lemma read_loop_ok peer sender minor incoming :
  ok (read_loop config identity peer sender minor incoming) any.
Proof.
  induction incoming as [|[message|error] incoming IH]; cbn [read_loop]; [apply safe_forever|..].
  - apply ok_try; [apply handle_message_ok|]. by intros [].
  - apply ok_bind; [apply report_error_ok | done].
Qed.

Lemma clean_up_ok peer connection_id : ok (clean_up peer connection_id) any.
Proof.
  unfold clean_up. apply ok_bind.
  { apply ok_on_peers. intros e peers Hp. pose proof (close_link_ok config peer connection_id peers Hp) as [Hc Hg].
    destruct (close_link _ _ _). by split. }
  intros is_current. destruct is_current; [|done].
  apply ok_bind; [apply ok_updating_core; intros e s; by split_and!|]. intros _.
  apply ok_bind; [apply ok_updating_core; intros e s; by split_and!|]. intros _. by apply ok_event.
Qed.

Lemma first_hello_ok incoming : ok (first_hello incoming) any.
Proof.
  apply ok_bind; [apply ok_timeout|].
  - destruct incoming; [apply safe_forever | apply ok_bind; [apply ok_reading | done]].
  - intros [[[[]|] rest]|]; done.
Qed.

Lemma probe_ok peer canonical : ok (probe config identity peer canonical) any.
Proof.
  unfold probe. destruct canonical as [[connection_id minor]|]; [|done]. destruct (2 <=? minor); [|done].
  apply ok_bind; [apply ok_timeout, authenticated_ping_ok | done].
Qed.

Lemma greet_ok sender minor peer remote : ok (greet config identity sender minor peer remote) any.
Proof.
  unfold greet. apply ok_bind; [apply ok_now|intros now]. apply ok_try; [done|intros announcement].
  apply ok_try; [apply ok_channel_send|intros _]. destruct (1 <=? minor); [|done].
  apply ok_bind; [apply ok_reading|intros addresses].
  apply ok_bind; [apply ok_next_address_sequence|intros sequence].
  apply ok_try; [done|intros update]. apply ok_try; [apply ok_channel_send|intros _].
  apply ok_bind; [apply ok_now|intros now']. apply ok_bind; [apply ok_reading|intros nonce].
  apply ok_try; [destruct (sign_address_observation _ _ _ _ _ _); [apply ok_channel_send | done]|intros _].
  destruct (Identity_rotation _); [apply ok_channel_send | done].
Qed.

Lemma serve_ok h incoming : ok (serve config identity h incoming) any.
Proof.
  apply ok_try; [apply read_loop_ok|intros _]. apply ok_bind; [apply clean_up_ok | done].
Qed.

Lemma run_connection_ok h remote incoming outgoing :
  bound h.(Handshake_peer) -> ok (run_connection config identity h remote incoming outgoing) any.
Proof.
  intros Hb. unfold run_connection. apply ok_bind; [by apply ok_read_peers|intros canonical].
  apply ok_bind; [apply probe_ok|intros stale].
  eapply (safe_tbind _ _ _ _ _ _ (fun r => forall replaced records,
    r = Resolution_Kept replaced records -> Forall bound records)).
  { apply ok_on_peers. intros e peers Hp.
    pose proof (resolve_connection_ok config e.(env_now) e.(env_liveness)
      (prefers_outbound identity h.(Handshake_peer).(PeerRecord_node_id)) stale canonical h peers Hp Hb).
    by destruct (resolve_connection _ _ _ _ _ _ _ _). }
  intros [|reason|replaced records] Hr.
  - apply ok_bind; [by apply ok_emit; repeat constructor | done].
  - apply ok_bind; [by apply ok_emit; repeat constructor | done].
  - apply ok_try; [apply ok_save; by eapply Hr|intros _].
    apply ok_bind; [apply ok_emit; destruct replaced; by repeat constructor|intros _].
    apply ok_bind; [by apply ok_event|intros _]. apply ok_try; [apply greet_ok|intros _].
    apply ok_bind; [apply ok_spawn, writer_ok|intros _]. apply serve_ok.
Qed.

Lemma connection_task_ok connection outbound : ok (connection_task config identity connection outbound) any.
Proof.
  unfold connection_task. apply ok_bind; [apply ok_now|intros now].
  apply ok_bind; [apply ok_reading|intros nonce]. apply ok_try; [done|intros hello].
  apply ok_try; [apply write_message_ok|intros _]. apply ok_try; [apply first_hello_ok|].
  intros [remote_hello incoming].
  eapply (safe_try _ _ _ _ _ (fun _ => bound remote_hello.(Hello_record)));
    [apply verify_hello_ok | done |]. intros minor Hb.
  apply ok_bind; [by apply ok_read_peers|intros known]. apply ok_bind; [apply ok_now|intros now'].
  apply ok_try; [done|intros own]. apply ok_try; [apply write_message_ok|intros _].
  apply ok_bind; [apply ok_next_connection_id|intros connection_id]. by apply run_connection_ok.
Qed.

Lemma accept_ok connection : ok (accept config identity connection) any.
Proof.
  unfold accept. apply ok_bind; [by apply ok_read_peers|intros connected].
  destruct (_ <=? _); [apply ok_bind; [apply ok_count_metric|intros _]; by apply ok_emit; repeat constructor|].
  apply ok_spawn, safe_ignore, connection_task_ok.
Qed.

(** ** Dialing and sending *)
Lemma outbound_connection_ok address :
  effect_ok config (Effect_Dial address) -> ok (outbound_connection config identity address) any.
Proof.
  intros Ha. apply ok_try; [|intros connection; apply connection_task_ok].
  apply safe_atomic. intros e s Hs. split; [done | split; [by apply progress_same|]].
  split; [by apply Forall_singleton | done].
Qed.

Lemma backoff_failure_bounded now state : (backoff_failure now state).(AddressBackoff_failures) <= 8.
Proof. unfold backoff_failure. cbn -[N.min sat_add]. lia. Qed.

Lemma connect_address_ok address : ok (connect_address config identity address) any.
Proof.
  unfold connect_address, try_task at 1. cbn [tbind].
  destruct (SocketAddr_parse address) as [parsed|] eqn:Hp; [cbn [ok_or]|done].
  destruct (negb _ && negb _) eqn:Hpolicy; [done|].
  assert (Hdial : effect_ok config (Effect_Dial parsed)).
  { exists address. split; [done|]. apply andb_false_iff in Hpolicy as [Hc|Hc];
      apply negb_false_iff in Hc; auto. }
  apply ok_bind; [by apply ok_read_peers|]. intros connected. destruct connected; [done|].
  apply ok_bind; [apply ok_same_core; intros e s; by destruct (bool_decide _); split_and!|].
  intros inserted. destruct (negb inserted); [done|].
  apply ok_bind; [apply ok_same_core; intros e s; repeat case_match; by split_and!|].
  intros waiting. destruct waiting; [done|]. apply ok_bind; [|done]. apply ok_spawn.
  apply ok_bind; [by apply outbound_connection_ok|]. intros r.
  apply ok_bind; [apply ok_updating_core; intros e s; by split_and!|]. intros _.
  apply safe_updating. intros e s []. split; [|by apply progress_same]. split; cbn; try done.
  destruct r; [by apply map_Forall_delete|]. apply map_Forall_insert_2; [apply backoff_failure_bounded | done].
Qed.

Lemma connect_all_ok addresses :
  ok (for_task (fun address => ignore (connect_address config identity address)) addresses) any.
Proof. apply safe_for, Forall_forall. intros address _. apply safe_ignore, connect_address_ok. Qed.

Lemma poll_sender_ok attempts node : ok (poll_sender attempts node) any.
Proof.
  induction attempts as [|attempts IH]; cbn [poll_sender]; [done|].
  apply ok_bind; [by apply ok_read_peers|]. intros [sender|]; [done|].
  apply ok_bind; [apply ok_reading | done].
Qed.

Lemma send_direct_ok node message : ok (send_direct config identity node message) any.
Proof.
  unfold send_direct. apply ok_try; [by apply ok_read_peers|]. intros sender.
  apply ok_try.
  - destruct sender; [done|]. apply ok_try; [by apply ok_read_peers|]. intros addresses.
    apply ok_bind; [apply connect_all_ok|]. intros _. by apply ok_bind; [apply poll_sender_ok|].
  - intros [sender'|]; [|done]. apply ok_try; [by apply ok_read_peers|]. intros _. apply ok_channel_send.
Qed.

Lemma relay_candidates_ok : ok (relay_candidates identity) any.
Proof. by apply ok_read_peers. Qed.

Lemma send_via_relay_ok relay target message : ok (send_via_relay identity relay target message) any.
Proof.
  unfold send_via_relay. destruct (bool_decide _); [done|]. apply ok_try; [done|intros _].
  apply ok_try; [done|intros payload]. destruct (_ <? _); [done|].
  apply ok_bind; [apply ok_same_core; intros e s; repeat case_match; by split_and!|].
  intros session_id. apply ok_try; [done|intros bytes]. apply ok_try; [by apply ok_read_peers|].
  intros sender. apply ok_channel_send.
Qed.

Lemma remember_route_ok target relay : ok (remember_route target relay) any.
Proof. apply ok_updating_core. intros e s. by split_and!. Qed.

Lemma try_relays_ok relays target message : ok (try_relays identity relays target message) any.
Proof.
  induction relays as [|relay relays IH]; cbn [try_relays]; [done|].
  apply ok_bind; [apply send_via_relay_ok|]. intros []; [|done].
  apply ok_bind; [apply remember_route_ok | done].
Qed.

Lemma poll_relays_ok attempts target message : ok (poll_relays identity attempts target message) any.
Proof.
  induction attempts as [|attempts IH]; cbn [poll_relays]; [done|].
  apply ok_bind; [apply relay_candidates_ok|]. intros candidates.
  apply ok_bind; [apply try_relays_ok|]. intros sent. destruct sent; [done|].
  apply ok_bind; [apply ok_reading | done].
Qed.

Lemma send_via_relay_for_target_ok target message :
  ok (send_via_relay_for_target config identity target message) any.
Proof.
  unfold send_via_relay_for_target. apply ok_bind; [apply ok_reading|intros preferred].
  apply ok_bind; [apply relay_candidates_ok|intros known]. destruct (is_empty _).
  - apply ok_bind; [apply connect_all_ok|intros _]. apply ok_bind; [apply poll_relays_ok | done].
  - apply ok_bind; [apply try_relays_ok|]. intros sent. destruct sent; [done|].
    apply ok_bind; [|done]. apply ok_updating_core. intros e s. by split_and!.
Qed.

Lemma attempt_ok cond (t otherwise : net unit) : ok t any -> ok otherwise any -> ok (attempt cond t otherwise) any.
Proof. intros Ht Ho. unfold attempt. destruct cond; [|done]. apply ok_bind; [done|]. by intros []. Qed.

Lemma send_to_ok node message : ok (send_to config identity node message) any.
Proof.
  unfold send_to. set (allowed := match message with Message_RelayEnvelope _ => false | _ => true end).
  apply ok_bind; [destruct allowed; [by apply ok_read_peers | done]|]. intros available.
  apply attempt_ok; [apply send_direct_ok|]. apply attempt_ok; [apply send_via_relay_for_target_ok|].
  apply ok_bind; [apply ok_reading|]. intros route.
  apply attempt_ok; [destruct route; [apply send_via_relay_ok | done]|].
  apply attempt_ok; [apply send_direct_ok|]. destruct allowed; [apply send_via_relay_for_target_ok | done].
Qed.

Lemma reconnect_attempts_ok todo done node addresses :
  ok (reconnect_attempts config identity todo done node addresses) any.
Proof.
  revert done. induction todo as [|todo IH]; intros tried; cbn [reconnect_attempts]; [done|].
  apply ok_bind; [by apply ok_read_peers|]. intros connected. destruct connected; [done|].
  apply ok_bind; [|intros _; apply ok_bind; [apply ok_reading | auto]].
  destruct (_ =? 0)%nat; [|done]. apply safe_for, Forall_forall. intros address _.
  apply ok_bind; [|intros _; apply safe_ignore, connect_address_ok].
  apply safe_updating. intros e s []. split; [|by apply progress_same]. split; cbn; try done.
  by apply map_Forall_delete.
Qed.

Lemma reconnect_peer_ok node : ok (reconnect_peer config identity node) any.
Proof.
  apply ok_try.
  - apply ok_on_peers. intros e peers Hp. by destruct (forget_link_ok config node peers Hp).
  - intros [addresses connection].
    apply ok_bind; [apply ok_emit; destruct connection; by repeat constructor|].
    intros _. apply reconnect_attempts_ok.
Qed.

(** ** Maintenance *)
Lemma readvertise_ok record : ok (readvertise config identity record) any.
Proof.
  unfold readvertise. apply ok_bind; [apply ok_or_default, dht_find_node_ok|]. intros contacts.
  apply safe_for, Forall_forall. intros contact _. apply safe_ignore, dht_rpc_ok.
Qed.

Lemma maintenance_pass_ok : ok (maintenance_pass config identity) any.
Proof.
  unfold maintenance_pass. apply ok_bind; [by apply ok_read_peers|intros addresses].
  apply ok_bind; [apply connect_all_ok|intros _]. apply ok_bind.
  { destruct (NetworkConfig_hole_punch_enabled _); [|done].
    apply ok_bind; [apply ok_reading|intros records].
    by apply ok_bind; [apply ok_next_address_sequence|]. }
  intros update. apply ok_bind; [apply ok_now|intros now].
  eapply (safe_tbind _ _ _ _ _ _ (fun r => Forall (fun record => verify_dht_record record = true) r.1
    /\ Forall (fun contact => verify_announcement contact = true) r.2)).
  { apply ok_on_dht. intros e dht Hd. pose proof (dht_expire_ok config local dht now Hd) as Hd'.
    split; [done|]. split.
    - apply stored_records; [exact (dht_store_ok _ _ _ Hd') | exact (dht_records_signed _ _ _ Hd')].
    - apply closest_held. exact (dht_contacts_signed _ _ _ Hd'). }
  intros [records contacts] [Hr Hc]. cbn in Hr, Hc.
  apply ok_bind; [by apply safe_ignore, ok_save|intros _].
  apply ok_bind; [by apply safe_ignore, ok_save|intros _].
  apply ok_bind; [apply safe_for, Forall_forall; intros record _; apply readvertise_ok|intros _].
  eapply (safe_tbind _ _ _ _ _ _ (fun peers => Forall bound (values peers.(PeerState_records)))).
  { apply ok_on_peers. intros e peers Hp. destruct (prune_peers_ok config now peers Hp).
    split_and!; [done..|]. by eapply records_values. }
  intros peers Hp. apply ok_bind; [destruct update; [by apply ok_try_send_all | done]|].
  intros _. by apply safe_ignore, ok_save.
Qed.

Lemma entry_ok_task t : entry config identity t -> ok t any.
Proof.
  intros []; [apply accept_ok | apply maintenance_pass_ok | apply safe_ignore..].
  - apply connect_address_ok.
  - apply send_to_ok.
  - apply send_direct_ok.
  - apply reconnect_peer_ok.
  - apply authenticated_ping_ok.
  - apply dht_publish_ok.
  - apply dht_lookup_ok.
  - apply dht_find_node_ok.
Qed.
End ConnectionTasks.

(** * Safety of a running node

    The consequences of [NetworkPool] for every state a node can reach and every effect it can
    have, from a start with what its store had kept, however its tasks interleave. *)

Section Claims.
Context `{Blake3} `{!Blake3Laws} `{Ed25519} `{Ed25519Signer} `{SignedPostcard} `{Postcard str}.
Context (config : NetworkConfig) (identity : Identity).
Notation local := identity.(Identity_node_id).

(** The store had kept what a node saves (see [effects_authentic]). *)
Definition loaded_ok (loaded : Loaded) : Prop :=
  Forall bound loaded.(Loaded_peer_records) /\ Forall rotation_signed loaded.(Loaded_key_rotations).

Lemma collect_Forall {A} (key : A -> NodeId) (P : A -> Prop) items :
  Forall P items -> map_Forall (fun id item => key item = id /\ P item) (collect key items).
Proof.
  intros Hp. unfold collect.
  assert (Hgen : forall m : gmap NodeId A, map_Forall (fun id item => key item = id /\ P item) m ->
    map_Forall (fun id item => key item = id /\ P item)
      (fold_left (fun m item => <[key item := item]> m) items m)).
  { induction Hp as [|item items Hi Hp IH]; intros m Hm; cbn; [done|].
    apply IH. by apply map_Forall_insert_2. }
  apply Hgen, map_Forall_empty.
Qed.

Lemma start_table_ok now contacts table :
  table_reachable local config.(NetworkConfig_dht_k) DEFAULT_REPLACEMENT_CACHE table ->
  held (fun contact => verify_announcement contact = true) table ->
  let table' := fold_left (fun table contact =>
      if verify_announcement contact then (DhtTable_insert table contact now).2 else table)
    contacts table in
  table_reachable local config.(NetworkConfig_dht_k) DEFAULT_REPLACEMENT_CACHE table'
  /\ held (fun contact => verify_announcement contact = true) table'.
Proof.
  revert table. induction contacts as [|contact contacts IH]; intros table Hr Hh; cbn; [done|].
  destruct (verify_announcement contact) eqn:Hv; [|by apply IH]. apply IH.
  - eapply reach_step; [done|]. constructor. by apply announcement_id_wf.
  - by apply (held_insert (fun contact => verify_announcement contact = true)).
Qed.

Lemma start_store_ok now records store :
  store_reachable config.(NetworkConfig_dht_max_records) DEFAULT_MAX_RECORDS_PER_KEY store ->
  stored (fun record => verify_dht_record record = true) store ->
  let store' := fold_left (fun store record =>
      if verify_dht_record record
         && dht_expiry_valid record now config.(NetworkConfig_peer_ttl_seconds)
      then (DhtStore_put store record now).2 else store) records store in
  store_reachable config.(NetworkConfig_dht_max_records) DEFAULT_MAX_RECORDS_PER_KEY store'
  /\ stored (fun record => verify_dht_record record = true) store'.
Proof.
  revert store. induction records as [|record records IH]; intros store Hr Hs; cbn; [done|].
  destruct (verify_dht_record record) eqn:Hv; cbn [andb]; [|by apply IH].
  destruct (dht_expiry_valid _ _ _); [|by apply IH]. apply IH.
  - eapply reach_store_step; [done | constructor].
  - apply stored_put; [|done..]. by destruct (store_reachable_ok _ _ _ Hr).
Qed.

Lemma start_ok now loaded :
  loaded_ok loaded -> shared_ok config identity (start_state config identity now loaded).
Proof.
  intros [Hr Hk].
  edestruct (start_table_ok now loaded.(Loaded_dht_contacts)) as [Ht Hh];
    [constructor | apply held_new |].
  edestruct (start_store_ok now loaded.(Loaded_dht_records)) as [Hs Hst];
    [constructor | apply stored_new |].
  split; cbn [start_state Shared_peers Shared_dht Shared_seen_hellos Shared_observed_addresses
    Shared_relay_sessions Shared_address_backoff].
  - split; cbn [PeerState_records PeerState_announcements PeerState_address_updates
      PeerState_rotations PeerState_senders].
    + apply collect_Forall. by apply Forall_filter_b.
    + apply map_Forall_empty.
    + apply map_Forall_empty.
    + by apply collect_Forall.
    + by unfold links_agree.
    + unfold msize. rewrite map_size_empty. lia.
  - split; try done.
    + cbn. rewrite size_empty. lia.
    + cbn. split_and!; [done | constructor | unfold len; cbn; lia].
  - rewrite size_empty. lia.
  - unfold len. cbn. lia.
  - unfold msize. rewrite map_size_empty. lia.
  - apply map_Forall_empty.
Qed.

Lemma node_reaches_ok now loaded out s :
  loaded_ok loaded -> node_reaches config identity now loaded out s ->
  shared_ok config identity s /\ Forall (effect_ok config) out.
Proof.
  intros Hl (ts & Hs).
  edestruct (pool_steps_safe _ _ _ _ _ _ _ (entry_ok_task config identity) Hs) as (? & _ & ? & _);
    [by apply start_ok | constructor | done].
Qed.

(** ** From one start to the next *)

(** What is loaded was saved before; without a file nothing is loaded.  The records and contacts of
    the DHT are checked again when they are loaded, so they may come from anywhere. *)
Definition kept_files (past : list Effect) (loaded : Loaded) : Prop :=
  (loaded.(Loaded_peer_records) = [] \/ Effect_SavePeerRecords loaded.(Loaded_peer_records) ∈ past) /\
  (loaded.(Loaded_key_rotations) = [] \/ Effect_SaveKeyRotations loaded.(Loaded_key_rotations) ∈ past).

(** The states a node reaches, and its effects up to there, from its first start with an empty store
    over any number of restarts. *)
Inductive node_lives : list Effect -> Shared -> Prop :=
  | first_life now loaded out s :
      kept_files [] loaded -> node_reaches config identity now loaded out s -> node_lives out s
  | next_life past s0 now loaded out s :
      node_lives past s0 -> kept_files past loaded -> node_reaches config identity now loaded out s ->
      node_lives (past ++ out) s.

Lemma kept_files_ok past loaded : Forall (effect_ok config) past -> kept_files past loaded -> loaded_ok loaded.
Proof.
  intros Hp [Hr Hk]. rewrite Forall_forall in Hp.
  split; [destruct Hr as [->|Hin] | destruct Hk as [->|Hin]]; try constructor; exact (Hp _ Hin).
Qed.

Lemma node_lives_ok out s : node_lives out s -> shared_ok config identity s /\ Forall (effect_ok config) out.
Proof.
  induction 1 as [now loaded out s Hk Hs|past s0 now loaded out s _ [_ IH] Hk Hs].
  - eapply node_reaches_ok, Hs. by apply (kept_files_ok []).
  - destruct (node_reaches_ok now loaded out s) as [Hok Hout]; [by eapply kept_files_ok | done |].
    split; [done | by apply Forall_app].
Qed.

(** (C2) However the tasks of a node interleave, over any number of restarts in which it reads back
    the peer records and rotations that it had saved itself, all it holds about other peers is
    theirs: every peer record belongs to the identity that is the digest of its key; every
    announcement, address update and key rotation, every contact of the routing table and every
    record of the DHT store verifies under the key of the identity it speaks for.  (Peer records and
    rotations are not verified again when they are loaded: files that someone else has put in their
    place are outside of this.) *)
Theorem peer_state_authentic out s :
  node_lives out s ->
  map_Forall (fun id record => record.(PeerRecord_node_id) = id /\ bound record)
    s.(Shared_peers).(PeerState_records)
  /\ map_Forall (fun id announcement => contact_id announcement = id
       /\ verify_announcement announcement = true) s.(Shared_peers).(PeerState_announcements)
  /\ map_Forall (fun id update => update.(AddressUpdate_node_id) = id /\ own_update update)
       s.(Shared_peers).(PeerState_address_updates)
  /\ map_Forall (fun id rotation => rotation.(KeyRotation_new_node_id) = id /\ rotation_signed rotation)
       s.(Shared_peers).(PeerState_rotations)
  /\ Forall (fun contact => verify_announcement contact = true)
       (table_contacts s.(Shared_dht).(DhtRuntime_table))
  /\ forall k record, record ∈ values_at k s.(Shared_dht).(DhtRuntime_store).(DhtStore_records) ->
       verify_dht_record record = true.
Proof.
  intros Hs. destruct (node_lives_ok _ _ Hs) as [[[] [] _ _ _ _] _].
  split_and!; try done. by apply held_contacts.
Qed.

(** (C8) However the tasks of a node interleave, what it keeps stays within its limits: at most
    [max_connections] peers are connected, with the same peers in all five maps of connections;
    the requests in flight, the request ids and hello nonces remembered, the observed addresses
    and the relay sessions are bounded; routing table and record store satisfy their invariants
    with the configured bounds. *)
Theorem node_limits_kept now loaded out s :
  id_wf local -> loaded_ok loaded -> node_reaches config identity now loaded out s ->
  msize s.(Shared_peers).(PeerState_senders) <= config.(NetworkConfig_max_connections)
  /\ links_agree s.(Shared_peers)
  /\ N.of_nat (size s.(Shared_dht).(DhtRuntime_pending)) <= pending_limit config
  /\ N.of_nat (size s.(Shared_dht).(DhtRuntime_seen_requests)) <= MAX_SEEN_DHT_REQUESTS
  /\ N.of_nat (size s.(Shared_seen_hellos)) <= 4096
  /\ len s.(Shared_observed_addresses) <= 16
  /\ msize s.(Shared_relay_sessions) <= config.(NetworkConfig_relay_max_sessions)
  /\ table_ok s.(Shared_dht).(DhtRuntime_table)
  /\ store_ok s.(Shared_dht).(DhtRuntime_store)
  /\ s.(Shared_dht).(DhtRuntime_store).(DhtStore_max_records)
     = N.max config.(NetworkConfig_dht_max_records) 1.
Proof.
  intros Hwf Hl Hs. destruct (node_reaches_ok _ _ _ _ Hl Hs) as [[[] [Ht ? Hst ? ? (He & Hnd & Hlen)] ? ? ? _] _].
  destruct (table_reachable_ok _ _ _ _ Hwf Ht) as [Htok _].
  destruct (store_reachable_ok _ _ _ Hst) as (Hsok & Hmax & _).
  split; [done|]. split; [done|]. split_and!; try done.
  rewrite He, size_list_to_set by done. exact Hlen.
Qed.

(** However the tasks of a node interleave, its effects are sound: only bound peer records,
    signed rotations, verified DHT records and contacts are saved; only verified announcements and
    rotations are passed on; a job request is reported only as coming from the peer it names; and
    only configured addresses or addresses that the policy allows are dialed. *)
Theorem effects_authentic now loaded out s :
  loaded_ok loaded -> node_reaches config identity now loaded out s ->
  Forall (effect_ok config) out.
Proof. intros Hl Hs. by destruct (node_reaches_ok _ _ _ _ Hl Hs). Qed.

(** Between any two states of a running node, the address update it holds for a peer and the
    rotation it holds for an identity are never lost nor replaced by one with a smaller sequence. *)
Theorem sequences_never_roll_back now loaded out s ts out' s' ts' :
  loaded_ok loaded ->
  pool_steps (entry config identity) (start_state config identity now loaded, []) out (s, ts) ->
  pool_steps (entry config identity) (s, ts) out' (s', ts') ->
  advances AddressUpdate_sequence s.(Shared_peers).(PeerState_address_updates)
    s'.(Shared_peers).(PeerState_address_updates)
  /\ advances KeyRotation_sequence s.(Shared_peers).(PeerState_rotations)
       s'.(Shared_peers).(PeerState_rotations).
Proof.
  intros Hl Hs Hs'.
  edestruct (pool_steps_safe _ _ _ _ _ _ _ (entry_ok_task config identity) Hs) as (Hi & _ & _ & Hts);
    [by apply start_ok | constructor |].
  by destruct (pool_steps_safe _ _ _ _ _ _ _ (entry_ok_task config identity) Hs' Hi Hts) as (_ & ? & _).
Qed.
End Claims.
