(* ===== verification/NetworkExamples.v ===== *)
(** * Sample executions of a node

    A toy signature scheme and serializer that satisfy the laws the network relies on, and runs of
    the tasks over them: the witnesses of [NetworkClaims]. *)

From Stdlib Require Import String ZArith NArith Lia.
From stdpp Require Import base tactics sets strings numbers list gmap.
From S2P Require Import Prelude Tasks OrdMap Types Validation Codec SocketAddr Dht DhtFacts Trust FileSystem Storage NetAddr Network Peers Transport Connections NetworkFacts NetworkPool.
Local Open Scope N_scope.
Local Open Scope rust_scope.

(** The last bytes of the input, in 32 bytes. *)
Definition net_hash : Blake3 :=
  fun bs => firstn 32 (map (fun b => b mod 256) (rev bs) ++ repeat 0 32).

Lemma net_hash_laws : @Blake3Laws net_hash.
Proof.
  split; unfold blake3, net_hash; intros bs.
  - rewrite length_firstn, length_app, repeat_length. lia.
  - apply Forall_take, Forall_app. split; [|by repeat constructor].
    apply Forall_forall. intros b Hb%list_elem_of_In. apply in_map_iff in Hb as (x & <- & _).
    by apply N.mod_lt.
Qed.

Definition net_sign (secret bytes : list N) : list N := firstn 64 (secret ++ bytes ++ repeat 0 64).

Definition net_signer : Ed25519Signer := {| verifying_key := id; sign_with := net_sign |}.

Definition net_verifier : Ed25519 := fun key bytes signature => bool_decide (signature = net_sign key bytes).

Lemma net_signature_laws : @Ed25519Laws net_verifier net_signer.
Proof.
  split.
  - intros secret bytes. by apply bool_decide_eq_true_2.
  - intros secret bytes. cbn. unfold net_sign.
    rewrite length_firstn, !length_app, repeat_length. lia.
Qed.

Definition net_signed_postcard : SignedPostcard :=
  {| hello_to_allocvec := fun v => Ok v.1.1;
     record_to_allocvec := fun record => Ok [record.(PeerRecord_announced_at)];
     rotation_to_allocvec := fun v => Ok [v.1.1.2];
     addresses_to_allocvec := fun v => Ok [v.1.2];
     relay_to_allocvec := fun v => Ok v.2;
     dht_record_to_allocvec := fun v => Ok v.2;
     observation_to_allocvec := fun v => Ok v.2 |}.

Definition net_postcard : Postcard str :=
  {| to_allocvec := fun _ => Ok [1; 2; 3]; from_bytes := fun _ => Err "unsupported"%string |}.

#[local] Existing Instances net_hash net_hash_laws net_verifier net_signer net_signed_postcard
  net_postcard.

Definition ex_identity (n : N) : Identity :=
  {| Identity_signing_key := [n];
     Identity_public_key := [n];
     Identity_node_id := NodeId_from_public_key [n];
     Identity_rotation := None |}.

Definition ex_config : NetworkConfig := NetworkConfig_default.

(** Everything is open and no timer has run out. *)
Definition ex_env (now : N) (random : list N) : Env :=
  {| env_now := now;
     env_elapsed := fun _ => false;
     env_liveness := mkLiveness (fun _ => false) (fun _ => false);
     env_storage := None;
     env_random := random;
     env_write := None;
     env_dial := fun _ => Err "unreachable"%string |}.

(** The rotation from key 2 to key 3, signed by both. *)
Definition ex_rotation : KeyRotation :=
  {| KeyRotation_old_node_id := NodeId_from_public_key [2];
     KeyRotation_old_public_key := [2];
     KeyRotation_new_node_id := NodeId_from_public_key [3];
     KeyRotation_new_public_key := [3];
     KeyRotation_sequence := 5;
     KeyRotation_valid_from := 900;
     KeyRotation_valid_until := 2000;
     KeyRotation_old_signature := net_sign [2] [5];
     KeyRotation_new_signature := net_sign [3] [5] |}.

Definition ex_loaded : Loaded := mkLoaded [] [ex_rotation] [] [].

Definition ex_start : Shared := start_state ex_config (ex_identity 1) 1000 ex_loaded.

(** Publishing a name: the record is signed, stored and saved. *)
Definition ex_publish : task unit :=
  ignore (dht_publish ex_config (ex_identity 1) DhtNamespace_Model "model" [7; 8] 300 1).

Definition ex_run : task unit * Shared * list Effect :=
  run_task ex_publish (repeat (ex_env 1000 []) 12) ex_start.

Definition ex_published : Shared := ex_run.1.2.

Lemma ex_loaded_ok : loaded_ok ex_loaded.
Proof. split; constructor; [|constructor]. vm_compute. by split_and!. Qed.

Lemma ex_steps : exists ts,
  pool_steps (entry ex_config (ex_identity 1)) (ex_start, []) ex_run.2 (ex_published, ts).
Proof.
  destruct (run_task_pool (entry ex_config (ex_identity 1)) ex_publish (ex_run.1.1)
    (repeat (ex_env 1000 []) 12) ex_start ex_published ex_run.2 [ex_publish] 0) as (ts & Hs & _).
  - unfold ex_published, ex_run. by destruct (run_task _ _ _) as [[? ?] ?].
  - done.
  - exists ts. change ex_run.2 with ([] ++ ex_run.2).
    eapply pool_steps_trans; [|exact Hs]. apply pool_steps_one. by apply (pool_entry _ _ _ []); constructor.
Qed.

(** The run is not trivial: it ends, with one record stored and saved. *)
Example ex_run_stores :
  ex_run.1.1 = Done tt
  /\ len (DhtStore_get_records ex_published.(Shared_dht).(DhtRuntime_store) 1000) = 1
  /\ ex_run.2 <> [].
Proof. vm_compute. split_and!; done. Qed.

Lemma ex_reaches : node_reaches ex_config (ex_identity 1) 1000 ex_loaded ex_run.2 ex_published.
Proof. exact ex_steps. Qed.

Definition ex_key : DhtNamespace * DhtKey :=
  (DhtNamespace_Model, DhtKey_for_name DhtNamespace_Model "model").

(** A first life with an empty store, in which the name is published, and a second one that reads back
    the record that was saved. *)
Definition ex_nothing : Loaded := mkLoaded [] [] [] [].

Definition ex_born : task unit * Shared * list Effect :=
  run_task ex_publish (repeat (ex_env 1000 []) 12) (start_state ex_config (ex_identity 1) 1000 ex_nothing).

Definition ex_reloaded : Loaded :=
  mkLoaded [] [] (DhtStore_get_records ex_born.1.2.(Shared_dht).(DhtRuntime_store) 1000) [].

Definition ex_reborn : Shared := start_state ex_config (ex_identity 1) 1001 ex_reloaded.

Lemma ex_lives : node_lives ex_config (ex_identity 1) (ex_born.2 ++ []) ex_reborn.
Proof.
  apply (next_life _ _ ex_born.2 ex_born.1.2 1001 ex_reloaded []).
  - apply (first_life _ _ 1000 ex_nothing); [split; by left|].
    apply (pool_serves (entry ex_config (ex_identity 1)) ex_publish (repeat (ex_env 1000 []) 12) _ []). constructor.
  - split; by left.
  - exists []. apply pool_refl.
Qed.

Lemma peer_state_authentic_witness :
  exists record,
    values_at ex_key ex_reborn.(Shared_dht).(DhtRuntime_store).(DhtStore_records) = [record]
    /\ verify_dht_record record = true.
Proof.
  eexists. split; [vm_compute; reflexivity|].
  apply (proj2 (proj2 (proj2 (proj2 (proj2 (peer_state_authentic ex_config (ex_identity 1) (ex_born.2 ++ [])
    ex_reborn ex_lives))))) ex_key).
  vm_compute. by left.
Defined.

Lemma node_limits_kept_witness :
  N.of_nat (size ex_published.(Shared_dht).(DhtRuntime_pending)) <= 80.
Proof.
  apply (node_limits_kept ex_config (ex_identity 1) 1000 ex_loaded ex_run.2 ex_published);
    [apply key_id_wf | exact ex_loaded_ok | exact ex_reaches].
Defined.

Lemma effects_authentic_witness : Forall (effect_ok ex_config) ex_run.2.
Proof.
  apply (effects_authentic ex_config (ex_identity 1) 1000 ex_loaded ex_run.2 ex_published
    ex_loaded_ok ex_reaches).
Defined.

Lemma sequences_never_roll_back_witness :
  exists rotation,
    ex_published.(Shared_peers).(PeerState_rotations) !! NodeId_from_public_key [3] = Some rotation
    /\ 5 <= rotation.(KeyRotation_sequence).
Proof.
  destruct ex_steps as [ts Hs].
  apply (proj2 (sequences_never_roll_back ex_config (ex_identity 1) 1000 ex_loaded [] ex_start []
    ex_run.2 ex_published ts ex_loaded_ok (pool_refl _ _) Hs) (NodeId_from_public_key [3]) ex_rotation).
  vm_compute. reflexivity.
Defined.
