(* ===== verification/NetworkLookups.v ===== *)
(** * What lookups return

    The iterative lookup of nodes and of records: whatever other tasks do between its steps and
    whatever the queried peers answer. *)

From Stdlib Require Import String ZArith NArith Lia Sorted.
From stdpp Require Import base tactics sets strings numbers list sorting gmap.
From S2P Require Import Prelude Tasks OrdMap Types Validation Codec SocketAddr Dht DhtFacts Trust FileSystem Storage NetAddr Network Peers Transport Connections NetworkFacts NetworkPool NetworkExamples.
Local Open Scope N_scope.
Local Open Scope rust_scope.

(** ** Keeping the nearest *)
Section Nearest.
Context {A K : Type} `{OrdLaws K} (key : A -> K).

(** [x] is there, or [k] others that are no farther. *)
Definition covered (k : N) (x : A) (xs : list A) : Prop :=
  x ∈ xs \/ k <= count (fun y => leb (key y) (key x)) xs.

Lemma covered_grow k x xs ys : covered k x xs -> covered k x (xs ++ ys).
Proof.
  intros [Hx|Hk]; [left; set_solver|]. right. rewrite count_app. lia.
Qed.

Lemma count_take_sorted v m xs :
  key_sorted key xs ->
  count (fun y => leb (key y) v) (take m xs)
  = N.min (N.of_nat m) (count (fun y => leb (key y) v) xs).
Proof.
  intros Hs. revert m. induction Hs as [|x xs Hs IH Hall]; intros [|m];
    cbn [take]; rewrite ?count_nil; try lia.
  rewrite !count_cons, IH. destruct (leb (key x) v) eqn:Hx; cbn [b2N]; [lia|].
  enough (Hz : count (fun y => leb (key y) v) xs = 0) by (rewrite Hz; lia).
  apply count_zero. eapply Forall_impl; [exact Hall|]. intros y Hy. cbn in Hy.
  destruct (leb (key y) v) eqn:Hyv; [|done]. rewrite (leb_trans _ _ _ Hy Hyv) in Hx. done.
Qed.

(** The nearest [m] cover what all of them covered. *)
Lemma covered_shortlist k x m xs :
  (k <= N.of_nat m) -> covered k x xs -> covered k x (take m (sort_by_key key xs)).
Proof.
  intros Hm Hc. pose proof (sort_by_key_sorted key xs) as Hs. destruct Hc as [Hx|Hk].
  - apply (elem_of_sort_by_key key) in Hx. rewrite <- (take_drop m (sort_by_key key xs)) in Hx.
    apply elem_of_app in Hx as [Hx|Hx]; [by left|]. right.
    assert (Hlen : length (take m (sort_by_key key xs)) = m).
    { rewrite length_take. destruct (decide (length (sort_by_key key xs) <= m)%nat) as [Hle|]; [|lia].
      rewrite drop_ge in Hx by done. by apply not_elem_of_nil in Hx. }
    rewrite <- (take_drop m (sort_by_key key xs)) in Hs. apply StronglySorted_app in Hs as (Hcross & _ & _).
    assert (Hall : List.filter (fun y => leb (key y) (key x)) (take m (sort_by_key key xs))
      = take m (sort_by_key key xs)).
    { apply forallb_filter_id, forallb_forall. intros y Hy%list_elem_of_In. by apply Hcross. }
    unfold count. rewrite Hall. unfold len. lia.
  - right. rewrite count_take_sorted by done. rewrite (count_perm _ _ _ (sort_by_key_perm key xs)). lia.
Qed.

Lemma covered_full k x xs :
  len xs <= k -> covered k x xs -> x ∈ xs \/ (len xs = k /\ forall y, y ∈ xs -> leb (key y) (key x) = true).
Proof.
  intros Hl [Hx|Hk]; [by left|]. right.
  assert (Hsplit : count (fun y => leb (key y) (key x)) xs
    + count (fun y => negb (leb (key y) (key x))) xs = len xs).
  { clear. induction xs as [|y xs IH]; [done|]. rewrite !count_cons, len_cons.
    destruct (leb (key y) (key x)); cbn [b2N negb]; lia. }
  assert (Hz : count (fun y => negb (leb (key y) (key x))) xs = 0) by lia. split; [lia|].
  apply count_zero in Hz. rewrite Forall_forall in Hz. intros y Hy. apply negb_false_iff. by apply Hz.
Qed.
End Nearest.

(** ** The lookup of nodes *)
Section Lookups.
Context `{Blake3} `{!Blake3Laws} `{Ed25519} `{Ed25519Signer} `{SignedPostcard} `{Postcard str}.
Context (config : NetworkConfig) (identity : Identity).
Notation local := identity.(Identity_node_id).
Notation ok := (safe (shared_ok config identity) shared_progress (effect_ok config)).
Notation any := (fun _ => True).

Lemma ok_then {A B} (t : task A) (k : A -> task B) Q :
  ok t any -> (forall a, ok (k a) Q) -> ok (tbind t k) Q.
Proof. intros Ht Hk. eapply safe_tbind; [exact Ht | auto]. Qed.

Lemma ok_try_then {A B} (t : net A) (k : A -> net B) (Q : B -> Prop) :
  ok t any -> (forall a, ok (k a) (fun r => forall b, r = Ok b -> Q b)) ->
  ok (try_task t k) (fun r => forall b, r = Ok b -> Q b).
Proof.
  intros Ht Hk. eapply (safe_try _ _ _ _ _ any); [by eapply safe_mono | done | auto].
Qed.

(** Distinct signed contacts, none of them this node. *)
Definition contacts_sound (contacts : list SignedAnnouncement) : Prop :=
  NoDup (contact_id <$> contacts)
  /\ Forall (fun contact => verify_announcement contact = true /\ contact_id contact <> local) contacts.

Lemma contacts_sound_snoc contacts contact :
  contacts_sound contacts -> verify_announcement contact = true -> contact_id contact <> local ->
  existsb (fun item => contact_id item == contact_id contact) contacts = false ->
  contacts_sound (contacts ++ [contact]).
Proof.
  intros [Hnd Hall] Hv Hl Hnew. split; [|apply Forall_app; split; [done | by apply Forall_singleton]].
  rewrite fmap_app. apply NoDup_app. split_and!; [done| |apply NoDup_singleton].
  intros id (item & -> & Hi)%list_elem_of_fmap Heq%list_elem_of_singleton.
  enough (existsb (fun item => contact_id item == contact_id contact) contacts = true) by congruence.
  apply existsb_exists. exists item. split; [by apply list_elem_of_In | by apply bool_decide_eq_true_2].
Qed.

Lemma contacts_sound_sub xs ys :
  contacts_sound xs -> ys `sublist_of` xs -> contacts_sound ys.
Proof.
  intros [Hnd Hall] Hs. split; [by eapply sublist_NoDup; [exact Hnd | apply fmap_sublist]|].
  apply Forall_forall. intros c Hc. rewrite Forall_forall in Hall. apply Hall. by eapply elem_of_sublist.
Qed.

Lemma contacts_sound_nearest target n xs :
  contacts_sound xs -> contacts_sound (truncate n (nearest_first target xs)).
Proof.
  intros [Hnd Hall]. rewrite truncate_take. eapply contacts_sound_sub; [|apply sublist_take].
  unfold nearest_first. split; rewrite sort_by_key_perm; done.
Qed.

(** A list of candidates that grew. *)
Definition grown (candidates candidates' : list SignedAnnouncement) : Prop :=
  contacts_sound candidates' /\ exists more, candidates' = candidates ++ more.

Lemma grown_trans xs ys zs : grown xs ys -> grown ys zs -> grown xs zs.
Proof.
  intros [_ [more ->]] [Hs [more' ->]]. split; [done|]. exists (more ++ more'). by rewrite app_assoc.
Qed.

Lemma grown_refl xs : contacts_sound xs -> grown xs xs.
Proof. intros Hs. split; [done|]. exists []. by rewrite app_nil_r. Qed.

Lemma absorb_sound remote candidates changed :
  contacts_sound candidates ->
  ok (absorb config identity remote candidates changed)
     (fun r => forall p, r = Ok p -> grown candidates p.1).
Proof.
  revert candidates changed. induction remote as [|contact remote IH]; intros candidates changed Hs; cbn [absorb].
  { intros p [= <-]. by apply grown_refl. }
  apply ok_then; [apply ok_now|]. intros now. destruct (negb _) eqn:Ha; [auto|].
  apply negb_false_iff in Ha. unfold acceptable in Ha. breflect.
  apply ok_try_then; [by apply upsert_peer_ok|]. intros _. destruct (existsb _ _) eqn:He; [auto|].
  assert (Hg : contacts_sound (candidates ++ [contact])) by (by apply contacts_sound_snoc).
  eapply safe_mono; [by apply IH|]. intros r Hr p Hp.
  eapply grown_trans; [|by apply Hr]. split; [done | by exists [contact]].
Qed.

Lemma absorb_all_sound handles candidates changed :
  contacts_sound candidates ->
  ok (absorb_all config identity handles candidates changed)
     (fun r => forall p, r = Ok p -> grown candidates p.1).
Proof.
  revert candidates changed. induction handles as [|handle handles IH]; intros candidates changed Hs;
    cbn [absorb_all].
  { intros p [= <-]. by apply grown_refl. }
  apply ok_then; [apply join_rpc_ok|]. intros [[]|]; auto.
  eapply safe_try; [by apply absorb_sound | done |]. intros [candidates' changed'] Hg. cbn [fst] in Hg.
  eapply safe_mono; [apply IH; by destruct Hg|]. intros r Hr p Hp.
  eapply grown_trans; [exact Hg | by apply Hr].
Qed.

(** What the rounds of a lookup make of the candidates they start from. *)
Definition improved (target : DhtKey) (candidates contacts : list SignedAnnouncement) : Prop :=
  contacts_sound contacts
  /\ forall contact, contact ∈ candidates ->
       covered (distance_to target) config.(NetworkConfig_dht_k) contact contacts.

Lemma improved_refl target xs : contacts_sound xs -> improved target xs xs.
Proof. intros Hs. split; [done|]. by left. Qed.

Lemma shortlist_improved target xs ys :
  config.(NetworkConfig_dht_k) <= usize_max ->
  improved target xs ys -> improved target xs (shortlist config target ys).
Proof.
  intros Hk [Hs Hc]. split; [by apply contacts_sound_nearest|]. intros c Hin.
  unfold shortlist. rewrite truncate_take. apply (covered_shortlist (distance_to target)); [|by apply Hc].
  rewrite N2Nat.id. unfold sat_mul. lia.
Qed.

Lemma grown_improved target xs ys zs : improved target xs ys -> grown ys zs -> improved target xs zs.
Proof.
  intros [_ Hc] [Hs [more ->]]. split; [done|]. intros c Hin. by apply covered_grow, Hc.
Qed.

Lemma find_rounds_sound rounds target start candidates queried :
  config.(NetworkConfig_dht_k) <= usize_max -> improved target start candidates ->
  ok (find_rounds config identity rounds target candidates queried)
     (fun r => forall contacts, r = Ok contacts -> improved target start contacts).
Proof.
  intros Hk. revert candidates queried. induction rounds as [|rounds IH]; intros candidates queried Hi;
    cbn [find_rounds]; [by intros ? [= <-]|].
  apply ok_then; [apply ok_reading|]. intros late. destruct late; [by intros ? [= <-]|].
  pose proof (shortlist_improved target _ _ Hk Hi) as Hi'.
  destruct (next_batch _ _ _) as [batch queried']. destruct (is_empty batch); [by intros ? [= <-]|].
  apply ok_then; [apply spawn_rpcs_ok|]. intros handles.
  eapply safe_try; [apply absorb_all_sound; by destruct Hi' | done|].
  intros [candidates' changed] Hg. cbn [fst] in Hg.
  pose proof (grown_improved target _ _ _ Hi' Hg). destruct changed; [auto | by intros ? [= <-]].
Qed.

(** The local answer that a lookup starts from. *)
Lemma local_candidates_sound s target now :
  id_wf (target_id target) -> id_wf local -> shared_ok config identity s ->
  contacts_sound (DhtTable_closest_diverse s.(Shared_dht).(DhtRuntime_table) target
                    config.(NetworkConfig_dht_k) now).
Proof.
  intros Ht Hl [_ [Hr Hc _ _ _ _] _ _ _ _].
  destruct (table_reachable_ok _ _ _ _ Hl Hr) as (Hok & Hlocal & _).
  destruct (DhtTable_closest_ok _ target usize_max now Hok Ht) as [_ Hnd _ Hlive _].
  destruct (diverse_selection address_prefix contact_id config.(NetworkConfig_dht_k) _ Hnd) as [Hsub Hnd' _ _].
  split; [exact Hnd'|]. apply Forall_forall. intros c Hcin. apply Hsub, Hlive in Hcin as [Hcin _].
  apply held_contacts in Hc. rewrite Forall_forall in Hc. split; [by apply Hc|].
  rewrite <- Hlocal. by apply (table_contacts_ok _ c Hok).
Qed.

Definition nearer_than (target : DhtKey) (c d : SignedAnnouncement) : Prop :=
  distance (contact_id c) (target_id target) < distance (contact_id d) (target_id target).

Lemma nearest_first_strict target xs :
  id_wf (target_id target) -> contacts_sound xs ->
  StronglySorted (nearer_than target) (nearest_first target xs).
Proof.
  intros Ht Hs. unfold nearest_first.
  assert (Hwf : forall c, c ∈ sort_by_key (distance_to target) xs -> id_wf (contact_id c)).
  { intros c Hc%elem_of_sort_by_key. destruct Hs as [_ Hall]. rewrite Forall_forall in Hall.
    by apply announcement_id_wf, Hall. }
  assert (Hnd : NoDup (contact_id <$> sort_by_key (distance_to target) xs)).
  { rewrite sort_by_key_perm. by destruct Hs. }
  pose proof (sort_by_key_sorted (distance_to target) xs) as Hsort. revert Hwf Hnd.
  induction Hsort as [|c cs _ IH Hall]; intros Hwf Hnd; constructor.
  - apply IH; [set_solver|]. rewrite fmap_cons in Hnd. by apply NoDup_cons in Hnd as [_ ?].
  - apply Forall_forall. intros d Hd. rewrite Forall_forall in Hall. specialize (Hall d Hd).
    rewrite fmap_cons in Hnd. apply NoDup_cons in Hnd as [Hc _].
    assert (Hwc : id_wf (contact_id c)) by (apply Hwf; set_solver).
    assert (Hwd : id_wf (contact_id d)) by (apply Hwf; set_solver).
    apply leb_le_or in Hall as [Heq|Hlt].
    + destruct Hc. rewrite (xor_distance_inj _ _ _ Hwc Hwd Ht Heq). by apply list_elem_of_fmap_2.
    + unfold distance_to in Hlt. rewrite distance_cmp in Hlt by done. by apply N.compare_lt_iff.
Qed.

(** A state that the node can be in. *)
Definition node_state (now : N) (loaded : Loaded) (s : Shared) : Prop :=
  exists out, node_reaches config identity now loaded out s.

Lemma node_state_ok now loaded s :
  loaded_ok loaded -> node_state now loaded s -> shared_ok config identity s.
Proof. intros Hl [out Hr]. by destruct (node_reaches_ok _ _ _ _ _ _ Hl Hr). Qed.

Lemma dht_find_node_sound target :
  config.(NetworkConfig_dht_k) <= usize_max -> id_wf local -> id_wf (target_id target) ->
  ok (dht_find_node config identity target) (fun r => forall contacts, r = Ok contacts ->
    len contacts <= config.(NetworkConfig_dht_k) /\ contacts_sound contacts
    /\ StronglySorted (nearer_than target) contacts).
Proof.
  intros Hk Hl Ht. unfold dht_find_node. destruct (negb _); [by intros ? [=]|].
  eapply safe_tbind.
  { apply safe_reading; [apply _|]. intros e s Hs. exact (local_candidates_sound s target e.(env_now) Ht Hl Hs). }
  intros candidates Hc. cbn beta in Hc.
  eapply safe_try; [apply (find_rounds_sound _ _ candidates); [done | by apply improved_refl] | by intros ? ? [=]|].
  intros found [Hf _] contacts [= <-]. split_and!.
  - rewrite truncate_take. unfold len. rewrite length_take. lia.
  - by apply contacts_sound_nearest.
  - pose proof (nearest_first_strict target found Ht Hf) as Hs. rewrite truncate_take.
    rewrite <- (take_drop (N.to_nat config.(NetworkConfig_dht_k)) (nearest_first target found)) in Hs.
    by apply StronglySorted_app in Hs as (_ & ? & _).
Qed.

(** (C29) A node lookup returns at most [k] distinct contacts, nearest first, none of them the node
    itself and each with a valid signature of its own identity: whatever the queried peers answer
    and whatever the other tasks of the node do between the steps of the lookup. *)
Theorem find_node_sound now loaded target contacts :
  config.(NetworkConfig_dht_k) <= usize_max -> id_wf local -> id_wf (target_id target) ->
  loaded_ok loaded ->
  outcome (node_state now loaded) (dht_find_node config identity target) (Ok contacts) ->
  len contacts <= config.(NetworkConfig_dht_k)
  /\ NoDup (contact_id <$> contacts)
  /\ Forall (fun contact => verify_announcement contact = true /\ contact_id contact <> local) contacts
  /\ StronglySorted (nearer_than target) contacts.
Proof.
  intros Hk Hl Ht Hload Ho.
  destruct (safe_outcome _ _ _ (node_state now loaded) _ _ _ (fun s => node_state_ok now loaded s Hload)
    (dht_find_node_sound target Hk Hl Ht) Ho contacts eq_refl) as (? & [? ?] & ?).
  done.
Qed.

(** The rounds of a lookup never lose ground: each contact it started from is among the ones
    returned, or [k] contacts are returned that are all at least as near. *)
Theorem lookup_never_worse now loaded target candidates found :
  config.(NetworkConfig_dht_k) <= usize_max -> id_wf (target_id target) -> loaded_ok loaded ->
  contacts_sound candidates ->
  outcome (node_state now loaded) (find_rounds config identity 8 target candidates ∅) (Ok found) ->
  let returned := truncate config.(NetworkConfig_dht_k) (nearest_first target found) in
  forall contact, contact ∈ candidates ->
    contact ∈ returned
    \/ (len returned = config.(NetworkConfig_dht_k)
        /\ forall other, other ∈ returned ->
             distance (contact_id other) (target_id target)
             <= distance (contact_id contact) (target_id target)).
Proof.
  intros Hk Ht Hload Hs Ho returned contact Hin.
  destruct (safe_outcome _ _ _ (node_state now loaded) _ _ _ (fun s => node_state_ok now loaded s Hload)
    (find_rounds_sound 8 target candidates candidates ∅ Hk (improved_refl target _ Hs)) Ho found eq_refl)
    as [Hf Hc].
  assert (Hr : contacts_sound returned) by (by apply contacts_sound_nearest).
  assert (Hlen : len returned <= config.(NetworkConfig_dht_k)).
  { subst returned. rewrite truncate_take. unfold len. rewrite length_take. lia. }
  assert (Hcov : covered (distance_to target) config.(NetworkConfig_dht_k) contact returned).
  { subst returned. rewrite truncate_take. apply (covered_shortlist (distance_to target)); [lia | by apply Hc]. }
  destruct (covered_full _ _ _ _ Hlen Hcov) as [?|[Hfull Hall]]; [by left|]. right. split; [done|].
  intros other Ho'. specialize (Hall other Ho').
  destruct Hs as [_ Hs], Hr as [_ Hr]. rewrite Forall_forall in Hs, Hr.
  unfold leb, distance_to in Hall. rewrite distance_cmp in Hall;
    [|by apply announcement_id_wf, Hr|by apply announcement_id_wf, Hs|done].
  apply N.compare_le_iff. unfold target_id. intros Hgt. by rewrite Hgt in Hall.
Qed.

(** ** The lookup of records *)

Definition record_sound (namespace : DhtNamespace) (key : DhtKey) (record : DhtRecord) : Prop :=
  verify_dht_record record = true /\ record.(DhtRecord_namespace) = namespace
  /\ record.(DhtRecord_key) = key.

Lemma absorb_records_sound namespace key remote records :
  Forall (record_sound namespace key) records ->
  ok (absorb_records config namespace key remote records)
     (fun r => forall records', r = Ok records' -> Forall (record_sound namespace key) records').
Proof.
  revert records. induction remote as [|record remote IH]; intros records Hs; cbn [absorb_records].
  { by intros ? [= <-]. }
  destruct (_ && _) eqn:Hg; [|auto]. breflect.
  apply ok_try_then; [apply store_dht_record_ok|]. intros _. destruct (existsb _ _); [auto|].
  apply IH, Forall_app. split; [done|]. by apply Forall_singleton.
Qed.

Lemma absorb_reads_sound namespace key handles records :
  Forall (record_sound namespace key) records ->
  ok (absorb_reads config namespace key handles records)
     (fun r => forall records', r = Ok records' -> Forall (record_sound namespace key) records').
Proof.
  revert records. induction handles as [|handle handles IH]; intros records Hs; cbn [absorb_reads].
  { by intros ? [= <-]. }
  apply ok_then; [apply join_rpc_ok|]. intros [[]|]; auto.
  eapply safe_try; [by apply absorb_records_sound | done | auto].
Qed.

Lemma local_records_sound dht namespace key now limit :
  dht_ok config local dht ->
  Forall (record_sound namespace key) (DhtStore_get_diverse dht.(DhtRuntime_store) namespace key now limit).1.
Proof.
  intros Hok. pose proof (dht_store_ok _ _ _ Hok) as Hst.
  destruct (store_lookup_spec dht.(DhtRuntime_store) namespace key now limit Hst) as (Hp & _ & [Hsub _ _ _]).
  apply Forall_forall. intros r Hr. apply Hsub in Hr. rewrite Hp in Hr.
  apply elem_of_filter_b in Hr as [Hr _].
  pose proof (entry_keyed _ _ _ (values_at_ok _ (namespace, key) _ (store_entries _ Hst))) as Hk.
  rewrite Forall_forall in Hk. specialize (Hk r Hr). injection Hk as Hn Hkey.
  split; [|done]. by apply (dht_records_signed _ _ _ Hok (namespace, key)).
Qed.

(** By owner, and the newest record of an owner first. *)
Definition record_before (r r' : DhtRecord) : Prop :=
  cmp (NodeId_0 r.(DhtRecord_owner)) (NodeId_0 r'.(DhtRecord_owner)) = Lt
  \/ (r.(DhtRecord_owner) = r'.(DhtRecord_owner)
      /\ r'.(DhtRecord_sequence) < r.(DhtRecord_sequence)).

Lemma lookup_result_sorted now records : StronglySorted record_before (lookup_result now records).
Proof.
  unfold lookup_result.
  set (key := fun r => (NodeId_0 r.(DhtRecord_owner), mkReverse r.(DhtRecord_sequence))).
  pose proof (dedup_by_key_strict (fun r => (r.(DhtRecord_owner), r.(DhtRecord_sequence))) key
    (sort_by_key key (List.filter (record_live now) records))) as Hs.
  assert (Hstrict : StronglySorted (fun r r' => cmp (key r) (key r') = Lt)
    (dedup_by_key (fun r => (r.(DhtRecord_owner), r.(DhtRecord_sequence)))
       (sort_by_key key (List.filter (record_live now) records)))).
  { apply Hs; [apply sort_by_key_sorted|]. intros r r' _ _. unfold key.
    destruct (DhtRecord_owner r), (DhtRecord_owner r'). cbn. split; congruence. }
  clear Hs. induction Hstrict as [|r rs _ IH Hall]; constructor; [done|].
  eapply Forall_impl; [exact Hall|]. intros r' Hlt. unfold key in Hlt. revert Hlt.
  unfold record_before, cmp at 1, Ord_prod, then_with. cbn [fst snd].
  destruct (cmp (NodeId_0 _) (NodeId_0 _)) eqn:Ho; [|by left|done].
  apply cmp_eq in Ho. unfold cmp, Ord_Reverse, cmp, Ord_N. cbn. intros Hlt%N.compare_lt_iff.
  right. split; [|done]. destruct (DhtRecord_owner r), (DhtRecord_owner r'). by f_equal.
Qed.

Lemma lookup_result_sub now records record :
  record ∈ lookup_result now records -> record ∈ records /\ record_live now record = true.
Proof.
  unfold lookup_result. intros Hr. eapply elem_of_sublist in Hr; [|apply dedup_by_key_sublist].
  by apply elem_of_sort_by_key, elem_of_filter_b in Hr.
Qed.

Lemma dht_lookup_sound namespace name :
  ok (dht_lookup config identity namespace name) (fun r => forall records, r = Ok records ->
    Forall (record_sound namespace (DhtKey_for_name namespace name)) records
    /\ StronglySorted record_before records).
Proof.
  unfold dht_lookup. destruct (_ || _); [by intros ? [=]|].
  set (key := DhtKey_for_name namespace name).
  eapply (safe_tbind _ _ _ _ _ _ (Forall (record_sound namespace key))).
  { apply ok_on_dht. intros e dht Hd.
    pose proof (dht_get_ok config local dht namespace key e.(env_now) MAX_DHT_RECORDS Hd) as Hg.
    pose proof (local_records_sound dht namespace key e.(env_now) MAX_DHT_RECORDS Hd) as Hl.
    destruct (DhtStore_get_diverse _ _ _ _ _). by destruct Hg. }
  intros records Hr. apply ok_try_then; [apply dht_find_node_ok|]. intros contacts.
  apply ok_then; [apply spawn_rpcs_ok|]. intros handles.
  eapply safe_try; [by apply absorb_reads_sound | by intros ? ? [=]|].
  intros records' Hr'. apply ok_then; [apply ok_now|]. intros later. apply ok_then.
  { destruct (is_empty _); [done|]. apply ok_update_dht. by intros dht []. }
  intros _ result [= <-]. split; [|apply lookup_result_sorted].
  apply Forall_forall. intros r [Hin _]%lookup_result_sub. rewrite Forall_forall in Hr'. auto.
Qed.

(** A record lookup returns only records of the name asked for, each signed by the identity
    that owns it, ordered by owner with the newest first and no record twice: whatever the queried
    peers answer and whatever the other tasks of the node do meanwhile. *)
Theorem record_lookup_sound now loaded namespace name records :
  loaded_ok loaded ->
  outcome (node_state now loaded) (dht_lookup config identity namespace name) (Ok records) ->
  Forall (record_sound namespace (DhtKey_for_name namespace name)) records
  /\ StronglySorted record_before records.
Proof.
  intros Hload Ho.
  by apply (safe_outcome _ _ _ (node_state now loaded) _ _ _ (fun s => node_state_ok now loaded s Hload)
    (dht_lookup_sound namespace name) Ho records eq_refl).
Qed.
End Lookups.

(** ** Samples *)

(** The result of a task whose sections all run in the same state. *)
Fixpoint result_at {A : Type} (t : task A) (e : Env) (s : Shared) : option A :=
  match t with
  | Done a => Some a
  | Step f k => match f e s with Some (x, _, _) => result_at (k x) e s | None => None end
  | Fork _ k => result_at k e s
  end.

Lemma result_at_outcome (J : Shared -> Prop) {A : Type} (t : task A) e s a :
  J s -> result_at t e s = Some a -> outcome J t a.
Proof.
  intros HJ. induction t as [A b|A X f k IH|A t _ k IH]; cbn.
  - intros [= <-]. constructor.
  - destruct (f e s) as [[[x s'] out]|] eqn:Hf; [|done]. intros Hr. eapply outcome_step; eauto.
  - intros Hr. constructor. auto.
Qed.

#[local] Existing Instances net_hash net_hash_laws net_verifier net_signer net_signed_postcard
  net_postcard.

(** The announcements of nodes 2 and 3, as [sign_announcement] makes them. *)
Definition ex_contact (n : N) : SignedAnnouncement :=
  {| SignedAnnouncement_record := local_record ex_config (ex_identity n) 1000;
     SignedAnnouncement_signature := net_sign [n] [1000] |}.

Definition ex_contacts_loaded : Loaded := mkLoaded [] [] [] [ex_contact 2; ex_contact 3].

Definition ex_contacts_start : Shared := start_state ex_config (ex_identity 1) 1000 ex_contacts_loaded.

(** The deadline of the lookup has passed: it answers from the table. *)
Definition ex_late : Env :=
  {| env_now := 1000;
     env_elapsed := fun timer => match timer with Timer_Lookup => true | _ => false end;
     env_liveness := mkLiveness (fun _ => false) (fun _ => false);
     env_storage := None;
     env_random := [];
     env_write := None;
     env_dial := fun _ => Err "unreachable"%string |}.

Definition ex_target : DhtKey := DhtKey_for_name DhtNamespace_Model "model".

Lemma ex_target_wf : id_wf (target_id ex_target).
Proof. split; [done|]. repeat constructor. Qed.

Lemma ex_contacts_ok : loaded_ok ex_contacts_loaded.
Proof. split; constructor. Qed.

Lemma ex_contacts_state : node_state ex_config (ex_identity 1) 1000 ex_contacts_loaded ex_contacts_start.
Proof. exists [], []. apply pool_refl. Qed.

Lemma find_node_sound_witness :
  StronglySorted (nearer_than ex_target) [ex_contact 2; ex_contact 3].
Proof.
  apply (find_node_sound ex_config (ex_identity 1) 1000 ex_contacts_loaded ex_target
    [ex_contact 2; ex_contact 3]);
    [vm_compute; discriminate | apply key_id_wf | exact ex_target_wf | exact ex_contacts_ok
    | apply (result_at_outcome _ _ ex_late ex_contacts_start); [exact ex_contacts_state | vm_compute; reflexivity]].
Defined.

Lemma ex_contact_sound : contacts_sound (ex_identity 1) [ex_contact 3].
Proof. split; [apply NoDup_singleton | apply Forall_singleton]. vm_compute. by split. Qed.

Lemma lookup_never_worse_witness :
  ex_contact 3 ∈ truncate 20 (nearest_first ex_target [ex_contact 3])
  \/ (len (truncate 20 (nearest_first ex_target [ex_contact 3])) = 20
      /\ forall other, other ∈ truncate 20 (nearest_first ex_target [ex_contact 3]) ->
           distance (contact_id other) (target_id ex_target)
           <= distance (contact_id (ex_contact 3)) (target_id ex_target)).
Proof.
  apply (lookup_never_worse ex_config (ex_identity 1) 1000 ex_contacts_loaded ex_target
    [ex_contact 3] [ex_contact 3]);
    [vm_compute; discriminate | exact ex_target_wf | exact ex_contacts_ok | exact ex_contact_sound
    | apply (result_at_outcome _ _ ex_late ex_contacts_start); [exact ex_contacts_state | vm_compute; reflexivity]
    | by apply list_elem_of_singleton].
Defined.

(** The records that the sample node finds under the name it published. *)
Definition ex_found : list DhtRecord :=
  match result_at (dht_lookup ex_config (ex_identity 1) DhtNamespace_Model "model") ex_late ex_published with
  | Some (Ok records) => records
  | _ => []
  end.

Lemma record_lookup_sound_witness :
  len ex_found = 1 /\ Forall (record_sound DhtNamespace_Model ex_target) ex_found.
Proof.
  split; [vm_compute; reflexivity|].
  apply (record_lookup_sound ex_config (ex_identity 1) 1000 ex_loaded DhtNamespace_Model "model" ex_found);
    [exact ex_loaded_ok|].
  apply (result_at_outcome _ _ ex_late ex_published); [exact (ex_intro _ ex_run.2 ex_reaches)|].
  vm_compute. reflexivity.
Defined.
