(* ===== verification/NetworkProtocol.v ===== *)
(** * Functional behaviour of the network's protocol steps

    The admission of DHT requests counted exactly, the budget of relay sessions, which of several
    connections to a peer stays, what an accepted hello says, frames on a stream, and what a lookup
    returns; then the cases in which the code does not do what it means to. *)

From Stdlib Require Import String ZArith NArith Lia Sorted.
From stdpp Require Import base tactics sets strings numbers list gmap.
From S2P Require Import Prelude Tasks OrdMap Types Validation Codec SocketAddr Dht DhtFacts Trust FileSystem Storage NetAddr Network Peers Transport Connections NetworkFacts NetworkPool NetworkExamples.
Local Open Scope N_scope.
Local Open Scope rust_scope.

(** ** Admission of DHT requests *)

(** A request as it arrives: the time, the authenticated peer and the request id. *)
Record Arrival := mkArrival {
  Arrival_now : N;
  Arrival_peer : NodeId;
  Arrival_id : RequestId
}.

Definition arrival_window (a : Arrival) : N := a.(Arrival_now) / DHT_REQUEST_WINDOW_SECONDS.

(** Requests one after the other: what became of each, and the state afterwards. *)
Fixpoint admit_all (dht : DhtRuntime) (arrivals : list Arrival) : list Admission * DhtRuntime :=
  match arrivals with
  | [] => ([], dht)
  | a :: arrivals =>
      let (r, dht) := admit_request a.(Arrival_now) a.(Arrival_peer) a.(Arrival_id) dht in
      let (rs, dht) := admit_all dht arrivals in (r :: rs, dht)
  end.

(** The requests of a peer in a window. *)
Definition of_window (peer : NodeId) (window : N) (a : Arrival) : bool :=
  (a.(Arrival_peer) == peer) && (arrival_window a =? window).

(** How many of them were let past the rate limit. *)
Definition passed (peer : NodeId) (window : N) (arrivals : list Arrival) (rs : list Admission) : N :=
  count (fun p : Arrival * Admission => of_window peer window p.1 && (p.2 != Admission_RateLimited))
    (zip arrivals rs).

Lemma admit_all_snoc dht arrivals a :
  admit_all dht (arrivals ++ [a])
  = let (rs, dht) := admit_all dht arrivals in
    let (r, dht) := admit_request a.(Arrival_now) a.(Arrival_peer) a.(Arrival_id) dht in
    (rs ++ [r], dht).
Proof.
  revert dht. induction arrivals as [|b arrivals IH]; intros dht; cbn.
  - by destruct (admit_request _ _ _ dht).
  - destruct (admit_request _ _ _ dht) as [r dht1]. rewrite IH.
    destruct (admit_all dht1 arrivals) as [rs dht2]. by destruct (admit_request _ _ _ dht2).
Qed.

Lemma admit_all_length dht arrivals : length (admit_all dht arrivals).1 = length arrivals.
Proof.
  revert dht. induction arrivals as [|a arrivals IH]; intros dht; cbn; [done|].
  destruct (admit_request _ _ _ dht) as [r dht1]. specialize (IH dht1).
  destruct (admit_all dht1 arrivals). cbn in *. by rewrite IH.
Qed.

(** What one request does to the budgets, and when it is let past. *)
Lemma admit_request_budget now peer id dht :
  let budget := window_budget now peer dht.(DhtRuntime_request_windows) in
  let r := admit_request now peer id dht in
  (r.1 = Admission_RateLimited <-> DHT_REQUESTS_PER_WINDOW <= budget.2)
  /\ r.2.(DhtRuntime_request_windows)
     = <[peer := (budget.1, if DHT_REQUESTS_PER_WINDOW <=? budget.2 then budget.2
                           else budget.2 + 1)]> dht.(DhtRuntime_request_windows).
Proof.
  cbn zeta. unfold admit_request. set (budget := window_budget _ _ _). clearbody budget.
  destruct budget as [w c]. cbn [fst snd].
  destruct (DHT_REQUESTS_PER_WINDOW <=? c) eqn:Hc; breflect.
  - split; [done | cbn]. done.
  - assert (Hadd : sat_add u32_max c 1 = c + 1).
    { unfold sat_add, u32_max, DHT_REQUESTS_PER_WINDOW in *. lia. }
    rewrite Hadd. repeat case_match; simplify_eq; cbn; (split; [split; [done | lia] | done]).
Qed.

(** The budget kept for a peer is the number of its requests in its last window, up to the limit. *)
Definition budgets_ok (arrivals : list Arrival) (windows : gmap NodeId (N * N)) : Prop :=
  forall peer,
    match windows !! peer with
    | None => Forall (fun a => a.(Arrival_peer) <> peer) arrivals
    | Some (w, c) =>
        c = N.min DHT_REQUESTS_PER_WINDOW (count (of_window peer w) arrivals)
        /\ Forall (fun a => a.(Arrival_peer) = peer -> arrival_window a <= w) arrivals
        /\ exists a, a ∈ arrivals /\ arrival_window a = w
    end.

Lemma of_window_false peer window a :
  (a.(Arrival_peer) = peer -> arrival_window a <> window) -> of_window peer window a = false.
Proof.
  intros Hw. unfold of_window. destruct (bool_decide _) eqn:Hp; [|done]. breflect. cbn.
  apply N.eqb_neq. auto.
Qed.

(** The number of earlier requests in the window of the next one is its budget. *)
Lemma window_budget_ok arrivals windows a :
  budgets_ok arrivals windows -> Forall (fun b => arrival_window b <= arrival_window a) arrivals ->
  window_budget a.(Arrival_now) a.(Arrival_peer) windows
  = (arrival_window a,
     N.min DHT_REQUESTS_PER_WINDOW (count (of_window a.(Arrival_peer) (arrival_window a)) arrivals)).
Proof.
  intros Hok Hle. rewrite Forall_forall in Hle. specialize (Hok a.(Arrival_peer)).
  unfold window_budget. fold (arrival_window a). destruct (windows !! _) as [[w c]|]; cbn.
  - destruct Hok as (-> & Hw & b & Hb & <-). rewrite Forall_forall in Hw. apply Hle in Hb.
    destruct (_ =? _) eqn:Heq; breflect; [by rewrite Heq|].
    rewrite (proj2 (count_zero (of_window _ (arrival_window a)) _)); [done|].
    apply Forall_forall. intros x Hx. apply of_window_false. intros Hp. specialize (Hw x Hx Hp). lia.
  - rewrite N.eqb_refl, (proj2 (count_zero _ _)); [done|]. eapply Forall_impl; [exact Hok|]. intros x Hx.
    by apply of_window_false.
Qed.

Lemma passed_snoc peer window arrivals rs a r :
  length rs = length arrivals ->
  passed peer window (arrivals ++ [a]) (rs ++ [r])
  = passed peer window arrivals rs
    + if of_window peer window a && (r != Admission_RateLimited) then 1 else 0.
Proof.
  intros Hl. unfold passed. rewrite zip_with_app by done. cbn [zip_with]. by rewrite count_snoc.
Qed.

Lemma of_window_self a : of_window a.(Arrival_peer) (arrival_window a) a = true.
Proof. unfold of_window. by rewrite bool_decide_eq_true_2, N.eqb_refl. Qed.

Lemma budgets_ok_step arrivals a dht :
  budgets_ok arrivals dht.(DhtRuntime_request_windows) ->
  Forall (fun b => arrival_window b <= arrival_window a) arrivals ->
  let r := admit_request a.(Arrival_now) a.(Arrival_peer) a.(Arrival_id) dht in
  budgets_ok (arrivals ++ [a]) r.2.(DhtRuntime_request_windows)
  /\ (r.1 = Admission_RateLimited <->
      DHT_REQUESTS_PER_WINDOW <= count (of_window a.(Arrival_peer) (arrival_window a)) arrivals).
Proof.
  intros Hok Hle. cbn zeta.
  destruct (admit_request_budget a.(Arrival_now) a.(Arrival_peer) a.(Arrival_id) dht) as [Hr Hw].
  cbn zeta in Hr, Hw. rewrite (window_budget_ok _ _ _ Hok Hle) in Hr, Hw. cbn [fst snd] in Hr, Hw.
  split; [|rewrite Hr; lia]. intros peer. rewrite Hw.
  destruct (decide (a.(Arrival_peer) = peer)) as [<-|Hne].
  - rewrite lookup_insert_eq. split_and!.
    + rewrite count_snoc, of_window_self. destruct (_ <=? _) eqn:Hc; breflect; lia.
    + apply Forall_app. split; [by eapply Forall_impl; [exact Hle|] | by apply Forall_singleton].
    + exists a. split; [set_solver | done].
  - rewrite lookup_insert_ne by done. specialize (Hok peer).
    destruct (_ !! peer) as [[w c]|].
    + destruct Hok as (-> & Hwin & b & Hb & Hbw). split_and!.
      * rewrite count_snoc, of_window_false, N.add_0_r by done. done.
      * apply Forall_app. split; [done | by apply Forall_singleton].
      * exists b. split; [set_solver | done].
    + apply Forall_app. split; [done | by apply Forall_singleton].
Qed.

(** Times that never go back. *)
Definition in_time_order (arrivals : list Arrival) : Prop :=
  StronglySorted (fun a b => a.(Arrival_now) <= b.(Arrival_now)) arrivals.

Lemma in_time_order_snoc arrivals a :
  in_time_order (arrivals ++ [a]) ->
  in_time_order arrivals /\ Forall (fun b => arrival_window b <= arrival_window a) arrivals.
Proof.
  unfold in_time_order. induction arrivals as [|b arrivals IH]; cbn; intros Hs.
  - split; constructor.
  - inversion Hs as [|? ? Hs' Hall]; subst. destruct (IH Hs') as [Hs2 Hw].
    apply Forall_app in Hall as [Hall Ha]. rewrite Forall_singleton in Ha.
    split; [by constructor|]. constructor; [|done]. unfold arrival_window. by apply N.Div0.div_le_mono.
Qed.

Lemma rate_limit_counts dht arrivals :
  dht.(DhtRuntime_request_windows) = ∅ -> in_time_order arrivals ->
  let rs := admit_all dht arrivals in
  budgets_ok arrivals rs.2.(DhtRuntime_request_windows)
  /\ forall peer window,
       passed peer window arrivals rs.1
       = N.min DHT_REQUESTS_PER_WINDOW (count (of_window peer window) arrivals).
Proof.
  intros He. induction arrivals as [|a arrivals IH] using rev_ind; intros Hs; cbn zeta.
  - split; [|done]. intros peer. cbn. by rewrite He, lookup_empty.
  - apply in_time_order_snoc in Hs as [Hs Hle]. specialize (IH Hs). cbn zeta in IH.
    pose proof (admit_all_length dht arrivals) as Hl. rewrite admit_all_snoc.
    destruct (admit_all dht arrivals) as [rs dht']. cbn [fst snd] in *. destruct IH as [Hok Hpass].
    destruct (budgets_ok_step arrivals a dht' Hok Hle) as [Hok' Hr].
    destruct (admit_request _ _ _ dht') as [r dht'']. cbn [fst snd] in *. split; [done|].
    intros peer window. rewrite passed_snoc, count_snoc, Hpass by done.
    destruct (of_window peer window a) eqn:How; cbn [andb]; [|lia].
    apply andb_true_iff in How as [Hp Hw]. breflect. subst peer window.
    destruct (decide (r = Admission_RateLimited)) as [->|Hne].
    + rewrite bool_decide_eq_true_2 by done. cbn. destruct Hr as [Hr _]. specialize (Hr eq_refl). lia.
    + rewrite bool_decide_eq_false_2 by done. cbn.
      assert (~ DHT_REQUESTS_PER_WINDOW <= count (of_window a.(Arrival_peer) (arrival_window a)) arrivals)
        by (by rewrite <- Hr). lia.
Qed.

(** The rate limit is exact: of the requests of a peer in one window of 60 seconds, the first
    128 are let past and no more, whatever other peers send and whichever request ids are used, as
    long as the clock does not go back. *)
Theorem dht_rate_limit_exact dht arrivals peer window :
  dht.(DhtRuntime_request_windows) = ∅ -> in_time_order arrivals ->
  passed peer window arrivals (admit_all dht arrivals).1
  = N.min DHT_REQUESTS_PER_WINDOW (count (of_window peer window) arrivals).
Proof. intros He Hs. by apply rate_limit_counts. Qed.

(** ** The memory of request ids *)

(** The last [n] elements. *)
Definition lastn {A} (n : N) (xs : list A) : list A := drop (N.to_nat (len xs - n)) xs.

(** The ids of the requests that were processed, in order. *)
Definition processed (arrivals : list Arrival) (rs : list Admission) : list RequestId :=
  (fun p : Arrival * Admission => p.1.(Arrival_id))
    <$> List.filter (fun p : Arrival * Admission => p.2 == Admission_Admitted) (zip arrivals rs).

Lemma processed_snoc arrivals rs a r :
  length rs = length arrivals ->
  processed (arrivals ++ [a]) (rs ++ [r])
  = processed arrivals rs ++ (if r == Admission_Admitted then [a.(Arrival_id)] else []).
Proof.
  intros Hl. unfold processed. rewrite zip_with_app by done. cbn [zip_with].
  rewrite List.filter_app, fmap_app. cbn. by destruct (bool_decide _).
Qed.

Lemma lastn_snoc {A} (n : N) (xs : list A) x :
  0 < n -> lastn n (lastn n xs ++ [x]) = lastn n (xs ++ [x]).
Proof.
  intros Hn. unfold lastn. rewrite !len_app, (eq_refl : len [x] = 1).
  assert (Hl : len (drop (N.to_nat (len xs - n)) xs) = N.min (len xs) n).
  { unfold len. rewrite length_drop. lia. }
  rewrite Hl, !drop_app_le; [|unfold len in *; lia..]. rewrite drop_drop.
  f_equal. f_equal. unfold len in *. lia.
Qed.

Lemma admit_request_order now peer id dht :
  dht.(DhtRuntime_seen_requests) = list_to_set dht.(DhtRuntime_request_order) ->
  len dht.(DhtRuntime_request_order) <= MAX_SEEN_DHT_REQUESTS ->
  let r := admit_request now peer id dht in
  (r.1 <> Admission_RateLimited ->
     (r.1 = Admission_Duplicate <-> id ∈ dht.(DhtRuntime_request_order)))
  /\ r.2.(DhtRuntime_request_order)
     = if r.1 == Admission_Admitted
       then lastn MAX_SEEN_DHT_REQUESTS (dht.(DhtRuntime_request_order) ++ [id])
       else dht.(DhtRuntime_request_order).
Proof.
  intros Hs Hl. cbn zeta. unfold admit_request. destruct (_ <=? _); [by split|].
  case_bool_decide as Hin; cbn in Hin; rewrite Hs, elem_of_list_to_set in Hin; [by split|].
  cbn [DhtRuntime_request_order DhtRuntime_seen_requests set_DhtRuntime_request_windows].
  set (order := _ ++ [id]).
  assert (Hlo : len order = len dht.(DhtRuntime_request_order) + 1).
  { subst order. by rewrite len_app. }
  clearbody order. unfold lastn. destruct (_ <? _) eqn:Hb; breflect.
  - destruct order as [|x order]; [unfold len in *; cbn in *; lia|]. cbn.
    split; [by split|]. replace (N.to_nat _) with 1%nat by lia. done.
  - cbn. split; [by split|]. replace (N.to_nat _) with 0%nat by lia. by rewrite drop_0.
Qed.

Lemma replay_window_tracks dht arrivals :
  seen_ok dht -> dht.(DhtRuntime_request_order) = [] ->
  let rs := admit_all dht arrivals in
  seen_ok rs.2
  /\ rs.2.(DhtRuntime_request_order) = lastn MAX_SEEN_DHT_REQUESTS (processed arrivals rs.1).
Proof.
  intros Hok He. induction arrivals as [|a arrivals IH] using rev_ind; cbn zeta; [by split|].
  pose proof (admit_all_length dht arrivals) as Hl. rewrite admit_all_snoc.
  destruct (admit_all dht arrivals) as [rs dht']. cbn [fst snd] in *. destruct IH as [Hok' Ho].
  pose proof (admit_request_seen a.(Arrival_now) a.(Arrival_peer) a.(Arrival_id) dht' Hok') as Hok''.
  pose proof Hok' as (Hseen & _ & Hlen).
  destruct (admit_request_order a.(Arrival_now) a.(Arrival_peer) a.(Arrival_id) dht' Hseen Hlen) as [_ Hor].
  destruct (admit_request _ _ _ dht') as [r dht'']. cbn [fst snd] in *. split; [done|].
  rewrite Hor, Ho, processed_snoc by done. destruct (bool_decide _); [|by rewrite app_nil_r].
  by apply lastn_snoc.
Qed.

(** (C30) The replay filter of DHT requests is exactly a window of the last 4096 processed ids: a
    request within the rate limit is answered as a duplicate if its id is among them, and
    processed otherwise. *)
Theorem dht_replay_window_exact dht arrivals a :
  seen_ok dht -> dht.(DhtRuntime_request_order) = [] ->
  let rs := admit_all dht arrivals in
  let r := (admit_request a.(Arrival_now) a.(Arrival_peer) a.(Arrival_id) rs.2).1 in
  r <> Admission_RateLimited ->
  (r = Admission_Duplicate <->
   a.(Arrival_id) ∈ lastn MAX_SEEN_DHT_REQUESTS (processed arrivals rs.1)).
Proof.
  intros Hok He rs r Hr. destruct (replay_window_tracks dht arrivals Hok He) as [Hok' Ho].
  pose proof Hok' as (Hseen & _ & Hlen). fold rs in Ho, Hseen, Hlen.
  rewrite <- Ho. by apply admit_request_order.
Qed.

(** ** Hellos *)
Section Hellos.
Context `{Blake3} `{Ed25519} `{Ed25519Signer} `{SignedPostcard}.
Context (config : NetworkConfig) (identity : Identity).

(** A hello is accepted only from another node whose identity is the digest of the key that
    signed nonce, versions and record, with a record that is current and not too long-lived, and a
    nonce not seen from it since the memory of nonces was last cleared; the negotiated minor
    version is one that both sides support. *)
Theorem verify_hello_sound hello e1 e2 s minor s' out :
  run_task (verify_hello config identity hello) [e1; e2] s = (Done (Ok minor), s', out) ->
  let record := hello.(Hello_record) in
  let supported := hello.(Hello_supported) in
  record.(PeerRecord_node_id) = NodeId_from_public_key record.(PeerRecord_public_key)
  /\ record.(PeerRecord_node_id) <> identity.(Identity_node_id)
  /\ (exists bytes, hello_to_allocvec (hello.(Hello_nonce), supported, record) = Ok bytes
        /\ ed25519_verify record.(PeerRecord_public_key) bytes hello.(Hello_signature) = true)
  /\ record_time_valid config e1.(env_now) record = true
  /\ (record.(PeerRecord_node_id), hello.(Hello_nonce)) ∉ s.(Shared_seen_hellos)
  /\ VersionRange_supports supported PROTOCOL_MAJOR minor = true
  /\ VersionRange_supports VersionRange_current PROTOCOL_MAJOR minor = true.
Proof.
  cbn zeta. unfold verify_hello, now_secs, reading, atomic, try_task. cbn [tbind run_task].
  destruct (hello_check _ _ _ _) as [[]|] eqn:Hc; cbn [tbind run_task]; [|done].
  unfold admit_hello. case_bool_decide as Hin; cbn [tbind run_task]; [done|]. intros Hrun.
  injection Hrun as <- _ _. unfold hello_check in Hc. inv_ok Hc.
  unfold VersionRange_supports. cbn [VersionRange_current VersionRange_major VersionRange_min_minor
    VersionRange_max_minor].
  split_and!; try done.
  - unfold protocol in Hok7. apply map_err_ok in Hok7. by exists r.
  - rewrite !andb_true_iff, N.eqb_eq, !N.leb_le. cbn in *. split_and!; try done; lia.
  - rewrite !andb_true_iff, N.eqb_eq, !N.leb_le. split_and!; try done; lia.
Qed.
End Hellos.

(** The memory of hello nonces is cleared as a whole when it outgrows 4096 entries, with the
    nonce just seen: that same hello is accepted a second time. *)
Theorem hello_replayed_after_clear id nonce seen :
  size seen = 4096%nat -> (id, nonce) ∉ seen ->
  admit_hello id nonce seen = Some ∅ /\ is_Some (admit_hello id nonce ∅).
Proof.
  intros Hs Hn. unfold admit_hello. rewrite !bool_decide_eq_false_2 by set_solver.
  rewrite size_union, size_singleton, Hs by set_solver. split; [done | by eexists].
Qed.
