(* ===== verification/NetworkSessions.v ===== *)
(** * Relay sessions, connections and frames

    The budget of a relay session over any sequence of envelopes, which of the connections to a
    peer stays, and reading back what was written on a stream. *)

From Stdlib Require Import String ZArith NArith Lia.
From stdpp Require Import base tactics sets strings numbers list gmap.
From S2P Require Import Prelude Tasks OrdMap Types Validation Codec SocketAddr Dht DhtFacts Trust FileSystem Storage NetAddr Network Peers Transport Connections NetworkFacts.
Local Open Scope N_scope.
Local Open Scope rust_scope.

(** ** Relay sessions *)
Section Relay.
Context (config : NetworkConfig).

(** The envelopes that a session let through since it was opened. *)
Definition Ledger : Type := gmap RequestId (list RelayEnvelope).

(** One envelope: the sessions and the ledger afterwards. A session that is no longer live starts
    over. *)
Definition relay_arrival (now : N) (envelope : RelayEnvelope)
    (state : gmap RequestId RelaySession * Ledger) : gmap RequestId RelaySession * Ledger :=
  let id := envelope.(RelayEnvelope_session_id) in
  let (sessions, ledger) := state in
  let live := filter (fun p => sat_sub now p.2.(RelaySession_last_activity) <= 60) sessions in
  let (r, sessions') := relay_budget config now envelope sessions in
  (sessions',
   match r with
   | Ok _ => <[id := match live !! id with
                     | Some _ => default [] (ledger !! id) ++ [envelope]
                     | None => [envelope]
                     end]> ledger
   | Err _ => ledger
   end).

Definition relay_run (arrivals : list (N * RelayEnvelope)) : gmap RequestId RelaySession * Ledger :=
  fold_left (fun state a => relay_arrival a.1 a.2 state) arrivals (∅, ∅).

Definition payload_bytes (envelopes : list RelayEnvelope) : N :=
  foldr (fun envelope sum => len envelope.(RelayEnvelope_payload) + sum) 0 envelopes.

Lemma payload_bytes_snoc envelopes envelope :
  payload_bytes (envelopes ++ [envelope])
  = payload_bytes envelopes + len envelope.(RelayEnvelope_payload).
Proof.
  unfold payload_bytes. induction envelopes as [|x xs IH]; cbn [foldr app]; [lia | rewrite IH; lia].
Qed.

(** What is true of a session and the envelopes it let through. *)
Record session_ok (session : RelaySession) (envelopes : list RelayEnvelope) : Prop := {
  session_counted : payload_bytes envelopes <= session.(RelaySession_bytes);
  session_parties : Forall (fun envelope =>
    envelope.(RelayEnvelope_origin) = session.(RelaySession_origin)
    /\ envelope.(RelayEnvelope_target) = session.(RelaySession_target)) envelopes;
  session_budget : payload_bytes envelopes
    <= N.max config.(NetworkConfig_relay_max_bytes) MAX_RELAY_PAYLOAD
}.

Definition ledger_ok (state : gmap RequestId RelaySession * Ledger) : Prop :=
  forall id session, state.1 !! id = Some session ->
    exists envelopes, state.2 !! id = Some envelopes /\ session_ok session envelopes.

Definition budget_holds (envelopes : list RelayEnvelope) : Prop :=
  payload_bytes envelopes <= N.max config.(NetworkConfig_relay_max_bytes) MAX_RELAY_PAYLOAD
  /\ exists origin target, Forall (fun envelope =>
       envelope.(RelayEnvelope_origin) = origin /\ envelope.(RelayEnvelope_target) = target) envelopes.

Lemma session_ok_holds session envelopes : session_ok session envelopes -> budget_holds envelopes.
Proof. intros [Hc Hp Hb]. split; [done|]. by eexists _, _. Qed.

Context (Hmax : config.(NetworkConfig_relay_max_bytes) < u64_max).

(** A live session and the envelope it lets through. *)
Lemma session_ok_snoc session envelopes envelope now :
  session_ok session envelopes ->
  envelope.(RelayEnvelope_origin) = session.(RelaySession_origin) ->
  envelope.(RelayEnvelope_target) = session.(RelaySession_target) ->
  sat_add u64_max session.(RelaySession_bytes) (len envelope.(RelayEnvelope_payload))
    <= config.(NetworkConfig_relay_max_bytes) ->
  session_ok {| RelaySession_origin := session.(RelaySession_origin);
                RelaySession_target := session.(RelaySession_target);
                RelaySession_bytes := sat_add u64_max session.(RelaySession_bytes)
                                        (len envelope.(RelayEnvelope_payload));
                RelaySession_last_activity := now |} (envelopes ++ [envelope]).
Proof.
  intros [Hc Hp Hb] Ho Ht Hle. unfold sat_add in *.
  split; cbn [RelaySession_bytes RelaySession_origin RelaySession_target];
    rewrite ?payload_bytes_snoc; [lia| |lia].
  apply Forall_app. split; [done|]. by apply Forall_singleton.
Qed.

(** A refused envelope still counts against its session. *)
Lemma session_ok_refused session envelopes size now :
  session_ok session envelopes ->
  session_ok {| RelaySession_origin := session.(RelaySession_origin);
                RelaySession_target := session.(RelaySession_target);
                RelaySession_bytes := sat_add u64_max session.(RelaySession_bytes) size;
                RelaySession_last_activity := now |} envelopes.
Proof.
  intros [Hc Hp Hb]. split; cbn [RelaySession_bytes RelaySession_origin RelaySession_target]; [|done..].
  unfold sat_add, MAX_RELAY_PAYLOAD, u64_max in *. lia.
Qed.

Lemma session_ok_first envelope now :
  len envelope.(RelayEnvelope_payload) <= MAX_RELAY_PAYLOAD ->
  session_ok {| RelaySession_origin := envelope.(RelayEnvelope_origin);
                RelaySession_target := envelope.(RelayEnvelope_target);
                RelaySession_bytes := len envelope.(RelayEnvelope_payload);
                RelaySession_last_activity := now |} [envelope].
Proof.
  intros Hl. unfold payload_bytes. split; cbn [foldr payload_bytes RelaySession_bytes]; [lia| |lia].
  by apply Forall_singleton.
Qed.

Lemma relay_arrival_ok now envelope state :
  len envelope.(RelayEnvelope_payload) <= MAX_RELAY_PAYLOAD ->
  ledger_ok state -> map_Forall (fun _ => budget_holds) state.2 ->
  ledger_ok (relay_arrival now envelope state)
  /\ map_Forall (fun _ => budget_holds) (relay_arrival now envelope state).2.
Proof.
  intros Hl Hok Hb. destruct state as [sessions ledger]. unfold relay_arrival, relay_budget.
  set (live := filter _ sessions). set (key := envelope.(RelayEnvelope_session_id)).
  assert (Hlive : ledger_ok (live, ledger)).
  { intros id session Hs. apply (Hok id session). by apply map_lookup_filter_Some in Hs as [? _]. }
  clearbody live. cbn [snd] in Hb. cbn zeta.
  assert (Hset : forall session envelopes, session_ok session envelopes ->
    ledger_ok (<[key := session]> live, <[key := envelopes]> ledger)
    /\ map_Forall (fun _ => budget_holds) (<[key := envelopes]> ledger)).
  { intros session envelopes Hs. split.
    - intros id session'. cbn [fst snd]. destruct (decide (key = id)) as [<-|Hne].
      + rewrite lookup_insert_eq. intros [= <-]. exists envelopes. split; [apply lookup_insert_eq | done].
      + unfold Ledger in *. rewrite !lookup_insert_ne by done. apply Hlive.
    - apply map_Forall_insert_2; [by eapply session_ok_holds | done]. }
  destruct (live !! key) as [session|] eqn:Hk.
  - destruct (Hlive key session Hk) as (envelopes & He & Hs). cbn [snd] in He.
    destruct (_ || _) eqn:Hid; [by split|]. breflect.
    destruct (_ <? _) eqn:Hlim; breflect; cbn [snd].
    + split; [|done]. rewrite <- (insert_id ledger key envelopes He).
      by apply Hset, session_ok_refused.
    + rewrite He. by apply Hset, session_ok_snoc.
  - destruct (_ <=? _); [by split|]. by apply Hset, session_ok_first.
Qed.

(** Over any sequence of envelopes that pass validation, what a relay forwards within one
    session goes from one origin to one target and amounts to at most the larger of the configured
    byte limit and the largest single payload. *)
Theorem relay_session_budget arrivals id envelopes :
  Forall (fun a => len a.2.(RelayEnvelope_payload) <= MAX_RELAY_PAYLOAD) arrivals ->
  (relay_run arrivals).2 !! id = Some envelopes ->
  budget_holds envelopes.
Proof.
  intros Hv. unfold relay_run.
  assert (Hgen : forall state, ledger_ok state -> map_Forall (fun _ => budget_holds) state.2 ->
    map_Forall (fun _ => budget_holds)
      (fold_left (fun state a => relay_arrival a.1 a.2 state) arrivals state).2).
  { induction Hv as [|a arrivals Ha Hv IH]; intros state Hok Hb; [done|]. cbn [fold_left].
    destruct (relay_arrival_ok a.1 a.2 state Ha Hok Hb). by apply IH. }
  apply (Hgen (∅, ∅)); [|apply map_Forall_empty]. intros i session. cbn. by rewrite lookup_empty.
Qed.
End Relay.

(** ** Which connection stays *)
Section Settle.
Context (config : NetworkConfig) (now : N) (id : NodeId) (preferred : bool).

Definition all_open : Liveness := mkLiveness (fun _ => false) (fun _ => false).

(** One more connection to the peer finishes its handshake; nothing is closed, and a probed
    connection answers. *)
Definition settle_one (h : Handshake) (peers : PeerState) : Resolution * PeerState :=
  resolve_connection config.(NetworkConfig_max_connections) now all_open preferred false
    (existing_canonical all_open peers id h.(Handshake_outbound) preferred) h peers.

Definition settle (hs : list Handshake) (peers : PeerState) : PeerState :=
  fold_left (fun peers h => (settle_one h peers).2) hs peers.

(** No connection to the peer, and room for one. *)
Definition unlinked (peers : PeerState) : Prop :=
  peers.(PeerState_senders) !! id = None
  /\ msize peers.(PeerState_senders) < config.(NetworkConfig_max_connections)
  /\ (is_Some (peers.(PeerState_records) !! id) \/ msize peers.(PeerState_records) < MAX_LEARNED_PEERS).

(** Connected to the peer by [connection] in a direction. *)
Definition linked (outbound : bool) (connection : N) (peers : PeerState) : Prop :=
  is_Some (peers.(PeerState_senders) !! id)
  /\ peers.(PeerState_connections) !! id = Some connection
  /\ peers.(PeerState_connection_directions) !! id = Some outbound
  /\ is_Some (peers.(PeerState_records) !! id)
  /\ msize peers.(PeerState_senders) <= config.(NetworkConfig_max_connections).

Definition canonical (h : Handshake) : bool := Bool.eqb h.(Handshake_outbound) preferred.

(** Refreshing the record of the peer leaves its links alone. *)
Lemma refresh_record_same peer peers :
  peer.(PeerRecord_node_id) = id ->
  let peers' := refresh_record peer peers in
  is_Some (peers'.(PeerState_records) !! id)
  /\ peers'.(PeerState_senders) = peers.(PeerState_senders)
  /\ peers'.(PeerState_connections) = peers.(PeerState_connections)
  /\ peers'.(PeerState_connection_directions) = peers.(PeerState_connection_directions).
Proof.
  intros Hid. cbn zeta. unfold refresh_record. rewrite Hid.
  destruct (peers.(PeerState_records) !! id) as [previous|] eqn:Hp.
  - destruct (record_is_fresher _ _); cbn; [by rewrite lookup_insert_eq | by rewrite Hp].
  - cbn. by rewrite lookup_insert_eq.
Qed.

(** A connection that is there and wins rejects the new one. *)
Lemma settle_keeps outbound connection h peers :
  h.(Handshake_peer).(PeerRecord_node_id) = id -> linked outbound connection peers ->
  outbound = preferred \/ canonical h = false ->
  (settle_one h peers).1 = Resolution_Rejected /\ linked outbound connection (settle_one h peers).2.
Proof.
  intros Hid Hlink Hwin. pose proof Hlink as ((sender & Hs) & Hc & Hd & Hr & Hm).
  unfold settle_one, resolve_connection, displace, sender_open, connection_open.
  rewrite Hid, Hs, Hc, Hd. cbn [negb all_open sender_closed connection_closed orb andb].
  assert (Hk : negb (Bool.eqb outbound preferred) && Bool.eqb h.(Handshake_outbound) preferred = false).
  { destruct Hwin as [->|Hn]; [by rewrite Bool.eqb_reflx | unfold canonical in Hn; rewrite Hn; by destruct (negb _)]. }
  rewrite Hk. cbn [negb andb fst snd]. split; [done|].
  destruct (refresh_record_same h.(Handshake_peer) peers Hid) as (Hr' & E1 & E2 & E3).
  unfold linked. rewrite E1, E2, E3. by split_and!.
Qed.

(** With room and no connection in the way, the new connection is installed. *)
Lemma install_linked h (peers0 peers : PeerState) replaced :
  h.(Handshake_peer).(PeerRecord_node_id) = id -> unlinked peers ->
  displace all_open preferred false (existing_canonical all_open peers0 id h.(Handshake_outbound) preferred)
    h peers0 = (false, replaced, peers) ->
  linked h.(Handshake_outbound) h.(Handshake_connection) (settle_one h peers0).2.
Proof.
  intros Hid (Hs & Hm & Hr) Hdis. unfold settle_one, resolve_connection. rewrite Hdis, Hid. cbn [negb andb].
  rewrite (proj2 (N.leb_gt _ _)) by lia.
  assert (Hcrowd : negb (bool_decide (is_Some (peers.(PeerState_records) !! id)))
    && (MAX_LEARNED_PEERS <=? msize peers.(PeerState_records)) = false).
  { destruct Hr as [Hr|Hr]; [by rewrite bool_decide_eq_true_2|].
    rewrite (proj2 (N.leb_gt _ _)) by lia. by rewrite andb_false_r. }
  rewrite Hcrowd. cbn [andb snd].
  destruct (refresh_record_same h.(Handshake_peer) peers Hid) as (Hr' & E1 & _ & _).
  unfold linked, install_link.
  cbn [PeerState_senders PeerState_connections PeerState_connection_directions PeerState_records
    set_PeerState_senders set_PeerState_connections set_PeerState_connection_ids
    set_PeerState_connection_directions set_PeerState_versions].
  rewrite !lookup_insert_eq, E1. split_and!; try done.
  unfold msize in *. rewrite map_size_insert_None by done. lia.
Qed.

Lemma settle_installs h peers :
  h.(Handshake_peer).(PeerRecord_node_id) = id -> unlinked peers ->
  linked h.(Handshake_outbound) h.(Handshake_connection) (settle_one h peers).2.
Proof.
  intros Hid Hun. eapply (install_linked h peers peers None); [done..|].
  destruct Hun as (Hs & _). unfold displace, sender_open. by rewrite Hid, Hs.
Qed.

(** A canonical connection displaces one that is not. *)
Lemma settle_replaces connection h peers :
  h.(Handshake_peer).(PeerRecord_node_id) = id -> linked (negb preferred) connection peers ->
  canonical h = true ->
  linked h.(Handshake_outbound) h.(Handshake_connection) (settle_one h peers).2.
Proof.
  intros Hid ((sender & Hs) & Hc & Hd & Hr & Hm) Hcan.
  assert (Hun : unlinked (forget_link id peers)).
  { split_and!; cbn; [apply lookup_delete_eq| |by left].
    unfold msize in *. rewrite map_size_delete, Hs.
    assert (size peers.(PeerState_senders) <> 0%nat) by (by apply (map_size_ne_0_lookup_2 _ id); eexists).
    lia. }
  eapply (install_linked h peers _ (Some connection)); [done | exact Hun |].
  unfold displace, sender_open, connection_open. rewrite Hid, Hs, Hc, Hd.
  cbn [negb all_open sender_closed connection_closed orb andb].
  unfold canonical in Hcan. by rewrite Hcan, Bool.eqb_negb1.
Qed.

Lemma settle_app hs hs' peers : settle (hs ++ hs') peers = settle hs' (settle hs peers).
Proof. apply fold_left_app. Qed.

Lemma settle_keeps_all outbound connection hs peers :
  Forall (fun h => h.(Handshake_peer).(PeerRecord_node_id) = id
                   /\ (outbound = preferred \/ canonical h = false)) hs ->
  linked outbound connection peers -> linked outbound connection (settle hs peers).
Proof.
  intros Hall. revert peers. induction Hall as [|h hs [Hid Hw] _ IH]; intros peers Hl; [done|].
  apply IH. by apply settle_keeps.
Qed.

(** Of all the connections to a peer, the first canonical one stays. *)
Lemma settle_first_canonical before h after peers :
  Forall (fun h => h.(Handshake_peer).(PeerRecord_node_id) = id) (before ++ h :: after) ->
  Forall (fun h => canonical h = false) before -> canonical h = true -> unlinked peers ->
  linked preferred h.(Handshake_connection) (settle (before ++ h :: after) peers).
Proof.
  intros Hid Hbefore Hcan Hun. apply Forall_app in Hid as [Hidb [Hidh Hida]%Forall_cons].
  assert (Hout : h.(Handshake_outbound) = preferred) by (by apply Bool.eqb_prop).
  rewrite settle_app. cbn [settle fold_left]. apply settle_keeps_all.
  { eapply Forall_impl; [exact Hida|]. intros h' Hh'. by split; [|left]. }
  rewrite <- Hout at 1. destruct before as [|h0 before]; [by apply settle_installs|].
  apply Forall_cons in Hidb as [Hid0 Hidb]. apply Forall_cons in Hbefore as [Hc0 Hbefore].
  assert (Hneg : h0.(Handshake_outbound) = negb preferred).
  { unfold canonical in Hc0. by destruct (Handshake_outbound h0), preferred. }
  eapply (settle_replaces h0.(Handshake_connection)); [done| |done].
  cbn [settle fold_left]. apply settle_keeps_all; [|rewrite <- Hneg; by apply settle_installs].
  apply Forall_forall. intros h' Hh'. rewrite Forall_forall in Hidb, Hbefore. eauto.
Qed.
End Settle.

(** *** Both ends *)
Lemma first_satisfying {A} (p : A -> bool) xs :
  Exists (fun x => p x = true) xs ->
  exists before x after, xs = before ++ x :: after /\ p x = true /\ Forall (fun y => p y = false) before.
Proof.
  induction xs as [|x xs IH]; intros He; [by inversion He|]. destruct (p x) eqn:Hx.
  - exists [], x, xs. by split_and!.
  - apply Exists_cons in He as [He|He]; [congruence|].
    destruct (IH He) as (before & y & after & -> & Hy & Hb). exists (x :: before), y, after.
    split_and!; [done..|]. by constructor.
Qed.

Lemma settles_on config now id preferred hs peers connection :
  unlinked config id peers ->
  Forall (fun h => h.(Handshake_peer).(PeerRecord_node_id) = id) hs ->
  Exists (fun h => h.(Handshake_outbound) = preferred) hs ->
  (forall h, h ∈ hs -> h.(Handshake_outbound) = preferred -> h.(Handshake_connection) = connection) ->
  (settle config now id preferred hs peers).(PeerState_connections) !! id = Some connection.
Proof.
  intros Hun Hid Hex Hone.
  destruct (first_satisfying (canonical preferred) hs) as (before & h & after & -> & Hh & Hb).
  { eapply Exists_impl; [exact Hex|]. intros h <-. unfold canonical. apply Bool.eqb_reflx. }
  destruct (settle_first_canonical config now id preferred before h after peers Hid Hb Hh Hun)
    as (_ & Hc & _).
  rewrite Hc. f_equal. apply Hone; [set_solver | by apply Bool.eqb_prop].
Qed.

Lemma prefers_outbound_lower low high :
  ltb (NodeId_0 low.(Identity_node_id)) (NodeId_0 high.(Identity_node_id)) = true ->
  prefers_outbound low high.(Identity_node_id) = true
  /\ prefers_outbound high low.(Identity_node_id) = false.
Proof.
  intros Hlt. split; [done|]. unfold prefers_outbound. apply ltb_ge. apply leb_le_or. right. by apply ltb_lt.
Qed.

(** (C31) When both peers dial each other at the same time they end up on the same connection: as
    long as the node with the lower identity dialed once, both keep that connection, in whatever
    order each of them finishes the handshakes and however often the other one dialed. *)
Theorem duplicate_dials_agree low high config_low config_high now_low now_high
    hs_low hs_high peers_low peers_high connection :
  ltb (NodeId_0 low.(Identity_node_id)) (NodeId_0 high.(Identity_node_id)) = true ->
  unlinked config_low high.(Identity_node_id) peers_low ->
  unlinked config_high low.(Identity_node_id) peers_high ->
  Forall (fun h => h.(Handshake_peer).(PeerRecord_node_id) = high.(Identity_node_id)) hs_low ->
  Forall (fun h => h.(Handshake_peer).(PeerRecord_node_id) = low.(Identity_node_id)) hs_high ->
  Exists (fun h => h.(Handshake_outbound) = true) hs_low ->
  Exists (fun h => h.(Handshake_outbound) = false) hs_high ->
  (forall h, h ∈ hs_low -> h.(Handshake_outbound) = true -> h.(Handshake_connection) = connection) ->
  (forall h, h ∈ hs_high -> h.(Handshake_outbound) = false -> h.(Handshake_connection) = connection) ->
  let keeps config now node peer hs peers :=
    (settle config now peer (prefers_outbound node peer) hs peers).(PeerState_connections) !! peer in
  keeps config_low now_low low high.(Identity_node_id) hs_low peers_low = Some connection
  /\ keeps config_high now_high high low.(Identity_node_id) hs_high peers_high = Some connection.
Proof.
  intros Hlt Hun1 Hun2 Hid1 Hid2 Hex1 Hex2 Hone1 Hone2. cbn zeta.
  destruct (prefers_outbound_lower low high Hlt) as [-> ->].
  split; by apply settles_on.
Qed.

(** When the node with the lower identity dials twice (two addresses of one peer) and the two
    ends finish the handshakes in different orders, each end rejects, and so closes, the connection
    that the other one keeps. *)
Theorem parallel_dials_cancel_out low high config_low config_high now_low now_high
    first second first' second' peers_low peers_high :
  ltb (NodeId_0 low.(Identity_node_id)) (NodeId_0 high.(Identity_node_id)) = true ->
  unlinked config_low high.(Identity_node_id) peers_low ->
  unlinked config_high low.(Identity_node_id) peers_high ->
  Forall (fun h => h.(Handshake_peer).(PeerRecord_node_id) = high.(Identity_node_id)
                   /\ h.(Handshake_outbound) = true) [first; second] ->
  Forall (fun h => h.(Handshake_peer).(PeerRecord_node_id) = low.(Identity_node_id)
                   /\ h.(Handshake_outbound) = false) [first'; second'] ->
  let low_peer := high.(Identity_node_id) in
  let high_peer := low.(Identity_node_id) in
  let low_prefers := prefers_outbound low low_peer in
  let high_prefers := prefers_outbound high high_peer in
  (settle_one config_low now_low low_peer low_prefers second
     (settle config_low now_low low_peer low_prefers [first] peers_low)).1 = Resolution_Rejected
  /\ (settle_one config_high now_high high_peer high_prefers first'
        (settle config_high now_high high_peer high_prefers [second'] peers_high)).1 = Resolution_Rejected.
Proof.
  intros Hlt Hun1 Hun2 [[Hp1 Ho1] [[Hp2 Ho2] _]%Forall_cons]%Forall_cons
    [[Hp1' Ho1'] [[Hp2' Ho2'] _]%Forall_cons]%Forall_cons. cbn zeta.
  destruct (prefers_outbound_lower low high Hlt) as [-> ->]. split.
  - destruct (settle_keeps config_low now_low high.(Identity_node_id) true true
      first.(Handshake_connection) second (settle config_low now_low high.(Identity_node_id) true [first] peers_low));
      [done| |by left|done].
    rewrite <- Ho1 at 1. by apply settle_installs.
  - destruct (settle_keeps config_high now_high low.(Identity_node_id) false false
      second'.(Handshake_connection) first' (settle config_high now_high low.(Identity_node_id) false [second'] peers_high));
      [done| |by left|done].
    rewrite <- Ho2' at 1. by apply settle_installs.
Qed.

(** ** Frames on a stream *)
Section Frames.
Context `{Blake3} `{Postcard str}.
Context (config : NetworkConfig).

(** Reads messages one after the other, [n] of them. *)
Fixpoint read_messages (n : nat) (bytes : list N) : result (list Message * list N) NetworkError :=
  match n with
  | O => Ok ([], bytes)
  | S n =>
      let? head := read_message config bytes in
      let? tail := read_messages n head.2 in
      Ok (head.1 :: tail.1, tail.2)
  end.

Lemma read_exact_app n xs ys : n = len xs -> read_exact n (xs ++ ys) = Ok (xs, ys).
Proof.
  intros ->. unfold read_exact. rewrite (proj2 (N.ltb_ge _ _)) by (rewrite len_app; lia).
  unfold len. by rewrite Nat2N.id, take_app_length, drop_app_length.
Qed.

Lemma header_len header : len (FrameHeader_encode header) = FRAME_HEADER_SIZE.
Proof. unfold len. by rewrite FrameHeader_encode_length. Qed.

Lemma encoded_size message minor frame :
  config.(NetworkConfig_max_frame_size) <= MAX_FRAME_SIZE ->
  encode_message_at_version message config.(NetworkConfig_max_frame_size) PROTOCOL_MAJOR minor = Ok frame ->
  len frame <= config.(NetworkConfig_max_frame_size) /\ len frame <= FRAME_HEADER_SIZE + u32_max.
Proof.
  intros Hmax (_ & _ & _ & _ & payload & kind & _ & _ & Hs & ->)%encode_ok.
  rewrite len_app, header_len. unfold sat_add in Hs.
  assert (MAX_FRAME_SIZE < usize_max /\ MAX_FRAME_SIZE <= FRAME_HEADER_SIZE + u32_max) by done.
  lia.
Qed.

Lemma read_message_parts header payload rest message :
  FrameHeader_decode (PE := str) (FrameHeader_encode header) config.(NetworkConfig_max_frame_size) = Ok header ->
  header.(FrameHeader_payload_len) = len payload ->
  decode_frame (PE := str) (FrameHeader_encode header ++ payload) config.(NetworkConfig_max_frame_size) = Ok message ->
  read_message config (FrameHeader_encode header ++ payload ++ rest) = Ok (message, rest).
Proof.
  intros Hd Hp Hf. unfold read_message.
  eapply rbind_intro; [exact (read_exact_app _ _ _ (eq_sym (header_len header)))|]. cbn beta iota.
  eapply rbind_intro; [apply map_err_ok, Hd|].
  eapply rbind_intro; [exact (read_exact_app _ _ _ Hp)|]. cbn beta iota.
  eapply rbind_intro; [apply map_err_ok, Hf | reflexivity].
Qed.

Lemma read_message_frame `{!PostcardLaws str} message minor frame rest :
  config.(NetworkConfig_max_frame_size) <= MAX_FRAME_SIZE ->
  encode_message_at_version message config.(NetworkConfig_max_frame_size) PROTOCOL_MAJOR minor = Ok frame ->
  read_message config (frame ++ rest) = Ok (message, rest).
Proof.
  intros Hmax He. destruct (encoded_size _ _ _ Hmax He) as [Hl Hl32].
  destruct (encoded_frame _ _ _ _ _ _ He Hl Hl32) as (header & payload & -> & Hd & Hp & Hf).
  rewrite <- app_assoc. by apply read_message_parts.
Qed.

(** Whatever messages a peer writes on a stream, one after the other and at any minor versions
    it negotiated, the other end reads back exactly those messages in order, and the bytes that
    follow them stay on the stream. *)
Theorem stream_read_back `{!PostcardLaws str} messages frames rest :
  config.(NetworkConfig_max_frame_size) <= MAX_FRAME_SIZE ->
  Forall2 (fun message frame => exists minor,
    encode_message_at_version message config.(NetworkConfig_max_frame_size) PROTOCOL_MAJOR minor
    = Ok frame) messages frames ->
  read_messages (length messages) (concat frames ++ rest) = Ok (messages, rest).
Proof.
  intros Hmax. induction 1 as [|message frame messages frames [minor He] _ IH]; [done|].
  cbn [length concat read_messages]. rewrite <- app_assoc, (read_message_frame _ _ _ _ Hmax He).
  cbn [rbind fst snd]. by rewrite IH.
Qed.
End Frames.
