(* ===== verification/NetworkWitnesses.v ===== *)
(** * Samples for the protocol steps and sessions

    Concrete hellos, requests, envelopes, handshakes and frames at which the theorems of
    [NetworkProtocol] and [NetworkSessions] apply. *)

From Stdlib Require Import String ZArith NArith Lia Sorted.
From stdpp Require Import base tactics sets strings numbers list gmap.
From S2P Require Import Prelude Tasks OrdMap Types Validation Codec SocketAddr Dht DhtFacts Trust FileSystem Storage NetAddr Network Peers Transport Connections NetworkFacts NetworkPool NetworkExamples NetworkProtocol NetworkSessions.
Local Open Scope N_scope.
Local Open Scope rust_scope.

#[local] Existing Instances net_hash net_hash_laws net_verifier net_signer net_signed_postcard.

Definition ex_id (n : N) : NodeId := (ex_identity n).(Identity_node_id).

(** ** Requests *)

Definition ex_arrival (id : N) : Arrival := mkArrival 1000 (ex_id 2) (mkRequestId (replicate 16 id)).

(** 130 requests of one peer at one time. *)
Definition ex_burst : list Arrival := map (fun n => ex_arrival (N.of_nat n)) (List.seq 0 130).

Lemma ex_burst_in_order : in_time_order ex_burst.
Proof.
  unfold in_time_order, ex_burst. induction (List.seq 0 130) as [|n ns IH]; cbn; constructor; [done|].
  apply Forall_forall. intros a Ha%list_elem_of_In. apply in_map_iff in Ha as (m & <- & _). done.
Qed.

Lemma dht_rate_limit_exact_witness :
  passed (ex_id 2) 16 ex_burst (admit_all ex_start.(Shared_dht) ex_burst).1 = 128.
Proof.
  rewrite (dht_rate_limit_exact ex_start.(Shared_dht) ex_burst (ex_id 2) 16);
    [vm_compute; reflexivity | vm_compute; reflexivity | exact ex_burst_in_order].
Defined.

Lemma ex_start_seen : seen_ok ex_start.(Shared_dht).
Proof. split_and!; [done | constructor | vm_compute; discriminate]. Qed.

Lemma dht_replay_window_exact_witness :
  (admit_request 1000 (ex_id 2) (mkRequestId (replicate 16 1))
     (admit_all ex_start.(Shared_dht) [ex_arrival 1; ex_arrival 2]).2).1 = Admission_Duplicate.
Proof.
  apply (dht_replay_window_exact ex_start.(Shared_dht) [ex_arrival 1; ex_arrival 2] (ex_arrival 1) ex_start_seen);
    [done | vm_compute; discriminate|].
  vm_compute. by left.
Defined.

(** ** Hellos *)

(** A node with a key of the right length. *)
Definition ex_node (n : N) : Identity :=
  {| Identity_signing_key := replicate 32 n;
     Identity_public_key := replicate 32 n;
     Identity_node_id := NodeId_from_public_key (replicate 32 n);
     Identity_rotation := None |}.

Definition ex_nonce : list N := [1; 2; 3; 4; 5; 6; 7; 8].

(** The hello of node 2 at time 1000, as [make_hello] signs it. *)
Definition ex_hello : Hello :=
  let record := local_record ex_config (ex_node 2) 1000 in
  {| Hello_nonce := ex_nonce;
     Hello_supported := VersionRange_current;
     Hello_record := record;
     Hello_signature := net_sign (replicate 32 2) ex_nonce |}.

Example ex_hello_made : make_hello ex_config (ex_node 2) 1000 ex_nonce = Ok ex_hello.
Proof. reflexivity. Qed.

Definition ex_verified : task (result N NetworkError) * Shared * list Effect :=
  run_task (verify_hello ex_config (ex_node 1) ex_hello) [ex_env 1001 []; ex_env 1001 []] ex_start.

Lemma verify_hello_sound_witness :
  ex_verified.1.1 = Done (Ok 6) /\ VersionRange_supports VersionRange_current PROTOCOL_MAJOR 6 = true.
Proof.
  assert (Hrun : ex_verified.1.1 = Done (Ok 6)) by (vm_compute; reflexivity).
  split; [exact Hrun|].
  apply (verify_hello_sound ex_config (ex_node 1) ex_hello (ex_env 1001 []) (ex_env 1001 [])
    ex_start 6 ex_verified.1.2 ex_verified.2).
  rewrite <- Hrun. unfold ex_verified. by destruct (run_task _ _ _) as [[? ?] ?].
Defined.

(** As many nonces of node 2 as the memory holds. *)
Definition ex_nonces : gset (NodeId * list N) :=
  list_to_set ((fun n => (ex_id 2, [N.of_nat n])) <$> List.seq 0 4096).

Lemma ex_nonces_size : size ex_nonces = 4096%nat.
Proof.
  unfold ex_nonces. rewrite size_list_to_set.
  - by rewrite length_fmap, length_seq.
  - apply NoDup_fmap_2_strong; [intros n m _ _ [= Hn]; lia | apply NoDup_ListNoDup, seq_NoDup].
Qed.

Lemma ex_nonces_fresh : (ex_id 2, ex_nonce) ∉ ex_nonces.
Proof.
  unfold ex_nonces. rewrite elem_of_list_to_set, list_elem_of_fmap. by intros (n & ? & _).
Qed.

Lemma hello_replayed_after_clear_witness : admit_hello (ex_id 2) ex_nonce ex_nonces = Some ∅.
Proof.
  apply (hello_replayed_after_clear (ex_id 2) ex_nonce ex_nonces ex_nonces_size ex_nonces_fresh).
Defined.

(** ** Relay sessions *)

Definition ex_envelope (payload : list N) : RelayEnvelope :=
  mkRelayEnvelope (mkRequestId (replicate 16 9)) (ex_id 2) [2] (ex_id 3) payload [].

Definition ex_envelopes : list (N * RelayEnvelope) :=
  [(1000, ex_envelope [1; 2; 3]); (1010, ex_envelope [4; 5])].

Lemma relay_session_budget_witness :
  budget_holds ex_config [ex_envelope [1; 2; 3]; ex_envelope [4; 5]].
Proof.
  apply (relay_session_budget ex_config eq_refl ex_envelopes (mkRequestId (replicate 16 9)));
    [repeat constructor; vm_compute; discriminate | vm_compute; reflexivity].
Defined.

(** ** Handshakes *)

Definition ex_handshake (peer : N) (connection : N) (outbound : bool) : Handshake :=
  {| Handshake_peer := local_record ex_config (ex_identity peer) 1000;
     Handshake_sender := connection;
     Handshake_connection := connection;
     Handshake_connection_id := connection;
     Handshake_outbound := outbound;
     Handshake_minor := 6 |}.

Lemma ex_start_unlinked id : unlinked ex_config id ex_start.(Shared_peers).
Proof. split_and!; [by vm_compute | by vm_compute |]. right. by vm_compute. Qed.

(** Node 1 dials node 2 (connection 10) while node 2 dials node 1 (connection 20). *)
Lemma duplicate_dials_agree_witness :
  (settle ex_config 1000 (ex_id 2) (prefers_outbound (ex_identity 1) (ex_id 2))
     [ex_handshake 2 20 false; ex_handshake 2 10 true]
     ex_start.(Shared_peers)).(PeerState_connections) !! ex_id 2 = Some 10
  /\ (settle ex_config 1000 (ex_id 1) (prefers_outbound (ex_identity 2) (ex_id 1))
        [ex_handshake 1 20 true; ex_handshake 1 10 false]
        ex_start.(Shared_peers)).(PeerState_connections) !! ex_id 1 = Some 10.
Proof.
  apply (duplicate_dials_agree (ex_identity 1) (ex_identity 2) ex_config ex_config 1000 1000
    [ex_handshake 2 20 false; ex_handshake 2 10 true] [ex_handshake 1 20 true; ex_handshake 1 10 false]
    ex_start.(Shared_peers) ex_start.(Shared_peers) 10);
    [by vm_compute | apply ex_start_unlinked | apply ex_start_unlinked | by repeat constructor
    | by repeat constructor | by apply Exists_cons_tl, Exists_cons_hd | by apply Exists_cons_tl, Exists_cons_hd
    | |]; intros h [->|[->|[]%elem_of_nil]%elem_of_cons]%elem_of_cons; done.
Defined.

(** Node 1 dials node 2 twice (connections 10 and 11); the ends finish in different orders. *)
Lemma parallel_dials_cancel_out_witness :
  (settle_one ex_config 1000 (ex_id 2) (prefers_outbound (ex_identity 1) (ex_id 2))
     (ex_handshake 2 11 true)
     (settle ex_config 1000 (ex_id 2) (prefers_outbound (ex_identity 1) (ex_id 2))
        [ex_handshake 2 10 true] ex_start.(Shared_peers))).1 = Resolution_Rejected
  /\ (settle_one ex_config 1000 (ex_id 1) (prefers_outbound (ex_identity 2) (ex_id 1))
        (ex_handshake 1 10 false)
        (settle ex_config 1000 (ex_id 1) (prefers_outbound (ex_identity 2) (ex_id 1))
           [ex_handshake 1 11 false] ex_start.(Shared_peers))).1 = Resolution_Rejected.
Proof.
  apply (parallel_dials_cancel_out (ex_identity 1) (ex_identity 2) ex_config ex_config 1000 1000
    (ex_handshake 2 10 true) (ex_handshake 2 11 true) (ex_handshake 1 10 false) (ex_handshake 1 11 false)
    ex_start.(Shared_peers) ex_start.(Shared_peers));
    [by vm_compute | apply ex_start_unlinked | apply ex_start_unlinked
    | by repeat constructor | by repeat constructor].
Defined.

(** ** Frames *)

(** A serializer of one ping. *)
Definition ex_postcard : Postcard str := {|
  to_allocvec m := if bool_decide (m = sample_message) then Ok (8 :: sample_nonce) else Err "unsupported"%string;
  from_bytes bs := if bool_decide (bs = 8 :: sample_nonce) then Ok sample_message else Err "unsupported"%string
|}.

Lemma ex_postcard_laws : @PostcardLaws str ex_postcard.
Proof. split. intros m bs. cbn. case_bool_decide; [|done]. intros [= <-]. by subst. Qed.

#[local] Existing Instances ex_postcard ex_postcard_laws.

Lemma stream_read_back_witness :
  read_messages ex_config 2 (sample_frame ++ sample_frame ++ [7])
  = Ok ([sample_message; sample_message], [7]).
Proof.
  apply (stream_read_back ex_config [sample_message; sample_message] [sample_frame; sample_frame] [7]);
    [vm_compute; discriminate | repeat constructor; exists 6; vm_compute; reflexivity].
Defined.

(** * Where the network does not do what it means to

    Each theorem follows the code to a state or a result that its comments and its other parts do
    not intend. *)

(** ** Addresses *)

(** The IPv6 address that stands for an IPv4 address. *)
Definition mapped (v4 : N) : IpAddr := IpAddr_V6 (65535 * 2 ^ 32 + v4).

(** The policy on learned addresses looks at the form of an address only: whatever IPv4 address
    it refuses (loopback, private, link-local), it accepts in its IPv4-mapped IPv6 form. *)
Theorem mapped_address_allowed config v4 port scope :
  v4 < 2 ^ 32 -> port <> 0 ->
  address_allowed config (mkSocketAddr (mapped v4) port scope) AddressSource_Learned = true.
Proof.
  intros Hv Hp. unfold address_allowed. cbn [SocketAddr_port SocketAddr_ip].
  rewrite (proj2 (N.eqb_neq _ _) Hp). destruct (NetworkConfig_allow_private_addresses config); [done|].
  unfold mapped, is_loopback, is_unspecified, is_multicast, is_unique_local, is_unicast_link_local,
    has_prefix.
  assert (Hsmall : forall k, 48 <= k -> N.shiftr (65535 * 2 ^ 32 + v4) k = 0).
  { intros k Hk. rewrite N.shiftr_div_pow2. apply N.div_small.
    eapply N.lt_le_trans; [|apply N.pow_le_mono_r; [done | exact Hk]]. lia. }
  rewrite !Hsmall by done. rewrite !(proj2 (N.eqb_neq _ _)) by lia. done.
Qed.

Lemma mapped_address_allowed_witness :
  address_allowed ex_config (mkSocketAddr (IpAddr_V4 2130706433) 22 0) AddressSource_Learned = false
  /\ address_allowed ex_config (mkSocketAddr (mapped 2130706433) 22 0) AddressSource_Learned = true.
Proof.
  split; [vm_compute; reflexivity|].
  apply (mapped_address_allowed ex_config 2130706433 22 0); [done | discriminate].
Defined.

(** ** Versions *)

Section Versions.
Context `{Blake3} `{Ed25519} `{Ed25519Signer} `{SignedPostcard} `{Postcard str}.
Context (config : NetworkConfig) (identity : Identity).

Lemma write_below_required connection message minor :
  minor < required_minor message ->
  exists error, write_message config connection message minor = Done (Err error).
Proof.
  intros Hm. unfold write_message.
  destruct (encode_message_at_version _ _ _ _) as [frame|error] eqn:He; [|by eexists].
  apply encode_ok in He as (_ & _ & _ & Hr & _). lia.
Qed.

(** Sending checks a lower version than writing needs: the two agree on every message except
    the newer training messages; one of those, sent to a peer whose version is in between, passes
    the check of the sender and ends the writer of the connection, with nothing written of it or
    of any later message. *)
Theorem send_gate_too_low connection message minor later envs s peers node :
  peers.(PeerState_versions) !! node = Some minor ->
  message_required_minor message <= minor -> minor < required_minor message ->
  match message with Message_TrainingV4 _ | Message_TrainingV5 _ => True | _ => False end
  /\ speaks peers node message = true
  /\ run_task (writer config connection minor (message :: later)) envs s = (Done tt, s, []).
Proof.
  intros Hv Hlow Hhigh. split_and!.
  - destruct message; try done; cbn in Hlow, Hhigh; lia.
  - unfold speaks. rewrite Hv. cbn [default]. by apply N.leb_le.
  - cbn [writer]. destruct (write_below_required connection message minor Hhigh) as [error ->].
    by destruct envs.
Qed.
End Versions.

Definition ex_challenge : Message :=
  Message_TrainingV5 (TrainingV5Message_CapabilityChallenge
    {| CapabilityChallenge_challenge_id := mkRequestId (replicate 16 1);
       CapabilityChallenge_job_id := mkJobId (replicate 16 2);
       CapabilityChallenge_worker := ex_id 2;
       CapabilityChallenge_backend := BackendKind_Cpu;
       CapabilityChallenge_task_kind := ComputeTaskKind_TensorForward;
       CapabilityChallenge_format := NumericFormat_F32;
       CapabilityChallenge_input_elements := 16;
       CapabilityChallenge_seed := 7;
       CapabilityChallenge_deadline_ms := 1000 |}).

(** Connected to node 2 on sender 20, which negotiated version 4. *)
Definition ex_linked : PeerState :=
  install_link (ex_id 2) 20 20 20 true 4 ex_start.(Shared_peers).

(** ** Requests in flight *)

Section Pings.
Context `{Blake3} `{Ed25519} `{Ed25519Signer} `{SignedPostcard} `{Postcard str}.
Context (config : NetworkConfig) (identity : Identity).

(** The peer is connected and speaks the DHT. *)
Definition dht_peer (peer : NodeId) (s : Shared) : Prop :=
  is_Some (s.(Shared_peers).(PeerState_senders) !! peer)
  /\ 2 <= default 0 (s.(Shared_peers).(PeerState_versions) !! peer).

(** Nothing is closed; the request id is the next random value, and a timer may have run out. *)
Definition mute_env (id : RequestId) (out : bool) : Env :=
  {| env_now := 0;
     env_elapsed := fun timer => match timer with Timer_Ping => out | _ => false end;
     env_liveness := mkLiveness (fun _ => false) (fun _ => false);
     env_storage := None;
     env_random := RequestId_0 id;
     env_write := None;
     env_dial := fun _ => Err EmptyString |}.

(** A ping that is sent and never answered. *)
Definition mute_ping (peer : NodeId) (id : RequestId) (s : Shared)
    : task (result unit NetworkError) * Shared * list Effect :=
  run_task (authenticated_ping config identity peer)
    [mute_env id false; mute_env id false; mute_env id false; mute_env id false; mute_env id true] s.

Lemma mute_ping_leaks peer id s :
  dht_peer peer s ->
  N.of_nat (size s.(Shared_dht).(DhtRuntime_pending)) < pending_limit config ->
  let r := mute_ping peer id s in
  r.1.1 = Done (Err (NetworkError_PeerProtocol "authenticated ping timed out"))
  /\ r.1.2.(Shared_peers) = s.(Shared_peers)
  /\ r.1.2.(Shared_dht).(DhtRuntime_pending) = {[ id ]} ∪ s.(Shared_dht).(DhtRuntime_pending).
Proof.
  intros [[sender Hs] Hv] Hroom. cbn zeta.
  unfold mute_ping, authenticated_ping, dht_rpc, random_request_id, on_dht, send_connected, read_peers,
    channel_send, reading, atomic, try_task.
  cbn [tbind timeout run_task elapsed env_elapsed mute_env env_random env_liveness].
  unfold claim_slot. rewrite (proj2 (N.leb_gt _ _)) by lia.
  cbn [tbind timeout run_task elapsed env_elapsed mute_env Shared_peers set_Shared_dht].
  unfold speaks. change (message_required_minor (Message_DhtRequest _)) with 2.
  rewrite (proj2 (N.leb_le _ _) Hv), Hs. cbn [negb ok_or].
  cbn [tbind timeout run_task elapsed env_elapsed mute_env env_liveness sender_closed receive fst snd].
  destruct id as [id]. by split_and!.
Qed.

Lemma rpc_refused peer request s e e' :
  pending_limit config <= N.of_nat (size s.(Shared_dht).(DhtRuntime_pending)) ->
  run_task (dht_rpc config identity peer request) [e; e'] s
  = (Done (Err (NetworkError_PeerProtocol "DHT request concurrency limit reached")), s, []).
Proof.
  intros Hfull. unfold dht_rpc, random_request_id, on_dht, reading, atomic, try_task.
  cbn [tbind run_task]. unfold claim_slot. rewrite (proj2 (N.leb_le _ _) Hfull).
  cbn [tbind run_task]. by destruct s.
Qed.

(** Pings to one peer after the other, none of them answered. *)
Definition mute_pings (peer : NodeId) (ids : list RequestId) (s : Shared) : Shared :=
  fold_left (fun s id => (mute_ping peer id s).1.2) ids s.

Lemma mute_pings_fill peer ids s :
  dht_peer peer s -> NoDup ids -> (forall id, id ∈ ids -> id ∉ s.(Shared_dht).(DhtRuntime_pending)) ->
  N.of_nat (size s.(Shared_dht).(DhtRuntime_pending) + length ids) <= pending_limit config ->
  size (mute_pings peer ids s).(Shared_dht).(DhtRuntime_pending)
  = (size s.(Shared_dht).(DhtRuntime_pending) + length ids)%nat.
Proof.
  unfold mute_pings. revert s. induction ids as [|id ids IH]; intros s Hp Hnd Hfresh Hle; cbn [fold_left length].
  { lia. }
  cbn [length] in Hle. apply NoDup_cons in Hnd as [Hid Hnd].
  destruct (mute_ping_leaks peer id s Hp ltac:(lia)) as (_ & Epeers & Epending).
  destruct (mute_ping peer id s) as [[r s'] out]. cbn [fst snd] in *.
  assert (Hsize : size s'.(Shared_dht).(DhtRuntime_pending)
    = S (size s.(Shared_dht).(DhtRuntime_pending))).
  { rewrite Epending, size_union, size_singleton; [done|]. set_solver. }
  rewrite IH; [lia| |done| |lia].
  - unfold dht_peer in *. by rewrite Epeers.
  - intros id' Hin. rewrite Epending. set_solver.
Qed.

(** A ping that times out gives up waiting but not its slot among the requests in flight: as
    many pings as there are slots, each to a connected peer that never answers, and every further
    DHT request to any peer fails, with nothing sent. *)
Theorem silent_pings_exhaust_rpcs peer ids s other request e e' :
  dht_peer peer s -> NoDup ids -> (forall id, id ∈ ids -> id ∉ s.(Shared_dht).(DhtRuntime_pending)) ->
  N.of_nat (size s.(Shared_dht).(DhtRuntime_pending) + length ids) = pending_limit config ->
  let s' := mute_pings peer ids s in
  run_task (dht_rpc config identity other request) [e; e'] s'
  = (Done (Err (NetworkError_PeerProtocol "DHT request concurrency limit reached")), s', []).
Proof.
  intros Hp Hnd Hfresh Hle s'. apply rpc_refused. subst s'. rewrite mute_pings_fill by (done || lia). lia.
Qed.

(** A canonical connection whose probe fails at once, because the requests in flight are used
    up, counts as answered: the dead connection stays and the new one is turned away. *)
Theorem failed_probe_counts_as_answered peer connection minor s e e' :
  pending_limit config <= N.of_nat (size s.(Shared_dht).(DhtRuntime_pending)) ->
  elapsed Timer_Probe e = false -> elapsed Timer_Probe e' = false ->
  elapsed Timer_Ping e = false -> elapsed Timer_Ping e' = false ->
  run_task (probe config identity peer (Some (connection, minor))) [e; e'] s = (Done false, s, []).
Proof.
  intros Hfull Hb1 Hb2 Hg1 Hg2. unfold probe. destruct (2 <=? minor); [|done].
  unfold authenticated_ping, dht_rpc, random_request_id, on_dht, reading, atomic, try_task.
  cbn [tbind timeout run_task]. rewrite Hb1, Hg1. cbn [tbind timeout run_task]. rewrite Hb2, Hg2.
  unfold claim_slot. rewrite (proj2 (N.leb_le _ _) Hfull). cbn [tbind timeout run_task].
  by destruct s.
Qed.

(** ** Errors of the read loop *)

(** An announcement with a lifetime longer than this node allows, even of a third party and
    correctly signed, ends the task of the connection it came on with an error: the connection
    stays registered as it was, and nothing reads it any more. *)
Theorem long_lifetime_abandons_connection h item incoming e s :
  verify_announcement item = true -> contact_id item <> identity.(Identity_node_id) ->
  PeerRecord_validate item.(SignedAnnouncement_record) = Ok tt ->
  e.(env_now) <= contact_expires_at item ->
  record_time_valid config e.(env_now) item.(SignedAnnouncement_record) = false ->
  run_task (serve config identity h (Ok (Message_Announcement item) :: incoming)) [e] s
  = (Done (Err (NetworkError_PeerProtocol "peer announcement has an invalid lifetime")), s, []).
Proof.
  intros Hv Hl Hval Hexp Htime. unfold serve, try_task. cbn [read_loop handle_message].
  unfold process_message, dispatch, learn, try_task. rewrite Hv, bool_decide_eq_false_2 by done.
  cbn [negb andb]. unfold upsert_peer, now_secs, reading, atomic, try_task.
  cbn [tbind run_task]. unfold upsert_check. rewrite bool_decide_eq_false_2 by done.
  rewrite Hval, Htime. cbn [validated map_err rbind].
  unfold contact_expires_at in Hexp. rewrite (proj2 (N.ltb_ge _ _)) by done. done.
Qed.

(** ** Lookups *)

(** One record in a reply that is correctly signed but expired, or valid for too long, makes the
    whole lookup fail: the other records of the reply, of the other peers and of the local store
    are lost with it. *)
Theorem stale_reply_aborts_lookup namespace key record remote records e e' s :
  verify_dht_record record = true -> record.(DhtRecord_namespace) = namespace ->
  record.(DhtRecord_key) = key ->
  dht_expiry_valid record e.(env_now) config.(NetworkConfig_peer_ttl_seconds) = false ->
  exists error s', run_task (absorb_records config namespace key (record :: remote) records) [e; e'] s
    = (Done (Err error), s', []).
Proof.
  intros Hv <- <- Hexp. cbn [absorb_records]. rewrite Hv, !bool_decide_eq_true_2 by done. cbn [andb].
  unfold store_dht_record, now_secs, reading, atomic, try_task. cbn [tbind run_task].
  rewrite Hv, Hexp. cbn [negb orb]. unfold update_dht, on_dht, refuse, atomic. cbn [tbind run_task].
  by do 2 eexists.
Qed.
End Pings.

(** ** Samples *)

#[local] Existing Instances net_hash net_verifier net_signer net_signed_postcard net_postcard.

Lemma send_gate_too_low_witness :
  speaks ex_linked (ex_id 2) ex_challenge = true
  /\ run_task (writer ex_config 20 4 [ex_challenge; sample_message]) [ex_env 1000 []] ex_start
     = (Done tt, ex_start, []).
Proof.
  apply (send_gate_too_low ex_config 20 ex_challenge 4 [sample_message] [ex_env 1000 []] ex_start
    ex_linked (ex_id 2)); vm_compute; (reflexivity || discriminate).
Defined.

Definition ex_linked_start : Shared := set_Shared_peers ex_linked ex_start.

Definition ex_ids : list RequestId := (fun n => mkRequestId [N.of_nat n]) <$> List.seq 0 80.

Lemma ex_ids_nodup : NoDup ex_ids.
Proof. apply (bool_decide_unpack _). vm_compute. exact I. Qed.

Lemma silent_pings_exhaust_rpcs_witness :
  run_task (dht_rpc ex_config (ex_identity 1) (ex_id 3) DhtRequestKind_Ping)
    [ex_env 1000 [1]; ex_env 1000 [1]] (mute_pings ex_config (ex_identity 1) (ex_id 2) ex_ids ex_linked_start)
  = (Done (Err (NetworkError_PeerProtocol "DHT request concurrency limit reached")),
     mute_pings ex_config (ex_identity 1) (ex_id 2) ex_ids ex_linked_start, []).
Proof.
  apply (silent_pings_exhaust_rpcs ex_config (ex_identity 1) (ex_id 2) ex_ids ex_linked_start);
    [vm_compute; split; [eexists; reflexivity | discriminate] | exact ex_ids_nodup
    | intros id _; set_solver | vm_compute; reflexivity].
Defined.

Lemma failed_probe_counts_as_answered_witness :
  run_task (probe ex_config (ex_identity 1) (ex_id 2) (Some (20, 6)))
    [ex_env 1000 [1]; ex_env 1000 [1]] (mute_pings ex_config (ex_identity 1) (ex_id 2) ex_ids ex_linked_start)
  = (Done false, mute_pings ex_config (ex_identity 1) (ex_id 2) ex_ids ex_linked_start, []).
Proof.
  apply (failed_probe_counts_as_answered ex_config (ex_identity 1) (ex_id 2) 20 6); reflexivity.
Defined.

(** Node 3 announces itself for ten times the lifetime that node 1 allows. *)
Definition ex_long_lived : SignedAnnouncement :=
  let record := local_record ex_config (ex_node 3) 1000 in
  {| SignedAnnouncement_record :=
       {| PeerRecord_node_id := record.(PeerRecord_node_id);
          PeerRecord_public_key := record.(PeerRecord_public_key);
          PeerRecord_addresses := record.(PeerRecord_addresses);
          PeerRecord_capabilities := record.(PeerRecord_capabilities);
          PeerRecord_announced_at := 1000;
          PeerRecord_expires_at := 1000 + 10 * ex_config.(NetworkConfig_peer_ttl_seconds);
          PeerRecord_observed_latency_ms := None |};
     SignedAnnouncement_signature := net_sign (replicate 32 3) [1000] |}.

Lemma long_lifetime_abandons_connection_witness :
  run_task (serve ex_config (ex_node 1) (ex_handshake 2 20 true)
      [Ok (Message_Announcement ex_long_lived); Ok sample_message]) [ex_env 1001 []] ex_linked_start
  = (Done (Err (NetworkError_PeerProtocol "peer announcement has an invalid lifetime")), ex_linked_start, [])
  /\ sender_open (ex_env 1001 []).(env_liveness) ex_linked_start.(Shared_peers) (ex_id 2) = true.
Proof.
  split; [|vm_compute; reflexivity].
  apply (long_lifetime_abandons_connection ex_config (ex_node 1)); vm_compute; (reflexivity || discriminate).
Defined.

(** A record of node 2 that has expired. *)
Definition ex_stale : DhtRecord :=
  {| DhtRecord_namespace := DhtNamespace_Model;
     DhtRecord_key := DhtKey_for_name DhtNamespace_Model "model";
     DhtRecord_owner := (ex_node 2).(Identity_node_id);
     DhtRecord_owner_public_key := replicate 32 2;
     DhtRecord_sequence := 1;
     DhtRecord_expires_at := 900;
     DhtRecord_value := [7];
     DhtRecord_signature := net_sign (replicate 32 2) [7] |}.

Lemma stale_reply_aborts_lookup_witness :
  exists error s', run_task (absorb_records ex_config DhtNamespace_Model
      (DhtKey_for_name DhtNamespace_Model "model") [ex_stale] []) [ex_env 1000 []; ex_env 1000 []] ex_start
    = (Done (Err error), s', []).
Proof.
  apply (stale_reply_aborts_lookup ex_config DhtNamespace_Model
    (DhtKey_for_name DhtNamespace_Model "model") ex_stale [] []); vm_compute; reflexivity.
Defined.
