(* ===== verification/TaskLogic.v ===== *)
(** * Counting effects over interleavings

    Two ways to bound what the tasks of a pool do together.

    [obeys I P t Q]: every section of [t] keeps the invariant [I] and relates the state before, its
    effects and the state after by [P]; the result satisfies [Q].  When [P] composes along a trace,
    it relates the ends of every run of the pool.

    [funded c t R]: [t] spends at most the credits it holds, [c] of them at first and one more for
    each effect that earns one; the [R a] left at its result [a] pass to what follows.  Credits are
    not copied, so over any interleaving no more is spent than was earned. *)

From Stdlib Require Import ZArith NArith Lia.
From stdpp Require Import base tactics sets numbers list.
From S2P Require Import Prelude Tasks.
Local Open Scope N_scope.
Local Open Scope rust_scope.

Section Obeys.
Context {Env St Eff : Type}.
Notation task := (Task Env St Eff).
Context (I : St -> Prop) (P : St -> list Eff -> St -> Prop).

Fixpoint obeys {A : Type} (t : task A) (Q : A -> Prop) : Prop :=
  match t with
  | Done a => Q a
  | Step f k => forall e s x s' out, I s -> f e s = Some (x, s', out) ->
      I s' /\ P s out s' /\ obeys (k x) Q
  | Fork t k => obeys t (fun _ => True) /\ obeys k Q
  end.

Lemma obeys_mono {A : Type} (t : task A) (Q Q' : A -> Prop) :
  obeys t Q -> (forall a, Q a -> Q' a) -> obeys t Q'.
Proof.
  intros Ht HQ. induction t as [A a|A X f k IH|A t IHt k IHk]; cbn in *.
  - by apply HQ.
  - intros e s x s' out Hi Hf. destruct (Ht e s x s' out Hi Hf) as (? & ? & ?). eauto.
  - destruct Ht. split; eauto.
Qed.

Lemma obeys_any {A : Type} (t : task A) (Q : A -> Prop) : obeys t Q -> obeys t (fun _ => True).
Proof. intros Ht. by eapply obeys_mono. Qed.

Lemma obeys_tbind {A B : Type} (t : task A) (k : A -> task B) Q R :
  obeys t R -> (forall a, R a -> obeys (k a) Q) -> obeys (tbind t k) Q.
Proof.
  intros Ht Hk. induction t as [A a|A X f c IH|A t IHt c IHc]; cbn in *.
  - by apply Hk.
  - intros e s x s' out Hi Hf. destruct (Ht e s x s' out Hi Hf) as (? & ? & ?). eauto.
  - destruct Ht. split; eauto.
Qed.

(** The result of the first task says nothing. *)
Lemma obeys_then {A B : Type} (t : task A) (k : A -> task B) Q :
  obeys t (fun _ => True) -> (forall a, obeys (k a) Q) -> obeys (tbind t k) Q.
Proof. intros Ht Hk. eapply obeys_tbind; [exact Ht | auto]. Qed.

Lemma obeys_step {A : Type} (f : Env -> St -> option (A * St * list Eff)) (Q : A -> Prop) :
  (forall e s a s' out, I s -> f e s = Some (a, s', out) -> I s' /\ P s out s' /\ Q a) ->
  obeys (Step f Done) Q.
Proof. intros Hf e s x s' out Hi Hx. by apply (Hf e s). Qed.

Lemma obeys_atomic {A : Type} (f : Env -> St -> A * St * list Eff) (Q : A -> Prop) :
  (forall e s, I s -> let '(a, s', out) := f e s in I s' /\ P s out s' /\ Q a) ->
  obeys (atomic f) Q.
Proof. intros Hf e s x s' out Hi [= Hx]. specialize (Hf e s Hi). by rewrite Hx in Hf. Qed.

Lemma obeys_reading {A : Type} (f : Env -> St -> A) (Q : A -> Prop) :
  (forall s, P s [] s) -> (forall e s, I s -> Q (f e s)) -> obeys (reading f) Q.
Proof. intros HP Hf. apply obeys_atomic. auto. Qed.

Lemma obeys_updating (f : Env -> St -> St) :
  (forall e s, I s -> I (f e s) /\ P s [] (f e s)) -> obeys (updating f) (fun _ => True).
Proof. intros Hf. apply obeys_atomic. intros e s Hi. destruct (Hf e s Hi). auto. Qed.

Lemma obeys_ignore {A : Type} (t : task A) (Q : A -> Prop) :
  obeys t Q -> obeys (ignore t) (fun _ => True).
Proof. intros Ht. by eapply obeys_tbind. Qed.

Lemma obeys_spawn t : obeys t (fun _ => True) -> obeys (spawn t) (fun _ => True).
Proof. done. Qed.

Lemma obeys_for {A : Type} (body : A -> task unit) xs :
  Forall (fun x => obeys (body x) (fun _ => True)) xs -> obeys (for_task body xs) (fun _ => True).
Proof. induction 1; cbn; [done|]. by eapply obeys_tbind. Qed.

Lemma obeys_try {A B E : Type} (t : task (result A E)) (k : A -> task (result B E))
    (R : A -> Prop) (Q : result B E -> Prop) :
  obeys t (fun r => forall a, r = Ok a -> R a) ->
  (forall e, Q (Err e)) -> (forall a, R a -> obeys (k a) Q) -> obeys (try_task t k) Q.
Proof.
  intros Ht He Hk. eapply obeys_tbind; [exact Ht|]. intros [a|e] Hr; [by apply Hk, Hr | apply He].
Qed.

Lemma obeys_timeout {A : Type} elapsed (t : task A) (Q : A -> Prop) :
  (forall s, P s [] s) -> obeys t Q -> obeys (timeout elapsed t) (fun r => forall a, r = Some a -> Q a).
Proof.
  intros HP Ht. induction t as [A a|A X f k IH|A t IHt k IHk]; cbn in *.
  - by intros ? [= <-].
  - intros e s x s' out Hi Hf. destruct (elapsed e).
    + injection Hf as <- <- <-. by split_and!.
    + destruct (f e s) as [[[x0 s0] out0]|] eqn:Hfe; [|done]. injection Hf as <- <- <-.
      destruct (Ht e s x0 s0 out0 Hi Hfe) as (? & ? & ?). eauto.
  - destruct Ht. split; eauto.
Qed.

(** The result of a task whose sections run in states that satisfy the invariant. *)
Lemma obeys_outcome {A : Type} (t : task A) (Q : A -> Prop) a :
  obeys t Q -> outcome I t a -> Q a.
Proof.
  intros Ht Ho. induction Ho as [a|X f k e s x s' out a Hi Hf _ IH|t k a _ IH]; cbn in Ht.
  - done.
  - destruct (Ht e s x s' out Hi Hf) as (_ & _ & ?). auto.
  - destruct Ht. auto.
Qed.

(** A run on its own from a state that satisfies the invariant is such an outcome. *)
Lemma run_task_outcome {A : Type} (t : task A) (Q : A -> Prop) envs s a s' out :
  obeys t Q -> I s -> run_task t envs s = (Done a, s', out) -> outcome I t a.
Proof.
  revert envs s s' out. induction t as [A b|A X f k IH|A t _ k IHk]; intros envs s s' out Ht Hs; cbn.
  - intros [= -> _ _]. constructor.
  - destruct envs as [|e envs]; [done|]. destruct (f e s) as [[[x s1] out1]|] eqn:Hf; [|done].
    destruct (run_task (k x) envs s1) as [[t1 s2] out2] eqn:Hr. intros [= -> _ _].
    destruct (Ht e s x s1 out1 Hs Hf) as (Hs1 & _ & Hk).
    eapply outcome_step; [exact Hs | exact Hf |]. eapply IH; [exact Hk | exact Hs1 | exact Hr].
  - destruct Ht as [_ Hk]. intros Hr. eapply outcome_fork, IHk; [exact Hk | exact Hs | exact Hr].
Qed.

(** The relation of whole runs. *)
Lemma pool_obeys (Entry : task unit -> Prop) p out p' :
  (forall s, P s [] s) ->
  (forall s out s' out' s'', P s out s' -> P s' out' s'' -> P s (out ++ out') s'') ->
  (forall t, Entry t -> obeys t (fun _ => True)) ->
  pool_steps Entry p out p' -> I p.1 -> Forall (fun t => obeys t (fun _ => True)) p.2 ->
  I p'.1 /\ P p.1 out p'.1 /\ Forall (fun t => obeys t (fun _ => True)) p'.2.
Proof.
  intros Hrefl Htrans HE. induction 1 as [p|p out p' out' p'' _ IH Hstep]; intros Hi Hok; [done|].
  destruct (IH Hi Hok) as (Hi' & HP & Hok').
  destruct Hstep as [i X f k e s ts x s' out' Hts Hf|i t k s ts Hts|t s ts Ht].
  - destruct (Forall_lookup_1 _ _ _ _ Hok' Hts e s x s' out' Hi' Hf) as (? & ? & ?).
    split_and!; [done | by eapply Htrans | by apply Forall_insert].
  - destruct (Forall_lookup_1 _ _ _ _ Hok' Hts). rewrite app_nil_r. split_and!; [done..|].
    apply Forall_app. split; [by apply Forall_insert | by apply Forall_singleton].
  - rewrite app_nil_r. split_and!; [done..|]. apply Forall_app.
    split; [done | by apply Forall_singleton; apply HE].
Qed.
End Obeys.

(** What every section does, used under an invariant it keeps. *)
Lemma obeys_under {Env St Eff A : Type} (P P' : St -> list Eff -> St -> Prop) (J : St -> Prop)
    (t : Task Env St Eff A) (Q : A -> Prop) :
  (forall s out s', J s -> P s out s' -> J s' /\ P' s out s') ->
  obeys (fun _ => True) P t Q -> obeys J P' t Q.
Proof.
  intros HP. induction t as [A a|A X f k IH|A t IHt k IHk]; cbn; [done| |by intros [? ?]; auto].
  intros Ht e s x s' out Hj Hf. destruct (Ht e s x s' out Logic.I Hf) as (_ & Hp & Hk).
  destruct (HP s out s' Hj Hp). auto.
Qed.

Lemma obeys_trivial {Env St Eff A : Type} (t : Task Env St Eff A) :
  obeys (fun _ => True) (fun _ _ _ => True) t (fun _ => True).
Proof. induction t as [A a|A X f k IH|A t IHt k IHk]; cbn; auto. Qed.

(** ** Part of a larger system *)
Section Embedded.
Context {Env St Eff Env' St' Eff' : Type}.
Context (part : Env' -> Env) (get : St' -> St) (put : St -> St' -> St') (seen : Eff -> Eff').

Lemma obeys_embed {A : Type} (I : St -> Prop) (P : St -> list Eff -> St -> Prop)
    (J : St' -> Prop) (R : St' -> list Eff' -> St' -> Prop) (t : Task Env St Eff A) (Q : A -> Prop) :
  (forall w, J w -> I (get w)) ->
  (forall w out s, J w -> I s -> P (get w) out s -> J (put s w) /\ R w (map seen out) (put s w)) ->
  obeys I P t Q -> obeys J R (embed part get put seen t) Q.
Proof.
  intros HI HP. induction t as [A a|A X f k IH|A t IHt k IHk]; cbn; [done| |by intros [? ?]; auto].
  intros Ht e w x w' out Hj Hf. destruct (f (part e) (get w)) as [[[y s] out0]|] eqn:Hfe; [|done].
  injection Hf as <- <- <-. destruct (Ht _ _ _ _ _ (HI w Hj) Hfe) as (Hs & Hp & Hk).
  destruct (HP w out0 s Hj Hs Hp). auto.
Qed.

Lemma run_task_embed {A : Type} (t : Task Env St Eff A) envs w :
  (forall s w, get (put s w) = s) -> (forall s s' w, put s (put s' w) = put s w) -> (forall w, put (get w) w = w) ->
  run_task (embed part get put seen t) envs w =
  (embed part get put seen (run_task t (map part envs) (get w)).1.1,
   put (run_task t (map part envs) (get w)).1.2 w, map seen (run_task t (map part envs) (get w)).2).
Proof.
  intros Hgp Hpp Hpg. revert envs w.
  induction t as [A a|A X f k IH|A t _ k IHk]; intros envs w; cbn; [by rewrite Hpg| |apply IHk].
  destruct envs as [|e envs]; cbn; [by rewrite Hpg|].
  destruct (f (part e) (get w)) as [[[x s] out]|]; cbn; [|by rewrite Hpg].
  rewrite (IH x envs (put s w)), Hgp. destruct (run_task (k x) (map part envs) s) as [[t' s'] out']; cbn.
  by rewrite Hpp, map_app.
Qed.
End Embedded.

(** ** Runs of one task on its own

    [settles t s Q]: run alone from [s] in surroundings that satisfy [calm], no section of [t] is ever
    blocked, and its result and the state then satisfy [Q]. *)
Section Settles.
Context {Env St Eff : Type}.
Notation task := (Task Env St Eff).
Context (calm : Env -> Prop).

Fixpoint settles {A : Type} (t : task A) (s : St) (Q : A -> St -> Prop) : Prop :=
  match t with
  | Done a => Q a s
  | Step f k => forall e, calm e -> exists x s' out, f e s = Some (x, s', out) /\ settles (k x) s' Q
  | Fork _ k => settles k s Q
  end.

Lemma settles_tbind {A B : Type} (t : task A) (k : A -> task B) s Q :
  settles t s (fun a s' => settles (k a) s' Q) -> settles (tbind t k) s Q.
Proof.
  revert s. induction t as [A a|A X f c IH|A t _ c IHc]; intros s; cbn; [done| |auto].
  intros Ht e He. destruct (Ht e He) as (x & s' & out & Hf & Hk). exists x, s', out. auto.
Qed.

Lemma settles_step {A : Type} (f : Env -> St -> option (A * St * list Eff)) s (Q : A -> St -> Prop) :
  (forall e, calm e -> exists a s' out, f e s = Some (a, s', out) /\ Q a s') -> settles (Step f Done) s Q.
Proof. done. Qed.

Lemma settles_reading {A : Type} (f : Env -> St -> A) s (Q : A -> St -> Prop) :
  (forall e, Q (f e s) s) -> settles (reading f) s Q.
Proof. intros HQ e _. exists (f e s), s, []. split; [done | apply HQ]. Qed.

Lemma settles_updating (f : Env -> St -> St) s (Q : unit -> St -> Prop) :
  (forall e, Q tt (f e s)) -> settles (updating f) s Q.
Proof. intros HQ e _. exists tt, (f e s), []. split; [done | apply HQ]. Qed.

Lemma settles_mono {A : Type} (t : task A) s (Q R : A -> St -> Prop) :
  settles t s Q -> (forall a s', Q a s' -> R a s') -> settles t s R.
Proof.
  intros Ht HQ. revert s Ht. induction t as [A a|A X f c IH|A t _ c IHc]; intros s; cbn; [auto| |eauto].
  intros Ht e He. destruct (Ht e He) as (x & s' & out & Hf & Hk). exists x, s', out. eauto.
Qed.

Lemma settles_and {A : Type} (t : task A) s (Q R : A -> St -> Prop) :
  settles t s Q -> settles t s R -> settles t s (fun a s' => Q a s' /\ R a s').
Proof.
  revert s. induction t as [A a|A X f c IH|A t _ c IHc]; intros s; cbn; [auto| |auto].
  intros Ht Hr e He. destruct (Ht e He) as (x & s' & out & Hf & Hk), (Hr e He) as (x' & s1 & out' & Hf' & Hk').
  rewrite Hf in Hf'. injection Hf' as <- <- <-. exists x, s', out. auto.
Qed.

Lemma settles_try {A B E : Type} (t : task (result A E)) (k : A -> task (result B E)) s Q :
  settles t s (fun r s' => match r with Ok a => settles (k a) s' Q | Err e => Q (Err e) s' end) ->
  settles (try_task t k) s Q.
Proof. intros Ht. apply settles_tbind. eapply settles_mono; [exact Ht|]. by intros [a|e] s' Hr. Qed.

(** Whatever calm surroundings come one after another, the task is done after finitely many sections. *)
Lemma settles_done_in {A : Type} (t : task A) s (Q : A -> St -> Prop) (envs : nat -> Env) :
  settles t s Q -> (forall i, calm (envs i)) ->
  exists n a s' out, run_task t (map envs (seq 0 n)) s = (Done a, s', out) /\ Q a s'.
Proof.
  revert s envs. induction t as [A a|A X f c IH|A t _ c IHc]; intros s envs; cbn.
  - intros HQ _. by exists 0%nat, a, s, [].
  - intros Ht He. destruct (Ht (envs 0%nat) (He 0%nat)) as (x & s1 & out & Hf & Hk).
    destruct (IH x Q s1 (fun i => envs (S i)) Hk) as (n & a & s' & out' & Hr & HQ); [auto|].
    exists (S n), a, s', (out ++ out'). cbn. rewrite Hf, <- seq_shift, map_map, Hr. done.
  - auto.
Qed.
End Settles.

(** ** What a task has met

    [learns known t Q]: when [t] has come to its result, through sections that ran in some
    surroundings one after another and whatever other tasks did in between, the result and the
    surroundings, [known] and those it met, satisfy [Q]. *)
Section Learns.
Context {Env St Eff : Type}.
Notation task := (Task Env St Eff).

(** The task came to the result through sections that ran in these surroundings. *)
Inductive came_to {A : Type} : task A -> list Env -> A -> Prop :=
  | came_done a : came_to (Done a) [] a
  | came_step X (f : Env -> St -> option (X * St * list Eff)) k e s x s' out envs a :
      f e s = Some (x, s', out) -> came_to (k x) envs a -> came_to (Step f k) (e :: envs) a
  | came_fork t k envs a : came_to k envs a -> came_to (Fork t k) envs a.

Fixpoint learns {A : Type} (known : list Env) (t : task A) (Q : list Env -> A -> Prop) : Prop :=
  match t with
  | Done a => Q known a
  | Step f k => forall e s x s' out, f e s = Some (x, s', out) -> learns (known ++ [e]) (k x) Q
  | Fork _ k => learns known k Q
  end.

Lemma learns_came_to {A : Type} (t : task A) envs a :
  came_to t envs a -> forall known (Q : list Env -> A -> Prop), learns known t Q -> Q (known ++ envs) a.
Proof.
  induction 1 as [a|X f k e s x s' out envs a Hf _ IH|t k envs a _ IH]; intros known Q; cbn.
  - by rewrite app_nil_r.
  - intros Ht. specialize (IH _ _ (Ht e s x s' out Hf)). by rewrite <- app_assoc in IH.
  - apply IH.
Qed.

Lemma learns_mono {A : Type} (t : task A) known (Q R : list Env -> A -> Prop) :
  learns known t Q -> (forall known a, Q known a -> R known a) -> learns known t R.
Proof.
  intros Ht HQ. revert known Ht. induction t as [A a|A X f k IH|A t _ k IHk]; intros known; cbn; [auto| |eauto].
  intros Ht e s x s' out Hf. eapply IH; [exact HQ | by eapply Ht].
Qed.

Lemma learns_tbind {A B : Type} (t : task A) (k : A -> task B) known Q :
  learns known t (fun known a => learns known (k a) Q) -> learns known (tbind t k) Q.
Proof.
  revert known. induction t as [A a|A X f c IH|A t _ c IHc]; intros known; cbn; [done| |auto].
  intros Ht e s x s' out Hf. by eapply IH, Ht.
Qed.

Lemma learns_try {A B E : Type} (t : task (result A E)) (k : A -> task (result B E)) known
    (Q : list Env -> result B E -> Prop) :
  (forall known e, Q known (Err e)) ->
  learns known t (fun known r => forall a, r = Ok a -> learns known (k a) Q) -> learns known (try_task t k) Q.
Proof.
  intros He Ht. apply learns_tbind. eapply learns_mono; [exact Ht|]. intros known' [a|e] Hr; [by apply Hr | apply He].
Qed.

(** Facts that stay true as more is met, and facts of the result alone. *)
Lemma learns_more {A : Type} (t : task A) (F : list Env -> Prop) known :
  (forall known e, F known -> F (known ++ [e])) -> F known -> learns known t (fun known _ => F known).
Proof.
  intros HF. revert known. induction t as [A a|A X f k IH|A t _ k IHk]; intros known; cbn; [done| |auto].
  intros Hk e s x s' out _. auto.
Qed.

Lemma learns_and {A : Type} (t : task A) known (Q R : list Env -> A -> Prop) :
  learns known t Q -> learns known t R -> learns known t (fun known a => Q known a /\ R known a).
Proof.
  revert known. induction t as [A a|A X f k IH|A t _ k IHk]; intros known; cbn; [done| |auto].
  intros Hq Hr e s x s' out Hf. eauto.
Qed.

Lemma learns_timeout {A : Type} elapsed (t : task A) known (Q : list Env -> A -> Prop) :
  learns known t Q -> learns known (timeout elapsed t) (fun known r => forall a, r = Some a -> Q known a).
Proof.
  revert known. induction t as [A a|A X f k IH|A t _ k IHk]; intros known; cbn; [|intros Ht e s x s' out|auto].
  - by intros ? ? [= <-].
  - destruct (elapsed e); [by intros [= <- <- <-]|]. destruct (f e s) as [[[x0 s0] out0]|] eqn:Hf; [|done].
    intros [= <- <- <-]. by eapply IH, Ht.
Qed.

(** What a task learns holds of its result, whatever else its sections keep. *)
Lemma obeys_learns {A : Type} (I : St -> Prop) (P : St -> list Eff -> St -> Prop) (t : task A) known (Q : A -> Prop) :
  obeys I P t (fun _ => True) -> learns known t (fun _ a => Q a) -> obeys I P t Q.
Proof.
  revert known. induction t as [A a|A X f k IH|A t _ k IHk]; intros known; cbn; [done| |].
  - intros Ho Hl e s x s' out Hi Hf. destruct (Ho e s x s' out Hi Hf) as (? & ? & ?). split_and!; [done..|]. eauto.
  - intros [? ?] ?. split; eauto.
Qed.

(** A run of the task on its own. *)
Lemma run_task_came_to {A : Type} (t : task A) envs s a s' out :
  run_task t envs s = (Done a, s', out) -> exists used, came_to t used a /\ used `prefix_of` envs.
Proof.
  revert envs s s' out. induction t as [A b|A X f k IH|A t _ k IHk]; intros envs s s' out; cbn.
  - intros [= -> _ _]. exists []. split; [constructor | apply prefix_nil].
  - destruct envs as [|e envs]; [done|]. destruct (f e s) as [[[x s1] out1]|] eqn:Hf; [|done].
    destruct (run_task (k x) envs s1) as [[t1 s2] out2] eqn:Hr. intros [= -> _ _].
    destruct (IH x a envs s1 _ _ Hr) as (used & Hu & Hp). exists (e :: used).
    split; [by econstructor | by apply prefix_cons].
  - intros Hr. destruct (IHk _ _ _ _ _ Hr) as (used & Hu & Hp). exists used. by split; [constructor|].
Qed.

(** The task came to the result through sections that ran in these surroundings and states; in
    between, other tasks may have changed the state. *)
Fixpoint saw {A : Type} (t : task A) (seen : list (Env * St)) (a : A) : Prop :=
  match t with
  | Done b => seen = [] /\ b = a
  | Step f k => exists e s x s' out rest,
      seen = (e, s) :: rest /\ f e s = Some (x, s', out) /\ saw (k x) rest a
  | Fork _ k => saw k seen a
  end.

Lemma saw_came_to {A : Type} (t : task A) seen a : saw t seen a -> came_to t seen.*1 a.
Proof.
  revert seen. induction t as [A b|A X f k IH|A t _ k IHk]; intros seen; cbn.
  - intros [-> ->]. constructor.
  - intros (e & s & x & s' & out & rest & -> & Hf & Hk). econstructor; [exact Hf | by apply IH].
  - intros Hk. by constructor; apply IHk.
Qed.

(** What two tasks one after the other saw. *)
Lemma saw_tbind {A B : Type} (t : task A) (k : A -> task B) seen b :
  saw (tbind t k) seen b ->
  exists first a rest, seen = first ++ rest /\ saw t first a /\ saw (k a) rest b.
Proof.
  revert seen. induction t as [A a|A X f c IH|A t _ c IHc]; intros seen; cbn.
  - intros Hk. by exists [], a, seen.
  - intros (e & s & x & s' & out & rest & -> & Hf & Hk).
    destruct (IH x k rest Hk) as (first & a & rest' & -> & Hc & Hk').
    exists ((e, s) :: first), a, rest'. split_and!; [done| |done].
    by exists e, s, x, s', out, first.
  - apply IHc.
Qed.

(** What a section saw when it read the state. *)
Lemma saw_reading {A B : Type} (f : Env -> St -> A) (k : A -> task B) seen b :
  saw (tbind (reading f) k) seen b ->
  exists e s rest, seen = (e, s) :: rest /\ saw (k (f e s)) rest b.
Proof. intros (e & s & x & s' & out & rest & -> & [= <- <- <-] & Hk). by exists e, s, rest. Qed.

(** The surroundings and states of a run of one task on its own. *)
Fixpoint trail {A : Type} (t : task A) (envs : list Env) (s : St) : list (Env * St) :=
  match t with
  | Done _ => []
  | Step f k =>
      match envs with
      | [] => []
      | e :: envs =>
          match f e s with
          | None => []
          | Some (x, s', _) => (e, s) :: trail (k x) envs s'
          end
      end
  | Fork _ k => trail k envs s
  end.

Lemma run_task_saw {A : Type} (t : task A) envs s a s' out :
  run_task t envs s = (Done a, s', out) -> saw t (trail t envs s) a.
Proof.
  revert envs s s' out. induction t as [A b|A X f k IH|A t _ k IHk]; intros envs s s' out; cbn.
  - by intros [= -> _ _].
  - destruct envs as [|e envs]; [done|]. destruct (f e s) as [[[x s1] out1]|] eqn:Hf; [|done].
    destruct (run_task (k x) envs s1) as [[t1 s2] out2] eqn:Hr. intros [= -> _ _].
    exists e, s, x, s1, out1, (trail (k x) envs s1). split_and!; [done..|]. by eapply IH.
  - intros Hr. by eapply IHk.
Qed.
End Learns.

Section Funded.
Context {Env St Eff : Type}.
Notation task := (Task Env St Eff).
Context (earns spends : Eff -> bool).

Fixpoint funded {A : Type} (c : N) (t : task A) (R : A -> N) : Prop :=
  match t with
  | Done a => R a <= c
  | Step f k => forall e s x s' out, f e s = Some (x, s', out) ->
      count spends out <= c + count earns out /\
      funded (c + count earns out - count spends out) (k x) R
  | Fork t k => exists c1 c2, c1 + c2 <= c /\ funded c1 t (fun _ => 0) /\ funded c2 k R
  end.

Lemma funded_more {A : Type} (t : task A) c c' (R R' : A -> N) :
  funded c t R -> c <= c' -> (forall a, R' a <= R a) -> funded c' t R'.
Proof.
  revert c c'. induction t as [A a|A X f k IH|A t IHt k IHk]; cbn; intros c c' Hf Hc HR.
  - specialize (HR a). lia.
  - intros e s x s' out Hx. destruct (Hf e s x s' out Hx) as [Hs Hk]. split; [lia|].
    eapply IH; [exact Hk | lia | done].
  - destruct Hf as (c1 & c2 & Hsum & Ht & Hk). exists c1, c2. split_and!; [lia|done|].
    by eapply IHk.
Qed.

Lemma funded_tbind {A B : Type} (t : task A) (k : A -> task B) c R Q :
  funded c t R -> (forall a, funded (R a) (k a) Q) -> funded c (tbind t k) Q.
Proof.
  revert c. induction t as [A a|A X f c IH|A t IHt c IHc]; cbn; intros n Hf Hk.
  - by eapply funded_more.
  - intros e s x s' out Hx. destruct (Hf e s x s' out Hx) as [Hs Hc]. split; [done|]. by eapply IH.
  - destruct Hf as (c1 & c2 & Hsum & Ht & Hc). exists c1, c2. split_and!; [done..|]. by eapply IHc.
Qed.

(** What neither earns nor spends can run at any point. *)
Definition idle (out : list Eff) : Prop := count earns out = 0 /\ count spends out = 0.

Lemma funded_idle {A : Type} c (t : task A) :
  obeys (fun _ => True) (fun _ out _ => idle out) t (fun _ => True) -> funded c t (fun _ => c).
Proof.
  revert c. induction t as [A a|A X f k IH|A t IHt k IHk]; cbn; intros c Ht; [lia| |].
  - intros e s x s' out Hx. destruct (Ht e s x s' out Logic.I Hx) as (_ & [He Hs] & Hk). rewrite He, Hs.
    split; [lia|]. replace (c + 0 - 0) with c by lia. by apply IH.
  - destruct Ht as [Ht Hk]. exists 0, c. split_and!; [lia| |by apply IHk].
    eapply funded_more; [by apply IHt | done | done].
Qed.

Lemma funded_tbind_idle {A B : Type} c (t : task A) (k : A -> task B) Q :
  obeys (fun _ => True) (fun _ out _ => idle out) t (fun _ => True) -> (forall a, funded c (k a) Q) ->
  funded c (tbind t k) Q.
Proof. intros Ht Hk. eapply funded_tbind; [by apply funded_idle | done]. Qed.

Definition solvent (balance : N) (ts : list (task unit)) : Prop :=
  exists cs, Forall2 (fun c t => funded c t (fun _ => 0)) cs ts /\ foldr N.add 0 cs <= balance.

Lemma sum_insert_lookup (cs : list N) i c c' :
  cs !! i = Some c -> foldr N.add 0 (<[i := c']> cs) + c = foldr N.add 0 cs + c'.
Proof.
  revert i. induction cs as [|d cs IH]; intros [|i] Hi; try done.
  - injection Hi as ->. cbn. lia.
  - specialize (IH i Hi).
    change (d + foldr N.add 0 (<[i := c']> cs) + c = d + foldr N.add 0 cs + c'). lia.
Qed.

Lemma sum_app (cs ds : list N) : foldr N.add 0 (cs ++ ds) = foldr N.add 0 cs + foldr N.add 0 ds.
Proof. induction cs; cbn; lia. Qed.

Lemma pool_step_solvent (Entry : task unit -> Prop) p out p' balance :
  (forall t, Entry t -> funded 0 t (fun _ => 0)) ->
  pool_step Entry p out p' -> solvent balance p.2 ->
  count spends out <= balance + count earns out /\
  solvent (balance + count earns out - count spends out) p'.2.
Proof.
  intros HE Hstep (cs & Hcs & Hsum).
  destruct Hstep as [i X f k e s ts x s' out Hi Hf|i t k s ts Hi|t s ts Ht]; cbn [fst snd] in *.
  - destruct (Forall2_lookup_r _ _ _ _ _ Hcs Hi) as (c & Hc & Hfun).
    destruct (Hfun e s x s' out Hf) as [Hs Hk].
    pose proof (sum_insert_lookup cs i c (c + count earns out - count spends out) Hc) as Hnew.
    assert (Hle : c <= foldr N.add 0 cs).
    { clear -Hc. revert i Hc. induction cs as [|d cs IH]; intros [|i]; cbn; intros Hc; try done.
      - injection Hc as ->. lia.
      - specialize (IH i Hc). lia. }
    split; [lia|]. exists (<[i := c + count earns out - count spends out]> cs).
    split; [by apply Forall2_insert | lia].
  - destruct (Forall2_lookup_r _ _ _ _ _ Hcs Hi) as (c & Hc & c1 & c2 & H12 & Ht & Hk).
    pose proof (sum_insert_lookup cs i c c2 Hc) as Hnew. split; [apply N.le_0_l|].
    exists (<[i := c2]> cs ++ [c1]). split.
    + apply Forall2_app; [by apply Forall2_insert | by repeat constructor].
    + rewrite sum_app. change (count earns []) with 0. change (count spends []) with 0. cbn. lia.
  - split; [apply N.le_0_l|]. exists (cs ++ [0]). split.
    + apply Forall2_app; [done | repeat constructor; by apply HE].
    + rewrite sum_app. change (count earns []) with 0. change (count spends []) with 0. cbn. lia.
Qed.

(** No interleaving spends more than it earned. *)
Lemma pool_solvent (Entry : task unit -> Prop) p out p' balance :
  (forall t, Entry t -> funded 0 t (fun _ => 0)) ->
  pool_steps Entry p out p' -> solvent balance p.2 ->
  count spends out <= balance + count earns out /\
  solvent (balance + count earns out - count spends out) p'.2.
Proof.
  intros HE. induction 1 as [p|p out p' out' p'' _ IH Hstep]; intros Hs.
  - change (count earns []) with 0. change (count spends []) with 0.
    split; [lia|]. by replace (balance + 0 - 0) with balance by lia.
  - destruct (IH Hs) as [Hle Hs']. destruct (pool_step_solvent _ _ _ _ _ HE Hstep Hs') as [Hle' Hs''].
    rewrite !count_app. split; [lia|].
    by replace (balance + (count earns out + count earns out') - (count spends out + count spends out'))
      with (balance + count earns out - count spends out + count earns out' - count spends out') by lia.
Qed.
End Funded.

Lemma funded_embed {Env St Eff Env' St' Eff' A : Type} (part : Env' -> Env) (get : St' -> St)
    (put : St -> St' -> St') (seen : Eff -> Eff') earns spends (earns' spends' : Eff' -> bool) c
    (t : Task Env St Eff A) R :
  (forall e, earns' (seen e) = earns e) -> (forall e, spends' (seen e) = spends e) ->
  funded earns spends c t R -> funded earns' spends' c (embed part get put seen t) R.
Proof.
  intros He Hs.
  assert (Hc : forall p (p' : Eff' -> bool) out, (forall e, p' (seen e) = p e) -> count p' (map seen out) = count p out).
  { intros p p' out Hp. induction out as [|e out IH]; [done|]. cbn [map]. by rewrite !count_cons, Hp, IH. }
  revert c. induction t as [A a|A X f k IH|A t IHt k IHk]; intros c; cbn; [done| |].
  - intros Ht e w x w' out Hf. destruct (f (part e) (get w)) as [[[y s] out0]|] eqn:Hfe; [|done].
    injection Hf as <- <- <-. rewrite (Hc earns earns'), (Hc spends spends') by done.
    destruct (Ht _ _ _ _ _ Hfe). auto.
  - intros (c1 & c2 & ? & ? & ?). exists c1, c2. auto.
Qed.

(** ** A task with a result among the others of a pool *)
Section Finishes.
Context {Env St Eff : Type}.
Notation task := (Task Env St Eff).
Context (Entry : task unit -> Prop).

(** The task comes to its result while the other tasks run, enter and fork as they like. *)
Inductive finishes {A : Type} : St * list (task unit) -> task A -> St * list (task unit) -> A -> Prop :=
  | finishes_done p a : finishes p (Done a) p a
  | finishes_others p out p' t p'' a :
      pool_step Entry p out p' -> finishes p' t p'' a -> finishes p t p'' a
  | finishes_step X (f : Env -> St -> option (X * St * list Eff)) k e s ts x s' out p a :
      f e s = Some (x, s', out) -> finishes (s', ts) (k x) p a -> finishes (s, ts) (Step f k) p a
  | finishes_fork t k s ts p a : finishes (s, ts ++ [t]) k p a -> finishes (s, ts) (Fork t k) p a.

Lemma obeys_finishes {A : Type} (I : St -> Prop) (P : St -> list Eff -> St -> Prop) p (t : task A) p' a
    (Q : A -> Prop) :
  (forall s, P s [] s) ->
  (forall s out s' out' s'', P s out s' -> P s' out' s'' -> P s (out ++ out') s'') ->
  (forall t, Entry t -> obeys I P t (fun _ => True)) ->
  finishes p t p' a -> I p.1 -> Forall (fun t => obeys I P t (fun _ => True)) p.2 -> obeys I P t Q -> Q a.
Proof.
  intros Hrefl Htrans HE.
  induction 1 as [p a|p out p' t p'' a Hstep _ IH|X f k e s ts x s' out p a Hf _ IH|t k s ts p a _ IH];
    intros Hi Hts Ht.
  - done.
  - destruct (pool_obeys I P Entry p out p' Hrefl Htrans HE (pool_steps_one _ _ _ _ Hstep) Hi Hts) as (Hi' & _ & Hts').
    by apply IH.
  - destruct (Ht e s x s' out Hi Hf) as (? & _ & ?). by apply IH.
  - destruct Ht as [Hfork Hk]. apply IH; [done | | done]. cbn. apply Forall_app. by split; [|constructor].
Qed.

(** A first part of the task runs on its own. *)
Lemma finishes_run {A : Type} (t : task A) envs s ts t' s' out a :
  run_task t envs s = (t', s', out) ->
  (forall ts', exists p, finishes (s', ts') t' p a) -> exists p, finishes (s, ts) t p a.
Proof.
  revert envs s ts t' out. induction t as [A b|A X f k IH|A t _ k IHk]; intros envs s ts t' out; cbn.
  - intros [= <- <- _] Hf. apply Hf.
  - destruct envs as [|e envs]; [intros [= <- <- _] Hf; apply Hf|].
    destruct (f e s) as [[[x s1] out1]|] eqn:Hf; [|intros [= <- <- _] Hg; apply Hg].
    destruct (run_task (k x) envs s1) as [[t1 s2] out2] eqn:Hr. intros [= <- <- _] Hg.
    destruct (IH x a envs s1 ts t1 out2 Hr Hg) as [p Hp]. exists p. by eapply finishes_step.
  - intros Hr Hf. destruct (IHk a envs s (ts ++ [t]) t' out Hr Hf) as [p Hp]. exists p. by apply finishes_fork.
Qed.

(** A run of the pool comes first. *)
Lemma finishes_after {A : Type} p out p' (t : task A) p'' a :
  pool_steps Entry p out p' -> finishes p' t p'' a -> finishes p t p'' a.
Proof.
  intros Hs. revert t a. induction Hs as [p|p out p' out' p1 _ IH Hstep]; intros t a Hf; [done|].
  apply IH. by eapply finishes_others.
Qed.
End Finishes.
