(* ===== verification/NodeConfig.v ===== *)
(** * Node configuration (crates/node/src/lib.rs)

    The configuration an operator gives a node: capabilities and their executors, the values taken
    from the environment, the defaults, normalisation and validation, and what [Node::start] derives
    from it (the capabilities it advertises and the configuration of the network).

    A path is its text, read as Unix does.  The process environment, the file system's answer about
    a path, the clock and the texts of operating system errors are arguments; reading TOML (toml)
    and hexadecimal (hex) are parameters. *)

From Stdlib Require Import String Ascii ZArith NArith Lia.
From stdpp Require Import base tactics sets strings numbers list.
From S2P Require Import Prelude OrdMap Types Validation SocketAddr NetAddr FileSystem Storage Runtime Trust Security TrainingPlan Facade Network.
Local Open Scope N_scope.
Local Open Scope rust_scope.

Definition MAX_JOB_HISTORY : N := 4096.

Definition DEFAULT_STORAGE_QUOTA : N := 1024 * 1024 * 1024.

Definition DEFAULT_ARTIFACT_LIMIT : N := 256 * 1024 * 1024.

Definition DEFAULT_TRAINING_MEMORY_BYTES : N := 64 * 1024 * 1024.

(** ** Errors *)

Inductive NodeError :=
  | NodeError_Io (error : IoError)
  | NodeError_ConfigParse (path message : str)
  | NodeError_InvalidConfig (message : str)
  | NodeError_Network (error : NetworkError)
  | NodeError_Identity (message : str)
  | NodeError_Runtime (error : RuntimeError)
  | NodeError_Storage (error : StorageError)
  | NodeError_Intelligence (error : IntelligenceError)
  | NodeError_Trust (error : TrustError)
  | NodeError_Security (error : SecurityError)
  | NodeError_Planner (error : PlannerError)
  | NodeError_Json (message : str).

Definition invalid_config (message : str) : NodeError := NodeError_InvalidConfig message.

(** ** Paths *)

Definition slash : ascii := "/".

(** The pieces between separators. *)
Fixpoint split_on (sep : ascii) (current s : list ascii) : list (list ascii) :=
  match s with
  | [] => [current]
  | c :: s => if Ascii.eqb c sep then current :: split_on sep [] s else split_on sep (current ++ [c]) s
  end.

(** [s.split(sep)] *)
Definition split (sep : ascii) (s : str) : list str :=
  string_of_list_ascii <$> split_on sep [] (list_ascii_of_string s).

Definition path_is_absolute (path : str) : bool :=
  match path with String c _ => Ascii.eqb c slash | EmptyString => false end.

(** The components of a path: repeated separators and inner "." do not count. *)
Definition path_components (path : str) : bool * list str :=
  match split slash path with
  | first :: rest =>
      (path_is_absolute path,
       (if first == EmptyString then [] else [first])
       ++ List.filter (fun piece => (piece != EmptyString) && (piece != "."%string)) rest)
  | [] => (false, [])
  end.

Definition path_eqb (p q : str) : bool := path_components p == path_components q.

Definition ends_with_slash (path : str) : bool :=
  match last (list_ascii_of_string path) with Some c => Ascii.eqb c slash | None => false end.

(** [base.join(path)] *)
Definition path_join (base path : str) : str :=
  if path_is_absolute path then path
  else if (base == EmptyString) || ends_with_slash base then (base ++ path)%string
  else (base ++ "/" ++ path)%string.

(** ** Capabilities *)

Record StorageConfig := mkStorageConfig {
  StorageConfig_quota_bytes : N;
  StorageConfig_max_artifact_bytes : N
}.

Definition StorageConfig_default : StorageConfig :=
  {| StorageConfig_quota_bytes := DEFAULT_STORAGE_QUOTA;
     StorageConfig_max_artifact_bytes := DEFAULT_ARTIFACT_LIMIT |}.

Record CapabilityConfig := mkCapabilityConfig {
  CapabilityConfig_name : str;
  CapabilityConfig_version : N;
  CapabilityConfig_public : bool;
  CapabilityConfig_accept_remote_jobs : bool;
  CapabilityConfig_kind : str;
  CapabilityConfig_model : option str;
  CapabilityConfig_model_path : option str;
  CapabilityConfig_program : option str;
  CapabilityConfig_args : list str;
  CapabilityConfig_env : BTreeMap str str;
  CapabilityConfig_metadata : BTreeMap str str;
  CapabilityConfig_sandbox : str;
  CapabilityConfig_max_input_bytes : N;
  CapabilityConfig_max_output_bytes : N;
  CapabilityConfig_memory_bytes : N;
  CapabilityConfig_cpu_millis : N
}.

(** What the file system says of a path: whether it is a file, and its length. *)
Definition FileInfo : Type := bool * N.

Section Capability.
Context (metadata : str -> result FileInfo str).

Definition llama_model_check (self : CapabilityConfig) : result unit NodeError :=
  match self.(CapabilityConfig_model_path) with
  | None =>
      Err (invalid_config ("capability " ++ self.(CapabilityConfig_name)
                           ++ " needs an operator-supplied model_path")%string)
  | Some model_path =>
      let? info := map_err (fun error =>
          invalid_config ("llama_cpp model_path " ++ model_path ++ " is not readable: "
                          ++ error)%string) (metadata model_path) in
      fail_if (negb info.1 || (info.2 =? 0))
        (invalid_config ("llama_cpp model_path " ++ model_path ++ " must be a non-empty file")%string)
  end.

Definition is_process (self : CapabilityConfig) : bool :=
  (self.(CapabilityConfig_kind) == "process"%string)
  || (self.(CapabilityConfig_kind) == "llama_cpp"%string).

Definition CapabilityConfig_validate (self : CapabilityConfig) : result unit NodeError :=
  let name := self.(CapabilityConfig_name) in
  let kind := self.(CapabilityConfig_kind) in
  fail_if ((name == EmptyString) || (128 <? slen name))
    (invalid_config ("capability name is invalid: " ++ name)%string) ;?
  fail_if ((self.(CapabilityConfig_version) =? 0)
           || (self.(CapabilityConfig_max_input_bytes) =? 0)
           || (MAX_JOB_INPUT <? self.(CapabilityConfig_max_input_bytes))
           || (self.(CapabilityConfig_max_output_bytes) =? 0)
           || (MAX_JOB_OUTPUT <? self.(CapabilityConfig_max_output_bytes))
           || (self.(CapabilityConfig_memory_bytes) =? 0)
           || (self.(CapabilityConfig_cpu_millis) =? 0))
    (invalid_config ("capability " ++ name ++ " has invalid version or limits")%string) ;?
  fail_if ((kind != "builtin_text"%string) && (kind != "builtin_training"%string)
           && (kind != "process"%string) && (kind != "llama_cpp"%string))
    (invalid_config ("capability " ++ name
       ++ " kind must be builtin_text, builtin_training, process, or llama_cpp")%string) ;?
  fail_if ((kind == "builtin_text"%string)
           && (default EmptyString self.(CapabilityConfig_model) == EmptyString))
    (invalid_config ("capability " ++ name ++ " needs a model for builtin_text")%string) ;?
  fail_if (is_process self && bool_decide (self.(CapabilityConfig_program) = None))
    (invalid_config ("capability " ++ name ++ " needs a program for process execution")%string) ;?
  (if kind == "llama_cpp"%string then llama_model_check self else Ok tt) ;?
  fail_if (sat_sub MAX_METADATA 1 <? len self.(CapabilityConfig_metadata))
    (invalid_config ("capability " ++ name ++ " has too many metadata entries")%string) ;?
  for_each (fun '(key, value) =>
      fail_if ((key == EmptyString) || (64 <? slen key) || (value == EmptyString)
               || (256 <? slen value) || (key == "executor"%string))
        (invalid_config ("capability " ++ name ++ " has invalid or reserved metadata")%string))
    self.(CapabilityConfig_metadata) ;?
  fail_if ((self.(CapabilityConfig_sandbox) != "trusted_local"%string)
           && (self.(CapabilityConfig_sandbox) != "bubblewrap"%string))
    (invalid_config ("capability " ++ name ++ " sandbox must be trusted_local or bubblewrap")%string) ;?
  fail_if (is_process self && (self.(CapabilityConfig_sandbox) == "trusted_local"%string)
           && self.(CapabilityConfig_public) && self.(CapabilityConfig_accept_remote_jobs))
    (invalid_config ("capability " ++ name
                     ++ " cannot expose a trusted_local process to peers")%string).
End Capability.

Definition protocol_capability (self : CapabilityConfig) (expires_at : N) : Capability :=
  {| Capability_name := self.(CapabilityConfig_name);
     Capability_version := self.(CapabilityConfig_version);
     Capability_model := self.(CapabilityConfig_model);
     Capability_resources :=
       {| ResourceLimits_max_input_bytes := self.(CapabilityConfig_max_input_bytes);
          ResourceLimits_max_output_bytes := self.(CapabilityConfig_max_output_bytes);
          ResourceLimits_memory_bytes := self.(CapabilityConfig_memory_bytes);
          ResourceLimits_cpu_millis := self.(CapabilityConfig_cpu_millis) |};
     Capability_evidence := CapabilityEvidence_Claimed;
     Capability_expires_at := expires_at;
     Capability_metadata :=
       mkMetadataEntry "executor" self.(CapabilityConfig_kind)
       :: map (fun '(key, value) => mkMetadataEntry key value) self.(CapabilityConfig_metadata);
     Capability_compute_backends := [] |}.

Definition process_sandbox (self : CapabilityConfig) : ProcessSandbox :=
  if self.(CapabilityConfig_sandbox) == "bubblewrap"%string then ProcessSandbox_Bubblewrap "bwrap"
  else ProcessSandbox_TrustedLocal.

Definition CapabilityConfig_executor (self : CapabilityConfig) : result ExecutorSpec NodeError :=
  if self.(CapabilityConfig_kind) == "builtin_text"%string then
    Ok (ExecutorSpec_BuiltinText
          (default "builtin.tiny-sentiment.v1"%string self.(CapabilityConfig_model)))
  else if self.(CapabilityConfig_kind) == "builtin_training"%string then
    Ok ExecutorSpec_BuiltinTraining
  else if self.(CapabilityConfig_kind) == "process"%string then
    let? program := ok_or self.(CapabilityConfig_program)
      (invalid_config "process capability has no program") in
    Ok (ExecutorSpec_ExternalProcess program self.(CapabilityConfig_args)
          self.(CapabilityConfig_env) (process_sandbox self))
  else if self.(CapabilityConfig_kind) == "llama_cpp"%string then
    let? program := ok_or self.(CapabilityConfig_program)
      (invalid_config "llama_cpp capability has no program") in
    let? model_path := ok_or self.(CapabilityConfig_model_path)
      (invalid_config "llama_cpp capability has no model_path") in
    Ok (ExecutorSpec_LlamaCpp program model_path self.(CapabilityConfig_args)
          self.(CapabilityConfig_env) (process_sandbox self))
  else Err (invalid_config "unsupported executor kind").

(** ** Defaults *)

Definition default_data_dir : str := "state".

(** [SocketAddr::from(([127, 0, 0, 1], 4000))] *)
Definition default_listen_addr : SocketAddr := mkSocketAddr (IpAddr_V4 (127 * 2 ^ 24 + 1)) 4000 0.

Definition default_max_connections : N := 64.

Definition default_max_frame_size : N := MAX_FRAME_SIZE.

Definition default_peer_ttl : N := 300.

Definition default_relay_sessions : N := 64.

Definition default_relay_bytes : N := 64 * 1024 * 1024.

Definition default_hole_punch_enabled : bool := true.

Definition default_hole_punch_attempts : N := 4.

Definition default_dht_enabled : bool := true.

Definition default_dht_k : N := 20.

Definition default_dht_alpha : N := 3.

Definition default_dht_max_records : N := 2048.

Definition default_training_memory_bytes : N := DEFAULT_TRAINING_MEMORY_BYTES.

Definition default_version : N := 1.

Definition default_true : bool := true.

Definition default_executor_kind : str := "builtin_text".

Definition default_sandbox : str := "trusted_local".

Definition default_input_limit : N := 64 * 1024.

Definition default_output_limit : N := 16 * 1024.

Definition default_memory_limit : N := 64 * 1024 * 1024.

Definition default_cpu_limit : N := 1000.

(** A capability of which the configuration file gives only the name and the model. *)
Definition serde_capability (name : str) (model : option str) : CapabilityConfig :=
  {| CapabilityConfig_name := name;
     CapabilityConfig_version := default_version;
     CapabilityConfig_public := default_true;
     CapabilityConfig_accept_remote_jobs := default_true;
     CapabilityConfig_kind := default_executor_kind;
     CapabilityConfig_model := model;
     CapabilityConfig_model_path := None;
     CapabilityConfig_program := None;
     CapabilityConfig_args := [];
     CapabilityConfig_env := [];
     CapabilityConfig_metadata := [];
     CapabilityConfig_sandbox := default_sandbox;
     CapabilityConfig_max_input_bytes := default_input_limit;
     CapabilityConfig_max_output_bytes := default_output_limit;
     CapabilityConfig_memory_bytes := default_memory_limit;
     CapabilityConfig_cpu_millis := default_cpu_limit |}.

(** ** The configuration *)

Record NodeConfig := mkNodeConfig {
  NodeConfig_data_dir : str;
  NodeConfig_identity_path : option str;
  NodeConfig_admin_socket : option str;
  NodeConfig_listen_addr : SocketAddr;
  NodeConfig_advertise_addr : option str;
  NodeConfig_bootstrap : list str;
  NodeConfig_relay_addresses : list str;
  NodeConfig_relay_enabled : bool;
  NodeConfig_relay_max_sessions : N;
  NodeConfig_relay_max_bytes : N;
  NodeConfig_max_connections : N;
  NodeConfig_max_frame_size : N;
  NodeConfig_peer_ttl_seconds : N;
  NodeConfig_allow_private_addresses : bool;
  NodeConfig_prefer_relay : bool;
  NodeConfig_hole_punch_enabled : bool;
  NodeConfig_hole_punch_max_attempts : N;
  NodeConfig_dht_enabled : bool;
  NodeConfig_dht_k : N;
  NodeConfig_dht_alpha : N;
  NodeConfig_dht_max_records : N;
  NodeConfig_shared_ram_bytes : option N;
  NodeConfig_shared_vram_bytes : option N;
  NodeConfig_training_memory_bytes : N;
  NodeConfig_training_window_delay_ms : N;
  NodeConfig_storage : StorageConfig;
  NodeConfig_runtime : RuntimeConfig;
  NodeConfig_capabilities : list CapabilityConfig
}.

Definition NodeConfig_default : NodeConfig :=
  {| NodeConfig_data_dir := default_data_dir;
     NodeConfig_identity_path := None;
     NodeConfig_admin_socket := None;
     NodeConfig_listen_addr := mkSocketAddr (IpAddr_V4 (127 * 2 ^ 24 + 1)) 4000 0;
     NodeConfig_advertise_addr := None;
     NodeConfig_bootstrap := [];
     NodeConfig_relay_addresses := [];
     NodeConfig_relay_enabled := false;
     NodeConfig_relay_max_sessions := 64;
     NodeConfig_relay_max_bytes := 64 * 1024 * 1024;
     NodeConfig_max_connections := 64;
     NodeConfig_max_frame_size := MAX_FRAME_SIZE;
     NodeConfig_peer_ttl_seconds := 300;
     NodeConfig_allow_private_addresses := false;
     NodeConfig_prefer_relay := false;
     NodeConfig_hole_punch_enabled := true;
     NodeConfig_hole_punch_max_attempts := 4;
     NodeConfig_dht_enabled := true;
     NodeConfig_dht_k := 20;
     NodeConfig_dht_alpha := 3;
     NodeConfig_dht_max_records := 2048;
     NodeConfig_shared_ram_bytes := None;
     NodeConfig_shared_vram_bytes := None;
     NodeConfig_training_memory_bytes := DEFAULT_TRAINING_MEMORY_BYTES;
     NodeConfig_training_window_delay_ms := 0;
     NodeConfig_storage := StorageConfig_default;
     NodeConfig_runtime := RuntimeConfig_default;
     NodeConfig_capabilities := [] |}.

(** ** Values from the environment *)

(** The characters [str::trim] removes, as UTF-8. *)
Definition whitespace : list (list N) :=
  map (fun b => [b]) [9; 10; 11; 12; 13; 32]
  ++ [[194; 133]; [194; 160]; [225; 154; 128]]
  ++ map (fun b => [226; 128; b]) [128; 129; 130; 131; 132; 133; 134; 135; 136; 137; 138; 168; 169; 175]
  ++ [[226; 129; 159]; [227; 128; 128]].

(** One piece of white space is dropped for each unit of fuel; the length is enough. *)
Fixpoint drop_whitespace (fuel : nat) (spaces : list (list N)) (s : list N) : list N :=
  match fuel with
  | O => s
  | S fuel =>
      match List.find (fun w => take (length w) s == w) spaces with
      | Some w => drop_whitespace fuel spaces (drop (length w) s)
      | None => s
      end
  end.

Definition trim_bytes (s : list N) : list N :=
  let front := drop_whitespace (length s) whitespace s in
  rev (drop_whitespace (length front) (map (@rev N) whitespace) (rev front)).

Definition string_of_bytes (s : list N) : str := string_of_list_ascii (map ascii_of_N s).

Definition trim (s : str) : str := string_of_bytes (trim_bytes (as_bytes s)).

(** [parse::<u64>()], and [parse::<usize>()] on a 64-bit target. *)
Definition parse_digits (digits : list ascii) : result N str :=
  try_fold (fun value c =>
      match to_digit 10 c with
      | None => Err "invalid digit found in string"%string
      | Some d => if u64_max <? value * 10 + d
                  then Err "number too large to fit in target type"%string
                  else Ok (value * 10 + d)
      end) 0 digits.

Definition parse_u64 (s : str) : result N str :=
  match list_ascii_of_string s with
  | [] => Err "cannot parse integer from empty string"%string
  | ["+"%char] | ["-"%char] => Err "invalid digit found in string"%string
  | c :: digits => if Ascii.eqb c "+" then parse_digits digits else parse_digits (c :: digits)
  end.

Definition parse_bool (s : str) : result bool str :=
  if s == "true"%string then Ok true
  else if s == "false"%string then Ok false
  else Err "provided string was not `true` or `false`"%string.

Definition parse_env {T} (from_str : str -> result T str) (name value : str) : result T NodeError :=
  map_err (fun error => invalid_config ("invalid " ++ name ++ ": " ++ error)%string) (from_str value).

(** A comma separated list of addresses. *)
Definition split_addresses (value : str) : list str :=
  map trim (List.filter (fun item => trim item != EmptyString) (split "," value)).

Fixpoint dedupe_from (seen addresses : list str) : list str :=
  match addresses with
  | [] => []
  | address :: addresses =>
      if contains address seen then dedupe_from seen addresses
      else address :: dedupe_from (address :: seen) addresses
  end.

Definition dedupe_config_addresses (addresses : list str) : list str := dedupe_from [] addresses.

Section Environment.
Context (env : str -> option str).

(** [if let Ok(value) = std::env::var(name) { field = parse(value)?; }] *)
Definition env_value {T} (name : str) (parse : str -> result T NodeError) (current : T)
    : result T NodeError :=
  match env name with
  | Some value => parse value
  | None => Ok current
  end.

Definition env_u64 (name : str) (current : N) : result N NodeError :=
  env_value name (parse_env parse_u64 name) current.

Definition env_bool (name : str) (current : bool) : result bool NodeError :=
  env_value name (parse_env parse_bool name) current.

Definition env_option_u64 (name : str) (current : option N) : result (option N) NodeError :=
  env_value name (fun value => let? n := parse_env parse_u64 name value in Ok (Some n)) current.

Definition env_text (name : str) (current : str) : str := default current (env name).

Definition env_option_text (name : str) (current : option str) : option str :=
  match env name with Some value => Some value | None => current end.

Definition env_addresses (name : str) (current : list str) : list str :=
  match env name with Some value => split_addresses value | None => current end.

Definition apply_runtime_environment (self : RuntimeConfig) : result RuntimeConfig NodeError :=
  let? max_queued_jobs :=
    env_u64 "INTELLIGENCE_RUNTIME_MAX_QUEUED_JOBS" self.(RuntimeConfig_max_queued_jobs) in
  let? max_concurrent_jobs :=
    env_u64 "INTELLIGENCE_RUNTIME_MAX_CONCURRENT_JOBS" self.(RuntimeConfig_max_concurrent_jobs) in
  let? max_input_bytes :=
    env_u64 "INTELLIGENCE_RUNTIME_MAX_INPUT_BYTES" self.(RuntimeConfig_max_input_bytes) in
  let? max_output_bytes :=
    env_u64 "INTELLIGENCE_RUNTIME_MAX_OUTPUT_BYTES" self.(RuntimeConfig_max_output_bytes) in
  let? default_timeout_ms :=
    env_u64 "INTELLIGENCE_RUNTIME_DEFAULT_TIMEOUT_MS" self.(RuntimeConfig_default_timeout_ms) in
  let? process_memory_bytes :=
    env_u64 "INTELLIGENCE_RUNTIME_PROCESS_MEMORY_BYTES" self.(RuntimeConfig_process_memory_bytes) in
  let? process_cpu_seconds :=
    env_u64 "INTELLIGENCE_RUNTIME_PROCESS_CPU_SECONDS" self.(RuntimeConfig_process_cpu_seconds) in
  Ok {| RuntimeConfig_max_queued_jobs := max_queued_jobs;
        RuntimeConfig_max_concurrent_jobs := max_concurrent_jobs;
        RuntimeConfig_max_input_bytes := max_input_bytes;
        RuntimeConfig_max_output_bytes := max_output_bytes;
        RuntimeConfig_default_timeout_ms := default_timeout_ms;
        RuntimeConfig_process_memory_bytes := process_memory_bytes;
        RuntimeConfig_process_cpu_seconds := process_cpu_seconds;
        RuntimeConfig_work_dir := env_text "INTELLIGENCE_RUNTIME_WORK_DIR" self.(RuntimeConfig_work_dir) |}.

(** The fields are set in this order, so the first variable that does not parse is the one
    reported; each field depends on one variable only. *)
Definition apply_environment (self : NodeConfig) : result NodeConfig NodeError :=
  let? shared_ram_bytes :=
    env_option_u64 "INTELLIGENCE_SHARED_RAM_BYTES" self.(NodeConfig_shared_ram_bytes) in
  let? shared_vram_bytes :=
    env_option_u64 "INTELLIGENCE_SHARED_VRAM_BYTES" self.(NodeConfig_shared_vram_bytes) in
  let? listen_addr :=
    env_value "INTELLIGENCE_LISTEN_ADDR" (fun value =>
        ok_or (SocketAddr_parse value)
          (invalid_config ("invalid listen address: " ++ addr_parse_error)%string))
      self.(NodeConfig_listen_addr) in
  let? relay_enabled := env_bool "INTELLIGENCE_RELAY_ENABLED" self.(NodeConfig_relay_enabled) in
  let? relay_max_sessions :=
    env_u64 "INTELLIGENCE_RELAY_MAX_SESSIONS" self.(NodeConfig_relay_max_sessions) in
  let? relay_max_bytes := env_u64 "INTELLIGENCE_RELAY_MAX_BYTES" self.(NodeConfig_relay_max_bytes) in
  let? max_connections := env_u64 "INTELLIGENCE_MAX_CONNECTIONS" self.(NodeConfig_max_connections) in
  let? max_frame_size := env_u64 "INTELLIGENCE_MAX_FRAME_SIZE" self.(NodeConfig_max_frame_size) in
  let? peer_ttl_seconds :=
    env_u64 "INTELLIGENCE_PEER_TTL_SECONDS" self.(NodeConfig_peer_ttl_seconds) in
  let? allow_private_addresses :=
    env_bool "INTELLIGENCE_ALLOW_PRIVATE_ADDRESSES" self.(NodeConfig_allow_private_addresses) in
  let? prefer_relay := env_bool "INTELLIGENCE_PREFER_RELAY" self.(NodeConfig_prefer_relay) in
  let? hole_punch_enabled :=
    env_bool "INTELLIGENCE_HOLE_PUNCH_ENABLED" self.(NodeConfig_hole_punch_enabled) in
  let? hole_punch_max_attempts :=
    env_u64 "INTELLIGENCE_HOLE_PUNCH_MAX_ATTEMPTS" self.(NodeConfig_hole_punch_max_attempts) in
  let? dht_enabled := env_bool "INTELLIGENCE_DHT_ENABLED" self.(NodeConfig_dht_enabled) in
  let? dht_k := env_u64 "INTELLIGENCE_DHT_K" self.(NodeConfig_dht_k) in
  let? dht_alpha := env_u64 "INTELLIGENCE_DHT_ALPHA" self.(NodeConfig_dht_alpha) in
  let? dht_max_records := env_u64 "INTELLIGENCE_DHT_MAX_RECORDS" self.(NodeConfig_dht_max_records) in
  let? training_memory_bytes :=
    env_u64 "INTELLIGENCE_TRAINING_MEMORY_BYTES" self.(NodeConfig_training_memory_bytes) in
  let? training_window_delay_ms :=
    env_u64 "INTELLIGENCE_TRAINING_WINDOW_DELAY_MS" self.(NodeConfig_training_window_delay_ms) in
  let? quota_bytes :=
    env_u64 "INTELLIGENCE_STORAGE_QUOTA_BYTES" self.(NodeConfig_storage).(StorageConfig_quota_bytes) in
  let? max_artifact_bytes :=
    env_u64 "INTELLIGENCE_MAX_ARTIFACT_BYTES"
      self.(NodeConfig_storage).(StorageConfig_max_artifact_bytes) in
  let? runtime := apply_runtime_environment self.(NodeConfig_runtime) in
  Ok {| NodeConfig_data_dir := env_text "INTELLIGENCE_DATA_DIR" self.(NodeConfig_data_dir);
        NodeConfig_identity_path :=
          env_option_text "INTELLIGENCE_IDENTITY_PATH" self.(NodeConfig_identity_path);
        NodeConfig_admin_socket :=
          env_option_text "INTELLIGENCE_ADMIN_SOCKET" self.(NodeConfig_admin_socket);
        NodeConfig_listen_addr := listen_addr;
        NodeConfig_advertise_addr :=
          env_option_text "INTELLIGENCE_ADVERTISE_ADDR" self.(NodeConfig_advertise_addr);
        NodeConfig_bootstrap := env_addresses "INTELLIGENCE_BOOTSTRAP" self.(NodeConfig_bootstrap);
        NodeConfig_relay_addresses :=
          env_addresses "INTELLIGENCE_RELAY_ADDRESSES" self.(NodeConfig_relay_addresses);
        NodeConfig_relay_enabled := relay_enabled;
        NodeConfig_relay_max_sessions := relay_max_sessions;
        NodeConfig_relay_max_bytes := relay_max_bytes;
        NodeConfig_max_connections := max_connections;
        NodeConfig_max_frame_size := max_frame_size;
        NodeConfig_peer_ttl_seconds := peer_ttl_seconds;
        NodeConfig_allow_private_addresses := allow_private_addresses;
        NodeConfig_prefer_relay := prefer_relay;
        NodeConfig_hole_punch_enabled := hole_punch_enabled;
        NodeConfig_hole_punch_max_attempts := hole_punch_max_attempts;
        NodeConfig_dht_enabled := dht_enabled;
        NodeConfig_dht_k := dht_k;
        NodeConfig_dht_alpha := dht_alpha;
        NodeConfig_dht_max_records := dht_max_records;
        NodeConfig_shared_ram_bytes := shared_ram_bytes;
        NodeConfig_shared_vram_bytes := shared_vram_bytes;
        NodeConfig_training_memory_bytes := training_memory_bytes;
        NodeConfig_training_window_delay_ms := training_window_delay_ms;
        NodeConfig_storage := mkStorageConfig quota_bytes max_artifact_bytes;
        NodeConfig_runtime := runtime;
        NodeConfig_capabilities := self.(NodeConfig_capabilities) |}.
End Environment.

(** ** Normalisation and validation *)

Definition with_work_dir (self : RuntimeConfig) (work_dir : str) : RuntimeConfig :=
  {| RuntimeConfig_max_queued_jobs := self.(RuntimeConfig_max_queued_jobs);
     RuntimeConfig_max_concurrent_jobs := self.(RuntimeConfig_max_concurrent_jobs);
     RuntimeConfig_max_input_bytes := self.(RuntimeConfig_max_input_bytes);
     RuntimeConfig_max_output_bytes := self.(RuntimeConfig_max_output_bytes);
     RuntimeConfig_default_timeout_ms := self.(RuntimeConfig_default_timeout_ms);
     RuntimeConfig_process_memory_bytes := self.(RuntimeConfig_process_memory_bytes);
     RuntimeConfig_process_cpu_seconds := self.(RuntimeConfig_process_cpu_seconds);
     RuntimeConfig_work_dir := work_dir |}.

Definition normalize (self : NodeConfig) : NodeConfig :=
  {| NodeConfig_data_dir := self.(NodeConfig_data_dir);
     NodeConfig_identity_path :=
       match self.(NodeConfig_identity_path) with
       | None => Some (path_join self.(NodeConfig_data_dir) "identity.key")
       | path => path
       end;
     NodeConfig_admin_socket :=
       match self.(NodeConfig_admin_socket) with
       | None => Some (path_join self.(NodeConfig_data_dir) "node.sock")
       | path => path
       end;
     NodeConfig_listen_addr := self.(NodeConfig_listen_addr);
     NodeConfig_advertise_addr :=
       match self.(NodeConfig_advertise_addr) with
       | None => Some (SocketAddr_to_string self.(NodeConfig_listen_addr))
       | address => address
       end;
     NodeConfig_bootstrap := dedupe_config_addresses self.(NodeConfig_bootstrap);
     NodeConfig_relay_addresses := dedupe_config_addresses self.(NodeConfig_relay_addresses);
     NodeConfig_relay_enabled := self.(NodeConfig_relay_enabled);
     NodeConfig_relay_max_sessions := self.(NodeConfig_relay_max_sessions);
     NodeConfig_relay_max_bytes := self.(NodeConfig_relay_max_bytes);
     NodeConfig_max_connections := self.(NodeConfig_max_connections);
     NodeConfig_max_frame_size := self.(NodeConfig_max_frame_size);
     NodeConfig_peer_ttl_seconds := self.(NodeConfig_peer_ttl_seconds);
     NodeConfig_allow_private_addresses :=
       if is_loopback self.(NodeConfig_listen_addr).(SocketAddr_ip) then true
       else self.(NodeConfig_allow_private_addresses);
     NodeConfig_prefer_relay := self.(NodeConfig_prefer_relay);
     NodeConfig_hole_punch_enabled := self.(NodeConfig_hole_punch_enabled);
     NodeConfig_hole_punch_max_attempts := self.(NodeConfig_hole_punch_max_attempts);
     NodeConfig_dht_enabled := self.(NodeConfig_dht_enabled);
     NodeConfig_dht_k := self.(NodeConfig_dht_k);
     NodeConfig_dht_alpha := self.(NodeConfig_dht_alpha);
     NodeConfig_dht_max_records := self.(NodeConfig_dht_max_records);
     NodeConfig_shared_ram_bytes := self.(NodeConfig_shared_ram_bytes);
     NodeConfig_shared_vram_bytes := self.(NodeConfig_shared_vram_bytes);
     NodeConfig_training_memory_bytes := self.(NodeConfig_training_memory_bytes);
     NodeConfig_training_window_delay_ms := self.(NodeConfig_training_window_delay_ms);
     NodeConfig_storage := self.(NodeConfig_storage);
     NodeConfig_runtime :=
       if path_eqb self.(NodeConfig_runtime).(RuntimeConfig_work_dir) "runtime-work"
       then with_work_dir self.(NodeConfig_runtime) (path_join self.(NodeConfig_data_dir) "runtime-work")
       else self.(NodeConfig_runtime);
     NodeConfig_capabilities := self.(NodeConfig_capabilities) |}.

(** [address.parse::<SocketAddr>()] with the message of the caller. *)
Definition check_address (message address : str) : result unit NodeError :=
  let? _ := ok_or (SocketAddr_parse address)
    (invalid_config (message ++ addr_parse_error)%string) in
  Ok tt.

Section Config.
Context (metadata : str -> result FileInfo str).

(** The capabilities in turn; the names seen so far are kept. *)
Fixpoint check_capabilities (names : list str) (capabilities : list CapabilityConfig)
    : result unit NodeError :=
  match capabilities with
  | [] => Ok tt
  | capability :: capabilities =>
      CapabilityConfig_validate metadata capability ;?
      fail_if (contains capability.(CapabilityConfig_name) names)
        (invalid_config ("duplicate capability " ++ capability.(CapabilityConfig_name))%string) ;?
      check_capabilities (capability.(CapabilityConfig_name) :: names) capabilities
  end.

Definition exceeds (limit : N) (value : option N) : bool :=
  match value with Some value => limit <? value | None => false end.

Definition NodeConfig_validate (self : NodeConfig) : result unit NodeError :=
  fail_if ((self.(NodeConfig_max_connections) =? 0) || (self.(NodeConfig_max_frame_size) =? 0)
           || (MAX_FRAME_SIZE <? self.(NodeConfig_max_frame_size)))
    (invalid_config "network limits are invalid") ;?
  fail_if (MAX_PEERS <? len self.(NodeConfig_bootstrap))
    (invalid_config "too many bootstrap peers") ;?
  fail_if ((self.(NodeConfig_dht_k) =? 0) || (MAX_DHT_CONTACTS <? self.(NodeConfig_dht_k))
           || (self.(NodeConfig_dht_alpha) =? 0)
           || (self.(NodeConfig_dht_k) <? self.(NodeConfig_dht_alpha))
           || (self.(NodeConfig_dht_max_records) =? 0)
           || (32768 <? self.(NodeConfig_dht_max_records)))
    (invalid_config "DHT limits are invalid") ;?
  fail_if ((self.(NodeConfig_training_memory_bytes) =? 0)
           || (N.shiftl 1 40 <? self.(NodeConfig_training_memory_bytes))
           || exceeds (N.shiftl 1 40) self.(NodeConfig_shared_ram_bytes)
           || exceeds (N.shiftl 1 40) self.(NodeConfig_shared_vram_bytes)
           || (30000 <? self.(NodeConfig_training_window_delay_ms)))
    (invalid_config "training resource limits are invalid") ;?
  fail_if ((MAX_PEERS <? len self.(NodeConfig_relay_addresses))
           || (self.(NodeConfig_relay_max_sessions) =? 0)
           || (self.(NodeConfig_relay_max_bytes) =? 0)
           || (MAX_RELAY_PAYLOAD * 4096 <? self.(NodeConfig_relay_max_bytes)))
    (invalid_config "relay limits or relay address count are invalid") ;?
  if_some self.(NodeConfig_advertise_addr) (fun address =>
    fail_if ((address == EmptyString) || (256 <? slen address))
      (invalid_config "advertise address is invalid")) ;?
  if_some self.(NodeConfig_advertise_addr) (check_address "advertise address must be SocketAddr: ") ;?
  for_each (check_address "peer address is invalid: ")
    (self.(NodeConfig_bootstrap) ++ self.(NodeConfig_relay_addresses)) ;?
  fail_if ((self.(NodeConfig_storage).(StorageConfig_quota_bytes) =? 0)
           || (self.(NodeConfig_storage).(StorageConfig_max_artifact_bytes) =? 0)
           || (self.(NodeConfig_storage).(StorageConfig_quota_bytes)
               <? self.(NodeConfig_storage).(StorageConfig_max_artifact_bytes)))
    (invalid_config "storage limits are invalid") ;?
  map_err NodeError_Runtime (RuntimeConfig_validate self.(NodeConfig_runtime)) ;?
  fail_if (MAX_CAPABILITIES <? len self.(NodeConfig_capabilities))
    (invalid_config "too many local capabilities") ;?
  check_capabilities [] self.(NodeConfig_capabilities).

Definition from_environment (env : str -> option str) : result NodeConfig NodeError :=
  let? config := apply_environment env NodeConfig_default in
  let config := normalize config in
  NodeConfig_validate config ;?
  Ok config.

(** [from_str] reads TOML. *)
Definition load (read_to_string : str -> result str IoError) (from_str : str -> result NodeConfig str)
    (env : str -> option str) (path : str) : result NodeConfig NodeError :=
  let? contents := map_err NodeError_Io (read_to_string path) in
  let? config := map_err (NodeError_ConfigParse path) (from_str contents) in
  let? config := apply_environment env config in
  let config := normalize config in
  NodeConfig_validate config ;?
  Ok config.
End Config.

Definition public_capabilities (now_secs : N) (self : NodeConfig) : list Capability :=
  let expires_at := sat_add u64_max now_secs self.(NodeConfig_peer_ttl_seconds) in
  map (fun capability => protocol_capability capability expires_at)
    (List.filter (fun capability => capability.(CapabilityConfig_public))
       self.(NodeConfig_capabilities)).

Definition effective_training_memory_bytes (self : NodeConfig) : N :=
  match self.(NodeConfig_shared_ram_bytes) with
  | None => self.(NodeConfig_training_memory_bytes)
  | Some shared => N.min self.(NodeConfig_training_memory_bytes) shared
  end.

(** ** What [Node::start] derives from the configuration *)

Definition relay_capability (expires_at : N) : Capability :=
  {| Capability_name := "network.relay";
     Capability_version := 1;
     Capability_model := None;
     Capability_resources :=
       {| ResourceLimits_max_input_bytes := trunc u32_max MAX_JOB_INPUT;
          ResourceLimits_max_output_bytes := trunc u32_max MAX_JOB_OUTPUT;
          ResourceLimits_memory_bytes := 64 * 1024 * 1024;
          ResourceLimits_cpu_millis := 1000 |};
     Capability_evidence := CapabilityEvidence_Claimed;
     Capability_expires_at := expires_at;
     Capability_metadata := [mkMetadataEntry "role" "opaque-forwarder"];
     Capability_compute_backends := [] |}.

Definition is_training_reference (capability : Capability) : bool :=
  capability.(Capability_name) == "training.reference"%string.

(** A training capability carries the local backends and no more memory than is shared. *)
Definition with_backends (backends : list BackendCapabilities) (shared_ram : option N)
    (capability : Capability) : Capability :=
  if is_training_reference capability then
    {| Capability_name := capability.(Capability_name);
       Capability_version := capability.(Capability_version);
       Capability_model := capability.(Capability_model);
       Capability_resources :=
         match shared_ram with
         | None => capability.(Capability_resources)
         | Some shared_ram =>
             let resources := capability.(Capability_resources) in
             {| ResourceLimits_max_input_bytes := resources.(ResourceLimits_max_input_bytes);
                ResourceLimits_max_output_bytes := resources.(ResourceLimits_max_output_bytes);
                ResourceLimits_memory_bytes :=
                  N.min resources.(ResourceLimits_memory_bytes) shared_ram;
                ResourceLimits_cpu_millis := resources.(ResourceLimits_cpu_millis) |}
         end;
       Capability_evidence := capability.(Capability_evidence);
       Capability_expires_at := capability.(Capability_expires_at);
       Capability_metadata := capability.(Capability_metadata);
       Capability_compute_backends := backends |}
  else capability.

(** The capabilities announced to peers; [backends] are those the registry advertises.  The clock
    is read twice. *)
Definition advertised_capabilities (now_secs now_secs' : N) (backends : list BackendCapabilities)
    (config : NodeConfig) : list Capability :=
  let capabilities := public_capabilities now_secs config in
  let capabilities :=
    if config.(NodeConfig_shared_ram_bytes) == Some 0
    then List.filter (fun capability => negb (is_training_reference capability)) capabilities
    else capabilities in
  let capabilities := map (with_backends backends config.(NodeConfig_shared_ram_bytes)) capabilities in
  if config.(NodeConfig_relay_enabled)
  then capabilities ++ [relay_capability (sat_add u64_max now_secs' config.(NodeConfig_peer_ttl_seconds))]
  else capabilities.

Definition network_config (config : NodeConfig) (capabilities : list Capability) : NetworkConfig :=
  {| NetworkConfig_listen_addr := config.(NodeConfig_listen_addr);
     NetworkConfig_advertise_addr :=
       default (SocketAddr_to_string config.(NodeConfig_listen_addr))
         config.(NodeConfig_advertise_addr);
     NetworkConfig_bootstrap := config.(NodeConfig_bootstrap);
     NetworkConfig_max_frame_size := config.(NodeConfig_max_frame_size);
     NetworkConfig_max_connections := config.(NodeConfig_max_connections);
     NetworkConfig_peer_ttl_seconds := config.(NodeConfig_peer_ttl_seconds);
     NetworkConfig_allow_private_addresses := config.(NodeConfig_allow_private_addresses);
     NetworkConfig_prefer_relay := config.(NodeConfig_prefer_relay);
     NetworkConfig_hole_punch_enabled := config.(NodeConfig_hole_punch_enabled);
     NetworkConfig_hole_punch_max_attempts := config.(NodeConfig_hole_punch_max_attempts);
     NetworkConfig_relay_addresses := config.(NodeConfig_relay_addresses);
     NetworkConfig_relay_enabled := config.(NodeConfig_relay_enabled);
     NetworkConfig_relay_max_sessions := config.(NodeConfig_relay_max_sessions);
     NetworkConfig_relay_max_bytes := config.(NodeConfig_relay_max_bytes);
     NetworkConfig_capabilities := capabilities;
     NetworkConfig_dht_enabled := config.(NodeConfig_dht_enabled);
     NetworkConfig_dht_k := config.(NodeConfig_dht_k);
     NetworkConfig_dht_alpha := config.(NodeConfig_dht_alpha);
     NetworkConfig_dht_max_records := config.(NodeConfig_dht_max_records) |}.

(** The first lines of [start]: a relative model path is taken from the data directory before the
    configuration is validated. *)
Definition resolve_model_path (data_dir : str) (self : CapabilityConfig) : CapabilityConfig :=
  {| CapabilityConfig_name := self.(CapabilityConfig_name);
     CapabilityConfig_version := self.(CapabilityConfig_version);
     CapabilityConfig_public := self.(CapabilityConfig_public);
     CapabilityConfig_accept_remote_jobs := self.(CapabilityConfig_accept_remote_jobs);
     CapabilityConfig_kind := self.(CapabilityConfig_kind);
     CapabilityConfig_model := self.(CapabilityConfig_model);
     CapabilityConfig_model_path :=
       match self.(CapabilityConfig_model_path) with
       | Some model_path =>
           Some (if path_is_absolute model_path then model_path else path_join data_dir model_path)
       | None => None
       end;
     CapabilityConfig_program := self.(CapabilityConfig_program);
     CapabilityConfig_args := self.(CapabilityConfig_args);
     CapabilityConfig_env := self.(CapabilityConfig_env);
     CapabilityConfig_metadata := self.(CapabilityConfig_metadata);
     CapabilityConfig_sandbox := self.(CapabilityConfig_sandbox);
     CapabilityConfig_max_input_bytes := self.(CapabilityConfig_max_input_bytes);
     CapabilityConfig_max_output_bytes := self.(CapabilityConfig_max_output_bytes);
     CapabilityConfig_memory_bytes := self.(CapabilityConfig_memory_bytes);
     CapabilityConfig_cpu_millis := self.(CapabilityConfig_cpu_millis) |}.

Definition with_capabilities (self : NodeConfig) (capabilities : list CapabilityConfig) : NodeConfig :=
  {| NodeConfig_data_dir := self.(NodeConfig_data_dir);
     NodeConfig_identity_path := self.(NodeConfig_identity_path);
     NodeConfig_admin_socket := self.(NodeConfig_admin_socket);
     NodeConfig_listen_addr := self.(NodeConfig_listen_addr);
     NodeConfig_advertise_addr := self.(NodeConfig_advertise_addr);
     NodeConfig_bootstrap := self.(NodeConfig_bootstrap);
     NodeConfig_relay_addresses := self.(NodeConfig_relay_addresses);
     NodeConfig_relay_enabled := self.(NodeConfig_relay_enabled);
     NodeConfig_relay_max_sessions := self.(NodeConfig_relay_max_sessions);
     NodeConfig_relay_max_bytes := self.(NodeConfig_relay_max_bytes);
     NodeConfig_max_connections := self.(NodeConfig_max_connections);
     NodeConfig_max_frame_size := self.(NodeConfig_max_frame_size);
     NodeConfig_peer_ttl_seconds := self.(NodeConfig_peer_ttl_seconds);
     NodeConfig_allow_private_addresses := self.(NodeConfig_allow_private_addresses);
     NodeConfig_prefer_relay := self.(NodeConfig_prefer_relay);
     NodeConfig_hole_punch_enabled := self.(NodeConfig_hole_punch_enabled);
     NodeConfig_hole_punch_max_attempts := self.(NodeConfig_hole_punch_max_attempts);
     NodeConfig_dht_enabled := self.(NodeConfig_dht_enabled);
     NodeConfig_dht_k := self.(NodeConfig_dht_k);
     NodeConfig_dht_alpha := self.(NodeConfig_dht_alpha);
     NodeConfig_dht_max_records := self.(NodeConfig_dht_max_records);
     NodeConfig_shared_ram_bytes := self.(NodeConfig_shared_ram_bytes);
     NodeConfig_shared_vram_bytes := self.(NodeConfig_shared_vram_bytes);
     NodeConfig_training_memory_bytes := self.(NodeConfig_training_memory_bytes);
     NodeConfig_training_window_delay_ms := self.(NodeConfig_training_window_delay_ms);
     NodeConfig_storage := self.(NodeConfig_storage);
     NodeConfig_runtime := self.(NodeConfig_runtime);
     NodeConfig_capabilities := capabilities |}.

Definition prepare (metadata : str -> result FileInfo str) (config : NodeConfig)
    : result NodeConfig NodeError :=
  let config := normalize config in
  let config := with_capabilities config
    (map (resolve_model_path config.(NodeConfig_data_dir)) config.(NodeConfig_capabilities)) in
  NodeConfig_validate metadata config ;?
  Ok config.

(** The configuration with which [start] opens the network, checked as [start_network] does. *)
Definition open_network (metadata : str -> result FileInfo str) (now_secs now_secs' : N)
    (backends : list BackendCapabilities) (config : NodeConfig) : result NetworkConfig NodeError :=
  let? config := prepare metadata config in
  let network :=
    network_config config (advertised_capabilities now_secs now_secs' backends config) in
  map_err NodeError_Network (NetworkConfig_validate network) ;?
  Ok network.

(** ** Reading names and identifiers *)

(** hex: [hex::decode] and the text of its error. *)
Class Hex := hex_decode : str -> result (list N) str.

(** The shape shared by the readers of identifiers. *)
Definition parse_fixed `{Hex} {Id} (make : list N -> Id) (size : N) (size_text what value : str)
    : result Id str :=
  let? bytes := map_err (fun error => ("invalid " ++ what ++ ": " ++ error)%string) (hex_decode value) in
  fail_if (len bytes != size)
    (what ++ " must contain " ++ size_text ++ " bytes of hex")%string ;?
  Ok (make bytes).

Definition parse_node_id `{Hex} (value : str) : result NodeId NodeError :=
  map_err invalid_config (parse_fixed mkNodeId 32 "32" "node ID" value).

Definition parse_artifact_id `{Hex} (value : str) : result ArtifactId NodeError :=
  map_err invalid_config (parse_fixed mkArtifactId 32 "32" "artifact ID" value).

Definition parse_job_id `{Hex} (value : str) : result JobId NodeError :=
  map_err invalid_config (parse_fixed mkJobId 16 "16" "job ID" value).

Definition parse_dht_key `{Hex} (value : str) : result DhtKey str :=
  parse_fixed mkDhtKey 32 "32" "DHT key" value.

(** [display] is the text of an error. *)
Definition parse_node_ids `{Hex} (display : NodeError -> str) (values : list str)
    : result (list NodeId) str :=
  if is_empty values then Err "at least one peer node ID is required"%string
  else
    let? parsed := try_fold (fun parsed value =>
        let? node := map_err display (parse_node_id value) in
        fail_if (contains node parsed) "peer node IDs must be unique"%string ;?
        Ok (parsed ++ [node])) [] values in
    Ok parsed.

Definition parse_dht_namespace (value : str) : result DhtNamespace str :=
  if value == "peer"%string then Ok DhtNamespace_Peer
  else if value == "capability"%string then Ok DhtNamespace_Capability
  else if value == "artifact"%string then Ok DhtNamespace_Artifact
  else if value == "model"%string then Ok DhtNamespace_Model
  else if value == "dataset"%string then Ok DhtNamespace_Dataset
  else if value == "relay"%string then Ok DhtNamespace_Relay
  else if value == "evidence"%string then Ok DhtNamespace_Evidence
  else Err ("unknown DHT namespace " ++ value ++ "; expected peer, capability, artifact, model, dataset, relay, or evidence")%string.

Definition lowercase (s : str) : str := string_of_bytes (map to_ascii_lowercase (as_bytes s)).

Definition parse_data_locality (value : str) : result DataLocality NodeError :=
  let value := lowercase value in
  if (value == "local_only"%string) || (value == "local-only"%string) then Ok DataLocality_LocalOnly
  else if value == "selective"%string then Ok DataLocality_Selective
  else if value == "streamable"%string then Ok DataLocality_Streamable
  else Err (invalid_config "data locality must be local_only, selective, or streamable").

Definition parse_hardware_kind (value : str) : HardwareKind :=
  let value := lowercase value in
  if value == "cpu"%string then HardwareKind_Cpu
  else if (value == "apple_silicon"%string) || (value == "apple-silicon"%string)
       then HardwareKind_AppleSilicon
  else if (value == "amd_gpu"%string) || (value == "amd-gpu"%string) then HardwareKind_AmdGpu
  else if (value == "nvidia_consumer"%string) || (value == "nvidia-consumer"%string)
       then HardwareKind_NvidiaConsumer
  else if value == "a100"%string then HardwareKind_A100
  else if value == "h100"%string then HardwareKind_H100
  else if value == "b200"%string then HardwareKind_B200
  else HardwareKind_Unknown.

(** [u16::rotate_left(5)] *)
Definition rotate_left_5 (value : N) : N :=
  N.lor (N.land (N.shiftl value 5) u16_max) (N.shiftr value 11).

Definition local_source_group (address : str) : N :=
  fold_left (fun value byte => N.lxor (rotate_left_5 value) byte) (as_bytes address) 0x4D3A.

(** [partitions[index % workers].push(sample)] for each sample in turn; indexing panics when there
    is no partition. *)
Definition partition_samples {A} (samples : list A) (workers : nat) : option (list (list A)) :=
  match workers, samples with
  | O, _ :: _ => None
  | _, _ =>
      Some (fold_left (fun partitions '(index, sample) =>
                alter (fun part => part ++ [sample]) (Nat.modulo index workers) partitions)
              (enumerate samples) (replicate workers []))
  end.
