(* ===== verification/NodeConfigFacts.v ===== *)
(** * Properties of the node configuration

    What validation guarantees of the executors that peers can reach, when the network accepts the
    configuration derived from a validated one, normalisation as a fixed point, and the partition of
    training samples. *)

From Stdlib Require Import String Ascii ZArith NArith Lia.
From stdpp Require Import base tactics sets strings numbers list.
From S2P Require Import Prelude OrdMap Types Validation SocketAddr NetAddr FileSystem Storage Runtime Network NodeConfig.
Local Open Scope N_scope.
Local Open Scope rust_scope.

(** ** Executors *)

(** The sandbox of an executor that starts a process. *)
Definition executor_sandbox (executor : ExecutorSpec) : option ProcessSandbox :=
  match executor with
  | ExecutorSpec_ExternalProcess _ _ _ sandbox | ExecutorSpec_LlamaCpp _ _ _ _ sandbox => Some sandbox
  | _ => None
  end.

(** What validation establishes of a capability. *)
Record valid_capability (self : CapabilityConfig) : Prop := {
  valid_name : self.(CapabilityConfig_name) <> EmptyString /\ slen self.(CapabilityConfig_name) <= 128;
  valid_version : self.(CapabilityConfig_version) <> 0;
  valid_input : 0 < self.(CapabilityConfig_max_input_bytes) <= MAX_JOB_INPUT;
  valid_output : 0 < self.(CapabilityConfig_max_output_bytes) <= MAX_JOB_OUTPUT;
  valid_memory : self.(CapabilityConfig_memory_bytes) <> 0;
  valid_cpu : self.(CapabilityConfig_cpu_millis) <> 0;
  valid_kind : self.(CapabilityConfig_kind)
                 ∈ ["builtin_text"; "builtin_training"; "process"; "llama_cpp"]%string;
  valid_program : is_process self = true -> is_Some self.(CapabilityConfig_program);
  valid_model_path : self.(CapabilityConfig_kind) = "llama_cpp"%string ->
                     is_Some self.(CapabilityConfig_model_path);
  valid_entries : len self.(CapabilityConfig_metadata) <= 31 /\
    Forall (fun e : str * str => e.1 <> EmptyString /\ slen e.1 <= 64 /\ e.2 <> EmptyString
                                 /\ slen e.2 <= 256) self.(CapabilityConfig_metadata);
  valid_sandbox : is_process self = true -> self.(CapabilityConfig_public) = true ->
    self.(CapabilityConfig_accept_remote_jobs) = true ->
    self.(CapabilityConfig_sandbox) = "bubblewrap"%string
}.

Lemma validate_capability metadata self :
  CapabilityConfig_validate metadata self = Ok tt -> valid_capability self.
Proof.
  unfold CapabilityConfig_validate. intros Hv. inv_ok Hv.
  match goal with Ha : Forall _ (CapabilityConfig_metadata self) |- _ => rename Ha into Hmeta end.
  constructor; try done; try lia.
  - destruct (bool_decide_reflect (CapabilityConfig_kind self = "builtin_text"%string)) as [->|];
      [set_solver|].
    destruct (bool_decide_reflect (CapabilityConfig_kind self = "builtin_training"%string)) as [->|];
      [set_solver|].
    destruct (bool_decide_reflect (CapabilityConfig_kind self = "process"%string)) as [->|];
      [set_solver|].
    destruct (bool_decide_reflect (CapabilityConfig_kind self = "llama_cpp"%string)) as [->|];
      [set_solver|done].
  - intros Hp. rewrite Hp in *. cbn [andb] in *. breflect. by apply not_eq_None_Some.
  - intros Hk. rewrite Hk in *. cbn in *. unfold llama_model_check in *.
    destruct (CapabilityConfig_model_path self); [done|discriminate].
  - split; [done|]. eapply Forall_impl; [exact Hmeta|]. intros [k v] He. cbn in *. inv_ok He. done.
  - intros Hp Hpub Hacc. rewrite Hp, Hpub, Hacc in *. cbn [andb] in *. rewrite !andb_true_r in *.
    breflect. destruct (bool_decide_reflect (CapabilityConfig_sandbox self = "bubblewrap"%string));
      [done|]. by rewrite bool_decide_false in * by done.
Qed.

(** An executor of a capability whose processes are sandboxed. *)
Lemma executor_in_bubblewrap self executor sandbox :
  CapabilityConfig_executor self = Ok executor -> executor_sandbox executor = Some sandbox ->
  (is_process self = true -> self.(CapabilityConfig_sandbox) = "bubblewrap"%string) ->
  sandbox = ProcessSandbox_Bubblewrap "bwrap".
Proof.
  unfold CapabilityConfig_executor, process_sandbox, is_process. intros Hx Hs Hb.
  repeat match goal with
         | H : context [bool_decide (CapabilityConfig_kind self = ?k)] |- _ =>
             destruct (bool_decide_reflect (CapabilityConfig_kind self = k))
         end; cbn [orb] in *; try rewrite (Hb eq_refl) in Hx;
    repeat (apply rbind_ok in Hx as (? & _ & Hx)); try discriminate Hx; injection Hx as <-;
    cbn in Hs; try discriminate Hs; by injection Hs as <-.
Qed.

(** Every capability that passes validation has an executor, and one that peers may use never
    runs a process outside the bubblewrap sandbox. *)
Theorem exposed_processes_are_sandboxed (metadata : str -> result FileInfo str)
    (self : CapabilityConfig) :
  CapabilityConfig_validate metadata self = Ok tt ->
  exists executor, CapabilityConfig_executor self = Ok executor /\
    (self.(CapabilityConfig_public) = true -> self.(CapabilityConfig_accept_remote_jobs) = true ->
     forall sandbox, executor_sandbox executor = Some sandbox ->
       sandbox = ProcessSandbox_Bubblewrap "bwrap").
Proof.
  intros Hv. apply validate_capability in Hv. destruct Hv as [_ _ _ _ _ _ Hkind Hprog Hpath _ Hsand].
  unfold CapabilityConfig_executor, process_sandbox, is_process in *.
  apply elem_of_cons in Hkind as [Hk|Hkind]; [rewrite Hk; cbn; by eexists|].
  apply elem_of_cons in Hkind as [Hk|Hkind]; [rewrite Hk; cbn; by eexists|].
  apply elem_of_cons in Hkind as [Hk|Hkind]; [|apply list_elem_of_singleton in Hkind as Hk];
    rewrite Hk in *; cbn in *; destruct (Hprog eq_refl) as [program ->]; cbn.
  - eexists. split; [done|]. intros Hpub Hacc sandbox [= <-]. by rewrite (Hsand eq_refl Hpub Hacc).
  - destruct (Hpath eq_refl) as [path ->]. cbn.
    eexists. split; [done|]. intros Hpub Hacc sandbox [= <-]. by rewrite (Hsand eq_refl Hpub Hacc).
Qed.

(** ** The network's view of the configuration *)

(** A text the protocol accepts. *)
Definition text_ok (s : str) : Prop := s <> EmptyString /\ slen s <= MAX_STRING_LEN.

Lemma string_ok s field : Validation.string s field = Ok tt <-> text_ok s.
Proof.
  unfold Validation.string, text_ok. rewrite rbind_ok. setoid_rewrite fail_if_ok. split.
  - intros ([] & He & Hl). breflect. done.
  - intros [He Hl]. exists tt. rewrite bool_decide_eq_false, N.ltb_ge. done.
Qed.

(** The backends a capability may carry. *)
Definition backends_ok (backends : list BackendCapabilities) : Prop :=
  len backends <= MAX_V5_BACKENDS /\ NoDup (BackendCapabilities_kind <$> backends) /\
  Forall (fun backend => backend_capabilities backend "capability.compute_backend" = Ok tt) backends.

Lemma try_fold_kinds backends seen :
  NoDup (BackendCapabilities_kind <$> backends) ->
  (forall b, b ∈ backends -> BackendCapabilities_kind b ∉ seen) ->
  Forall (fun backend => backend_capabilities backend "capability.compute_backend" = Ok tt) backends ->
  exists kinds, try_fold (fun backend_kinds backend =>
    fail_if (contains backend.(BackendCapabilities_kind) backend_kinds)
            (ValidationError_Invalid "capability.compute_backends") ;?
    backend_capabilities backend "capability.compute_backend" ;?
    Ok (backend.(BackendCapabilities_kind) :: backend_kinds)) seen backends = Ok kinds.
Proof.
  revert seen. induction backends as [|b bs IH]; intros seen Hd Hs Hv; [by eexists|].
  apply NoDup_cons in Hd as [Hb Hd]. apply Forall_cons in Hv as [Hv Hvs]. cbn [try_fold rbind].
  assert (Hc : contains (BackendCapabilities_kind b) seen = false).
  { apply contains_false. apply Hs. set_solver. }
  rewrite Hc, Hv. cbn [fail_if rbind]. apply IH; [done| |done].
  intros b' Hb'. apply not_elem_of_cons. split; [|apply Hs; set_solver].
  intros Heq. apply Hb. rewrite <- Heq. by apply list_elem_of_fmap_2.
Qed.

(** Everything the protocol asks of a capability but its model. *)
Record announceable (c : Capability) : Prop := {
  ann_name : text_ok c.(Capability_name) /\ slen c.(Capability_name) <= 128;
  ann_version : c.(Capability_version) <> 0;
  ann_metadata : len c.(Capability_metadata) <= MAX_METADATA /\
    Forall (fun e => text_ok e.(MetadataEntry_key) /\ text_ok e.(MetadataEntry_value))
      c.(Capability_metadata);
  ann_backends : backends_ok c.(Capability_compute_backends);
  ann_input : 0 < c.(Capability_resources).(ResourceLimits_max_input_bytes) <= MAX_JOB_INPUT;
  ann_output : 0 < c.(Capability_resources).(ResourceLimits_max_output_bytes) <= MAX_JOB_OUTPUT;
  ann_memory : c.(Capability_resources).(ResourceLimits_memory_bytes) <> 0;
  ann_cpu : c.(Capability_resources).(ResourceLimits_cpu_millis) <> 0;
  ann_evidence : c.(Capability_evidence) = CapabilityEvidence_Claimed
}.

Definition model_ok (model : option str) : Prop := forall m, model = Some m -> text_ok m.

Lemma announceable_valid c :
  announceable c -> Capability_validate c = Ok tt <-> model_ok c.(Capability_model).
Proof.
  intros [[[Hn0 Hn1] Hn2] Hver [Hml Hme] (Hbl & Hbd & Hbv) [Hi0 Hi1] [Ho0 Ho1] Hm Hc He].
  destruct (try_fold_kinds _ [] Hbd) as [kinds Hk]; [set_solver | done |].
  unfold Capability_validate, capability.
  rewrite (proj2 (string_ok _ "capability.name") (conj Hn0 Hn1)). cbn [rbind].
  rewrite (proj2 (N.eqb_neq _ 0) Hver). cbn [fail_if rbind].
  rewrite (proj2 (N.ltb_ge _ _) Hn2), (proj2 (N.ltb_ge _ _) Hml), (proj2 (N.ltb_ge _ _) Hbl), Hk, He.
  assert (Hmeta : for_each (fun entry =>
    Validation.string entry.(MetadataEntry_key) "capability.metadata.key" ;?
    Validation.string entry.(MetadataEntry_value) "capability.metadata.value")
    c.(Capability_metadata) = Ok tt).
  { apply for_each_ok. eapply Forall_impl; [exact Hme|]. intros e [Hke Hve].
    rewrite (proj2 (string_ok _ _) Hke). cbn [rbind]. by apply string_ok. }
  rewrite Hmeta, (proj2 (N.eqb_neq _ 0) Hm), (proj2 (N.eqb_neq _ 0) Hc).
  rewrite (proj2 (N.ltb_ge _ _) Hi1), (proj2 (N.ltb_ge _ _) Ho1).
  rewrite (proj2 (N.eqb_neq (ResourceLimits_max_input_bytes _) 0)) by lia.
  rewrite (proj2 (N.eqb_neq (ResourceLimits_max_output_bytes _) 0)) by lia.
  cbn [fail_if rbind orb]. rewrite rbind_ok. unfold model_ok.
  setoid_rewrite <- string_ok. split.
  - intros ([] & Hmod & _). by rewrite if_some_ok in Hmod.
  - intros Hmod. exists tt. split; [by apply if_some_ok | done].
Qed.

Lemma announced_public c expires_at :
  valid_capability c -> announceable (protocol_capability c expires_at).
Proof.
  intros [[Hn0 Hn1] Hver Hin Hout Hmem Hcpu Hkind _ _ [Hml Hme] _].
  constructor; cbn; try done; unfold MAX_STRING_LEN, MAX_METADATA in *.
  - split; [|done]. split; [done | unfold MAX_STRING_LEN; lia].
  - split; [rewrite len_cons; unfold len in *; rewrite length_map; lia|].
    apply Forall_cons. split.
    + split; [by split|]. repeat (apply elem_of_cons in Hkind as [->|Hkind]; [by split|]). set_solver.
    + apply Forall_fmap. eapply Forall_impl; [exact Hme|]. intros [k v]. cbn.
      unfold text_ok, MAX_STRING_LEN. intros (? & ? & ? & ?). split_and!; try done. lia.
  - split_and!; [done | constructor | constructor].
Qed.

Lemma announced_with_backends backends shared c :
  announceable c -> backends_ok backends -> shared <> Some 0 ->
  announceable (with_backends backends shared c).
Proof.
  intros [] Hb Hs. unfold with_backends. destruct (is_training_reference c); [|done].
  constructor; cbn; try done; destruct shared as [shared|]; cbn; try done.
  enough (shared <> 0) by lia. congruence.
Qed.

Lemma announced_other backends shared c :
  announceable c -> is_training_reference c = false -> announceable (with_backends backends shared c).
Proof. intros Ha Ht. unfold with_backends. by rewrite Ht. Qed.

Lemma with_backends_model backends shared c :
  (with_backends backends shared c).(Capability_model) = c.(Capability_model).
Proof. unfold with_backends. by destruct (is_training_reference c). Qed.

Lemma announced_relay expires_at : announceable (relay_capability expires_at).
Proof.
  constructor; cbn; try done; try lia.
  - split; [done|]. constructor; [done|constructor].
  - split_and!; [done | constructor | constructor].
Qed.

Lemma check_capabilities_valid metadata names capabilities :
  check_capabilities metadata names capabilities = Ok tt -> Forall valid_capability capabilities.
Proof.
  revert names. induction capabilities as [|c cs IH]; intros names Hv; [constructor|].
  cbn [check_capabilities] in Hv. inv_ok Hv. constructor; [by eapply validate_capability | by eapply IH].
Qed.

Lemma advertised_announceable now now' backends config :
  Forall valid_capability config.(NodeConfig_capabilities) -> backends_ok backends ->
  Forall announceable (advertised_capabilities now now' backends config).
Proof.
  intros Hv Hb. unfold advertised_capabilities.
  assert (Hpub : Forall announceable (public_capabilities now config)).
  { unfold public_capabilities. apply Forall_fmap.
    eapply Forall_impl; [|intros c Hc; apply announced_public, Hc].
    apply List.Forall_forall. intros c Hc. apply List.filter_In in Hc as [Hc _].
    by eapply List.Forall_forall in Hv. }
  assert (Hmap : Forall announceable
    (map (with_backends backends config.(NodeConfig_shared_ram_bytes))
      (if config.(NodeConfig_shared_ram_bytes) == Some 0
       then List.filter (fun c => negb (is_training_reference c)) (public_capabilities now config)
       else public_capabilities now config))).
  { apply Forall_fmap, List.Forall_forall. intros c Hc. cbn.
    destruct (bool_decide_reflect (NodeConfig_shared_ram_bytes config = Some 0)).
    - apply List.filter_In in Hc as [Hc Ht]. breflect. apply announced_other; [|done].
      by eapply List.Forall_forall in Hpub.
    - apply announced_with_backends; [|done..]. by eapply List.Forall_forall in Hpub. }
  cbn zeta. destruct (NodeConfig_relay_enabled config); [|done].
  apply Forall_app. split; [done|]. apply Forall_singleton, announced_relay.
Qed.

(** What the network asks beyond the node's own validation. *)
Definition network_ready (config : NodeConfig) (capabilities : list Capability) : Prop :=
  0 < config.(NodeConfig_peer_ttl_seconds) <= 86400 /\
  0 < config.(NodeConfig_hole_punch_max_attempts) <= 16 /\
  len capabilities <= MAX_CAPABILITIES /\
  Forall (fun c => model_ok c.(Capability_model)) capabilities.

Lemma network_validate_ready config capabilities :
  Forall announceable capabilities ->
  NetworkConfig_validate (network_config config capabilities) = Ok tt ->
  network_ready config capabilities.
Proof.
  intros Hann Hv. unfold NetworkConfig_validate in Hv. inv_ok Hv. cbn in *.
  split_and!; try lia; try done.
  apply List.Forall_forall. intros c Hc. eapply List.Forall_forall in Hv; [|done].
  rewrite map_err_ok in Hv. eapply List.Forall_forall in Hann; [|done].
  by apply announceable_valid in Hv.
Qed.

Lemma check_address_parse message address :
  check_address message address = Ok tt -> is_Some (SocketAddr_parse address).
Proof. unfold check_address. destruct (SocketAddr_parse address); [done|discriminate]. Qed.

(** One passing check of a chain. *)
Ltac passes :=
  apply rbind_ok; exists tt; split;
  [apply fail_if_ok;
   repeat lazymatch goal with
          | |- (_ || _) = false => apply orb_false_iff; split
          | |- (_ =? _) = false => apply N.eqb_neq
          | |- (_ <? _) = false => apply N.ltb_ge
          end; lia|].

Lemma network_ready_validate metadata config capabilities address :
  NodeConfig_validate metadata config = Ok tt ->
  config.(NodeConfig_advertise_addr) = Some address ->
  Forall announceable capabilities -> network_ready config capabilities ->
  NetworkConfig_validate (network_config config capabilities) = Ok tt.
Proof.
  intros Hv Ha Hann ([Ht0 Ht1] & [Hh0 Hh1] & Hlen & Hmod). unfold NodeConfig_validate in Hv. inv_ok Hv.
  match goal with
  | H1 : forall a, _ -> fail_if _ _ = _, H2 : forall a, _ -> check_address _ a = _,
    H3 : Forall (fun x => check_address _ x = _) _ |- _ =>
      rename H3 into Hpeers; pose proof (H1 _ Ha) as Hlong; pose proof (H2 _ Ha) as Hparse
  end.
  inv_ok Hlong. apply check_address_parse in Hparse as [addr Haddr].
  assert (Hslen : slen address <> 0) by (by destruct address).
  unfold NetworkConfig_validate. cbn [network_config
    NetworkConfig_listen_addr NetworkConfig_advertise_addr NetworkConfig_bootstrap
    NetworkConfig_max_frame_size NetworkConfig_max_connections NetworkConfig_peer_ttl_seconds
    NetworkConfig_allow_private_addresses NetworkConfig_prefer_relay
    NetworkConfig_hole_punch_enabled NetworkConfig_hole_punch_max_attempts
    NetworkConfig_relay_addresses NetworkConfig_relay_enabled NetworkConfig_relay_max_sessions
    NetworkConfig_relay_max_bytes NetworkConfig_capabilities NetworkConfig_dht_enabled
    NetworkConfig_dht_k NetworkConfig_dht_alpha NetworkConfig_dht_max_records].
  rewrite Ha. cbn [default from_option id].
  do 3 passes. rewrite Haddr. cbn [ok_or rbind]. unfold Dht.DEFAULT_MAX_RECORDS. do 5 passes.
  apply rbind_ok. exists tt. split.
  - apply for_each_ok. eapply Forall_impl; [exact Hpeers|]. intros a Hp.
    by apply check_address_parse in Hp as [? ->].
  - apply for_each_ok, List.Forall_forall. intros c Hc.
    eapply List.Forall_forall in Hann; [|done]. eapply List.Forall_forall in Hmod; [|done].
    apply map_err_ok. by apply announceable_valid.
Qed.

(** The network accepts the configuration that [start] derives from a validated one exactly
    when the lifetime of records and the number of hole punching attempts are in the network's
    range, the capabilities announced (the relay's own included) are not too many and their model
    names are short. *)
Theorem network_accepts_iff (metadata : str -> result FileInfo str) (now now' : N)
    (backends : list BackendCapabilities) (config prepared : NodeConfig) :
  prepare metadata config = Ok prepared -> backends_ok backends ->
  is_ok (open_network metadata now now' backends config) = true
  <-> network_ready prepared (advertised_capabilities now now' backends prepared).
Proof.
  intros Hp Hb. unfold open_network. rewrite Hp. cbn [rbind].
  unfold prepare in Hp. apply rbind_ok in Hp as ([] & Hv & [= <-]).
  set (prepared := with_capabilities _ _) in *.
  assert (Haddr : exists address, prepared.(NodeConfig_advertise_addr) = Some address).
  { unfold prepared. cbn. destruct (NodeConfig_advertise_addr config); by eexists. }
  destruct Haddr as [address Haddr].
  assert (Hann : Forall announceable (advertised_capabilities now now' backends prepared)).
  { apply advertised_announceable; [|done]. pose proof Hv as Hc. unfold NodeConfig_validate in Hc.
    inv_ok Hc. by eapply check_capabilities_valid. }
  destruct (NetworkConfig_validate _) as [[]|e] eqn:Hn; cbn; split; intros Hr; try done.
  - by apply network_validate_ready in Hn.
  - rewrite (network_ready_validate _ _ _ _ Hv Haddr Hann Hr) in Hn. discriminate.
Qed.

(** ** Normalisation *)
Lemma dedupe_from_spec addresses seen :
  (forall a, a ∈ dedupe_from seen addresses <-> a ∈ addresses /\ a ∉ seen) /\
  NoDup (dedupe_from seen addresses) /\ dedupe_from seen addresses `sublist_of` addresses.
Proof.
  revert seen. induction addresses as [|a addresses IH]; intros seen; cbn.
  - split_and!; [set_solver | constructor | done].
  - destruct (contains a seen) eqn:Hc.
    + apply contains_true in Hc. destruct (IH seen) as (Hin & Hd & Hsub). split_and!; [|done|].
      * intros b. rewrite Hin. set_solver.
      * by apply sublist_cons.
    + apply contains_false in Hc. destruct (IH (a :: seen)) as (Hin & Hd & Hsub). split_and!.
      * intros b. rewrite elem_of_cons, Hin. destruct (decide (b = a)); set_solver.
      * constructor; [rewrite Hin; set_solver | done].
      * by apply sublist_skip.
Qed.

Lemma dedupe_from_fixed addresses seen :
  NoDup addresses -> (forall a, a ∈ addresses -> a ∉ seen) -> dedupe_from seen addresses = addresses.
Proof.
  revert seen. induction addresses as [|a addresses IH]; intros seen Hd Hs; [done|].
  apply NoDup_cons in Hd as [Ha Hd]. cbn.
  assert (Hc : contains a seen = false) by (apply contains_false; set_solver). rewrite Hc. f_equal.
  apply IH; [done|]. intros b Hb. apply not_elem_of_cons. split; [by intros ->|set_solver].
Qed.

Lemma dedupe_idempotent addresses :
  dedupe_config_addresses (dedupe_config_addresses addresses) = dedupe_config_addresses addresses.
Proof. apply dedupe_from_fixed; [apply dedupe_from_spec | set_solver]. Qed.

(** Normalising a configuration a second time changes nothing. *)
Theorem normalize_idempotent (config : NodeConfig) : normalize (normalize config) = normalize config.
Proof.
  destruct config. unfold normalize. cbn. rewrite !dedupe_idempotent. f_equal.
  - by destruct NodeConfig_identity_path.
  - by destruct NodeConfig_admin_socket.
  - by destruct NodeConfig_advertise_addr.
  - by destruct (is_loopback _).
  - destruct (path_eqb (RuntimeConfig_work_dir NodeConfig_runtime) _) eqn:Hw; [|by rewrite Hw].
    by destruct (path_eqb (RuntimeConfig_work_dir (with_work_dir _ _)) _).
Qed.

(** ** Examples *)

Definition no_metadata : str -> result FileInfo str := fun _ => Err "not found"%string.

Definition no_env : str -> option str := fun _ => None.

Definition tool_capability : CapabilityConfig :=
  {| CapabilityConfig_name := "tool.run"; CapabilityConfig_version := 1;
     CapabilityConfig_public := true; CapabilityConfig_accept_remote_jobs := true;
     CapabilityConfig_kind := "process"; CapabilityConfig_model := None;
     CapabilityConfig_model_path := None; CapabilityConfig_program := Some "/bin/tool"%string;
     CapabilityConfig_args := []; CapabilityConfig_env := []; CapabilityConfig_metadata := [];
     CapabilityConfig_sandbox := "bubblewrap"; CapabilityConfig_max_input_bytes := 1024;
     CapabilityConfig_max_output_bytes := 1024; CapabilityConfig_memory_bytes := 1024;
     CapabilityConfig_cpu_millis := 10 |}.

Lemma exposed_processes_are_sandboxed_witness :
  exists executor, CapabilityConfig_executor tool_capability = Ok executor /\
    executor_sandbox executor = Some (ProcessSandbox_Bubblewrap "bwrap").
Proof.
  destruct (exposed_processes_are_sandboxed no_metadata tool_capability eq_refl) as (ex & Hex & Hs).
  exists ex. split; [exact Hex|]. pose proof Hex as Hex2. cbn in Hex2. injection Hex2 as <-.
  cbn. by rewrite (Hs eq_refl eq_refl _ eq_refl).
Defined.

(** The defaults, with one public capability. *)
Definition text_node : NodeConfig :=
  with_capabilities NodeConfig_default
    [serde_capability "inference.text" (Some "builtin.tiny-sentiment.v1"%string)].

Definition prepared_text_node : NodeConfig :=
  match prepare no_metadata text_node with Ok config => config | Err _ => text_node end.

Lemma network_accepts_iff_witness :
  is_ok (open_network no_metadata 1000 1000 [] text_node) = true.
Proof.
  apply (network_accepts_iff no_metadata 1000 1000 [] text_node prepared_text_node).
  - vm_compute. reflexivity.
  - split_and!; [done | constructor | constructor].
  - split; [vm_compute; by split|]. split; [vm_compute; by split|]. split; [by vm_compute|].
    apply List.Forall_forall. intros c Hc. vm_compute in Hc.
    destruct Hc as [<-|[]]. by intros m [= <-].
Defined.

Definition with_env (name value : str) : str -> option str :=
  fun n => if n == name then Some value else None.

Example env_sets_lifetime :
  (NodeConfig_peer_ttl_seconds <$>
     match from_environment no_metadata (with_env "INTELLIGENCE_PEER_TTL_SECONDS" "+60") with
     | Ok config => Some config | Err _ => None end) = Some 60.
Proof. by vm_compute. Qed.

Example env_reports_bad_number :
  from_environment no_metadata (with_env "INTELLIGENCE_DHT_K" "18446744073709551616")
  = Err (invalid_config "invalid INTELLIGENCE_DHT_K: number too large to fit in target type").
Proof. by vm_compute. Qed.

Example env_splits_addresses :
  split_addresses " 10.0.0.1:1 ,, 10.0.0.2:2," = ["10.0.0.1:1"; "10.0.0.2:2"]%string.
Proof. by vm_compute. Qed.

(** Settings the node accepts, which the network then refuses: a zero lifetime of records set
    through the environment passes the node's validation and fails when the network starts. *)
Theorem accepted_then_refused :
  exists config, from_environment no_metadata (with_env "INTELLIGENCE_PEER_TTL_SECONDS" "0") = Ok config /\
    is_ok (prepare no_metadata config) = true /\
    open_network no_metadata 1000 1000 [] config
    = Err (NodeError_Network (NetworkError_InvalidConfig "network limits are invalid")).
Proof. eexists. split; [vm_compute; reflexivity|]. by vm_compute. Qed.
