(* ===== verification/NodeState.v ===== *)
(** * State and surroundings of a node's tasks (crates/node/src/lib.rs)

    What the tasks of a node share: the job history, the jobs and artifact transfers that wait for
    a peer, the files of the local store, the observations and evidence about peers, and the
    counters.  A [oneshot] channel is a slot: its sender is alive while the slot waits, the value
    sent fills it, and a sender dropped without sending closes it; a sender is known by its
    number and, for a job, by the job the channel was made for.

    A section reads its surroundings from [NodeEnv]: the clock, whether the timer of the wait has
    run out, the answers of the network and of the runtime, what arrives in a mailbox of a training
    job, and the faults of the file system.  A call of the store is one section.  What the runtime makes of an admitted request is an
    [Execution]; [NodeRuntime] shows that the runtime's transition system ends in nothing else. *)

From Stdlib Require Import String ZArith NArith Lia.
From stdpp Require Import base tactics sets strings numbers list gmap.
From S2P Require Import Prelude OrdMap Types Validation FileSystem Storage Runtime Trust Security Facade Network NodeConfig Tasks.
Local Open Scope N_scope.
Local Open Scope rust_scope.

(** ** Data *)

Record JobResult := mkJobResult {
  JobResult_job_id : JobId;
  JobResult_state : JobState;
  JobResult_output : option (list N);
  JobResult_output_hash : option ArtifactId;
  JobResult_evidence : option Evidence;
  JobResult_error : option str
}.

Record PendingJob := mkPendingJob {
  PendingJob_job_id : JobId;
  PendingJob_peer : NodeId;
  PendingJob_capability : str;
  PendingJob_started_at : N;
  PendingJob_last_sequence : N;
  PendingJob_sender : JobId * N
}.

Record PendingArtifact := mkPendingArtifact {
  PendingArtifact_peer : NodeId;
  PendingArtifact_artifact : ArtifactId;
  PendingArtifact_offset : N;
  PendingArtifact_expected_size : option N;
  PendingArtifact_sender : nat
}.

Inductive RemoteJobReservation :=
  | RemoteJobReservation_Reserved
  | RemoteJobReservation_ExistingTerminal
  | RemoteJobReservation_ExistingActive
  | RemoteJobReservation_OriginCollision.

(** The fields of the report of a transfer; the source is a peer or the local store. *)
Record ArtifactReport := mkArtifactReport {
  ArtifactReport_artifact : ArtifactId;
  ArtifactReport_size : N;
  ArtifactReport_verified : bool;
  ArtifactReport_source : option NodeId
}.

Inductive Slot (A : Type) :=
  | Slot_Waiting
  | Slot_Sent (value : A)
  | Slot_Closed.
Arguments Slot_Waiting {A}.
Arguments Slot_Sent {A} value.
Arguments Slot_Closed {A}.

(** [sender.send(value)] and the drop of a sender. *)
Definition slot_send {A} (value : A) (slot : Slot A) : Slot A :=
  match slot with Slot_Waiting => Slot_Sent value | _ => slot end.

Definition slot_drop {A} (slot : Slot A) : Slot A :=
  match slot with Slot_Waiting => Slot_Closed | _ => slot end.

(** What the mailbox of a training job carries. *)
Inductive V3Inbound :=
  | V3Inbound_Message (peer : NodeId) (message : TrainingMessage)
  | V3Inbound_PeerDisconnected (peer : NodeId).

(** The report of a finished training job: what is computed for it; the other fields of the JSON
    value are constants. *)
Record AutonomousReport := mkAutonomousReport {
  AutonomousReport_group_progress : BTreeMap N N;
  AutonomousReport_group_completion_order : list N;
  AutonomousReport_non_barrier_progress_observed : bool;
  AutonomousReport_checkpoint_generation : N;
  AutonomousReport_final_checkpoint_committed : bool;
  AutonomousReport_model_state_bytes : N;
  AutonomousReport_shard_state_bytes : N
}.

Record TrainingReport := mkTrainingReport {
  TrainingReport_job_id : JobId;
  TrainingReport_coordinator : NodeId;
  TrainingReport_term : N;
  TrainingReport_windows : N;
  TrainingReport_local_steps : N;
  TrainingReport_groups : list TrainingGroup;
  TrainingReport_shards : list TrainingShardAssignment;
  TrainingReport_accepted_updates : N;
  TrainingReport_rejected_updates : N;
  TrainingReport_maximum_group_fan_in : N;
  TrainingReport_optimizer_state_replication_factor : N;
  TrainingReport_straggler_windows : N;
  TrainingReport_checkpoints : list ArtifactId;
  TrainingReport_checkpoint_providers : BTreeMap str (list NodeId);
  TrainingReport_initial_loss : Z;
  TrainingReport_final_loss : Z;
  TrainingReport_improved : bool;
  TrainingReport_autonomous : option AutonomousReport
}.

Record NodeState := mkNodeState {
  NodeState_jobs : gmap JobId PersistedJob;
  NodeState_pending : gmap JobId PendingJob;
  NodeState_pending_artifacts : gmap RequestId PendingArtifact;
  NodeState_job_replies : gmap (JobId * N) (Slot JobResult);
  NodeState_next_reply : N;
  NodeState_artifact_replies : list (Slot (result ArtifactReport NodeError));
  NodeState_world : World;
  NodeState_graph : CapabilityGraph;
  NodeState_security : LocalSecurityState;
  NodeState_trust : EvidenceGraph;
  NodeState_rejected_requests : N;
  NodeState_execution_failures : N;
  NodeState_evidence_sequence : N;
  NodeState_v3_jobs : gset JobId;
  NodeState_v3_states : gmap JobId TrainingState;
  NodeState_v3_results : gmap JobId (Slot (result (option TrainingReport) str));
  NodeState_training_updates_sent : N;
  NodeState_training_updates_received : N;
  NodeState_training_aggregates_sent : N;
  NodeState_training_aggregates_received : N;
  NodeState_training_max_update_fanin : N
}.

Definition set_NodeState_jobs (v : gmap JobId PersistedJob) (self : NodeState) : NodeState :=
    mkNodeState v self.(NodeState_pending) self.(NodeState_pending_artifacts)
    self.(NodeState_job_replies) self.(NodeState_next_reply)
    self.(NodeState_artifact_replies) self.(NodeState_world) self.(NodeState_graph)
    self.(NodeState_security) self.(NodeState_trust) self.(NodeState_rejected_requests)
    self.(NodeState_execution_failures) self.(NodeState_evidence_sequence)
    self.(NodeState_v3_jobs) self.(NodeState_v3_states) self.(NodeState_v3_results)
    self.(NodeState_training_updates_sent) self.(NodeState_training_updates_received)
    self.(NodeState_training_aggregates_sent) self.(NodeState_training_aggregates_received)
    self.(NodeState_training_max_update_fanin).

Definition set_NodeState_pending (v : gmap JobId PendingJob) (self : NodeState) : NodeState :=
    mkNodeState self.(NodeState_jobs) v self.(NodeState_pending_artifacts)
    self.(NodeState_job_replies) self.(NodeState_next_reply)
    self.(NodeState_artifact_replies) self.(NodeState_world) self.(NodeState_graph)
    self.(NodeState_security) self.(NodeState_trust) self.(NodeState_rejected_requests)
    self.(NodeState_execution_failures) self.(NodeState_evidence_sequence)
    self.(NodeState_v3_jobs) self.(NodeState_v3_states) self.(NodeState_v3_results)
    self.(NodeState_training_updates_sent) self.(NodeState_training_updates_received)
    self.(NodeState_training_aggregates_sent) self.(NodeState_training_aggregates_received)
    self.(NodeState_training_max_update_fanin).

Definition set_NodeState_pending_artifacts (v : gmap RequestId PendingArtifact) (self : NodeState) : NodeState :=
    mkNodeState self.(NodeState_jobs) self.(NodeState_pending) v
    self.(NodeState_job_replies) self.(NodeState_next_reply)
    self.(NodeState_artifact_replies) self.(NodeState_world) self.(NodeState_graph)
    self.(NodeState_security) self.(NodeState_trust) self.(NodeState_rejected_requests)
    self.(NodeState_execution_failures) self.(NodeState_evidence_sequence)
    self.(NodeState_v3_jobs) self.(NodeState_v3_states) self.(NodeState_v3_results)
    self.(NodeState_training_updates_sent) self.(NodeState_training_updates_received)
    self.(NodeState_training_aggregates_sent) self.(NodeState_training_aggregates_received)
    self.(NodeState_training_max_update_fanin).

Definition set_NodeState_job_replies (v : gmap (JobId * N) (Slot JobResult)) (self : NodeState) : NodeState :=
    mkNodeState self.(NodeState_jobs) self.(NodeState_pending)
    self.(NodeState_pending_artifacts) v self.(NodeState_next_reply)
    self.(NodeState_artifact_replies) self.(NodeState_world) self.(NodeState_graph)
    self.(NodeState_security) self.(NodeState_trust) self.(NodeState_rejected_requests)
    self.(NodeState_execution_failures) self.(NodeState_evidence_sequence)
    self.(NodeState_v3_jobs) self.(NodeState_v3_states) self.(NodeState_v3_results)
    self.(NodeState_training_updates_sent) self.(NodeState_training_updates_received)
    self.(NodeState_training_aggregates_sent) self.(NodeState_training_aggregates_received)
    self.(NodeState_training_max_update_fanin).

Definition set_NodeState_next_reply (v : N) (self : NodeState) : NodeState :=
    mkNodeState self.(NodeState_jobs) self.(NodeState_pending)
    self.(NodeState_pending_artifacts) self.(NodeState_job_replies) v
    self.(NodeState_artifact_replies) self.(NodeState_world) self.(NodeState_graph)
    self.(NodeState_security) self.(NodeState_trust) self.(NodeState_rejected_requests)
    self.(NodeState_execution_failures) self.(NodeState_evidence_sequence)
    self.(NodeState_v3_jobs) self.(NodeState_v3_states) self.(NodeState_v3_results)
    self.(NodeState_training_updates_sent) self.(NodeState_training_updates_received)
    self.(NodeState_training_aggregates_sent) self.(NodeState_training_aggregates_received)
    self.(NodeState_training_max_update_fanin).

Definition set_NodeState_artifact_replies (v : list (Slot (result ArtifactReport NodeError))) (self : NodeState) : NodeState :=
    mkNodeState self.(NodeState_jobs) self.(NodeState_pending)
    self.(NodeState_pending_artifacts) self.(NodeState_job_replies)
    self.(NodeState_next_reply) v self.(NodeState_world) self.(NodeState_graph)
    self.(NodeState_security) self.(NodeState_trust) self.(NodeState_rejected_requests)
    self.(NodeState_execution_failures) self.(NodeState_evidence_sequence)
    self.(NodeState_v3_jobs) self.(NodeState_v3_states) self.(NodeState_v3_results)
    self.(NodeState_training_updates_sent) self.(NodeState_training_updates_received)
    self.(NodeState_training_aggregates_sent) self.(NodeState_training_aggregates_received)
    self.(NodeState_training_max_update_fanin).

Definition set_NodeState_world (v : World) (self : NodeState) : NodeState :=
    mkNodeState self.(NodeState_jobs) self.(NodeState_pending)
    self.(NodeState_pending_artifacts) self.(NodeState_job_replies)
    self.(NodeState_next_reply) self.(NodeState_artifact_replies) v self.(NodeState_graph)
    self.(NodeState_security) self.(NodeState_trust) self.(NodeState_rejected_requests)
    self.(NodeState_execution_failures) self.(NodeState_evidence_sequence)
    self.(NodeState_v3_jobs) self.(NodeState_v3_states) self.(NodeState_v3_results)
    self.(NodeState_training_updates_sent) self.(NodeState_training_updates_received)
    self.(NodeState_training_aggregates_sent) self.(NodeState_training_aggregates_received)
    self.(NodeState_training_max_update_fanin).

Definition set_NodeState_graph (v : CapabilityGraph) (self : NodeState) : NodeState :=
    mkNodeState self.(NodeState_jobs) self.(NodeState_pending)
    self.(NodeState_pending_artifacts) self.(NodeState_job_replies)
    self.(NodeState_next_reply) self.(NodeState_artifact_replies) self.(NodeState_world) v
    self.(NodeState_security) self.(NodeState_trust) self.(NodeState_rejected_requests)
    self.(NodeState_execution_failures) self.(NodeState_evidence_sequence)
    self.(NodeState_v3_jobs) self.(NodeState_v3_states) self.(NodeState_v3_results)
    self.(NodeState_training_updates_sent) self.(NodeState_training_updates_received)
    self.(NodeState_training_aggregates_sent) self.(NodeState_training_aggregates_received)
    self.(NodeState_training_max_update_fanin).

Definition set_NodeState_security (v : LocalSecurityState) (self : NodeState) : NodeState :=
    mkNodeState self.(NodeState_jobs) self.(NodeState_pending)
    self.(NodeState_pending_artifacts) self.(NodeState_job_replies)
    self.(NodeState_next_reply) self.(NodeState_artifact_replies) self.(NodeState_world)
    self.(NodeState_graph) v self.(NodeState_trust) self.(NodeState_rejected_requests)
    self.(NodeState_execution_failures) self.(NodeState_evidence_sequence)
    self.(NodeState_v3_jobs) self.(NodeState_v3_states) self.(NodeState_v3_results)
    self.(NodeState_training_updates_sent) self.(NodeState_training_updates_received)
    self.(NodeState_training_aggregates_sent) self.(NodeState_training_aggregates_received)
    self.(NodeState_training_max_update_fanin).

Definition set_NodeState_trust (v : EvidenceGraph) (self : NodeState) : NodeState :=
    mkNodeState self.(NodeState_jobs) self.(NodeState_pending)
    self.(NodeState_pending_artifacts) self.(NodeState_job_replies)
    self.(NodeState_next_reply) self.(NodeState_artifact_replies) self.(NodeState_world)
    self.(NodeState_graph) self.(NodeState_security) v self.(NodeState_rejected_requests)
    self.(NodeState_execution_failures) self.(NodeState_evidence_sequence)
    self.(NodeState_v3_jobs) self.(NodeState_v3_states) self.(NodeState_v3_results)
    self.(NodeState_training_updates_sent) self.(NodeState_training_updates_received)
    self.(NodeState_training_aggregates_sent) self.(NodeState_training_aggregates_received)
    self.(NodeState_training_max_update_fanin).

Definition set_NodeState_rejected_requests (v : N) (self : NodeState) : NodeState :=
    mkNodeState self.(NodeState_jobs) self.(NodeState_pending)
    self.(NodeState_pending_artifacts) self.(NodeState_job_replies)
    self.(NodeState_next_reply) self.(NodeState_artifact_replies) self.(NodeState_world)
    self.(NodeState_graph) self.(NodeState_security) self.(NodeState_trust) v
    self.(NodeState_execution_failures) self.(NodeState_evidence_sequence)
    self.(NodeState_v3_jobs) self.(NodeState_v3_states) self.(NodeState_v3_results)
    self.(NodeState_training_updates_sent) self.(NodeState_training_updates_received)
    self.(NodeState_training_aggregates_sent) self.(NodeState_training_aggregates_received)
    self.(NodeState_training_max_update_fanin).

Definition set_NodeState_execution_failures (v : N) (self : NodeState) : NodeState :=
    mkNodeState self.(NodeState_jobs) self.(NodeState_pending)
    self.(NodeState_pending_artifacts) self.(NodeState_job_replies)
    self.(NodeState_next_reply) self.(NodeState_artifact_replies) self.(NodeState_world)
    self.(NodeState_graph) self.(NodeState_security) self.(NodeState_trust)
    self.(NodeState_rejected_requests) v self.(NodeState_evidence_sequence)
    self.(NodeState_v3_jobs) self.(NodeState_v3_states) self.(NodeState_v3_results)
    self.(NodeState_training_updates_sent) self.(NodeState_training_updates_received)
    self.(NodeState_training_aggregates_sent) self.(NodeState_training_aggregates_received)
    self.(NodeState_training_max_update_fanin).

Definition set_NodeState_evidence_sequence (v : N) (self : NodeState) : NodeState :=
    mkNodeState self.(NodeState_jobs) self.(NodeState_pending)
    self.(NodeState_pending_artifacts) self.(NodeState_job_replies)
    self.(NodeState_next_reply) self.(NodeState_artifact_replies) self.(NodeState_world)
    self.(NodeState_graph) self.(NodeState_security) self.(NodeState_trust)
    self.(NodeState_rejected_requests) self.(NodeState_execution_failures) v
    self.(NodeState_v3_jobs) self.(NodeState_v3_states) self.(NodeState_v3_results)
    self.(NodeState_training_updates_sent) self.(NodeState_training_updates_received)
    self.(NodeState_training_aggregates_sent) self.(NodeState_training_aggregates_received)
    self.(NodeState_training_max_update_fanin).

Definition set_NodeState_v3_jobs (v : gset JobId) (self : NodeState) : NodeState :=
    mkNodeState self.(NodeState_jobs) self.(NodeState_pending)
    self.(NodeState_pending_artifacts) self.(NodeState_job_replies)
    self.(NodeState_next_reply) self.(NodeState_artifact_replies) self.(NodeState_world)
    self.(NodeState_graph) self.(NodeState_security) self.(NodeState_trust)
    self.(NodeState_rejected_requests) self.(NodeState_execution_failures)
    self.(NodeState_evidence_sequence) v self.(NodeState_v3_states)
    self.(NodeState_v3_results) self.(NodeState_training_updates_sent)
    self.(NodeState_training_updates_received) self.(NodeState_training_aggregates_sent)
    self.(NodeState_training_aggregates_received) self.(NodeState_training_max_update_fanin).

Definition set_NodeState_v3_states (v : gmap JobId TrainingState) (self : NodeState) : NodeState :=
    mkNodeState self.(NodeState_jobs) self.(NodeState_pending)
    self.(NodeState_pending_artifacts) self.(NodeState_job_replies)
    self.(NodeState_next_reply) self.(NodeState_artifact_replies) self.(NodeState_world)
    self.(NodeState_graph) self.(NodeState_security) self.(NodeState_trust)
    self.(NodeState_rejected_requests) self.(NodeState_execution_failures)
    self.(NodeState_evidence_sequence) self.(NodeState_v3_jobs) v
    self.(NodeState_v3_results) self.(NodeState_training_updates_sent)
    self.(NodeState_training_updates_received) self.(NodeState_training_aggregates_sent)
    self.(NodeState_training_aggregates_received) self.(NodeState_training_max_update_fanin).

Definition set_NodeState_v3_results (v : gmap JobId (Slot (result (option TrainingReport) str))) (self : NodeState) : NodeState :=
    mkNodeState self.(NodeState_jobs) self.(NodeState_pending)
    self.(NodeState_pending_artifacts) self.(NodeState_job_replies)
    self.(NodeState_next_reply) self.(NodeState_artifact_replies) self.(NodeState_world)
    self.(NodeState_graph) self.(NodeState_security) self.(NodeState_trust)
    self.(NodeState_rejected_requests) self.(NodeState_execution_failures)
    self.(NodeState_evidence_sequence) self.(NodeState_v3_jobs) self.(NodeState_v3_states) v
    self.(NodeState_training_updates_sent) self.(NodeState_training_updates_received)
    self.(NodeState_training_aggregates_sent) self.(NodeState_training_aggregates_received)
    self.(NodeState_training_max_update_fanin).

Definition set_NodeState_training_updates_sent (v : N) (self : NodeState) : NodeState :=
    mkNodeState self.(NodeState_jobs) self.(NodeState_pending)
    self.(NodeState_pending_artifacts) self.(NodeState_job_replies)
    self.(NodeState_next_reply) self.(NodeState_artifact_replies) self.(NodeState_world)
    self.(NodeState_graph) self.(NodeState_security) self.(NodeState_trust)
    self.(NodeState_rejected_requests) self.(NodeState_execution_failures)
    self.(NodeState_evidence_sequence) self.(NodeState_v3_jobs) self.(NodeState_v3_states)
    self.(NodeState_v3_results) v self.(NodeState_training_updates_received)
    self.(NodeState_training_aggregates_sent) self.(NodeState_training_aggregates_received)
    self.(NodeState_training_max_update_fanin).

Definition set_NodeState_training_updates_received (v : N) (self : NodeState) : NodeState :=
    mkNodeState self.(NodeState_jobs) self.(NodeState_pending)
    self.(NodeState_pending_artifacts) self.(NodeState_job_replies)
    self.(NodeState_next_reply) self.(NodeState_artifact_replies) self.(NodeState_world)
    self.(NodeState_graph) self.(NodeState_security) self.(NodeState_trust)
    self.(NodeState_rejected_requests) self.(NodeState_execution_failures)
    self.(NodeState_evidence_sequence) self.(NodeState_v3_jobs) self.(NodeState_v3_states)
    self.(NodeState_v3_results) self.(NodeState_training_updates_sent) v
    self.(NodeState_training_aggregates_sent) self.(NodeState_training_aggregates_received)
    self.(NodeState_training_max_update_fanin).

Definition set_NodeState_training_aggregates_sent (v : N) (self : NodeState) : NodeState :=
    mkNodeState self.(NodeState_jobs) self.(NodeState_pending)
    self.(NodeState_pending_artifacts) self.(NodeState_job_replies)
    self.(NodeState_next_reply) self.(NodeState_artifact_replies) self.(NodeState_world)
    self.(NodeState_graph) self.(NodeState_security) self.(NodeState_trust)
    self.(NodeState_rejected_requests) self.(NodeState_execution_failures)
    self.(NodeState_evidence_sequence) self.(NodeState_v3_jobs) self.(NodeState_v3_states)
    self.(NodeState_v3_results) self.(NodeState_training_updates_sent)
    self.(NodeState_training_updates_received) v
    self.(NodeState_training_aggregates_received) self.(NodeState_training_max_update_fanin).

Definition set_NodeState_training_aggregates_received (v : N) (self : NodeState) : NodeState :=
    mkNodeState self.(NodeState_jobs) self.(NodeState_pending)
    self.(NodeState_pending_artifacts) self.(NodeState_job_replies)
    self.(NodeState_next_reply) self.(NodeState_artifact_replies) self.(NodeState_world)
    self.(NodeState_graph) self.(NodeState_security) self.(NodeState_trust)
    self.(NodeState_rejected_requests) self.(NodeState_execution_failures)
    self.(NodeState_evidence_sequence) self.(NodeState_v3_jobs) self.(NodeState_v3_states)
    self.(NodeState_v3_results) self.(NodeState_training_updates_sent)
    self.(NodeState_training_updates_received) self.(NodeState_training_aggregates_sent) v
    self.(NodeState_training_max_update_fanin).

Definition set_NodeState_training_max_update_fanin (v : N) (self : NodeState) : NodeState :=
    mkNodeState self.(NodeState_jobs) self.(NodeState_pending)
    self.(NodeState_pending_artifacts) self.(NodeState_job_replies)
    self.(NodeState_next_reply) self.(NodeState_artifact_replies) self.(NodeState_world)
    self.(NodeState_graph) self.(NodeState_security) self.(NodeState_trust)
    self.(NodeState_rejected_requests) self.(NodeState_execution_failures)
    self.(NodeState_evidence_sequence) self.(NodeState_v3_jobs) self.(NodeState_v3_states)
    self.(NodeState_v3_results) self.(NodeState_training_updates_sent)
    self.(NodeState_training_updates_received) self.(NodeState_training_aggregates_sent)
    self.(NodeState_training_aggregates_received) v.

(** ** Surroundings *)

(** How the execution of an admitted request ends. *)
Inductive Execution :=
  | Execution_Output (output : list N)
  | Execution_Cancelled
  | Execution_TimedOut
  | Execution_Error (error : RuntimeError).

Definition execution_outcome `{Blake3} (execution : Execution) : result ExecutionOutcome RuntimeError :=
  match execution with
  | Execution_Output output => Ok (succeeded output)
  | Execution_Cancelled => Ok ExecutionOutcome_Cancelled
  | Execution_TimedOut => Ok ExecutionOutcome_TimedOut
  | Execution_Error error => Err error
  end.

(** [ne_chunks] are the pieces an execution streams, in order; [ne_event] is what a mailbox yields,
    or that its channel is closed; [ne_tick] says whether a repeating timer is due; [ne_full] that
    the bounded queue of messages to a peer has no room, so that a send waits. *)
Record NodeEnv := mkNodeEnv {
  ne_now : N;
  ne_now_ms : N;
  ne_elapsed : bool;
  ne_send : option NetworkError;
  ne_faults : list Fault;
  ne_admit : option RuntimeError;
  ne_execution : Execution;
  ne_chunks : list (list N);
  ne_cancelled : bool;
  ne_records : list PeerRecord;
  ne_random : list N;
  ne_event : option (option V3Inbound);
  ne_connected : bool;
  ne_tick : bool;
  ne_full : bool
}.

(** What a node does to the outside, and the steps of its job history. *)
Inductive NodeEffect :=
  | Did_Send (peer : NodeId) (message : Message)
  | Did_Reconnect (peer : NodeId)
  | Did_Publish (namespace : DhtNamespace) (name : str) (value : list N) (ttl sequence : N)
  | Did_Reserve (job : JobId)
  | Did_Evict (job : JobId)
  | Did_Execute (request : JobRequest) (executor : ExecutorSpec)
  | Did_Abandon (job : JobId)
  | Did_Cancel (job : JobId)
  | Did_Deliver (job : JobId) (event : V3Inbound)
  | Did_Receive (job : JobId) (event : V3Inbound).

Notation ntask := (Task NodeEnv NodeState NodeEffect).
Notation node A := (ntask (result A NodeError)).

(** Texts of errors, as [Display] writes them. *)
Class NodeText := {
  NodeError_to_string : NodeError -> str;
  RuntimeError_to_string : RuntimeError -> str;
  NetworkError_to_string : NetworkError -> str
}.

(** ** Sections *)

Definition now_secs : ntask N := reading (fun e _ => e.(ne_now)).

Definition now_millis : ntask N := reading (fun e _ => e.(ne_now_ms)).

Definition random_request_id : ntask RequestId := reading (fun e _ => mkRequestId e.(ne_random)).

(** [network.send_to] and [network.send_direct], of which only the answer matters here.  The wait for
    room in the queue of the connection has no time limit of its own. *)
Definition send_to (peer : NodeId) (message : Message) : node unit :=
  Step (fun e s =>
    if e.(ne_full) then None
    else match e.(ne_send) with
         | None => Some (Ok tt, s, [Did_Send peer message])
         | Some error => Some (Err (NodeError_Network error), s, [])
         end) Done.

Definition send_direct (peer : NodeId) (message : Message) : node unit := send_to peer message.

Definition reconnect_peer (peer : NodeId) : node unit :=
  atomic (fun e s =>
    (match e.(ne_send) with None => Ok tt | Some error => Err (NodeError_Network error) end,
     s, [Did_Reconnect peer])).

(** A call of the local store.  When the process is killed in the middle, nothing follows. *)
Definition run_store {A} (e : NodeEnv) (p : Prog (result A StorageError)) (s : NodeState)
    : option (result A StorageError * NodeState) :=
  match run e.(ne_faults) p s.(NodeState_world) with
  | (world, Some r) => Some (r, set_NodeState_world world s)
  | (_, None) => None
  end.

Definition storage {A} (p : Prog (result A StorageError)) : node A :=
  Step (fun e s =>
      match run_store e p s with
      | Some (r, s) => Some (map_err NodeError_Storage r, s, [])
      | None => None
      end) Done.

(** ** Reply slots *)

(** [oneshot::channel()] *)
Definition new_job_reply (job : JobId) (s : NodeState) : (JobId * N) * NodeState :=
  let sender := (job, s.(NodeState_next_reply)) in
  (sender,
   set_NodeState_next_reply (s.(NodeState_next_reply) + 1)
     (set_NodeState_job_replies (<[sender := Slot_Waiting]> s.(NodeState_job_replies)) s)).

Definition on_job_reply (f : Slot JobResult -> Slot JobResult) (sender : JobId * N) (s : NodeState)
    : NodeState :=
  set_NodeState_job_replies (alter f sender s.(NodeState_job_replies)) s.

Definition on_artifact_reply
    (f : Slot (result ArtifactReport NodeError) -> Slot (result ArtifactReport NodeError))
    (sender : nat) (s : NodeState) : NodeState :=
  set_NodeState_artifact_replies (alter f sender s.(NodeState_artifact_replies)) s.

Definition send_job_result (sender : JobId * N) (value : JobResult) : ntask unit :=
  updating (fun _ s => on_job_reply (slot_send value) sender s).

(** [pending.insert(id, job)]: the sender of an entry it replaces is dropped. *)
Definition insert_pending (job : PendingJob) (s : NodeState) : NodeState :=
  let s := match s.(NodeState_pending) !! job.(PendingJob_job_id) with
           | Some old => on_job_reply slot_drop old.(PendingJob_sender) s
           | None => s
           end in
  set_NodeState_pending (<[job.(PendingJob_job_id) := job]> s.(NodeState_pending)) s.

(** [pending.remove(&id);]: the sender is dropped. *)
Definition drop_pending (id : JobId) : ntask unit :=
  updating (fun _ s =>
    match s.(NodeState_pending) !! id with
    | Some old =>
        on_job_reply slot_drop old.(PendingJob_sender)
          (set_NodeState_pending (delete id s.(NodeState_pending)) s)
    | None => s
    end).

(** [timeout(duration, receiver).await]: the timer, a closed channel, or the value. *)
Inductive Received (A : Type) :=
  | Received_Value (value : A)
  | Received_Closed
  | Received_Timeout.
Arguments Received_Value {A} value.
Arguments Received_Closed {A}.
Arguments Received_Timeout {A}.

(** The receiver is polled before the timer. *)
Definition receive_slot {A} (e : NodeEnv) (slot : option (Slot A)) : option (Received A) :=
  match slot with
  | Some (Slot_Sent value) => Some (Received_Value value)
  | Some Slot_Closed => Some Received_Closed
  | _ => if e.(ne_elapsed) then Some Received_Timeout else None
  end.

Definition receive_job (sender : JobId * N) : ntask (Received JobResult) :=
  Step (fun e s =>
      match receive_slot e (s.(NodeState_job_replies) !! sender) with
      | Some r => Some (r, s, [])
      | None => None
      end) Done.
