(* ===== verification/NodeRuntime.v ===== *)
(** * What the runtime gives back to the node

    The node model takes the end of an execution from its surroundings, as one of the values of
    [Execution].  Here the transition system of the runtime is shown to end in nothing else, so
    that the theorems about the node hold of a node that runs its jobs there. *)

From Stdlib Require Import String ZArith NArith Lia.
From stdpp Require Import base tactics sets strings numbers list gmap.
From S2P Require Import Prelude OrdMap Types Validation FileSystem Storage Runtime RuntimeFacts Network NodeConfig Tasks NodeState.
Local Open Scope N_scope.
Local Open Scope rust_scope.

Section Endings.
Context `{Blake3} `{RuntimeJson}.
Context (config : RuntimeConfig) (is_file : String.string -> bool).

Definition is_execution (r : result ExecutionOutcome RuntimeError) : Prop :=
  exists execution, r = execution_outcome execution.

(** A process ends in what [run_process] makes of its output and its exit status, or in an error
    of the operating system. *)
Definition process_ending (r : result ExecutionOutcome RuntimeError) : Prop :=
  (exists limited success status details, r = process_outcome limited success status details)
  \/ exists error, r = Err error.

Definition plausible (a : Runtime.Action) : Prop :=
  match a with Act_Output _ r => process_ending r | _ => True end.

Inductive rt_plausible : Runtime -> Prop :=
  | plausible_init s : Runtime_new config = Ok s -> rt_plausible s
  | plausible_act s a s' :
      rt_plausible s -> plausible a -> act config is_file s a = Some s' -> rt_plausible s'.

(** Wherever a job is on its way out, its result is an execution's. *)
Definition ends_well (t : Runtime.Task) : Prop :=
  match t.(Task_phase) with
  | Phase_Emitting r | Phase_Draining (Some r) | Phase_Finishing (Some r) | Phase_Dropping (Some r)
  | Phase_Ended (Some r) => is_execution r
  | _ => True
  end.

Lemma error_execution error : is_execution (Err error).
Proof. by exists (Execution_Error error). Qed.

Lemma cancelled_execution : is_execution (Ok ExecutionOutcome_Cancelled).
Proof. by exists Execution_Cancelled. Qed.

Lemma timed_out_execution : is_execution (Ok ExecutionOutcome_TimedOut).
Proof. by exists Execution_TimedOut. Qed.

Lemma succeeded_execution output : is_execution (Ok (succeeded output)).
Proof. by exists (Execution_Output output). Qed.

Local Hint Resolve error_execution cancelled_execution timed_out_execution succeeded_execution : core.

Lemma process_execution r : process_ending r -> is_execution r.
Proof.
  intros [(limited & success & status & details & ->)|[error ->]]; [|done].
  unfold process_outcome. destruct (LimitedOutput_truncated _); [auto|]. destruct success; cbn [negb]; auto.
Qed.

Lemma finish_execution output limit chunks : is_execution (finish_output output limit chunks).1.
Proof. unfold finish_output. repeat case_match; cbn [fst]; auto. Qed.

Lemma builtin_execution executor t r : run_builtin_executor config executor t = Some r -> is_execution r.
Proof.
  unfold run_builtin_executor, run_builtin, run_builtin_training.
  repeat case_match; intros [= <-]; cbn [fst]; auto using finish_execution.
Qed.

Lemma moved_ends s i t q r m :
  Forall ends_well s.(Runtime_tasks) -> ends_well t -> Forall ends_well (moved s i t q r m).(Runtime_tasks).
Proof. intros Hs Ht. by apply Forall_insert. Qed.

Lemma act_task_ends s a i t s' :
  Forall ends_well s.(Runtime_tasks) -> s.(Runtime_tasks) !! i = Some t -> plausible a ->
  act_task config is_file s a i t = Some s' -> Forall ends_well s'.(Runtime_tasks).
Proof.
  intros Hs Hi Ha. pose proof (Forall_lookup_1 _ _ _ _ Hs Hi) as Ht. unfold ends_well in Ht.
  unfold act_task. cbn zeta. destruct a; destruct (Task_phase t) as [| | |e w|e|o| |w| |g|g|g|g|]; try done;
    repeat case_match; intros [= <-]; apply moved_ends; try done;
    unfold ends_well; cbn [with_phase Task_phase];
    eauto using builtin_execution, process_execution.
  all: unfold start_phase, cancelled_ending, timed_out_ending in *; repeat case_match; simplify_eq;
    eauto using builtin_execution, process_execution.
Qed.

Lemma alter_ends f i ts :
  (forall t, (f t).(Task_phase) = t.(Task_phase) \/ ends_well (f t)) ->
  Forall ends_well ts -> Forall ends_well (alter f i ts).
Proof.
  intros Hf Hts. apply Forall_alter; [done|]. intros t Ht. destruct (Hf t) as [Hp|Hp]; [|by intros _].
  intros Hw. unfold ends_well. rewrite Hp. exact Hw.
Qed.

Lemma act_ends s a s' :
  Forall ends_well s.(Runtime_tasks) -> plausible a -> act config is_file s a = Some s' ->
  Forall ends_well s'.(Runtime_tasks).
Proof.
  intros Hs Ha. destruct a; cbn [act]; unfold on_task;
    try (destruct (Runtime_tasks s !! i) eqn:Hi; [|done]; by eapply act_task_ends).
  - intros [= <-]. cbn [begin_admit Runtime_tasks]. apply Forall_app. split; [done|].
    apply Forall_singleton. unfold ends_well. cbn [Task_phase]. by destruct (admit_check _ _).
  - intros [= <-]. unfold cancel. destruct (_ !! job); [|done]. cbn [fst Runtime_tasks].
    apply alter_ends; [by left | done].
  - unfold notify. destruct (position _ _); [|done]. intros [= <-]. cbn [Runtime_tasks].
    apply alter_ends; [|done]. intros t. unfold wake. repeat case_match; auto; by right.
Qed.

Lemma rt_plausible_ends s : rt_plausible s -> Forall ends_well s.(Runtime_tasks).
Proof.
  induction 1 as [s Hs|s a s' _ IH Ha Hact]; [|by eapply act_ends].
  unfold Runtime_new in Hs. apply rbind_ok in Hs as (_ & _ & [= <-]). constructor.
Qed.

(** Whatever is submitted, cancelled and timed out in whatever order, a job that the runtime
    has ended has ended as one of the executions the node reckons with: an output with its own
    hash, a cancellation, a timeout or an error. *)
Theorem runtime_ends_in_executions s i t r :
  rt_plausible s -> s.(Runtime_tasks) !! i = Some t -> t.(Task_phase) = Phase_Ended (Some r) ->
  exists execution, r = execution_outcome execution.
Proof.
  intros Hs Hi Ht. pose proof (Forall_lookup_1 _ _ _ _ (rt_plausible_ends s Hs) Hi) as He.
  unfold ends_well in He. by rewrite Ht in He.
Qed.
End Endings.

#[local] Existing Instances rt_hash rt_json.

Lemma act_all_plausible s actions s' :
  rt_plausible rt_config rt_no_files s -> Forall plausible actions ->
  act_all rt_config rt_no_files s actions = Some s' -> rt_plausible rt_config rt_no_files s'.
Proof.
  intros Hs Hall. revert s Hs. induction Hall as [|a actions Ha _ IH]; intros s Hs; cbn; [by intros [= <-]|].
  destruct (act _ _ s a) as [s1|] eqn:Hs1; [|done]. apply IH. by eapply plausible_act.
Qed.

Definition rt_over : Runtime := default rt_start (act_all rt_config rt_no_files rt_start rt_actions).

Lemma rt_over_plausible : rt_plausible rt_config rt_no_files rt_over.
Proof.
  apply (act_all_plausible rt_start rt_actions); [by apply plausible_init | by repeat constructor |].
  vm_compute. reflexivity.
Qed.

Lemma runtime_ends_in_executions_witness :
  exists execution, Ok (succeeded [3]) = execution_outcome execution.
Proof.
  apply (runtime_ends_in_executions rt_config rt_no_files rt_over 0
    (mkTask (rt_job 1) false (Phase_Ended (Some (Ok (succeeded [3]))))) _ rt_over_plausible);
    vm_compute; reflexivity.
Defined.
