(* ===== verification/NodeJobs.v ===== *)
(** * Jobs of a node (crates/node/src/lib.rs)

    The job history and its reservations, the execution of jobs for peers and for the operator, the
    submission of jobs to peers, the updates they send and the loss of a peer.  The tasks share
    [NodeState]; a lock held across several operations is one section. *)

From Stdlib Require Import String ZArith NArith Lia.
From stdpp Require Import base tactics sets strings numbers list gmap.
From S2P Require Import Prelude OrdMap Types Validation Float32 FileSystem Storage Runtime Trust Security Facade Network NodeConfig Tasks NodeState.
Local Open Scope N_scope.
Local Open Scope rust_scope.

(** serde_json: the payload of the evidence about a finished job. *)
Class JobPayloadJson := job_payload_to_vec : str -> bool -> option ArtifactId -> list N.

Section Node.
Context `{Blake3} `{Ed25519} `{Ed25519Signer} `{EvidencePostcard} `{NodeText} `{JobPayloadJson}.
Context `{Json (StateFile PersistedJob)} `{Json (StateFile SignedEvidence)} `{Json SignedEvidence}.
Context `{Json (list N)}.
Context (security_to_allocvec : LocalSecurityState -> result (list N) str).
Context (config : NodeConfig) (identity : Identity) (store : LocalStore).
Notation node_id := identity.(Identity_node_id).

(** [config.capabilities] by name: a later capability replaces an earlier one. *)
Definition capabilities : gmap str CapabilityConfig :=
  fold_left (fun m capability => <[capability.(CapabilityConfig_name) := capability]> m)
    config.(NodeConfig_capabilities) ∅.

(** ** The job history *)

Definition job_values (jobs : gmap JobId PersistedJob) : list PersistedJob := (map_to_list jobs).*2.

(** The finished job that was updated first, to make room in a full history. *)
Definition oldest_terminal (jobs : gmap JobId PersistedJob) : option JobId :=
  PersistedJob_job_id <$>
    min_by_key PersistedJob_updated_at
      (List.filter (fun item => JobState_terminal item.(PersistedJob_state)) (job_values jobs)).

Definition history_full : NodeError :=
  NodeError_Storage (StorageError_InvalidState "job history is full with active jobs").

(** The entry goes in; a full history first gives up its oldest finished job.  The result is the
    list to save; it is saved after the lock is released. *)
Definition insert_job (job : PersistedJob) (s : NodeState)
    : result (list PersistedJob) NodeError * NodeState * list NodeEffect :=
  let jobs := s.(NodeState_jobs) in
  let put jobs := <[job.(PersistedJob_job_id) := job]> jobs in
  match jobs !! job.(PersistedJob_job_id) with
  | Some _ => (Ok (job_values (put jobs)), set_NodeState_jobs (put jobs) s, [])
  | None =>
      if MAX_JOB_HISTORY <=? N.of_nat (size jobs) then
        match oldest_terminal jobs with
        | None => (Err history_full, s, [])
        | Some remove =>
            let jobs := put (delete remove jobs) in
            (Ok (job_values jobs), set_NodeState_jobs jobs s, [Did_Evict remove])
        end
      else (Ok (job_values (put jobs)), set_NodeState_jobs (put jobs) s, [])
  end.

Definition record_job (job : PersistedJob) : node unit :=
  try! values := atomic (fun _ s => insert_job job s) in
  storage (save_jobs store values).

(** The entry of a job in some state, with its result or its error. *)
Definition job_entry (request : JobRequest) (state : JobState) (updated_at : N)
    (output_hash : option ArtifactId) (output : option (list N)) (error : option str) : PersistedJob :=
  mkPersistedJob request.(JobRequest_job_id) request.(JobRequest_origin) state updated_at
    output_hash output error.

(** [record_job(PersistedJob { state, updated_at: now_secs(), error, .. })] *)
Definition record_state (request : JobRequest) (state : JobState) (error : option str) : node unit :=
  let! now := now_secs in
  record_job (job_entry request state now None None error).

(** Under the lock of the history, the save included; a save that fails is undone. *)
Definition reserve_section (peer : NodeId) (request : JobRequest) (e : NodeEnv) (s : NodeState)
    : option (result RemoteJobReservation NodeError * NodeState * list NodeEffect) :=
  let jobs := s.(NodeState_jobs) in
  let id := request.(JobRequest_job_id) in
  match jobs !! id with
  | Some existing =>
      Some (Ok (if existing.(PersistedJob_origin) != peer then RemoteJobReservation_OriginCollision
                else if JobState_terminal existing.(PersistedJob_state)
                     then RemoteJobReservation_ExistingTerminal
                     else RemoteJobReservation_ExistingActive), s, [])
  | None =>
      let room :=
        if MAX_JOB_HISTORY <=? N.of_nat (size jobs) then
          match oldest_terminal jobs with
          | None => Err history_full
          | Some remove => Ok (jobs !! remove, delete remove jobs)
          end
        else Ok (None, jobs) in
      match room with
      | Err error => Some (Err error, s, [])
      | Ok (evicted, jobs) =>
          let jobs := <[id := job_entry request JobState_Validated e.(ne_now) None None None]> jobs in
          match run_store e (save_jobs store (job_values jobs)) s with
          | None => None
          | Some (Ok _, s) =>
              Some (Ok RemoteJobReservation_Reserved, set_NodeState_jobs jobs s,
                    match evicted with
                    | Some job => [Did_Evict job.(PersistedJob_job_id)]
                    | None => []
                    end ++ [Did_Reserve id])
          | Some (Err error, s) =>
              let jobs := delete id jobs in
              let jobs := match evicted with
                          | Some job => <[job.(PersistedJob_job_id) := job]> jobs
                          | None => jobs
                          end in
              Some (Err (NodeError_Storage error), set_NodeState_jobs jobs s, [])
          end
      end
  end.

Definition reserve_remote_job (peer : NodeId) (request : JobRequest) : node RemoteJobReservation :=
  Step (reserve_section peer request) Done.

(** [start]: jobs that were not finished when the node stopped have failed. *)
Definition recover_job (now : N) (job : PersistedJob) : PersistedJob :=
  if JobState_terminal job.(PersistedJob_state) then job
  else mkPersistedJob job.(PersistedJob_job_id) job.(PersistedJob_origin) JobState_Failed now
         job.(PersistedJob_output_hash) job.(PersistedJob_output)
         (Some "node restarted before the job reached a terminal state"%string).

Definition recover_jobs (now : N) (loaded : list PersistedJob) : gmap JobId PersistedJob :=
  fold_left (fun jobs job =>
      let job := recover_job now job in <[job.(PersistedJob_job_id) := job]> jobs) loaded ∅.

(** The history a node starts with, saved again when a job had to be recovered; the clock is read
    once. *)
Definition load_history (now : N) : Prog (result (gmap JobId PersistedJob) StorageError) :=
  let*? loaded := load_jobs in
  let jobs := recover_jobs now loaded in
  if existsb (fun job => negb (JobState_terminal job.(PersistedJob_state))) loaded then
    let*? _ := save_jobs store (job_values jobs) in Ret (Ok jobs)
  else Ret (Ok jobs).

(** ** The runtime *)

Definition runtime_admit (request : JobRequest) : ntask (result unit RuntimeError) :=
  reading (fun e _ => match e.(ne_admit) with None => Ok tt | Some error => Err error end).

Definition abandon (request : JobRequest) : ntask unit :=
  atomic (fun _ s => (tt, s, [Did_Abandon request.(JobRequest_job_id)])).

Definition runtime_cancel (job : JobId) : ntask bool :=
  atomic (fun e s => (e.(ne_cancelled), s, [Did_Cancel job])).

(** The executor is started in one section and its end awaited in another. *)
Definition start_execution (request : JobRequest) (executor : ExecutorSpec) : ntask unit :=
  atomic (fun _ s => (tt, s, [Did_Execute request executor])).

Definition await_execution : ntask (result ExecutionOutcome RuntimeError) :=
  reading (fun e _ => execution_outcome e.(ne_execution)).

Definition count_rejected_request : ntask unit :=
  updating (fun _ s =>
    set_NodeState_rejected_requests (trunc u64_max (s.(NodeState_rejected_requests) + 1)) s).

Definition count_execution_failure : ntask unit :=
  updating (fun _ s =>
    set_NodeState_execution_failures (trunc u64_max (s.(NodeState_execution_failures) + 1)) s).

(** ** Jobs for peers *)

Definition send_update (peer : NodeId) (update : JobUpdate) : node unit :=
  send_to peer (Message_JobUpdate update).

Definition send_rejection (peer : NodeId) (job_id : JobId) (code message : str) : node unit :=
  count_rejected_request ;!
  send_update peer (mkJobUpdate job_id JobState_Rejected 1 (JobUpdateKind_Rejected code message)).

(** What a duplicate of a finished request is answered. *)
Definition terminal_update (job : PersistedJob) : JobState * JobUpdateKind :=
  match job.(PersistedJob_state) with
  | JobState_Succeeded =>
      let not_retained :=
        (JobState_Failed,
         JobUpdateKind_Failed "result_not_retained"
           "the completed result was not retained by local policy") in
      match job.(PersistedJob_output), job.(PersistedJob_output_hash) with
      | Some output, Some output_hash =>
          if ArtifactId_from_bytes_hashed output == output_hash
          then (JobState_Succeeded, JobUpdateKind_Succeeded output output_hash None)
          else not_retained
      | _, _ => not_retained
      end
  | JobState_Cancelled => (JobState_Cancelled, JobUpdateKind_Cancelled)
  | JobState_TimedOut => (JobState_TimedOut, JobUpdateKind_TimedOut)
  | JobState_Rejected =>
      (JobState_Rejected,
       JobUpdateKind_Rejected "rejected" (default EmptyString job.(PersistedJob_error)))
  | _ => (JobState_Failed, JobUpdateKind_Failed "not_terminal" "job state is not terminal")
  end.

Definition resend_terminal (peer : NodeId) (job_id : JobId) : node unit :=
  let! job := reading (fun _ s =>
      match s.(NodeState_jobs) !! job_id with
      | Some job => if job.(PersistedJob_origin) == peer then Some job else None
      | None => None
      end) in
  match job with
  | None => Done (Ok tt)
  | Some job =>
      let (state, update) := terminal_update job in
      send_update peer (mkJobUpdate job_id state 4 update)
  end.

(** How an outcome is recorded. *)
Definition outcome_entry (request : JobRequest) (outcome : ExecutionOutcome) (now : N) : PersistedJob :=
  match outcome with
  | ExecutionOutcome_Succeeded result =>
      job_entry request JobState_Succeeded now (Some result.(ExecutionResult_output_hash))
        (if request.(JobRequest_privacy).(PrivacyPolicy_allow_output_persistence)
         then Some result.(ExecutionResult_output) else None) None
  | ExecutionOutcome_Cancelled =>
      job_entry request JobState_Cancelled now None None (Some "cancelled"%string)
  | ExecutionOutcome_TimedOut =>
      job_entry request JobState_TimedOut now None None (Some "timed out"%string)
  end.

Definition outcome_update (outcome : ExecutionOutcome) : JobState * JobUpdateKind :=
  match outcome with
  | ExecutionOutcome_Succeeded result =>
      (JobState_Succeeded,
       JobUpdateKind_Succeeded result.(ExecutionResult_output) result.(ExecutionResult_output_hash) None)
  | ExecutionOutcome_Cancelled => (JobState_Cancelled, JobUpdateKind_Cancelled)
  | ExecutionOutcome_TimedOut => (JobState_TimedOut, JobUpdateKind_TimedOut)
  end.

Definition send_outcome (peer : NodeId) (request : JobRequest) (outcome : ExecutionOutcome)
    (starting_sequence : N) : node unit :=
  let! now := now_secs in
  record_job (outcome_entry request outcome now) ?!
  let (state, update) := outcome_update outcome in
  send_update peer
    (mkJobUpdate request.(JobRequest_job_id) state (sat_add u32_max starting_sequence 1) update).

(** The pieces of output, sent as they arrive; failures to send are ignored.  The sequence number
    of the last one is the result. *)
Fixpoint send_chunks (peer : NodeId) (job_id : JobId) (sequence : N) (chunks : list (list N))
    : ntask N :=
  match chunks with
  | [] => Done sequence
  | data :: chunks =>
      let sequence := sat_add u32_max sequence 1 in
      ignore (send_update peer
        (mkJobUpdate job_id JobState_Running sequence (JobUpdateKind_Chunk sequence data))) ;!
      send_chunks peer job_id sequence chunks
  end.

(** The record and the message about a job that failed. *)
Definition fail_job (peer : NodeId) (request : JobRequest) (sequence : N) (code message : str)
    : ntask unit :=
  ignore (record_state request JobState_Failed (Some message)) ;!
  ignore (send_update peer
    (mkJobUpdate request.(JobRequest_job_id) JobState_Failed (sat_add u32_max sequence 1)
       (JobUpdateKind_Failed code message))).

(** The task [handle_remote_job] spawns for an admitted request. *)
Definition run_remote_job (peer : NodeId) (request : JobRequest) (executor : ExecutorSpec)
    : ntask unit :=
  let id := request.(JobRequest_job_id) in
  let! recorded := record_state request JobState_Running None in
  match recorded with
  | Err _ => ignore (runtime_cancel id)
  | Ok _ =>
      let! sent := send_update peer (mkJobUpdate id JobState_Running 2 JobUpdateKind_Started) in
      match sent with
      | Err _ =>
          ignore (runtime_cancel id) ;!
          ignore (record_state request JobState_Failed
                    (Some "peer disconnected before job execution"%string))
      | Ok _ =>
          start_execution request executor ;!
          let! chunks := reading (fun e _ => e.(ne_chunks)) in
          let! sequence := send_chunks peer id 2 chunks in
          let! outcome := await_execution in
          match outcome with
          | Ok outcome =>
              let! sent := send_outcome peer request outcome sequence in
              match sent with
              | Ok _ => Done tt
              | Err error =>
                  fail_job peer request sequence "outcome_error" (NodeError_to_string error)
              end
          | Err error =>
              count_execution_failure ;!
              fail_job peer request sequence "execution_error" (RuntimeError_to_string error)
          end
      end
  end.

(** From the admission on. *)
Definition accept_remote_job (peer : NodeId) (request : JobRequest) (executor : ExecutorSpec)
    : ntask unit :=
  let id := request.(JobRequest_job_id) in
  let! admitted := runtime_admit request in
  match admitted with
  | Err error =>
      ignore (record_state request JobState_Rejected (Some (RuntimeError_to_string error))) ;!
      ignore (send_rejection peer id "admission_denied" (RuntimeError_to_string error))
  | Ok _ =>
      let! recorded := record_state request JobState_Admitted None in
      match recorded with
      | Err error =>
          abandon request ;!
          ignore (send_rejection peer id "storage_error" (NodeError_to_string error))
      | Ok _ =>
          let! sent := send_update peer
            (mkJobUpdate id JobState_Admitted 1 (JobUpdateKind_Accepted JobState_Admitted)) in
          match sent with
          | Err _ =>
              ignore (runtime_cancel id) ;!
              ignore (record_state request JobState_Failed
                        (Some "peer disconnected before job admission"%string))
          | Ok _ => spawn (run_remote_job peer request executor)
          end
      end
  end.

(** The checks of [handle_remote_job] before it touches the history: a rejection, or the executor
    of a request that local policy lets through. *)
Definition remote_job_check (request : JobRequest)
    : result (CapabilityConfig) (str * str) :=
  match capabilities !! request.(JobRequest_capability) with
  | None => Err ("capability_not_found", "this node does not expose that capability")%string
  | Some capability =>
      if is_process capability && (capability.(CapabilityConfig_sandbox) != "bubblewrap"%string)
      then Err ("sandbox_required", "remote process execution requires sandbox = bubblewrap")%string
      else if negb capability.(CapabilityConfig_public)
              || negb capability.(CapabilityConfig_accept_remote_jobs)
              || negb request.(JobRequest_privacy).(PrivacyPolicy_allow_input_transfer)
      then Err ("policy_denied", "local policy denied remote execution")%string
      else match JobRequest_validate request with
           | Err error => Err ("invalid_request"%string, ValidationError_to_string error)
           | Ok _ =>
               if (capability.(CapabilityConfig_max_input_bytes) <? len request.(JobRequest_input))
                  || (capability.(CapabilityConfig_max_output_bytes)
                      <? request.(JobRequest_max_output_bytes))
               then Err ("capability_limits",
                         "job exceeds the advertised capability resource limits")%string
               else Ok capability
           end
  end.

Definition handle_remote_job (peer : NodeId) (request : JobRequest) : ntask unit :=
  let id := request.(JobRequest_job_id) in
  match remote_job_check request with
  | Err (code, message) => ignore (send_rejection peer id code message)
  | Ok capability =>
      match CapabilityConfig_executor capability with
      | Err error =>
          ignore (record_state request JobState_Rejected (Some (NodeError_to_string error))) ;!
          ignore (send_rejection peer id "invalid_executor" (NodeError_to_string error))
      | Ok executor =>
          let! reservation := reserve_remote_job peer request in
          match reservation with
          | Ok RemoteJobReservation_ExistingTerminal => ignore (resend_terminal peer id)
          | Ok RemoteJobReservation_ExistingActive => Done tt
          | Ok RemoteJobReservation_OriginCollision =>
              ignore (send_rejection peer id "duplicate_job_id"
                        "job ID is already owned by another peer")
          | Err error => ignore (send_rejection peer id "admission_denied" (NodeError_to_string error))
          | Ok RemoteJobReservation_Reserved => accept_remote_job peer request executor
          end
      end
  end.

(** ** Jobs of the operator *)

Definition outcome_result (request : JobRequest) (outcome : ExecutionOutcome)
    (evidence : option Evidence) : JobResult :=
  let id := request.(JobRequest_job_id) in
  match outcome with
  | ExecutionOutcome_Succeeded value =>
      mkJobResult id JobState_Succeeded (Some value.(ExecutionResult_output))
        (Some value.(ExecutionResult_output_hash)) evidence None
  | ExecutionOutcome_Cancelled =>
      mkJobResult id JobState_Cancelled None None evidence (Some "cancelled"%string)
  | ExecutionOutcome_TimedOut =>
      mkJobResult id JobState_TimedOut None None evidence (Some "timed out"%string)
  end.

Definition outcome_to_result (request : JobRequest) (outcome : ExecutionOutcome)
    (evidence : option Evidence) : node JobResult :=
  let result := outcome_result request outcome evidence in
  let! now := now_secs in
  record_job (mkPersistedJob result.(JobResult_job_id) request.(JobRequest_origin)
    result.(JobResult_state) now result.(JobResult_output_hash)
    (if request.(JobRequest_privacy).(PrivacyPolicy_allow_output_persistence)
     then result.(JobResult_output) else None) result.(JobResult_error)) ?!
  Done (Ok result).

Definition execute_local (request : JobRequest) (capability : CapabilityConfig) : node JobResult :=
  if (capability.(CapabilityConfig_max_input_bytes) <? len request.(JobRequest_input))
     || (capability.(CapabilityConfig_max_output_bytes) <? request.(JobRequest_max_output_bytes))
  then Done (Err (invalid_config ("capability " ++ capability.(CapabilityConfig_name)
                                  ++ " resource limits reject this job")%string))
  else
    match CapabilityConfig_executor capability with
    | Err error => Done (Err error)
    | Ok executor =>
        try! reservation := reserve_remote_job node_id request in
        match reservation with
        | RemoteJobReservation_Reserved =>
            let! admitted := runtime_admit request in
            match admitted with
            | Err error =>
                ignore (record_state request JobState_Rejected (Some (RuntimeError_to_string error))) ;!
                Done (Err (NodeError_Runtime error))
            | Ok _ =>
                let! recorded := record_state request JobState_Admitted None in
                match recorded with
                | Err error => abandon request ;! Done (Err error)
                | Ok _ =>
                    start_execution request executor ;!
                    let! outcome := await_execution in
                    match outcome with
                    | Err error =>
                        count_execution_failure ;!
                        ignore (record_state request JobState_Failed
                                  (Some (RuntimeError_to_string error))) ;!
                        Done (Err (NodeError_Runtime error))
                    | Ok outcome => outcome_to_result request outcome None
                    end
                end
            end
        | _ => Done (Err (invalid_config ("job " ++ hex_encode (JobId_0 request.(JobRequest_job_id))
                                          ++ " already exists")%string))
        end
    end.

(** ** Jobs sent to peers *)

(** [pending.lock().await.insert(..)] with a new channel; its sender is the result. *)
Definition await_reply (peer : NodeId) (request : JobRequest) : ntask (JobId * N) :=
  atomic (fun e s =>
    let (sender, s) := new_job_reply request.(JobRequest_job_id) s in
    (sender,
     insert_pending (mkPendingJob request.(JobRequest_job_id) peer request.(JobRequest_capability)
                       e.(ne_now_ms) 0 sender) s, [])).

(** The part [submit_request] and [submit_remote_to_peer] share: a request over any path, one retry
    of the same job over the direct path, and a cancellation when that fails too.  [cancel_reason]
    and [failure] are the texts of the caller. *)
Definition submit_to_peer (peer : NodeId) (request : JobRequest) (cancel_reason failure : str)
    : node JobResult :=
  let id := request.(JobRequest_job_id) in
  let! receiver := await_reply peer request in
  let! sent := send_to peer (Message_JobRequest request) in
  match sent with
  | Err error => drop_pending id ;! Done (Err error)
  | Ok _ =>
      let! received := receive_job receiver in
      match received with
      | Received_Value result => Done (Ok result)
      | Received_Closed => Done (Err (NodeError_Network NetworkError_NotConnected))
      | Received_Timeout =>
          drop_pending id ;!
          let! retry_receiver := await_reply peer request in
          ignore (reconnect_peer peer) ;!
          let! sent := send_direct peer (Message_JobRequest request) in
          let! received := match sent with
                           | Ok _ => receive_job retry_receiver
                           | Err _ => Done Received_Timeout
                           end in
          match received with
          | Received_Value result => Done (Ok result)
          | _ =>
              drop_pending id ;!
              ignore (send_direct peer (Message_CancelJob (mkCancelJob id cancel_reason))) ;!
              Done (Err (invalid_config failure))
          end
      end
  end.

Definition submit_remote_to_peer (peer : NodeId) (request : JobRequest) : node JobResult :=
  submit_to_peer peer request "training coordinator deadline exceeded"
    "training worker deadline exceeded".

Definition submit_request (request : JobRequest) : node JobResult :=
  match capabilities !! request.(JobRequest_capability) with
  | Some capability => execute_local request capability
  | None =>
      if negb request.(JobRequest_privacy).(PrivacyPolicy_allow_input_transfer)
      then Done (Err (invalid_config ("no local capability " ++ request.(JobRequest_capability)
                                      ++ " satisfies --local-only")%string))
      else
        let! choice := reading (fun e _ =>
            choose_peer e.(ne_records) request.(JobRequest_capability) e.(ne_now) (Some node_id)) in
        match choice with
        | None => Done (Err (invalid_config ("no route for capability "
                                             ++ request.(JobRequest_capability))%string))
        | Some choice =>
            submit_to_peer choice.(RouteChoice_peer) request "requester deadline exceeded"
              "remote job deadline exceeded"
        end
  end.

(** The operator cancels a job that runs here, or one that waits for a peer. *)
Definition cancel_job `{Hex} (job_id : str) : node bool :=
  match hex_decode job_id with
  | Err error => Done (Err (invalid_config error))
  | Ok bytes =>
      if len bytes != 16 then Done (Err (invalid_config "job ID must be 16 bytes of hex"))
      else
        let id := mkJobId bytes in
        let! running := runtime_cancel id in
        if (running : bool) then Done (Ok true)
        else
          let! pending := atomic (fun _ s =>
              (s.(NodeState_pending) !! id,
               set_NodeState_pending (delete id s.(NodeState_pending)) s, [])) in
          match pending with
          | None => Done (Ok false)
          | Some pending =>
              send_job_result pending.(PendingJob_sender)
                (mkJobResult id JobState_Cancelled None None None (Some "cancelled"%string)) ;!
              ignore (send_to pending.(PendingJob_peer)
                (Message_CancelJob (mkCancelJob id "operator requested cancellation"))) ;!
              Done (Ok true)
          end
  end.

(** ** Updates from peers *)

Definition persist_security_state : ntask unit :=
  let! state := reading (fun _ s => s.(NodeState_security)) in
  match security_to_allocvec state with
  | Err _ => Done tt
  | Ok encoded => ignore (storage (write_json store "v6-security.json" encoded))
  end.

(** Security.record_event under the lock, then the save. *)
Definition note_security_event (subject : option NodeId) (kind : SecurityEventKind)
    (scope detail : str) : ntask unit :=
  updating (fun e s =>
    set_NodeState_security
      (Security.event s.(NodeState_security) e.(ne_now) subject kind scope detail) s) ;!
  persist_security_state.

Definition next_evidence_sequence : ntask N :=
  atomic (fun _ s =>
    let n := s.(NodeState_evidence_sequence) in
    (n, set_NodeState_evidence_sequence (trunc u64_max (n + 1)) s, [])).

Definition publish (name : str) (value : list N) (sequence : N) : ntask unit :=
  atomic (fun _ s =>
    (tt, s, [Did_Publish DhtNamespace_Evidence name value config.(NodeConfig_peer_ttl_seconds) sequence])).

Definition with_signature (evidence : SignedEvidence) (signature : list N) : SignedEvidence :=
  mkSignedEvidence evidence.(SignedEvidence_issuer) evidence.(SignedEvidence_issuer_public_key)
    evidence.(SignedEvidence_subject) evidence.(SignedEvidence_kind)
    evidence.(SignedEvidence_sequence) evidence.(SignedEvidence_observed_at)
    evidence.(SignedEvidence_expires_at) evidence.(SignedEvidence_payload) signature.

(** The graph's lock is held while the evidence is saved. *)
Definition insert_evidence (evidence : SignedEvidence) (observed_at : N) : ntask unit :=
  Step (fun e s =>
      match EvidenceGraph_insert s.(NodeState_trust) evidence observed_at with
      | (Ok true, graph) =>
          match run_store e (save_evidence store graph.(EvidenceGraph_entries)) s with
          | Some (_, s) => Some (tt, set_NodeState_trust graph s, [])
          | None => None
          end
      | (_, graph) => Some (tt, set_NodeState_trust graph s, [])
      end) Done.

Definition record_signed_evidence (subject : NodeId) (kind : EvidenceKind) (payload : list N)
    : ntask unit :=
  if subject == node_id then Done tt
  else
    let! observed_at := now_secs in
    let! sequence := next_evidence_sequence in
    let evidence := mkSignedEvidence node_id identity.(Identity_public_key) subject kind sequence
      observed_at (sat_add u64_max observed_at config.(NodeConfig_peer_ttl_seconds)) payload [] in
    match evidence_signing_bytes evidence with
    | Err _ => Done tt
    | Ok bytes =>
        let evidence := with_signature evidence (Identity_sign identity bytes) in
        match to_vec evidence with
        | Ok value => publish ("subject:" ++ hex_encode (NodeId_0 subject)) value sequence
        | Err _ => Done tt
        end ;!
        insert_evidence evidence observed_at
    end.

(** The result a terminal update stands for: whether the job succeeded, the hash of a good result,
    and what the caller gets. *)
Definition update_result (update : JobUpdate) : bool * option ArtifactId * JobResult :=
  let id := update.(JobUpdate_job_id) in
  let failed state error := (false, None, mkJobResult id state None None None (Some error)) in
  match update.(JobUpdate_update) with
  | JobUpdateKind_Succeeded output output_hash evidence =>
      if ArtifactId_from_bytes_hashed output == output_hash
      then (true, Some output_hash,
            mkJobResult id JobState_Succeeded (Some output) (Some output_hash) evidence None)
      else failed JobState_Failed "remote result hash does not match output"%string
  | JobUpdateKind_Cancelled => failed JobState_Cancelled "cancelled"%string
  | JobUpdateKind_TimedOut => failed JobState_TimedOut "timed out"%string
  | JobUpdateKind_Rejected code message | JobUpdateKind_Failed code message =>
      failed update.(JobUpdate_state) (code ++ ": " ++ message)%string
  | _ => failed JobState_Failed "invalid terminal update"%string
  end.

Definition with_last_sequence (job : PendingJob) (sequence : N) : PendingJob :=
  mkPendingJob job.(PendingJob_job_id) job.(PendingJob_peer) job.(PendingJob_capability)
    job.(PendingJob_started_at) sequence job.(PendingJob_sender).

Definition valid_chunk (update : JobUpdate) : bool :=
  match update.(JobUpdate_update) with
  | JobUpdateKind_Chunk sequence _ => sequence =? update.(JobUpdate_sequence)
  | _ => true
  end.

(** Under the lock of the pending jobs: a later sequence number from the asked peer is noted; a
    terminal update takes the entry out. *)
Definition take_update (peer : NodeId) (update : JobUpdate) (s : NodeState)
    : option PendingJob * NodeState :=
  let id := update.(JobUpdate_job_id) in
  match s.(NodeState_pending) !! id with
  | None => (None, s)
  | Some job =>
      if (job.(PendingJob_peer) != peer)
         || (update.(JobUpdate_sequence) <=? job.(PendingJob_last_sequence))
      then (None, s)
      else if negb (JobState_terminal update.(JobUpdate_state)) then
        (None,
         if valid_chunk update
         then set_NodeState_pending
                (<[id := with_last_sequence job update.(JobUpdate_sequence)]> s.(NodeState_pending)) s
         else s)
      else (Some (with_last_sequence job update.(JobUpdate_sequence)),
            set_NodeState_pending (delete id s.(NodeState_pending)) s)
  end.

Definition evidence_kind (capability : str) (success : bool) : EvidenceKind :=
  if (capability == "evaluation.text"%string) && success then EvidenceKind_Evaluation
  else if negb success then EvidenceKind_Timeout
  else EvidenceKind_JobCompleted.

Definition handle_job_update (peer : NodeId) (update : JobUpdate) : ntask unit :=
  let! job := atomic (fun _ s => (take_update peer update s, [])) in
  match job with
  | None => Done tt
  | Some job =>
      let '(success, result_hash, result) := update_result update in
      let capability := job.(PendingJob_capability) in
      updating (fun e s =>
        set_NodeState_graph
          (CapabilityGraph_record s.(NodeState_graph)
             (mkCapabilityObservation peer capability success
                (N.min (sat_sub e.(ne_now_ms) job.(PendingJob_started_at)) u32_max)
                e.(ne_now) result_hash)) s) ;!
      updating (fun e s =>
        set_NodeState_security
          (record_direct_observation s.(NodeState_security) peer success e.(ne_now)) s) ;!
      persist_security_state ;!
      record_signed_evidence peer (evidence_kind capability success)
        (job_payload_to_vec capability success result_hash) ;!
      send_job_result job.(PendingJob_sender) result
  end.

(** ** Loss of a peer *)

Definition disconnected_result (job : PendingJob) : JobResult :=
  mkJobResult job.(PendingJob_job_id) JobState_Failed None None None
    (Some "peer disconnected during job"%string).

Definition fail_jobs (peer : NodeId) (s : NodeState) : NodeState :=
  let lost := List.filter (fun p => p.2.(PendingJob_peer) == peer) (map_to_list s.(NodeState_pending)) in
  let s := set_NodeState_pending (fold_left (fun m p => delete p.1 m) lost s.(NodeState_pending)) s in
  fold_left (fun s p => on_job_reply (slot_send (disconnected_result p.2)) p.2.(PendingJob_sender) s)
    lost s.

Definition fail_transfers (peer : NodeId) (s : NodeState) : NodeState :=
  let lost := List.filter (fun p => p.2.(PendingArtifact_peer) == peer)
                (map_to_list s.(NodeState_pending_artifacts)) in
  let s := set_NodeState_pending_artifacts
             (fold_left (fun m p => delete p.1 m) lost s.(NodeState_pending_artifacts)) s in
  fold_left (fun s p =>
      on_artifact_reply (slot_send (Err (NodeError_Network NetworkError_NotConnected)))
        p.2.(PendingArtifact_sender) s) lost s.

(** The lock of the pending jobs is still held when the transfers are failed. *)
Definition fail_pending_for_peer (peer : NodeId) : ntask unit :=
  updating (fun _ s => fail_transfers peer (fail_jobs peer s)).

(** [Message::CancelJob]: only the peer a job belongs to may cancel it. *)
Definition handle_cancel (peer : NodeId) (cancel : CancelJob) : ntask unit :=
  let! allowed := reading (fun _ s =>
      match s.(NodeState_jobs) !! cancel.(CancelJob_job_id) with
      | Some job => job.(PersistedJob_origin) == peer
      | None => false
      end) in
  if (allowed : bool) then ignore (runtime_cancel cancel.(CancelJob_job_id)) else Done tt.
End Node.
