(* ===== verification/NodeArtifacts.v ===== *)
(** * Artifact transfers of a node, and what it does with messages (crates/node/src/lib.rs)

    A node fetches an artifact piece by piece from a peer into a partial file and publishes it when
    its hash is right; it serves the pieces others ask for.  [handle_network_message] gives each
    message of an authenticated peer to its handler; what training messages do is a parameter, for
    which [WholeNode] puts the handlers of both kinds of training. *)

From Stdlib Require Import String ZArith NArith Lia.
From stdpp Require Import base tactics sets strings numbers list gmap.
From S2P Require Import Prelude OrdMap Types Validation Float32 FileSystem Storage Runtime Trust Security Facade Network NodeConfig Tasks NodeState NodeJobs.
Local Open Scope N_scope.
Local Open Scope rust_scope.

(** ** Reply slots *)

Definition send_artifact_result (sender : nat) (value : result ArtifactReport NodeError) : ntask unit :=
  updating (fun _ s => on_artifact_reply (slot_send value) sender s).

(** [pending_artifacts.insert(id, transfer)] with a new channel. *)
Definition await_transfer (id : RequestId) (peer : NodeId) (artifact : ArtifactId) (offset : N)
    : ntask nat :=
  atomic (fun _ s =>
    let sender := length s.(NodeState_artifact_replies) in
    let s := set_NodeState_artifact_replies (s.(NodeState_artifact_replies) ++ [Slot_Waiting]) s in
    let s := match s.(NodeState_pending_artifacts) !! id with
             | Some old => on_artifact_reply slot_drop old.(PendingArtifact_sender) s
             | None => s
             end in
    (sender,
     set_NodeState_pending_artifacts
       (<[id := mkPendingArtifact peer artifact offset None sender]> s.(NodeState_pending_artifacts)) s,
     [])).

(** [pending_artifacts.remove(&id);] *)
Definition drop_transfer (id : RequestId) : ntask unit :=
  updating (fun _ s =>
    match s.(NodeState_pending_artifacts) !! id with
    | Some old =>
        on_artifact_reply slot_drop old.(PendingArtifact_sender)
          (set_NodeState_pending_artifacts (delete id s.(NodeState_pending_artifacts)) s)
    | None => s
    end).

(** [pending_artifacts.lock().await.remove(&id)], the entry kept. *)
Definition take_transfer (id : RequestId) : ntask (option PendingArtifact) :=
  atomic (fun _ s =>
    (s.(NodeState_pending_artifacts) !! id,
     set_NodeState_pending_artifacts (delete id s.(NodeState_pending_artifacts)) s, [])).

Definition receive_artifact (sender : nat) : ntask (Received (result ArtifactReport NodeError)) :=
  Step (fun e s =>
      match receive_slot e (s.(NodeState_artifact_replies) !! sender) with
      | Some r => Some (r, s, [])
      | None => None
      end) Done.

(** A store operation that cannot fail. *)
Definition store_query {A} (p : Prog A) : ntask A :=
  Step (fun e s =>
      match run e.(ne_faults) p s.(NodeState_world) with
      | (world, Some a) => Some (a, set_NodeState_world world s, [])
      | (_, None) => None
      end) Done.

Section Artifacts.
Context `{Blake3} `{Ed25519} `{Ed25519Signer} `{EvidencePostcard} `{NodeText} `{JobPayloadJson}.
Context `{Json (StateFile PersistedJob)} `{Json (StateFile SignedEvidence)} `{Json SignedEvidence}.
Context `{Json (list N)}.
Context (security_to_allocvec : LocalSecurityState -> result (list N) str).
Context (config : NodeConfig) (identity : Identity) (store : LocalStore).
Notation note_security_event := (note_security_event security_to_allocvec store).

(** ** Fetching *)

Definition transfer_request (id : RequestId) (artifact : ArtifactId) (offset expected_size : N)
    : ArtifactTransferRequest :=
  mkArtifactTransferRequest id artifact offset (trunc u32_max MAX_ARTIFACT_CHUNK) expected_size artifact.

(** One attempt: the request, its answer or the reason to try again ([None]). *)
Definition fetch_attempt (first : bool) (peer : NodeId) (artifact : ArtifactId)
    : ntask (option (result ArtifactReport NodeError)) :=
  let! id := random_request_id in
  let! offset := storage (partial_artifact_size store artifact) in
  match offset with
  | Err error => Done (Some (Err error))
  | Ok offset =>
      let! receiver := await_transfer id peer artifact offset in
      let message := Message_ArtifactTransferRequest (transfer_request id artifact offset 0) in
      let! sent :=
        (if first then send_to peer message
         else ignore (reconnect_peer peer) ;! send_direct peer message) in
      match sent with
      | Err error =>
          drop_transfer id ;!
          Done (if first then None else Some (Err error))
      | Ok _ =>
          let! received := receive_artifact receiver in
          match received with
          | Received_Value result => Done (Some result)
          | _ =>
              drop_transfer id ;!
              Done (if first then None
                    else Some (Err (invalid_config
                           "artifact transfer timed out; the partial artifact was retained for resume")))
          end
      end
  end.

Definition fetch_artifact `{Hex} (peer artifact : str) : node ArtifactReport :=
  match parse_node_id peer, parse_artifact_id artifact with
  | Err error, _ => Done (Err error)
  | Ok _, Err error => Done (Err error)
  | Ok peer, Ok artifact =>
      let! present := store_query (has_artifact artifact) in
      if (present : bool) then
        storage (verify_artifact store artifact) ?!
        try! size := storage (artifact_size store artifact) in
        Done (Ok (mkArtifactReport artifact size true None))
      else
        let! active := reading (fun _ s => N.of_nat (size s.(NodeState_pending_artifacts))) in
        if 8 <=? active then
          Done (Err (invalid_config "artifact transfer concurrency limit reached"))
        else
          let! first := fetch_attempt true peer artifact in
          match first with
          | Some result => Done result
          | None =>
              let! second := fetch_attempt false peer artifact in
              match second with
              | Some result => Done result
              | None => Done (Err (NodeError_Network NetworkError_NotConnected))
              end
          end
  end.

(** ** Serving *)

Definition handle_artifact_request (peer : NodeId) (request : ArtifactRequest) : ntask unit :=
  if is_err (ArtifactRequest_validate request) then Done tt
  else
    let! range := storage (read_artifact_range store request.(ArtifactRequest_artifact)
        request.(ArtifactRequest_offset) request.(ArtifactRequest_max_bytes)) in
    match range with
    | Err _ => Done tt
    | Ok (bytes, _) =>
        ignore (send_to peer (Message_ArtifactChunk
          (mkArtifactChunk request.(ArtifactRequest_artifact) request.(ArtifactRequest_offset)
             bytes (len bytes <? request.(ArtifactRequest_max_bytes)))))
    end.

Definition handle_artifact_transfer_request (peer : NodeId) (request : ArtifactTransferRequest)
    : ntask unit :=
  let artifact := request.(ArtifactTransferRequest_artifact) in
  let offset := request.(ArtifactTransferRequest_offset) in
  if is_err (ArtifactTransferRequest_validate request) then Done tt
  else
    let! total_size := storage (artifact_size store artifact) in
    match total_size with
    | Err _ => Done tt
    | Ok total_size =>
        if (request.(ArtifactTransferRequest_expected_hash) != artifact)
           || ((request.(ArtifactTransferRequest_expected_size) != 0)
               && (request.(ArtifactTransferRequest_expected_size) != total_size))
           || (total_size <? offset)
        then Done tt
        else
          let! range := storage (read_artifact_range store artifact offset
              request.(ArtifactTransferRequest_max_bytes)) in
          match range with
          | Err _ => Done tt
          | Ok (data, _) =>
              ignore (send_to peer (Message_ArtifactTransferChunk
                (mkArtifactTransferChunk request.(ArtifactTransferRequest_request_id) artifact offset
                   total_size data (total_size <=? sat_add u64_max offset (len data)))))
          end
    end.

(** ** Receiving *)

Definition corrupt (peer : NodeId) (detail : str) : ntask unit :=
  note_security_event (Some peer) SecurityEventKind_ArtifactCorrupt "artifact_transfer" detail.

(** The transfer is taken out and its fetch answered. *)
Definition finish_transfer (id : RequestId) (result : Prelude.result ArtifactReport NodeError)
    : ntask unit :=
  let! transfer := take_transfer id in
  match transfer with
  | Some transfer => send_artifact_result transfer.(PendingArtifact_sender) result
  | None => Done tt
  end.

(** [transfer.offset = ..; transfer.expected_size = ..;] *)
Definition advance_transfer (id : RequestId) (offset total_size : N) : ntask unit :=
  updating (fun _ s =>
    match s.(NodeState_pending_artifacts) !! id with
    | Some t =>
        set_NodeState_pending_artifacts
          (<[id := mkPendingArtifact t.(PendingArtifact_peer) t.(PendingArtifact_artifact) offset
                     (Some total_size) t.(PendingArtifact_sender)]> s.(NodeState_pending_artifacts)) s
    | None => s
    end).

Definition handle_artifact_transfer_chunk (peer : NodeId) (chunk : ArtifactTransferChunk)
    : ntask unit :=
  let id := chunk.(ArtifactTransferChunk_request_id) in
  let total_size := chunk.(ArtifactTransferChunk_total_size) in
  if is_err (ArtifactTransferChunk_validate chunk) then
    corrupt peer "malformed or oversized artifact chunk rejected"
  else
    let! transfer := reading (fun _ s => s.(NodeState_pending_artifacts) !! id) in
    match transfer with
    | None => Done tt
    | Some transfer =>
        let artifact := transfer.(PendingArtifact_artifact) in
        if (transfer.(PendingArtifact_peer) != peer)
           || (artifact != chunk.(ArtifactTransferChunk_artifact))
        then Done tt
        else if (chunk.(ArtifactTransferChunk_offset) != transfer.(PendingArtifact_offset))
             || match transfer.(PendingArtifact_expected_size) with
                | Some size => size != total_size
                | None => false
                end
        then
          corrupt peer "provider changed artifact range or total size during resume" ;!
          let! transfer := take_transfer id in
          match transfer with
          | Some transfer =>
              ignore (storage (discard_partial_artifact artifact)) ;!
              send_artifact_result transfer.(PendingArtifact_sender)
                (Err (invalid_config "artifact transfer range or size changed during resume"))
          | None => Done tt
          end
        else
          let! next_offset := storage (write_partial_artifact store artifact total_size
              chunk.(ArtifactTransferChunk_offset) chunk.(ArtifactTransferChunk_data)) in
          match next_offset with
          | Err error =>
              corrupt peer "artifact chunk failed local integrity or quota checks" ;!
              finish_transfer id (Err error)
          | Ok next_offset =>
              if chunk.(ArtifactTransferChunk_final_chunk) then
                let! finalized := storage (finalize_partial_artifact store artifact total_size artifact) in
                match finalized with
                | Ok _ => finish_transfer id (Ok (mkArtifactReport artifact total_size true (Some peer)))
                | Err error =>
                    corrupt peer "final artifact hash or size verification failed" ;!
                    finish_transfer id (Err error)
                end
              else
                let! sent := send_to peer (Message_ArtifactTransferRequest
                    (transfer_request id artifact next_offset total_size)) in
                match sent with
                | Err error => finish_transfer id (Err error)
                | Ok _ => advance_transfer id next_offset total_size
                end
          end
    end.

(** ** Dispatch *)

(** What [handle_v3_message], [handle_v4_message] and [handle_v5_message] do; [WholeNode] has it. *)
Context (handle_training : NodeId -> Message -> ntask unit).

Definition handle_network_message (peer : NodeId) (message : Message) : ntask unit :=
  match message with
  | Message_Training _ | Message_TrainingV4 _ | Message_TrainingV5 _ => handle_training peer message
  | Message_JobRequest request => handle_remote_job config store peer request
  | Message_JobUpdate update =>
      handle_job_update security_to_allocvec config identity store peer update
  | Message_CancelJob cancel => handle_cancel peer cancel
  | Message_ArtifactRequest request => handle_artifact_request peer request
  | Message_ArtifactTransferRequest request => handle_artifact_transfer_request peer request
  | Message_ArtifactTransferChunk chunk => handle_artifact_transfer_chunk peer chunk
  | _ => Done tt
  end.

(** ** Entries of the pool

    What starts a task: an event of the network (a message has passed its validation, and the
    origin of a job request is the authenticated peer), and the commands of the operator. *)
Inductive node_entry `{Hex} : ntask unit -> Prop :=
  | entry_message peer message :
      Message_validate message = Ok tt ->
      (forall request, message = Message_JobRequest request -> request.(JobRequest_origin) = peer) ->
      node_entry (handle_network_message peer message)
  | entry_disconnected peer : node_entry (fail_pending_for_peer peer)
  | entry_submit request :
      request.(JobRequest_origin) = identity.(Identity_node_id) ->
      node_entry (ignore (submit_request config identity store request))
  | entry_submit_to peer request : node_entry (ignore (submit_remote_to_peer peer request))
  | entry_cancel job_id : node_entry (ignore (cancel_job job_id))
  | entry_fetch peer artifact : node_entry (ignore (fetch_artifact peer artifact)).
End Artifacts.
