(* ===== verification/NodeFacts.v ===== *)
(** * Invariants of a node's tasks

    What holds in every state a node reaches, whatever the interleaving of its tasks, the messages
    of its peers and the faults of its disk: the job history is keyed and bounded, a reply slot
    only ever holds a result for its own job whose hash is right, and every artifact on disk hashes
    to its name.  Along every run, a job id enters the history by a reservation at most once more
    than it was evicted, and each execution was paid for by a reservation. *)

From Stdlib Require Import String ZArith NArith Lia.
From stdpp Require Import base tactics sets strings numbers list gmap fin_maps.
From S2P Require Import Prelude OrdMap Types Validation Float32 FileSystem Storage StorageFacts Runtime Trust Security Facade Network NodeConfig Tasks TaskLogic NodeState NodeJobs NodeArtifacts.
Local Open Scope N_scope.
Local Open Scope rust_scope.

(** ** Effects about one job *)

Definition reserves (j : JobId) (e : NodeEffect) : bool :=
  match e with Did_Reserve id => id == j | _ => false end.

Definition evicts (j : JobId) (e : NodeEffect) : bool :=
  match e with Did_Evict id => id == j | _ => false end.

Definition executes (j : JobId) (e : NodeEffect) : bool :=
  match e with Did_Execute request _ => request.(JobRequest_job_id) == j | _ => false end.

Definition known (j : JobId) (s : NodeState) : bool := bool_decide (is_Some (s.(NodeState_jobs) !! j)).

(** Reservations never outrun evictions by more than one. *)
Definition history_step (s : NodeState) (out : list NodeEffect) (s' : NodeState) : Prop :=
  forall j, count (reserves j) out + b2N (known j s) <= count (evicts j) out + b2N (known j s').

Lemma history_step_refl s : history_step s [] s.
Proof. intros j. apply N.le_refl. Qed.

Lemma history_step_trans s out s' out' s'' :
  history_step s out s' -> history_step s' out' s'' -> history_step s (out ++ out') s''.
Proof. intros Hs Hs' j. specialize (Hs j). specialize (Hs' j). rewrite !count_app. lia. Qed.

(** A section that leaves the history alone. *)
Definition still (out : list NodeEffect) : Prop :=
  forall j, count (reserves j) out = 0 /\ count (evicts j) out = 0.

Lemma history_step_same s out s' :
  s'.(NodeState_jobs) = s.(NodeState_jobs) -> still out -> history_step s out s'.
Proof.
  intros Hs Ho j. destruct (Ho j) as [-> ->]. unfold known. rewrite Hs. lia.
Qed.

Section Facts.
Context `{Blake3} `{Ed25519} `{Ed25519Signer} `{EvidencePostcard} `{NodeText} `{JobPayloadJson}.
Context `{Json (StateFile PersistedJob)} `{Json (StateFile SignedEvidence)} `{Json SignedEvidence}.
Context `{Json (list N)}.
Context (security_to_allocvec : LocalSecurityState -> result (list N) str).
Context (config : NodeConfig) (identity : Identity) (store : LocalStore).

(** ** The invariant *)

(** A success comes with an output and its hash. *)
Definition genuine (r : JobResult) : Prop :=
  r.(JobResult_state) = JobState_Succeeded ->
  exists output, r.(JobResult_output) = Some output /\
    r.(JobResult_output_hash) = Some (ArtifactId_from_bytes_hashed output).

Record node_ok (s : NodeState) : Prop := {
  jobs_keyed : forall id job, s.(NodeState_jobs) !! id = Some job -> job.(PersistedJob_job_id) = id;
  jobs_bounded : N.of_nat (size s.(NodeState_jobs)) <= MAX_JOB_HISTORY;
  pending_keyed : forall id job, s.(NodeState_pending) !! id = Some job ->
    job.(PendingJob_job_id) = id /\ job.(PendingJob_sender).1 = id;
  replies_genuine : forall sender r, s.(NodeState_job_replies) !! sender = Some (Slot_Sent r) ->
    r.(JobResult_job_id) = sender.1 /\ genuine r;
  world_addressed : addressed s.(NodeState_world).(files)
}.

(** An update a worker may send, and a request it may execute. *)
Definition update_ok (update : JobUpdate) : Prop :=
  JobUpdate_state_matches update = true /\ update.(JobUpdate_sequence) <> 0 /\
  forall output hash evidence, update.(JobUpdate_update) = JobUpdateKind_Succeeded output hash evidence ->
    hash = ArtifactId_from_bytes_hashed output.

Definition execution_ok (request : JobRequest) (executor : ExecutorSpec) : Prop :=
  exists capability,
    capabilities config !! request.(JobRequest_capability) = Some capability /\
    CapabilityConfig_executor capability = Ok executor /\
    len request.(JobRequest_input) <= capability.(CapabilityConfig_max_input_bytes) /\
    request.(JobRequest_max_output_bytes) <= capability.(CapabilityConfig_max_output_bytes) /\
    (request.(JobRequest_origin) = identity.(Identity_node_id) \/
     remote_job_check config request = Ok capability).

Definition effect_ok (e : NodeEffect) : Prop :=
  match e with
  | Did_Send _ (Message_JobUpdate update) => update_ok update
  | Did_Execute request executor => execution_ok request executor
  | _ => True
  end.

Definition node_step (s : NodeState) (out : list NodeEffect) (s' : NodeState) : Prop :=
  Forall effect_ok out /\ history_step s out s'.

Lemma node_step_refl s : node_step s [] s.
Proof. split; [constructor | apply history_step_refl]. Qed.

Lemma node_step_trans s out s' out' s'' :
  node_step s out s' -> node_step s' out' s'' -> node_step s (out ++ out') s''.
Proof.
  intros [Ho Hs] [Ho' Hs']. split; [by apply Forall_app | by eapply history_step_trans].
Qed.

Lemma node_step_same s out s' :
  s'.(NodeState_jobs) = s.(NodeState_jobs) -> still out -> Forall effect_ok out -> node_step s out s'.
Proof. intros Hs Hst Ho. split; [done | by apply history_step_same]. Qed.

Notation ok t Q := (obeys node_ok node_step t Q).
Notation ok_any t := (obeys node_ok node_step t (fun _ => True)).

(** ** Storage *)

(** A program of the store that keeps the artifacts addressed. *)
Definition keeps_addressed {A} (p : Prog A) : Prop :=
  forall w, addressed w.(files) -> always addressed (fun _ w' => addressed w'.(files)) p w.

Lemma node_ok_world s w : node_ok s -> addressed w.(files) -> node_ok (set_NodeState_world w s).
Proof. intros [] Hw. by constructor. Qed.

Lemma run_addressed {A} (p : Prog A) faults w w' a :
  keeps_addressed p -> addressed w.(files) -> run faults p w = (w', a) -> addressed w'.(files).
Proof.
  intros Hp Hw Hr. pose proof (always_sound _ _ p w faults (Hp w Hw)) as [Ha _]. by rewrite Hr in Ha.
Qed.

Lemma run_store_ok {A} e (p : Prog (result A StorageError)) s r s' :
  keeps_addressed p -> node_ok s -> run_store e p s = Some (r, s') ->
  node_ok s' /\ exists w, s' = set_NodeState_world w s.
Proof.
  intros Hp Hs. unfold run_store. destruct (run _ p _) as [w [x|]] eqn:Hr; [|done]. intros [= <- <-].
  split; [|by exists w]. apply node_ok_world; [done|].
  eapply run_addressed; [done| |exact Hr]. by destruct Hs.
Qed.

Lemma spares_keep {A} (p : Prog A) : calls_only spares_artifacts p -> keeps_addressed p.
Proof. intros Hp w Hw. by apply addressed_spares. Qed.

Lemma save_jobs_keeps values : keeps_addressed (save_jobs store values).
Proof.
  apply spares_keep. unfold save_jobs, save_items, try_bind.
  destruct (check_items _ _); [apply write_json_spares | done].
Qed.

(** ** The history *)
Lemma oldest_terminal_in jobs remove :
  (forall id job, jobs !! id = Some job -> job.(PersistedJob_job_id) = id) ->
  oldest_terminal jobs = Some remove ->
  exists job, jobs !! remove = Some job /\ JobState_terminal job.(PersistedJob_state) = true.
Proof.
  intros Hk. unfold oldest_terminal. intros (job & [Hin _]%min_by_key_Some & ->)%fmap_Some.
  apply list_elem_of_In, List.filter_In in Hin as [Hin Ht]. exists job. split; [|done].
  apply list_elem_of_In in Hin. unfold job_values in Hin.
  apply list_elem_of_fmap_1 in Hin as ([id job'] & -> & Hj%elem_of_map_to_list).
  cbn. by rewrite (Hk id job' Hj).
Qed.

Lemma node_ok_jobs s jobs :
  node_ok s -> (forall id job, jobs !! id = Some job -> job.(PersistedJob_job_id) = id) ->
  N.of_nat (size jobs) <= MAX_JOB_HISTORY -> node_ok (set_NodeState_jobs jobs s).
Proof. intros [] Hk Hb. by constructor. Qed.

Lemma keyed_insert (jobs : gmap JobId PersistedJob) job :
  (forall id job, jobs !! id = Some job -> job.(PersistedJob_job_id) = id) ->
  forall id job', <[job.(PersistedJob_job_id) := job]> jobs !! id = Some job' ->
    job'.(PersistedJob_job_id) = id.
Proof.
  intros Hk id job'. rewrite lookup_insert_Some. intros [[<- <-]|[_ Hj]]; [done | by apply Hk].
Qed.

Lemma keyed_delete (jobs : gmap JobId PersistedJob) remove :
  (forall id job, jobs !! id = Some job -> job.(PersistedJob_job_id) = id) ->
  forall id job', delete remove jobs !! id = Some job' -> job'.(PersistedJob_job_id) = id.
Proof. intros Hk id job'. rewrite lookup_delete_Some. intros [_ Hj]. by apply Hk. Qed.

Lemma known_insert j id job jobs s :
  known j (set_NodeState_jobs (<[id := job]> jobs) s) =
  bool_decide (id = j) || bool_decide (is_Some (jobs !! j)).
Proof.
  unfold known. cbn. destruct (decide (id = j)) as [->|Hne].
  - rewrite lookup_insert_eq, (bool_decide_true (j = j)) by done. by apply bool_decide_true.
  - rewrite lookup_insert_ne by done. by rewrite (bool_decide_false (id = j)).
Qed.

Lemma known_delete j remove (jobs : gmap JobId PersistedJob) :
  bool_decide (is_Some (delete remove jobs !! j)) =
  negb (bool_decide (remove = j)) && bool_decide (is_Some (jobs !! j)).
Proof.
  destruct (decide (remove = j)) as [->|Hne].
  - rewrite lookup_delete_eq, (bool_decide_true (j = j)) by done. by apply bool_decide_false, is_Some_None.
  - rewrite lookup_delete_ne by done. by rewrite (bool_decide_false (remove = j)).
Qed.

Lemma size_make_room (jobs : gmap JobId PersistedJob) remove id job job' :
  jobs !! remove = Some job -> jobs !! id = None ->
  N.of_nat (size jobs) <= MAX_JOB_HISTORY ->
  N.of_nat (size (<[id := job']> (delete remove jobs))) <= MAX_JOB_HISTORY.
Proof.
  intros Hr Hn Hb. rewrite map_size_insert_None by (by rewrite lookup_delete_None; right).
  rewrite map_size_delete_Some by (by eexists).
  assert (size jobs <> 0%nat); [|lia]. intros Hz. apply map_size_empty_iff in Hz. by rewrite Hz, lookup_empty in Hr.
Qed.

Lemma insert_job_ok job s :
  node_ok s ->
  let '(r, s', out) := insert_job job s in node_ok s' /\ node_step s out s' /\ True.
Proof.
  intros Hs. pose proof Hs as [Hk Hb _ _ _]. unfold insert_job.
  destruct (_ !! PersistedJob_job_id job) as [old|] eqn:Hold.
  - split_and!; [|split; [constructor|]|done].
    + apply node_ok_jobs; [done | by apply keyed_insert |]. by rewrite map_size_insert_Some by (by eexists).
    + intros j. rewrite known_insert. change (count _ []) with 0. unfold known.
      destruct (bool_decide (_ = j)), (bool_decide (is_Some _)); cbn; lia.
  - destruct (_ <=? _) eqn:Hfull; breflect.
    + destruct (oldest_terminal _) as [remove|] eqn:Hrem; [|by split_and!; [|apply node_step_refl|]].
      destruct (oldest_terminal_in _ _ Hk Hrem) as (old & Hr & _).
      split_and!; [|split; [by repeat constructor|]|done].
      * apply node_ok_jobs; [done | by apply keyed_insert, keyed_delete | by eapply size_make_room].
      * intros j. rewrite known_insert, known_delete. change (count (reserves j) _) with 0.
        rewrite count_cons. change (count (evicts j) []) with 0. cbn [evicts]. unfold known.
        destruct (bool_decide_reflect (PersistedJob_job_id job = j)), (bool_decide_reflect (remove = j)),
          (bool_decide (is_Some (NodeState_jobs s !! j))); cbn; lia.
    + split_and!; [|split; [constructor|]|done].
      * apply node_ok_jobs; [done | by apply keyed_insert |]. rewrite map_size_insert_None by done. lia.
      * intros j. rewrite known_insert. change (count _ []) with 0. unfold known.
        destruct (bool_decide (_ = j)), (bool_decide (is_Some _)); cbn; lia.
Qed.

(** The room [reserve_remote_job] makes: the job given up and what is left. *)
Definition room_ok (jobs : gmap JobId PersistedJob) (evicted : option PersistedJob)
    (rest : gmap JobId PersistedJob) : Prop :=
  match evicted with
  | Some job => jobs !! job.(PersistedJob_job_id) = Some job /\
                rest = delete job.(PersistedJob_job_id) jobs
  | None => rest = jobs /\ N.of_nat (size jobs) < MAX_JOB_HISTORY
  end.

Lemma room_size jobs evicted rest id job :
  room_ok jobs evicted rest -> jobs !! id = None -> N.of_nat (size jobs) <= MAX_JOB_HISTORY ->
  rest !! id = None /\ N.of_nat (size (<[id := job]> rest)) <= MAX_JOB_HISTORY.
Proof.
  intros Hr Hn Hb. destruct evicted as [old|]; cbn in Hr.
  - destruct Hr as [Ho ->]. split; [rewrite lookup_delete_None; by right|]. by eapply size_make_room.
  - destruct Hr as [-> Hlt]. split; [done|]. rewrite map_size_insert_None by done. lia.
Qed.

Lemma room_undo jobs evicted rest id job :
  room_ok jobs evicted rest -> jobs !! id = None ->
  match evicted with
  | Some old => <[old.(PersistedJob_job_id) := old]> (delete id (<[id := job]> rest))
  | None => delete id (<[id := job]> rest)
  end = jobs.
Proof.
  intros Hr Hn. rewrite delete_insert_eq. destruct evicted as [old|]; cbn in Hr.
  - destruct Hr as [Ho ->].
    rewrite (delete_id (delete _ jobs)) by (rewrite lookup_delete_None; by right).
    by apply insert_delete_id.
  - destruct Hr as [-> _]. by apply delete_id.
Qed.

Lemma room_keyed jobs evicted rest :
  room_ok jobs evicted rest ->
  (forall id job, jobs !! id = Some job -> job.(PersistedJob_job_id) = id) ->
  forall id job, rest !! id = Some job -> job.(PersistedJob_job_id) = id.
Proof.
  intros Hr Hk. destruct evicted as [old|]; cbn in Hr; [|by destruct Hr as [-> _]].
  destruct Hr as [_ ->]. by apply keyed_delete.
Qed.

Lemma room_history jobs evicted rest id job s s0 :
  room_ok jobs evicted rest -> jobs !! id = None -> s0.(NodeState_jobs) = jobs ->
  history_step s0
    (match evicted with Some old => [Did_Evict old.(PersistedJob_job_id)] | None => [] end
     ++ [Did_Reserve id]) (set_NodeState_jobs (<[id := job]> rest) s).
Proof.
  intros Hr Hn Hs j. rewrite !count_app, known_insert. unfold known. rewrite Hs.
  assert (Hid : id = j -> bool_decide (is_Some (jobs !! j)) = false).
  { intros <-. rewrite Hn. by apply bool_decide_false, is_Some_None. }
  destruct evicted as [old|]; cbn in Hr.
  - destruct Hr as [Ho ->]. rewrite known_delete, !count_cons. cbn [reserves evicts].
    repeat change (count _ []) with 0.
    destruct (bool_decide_reflect (id = j)) as [Hij|]; [rewrite (Hid Hij)|];
      destruct (bool_decide_reflect (PersistedJob_job_id old = j)),
        (bool_decide (is_Some (jobs !! j))); cbn; lia.
  - destruct Hr as [-> _]. rewrite !count_cons. cbn [reserves evicts]. repeat change (count _ []) with 0.
    destruct (bool_decide_reflect (id = j)) as [Hij|]; [rewrite (Hid Hij)|];
      destruct (bool_decide (is_Some (jobs !! j))); cbn; lia.
Qed.

Lemma reserve_section_ok peer request e s r s' out :
  node_ok s -> reserve_section store peer request e s = Some (r, s', out) ->
  node_ok s' /\ node_step s out s' /\ True.
Proof.
  intros Hs. pose proof Hs as [Hk Hb _ _ _]. unfold reserve_section.
  destruct (_ !! JobRequest_job_id request) as [old|] eqn:Hold.
  { intros [= <- <- <-]. split_and!; [done | apply node_step_refl | done]. }
  set (room := if _ <=? _ then _ else _).
  assert (Hroom : match room with
                  | Ok (evicted, rest) => room_ok s.(NodeState_jobs) evicted rest
                  | Err _ => True end).
  { unfold room. destruct (_ <=? _) eqn:Hfull; breflect; [|done].
    destruct (oldest_terminal _) as [remove|] eqn:Hrem; [|done].
    destruct (oldest_terminal_in _ _ Hk Hrem) as (job & Hj & _). rewrite Hj. cbn.
    by rewrite (Hk _ _ Hj). }
  destruct room as [[evicted rest]|error]; cycle 1.
  { intros [= <- <- <-]. split_and!; [done | apply node_step_refl | done]. }
  destruct (run_store _ _ _) as [[[u|error] s1]|] eqn:Hrun; [| |done];
    pose proof (save_jobs_keeps (job_values (<[JobRequest_job_id request := job_entry request
      JobState_Validated e.(ne_now) None None None]> rest))) as Hsave;
    destruct (run_store_ok _ _ _ _ _ Hsave Hs Hrun) as [Hok (w & ->)]; intros [= <- <- <-].
  - destruct (room_size _ _ _ _ (job_entry request JobState_Validated e.(ne_now) None None None)
                Hroom Hold Hb) as [Hnone Hsize].
    split_and!; [|split|done].
    + apply node_ok_jobs; [done| |done].
      apply (keyed_insert rest (job_entry request JobState_Validated e.(ne_now) None None None)).
      by eapply room_keyed.
    + apply Forall_app. split; [by destruct evicted; repeat constructor | by repeat constructor].
    + by eapply room_history.
  - rewrite (room_undo _ _ _ _ _ Hroom Hold).
    split_and!; [apply node_ok_jobs; done | by apply node_step_same | done].
Qed.

(** ** Sections *)

Create HintDb node discriminated.

Lemma ok_read {A} (f : NodeEnv -> NodeState -> A) : ok_any (reading f).
Proof. apply obeys_reading; [apply node_step_refl | done]. Qed.

Lemma ok_send peer message :
  effect_ok (Did_Send peer message) -> ok_any (send_to peer message).
Proof.
  intros He. apply obeys_step. intros e s a s' out Hs. destruct (ne_full e); [done|].
  destruct (ne_send e); intros [= <- <- <-].
  - split_and!; [done | apply node_step_refl | done].
  - split_and!; [done | apply node_step_same; [done | by intros j | by constructor] | done].
Qed.

(** A section whose only trace is an effect that is neither about the history nor checked. *)
Lemma node_emit_ok {A} (f : NodeEnv -> NodeState -> A) effect :
  effect_ok effect -> still [effect] ->
  ok_any (atomic (fun e s => (f e s, s, [effect]))).
Proof.
  intros He Hst. apply obeys_atomic. intros e s Hs.
  split_and!; [done | apply node_step_same; [done..|by constructor] | done].
Qed.

Lemma ok_storage {A} (p : Prog (result A StorageError)) : keeps_addressed p -> ok_any (storage p).
Proof.
  intros Hp. apply obeys_step. intros e s a s' out Hs.
  destruct (run_store e p s) as [[r s1]|] eqn:Hr; [|done]. intros [= <- <- <-].
  destruct (run_store_ok e p s r s1 Hp Hs Hr) as [Hok [w ->]].
  split_and!; [done | by apply node_step_same | done].
Qed.

Lemma ok_query {A} (p : Prog A) : keeps_addressed p -> ok_any (store_query p).
Proof.
  intros Hp. apply obeys_step. intros e s a s' out Hs.
  destruct (run _ p _) as [w [r|]] eqn:Hr; [|done]. intros [= <- <- <-].
  split_and!; [|by apply node_step_same|done].
  apply node_ok_world; [done|]. eapply run_addressed; [done| |exact Hr]. by destruct Hs.
Qed.

(** A section that changes a part of the state the invariant does not mention. *)
Lemma ok_update (f : NodeEnv -> NodeState -> NodeState) :
  (forall e s, (f e s).(NodeState_jobs) = s.(NodeState_jobs) /\
               (f e s).(NodeState_pending) = s.(NodeState_pending) /\
               (f e s).(NodeState_job_replies) = s.(NodeState_job_replies) /\
               (f e s).(NodeState_world) = s.(NodeState_world)) ->
  ok_any (updating f).
Proof.
  intros Hf. apply obeys_updating. intros e s [Hk Hb Hp Hr Hw].
  destruct (Hf e s) as (Hj & Hpe & Hre & Hwo). split.
  - constructor; rewrite ?Hj, ?Hpe, ?Hre, ?Hwo; done.
  - by apply node_step_same.
Qed.

Lemma ok_reserve peer request : ok_any (reserve_remote_job store peer request).
Proof. apply obeys_step. intros e s a s' out Hs Hr. by eapply reserve_section_ok. Qed.

Lemma ok_record job : ok_any (record_job store job).
Proof.
  unfold record_job. apply (obeys_try _ _ _ _ (fun _ => True)); [|done|].
  - eapply obeys_mono; [apply obeys_atomic; intros e s Hs; exact (insert_job_ok job s Hs)|].
    by intros r _ a _.
  - intros values _. apply ok_storage, save_jobs_keeps.
Qed.

Lemma ok_record_state request state error : ok_any (record_state store request state error).
Proof. apply obeys_then; [apply ok_read | intros now; apply ok_record]. Qed.

Lemma keeps_write_json {T} `{Json T} name (v : T) : keeps_addressed (write_json store name v).
Proof. apply spares_keep, write_json_spares. Qed.

Lemma ok_persist : ok_any (persist_security_state security_to_allocvec store).
Proof.
  apply obeys_then; [apply ok_read|]. intros state. destruct (security_to_allocvec state); [|done].
  eapply obeys_ignore, ok_storage, keeps_write_json.
Qed.

Lemma ok_note subject kind scope detail :
  ok_any (note_security_event security_to_allocvec store subject kind scope detail).
Proof. apply obeys_then; [by apply ok_update | intros _; apply ok_persist]. Qed.

Lemma save_evidence_keeps entries : keeps_addressed (save_evidence store entries).
Proof.
  apply spares_keep. unfold save_evidence, save_items, try_bind.
  destruct (check_items _ _); [apply write_json_spares | done].
Qed.

Lemma node_ok_trust s graph : node_ok s -> node_ok (set_NodeState_trust graph s).
Proof. intros []. by constructor. Qed.

Lemma ok_evidence subject kind payload :
  ok_any (record_signed_evidence config identity store subject kind payload).
Proof.
  unfold record_signed_evidence. destruct (bool_decide _); [done|].
  apply obeys_then; [apply ok_read|]. intros now.
  apply obeys_then.
  { apply obeys_atomic. intros e s []. split_and!; [by constructor | by apply node_step_same | done]. }
  intros sequence. destruct (evidence_signing_bytes _); [|done].
  apply obeys_then.
  { destruct (to_vec _); [|done]. apply (node_emit_ok (fun _ _ => tt)); [done | by intros j]. }
  intros _. apply obeys_step. intros e s x s' out Hs.
  destruct (EvidenceGraph_insert _ _ _) as [[[]|error] graph].
  - destruct (run_store _ _ _) as [[r s1]|] eqn:Hr; [|done]. intros [= <- <- <-].
    destruct (run_store_ok _ _ _ _ _ (save_evidence_keeps _) Hs Hr) as [Hok [w ->]].
    split_and!; [by apply node_ok_trust | by apply node_step_same | done].
  - intros [= <- <- <-]. split_and!; [by apply node_ok_trust | by apply node_step_same | done].
  - intros [= <- <- <-]. split_and!; [by apply node_ok_trust | by apply node_step_same | done].
Qed.

(** ** Replies *)

Definition result_for (job : JobId) (r : JobResult) : Prop :=
  r.(JobResult_job_id) = job /\ genuine r.

Lemma node_ok_on_reply f sender s :
  (forall slot r, f slot = Slot_Sent r -> slot = Slot_Sent r \/ result_for sender.1 r) ->
  node_ok s -> node_ok (on_job_reply f sender s).
Proof.
  intros Hf [Hk Hb Hp Hr Hw]. constructor; try done. cbn. intros h r.
  rewrite lookup_alter_Some. intros [(<- & slot & Hs & Heq)|[_ Hs]]; [|by apply Hr].
  destruct (Hf slot r (eq_sym Heq)) as [->|[]]; [by apply Hr | done].
Qed.

Lemma node_ok_drop sender s : node_ok s -> node_ok (on_job_reply slot_drop sender s).
Proof. apply node_ok_on_reply. intros [] r; cbn; try done. intros ->. by left. Qed.

Lemma node_ok_deliver sender r s :
  result_for sender.1 r -> node_ok s -> node_ok (on_job_reply (slot_send r) sender s).
Proof.
  intros Hr. apply node_ok_on_reply. intros [] r'; cbn; [|intros ->; by left|done].
  intros [= <-]. by right.
Qed.

Lemma node_ok_pending s pending :
  (forall id job, pending !! id = Some job -> job.(PendingJob_job_id) = id /\ job.(PendingJob_sender).1 = id) ->
  node_ok s -> node_ok (set_NodeState_pending pending s).
Proof. intros Hp []. by constructor. Qed.

Lemma node_ok_delete_pending s id : node_ok s -> node_ok (set_NodeState_pending (delete id s.(NodeState_pending)) s).
Proof.
  intros Hs. apply node_ok_pending; [|done]. intros id' job. rewrite lookup_delete_Some.
  intros [_ Hj]. by apply (pending_keyed s Hs).
Qed.

Lemma ok_send_result sender r :
  result_for sender.1 r -> ok_any (send_job_result sender r).
Proof.
  intros Hr. apply obeys_updating. intros e s Hs.
  split; [by apply node_ok_deliver | by apply node_step_same].
Qed.

Lemma ok_await_reply peer request :
  ok (await_reply peer request) (fun sender => sender.1 = request.(JobRequest_job_id)).
Proof.
  apply obeys_atomic. intros e s Hs. cbn.
  assert (Hnew : node_ok (new_job_reply (JobRequest_job_id request) s).2).
  { destruct Hs as [Hk Hb Hp Hr Hw]. constructor; try done. cbn. intros h r.
    rewrite lookup_insert_Some. intros [[_ [=]]|[_ Hh]]. by apply Hr. }
  split_and!; [|by apply node_step_same; [unfold insert_pending; dmatch|..]|done].
  unfold insert_pending. cbn [PendingJob_job_id PendingJob_sender].
  set (s1 := (new_job_reply _ s).2) in Hnew. change (set_NodeState_next_reply _ _) with s1.
  assert (Hs2 : node_ok (match s1.(NodeState_pending) !! JobRequest_job_id request with
    | Some old => on_job_reply slot_drop (PendingJob_sender old) s1 | None => s1 end)).
  { destruct (_ !! _); [by apply node_ok_drop | done]. }
  apply node_ok_pending; [|done]. intros id job. rewrite lookup_insert_Some.
  intros [[<- <-]|[_ Hj]]; [done | by apply (pending_keyed _ Hs2)].
Qed.

Lemma ok_drop_pending id : ok_any (drop_pending id).
Proof.
  apply obeys_updating. intros e s Hs. destruct (_ !! id) as [old|] eqn:Hold.
  - split; [by apply node_ok_drop, node_ok_delete_pending | by apply node_step_same].
  - split; [done | apply node_step_refl].
Qed.

Lemma ok_receive sender :
  ok (receive_job sender) (fun r => forall value, r = Received_Value value -> result_for sender.1 value).
Proof.
  apply obeys_step. intros e s a s' out Hs. unfold receive_slot.
  destruct (_ !! sender) as [[|r|]|] eqn:Hr.
  1,4: destruct (ne_elapsed e); [|done].
  all: intros [= <- <- <-]; split_and!; [done | apply node_step_refl |]; intros value; try done.
  intros [= <-]. by apply (replies_genuine s Hs sender).
Qed.

Lemma ok_receive_artifact sender : ok_any (receive_artifact sender).
Proof.
  apply obeys_step. intros e s a s' out Hs. destruct (receive_slot _ _); [|done]. intros [= <- <- <-].
  split_and!; [done | apply node_step_refl | done].
Qed.

(** What a validated update stands for is genuine. *)
Lemma update_result_genuine update success hash r :
  JobUpdate_state_matches update = true -> update_result update = (success, hash, r) ->
  result_for update.(JobUpdate_job_id) r.
Proof.
  unfold JobUpdate_state_matches, update_result, result_for, genuine.
  destruct (JobUpdate_update update); intros Hm; breflect;
    repeat match goal with |- context [bool_decide (?a = ?b)] => destruct (bool_decide_reflect (a = b)) end;
    intros [= <- <- <-]; (split; [done|]); cbn; intros Hst; try done; try congruence.
  eexists. split; [done|]. by f_equal.
Qed.

Lemma ok_take_update peer update :
  ok (atomic (fun (_ : NodeEnv) s => (take_update peer update s, [])))
    (fun job => forall j, job = Some j -> j.(PendingJob_sender).1 = update.(JobUpdate_job_id)).
Proof.
  apply obeys_atomic. intros e s Hs. unfold take_update.
  destruct (_ !! _) as [job|] eqn:Hjob; [|split_and!; [done | apply node_step_refl | done]].
  destruct (pending_keyed s Hs _ _ Hjob) as [Hid Hsender].
  destruct (_ || _); [split_and!; [done | apply node_step_refl | done]|].
  destruct (negb _).
  - destruct (valid_chunk update); [|split_and!; [done | apply node_step_refl | done]].
    split_and!; [|by apply node_step_same|done]. apply node_ok_pending; [|done].
    intros id j. rewrite lookup_insert_Some. intros [[<- <-]|[_ Hj]]; [done | by apply (pending_keyed s Hs)].
  - split_and!; [by apply node_ok_delete_pending | by apply node_step_same |]. by intros j [= <-].
Qed.

Lemma ok_job_update peer update :
  JobUpdate_state_matches update = true ->
  ok_any (handle_job_update security_to_allocvec config identity store peer update).
Proof.
  intros Hm. eapply obeys_tbind; [apply ok_take_update|]. intros [job|] Hsender; [|done].
  destruct (update_result update) as [[success hash] r] eqn:Hr.
  apply obeys_then; [by apply ok_update|]. intros _. apply obeys_then; [by apply ok_update|]. intros _.
  apply obeys_then; [apply ok_persist|]. intros _. apply obeys_then; [apply ok_evidence|]. intros _.
  apply ok_send_result. rewrite (Hsender job eq_refl). by eapply update_result_genuine.
Qed.

(** *** Loss of a peer *)
Lemma node_ok_deliver_all (lost : list (JobId * PendingJob)) s :
  Forall (fun p => result_for p.2.(PendingJob_sender).1 (disconnected_result p.2)) lost ->
  node_ok s ->
  node_ok (fold_left (fun s p => on_job_reply (slot_send (disconnected_result p.2))
                                   p.2.(PendingJob_sender) s) lost s).
Proof.
  intros Hl. revert s. induction Hl as [|p lost Hp Hl IH]; intros s Hs; [done|].
  cbn [fold_left]. by apply IH, node_ok_deliver.
Qed.

Lemma deliver_all_jobs (lost : list (JobId * PendingJob)) s :
  (fold_left (fun s p => on_job_reply (slot_send (disconnected_result p.2))
                           p.2.(PendingJob_sender) s) lost s).(NodeState_jobs) = s.(NodeState_jobs).
Proof. revert s. induction lost as [|p lost IH]; intros s; [done|]. cbn [fold_left]. by rewrite IH. Qed.

Lemma node_ok_fail_jobs peer s : node_ok s -> node_ok (fail_jobs peer s).
Proof.
  intros Hs. unfold fail_jobs. apply node_ok_deliver_all.
  - apply List.Forall_forall. intros [id p] Hin. apply List.filter_In in Hin as [Hin _].
    apply list_elem_of_In, elem_of_map_to_list in Hin.
    destruct (pending_keyed s Hs id p Hin) as [Hid Hse]. cbn. rewrite Hse, <- Hid. split; [done|].
    by intros [=].
  - apply node_ok_pending; [|done]. generalize (List.filter (fun p : JobId * PendingJob =>
      PendingJob_peer p.2 == peer) (map_to_list (NodeState_pending s))) as lost.
    pose proof (pending_keyed s Hs) as Hp. revert Hp. generalize (NodeState_pending s) as m.
    intros m Hm lost. revert m Hm. induction lost as [|p lost IH]; intros m Hm; [done|].
    cbn [fold_left]. apply IH. intros id job. rewrite lookup_delete_Some. intros [_ Hj]. by apply Hm.
Qed.

Lemma deliver_artifacts_keeps r (lost : list (RequestId * PendingArtifact)) s :
  let s' := fold_left (fun s p => on_artifact_reply (slot_send r) p.2.(PendingArtifact_sender) s) lost s in
  (node_ok s -> node_ok s') /\ s'.(NodeState_jobs) = s.(NodeState_jobs).
Proof.
  revert s. induction lost as [|p lost IH]; intros s; [done|]. cbn [fold_left].
  destruct (IH (on_artifact_reply (slot_send r) p.2.(PendingArtifact_sender) s)) as [Hok Hj].
  split; [|by rewrite Hj]. intros []. by apply Hok; constructor.
Qed.

Lemma fail_transfers_keeps peer s :
  (node_ok s -> node_ok (fail_transfers peer s)) /\
  (fail_transfers peer s).(NodeState_jobs) = s.(NodeState_jobs).
Proof.
  unfold fail_transfers.
  match goal with |- context [fold_left _ ?lost ?s1] =>
    destruct (deliver_artifacts_keeps (Err (NodeError_Network NetworkError_NotConnected)) lost s1)
      as [Hok Hj] end.
  split; [|by rewrite Hj]. intros []. by apply Hok; constructor.
Qed.

Lemma ok_fail_pending peer : ok_any (fail_pending_for_peer peer).
Proof.
  apply obeys_updating. intros e s Hs.
  destruct (fail_transfers_keeps peer (fail_jobs peer s)) as [Hok Hj].
  split; [by apply Hok, node_ok_fail_jobs|]. apply node_step_same; [|done|constructor].
  rewrite Hj. unfold fail_jobs. by rewrite deliver_all_jobs.
Qed.

(** ** Jobs for peers *)
Lemma ok_send_update peer update : update_ok update -> ok_any (send_update peer update).
Proof. intros Hu. by apply ok_send. Qed.

(** An update that carries no result. *)
Lemma ok_send_plain peer update :
  JobUpdate_state_matches update = true -> update.(JobUpdate_sequence) <> 0 ->
  match update.(JobUpdate_update) with JobUpdateKind_Succeeded _ _ _ => False | _ => True end ->
  ok_any (send_update peer update).
Proof.
  intros Hm Hs Hk. apply ok_send_update. split_and!; [done..|]. intros output hash evidence Heq.
  by rewrite Heq in Hk.
Qed.

Lemma ok_cancel_runtime job : ok_any (runtime_cancel job).
Proof. apply node_emit_ok; [done | by intros j]. Qed.

Lemma ok_rejection peer job code message : ok_any (send_rejection peer job code message).
Proof. apply obeys_then; [by apply ok_update|]. intros _. by apply ok_send_plain. Qed.

Lemma ok_resend peer job : ok_any (resend_terminal peer job).
Proof.
  apply obeys_then; [apply ok_read|]. intros [entry|]; [|done].
  destruct (terminal_update entry) as [state update] eqn:Ht. apply ok_send_update.
  unfold terminal_update in Ht. destruct (PersistedJob_state entry) eqn:Hstate;
    repeat dmatch_in Ht; injection Ht as <- <-; split_and!; try done; breflect;
    intros output hash evidence; [intros [= <- <- <-] | ..]; try done.
Qed.

Lemma sat_add_pos a : sat_add u32_max a 1 <> 0.
Proof. unfold sat_add, u32_max. lia. Qed.

Lemma ok_send_outcome peer request execution outcome sequence :
  execution_outcome execution = Ok outcome ->
  ok_any (send_outcome store peer request outcome sequence).
Proof.
  intros Ho. apply obeys_then; [apply ok_read|]. intros now.
  apply (obeys_try _ _ _ _ (fun _ => True)); [|done|].
  { eapply obeys_mono; [apply ok_record|]. done. }
  intros _ _. destruct (outcome_update outcome) as [state update] eqn:Hu. apply ok_send_update.
  destruct execution; cbn in Ho; try discriminate Ho; injection Ho as <-; injection Hu as <- <-;
    split_and!; try done; try apply sat_add_pos. by intros output' hash evidence [= <- <- <-].
Qed.

Lemma ok_send_chunks peer job sequence chunks : ok_any (send_chunks peer job sequence chunks).
Proof.
  revert sequence. induction chunks as [|data chunks IH]; intros sequence; [done|]. cbn [send_chunks].
  apply obeys_then; [|intros _; apply IH]. eapply obeys_ignore, ok_send_plain; [done | apply sat_add_pos | done].
Qed.

Lemma ok_fail_job peer request sequence code message :
  ok_any (fail_job store peer request sequence code message).
Proof.
  apply obeys_then; [eapply obeys_ignore, ok_record_state|]. intros _.
  eapply obeys_ignore, ok_send_plain; [done | apply sat_add_pos | done].
Qed.

(** The end of an execution is one the runtime gives. *)
Lemma ok_await_execution :
  ok await_execution (fun r => exists execution, execution_outcome execution = r).
Proof. apply obeys_reading; [apply node_step_refl|]. intros e s _. by eexists. Qed.

Lemma ok_start_execution request executor :
  execution_ok request executor -> ok_any (start_execution request executor).
Proof. intros He. apply (node_emit_ok (fun _ _ => tt)); [done | by intros j]. Qed.

Lemma ok_run_remote_job peer request executor :
  execution_ok request executor -> ok_any (run_remote_job store peer request executor).
Proof.
  intros He. apply obeys_then; [apply ok_record_state|]. intros [u|error]; cycle 1.
  { eapply obeys_ignore, ok_cancel_runtime. }
  apply obeys_then; [by apply ok_send_plain|]. intros [u'|error]; cycle 1.
  { apply obeys_then; [eapply obeys_ignore, ok_cancel_runtime|]. intros _.
    eapply obeys_ignore, ok_record_state. }
  apply obeys_then; [by apply ok_start_execution|]. intros _.
  apply obeys_then; [apply ok_read|]. intros chunks.
  apply obeys_then; [apply ok_send_chunks|]. intros sequence.
  eapply obeys_tbind; [apply ok_await_execution|]. intros [outcome|error] [execution Hex].
  - apply obeys_then; [by eapply ok_send_outcome|]. intros [u''|error]; [done | apply ok_fail_job].
  - apply obeys_then; [by apply ok_update|]. intros _. apply ok_fail_job.
Qed.

Lemma ok_accept peer request executor :
  execution_ok request executor -> ok_any (accept_remote_job store peer request executor).
Proof.
  intros He. apply obeys_then; [apply ok_read|]. intros [u|error]; cycle 1.
  { apply obeys_then; [eapply obeys_ignore, ok_record_state|]. intros _.
    eapply obeys_ignore, ok_rejection. }
  apply obeys_then; [apply ok_record_state|]. intros [u'|error]; cycle 1.
  { apply obeys_then; [apply (node_emit_ok (fun _ _ => tt)); [done | by intros j]|]. intros _.
    eapply obeys_ignore, ok_rejection. }
  apply obeys_then; [by apply ok_send_plain|]. intros [u''|error].
  - by apply obeys_spawn, ok_run_remote_job.
  - apply obeys_then; [eapply obeys_ignore, ok_cancel_runtime|]. intros _.
    eapply obeys_ignore, ok_record_state.
Qed.

Lemma remote_check_limits request capability :
  remote_job_check config request = Ok capability ->
  capabilities config !! request.(JobRequest_capability) = Some capability /\
  len request.(JobRequest_input) <= capability.(CapabilityConfig_max_input_bytes) /\
  request.(JobRequest_max_output_bytes) <= capability.(CapabilityConfig_max_output_bytes).
Proof.
  unfold remote_job_check. destruct (_ !! _) as [c|]; [|done].
  destruct (_ && _); [done|]. destruct (_ || _); [done|].
  destruct (JobRequest_validate request); [|done].
  destruct (_ || _) eqn:Hl; [done|]. intros [= <-]. breflect. done.
Qed.

Lemma ok_remote_job peer request : ok_any (handle_remote_job config store peer request).
Proof.
  unfold handle_remote_job. destruct (remote_job_check config request) as [capability|[code message]] eqn:Hc;
    cycle 1.
  { eapply obeys_ignore, ok_rejection. }
  destruct (remote_check_limits _ _ Hc) as (Hcap & Hin & Hout).
  destruct (CapabilityConfig_executor capability) as [executor|error] eqn:Hex; cycle 1.
  { apply obeys_then; [eapply obeys_ignore, ok_record_state|]. intros _. eapply obeys_ignore, ok_rejection. }
  apply obeys_then; [apply ok_reserve|]. intros [[]|error].
  - apply ok_accept. exists capability. split_and!; try done. by right.
  - eapply obeys_ignore, ok_resend.
  - done.
  - eapply obeys_ignore, ok_rejection.
  - eapply obeys_ignore, ok_rejection.
Qed.

(** ** Jobs of the operator and jobs sent to peers *)

Definition good_result (request : JobRequest) (r : result JobResult NodeError) : Prop :=
  forall value, r = Ok value -> result_for request.(JobRequest_job_id) value.

Lemma ok_outcome_to_result request execution outcome evidence :
  execution_outcome execution = Ok outcome ->
  ok (outcome_to_result store request outcome evidence) (good_result request).
Proof.
  intros Ho. apply obeys_then; [apply ok_read|]. intros now.
  apply (obeys_try _ _ _ _ (fun _ => True)); [eapply obeys_mono; [apply ok_record|done]|done|].
  intros _ _ value [= <-]. split; [by destruct outcome|].
  destruct execution; cbn in Ho; try discriminate Ho; injection Ho as <-; intros Hs; try done. by eexists.
Qed.

Lemma ok_execute_local request capability :
  request.(JobRequest_origin) = identity.(Identity_node_id) ->
  capabilities config !! request.(JobRequest_capability) = Some capability ->
  ok (execute_local identity store request capability) (good_result request).
Proof.
  intros Horigin Hcap. unfold execute_local. destruct (_ || _) eqn:Hl; [done|]. breflect.
  destruct (CapabilityConfig_executor capability) as [executor|error] eqn:Hex; [|done].
  apply (obeys_try _ _ _ _ (fun _ => True)); [eapply obeys_mono; [apply ok_reserve|done]|done|].
  intros [] _; try done.
  apply obeys_then; [apply ok_read|]. intros [u|error]; cycle 1.
  { apply obeys_then; [eapply obeys_ignore, ok_record_state|]. done. }
  apply obeys_then; [apply ok_record_state|]. intros [u'|error]; cycle 1.
  { apply obeys_then; [apply (node_emit_ok (fun _ _ => tt)); [done | by intros j]|]. done. }
  apply obeys_then.
  { apply ok_start_execution. exists capability. split_and!; try done. by left. }
  intros _. eapply obeys_tbind; [apply ok_await_execution|]. intros [outcome|error] [execution Hx].
  - by eapply ok_outcome_to_result.
  - apply obeys_then; [by apply ok_update|]. intros _.
    apply obeys_then; [eapply obeys_ignore, ok_record_state|]. done.
Qed.

Lemma ok_submit_to_peer peer request reason failure :
  ok (submit_to_peer peer request reason failure) (good_result request).
Proof.
  eapply obeys_tbind; [apply ok_await_reply|]. intros receiver Hrec.
  apply obeys_then; [by apply ok_send|]. intros [u|error]; cycle 1.
  { apply obeys_then; [apply ok_drop_pending|]. done. }
  eapply obeys_tbind; [apply ok_receive|]. intros [value| |] Hvalue; [|done|].
  { intros v [= <-]. rewrite <- Hrec. by apply Hvalue. }
  apply obeys_then; [apply ok_drop_pending|]. intros _.
  eapply obeys_tbind; [apply ok_await_reply|]. intros retry Hretry.
  apply obeys_then; [eapply obeys_ignore, node_emit_ok; [done | by intros j]|]. intros _.
  apply obeys_then; [by apply ok_send|]. intros sent.
  eapply (obeys_tbind _ _ _ _ _ (fun r => forall value, r = Received_Value value -> result_for retry.1 value)).
  { destruct sent; [apply ok_receive | done]. }
  assert (Hfail : ok (drop_pending (JobRequest_job_id request) ;!
    ignore (send_direct peer (Message_CancelJob (mkCancelJob (JobRequest_job_id request) reason))) ;!
    Done (Err (invalid_config failure))) (good_result request)).
  { apply obeys_then; [apply ok_drop_pending|]. intros _.
    apply obeys_then; [by eapply obeys_ignore, ok_send|]. done. }
  intros [value| |] Hv; [|done|done]. intros v [= <-]. rewrite <- Hretry. by apply Hv.
Qed.

Lemma ok_submit request :
  request.(JobRequest_origin) = identity.(Identity_node_id) ->
  ok (submit_request config identity store request) (good_result request).
Proof.
  intros Ho. unfold submit_request. destruct (_ !! _) as [capability|] eqn:Hc; [by apply ok_execute_local|].
  destruct (negb _); [done|]. apply obeys_then; [apply ok_read|]. intros [choice|]; [|done].
  apply ok_submit_to_peer.
Qed.

Lemma ok_cancel_job `{Hex} text : ok_any (cancel_job text).
Proof.
  unfold cancel_job. destruct (hex_decode text) as [bytes|]; [|done]. destruct (negb _); [done|].
  apply obeys_then; [apply ok_cancel_runtime|]. intros [|]; [done|].
  eapply (obeys_tbind _ _ _ _ _ (fun p => forall job, p = Some job -> job.(PendingJob_sender).1 = mkJobId bytes)).
  { apply obeys_atomic. intros e s Hs. split_and!; [by apply node_ok_delete_pending | by apply node_step_same|].
    intros job Hj. by apply (pending_keyed s Hs). }
  intros [job|] Hj; [|done].
  apply obeys_then. { apply ok_send_result. rewrite (Hj job eq_refl). by split; [|intros [=]]. }
  intros _. apply obeys_then; [by eapply obeys_ignore, ok_send|]. done.
Qed.

Lemma ok_handle_cancel peer cancel : ok_any (handle_cancel peer cancel).
Proof.
  apply obeys_then; [apply ok_read|]. intros [|]; [eapply obeys_ignore, ok_cancel_runtime | done].
Qed.
End Facts.
