(* ===== verification/NodePool.v ===== *)
(** * What holds of every run of a node

    The rules of [TaskLogic] applied to the tasks of [NodeJobs] and [NodeArtifacts]: every section
    keeps the invariant of the node and the policy of executions, and every execution is paid for by
    a reservation.  What the handler of training messages does is a parameter here; [WholeNode]
    puts the handlers of both kinds of training in its place. *)

From Stdlib Require Import String ZArith NArith Lia.
From stdpp Require Import base tactics sets strings numbers list gmap.
From S2P Require Import Prelude OrdMap Types Validation Float32 FileSystem Storage StorageFacts Runtime Trust Security Facade Network NodeConfig NodeConfigFacts Tasks TaskLogic NodeState NodeJobs NodeArtifacts NodeFacts.
Local Open Scope N_scope.
Local Open Scope rust_scope.

(** ** The history after a restart *)
Lemma recover_job_terminal now job :
  JobState_terminal (recover_job now job).(PersistedJob_state) = true.
Proof. unfold recover_job. by destruct (JobState_terminal (PersistedJob_state job)) eqn:Ht. Qed.

Lemma recover_job_id now job :
  (recover_job now job).(PersistedJob_job_id) = job.(PersistedJob_job_id).
Proof. unfold recover_job. by destruct (JobState_terminal _). Qed.

Lemma recover_jobs_snoc now loaded job :
  recover_jobs now (loaded ++ [job]) =
  <[job.(PersistedJob_job_id) := recover_job now job]> (recover_jobs now loaded).
Proof. unfold recover_jobs. rewrite fold_left_app. cbn. by rewrite recover_job_id. Qed.

Lemma recover_jobs_from now loaded id job :
  recover_jobs now loaded !! id = Some job ->
  exists saved, saved ∈ loaded /\ job = recover_job now saved.
Proof.
  induction loaded as [|last loaded IH] using rev_ind; [unfold recover_jobs; cbn [fold_left]; by rewrite lookup_empty|].
  rewrite recover_jobs_snoc, lookup_insert_Some. intros [[_ <-]|[_ Hj]]; [exists last; set_solver|].
  destruct (IH Hj) as (saved & Hin & ->). exists saved. set_solver.
Qed.

Lemma recover_jobs_known now loaded job :
  job ∈ loaded -> is_Some (recover_jobs now loaded !! job.(PersistedJob_job_id)).
Proof.
  induction loaded as [|last loaded IH] using rev_ind; [set_solver|].
  rewrite recover_jobs_snoc, elem_of_app, list_elem_of_singleton, lookup_insert_is_Some'.
  intros [Hin| ->]; [right; auto | by left].
Qed.

Section Pool.
Context `{Blake3} `{Ed25519} `{Ed25519Signer} `{EvidencePostcard} `{NodeText} `{JobPayloadJson}.
Context `{Json (StateFile PersistedJob)} `{Json (StateFile SignedEvidence)} `{Json SignedEvidence}.
Context `{Json (list N)} `{Hex}.
Context (security_to_allocvec : LocalSecurityState -> result (list N) str).
Context (config : NodeConfig) (identity : Identity) (store : LocalStore).
Notation node_step := (node_step config identity).
Notation ok t Q := (obeys node_ok node_step t Q).
Notation ok_any t := (obeys node_ok node_step t (fun _ => True)).

(** ** Artifact transfers *)
Lemma ok_artifact_update (f : NodeEnv -> NodeState -> NodeState) :
  (forall e s, exists t r, f e s = set_NodeState_pending_artifacts t (set_NodeState_artifact_replies r s)) ->
  ok_any (updating f).
Proof. intros Hf. apply ok_update. intros e s. destruct (Hf e s) as (t & r & ->). done. Qed.

Lemma ok_send_artifact_result sender r : ok_any (send_artifact_result sender r).
Proof. by apply ok_update. Qed.

Lemma ok_take_transfer id : ok_any (take_transfer id).
Proof.
  apply obeys_atomic. intros e s []. split_and!; [by constructor | by apply node_step_same | done].
Qed.

Lemma ok_finish_transfer id r : ok_any (finish_transfer id r).
Proof.
  apply obeys_then; [apply ok_take_transfer|]. intros [t|]; [apply ok_send_artifact_result | done].
Qed.

Lemma ok_await_transfer id peer artifact offset : ok_any (await_transfer id peer artifact offset).
Proof.
  apply obeys_atomic. intros e s []. cbn. destruct (_ !! id);
    split_and!; [by constructor | by apply node_step_same | done | by constructor | by apply node_step_same | done].
Qed.

Lemma ok_drop_transfer id : ok_any (drop_transfer id).
Proof.
  apply obeys_updating. intros e s Hs. destruct (_ !! id).
  - destruct Hs. split; [by constructor | by apply node_step_same].
  - split; [done | apply node_step_refl].
Qed.

Lemma ok_advance_transfer id offset size : ok_any (advance_transfer id offset size).
Proof.
  apply obeys_updating. intros e s Hs. destruct (_ !! id).
  - destruct Hs. split; [by constructor | by apply node_step_same].
  - split; [done | apply node_step_refl].
Qed.

Lemma tidies_keep {A} (p : Prog A) : calls_only tidies p -> keeps_addressed p.
Proof. intros Hp. by apply spares_keep, tidies_spares. Qed.

Lemma asks_keep {A} (p : Prog A) : calls_only asks p -> keeps_addressed p.
Proof. intros Hp. by apply spares_keep, asks_spares. Qed.

Lemma partial_size_keeps a : keeps_addressed (partial_artifact_size store a).
Proof. apply asks_keep. unfold partial_artifact_size, fail, metadata, io, call. solve_calls. Qed.

Lemma artifact_size_keeps a : keeps_addressed (artifact_size store a).
Proof. apply asks_keep. unfold artifact_size, fail, metadata, io, call. solve_calls. Qed.

Lemma has_artifact_keeps a : keeps_addressed (has_artifact a).
Proof. apply asks_keep. unfold has_artifact, exists_path, metadata, call. solve_calls. Qed.

Lemma ok_fetch_attempt first peer artifact : ok_any (fetch_attempt store first peer artifact).
Proof.
  apply obeys_then; [apply ok_read|]. intros id.
  apply obeys_then; [apply ok_storage, partial_size_keeps|]. intros [offset|error]; [|done].
  apply obeys_then; [apply ok_await_transfer|]. intros receiver.
  apply obeys_then.
  { destruct first; [by apply ok_send|]. apply obeys_then; [|intros _; by apply ok_send].
    eapply obeys_ignore, node_emit_ok; [done | by intros j]. }
  intros [u|error]; cycle 1.
  { apply obeys_then; [apply ok_drop_transfer | done]. }
  apply obeys_then; [apply ok_receive_artifact|].
  intros [value| |]; [done | |]; (apply obeys_then; [apply ok_drop_transfer | done]).
Qed.

Lemma ok_fetch peer artifact : ok_any (fetch_artifact store peer artifact).
Proof.
  unfold fetch_artifact. destruct (parse_node_id peer) as [p|]; [|done].
  destruct (parse_artifact_id artifact) as [a|]; [|done].
  apply obeys_then; [apply ok_query, has_artifact_keeps|]. intros [|].
  - apply (obeys_try _ _ _ _ (fun _ => True)); [|done|].
    { eapply obeys_mono; [apply ok_storage, tidies_keep, verify_artifact_tidies | done]. }
    intros _ _. apply (obeys_try _ _ _ _ (fun _ => True)); [|done..].
    eapply obeys_mono; [apply ok_storage, artifact_size_keeps | done].
  - apply obeys_then; [apply ok_read|]. intros active. destruct (_ <=? _); [done|].
    apply obeys_then; [apply ok_fetch_attempt|]. intros [r|]; [done|].
    apply obeys_then; [apply ok_fetch_attempt|]. by intros [r|].
Qed.

Lemma read_range_keeps a offset n : keeps_addressed (read_artifact_range store a offset n).
Proof. apply tidies_keep, read_artifact_range_tidies. Qed.

Lemma ok_artifact_request peer request : ok_any (handle_artifact_request store peer request).
Proof.
  unfold handle_artifact_request. destruct (is_err _); [done|].
  apply obeys_then; [apply ok_storage, read_range_keeps|]. intros [[bytes size]|]; [|done].
  by eapply obeys_ignore, ok_send.
Qed.

Lemma ok_transfer_request peer request : ok_any (handle_artifact_transfer_request store peer request).
Proof.
  unfold handle_artifact_transfer_request. destruct (is_err _); [done|].
  apply obeys_then; [apply ok_storage, artifact_size_keeps|]. intros [size|]; [|done].
  destruct (_ || _); [done|].
  apply obeys_then; [apply ok_storage, read_range_keeps|]. intros [[data size']|]; [|done].
  by eapply obeys_ignore, ok_send.
Qed.

Lemma write_partial_keeps a size offset bytes :
  keeps_addressed (write_partial_artifact store a size offset bytes).
Proof. apply spares_keep, write_partial_artifact_spares. Qed.

Lemma finalize_keeps a size hash : keeps_addressed (finalize_partial_artifact store a size hash).
Proof. intros w Hw. by apply finalize_partial_artifact_addressed. Qed.

Lemma ok_transfer_chunk peer chunk :
  ok_any (handle_artifact_transfer_chunk security_to_allocvec store peer chunk).
Proof.
  unfold handle_artifact_transfer_chunk, corrupt. destruct (is_err _); [apply ok_note|].
  apply obeys_then; [apply ok_read|]. intros [t|]; [|done].
  destruct (_ || _); [done|]. destruct (_ || _).
  - apply obeys_then; [apply ok_note|]. intros _.
    apply obeys_then; [apply ok_take_transfer|]. intros [t'|]; [|done].
    apply obeys_then; [eapply obeys_ignore, ok_storage, tidies_keep, discard_partial_artifact_tidies|].
    intros _. apply ok_send_artifact_result.
  - apply obeys_then; [apply ok_storage, write_partial_keeps|]. intros [next|error]; cycle 1.
    { apply obeys_then; [apply ok_note|]. intros _. apply ok_finish_transfer. }
    destruct (ArtifactTransferChunk_final_chunk chunk).
    + apply obeys_then; [apply ok_storage, finalize_keeps|]. intros [u|error]; [apply ok_finish_transfer|].
      apply obeys_then; [apply ok_note|]. intros _. apply ok_finish_transfer.
    + apply obeys_then; [by apply ok_send|]. intros [u|error]; [apply ok_advance_transfer | apply ok_finish_transfer].
Qed.

(** ** Entries *)

Context (handle_training : NodeId -> Message -> ntask unit).

(** What training messages do to the state here: nothing the invariant is about, and no execution. *)
Hypothesis training_ok : forall peer message, ok_any (handle_training peer message).

Hypothesis training_idle : forall peer message j,
  obeys (fun _ => True) (fun _ out _ => idle (reserves j) (executes j) out)
    (handle_training peer message) (fun _ => True).

Notation entry := (node_entry security_to_allocvec config identity store handle_training).

Lemma message_update_matches update :
  Message_validate (Message_JobUpdate update) = Ok tt -> JobUpdate_state_matches update = true.
Proof.
  cbn [Message_validate]. unfold JobUpdate_validate. intros Hv. inv_ok Hv. done.
Qed.

Lemma ok_entry t : entry t -> ok_any t.
Proof.
  intros [peer message Hv Horigin|peer|request Ho|peer request|text|peer artifact].
  - destruct message; cbn [handle_network_message]; try done;
      auto using ok_remote_job, ok_handle_cancel, ok_artifact_request, ok_transfer_request, ok_transfer_chunk.
    by apply ok_job_update, message_update_matches.
  - apply ok_fail_pending.
  - eapply obeys_ignore, ok_submit, Ho.
  - eapply obeys_ignore, ok_submit_to_peer.
  - eapply obeys_ignore, ok_cancel_job.
  - eapply obeys_ignore, ok_fetch.
Qed.

(** ** Reservations pay for executions *)

Section Credits.
Context (j : JobId).
Notation idle_task t := (obeys (fun _ : NodeState => True)
  (fun _ out _ => idle (reserves j) (executes j) out) t (fun _ => True)).
Notation pays c t R := (funded (reserves j) (executes j) c t R).

Lemma idle_read {A} (f : NodeEnv -> NodeState -> A) : idle_task (reading f).
Proof. by apply obeys_reading. Qed.

Lemma idle_update (f : NodeEnv -> NodeState -> NodeState) : idle_task (updating f).
Proof. by apply obeys_updating. Qed.

Lemma idle_send peer message : idle_task (send_to peer message).
Proof.
  apply obeys_step. intros e s a s' out _. destruct (ne_full e); [done|]. destruct (ne_send e); by intros [= <- <- <-].
Qed.

Lemma idle_storage {A} (p : Prog (result A StorageError)) : idle_task (storage p).
Proof. apply obeys_step. intros e s a s' out _. destruct (run_store e p s) as [[]|]; [|done]. by intros [= _ _ <-]. Qed.

Lemma idle_query {A} (p : Prog A) : idle_task (store_query p).
Proof. apply obeys_step. intros e s a s' out _. destruct (run _ p _) as [w []]; [|done]. by intros [= _ _ <-]. Qed.

Lemma idle_receive sender : idle_task (receive_job sender).
Proof. apply obeys_step. intros e s a s' out _. destruct (receive_slot _ _); [|done]. by intros [= _ _ <-]. Qed.

Lemma idle_receive_artifact sender : idle_task (receive_artifact sender).
Proof. apply obeys_step. intros e s a s' out _. destruct (receive_slot _ _); [|done]. by intros [= _ _ <-]. Qed.

Lemma idle_atomic {A} (f : NodeEnv -> NodeState -> A * NodeState * list NodeEffect) :
  (forall e s, idle (reserves j) (executes j) (f e s).2) -> idle_task (atomic f).
Proof. intros Hf. apply obeys_atomic. intros e s _. specialize (Hf e s). by destruct (f e s) as [[a s'] out]. Qed.

Lemma idle_try {A B} (t : node A) (k : A -> node B) :
  idle_task t -> (forall a, idle_task (k a)) -> idle_task (try_task t k).
Proof.
  intros Ht Hk. apply (obeys_try _ _ _ _ (fun _ => True)); [by eapply obeys_mono | done | auto].
Qed.

Lemma idle_record job : idle_task (record_job store job).
Proof.
  apply idle_try; [|intros; apply idle_storage]. apply idle_atomic. intros e s. unfold insert_job.
  by repeat dmatch.
Qed.

Create HintDb idle discriminated.
#[local] Hint Resolve idle_read idle_update idle_send idle_storage idle_query idle_receive
  idle_receive_artifact idle_record obeys_ignore : idle.

(** Follows a task down to its sections. *)
Ltac idle_walk :=
  repeat match goal with
    | |- forall _, _ => intros ?
    | |- obeys _ _ (match ?x with _ => _ end) _ => destruct x
    | |- obeys _ _ (Done _) _ => done
    | |- obeys _ _ (atomic _) _ => apply idle_atomic; intros ? ?; by repeat dmatch
    | |- obeys _ _ (tbind _ _) _ => apply obeys_then
    | |- obeys _ _ (try_task _ _) _ => apply idle_try
    | |- obeys _ _ (ignore _) _ => eapply obeys_ignore
    | |- _ => solve [eauto 2 with idle]
    end.

Lemma idle_record_state request state error : idle_task (record_state store request state error).
Proof. unfold record_state, now_secs. idle_walk. Qed.

Lemma idle_send_update peer update : idle_task (send_update peer update).
Proof. apply idle_send. Qed.

Lemma idle_rejection peer job code message : idle_task (send_rejection peer job code message).
Proof. unfold send_rejection, send_update, count_rejected_request. idle_walk. Qed.

Lemma idle_cancel job : idle_task (runtime_cancel job).
Proof. by apply idle_atomic. Qed.

Lemma idle_abandon request : idle_task (abandon request).
Proof. by apply idle_atomic. Qed.

Lemma idle_resend peer job : idle_task (resend_terminal peer job).
Proof. unfold resend_terminal, send_update. idle_walk. Qed.

Lemma idle_send_chunks peer job sequence chunks : idle_task (send_chunks peer job sequence chunks).
Proof.
  revert sequence. induction chunks as [|data chunks IH]; intros sequence; [done|]. cbn [send_chunks].
  apply obeys_then; [|intros _; apply IH]. eapply obeys_ignore, idle_send_update.
Qed.

#[local] Hint Resolve idle_record_state idle_send_update idle_rejection idle_cancel idle_abandon idle_resend
  idle_send_chunks : idle.

Lemma idle_send_outcome peer request outcome sequence :
  idle_task (send_outcome store peer request outcome sequence).
Proof. unfold send_outcome, now_secs. idle_walk. Qed.

Lemma idle_fail_job peer request sequence code message :
  idle_task (fail_job store peer request sequence code message).
Proof. unfold fail_job. idle_walk. Qed.

Lemma idle_await_execution : idle_task await_execution.
Proof. apply idle_read. Qed.

Lemma idle_outcome_to_result request outcome evidence :
  idle_task (outcome_to_result store request outcome evidence).
Proof. unfold outcome_to_result, now_secs. idle_walk. Qed.

Lemma idle_persist : idle_task (persist_security_state security_to_allocvec store).
Proof. unfold persist_security_state. idle_walk. Qed.

#[local] Hint Resolve idle_send_outcome idle_fail_job idle_await_execution idle_outcome_to_result
  idle_persist : idle.

Lemma idle_note subject kind scope detail :
  idle_task (note_security_event security_to_allocvec store subject kind scope detail).
Proof. unfold note_security_event. idle_walk. Qed.

Lemma idle_insert_evidence evidence observed_at : idle_task (insert_evidence store evidence observed_at).
Proof.
  apply obeys_step. intros e s a s' out _. repeat dmatch; try done; by intros [= _ _ <-].
Qed.

#[local] Hint Resolve idle_note idle_insert_evidence : idle.

Lemma idle_evidence subject kind payload :
  idle_task (record_signed_evidence config identity store subject kind payload).
Proof. unfold record_signed_evidence, now_secs, next_evidence_sequence, publish. idle_walk. Qed.

#[local] Hint Resolve idle_evidence : idle.

Lemma idle_job_update peer update :
  idle_task (handle_job_update security_to_allocvec config identity store peer update).
Proof. unfold handle_job_update, send_job_result. idle_walk. Qed.

Lemma idle_submit_to_peer peer request reason failure :
  idle_task (submit_to_peer peer request reason failure).
Proof.
  unfold submit_to_peer, await_reply, drop_pending, reconnect_peer, send_direct. idle_walk.
Qed.

Lemma idle_cancel_job text : idle_task (cancel_job text).
Proof. unfold cancel_job, send_job_result. idle_walk. Qed.

Lemma idle_handle_cancel peer cancel : idle_task (handle_cancel peer cancel).
Proof. unfold handle_cancel. idle_walk. Qed.

Lemma idle_finish id r : idle_task (finish_transfer id r).
Proof. unfold finish_transfer, take_transfer, send_artifact_result. idle_walk. Qed.

#[local] Hint Resolve idle_finish : idle.

Lemma idle_fetch_attempt first peer artifact : idle_task (fetch_attempt store first peer artifact).
Proof.
  unfold fetch_attempt, random_request_id, await_transfer, drop_transfer, reconnect_peer, send_direct.
  idle_walk.
Qed.

#[local] Hint Resolve idle_fetch_attempt : idle.

Lemma idle_fetch peer artifact : idle_task (fetch_artifact store peer artifact).
Proof. unfold fetch_artifact. idle_walk. Qed.

Lemma idle_artifact_request peer request : idle_task (handle_artifact_request store peer request).
Proof. unfold handle_artifact_request. idle_walk. Qed.

Lemma idle_transfer_request peer request :
  idle_task (handle_artifact_transfer_request store peer request).
Proof. unfold handle_artifact_transfer_request. idle_walk. Qed.

Lemma idle_transfer_chunk peer chunk :
  idle_task (handle_artifact_transfer_chunk security_to_allocvec store peer chunk).
Proof.
  unfold handle_artifact_transfer_chunk, corrupt, take_transfer, send_artifact_result, advance_transfer.
  idle_walk.
Qed.

(** The credit of a request: one, if it is about this job. *)
Definition credit (request : JobRequest) : N := b2N (bool_decide (request.(JobRequest_job_id) = j)).

Lemma pays_reserve peer request :
  pays 0 (reserve_remote_job store peer request)
    (fun r => match r with Ok RemoteJobReservation_Reserved => credit request | _ => 0 end).
Proof.
  intros e s r s' out. unfold reserve_section.
  destruct (_ !! _) as [old|].
  { intros [= <- <- <-]. split; [done|]. cbn [funded].
    destruct (negb _); [done|]. by destruct (JobState_terminal (PersistedJob_state old)). }
  destruct (if _ <=? _ then _ else _) as [[evicted rest]|error]; [|by intros [= <- <- <-]].
  destruct (run_store _ _ _) as [[[u|error] s1]|]; [|by intros [= <- <- <-]|done].
  intros [= <- <- <-]. rewrite !count_app, !count_cons. unfold credit. cbn [reserves executes].
  destruct evicted; rewrite ?count_cons; cbn [reserves executes]; repeat change (count _ []) with 0;
    change (b2N false) with 0; (split; [lia|]); cbn [funded]; lia.
Qed.

Lemma pays_start request executor :
  pays (credit request) (start_execution request executor) (fun _ => 0).
Proof.
  intros e s x s' out [= <- <- <-]. rewrite !count_cons. unfold credit. cbn [reserves executes].
  repeat change (count _ []) with 0. change (b2N false) with 0.
  split; [lia | apply N.le_0_l].
Qed.

Lemma pays_idle {A} c (t : ntask A) : idle_task t -> pays c t (fun _ => 0).
Proof. intros Ht. eapply funded_more; [by apply funded_idle | done | intros; apply N.le_0_l]. Qed.

Lemma pays_run peer request executor :
  pays (credit request) (run_remote_job store peer request executor) (fun _ => 0).
Proof.
  unfold run_remote_job. apply funded_tbind_idle; [apply idle_record_state|].
  intros [u|error]; [|apply pays_idle; idle_walk].
  apply funded_tbind_idle; [apply idle_send_update|]. intros [u'|error]; [|apply pays_idle; idle_walk].
  eapply funded_tbind; [apply pays_start|]. intros started. apply pays_idle. unfold count_execution_failure.
  idle_walk.
Qed.

Lemma pays_accept peer request executor :
  pays (credit request) (accept_remote_job store peer request executor) (fun _ => 0).
Proof.
  unfold accept_remote_job, runtime_admit. apply funded_tbind_idle; [apply idle_read|].
  intros [u|error]; [|apply pays_idle; idle_walk].
  apply funded_tbind_idle; [apply idle_record_state|]. intros [u'|error]; [|apply pays_idle; idle_walk].
  apply funded_tbind_idle; [apply idle_send_update|]. intros [u''|error]; [|apply pays_idle; idle_walk].
  exists (credit request), 0. split_and!; [lia | apply pays_run | done].
Qed.

Lemma pays_remote_job peer request : pays 0 (handle_remote_job config store peer request) (fun _ => 0).
Proof.
  unfold handle_remote_job. destruct (remote_job_check _ _) as [c|[code message]]; [|apply pays_idle; idle_walk].
  destruct (CapabilityConfig_executor c); [|apply pays_idle; idle_walk].
  eapply funded_tbind; [apply pays_reserve|].
  intros [[]|]; [apply pays_accept|..]; (apply pays_idle; idle_walk).
Qed.

Lemma pays_execute_local request capability :
  pays 0 (execute_local identity store request capability) (fun _ => 0).
Proof.
  unfold execute_local, runtime_admit. destruct (_ || _); [done|].
  destruct (CapabilityConfig_executor capability); [|done].
  eapply funded_tbind; [apply pays_reserve|]. intros [[]|]; try done.
  apply funded_tbind_idle; [apply idle_read|]. intros [u|error]; [|apply pays_idle; idle_walk].
  apply funded_tbind_idle; [apply idle_record_state|]. intros [u'|error]; [|apply pays_idle; idle_walk].
  eapply funded_tbind; [apply pays_start|]. intros started. apply pays_idle. unfold count_execution_failure.
  idle_walk.
Qed.

Lemma pays_submit request : pays 0 (submit_request config identity store request) (fun _ => 0).
Proof.
  unfold submit_request. destruct (_ !! _); [apply pays_execute_local|]. apply pays_idle.
  pose proof (fun p => idle_submit_to_peer p request "requester deadline exceeded"
                         "remote job deadline exceeded") as Hs. idle_walk.
Qed.

Lemma pays_entry t : entry t -> pays 0 t (fun _ => 0).
Proof.
  intros [peer message Hv Horigin|peer|request Ho|peer request|text|peer artifact].
  - destruct message; cbn [handle_network_message]; try done; try apply pays_remote_job; apply pays_idle;
      auto using idle_job_update, idle_handle_cancel, idle_artifact_request, idle_transfer_request,
        idle_transfer_chunk.
  - apply pays_idle, idle_update.
  - eapply funded_tbind; [apply pays_submit | done].
  - apply pays_idle. eapply obeys_ignore, idle_submit_to_peer.
  - apply pays_idle. eapply obeys_ignore, idle_cancel_job.
  - apply pays_idle. eapply obeys_ignore, idle_fetch.
Qed.
End Credits.

(** ** Runs of a node *)

(** A node whose tasks are all still to come. *)
Definition node_run (s : NodeState) (out : list NodeEffect) (s' : NodeState) : Prop :=
  exists ts, pool_steps entry (s, []) out (s', ts).

(** One entry, run for a while. *)
Lemma node_run_task t envs s t' s' out : entry t -> run_task t envs s = (t', s', out) -> node_run s out s'.
Proof.
  intros Ht Hr. destruct (run_task_pool entry t t' envs s s' out [t] 0 Hr eq_refl) as (ts & Hs & _).
  exists ts. apply (pool_steps_trans entry _ [] (s, [t])); [|done].
  by apply pool_steps_one, (pool_entry entry t s []).
Qed.

(** A second entry runs between two parts of the first. *)
Lemma node_run_between t1 t2 envs1 envs2 envs3 s t1' s1 out1 t2' s2 out2 t1'' s3 out3 :
  entry t1 -> entry t2 ->
  run_task t1 envs1 s = (t1', s1, out1) -> run_task t2 envs2 s1 = (t2', s2, out2) ->
  run_task t1' envs3 s2 = (t1'', s3, out3) -> node_run s (out1 ++ out2 ++ out3) s3.
Proof.
  intros Ht1 Ht2 Hr1 Hr2 Hr3. exact (pool_interleaved entry _ _ _ _ _ _ _ _ _ _ _ _ _ _ _ Ht1 Ht2 Hr1 Hr2 Hr3).
Qed.
End Pool.
