(* ===== verification/NodeExamples.v ===== *)
(** * Sample runs of a node

    A serializer that reads back what it wrote, a small node over it, and runs of its tasks: the
    witnesses of [NodePool]. *)

From Stdlib Require Import String ZArith NArith Lia.
From stdpp Require Import base tactics sets strings numbers list gmap countable.
From S2P Require Import Prelude OrdMap Types Validation Float32 FileSystem Storage StorageFacts Runtime Trust Security Facade Network NetworkExamples NodeConfig NodeConfigFacts Tasks TaskLogic NodeState NodeJobs NodeArtifacts NodeFacts NodePool Codec Connections.
Local Open Scope N_scope.
Local Open Scope rust_scope.

(** ** A serializer *)

Fixpoint pos_bits (p : positive) : list N :=
  match p with
  | xH => []
  | xO p => 0 :: pos_bits p
  | xI p => 1 :: pos_bits p
  end.

Fixpoint bits_pos (bits : list N) : positive :=
  match bits with
  | [] => xH
  | b :: bits => if b =? 0 then xO (bits_pos bits) else xI (bits_pos bits)
  end.

Lemma bits_pos_bits p : bits_pos (pos_bits p) = p.
Proof. induction p as [p IH|p IH|]; cbn; by rewrite ?IH. Qed.

(** Any countable type, in binary. *)
Definition countable_json (T : Type) `{Countable T} : Json T :=
  {| to_vec := fun v => Ok (pos_bits (encode v));
     from_slice := fun bits => match decode (bits_pos bits) with
                               | Some v => Ok v
                               | None => Err "no value"%string
                               end |}.

Lemma countable_json_laws (T : Type) `{Countable T} : @JsonLaws T (countable_json T).
Proof. split. intros v b [= <-]. cbn. by rewrite bits_pos_bits, decode_encode. Qed.

Definition JobState_index (state : JobState) : N :=
  match state with
  | JobState_Received => 0
  | JobState_Validated => 1
  | JobState_Admitted => 2
  | JobState_Queued => 3
  | JobState_Running => 4
  | JobState_Succeeded => 5
  | JobState_Rejected => 6
  | JobState_Cancelled => 7
  | JobState_TimedOut => 8
  | JobState_Failed => 9
  end.

Definition JobState_of_index (n : N) : JobState :=
  match n with
  | 0 => JobState_Received
  | 1 => JobState_Validated
  | 2 => JobState_Admitted
  | 3 => JobState_Queued
  | 4 => JobState_Running
  | 5 => JobState_Succeeded
  | 6 => JobState_Rejected
  | 7 => JobState_Cancelled
  | 8 => JobState_TimedOut
  | _ => JobState_Failed
  end.

Lemma JobState_countable : Countable JobState.
Proof. apply (inj_countable' JobState_index JobState_of_index). by intros []. Defined.

#[local] Existing Instances JobState_countable.

Definition job_fields (job : PersistedJob)
    : JobId * NodeId * JobState * N * option ArtifactId * option (list N) * option str :=
  (job.(PersistedJob_job_id), job.(PersistedJob_origin), job.(PersistedJob_state),
   job.(PersistedJob_updated_at), job.(PersistedJob_output_hash), job.(PersistedJob_output),
   job.(PersistedJob_error)).

Definition fields_job (v : JobId * NodeId * JobState * N * option ArtifactId * option (list N) * option str)
    : PersistedJob :=
  let '(id, origin, state, updated_at, hash, output, error) := v in
  mkPersistedJob id origin state updated_at hash output error.

#[local] Instance PersistedJob_eq_dec : EqDecision PersistedJob.
Proof. solve_decision. Defined.

Lemma PersistedJob_countable : Countable PersistedJob.
Proof. apply (inj_countable' job_fields fields_job). by intros []. Defined.

#[local] Existing Instances PersistedJob_countable.

#[local] Instance jobs_file_eq_dec : EqDecision (StateFile PersistedJob).
Proof. solve_decision. Defined.

Lemma jobs_file_countable : Countable (StateFile PersistedJob).
Proof.
  apply (inj_countable' (fun f => (f.(StateFile_version), f.(StateFile_items)))
           (fun v : N * list PersistedJob => mkStateFile v.1 v.2)). by intros [].
Defined.

Definition jobs_json : Json (StateFile PersistedJob) := @countable_json _ _ jobs_file_countable.

Definition bytes_json : Json (list N) := countable_json (list N).

(** Evidence is not written in these runs. *)
Definition no_json (T : Type) : Json T :=
  {| to_vec := fun _ => Err "not written"%string; from_slice := fun _ => Err "not read"%string |}.

Definition nx_text : NodeText :=
  {| NodeError_to_string := fun _ => "node error"%string;
     RuntimeError_to_string := fun _ => "runtime error"%string;
     NetworkError_to_string := fun _ => "network error"%string |}.

Definition nx_payload : JobPayloadJson := fun _ _ _ => [].

Definition nx_evidence_postcard : EvidencePostcard := fun _ => Err "not written"%string.

Definition nx_hex : Hex := fun s => Ok (as_bytes s).

Definition nx_security_bytes : LocalSecurityState -> result (list N) str := fun _ => Err "not written"%string.

Definition nx_training : NodeId -> Message -> ntask unit := fun _ _ => Done tt.

(** ** A node *)

#[local] Existing Instances net_hash net_verifier net_signer nx_text nx_payload nx_evidence_postcard
  jobs_json bytes_json nx_hex.

#[local] Instance nx_evidence_file : Json (StateFile SignedEvidence) := no_json _.

#[local] Instance nx_evidence_json : Json SignedEvidence := no_json _.

Definition nx_node_identity : Identity := ex_identity 9.

Definition nx_store : LocalStore := mkLocalStore 100000000 100000.

Definition nx_world : World := mkWorld ∅ 0 0 1 0.

Definition nx_node_config : NodeConfig := text_node.

Definition nx_security : LocalSecurityState :=
  mkLocalSecurityState nx_node_identity.(Identity_node_id) SecurityPolicy_default [] [] [] [] [] [] [] [] [] [] 1.

Definition nx_node (world : World) (jobs : gmap JobId PersistedJob) : NodeState :=
  mkNodeState jobs ∅ ∅ ∅ 0 [] world (mkCapabilityGraph [] 4096) nx_security
    (mkEvidenceGraph TrustPolicy_default [] 0 None) 0 0 1 ∅ ∅ ∅ 0 0 0 0 0.

Definition nx_start : NodeState := nx_node nx_world ∅.

Lemma nx_start_ok : node_ok nx_start.
Proof.
  constructor; cbn; intros *; rewrite ?lookup_empty; try done.
Defined.

Definition nx_env : NodeEnv :=
  mkNodeEnv 100 100000 false None [] None (Execution_Output [1; 2]) [] false [] [] None false false false.

Definition nx_request (id : N) (origin : NodeId) : JobRequest :=
  mkJobRequest (mkJobId [id]) origin JobKind_Inference "inference.text" None
    (as_bytes "a good day") 500 1024 (PrivacyPolicy_default).

Definition nx_local (id : N) : JobRequest := nx_request id nx_node_identity.(Identity_node_id).

Definition nx_submit (id : N) : ntask unit :=
  ignore (submit_request nx_node_config nx_node_identity nx_store (nx_local id)).

Notation nx_entry := (node_entry nx_security_bytes nx_node_config nx_node_identity nx_store nx_training).
Notation nx_run := (node_run nx_security_bytes nx_node_config nx_node_identity nx_store nx_training).

Lemma nx_submit_entry id : nx_entry (nx_submit id).
Proof. by apply entry_submit. Defined.

Definition nx_executor : ExecutorSpec := ExecutorSpec_BuiltinText "builtin.tiny-sentiment.v1".

Definition nx_result : JobResult :=
  mkJobResult (mkJobId [1]) JobState_Succeeded (Some [1; 2])
    (Some (ArtifactId_from_bytes_hashed [1; 2])) None None.

(** ** A peer asks for a job *)

Definition nx_peer : NodeId := (ex_identity 7).(Identity_node_id).

Definition nx_accepted : JobUpdate :=
  mkJobUpdate (mkJobId [2]) JobState_Admitted 1 (JobUpdateKind_Accepted JobState_Admitted).

(** ** A restart *)

Definition nx_saved : list PersistedJob :=
  [mkPersistedJob (mkJobId [1]) nx_peer JobState_Running 5 None None None].

Definition nx_restarted : NodeState := nx_node nx_world (recover_jobs 100 nx_saved).

Lemma nx_restarted_ok : node_ok nx_restarted.
Proof.
  constructor; cbn; intros *; rewrite ?lookup_empty; try done.
  intros Hj. apply lookup_insert_Some in Hj as [[<- <-]|[_ Hj]]; [done|]. by rewrite lookup_empty in Hj.
Defined.

(** * Where a node does not keep its promises

    Runs of the node of [NodeExamples] in which a job runs twice although its reservation was
    saved, a finished job changes its state, a duplicate of a failed request is told that the job
    is not finished, and the report of a failure cannot be sent. *)

#[local] Existing Instances net_hash net_verifier net_signer nx_text nx_payload nx_evidence_postcard
  jobs_json bytes_json nx_hex nx_evidence_file nx_evidence_json.

(** ** A snapshot that is saved too late *)

(** The first job: reserved, admitted and entered in the history, not yet saved. *)
Definition race_first : ntask unit * NodeState * list NodeEffect :=
  run_task (nx_submit 1) (repeat nx_env 4) nx_start.

(** The second job: reserved, which saves the history, and started. *)
Definition race_second : ntask unit * NodeState * list NodeEffect :=
  run_task (nx_submit 2) (repeat nx_env 6) race_first.1.2.

(** The first one saves its older copy of the history. *)
Definition race_third : ntask unit * NodeState * list NodeEffect :=
  run_task race_first.1.1 (repeat nx_env 1) race_second.1.2.

Definition race_out : list NodeEffect := race_first.2 ++ race_second.2 ++ race_third.2.

(** The node stops there and starts again. *)
Definition race_loaded : World * result (gmap JobId PersistedJob) StorageError :=
  exec (load_history nx_store 100) race_third.1.2.(NodeState_world).

Definition race_restarted : NodeState :=
  match race_loaded.2 with
  | Ok jobs => nx_node race_loaded.1 jobs
  | Err _ => nx_start
  end.

Definition race_again : ntask unit * NodeState * list NodeEffect :=
  run_task (nx_submit 2) (repeat nx_env 20) race_restarted.

Lemma race_run : nx_run nx_start race_out race_third.1.2.
Proof.
  apply (node_run_between _ _ _ _ _ (nx_submit 1) (nx_submit 2) (repeat nx_env 4) (repeat nx_env 6)
    (repeat nx_env 1) nx_start race_first.1.1 race_first.1.2 race_first.2 race_second.1.1
    race_second.1.2 race_second.2 race_third.1.1 race_third.1.2 race_third.2);
    [apply nx_submit_entry | apply nx_submit_entry | | |].
  - unfold race_first. by destruct (run_task _ _ _) as [[t s] out].
  - unfold race_second. by destruct (run_task _ _ _) as [[t s] out].
  - unfold race_third. by destruct (run_task _ _ _) as [[t s] out].
Qed.

Lemma race_again_run : nx_run race_restarted race_again.2 race_again.1.2.
Proof.
  apply (node_run_task _ _ _ _ _ (nx_submit 2) (repeat nx_env 20) race_restarted race_again.1.1);
    [apply nx_submit_entry|].
  unfold race_again. by destruct (run_task _ _ _) as [[t s] out].
Qed.

(** A job runs twice although no entry is ever evicted: [record_job] saves its copy of the
    history after releasing the lock, so a copy taken before the reservation of a second job can
    be written after it; a node that stops then does not know the second job when it starts again,
    and runs it once more. *)
Theorem late_save_repeats_a_job :
  exists out s jobs world out' s',
    nx_run nx_start out s /\
    exec (load_history nx_store 100) s.(NodeState_world) = (world, Ok jobs) /\
    nx_run (nx_node world jobs) out' s' /\
    count (executes (mkJobId [2])) (out ++ out') = 2 /\
    count (evicts (mkJobId [2])) (out ++ out') = 0.
Proof.
  exists race_out, race_third.1.2,
    (match race_loaded.2 with Ok jobs => jobs | Err _ => ∅ end), race_loaded.1, race_again.2, race_again.1.2.
  split_and!.
  - apply race_run.
  - assert (Hok : is_ok race_loaded.2 = true) by (vm_compute; reflexivity).
    change (exec (load_history nx_store 100) race_third.1.2.(NodeState_world)) with race_loaded.
    destruct race_loaded as [world [jobs|]]; [reflexivity | discriminate Hok].
  - assert (Hok : is_ok race_loaded.2 = true) by (vm_compute; reflexivity).
    pose proof race_again_run as Hrun. unfold race_restarted in Hrun at 1.
    destruct race_loaded.2 as [jobs|]; [exact Hrun | discriminate Hok].
  - vm_compute. reflexivity.
  - vm_compute. reflexivity.
Qed.

(** ** A report that cannot be sent *)

Section Report.
Context `{Blake3} `{Ed25519} `{Ed25519Signer} `{SignedPostcard} `{Postcard str}.

Lemma long_report_invalid job sequence code text :
  MAX_STRING_LEN < slen text ->
  is_err (Message_validate (Message_JobUpdate
    (mkJobUpdate job JobState_Failed sequence (JobUpdateKind_Failed code text)))) = true.
Proof.
  intros Hlong. cbn [Message_validate]. unfold JobUpdate_validate.
  destruct (fail_if (_ =? 0) _) as [[]|]; [|done]. cbn [rbind].
  destruct (fail_if (negb _) _) as [[]|]; [|done]. cbn [rbind JobUpdate_update].
  destruct (string code _) as [[]|]; [|done]. cbn [rbind]. unfold string.
  destruct (fail_if (_ == _) _) as [[]|]; [|done]. cbn [rbind].
  by rewrite (proj2 (N.ltb_lt _ _) Hlong).
Qed.

(** A process that fails with more than 256 bytes of diagnostics cuts its requester off: the
    text becomes the message of the [Failed] update, which the encoder refuses, and the writer of
    the connection ends there, with nothing sent of that message or of any later one, for
    whichever job. *)
Theorem long_failure_ends_the_writer (config : NetworkConfig) connection minor job sequence code
    text later envs s :
  MAX_STRING_LEN < slen text ->
  run_task (writer config connection minor
    (Message_JobUpdate (mkJobUpdate job JobState_Failed sequence (JobUpdateKind_Failed code text)) :: later))
    envs s = (Done tt, s, []).
Proof.
  intros Hlong. cbn [writer]. unfold write_message.
  destruct (encode_message_at_version _ _ _ _) as [frame|error] eqn:He; [|by destruct envs].
  apply encode_ok in He as (_ & _ & Hv & _).
  pose proof (long_report_invalid job sequence code text Hlong) as Herr. by rewrite Hv in Herr.
Qed.
End Report.

#[local] Existing Instances net_signed_postcard net_postcard.

Definition long_text : str := string_of_bytes (repeat 120 300).

Lemma long_failure_ends_the_writer_witness :
  MAX_STRING_LEN < slen long_text /\
  run_task (writer ex_config 1 4
    [Message_JobUpdate (mkJobUpdate (mkJobId [2]) JobState_Failed 3
       (JobUpdateKind_Failed "execution_error" long_text));
     Message_JobUpdate nx_accepted]) [ex_env 1000 []; ex_env 1000 []] ex_start
  = (Done tt, ex_start, []).
Proof.
  split; [vm_compute; reflexivity|].
  apply (long_failure_ends_the_writer ex_config 1 4 (mkJobId [2]) 3 "execution_error" long_text
    [Message_JobUpdate nx_accepted]).
  vm_compute. reflexivity.
Defined.

(** ** A finished job that changes *)

Definition overwritten_request : JobRequest := nx_request 2 nx_peer.

Definition outcome_lost : NodeEnv :=
  mkNodeEnv 101 100000 false (Some NetworkError_NotConnected) [] None (Execution_Output [1; 2]) [] false [] [] None false false false.

(** The record of the running job, its start, its output, the record of the success; then the
    message about it cannot be sent. *)
Definition overwritten (k : nat) : ntask unit * NodeState * list NodeEffect :=
  run_task (run_remote_job nx_store nx_peer overwritten_request nx_executor)
    (repeat nx_env 10 ++ repeat outcome_lost k) nx_start.

Definition overwritten_state (k : nat) : option JobState :=
  PersistedJob_state <$> (overwritten k).1.2.(NodeState_jobs) !! mkJobId [2].

(** A success that was recorded is overwritten: when the message about it cannot be sent, the
    history says that the job failed, a step that the states of a job do not allow, and its result
    is gone.  Whoever asks again is told that the failed job is not finished. *)
Theorem lost_message_undoes_success :
  overwritten_state 0 = Some JobState_Succeeded /\
  overwritten_state 5 = Some JobState_Failed /\
  JobState_can_transition JobState_Succeeded JobState_Failed = false /\
  JobState_terminal JobState_Failed = true /\
  forall job, job.(PersistedJob_state) = JobState_Failed ->
    terminal_update job =
      (JobState_Failed, JobUpdateKind_Failed "not_terminal" "job state is not terminal").
Proof.
  split_and!; try (vm_compute; reflexivity).
  intros job Hj. unfold terminal_update. by rewrite Hj.
Qed.
