(* ===== verification/TraceLogic.v ===== *)
(** * What a task has done so far

    The logics of [TaskLogic] relate the state before and after a section.  Here a task is followed
    along its trace: [traced h t Q] says that, with the effects [h] behind it, [t] keeps the
    invariant [I] of the trace at every section and ends with a trace and a result for which [Q]
    holds.  [emits] bounds the effects of a task one by one; a task whose effects do not matter to
    the invariant can be skipped. *)

From Stdlib Require Import ZArith NArith Lia.
From stdpp Require Import base tactics list.
From S2P Require Import Prelude Tasks.

Section Emits.
Context {Env St Eff : Type}.
Notation task := (Task Env St Eff).
Context (q : Eff -> Prop).

Fixpoint emits {A : Type} (t : task A) : Prop :=
  match t with
  | Done _ => True
  | Step f k => forall e s x s' out, f e s = Some (x, s', out) -> Forall q out /\ emits (k x)
  | Fork _ _ => False
  end.

Lemma emits_tbind {A B : Type} (t : task A) (k : A -> task B) :
  emits t -> (forall a, emits (k a)) -> emits (tbind t k).
Proof.
  intros Ht Hk. induction t as [A a|A X f c IH|A t IHt c IHc]; cbn in *; [by apply Hk | | done].
  intros e s x s' out Hf. destruct (Ht e s x s' out Hf). eauto.
Qed.

Lemma emits_try {A B E : Type} (t : task (result A E)) (k : A -> task (result B E)) :
  emits t -> (forall a, emits (k a)) -> emits (try_task t k).
Proof. intros Ht Hk. apply emits_tbind; [done|]. by intros [a|e]; [apply Hk|]. Qed.

Lemma emits_atomic {A : Type} (f : Env -> St -> A * St * list Eff) :
  (forall e s, Forall q (f e s).2) -> emits (atomic f).
Proof. intros Hf e s x s' out [= Hx]. split; [|done]. specialize (Hf e s). by rewrite Hx in Hf. Qed.

Lemma emits_step {A : Type} (f : Env -> St -> option (A * St * list Eff)) :
  (forall e s a s' out, f e s = Some (a, s', out) -> Forall q out) -> emits (Step f Done).
Proof. intros Hf e s x s' out Hx. split; [|done]. by eapply Hf. Qed.

Lemma emits_reading {A : Type} (f : Env -> St -> A) : emits (reading f).
Proof. apply emits_atomic. by intros e s; constructor. Qed.

Lemma emits_updating (f : Env -> St -> St) : emits (updating f).
Proof. apply emits_atomic. by intros e s; constructor. Qed.

Lemma emits_ignore {A : Type} (t : task A) : emits t -> emits (ignore t).
Proof. intros Ht. by apply emits_tbind. Qed.

Lemma emits_timeout {A : Type} elapsed (t : task A) : emits t -> emits (timeout elapsed t).
Proof.
  intros Ht. induction t as [A a|A X f k IH|A t IHt k IHk]; cbn in *; [done | | done].
  intros e s x s' out. destruct (elapsed e); [by intros [= <- _ <-]; split; [constructor|]|].
  destruct (f e s) as [[[y s1] out1]|] eqn:Hf; [|done]. intros [= <- _ <-].
  destruct (Ht e s y s1 out1 Hf). eauto.
Qed.

Lemma emits_for {A : Type} (body : A -> task unit) xs :
  (forall x, emits (body x)) -> emits (for_task body xs).
Proof. intros Hb. induction xs; cbn; [done|]. by apply emits_tbind. Qed.
End Emits.

Section Traced.
Context {Env St Eff : Type}.
Notation task := (Task Env St Eff).
Context (E : Env -> Prop) (I : list Eff -> Prop).

Fixpoint traced {A : Type} (h : list Eff) (t : task A) (Q : list Eff -> A -> Prop) : Prop :=
  match t with
  | Done a => Q h a
  | Step f k => forall e s x s' out, E e -> f e s = Some (x, s', out) ->
      I (h ++ out) /\ traced (h ++ out) (k x) Q
  | Fork _ _ => False
  end.

Lemma traced_mono {A : Type} h (t : task A) (Q Q' : list Eff -> A -> Prop) :
  traced h t Q -> (forall h a, Q h a -> Q' h a) -> traced h t Q'.
Proof.
  intros Ht HQ. revert h Ht. induction t as [A a|A X f k IH|A t IHt k IHk]; intros h Ht; cbn in *;
    [by apply HQ | | done].
  intros e s x s' out He Hf. destruct (Ht e s x s' out He Hf). eauto.
Qed.

Lemma traced_tbind {A B : Type} h (t : task A) (k : A -> task B) Q R :
  traced h t R -> (forall h a, R h a -> traced h (k a) Q) -> traced h (tbind t k) Q.
Proof.
  intros Ht Hk. revert h Ht. induction t as [A a|A X f c IH|A t IHt c IHc]; intros h Ht; cbn in *;
    [by apply Hk | | done].
  intros e s x s' out He Hf. destruct (Ht e s x s' out He Hf). eauto.
Qed.

(** A task that emits only what does not matter. *)
Lemma traced_emits {A : Type} (q : Eff -> Prop) (J : list Eff -> Prop) h (t : task A) :
  (forall h out, J h -> Forall q out -> J (h ++ out)) -> (forall h, J h -> I h) ->
  emits q t -> J h -> traced h t (fun h _ => J h).
Proof.
  intros Happ HI Ht. revert h. induction t as [A a|A X f k IH|A t IHt k IHk]; intros h Hh; cbn in *;
    [done | | done].
  intros e s x s' out _ Hf. destruct (Ht e s x s' out Hf) as [Hout Hk].
  split; [by apply HI, Happ | by apply IH; [|apply Happ]].
Qed.

(** The trace of a run, whether it ended or not. *)
Lemma traced_run {A : Type} h (t : task A) Q envs s t' s' out :
  traced h t Q -> I h -> Forall E envs -> run_task t envs s = (t', s', out) ->
  I (h ++ out) /\ forall a, t' = Done a -> Q (h ++ out) a.
Proof.
  revert h envs s t' s' out. induction t as [A a|A X f k IH|A t IHt k IHk];
    intros h envs s t' s' out Ht Hh He; cbn in *; [| |done].
  - intros [= <- <- <-]. rewrite app_nil_r. split; [done|]. by intros b [= <-].
  - destruct He as [|e envs He Henvs]; [intros [= <- <- <-]; rewrite app_nil_r; by split|].
    destruct (f e s) as [[[x s1] out1]|] eqn:Hf; [|intros [= <- <- <-]; rewrite app_nil_r; by split].
    destruct (run_task (k x) envs s1) as [[t1 s2] out2] eqn:Hr. intros [= <- <- <-].
    destruct (Ht e s x s1 out1 He Hf) as [HI Hk]. rewrite app_assoc. by eapply IH.
Qed.
End Traced.

(** * Tasks that end when their timers run out

    A surrounding is [calm] when nothing holds a task up: its timers have run out, the disk answers.
    [lives n t Q]: in the first [n] sections that are not calm anything may happen, and from every
    point [t] can reach that way, calm sections take it to its end; [Q] relates what is left of the
    [n] and the result.  The states between sections are arbitrary, so other tasks may run there. *)

Section Lives.
Context {Env St Eff : Type}.
Notation task := (Task Env St Eff).
Context (calm : Env -> Prop).

Fixpoint lives {A : Type} (n : nat) (t : task A) (Q : nat -> A -> Prop) : Prop :=
  match t with
  | Done a => Q n a
  | Step f k =>
      (forall e s, calm e -> exists x s' out, f e s = Some (x, s', out) /\ lives n (k x) Q) /\
      match n with
      | O => True
      | S n => forall e s x s' out, f e s = Some (x, s', out) -> lives n (k x) Q
      end
  | Fork _ _ => False
  end.

Lemma lives_mono {A : Type} n (t : task A) (Q Q' : nat -> A -> Prop) :
  lives n t Q -> (forall j a, j <= n -> Q j a -> Q' j a) -> lives n t Q'.
Proof.
  revert n. induction t as [A a|A X f k IH|A t IHt k IHk]; intros n Ht HQ; cbn [lives] in *; [auto | | done].
  destruct Ht as [Hc Hn]. split.
  - intros e s He. destruct (Hc e s He) as (x & s' & out & ? & ?). eauto 10.
  - destruct n as [|n]; [done|]. intros e s x s' out Hf. eapply IH; [by eapply Hn|]. auto.
Qed.

Lemma lives_tbind {A B : Type} n (t : task A) (k : A -> task B) R Q :
  lives n t R -> (forall j a, j <= n -> R j a -> lives j (k a) Q) -> lives n (tbind t k) Q.
Proof.
  revert n. induction t as [A a|A X f c IH|A t IHt c IHc]; intros n Ht Hk; cbn [lives tbind] in *; [auto | | done].
  destruct Ht as [Hc Hn]. split.
  - intros e s He. destruct (Hc e s He) as (x & s' & out & ? & ?). eauto 10.
  - destruct n as [|n]; [done|]. intros e s x s' out Hf. eapply IH; [by eapply Hn|]. auto.
Qed.

(** A task without loops of its own. *)
Definition quick {A : Type} (t : task A) : Prop := forall n, lives n t (fun j _ => j <= n).

Lemma quick_done {A : Type} (a : A) : quick (Done a : task A).
Proof. intros n. cbn. lia. Qed.

Lemma quick_tbind {A B : Type} (t : task A) (k : A -> task B) :
  quick t -> (forall a, quick (k a)) -> quick (tbind t k).
Proof.
  intros Ht Hk n. eapply lives_tbind; [apply Ht|]. intros j a Hj _.
  eapply lives_mono; [apply Hk|]. intros i b _ Hi. cbn in *. lia.
Qed.

Lemma quick_step {A : Type} (f : Env -> St -> option (A * St * list Eff)) :
  (forall e s, calm e -> is_Some (f e s)) -> quick (Step f Done).
Proof.
  intros Hf n. cbn [lives]. split.
  - intros e s He. destruct (Hf e s He) as [[[x s'] out] Hx]. exists x, s', out. split; [done|]. lia.
  - destruct n as [|n]; [done|]. intros. lia.
Qed.

Lemma quick_atomic {A : Type} (f : Env -> St -> A * St * list Eff) : quick (atomic f).
Proof. apply quick_step. by intros. Qed.

Lemma quick_reading {A : Type} (f : Env -> St -> A) : quick (reading f).
Proof. apply quick_atomic. Qed.

Lemma quick_updating (f : Env -> St -> St) : quick (updating f).
Proof. apply quick_atomic. Qed.

Lemma quick_ignore {A : Type} (t : task A) : quick t -> quick (ignore t).
Proof. intros Ht. apply quick_tbind; [done|]. intros. apply quick_done. Qed.

Lemma quick_try {A B E : Type} (t : task (result A E)) (k : A -> task (result B E)) :
  quick t -> (forall a, quick (k a)) -> quick (try_task t k).
Proof. intros Ht Hk. apply quick_tbind; [done|]. intros [a|e]; [apply Hk | apply quick_done]. Qed.

(** A timer ends the wait for anything. *)
Lemma quick_timeout {A : Type} elapsed (t : task A) :
  (forall e, calm e -> elapsed e = true) -> quick t -> quick (timeout elapsed t).
Proof.
  intros He Ht n. specialize (Ht n). revert n Ht.
  assert (Hgen : forall n m, n <= m -> lives n t (fun j _ => j <= m) -> lives n (timeout elapsed t) (fun j _ => j <= m)).
  { induction t as [A a|A X f k IH|A t IHt k IHk]; intros n m Hnm Ht; cbn [lives timeout] in *; [done | | done].
    destruct Ht as [Hc Hn]. split.
    - intros e s Hcalm. rewrite (He e Hcalm). exists None, s, []. split; [done|]. exact Hnm.
    - destruct n as [|n]; [done|]. intros e s x s' out Hf. destruct (elapsed e).
      + injection Hf as <- <- <-. cbn. lia.
      + destruct (f e s) as [[[y s1] out1]|] eqn:Hfe; [|done]. injection Hf as <- <- <-.
        apply IH; [lia|]. by eapply Hn. }
  intros n Ht. by apply Hgen.
Qed.

(** What is left of a task after any sections. *)
Lemma lives_run {A : Type} n (t : task A) Q envs s t' s' out :
  lives n t Q -> length envs <= n -> run_task t envs s = (t', s', out) -> exists j, lives j t' Q.
Proof.
  revert n envs s s' out. induction t as [A a|A X f k IH|A t IHt k IHk]; intros n envs s s' out Ht Hl Hr;
    cbn [lives run_task] in *; [| |done].
  - injection Hr as <- <- <-. by exists n.
  - destruct envs as [|e envs]; [injection Hr as <- <- <-; by exists n|].
    destruct (f e s) as [[[x s1] out1]|] eqn:Hf; [|injection Hr as <- <- <-; by exists n].
    destruct (run_task (k x) envs s1) as [[t1 s2] out2] eqn:Hr1. injection Hr as <- <- <-.
    cbn in Hl. destruct n as [|n]; [lia|]. destruct Ht as [_ Hn].
    eapply IH; [by eapply Hn | | exact Hr1]. lia.
Qed.

(** When the surroundings stay calm it ends. *)
Lemma lives_ends {A : Type} n (t : task A) Q (later : nat -> Env) s :
  lives n t Q -> (forall i, calm (later i)) ->
  exists i a s' out, run_task t (map later (seq 0 i)) s = (Done a, s', out) /\ Q n a.
Proof.
  intros Ht Hcalm.
  assert (Hgen : forall b, exists i a s' out, run_task t (map later (seq b i)) s = (Done a, s', out) /\ Q n a);
    [|apply Hgen].
  revert s Ht. induction t as [A a|A X f k IH|A t IHt k IHk]; intros s Ht b; cbn [lives] in *; [| |done].
  - exists 0, a, s, []. done.
  - destruct Ht as [Hc _]. destruct (Hc (later b) s (Hcalm b)) as (x & s1 & out1 & Hf & Hk).
    destruct (IH x Q s1 Hk (S b)) as (i & a & s2 & out2 & Hr & HQ).
    exists (S i), a, s2, (out1 ++ out2). cbn [seq map run_task]. by rewrite Hf, Hr.
Qed.
End Lives.
