(* ===== verification/V3Model.v ===== *)
(** * Distributed training: data and local computations (crates/node/src/distributed_training.rs)

    A training job splits a model into two parameter shards.  Its workers form a group per shard;
    the aggregator of a group combines the updates of its members, and a coordinator, one for each
    term, keeps the bounded record of the job: the generation and the providers of every shard, and
    the checkpoints.  This file has the state of a job in one node ([Context]) and everything the
    node computes from it without talking to others: groups, hashes, local training steps, losses,
    medians and manifests.

    An [i64] is a [Z]; where the source saturates so does the model, and a plain sum that overflows
    ends the task or wraps around, as the build profile says ([Profile]).  Values are hashed as
    JSON ([Json], a parameter). *)

From Stdlib Require Import String ZArith NArith Lia.
From stdpp Require Import base tactics sets strings numbers list gmap.
From S2P Require Import Prelude OrdMap Types Validation FileSystem Storage Aggregation Compute Float32 Planner Security Network NodeConfig Tasks NodeState.
Local Open Scope N_scope.
Local Open Scope rust_scope.

(** ** Constants *)

Definition V3_CAPABILITY : str := "training.reference".

Definition V3_MIN_WORKERS : N := 4.

Definition V3_MAX_WORKERS : N := 16.

Definition V3_ELECTION_ATTEMPTS : nat := 3.

Definition V3_STARTUP_COORDINATOR_RECHECKS : nat := 4.

Definition V3_MAX_DELTA : Z := 10 * TRAINING_SCALE.

(** ** The state of a job *)

Inductive Role :=
  | Role_Worker
  | Role_Coordinator.

#[export] Instance Role_eq_dec : EqDecision Role.
Proof. solve_decision. Defined.

(** [result] says whether a caller waits for the report. *)
Record Context := mkContext {
  Context_start : TrainingStart;
  Context_role : Role;
  Context_coordinator : NodeId;
  Context_term : N;
  Context_window : N;
  Context_checkpoint_generation : N;
  Context_checkpoint : option ArtifactId;
  Context_final_checkpoint_committed : bool;
  Context_assignment : TrainingShardAssignment;
  Context_value : Z;
  Context_optimizer : Z;
  Context_generation : N;
  Context_samples : list TrainingSample;
  Context_branch : ArtifactId;
  Context_failed : gset NodeId;
  Context_voted_term : N;
  Context_voted_candidate : option NodeId;
  Context_shard_summaries : BTreeMap N TrainingShardSummary;
  Context_checkpoints : list ArtifactId;
  Context_checkpoint_providers : BTreeMap str (list NodeId);
  Context_accepted_updates : N;
  Context_rejected_updates : N;
  Context_stragglers : N;
  Context_group_progress : BTreeMap N N;
  Context_group_completion_order : list N;
  Context_non_barrier_progress_observed : bool;
  Context_shard_values : BTreeMap N (Z * Z);
  Context_initial_loss : Z;
  Context_result : bool
}.

Definition set_Context_start (v : TrainingStart) (self : Context) : Context :=
    mkContext v self.(Context_role) self.(Context_coordinator) self.(Context_term)
    self.(Context_window) self.(Context_checkpoint_generation) self.(Context_checkpoint)
    self.(Context_final_checkpoint_committed) self.(Context_assignment) self.(Context_value)
    self.(Context_optimizer) self.(Context_generation) self.(Context_samples)
    self.(Context_branch) self.(Context_failed) self.(Context_voted_term)
    self.(Context_voted_candidate) self.(Context_shard_summaries) self.(Context_checkpoints)
    self.(Context_checkpoint_providers) self.(Context_accepted_updates)
    self.(Context_rejected_updates) self.(Context_stragglers) self.(Context_group_progress)
    self.(Context_group_completion_order) self.(Context_non_barrier_progress_observed)
    self.(Context_shard_values) self.(Context_initial_loss) self.(Context_result).

Definition set_Context_role (v : Role) (self : Context) : Context :=
    mkContext self.(Context_start) v self.(Context_coordinator) self.(Context_term)
    self.(Context_window) self.(Context_checkpoint_generation) self.(Context_checkpoint)
    self.(Context_final_checkpoint_committed) self.(Context_assignment) self.(Context_value)
    self.(Context_optimizer) self.(Context_generation) self.(Context_samples)
    self.(Context_branch) self.(Context_failed) self.(Context_voted_term)
    self.(Context_voted_candidate) self.(Context_shard_summaries) self.(Context_checkpoints)
    self.(Context_checkpoint_providers) self.(Context_accepted_updates)
    self.(Context_rejected_updates) self.(Context_stragglers) self.(Context_group_progress)
    self.(Context_group_completion_order) self.(Context_non_barrier_progress_observed)
    self.(Context_shard_values) self.(Context_initial_loss) self.(Context_result).

Definition set_Context_coordinator (v : NodeId) (self : Context) : Context :=
    mkContext self.(Context_start) self.(Context_role) v self.(Context_term)
    self.(Context_window) self.(Context_checkpoint_generation) self.(Context_checkpoint)
    self.(Context_final_checkpoint_committed) self.(Context_assignment) self.(Context_value)
    self.(Context_optimizer) self.(Context_generation) self.(Context_samples)
    self.(Context_branch) self.(Context_failed) self.(Context_voted_term)
    self.(Context_voted_candidate) self.(Context_shard_summaries) self.(Context_checkpoints)
    self.(Context_checkpoint_providers) self.(Context_accepted_updates)
    self.(Context_rejected_updates) self.(Context_stragglers) self.(Context_group_progress)
    self.(Context_group_completion_order) self.(Context_non_barrier_progress_observed)
    self.(Context_shard_values) self.(Context_initial_loss) self.(Context_result).

Definition set_Context_term (v : N) (self : Context) : Context :=
    mkContext self.(Context_start) self.(Context_role) self.(Context_coordinator) v
    self.(Context_window) self.(Context_checkpoint_generation) self.(Context_checkpoint)
    self.(Context_final_checkpoint_committed) self.(Context_assignment) self.(Context_value)
    self.(Context_optimizer) self.(Context_generation) self.(Context_samples)
    self.(Context_branch) self.(Context_failed) self.(Context_voted_term)
    self.(Context_voted_candidate) self.(Context_shard_summaries) self.(Context_checkpoints)
    self.(Context_checkpoint_providers) self.(Context_accepted_updates)
    self.(Context_rejected_updates) self.(Context_stragglers) self.(Context_group_progress)
    self.(Context_group_completion_order) self.(Context_non_barrier_progress_observed)
    self.(Context_shard_values) self.(Context_initial_loss) self.(Context_result).

Definition set_Context_window (v : N) (self : Context) : Context :=
    mkContext self.(Context_start) self.(Context_role) self.(Context_coordinator)
    self.(Context_term) v self.(Context_checkpoint_generation) self.(Context_checkpoint)
    self.(Context_final_checkpoint_committed) self.(Context_assignment) self.(Context_value)
    self.(Context_optimizer) self.(Context_generation) self.(Context_samples)
    self.(Context_branch) self.(Context_failed) self.(Context_voted_term)
    self.(Context_voted_candidate) self.(Context_shard_summaries) self.(Context_checkpoints)
    self.(Context_checkpoint_providers) self.(Context_accepted_updates)
    self.(Context_rejected_updates) self.(Context_stragglers) self.(Context_group_progress)
    self.(Context_group_completion_order) self.(Context_non_barrier_progress_observed)
    self.(Context_shard_values) self.(Context_initial_loss) self.(Context_result).

Definition set_Context_checkpoint_generation (v : N) (self : Context) : Context :=
    mkContext self.(Context_start) self.(Context_role) self.(Context_coordinator)
    self.(Context_term) self.(Context_window) v self.(Context_checkpoint)
    self.(Context_final_checkpoint_committed) self.(Context_assignment) self.(Context_value)
    self.(Context_optimizer) self.(Context_generation) self.(Context_samples)
    self.(Context_branch) self.(Context_failed) self.(Context_voted_term)
    self.(Context_voted_candidate) self.(Context_shard_summaries) self.(Context_checkpoints)
    self.(Context_checkpoint_providers) self.(Context_accepted_updates)
    self.(Context_rejected_updates) self.(Context_stragglers) self.(Context_group_progress)
    self.(Context_group_completion_order) self.(Context_non_barrier_progress_observed)
    self.(Context_shard_values) self.(Context_initial_loss) self.(Context_result).

Definition set_Context_checkpoint (v : option ArtifactId) (self : Context) : Context :=
    mkContext self.(Context_start) self.(Context_role) self.(Context_coordinator)
    self.(Context_term) self.(Context_window) self.(Context_checkpoint_generation) v
    self.(Context_final_checkpoint_committed) self.(Context_assignment) self.(Context_value)
    self.(Context_optimizer) self.(Context_generation) self.(Context_samples)
    self.(Context_branch) self.(Context_failed) self.(Context_voted_term)
    self.(Context_voted_candidate) self.(Context_shard_summaries) self.(Context_checkpoints)
    self.(Context_checkpoint_providers) self.(Context_accepted_updates)
    self.(Context_rejected_updates) self.(Context_stragglers) self.(Context_group_progress)
    self.(Context_group_completion_order) self.(Context_non_barrier_progress_observed)
    self.(Context_shard_values) self.(Context_initial_loss) self.(Context_result).

Definition set_Context_final_checkpoint_committed (v : bool) (self : Context) : Context :=
    mkContext self.(Context_start) self.(Context_role) self.(Context_coordinator)
    self.(Context_term) self.(Context_window) self.(Context_checkpoint_generation)
    self.(Context_checkpoint) v self.(Context_assignment) self.(Context_value)
    self.(Context_optimizer) self.(Context_generation) self.(Context_samples)
    self.(Context_branch) self.(Context_failed) self.(Context_voted_term)
    self.(Context_voted_candidate) self.(Context_shard_summaries) self.(Context_checkpoints)
    self.(Context_checkpoint_providers) self.(Context_accepted_updates)
    self.(Context_rejected_updates) self.(Context_stragglers) self.(Context_group_progress)
    self.(Context_group_completion_order) self.(Context_non_barrier_progress_observed)
    self.(Context_shard_values) self.(Context_initial_loss) self.(Context_result).

Definition set_Context_value (v : Z) (self : Context) : Context :=
    mkContext self.(Context_start) self.(Context_role) self.(Context_coordinator)
    self.(Context_term) self.(Context_window) self.(Context_checkpoint_generation)
    self.(Context_checkpoint) self.(Context_final_checkpoint_committed)
    self.(Context_assignment) v self.(Context_optimizer) self.(Context_generation)
    self.(Context_samples) self.(Context_branch) self.(Context_failed) self.(Context_voted_term)
    self.(Context_voted_candidate) self.(Context_shard_summaries) self.(Context_checkpoints)
    self.(Context_checkpoint_providers) self.(Context_accepted_updates)
    self.(Context_rejected_updates) self.(Context_stragglers) self.(Context_group_progress)
    self.(Context_group_completion_order) self.(Context_non_barrier_progress_observed)
    self.(Context_shard_values) self.(Context_initial_loss) self.(Context_result).

Definition set_Context_optimizer (v : Z) (self : Context) : Context :=
    mkContext self.(Context_start) self.(Context_role) self.(Context_coordinator)
    self.(Context_term) self.(Context_window) self.(Context_checkpoint_generation)
    self.(Context_checkpoint) self.(Context_final_checkpoint_committed)
    self.(Context_assignment) self.(Context_value) v self.(Context_generation)
    self.(Context_samples) self.(Context_branch) self.(Context_failed) self.(Context_voted_term)
    self.(Context_voted_candidate) self.(Context_shard_summaries) self.(Context_checkpoints)
    self.(Context_checkpoint_providers) self.(Context_accepted_updates)
    self.(Context_rejected_updates) self.(Context_stragglers) self.(Context_group_progress)
    self.(Context_group_completion_order) self.(Context_non_barrier_progress_observed)
    self.(Context_shard_values) self.(Context_initial_loss) self.(Context_result).

Definition set_Context_generation (v : N) (self : Context) : Context :=
    mkContext self.(Context_start) self.(Context_role) self.(Context_coordinator)
    self.(Context_term) self.(Context_window) self.(Context_checkpoint_generation)
    self.(Context_checkpoint) self.(Context_final_checkpoint_committed)
    self.(Context_assignment) self.(Context_value) self.(Context_optimizer) v
    self.(Context_samples) self.(Context_branch) self.(Context_failed) self.(Context_voted_term)
    self.(Context_voted_candidate) self.(Context_shard_summaries) self.(Context_checkpoints)
    self.(Context_checkpoint_providers) self.(Context_accepted_updates)
    self.(Context_rejected_updates) self.(Context_stragglers) self.(Context_group_progress)
    self.(Context_group_completion_order) self.(Context_non_barrier_progress_observed)
    self.(Context_shard_values) self.(Context_initial_loss) self.(Context_result).

Definition set_Context_failed (v : gset NodeId) (self : Context) : Context :=
    mkContext self.(Context_start) self.(Context_role) self.(Context_coordinator)
    self.(Context_term) self.(Context_window) self.(Context_checkpoint_generation)
    self.(Context_checkpoint) self.(Context_final_checkpoint_committed)
    self.(Context_assignment) self.(Context_value) self.(Context_optimizer)
    self.(Context_generation) self.(Context_samples) self.(Context_branch) v
    self.(Context_voted_term) self.(Context_voted_candidate) self.(Context_shard_summaries)
    self.(Context_checkpoints) self.(Context_checkpoint_providers)
    self.(Context_accepted_updates) self.(Context_rejected_updates) self.(Context_stragglers)
    self.(Context_group_progress) self.(Context_group_completion_order)
    self.(Context_non_barrier_progress_observed) self.(Context_shard_values)
    self.(Context_initial_loss) self.(Context_result).

Definition set_Context_voted_term (v : N) (self : Context) : Context :=
    mkContext self.(Context_start) self.(Context_role) self.(Context_coordinator)
    self.(Context_term) self.(Context_window) self.(Context_checkpoint_generation)
    self.(Context_checkpoint) self.(Context_final_checkpoint_committed)
    self.(Context_assignment) self.(Context_value) self.(Context_optimizer)
    self.(Context_generation) self.(Context_samples) self.(Context_branch) self.(Context_failed)
    v self.(Context_voted_candidate) self.(Context_shard_summaries) self.(Context_checkpoints)
    self.(Context_checkpoint_providers) self.(Context_accepted_updates)
    self.(Context_rejected_updates) self.(Context_stragglers) self.(Context_group_progress)
    self.(Context_group_completion_order) self.(Context_non_barrier_progress_observed)
    self.(Context_shard_values) self.(Context_initial_loss) self.(Context_result).

Definition set_Context_voted_candidate (v : option NodeId) (self : Context) : Context :=
    mkContext self.(Context_start) self.(Context_role) self.(Context_coordinator)
    self.(Context_term) self.(Context_window) self.(Context_checkpoint_generation)
    self.(Context_checkpoint) self.(Context_final_checkpoint_committed)
    self.(Context_assignment) self.(Context_value) self.(Context_optimizer)
    self.(Context_generation) self.(Context_samples) self.(Context_branch) self.(Context_failed)
    self.(Context_voted_term) v self.(Context_shard_summaries) self.(Context_checkpoints)
    self.(Context_checkpoint_providers) self.(Context_accepted_updates)
    self.(Context_rejected_updates) self.(Context_stragglers) self.(Context_group_progress)
    self.(Context_group_completion_order) self.(Context_non_barrier_progress_observed)
    self.(Context_shard_values) self.(Context_initial_loss) self.(Context_result).

Definition set_Context_shard_summaries (v : BTreeMap N TrainingShardSummary) (self : Context) : Context :=
    mkContext self.(Context_start) self.(Context_role) self.(Context_coordinator)
    self.(Context_term) self.(Context_window) self.(Context_checkpoint_generation)
    self.(Context_checkpoint) self.(Context_final_checkpoint_committed)
    self.(Context_assignment) self.(Context_value) self.(Context_optimizer)
    self.(Context_generation) self.(Context_samples) self.(Context_branch) self.(Context_failed)
    self.(Context_voted_term) self.(Context_voted_candidate) v self.(Context_checkpoints)
    self.(Context_checkpoint_providers) self.(Context_accepted_updates)
    self.(Context_rejected_updates) self.(Context_stragglers) self.(Context_group_progress)
    self.(Context_group_completion_order) self.(Context_non_barrier_progress_observed)
    self.(Context_shard_values) self.(Context_initial_loss) self.(Context_result).

Definition set_Context_checkpoints (v : list ArtifactId) (self : Context) : Context :=
    mkContext self.(Context_start) self.(Context_role) self.(Context_coordinator)
    self.(Context_term) self.(Context_window) self.(Context_checkpoint_generation)
    self.(Context_checkpoint) self.(Context_final_checkpoint_committed)
    self.(Context_assignment) self.(Context_value) self.(Context_optimizer)
    self.(Context_generation) self.(Context_samples) self.(Context_branch) self.(Context_failed)
    self.(Context_voted_term) self.(Context_voted_candidate) self.(Context_shard_summaries) v
    self.(Context_checkpoint_providers) self.(Context_accepted_updates)
    self.(Context_rejected_updates) self.(Context_stragglers) self.(Context_group_progress)
    self.(Context_group_completion_order) self.(Context_non_barrier_progress_observed)
    self.(Context_shard_values) self.(Context_initial_loss) self.(Context_result).

Definition set_Context_checkpoint_providers (v : BTreeMap str (list NodeId)) (self : Context) : Context :=
    mkContext self.(Context_start) self.(Context_role) self.(Context_coordinator)
    self.(Context_term) self.(Context_window) self.(Context_checkpoint_generation)
    self.(Context_checkpoint) self.(Context_final_checkpoint_committed)
    self.(Context_assignment) self.(Context_value) self.(Context_optimizer)
    self.(Context_generation) self.(Context_samples) self.(Context_branch) self.(Context_failed)
    self.(Context_voted_term) self.(Context_voted_candidate) self.(Context_shard_summaries)
    self.(Context_checkpoints) v self.(Context_accepted_updates) self.(Context_rejected_updates)
    self.(Context_stragglers) self.(Context_group_progress)
    self.(Context_group_completion_order) self.(Context_non_barrier_progress_observed)
    self.(Context_shard_values) self.(Context_initial_loss) self.(Context_result).

Definition set_Context_accepted_updates (v : N) (self : Context) : Context :=
    mkContext self.(Context_start) self.(Context_role) self.(Context_coordinator)
    self.(Context_term) self.(Context_window) self.(Context_checkpoint_generation)
    self.(Context_checkpoint) self.(Context_final_checkpoint_committed)
    self.(Context_assignment) self.(Context_value) self.(Context_optimizer)
    self.(Context_generation) self.(Context_samples) self.(Context_branch) self.(Context_failed)
    self.(Context_voted_term) self.(Context_voted_candidate) self.(Context_shard_summaries)
    self.(Context_checkpoints) self.(Context_checkpoint_providers) v
    self.(Context_rejected_updates) self.(Context_stragglers) self.(Context_group_progress)
    self.(Context_group_completion_order) self.(Context_non_barrier_progress_observed)
    self.(Context_shard_values) self.(Context_initial_loss) self.(Context_result).

Definition set_Context_rejected_updates (v : N) (self : Context) : Context :=
    mkContext self.(Context_start) self.(Context_role) self.(Context_coordinator)
    self.(Context_term) self.(Context_window) self.(Context_checkpoint_generation)
    self.(Context_checkpoint) self.(Context_final_checkpoint_committed)
    self.(Context_assignment) self.(Context_value) self.(Context_optimizer)
    self.(Context_generation) self.(Context_samples) self.(Context_branch) self.(Context_failed)
    self.(Context_voted_term) self.(Context_voted_candidate) self.(Context_shard_summaries)
    self.(Context_checkpoints) self.(Context_checkpoint_providers)
    self.(Context_accepted_updates) v self.(Context_stragglers) self.(Context_group_progress)
    self.(Context_group_completion_order) self.(Context_non_barrier_progress_observed)
    self.(Context_shard_values) self.(Context_initial_loss) self.(Context_result).

Definition set_Context_stragglers (v : N) (self : Context) : Context :=
    mkContext self.(Context_start) self.(Context_role) self.(Context_coordinator)
    self.(Context_term) self.(Context_window) self.(Context_checkpoint_generation)
    self.(Context_checkpoint) self.(Context_final_checkpoint_committed)
    self.(Context_assignment) self.(Context_value) self.(Context_optimizer)
    self.(Context_generation) self.(Context_samples) self.(Context_branch) self.(Context_failed)
    self.(Context_voted_term) self.(Context_voted_candidate) self.(Context_shard_summaries)
    self.(Context_checkpoints) self.(Context_checkpoint_providers)
    self.(Context_accepted_updates) self.(Context_rejected_updates) v
    self.(Context_group_progress) self.(Context_group_completion_order)
    self.(Context_non_barrier_progress_observed) self.(Context_shard_values)
    self.(Context_initial_loss) self.(Context_result).

Definition set_Context_group_progress (v : BTreeMap N N) (self : Context) : Context :=
    mkContext self.(Context_start) self.(Context_role) self.(Context_coordinator)
    self.(Context_term) self.(Context_window) self.(Context_checkpoint_generation)
    self.(Context_checkpoint) self.(Context_final_checkpoint_committed)
    self.(Context_assignment) self.(Context_value) self.(Context_optimizer)
    self.(Context_generation) self.(Context_samples) self.(Context_branch) self.(Context_failed)
    self.(Context_voted_term) self.(Context_voted_candidate) self.(Context_shard_summaries)
    self.(Context_checkpoints) self.(Context_checkpoint_providers)
    self.(Context_accepted_updates) self.(Context_rejected_updates) self.(Context_stragglers) v
    self.(Context_group_completion_order) self.(Context_non_barrier_progress_observed)
    self.(Context_shard_values) self.(Context_initial_loss) self.(Context_result).

Definition set_Context_group_completion_order (v : list N) (self : Context) : Context :=
    mkContext self.(Context_start) self.(Context_role) self.(Context_coordinator)
    self.(Context_term) self.(Context_window) self.(Context_checkpoint_generation)
    self.(Context_checkpoint) self.(Context_final_checkpoint_committed)
    self.(Context_assignment) self.(Context_value) self.(Context_optimizer)
    self.(Context_generation) self.(Context_samples) self.(Context_branch) self.(Context_failed)
    self.(Context_voted_term) self.(Context_voted_candidate) self.(Context_shard_summaries)
    self.(Context_checkpoints) self.(Context_checkpoint_providers)
    self.(Context_accepted_updates) self.(Context_rejected_updates) self.(Context_stragglers)
    self.(Context_group_progress) v self.(Context_non_barrier_progress_observed)
    self.(Context_shard_values) self.(Context_initial_loss) self.(Context_result).

Definition set_Context_non_barrier_progress_observed (v : bool) (self : Context) : Context :=
    mkContext self.(Context_start) self.(Context_role) self.(Context_coordinator)
    self.(Context_term) self.(Context_window) self.(Context_checkpoint_generation)
    self.(Context_checkpoint) self.(Context_final_checkpoint_committed)
    self.(Context_assignment) self.(Context_value) self.(Context_optimizer)
    self.(Context_generation) self.(Context_samples) self.(Context_branch) self.(Context_failed)
    self.(Context_voted_term) self.(Context_voted_candidate) self.(Context_shard_summaries)
    self.(Context_checkpoints) self.(Context_checkpoint_providers)
    self.(Context_accepted_updates) self.(Context_rejected_updates) self.(Context_stragglers)
    self.(Context_group_progress) self.(Context_group_completion_order) v
    self.(Context_shard_values) self.(Context_initial_loss) self.(Context_result).

Definition set_Context_shard_values (v : BTreeMap N (Z * Z)) (self : Context) : Context :=
    mkContext self.(Context_start) self.(Context_role) self.(Context_coordinator)
    self.(Context_term) self.(Context_window) self.(Context_checkpoint_generation)
    self.(Context_checkpoint) self.(Context_final_checkpoint_committed)
    self.(Context_assignment) self.(Context_value) self.(Context_optimizer)
    self.(Context_generation) self.(Context_samples) self.(Context_branch) self.(Context_failed)
    self.(Context_voted_term) self.(Context_voted_candidate) self.(Context_shard_summaries)
    self.(Context_checkpoints) self.(Context_checkpoint_providers)
    self.(Context_accepted_updates) self.(Context_rejected_updates) self.(Context_stragglers)
    self.(Context_group_progress) self.(Context_group_completion_order)
    self.(Context_non_barrier_progress_observed) v self.(Context_initial_loss)
    self.(Context_result).

Definition set_Context_result (v : bool) (self : Context) : Context :=
    mkContext self.(Context_start) self.(Context_role) self.(Context_coordinator)
    self.(Context_term) self.(Context_window) self.(Context_checkpoint_generation)
    self.(Context_checkpoint) self.(Context_final_checkpoint_committed)
    self.(Context_assignment) self.(Context_value) self.(Context_optimizer)
    self.(Context_generation) self.(Context_samples) self.(Context_branch) self.(Context_failed)
    self.(Context_voted_term) self.(Context_voted_candidate) self.(Context_shard_summaries)
    self.(Context_checkpoints) self.(Context_checkpoint_providers)
    self.(Context_accepted_updates) self.(Context_rejected_updates) self.(Context_stragglers)
    self.(Context_group_progress) self.(Context_group_completion_order)
    self.(Context_non_barrier_progress_observed) self.(Context_shard_values)
    self.(Context_initial_loss) v.

(** ** Groups and samples *)

(** Members [shard_id], [shard_id + 2], ... of the workers. *)
Definition group_members (shard_id : nat) (workers : list NodeId) : list NodeId :=
  snd <$> List.filter (fun p => Nat.eqb (Nat.modulo (fst p) 2) shard_id) (enumerate workers).

Definition make_group (workers : list NodeId) (shard_id : nat) : option TrainingGroup :=
  let members := group_members shard_id workers in
  match members with
  | [] => None
  | aggregator :: _ => Some (mkTrainingGroup (N.of_nat shard_id) (N.of_nat shard_id) members aggregator)
  end.

Definition make_groups (workers : list NodeId) : list TrainingGroup :=
  omap (make_group workers) [0%nat; 1%nat].

Definition samples_for_shard (shard_id : N) : list TrainingSample :=
  let target := if shard_id =? 0 then 2%Z else 3%Z in
  map (fun feature => mkTrainingSample feature (target * feature)) [1; 2; 3; 4; 5; 6; 7; 8]%Z.

(** ** Hashes *)

Section Hashes.
Context `{Blake3} `{Json (JobId * N * N * Z * Z)} `{Json TrainingCheckpointManifest}.

(** [serde_json::to_vec(value).unwrap_or_default()] *)
Definition json_or_default {T} `{Json T} (value : T) : list N :=
  match to_vec value with Ok bytes => bytes | Err _ => [] end.

Definition state_hash (job_id : JobId) (shard_id generation : N) (value optimizer : Z) : ArtifactId :=
  ArtifactId_from_bytes_hashed (json_or_default (job_id, shard_id, generation, value, optimizer)).

Definition with_hash (manifest : TrainingCheckpointManifest) (hash : ArtifactId)
    : TrainingCheckpointManifest :=
  mkTrainingCheckpointManifest manifest.(TrainingCheckpointManifest_job_id)
    manifest.(TrainingCheckpointManifest_model_generation)
    manifest.(TrainingCheckpointManifest_optimizer_generation)
    manifest.(TrainingCheckpointManifest_membership_epoch)
    manifest.(TrainingCheckpointManifest_term)
    manifest.(TrainingCheckpointManifest_checkpoint_generation)
    manifest.(TrainingCheckpointManifest_parent) manifest.(TrainingCheckpointManifest_shards)
    manifest.(TrainingCheckpointManifest_dataset_progress) hash.

Definition checkpoint_hash (manifest : TrainingCheckpointManifest) : ArtifactId :=
  ArtifactId_from_bytes_hashed (json_or_default (with_hash manifest ArtifactId_default)).
End Hashes.

(** ** When a job is complete *)

Definition quorum (size : N) : N := size / 2 + 1.

(** [checkpoint_every] is not zero: a start that says so is refused. *)
Definition final_checkpoint_generation (start : TrainingStart) : N :=
  sat_add u64_max start.(TrainingStart_max_windows)
    (sat_sub start.(TrainingStart_checkpoint_every) 1) / start.(TrainingStart_checkpoint_every).

Definition state_covers_final_model (start : TrainingStart) (state : TrainingState) : bool :=
  (start.(TrainingStart_max_windows) <=? state.(TrainingState_window))
  && (final_checkpoint_generation start <=? state.(TrainingState_checkpoint_generation))
  && forallb (fun expected =>
       match List.find (fun actual => actual.(TrainingShardSummary_shard_id)
                                      =? expected.(TrainingShardAssignment_shard_id))
               state.(TrainingState_shards) with
       | Some actual => start.(TrainingStart_max_windows) <=? actual.(TrainingShardSummary_generation)
       | None => false
       end) start.(TrainingStart_shards).

(** Every shard of the job has reached its last generation. *)
Definition shards_reached_final (context : Context) : bool :=
  forallb (fun expected =>
    match bt_get expected.(TrainingShardAssignment_shard_id) context.(Context_shard_summaries) with
    | Some actual =>
        context.(Context_start).(TrainingStart_max_windows) <=? actual.(TrainingShardSummary_generation)
    | None => false
    end) context.(Context_start).(TrainingStart_shards).

Definition context_covers_final_model (context : Context) : bool :=
  context.(Context_final_checkpoint_committed)
  && (context.(Context_start).(TrainingStart_max_windows) <=? context.(Context_window))
  && (final_checkpoint_generation context.(Context_start) <=? context.(Context_checkpoint_generation))
  && shards_reached_final context.

Definition group_for (start : TrainingStart) (group_id : N) : option TrainingGroup :=
  List.find (fun group => group.(TrainingGroup_group_id) =? group_id) start.(TrainingStart_groups).

(** ** Numbers *)

Definition i64_saturating_sub (a b : Z) : Z := clamp_to i64_min i64_max (a - b).

Definition i64_saturating_abs (a : Z) : Z := clamp_to i64_min i64_max (Z.abs a).

Section Numbers.
Context `{Profile}.

Definition i64_sum (values : list Z) : option Z := sum_with i64_add 0 values.

Definition samples_loss (value : Z) (samples : list TrainingSample) : option Z :=
  match samples with
  | [] => Some 0%Z
  | _ =>
      sum ← i64_sum (map (fun sample =>
        let error := i64_saturating_sub (i64_saturating_mul value sample.(TrainingSample_feature))
                       sample.(TrainingSample_target) in
        i64_saturating_mul error error) samples);
      Some (Z.quot sum (Z.of_N (len samples)))
  end.

(** [values[values.len() / 2]] of the sorted values. *)
Definition median (values : list Z) : option Z :=
  let values := sort values in values !! (length values / 2)%nat.

(** The sum of the gradients of the samples. *)
Definition gradient_sum (value : Z) (samples : list TrainingSample) : Z :=
  fold_left (fun gradient_sum sample =>
    let prediction := i64_saturating_mul value sample.(TrainingSample_feature) in
    let error := i64_saturating_sub prediction sample.(TrainingSample_target) in
    i64_saturating_add gradient_sum (i64_saturating_mul error sample.(TrainingSample_feature)))
    samples 0%Z.

(** One local step from a value: the new value and the gradient, which is the optimizer state. *)
Definition local_step (samples : list TrainingSample) (state : Z * Z) : Z * Z :=
  let value := state.1 in
  let gradient := Z.quot (gradient_sum value samples) (Z.of_N (N.max (len samples) 1)) in
  let delta := wrap_i64 (Z.quot (gradient * 50000) TRAINING_SCALE) in
  (i64_saturating_sub value delta, gradient).

Definition compute_update (context : Context) (window : TrainingWindow) (worker : NodeId)
    : option TrainingUpdate :=
  let samples := context.(Context_samples) in
  let '(value, optimizer) :=
    Nat.iter (N.to_nat window.(TrainingWindow_local_steps)) (local_step samples)
      (context.(Context_value), context.(Context_optimizer)) in
  loss ← samples_loss value samples;
  Some {| TrainingUpdate_job_id := context.(Context_start).(TrainingStart_job_id);
          TrainingUpdate_worker := worker;
          TrainingUpdate_term := context.(Context_term);
          TrainingUpdate_membership_epoch := context.(Context_start).(TrainingStart_membership_epoch);
          TrainingUpdate_branch := context.(Context_branch);
          TrainingUpdate_window := window.(TrainingWindow_window);
          TrainingUpdate_shard_id := window.(TrainingWindow_shard_id);
          TrainingUpdate_base_generation := window.(TrainingWindow_base_generation);
          TrainingUpdate_update_sequence := sat_add u64_max window.(TrainingWindow_window) 1;
          TrainingUpdate_value := value;
          TrainingUpdate_optimizer := optimizer;
          TrainingUpdate_loss := loss;
          TrainingUpdate_samples := trunc u32_max (len samples) |}.

(** ** Building and reading a context *)

Definition assigned_summary (shard : TrainingShardAssignment) : TrainingShardSummary :=
  mkTrainingShardSummary shard.(TrainingShardAssignment_shard_id)
    shard.(TrainingShardAssignment_generation) shard.(TrainingShardAssignment_state_hash)
    shard.(TrainingShardAssignment_replicas).

Definition Context_new (start : TrainingStart) (role : Role) (result : bool) : option Context :=
  let assignment := start.(TrainingStart_assignment) in
  let initial := (start.(TrainingStart_initial_value), start.(TrainingStart_initial_optimizer)) in
  losses ← mapM (fun shard =>
      samples_loss 0 (samples_for_shard shard.(TrainingShardAssignment_shard_id)))
    start.(TrainingStart_shards);
  initial_loss ← i64_sum losses;
  Some {| Context_start := start;
          Context_role := role;
          Context_coordinator := start.(TrainingStart_coordinator);
          Context_term := start.(TrainingStart_term);
          Context_window := 0;
          Context_checkpoint_generation := 0;
          Context_checkpoint := None;
          Context_final_checkpoint_committed := false;
          Context_assignment := assignment;
          Context_value := start.(TrainingStart_initial_value);
          Context_optimizer := start.(TrainingStart_initial_optimizer);
          Context_generation := assignment.(TrainingShardAssignment_generation);
          Context_samples := start.(TrainingStart_samples);
          Context_branch := start.(TrainingStart_branch);
          Context_failed := ∅;
          Context_voted_term := start.(TrainingStart_term);
          Context_voted_candidate := None;
          Context_shard_summaries :=
            fold_left (fun summaries shard =>
                bt_insert shard.(TrainingShardAssignment_shard_id) (assigned_summary shard) summaries)
              start.(TrainingStart_shards) [];
          Context_checkpoints := [];
          Context_checkpoint_providers := [];
          Context_accepted_updates := 0;
          Context_rejected_updates := 0;
          Context_stragglers := 0;
          Context_group_progress :=
            fold_left (fun progress group => bt_insert group.(TrainingGroup_group_id) 0 progress)
              start.(TrainingStart_groups) [];
          Context_group_completion_order := [];
          Context_non_barrier_progress_observed := false;
          Context_shard_values :=
            match role with
            | Role_Coordinator =>
                fold_left (fun values shard =>
                    bt_insert shard.(TrainingShardAssignment_shard_id) initial values)
                  start.(TrainingStart_shards) []
            | Role_Worker => [(assignment.(TrainingShardAssignment_shard_id), initial)]
            end;
          Context_initial_loss := initial_loss;
          Context_result := result |}.
End Numbers.

Definition Context_state (self : Context) : TrainingState :=
  {| TrainingState_job_id := self.(Context_start).(TrainingStart_job_id);
     TrainingState_coordinator := self.(Context_coordinator);
     TrainingState_term := self.(Context_term);
     TrainingState_membership_epoch := self.(Context_start).(TrainingStart_membership_epoch);
     TrainingState_branch := self.(Context_branch);
     TrainingState_window := self.(Context_window);
     TrainingState_checkpoint_generation := self.(Context_checkpoint_generation);
     TrainingState_checkpoint := self.(Context_checkpoint);
     TrainingState_shards := map snd self.(Context_shard_summaries) |}.

(** The generation a shard has reached. *)
Definition shard_generation (context : Context) (shard_id : N) : N :=
  match bt_get shard_id context.(Context_shard_summaries) with
  | Some summary => summary.(TrainingShardSummary_generation)
  | None => 0
  end.

(** ** Checkpoints *)

Definition providers (aggregate : TrainingAggregate) : list NodeId :=
  fold_left (fun providers provider =>
      if contains provider providers then providers else providers ++ [provider])
    aggregate.(TrainingAggregate_replicas) [aggregate.(TrainingAggregate_aggregator)].

Definition aggregate_summary (aggregate : TrainingAggregate) : TrainingShardSummary :=
  mkTrainingShardSummary aggregate.(TrainingAggregate_shard_id)
    aggregate.(TrainingAggregate_generation) aggregate.(TrainingAggregate_state_artifact)
    (providers aggregate).

Section Checkpoints.
Context `{Blake3} `{Json TrainingCheckpointManifest}.

(** A manifest of the context's next checkpoint, with its hash. *)
Definition manifest_of (context : Context) (generation : N) (shards : list TrainingCheckpointShard)
    (dataset_progress : list (N * N)) : TrainingCheckpointManifest :=
  let manifest := mkTrainingCheckpointManifest context.(Context_start).(TrainingStart_job_id)
    generation generation context.(Context_start).(TrainingStart_membership_epoch)
    context.(Context_term) (sat_add u64_max context.(Context_checkpoint_generation) 1)
    context.(Context_checkpoint) shards dataset_progress ArtifactId_default in
  with_hash manifest (checkpoint_hash manifest).

Definition summary_shard (summary : TrainingShardSummary) : TrainingCheckpointShard :=
  mkTrainingCheckpointShard summary.(TrainingShardSummary_shard_id)
    summary.(TrainingShardSummary_state_hash) summary.(TrainingShardSummary_generation)
    summary.(TrainingShardSummary_providers).

(** [iter.max().unwrap_or(0)] *)
Definition max_or_0 (values : list N) : N := fold_left N.max values 0.

Definition make_checkpoint_from_context (context : Context)
    : result TrainingCheckpointManifest NodeError :=
  let shards := map summary_shard (map snd context.(Context_shard_summaries)) in
  fail_if (is_empty shards)
    (invalid_config "cannot commit an autonomous checkpoint without shard state") ;?
  Ok (manifest_of context (max_or_0 (map TrainingCheckpointShard_generation shards)) shards
        (map (fun shard => (shard.(TrainingCheckpointShard_shard_id),
                            shard.(TrainingCheckpointShard_generation))) shards)).

Definition make_checkpoint (context : Context) (aggregates : list TrainingAggregate)
    : TrainingCheckpointManifest :=
  manifest_of context (max_or_0 (map TrainingAggregate_generation aggregates))
    (map (fun aggregate => summary_shard (aggregate_summary aggregate)) aggregates)
    (map (fun aggregate => (aggregate.(TrainingAggregate_shard_id),
                            aggregate.(TrainingAggregate_window))) aggregates).
End Checkpoints.

(** The manifest completes the model. *)
Definition manifest_is_final (start : TrainingStart) (manifest : TrainingCheckpointManifest) : bool :=
  (final_checkpoint_generation start <=? manifest.(TrainingCheckpointManifest_checkpoint_generation))
  && forallb (fun shard => start.(TrainingStart_max_windows)
                           <=? shard.(TrainingCheckpointShard_generation))
       manifest.(TrainingCheckpointManifest_shards).

(** ** Starting a job *)

(** A peer that can host a shard. *)
Definition can_train (now : N) (local : NodeId) (record : PeerRecord) : bool :=
  (record.(PeerRecord_node_id) != local)
  && (now <=? record.(PeerRecord_expires_at))
  && existsb (fun capability =>
       ((capability.(Capability_name) == V3_CAPABILITY)
        || (capability.(Capability_name) == "training.v3"%string))
       && (64 * 1024 * 1024 <=? capability.(Capability_resources).(ResourceLimits_memory_bytes)))
     record.(PeerRecord_capabilities).

Definition select_workers (now : N) (local : NodeId) (records : list PeerRecord) (requested : N)
    : list NodeId :=
  take (N.to_nat requested)
    (dedup_by_key (fun node => node) (sort_by_key NodeId_0
      (map PeerRecord_node_id (List.filter (can_train now local) records)))).

Section Start.
Context `{Blake3} `{Json (JobId * N * N * Z * Z)} `{Json (str * JobId)}.
Context `{Json (str * list NodeId * list TrainingGroup * list TrainingShardAssignment * N * N * N)}.

Definition initial_shard (job_id : JobId) (group : TrainingGroup) : TrainingShardAssignment :=
  mkTrainingShardAssignment group.(TrainingGroup_shard_id) group.(TrainingGroup_group_id)
    group.(TrainingGroup_members) group.(TrainingGroup_members) 0
    (state_hash job_id group.(TrainingGroup_shard_id) 0 0 0).

Definition worker_start (job_id : JobId) (coordinator : NodeId) (branch plan_hash : ArtifactId)
    (max_windows local_steps checkpoint_every : N) (workers : list NodeId)
    (groups : list TrainingGroup) (shards : list TrainingShardAssignment)
    (assignment : TrainingShardAssignment) : TrainingStart :=
  {| TrainingStart_job_id := job_id;
     TrainingStart_coordinator := coordinator;
     TrainingStart_term := 1;
     TrainingStart_membership_epoch := 1;
     TrainingStart_branch := branch;
     TrainingStart_plan_hash := plan_hash;
     TrainingStart_max_windows := max_windows;
     TrainingStart_local_steps := local_steps;
     TrainingStart_max_staleness := local_steps;
     TrainingStart_checkpoint_every := checkpoint_every;
     TrainingStart_execution := TrainingExecution_AutonomousLocalSgd;
     TrainingStart_model_state_bytes := 2 * 1024;
     TrainingStart_shard_state_bytes := 1024;
     TrainingStart_participants := workers;
     TrainingStart_groups := groups;
     TrainingStart_shards := shards;
     TrainingStart_assignment := assignment;
     TrainingStart_initial_value := 0;
     TrainingStart_initial_optimizer := 0;
     TrainingStart_samples := samples_for_shard assignment.(TrainingShardAssignment_shard_id) |}.

(** What [start_training_with_mode] sends to each worker; indexing [shards] panics when there are
    none, which the check on the number of workers rules out. *)
Definition make_starts (job_id : JobId) (coordinator : NodeId)
    (max_windows local_steps checkpoint_every : N) (workers : list NodeId)
    : result (list (NodeId * TrainingStart)) NodeError :=
  fail_if (len workers <? V3_MIN_WORKERS)
    (invalid_config ("V3 training needs at least 4 live training workers; discovered "
                     ++ decimal (len workers))%string) ;?
  let? branch_bytes := map_err NodeError_Json
    (to_vec ("intelligence-network/v3/branch"%string, job_id)) in
  let groups := make_groups workers in
  let shards := map (initial_shard job_id) groups in
  let? plan_bytes := map_err NodeError_Json
    (to_vec ("v3-local-sgd"%string, workers, groups, shards, max_windows, local_steps,
             checkpoint_every)) in
  try_map (fun p : nat * NodeId =>
      let (index, worker) := p in
      let assignment := nth (Nat.modulo index (length shards)) shards
        (mkTrainingShardAssignment 0 0 [] [] 0 ArtifactId_default) in
      let start := worker_start job_id coordinator (ArtifactId_from_bytes_hashed branch_bytes)
        (ArtifactId_from_bytes_hashed plan_bytes) max_windows local_steps checkpoint_every workers
        groups shards assignment in
      map_err (fun error => invalid_config (ValidationError_to_string error))
        (Message_validate (Message_Training (TrainingMessage_Start start))) ;?
      Ok (worker, start)) (enumerate workers).

Definition start_parameters_ok (requested_workers max_windows local_steps checkpoint_every : N) : bool :=
  (V3_MIN_WORKERS <=? requested_workers) && (requested_workers <=? V3_MAX_WORKERS)
  && (1 <=? max_windows) && (max_windows <=? 256)
  && (1 <=? local_steps) && (local_steps <=? 64)
  && negb (checkpoint_every =? 0).
End Start.
