(* ===== verification/V3Tasks.v ===== *)
(** * Distributed training: the tasks of a job (crates/node/src/distributed_training.rs)

    A node runs one task per training job; it owns the job's [Context], reads the job's mailbox
    and talks to the other participants.  A [ctask] is such a task: it takes the context and gives
    it back, changed, with its result; what it changed before an error stays changed.

    Loops that end with a timer or with what arrives take [fuel]: a run of the model goes through
    each loop that many times at most and stops there, so a theorem about the model for every fuel
    speaks of every finite run.  An arithmetic panic ends the task ([panic]).  The vote requests of
    an election are sent by tasks of their own in the source, which then waits for all of them;
    here they are sent one after the other. *)

From Stdlib Require Import String ZArith NArith Lia.
From stdpp Require Import base tactics sets strings numbers list gmap.
From S2P Require Import Prelude OrdMap Types Validation FileSystem Storage Aggregation Compute Float32 Planner Trust Security Network NodeConfig Tasks NodeState NodeJobs NodeArtifacts V3Model.
Local Open Scope N_scope.
Local Open Scope rust_scope.

(** ** Tasks that own a context *)

Definition ctask (A : Type) : Type := Context -> ntask (Context * A).

Definition cret {A} (a : A) : ctask A := fun context => Done (context, a).

Definition cbind {A B} (m : ctask A) (k : A -> ctask B) : ctask B :=
  fun context => tbind (m context) (fun p => k p.2 p.1).

Definition ctry {A B E} (m : ctask (result A E)) (k : A -> ctask (result B E)) : ctask (result B E) :=
  cbind m (fun r => match r with Ok a => k a | Err e => cret (Err e) end).

Definition lift {A} (t : ntask A) : ctask A :=
  fun context => tbind t (fun a => Done (context, a)).

Definition cget : ctask Context := fun context => Done (context, context).

Definition cput (f : Context -> Context) : ctask unit := fun context => Done (f context, tt).

Definition panic {A} : ctask A := fun _ => forever.

Definition or_panic {A} (o : option A) : ctask A :=
  match o with Some a => cret a | None => panic end.

Declare Scope ctask_scope.
Delimit Scope ctask_scope with ctask.
Bind Scope ctask_scope with ctask.
Notation "'do!' x := m 'in' k" := (cbind m (fun x => k))
  (at level 200, x name, m at level 100, k at level 200, right associativity) : ctask_scope.
Notation "m >>! k" := (cbind m (fun _ => k)) (at level 95, right associativity) : ctask_scope.
Notation "'do?' x := m 'in' k" := (ctry m (fun x => k))
  (at level 200, x name, m at level 100, k at level 200, right associativity) : ctask_scope.
Notation "m >>? k" := (ctry m (fun _ => k)) (at level 95, right associativity) : ctask_scope.
Local Open Scope ctask_scope.

Fixpoint cfor {A} (body : A -> ctask unit) (xs : list A) : ctask unit :=
  match xs with
  | [] => cret tt
  | x :: xs => body x >>! cfor body xs
  end.

(** ** Surroundings *)

Definition is_connected (peer : NodeId) : ntask bool := reading (fun e _ => e.(ne_connected)).

(** The timer of the loop has run out. *)
Definition elapsed : ntask bool := reading (fun e _ => e.(ne_elapsed)).

Definition tick : ntask bool := reading (fun e _ => e.(ne_tick)).

Definition sleep : ntask unit :=
  Step (fun e s => if e.(ne_elapsed) then Some (tt, s, []) else None) Done.

(** [timeout(duration, t).await.is_ok_and(|result| result.is_ok())] *)
Definition timed_ok {A} (t : node A) : ntask bool :=
  let! r := timeout ne_elapsed t in
  Done (match r with Some (Ok _) => true | _ => false end).

(** [timeout(remaining, receiver.recv())] *)
Definition recv (job : JobId) : ntask (Received V3Inbound) :=
  Step (fun e s =>
      match e.(ne_event) with
      | Some (Some event) => Some (Received_Value event, s, [Did_Receive job event])
      | Some None => Some (Received_Closed, s, [])
      | None => if e.(ne_elapsed) then Some (Received_Timeout, s, []) else None
      end) Done.

Notation job_of context := context.(Context_start).(TrainingStart_job_id).

(** The next event of a loop with a deadline, if one comes in time. *)
Definition next_event : ctask (option V3Inbound) :=
  do! over := lift elapsed in
  if (over : bool) then cret None
  else
    do! context := cget in
    do! event := lift (recv (job_of context)) in
    cret (match event with Received_Value event => Some event | _ => None end).

Definition send_training (peer : NodeId) (message : TrainingMessage) : node unit :=
  send_to peer (Message_Training message).

(** [let _ = timeout(duration, send).await;] *)
Definition try_send (peer : NodeId) (message : TrainingMessage) : ntask unit :=
  ignore (timeout ne_elapsed (send_training peer message)).

(** ** Changes of a context *)

Definition count_rejected (context : Context) : Context :=
  set_Context_rejected_updates (sat_add u64_max context.(Context_rejected_updates) 1) context.

Definition count_straggler (context : Context) : Context :=
  set_Context_stragglers (sat_add u64_max context.(Context_stragglers) 1) context.

Definition mark_failed (peer : NodeId) (context : Context) : Context :=
  set_Context_failed ({[peer]} ∪ context.(Context_failed)) context.

Definition unmark_failed (peer : NodeId) (context : Context) : Context :=
  set_Context_failed (context.(Context_failed) ∖ {[peer]}) context.

Definition put_summary (summary : TrainingShardSummary) (context : Context) : Context :=
  set_Context_shard_summaries
    (bt_insert summary.(TrainingShardSummary_shard_id) summary context.(Context_shard_summaries)) context.

(** The summary is newer than what the context has of the shard. *)
Definition is_newer (context : Context) (summary : TrainingShardSummary) : bool :=
  match bt_get summary.(TrainingShardSummary_shard_id) context.(Context_shard_summaries) with
  | None => true
  | Some current =>
      current.(TrainingShardSummary_generation) <? summary.(TrainingShardSummary_generation)
  end.

Definition advance_summary (context : Context) (summary : TrainingShardSummary) : Context :=
  if is_newer context summary then put_summary summary context else context.

Definition is_failed (context : Context) (peer : NodeId) : bool := bool_decide (peer ∈ context.(Context_failed)).

Definition is_participant (context : Context) (peer : NodeId) : bool :=
  contains peer context.(Context_start).(TrainingStart_participants).

Definition next_window (context : Context) (group : TrainingGroup) : N :=
  match bt_get group.(TrainingGroup_shard_id) context.(Context_shard_summaries) with
  | Some summary => sat_add u64_max summary.(TrainingShardSummary_generation) 1
  | None => 1
  end.

Definition window_message (context : Context) (group : TrainingGroup) (window : N) : TrainingWindow :=
  {| TrainingWindow_job_id := job_of context;
     TrainingWindow_coordinator := context.(Context_coordinator);
     TrainingWindow_term := context.(Context_term);
     TrainingWindow_membership_epoch := context.(Context_start).(TrainingStart_membership_epoch);
     TrainingWindow_branch := context.(Context_branch);
     TrainingWindow_window := window;
     TrainingWindow_group_id := group.(TrainingGroup_group_id);
     TrainingWindow_shard_id := group.(TrainingGroup_shard_id);
     TrainingWindow_aggregator := group.(TrainingGroup_aggregator);
     TrainingWindow_members := group.(TrainingGroup_members);
     TrainingWindow_base_generation := shard_generation context group.(TrainingGroup_shard_id);
     TrainingWindow_local_steps := context.(Context_start).(TrainingStart_local_steps);
     TrainingWindow_max_staleness := context.(Context_start).(TrainingStart_max_staleness) |}.

Definition with_groups (start : TrainingStart) (groups : list TrainingGroup) : TrainingStart :=
  mkTrainingStart start.(TrainingStart_job_id) start.(TrainingStart_coordinator)
    start.(TrainingStart_term) start.(TrainingStart_membership_epoch) start.(TrainingStart_branch)
    start.(TrainingStart_plan_hash) start.(TrainingStart_max_windows)
    start.(TrainingStart_local_steps) start.(TrainingStart_max_staleness)
    start.(TrainingStart_checkpoint_every) start.(TrainingStart_execution)
    start.(TrainingStart_model_state_bytes) start.(TrainingStart_shard_state_bytes)
    start.(TrainingStart_participants) groups start.(TrainingStart_shards)
    start.(TrainingStart_assignment) start.(TrainingStart_initial_value)
    start.(TrainingStart_initial_optimizer) start.(TrainingStart_samples).

(** The group that is active under the identifier is replaced. *)
Definition replace_group (group : TrainingGroup) (context : Context) : Context :=
  set_Context_start (with_groups context.(Context_start)
    (replace_first (fun active => active.(TrainingGroup_group_id) =? group.(TrainingGroup_group_id))
       group context.(Context_start).(TrainingStart_groups))) context.

(** The group without its failed members, with the first live one as its aggregator. *)
Definition retry_group (context : Context) (group : TrainingGroup) : option TrainingGroup :=
  match List.find (fun member => negb (is_failed context member)) group.(TrainingGroup_members) with
  | None => None
  | Some replacement =>
      Some (mkTrainingGroup group.(TrainingGroup_group_id) group.(TrainingGroup_shard_id)
              (List.filter (fun member => negb (is_failed context member)) group.(TrainingGroup_members))
              replacement)
  end.

Section Job.
Context `{Profile} `{Blake3} `{ContributionPostcard} `{NodeText} `{Hex}.
Context `{Json (JobId * N * N * Z * Z)} `{Json TrainingCheckpointManifest} `{Json TrainingStart}.
Context `{Json TrainingState} `{Json TrainingShardState} `{Json (list N)}.
Context (security_to_allocvec : LocalSecurityState -> result (list N) str).
Context (config : NodeConfig) (identity : Identity) (store : LocalStore) (fuel : nat).
Notation node_id := identity.(Identity_node_id).
Notation persist_security_state := (persist_security_state security_to_allocvec store).

(** ** What a job keeps on disk *)

Definition state_file (job : JobId) : str := ("training-v3-" ++ hex_encode (JobId_0 job) ++ ".json")%string.

Definition start_file (job : JobId) : str :=
  ("training-v3-start-" ++ hex_encode (JobId_0 job) ++ ".json")%string.

Definition shard_file (job : JobId) (shard_id : N) : str :=
  ("training-v3-shard-" ++ hex_encode (JobId_0 job) ++ "-" ++ decimal shard_id ++ ".json")%string.

Definition checkpoint_file (artifact : ArtifactId) : str :=
  ("training-v3-checkpoint-" ++ hex_encode (ArtifactId_0 artifact) ++ ".json")%string.

Definition persist_state (state : TrainingState) : node unit :=
  storage (write_json store (state_file state.(TrainingState_job_id)) state).

Definition persist_start (start : TrainingStart) : node unit :=
  storage (write_json store (start_file start.(TrainingStart_job_id)) start).

Definition persist_shard_state (state : TrainingShardState) : node unit :=
  storage (write_json store
    (shard_file state.(TrainingShardState_job_id) state.(TrainingShardState_shard_id)) state).

Definition persist_checkpoint (commit : TrainingCheckpointCommit) : node unit :=
  storage (write_json store
    (checkpoint_file commit.(TrainingCheckpointCommit_manifest).(TrainingCheckpointManifest_hash))
    commit.(TrainingCheckpointCommit_manifest)).

(** The state of the context goes to disk and into [v3_states]. *)
Definition record_context : ctask (result TrainingState NodeError) :=
  do! context := cget in
  let state := Context_state context in
  lift (persist_state state) >>?
  lift (updating (fun _ s =>
    set_NodeState_v3_states (<[state.(TrainingState_job_id) := state]> s.(NodeState_v3_states)) s)) >>!
  cret (Ok state).

(** ** Messages *)

Definition send_ack (peer : NodeId) (job_id : JobId) (term : N) (kind : TrainingAckKind) : ntask unit :=
  ignore (send_training peer (TrainingMessage_Ack (mkTrainingAck job_id node_id term kind))).

(** To every participant that is not this node and has not failed. *)
Definition broadcast (message : TrainingMessage) : ctask unit :=
  do! context := cget in
  cfor (fun peer =>
    if (peer == node_id) || is_failed context peer then cret tt
    else lift (try_send peer message)) context.(Context_start).(TrainingStart_participants).

Definition broadcast_state (state : TrainingState) : ctask unit :=
  broadcast (TrainingMessage_State state).

Definition broadcast_checkpoint (commit : TrainingCheckpointCommit) : ctask unit :=
  broadcast (TrainingMessage_CheckpointCommit commit).

Definition restore_training_peer (peer : NodeId) : ctask bool :=
  do! context := cget in
  if (peer != context.(Context_start).(TrainingStart_coordinator)) && negb (is_participant context peer)
  then cret false
  else
    do! live := if peer != context.(Context_coordinator) then lift (is_connected peer) else cret false in
    if (live : bool) then cput (unmark_failed peer) >>! cret true
    else
      do! reconnected := lift (timed_ok (reconnect_peer peer)) in
      if (reconnected : bool) then cput (unmark_failed peer) >>! cret true
      else cret false.

(** ** Votes and states of other participants *)

Definition handle_election (peer : NodeId) (election : TrainingElection) : ctask (result unit NodeError) :=
  do! context := cget in
  if (peer != election.(TrainingElection_candidate))
     || (election.(TrainingElection_job_id) != job_of context)
     || negb (election.(TrainingElection_membership_epoch)
              =? context.(Context_start).(TrainingStart_membership_epoch))
     || (election.(TrainingElection_branch) != context.(Context_branch))
     || negb (is_participant context election.(TrainingElection_candidate))
  then cret (Ok tt)
  else
    let recovery_state := Context_state context in
    do! granted :=
      if context.(Context_term) <? election.(TrainingElection_term) then
        cput (fun context =>
          set_Context_voted_term election.(TrainingElection_term)
            (set_Context_voted_candidate (Some election.(TrainingElection_candidate)) context)) >>!
        cret true
      else
        cret ((election.(TrainingElection_term) =? context.(Context_voted_term))
              && (context.(Context_voted_candidate) == Some election.(TrainingElection_candidate))) in
    lift (send_ack peer election.(TrainingElection_job_id) election.(TrainingElection_term)
      (TrainingAckKind_Vote election.(TrainingElection_candidate) election.(TrainingElection_term)
         context.(Context_window) granted)) >>!
    (if (granted : bool)
     then lift (ignore (send_training peer (TrainingMessage_State recovery_state)))
     else cret tt) >>!
    cret (Ok tt).

(** The state of another node is not taken: it is not the coordinator's, of another job or branch,
    older, or of the same term with another checkpoint of the same generation. *)
Definition state_refused (context : Context) (peer : NodeId) (state : TrainingState) : bool :=
  (peer != state.(TrainingState_coordinator))
  || (state.(TrainingState_job_id) != job_of context)
  || (state.(TrainingState_branch) != context.(Context_branch))
  || (state.(TrainingState_term) <? context.(Context_term))
  || ((state.(TrainingState_term) =? context.(Context_term))
      && (state.(TrainingState_window) <? context.(Context_window)))
  || ((state.(TrainingState_term) =? context.(Context_term))
      && (state.(TrainingState_checkpoint_generation) =? context.(Context_checkpoint_generation))
      && bool_decide (is_Some state.(TrainingState_checkpoint))
      && bool_decide (is_Some context.(Context_checkpoint))
      && (state.(TrainingState_checkpoint) != context.(Context_checkpoint))).

Definition adopt_state (state : TrainingState) (context : Context) : Context :=
  let context := set_Context_coordinator state.(TrainingState_coordinator) context in
  let context := set_Context_term state.(TrainingState_term) context in
  let context := set_Context_window state.(TrainingState_window) context in
  let context :=
    if context.(Context_checkpoint_generation) <? state.(TrainingState_checkpoint_generation) then
      set_Context_checkpoint_generation state.(TrainingState_checkpoint_generation)
        (set_Context_checkpoint state.(TrainingState_checkpoint) context)
    else if bool_decide (context.(Context_checkpoint) = None)
            && (state.(TrainingState_checkpoint_generation) =? context.(Context_checkpoint_generation))
         then set_Context_checkpoint state.(TrainingState_checkpoint) context
    else context in
  fold_left advance_summary state.(TrainingState_shards) context.

Definition handle_state (peer : NodeId) (state : TrainingState) : ctask (result unit NodeError) :=
  do! context := cget in
  if state_refused context peer state then cret (Ok tt)
  else
    cput (adopt_state state) >>!
    do? merged_state := record_context in
    let state_hash := match merged_state.(TrainingState_shards) with
                      | shard :: _ => shard.(TrainingShardSummary_state_hash)
                      | [] => ArtifactId_default
                      end in
    lift (send_ack peer merged_state.(TrainingState_job_id) merged_state.(TrainingState_term)
      (TrainingAckKind_State merged_state.(TrainingState_window) state_hash)) >>!
    cret (Ok tt).

(** ** Checkpoints of other participants *)

(** The hash of a shard's state is that of its contents. *)
Definition shard_state_genuine (state : TrainingShardState) : bool :=
  state_hash state.(TrainingShardState_job_id) state.(TrainingShardState_shard_id)
    state.(TrainingShardState_generation) state.(TrainingShardState_value)
    state.(TrainingShardState_optimizer) == state.(TrainingShardState_state_hash).

(** The shard state inside an offered artifact, when it is this context's and not older. *)
Definition offered_state (context : Context) (read : result (list N * N) StorageError)
    : option TrainingShardState :=
  match read with
  | Err _ => None
  | Ok (bytes, size) =>
      if size <=? 8 * 1024 * 1024 then
        match from_slice bytes with
        | Err _ => None
        | Ok state =>
            if (state.(TrainingShardState_job_id) == job_of context)
               && (state.(TrainingShardState_branch) == context.(Context_branch))
               && (state.(TrainingShardState_shard_id)
                   =? context.(Context_assignment).(TrainingShardAssignment_shard_id))
               && (context.(Context_generation) <=? state.(TrainingShardState_generation))
               && shard_state_genuine state
            then Some state else None
        end
      else None
  end.

Definition handle_checkpoint_offer (peer : NodeId) (offer : TrainingCheckpointOffer)
    : ctask (result unit NodeError) :=
  do! context := cget in
  if (peer != offer.(TrainingCheckpointOffer_creator))
     || (offer.(TrainingCheckpointOffer_job_id) != job_of context)
     || (offer.(TrainingCheckpointOffer_term) <? context.(Context_term))
  then cret (Ok tt)
  else
    let artifact := offer.(TrainingCheckpointOffer_artifact) in
    do! present := lift (store_query (has_artifact artifact)) in
    do! verified :=
      if (present : bool) then
        do! r := lift (storage (verify_artifact store artifact)) in cret (is_ok r)
      else
        do! r := lift (fetch_artifact store (hex_encode (NodeId_0 peer))
                         (hex_encode (ArtifactId_0 artifact))) in cret (is_ok r) in
    if (verified : bool) then
      do! read := lift (store_query (read_artifact_range store artifact 0 (8 * 1024 * 1024))) in
      match offered_state context read with
      | Some state => lift (persist_shard_state state)
      | None => cret (Ok tt)
      end >>?
      lift (send_ack peer offer.(TrainingCheckpointOffer_job_id) offer.(TrainingCheckpointOffer_term)
        (TrainingAckKind_Checkpoint artifact)) >>!
      cret (Ok tt)
    else cret (Ok tt).

Definition commit_refused (context : Context) (peer : NodeId) (commit : TrainingCheckpointCommit) : bool :=
  let manifest := commit.(TrainingCheckpointCommit_manifest) in
  (peer != commit.(TrainingCheckpointCommit_coordinator))
  || (commit.(TrainingCheckpointCommit_job_id) != job_of context)
  || (commit.(TrainingCheckpointCommit_branch) != context.(Context_branch))
  || (commit.(TrainingCheckpointCommit_term) <? context.(Context_term))
  || (manifest.(TrainingCheckpointManifest_checkpoint_generation)
      <? context.(Context_checkpoint_generation))
  || (checkpoint_hash manifest != manifest.(TrainingCheckpointManifest_hash)).

Definition shard_summary (shard : TrainingCheckpointShard) : TrainingShardSummary :=
  mkTrainingShardSummary shard.(TrainingCheckpointShard_shard_id)
    shard.(TrainingCheckpointShard_generation) shard.(TrainingCheckpointShard_artifact)
    shard.(TrainingCheckpointShard_providers).

Definition adopt_commit (commit : TrainingCheckpointCommit) (context : Context) : Context :=
  let manifest := commit.(TrainingCheckpointCommit_manifest) in
  let context := set_Context_term commit.(TrainingCheckpointCommit_term) context in
  let context := set_Context_coordinator commit.(TrainingCheckpointCommit_coordinator) context in
  let context := set_Context_window
    (N.max context.(Context_window) manifest.(TrainingCheckpointManifest_model_generation)) context in
  let context := set_Context_checkpoint_generation
    manifest.(TrainingCheckpointManifest_checkpoint_generation) context in
  let context := set_Context_checkpoint (Some manifest.(TrainingCheckpointManifest_hash)) context in
  let context := fold_left (fun context shard => put_summary (shard_summary shard) context)
    manifest.(TrainingCheckpointManifest_shards) context in
  set_Context_final_checkpoint_committed (manifest_is_final context.(Context_start) manifest) context.

Definition handle_checkpoint_commit (peer : NodeId) (commit : TrainingCheckpointCommit)
    : ctask (result unit NodeError) :=
  do! context := cget in
  if commit_refused context peer commit then cret (Ok tt)
  else
    lift (persist_checkpoint commit) >>?
    cput (adopt_commit commit) >>!
    record_context >>?
    lift (send_ack peer commit.(TrainingCheckpointCommit_job_id) commit.(TrainingCheckpointCommit_term)
      (TrainingAckKind_Checkpoint
         commit.(TrainingCheckpointCommit_manifest).(TrainingCheckpointManifest_hash))) >>!
    cret (Ok tt).

(** ** A window of a group *)

Definition compute_and_send_update (window : TrainingWindow) (aggregator : NodeId)
    : ctask (result unit NodeError) :=
  do! context := cget in
  do! update := or_panic (compute_update context window node_id) in
  lift (send_training aggregator (TrainingMessage_Update update)) >>?
  lift (updating (fun _ s =>
    set_NodeState_training_updates_sent (trunc u64_max (s.(NodeState_training_updates_sent) + 1)) s)) >>!
  cret (Ok tt).

(** An update that does not belong to the window, or whose worker is not expected or was heard. *)
Definition update_refused (context : Context) (window : TrainingWindow) (expected : gset NodeId)
    (updates : list TrainingUpdate) (peer : NodeId) (update : TrainingUpdate) : bool :=
  (peer != update.(TrainingUpdate_worker))
  || (update.(TrainingUpdate_job_id) != job_of context)
  || negb (update.(TrainingUpdate_term) =? context.(Context_term))
  || negb (update.(TrainingUpdate_membership_epoch)
           =? context.(Context_start).(TrainingStart_membership_epoch))
  || (update.(TrainingUpdate_branch) != context.(Context_branch))
  || negb (update.(TrainingUpdate_window) =? window.(TrainingWindow_window))
  || negb (update.(TrainingUpdate_shard_id) =? window.(TrainingWindow_shard_id))
  || negb (update.(TrainingUpdate_base_generation) =? window.(TrainingWindow_base_generation))
  || negb (bool_decide (update.(TrainingUpdate_worker) ∈ expected))
  || existsb (fun item => item.(TrainingUpdate_worker) == update.(TrainingUpdate_worker)) updates.

Definition contribution_of (update : TrainingUpdate) : TrainingContribution :=
  mkTrainingContribution update.(TrainingUpdate_job_id) update.(TrainingUpdate_worker)
    update.(TrainingUpdate_branch) (N.max update.(TrainingUpdate_term) 1)
    (N.max update.(TrainingUpdate_base_generation) 1)
    (N.max update.(TrainingUpdate_update_sequence) 1)
    [update.(TrainingUpdate_value); update.(TrainingUpdate_optimizer)].

(** The local security state admits the update, or not; its ledger is saved either way. *)
Definition admit_update (update : TrainingUpdate) (expected : gset NodeId) : ntask bool :=
  let! admitted := atomic (fun e s =>
    let (r, security) := admit_training_update s.(NodeState_security) (contribution_of update)
                           (elements expected) e.(ne_now) in
    (is_ok r, set_NodeState_security security s, [])) in
  persist_security_state ;!
  Done admitted.

(** What both loops of [collect_group_updates] do with an election: the window ends with an error
    when the term has changed. *)
Definition election_in_window (message : str) (peer : NodeId) (election : TrainingElection)
    : ctask (result unit NodeError) :=
  do! before := cget in
  handle_election peer election >>?
  do! after := cget in
  if before.(Context_term) <? after.(Context_term) then cret (Err (invalid_config message))
  else cret (Ok tt).

(** Updates are taken until all expected workers are heard or the window ends. *)
Fixpoint gather_updates (fuel : nat) (window : TrainingWindow) (expected : gset NodeId)
    (updates : list TrainingUpdate) : ctask (result (list TrainingUpdate) NodeError) :=
  match fuel with
  | O => panic
  | S fuel =>
      if N.of_nat (size expected) <=? len updates then cret (Ok updates)
      else
        do! event := next_event in
        match event with
        | None => cput count_straggler >>! cret (Ok updates)
        | Some (V3Inbound_Message peer (TrainingMessage_Update update)) =>
            do! context := cget in
            if update_refused context window expected updates peer update then
              cput count_rejected >>! gather_updates fuel window expected updates
            else
              do! admitted := lift (admit_update update expected) in
              if (admitted : bool) then gather_updates fuel window expected (updates ++ [update])
              else cput count_rejected >>! gather_updates fuel window expected updates
        | Some (V3Inbound_PeerDisconnected peer) =>
            do! restored :=
              if bool_decide (peer ∈ expected) then restore_training_peer peer else cret false in
            cput (if (restored : bool) then unmark_failed peer else mark_failed peer) >>!
            do! context := cget in
            (if bool_decide (peer ∈ expected) && is_failed context peer
             then cput count_straggler else cret tt) >>!
            gather_updates fuel window expected updates
        | Some (V3Inbound_Message peer (TrainingMessage_Election election)) =>
            election_in_window "V3 group window superseded by a newer coordination term" peer election >>?
            gather_updates fuel window expected updates
        | Some (V3Inbound_Message _ _) => gather_updates fuel window expected updates
        end
  end.

(** An offer is sent at most three times, over a new connection after the first. *)
Fixpoint send_offer (attempts : nat) (first : bool) (member : NodeId) (offer : TrainingCheckpointOffer)
    : ntask bool :=
  match attempts with
  | O => Done false
  | S attempts =>
      (if first then Done tt else ignore (timeout ne_elapsed (reconnect_peer member))) ;!
      let! sent := timed_ok (send_training member (TrainingMessage_CheckpointOffer offer)) in
      if (sent : bool) then Done true else send_offer attempts false member offer
  end.

(** The member acknowledges the artifact, or the wait ends. *)
Fixpoint await_replica (fuel : nat) (member : NodeId) (artifact : ArtifactId) (replicas : list NodeId)
    : ctask (result (list NodeId) NodeError) :=
  match fuel with
  | O => panic
  | S fuel =>
      do! event := next_event in
      match event with
      | None => cret (Ok replicas)
      | Some (V3Inbound_Message peer (TrainingMessage_Ack ack)) =>
          do! context := cget in
          if (peer == member) && (ack.(TrainingAck_peer) == member)
             && (ack.(TrainingAck_job_id) == job_of context)
             && (ack.(TrainingAck_kind) == TrainingAckKind_Checkpoint artifact)
          then cret (Ok (replicas ++ [member]))
          else await_replica fuel member artifact replicas
      | Some (V3Inbound_Message _ (TrainingMessage_Update _)) =>
          cput count_rejected >>! await_replica fuel member artifact replicas
      | Some (V3Inbound_Message peer (TrainingMessage_Election election)) =>
          election_in_window "V3 replication superseded by a newer coordination term" peer election >>?
          await_replica fuel member artifact replicas
      | Some (V3Inbound_PeerDisconnected disconnected) =>
          if disconnected == member then
            cput (fun context => count_straggler (mark_failed member context)) >>! cret (Ok replicas)
          else await_replica fuel member artifact replicas
      | Some (V3Inbound_Message _ _) => await_replica fuel member artifact replicas
      end
  end.

Definition replicate_to (generation shard_id : N) (artifact : ArtifactId) (member : NodeId)
    (replicas : list NodeId) : ctask (result (list NodeId) NodeError) :=
  do! context := cget in
  if (member == node_id) || is_failed context member then cret (Ok replicas)
  else
    let offer := mkTrainingCheckpointOffer (job_of context) node_id context.(Context_term) generation
                   shard_id artifact in
    do! sent := lift (send_offer 3 true member offer) in
    if (sent : bool) then
      do? replicas := await_replica fuel member artifact replicas in
      (if contains member replicas then cret tt
       else cput (fun context => count_straggler (mark_failed member context))) >>!
      cret (Ok replicas)
    else
      cput (fun context => count_straggler (mark_failed member context)) >>! cret (Ok replicas).

Fixpoint replicate (generation shard_id : N) (artifact : ArtifactId) (members : list NodeId)
    (replicas : list NodeId) : ctask (result (list NodeId) NodeError) :=
  match members with
  | [] => cret (Ok replicas)
  | member :: members =>
      do? replicas := replicate_to generation shard_id artifact member replicas in
      replicate generation shard_id artifact members replicas
  end.

Definition new_shard_state (context : Context) (window : TrainingWindow) (value optimizer : Z)
    : TrainingShardState :=
  let generation := sat_add u64_max window.(TrainingWindow_base_generation) 1 in
  {| TrainingShardState_job_id := job_of context;
     TrainingShardState_owner := node_id;
     TrainingShardState_term := context.(Context_term);
     TrainingShardState_membership_epoch := context.(Context_start).(TrainingStart_membership_epoch);
     TrainingShardState_branch := context.(Context_branch);
     TrainingShardState_shard_id := window.(TrainingWindow_shard_id);
     TrainingShardState_generation := generation;
     TrainingShardState_value := value;
     TrainingShardState_optimizer := optimizer;
     TrainingShardState_state_hash :=
       state_hash (job_of context) window.(TrainingWindow_shard_id) generation value optimizer |}.

Definition live_members (context : Context) (group : TrainingGroup) : list NodeId :=
  List.filter (fun member => negb (is_failed context member)) group.(TrainingGroup_members).

(** The state of the shard after the window is stored and given to the other members; the result
    is the artifact and who has it. *)
Definition store_shard_state (group : TrainingGroup) (window : TrainingWindow)
    (state : TrainingShardState) : ctask (result (ArtifactId * list NodeId) NodeError) :=
  do? bytes := cret (map_err NodeError_Json (to_vec state)) in
  do? artifact := lift (storage (put_artifact store bytes)) in
  lift (persist_shard_state state) >>?
  do! context := cget in
  cfor (fun member =>
    if (member != node_id) && negb (is_failed context member)
    then lift (ignore (send_training member (TrainingMessage_ShardState state))) else cret tt)
    group.(TrainingGroup_members) >>!
  do? replicas := replicate state.(TrainingShardState_generation) window.(TrainingWindow_shard_id)
    artifact group.(TrainingGroup_members) [node_id] in
  do! context := cget in
  let required := N.min (N.max (len (live_members context group)) 1) 3 in
  if len replicas <? required then
    cret (Err (invalid_config ("V3 shard " ++ decimal window.(TrainingWindow_shard_id)
      ++ " reached only " ++ decimal (len replicas) ++ " of " ++ decimal required
      ++ " required providers")%string))
  else cret (Ok (artifact, replicas)).

Definition make_aggregate (context : Context) (group : TrainingGroup) (window : TrainingWindow)
    (state : TrainingShardState) (loss : Z) (updates : list TrainingUpdate) (artifact : ArtifactId)
    (replicas : list NodeId) : TrainingAggregate :=
  {| TrainingAggregate_job_id := job_of context;
     TrainingAggregate_aggregator := node_id;
     TrainingAggregate_term := context.(Context_term);
     TrainingAggregate_membership_epoch := context.(Context_start).(TrainingStart_membership_epoch);
     TrainingAggregate_branch := context.(Context_branch);
     TrainingAggregate_window := window.(TrainingWindow_window);
     TrainingAggregate_group_id := group.(TrainingGroup_group_id);
     TrainingAggregate_shard_id := window.(TrainingWindow_shard_id);
     TrainingAggregate_generation := state.(TrainingShardState_generation);
     TrainingAggregate_value := state.(TrainingShardState_value);
     TrainingAggregate_optimizer := state.(TrainingShardState_optimizer);
     TrainingAggregate_loss := loss;
     TrainingAggregate_contributors := map TrainingUpdate_worker updates;
     TrainingAggregate_state_artifact := artifact;
     TrainingAggregate_replicas := replicas |}.

Definition collect_group_updates (group : TrainingGroup) (window : TrainingWindow)
    : ctask (result TrainingAggregate NodeError) :=
  do! context := cget in
  do! own := or_panic (compute_update context window node_id) in
  let expected : gset NodeId := list_to_set (live_members context group) in
  do? updates := gather_updates fuel window expected [own] in
  if is_empty updates then cret (Err (invalid_config "V3 group produced no updates"))
  else
    lift (updating (fun _ s => set_NodeState_training_max_update_fanin
      (N.max s.(NodeState_training_max_update_fanin) (len updates)) s)) >>!
    do! value := or_panic (median (map TrainingUpdate_value updates)) in
    do! optimizer := or_panic (median (map TrainingUpdate_optimizer updates)) in
    if (V3_MAX_DELTA <? i64_saturating_abs value)%Z
    then cret (Err (invalid_config "V3 aggregate exceeded the update bound"))
    else
      do! context := cget in
      let state := new_shard_state context window value optimizer in
      do? stored := store_shard_state group window state in
      cput (fun context =>
        set_Context_generation state.(TrainingShardState_generation)
          (set_Context_optimizer optimizer (set_Context_value value context))) >>!
      do! context := cget in
      do! total := or_panic (i64_sum (map TrainingUpdate_loss updates)) in
      let aggregate := make_aggregate context group window state
        (Z.quot total (Z.of_N (len updates))) updates (fst stored) (snd stored) in
      do! sent := lift (send_training context.(Context_coordinator) (TrainingMessage_Aggregate aggregate)) in
      match sent with
      | Err error =>
          if context.(Context_start).(TrainingStart_execution)
             != TrainingExecution_AutonomousLocalSgd
          then cret (Err error) else cret (Ok tt)
      | Ok _ => cret (Ok tt)
      end >>?
      lift (updating (fun _ s => set_NodeState_training_aggregates_sent
        (trunc u64_max (s.(NodeState_training_aggregates_sent) + 1)) s)) >>!
      cret (Ok aggregate).

(** ** The worker *)

Definition window_refused (context : Context) (peer : NodeId) (window : TrainingWindow) : bool :=
  let sender_is_coordinator := peer == window.(TrainingWindow_coordinator) in
  let sender_is_group_aggregator :=
    (peer == window.(TrainingWindow_aggregator)) && contains peer window.(TrainingWindow_members) in
  (context.(Context_role) != Role_Worker)
  || (negb sender_is_coordinator && negb sender_is_group_aggregator)
  || ((window.(TrainingWindow_coordinator) != context.(Context_start).(TrainingStart_coordinator))
      && negb (is_participant context window.(TrainingWindow_coordinator)))
  || negb (forallb (is_participant context) window.(TrainingWindow_members))
  || (window.(TrainingWindow_term) <? context.(Context_term))
  || negb (window.(TrainingWindow_membership_epoch)
           =? context.(Context_start).(TrainingStart_membership_epoch))
  || (window.(TrainingWindow_branch) != context.(Context_branch))
  || is_empty window.(TrainingWindow_members)
  || negb (contains node_id window.(TrainingWindow_members))
  || negb (context.(Context_assignment).(TrainingShardAssignment_shard_id)
           =? window.(TrainingWindow_shard_id)).

(** The aggregator's record of a window of its own. *)
Definition after_aggregate (window : TrainingWindow) (aggregate : TrainingAggregate) (context : Context)
    : Context :=
  let context := set_Context_window
    (N.max context.(Context_window) window.(TrainingWindow_window)) context in
  let context := set_Context_generation aggregate.(TrainingAggregate_generation) context in
  let context := set_Context_value aggregate.(TrainingAggregate_value) context in
  let context := set_Context_optimizer aggregate.(TrainingAggregate_optimizer) context in
  put_summary (aggregate_summary aggregate) context.

(** The aggregator leads its group through the windows of the job. *)
Fixpoint lead_group (fuel : nat) (group : TrainingGroup) (window : TrainingWindow)
    : ctask (result unit NodeError) :=
  match fuel with
  | O => panic
  | S fuel =>
      do? aggregate := collect_group_updates group window in
      cput (after_aggregate window aggregate) >>!
      do! context := cget in
      if (context.(Context_start).(TrainingStart_execution) != TrainingExecution_AutonomousLocalSgd)
         || (context.(Context_start).(TrainingStart_max_windows) <=? window.(TrainingWindow_window))
      then cret (Ok tt)
      else
        let next := {|
          TrainingWindow_job_id := job_of context;
          TrainingWindow_coordinator := context.(Context_coordinator);
          TrainingWindow_term := context.(Context_term);
          TrainingWindow_membership_epoch := context.(Context_start).(TrainingStart_membership_epoch);
          TrainingWindow_branch := context.(Context_branch);
          TrainingWindow_window := sat_add u64_max window.(TrainingWindow_window) 1;
          TrainingWindow_group_id := group.(TrainingGroup_group_id);
          TrainingWindow_shard_id := group.(TrainingGroup_shard_id);
          TrainingWindow_aggregator := node_id;
          TrainingWindow_members := group.(TrainingGroup_members);
          TrainingWindow_base_generation := aggregate.(TrainingAggregate_generation);
          TrainingWindow_local_steps := context.(Context_start).(TrainingStart_local_steps);
          TrainingWindow_max_staleness := context.(Context_start).(TrainingStart_max_staleness) |} in
        cfor (fun member =>
          if (member != node_id) && negb (is_failed context member)
          then lift (ignore (send_training member (TrainingMessage_Window next))) else cret tt)
          group.(TrainingGroup_members) >>!
        lead_group fuel group next
  end.

Definition handle_window (peer : NodeId) (window : TrainingWindow) : ctask (result unit NodeError) :=
  do! context := cget in
  if window_refused context peer window then cput count_rejected >>! cret (Ok tt)
  else
    (if context.(Context_term) <? window.(TrainingWindow_term) then
       cput (fun context =>
         set_Context_failed ∅
           (set_Context_coordinator window.(TrainingWindow_coordinator)
              (set_Context_term window.(TrainingWindow_term) context))) >>!
       record_context >>? cret (Ok tt)
     else cret (Ok tt)) >>?
    cput (fun context =>
      set_Context_group_progress
        (bt_insert window.(TrainingWindow_group_id) window.(TrainingWindow_window)
           context.(Context_group_progress))
        (set_Context_window (N.max context.(Context_window) window.(TrainingWindow_window)) context)) >>!
    (if 0 <? config.(NodeConfig_training_window_delay_ms) then lift sleep else cret tt) >>!
    (if node_id == window.(TrainingWindow_aggregator) then
       do! context := cget in
       match group_for context.(Context_start) window.(TrainingWindow_group_id) with
       | None => cret (Ok tt)
       | Some base =>
           lead_group fuel
             (mkTrainingGroup base.(TrainingGroup_group_id) base.(TrainingGroup_shard_id)
                window.(TrainingWindow_members) window.(TrainingWindow_aggregator)) window
       end
     else compute_and_send_update window window.(TrainingWindow_aggregator)).

Definition handle_shard_state (peer : NodeId) (state : TrainingShardState) : ctask (result unit NodeError) :=
  do! context := cget in
  if (peer != state.(TrainingShardState_owner))
     || (state.(TrainingShardState_job_id) != job_of context)
     || (state.(TrainingShardState_term) <? context.(Context_term))
     || (state.(TrainingShardState_branch) != context.(Context_branch))
     || negb (state.(TrainingShardState_shard_id)
              =? context.(Context_assignment).(TrainingShardAssignment_shard_id))
     || (state.(TrainingShardState_generation) <? context.(Context_generation))
     || negb (shard_state_genuine state)
  then cret (Ok tt)
  else
    cput (fun context =>
      set_Context_generation state.(TrainingShardState_generation)
        (set_Context_optimizer state.(TrainingShardState_optimizer)
           (set_Context_value state.(TrainingShardState_value) context))) >>!
    lift (persist_shard_state state).

Definition handle_worker_message (peer : NodeId) (message : TrainingMessage)
    : ctask (result unit NodeError) :=
  match message with
  | TrainingMessage_Window window => handle_window peer window
  | TrainingMessage_ShardState state => handle_shard_state peer state
  | TrainingMessage_State state => handle_state peer state
  | TrainingMessage_Election election => handle_election peer election
  | TrainingMessage_CheckpointOffer offer => handle_checkpoint_offer peer offer
  | TrainingMessage_CheckpointCommit commit => handle_checkpoint_commit peer commit
  | TrainingMessage_Ack ack =>
      match ack.(TrainingAck_kind) with
      | TrainingAckKind_Vote _ _ _ _ =>
          cput (fun context => set_Context_voted_term
            (N.max context.(Context_voted_term) ack.(TrainingAck_term)) context) >>!
          cret (Ok tt)
      | _ => cret (Ok tt)
      end
  | TrainingMessage_Start _ | TrainingMessage_Update _ | TrainingMessage_Aggregate _ => cret (Ok tt)
  end.

(** ** Elections *)

Definition election_candidates (context : Context) : list NodeId :=
  let aggregators := map TrainingGroup_aggregator context.(Context_start).(TrainingStart_groups) in
  let live := List.filter (fun peer => negb (is_failed context peer))
    context.(Context_start).(TrainingStart_participants) in
  let preferred := List.filter (fun peer => negb (contains peer aggregators)) live in
  sort_by_key NodeId_0 (if is_empty preferred then live else preferred).

(** The vote is for this candidate and term, and its sender is a participant other than this node. *)
Definition is_vote (context : Context) (candidate : NodeId) (term : N) (peer : NodeId) (ack : TrainingAck)
    : bool :=
  match ack.(TrainingAck_kind) with
  | TrainingAckKind_Vote ack_candidate vote_term _ granted =>
      (peer != node_id) && (peer == ack.(TrainingAck_peer)) && is_participant context peer
      && (ack.(TrainingAck_job_id) == job_of context)
      && (ack.(TrainingAck_term) =? term) && (vote_term =? term)
      && (ack_candidate == candidate) && granted
  | _ => false
  end.

(** What a voter knows more than the candidate about the term that ended. *)
Definition is_recovery (context : Context) (previous_term : N) (previous_coordinator peer : NodeId)
    (state : TrainingState) : bool :=
  (peer != node_id) && is_participant context peer
  && (state.(TrainingState_job_id) == job_of context)
  && (state.(TrainingState_branch) == context.(Context_branch))
  && (state.(TrainingState_term) =? previous_term)
  && (state.(TrainingState_coordinator) == previous_coordinator)
  && ((context.(Context_window) <? state.(TrainingState_window))
      || (context.(Context_checkpoint_generation) <? state.(TrainingState_checkpoint_generation))
      || existsb (is_newer context) state.(TrainingState_shards)).

Definition recover_state (state : TrainingState) (context : Context) : Context :=
  let context := set_Context_window
    (N.max context.(Context_window) state.(TrainingState_window)) context in
  let context := set_Context_checkpoint_generation
    (N.max context.(Context_checkpoint_generation) state.(TrainingState_checkpoint_generation)) context in
  let context := set_Context_checkpoint state.(TrainingState_checkpoint) context in
  fold_left advance_summary state.(TrainingState_shards) context.

(** Votes are counted until there is a quorum or the wait ends; an election of a later term ends
    this one ([None]). *)
Fixpoint count_votes (fuel : nat) (candidate : NodeId) (term previous_term : N)
    (previous_coordinator : NodeId) (quorum_size : N) (votes : gset NodeId)
    : ctask (result (option (gset NodeId)) NodeError) :=
  match fuel with
  | O => panic
  | S fuel =>
      let continue := count_votes fuel candidate term previous_term previous_coordinator quorum_size in
      if quorum_size <=? N.of_nat (size votes) then cret (Ok (Some votes))
      else
        do! event := next_event in
        do! context := cget in
        match event with
        | None => cret (Ok (Some votes))
        | Some (V3Inbound_Message peer (TrainingMessage_Ack ack)) =>
            if is_vote context candidate term peer ack then continue ({[peer]} ∪ votes)
            else continue votes
        | Some (V3Inbound_Message peer (TrainingMessage_Election other)) =>
            if term <? other.(TrainingElection_term)
            then handle_election peer other >>? cret (Ok None)
            else continue votes
        | Some (V3Inbound_Message peer (TrainingMessage_State state)) =>
            if is_recovery context previous_term previous_coordinator peer state
            then cput (recover_state state) >>! continue votes
            else continue votes
        | Some _ => continue votes
        end
  end.

Definition request_vote (first : bool) (election : TrainingElection) (peer : NodeId) : ntask unit :=
  let! connected := if first then is_connected peer else Done false in
  (if (connected : bool) then Done tt else ignore (timeout ne_elapsed (reconnect_peer peer))) ;!
  ignore (timed_ok (send_training peer (TrainingMessage_Election election))).

(** The same term is asked for up to three times. *)
Fixpoint seek_votes (attempts : nat) (first : bool) (election : TrainingElection)
    (failed_coordinator : NodeId) (previous_term : N) (previous_coordinator : NodeId) (quorum_size : N)
    (votes : gset NodeId) : ctask (result (option (gset NodeId)) NodeError) :=
  match attempts with
  | O => cret (Ok (Some votes))
  | S attempts =>
      do! context := cget in
      cfor (fun peer =>
        if (peer == node_id) || (peer == failed_coordinator) then cret tt
        else lift (request_vote first election peer))
        context.(Context_start).(TrainingStart_participants) >>!
      do? counted := count_votes fuel election.(TrainingElection_candidate)
        election.(TrainingElection_term) previous_term previous_coordinator quorum_size votes in
      match counted with
      | None => cret (Ok None)
      | Some votes =>
          if quorum_size <=? N.of_nat (size votes) then cret (Ok (Some votes))
          else
            (if Nat.eqb attempts 0 then cret tt else lift sleep) >>!
            seek_votes attempts false election failed_coordinator previous_term previous_coordinator
              quorum_size votes
      end
  end.

Definition election_of (context : Context) (candidate : NodeId) (term : N) : TrainingElection :=
  mkTrainingElection (job_of context) candidate term
    context.(Context_start).(TrainingStart_membership_epoch) context.(Context_branch)
    context.(Context_window)
    (match map snd context.(Context_shard_summaries) with
     | summary :: _ => summary.(TrainingShardSummary_state_hash)
     | [] => ArtifactId_default
     end).

Definition take_over (term : N) (failed_coordinator : NodeId) (context : Context) : Context :=
  let context := set_Context_role Role_Coordinator context in
  let context := set_Context_term term context in
  let context := set_Context_coordinator node_id context in
  let context := set_Context_voted_term term context in
  let context := set_Context_voted_candidate (Some node_id) context in
  set_Context_failed {[failed_coordinator]} context.

Definition maybe_elect (failed_coordinator : NodeId) : ctask (result unit NodeError) :=
  cput (mark_failed failed_coordinator) >>!
  do! context := cget in
  match election_candidates context with
  | [] => cret (Err (invalid_config "no V3 election candidate remains"))
  | candidate :: _ =>
      if candidate != node_id then cret (Ok tt)
      else
        let term := sat_add u64_max context.(Context_term) 1 in
        let quorum_size := quorum (len context.(Context_start).(TrainingStart_participants)) in
        do? counted := seek_votes V3_ELECTION_ATTEMPTS true (election_of context candidate term)
          failed_coordinator context.(Context_term) context.(Context_coordinator) quorum_size {[node_id]} in
        match counted with
        | None => cret (Ok tt)
        | Some votes =>
            if N.of_nat (size votes) <? quorum_size then
              cret (Err (invalid_config ("V3 election could not obtain a quorum: received "
                ++ decimal (N.of_nat (size votes)) ++ " of " ++ decimal quorum_size ++ " votes")%string))
            else
              cput (take_over term failed_coordinator) >>!
              do? state := record_context in
              broadcast_state state >>!
              cret (Ok tt)
        end
  end.
End Job.
