(* ===== verification/V3Coordinator.v ===== *)
(** * Distributed training: the coordinator and the life of a job
    (crates/node/src/distributed_training.rs)

    The coordinator of a term hands out windows, records what the groups report and commits
    checkpoints; a job's task drives it while this node has that role and reads its mailbox
    otherwise.  Jobs are started by an operator, accepted from a coordinator, or restored from
    disk. *)

From Stdlib Require Import String ZArith NArith Lia.
From stdpp Require Import base tactics sets strings numbers list gmap.
From S2P Require Import Prelude OrdMap Types Validation FileSystem Storage Aggregation Compute Float32 Planner Trust Security Network NodeConfig Tasks NodeState NodeJobs NodeArtifacts V3Model V3Tasks.
Local Open Scope N_scope.
Local Open Scope rust_scope.
Local Open Scope ctask_scope.

Section Coordinator.
Context `{Profile} `{Blake3} `{ContributionPostcard} `{NodeText} `{Hex}.
Context `{Json (JobId * N * N * Z * Z)} `{Json TrainingCheckpointManifest} `{Json TrainingStart}.
Context `{Json TrainingState} `{Json TrainingShardState} `{Json (list N)}.
Context (security_to_allocvec : LocalSecurityState -> result (list N) str).
Context (config : NodeConfig) (identity : Identity) (store : LocalStore) (fuel : nat).
Notation node_id := identity.(Identity_node_id).
Notation record_context := (record_context store).
Notation broadcast_state := (broadcast_state identity).
Notation broadcast_checkpoint := (broadcast_checkpoint identity).
Notation handle_election := (handle_election identity).
Notation handle_state := (handle_state identity store).
Notation compute_and_send_update := (compute_and_send_update identity).
Notation collect_group_updates := (collect_group_updates security_to_allocvec identity store fuel).
Notation handle_worker_message :=
  (handle_worker_message security_to_allocvec config identity store fuel).
Notation maybe_elect := (maybe_elect identity store fuel).

(** ** Waiting for acknowledgements *)

Definition live_participants (context : Context) : gset NodeId :=
  list_to_set (List.filter (fun peer => negb (is_failed context peer))
    context.(Context_start).(TrainingStart_participants)).

(** The acknowledgements of a state, as they arrive. *)
Fixpoint await_state_acks (fuel : nat) (state : TrainingState) (expected acks : gset NodeId) : ctask bool :=
  match fuel with
  | O => panic
  | S fuel =>
      if N.of_nat (size expected) <=? N.of_nat (size acks) then cret true
      else
        do! event := next_event in
        do! context := cget in
        match event with
        | None => cret false
        | Some (V3Inbound_Message peer (TrainingMessage_Ack ack)) =>
            if (ack.(TrainingAck_job_id) == state.(TrainingState_job_id))
               && (ack.(TrainingAck_term) =? state.(TrainingState_term))
               && match ack.(TrainingAck_kind) with
                  | TrainingAckKind_State window _ => window =? state.(TrainingState_window)
                  | _ => false
                  end
            then await_state_acks fuel state expected ({[peer]} ∪ acks)
            else await_state_acks fuel state expected acks
        | Some (V3Inbound_Message peer (TrainingMessage_Election election)) =>
            if context.(Context_term) <? election.(TrainingElection_term)
            then handle_election peer election >>! cret false
            else await_state_acks fuel state expected acks
        | Some (V3Inbound_PeerDisconnected peer) =>
            if bool_decide (peer ∈ expected) then
              do! restored := restore_training_peer peer in
              (if (restored : bool) then lift (try_send peer (TrainingMessage_State state))
               else cput (mark_failed peer)) >>!
              await_state_acks fuel state expected acks
            else await_state_acks fuel state expected acks
        | Some (V3Inbound_Message _ _) => await_state_acks fuel state expected acks
        end
  end.

Definition broadcast_state_and_wait (state : TrainingState) : ctask bool :=
  broadcast_state state >>!
  do! context := cget in
  await_state_acks fuel state (live_participants context) {[node_id]}.

Definition required_acks (participants : N) : N :=
  sat_sub (quorum (sat_add usize_max participants 1)) 1.

Fixpoint await_checkpoint_acks (fuel : nat) (commit : TrainingCheckpointCommit)
    (expected acks : gset NodeId) : ctask bool :=
  let hash := commit.(TrainingCheckpointCommit_manifest).(TrainingCheckpointManifest_hash) in
  match fuel with
  | O => panic
  | S fuel =>
      if required_acks (N.of_nat (size expected)) <=? N.of_nat (size acks) then cret true
      else
        do! event := next_event in
        match event with
        | None => cret false
        | Some (V3Inbound_Message peer (TrainingMessage_Ack ack)) =>
            if (peer == ack.(TrainingAck_peer)) && bool_decide (peer ∈ expected)
               && (ack.(TrainingAck_job_id) == commit.(TrainingCheckpointCommit_job_id))
               && (ack.(TrainingAck_term) =? commit.(TrainingCheckpointCommit_term))
               && (ack.(TrainingAck_kind) == TrainingAckKind_Checkpoint hash)
            then await_checkpoint_acks fuel commit expected ({[peer]} ∪ acks)
            else await_checkpoint_acks fuel commit expected acks
        | Some (V3Inbound_PeerDisconnected peer) =>
            if bool_decide (peer ∈ expected) then
              do! restored := restore_training_peer peer in
              if (restored : bool) then
                lift (try_send peer (TrainingMessage_CheckpointCommit commit)) >>!
                await_checkpoint_acks fuel commit expected acks
              else
                cput (mark_failed peer) >>!
                await_checkpoint_acks fuel commit (expected ∖ {[peer]}) acks
            else await_checkpoint_acks fuel commit expected acks
        | Some (V3Inbound_Message _ _) => await_checkpoint_acks fuel commit expected acks
        end
  end.

Definition broadcast_checkpoint_and_wait (commit : TrainingCheckpointCommit) : ctask bool :=
  broadcast_checkpoint commit >>!
  do! context := cget in
  let expected := live_participants context in
  await_checkpoint_acks fuel commit expected (if bool_decide (node_id ∈ expected) then {[node_id]} else ∅).

(** ** Checkpoints *)

Definition commit_of (context : Context) (manifest : TrainingCheckpointManifest)
    : TrainingCheckpointCommit :=
  mkTrainingCheckpointCommit (job_of context) context.(Context_coordinator) context.(Context_term)
    context.(Context_start).(TrainingStart_membership_epoch) context.(Context_branch) manifest
    context.(Context_start).(TrainingStart_participants).

(** The manifest becomes the context's last checkpoint. *)
Definition note_checkpoint (manifest : TrainingCheckpointManifest) (context : Context) : Context :=
  let context := set_Context_checkpoint_generation
    manifest.(TrainingCheckpointManifest_checkpoint_generation) context in
  let context := set_Context_checkpoint (Some manifest.(TrainingCheckpointManifest_hash)) context in
  let context := set_Context_checkpoints
    (context.(Context_checkpoints) ++ [manifest.(TrainingCheckpointManifest_hash)]) context in
  set_Context_checkpoint_providers
    (fold_left (fun providers shard =>
        bt_insert (hex_encode (ArtifactId_0 shard.(TrainingCheckpointShard_artifact)))
          shard.(TrainingCheckpointShard_providers) providers)
      manifest.(TrainingCheckpointManifest_shards) context.(Context_checkpoint_providers)) context.

Definition commit_context_checkpoint : ctask (result unit NodeError) :=
  do! context := cget in
  do? manifest := cret (make_checkpoint_from_context context) in
  let commit := commit_of context manifest in
  lift (persist_checkpoint store commit) >>?
  cput (note_checkpoint manifest) >>!
  (if manifest_is_final context.(Context_start) manifest then
     do! reached := broadcast_checkpoint_and_wait commit in
     if (reached : bool) then cput (set_Context_final_checkpoint_committed true) >>! cret (Ok tt)
     else cret (Err (invalid_config "V3 final checkpoint did not reach the live membership"))
   else broadcast_checkpoint commit >>! cret (Ok tt)) >>?
  record_context >>? cret (Ok tt).

(** ** Handing out windows *)

Definition dispatch_autonomous_window (group : TrainingGroup) (window : N) : ctask unit :=
  do! context := cget in
  let message := window_message context group window in
  cfor (fun member =>
    do! context := cget in
    if is_failed context member then cret tt
    else if member == node_id then
      if member == group.(TrainingGroup_aggregator) then
        do! _ := collect_group_updates group message in cret tt
      else if context.(Context_assignment).(TrainingShardAssignment_shard_id)
              =? group.(TrainingGroup_shard_id)
      then do! _ := compute_and_send_update message group.(TrainingGroup_aggregator) in cret tt
      else cret tt
    else lift (ignore (send_training member (TrainingMessage_Window message))))
    group.(TrainingGroup_members).

(** A group that has windows left is sent its next one. *)
Definition dispatch_next (group : TrainingGroup) : ctask unit :=
  do! context := cget in
  if next_window context group <=? context.(Context_start).(TrainingStart_max_windows)
  then dispatch_autonomous_window group (next_window context group) else cret tt.

Fixpoint wait_for_aggregate_loop (fuel : nat) (group_id window : N)
    : ctask (result (option TrainingAggregate) NodeError) :=
  match fuel with
  | O => panic
  | S fuel =>
      do! event := next_event in
      do! context := cget in
      match event with
      | None => cret (Ok None)
      | Some (V3Inbound_Message peer (TrainingMessage_Aggregate aggregate)) =>
          if (peer == aggregate.(TrainingAggregate_aggregator))
             && (aggregate.(TrainingAggregate_group_id) =? group_id)
             && (aggregate.(TrainingAggregate_window) =? window)
             && (aggregate.(TrainingAggregate_term) =? context.(Context_term))
             && (aggregate.(TrainingAggregate_job_id) == job_of context)
             && negb (is_empty aggregate.(TrainingAggregate_contributors))
          then cret (Ok (Some aggregate))
          else wait_for_aggregate_loop fuel group_id window
      | Some (V3Inbound_Message peer (TrainingMessage_Election election)) =>
          if context.(Context_term) <? election.(TrainingElection_term) then
            handle_election peer election >>!
            cret (Err (invalid_config "coordinator term changed while waiting for aggregate"))
          else wait_for_aggregate_loop fuel group_id window
      | Some (V3Inbound_PeerDisconnected peer) =>
          if peer == context.(Context_coordinator) then cput (mark_failed peer) >>! cret (Ok None)
          else
            do! restored := restore_training_peer peer in
            (if (restored : bool) then cret tt else cput (mark_failed peer)) >>!
            wait_for_aggregate_loop fuel group_id window
      | Some (V3Inbound_Message _ _) => wait_for_aggregate_loop fuel group_id window
      end
  end.

Definition wait_for_aggregate (group_id window : N) : ctask (result (option TrainingAggregate) NodeError) :=
  wait_for_aggregate_loop fuel group_id window.

Definition run_group_window (group : TrainingGroup) (window : N)
    : ctask (result (option TrainingAggregate) NodeError) :=
  do! context := cget in
  let message := window_message context group window in
  cfor (fun member =>
    do! context := cget in
    if is_failed context member then cret tt
    else if member == node_id then
      if member != group.(TrainingGroup_aggregator)
      then do! _ := compute_and_send_update message group.(TrainingGroup_aggregator) in cret tt
      else cret tt
    else lift (ignore (send_training member (TrainingMessage_Window message))))
    group.(TrainingGroup_members) >>!
  if group.(TrainingGroup_aggregator) == node_id then
    do? aggregate := collect_group_updates group message in cret (Ok (Some aggregate))
  else wait_for_aggregate group.(TrainingGroup_group_id) window.

(** ** The windowed mode *)

(** A group whose aggregator does not answer gets another one, once. *)
Definition group_aggregate (window : N) (group : TrainingGroup) : ctask (result TrainingAggregate NodeError) :=
  do? first := run_group_window group window in
  match first with
  | Some aggregate => cret (Ok aggregate)
  | None =>
      cput (fun context => mark_failed group.(TrainingGroup_aggregator) (count_straggler context)) >>!
      do! context := cget in
      match retry_group context group with
      | None =>
          cret (Err (invalid_config ("no live aggregator remains for V3 group "
                                     ++ decimal group.(TrainingGroup_group_id))%string))
      | Some retry =>
          do? second := run_group_window retry window in
          match second with
          | None =>
              cret (Err (invalid_config ("V3 group " ++ decimal group.(TrainingGroup_group_id)
                                         ++ " did not produce an aggregate")%string))
          | Some aggregate => cput (replace_group retry) >>! cret (Ok aggregate)
          end
      end
  end.

Fixpoint group_aggregates (window : N) (groups : list TrainingGroup) (aggregates : list TrainingAggregate)
    : ctask (result (list TrainingAggregate) NodeError) :=
  match groups with
  | [] => cret (Ok aggregates)
  | group :: groups =>
      do? aggregate := group_aggregate window group in
      group_aggregates window groups (aggregates ++ [aggregate])
  end.

Definition take_aggregate (context : Context) (aggregate : TrainingAggregate) : Context :=
  put_summary (aggregate_summary aggregate)
    (set_Context_shard_values
       (bt_insert aggregate.(TrainingAggregate_shard_id)
          (aggregate.(TrainingAggregate_value), aggregate.(TrainingAggregate_optimizer))
          context.(Context_shard_values)) context).

(** [sum::<u64>()] of at most a few group sizes. *)
Definition contributor_count (aggregates : list TrainingAggregate) : N :=
  fold_left (fun total aggregate => total + len aggregate.(TrainingAggregate_contributors)) aggregates 0.

Definition after_window (window : N) (aggregates : list TrainingAggregate) (context : Context) : Context :=
  let context := set_Context_window window context in
  let context := set_Context_accepted_updates
    (sat_add u64_max context.(Context_accepted_updates) (contributor_count aggregates)) context in
  fold_left take_aggregate aggregates context.

Definition checkpoint_window (aggregates : list TrainingAggregate) : ctask (result unit NodeError) :=
  do! context := cget in
  let manifest := make_checkpoint context aggregates in
  let commit := commit_of context manifest in
  lift (persist_checkpoint store commit) >>?
  cput (note_checkpoint manifest) >>!
  do! reached := broadcast_checkpoint_and_wait commit in
  if (reached : bool) then record_context >>? cret (Ok tt)
  else cret (Err (invalid_config "V3 checkpoint commit did not reach a quorum")).

Definition drive_window (window : N) : ctask (result unit NodeError) :=
  do! context := cget in
  do? aggregates := group_aggregates window context.(Context_start).(TrainingStart_groups) [] in
  cput (after_window window aggregates) >>!
  do? state := record_context in
  do! reached := broadcast_state_and_wait state in
  if (reached : bool) then
    do! context := cget in
    if (window mod context.(Context_start).(TrainingStart_checkpoint_every) =? 0)
       || (window =? context.(Context_start).(TrainingStart_max_windows))
    then checkpoint_window aggregates else cret (Ok tt)
  else cret (Err (invalid_config
         "V3 state did not reach a quorum; no canonical window committed")).

Fixpoint drive_windows (windows : list N) : ctask (result unit NodeError) :=
  match windows with
  | [] => cret (Ok tt)
  | window :: windows => drive_window window >>? drive_windows windows
  end.

(** [a + b] on [u64]. *)
Definition u64_add (a b : N) : option N :=
  if (a + b <=? u64_max) || negb overflow_checks then Some (trunc u64_max (a + b)) else None.

(** [(first..=last)] *)
Definition range_inclusive (first last : N) : list N :=
  map (fun i => first + N.of_nat i) (seq 0 (N.to_nat (last + 1 - first))).

(** ** The report *)

Definition final_loss (context : Context) : option Z :=
  losses ← mapM (fun entry : N * (Z * Z) => samples_loss entry.2.1 (samples_for_shard entry.1))
    context.(Context_shard_values);
  i64_sum losses.

Definition report (context : Context) (loss : Z) (autonomous : option AutonomousReport) : TrainingReport :=
  {| TrainingReport_job_id := job_of context;
     TrainingReport_coordinator := context.(Context_coordinator);
     TrainingReport_term := context.(Context_term);
     TrainingReport_windows := context.(Context_window);
     TrainingReport_local_steps := context.(Context_start).(TrainingStart_local_steps);
     TrainingReport_groups := context.(Context_start).(TrainingStart_groups);
     TrainingReport_shards := context.(Context_start).(TrainingStart_shards);
     TrainingReport_accepted_updates := context.(Context_accepted_updates);
     TrainingReport_rejected_updates := context.(Context_rejected_updates);
     TrainingReport_maximum_group_fan_in :=
       max_or_0 (map (fun group => len group.(TrainingGroup_members))
         context.(Context_start).(TrainingStart_groups));
     TrainingReport_optimizer_state_replication_factor :=
       max_or_0 (map (fun shard => len shard.(TrainingShardAssignment_replicas))
         context.(Context_start).(TrainingStart_shards));
     TrainingReport_straggler_windows := context.(Context_stragglers);
     TrainingReport_checkpoints := context.(Context_checkpoints);
     TrainingReport_checkpoint_providers := context.(Context_checkpoint_providers);
     TrainingReport_initial_loss := context.(Context_initial_loss);
     TrainingReport_final_loss := loss;
     TrainingReport_improved := (loss <? context.(Context_initial_loss))%Z;
     TrainingReport_autonomous := autonomous |}.

Definition autonomous_report (context : Context) : AutonomousReport :=
  {| AutonomousReport_group_progress := context.(Context_group_progress);
     AutonomousReport_group_completion_order := context.(Context_group_completion_order);
     AutonomousReport_non_barrier_progress_observed := context.(Context_non_barrier_progress_observed);
     AutonomousReport_checkpoint_generation := context.(Context_checkpoint_generation);
     AutonomousReport_final_checkpoint_committed := context.(Context_final_checkpoint_committed);
     AutonomousReport_model_state_bytes := context.(Context_start).(TrainingStart_model_state_bytes);
     AutonomousReport_shard_state_bytes := context.(Context_start).(TrainingStart_shard_state_bytes) |}.

Inductive DriveResult :=
  | DriveResult_Finished (value : TrainingReport)
  | DriveResult_Continue.

(** ** The autonomous mode *)

(** A report of a group that cannot be taken: not from a member of the group, of another job, term,
    branch or shard, outside the job's windows, or not newer than what is known. *)
Definition aggregate_refused (context : Context) (group : TrainingGroup) (peer : NodeId)
    (aggregate : TrainingAggregate) : bool :=
  (peer != aggregate.(TrainingAggregate_aggregator))
  || negb (contains peer group.(TrainingGroup_members))
  || (aggregate.(TrainingAggregate_job_id) != job_of context)
  || negb (aggregate.(TrainingAggregate_term) =? context.(Context_term))
  || (aggregate.(TrainingAggregate_branch) != context.(Context_branch))
  || negb (aggregate.(TrainingAggregate_shard_id) =? group.(TrainingGroup_shard_id))
  || (aggregate.(TrainingAggregate_window) =? 0)
  || (context.(Context_start).(TrainingStart_max_windows) <? aggregate.(TrainingAggregate_window))
  || match bt_get aggregate.(TrainingAggregate_shard_id) context.(Context_shard_summaries) with
     | Some summary =>
         aggregate.(TrainingAggregate_generation) <=? summary.(TrainingShardSummary_generation)
     | None => false
     end.

Definition accept_aggregate (aggregate : TrainingAggregate) (context : Context) : Context :=
  let context := set_Context_window
    (N.max context.(Context_window) aggregate.(TrainingAggregate_window)) context in
  let context := set_Context_group_progress
    (bt_insert aggregate.(TrainingAggregate_group_id) aggregate.(TrainingAggregate_window)
       context.(Context_group_progress)) context in
  let context := set_Context_accepted_updates
    (sat_add u64_max context.(Context_accepted_updates)
       (len aggregate.(TrainingAggregate_contributors))) context in
  take_aggregate context aggregate.

(** A group has reported its last window. *)
Definition note_completion (completed : gset N) (group : TrainingGroup) (aggregate : TrainingAggregate)
    (context : Context) : Context :=
  let context :=
    if existsb (fun entry : N * N =>
         negb (entry.1 =? aggregate.(TrainingAggregate_group_id))
         && (entry.2 <? context.(Context_start).(TrainingStart_max_windows)))
         context.(Context_group_progress)
    then set_Context_non_barrier_progress_observed true context else context in
  if bool_decide (group.(TrainingGroup_group_id) ∈ completed) then context
  else set_Context_group_completion_order
         (context.(Context_group_completion_order) ++ [group.(TrainingGroup_group_id)]) context.

(** The groups that have completed, after the report of one of them. *)
Definition take_group_aggregate (completed : gset N) (peer : NodeId) (aggregate : TrainingAggregate)
    : ctask (result (gset N) NodeError) :=
  do! context := cget in
  match group_for context.(Context_start) aggregate.(TrainingAggregate_group_id) with
  | None => cret (Ok completed)
  | Some group =>
      if aggregate_refused context group peer aggregate
      then cput count_rejected >>! cret (Ok completed)
      else
        cput (accept_aggregate aggregate) >>!
        do? state := record_context in
        broadcast_state state >>!
        do! context := cget in
        (if forallb (fun entry : N * TrainingShardSummary =>
               0 <? entry.2.(TrainingShardSummary_generation)) context.(Context_shard_summaries)
            && (aggregate.(TrainingAggregate_window)
                mod context.(Context_start).(TrainingStart_checkpoint_every) =? 0)
         then commit_context_checkpoint else cret (Ok tt)) >>?
        if context.(Context_start).(TrainingStart_max_windows) <=? aggregate.(TrainingAggregate_window)
        then
          cput (note_completion completed group aggregate) >>!
          cret (Ok ({[group.(TrainingGroup_group_id)]} ∪ completed))
        else cret (Ok completed)
  end.

(** Failed members of a group are tried once more, the one that just left excepted. *)
Definition revive_members (peer : NodeId) (group : TrainingGroup) : ctask unit :=
  cfor (fun member =>
    do! context := cget in
    if (member != peer) && is_failed context member then
      do! restored := restore_training_peer member in
      if (restored : bool) then cput (unmark_failed member) else cret tt
    else cret tt) group.(TrainingGroup_members).

Fixpoint replace_aggregators (peer : NodeId) (groups : list TrainingGroup) : ctask (result unit NodeError) :=
  match groups with
  | [] => cret (Ok tt)
  | group :: groups =>
      revive_members peer group >>!
      do! context := cget in
      match retry_group context group with
      | None =>
          cret (Err (invalid_config ("no live autonomous aggregator remains for V3 group "
                                     ++ decimal group.(TrainingGroup_group_id))%string))
      | Some retry =>
          cput (replace_group retry) >>!
          do! context := cget in
          (if next_window context group <=? context.(Context_start).(TrainingStart_max_windows)
           then dispatch_autonomous_window retry (next_window context group) else cret tt) >>!
          replace_aggregators peer groups
      end
  end.

Definition groups_led_by (context : Context) (peer : NodeId) : list TrainingGroup :=
  List.filter (fun group => group.(TrainingGroup_aggregator) == peer)
    context.(Context_start).(TrainingStart_groups).

Definition coordinator_lost_peer (peer : NodeId) : ctask (result unit NodeError) :=
  do! restored := restore_training_peer peer in
  if (restored : bool) then
    do! context := cget in
    cfor dispatch_next (groups_led_by context peer) >>! cret (Ok tt)
  else
    cput (mark_failed peer) >>!
    do! context := cget in
    replace_aggregators peer (groups_led_by context peer).

(** The coordinator listens until every group has completed; [false] when another node has taken
    over. *)
Fixpoint await_groups (fuel : nat) (completed : gset N) : ctask (result bool NodeError) :=
  match fuel with
  | O => panic
  | S fuel =>
      do! context := cget in
      if len context.(Context_start).(TrainingStart_groups) <=? N.of_nat (size completed)
      then cret (Ok true)
      else
        do! over := lift elapsed in
        if (over : bool) then
          cret (Err (invalid_config "autonomous V3 training timed out waiting for group progress"))
        else
          do! event := lift (recv (job_of context)) in
          match event with
          | Received_Timeout | Received_Closed =>
              cret (Err (invalid_config "autonomous V3 training mailbox closed"))
          | Received_Value (V3Inbound_Message peer (TrainingMessage_Aggregate aggregate)) =>
              do? completed := take_group_aggregate completed peer aggregate in
              await_groups fuel completed
          | Received_Value (V3Inbound_PeerDisconnected peer) =>
              coordinator_lost_peer peer >>? await_groups fuel completed
          | Received_Value (V3Inbound_Message peer (TrainingMessage_Election election)) =>
              if context.(Context_term) <? election.(TrainingElection_term)
              then handle_election peer election >>? await_groups fuel completed
              else await_groups fuel completed
          | Received_Value (V3Inbound_Message peer (TrainingMessage_State state)) =>
              if context.(Context_term) <? state.(TrainingState_term) then
                handle_state peer state >>?
                do! after := cget in
                if after.(Context_coordinator) != context.(Context_coordinator)
                then cput (set_Context_role Role_Worker) >>! cret (Ok false)
                else await_groups fuel completed
              else await_groups fuel completed
          | Received_Value (V3Inbound_Message _ _) => await_groups fuel completed
          end
  end.

(** The groups that need no more windows, and the progress of all. *)
Definition note_progress (context : Context) : Context :=
  set_Context_group_progress
    (fold_left (fun progress group =>
        bt_insert group.(TrainingGroup_group_id)
          (shard_generation context group.(TrainingGroup_shard_id)) progress)
      context.(Context_start).(TrainingStart_groups) context.(Context_group_progress)) context.

Definition completed_groups (context : Context) : gset N :=
  list_to_set (map TrainingGroup_group_id
    (List.filter (fun group => context.(Context_start).(TrainingStart_max_windows)
                               <=? shard_generation context group.(TrainingGroup_shard_id))
       context.(Context_start).(TrainingStart_groups))).

Definition drive_autonomous_coordinator : ctask (result DriveResult NodeError) :=
  do? state := record_context in
  broadcast_state state >>!
  do! context := cget in
  cfor dispatch_next context.(Context_start).(TrainingStart_groups) >>!
  cput note_progress >>!
  do! context := cget in
  do? finished := await_groups fuel (completed_groups context) in
  if (finished : bool) then
    do! context := cget in
    (if shards_reached_final context && negb context.(Context_final_checkpoint_committed)
     then commit_context_checkpoint else cret (Ok tt)) >>?
    do! context := cget in
    do! loss := or_panic (final_loss context) in
    cret (Ok (DriveResult_Finished (report context loss (Some (autonomous_report context)))))
  else cret (Ok DriveResult_Continue).

Definition drive_coordinator : ctask (result DriveResult NodeError) :=
  do! context := cget in
  if context.(Context_start).(TrainingStart_execution) == TrainingExecution_AutonomousLocalSgd
  then drive_autonomous_coordinator
  else
    do? state := record_context in
    broadcast_state state >>!
    do! context := cget in
    do! first := or_panic (u64_add context.(Context_window) 1) in
    drive_windows (range_inclusive first context.(Context_start).(TrainingStart_max_windows)) >>?
    do! context := cget in
    do! loss := or_panic (final_loss context) in
    cret (Ok (DriveResult_Finished (report context loss None))).

(** ** The life of a job *)

Definition lost_peer (peer : NodeId) : ctask unit :=
  do! context := cget in
  if peer == context.(Context_coordinator) then
    do! restored := restore_training_peer peer in
    if (restored : bool) then cret tt
    else do! _ := maybe_elect peer in cret tt
  else
    do! restored := restore_training_peer peer in
    if (restored : bool) then cret tt else cput (mark_failed peer).

(** The report, [None] for a worker, or why the job stopped. *)
Fixpoint context_loop (fuel : nat) : ctask (result (option TrainingReport) str) :=
  match fuel with
  | O => panic
  | S fuel =>
      do! context := cget in
      if context.(Context_role) == Role_Coordinator then
        do! driven := drive_coordinator in
        match driven with
        | Ok (DriveResult_Finished value) => cret (Ok (Some value))
        | Ok DriveResult_Continue => context_loop fuel
        | Err error => cret (Err (NodeError_to_string error))
        end
      else
        do! over := lift elapsed in
        if (over : bool) then cret (Err "V3 training context timed out"%string)
        else
          do! event := lift (recv (job_of context)) in
          match event with
          | Received_Timeout => cret (Err "V3 training context timed out"%string)
          | Received_Closed => cret (Err "V3 training mailbox closed"%string)
          | Received_Value (V3Inbound_Message peer message) =>
              do! _ := handle_worker_message peer message in
              do! context := cget in
              if (context.(Context_start).(TrainingStart_execution)
                  == TrainingExecution_AutonomousLocalSgd)
                 && context_covers_final_model context
              then cret (Ok None) else context_loop fuel
          | Received_Value (V3Inbound_PeerDisconnected peer) => lost_peer peer >>! context_loop fuel
          end
  end.

Definition run_context (context : Context) : ntask unit :=
  let! ended := context_loop fuel context in
  let (context, result) := ended : Context * _ in
  (if context.(Context_result)
   then updating (fun _ s => set_NodeState_v3_results
          (alter (slot_send result) (job_of context) s.(NodeState_v3_results)) s)
   else Done tt) ;!
  updating (fun _ s => set_NodeState_v3_jobs (s.(NodeState_v3_jobs) ∖ {[job_of context]}) s).

Definition has_job (job : JobId) : ntask bool :=
  reading (fun _ s => bool_decide (job ∈ s.(NodeState_v3_jobs))).

Definition add_job (job : JobId) : ntask unit :=
  updating (fun _ s => set_NodeState_v3_jobs ({[job]} ∪ s.(NodeState_v3_jobs)) s).

Definition remove_job (job : JobId) : ntask unit :=
  updating (fun _ s => set_NodeState_v3_jobs (s.(NodeState_v3_jobs) ∖ {[job]}) s).

(** [sender.send(event).await] on the mailbox of a job. *)
Definition deliver (job : JobId) (event : V3Inbound) : ntask unit :=
  atomic (fun _ s => (tt, s, [Did_Deliver job event])).

Definition of_option {A} (o : option A) : ntask A :=
  match o with Some a => Done a | None => forever end.

(** *** Accepting a job *)

Definition start_refused (peer : NodeId) (start : TrainingStart) : bool :=
  (start.(TrainingStart_coordinator) != peer)
  || negb (contains node_id start.(TrainingStart_assignment).(TrainingShardAssignment_owners))
  || negb (contains node_id start.(TrainingStart_participants)).

(** The coordinator is looked for a few times; its absence is reported to the job. *)
Fixpoint check_coordinator (rechecks : nat) (coordinator : NodeId) : ntask bool :=
  match rechecks with
  | O => Done false
  | S rechecks =>
      let! connected := is_connected coordinator in
      if (connected : bool) then Done true
      else
        (if Nat.eqb rechecks 0 then Done tt
         else ignore (timeout ne_elapsed (reconnect_peer coordinator)) ;! sleep) ;!
        check_coordinator rechecks coordinator
  end.

Definition watch_coordinator (rechecks : nat) (job : JobId) (coordinator : NodeId) : ntask unit :=
  sleep ;!
  let! connected := check_coordinator rechecks coordinator in
  if (connected : bool) then Done tt else deliver job (V3Inbound_PeerDisconnected coordinator).

Definition ack_start (peer : NodeId) (start : TrainingStart) : ntask unit :=
  send_ack identity peer start.(TrainingStart_job_id) start.(TrainingStart_term) TrainingAckKind_Start.

Definition accept_start (peer : NodeId) (start : TrainingStart) : node unit :=
  let memory_budget := effective_training_memory_bytes config in
  if start_refused peer start then
    Done (Err (invalid_config "V3 start is not authorized for this worker"))
  else if memory_budget <? start.(TrainingStart_shard_state_bytes) then
    Done (Err (invalid_config ("assigned V3 shard requires "
      ++ decimal start.(TrainingStart_shard_state_bytes) ++ " bytes but worker budget is "
      ++ decimal memory_budget ++ " bytes")%string))
  else
    match Message_validate (Message_Training (TrainingMessage_Start start)) with
    | Err error => Done (Err (invalid_config (ValidationError_to_string error)))
    | Ok _ =>
        persist_start store start ?!
        let! known := has_job start.(TrainingStart_job_id) in
        if (known : bool) then ack_start peer start ;! Done (Ok tt)
        else
          add_job start.(TrainingStart_job_id) ;!
          let! context := of_option (Context_new start Role_Worker false) in
          spawn (watch_coordinator V3_STARTUP_COORDINATOR_RECHECKS start.(TrainingStart_job_id)
                   start.(TrainingStart_coordinator)) ;!
          spawn (run_context context) ;!
          ack_start peer start ;!
          Done (Ok tt)
    end.

(** *** Restoring jobs *)

(** The context of a restored worker: what the last state and the last shard state say. *)
Definition restored_context (start : TrainingStart) (state : option TrainingState)
    (shard : option TrainingShardState) : option Context :=
  context ← Context_new start Role_Worker false;
  let context :=
    match state with
    | None => context
    | Some state =>
        let context := set_Context_coordinator state.(TrainingState_coordinator) context in
        let context := set_Context_term state.(TrainingState_term) context in
        let context := set_Context_window state.(TrainingState_window) context in
        let context := set_Context_checkpoint_generation
          state.(TrainingState_checkpoint_generation) context in
        let context := set_Context_checkpoint state.(TrainingState_checkpoint) context in
        fold_left (fun context shard => put_summary shard context) state.(TrainingState_shards) context
    end in
  Some
    match shard with
    | None => context
    | Some shard =>
        if (shard.(TrainingShardState_job_id) == start.(TrainingStart_job_id))
           && (shard.(TrainingShardState_shard_id)
               =? start.(TrainingStart_assignment).(TrainingShardAssignment_shard_id))
           && (shard.(TrainingShardState_branch) == start.(TrainingStart_branch))
           && shard_state_genuine shard
        then set_Context_generation shard.(TrainingShardState_generation)
               (set_Context_optimizer shard.(TrainingShardState_optimizer)
                  (set_Context_value shard.(TrainingShardState_value) context))
        else context
    end.

(** The checkpoint a state names is on disk, whole. *)
Definition checkpoint_on_disk (state : option TrainingState) : ntask bool :=
  match state with
  | Some state =>
      match state.(TrainingState_checkpoint) with
      | Some checkpoint =>
          let! manifest := storage (read_json (checkpoint_file checkpoint)) in
          Done (match manifest with
                | Ok (Some manifest) =>
                    (manifest.(TrainingCheckpointManifest_hash) == checkpoint)
                    && (checkpoint_hash manifest == checkpoint)
                | _ => false
                end)
      | None => Done false
      end
  | None => Done false
  end.

Definition restore_worker (start : TrainingStart) : node unit :=
  if (start.(TrainingStart_coordinator) == node_id)
     || negb (contains node_id start.(TrainingStart_participants))
     || negb (contains node_id start.(TrainingStart_assignment).(TrainingShardAssignment_owners))
     || is_err (Message_validate (Message_Training (TrainingMessage_Start start)))
  then Done (Ok tt)
  else
    let! known := has_job start.(TrainingStart_job_id) in
    if (known : bool) then Done (Ok tt)
    else
      let! state := reading (fun _ s => s.(NodeState_v3_states) !! start.(TrainingStart_job_id)) in
      let! final := checkpoint_on_disk state in
      if (start.(TrainingStart_execution) == TrainingExecution_AutonomousLocalSgd)
         && match state with Some state => state_covers_final_model start state | None => false end
         && final
      then Done (Ok tt)
      else
        add_job start.(TrainingStart_job_id) ;!
        try! shard := storage (read_json (shard_file start.(TrainingStart_job_id)
          start.(TrainingStart_assignment).(TrainingShardAssignment_shard_id))) in
        let! context := of_option (restored_context start state shard) in
        spawn (watch_coordinator 1 start.(TrainingStart_job_id) context.(Context_coordinator)) ;!
        spawn (run_context context) ;!
        Done (Ok tt).

Fixpoint restore_workers (starts : list TrainingStart) : node unit :=
  match starts with
  | [] => Done (Ok tt)
  | start :: starts => restore_worker start ?! restore_workers starts
  end.

(** *** Starting a job *)

(** The text of the error of a send. *)
Definition send_error (error : NodeError) : str :=
  match error with
  | NodeError_Network error => NetworkError_to_string error
  | error => NodeError_to_string error
  end.

Fixpoint send_start (attempts : nat) (last_error : option str) (worker : NodeId) (start : TrainingStart)
    : ntask (result unit str) :=
  match attempts with
  | O => Done (Err (default "not connected"%string last_error))
  | S attempts =>
      match last_error with None => Done tt | Some _ => ignore (reconnect_peer worker) end ;!
      let! sent := send_training worker (TrainingMessage_Start start) in
      match sent with
      | Ok _ => Done (Ok tt)
      | Err error => sleep ;! send_start attempts (Some (send_error error)) worker start
      end
  end.

(** The first worker that cannot be reached, and why. *)
Fixpoint send_starts (worker_starts : list (NodeId * TrainingStart)) : ntask (result unit (NodeId * str)) :=
  match worker_starts with
  | [] => Done (Ok tt)
  | (worker, start) :: worker_starts =>
      let! sent := send_start 3 None worker start in
      match sent with
      | Ok _ => send_starts worker_starts
      | Err error => Done (Err (worker, error))
      end
  end.

Definition is_start_ack (start : TrainingStart) (expected : gset NodeId) (peer : NodeId)
    (ack : TrainingAck) : bool :=
  (ack.(TrainingAck_job_id) == start.(TrainingStart_job_id))
  && (ack.(TrainingAck_term) =? start.(TrainingStart_term))
  && (ack.(TrainingAck_peer) == peer)
  && bool_decide (peer ∈ expected)
  && (ack.(TrainingAck_kind) == TrainingAckKind_Start).

(** Every worker has to say that it has taken the job; the ones missing when the time is over. *)
Fixpoint await_admission (fuel : nat) (start : TrainingStart)
    (worker_starts : list (NodeId * TrainingStart)) (expected acknowledged : gset NodeId)
    : ntask (result unit (list NodeId)) :=
  match fuel with
  | O => forever
  | S fuel =>
      let continue := await_admission fuel start worker_starts expected in
      if N.of_nat (size expected) <=? N.of_nat (size acknowledged) then Done (Ok tt)
      else
        let! over := elapsed in
        if (over : bool) then Done (Err (elements (expected ∖ acknowledged)))
        else
          let! due := tick in
          (if (due : bool) then
             for_task (fun entry : NodeId * TrainingStart =>
               if bool_decide (entry.1 ∈ acknowledged) then Done tt
               else ignore (send_training entry.1 (TrainingMessage_Start entry.2))) worker_starts
           else Done tt) ;!
          let! event := recv start.(TrainingStart_job_id) in
          match event with
          | Received_Value (V3Inbound_Message peer (TrainingMessage_Ack ack)) =>
              if is_start_ack start expected peer ack then continue ({[peer]} ∪ acknowledged)
              else continue acknowledged
          | Received_Value (V3Inbound_PeerDisconnected peer) =>
              match List.find (fun entry : NodeId * TrainingStart => entry.1 == peer) worker_starts with
              | Some (_, worker_start) =>
                  ignore (reconnect_peer peer) ;!
                  ignore (send_training peer (TrainingMessage_Start worker_start)) ;!
                  continue acknowledged
              | None => continue acknowledged
              end
          | _ => continue acknowledged
          end
  end.

(** What the operator gets: the report, or the first lines of a job that runs on. *)
Inductive TrainingAnswer :=
  | TrainingAnswer_Finished (value : option TrainingReport)
  | TrainingAnswer_Started (start : TrainingStart).

Definition start_coordinator (start : TrainingStart) (worker_starts : list (NodeId * TrainingStart))
    (wait_for_result : bool) : node TrainingAnswer :=
  let job := start.(TrainingStart_job_id) in
  updating (fun _ s => set_NodeState_v3_results (<[job := Slot_Waiting]> s.(NodeState_v3_results)) s) ;!
  add_job job ;!
  persist_start store start ?!
  let! reached := send_starts worker_starts in
  match reached with
  | Err (worker, error) =>
      remove_job job ;!
      Done (Err (invalid_config ("V3 worker " ++ hex_encode (NodeId_0 worker)
                                 ++ " did not accept a start message: " ++ error)%string))
  | Ok _ =>
      let! admitted := await_admission fuel start worker_starts (list_to_set worker_starts.*1) ∅ in
      match admitted with
      | Err missing =>
          remove_job job ;!
          Done (Err (invalid_config ("V3 workers did not acknowledge durable start: "
            ++ String.concat ", " (map (fun node => hex_encode (NodeId_0 node)) missing))%string))
      | Ok _ =>
        let! context := of_option (Context_new start Role_Coordinator wait_for_result) in
        spawn (run_context context) ;!
        if wait_for_result then
          let! result := Step (fun e s =>
              match receive_slot e (s.(NodeState_v3_results) !! job) with
              | Some r => Some (r, s, [])
              | None => None
              end) Done in
          match result with
          | Received_Value (Ok value) => Done (Ok (TrainingAnswer_Finished value))
          | Received_Value (Err error) => Done (Err (invalid_config error))
          | Received_Closed =>
              remove_job job ;! Done (Err (invalid_config "V3 coordinator task stopped"))
          | Received_Timeout =>
              remove_job job ;! Done (Err (invalid_config "V3 training timed out"))
          end
        else Done (Ok (TrainingAnswer_Started start))
      end
  end.

Section Operator.
Context `{Json (str * JobId)}.
Context `{Json (str * list NodeId * list TrainingGroup * list TrainingShardAssignment * N * N * N)}.

Definition start_training_with_mode
    (requested_workers max_windows local_steps checkpoint_every : N) (wait_for_result : bool)
    : node TrainingAnswer :=
  if negb (start_parameters_ok requested_workers max_windows local_steps checkpoint_every) then
    Done (Err (invalid_config "V3 training requires 4-16 workers, 1-256 windows, 1-64 local steps, and a positive checkpoint interval"))
  else
    let! workers := reading (fun e _ =>
      select_workers e.(ne_now) node_id e.(ne_records) requested_workers) in
    let! job_id := reading (fun e _ => mkJobId e.(ne_random)) in
    match make_starts job_id node_id max_windows local_steps checkpoint_every workers with
    | Err error => Done (Err error)
    | Ok [] => Done (Err (invalid_config "no V3 workers selected"))
    | Ok ((_, start) :: _ as worker_starts) => start_coordinator start worker_starts wait_for_result
    end.

Definition start_training (requested_workers max_windows local_steps checkpoint_every : N)
    : node TrainingAnswer :=
  start_training_with_mode requested_workers max_windows local_steps checkpoint_every true.

Definition start_training_background (requested_workers max_windows local_steps checkpoint_every : N)
    : node TrainingAnswer :=
  start_training_with_mode requested_workers max_windows local_steps checkpoint_every false.
End Operator.

(** *** Messages of the network (crates/node/src/lib.rs) *)

Definition message_job (message : TrainingMessage) : JobId :=
  match message with
  | TrainingMessage_Start value => value.(TrainingStart_job_id)
  | TrainingMessage_Window value => value.(TrainingWindow_job_id)
  | TrainingMessage_Update value => value.(TrainingUpdate_job_id)
  | TrainingMessage_Aggregate value => value.(TrainingAggregate_job_id)
  | TrainingMessage_ShardState value => value.(TrainingShardState_job_id)
  | TrainingMessage_State value => value.(TrainingState_job_id)
  | TrainingMessage_Ack value => value.(TrainingAck_job_id)
  | TrainingMessage_Election value => value.(TrainingElection_job_id)
  | TrainingMessage_CheckpointOffer value => value.(TrainingCheckpointOffer_job_id)
  | TrainingMessage_CheckpointCommit value => value.(TrainingCheckpointCommit_job_id)
  end.

Definition count_received (message : TrainingMessage) : ntask unit :=
  match message with
  | TrainingMessage_Update _ =>
      updating (fun _ s => set_NodeState_training_updates_received
        (trunc u64_max (s.(NodeState_training_updates_received) + 1)) s)
  | TrainingMessage_Aggregate _ =>
      updating (fun _ s => set_NodeState_training_aggregates_received
        (trunc u64_max (s.(NodeState_training_aggregates_received) + 1)) s)
  | _ => Done tt
  end.

Definition handle_v3_message (peer : NodeId) (message : TrainingMessage) : ntask unit :=
  match message with
  | TrainingMessage_Start start => ignore (accept_start peer start)
  | _ =>
      count_received message ;!
      let! known := has_job (message_job message) in
      if (known : bool) then deliver (message_job message) (V3Inbound_Message peer message)
      else Done tt
  end.

Definition v3_peer_disconnected (peer : NodeId) : ntask unit :=
  let! jobs := reading (fun _ s => elements s.(NodeState_v3_jobs)) in
  for_task (fun job => deliver job (V3Inbound_PeerDisconnected peer)) jobs.
End Coordinator.
