(* ===== verification/V3Facts.v ===== *)
(** * Distributed training: a job never goes back

    Every task of a training job is followed along its trace: the term and the checkpoint
    generation of the job's context only grow, and so do those of the states it publishes. *)

From Stdlib Require Import String ZArith NArith Lia Sorting.Sorted.
From stdpp Require Import base tactics sets strings numbers list sorting gmap.
From S2P Require Import Prelude OrdMap Types Validation FileSystem Storage Aggregation Compute Float32 Planner Trust Security Network NodeConfig Tasks TraceLogic NodeState NodeJobs NodeArtifacts V3Model V3Tasks V3Coordinator.
Local Open Scope N_scope.
Local Open Scope rust_scope.
Local Open Scope ctask_scope.

(** ** Effects of the node's own tasks *)

Section Effects.
Context (q : NodeEffect -> Prop).

Lemma emits_send peer message : q (Did_Send peer message) -> emits q (send_to peer message).
Proof.
  intros Hq. apply emits_step. intros e s a s' out. destruct (ne_full e); [done|].
  destruct (ne_send e); intros [= <- <- <-]; [constructor | by apply Forall_singleton].
Qed.

Lemma emits_reconnect peer : q (Did_Reconnect peer) -> emits q (reconnect_peer peer).
Proof. intros Hq. apply emits_atomic. intros e s. by apply Forall_singleton. Qed.

Lemma emits_storage {A} (p : Prog (result A StorageError)) : emits q (storage p).
Proof.
  apply emits_step. intros e s a s' out. destruct (run_store e p s) as [[]|]; [|done].
  intros [= _ _ <-]. constructor.
Qed.

Lemma emits_query {A} (p : Prog A) : emits q (store_query p).
Proof.
  apply emits_step. intros e s a s' out. destruct (run _ p _) as [w []]; [|done].
  intros [= _ _ <-]. constructor.
Qed.

Lemma emits_sleep : emits q sleep.
Proof. apply emits_step. intros e s a s' out. destruct (ne_elapsed e); [|done]. intros [= _ _ <-]. constructor. Qed.

Lemma emits_receive_artifact sender : emits q (receive_artifact sender).
Proof.
  apply emits_step. intros e s a s' out. destruct (receive_slot _ _); [|done].
  intros [= _ _ <-]. constructor.
Qed.

Lemma emits_timed {A} (t : node A) : emits q t -> emits q (timed_ok t).
Proof. intros Ht. apply emits_tbind; [by apply emits_timeout | done]. Qed.

Lemma emits_await_transfer id peer artifact offset : emits q (await_transfer id peer artifact offset).
Proof. by apply emits_atomic; intros e s; constructor. Qed.
End Effects.

Create HintDb emits discriminated.
#[export] Hint Resolve emits_reading emits_updating emits_storage emits_query emits_sleep
  emits_receive_artifact emits_await_transfer : emits.

(** Walk through a task, leaving what it sends. *)
Ltac emits_walk :=
  repeat match goal with
    | |- forall _, _ => intros ?
    | |- emits _ (Done _) => exact Logic.I
    | |- emits _ (match ?x with _ => _ end) => destruct x
    | |- emits _ (tbind _ _) => apply emits_tbind
    | |- emits _ (try_task _ _) => apply emits_try
    | |- emits _ (ignore _) => apply emits_ignore
    | |- emits _ (timeout _ _) => apply emits_timeout
    | |- emits _ (timed_ok _) => apply emits_timed
    | |- emits _ (send_to _ _) => apply emits_send
    | |- emits _ (reconnect_peer _) => apply emits_reconnect
    | |- emits _ _ => solve [auto with emits]
    end.

(** The messages a node sends on behalf of a task are requests for artifacts at most. *)
Section Fetching.
Context `{Blake3} `{Hex}.
Context (q : NodeEffect -> Prop).
Context (Hsend : forall peer request, q (Did_Send peer (Message_ArtifactTransferRequest request))).
Context (Hreconnect : forall peer, q (Did_Reconnect peer)).

Lemma emits_fetch_attempt store first peer artifact : emits q (fetch_attempt store first peer artifact).
Proof.
  unfold fetch_attempt, random_request_id, drop_transfer, send_direct.
  emits_walk; auto.
Qed.

Lemma emits_fetch store peer artifact : emits q (fetch_artifact store peer artifact).
Proof. unfold fetch_artifact. emits_walk; apply emits_fetch_attempt. Qed.
End Fetching.

(** ** The states a node publishes *)

(** Term and checkpoint generation. *)
Definition key (context : Context) : N * N :=
  (context.(Context_term), context.(Context_checkpoint_generation)).

Definition state_key (state : TrainingState) : N * N :=
  (state.(TrainingState_term), state.(TrainingState_checkpoint_generation)).

Definition le2 (a b : N * N) : Prop := a.1 <= b.1 /\ a.2 <= b.2.

Definition published_key (effect : NodeEffect) : option (N * N) :=
  match effect with
  | Did_Send _ (Message_Training (TrainingMessage_State state)) => Some (state_key state)
  | _ => None
  end.

Definition published (trace : list NodeEffect) : list (N * N) := omap published_key trace.

Definition in_order (trace : list NodeEffect) : Prop := StronglySorted le2 (published trace).

(** The 64-bit fields of what arrives. *)
Definition message_typed (message : TrainingMessage) : Prop :=
  match message with
  | TrainingMessage_State state =>
      state.(TrainingState_term) <= u64_max /\ state.(TrainingState_checkpoint_generation) <= u64_max
  | TrainingMessage_CheckpointCommit commit =>
      commit.(TrainingCheckpointCommit_term) <= u64_max /\
      commit.(TrainingCheckpointCommit_manifest).(TrainingCheckpointManifest_checkpoint_generation)
        <= u64_max
  | TrainingMessage_Window window => window.(TrainingWindow_term) <= u64_max
  | _ => True
  end.

Definition event_typed (event : V3Inbound) : Prop :=
  match event with
  | V3Inbound_Message _ message => message_typed message
  | V3Inbound_PeerDisconnected _ => True
  end.

Definition env_typed (e : NodeEnv) : Prop :=
  match e.(ne_event) with Some (Some event) => event_typed event | _ => True end.

Definition context_typed (context : Context) : Prop :=
  context.(Context_term) <= u64_max /\ context.(Context_checkpoint_generation) <= u64_max.

Lemma le2_refl a : le2 a a.
Proof. split; reflexivity. Qed.

Lemma le2_trans a b c : le2 a b -> le2 b c -> le2 a c.
Proof. intros [] []. split; etrans; eassumption. Qed.

Lemma published_app h out : published (h ++ out) = published h ++ published out.
Proof. apply omap_app. Qed.

Definition quiet (effect : NodeEffect) : Prop := published_key effect = None.

Lemma published_quiet out : Forall quiet out -> published out = [].
Proof. induction 1 as [|x out Hx _ IH]; [done|]. cbn. by rewrite Hx. Qed.

Lemma quiet_fetch `{Blake3} `{Hex} store peer artifact : emits quiet (fetch_artifact store peer artifact).
Proof. by apply emits_fetch. Qed.

#[export] Hint Resolve quiet_fetch : emits.

(** ** Following a job *)

Section Following.
Context (low : N * N).

(** The trace so far is in order and not ahead of the context. *)
Record follows (h : list NodeEffect) (context : Context) : Prop := {
  follows_order : in_order h;
  follows_low : Forall (le2 low) (published h);
  follows_high : Forall (fun k => le2 k (key context)) (published h);
  follows_above : le2 low (key context);
  follows_typed : context_typed context
}.

Definition trace_ok (h : list NodeEffect) : Prop := in_order h /\ Forall (le2 low) (published h).

Lemma follows_ok h context : follows h context -> trace_ok h.
Proof. by intros []. Qed.

Notation traced := (traced env_typed trace_ok).

(** From [context] the task keeps following, does not go back, and ends with [Q]. *)
Definition holds {A} (context : Context) (m : ctask A) (Q : A -> Context -> Prop) : Prop :=
  forall h, follows h context ->
    traced h (m context) (fun h p => follows h p.1 /\ le2 (key context) (key p.1) /\ Q p.2 p.1).

Definition any {A} : A -> Context -> Prop := fun _ _ => True.

Lemma holds_mono {A} context (m : ctask A) (Q Q' : A -> Context -> Prop) :
  holds context m Q -> (forall a c, Q a c -> Q' a c) -> holds context m Q'.
Proof. intros Hm HQ h Hh. eapply traced_mono; [by apply Hm|]. intros h' p (? & ? & ?). auto. Qed.

Lemma holds_ret {A} context (a : A) (Q : A -> Context -> Prop) : Q a context -> holds context (cret a) Q.
Proof. intros HQ h Hh. split_and!; [done | apply le2_refl | done]. Qed.

Lemma holds_bind {A B} context (m : ctask A) (k : A -> ctask B) R Q :
  holds context m R -> (forall a c, R a c -> le2 (key context) (key c) -> holds c (k a) Q) ->
  holds context (cbind m k) Q.
Proof.
  intros Hm Hk h Hh. eapply traced_tbind; [by apply Hm|]. intros h' [c a] (Hf & Hle & HR).
  eapply traced_mono; [by eapply Hk|]. intros h'' [c' b] (? & ? & ?).
  split_and!; [done | by apply (le2_trans _ (key c)) | done].
Qed.

Lemma holds_then {A B} context (m : ctask A) (k : A -> ctask B) Q :
  holds context m any -> (forall a c, holds c (k a) Q) -> holds context (cbind m k) Q.
Proof. intros Hm Hk. eapply holds_bind; [exact Hm|]. auto. Qed.

Lemma holds_try {A B} context (m : ctask (result A NodeError)) (k : A -> ctask (result B NodeError)) R Q :
  holds context m R -> (forall e c, R (Err e) c -> Q (Err e) c) ->
  (forall a c, R (Ok a) c -> le2 (key context) (key c) -> holds c (k a) Q) ->
  holds context (ctry m k) Q.
Proof.
  intros Hm He Hk. eapply holds_bind; [exact Hm|]. intros [a|e] c HR Hle; [by apply Hk|].
  apply holds_ret. by apply He.
Qed.

Lemma holds_try_any {A B} context (m : ctask (result A NodeError)) (k : A -> ctask (result B NodeError)) :
  holds context m any -> (forall a c, holds c (k a) any) -> holds context (ctry m k) any.
Proof. intros Hm Hk. by eapply (holds_try _ _ _ any any). Qed.

Lemma holds_get {A} context (k : Context -> ctask A) Q :
  holds context (k context) Q -> holds context (cbind cget k) Q.
Proof. done. Qed.

(** The context changes and does not go back. *)
Definition forward (context context' : Context) : Prop :=
  le2 (key context) (key context') /\ (context_typed context -> context_typed context').

Lemma follows_forward h context context' : follows h context -> forward context context' -> follows h context'.
Proof.
  intros [] [Hle Ht]. constructor; [done | done | | by apply (le2_trans _ (key context)) | by apply Ht].
  eapply Forall_impl; [eassumption|]. intros k Hk. by apply (le2_trans _ (key context)).
Qed.

Lemma holds_put {A} context f (k : unit -> ctask A) Q :
  forward context (f context) -> holds (f context) (k tt) Q -> holds context (cbind (cput f) k) Q.
Proof.
  intros Hf Hk h Hh. eapply traced_mono; [apply Hk; by eapply follows_forward|].
  intros h' p (? & ? & ?). split_and!; [done | | done]. eapply le2_trans; [apply Hf | done].
Qed.

Lemma holds_put_last context f Q :
  forward context (f context) -> Q tt (f context) -> holds context (cput f) Q.
Proof.
  intros Hf HQ h Hh. split_and!; [by eapply follows_forward | apply Hf | done].
Qed.

Lemma follows_quiet context h out : follows h context -> Forall quiet out -> follows (h ++ out) context.
Proof.
  intros [] Hout. assert (Hp : published (h ++ out) = published h)
    by (by rewrite published_app, (published_quiet out Hout), app_nil_r).
  constructor; unfold in_order; by rewrite ?Hp.
Qed.

(** A task of the node that publishes nothing. *)
Lemma holds_lift {A} context (t : ntask A) (Q : A -> Context -> Prop) :
  emits quiet t -> (forall a, Q a context) -> holds context (lift t) Q.
Proof.
  intros Ht HQ h Hh. eapply traced_tbind.
  - eapply (traced_emits _ _ quiet (fun h => follows h context)); [| |exact Ht|exact Hh].
    + intros h' out. apply follows_quiet.
    + intros h'. apply follows_ok.
  - intros h' a Hh'. split_and!; [done | apply le2_refl | apply HQ].
Qed.

Lemma holds_panic {A} context Q : holds context (panic : ctask A) Q.
Proof. intros h Hh e s x s' out _ [=]. Qed.

Lemma holds_or_panic {A} context (o : option A) Q :
  (forall a, o = Some a -> Q a context) -> holds context (or_panic o) Q.
Proof. intros HQ. destruct o as [a|]; [by apply holds_ret, HQ | apply holds_panic]. Qed.

(** The state of the context is published. *)
Lemma holds_publish {A} context (t : ntask A) state Q :
  emits (fun effect => quiet effect \/ published_key effect = Some (state_key state)) t ->
  state_key state = key context -> (forall a, Q a context) -> holds context (lift t) Q.
Proof.
  intros Ht Hkey HQ h Hh. eapply traced_tbind.
  - eapply (traced_emits _ _ _ (fun h => follows h context)); [| |exact Ht|exact Hh].
    + intros h' out Hf Hout. induction Hout as [|x out Hx Hout IH] in h', Hf |- *; [by rewrite app_nil_r|].
      rewrite (app_assoc h' [x] out : h' ++ x :: out = (h' ++ [x]) ++ out). apply IH.
      destruct Hx as [Hx|Hx]; [by apply follows_quiet; [|apply Forall_singleton]|].
      destruct Hf. assert (Hp : published (h' ++ [x]) = published h' ++ [key context])
        by (rewrite published_app; cbn; by rewrite Hx, Hkey).
      constructor; unfold in_order; rewrite ?Hp.
      * apply StronglySorted_app_2; [| done | by repeat constructor].
        intros k1 k2 Hk1 ->%list_elem_of_singleton. by eapply Forall_forall in follows_high0.
      * apply Forall_app. split; [done | by apply Forall_singleton].
      * apply Forall_app. split; [done | apply Forall_singleton, le2_refl].
      * done.
      * done.
    + intros h'. apply follows_ok.
  - intros h' a Hh'. split_and!; [done | apply le2_refl | apply HQ].
Qed.

Lemma holds_recv context job (Q : Received V3Inbound -> Context -> Prop) :
  (forall r, match r with Received_Value event => event_typed event | _ => True end -> Q r context) ->
  holds context (lift (recv job)) Q.
Proof.
  intros HQ h Hh e s x s' out He. cbn. unfold env_typed in He.
  destruct (ne_event e) as [[event|]|]; [| |destruct (ne_elapsed e); [|done]]; intros [= <- <- <-].
  - assert (Hf : follows (h ++ [Did_Receive job event]) context)
      by (by apply follows_quiet; [|apply Forall_singleton]).
    split; [by eapply follows_ok|]. split_and!; [done | apply le2_refl | by apply HQ].
  - rewrite app_nil_r. split; [by eapply follows_ok|]. split_and!; [done | apply le2_refl | by apply HQ].
  - rewrite app_nil_r. split; [by eapply follows_ok|]. split_and!; [done | apply le2_refl | by apply HQ].
Qed.

Lemma holds_for {A} context (body : A -> ctask unit) xs :
  (forall x c, holds c (body x) any) -> holds context (cfor body xs) any.
Proof.
  intros Hb. revert context. induction xs as [|x xs IH]; intros context; cbn; [by apply holds_ret|].
  apply holds_then; [apply Hb | intros _; apply IH].
Qed.

(** A loop that leaves the context as it is. *)
Lemma holds_for_same {A} context (body : A -> ctask unit) xs :
  (forall x, holds context (body x) (fun _ c => c = context)) ->
  holds context (cfor body xs) (fun _ c => c = context).
Proof.
  intros Hb. induction xs as [|x xs IH]; cbn; [by apply holds_ret|].
  eapply holds_bind; [apply Hb|]. by intros _ c -> _.
Qed.
End Following.

(** * Distributed training: how a task of a job ends

    [ends context m Q]: whatever the surroundings do, if [m] ends, [Q] holds of the effects it had,
    its result and the context it leaves.  A task of the node that matters only for its effects, or
    not at all, is skipped. *)

Definition ends {A} (context : Context) (m : ctask A) (Q : list NodeEffect -> A -> Context -> Prop) : Prop :=
  forall h, traced (fun _ : NodeEnv => True) (fun _ => True) h (m context)
    (fun h' p => exists out, h' = h ++ out /\ Q out p.2 p.1).

Lemma ends_mono {A} context (m : ctask A) (Q Q' : list NodeEffect -> A -> Context -> Prop) :
  ends context m Q -> (forall out a c, Q out a c -> Q' out a c) -> ends context m Q'.
Proof.
  intros Hm HQ h. eapply traced_mono; [apply Hm|]. intros h' p (out & ? & ?). eauto.
Qed.

Lemma ends_ret {A} context (a : A) (Q : list NodeEffect -> A -> Context -> Prop) :
  Q [] a context -> ends context (cret a) Q.
Proof. intros HQ h. exists []. by rewrite app_nil_r. Qed.

Lemma ends_bind {A B} context (m : ctask A) (k : A -> ctask B) R Q :
  ends context m R ->
  (forall out a c, R out a c -> ends c (k a) (fun out' b c' => Q (out ++ out') b c')) ->
  ends context (cbind m k) Q.
Proof.
  intros Hm Hk h. eapply traced_tbind; [apply Hm|]. intros h' [c a] (out & -> & HR).
  eapply traced_mono; [by apply (Hk out a c)|]. intros h' [c' b] (out' & -> & HQ).
  exists (out ++ out'). by rewrite app_assoc.
Qed.

Lemma ends_try {A B} context (m : ctask (result A NodeError)) (k : A -> ctask (result B NodeError)) R Q :
  ends context m R -> (forall out e c, R out (Err e) c -> Q out (Err e) c) ->
  (forall out a c, R out (Ok a) c -> ends c (k a) (fun out' b c' => Q (out ++ out') b c')) ->
  ends context (ctry m k) Q.
Proof.
  intros Hm He Hk. eapply ends_bind; [exact Hm|]. intros out [a|e] c HR; [by apply Hk|].
  apply ends_ret. rewrite app_nil_r. by apply He.
Qed.

Lemma ends_get {A} context (k : Context -> ctask A) Q :
  ends context (k context) Q -> ends context (cbind cget k) Q.
Proof. done. Qed.

Lemma ends_put {A} context f (k : unit -> ctask A) Q :
  ends (f context) (k tt) Q -> ends context (cbind (cput f) k) Q.
Proof. done. Qed.

Lemma ends_panic {A} context Q : ends context (panic : ctask A) Q.
Proof. intros h e s x s' out _ [=]. Qed.

Lemma ends_or_panic {A B} context (o : option A) (k : A -> ctask B) Q :
  (forall a, o = Some a -> ends context (k a) Q) -> ends context (cbind (or_panic o) k) Q.
Proof. intros Hk. destruct o as [a|]; [by apply Hk|]. intros h e s x s' out _ [=]. Qed.

(** A task of the node: its effects, one by one. *)
Lemma traced_effects {A} (q : NodeEffect -> Prop) h (t : ntask A) :
  emits q t ->
  traced (fun _ : NodeEnv => True) (fun _ => True) h t (fun h' _ => exists out, h' = h ++ out /\ Forall q out).
Proof.
  revert h. induction t as [A a|A X f k IH|A t IHt k IHk]; intros h Ht; cbn in *; [|intros e s x s' out _ Hf | done].
  - exists []. by rewrite app_nil_r.
  - destruct (Ht e s x s' out Hf) as [Hout Hk]. split; [done|].
    eapply traced_mono; [by apply IH|]. intros h' a (out' & -> & Hout'). exists (out ++ out').
    rewrite app_assoc. split; [done|]. by apply Forall_app.
Qed.

Lemma ends_lift {A} (q : NodeEffect -> Prop) context (t : ntask A) (Q : list NodeEffect -> A -> Context -> Prop) :
  emits q t -> (forall out a, Forall q out -> Q out a context) -> ends context (lift t) Q.
Proof.
  intros Ht HQ h. eapply traced_tbind; [by apply traced_effects|]. intros h' a (out & -> & Hout).
  exists out. split; [done|]. by apply HQ.
Qed.

Lemma ends_recv {A} context job (k : Received V3Inbound -> ctask A) Q :
  (forall event, ends context (k (Received_Value event)) (fun out => Q (Did_Receive job event :: out))) ->
  ends context (k Received_Closed) Q -> ends context (k Received_Timeout) Q ->
  ends context (cbind (lift (recv job)) k) Q.
Proof.
  intros Hv Hc Ht. eapply (ends_bind _ _ _ (fun out r c => c = context /\
    match r with Received_Value event => out = [Did_Receive job event] | _ => out = [] end)).
  - intros h e s x s' out _. cbn.
    destruct (ne_event e) as [[event|]|]; [| |destruct (ne_elapsed e); [|done]]; intros [= <- <- <-];
      (split; [done|]); eexists; by split.
  - intros out [event| |] c [-> ->]; [apply Hv | exact Hc | exact Ht].
Qed.

(** The next event of a loop with a deadline. *)
Lemma ends_next_event {A} context (k : option V3Inbound -> ctask A) Q :
  (forall event, ends context (k (Some event)) (fun out => Q (Did_Receive (job_of context) event :: out))) ->
  ends context (k None) Q -> ends context (cbind next_event k) Q.
Proof.
  intros Hs Hn. eapply (ends_bind _ _ _ (fun out r c => c = context /\
    match r with Some event => out = [Did_Receive (job_of context) event] | None => out = [] end)).
  - unfold next_event. eapply ends_bind; [apply (ends_lift (fun _ => False) _ _
      (fun out _ c => out = [] /\ c = context)); [apply emits_reading|]|].
    + by intros [|x out] a Hout; [|inversion Hout].
    + intros out over c [-> ->]. destruct (over : bool); [by apply ends_ret|]. apply ends_get.
      apply ends_recv; [intros event|..]; by apply ends_ret.
  - intros out [event|] c [-> ->]; [apply Hs | exact Hn].
Qed.

(** The same task, the context unchanged. *)
Lemma ends_for {A} (q : NodeEffect -> Prop) context (body : A -> ctask unit) xs :
  (forall x, ends context (body x) (fun out _ c => Forall q out /\ c = context)) ->
  ends context (cfor body xs) (fun out _ c => Forall q out /\ c = context).
Proof.
  intros Hb. induction xs as [|x xs IH]; cbn; [by apply ends_ret|].
  eapply ends_bind; [apply Hb|]. intros out _ c [Hout ->]. eapply ends_mono; [apply IH|].
  intros out' _ c [Hout' ->]. split; [by apply Forall_app | done].
Qed.

(** What is said of how a task ends is true of its runs. *)
Lemma ends_run {A} context (m : ctask A) Q envs s context' a s' out :
  ends context m Q -> run_task (m context) envs s = (Done (context', a), s', out) -> Q out a context'.
Proof.
  intros Hm Hr. destruct (traced_run (fun _ : NodeEnv => True) (fun _ => True) [] (m context)
    (fun h' p => exists out, h' = [] ++ out /\ Q out p.2 p.1) envs s (Done (context', a)) s' out) as [_ Hq];
    [apply Hm | done | by apply Forall_true | exact Hr |].
  destruct (Hq _ eq_refl) as (out' & Hout & HQ). cbn in *. by rewrite <- Hout in HQ.
Qed.
