(* ===== verification/V3Monotone.v ===== *)
(** * Distributed training: every task of a job follows its trace

    The rules of [V3Facts] applied to each task of [V3Tasks] and [V3Coordinator]. *)

From Stdlib Require Import String ZArith NArith Lia Sorting.Sorted.
From stdpp Require Import base tactics sets strings numbers list sorting gmap.
From S2P Require Import Prelude OrdMap Types Validation FileSystem Storage Aggregation Compute Float32 Planner Trust Security Network NodeConfig Tasks TraceLogic NodeState NodeJobs NodeArtifacts V3Model V3Tasks V3Coordinator V3Facts.
Local Open Scope N_scope.
Local Open Scope rust_scope.
Local Open Scope ctask_scope.

(** ** Changes that keep the key *)
Lemma forward_key context context' :
  key context' = key context -> forward context context'.
Proof.
  unfold forward, key, context_typed. intros [= Ht Hg]. cbn. rewrite Ht, Hg. repeat split; try reflexivity; tauto.
Qed.

Lemma advance_key summaries context : key (fold_left advance_summary summaries context) = key context.
Proof.
  revert context. induction summaries as [|summary summaries IH]; intros context; cbn; [done|].
  rewrite IH. unfold advance_summary. by destruct (is_newer _ _).
Qed.

Lemma put_summaries_key {A} (f : A -> TrainingShardSummary) xs context :
  key (fold_left (fun context x => put_summary (f x) context) xs context) = key context.
Proof. revert context. induction xs as [|x xs IH]; intros context; cbn; [done|]. by rewrite IH. Qed.

Lemma take_aggregates_key aggregates context :
  key (fold_left take_aggregate aggregates context) = key context.
Proof. revert context. induction aggregates as [|a aggregates IH]; intros context; cbn; [done|]. by rewrite IH. Qed.

Ltac forward_tac :=
  repeat match goal with |- context [if ?b then _ else _] => destruct b end;
  apply forward_key; reflexivity.

Section Rules.
Context (low : N * N).

Lemma holds_lift_bind {A B} context (t : ntask A) (k : A -> ctask B) Q :
  emits quiet t -> (forall a, holds low context (k a) Q) -> holds low context (cbind (lift t) k) Q.
Proof.
  intros Ht Hk. eapply (holds_bind _ _ _ _ (fun _ c => c = context)); [by apply holds_lift|].
  by intros a c -> _.
Qed.

Lemma holds_lift_try {A B} context (t : node A) (k : A -> ctask (result B NodeError)) :
  emits quiet t -> (forall a, holds low context (k a) any) ->
  holds low context (ctry (lift t) k) any.
Proof.
  intros Ht Hk. eapply (holds_try _ _ _ _ (fun _ c => c = context)); [by apply holds_lift | done |].
  by intros a c -> _.
Qed.

Lemma holds_or_panic_bind {A B} context (o : option A) (k : A -> ctask B) Q :
  (forall a, o = Some a -> holds low context (k a) Q) -> holds low context (cbind (or_panic o) k) Q.
Proof.
  intros Hk. eapply (holds_bind _ _ _ _ (fun a c => o = Some a /\ c = context));
    [by apply holds_or_panic|]. intros a c [Ho ->] _. by apply Hk.
Qed.

Lemma holds_next_event {A} context (k : option V3Inbound -> ctask A) Q :
  (forall event, match event with Some event => event_typed event | None => True end ->
     holds low context (k event) Q) ->
  holds low context (cbind next_event k) Q.
Proof.
  intros Hk. eapply (holds_bind _ _ _ _ (fun event c => c = context /\
    match event with Some event => event_typed event | None => True end)).
  - unfold next_event. apply holds_lift_bind; [apply emits_reading|]. intros [].
    + by apply holds_ret.
    + apply holds_get. eapply (holds_bind _ _ _ _ (fun r c => c = context /\
        match r with Received_Value event => event_typed event | _ => True end)); [by apply holds_recv|].
      intros r c [-> Hr] _. apply holds_ret. by destruct r.
  - intros event c [-> He] _. by apply Hk.
Qed.
End Rules.

(** Goals about what a task sends. *)
Ltac quiet_tac :=
  unfold try_send, send_ack, send_training, elapsed, tick, is_connected, now_secs, random_request_id;
  emits_walk; try (unfold quiet; reflexivity).

Ltac holds_step :=
  match goal with
  | |- forall _, _ => intros ?
  | |- holds _ _ (cbind cget _) _ => apply holds_get
  | |- holds _ _ (cbind (cput _) _) _ => apply holds_put; [solve [forward_tac]|]
  | |- holds _ _ (cput _) any => apply holds_put_last; [solve [forward_tac]|exact Logic.I]
  | |- holds _ _ (cbind (lift _) _) _ => apply holds_lift_bind; [solve [quiet_tac]|]
  | |- holds _ _ (ctry (lift _) _) any => apply holds_lift_try; [solve [quiet_tac]|]
  | |- holds _ _ (lift _) any => apply holds_lift; [solve [quiet_tac]|done]
  | |- holds _ _ (cbind (or_panic _) _) _ => apply holds_or_panic_bind
  | |- holds _ _ (cbind next_event _) _ => apply holds_next_event
  | |- holds _ _ (cret _) any => by apply holds_ret
  | |- holds _ _ panic _ => apply holds_panic
  | |- holds _ _ (match ?x with _ => _ end) _ => destruct x
  | |- holds _ _ (cfor _ _) any => apply holds_for
  | |- holds _ _ (cbind _ _) any => apply holds_then
  | |- holds _ _ (ctry _ _) any => apply holds_try_any
  | |- holds _ _ _ any => solve [eauto with holds]
  end.

Create HintDb holds discriminated.

Section Job.
Context `{Profile} `{Blake3} `{ContributionPostcard} `{NodeText} `{Hex}.
Context `{Json (JobId * N * N * Z * Z)} `{Json TrainingCheckpointManifest} `{Json TrainingStart}.
Context `{Json TrainingState} `{Json TrainingShardState} `{Json (list N)}.
Context (security_to_allocvec : LocalSecurityState -> result (list N) str).
Context (config : NodeConfig) (identity : Identity) (store : LocalStore) (fuel : nat).
Context (low : N * N).
Notation holds := (holds low).

Lemma holds_record context :
  holds context (record_context store) (fun r c => c = context /\ forall state, r = Ok state -> state = Context_state context).
Proof.
  unfold record_context. apply holds_get. eapply (holds_try _ _ _ _ (fun _ c => c = context)).
  - apply holds_lift; [apply emits_storage | done].
  - by intros e c ->.
  - intros _ c -> _. apply holds_lift_bind; [apply emits_updating|]. intros _. apply holds_ret.
    split; [done|]. by intros state [= <-].
Qed.

Lemma holds_record_any context : holds context (record_context store) any.
Proof. eapply holds_mono; [apply holds_record | done]. Qed.

(** A broadcast of the state of the context. *)
Lemma holds_broadcast_state context :
  holds context (broadcast_state identity (Context_state context)) (fun _ c => c = context).
Proof.
  unfold broadcast_state, broadcast. apply holds_get. apply holds_for_same. intros peer.
  destruct (_ || _); [by apply holds_ret|].
  apply (holds_publish _ _ _ (Context_state context)); [|done|done].
  unfold try_send, send_training. emits_walk. by right.
Qed.

(** The recorded state is broadcast. *)
Lemma holds_record_broadcast {A} context (k : ctask (result A NodeError)) :
  (forall c, holds c k any) ->
  holds context (do? state := record_context store in broadcast_state identity state >>! k) any.
Proof.
  intros Hk. eapply holds_try; [apply holds_record | done |]. intros state c [-> Hs] _.
  rewrite (Hs state eq_refl). eapply holds_bind; [apply holds_broadcast_state|]. intros _ c -> _. apply Hk.
Qed.

Lemma holds_broadcast_checkpoint context commit :
  holds context (broadcast_checkpoint identity commit) any.
Proof. unfold broadcast_checkpoint, broadcast. repeat holds_step. Qed.

(** Reconnecting to a peer changes no more than the set of failed peers. *)
Lemma holds_restore context peer :
  holds context (restore_training_peer peer) (fun _ c => key c = key context).
Proof.
  unfold restore_training_peer. apply holds_get. destruct (_ && _); [by apply holds_ret|].
  eapply (holds_bind _ _ _ _ (fun _ c => c = context)).
  { destruct (negb _); [apply holds_lift; [quiet_tac | done] | by apply holds_ret]. }
  intros live c -> _. destruct (live : bool); [apply holds_put; [forward_tac|]; by apply holds_ret|].
  apply holds_lift_bind; [quiet_tac|].
  intros []; [apply holds_put; [forward_tac|]; by apply holds_ret | by apply holds_ret].
Qed.

Lemma holds_restore_any context peer : holds context (restore_training_peer peer) any.
Proof. eapply holds_mono; [apply holds_restore | done]. Qed.

(** A vote changes neither the term nor the checkpoint. *)
Lemma holds_election context peer election :
  holds context (handle_election identity peer election) (fun _ c => key c = key context).
Proof.
  unfold handle_election. apply holds_get. destruct (_ || _); [by apply holds_ret|].
  eapply (holds_bind _ _ _ _ (fun _ c => Context_state c = Context_state context /\ key c = key context)).
  { destruct (_ <? _); [|by apply holds_ret]. apply holds_put; [forward_tac|]. by apply holds_ret. }
  intros granted c [Hs Hk] _. apply holds_lift_bind; [quiet_tac|]. intros _.
  eapply (holds_bind _ _ _ _ (fun _ c' => c' = c)); [|by intros _ c' -> _; apply holds_ret].
  destruct (granted : bool); [|by apply holds_ret].
  apply (holds_publish _ _ _ (Context_state context)); [|by rewrite Hk|done].
  unfold send_training. emits_walk. by right.
Qed.

Lemma holds_election_any context peer election :
  holds context (handle_election identity peer election) any.
Proof. eapply holds_mono; [apply holds_election | done]. Qed.

Lemma adopt_forward context peer state :
  state_refused context peer state = false ->
  state.(TrainingState_term) <= u64_max -> state.(TrainingState_checkpoint_generation) <= u64_max ->
  forward context (adopt_state state context).
Proof.
  intros Hr Ht Hg. unfold state_refused in Hr. apply orb_false_iff in Hr as [Hr _].
  apply orb_false_iff in Hr as [Hr _]. apply orb_false_iff in Hr as [_ Hr]. apply N.ltb_ge in Hr.
  unfold adopt_state, forward, context_typed. rewrite advance_key.
  set (c := if _ <? _ then _ else _).
  assert (Hk : (fold_left advance_summary (TrainingState_shards state) c).(Context_term) = c.(Context_term) /\
    (fold_left advance_summary (TrainingState_shards state) c).(Context_checkpoint_generation)
    = c.(Context_checkpoint_generation)).
  { pose proof (advance_key (TrainingState_shards state) c) as [= H1' H2']. done. }
  destruct Hk as [-> ->]. unfold le2, key. cbn [fst snd].
  assert (Hc : c.(Context_term) = state.(TrainingState_term) /\
    (c.(Context_checkpoint_generation) = context.(Context_checkpoint_generation) \/
     c.(Context_checkpoint_generation) = state.(TrainingState_checkpoint_generation) /\
     context.(Context_checkpoint_generation) <= state.(TrainingState_checkpoint_generation))).
  { unfold c. destruct (_ <? _) eqn:Hlt; [apply N.ltb_lt in Hlt; cbn in *; split; [done|right; split; [done|lia]]|].
    destruct (_ && _); split; try done; by left. }
  destruct Hc as [-> [->|[-> Hle]]]; repeat split; try lia; tauto.
Qed.

Lemma holds_state context peer state :
  message_typed (TrainingMessage_State state) ->
  holds context (handle_state identity store peer state) any.
Proof.
  intros [Ht Hg]. unfold handle_state. apply holds_get.
  destruct (state_refused _ _ _) eqn:Hr; [by apply holds_ret|].
  apply holds_put; [by eapply adopt_forward|]. eapply holds_try_any; [apply holds_record_any|].
  repeat holds_step.
Qed.

Lemma holds_offer context peer offer :
  holds context (handle_checkpoint_offer identity store peer offer) any.
Proof.
  unfold handle_checkpoint_offer, persist_shard_state.
  repeat holds_step.
Qed.

Lemma commit_forward context peer commit :
  commit_refused context peer commit = false ->
  message_typed (TrainingMessage_CheckpointCommit commit) ->
  forward context (adopt_commit commit context).
Proof.
  intros Hr [Ht Hg]. unfold commit_refused in Hr. apply orb_false_iff in Hr as [Hr _].
  apply orb_false_iff in Hr as [Hr Hgen]. apply orb_false_iff in Hr as [_ Hterm].
  apply N.ltb_ge in Hterm, Hgen. unfold adopt_commit. set (c := fold_left _ _ _).
  assert (Hk : key c = (commit.(TrainingCheckpointCommit_term),
    commit.(TrainingCheckpointCommit_manifest).(TrainingCheckpointManifest_checkpoint_generation))).
  { unfold c. by rewrite (put_summaries_key shard_summary). }
  unfold key in Hk. injection Hk as Hk1 Hk2.
  unfold forward, le2, key, context_typed. cbn. rewrite Hk1, Hk2. tauto.
Qed.

Lemma holds_commit context peer commit :
  message_typed (TrainingMessage_CheckpointCommit commit) ->
  holds context (handle_checkpoint_commit identity store peer commit) any.
Proof.
  intros Hty. unfold handle_checkpoint_commit. apply holds_get.
  destruct (commit_refused _ _ _) eqn:Hr; [by apply holds_ret|].
  apply holds_lift_try; [apply emits_storage|]. intros _.
  apply holds_put; [by eapply commit_forward|]. eapply holds_try_any; [apply holds_record_any|].
  repeat holds_step.
Qed.

#[local] Hint Resolve holds_record_any holds_broadcast_checkpoint holds_restore_any holds_election_any
  holds_offer : holds.

Lemma holds_update context window aggregator :
  holds context (compute_and_send_update identity window aggregator) any.
Proof. unfold compute_and_send_update. repeat holds_step. Qed.

Lemma emits_admit update expected : emits quiet (admit_update security_to_allocvec store update expected).
Proof.
  unfold admit_update, persist_security_state. apply emits_tbind; [|intros; emits_walk].
  apply emits_atomic. intros e s. destruct (admit_training_update _ _ _ _). constructor.
Qed.

Lemma emits_offer attempts first member offer : emits quiet (send_offer attempts first member offer).
Proof.
  revert first. induction attempts as [|attempts IH]; intros first; [done|]. cbn [send_offer].
  unfold send_training. emits_walk; reflexivity.
Qed.

#[local] Hint Resolve holds_update : holds.
#[local] Hint Resolve emits_admit emits_offer : emits.

Lemma holds_election_in_window context message peer election :
  holds context (election_in_window identity message peer election) any.
Proof. unfold election_in_window. repeat holds_step. Qed.

#[local] Hint Resolve holds_election_in_window : holds.

Lemma holds_gather n window expected updates context :
  holds context (gather_updates security_to_allocvec identity store n window expected updates) any.
Proof.
  revert updates context. induction n as [|n IH]; intros updates context; [apply holds_panic|].
  cbn [gather_updates]. repeat first [apply IH | holds_step].
Qed.

Lemma holds_await_replica n member artifact replicas context :
  holds context (await_replica identity n member artifact replicas) any.
Proof.
  revert context. induction n as [|n IH]; intros context; [apply holds_panic|].
  cbn [await_replica]. repeat first [apply IH | holds_step].
Qed.

#[local] Hint Resolve holds_gather holds_await_replica : holds.

Lemma holds_replicate_to context generation shard_id artifact member replicas :
  holds context (replicate_to identity fuel generation shard_id artifact member replicas) any.
Proof. unfold replicate_to. repeat holds_step. Qed.

#[local] Hint Resolve holds_replicate_to : holds.

Lemma holds_replicate context generation shard_id artifact members replicas :
  holds context (replicate identity fuel generation shard_id artifact members replicas) any.
Proof.
  revert context replicas. induction members as [|member members IH]; intros context replicas; cbn [replicate];
    repeat first [apply IH | holds_step].
Qed.

#[local] Hint Resolve holds_replicate : holds.

Lemma holds_store_shard context group window state :
  holds context (store_shard_state identity store fuel group window state) any.
Proof. unfold store_shard_state, persist_shard_state. repeat holds_step. Qed.

#[local] Hint Resolve holds_store_shard : holds.

Lemma holds_collect context group window :
  holds context (collect_group_updates security_to_allocvec identity store fuel group window) any.
Proof. unfold collect_group_updates. repeat holds_step. Qed.

#[local] Hint Resolve holds_collect : holds.

Lemma holds_lead n group window context :
  holds context (lead_group security_to_allocvec identity store fuel n group window) any.
Proof.
  revert window context. induction n as [|n IH]; intros window context; [apply holds_panic|].
  cbn [lead_group]. repeat first [apply IH | holds_step].
Qed.

#[local] Hint Resolve holds_lead : holds.

Lemma window_forward context peer window :
  window_refused identity context peer window = false -> window.(TrainingWindow_term) <= u64_max ->
  forward context (set_Context_failed ∅
    (set_Context_coordinator window.(TrainingWindow_coordinator)
       (set_Context_term window.(TrainingWindow_term) context))).
Proof.
  intros Hr Ht. unfold window_refused in Hr.
  do 5 apply orb_false_iff in Hr as [Hr _]. apply orb_false_iff in Hr as [_ Hr]. apply N.ltb_ge in Hr.
  unfold forward, le2, key, context_typed. cbn. split; [split; [done | reflexivity] | tauto].
Qed.

Lemma holds_window context peer window :
  message_typed (TrainingMessage_Window window) ->
  holds context (handle_window security_to_allocvec config identity store fuel peer window) any.
Proof.
  intros Ht. unfold handle_window. apply holds_get.
  destruct (window_refused _ _ _ _) eqn:Hr; [repeat holds_step|].
  apply holds_try_any.
  - destruct (_ <? _); [|by apply holds_ret]. apply holds_put; [by eapply window_forward|].
    repeat holds_step.
  - repeat holds_step.
Qed.

Lemma holds_shard_state context peer state :
  holds context (handle_shard_state store peer state) any.
Proof. unfold handle_shard_state, persist_shard_state. repeat holds_step. Qed.

#[local] Hint Resolve holds_shard_state : holds.

Lemma holds_worker_message context peer message :
  message_typed message ->
  holds context (handle_worker_message security_to_allocvec config identity store fuel peer message) any.
Proof.
  intros Ht. destruct message; cbn [handle_worker_message]; try (by apply holds_ret);
    auto using holds_window, holds_state, holds_commit with holds.
  repeat holds_step.
Qed.

(** ** Elections *)
Lemma recover_forward context state :
  message_typed (TrainingMessage_State state) -> forward context (recover_state state context).
Proof.
  intros [Ht Hg]. unfold recover_state. set (c := set_Context_checkpoint _ _).
  assert (Hk : forall c', c' = fold_left advance_summary (TrainingState_shards state) c ->
    c'.(Context_term) = context.(Context_term) /\ c'.(Context_checkpoint_generation) =
      N.max context.(Context_checkpoint_generation) state.(TrainingState_checkpoint_generation)).
  { intros c' ->. pose proof (advance_key (TrainingState_shards state) c) as [= H1' H2']. by rewrite H1', H2'. }
  destruct (Hk _ eq_refl) as [Hk1 Hk2]. unfold forward, le2, key, context_typed. cbn [fst snd].
  rewrite Hk1, Hk2. repeat split; lia.
Qed.

Lemma recover_term context state : (recover_state state context).(Context_term) = context.(Context_term).
Proof.
  unfold recover_state. set (c := set_Context_checkpoint _ _).
  by pose proof (advance_key (TrainingState_shards state) c) as [= -> _].
Qed.

(** The term of the context stays the same while votes are counted. *)
Notation same_term context := (fun _ c => c.(Context_term) = context.(Context_term)).

Lemma holds_count_votes n candidate term previous_term previous_coordinator quorum_size votes context :
  holds context (count_votes identity n candidate term previous_term previous_coordinator quorum_size votes)
    (same_term context).
Proof.
  revert votes context. induction n as [|n IH]; intros votes context; [apply holds_panic|].
  cbn [count_votes]. destruct (_ <=? _); [by apply holds_ret|].
  apply holds_next_event. intros event He. apply holds_get.
  destruct event as [[peer message|peer]|]; [|apply IH|by apply holds_ret].
  destruct message; try apply IH.
  - destruct (is_recovery _ _ _ _ _); [|apply IH].
    apply holds_put; [by apply recover_forward|].
    eapply holds_mono; [apply IH|]. intros a c ->. by rewrite recover_term.
  - destruct (is_vote _ _ _ _ _); apply IH.
  - destruct (_ <? _); [|apply IH].
    eapply holds_try; [apply holds_election | by intros e c [= -> _] |].
    intros _ c [= Hc _] _. by apply holds_ret.
Qed.

Lemma emits_request first election peer : emits quiet (request_vote first election peer).
Proof.
  unfold request_vote, is_connected, send_training.
  emits_walk; try reflexivity; emits_walk; reflexivity.
Qed.

Lemma holds_requests context (skip : NodeId -> bool) first election peers :
  holds context (cfor (fun peer => if skip peer then cret tt
    else lift (request_vote first election peer)) peers) (fun _ c => c = context).
Proof.
  apply holds_for_same. intros peer. destruct (skip peer); [by apply holds_ret|].
  apply holds_lift; [apply emits_request | done].
Qed.

Lemma holds_seek attempts first election failed previous_term previous_coordinator quorum_size votes context :
  holds context (seek_votes identity fuel attempts first election failed previous_term
    previous_coordinator quorum_size votes) (same_term context).
Proof.
  revert first votes context. induction attempts as [|attempts IH]; intros first votes context;
    cbn [seek_votes]; [by apply holds_ret|].
  apply holds_get. eapply holds_bind; [apply (holds_requests _ (fun peer => _ || _))|]. intros _ c -> _.
  eapply holds_try; [apply holds_count_votes | done |]. intros counted c Hc _.
  destruct counted as [votes'|]; [|by apply holds_ret]. destruct (_ <=? _); [by apply holds_ret|].
  eapply (holds_bind _ _ _ _ (fun _ c' => c' = c)).
  { destruct (Nat.eqb _ _); [by apply holds_ret | apply holds_lift; [apply emits_sleep | done]]. }
  intros _ c' -> _. eapply holds_mono; [apply IH|]. intros a c' Hc'. by rewrite Hc'.
Qed.

Lemma holds_elect context failed : holds context (maybe_elect identity store fuel failed) any.
Proof.
  intros h Hh. pose proof (follows_typed _ _ _ Hh) as Hty. revert h Hh.
  change (holds context (maybe_elect identity store fuel failed) any).
  unfold maybe_elect. apply holds_put; [forward_tac|]. apply holds_get. set (c0 := mark_failed failed context).
  assert (Hc0 : context_typed c0) by exact Hty. clearbody c0.
  destruct (election_candidates c0) as [|candidate candidates]; [by apply holds_ret|].
  destruct (negb _); [by apply holds_ret|]. cbn zeta.
  eapply holds_try; [apply holds_seek | done |]. intros counted c Hterm Hle.
  destruct counted as [votes|]; [|by apply holds_ret]. destruct (_ <? _); [by apply holds_ret|].
  apply holds_put; [|apply holds_record_broadcast; intros c'; by apply holds_ret].
  cbn in Hterm. destruct Hc0 as [Ht Hg]. unfold forward, le2, key, context_typed, take_over, sat_add. cbn.
  rewrite Hterm. repeat split; lia.
Qed.

(** ** The coordinator *)

#[local] Hint Resolve holds_worker_message holds_elect : holds.

Lemma holds_try_state context peer state c :
  state_key state = key c -> context = c ->
  holds context (lift (try_send peer (TrainingMessage_State state))) (fun _ c' => c' = c).
Proof.
  intros Hk ->. apply (holds_publish _ _ _ state); [|done|done]. unfold try_send, send_training.
  emits_walk. by right.
Qed.

(** While acknowledgements of the context's state come in, its key stays the same, so the state
    that is sent again is still the context's. *)
Lemma holds_state_acks n state expected acks context :
  state_key state = key context -> holds context (await_state_acks identity n state expected acks) any.
Proof.
  revert acks context. induction n as [|n IH]; intros acks context Hk; [apply holds_panic|].
  cbn [await_state_acks]. destruct (_ <=? _); [by apply holds_ret|].
  apply holds_next_event. intros event _. apply holds_get.
  destruct event as [[peer message|peer]|]; [| |by apply holds_ret].
  - destruct message; try (by apply IH).
    + destruct (_ && _); by apply IH.
    + destruct (_ <? _); [|by apply IH]. repeat holds_step.
  - destruct (bool_decide _); [|by apply IH].
    eapply holds_bind; [apply holds_restore|]. intros restored c Hc _.
    eapply (holds_bind _ _ _ _ (fun _ c' => key c' = key c)).
    + destruct (restored : bool); [|by apply holds_put_last; [forward_tac|]].
      eapply holds_mono; [apply (holds_try_state c _ _ c); [by rewrite Hc|done]|]. by intros _ c' ->.
    + intros _ c' Hc' _. apply IH. by rewrite Hc', Hc.
Qed.

(** Record, broadcast and wait. *)
Lemma holds_record_wait {A} context (k : bool -> ctask (result A NodeError)) :
  (forall b c, holds c (k b) any) ->
  holds context (do? state := record_context store in
    do! reached := broadcast_state_and_wait identity fuel state in k reached) any.
Proof.
  intros Hk. eapply holds_try; [apply holds_record | done |]. intros state c [-> Hs] _.
  rewrite (Hs state eq_refl). apply holds_then; [|auto].
  unfold broadcast_state_and_wait. eapply holds_bind; [apply holds_broadcast_state|].
  intros _ c -> _. apply holds_get. by apply holds_state_acks.
Qed.

Lemma holds_checkpoint_acks n commit expected acks context :
  holds context (await_checkpoint_acks n commit expected acks) any.
Proof.
  revert expected acks context. induction n as [|n IH]; intros expected acks context; [apply holds_panic|].
  cbn [await_checkpoint_acks]. repeat first [apply IH | holds_step].
Qed.

#[local] Hint Resolve holds_checkpoint_acks : holds.

Lemma holds_checkpoint_wait context commit :
  holds context (broadcast_checkpoint_and_wait identity fuel commit) any.
Proof. unfold broadcast_checkpoint_and_wait. repeat holds_step. Qed.

#[local] Hint Resolve holds_checkpoint_wait : holds.

(** A new checkpoint is the next one. *)
Lemma note_forward context manifest :
  context_typed context ->
  manifest.(TrainingCheckpointManifest_checkpoint_generation)
    = sat_add u64_max context.(Context_checkpoint_generation) 1 ->
  forward context (note_checkpoint manifest context).
Proof.
  intros [Ht Hg] Hm. unfold forward, le2, key, context_typed, note_checkpoint. cbn. rewrite Hm.
  unfold sat_add. repeat split; lia.
Qed.

(** Facts about a context that is followed. *)
Lemma holds_typed {A} context (m : ctask A) Q : (context_typed context -> holds context m Q) -> holds context m Q.
Proof. intros Hm h Hh. by apply Hm; [apply (follows_typed _ _ _ Hh)|]. Qed.

Lemma holds_commit_context context : holds context (commit_context_checkpoint identity store fuel) any.
Proof.
  apply holds_typed. intros Hty. unfold commit_context_checkpoint. apply holds_get.
  eapply (holds_try _ _ _ _ (fun r c => c = context /\ r = make_checkpoint_from_context context));
    [by apply holds_ret | done |].
  intros manifest c [-> Hm] _. apply holds_lift_try; [apply emits_storage|]. intros _.
  apply holds_put; [|repeat holds_step].
  apply note_forward; [done|]. unfold make_checkpoint_from_context in Hm.
  symmetry in Hm. apply rbind_ok in Hm as (_ & _ & [= <-]). reflexivity.
Qed.

#[local] Hint Resolve holds_commit_context : holds.

Lemma holds_dispatch context group window :
  holds context (dispatch_autonomous_window security_to_allocvec identity store fuel group window) any.
Proof. unfold dispatch_autonomous_window. repeat holds_step. Qed.

#[local] Hint Resolve holds_dispatch : holds.

Lemma holds_dispatch_next group context :
  holds context (dispatch_next security_to_allocvec identity store fuel group) any.
Proof. unfold dispatch_next. repeat holds_step. Qed.

Lemma holds_wait_aggregate n group_id window context :
  holds context (wait_for_aggregate_loop identity n group_id window) any.
Proof.
  revert context. induction n as [|n IH]; intros context; [apply holds_panic|].
  cbn [wait_for_aggregate_loop]. repeat first [apply IH | holds_step].
Qed.

#[local] Hint Resolve holds_dispatch_next holds_wait_aggregate : holds.

Lemma holds_group_window context group window :
  holds context (run_group_window security_to_allocvec identity store fuel group window) any.
Proof. unfold run_group_window, wait_for_aggregate. repeat holds_step. Qed.

#[local] Hint Resolve holds_group_window : holds.

Lemma holds_group_aggregate context window group :
  holds context (group_aggregate security_to_allocvec identity store fuel window group) any.
Proof. unfold group_aggregate. repeat holds_step. Qed.

#[local] Hint Resolve holds_group_aggregate : holds.

Lemma holds_group_aggregates context window groups aggregates :
  holds context (group_aggregates security_to_allocvec identity store fuel window groups aggregates) any.
Proof.
  revert context aggregates. induction groups as [|group groups IH]; intros context aggregates;
    cbn [group_aggregates]; repeat first [apply IH | holds_step].
Qed.

#[local] Hint Resolve holds_group_aggregates : holds.

Lemma holds_checkpoint_window context aggregates :
  holds context (checkpoint_window identity store fuel aggregates) any.
Proof.
  apply holds_typed. intros Hty. unfold checkpoint_window. apply holds_get. cbn zeta.
  apply holds_lift_try; [apply emits_storage|]. intros _. apply holds_put; [by apply note_forward|].
  repeat holds_step.
Qed.

#[local] Hint Resolve holds_checkpoint_window : holds.

Lemma holds_drive_window context window :
  holds context (drive_window security_to_allocvec identity store fuel window) any.
Proof.
  unfold drive_window. apply holds_get. apply holds_try_any; [repeat holds_step|]. intros aggregates c.
  apply holds_put; [apply forward_key; unfold after_window; by rewrite take_aggregates_key|].
  apply holds_record_wait. repeat holds_step.
Qed.

Lemma holds_drive_windows context windows :
  holds context (drive_windows security_to_allocvec identity store fuel windows) any.
Proof.
  revert context. induction windows as [|window windows IH]; intros context; cbn [drive_windows];
    repeat first [apply IH | apply holds_drive_window | holds_step].
Qed.

#[local] Hint Resolve holds_drive_windows : holds.

Lemma holds_take_group_aggregate context completed peer aggregate :
  holds context (take_group_aggregate identity store fuel completed peer aggregate) any.
Proof.
  unfold take_group_aggregate. apply holds_get. destruct (group_for _ _) as [group|]; [|by apply holds_ret].
  destruct (aggregate_refused _ _ _ _); [repeat holds_step|].
  apply holds_put; [forward_tac|]. apply holds_record_broadcast. intros c. repeat first [progress unfold note_completion | holds_step].
Qed.

#[local] Hint Resolve holds_take_group_aggregate : holds.

Lemma holds_revive context peer group : holds context (revive_members peer group) any.
Proof. unfold revive_members. repeat holds_step. Qed.

#[local] Hint Resolve holds_revive : holds.

Lemma holds_replace_aggregators context peer groups :
  holds context (replace_aggregators security_to_allocvec identity store fuel peer groups) any.
Proof.
  revert context. induction groups as [|group groups IH]; intros context; cbn [replace_aggregators];
    repeat first [apply IH | holds_step].
Qed.

#[local] Hint Resolve holds_replace_aggregators : holds.

Lemma holds_coordinator_lost context peer :
  holds context (coordinator_lost_peer security_to_allocvec identity store fuel peer) any.
Proof. unfold coordinator_lost_peer. repeat holds_step. Qed.

#[local] Hint Resolve holds_coordinator_lost : holds.

Lemma holds_recv_bind {A} context job (k : Received V3Inbound -> ctask A) Q :
  (forall r, match r with Received_Value event => event_typed event | _ => True end ->
     holds context (k r) Q) ->
  holds context (cbind (lift (recv job)) k) Q.
Proof.
  intros Hk. eapply (holds_bind _ _ _ _ (fun r c => c = context /\
    match r with Received_Value event => event_typed event | _ => True end)); [by apply holds_recv|].
  intros r c [-> Hr] _. by apply Hk.
Qed.

Lemma holds_await_groups n completed context :
  holds context (await_groups security_to_allocvec identity store fuel n completed) any.
Proof.
  revert completed context. induction n as [|n IH]; intros completed context; [apply holds_panic|].
  cbn [await_groups]. apply holds_get. destruct (_ <=? _); [by apply holds_ret|].
  apply holds_lift_bind; [quiet_tac|]. intros []; [by apply holds_ret|].
  apply holds_recv_bind. intros [[peer message|peer]| |] Hr; [| |by apply holds_ret..].
  - destruct message; try apply IH; try (repeat first [apply IH | holds_step]).
    by apply holds_state.
  - repeat first [apply IH | holds_step].
Qed.

Lemma holds_autonomous context :
  holds context (drive_autonomous_coordinator security_to_allocvec identity store fuel) any.
Proof.
  unfold drive_autonomous_coordinator. apply holds_record_broadcast. intros c.
  repeat first [apply holds_await_groups | holds_step].
Qed.

#[local] Hint Resolve holds_autonomous : holds.

Lemma holds_drive context : holds context (drive_coordinator security_to_allocvec identity store fuel) any.
Proof.
  unfold drive_coordinator. apply holds_get. destruct (bool_decide _); [apply holds_autonomous|].
  apply holds_record_broadcast. intros c. repeat holds_step.
Qed.

Lemma holds_lost_peer context peer : holds context (lost_peer identity store fuel peer) any.
Proof. unfold lost_peer. repeat holds_step. Qed.

Lemma holds_loop n context :
  holds context (context_loop security_to_allocvec config identity store fuel n) any.
Proof.
  revert context. induction n as [|n IH]; intros context; [apply holds_panic|].
  cbn [context_loop]. apply holds_get. destruct (bool_decide _).
  - apply holds_then; [apply holds_drive|]. intros [[]|] c; try (by apply holds_ret). apply IH.
  - apply holds_lift_bind; [quiet_tac|]. intros []; [by apply holds_ret|].
    apply holds_recv_bind. intros [[peer message|peer]| |] Hr; [| |by apply holds_ret..].
    + apply holds_then; [by apply holds_worker_message|]. repeat first [apply IH | holds_step].
    + apply holds_then; [apply holds_lost_peer | intros _; apply IH].
Qed.
End Job.

Section Claims.
Context `{Profile} `{Blake3} `{ContributionPostcard} `{NodeText} `{Hex}.
Context `{Json (JobId * N * N * Z * Z)} `{Json TrainingCheckpointManifest} `{Json TrainingStart}.
Context `{Json TrainingState} `{Json TrainingShardState} `{Json (list N)}.

(** (C12) Whatever arrives in its mailbox and whoever leads it, a node never publishes an older state
    of a job than before: the terms and checkpoint generations of the states it sends, to all or to
    a candidate it votes for, never decrease along a run of the job, and never fall below those it
    started with. *)
Theorem published_states_never_go_back security_to_allocvec config identity store fuel context envs s t' s' out :
  context_typed context -> Forall env_typed envs ->
  run_task (run_context security_to_allocvec config identity store fuel context) envs s = (t', s', out) ->
  StronglySorted le2 (published out) /\ Forall (le2 (key context)) (published out).
Proof.
  intros Hty Henvs Hrun.
  assert (Hf : follows (key context) [] context) by (constructor; try constructor; done || apply le2_refl || apply Hty).
  destruct (traced_run env_typed (trace_ok (key context)) []
    (run_context security_to_allocvec config identity store fuel context) (fun _ _ => True)
    envs s t' s' out) as [Hok _]; [| |done|done|by apply Hok].
  - unfold run_context. eapply traced_tbind; [by apply holds_loop|].
    intros h [c r] (Hh & _ & _). cbn [fst] in Hh.
    eapply traced_mono; [|done].
    eapply (traced_emits _ _ quiet (fun h => follows (key context) h c)); [| | |exact Hh].
    + intros h' out'. apply follows_quiet.
    + intros h'. apply follows_ok.
    + emits_walk.
  - by eapply follows_ok.
Qed.
End Claims.
