(* ===== verification/V3Elections.v ===== *)
(** * Distributed training: elections

    A worker becomes the coordinator of a term only when a majority of the participants, itself
    included, has voted for it; so two nodes that win the same term share a voter. *)

From Stdlib Require Import String ZArith NArith Lia Sorting.Sorted.
From stdpp Require Import base tactics sets strings numbers list gmap.
From S2P Require Import Prelude OrdMap Types Validation FileSystem Storage Aggregation Compute Float32 Planner Trust Security Network NodeConfig Tasks TraceLogic NodeState NodeJobs NodeArtifacts V3Model V3Tasks V3Facts V3Coordinator.
Local Open Scope N_scope.
Local Open Scope rust_scope.
Local Open Scope ctask_scope.

(** The node that granted its vote to the candidate in the term, when the effect is that this vote
    arrived. *)
Definition vote_from (job : JobId) (candidate : NodeId) (term : N) (effect : NodeEffect) : option NodeId :=
  match effect with
  | Did_Receive job' (V3Inbound_Message peer (TrainingMessage_Ack ack)) =>
      match ack.(TrainingAck_kind) with
      | TrainingAckKind_Vote candidate' term' _ granted =>
          if (job' == job) && (peer == ack.(TrainingAck_peer)) && (ack.(TrainingAck_job_id) == job)
             && (ack.(TrainingAck_term) =? term) && (candidate' == candidate) && (term' =? term) && granted
          then Some peer else None
      | _ => None
      end
  | _ => None
  end.

Definition votes_in (job : JobId) (candidate : NodeId) (term : N) (trace : list NodeEffect) : list NodeId :=
  omap (vote_from job candidate term) trace.

Lemma votes_app job candidate term h h' :
  votes_in job candidate term (h ++ h') = votes_in job candidate term h ++ votes_in job candidate term h'.
Proof. apply omap_app. Qed.

(** ** One election *)

Section Job.
Context `{Profile} `{Blake3} `{ContributionPostcard} `{NodeText} `{Hex}.
Context `{Json (JobId * N * N * Z * Z)} `{Json TrainingCheckpointManifest} `{Json TrainingStart}.
Context `{Json TrainingState} `{Json TrainingShardState} `{Json (list N)}.
Context (identity : Identity) (store : LocalStore) (fuel : nat).
Notation node_id := identity.(Identity_node_id).

(** The voters of a set, other than the node itself. *)
Definition voters (context : Context) (candidate : NodeId) (term : N) (trace : list NodeEffect)
    (votes : gset NodeId) : Prop :=
  forall peer, peer ∈ votes -> peer = node_id \/
    peer ∈ context.(Context_start).(TrainingStart_participants)
    /\ peer ∈ votes_in (job_of context) candidate term trace.

Lemma voters_app context candidate term h h' votes :
  voters context candidate term h votes -> voters context candidate term (h ++ h') votes.
Proof.
  intros Hv peer Hp. destruct (Hv peer Hp) as [?|[? ?]]; [by left | right; split; [done|]].
  rewrite votes_app. apply elem_of_app. by left.
Qed.

Lemma is_vote_from context candidate term peer ack :
  is_vote identity context candidate term peer ack = true ->
  peer ∈ context.(Context_start).(TrainingStart_participants) /\
  vote_from (job_of context) candidate term
    (Did_Receive (job_of context) (V3Inbound_Message peer (TrainingMessage_Ack ack))) = Some peer.
Proof.
  unfold is_vote, vote_from. destruct (TrainingAck_kind ack) as [| | |c t w g]; try done.
  intros Hv. repeat (apply andb_true_iff in Hv as [Hv ?]).
  split; [by apply contains_true|].
  repeat match goal with Hx : _ = true |- _ => rewrite Hx; clear Hx end.
  by rewrite bool_decide_true.
Qed.

(** Nothing that is sent counts as a vote, and the role of a context and the facts of its job do
    not change while votes are counted. *)
Definition same_job (context context' : Context) : Prop :=
  context'.(Context_start) = context.(Context_start) /\ context'.(Context_role) = context.(Context_role).

Lemma recover_same context state : same_job context (recover_state state context).
Proof.
  unfold recover_state, same_job.
  assert (Hf : forall shards c, (fold_left advance_summary shards c).(Context_start) = c.(Context_start) /\
    (fold_left advance_summary shards c).(Context_role) = c.(Context_role)).
  { induction shards as [|shard shards IH]; intros c; cbn; [done|]. destruct (IH (advance_summary c shard)) as [-> ->].
    unfold advance_summary. by destruct (is_newer _ _). }
  set (c := set_Context_checkpoint _ _). by destruct (Hf (TrainingState_shards state) c) as [-> ->].
Qed.

Lemma ends_election context peer election :
  ends context (handle_election identity peer election) (fun _ _ c => same_job context c).
Proof.
  unfold handle_election. apply ends_get. destruct (_ || _); [by apply ends_ret|].
  eapply (ends_bind _ _ _ (fun _ _ c => same_job context c)).
  { destruct (_ <? _); [by apply ends_put, ends_ret | by apply ends_ret]. }
  intros _ granted c Hc. eapply (ends_bind _ _ _ (fun _ _ c => same_job context c)).
  { eapply (ends_lift (fun _ => True)); [|done]. unfold send_ack, send_training. emits_walk; done. }
  intros _ _ c' Hc'. eapply (ends_bind _ _ _ (fun _ _ c => same_job context c)).
  { destruct (granted : bool); [|by apply ends_ret].
    eapply (ends_lift (fun _ => True)); [|done]. unfold send_training. emits_walk; done. }
  intros _ _ c'' Hc''. by apply ends_ret.
Qed.

Lemma same_job_trans c1 c2 c3 : same_job c1 c2 -> same_job c2 c3 -> same_job c1 c3.
Proof. intros [H1' H2'] [H3' H4']. split; congruence. Qed.

(** The votes counted so far were all received. *)
Definition counted_ok (context : Context) (candidate : NodeId) (term : N) (before : list NodeEffect)
    (out : list NodeEffect) (r : result (option (gset NodeId)) NodeError) (c : Context) : Prop :=
  same_job context c /\
  match r with
  | Ok (Some votes) => voters context candidate term (before ++ out) votes
  | _ => True
  end.

Lemma voters_same context context' candidate term trace votes :
  same_job context context' -> voters context' candidate term trace votes ->
  voters context candidate term trace votes.
Proof. intros [Hs _] Hv. unfold voters in *. by rewrite <- Hs. Qed.

Lemma ends_count_votes n candidate term previous_term previous_coordinator quorum_size votes context before :
  voters context candidate term before votes ->
  ends context (count_votes identity n candidate term previous_term previous_coordinator quorum_size votes)
    (counted_ok context candidate term before).
Proof.
  revert votes context before. induction n as [|n IH]; intros votes context before Hv; [apply ends_panic|].
  cbn [count_votes]. destruct (_ <=? _); [apply ends_ret; split; [done | by rewrite app_nil_r]|].
  assert (Hnext : forall event c votes', same_job context c ->
    voters context candidate term (before ++ [event]) votes' ->
    ends c (count_votes identity n candidate term previous_term previous_coordinator quorum_size votes')
      (fun out => counted_ok context candidate term before (event :: out))).
  { intros event c votes' [Hs Hr] Hv'. eapply ends_mono; [apply (IH votes' c (before ++ [event]))|].
    - unfold voters in *. by rewrite Hs.
    - intros out r c' [Hc' Hres]. split; [by eapply same_job_trans|]. destruct r as [[votes''|]|]; try done.
      eapply (voters_same _ c); [done|]. by rewrite <- app_assoc in Hres. }
  apply ends_next_event; [|by apply ends_ret; split; [|rewrite app_nil_r]].
  intros event. apply ends_get.
  assert (Hsame : ends context (count_votes identity n candidate term previous_term previous_coordinator
    quorum_size votes) (fun out => counted_ok context candidate term before
      (Did_Receive (job_of context) event :: out))) by (apply Hnext; [done | by apply voters_app]).
  destruct event as [peer message|peer]; [|exact Hsame]. destruct message; try exact Hsame.
  - destruct (is_recovery _ _ _ _ _); [|exact Hsame]. apply ends_put.
    apply Hnext; [apply recover_same | by apply voters_app].
  - destruct (is_vote _ _ _ _ _) eqn:Hvote; [|exact Hsame]. apply is_vote_from in Hvote as [Hp Hvote].
    apply Hnext; [done|]. intros voter [->%elem_of_singleton|Hin]%elem_of_union; [|by apply (voters_app _ _ _ before _ votes)].
    right. split; [done|]. rewrite votes_app. apply elem_of_app. right. unfold votes_in. cbn [omap list_omap].
    rewrite Hvote. by apply list_elem_of_here.
  - destruct (_ <? _); [|exact Hsame].
    eapply ends_try; [apply ends_election | done |]. intros out [] c Hc. by apply ends_ret.
Qed.

Lemma ends_seek attempts first election failed previous_term previous_coordinator quorum_size votes context before :
  voters context election.(TrainingElection_candidate) election.(TrainingElection_term) before votes ->
  ends context (seek_votes identity fuel attempts first election failed previous_term
    previous_coordinator quorum_size votes)
    (counted_ok context election.(TrainingElection_candidate) election.(TrainingElection_term) before).
Proof.
  revert first votes context before. induction attempts as [|attempts IH]; intros first votes context before Hv;
    cbn [seek_votes]; [by apply ends_ret; split; [|rewrite app_nil_r]|].
  apply ends_get. eapply ends_bind; [apply (ends_for (fun _ => True))|].
  { intros peer. destruct (_ || _); [by apply ends_ret|]. apply (ends_lift (fun _ => True)); [|done].
    unfold request_vote, is_connected, send_training. emits_walk; try done; emits_walk; done. }
  intros out1 [] c [_ ->]. eapply ends_try; [by eapply ends_count_votes, voters_app| |].
  { intros out e c [Hc _]. by split. }
  intros out2 counted c [Hc Hcounted]. destruct counted as [votes'|]; [|by apply ends_ret].
  destruct (_ <=? _); [apply ends_ret; split; [done|]; by rewrite app_nil_r, app_assoc|].
  eapply (ends_bind _ _ _ (fun _ _ c' => c' = c)).
  { destruct (Nat.eqb _ _); [by apply ends_ret|]. apply (ends_lift (fun _ => True)); [apply emits_sleep | done]. }
  intros out3 [] c' ->. eapply ends_mono; [apply (IH _ votes' c (((before ++ out1) ++ out2) ++ out3))|].
  - apply voters_app. destruct Hc as [Hs _]. unfold voters in *. by rewrite Hs.
  - intros out4 r c' [Hc' Hr]. split; [by eapply same_job_trans|]. destruct r as [[votes''|]|]; try done.
    eapply voters_same; [exact Hc|]. by rewrite <- !app_assoc in *.
Qed.

(** What it means to have won the next term. *)
Definition won (context : Context) (trace : list NodeEffect) (context' : Context) : Prop :=
  let term := sat_add u64_max context.(Context_term) 1 in
  context'.(Context_term) = term /\ context'.(Context_coordinator) = node_id /\
  node_id ∈ context.(Context_start).(TrainingStart_participants) /\
  exists others : gset NodeId,
    node_id ∉ others /\
    (forall peer, peer ∈ others -> peer ∈ context.(Context_start).(TrainingStart_participants)
       /\ peer ∈ votes_in (job_of context) node_id term trace) /\
    quorum (len context.(Context_start).(TrainingStart_participants)) <= N.of_nat (size others) + 1.

Lemma candidate_participates context candidate :
  candidate ∈ election_candidates context -> candidate ∈ context.(Context_start).(TrainingStart_participants).
Proof.
  unfold election_candidates. rewrite sort_by_key_perm. destruct (is_empty _);
    rewrite ?list_elem_of_In, ?filter_In; tauto.
Qed.

Lemma ends_elect context failed :
  context.(Context_role) = Role_Worker ->
  ends context (maybe_elect identity store fuel failed)
    (fun out _ c => c.(Context_role) = Role_Coordinator -> won context out c).
Proof.
  intros Hrole. unfold maybe_elect. apply ends_put, ends_get. set (c0 := mark_failed failed context).
  assert (Hc0 : same_job context c0 /\ c0.(Context_term) = context.(Context_term)) by done.
  clearbody c0. destruct Hc0 as [[Hs Hr] Ht].
  destruct (election_candidates c0) as [|candidate candidates] eqn:Hall; [apply ends_ret; congruence|].
  destruct (negb _) eqn:Hc; [apply ends_ret; congruence|].
  assert (Hin0 : candidate ∈ c0.(Context_start).(TrainingStart_participants))
    by (apply candidate_participates; rewrite Hall; by apply list_elem_of_here).
  apply negb_false_iff, bool_decide_eq_true in Hc as ->. cbn zeta.
  eapply ends_try; [apply (ends_seek _ _ _ _ _ _ _ _ _ []); intros peer ->%elem_of_singleton; by left| |].
  { intros out e c [[_ Hc] _] Hcoord. congruence. }
  intros out counted c [[Hs1 Hr1] Hv]. destruct counted as [votes|]; [|apply ends_ret; congruence].
  destruct (_ <? _) eqn:Hq; [apply ends_ret; congruence|]. apply N.ltb_ge in Hq. apply ends_put.
  eapply (ends_mono _ _ (fun _ _ c' => c'.(Context_term) = sat_add u64_max c0.(Context_term) 1 /\
    c'.(Context_coordinator) = node_id)).
  - unfold record_context. set (c1 := take_over _ _ _ _).
    assert (Hc1 : c1.(Context_term) = sat_add u64_max c0.(Context_term) 1 /\ c1.(Context_coordinator) = node_id) by done.
    clearbody c1. eapply (ends_try _ _ _ (fun _ _ c' => c' = c1)); [| by intros ? ? ? -> |].
    + apply ends_get. eapply (ends_try _ _ _ (fun _ _ c' => c' = c1)); [| done |].
      { apply (ends_lift (fun _ => True)); [apply emits_storage | done]. }
      intros _ _ c' ->. eapply (ends_bind _ _ _ (fun _ _ c' => c' = c1)).
      { apply (ends_lift (fun _ => True)); [apply emits_updating | done]. }
      intros _ _ c' ->. by apply ends_ret.
    + intros _ state c' ->. eapply (ends_bind _ _ _ (fun _ _ c' => c' = c1)).
      { unfold broadcast_state, broadcast. apply ends_get. eapply ends_mono; [apply (ends_for (fun _ => True))|by intros ? ? ? [_ ->]].
        intros peer. destruct (_ || _); [by apply ends_ret|]. apply (ends_lift (fun _ => True)); [|done].
        unfold try_send, send_training. emits_walk; done. }
      intros _ _ c' ->. by apply ends_ret.
  - intros out' r c' [Hterm Hcoord] _. unfold won. rewrite Hterm, Ht. split_and!; [done | done | by rewrite <- Hs |].
    exists (votes ∖ {[node_id]}). split_and!; [set_solver | |].
    + intros peer [Hin Hne]%elem_of_difference. destruct (Hv peer Hin) as [->|[Hp Hin']]; [set_solver|].
      cbn [TrainingElection_candidate TrainingElection_term election_of] in Hin'.
      rewrite <- Hs, <- Ht. split; [done|]. rewrite votes_app. apply elem_of_app. by left.
    + rewrite <- Hs. destruct (decide (node_id ∈ votes)) as [Hin|Hnin].
      * rewrite size_difference, size_singleton by set_solver. lia.
      * rewrite (difference_disjoint_L votes) by set_solver. lia.
Qed.
End Job.

Section Claims.
Context `{Profile} `{Blake3} `{ContributionPostcard} `{NodeText} `{Hex}.
Context `{Json (JobId * N * N * Z * Z)} `{Json TrainingCheckpointManifest} `{Json TrainingStart}.
Context `{Json TrainingState} `{Json TrainingShardState} `{Json (list N)}.

(** (C11) A worker that comes out of an election as the coordinator has won it: it leads the next
    term, and a majority of the participants of the job, itself included, voted for it: the votes of
    the others, each for this candidate and this term, arrived during the election. *)
Theorem elected_by_a_majority identity store fuel failed context envs s context' r s' out :
  context.(Context_role) = Role_Worker ->
  run_task (maybe_elect identity store fuel failed context) envs s = (Done (context', r), s', out) ->
  context'.(Context_role) = Role_Coordinator ->
  won identity context out context'.
Proof. intros Hrole Hr. by eapply (ends_run _ _ _ _ _ _ _ _ _ (ends_elect identity store fuel context failed Hrole)). Qed.

Lemma size_list_to_set_le (xs : list NodeId) : (size (list_to_set xs : gset NodeId) <= length xs)%nat.
Proof.
  induction xs as [|x xs IH]; cbn; [by rewrite size_empty|].
  rewrite size_union_alt, size_singleton.
  assert (size (list_to_set xs ∖ {[x]} : gset NodeId) <= size (list_to_set xs : gset NodeId))%nat
    by (apply subseteq_size; set_solver). lia.
Qed.

Lemma quorum_majority n : n < 2 * quorum n.
Proof. unfold quorum. pose proof (N.div_mod' n 2). pose proof (N.mod_lt n 2 ltac:(done)). lia. Qed.

(** Two sets that hold more than half of the members of a third. *)
Lemma majorities_meet (members a b : gset NodeId) :
  a ⊆ members -> b ⊆ members -> (size members < size a + size b)%nat -> exists x, x ∈ a /\ x ∈ b.
Proof.
  intros Ha Hb Hsize. destruct (decide (a ∩ b = ∅)) as [He|Hne].
  - assert (size (a ∪ b) <= size members)%nat by (apply subseteq_size; set_solver).
    rewrite size_union in * by set_solver. lia.
  - apply set_choose_L in Hne as [x Hx]. exists x. set_solver.
Qed.

Definition voted (candidate : NodeId) (job : JobId) (term : N) (trace : list NodeEffect) (voter : NodeId) : Prop :=
  voter = candidate \/ voter ∈ votes_in job candidate term trace.

(** The electorate of a winner. *)
Lemma won_electorate identity context out context' :
  won identity context out context' ->
  exists voters : gset NodeId,
    (forall voter, voter ∈ voters -> voter ∈ context.(Context_start).(TrainingStart_participants) /\
       voted identity.(Identity_node_id) (job_of context) context'.(Context_term) out voter) /\
    quorum (len context.(Context_start).(TrainingStart_participants)) <= N.of_nat (size voters).
Proof.
  intros (Ht & _ & Hin & others & Hnot & Hothers & Hq). exists ({[identity.(Identity_node_id)]} ∪ others). split.
  - intros voter [->%elem_of_singleton|Hv]%elem_of_union; [split; [done | by left]|].
    destruct (Hothers voter Hv). split; [done|]. right. by rewrite Ht.
  - rewrite size_union, size_singleton by set_solver. lia.
Qed.

(** Two nodes that win the same term of a job share a voter: some participant voted for both of
    them, or one of them voted for the other. *)
Theorem winners_share_a_voter a b store_a store_b fuel failed_a failed_b ca cb envs_a envs_b sa sb
    ca' cb' ra rb sa' sb' out_a out_b :
  ca.(Context_role) = Role_Worker -> cb.(Context_role) = Role_Worker ->
  job_of cb = job_of ca ->
  cb.(Context_start).(TrainingStart_participants) = ca.(Context_start).(TrainingStart_participants) ->
  run_task (maybe_elect a store_a fuel failed_a ca) envs_a sa = (Done (ca', ra), sa', out_a) ->
  run_task (maybe_elect b store_b fuel failed_b cb) envs_b sb = (Done (cb', rb), sb', out_b) ->
  ca'.(Context_role) = Role_Coordinator -> cb'.(Context_role) = Role_Coordinator ->
  cb'.(Context_term) = ca'.(Context_term) ->
  exists voter, voter ∈ ca.(Context_start).(TrainingStart_participants) /\
    voted a.(Identity_node_id) (job_of ca) ca'.(Context_term) out_a voter /\
    voted b.(Identity_node_id) (job_of ca) ca'.(Context_term) out_b voter.
Proof.
  intros Hra Hrb Hjob Hpart Ha Hb Hca Hcb Hterm.
  assert (Hwa : won a ca out_a ca') by
    (by eapply (ends_run _ _ _ _ _ _ _ _ _ (ends_elect a store_a fuel ca failed_a Hra))).
  assert (Hwb : won b cb out_b cb') by
    (by eapply (ends_run _ _ _ _ _ _ _ _ _ (ends_elect b store_b fuel cb failed_b Hrb))).
  apply won_electorate in Hwa as (va & Hva & Hqa). apply won_electorate in Hwb as (vb & Hvb & Hqb).
  rewrite Hjob, Hpart, Hterm in *.
  destruct (majorities_meet (list_to_set ca.(Context_start).(TrainingStart_participants)) va vb)
    as (voter & Hina & Hinb).
  - intros x Hx. apply elem_of_list_to_set. by apply Hva.
  - intros x Hx. apply elem_of_list_to_set. by apply Hvb.
  - pose proof (size_list_to_set_le ca.(Context_start).(TrainingStart_participants)).
    pose proof (quorum_majority (len ca.(Context_start).(TrainingStart_participants))). unfold len in *. lia.
  - exists voter. destruct (Hva voter Hina), (Hvb voter Hinb). by split_and!.
Qed.
End Claims.

(** * Distributed training: what a job starts with

    The starts an operator's node sends: every worker gets one that its own checks accept, the
    groups share the workers out, and the reference samples make training exact after one step. *)

(** ** Groups *)
Lemma filter_split_perm {A} (p q : A -> bool) xs :
  (forall x, q x = negb (p x)) -> List.filter p xs ++ List.filter q xs ≡ₚ xs.
Proof.
  intros Hq. induction xs as [|x xs IH]; cbn; [done|]. rewrite Hq. destruct (p x); cbn.
  - by rewrite IH.
  - by rewrite <- Permutation_middle, IH.
Qed.

Lemma mod2_cases i : Nat.eqb (Nat.modulo i 2) 1 = negb (Nat.eqb (Nat.modulo i 2) 0).
Proof. pose proof (Nat.mod_upper_bound i 2 ltac:(lia)). destruct (Nat.modulo i 2) as [|[|]]; done || lia. Qed.

(** The members of the groups, together, are the workers. *)
Lemma groups_partition workers : group_members 0 workers ++ group_members 1 workers ≡ₚ workers.
Proof.
  unfold group_members. rewrite <- fmap_app. rewrite filter_split_perm; [|intros x; apply mod2_cases].
  by rewrite enumerate_snd.
Qed.

Lemma group_members_lookup workers i w :
  workers !! i = Some w -> w ∈ group_members (Nat.modulo i 2) workers.
Proof.
  intros Hi. apply list_elem_of_fmap. exists (i, w). split; [done|].
  apply list_elem_of_In, filter_In. rewrite <- list_elem_of_In. split; [|by apply Nat.eqb_refl].
  apply list_elem_of_lookup. exists i. unfold enumerate. by rewrite list_lookup_imap, Hi.
Qed.

(** With two workers there are two groups. *)
Lemma make_groups_two workers :
  (2 <= length workers)%nat -> exists a0 a1,
    make_groups workers = [mkTrainingGroup 0 0 (group_members 0 workers) a0;
                           mkTrainingGroup 1 1 (group_members 1 workers) a1] /\
    a0 ∈ group_members 0 workers /\ a1 ∈ group_members 1 workers.
Proof.
  intros Hl. destruct workers as [|w0 [|w1 workers]]; cbn in Hl; [lia | lia|].
  exists w0, w1. unfold make_groups, make_group.
  assert (H0 : exists l, group_members 0 (w0 :: w1 :: workers) = w0 :: l) by (by eexists).
  assert (H1 : exists l, group_members 1 (w0 :: w1 :: workers) = w1 :: l) by (by eexists).
  destruct H0 as [l0 H0], H1 as [l1 H1]. cbn [omap list_omap]. rewrite H0, H1.
  split_and!; [done | by apply list_elem_of_here..].
Qed.

(** ** The workers *)
Lemma NodeId_0_inj : forall x y : NodeId, NodeId_0 x = NodeId_0 y <-> x = y.
Proof. intros [x] [y]. cbn. split; congruence. Qed.

Lemma select_workers_nodup now local records requested :
  NoDup (select_workers now local records requested) /\ local ∉ select_workers now local records requested.
Proof.
  unfold select_workers. set (found := map PeerRecord_node_id _).
  assert (Hsorted : StronglySorted (fun x y => cmp (NodeId_0 x) (NodeId_0 y) = Lt)
    (dedup_by_key (fun node => node) (sort_by_key NodeId_0 found))).
  { apply (dedup_by_key_strict _ NodeId_0); [apply sort_by_key_sorted|]. intros x y _ _. apply NodeId_0_inj. }
  split.
  - eapply (sublist_NoDup _ (dedup_by_key (fun node => node) (sort_by_key NodeId_0 found)));
      [|apply sublist_take].
    induction Hsorted as [|x xs _ IH Hall]; constructor; [|done].
    intros Hx. rewrite Forall_forall in Hall. specialize (Hall x Hx).
    assert (cmp (NodeId_0 x) (NodeId_0 x) = Eq) by (by apply cmp_eq). congruence.
  - intros Hin. eapply elem_of_sublist in Hin; [|apply sublist_take].
    eapply elem_of_sublist in Hin; [|apply dedup_by_key_sublist].
    apply elem_of_sort_by_key, list_elem_of_fmap in Hin as (record & -> & Hin).
    apply list_elem_of_In, filter_In in Hin as [_ Hin]. unfold can_train in Hin.
    apply andb_true_iff in Hin as [Hin _]. apply andb_true_iff in Hin as [Hin _].
    apply negb_true_iff, bool_decide_eq_false in Hin. done.
Qed.

(** ** Starts *)

Section Start.
Context `{Blake3} `{Json (JobId * N * N * Z * Z)} `{Json (str * JobId)}.
Context `{Json (str * list NodeId * list TrainingGroup * list TrainingShardAssignment * N * N * N)}.

(** Every worker has a start of its own, of the shard its group trains. *)
Lemma make_starts_ok job_id coordinator max_windows local_steps checkpoint_every workers starts :
  make_starts job_id coordinator max_windows local_steps checkpoint_every workers = Ok starts ->
  V3_MIN_WORKERS <= len workers /\
  Forall2 (fun worker entry => entry.1 = worker /\
    entry.2.(TrainingStart_coordinator) = coordinator /\
    entry.2.(TrainingStart_participants) = workers /\
    entry.2.(TrainingStart_groups) = make_groups workers /\
    worker ∈ entry.2.(TrainingStart_assignment).(TrainingShardAssignment_owners) /\
    Message_validate (Message_Training (TrainingMessage_Start entry.2)) = Ok tt) workers starts.
Proof.
  unfold make_starts. intros Hs. apply rbind_ok in Hs as (_ & Hmin%fail_if_ok & Hs).
  apply N.ltb_ge in Hmin. split; [done|].
  apply rbind_ok in Hs as (branch & _ & Hs). apply rbind_ok in Hs as (plan & _ & Hs).
  apply try_map_ok in Hs. unfold V3_MIN_WORKERS, len in Hmin.
  destruct (make_groups_two workers) as (a0 & a1 & Hgroups & _ & _); [lia|].
  assert (Hrw : forall R : NodeId -> NodeId * TrainingStart -> Prop,
    Forall2 (fun p entry => workers !! p.1 = Some p.2 -> R p.2 entry) (enumerate workers) starts ->
    Forall2 R workers starts).
  { intros R HR. rewrite <- (enumerate_snd workers). apply Forall2_fmap_l.
    apply Forall2_lookup. intros i.
    destruct (enumerate workers !! i) as [p|] eqn:Hp.
    - destruct (Forall2_lookup_l _ _ _ _ _ HR Hp) as (entry & He & HR'). rewrite He. constructor.
      apply HR'. unfold enumerate in Hp. rewrite list_lookup_imap in Hp.
      destruct (workers !! i) as [w|] eqn:Hw; [|done]. by injection Hp as <-.
    - apply lookup_ge_None in Hp. rewrite (Forall2_length _ _ _ HR) in Hp.
      apply lookup_ge_None in Hp as ->. constructor. }
  apply Hrw. eapply Forall2_impl; [exact Hs|]. intros [i w] [w' start] Hstart Hi. cbn [fst snd] in *.
  apply rbind_ok in Hstart as (u & Hval & [= <- <-]).
  destruct (Message_validate _) as [[]|e] eqn:Hv in Hval; [|done]. clear Hval.
  split_and!; try done. cbn [worker_start TrainingStart_assignment].
  rewrite Hgroups. cbn [map length]. pose proof (group_members_lookup workers i w Hi) as Hin.
  pose proof (Nat.mod_upper_bound i 2 ltac:(lia)). by destruct (Nat.modulo i 2) as [|[|]]; [..|lia].
Qed.

(** The starts an operator's node sends are accepted: the workers it selects are distinct and
    not the node itself, each of them gets one start, the groups share the workers out among them,
    and for every worker the checks it makes when the start arrives from the node succeed, the
    authorization and the validation of the message. *)
Theorem started_workers_are_authorized now local records requested job_id max_windows local_steps
    checkpoint_every starts :
  let workers := select_workers now local records requested in
  make_starts job_id local max_windows local_steps checkpoint_every workers = Ok starts ->
  starts.*1 = workers /\ NoDup workers /\ local ∉ workers /\
  mjoin (map TrainingGroup_members (make_groups workers)) ≡ₚ workers /\
  Forall (fun entry =>
    entry.2.(TrainingStart_groups) = make_groups workers /\
    (forall identity, identity.(Identity_node_id) = entry.1 -> start_refused identity local entry.2 = false) /\
    Message_validate (Message_Training (TrainingMessage_Start entry.2)) = Ok tt) starts.
Proof.
  intros workers Hs. apply make_starts_ok in Hs as [Hmin Hs].
  destruct (select_workers_nodup now local records requested) as [Hnd Hlocal]. fold workers in Hnd, Hlocal.
  split_and!; [| done | done | |].
  - clear -Hs. induction Hs as [|w e ws es (He & _) _ IH]; cbn; [done|]. by rewrite He, IH.
  - destruct (make_groups_two workers) as (a0 & a1 & -> & _ & _); [unfold V3_MIN_WORKERS, len in Hmin; lia|].
    cbn. rewrite app_nil_r. apply groups_partition.
  - apply Forall_lookup. intros i entry Hi. destruct (Forall2_lookup_r _ _ _ _ _ Hs Hi)
      as (w & Hw & <- & Hc & Hp & Hg & Ho & Hv). split_and!; [done | | done].
    intros identity Hid. unfold start_refused. rewrite Hid, Hc, Hp.
    apply list_elem_of_lookup_2 in Hw. apply contains_true in Ho, Hw. rewrite Ho, Hw.
    by rewrite bool_decide_true.
Qed.
End Start.

(** ** The reference samples *)

Definition reference_target (shard_id : N) : Z := if shard_id =? 0 then 2 else 3.

Lemma reference_step shard_id optimizer :
  exists gradient, local_step (samples_for_shard shard_id) (0%Z, optimizer)
    = (reference_target shard_id, gradient).
Proof. unfold samples_for_shard, reference_target. destruct (shard_id =? 0); eexists; vm_compute; reflexivity. Qed.

Lemma reference_fixed shard_id optimizer :
  exists gradient, local_step (samples_for_shard shard_id) (reference_target shard_id, optimizer)
    = (reference_target shard_id, gradient).
Proof. unfold samples_for_shard, reference_target. destruct (shard_id =? 0); eexists; vm_compute; reflexivity. Qed.

Lemma reference_steps shard_id steps state :
  state.1 = 0%Z \/ state.1 = reference_target shard_id ->
  (Nat.iter (S steps) (local_step (samples_for_shard shard_id)) state).1 = reference_target shard_id.
Proof.
  intros Hs. induction steps as [|steps IH].
  - destruct state as [value optimizer]. cbn [fst] in Hs. cbn [Nat.iter nat_rect].
    destruct Hs as [-> | ->]; [destruct (reference_step shard_id optimizer) as [g ->] | destruct (reference_fixed shard_id optimizer) as [g ->]]; done.
  - change (Nat.iter (S (S steps)) ?f state) with (f (Nat.iter (S steps) f state)).
    destruct (Nat.iter (S steps) _ state) as [value optimizer]. cbn [fst] in IH. subst value.
    by destruct (reference_fixed shard_id optimizer) as [g ->].
Qed.

(** Training with the reference samples is exact: an update computed from the initial value, or
    from the value that fits the samples, has the value that fits them and no loss, whatever the
    positive number of local steps. *)
Theorem reference_updates_are_exact `{Profile} context window worker shard_id :
  context.(Context_samples) = samples_for_shard shard_id ->
  context.(Context_value) = 0%Z \/ context.(Context_value) = reference_target shard_id ->
  0 < window.(TrainingWindow_local_steps) ->
  exists update, compute_update context window worker = Some update /\
    update.(TrainingUpdate_value) = reference_target shard_id /\ update.(TrainingUpdate_loss) = 0%Z /\
    update.(TrainingUpdate_samples) = 8.
Proof.
  intros Hsamples Hvalue Hsteps. unfold compute_update. rewrite Hsamples.
  destruct (N.to_nat window.(TrainingWindow_local_steps)) as [|steps] eqn:Hn; [lia|].
  pose proof (reference_steps shard_id steps (context.(Context_value), context.(Context_optimizer)) Hvalue) as Hv.
  destruct (Nat.iter _ _ _) as [value optimizer]. cbn [fst] in Hv. subst value.
  assert (Hloss : samples_loss (reference_target shard_id) (samples_for_shard shard_id) = Some 0%Z)
    by (unfold samples_for_shard, reference_target; destruct (shard_id =? 0); vm_compute; reflexivity).
  rewrite Hloss. cbn. by eexists.
Qed.
