(* ===== verification/V3Aggregates.v ===== *)
(** * Distributed training: what an aggregate stands for

    The aggregator of a group combines its own update with those it received in the window: one of
    each member at most, all of the same window and term.  The value it publishes is their median,
    which a minority of bad updates cannot move out of the range of the others. *)

From Stdlib Require Import String ZArith NArith Lia.
From stdpp Require Import base tactics sets strings numbers list gmap.
From S2P Require Import Prelude OrdMap Types Validation FileSystem Storage Aggregation Compute Float32 Planner Trust Security Network NodeConfig Tasks TraceLogic NodeState NodeJobs NodeArtifacts V3Model V3Tasks V3Facts V3Monotone.
Local Open Scope N_scope.
Local Open Scope rust_scope.
Local Open Scope ctask_scope.

(** The parts of a context that a window relies on. *)
Definition same_window (context context' : Context) : Prop :=
  context'.(Context_start) = context.(Context_start) /\ context'.(Context_term) = context.(Context_term) /\
  context'.(Context_branch) = context.(Context_branch).

Lemma same_window_refl context : same_window context context.
Proof. done. Qed.

Lemma same_window_trans c1 c2 c3 : same_window c1 c2 -> same_window c2 c3 -> same_window c1 c3.
Proof. unfold same_window. intros (? & ? & ?) (? & ? & ?). split_and!; congruence. Qed.

(** An update that belongs to the window of a group. *)
Record update_fits (context : Context) (window : TrainingWindow) (expected : gset NodeId)
    (update : TrainingUpdate) : Prop := {
  fits_job : update.(TrainingUpdate_job_id) = job_of context;
  fits_term : update.(TrainingUpdate_term) = context.(Context_term);
  fits_branch : update.(TrainingUpdate_branch) = context.(Context_branch);
  fits_window : update.(TrainingUpdate_window) = window.(TrainingWindow_window);
  fits_shard : update.(TrainingUpdate_shard_id) = window.(TrainingWindow_shard_id);
  fits_base : update.(TrainingUpdate_base_generation) = window.(TrainingWindow_base_generation);
  fits_worker : update.(TrainingUpdate_worker) ∈ expected
}.

(** The effect by which an update arrives from its worker. *)
Definition arrival (job : JobId) (update : TrainingUpdate) : NodeEffect :=
  Did_Receive job (V3Inbound_Message update.(TrainingUpdate_worker) (TrainingMessage_Update update)).

Lemma update_taken context window expected updates peer update :
  update_refused context window expected updates peer update = false ->
  peer = update.(TrainingUpdate_worker) /\ update_fits context window expected update /\
  update.(TrainingUpdate_worker) ∉ map TrainingUpdate_worker updates.
Proof.
  unfold update_refused. intros Hr.
  repeat (apply orb_false_iff in Hr as [Hr ?]).
  repeat match goal with
    | Hx : negb _ = false |- _ => apply negb_false_iff in Hx
    | Hx : bool_decide _ = true |- _ => apply bool_decide_eq_true in Hx
    | Hx : (_ =? _) = true |- _ => apply N.eqb_eq in Hx
    end.
  split_and!; [done | by constructor |].
  intros (item & Hitem & Hin)%list_elem_of_fmap.
  match goal with Hx : existsb _ _ = false |- _ => apply not_true_iff_false in Hx; apply Hx end.
  apply existsb_exists. exists item. rewrite <- list_elem_of_In. split; [done|].
  by rewrite bool_decide_true.
Qed.

(** ** The median *)
Lemma median_within vs v lo hi :
  median vs = Some v -> (length vs < 2 * honest lo hi vs)%nat -> (lo <= v <= hi)%Z.
Proof.
  intros Hm Hh. assert (Hv : v = nth (length vs / 2) (sort vs) 0%Z).
  { unfold median in Hm. rewrite sort_length in Hm. apply nth_lookup_Some with (d := 0%Z) in Hm. done. }
  rewrite Hv. pose proof (Nat.div_mod_eq (length vs) 2). pose proof (Nat.mod_upper_bound (length vs) 2 ltac:(lia)).
  rewrite <- (honest_perm lo hi _ _ (sort_perm vs)) in *.
  pose proof (honest_le lo hi (sort vs)) as Hle. rewrite sort_length in Hle.
  apply nth_range; [apply sort_sorted | ..]; rewrite ?sort_length; lia.
Qed.

Lemma saturating_abs_bound v : (i64_saturating_abs v <= V3_MAX_DELTA)%Z -> (Z.abs v <= V3_MAX_DELTA)%Z.
Proof.
  unfold i64_saturating_abs, clamp_to. intros Hv.
  assert (V3_MAX_DELTA < i64_max)%Z by done. lia.
Qed.

(** ** Collecting a window *)

Section Job.
Context `{Profile} `{Blake3} `{ContributionPostcard} `{NodeText} `{Hex}.
Context `{Json (JobId * N * N * Z * Z)} `{Json TrainingCheckpointManifest} `{Json TrainingStart}.
Context `{Json TrainingState} `{Json TrainingShardState} `{Json (list N)}.
Context (security_to_allocvec : LocalSecurityState -> result (list N) str).
Context (identity : Identity) (store : LocalStore) (fuel : nat).
Notation node_id := identity.(Identity_node_id).

(** The task keeps what a window relies on. *)
Notation keeps_window context m := (ends context m (fun _ _ c => same_window context c)).

Lemma keeps_lift {A} context (t : ntask A) : emits (fun _ => True) t -> keeps_window context (lift t).
Proof. intros Ht. by eapply ends_lift. Qed.

Lemma keeps_election context peer election : keeps_window context (handle_election identity peer election).
Proof.
  unfold handle_election. apply ends_get. destruct (_ || _); [by apply ends_ret|].
  eapply (ends_bind _ _ _ (fun _ _ c => same_window context c)).
  { destruct (_ <? _); [by apply ends_put, ends_ret | by apply ends_ret]. }
  intros _ granted c Hc. eapply (ends_bind _ _ _ (fun _ _ c => same_window context c)).
  { eapply ends_mono; [apply keeps_lift|intros; by eapply same_window_trans].
    unfold send_ack, send_training. emits_walk; done. }
  intros _ _ c' Hc'. eapply (ends_bind _ _ _ (fun _ _ c => same_window context c)).
  { destruct (granted : bool); [|by apply ends_ret].
    eapply ends_mono; [apply keeps_lift|intros; by eapply same_window_trans].
    unfold send_training. emits_walk; done. }
  intros _ _ c'' Hc''. by apply ends_ret.
Qed.

Lemma keeps_election_in_window context message peer election :
  keeps_window context (election_in_window identity message peer election).
Proof.
  unfold election_in_window. apply ends_get.
  eapply (ends_try _ _ _ (fun _ _ c => same_window context c)); [apply keeps_election | done |].
  intros _ _ c Hc. apply ends_get. by destruct (_ <? _); apply ends_ret.
Qed.

Lemma keeps_restore context peer : keeps_window context (restore_training_peer peer).
Proof.
  unfold restore_training_peer. apply ends_get. destruct (_ && _); [by apply ends_ret|].
  eapply (ends_bind _ _ _ (fun _ _ c => same_window context c)).
  { destruct (negb _); [apply keeps_lift; unfold is_connected; emits_walk | by apply ends_ret]. }
  intros _ live c Hc. destruct (live : bool); [by apply ends_put, ends_ret|].
  eapply (ends_bind _ _ _ (fun _ _ c => same_window context c)).
  { eapply ends_mono; [apply keeps_lift; emits_walk; done|intros; by eapply same_window_trans]. }
  intros _ reconnected c' Hc'. destruct (reconnected : bool); [by apply ends_put, ends_ret | by apply ends_ret].
Qed.

(** What is gathered: the own update first, the rest as received. *)
Definition gathered_ok (context : Context) (window : TrainingWindow) (expected : gset NodeId)
    (own : TrainingUpdate) (before out : list NodeEffect) (r : result (list TrainingUpdate) NodeError)
    (c : Context) : Prop :=
  same_window context c /\
  forall updates, r = Ok updates -> exists rest, updates = own :: rest /\
    NoDup (map TrainingUpdate_worker updates) /\
    Forall (fun update => update_fits context window expected update /\
              arrival (job_of context) update ∈ before ++ out) rest.

Lemma fits_same context context' window expected update :
  same_window context context' -> update_fits context' window expected update ->
  update_fits context window expected update.
Proof.
  intros (Hs & Ht & Hb) []. constructor; try done; by rewrite <- ?Hs, <- ?Ht, <- ?Hb.
Qed.

Lemma ends_gather n window expected own rest context before :
  NoDup (map TrainingUpdate_worker (own :: rest)) ->
  Forall (fun update => update_fits context window expected update /\
            arrival (job_of context) update ∈ before) rest ->
  ends context (gather_updates security_to_allocvec identity store n window expected (own :: rest))
    (gathered_ok context window expected own before).
Proof.
  revert rest context before. induction n as [|n IH]; intros rest context before Hnd Hrest; [apply ends_panic|].
  cbn [gather_updates].
  assert (Hdone : forall c event, same_window context c ->
    gathered_ok context window expected own before event (Ok (own :: rest)) c).
  { intros c event Hc. split; [done|]. intros updates [= <-]. exists rest. split_and!; [done | done |].
    eapply Forall_impl; [exact Hrest|]. intros u [? ?]. split; [done|]. apply elem_of_app. by left. }
  assert (Hnext : forall out1 c rest', same_window context c -> NoDup (map TrainingUpdate_worker (own :: rest')) ->
    Forall (fun update => update_fits context window expected update /\
              arrival (job_of context) update ∈ before ++ out1) rest' ->
    ends c (gather_updates security_to_allocvec identity store n window expected (own :: rest'))
      (fun out => gathered_ok context window expected own before (out1 ++ out))).
  { intros out1 c rest' Hc Hnd' Hrest'. eapply ends_mono; [apply (IH rest' c (before ++ out1)); [done|]|].
    - eapply Forall_impl; [exact Hrest'|]. intros u [Hu Ha]. destruct Hc as (Hs & Ht & Hb). rewrite Hs.
      split; [|done]. apply (fits_same _ context); [by split_and! | done].
    - intros out r c' [Hc' Hr]. split; [by eapply same_window_trans|]. intros updates ->.
      destruct (Hr _ eq_refl) as (rest'' & -> & ? & Hall). exists rest''. split_and!; [done | done |].
      eapply Forall_impl; [exact Hall|]. intros u [Hu Ha]. rewrite app_assoc. split; [by eapply fits_same|].
      destruct Hc as (Hs & _ & _). by rewrite <- Hs. }
  assert (Hkeep : forall out1 c, same_window context c ->
    ends c (gather_updates security_to_allocvec identity store n window expected (own :: rest))
      (fun out => gathered_ok context window expected own before (out1 ++ out))).
  { intros out1 c Hc. apply Hnext; [done | done |]. eapply Forall_impl; [exact Hrest|].
    intros u [? ?]. split; [done|]. apply elem_of_app. by left. }
  destruct (_ <=? _); [by apply ends_ret, Hdone|].
  apply ends_next_event; [|by apply ends_put, ends_ret, Hdone].
  intros [peer message|peer].
  - destruct message; try (by apply (Hkeep [_])).
    + apply ends_get. destruct (update_refused _ _ _ _ _ _) eqn:Hr; [by apply ends_put, (Hkeep [_])|].
      apply update_taken in Hr as (-> & Hfits & Hnew).
      eapply ends_bind; [apply (ends_lift (fun _ => True) _ _ (fun _ _ c => c = context)); [|done]|].
      { unfold admit_update, persist_security_state. apply emits_tbind; [|intros; emits_walk].
        apply emits_atomic. intros e s. destruct (admit_training_update _ _ _ _). constructor. }
      intros out1 admitted c ->. destruct (admitted : bool); [|by apply ends_put, (Hkeep (_ :: out1))].
      apply (Hnext (_ :: out1)); [done | |].
      * rewrite app_comm_cons, fmap_app. apply NoDup_app. split_and!; [done | | by apply NoDup_singleton].
        intros x Hx ->%list_elem_of_singleton. done.
      * apply Forall_app. split; [|apply Forall_singleton; split; [done|]].
        -- eapply Forall_impl; [exact Hrest|]. intros u [? ?]. split; [done|]. apply elem_of_app. by left.
        -- apply elem_of_app. right. by apply list_elem_of_here.
    + eapply (ends_try _ _ _ (fun _ _ c => same_window context c)); [apply keeps_election_in_window | |].
      * intros out e c Hc. by split.
      * intros out [] c Hc. by apply (Hkeep (_ :: out)).
  - eapply (ends_bind _ _ _ (fun _ _ c => same_window context c)).
    { destruct (bool_decide _); [apply keeps_restore | by apply ends_ret]. }
    intros out1 restored c Hc. apply ends_put, ends_get.
    eapply (ends_bind _ _ _ (fun _ _ c => same_window context c)).
    { by destruct (restored : bool); destruct (_ && _); apply ends_ret || apply ends_put, ends_ret. }
    intros out2 [] c' Hc'. eapply ends_mono; [by apply (Hkeep (Did_Receive (job_of context)
      (V3Inbound_PeerDisconnected peer) :: out1 ++ out2))|].
    intros out r c'' Hg. cbn in *. by rewrite <- app_assoc in Hg.
Qed.

(** The acknowledgement of an artifact by a member. *)
Definition acknowledges (job : JobId) (member : NodeId) (artifact : ArtifactId) (effect : NodeEffect) : Prop :=
  exists term, effect = Did_Receive job (V3Inbound_Message member
    (TrainingMessage_Ack (mkTrainingAck job member term (TrainingAckKind_Checkpoint artifact)))).

(** Every replica but the node itself has acknowledged the artifact. *)
Definition replicas_ok (context : Context) (artifact : ArtifactId) (trace : list NodeEffect)
    (replicas : list NodeId) : Prop :=
  Forall (fun member => member = node_id \/ Exists (acknowledges (job_of context) member artifact) trace) replicas.

Lemma replicas_app context artifact h h' replicas :
  replicas_ok context artifact h replicas -> replicas_ok context artifact (h ++ h') replicas.
Proof.
  intros Hr. eapply Forall_impl; [exact Hr|]. intros member [->|Hm]; [by left|]. right. apply Exists_app. by left.
Qed.

Lemma replicas_same context context' artifact trace replicas :
  same_window context context' ->
  replicas_ok context' artifact trace replicas <-> replicas_ok context artifact trace replicas.
Proof. intros (Hs & _ & _). unfold replicas_ok. by rewrite Hs. Qed.

Definition replicated_ok (context : Context) (artifact : ArtifactId) (before out : list NodeEffect)
    (r : result (list NodeId) NodeError) (c : Context) : Prop :=
  same_window context c /\ forall replicas, r = Ok replicas -> replicas_ok context artifact (before ++ out) replicas.

Lemma ends_await_replica n member artifact replicas context before :
  replicas_ok context artifact before replicas ->
  ends context (await_replica identity n member artifact replicas) (replicated_ok context artifact before).
Proof.
  revert context before. induction n as [|n IH]; intros context before Hr; [apply ends_panic|].
  cbn [await_replica].
  assert (Hnext : forall out1 c, same_window context c ->
    ends c (await_replica identity n member artifact replicas)
      (fun out => replicated_ok context artifact before (out1 ++ out))).
  { intros out1 c Hc. eapply ends_mono; [apply (IH c (before ++ out1))|].
    - by apply (replicas_same context), replicas_app.
    - intros out r c' [Hc' Hr']. split; [by eapply same_window_trans|]. intros replicas' ->.
      rewrite app_assoc. by apply (replicas_same _ c), Hr'. }
  apply ends_next_event; [|apply ends_ret; split; [done|]; intros replicas' [= <-]; by apply replicas_app].
  intros [peer message|peer].
  - destruct message; try (by apply (Hnext [_])).
    + apply ends_get. destruct (_ && _) eqn:Hack; [|by apply (Hnext [_])].
      repeat (apply andb_true_iff in Hack as [Hack ?]).
      repeat match goal with Hx : bool_decide _ = true |- _ => apply bool_decide_eq_true in Hx end. subst.
      apply ends_ret. split; [done|]. intros replicas' [= <-]. apply Forall_app. split.
      * by apply replicas_app.
      * apply Forall_singleton. right. apply Exists_app. right. apply Exists_cons. left.
        destruct value as [job' peer' term' kind']; cbn in *; subst. by exists term'.
    + eapply (ends_try _ _ _ (fun _ _ c => same_window context c)); [apply keeps_election_in_window | |].
      * intros out e c Hc. by split.
      * intros out [] c Hc. by apply (Hnext (_ :: out)).
  - destruct (bool_decide _); [|by apply (Hnext [_])]. apply ends_put, ends_ret.
    split; [done|]. intros replicas' [= <-]. by apply replicas_app.
Qed.

Lemma emits_offer_any attempts first member offer : emits (fun _ => True) (send_offer attempts first member offer).
Proof.
  revert first. induction attempts as [|attempts IH]; intros first; [done|]. cbn [send_offer].
  unfold send_training. emits_walk; auto.
Qed.

Lemma ends_replicate generation shard_id artifact members replicas context before :
  replicas_ok context artifact before replicas ->
  ends context (replicate identity fuel generation shard_id artifact members replicas)
    (replicated_ok context artifact before).
Proof.
  revert replicas context before. induction members as [|member members IH]; intros replicas context before Hr;
    cbn [replicate]; [apply ends_ret; split; [done|]; intros replicas' [= <-]; by apply replicas_app|].
  eapply (ends_try _ _ _ (replicated_ok context artifact before)); [| done |].
  - unfold replicate_to. apply ends_get.
    assert (Hdone : forall c out, same_window context c -> replicated_ok context artifact before out (Ok replicas) c)
      by (intros c out Hc; split; [done|]; intros replicas' [= <-]; by apply replicas_app).
    destruct (_ || _); [by apply ends_ret, Hdone|].
    eapply ends_bind; [apply (ends_lift (fun _ => True) _ _ (fun _ _ c => c = context)); [apply emits_offer_any | done]|].
    intros out1 sent c ->. destruct (sent : bool); [|by apply ends_put, ends_ret, Hdone].
    eapply ends_try; [by eapply ends_await_replica, replicas_app| |].
    { intros out e c [Hc _]. by split. }
    intros out2 replicas' c [Hc Hr2]. eapply (ends_bind _ _ _ (fun _ _ c' => same_window context c')).
    { by destruct (contains _ _); apply ends_ret || apply ends_put, ends_ret. }
    intros out3 [] c' Hc'. apply ends_ret. split; [done|]. intros replicas'' [= <-].
    rewrite app_nil_r. rewrite (app_assoc out1), (app_assoc before), (app_assoc before).
    apply replicas_app. by apply Hr2.
  - intros out1 replicas' c [Hc Hr1]. eapply ends_mono; [apply (IH replicas' c (before ++ out1))|].
    + by apply (replicas_same context), Hr1.
    + intros out r c' [Hc' Hr']. split; [by eapply same_window_trans|]. intros replicas'' ->.
      rewrite app_assoc. by apply (replicas_same _ c), Hr'.
Qed.

(** What an aggregate stands for: the aggregator's own update and those of others. *)
Definition stands_for (context : Context) (group : TrainingGroup) (window : TrainingWindow)
    (trace : list NodeEffect) (own : TrainingUpdate) (rest : list TrainingUpdate)
    (aggregate : TrainingAggregate) : Prop :=
  compute_update context window node_id = Some own /\
  Forall (fun update =>
    update_fits context window (list_to_set (live_members context group)) update /\
    arrival (job_of context) update ∈ trace) rest /\
  NoDup (map TrainingUpdate_worker (own :: rest)) /\
  aggregate.(TrainingAggregate_contributors) = map TrainingUpdate_worker (own :: rest) /\
  median (map TrainingUpdate_value (own :: rest)) = Some aggregate.(TrainingAggregate_value) /\
  median (map TrainingUpdate_optimizer (own :: rest)) = Some aggregate.(TrainingAggregate_optimizer) /\
  aggregate.(TrainingAggregate_generation) = sat_add u64_max window.(TrainingWindow_base_generation) 1 /\
  (Z.abs aggregate.(TrainingAggregate_value) <= V3_MAX_DELTA)%Z /\
  replicas_ok context aggregate.(TrainingAggregate_state_artifact) trace aggregate.(TrainingAggregate_replicas).

Lemma ends_store_shard context group window state before :
  ends context (store_shard_state identity store fuel group window state) (fun out r c =>
    same_window context c /\
    forall stored, r = Ok stored -> replicas_ok context stored.1 (before ++ out) stored.2).
Proof.
  unfold store_shard_state, persist_shard_state.
  eapply (ends_try _ _ _ (fun _ _ c => c = context)); [by apply ends_ret | by intros ? ? ? ->|].
  intros out1 bytes c ->.
  eapply (ends_try _ _ _ (fun _ _ c => c = context)); [| by intros ? ? ? ->|].
  { apply (ends_lift (fun _ => True)); [apply emits_storage | done]. }
  intros out2 artifact c ->.
  eapply (ends_try _ _ _ (fun _ _ c => c = context)); [| by intros ? ? ? ->|].
  { apply (ends_lift (fun _ => True)); [apply emits_storage | done]. }
  intros out3 [] c ->. apply ends_get.
  eapply ends_bind; [apply (ends_for (fun _ => True))|].
  { intros member. destruct (_ && _); [|by apply ends_ret]. apply (ends_lift (fun _ => True)); [|done].
    unfold send_training. emits_walk; done. }
  intros out4 [] c [_ ->].
  eapply (ends_try _ _ _ (replicated_ok context artifact (before ++ out1 ++ out2 ++ out3 ++ out4))).
  { apply ends_replicate. apply Forall_singleton. by left. }
  { intros out e c [Hc _]. by split. }
  intros out5 replicas c [Hc Hr]. apply ends_get. cbn zeta. destruct (_ <? _); [by apply ends_ret|].
  apply ends_ret. split; [done|]. intros stored [= <-]. cbn [fst snd].
  specialize (Hr _ eq_refl). rewrite <- !app_assoc in Hr. by rewrite app_nil_r.
Qed.

Lemma ends_collect context group window :
  ends context (collect_group_updates security_to_allocvec identity store fuel group window)
    (fun out r _ => forall aggregate, r = Ok aggregate -> exists own rest,
       stands_for context group window out own rest aggregate).
Proof.
  unfold collect_group_updates. apply ends_get, ends_or_panic. intros own Hown. cbn zeta.
  eapply ends_try; [apply (ends_gather _ _ _ own [] context []); [apply NoDup_singleton | constructor] | |].
  { intros out e c _ aggregate. done. }
  intros out1 updates c1 [Hc1 Hg]. destruct (Hg _ eq_refl) as (rest & -> & Hnd & Hrest). cbn [app] in Hrest.
  cbn [is_empty]. eapply ends_bind; [apply (ends_lift (fun _ => True) _ _ (fun _ _ c => c = c1)); [apply emits_updating | done]|].
  intros out2 [] c ->. apply ends_or_panic. intros value Hvalue. apply ends_or_panic. intros optimizer Hopt.
  destruct (_ <? _)%Z eqn:Hbound; [by apply ends_ret|]. apply Z.ltb_ge, saturating_abs_bound in Hbound.
  apply ends_get. cbn zeta.
  eapply ends_try; [apply (ends_store_shard _ _ _ _ (out1 ++ out2)) | by intros ? ? ? _ ? |].
  intros out3 [artifact replicas] c3 [Hc3 Hrep]. specialize (Hrep _ eq_refl). cbn [fst snd] in Hrep.
  apply ends_put, ends_get, ends_or_panic. intros total Htotal.
  eapply ends_bind; [apply (ends_lift (fun _ => True) _ _ (fun _ _ _ => True)); [unfold send_training; emits_walk; done | done]|].
  intros out4 sent c4 _.
  assert (Hstands : forall out5, stands_for context group window (out1 ++ out2 ++ out3 ++ out4 ++ out5) own rest
    (make_aggregate identity c3 group window (new_shard_state identity c1 window value optimizer)
       (Z.quot total (Z.of_N (len (own :: rest)))) (own :: rest) artifact replicas)).
  { intros out5. split_and!; try done.
    - eapply Forall_impl; [exact Hrest|]. intros u [Hu Ha]. split; [done|]. apply elem_of_app. by left.
    - apply (replicas_same context c1) in Hrep; [|done]. cbn [TrainingAggregate_state_artifact
        TrainingAggregate_replicas make_aggregate].
      rewrite !app_assoc. do 2 apply replicas_app. by rewrite <- app_assoc in Hrep; rewrite <- app_assoc. }
  eapply (ends_try _ _ _ (fun _ _ _ => True)).
  { destruct sent as [|error]; [by apply ends_ret|]. by destruct (negb _); apply ends_ret. }
  { intros ? ? ? _ ? [=]. }
  intros out5 [] c5 _. eapply ends_bind; [apply (ends_lift (fun _ => True) _ _ (fun _ _ _ => True)); [apply emits_updating | done]|].
  intros out6 [] c6 _. apply ends_ret. intros aggregate [= <-]. exists own, rest.
  replace (out1 ++ _) with (out1 ++ out2 ++ out3 ++ out4 ++ (out5 ++ out6 ++ [])) by (by rewrite ?app_assoc).
  apply Hstands.
Qed.
End Job.

Section Claims.
Context `{Profile} `{Blake3} `{ContributionPostcard} `{NodeText} `{Hex}.
Context `{Json (JobId * N * N * Z * Z)} `{Json TrainingCheckpointManifest} `{Json TrainingStart}.
Context `{Json TrainingState} `{Json TrainingShardState} `{Json (list N)}.

(** (C13) An aggregate stands for updates of the group: the aggregator's own and one of each other
    contributor, an unfailed member, which arrived from it for this job, term, branch, window, shard
    and generation.  Its value and optimizer state are the medians of theirs, its generation is the
    next one, its value is within the bound, and every other provider it names has acknowledged the
    stored state.  When more than half of the contributed values lie in a range, so does the
    aggregate's. *)
Theorem aggregates_stand_for_updates security_to_allocvec identity store fuel context group window envs s
    context' aggregate s' out :
  run_task (collect_group_updates security_to_allocvec identity store fuel group window context) envs s
    = (Done (context', Ok aggregate), s', out) ->
  exists own rest, stands_for identity context group window out own rest aggregate /\
    forall lo hi, let values := map TrainingUpdate_value (own :: rest) in
      (length values < 2 * honest lo hi values)%nat ->
      (lo <= aggregate.(TrainingAggregate_value) <= hi)%Z.
Proof.
  intros Hr. destruct (ends_run _ _ _ _ _ _ _ _ _
    (ends_collect security_to_allocvec identity store fuel context group window) Hr aggregate eq_refl)
    as (own & rest & Hs).
  exists own, rest. split; [done|]. intros lo hi values. apply median_within. apply Hs.
Qed.
End Claims.
