(* ===== verification/V3Deadlines.v ===== *)
(** * Distributed training: a job ends

    Every wait of a training job for a message has a timer, so once the timers have run out the job
    ends, whatever the other nodes did or failed to do before, unless a full queue to a peer that
    does not read holds it up. *)

From Stdlib Require Import String ZArith NArith Lia.
From stdpp Require Import base tactics sets strings numbers list gmap.
From S2P Require Import Prelude OrdMap Types Validation FileSystem Storage Aggregation Compute Float32 Planner Trust Security Network NodeConfig Tasks TraceLogic NodeState NodeJobs NodeArtifacts V3Model V3Tasks V3Coordinator.
Local Open Scope N_scope.
Local Open Scope rust_scope.
Local Open Scope ctask_scope.

(** The timers have run out, the queues to the peers have room, and the process is not killed. *)
Definition calm (e : NodeEnv) : Prop :=
  (e.(ne_elapsed) = true /\ e.(ne_full) = false) /\ Forall (fun fault => match fault with Killed _ => False | _ => True end) e.(ne_faults).

Lemma run_survives {A} schedule (p : Prog A) w :
  Forall (fun fault => match fault with Killed _ => False | _ => True end) schedule ->
  exists w' a, run schedule p w = (w', Some a).
Proof.
  revert schedule w. induction p as [a|o k IH]; intros schedule w Hs; cbn [run]; [by eauto|].
  destruct Hs as [|fault schedule Hf Hs]; [apply IH; constructor|].
  destruct fault; [| |done]; try (destruct (fallible o)); by apply IH.
Qed.

(** ** Tasks of the node *)

Notation quick := (quick calm).

Lemma quick_storage {A} (p : Prog (result A StorageError)) : quick (storage p).
Proof.
  apply quick_step. intros e s [_ Hf]. unfold run_store.
  destruct (run_survives e.(ne_faults) p s.(NodeState_world) Hf) as (w & a & ->). by eexists.
Qed.

Lemma quick_query {A} (p : Prog A) : quick (store_query p).
Proof.
  apply quick_step. intros e s [_ Hf].
  destruct (run_survives e.(ne_faults) p s.(NodeState_world) Hf) as (w & a & ->). by eexists.
Qed.

Lemma quick_sleep : quick V3Tasks.sleep.
Proof. apply quick_step. intros e s [[-> _] _]. by eexists. Qed.

Lemma quick_receive_artifact sender : quick (receive_artifact sender).
Proof.
  apply quick_step. intros e s [[He _] _]. unfold receive_slot. rewrite He.
  destruct (_ !! _) as [[]|]; by eexists.
Qed.

Lemma quick_timed {A} (t : node A) : quick t -> quick (timed_ok t).
Proof.
  intros Ht. apply quick_tbind; [apply quick_timeout; [by intros e [[]]|done]|]. intros. apply quick_done.
Qed.

Lemma quick_timer {A} (t : ntask A) : quick t -> quick (timeout ne_elapsed t).
Proof. apply quick_timeout. by intros e [[]]. Qed.

Create HintDb quick discriminated.
#[export] Hint Resolve quick_done quick_reading quick_updating quick_atomic quick_storage quick_query quick_sleep
  quick_receive_artifact : quick.

Ltac quick_walk :=
  repeat match goal with
    | |- forall _, _ => intros ?
    | |- TraceLogic.quick _ (match ?x with _ => _ end) => destruct x
    | |- TraceLogic.quick _ (tbind _ _) => apply quick_tbind
    | |- TraceLogic.quick _ (try_task _ _) => apply quick_try
    | |- TraceLogic.quick _ (ignore _) => apply quick_ignore
    | |- TraceLogic.quick _ (timeout ne_elapsed _) => apply quick_timer
    | |- TraceLogic.quick _ (timed_ok _) => apply quick_timed
    | |- TraceLogic.quick _ _ => solve [auto with quick]
    end.

Lemma quick_send peer message : quick (send_to peer message).
Proof. apply quick_step. intros e s [[_ Hf] _]. rewrite Hf. destruct (ne_send e); by eexists. Qed.

Lemma quick_reconnect peer : quick (reconnect_peer peer).
Proof. apply quick_atomic. Qed.

#[export] Hint Resolve quick_send quick_reconnect : quick.

Section Node.
Context `{Profile} `{Blake3} `{ContributionPostcard} `{NodeText} `{Hex}.
Context `{Json (list N)}.

Lemma quick_fetch store peer artifact : quick (fetch_artifact store peer artifact).
Proof.
  assert (Hattempt : forall first peer artifact, quick (fetch_attempt store first peer artifact)).
  { intros. unfold fetch_attempt, random_request_id, drop_transfer, send_direct, await_transfer. quick_walk. }
  unfold fetch_artifact. quick_walk; apply Hattempt.
Qed.

Lemma quick_admit security_to_allocvec store update expected :
  quick (admit_update security_to_allocvec store update expected).
Proof. unfold admit_update, persist_security_state. quick_walk. Qed.

Lemma quick_offer attempts first member offer : quick (send_offer attempts first member offer).
Proof.
  revert first. induction attempts as [|attempts IH]; intros first; cbn [send_offer]; unfold send_training; quick_walk.
Qed.

Lemma quick_request first election peer : quick (request_vote first election peer).
Proof. unfold request_vote, is_connected, send_training. quick_walk. Qed.
End Node.

#[export] Hint Resolve quick_fetch quick_admit quick_offer quick_request : quick.

(** ** Tasks of a job *)

Section Lasting.
Context (limit : N).

(** The job has no more windows than the limit. *)
Definition limited (context : Context) : Prop := context.(Context_start).(TrainingStart_max_windows) <= limit.

(** From any context of the job, with [n] sections that are not calm still to come. *)
Definition lasts {A} (n : nat) (m : ctask A) (Q : nat -> A -> Prop) : Prop :=
  forall context, limited context ->
    lives calm n (m context) (fun j p => (j <= n)%nat /\ limited p.1 /\ Q j p.2).

Definition anyhow {A} : nat -> A -> Prop := fun _ _ => True.

Lemma lasts_mono {A} n (m : ctask A) (Q Q' : nat -> A -> Prop) :
  lasts n m Q -> (forall j a, (j <= n)%nat -> Q j a -> Q' j a) -> lasts n m Q'.
Proof. intros Hm HQ c Hc. eapply lives_mono; [by apply Hm|]. intros j p _ (? & ? & ?). auto. Qed.

Lemma lasts_ret {A} n (a : A) (Q : nat -> A -> Prop) : Q n a -> lasts n (cret a) Q.
Proof. intros HQ c Hc. cbn. auto. Qed.

Lemma lasts_bind {A B} n (m : ctask A) (k : A -> ctask B) R Q :
  lasts n m R -> (forall j a, (j <= n)%nat -> R j a -> lasts j (k a) Q) -> lasts n (cbind m k) Q.
Proof.
  intros Hm Hk c Hc. eapply lives_tbind; [by apply Hm|]. intros j [c' a] _ (Hj & Hc' & HR).
  eapply lives_mono; [by apply Hk|]. intros i p _ (? & ? & ?). split_and!; [lia | done | done].
Qed.

Lemma lasts_then {A B} n (m : ctask A) (k : A -> ctask B) Q :
  lasts n m anyhow -> (forall j a, (j <= n)%nat -> lasts j (k a) Q) -> lasts n (cbind m k) Q.
Proof. intros Hm Hk. eapply lasts_bind; [exact Hm|]. auto. Qed.

Lemma lasts_try {A B} n (m : ctask (result A NodeError)) (k : A -> ctask (result B NodeError)) :
  lasts n m anyhow -> (forall j a, (j <= n)%nat -> lasts j (k a) anyhow) -> lasts n (ctry m k) anyhow.
Proof. intros Hm Hk. apply lasts_then; [done|]. intros j [a|e] Hj; [by apply Hk | by apply lasts_ret]. Qed.

Lemma lasts_get {A} n (k : Context -> ctask A) Q :
  (forall c, limited c -> lasts n (k c) Q) -> lasts n (cbind cget k) Q.
Proof. intros Hk c Hc. by apply Hk. Qed.

Lemma lasts_put {A} n f (k : unit -> ctask A) Q :
  (forall c, limited c -> limited (f c)) -> lasts n (k tt) Q -> lasts n (cbind (cput f) k) Q.
Proof. intros Hf Hk c Hc. by apply Hk, Hf. Qed.

Lemma lasts_put_last n f :
  (forall c, limited c -> limited (f c)) -> lasts n (cput f) anyhow.
Proof. intros Hf c Hc. cbn. split_and!; [lia | by apply Hf | done]. Qed.

Lemma lasts_lift {A} n (t : ntask A) : quick t -> lasts n (lift t) anyhow.
Proof.
  intros Ht c Hc. eapply lives_tbind; [apply Ht|]. intros j a Hj _. cbn. split_and!; [lia | done | done].
Qed.

Lemma lasts_or_panic {A B} n (o : option A) (k : A -> ctask B) Q :
  is_Some o -> (forall a, lasts n (k a) Q) -> lasts n (cbind (or_panic o) k) Q.
Proof. intros [a ->] Hk c Hc. by apply (Hk a). Qed.

(** Reading the timer: it has run out, or one section less is left. *)
Lemma lasts_elapsed {A} n (k : bool -> ctask A) Q :
  (forall j, (j <= n)%nat -> lasts j (k true) Q) -> (forall j, (j < n)%nat -> lasts j (k false) Q) ->
  lasts n (cbind (lift V3Tasks.elapsed) k) Q.
Proof.
  intros Ht Hf c Hc.
  assert (Hmono : forall j b, (j <= n)%nat -> lasts j (k b) Q ->
    lives calm j (k b c) (fun i p => (i <= n)%nat /\ limited p.1 /\ Q i p.2)).
  { intros j b Hj Hk. eapply lives_mono; [by apply Hk|]. intros i p _ (? & ? & ?). split_and!; [lia | done | done]. }
  cbn. split.
  - intros e s [[He _] _]. eexists _, _, _. split; [reflexivity|]. rewrite He. by apply Hmono, Ht.
  - destruct n as [|n]; [done|]. intros e s x s' out [= <- <- <-].
    destruct (ne_elapsed e); apply Hmono; try lia; [apply Ht | apply Hf]; lia.
Qed.

Lemma lasts_recv {A} n job (k : Received V3Inbound -> ctask A) Q :
  (forall j r, (j <= n)%nat -> lasts j (k r) Q) -> lasts n (cbind (lift (recv job)) k) Q.
Proof.
  intros Hk. eapply lasts_bind; [apply lasts_lift|by intros; apply Hk].
  apply quick_step. intros e s [[He _] _]. rewrite He. destruct (ne_event e) as [[]|]; by eexists.
Qed.

Lemma lasts_next_event {A} n (k : option V3Inbound -> ctask A) Q :
  (forall j, (j <= n)%nat -> lasts j (k None) Q) ->
  (forall j event, (j < n)%nat -> lasts j (k (Some event)) Q) -> lasts n (cbind next_event k) Q.
Proof.
  intros Hn Hs. eapply (lasts_bind _ _ _ (fun j r => match r with Some _ => (j < n)%nat | None => True end)).
  - unfold next_event. apply lasts_elapsed; intros j Hj; [by apply lasts_ret|].
    apply lasts_get. intros c _. apply lasts_recv. intros i r Hi. apply lasts_ret. destruct r; lia || done.
  - intros j [event|] Hj Hr; [by apply Hs | by apply Hn].
Qed.

Lemma lasts_for {A} n (body : A -> ctask unit) xs :
  (forall j x, (j <= n)%nat -> lasts j (body x) anyhow) -> lasts n (cfor body xs) anyhow.
Proof.
  revert n. induction xs as [|x xs IH]; intros n Hb; cbn [cfor]; [by apply lasts_ret|].
  apply lasts_then; [by apply Hb|]. intros j _ Hj. apply IH. intros i y Hi. apply Hb. lia.
Qed.
End Lasting.

(** Changes of a context that keep the number of windows. *)
Ltac limited_tac :=
  let c := fresh in let Hc := fresh in
  intros c Hc; repeat match goal with |- context [if ?b then _ else _] => destruct b end; exact Hc.

Ltac quick_tac :=
  unfold try_send, send_ack, send_training, tick, is_connected, now_secs, random_request_id,
    persist_state, persist_checkpoint, persist_shard_state;
  solve [quick_walk].

Create HintDb lasts discriminated.

Ltac lasts_step :=
  match goal with
  | |- forall _, _ => intros ?
  | |- lasts _ _ (cbind cget _) _ => apply lasts_get
  | |- lasts _ _ (cbind (cput _) _) _ => apply lasts_put; [solve [limited_tac]|]
  | |- lasts _ _ (cput _) anyhow => apply lasts_put_last; [solve [limited_tac]]
  | |- lasts _ _ (cbind next_event _) _ => apply lasts_next_event
  | |- lasts _ _ (cbind (lift V3Tasks.elapsed) _) _ => apply lasts_elapsed
  | |- lasts _ _ (cbind (lift (recv _)) _) _ => apply lasts_recv
  | |- lasts _ _ (lift _) anyhow => apply lasts_lift; quick_tac
  | |- lasts _ _ (cret _) anyhow => by apply lasts_ret
  | |- lasts _ _ (match ?x with _ => _ end) _ => destruct x
  | |- lasts _ _ (cfor _ _) anyhow => apply lasts_for
  | |- lasts _ _ (cbind (or_panic _) _) anyhow => apply lasts_or_panic
  | |- lasts _ _ (cbind _ _) anyhow => apply lasts_then
  | |- lasts _ _ (ctry _ _) anyhow => apply lasts_try
  | |- lasts _ _ _ anyhow => solve [eauto with lasts]
  | |- is_Some _ => solve [eauto with lasts]
  end.

(** ** Sums without overflow checks *)

Section Unchecked.
Context `{Profile} (Hoff : overflow_checks = false).

Lemma i64_sum_total values : is_Some (i64_sum values).
Proof.
  unfold i64_sum. assert (Hgen : forall acc, is_Some (sum_with i64_add acc values)); [|apply Hgen].
  induction values as [|v values IH]; intros acc; cbn [sum_with]; [by eexists|].
  assert (Hadd : exists z, i64_add acc v = Some z) by (unfold i64_add; rewrite Hoff; destruct (_ && _); by eexists).
  destruct Hadd as [z ->]. apply IH.
Qed.

Lemma samples_loss_total value samples : is_Some (samples_loss value samples).
Proof.
  unfold samples_loss. destruct samples as [|sample samples]; [by eexists|].
  match goal with |- context [i64_sum ?xs] => destruct (i64_sum_total xs) as [z ->] end. by eexists.
Qed.

Lemma compute_update_total context window worker : is_Some (compute_update context window worker).
Proof.
  unfold compute_update. destruct (Nat.iter _ _ _) as [value optimizer].
  destruct (samples_loss_total value context.(Context_samples)) as [loss ->]. by eexists.
Qed.

Lemma final_loss_total context : is_Some (final_loss context).
Proof.
  unfold final_loss.
  assert (Hm : is_Some (mapM (fun entry : N * (Z * Z) => samples_loss entry.2.1 (samples_for_shard entry.1))
    context.(Context_shard_values))).
  { apply mapM_is_Some_2, Forall_forall. intros entry _. apply samples_loss_total. }
  destruct Hm as [losses ->]. apply i64_sum_total.
Qed.

Lemma u64_add_total a b : is_Some (u64_add a b).
Proof. unfold u64_add. rewrite Hoff. by rewrite orb_true_r. Qed.

Lemma median_total v values : is_Some (median (v :: values)).
Proof.
  unfold median. apply lookup_lt_is_Some_2. rewrite sort_length. apply Nat.div_lt; cbn; lia.
Qed.
End Unchecked.

Section Job.
Context `{Profile} `{Blake3} `{ContributionPostcard} `{NodeText} `{Hex}.
Context `{Json (JobId * N * N * Z * Z)} `{Json TrainingCheckpointManifest} `{Json TrainingStart}.
Context `{Json TrainingState} `{Json TrainingShardState} `{Json (list N)}.
Context (security_to_allocvec : LocalSecurityState -> result (list N) str).
Context (config : NodeConfig) (identity : Identity) (store : LocalStore) (fuel : nat) (limit : N).
Context (Hoff : overflow_checks = false) (Hlimit : (N.to_nat limit < fuel)%nat) (Htyped : limit <= u64_max).
Notation lasts := (lasts limit).

#[local] Hint Extern 1 (_ < _)%nat => lia : lasts.
#[local] Hint Resolve i64_sum_total compute_update_total final_loss_total u64_add_total : lasts.

Lemma lasts_record n : lasts n (record_context store) anyhow.
Proof. unfold record_context. repeat lasts_step. Qed.

Lemma lasts_broadcast n message : lasts n (broadcast identity message) anyhow.
Proof. unfold broadcast. repeat lasts_step. Qed.

Lemma lasts_restore n peer : lasts n (restore_training_peer peer) anyhow.
Proof. unfold restore_training_peer. repeat lasts_step. Qed.

Lemma lasts_election n peer election : lasts n (handle_election identity peer election) anyhow.
Proof. unfold handle_election. repeat lasts_step. Qed.

#[local] Hint Resolve lasts_record lasts_broadcast lasts_restore lasts_election : lasts.

(** The summaries of a state do not change the job. *)
Lemma limited_advance summaries context :
  limited limit context -> limited limit (fold_left advance_summary summaries context).
Proof.
  revert context. induction summaries as [|summary summaries IH]; intros context Hc; cbn; [done|].
  apply IH. unfold advance_summary. by destruct (is_newer _ _).
Qed.

Lemma limited_put {A} (f : A -> TrainingShardSummary) xs context :
  limited limit context -> limited limit (fold_left (fun context x => put_summary (f x) context) xs context).
Proof. revert context. induction xs as [|x xs IH]; intros context Hc; cbn; [done|]. by apply IH. Qed.

Lemma lasts_state n peer state : lasts n (handle_state identity store peer state) anyhow.
Proof.
  unfold handle_state. apply lasts_get. intros c Hc. destruct (state_refused _ _ _); [by apply lasts_ret|].
  apply lasts_put; [|repeat lasts_step].
  intros c' Hc'. unfold adopt_state. apply limited_advance.
  repeat match goal with |- context [if ?b then _ else _] => destruct b end; exact Hc'.
Qed.

Lemma lasts_offer n peer offer : lasts n (handle_checkpoint_offer identity store peer offer) anyhow.
Proof. unfold handle_checkpoint_offer. repeat lasts_step. Qed.

Lemma lasts_commit n peer commit : lasts n (handle_checkpoint_commit identity store peer commit) anyhow.
Proof.
  unfold handle_checkpoint_commit. apply lasts_get. intros c Hc. destruct (commit_refused _ _ _); [by apply lasts_ret|].
  apply lasts_try; [repeat lasts_step|]. intros j _ Hj. apply lasts_put; [|repeat lasts_step].
  intros c' Hc'. unfold adopt_commit. apply (limited_put shard_summary). exact Hc'.
Qed.

Lemma lasts_update n window aggregator : lasts n (compute_and_send_update identity window aggregator) anyhow.
Proof. unfold compute_and_send_update. repeat lasts_step. Qed.

Lemma lasts_election_in_window n message peer election :
  lasts n (election_in_window identity message peer election) anyhow.
Proof. unfold election_in_window. repeat lasts_step. Qed.

#[local] Hint Resolve lasts_state lasts_offer lasts_commit lasts_update lasts_election_in_window : lasts.

(** ** Loops that wait for events *)
Lemma lasts_gather n i window expected updates :
  (n < i)%nat -> lasts n (gather_updates security_to_allocvec identity store i window expected updates) anyhow.
Proof.
  revert n updates. induction i as [|i IH]; intros n updates Hn; [lia|]. cbn [gather_updates].
  repeat first [apply IH; lia | lasts_step].
Qed.

Lemma lasts_await_replica n i member artifact replicas :
  (n < i)%nat -> lasts n (await_replica identity i member artifact replicas) anyhow.
Proof.
  revert n. induction i as [|i IH]; intros n Hn; [lia|]. cbn [await_replica].
  repeat first [apply IH; lia | lasts_step].
Qed.

#[local] Hint Resolve lasts_gather lasts_await_replica : lasts.

Lemma lasts_replicate_to n generation shard_id artifact member replicas :
  (n < fuel)%nat -> lasts n (replicate_to identity fuel generation shard_id artifact member replicas) anyhow.
Proof. intros Hn. unfold replicate_to. repeat lasts_step. Qed.

#[local] Hint Resolve lasts_replicate_to : lasts.

Lemma lasts_replicate n generation shard_id artifact members replicas :
  (n < fuel)%nat -> lasts n (replicate identity fuel generation shard_id artifact members replicas) anyhow.
Proof.
  revert n replicas. induction members as [|member members IH]; intros n replicas Hn; cbn [replicate];
    repeat first [apply IH; lia | lasts_step].
Qed.

#[local] Hint Resolve lasts_replicate : lasts.

Lemma lasts_store_shard n group window state :
  (n < fuel)%nat -> lasts n (store_shard_state identity store fuel group window state) anyhow.
Proof. intros Hn. unfold store_shard_state. repeat lasts_step. Qed.

#[local] Hint Resolve lasts_store_shard : lasts.

Lemma lasts_collect n group window :
  (n < fuel)%nat -> lasts n (collect_group_updates security_to_allocvec identity store fuel group window) anyhow.
Proof.
  intros Hn. unfold collect_group_updates. apply lasts_get. intros c Hc.
  apply lasts_or_panic; [by apply compute_update_total|]. intros own. apply lasts_try; [auto with lasts|].
  intros j updates Hj. destruct updates as [|update updates]; [by apply lasts_ret|].
  cbn [is_empty map]. apply lasts_then; [repeat lasts_step|]. intros i _ Hi.
  apply lasts_or_panic; [apply median_total|]. intros value.
  apply lasts_or_panic; [apply median_total|]. intros optimizer. repeat lasts_step.
Qed.

#[local] Hint Resolve lasts_collect : lasts.

(** The aggregator leads its group through the windows that are left. *)
Lemma lasts_lead n i group window :
  (n < fuel)%nat -> (N.to_nat (limit - window.(TrainingWindow_window)) < i)%nat ->
  lasts n (lead_group security_to_allocvec identity store fuel i group window) anyhow.
Proof.
  revert n window. induction i as [|i IH]; intros n window Hn Hi; [lia|]. cbn [lead_group].
  apply lasts_try; [auto with lasts|]. intros j aggregate Hj. apply lasts_put; [limited_tac|].
  apply lasts_get. intros c Hc. destruct (_ || _) eqn:Hlast; [by apply lasts_ret|]. cbn zeta.
  apply orb_false_iff in Hlast as [_ Hlast]. apply N.leb_gt in Hlast. unfold limited in Hc.
  apply lasts_then; [repeat lasts_step|]. intros k _ Hk. apply IH; [lia|].
  cbn [TrainingWindow_window]. unfold sat_add. lia.
Qed.

#[local] Hint Resolve lasts_lead : lasts.

Lemma lasts_window n peer window :
  (n < fuel)%nat -> lasts n (handle_window security_to_allocvec config identity store fuel peer window) anyhow.
Proof.
  intros Hn. unfold handle_window. repeat first [apply lasts_lead; lia | lasts_step].
Qed.

Lemma lasts_shard_state n peer state : lasts n (handle_shard_state store peer state) anyhow.
Proof. unfold handle_shard_state. repeat lasts_step. Qed.

#[local] Hint Resolve lasts_window lasts_shard_state : lasts.

Lemma lasts_worker_message n peer message :
  (n < fuel)%nat ->
  lasts n (handle_worker_message security_to_allocvec config identity store fuel peer message) anyhow.
Proof. intros Hn. destruct message; cbn [handle_worker_message]; repeat lasts_step. Qed.

#[local] Hint Resolve lasts_worker_message : lasts.

(** ** Elections *)
Lemma limited_recover context state : limited limit context -> limited limit (recover_state state context).
Proof. intros Hc. unfold recover_state. apply limited_advance. exact Hc. Qed.

Lemma lasts_count_votes n i candidate term previous_term previous_coordinator quorum_size votes :
  (n < i)%nat ->
  lasts n (count_votes identity i candidate term previous_term previous_coordinator quorum_size votes) anyhow.
Proof.
  revert n votes. induction i as [|i IH]; intros n votes Hn; [lia|]. cbn [count_votes].
  repeat first [apply IH; lia | apply lasts_put; [exact (fun c => limited_recover c _)|] | lasts_step].
Qed.

#[local] Hint Resolve lasts_count_votes : lasts.

Lemma lasts_seek n attempts first election failed previous_term previous_coordinator quorum_size votes :
  (n < fuel)%nat ->
  lasts n (seek_votes identity fuel attempts first election failed previous_term previous_coordinator
    quorum_size votes) anyhow.
Proof.
  revert n first votes. induction attempts as [|attempts IH]; intros n first votes Hn; cbn [seek_votes];
    repeat first [apply IH; lia | lasts_step].
Qed.

#[local] Hint Resolve lasts_seek : lasts.

Lemma lasts_elect n failed : (n < fuel)%nat -> lasts n (maybe_elect identity store fuel failed) anyhow.
Proof. intros Hn. unfold maybe_elect, broadcast_state. repeat lasts_step. Qed.

#[local] Hint Resolve lasts_elect : lasts.

(** ** The coordinator *)
Lemma lasts_state_acks n i state expected acks :
  (n < i)%nat -> lasts n (await_state_acks identity i state expected acks) anyhow.
Proof.
  revert n acks. induction i as [|i IH]; intros n acks Hn; [lia|]. cbn [await_state_acks].
  repeat first [apply IH; lia | lasts_step].
Qed.

Lemma lasts_checkpoint_acks n i commit expected acks :
  (n < i)%nat -> lasts n (await_checkpoint_acks i commit expected acks) anyhow.
Proof.
  revert n expected acks. induction i as [|i IH]; intros n expected acks Hn; [lia|]. cbn [await_checkpoint_acks].
  repeat first [apply IH; lia | lasts_step].
Qed.

#[local] Hint Resolve lasts_state_acks lasts_checkpoint_acks : lasts.

Lemma lasts_state_wait n state :
  (n < fuel)%nat -> lasts n (broadcast_state_and_wait identity fuel state) anyhow.
Proof. intros Hn. unfold broadcast_state_and_wait, broadcast_state. repeat lasts_step. Qed.

Lemma lasts_checkpoint_wait n commit :
  (n < fuel)%nat -> lasts n (broadcast_checkpoint_and_wait identity fuel commit) anyhow.
Proof. intros Hn. unfold broadcast_checkpoint_and_wait, broadcast_checkpoint. repeat lasts_step. Qed.

#[local] Hint Resolve lasts_state_wait lasts_checkpoint_wait : lasts.

Lemma lasts_commit_context n : (n < fuel)%nat -> lasts n (commit_context_checkpoint identity store fuel) anyhow.
Proof. intros Hn. unfold commit_context_checkpoint, broadcast_checkpoint. repeat lasts_step. Qed.

Lemma lasts_dispatch n group window :
  (n < fuel)%nat ->
  lasts n (dispatch_autonomous_window security_to_allocvec identity store fuel group window) anyhow.
Proof. intros Hn. unfold dispatch_autonomous_window. repeat lasts_step. Qed.

#[local] Hint Resolve lasts_commit_context lasts_dispatch : lasts.

Lemma lasts_dispatch_next n group :
  (n < fuel)%nat -> lasts n (dispatch_next security_to_allocvec identity store fuel group) anyhow.
Proof. intros Hn. unfold dispatch_next. repeat lasts_step. Qed.

Lemma lasts_wait_aggregate n i group_id window :
  (n < i)%nat -> lasts n (wait_for_aggregate_loop identity i group_id window) anyhow.
Proof.
  revert n. induction i as [|i IH]; intros n Hn; [lia|]. cbn [wait_for_aggregate_loop].
  repeat first [apply IH; lia | lasts_step].
Qed.

#[local] Hint Resolve lasts_dispatch_next lasts_wait_aggregate : lasts.

Lemma lasts_group_window n group window :
  (n < fuel)%nat -> lasts n (run_group_window security_to_allocvec identity store fuel group window) anyhow.
Proof. intros Hn. unfold run_group_window, wait_for_aggregate. repeat lasts_step. Qed.

#[local] Hint Resolve lasts_group_window : lasts.

Lemma lasts_group_aggregate n window group :
  (n < fuel)%nat -> lasts n (group_aggregate security_to_allocvec identity store fuel window group) anyhow.
Proof. intros Hn. unfold group_aggregate. repeat lasts_step. Qed.

#[local] Hint Resolve lasts_group_aggregate : lasts.

Lemma lasts_group_aggregates n window groups aggregates :
  (n < fuel)%nat ->
  lasts n (group_aggregates security_to_allocvec identity store fuel window groups aggregates) anyhow.
Proof.
  revert n aggregates. induction groups as [|group groups IH]; intros n aggregates Hn; cbn [group_aggregates];
    repeat first [apply IH; lia | lasts_step].
Qed.

Lemma lasts_checkpoint_window n aggregates :
  (n < fuel)%nat -> lasts n (checkpoint_window identity store fuel aggregates) anyhow.
Proof. intros Hn. unfold checkpoint_window. repeat lasts_step. Qed.

#[local] Hint Resolve lasts_group_aggregates lasts_checkpoint_window : lasts.

Lemma limited_after_window window aggregates context :
  limited limit context -> limited limit (after_window window aggregates context).
Proof.
  unfold after_window. intros Hc. set (c := set_Context_accepted_updates _ _).
  assert (Hl : limited limit c) by exact Hc. clearbody c. revert c Hl.
  induction aggregates as [|aggregate aggregates IH]; intros c Hl; cbn; [done|]. by apply IH.
Qed.

Lemma lasts_drive_window n window :
  (n < fuel)%nat -> lasts n (drive_window security_to_allocvec identity store fuel window) anyhow.
Proof.
  intros Hn. unfold drive_window.
  repeat first [apply lasts_put; [exact (limited_after_window _ _)|] | lasts_step].
Qed.

#[local] Hint Resolve lasts_drive_window : lasts.

Lemma lasts_drive_windows n windows :
  (n < fuel)%nat -> lasts n (drive_windows security_to_allocvec identity store fuel windows) anyhow.
Proof.
  revert n. induction windows as [|window windows IH]; intros n Hn; cbn [drive_windows];
    repeat first [apply IH; lia | lasts_step].
Qed.

Lemma lasts_take_aggregate n completed peer aggregate :
  (n < fuel)%nat -> lasts n (take_group_aggregate identity store fuel completed peer aggregate) anyhow.
Proof. intros Hn. unfold take_group_aggregate, broadcast_state, note_completion. repeat lasts_step. Qed.

Lemma lasts_revive n peer group : lasts n (revive_members peer group) anyhow.
Proof. unfold revive_members. repeat lasts_step. Qed.

#[local] Hint Resolve lasts_drive_windows lasts_take_aggregate lasts_revive : lasts.

Lemma lasts_replace n peer groups :
  (n < fuel)%nat -> lasts n (replace_aggregators security_to_allocvec identity store fuel peer groups) anyhow.
Proof.
  revert n. induction groups as [|group groups IH]; intros n Hn; cbn [replace_aggregators];
    repeat first [apply IH; lia | lasts_step].
Qed.

#[local] Hint Resolve lasts_replace : lasts.

Lemma lasts_lost n peer :
  (n < fuel)%nat -> lasts n (coordinator_lost_peer security_to_allocvec identity store fuel peer) anyhow.
Proof. intros Hn. unfold coordinator_lost_peer. repeat lasts_step. Qed.

#[local] Hint Resolve lasts_lost : lasts.

(** Only an event can end the coordinator's role, and it took a section that was not calm. *)
Lemma lasts_await_groups n i completed :
  (n < i)%nat -> (n < fuel)%nat ->
  lasts n (await_groups security_to_allocvec identity store fuel i completed)
    (fun j r => r = Ok false -> (j < n)%nat).
Proof.
  revert n completed. induction i as [|i IH]; intros n completed Hi Hn; [lia|]. cbn [await_groups].
  assert (Hnext : forall j completed, (j < n)%nat ->
    lasts j (await_groups security_to_allocvec identity store fuel i completed)
      (fun j r => r = Ok false -> (j < n)%nat)).
  { intros j completed' Hj. eapply lasts_mono; [apply IH; lia|]. intros k r Hk Hr Hf. specialize (Hr Hf). lia. }
  assert (Htry : forall A j (m : ctask (result A NodeError)) k, (j < n)%nat -> lasts j m anyhow ->
    (forall l a, (l < n)%nat -> lasts l (k a) (fun j r => r = Ok false -> (j < n)%nat)) ->
    lasts j (ctry m k) (fun j r => r = Ok false -> (j < n)%nat)).
  { intros A j m k Hj Hm Hk. apply lasts_then; [done|]. intros l [a|e] Hl; [apply Hk; lia | by apply lasts_ret]. }
  apply lasts_get. intros c Hc. destruct (_ <=? _); [by apply lasts_ret|].
  apply lasts_elapsed; [intros; by apply lasts_ret|]. intros j Hj.
  apply lasts_recv. intros k r Hk. destruct r as [[peer message|peer]| |]; [| |by apply lasts_ret..].
  - destruct message; try (apply Hnext; lia).
    + apply Htry; [lia | auto with lasts | auto].
    + destruct (_ <? _); [|apply Hnext; lia]. apply Htry; [lia | auto with lasts |]. intros l _ Hl.
      apply lasts_get. intros c' Hc'. destruct (negb _); [|by apply Hnext].
      apply lasts_put; [limited_tac|]. by apply lasts_ret.
    + destruct (_ <? _); [|apply Hnext; lia]. apply Htry; [lia | auto with lasts | auto].
  - apply Htry; [lia | auto with lasts | auto].
Qed.

Lemma lasts_drive n :
  (n < fuel)%nat ->
  lasts n (drive_coordinator security_to_allocvec identity store fuel)
    (fun j r => r = Ok DriveResult_Continue -> (j < n)%nat).
Proof.
  intros Hn. unfold drive_coordinator, broadcast_state.
  set (Q := fun j (r : result DriveResult NodeError) => r = Ok DriveResult_Continue -> (j < n)%nat).
  assert (Htry : forall A j (m : ctask (result A NodeError)) k, (j <= n)%nat -> lasts j m anyhow ->
    (forall l a, (l <= j)%nat -> lasts l (k a) Q) -> lasts j (ctry m k) Q).
  { intros A j m k Hj Hm Hk. apply lasts_then; [done|]. intros l [a|e] Hl; [apply Hk; lia | by apply lasts_ret]. }
  assert (Hend : forall j c autonomous, (j <= n)%nat ->
    lasts j (do! loss := or_panic (final_loss c) in
      cret (Ok (DriveResult_Finished (report c loss autonomous)))) Q)
    by (intros; apply lasts_or_panic; [by apply final_loss_total|]; intros; by apply lasts_ret).
  apply lasts_get. intros c Hc. destruct (bool_decide _).
  - unfold drive_autonomous_coordinator, broadcast_state. apply Htry; [lia | auto with lasts |]. intros j state Hj.
    apply lasts_then; [auto with lasts|]. intros k _ Hk. apply lasts_get. intros c1 Hc1.
    apply lasts_then; [repeat lasts_step|]. intros l _ Hl. apply lasts_put; [limited_tac|].
    apply lasts_get. intros c2 Hc2.
    eapply lasts_bind; [apply lasts_await_groups; lia|]. intros i [finished|e] Hi Hf; [|by apply lasts_ret].
    destruct finished; [|apply lasts_ret; intros _; specialize (Hf eq_refl); lia].
    apply lasts_get. intros c3 Hc3. apply Htry; [lia | |].
    + destruct (_ && _); [auto with lasts | by apply lasts_ret].
    + intros p _ Hp. apply lasts_get. intros c4 Hc4. apply Hend. lia.
  - apply Htry; [lia | auto with lasts |]. intros j state Hj. apply lasts_then; [auto with lasts|].
    intros k _ Hk. apply lasts_get. intros c1 Hc1. apply lasts_or_panic; [by apply u64_add_total|]. intros first.
    apply Htry; [lia | auto with lasts |]. intros l _ Hl. apply lasts_get. intros c2 Hc2. apply Hend. lia.
Qed.

Lemma lasts_lost_peer n peer : (n < fuel)%nat -> lasts n (lost_peer identity store fuel peer) anyhow.
Proof. intros Hn. unfold lost_peer. repeat lasts_step. Qed.

#[local] Hint Resolve lasts_lost_peer : lasts.

Lemma lasts_loop n i :
  (n < i)%nat -> (n < fuel)%nat ->
  lasts n (context_loop security_to_allocvec config identity store fuel i) anyhow.
Proof.
  revert n. induction i as [|i IH]; intros n Hi Hn; [lia|]. cbn [context_loop].
  apply lasts_get. intros c Hc. destruct (bool_decide _).
  - eapply lasts_bind; [by apply lasts_drive|]. intros j [[value|]|e] Hj Hd; try (by apply lasts_ret).
    specialize (Hd eq_refl). apply IH; lia.
  - apply lasts_elapsed; [intros; by apply lasts_ret|]. intros j Hj. apply lasts_recv. intros k r Hk.
    destruct r as [[peer message|peer]| |]; [| |by apply lasts_ret..].
    + apply lasts_then; [apply lasts_worker_message; lia|]. intros l _ Hl. apply lasts_get. intros c' Hc'.
      destruct (_ && _); [by apply lasts_ret | apply IH; lia].
    + apply lasts_then; [apply lasts_lost_peer; lia|]. intros l _ Hl. apply IH; lia.
Qed.

Lemma run_context_lives n context :
  (n < fuel)%nat -> limited limit context ->
  lives calm n (run_context security_to_allocvec config identity store fuel context) (fun _ _ => True).
Proof.
  intros Hn Hc. unfold run_context. eapply lives_tbind; [by apply lasts_loop|].
  intros j [c r] Hj _. eapply lives_mono; [|done]. apply quick_tbind; [|intros; apply quick_updating].
  destruct (Context_result c); [apply quick_updating | apply quick_done].
Qed.
End Job.

Section Claims.
Context `{Profile} `{Blake3} `{ContributionPostcard} `{NodeText} `{Hex}.
Context `{Json (JobId * N * N * Z * Z)} `{Json TrainingCheckpointManifest} `{Json TrainingStart}.
Context `{Json TrainingState} `{Json TrainingShardState} `{Json (list N)}.

(** (C10) A training job ends when nothing outside holds it up: whatever the other nodes send and
    whichever operations fail during the first sections of a job's task, the task comes to its end
    once its timers run out, as long as the process lives and the queues of its connections have room
    (a send to a peer waits for room without a time limit of its own).  So no wait of a worker, an
    aggregator, a candidate or a coordinator for the messages of others goes on for ever.  The build
    does not check overflow, and the fuel is larger than the number of those sections and of the job's
    windows. *)
Theorem training_jobs_end security_to_allocvec config identity store fuel context envs s t' s' out later :
  overflow_checks = false ->
  context.(Context_start).(TrainingStart_max_windows) <= u64_max ->
  (N.to_nat context.(Context_start).(TrainingStart_max_windows) < fuel)%nat -> (length envs < fuel)%nat ->
  run_task (run_context security_to_allocvec config identity store fuel context) envs s = (t', s', out) ->
  (forall i, calm (later i)) ->
  exists i s'' out', run_task t' (map later (seq 0 i)) s' = (Done tt, s'', out').
Proof.
  intros Hoff Htyped Hlimit Hn Hr Hlater.
  assert (Hl : lives calm (length envs) (run_context security_to_allocvec config identity store fuel context)
    (fun _ _ => True)).
  { eapply run_context_lives; [exact Hoff | exact Hlimit | exact Htyped | exact Hn |]. unfold limited. lia. }
  destruct (lives_run calm _ _ _ _ _ _ _ _ Hl (Nat.le_refl _) Hr) as [j Hj].
  destruct (lives_ends calm _ _ _ later s' Hj Hlater) as (i & [] & s'' & out' & Hrun & _). eauto.
Qed.
End Claims.
