(* ===== verification/V3Aside.v ===== *)
(** * Distributed training: what a training job leaves alone

    The tasks of distributed training share the state of the node with everything else.  Here: they
    never touch the job history, the jobs that wait for a peer and their reply slots, execute nothing
    and send no job update, and keep every artifact under its own hash. *)

From Stdlib Require Import String ZArith NArith Lia.
From stdpp Require Import base tactics sets strings numbers list gmap.
From S2P Require Import Prelude OrdMap Types Validation FileSystem Storage StorageFacts Aggregation Compute Float32 Planner Runtime Trust Security Facade Network NodeConfig Tasks TaskLogic NodeState NodeJobs NodeArtifacts NodeFacts NodePool V3Model V3Tasks V3Coordinator.
Local Open Scope N_scope.
Local Open Scope rust_scope.
Local Open Scope ctask_scope.

(** Nothing about a job of the history. *)
Definition plain (e : NodeEffect) : Prop :=
  match e with
  | Did_Reserve _ | Did_Evict _ | Did_Execute _ _ | Did_Send _ (Message_JobUpdate _) => False
  | _ => True
  end.

Section Aside.
Context `{Blake3}.

(** What a section of a training task does to the rest of the node. *)
Definition aside (s : NodeState) (out : list NodeEffect) (s' : NodeState) : Prop :=
  s'.(NodeState_jobs) = s.(NodeState_jobs) /\ s'.(NodeState_pending) = s.(NodeState_pending) /\
  s'.(NodeState_job_replies) = s.(NodeState_job_replies) /\
  (addressed s.(NodeState_world).(files) -> addressed s'.(NodeState_world).(files)) /\ Forall plain out.

Notation aloof t := (obeys (fun _ => True) aside t (fun _ => True)).

Lemma aside_refl s : aside s [] s.
Proof. by split_and!. Qed.

Lemma aloof_atomic {A} (f : NodeEnv -> NodeState -> A * NodeState * list NodeEffect) :
  (forall e s, aside s (f e s).2 (f e s).1.2) -> aloof (atomic f).
Proof. intros Hf. apply obeys_atomic. intros e s _. specialize (Hf e s). by destruct (f e s) as [[a s'] out]. Qed.

Lemma aloof_reading {A} (f : NodeEnv -> NodeState -> A) : aloof (reading f).
Proof. apply aloof_atomic. intros e s. apply aside_refl. Qed.

Lemma aloof_updating (f : NodeEnv -> NodeState -> NodeState) :
  (forall e s, aside s [] (f e s)) -> aloof (updating f).
Proof. intros Hf. apply aloof_atomic. auto. Qed.

Lemma aloof_storage {A} (p : Prog (result A StorageError)) : keeps_addressed p -> aloof (storage p).
Proof.
  intros Hp. apply obeys_step. intros e s a s' out _. unfold run_store.
  destruct (run _ p _) as [w [r|]] eqn:Hr; [|done]. intros [= <- <- <-]. split_and!; [done| |done].
  split_and!; try done. intros Hw. by eapply run_addressed.
Qed.

Lemma aloof_query {A} (p : Prog A) : keeps_addressed p -> aloof (store_query p).
Proof.
  intros Hp. apply obeys_step. intros e s a s' out _.
  destruct (run _ p _) as [w [r|]] eqn:Hr; [|done]. intros [= <- <- <-]. split_and!; [done| |done].
  split_and!; try done. intros Hw. by eapply run_addressed.
Qed.

Lemma aloof_send peer message : plain (Did_Send peer message) -> aloof (send_to peer message).
Proof.
  intros Hp. apply obeys_step. intros e s a s' out _. destruct (ne_full e); [done|].
  destruct (ne_send e); intros [= <- <- <-]; (split_and!; [done | split_and!; try done; by constructor | done]).
Qed.

Lemma aloof_try {A B} (t : node A) (k : A -> node B) : aloof t -> (forall a, aloof (k a)) -> aloof (try_task t k).
Proof. intros Ht Hk. apply obeys_then; [done|]. by intros [a|e]; [apply Hk|]. Qed.

Lemma aloof_ignore {A} (t : ntask A) : aloof t -> aloof (ignore t).
Proof. apply obeys_ignore. Qed.

Lemma aloof_timeout {A} timer (t : ntask A) : aloof t -> aloof (timeout timer t).
Proof. intros Ht. eapply obeys_any, obeys_timeout; [apply aside_refl | exact Ht]. Qed.

Lemma aloof_sleep : aloof V3Tasks.sleep.
Proof.
  apply obeys_step. intros e s a s' out _. destruct (ne_elapsed e); [|done]. intros [= <- <- <-].
  split_and!; [done | apply aside_refl | done].
Qed.

Lemma aloof_recv job : aloof (recv job).
Proof.
  apply obeys_step. intros e s a s' out _. destruct (ne_event e) as [[]|]; [..|destruct (ne_elapsed e); [|done]];
    intros [= <- <- <-]; (split_and!; [done | split_and!; try done; by repeat constructor | done]).
Qed.

Lemma aloof_receive_artifact sender : aloof (receive_artifact sender).
Proof.
  apply obeys_step. intros e s a s' out _. destruct (receive_slot _ _); [|done]. intros [= <- <- <-].
  split_and!; [done | apply aside_refl | done].
Qed.

Lemma aloof_forever {A} : aloof (forever : ntask A).
Proof. by intros e s []. Qed.

(** ** Tasks of a job *)

Definition apart {A} (m : ctask A) : Prop := forall context, aloof (m context).

Lemma apart_bind {A B} (m : ctask A) (k : A -> ctask B) :
  apart m -> (forall a, apart (k a)) -> apart (cbind m k).
Proof. intros Hm Hk c. apply obeys_then; [apply Hm|]. intros [c' a]. apply Hk. Qed.

Lemma apart_try {A B} (m : ctask (result A NodeError)) (k : A -> ctask (result B NodeError)) :
  apart m -> (forall a, apart (k a)) -> apart (ctry m k).
Proof. intros Hm Hk. apply apart_bind; [done|]. by intros [a|e]; [apply Hk|]. Qed.

Lemma apart_lift {A} (t : ntask A) : aloof t -> apart (lift t).
Proof. intros Ht c. by apply obeys_then. Qed.

Lemma apart_panic {A} : apart (@panic A).
Proof. intros c. apply aloof_forever. Qed.

Lemma apart_or_panic {A} (o : option A) : apart (or_panic o).
Proof. destruct o; [done | apply apart_panic]. Qed.

Lemma apart_for {A} (body : A -> ctask unit) xs : (forall x, apart (body x)) -> apart (cfor body xs).
Proof. intros Hb. induction xs; cbn [cfor]; [done|]. by apply apart_bind. Qed.
End Aside.

Notation aloof t := (obeys (fun _ => True) aside t (fun _ => True)).

Create HintDb aside discriminated.
#[export] Hint Resolve aloof_reading aloof_sleep aloof_recv aloof_receive_artifact aloof_forever : aside.

(** Follows a task of the node down to its sections. *)
Ltac aloof_walk :=
  repeat match goal with
    | |- forall _, _ => intros ?
    | |- obeys _ _ (match ?x with _ => _ end) _ => destruct x
    | |- obeys _ _ (Done _) _ => done
    | |- obeys _ _ (reading _) _ => apply aloof_reading
    | |- obeys _ _ (updating _) _ => apply aloof_updating; intros ? ?; by repeat dmatch
    | |- obeys _ _ (atomic _) _ => apply aloof_atomic; intros ? ?; (split_and!; by repeat first [dmatch | constructor])
    | |- obeys _ _ (tbind _ _) _ => apply obeys_then
    | |- obeys _ _ (try_task _ _) _ => apply aloof_try
    | |- obeys _ _ (ignore _) _ => apply aloof_ignore
    | |- obeys _ _ (timeout _ _) _ => apply aloof_timeout
    | |- obeys _ _ (timed_ok _) _ => unfold timed_ok
    | |- obeys _ _ (spawn _) _ => apply obeys_spawn
    | |- obeys _ _ (send_to _ _) _ => by apply aloof_send
    | |- obeys _ _ (storage (write_json _ _ _)) _ => apply aloof_storage, spares_keep, write_json_spares
    | |- _ => solve [auto with aside]
    end.

Ltac apart_step :=
  match goal with
  | |- forall _, _ => intros ?
  | |- apart (cbind _ _) => apply apart_bind
  | |- apart (ctry _ _) => apply apart_try
  | |- apart (match ?x with _ => _ end) => destruct x
  | |- apart (cret _) => done
  | |- apart cget => done
  | |- apart (cput _) => done
  | |- apart panic => apply apart_panic
  | |- apart (or_panic _) => apply apart_or_panic
  | |- apart (cfor _ _) => apply apart_for
  | |- apart next_event => unfold next_event
  | |- apart (lift _) => apply apart_lift; unfold try_send, send_ack, send_training, V3Tasks.elapsed, tick,
      is_connected, now_secs, random_request_id, persist_state, persist_checkpoint, persist_shard_state, persist_start,
      send_direct, reconnect_peer; solve [aloof_walk]
  | |- apart _ => solve [auto with aside]
  end.

Ltac apart_walk := repeat apart_step.

Section Job.
Context `{Profile} `{Blake3} `{ContributionPostcard} `{NodeText} `{Hex}.
Context `{Json (JobId * N * N * Z * Z)} `{Json TrainingCheckpointManifest} `{Json TrainingStart}.
Context `{Json TrainingState} `{Json TrainingShardState} `{Json (list N)}.
Context (security_to_allocvec : LocalSecurityState -> result (list N) str).
Context (config : NodeConfig) (identity : Identity) (store : LocalStore) (fuel : nat).

(** ** Tasks of the node *)
Lemma aloof_has artifact : aloof (store_query (has_artifact artifact)).
Proof. apply aloof_query, has_artifact_keeps. Qed.

Lemma aloof_verify artifact : aloof (storage (verify_artifact store artifact)).
Proof. apply aloof_storage, tidies_keep, verify_artifact_tidies. Qed.

Lemma aloof_read_range artifact offset size : aloof (store_query (read_artifact_range store artifact offset size)).
Proof. apply aloof_query, read_range_keeps. Qed.

Lemma aloof_size artifact : aloof (storage (artifact_size store artifact)).
Proof. apply aloof_storage, artifact_size_keeps. Qed.

Lemma aloof_partial_size artifact : aloof (storage (partial_artifact_size store artifact)).
Proof. apply aloof_storage, partial_size_keeps. Qed.

#[local] Hint Resolve aloof_has aloof_verify aloof_read_range aloof_size aloof_partial_size : aside.

Lemma aloof_fetch_attempt first peer artifact : aloof (fetch_attempt store first peer artifact).
Proof. unfold fetch_attempt, random_request_id, drop_transfer, send_direct, await_transfer, reconnect_peer. aloof_walk. Qed.

#[local] Hint Resolve aloof_fetch_attempt : aside.

Lemma aloof_fetch peer artifact : aloof (fetch_artifact store peer artifact).
Proof. unfold fetch_artifact. aloof_walk. Qed.

Lemma aloof_admit update expected : aloof (admit_update security_to_allocvec store update expected).
Proof.
  unfold admit_update, persist_security_state. aloof_walk.
Qed.

Lemma aloof_offer attempts first member offer : aloof (send_offer attempts first member offer).
Proof.
  revert first. induction attempts as [|attempts IH]; intros first; cbn [send_offer];
    unfold send_training, reconnect_peer; aloof_walk.
Qed.

Lemma aloof_request first election peer : aloof (request_vote first election peer).
Proof. unfold request_vote, is_connected, send_training, reconnect_peer. aloof_walk. Qed.

#[local] Hint Resolve aloof_fetch aloof_admit aloof_offer aloof_request : aside.

(** ** Tasks of a job *)
Lemma apart_record : apart (record_context store).
Proof. unfold record_context. apart_walk. Qed.

Lemma apart_broadcast message : apart (broadcast identity message).
Proof. unfold broadcast. apart_walk. Qed.

Lemma apart_restore peer : apart (restore_training_peer peer).
Proof. unfold restore_training_peer. apart_walk. Qed.

Lemma apart_election peer election : apart (handle_election identity peer election).
Proof. unfold handle_election. apart_walk. Qed.

#[local] Hint Resolve apart_record apart_broadcast apart_restore apart_election : aside.

Lemma apart_state peer state : apart (handle_state identity store peer state).
Proof. unfold handle_state. apart_walk. Qed.

Lemma apart_offer peer offer : apart (handle_checkpoint_offer identity store peer offer).
Proof. unfold handle_checkpoint_offer. apart_walk. Qed.

Lemma apart_commit peer commit : apart (handle_checkpoint_commit identity store peer commit).
Proof. unfold handle_checkpoint_commit. apart_walk. Qed.

Lemma apart_update window aggregator : apart (compute_and_send_update identity window aggregator).
Proof. unfold compute_and_send_update. apart_walk. Qed.

Lemma apart_election_in_window message peer election : apart (election_in_window identity message peer election).
Proof. unfold election_in_window. apart_walk. Qed.

#[local] Hint Resolve apart_state apart_offer apart_commit apart_update apart_election_in_window : aside.

Lemma apart_gather n window expected updates :
  apart (gather_updates security_to_allocvec identity store n window expected updates).
Proof. revert updates. induction n; intros updates; cbn [gather_updates]; apart_walk. Qed.

Lemma apart_await_replica n member artifact replicas : apart (await_replica identity n member artifact replicas).
Proof. induction n; cbn [await_replica]; apart_walk. Qed.

#[local] Hint Resolve apart_gather apart_await_replica : aside.

Lemma apart_replicate_to generation shard_id artifact member replicas :
  apart (replicate_to identity fuel generation shard_id artifact member replicas).
Proof. unfold replicate_to. apart_walk. Qed.

#[local] Hint Resolve apart_replicate_to : aside.

Lemma apart_replicate generation shard_id artifact members replicas :
  apart (replicate identity fuel generation shard_id artifact members replicas).
Proof. revert replicas. induction members; intros replicas; cbn [replicate]; apart_walk. Qed.

Lemma aloof_put_artifact bytes : aloof (storage (put_artifact store bytes)).
Proof.
  apply aloof_storage. intros w Hw. apply always_try.
  eapply always_mono; [|by apply put_artifact_with_id_addressed]. by intros [].
Qed.

#[local] Hint Resolve apart_replicate aloof_put_artifact : aside.

Lemma apart_store_shard group window state : apart (store_shard_state identity store fuel group window state).
Proof. unfold store_shard_state. apart_walk. Qed.

#[local] Hint Resolve apart_store_shard : aside.

Lemma apart_collect group window :
  apart (collect_group_updates security_to_allocvec identity store fuel group window).
Proof. unfold collect_group_updates. apart_walk. Qed.

#[local] Hint Resolve apart_collect : aside.

Lemma apart_lead n group window : apart (lead_group security_to_allocvec identity store fuel n group window).
Proof. revert window. induction n; intros window; cbn [lead_group]; apart_walk. Qed.

#[local] Hint Resolve apart_lead : aside.

Lemma apart_window peer window : apart (handle_window security_to_allocvec config identity store fuel peer window).
Proof. unfold handle_window. apart_walk. Qed.

Lemma apart_shard_state peer state : apart (handle_shard_state store peer state).
Proof. unfold handle_shard_state. apart_walk. Qed.

#[local] Hint Resolve apart_window apart_shard_state : aside.

Lemma apart_worker_message peer message :
  apart (handle_worker_message security_to_allocvec config identity store fuel peer message).
Proof. destruct message; cbn [handle_worker_message]; apart_walk. Qed.

(** ** Elections *)
Lemma apart_count_votes n candidate term previous_term previous_coordinator quorum_size votes :
  apart (count_votes identity n candidate term previous_term previous_coordinator quorum_size votes).
Proof. revert votes. induction n; intros votes; cbn [count_votes]; apart_walk. Qed.

#[local] Hint Resolve apart_worker_message apart_count_votes : aside.

Lemma apart_seek attempts first election failed previous_term previous_coordinator quorum_size votes :
  apart (seek_votes identity fuel attempts first election failed previous_term previous_coordinator quorum_size votes).
Proof. revert first votes. induction attempts; intros first votes; cbn [seek_votes]; apart_walk. Qed.

#[local] Hint Resolve apart_seek : aside.

Lemma apart_elect failed : apart (maybe_elect identity store fuel failed).
Proof. unfold maybe_elect, broadcast_state. apart_walk. Qed.

(** ** The coordinator *)
Lemma apart_state_acks n state expected acks : apart (await_state_acks identity n state expected acks).
Proof. revert acks. induction n; intros acks; cbn [await_state_acks]; apart_walk. Qed.

Lemma apart_checkpoint_acks n commit expected acks : apart (await_checkpoint_acks n commit expected acks).
Proof. revert expected acks. induction n; intros expected acks; cbn [await_checkpoint_acks]; apart_walk. Qed.

#[local] Hint Resolve apart_elect apart_state_acks apart_checkpoint_acks : aside.

Lemma apart_state_wait state : apart (broadcast_state_and_wait identity fuel state).
Proof. unfold broadcast_state_and_wait, broadcast_state. apart_walk. Qed.

Lemma apart_checkpoint_wait commit : apart (broadcast_checkpoint_and_wait identity fuel commit).
Proof. unfold broadcast_checkpoint_and_wait, broadcast_checkpoint. apart_walk. Qed.

#[local] Hint Resolve apart_state_wait apart_checkpoint_wait : aside.

Lemma apart_commit_context : apart (commit_context_checkpoint identity store fuel).
Proof. unfold commit_context_checkpoint, broadcast_checkpoint. apart_walk. Qed.

Lemma apart_dispatch group window :
  apart (dispatch_autonomous_window security_to_allocvec identity store fuel group window).
Proof. unfold dispatch_autonomous_window. apart_walk. Qed.

#[local] Hint Resolve apart_commit_context apart_dispatch : aside.

Lemma apart_dispatch_next group : apart (dispatch_next security_to_allocvec identity store fuel group).
Proof. unfold dispatch_next. apart_walk. Qed.

Lemma apart_wait_aggregate n group_id window : apart (wait_for_aggregate_loop identity n group_id window).
Proof. induction n; cbn [wait_for_aggregate_loop]; apart_walk. Qed.

#[local] Hint Resolve apart_dispatch_next apart_wait_aggregate : aside.

Lemma apart_group_window group window :
  apart (run_group_window security_to_allocvec identity store fuel group window).
Proof. unfold run_group_window, wait_for_aggregate. apart_walk. Qed.

#[local] Hint Resolve apart_group_window : aside.

Lemma apart_group_aggregate window group :
  apart (group_aggregate security_to_allocvec identity store fuel window group).
Proof. unfold group_aggregate. apart_walk. Qed.

#[local] Hint Resolve apart_group_aggregate : aside.

Lemma apart_group_aggregates window groups aggregates :
  apart (group_aggregates security_to_allocvec identity store fuel window groups aggregates).
Proof. revert aggregates. induction groups; intros aggregates; cbn [group_aggregates]; apart_walk. Qed.

Lemma apart_checkpoint_window aggregates : apart (checkpoint_window identity store fuel aggregates).
Proof. unfold checkpoint_window. apart_walk. Qed.

#[local] Hint Resolve apart_group_aggregates apart_checkpoint_window : aside.

Lemma apart_drive_window window : apart (drive_window security_to_allocvec identity store fuel window).
Proof. unfold drive_window. apart_walk. Qed.

#[local] Hint Resolve apart_drive_window : aside.

Lemma apart_drive_windows windows : apart (drive_windows security_to_allocvec identity store fuel windows).
Proof. induction windows; cbn [drive_windows]; apart_walk. Qed.

Lemma apart_take_aggregate completed peer aggregate :
  apart (take_group_aggregate identity store fuel completed peer aggregate).
Proof. unfold take_group_aggregate, broadcast_state, note_completion. apart_walk. Qed.

Lemma apart_revive peer group : apart (revive_members peer group).
Proof. unfold revive_members. apart_walk. Qed.

#[local] Hint Resolve apart_drive_windows apart_take_aggregate apart_revive : aside.

Lemma apart_replace peer groups :
  apart (replace_aggregators security_to_allocvec identity store fuel peer groups).
Proof. induction groups; cbn [replace_aggregators]; apart_walk. Qed.

#[local] Hint Resolve apart_replace : aside.

Lemma apart_lost peer : apart (coordinator_lost_peer security_to_allocvec identity store fuel peer).
Proof. unfold coordinator_lost_peer. apart_walk. Qed.

#[local] Hint Resolve apart_lost : aside.

Lemma apart_await_groups n completed :
  apart (await_groups security_to_allocvec identity store fuel n completed).
Proof. revert completed. induction n; intros completed; cbn [await_groups]; apart_walk. Qed.

#[local] Hint Resolve apart_await_groups : aside.

Lemma apart_drive : apart (drive_coordinator security_to_allocvec identity store fuel).
Proof. unfold drive_coordinator, drive_autonomous_coordinator, broadcast_state. apart_walk. Qed.

Lemma apart_lost_peer peer : apart (lost_peer identity store fuel peer).
Proof. unfold lost_peer. apart_walk. Qed.

#[local] Hint Resolve apart_drive apart_lost_peer : aside.

Lemma apart_loop n : apart (context_loop security_to_allocvec config identity store fuel n).
Proof. induction n; cbn [context_loop]; apart_walk. Qed.

Lemma aloof_run_context context : aloof (run_context security_to_allocvec config identity store fuel context).
Proof. unfold run_context. apply obeys_then; [apply apart_loop|]. intros [c r]. aloof_walk. Qed.

(** ** Entries *)
Lemma aloof_of_option {A} (o : option A) : aloof (of_option o).
Proof. destruct o; [done | apply aloof_forever]. Qed.

Lemma aloof_check rechecks coordinator : aloof (check_coordinator rechecks coordinator).
Proof. induction rechecks; cbn [check_coordinator]; unfold is_connected, reconnect_peer; aloof_walk. Qed.

#[local] Hint Resolve aloof_run_context aloof_of_option aloof_check : aside.

Lemma aloof_watch rechecks job coordinator : aloof (watch_coordinator rechecks job coordinator).
Proof. unfold watch_coordinator, deliver. aloof_walk. Qed.

#[local] Hint Resolve aloof_watch : aside.

Lemma aloof_accept peer start : aloof (accept_start security_to_allocvec config identity store fuel peer start).
Proof.
  unfold accept_start, persist_start, has_job, add_job, ack_start, send_ack, try_send, send_training. aloof_walk.
Qed.

#[local] Hint Resolve aloof_accept : aside.

Lemma aloof_v3_message peer message :
  aloof (handle_v3_message security_to_allocvec config identity store fuel peer message).
Proof. unfold handle_v3_message, has_job, deliver, count_received. aloof_walk. Qed.

Lemma aloof_for {A} (body : A -> ntask unit) xs : (forall x, aloof (body x)) -> aloof (for_task body xs).
Proof. intros Hb. induction xs; cbn [for_task]; [done|]. by apply obeys_then. Qed.

Lemma aloof_disconnected peer : aloof (v3_peer_disconnected peer).
Proof. unfold v3_peer_disconnected, deliver. apply obeys_then; [apply aloof_reading|]. intros jobs. apply aloof_for. aloof_walk. Qed.

Lemma aloof_read_json {T} `{Json T} name : aloof (storage (read_json (T := T) name)).
Proof. apply aloof_storage, asks_keep. unfold read_json, read_file, fail. solve_calls. Qed.

#[local] Hint Resolve aloof_read_json : aside.

Lemma aloof_on_disk state : aloof (checkpoint_on_disk state).
Proof. unfold checkpoint_on_disk. aloof_walk. Qed.

#[local] Hint Resolve aloof_on_disk : aside.

Lemma aloof_restore_worker start :
  aloof (restore_worker security_to_allocvec config identity store fuel start).
Proof. unfold restore_worker, has_job, add_job. aloof_walk. Qed.

#[local] Hint Resolve aloof_restore_worker : aside.

Lemma aloof_restore_workers starts :
  aloof (restore_workers security_to_allocvec config identity store fuel starts).
Proof. induction starts; cbn [restore_workers]; aloof_walk. Qed.

Lemma aloof_send_start attempts last_error worker start : aloof (send_start attempts last_error worker start).
Proof.
  revert last_error. induction attempts; intros last_error; cbn [send_start]; unfold send_training, reconnect_peer; aloof_walk.
Qed.

#[local] Hint Resolve aloof_send_start : aside.

Lemma aloof_send_starts worker_starts : aloof (send_starts worker_starts).
Proof. induction worker_starts; cbn [send_starts]; aloof_walk. Qed.

#[local] Hint Resolve aloof_send_starts : aside.

Lemma aloof_admission n start worker_starts expected acknowledged :
  aloof (await_admission n start worker_starts expected acknowledged).
Proof.
  revert acknowledged. induction n; intros acknowledged; cbn [await_admission];
    unfold V3Tasks.elapsed, tick, send_training, reconnect_peer;
    repeat first [progress aloof_walk | apply aloof_for].
Qed.

Lemma aloof_result job :
  aloof (Step (fun e s => match receive_slot e (s.(NodeState_v3_results) !! job) with
                          | Some r => Some (r, s, [])
                          | None => None
                          end) Done : ntask (Received (result (option TrainingReport) str))).
Proof.
  apply obeys_step. intros e s a s' out _. destruct (receive_slot _ _); [|done]. intros [= <- <- <-].
  split_and!; [done | apply aside_refl | done].
Qed.

#[local] Hint Resolve aloof_admission aloof_result : aside.

Lemma aloof_start start worker_starts wait_for_result :
  aloof (start_coordinator security_to_allocvec config identity store fuel start worker_starts wait_for_result).
Proof. unfold start_coordinator, add_job, remove_job, persist_start. aloof_walk. Qed.

#[local] Hint Resolve aloof_start : aside.

Context `{Json (str * JobId)}.
Context `{Json (str * list NodeId * list TrainingGroup * list TrainingShardAssignment * N * N * N)}.

(** What else a node runs for distributed training: the commands of the operator, and the workers of
    the starts found on disk. *)
Inductive v3_command : ntask unit -> Prop :=
  | v3_start workers windows steps every wait :
      v3_command (ignore (start_training_with_mode security_to_allocvec config identity store fuel workers windows
                            steps every wait))
  | v3_restore starts :
      v3_command (ignore (restore_workers security_to_allocvec config identity store fuel starts)).

Lemma v3_command_aloof t : v3_command t -> aloof t.
Proof.
  destruct 1; apply aloof_ignore; [|apply aloof_restore_workers].
  unfold start_training_with_mode. aloof_walk.
Qed.
End Job.

(** ** For the rest of the node *)
Section Rest.
Context `{Blake3}.
Context (config : NodeConfig) (identity : Identity).

Lemma plain_effect e : plain e -> effect_ok config identity e.
Proof. destruct e as [peer message| | | | | | | | |]; try done. by destruct message. Qed.

Lemma plain_still out : Forall plain out -> still out.
Proof.
  intros Ho j. induction Ho as [|e out He Ho IH]; [done|]. rewrite !count_cons. destruct IH as [-> ->].
  by destruct e.
Qed.

Lemma plain_idle j out : Forall plain out -> idle (reserves j) (executes j) out.
Proof.
  intros Ho. unfold idle. induction Ho as [|e out He Ho IH]; [done|]. rewrite !count_cons. destruct IH as [-> ->].
  by destruct e.
Qed.

(** A task of distributed training keeps the invariant of the node. *)
Lemma aloof_ok {A} (t : ntask A) :
  aloof t -> obeys node_ok (node_step config identity) t (fun _ => True).
Proof.
  apply obeys_under. intros s out s' [] (Hj & Hp & Hr & Hw & Ho). split.
  - split; [by rewrite Hj | by rewrite Hj | by rewrite Hp | by rewrite Hr | auto].
  - apply node_step_same; [done | by apply plain_still | by eapply Forall_impl; [|apply plain_effect]].
Qed.

Lemma aloof_idle j {A} (t : ntask A) :
  aloof t -> obeys (fun _ => True) (fun _ out _ => idle (reserves j) (executes j) out) t (fun _ => True).
Proof. apply obeys_under. intros s out s' _ (_ & _ & _ & _ & Ho). split; [done | by apply plain_idle]. Qed.
End Rest.
