(* ===== verification/V3Examples.v ===== *)
(** * Distributed training: a sample job

    Four workers and the node that started them, runs of their tasks, and the witnesses of the
    theorems about training. *)

From Stdlib Require Import String ZArith NArith Lia.
From stdpp Require Import base tactics sets strings numbers list gmap.
From S2P Require Import Prelude OrdMap Types Validation FileSystem Storage StorageFacts Aggregation Compute Float32 Planner Trust Security Network NetworkExamples NodeConfig NodeConfigFacts Tasks TraceLogic NodeState NodeJobs NodeArtifacts NodeExamples V3Model V3Tasks V3Coordinator V3Facts V3Monotone V3Elections V3Aggregates V3Deadlines.
Local Open Scope N_scope.
Local Open Scope rust_scope.

(** ** The job *)

(** Values are written, and not read back in these runs. *)
Definition written (T : Type) : Json T :=
  {| to_vec := fun _ => Ok [1]; from_slice := fun _ => Err "not read"%string |}.

#[local] Instance tx_json {T} : Json T := written T.

#[local] Instance tx_profile : Profile := true.

#[local] Instance tx_contribution : ContributionPostcard := fun _ => Some [1].

#[local] Existing Instances net_hash nx_text nx_hex.

Definition tx_node (n : N) : NodeId := mkNodeId [n].

Definition tx_identity (n : N) : Identity := mkIdentity [n] [n] (tx_node n) None.

Definition tx_workers : list NodeId := map tx_node [1; 2; 3; 4].

Definition tx_job : JobId := mkJobId [7].

Definition tx_starts : list (NodeId * TrainingStart) :=
  match make_starts tx_job (tx_node 9) 2 1 1 tx_workers with Ok starts => starts | Err _ => [] end.

Definition tx_start (i : nat) : TrainingStart :=
  default (worker_start tx_job (tx_node 9) ArtifactId_default ArtifactId_default 2 1 1 [] [] []
             (mkTrainingShardAssignment 0 0 [] [] 0 ArtifactId_default)) (snd <$> tx_starts !! i).

(** Compute a value of an option known to be there. *)
Definition the {A} (o : option A) : match o with Some _ => A | None => unit end :=
  match o with Some a => a | None => tt end.

Definition tx_first : Context := the (Context_new (tx_start 0) Role_Worker false).

Definition tx_third : Context := the (Context_new (tx_start 2) Role_Worker false).

Definition tx_fourth : Context := the (Context_new (tx_start 3) Role_Worker false).

(** ** Surroundings *)

Definition tx_env (event : option V3Inbound) (elapsed : bool) : NodeEnv :=
  mkNodeEnv 100 100000 elapsed None [] None (Execution_Output []) [] false [] []
    (match event with Some event => Some (Some event) | None => None end) true false false.

Definition tx_state : NodeState := nx_start.

(** ** An election *)

Definition tx_vote (voter candidate : N) : V3Inbound :=
  V3Inbound_Message (tx_node voter) (TrainingMessage_Ack (mkTrainingAck tx_job (tx_node voter) 2
    (TrainingAckKind_Vote (tx_node candidate) 2 0 true))).

(** The votes of the first two workers arrive. *)
Definition tx_votes (candidate : N) : list NodeEnv :=
  repeat (tx_env (Some (tx_vote 1 candidate)) false) 20 ++ repeat (tx_env (Some (tx_vote 2 candidate)) false) 20.

Definition tx_elect (candidate : N) (context : Context)
    : ntask (Context * result unit NodeError) * NodeState * list NodeEffect :=
  run_task (maybe_elect (tx_identity candidate) nx_store 40 (tx_node 9) context) (tx_votes candidate) tx_state.

(** The end of a run. *)
Definition tx_last {A} (d : A) (run : ntask A * NodeState * list NodeEffect) : A :=
  match run.1.1 with Done a => a | _ => d end.

Definition tx_won (candidate : N) (context : Context) : Context :=
  (tx_last (context, Ok tt) (tx_elect candidate context)).1.

(** The fourth worker has lost sight of the third. *)
Definition tx_alone : Context := set_Context_failed {[tx_node 3]} tx_fourth.

Lemma tx_third_elected :
  run_task (maybe_elect (tx_identity 3) nx_store 40 (tx_node 9) tx_third) (tx_votes 3) tx_state
    = (Done (tx_won 3 tx_third, Ok tt), (tx_elect 3 tx_third).1.2, (tx_elect 3 tx_third).2).
Proof. vm_compute. reflexivity. Defined.

Lemma tx_alone_elected :
  run_task (maybe_elect (tx_identity 4) nx_store 40 (tx_node 9) tx_alone) (tx_votes 4) tx_state
    = (Done (tx_won 4 tx_alone, Ok tt), (tx_elect 4 tx_alone).1.2, (tx_elect 4 tx_alone).2).
Proof. vm_compute. reflexivity. Defined.

Lemma elected_by_a_majority_witness :
  (tx_won 3 tx_third).(Context_role) = Role_Coordinator /\
  won (tx_identity 3) tx_third (tx_elect 3 tx_third).2 (tx_won 3 tx_third).
Proof.
  assert (Hrole : (tx_won 3 tx_third).(Context_role) = Role_Coordinator) by (vm_compute; reflexivity).
  split; [exact Hrole|].
  exact (elected_by_a_majority _ _ _ _ tx_third _ _ _ _ _ _ eq_refl tx_third_elected Hrole).
Defined.

Lemma winners_share_a_voter_witness :
  exists voter, voter ∈ tx_workers /\
    voted (tx_node 3) tx_job 2 (tx_elect 3 tx_third).2 voter /\
    voted (tx_node 4) tx_job 2 (tx_elect 4 tx_alone).2 voter.
Proof.
  exact (winners_share_a_voter (tx_identity 3) (tx_identity 4) _ _ _ _ _ tx_third tx_alone _ _ _ _ _ _ _ _ _ _ _ _
    eq_refl eq_refl ltac:(vm_compute; reflexivity) ltac:(vm_compute; reflexivity) tx_third_elected tx_alone_elected
    ltac:(vm_compute; reflexivity) ltac:(vm_compute; reflexivity) ltac:(vm_compute; reflexivity)).
Defined.

(** ** A window *)

(** The first worker leads the window of its group; the third one answers. *)
Definition tx_group : TrainingGroup := mkTrainingGroup 0 0 [tx_node 1; tx_node 3] (tx_node 1).

Definition tx_window : TrainingWindow := window_message tx_first tx_group 1.

Definition tx_update : V3Inbound :=
  V3Inbound_Message (tx_node 3) (TrainingMessage_Update
    (mkTrainingUpdate tx_job (tx_node 3) 1 1 tx_first.(Context_branch) 1 0 0 2 2 (-51) 0 8)).

(** The acknowledgement of the stored shard state. *)
Definition tx_ack : V3Inbound :=
  V3Inbound_Message (tx_node 3) (TrainingMessage_Ack (mkTrainingAck tx_job (tx_node 3) 1
    (TrainingAckKind_Checkpoint (ArtifactId_from_bytes_hashed [1])))).

Definition tx_window_envs : list NodeEnv :=
  repeat (tx_env (Some tx_update) false) 8 ++ repeat (tx_env (Some tx_ack) false) 20.

Definition tx_collect : ntask (Context * result TrainingAggregate NodeError) * NodeState * list NodeEffect :=
  run_task (collect_group_updates nx_security_bytes (tx_identity 1) nx_store 40 tx_group tx_window tx_first)
    tx_window_envs tx_state.

Definition tx_aggregate : TrainingAggregate :=
  mkTrainingAggregate tx_job (tx_node 1) 1 1 tx_first.(Context_branch) 1 0 0 1 2 (-51) 0
    [tx_node 1; tx_node 3] (ArtifactId_from_bytes_hashed [1]) [tx_node 1; tx_node 3].

Definition tx_after_window : Context := (tx_last (tx_first, Ok tx_aggregate) tx_collect).1.

Lemma tx_collected :
  run_task (collect_group_updates nx_security_bytes (tx_identity 1) nx_store 40 tx_group tx_window tx_first)
    tx_window_envs tx_state = (Done (tx_after_window, Ok tx_aggregate), tx_collect.1.2, tx_collect.2).
Proof. vm_compute. reflexivity. Defined.

Lemma aggregates_stand_for_updates_witness :
  exists own rest, stands_for (tx_identity 1) tx_first tx_group tx_window tx_collect.2 own rest tx_aggregate /\
    forall lo hi, let values := map TrainingUpdate_value (own :: rest) in
      (length values < 2 * honest lo hi values)%nat ->
      (lo <= tx_aggregate.(TrainingAggregate_value) <= hi)%Z.
Proof. exact (aggregates_stand_for_updates _ _ _ _ _ _ _ _ _ _ _ _ _ tx_collected). Defined.

(** ** A worker and its coordinators *)

Definition tx_election (candidate term : N) : V3Inbound :=
  V3Inbound_Message (tx_node candidate) (TrainingMessage_Election
    (mkTrainingElection tx_job (tx_node candidate) term 1 tx_first.(Context_branch) 0 ArtifactId_default)).

(** The state of the new coordinator, one checkpoint later. *)
Definition tx_new_state (n term : N) : TrainingState :=
  mkTrainingState tx_job (tx_node n) term 1 tx_first.(Context_branch) 0 1 None [].

(** A vote, the state of the winner, another vote. *)
Definition tx_life_envs : list NodeEnv :=
  repeat (tx_env (Some (tx_election 3 2)) false) 4 ++
  repeat (tx_env (Some (V3Inbound_Message (tx_node 3) (TrainingMessage_State (tx_new_state 3 2)))) false) 5 ++
  repeat (tx_env (Some (tx_election 4 3)) false) 8.

Definition tx_life : ntask unit * NodeState * list NodeEffect :=
  run_task (run_context nx_security_bytes nx_node_config (tx_identity 1) nx_store 40 tx_first) tx_life_envs tx_state.

Lemma published_states_never_go_back_witness :
  published tx_life.2 = [(1, 0); (2, 1); (2, 1)] /\
  Sorted.StronglySorted le2 (published tx_life.2) /\ Forall (le2 (1, 0)) (published tx_life.2).
Proof.
  split; [vm_compute; reflexivity|].
  apply (published_states_never_go_back nx_security_bytes nx_node_config (tx_identity 1) nx_store 40 tx_first
    tx_life_envs tx_state tx_life.1.1 tx_life.1.2).
  - split; vm_compute; discriminate.
  - repeat constructor; try exact Logic.I; vm_compute; discriminate.
  - unfold tx_life. by destruct (run_task _ _ _) as [[t s] out].
Defined.

(** ** Starting *)

Definition tx_capability : Capability :=
  mkCapability "training.reference" 1 None (mkResourceLimits 1024 1024 67108864 1000)
    CapabilityEvidence_Claimed 1000 [] [].

Definition tx_record (n : N) : PeerRecord := mkPeerRecord (tx_node n) [n] [] [tx_capability] 0 1000 None.

Definition tx_records : list PeerRecord := map tx_record [4; 9; 2; 3; 1; 2].

Lemma tx_selected : select_workers 100 (tx_node 9) tx_records 4 = tx_workers.
Proof. vm_compute. reflexivity. Defined.

Lemma tx_started :
  make_starts tx_job (tx_node 9) 2 1 1 (select_workers 100 (tx_node 9) tx_records 4) = Ok tx_starts.
Proof. vm_compute. reflexivity. Defined.

Lemma started_workers_are_authorized_witness :
  tx_starts.*1 = tx_workers /\ NoDup tx_workers /\ tx_node 9 ∉ tx_workers /\
  mjoin (map TrainingGroup_members (make_groups tx_workers)) ≡ₚ tx_workers /\
  Forall (fun entry =>
    entry.2.(TrainingStart_groups) = make_groups tx_workers /\
    (forall identity, identity.(Identity_node_id) = entry.1 ->
       start_refused identity (tx_node 9) entry.2 = false) /\
    Message_validate (Message_Training (TrainingMessage_Start entry.2)) = Ok tt) tx_starts.
Proof.
  pose proof (started_workers_are_authorized _ _ _ _ _ _ _ _ _ tx_started) as Hs.
  cbn zeta in Hs. rewrite tx_selected in Hs. exact Hs.
Defined.

Lemma reference_updates_are_exact_witness :
  exists update, compute_update tx_first tx_window (tx_node 1) = Some update /\
    update.(TrainingUpdate_value) = 2%Z /\ update.(TrainingUpdate_loss) = 0%Z /\
    update.(TrainingUpdate_samples) = 8.
Proof.
  apply (reference_updates_are_exact tx_first tx_window (tx_node 1) 0);
    [vm_compute; reflexivity | left; vm_compute; reflexivity | vm_compute; reflexivity].
Defined.

(** ** The end of a job *)

(** In a build without overflow checks, the worker has answered an election; then its timers run
    out. *)
Definition tx_begun : ntask unit * NodeState * list NodeEffect :=
  run_task (@run_context false _ _ _ _ _ _ _ _ _ nx_security_bytes nx_node_config (tx_identity 1) nx_store 40 tx_first)
    (repeat (tx_env (Some (tx_election 3 2)) false) 4) tx_state.

Lemma training_jobs_end_witness :
  exists i s'' out', run_task tx_begun.1.1 (map (fun _ : nat => tx_env None true) (seq 0 i)) tx_begun.1.2
    = (Done tt, s'', out').
Proof.
  apply (@training_jobs_end false _ _ _ _ _ _ _ _ _ nx_security_bytes nx_node_config (tx_identity 1) nx_store 40
    tx_first (repeat (tx_env (Some (tx_election 3 2)) false) 4) tx_state tx_begun.1.1 tx_begun.1.2 tx_begun.2
    (fun _ => tx_env None true)).
  - reflexivity.
  - vm_compute. discriminate.
  - vm_compute. lia.
  - vm_compute. lia.
  - unfold tx_begun. by destruct (run_task _ _ _) as [[t s] out].
  - intros i. by split; [|constructor].
Defined.

(** * Distributed training: where the code does not do what it means to

    Runs of the sample job that show it. *)
Local Open Scope ctask_scope.

#[local] Existing Instances tx_json tx_profile tx_contribution net_hash nx_text nx_hex.

(** ** Two coordinators *)

Definition tx_second : Context := the (Context_new (tx_start 1) Role_Worker false).

(** A worker answers the elections of the third and the fourth worker in the same term. *)
Definition tx_answer (n : N) (context : Context)
    : ntask (Context * result unit NodeError) * NodeState * list NodeEffect :=
  let election candidate :=
    mkTrainingElection tx_job (tx_node candidate) 2 1 context.(Context_branch) 0 ArtifactId_default in
  run_task ((handle_election (tx_identity n) (tx_node 3) (election 3) >>?
             handle_election (tx_identity n) (tx_node 4) (election 4)) context)
    (repeat (tx_env None false) 10) tx_state.

(** The vote of [n] as it is sent to the candidate, and as it arrives there. *)
Definition tx_ballot (n candidate : N) : TrainingMessage :=
  TrainingMessage_Ack (mkTrainingAck tx_job (tx_node n) 2 (TrainingAckKind_Vote (tx_node candidate) 2 0 true)).

Definition tx_casts (n candidate : N) (trace : list NodeEffect) : bool :=
  existsb (fun effect => match effect with
    | Did_Send peer (Message_Training message) =>
        bool_decide (peer = tx_node candidate) && bool_decide (message = tx_ballot n candidate)
    | _ => false
    end) trace.

(** (C39) A participant votes for two candidates in the same term, because a vote is refused only for
    terms that the active term has reached and not for one it has voted in; so two nodes can
    become the coordinators of one term: the first two workers vote for the third and for the fourth
    in term 2, and with these votes both win it. *)
Theorem two_coordinators_in_one_term :
  (forall candidate, candidate ∈ [3; 4] ->
     tx_casts 1 candidate (tx_answer 1 tx_first).2 = true /\
     tx_casts 2 candidate (tx_answer 2 tx_second).2 = true /\
     tx_vote 1 candidate = V3Inbound_Message (tx_node 1) (tx_ballot 1 candidate) /\
     tx_vote 2 candidate = V3Inbound_Message (tx_node 2) (tx_ballot 2 candidate)) /\
  let third := tx_won 3 tx_third in
  let fourth := tx_won 4 tx_alone in
  third.(Context_role) = Role_Coordinator /\ fourth.(Context_role) = Role_Coordinator /\
  third.(Context_term) = 2 /\ fourth.(Context_term) = 2 /\
  third.(Context_coordinator) <> fourth.(Context_coordinator).
Proof.
  split.
  - intros candidate [->|[->|[]%not_elem_of_nil]%elem_of_cons]%elem_of_cons; vm_compute; by split_and!.
  - vm_compute. by split_and!.
Qed.

(** ** A coordinator from outside *)

Definition tx_outsider : TrainingState := tx_new_state 99 5.

Definition tx_taken : ntask (Context * result unit NodeError) * NodeState * list NodeEffect :=
  run_task (handle_state (tx_identity 1) nx_store (tx_node 99) tx_outsider tx_first)
    (repeat (tx_env None false) 10) tx_state.

(** A node that is not a participant of a job takes it over: a worker adopts the state of any
    node that names itself coordinator of a later term, and follows it from then on. *)
Theorem outsider_takes_over :
  tx_node 99 ∉ tx_first.(Context_start).(TrainingStart_participants) /\
  tx_node 99 <> tx_first.(Context_start).(TrainingStart_coordinator) /\
  match tx_taken.1.1 with
  | Done (context, Ok _) => context.(Context_coordinator) = tx_node 99 /\ context.(Context_term) = 5
  | _ => False
  end.
Proof.
  split_and!; [apply contains_false; vm_compute; reflexivity | discriminate | vm_compute; by split].
Qed.

(** ** A report without the final checkpoint *)

Definition tx_leader : Context := the (Context_new (tx_start 0) Role_Coordinator true).

(** The first worker of a group reports the last window at the first generation. *)
Definition tx_early (n group : N) : V3Inbound :=
  V3Inbound_Message (tx_node n) (TrainingMessage_Aggregate
    (mkTrainingAggregate tx_job (tx_node n) 1 1 tx_first.(Context_branch) 2 group group 1 2 0 0
       [tx_node n] (ArtifactId_from_bytes_hashed [1]) [tx_node n])).

Definition tx_drive : ntask (Context * result DriveResult NodeError) * NodeState * list NodeEffect :=
  run_task (drive_coordinator nx_security_bytes (tx_identity 9) nx_store 80 tx_leader)
    (repeat (tx_env (Some (tx_early 1 0)) false) 24 ++ repeat (tx_env (Some (tx_early 2 1)) false) 40) tx_state.

(** A job is reported as finished although the complete model has no committed checkpoint: a
    group is complete when it reports the last window, whatever generation its shard has, and the
    final checkpoint is only taken when the shards have reached the last generation. *)
Theorem finished_without_final_checkpoint :
  match tx_drive.1.1 with
  | Done (context, Ok (DriveResult_Finished report)) =>
      context.(Context_final_checkpoint_committed) = false /\ shards_reached_final context = false /\
      exists autonomous, report.(TrainingReport_autonomous) = Some autonomous /\
        autonomous.(AutonomousReport_final_checkpoint_committed) = false
  | _ => False
  end.
Proof. vm_compute. split_and!; [done | done |]. by eexists. Qed.

(** ** Samples that are too large *)

Definition tx_large : TrainingSample := mkTrainingSample 4294967296 0.

Definition with_samples (samples : list TrainingSample) (start : TrainingStart) : TrainingStart :=
  {| TrainingStart_job_id := start.(TrainingStart_job_id);
     TrainingStart_coordinator := start.(TrainingStart_coordinator);
     TrainingStart_term := start.(TrainingStart_term);
     TrainingStart_membership_epoch := start.(TrainingStart_membership_epoch);
     TrainingStart_branch := start.(TrainingStart_branch);
     TrainingStart_plan_hash := start.(TrainingStart_plan_hash);
     TrainingStart_max_windows := start.(TrainingStart_max_windows);
     TrainingStart_local_steps := start.(TrainingStart_local_steps);
     TrainingStart_max_staleness := start.(TrainingStart_max_staleness);
     TrainingStart_checkpoint_every := start.(TrainingStart_checkpoint_every);
     TrainingStart_execution := start.(TrainingStart_execution);
     TrainingStart_model_state_bytes := start.(TrainingStart_model_state_bytes);
     TrainingStart_shard_state_bytes := start.(TrainingStart_shard_state_bytes);
     TrainingStart_participants := start.(TrainingStart_participants);
     TrainingStart_groups := start.(TrainingStart_groups);
     TrainingStart_shards := start.(TrainingStart_shards);
     TrainingStart_assignment := start.(TrainingStart_assignment);
     TrainingStart_initial_value := 1;
     TrainingStart_initial_optimizer := start.(TrainingStart_initial_optimizer);
     TrainingStart_samples := samples |}.

Definition tx_large_start : TrainingStart := with_samples [tx_large; tx_large] (tx_start 0).

(** The samples of a start are not bounded: a start that passes validation makes the worker's
    first loss overflow, which ends the job's task when overflow is checked and yields a negative
    loss when it is not. *)
Theorem large_samples_break_the_loss :
  Message_validate (Message_Training (TrainingMessage_Start tx_large_start)) = Ok tt /\
  start_refused (tx_identity 1) (tx_node 9) tx_large_start = false /\
  (forall profile : Profile, exists context, Context_new tx_large_start Role_Worker false = Some context /\
     match compute_update context tx_window (tx_node 1) with
     | None => overflow_checks = true
     | Some update => overflow_checks = false /\ (update.(TrainingUpdate_loss) < 0)%Z
     end).
Proof.
  split_and!; [vm_compute; reflexivity | vm_compute; reflexivity|].
  intros [|]; (eexists; split; [vm_compute; reflexivity|]); vm_compute; [reflexivity | by split].
Qed.
