(* ===== verification/V4Model.v ===== *)
(** * Frontier training: data (crates/node/src/frontier_training.rs)

    What a node keeps of the planned training jobs it takes part in: the plans and their
    proposals, data, tensor, optimizer and pipeline state, the execution graphs and integrated
    states, the votes it has cast, replicated records and checkpoint manifests, and the collective
    and robust aggregations under way; the messages of such a job are [TrainingV4Message].

    [V4State] is the part of a node these operations touch: the files, the security state, the
    compute registry and the maps behind the locks.  The mailbox of a job is known by a number.
    A section reads its surroundings from [V4Env]: the clock, whether the timer of a wait has run
    out, the answer of the network, what arrives in a mailbox, whether a mailbox is closed, the
    faults of the file system, the time a kernel takes, the order in which a hash map is
    traversed, the next random identity, the records of other nodes, and which nodes are connected
    and which answer when they are dialed or pinged. *)

From Stdlib Require Import String ZArith NArith Lia.
From stdpp Require Import base tactics sets strings numbers list gmap.
From S2P Require Import Prelude OrdMap Types Validation FileSystem Storage Aggregation Compute Float32 Planner Runtime Trust Security Network NodeConfig Tasks.
Local Open Scope N_scope.
Local Open Scope rust_scope.

(** ** Bounds *)

Definition V4_MAX_STATE_BYTES : N := 64 * 1024.

Definition V4_MAX_AGGREGATION_REQUESTS : N := 1024.

Definition V4_MAX_PLAN_PROPOSALS : N := 128.

Definition V4_MAX_TENSOR_SHARDS : N := 256.

Definition V4_MAX_PIPELINE_STAGES : N := 256.

Definition V4_CHECKPOINT_HISTORY : nat := 2.

(** ** Local records *)

Record V4LocalDataShard := mkV4LocalDataShard {
  V4LocalDataShard_job_id : JobId;
  V4LocalDataShard_shard_id : N;
  V4LocalDataShard_plan_generation : N;
  V4LocalDataShard_ownership_generation : N;
  V4LocalDataShard_hash : ArtifactId;
  V4LocalDataShard_bytes : list N
}.

Record V4LocalTensorShard := mkV4LocalTensorShard {
  V4LocalTensorShard_job_id : JobId;
  V4LocalTensorShard_plan_generation : N;
  V4LocalTensorShard_model_generation : N;
  V4LocalTensorShard_shard_id : N;
  V4LocalTensorShard_rows : N;
  V4LocalTensorShard_cols : N;
  V4LocalTensorShard_row_offset : N;
  V4LocalTensorShard_weights : list Z;
  V4LocalTensorShard_state_hash : ArtifactId;
  V4LocalTensorShard_state_generation : N;
  V4LocalTensorShard_last_sequence : N
}.

Record V4LocalOptimizerState := mkV4LocalOptimizerState {
  V4LocalOptimizerState_job_id : JobId;
  V4LocalOptimizerState_plan_generation : N;
  V4LocalOptimizerState_model_generation : N;
  V4LocalOptimizerState_optimizer_generation : N;
  V4LocalOptimizerState_shard_id : N;
  V4LocalOptimizerState_values : list Z;
  V4LocalOptimizerState_state_hash : ArtifactId;
  V4LocalOptimizerState_state_generation : N;
  V4LocalOptimizerState_last_sequence : N
}.

Record V4LocalPipelineStage := mkV4LocalPipelineStage {
  V4LocalPipelineStage_job_id : JobId;
  V4LocalPipelineStage_plan_generation : N;
  V4LocalPipelineStage_stage_id : N;
  V4LocalPipelineStage_stage_count : N;
  V4LocalPipelineStage_coefficient : Z;
  V4LocalPipelineStage_bias : Z;
  V4LocalPipelineStage_state_hash : ArtifactId
}.

Record V4IntegratedBranchCommit := mkV4IntegratedBranchCommit {
  V4IntegratedBranchCommit_job_id : JobId;
  V4IntegratedBranchCommit_parent_branch : ArtifactId;
  V4IntegratedBranchCommit_branch : ArtifactId;
  V4IntegratedBranchCommit_parent_graph_generation : N;
  V4IntegratedBranchCommit_graph_generation : N;
  V4IntegratedBranchCommit_failed_member : NodeId;
  V4IntegratedBranchCommit_policy : V4ReconciliationPolicy;
  V4IntegratedBranchCommit_plan_hash : ArtifactId;
  V4IntegratedBranchCommit_commit_hash : ArtifactId
}.

(** One vote per job: the last one cast. *)
Record V4IntegratedElectionRecord := mkV4IntegratedElectionRecord {
  V4IntegratedElectionRecord_job_id : JobId;
  V4IntegratedElectionRecord_graph_generation : N;
  V4IntegratedElectionRecord_graph_hash : ArtifactId;
  V4IntegratedElectionRecord_term : N;
  V4IntegratedElectionRecord_candidate : NodeId;
  V4IntegratedElectionRecord_vote_hash : ArtifactId
}.

Inductive V4Inbound :=
  | V4Inbound_Message (peer : NodeId) (message : TrainingV4Message)
  | V4Inbound_PeerDisconnected (peer : NodeId).

Record V4CollectiveState := mkV4CollectiveState {
  V4CollectiveState_job_id : JobId;
  V4CollectiveState_plan_generation : N;
  V4CollectiveState_generation : N;
  V4CollectiveState_expected_contributors : N;
  V4CollectiveState_expected_groups : N;
  V4CollectiveState_group_id : N;
  V4CollectiveState_parent : option NodeId;
  V4CollectiveState_reply_to : NodeId;
  V4CollectiveState_value_len : N;
  V4CollectiveState_contributions : gmap NodeId (list Z);
  V4CollectiveState_groups : gmap N (list Z * N)
}.

Record V4ByzantineState := mkV4ByzantineState {
  V4ByzantineState_job_id : JobId;
  V4ByzantineState_plan_generation : N;
  V4ByzantineState_generation : N;
  V4ByzantineState_aggregator : NodeId;
  V4ByzantineState_expected_updates : N;
  V4ByzantineState_policy : V4ByzantinePolicy;
  V4ByzantineState_reply_to : NodeId;
  V4ByzantineState_value_len : N;
  V4ByzantineState_updates : gmap NodeId (N * list Z);
  V4ByzantineState_completed : option V4ByzantineResult
}.

Record V4CollectiveCompletion := mkV4CollectiveCompletion {
  V4CollectiveCompletion_request_id : JobId;
  V4CollectiveCompletion_job_id : JobId;
  V4CollectiveCompletion_plan_generation : N;
  V4CollectiveCompletion_generation : N;
  V4CollectiveCompletion_group_id : N;
  V4CollectiveCompletion_values : list Z;
  V4CollectiveCompletion_contributors : N;
  V4CollectiveCompletion_expected_groups : N;
  V4CollectiveCompletion_reply_to : NodeId
}.

#[export] Instance V4LocalTensorShard_eq_dec : EqDecision V4LocalTensorShard.
Proof. solve_decision. Defined.

#[export] Instance V4IntegratedElectionRecord_eq_dec : EqDecision V4IntegratedElectionRecord.
Proof. solve_decision. Defined.

Definition set_V4LocalDataShard_plan_generation (v : N) (self : V4LocalDataShard) : V4LocalDataShard :=
    mkV4LocalDataShard self.(V4LocalDataShard_job_id) self.(V4LocalDataShard_shard_id) v
    self.(V4LocalDataShard_ownership_generation) self.(V4LocalDataShard_hash)
    self.(V4LocalDataShard_bytes).

Definition set_V4LocalDataShard_ownership_generation (v : N) (self : V4LocalDataShard) : V4LocalDataShard :=
    mkV4LocalDataShard self.(V4LocalDataShard_job_id) self.(V4LocalDataShard_shard_id)
    self.(V4LocalDataShard_plan_generation) v self.(V4LocalDataShard_hash)
    self.(V4LocalDataShard_bytes).

Definition set_V4LocalTensorShard_plan_generation (v : N) (self : V4LocalTensorShard) : V4LocalTensorShard :=
    mkV4LocalTensorShard self.(V4LocalTensorShard_job_id) v
    self.(V4LocalTensorShard_model_generation) self.(V4LocalTensorShard_shard_id)
    self.(V4LocalTensorShard_rows) self.(V4LocalTensorShard_cols)
    self.(V4LocalTensorShard_row_offset) self.(V4LocalTensorShard_weights)
    self.(V4LocalTensorShard_state_hash) self.(V4LocalTensorShard_state_generation)
    self.(V4LocalTensorShard_last_sequence).

Definition set_V4LocalPipelineStage_plan_generation (v : N) (self : V4LocalPipelineStage) : V4LocalPipelineStage :=
    mkV4LocalPipelineStage self.(V4LocalPipelineStage_job_id) v
    self.(V4LocalPipelineStage_stage_id) self.(V4LocalPipelineStage_stage_count)
    self.(V4LocalPipelineStage_coefficient) self.(V4LocalPipelineStage_bias)
    self.(V4LocalPipelineStage_state_hash).

Definition set_V4IntegratedElectionRecord_vote_hash (v : ArtifactId) (self : V4IntegratedElectionRecord) : V4IntegratedElectionRecord :=
    mkV4IntegratedElectionRecord self.(V4IntegratedElectionRecord_job_id)
    self.(V4IntegratedElectionRecord_graph_generation)
    self.(V4IntegratedElectionRecord_graph_hash) self.(V4IntegratedElectionRecord_term)
    self.(V4IntegratedElectionRecord_candidate) v.

Definition set_V4IntegratedBranchCommit_commit_hash (v : ArtifactId) (self : V4IntegratedBranchCommit) : V4IntegratedBranchCommit :=
    mkV4IntegratedBranchCommit self.(V4IntegratedBranchCommit_job_id)
    self.(V4IntegratedBranchCommit_parent_branch) self.(V4IntegratedBranchCommit_branch)
    self.(V4IntegratedBranchCommit_parent_graph_generation)
    self.(V4IntegratedBranchCommit_graph_generation)
    self.(V4IntegratedBranchCommit_failed_member) self.(V4IntegratedBranchCommit_policy)
    self.(V4IntegratedBranchCommit_plan_hash) v.

Definition set_V4CollectiveState_expected_contributors (v : N) (self : V4CollectiveState) : V4CollectiveState :=
    mkV4CollectiveState self.(V4CollectiveState_job_id) self.(V4CollectiveState_plan_generation)
    self.(V4CollectiveState_generation) v self.(V4CollectiveState_expected_groups)
    self.(V4CollectiveState_group_id) self.(V4CollectiveState_parent)
    self.(V4CollectiveState_reply_to) self.(V4CollectiveState_value_len)
    self.(V4CollectiveState_contributions) self.(V4CollectiveState_groups).

Definition set_V4CollectiveState_group_id (v : N) (self : V4CollectiveState) : V4CollectiveState :=
    mkV4CollectiveState self.(V4CollectiveState_job_id) self.(V4CollectiveState_plan_generation)
    self.(V4CollectiveState_generation) self.(V4CollectiveState_expected_contributors)
    self.(V4CollectiveState_expected_groups) v self.(V4CollectiveState_parent)
    self.(V4CollectiveState_reply_to) self.(V4CollectiveState_value_len)
    self.(V4CollectiveState_contributions) self.(V4CollectiveState_groups).

Definition set_V4CollectiveState_parent (v : option NodeId) (self : V4CollectiveState) : V4CollectiveState :=
    mkV4CollectiveState self.(V4CollectiveState_job_id) self.(V4CollectiveState_plan_generation)
    self.(V4CollectiveState_generation) self.(V4CollectiveState_expected_contributors)
    self.(V4CollectiveState_expected_groups) self.(V4CollectiveState_group_id) v
    self.(V4CollectiveState_reply_to) self.(V4CollectiveState_value_len)
    self.(V4CollectiveState_contributions) self.(V4CollectiveState_groups).

Definition set_V4CollectiveState_contributions (v : gmap NodeId (list Z)) (self : V4CollectiveState) : V4CollectiveState :=
    mkV4CollectiveState self.(V4CollectiveState_job_id) self.(V4CollectiveState_plan_generation)
    self.(V4CollectiveState_generation) self.(V4CollectiveState_expected_contributors)
    self.(V4CollectiveState_expected_groups) self.(V4CollectiveState_group_id)
    self.(V4CollectiveState_parent) self.(V4CollectiveState_reply_to)
    self.(V4CollectiveState_value_len) v self.(V4CollectiveState_groups).

Definition set_V4CollectiveState_groups (v : gmap N (list Z * N)) (self : V4CollectiveState) : V4CollectiveState :=
    mkV4CollectiveState self.(V4CollectiveState_job_id) self.(V4CollectiveState_plan_generation)
    self.(V4CollectiveState_generation) self.(V4CollectiveState_expected_contributors)
    self.(V4CollectiveState_expected_groups) self.(V4CollectiveState_group_id)
    self.(V4CollectiveState_parent) self.(V4CollectiveState_reply_to)
    self.(V4CollectiveState_value_len) self.(V4CollectiveState_contributions) v.

Definition set_V4ByzantineState_updates (v : gmap NodeId (N * list Z)) (self : V4ByzantineState) : V4ByzantineState :=
    mkV4ByzantineState self.(V4ByzantineState_job_id) self.(V4ByzantineState_plan_generation)
    self.(V4ByzantineState_generation) self.(V4ByzantineState_aggregator)
    self.(V4ByzantineState_expected_updates) self.(V4ByzantineState_policy)
    self.(V4ByzantineState_reply_to) self.(V4ByzantineState_value_len) v
    self.(V4ByzantineState_completed).

Definition set_V4ByzantineState_completed (v : option V4ByzantineResult) (self : V4ByzantineState) : V4ByzantineState :=
    mkV4ByzantineState self.(V4ByzantineState_job_id) self.(V4ByzantineState_plan_generation)
    self.(V4ByzantineState_generation) self.(V4ByzantineState_aggregator)
    self.(V4ByzantineState_expected_updates) self.(V4ByzantineState_policy)
    self.(V4ByzantineState_reply_to) self.(V4ByzantineState_value_len)
    self.(V4ByzantineState_updates) v.

(** Assignments to fields of messages. *)

Definition with_training_state_hash (v : ArtifactId) (self : V4TrainingStateRecord) : V4TrainingStateRecord :=
    mkV4TrainingStateRecord self.(V4TrainingStateRecord_job_id)
    self.(V4TrainingStateRecord_coordinator) self.(V4TrainingStateRecord_plan_hash)
    self.(V4TrainingStateRecord_plan_generation) self.(V4TrainingStateRecord_training_epoch)
    self.(V4TrainingStateRecord_membership_epoch) self.(V4TrainingStateRecord_coordination_term)
    self.(V4TrainingStateRecord_optimizer_generation)
    self.(V4TrainingStateRecord_checkpoint_generation) self.(V4TrainingStateRecord_branch)
    self.(V4TrainingStateRecord_phase) self.(V4TrainingStateRecord_workers)
    self.(V4TrainingStateRecord_shards) self.(V4TrainingStateRecord_data_progress)
    self.(V4TrainingStateRecord_checkpoint) v.

Definition with_optimizer_shard_hash (v : ArtifactId) (self : V4OptimizerShardRecord) : V4OptimizerShardRecord :=
    mkV4OptimizerShardRecord self.(V4OptimizerShardRecord_job_id)
    self.(V4OptimizerShardRecord_plan_generation) self.(V4OptimizerShardRecord_model_generation)
    self.(V4OptimizerShardRecord_optimizer_generation) self.(V4OptimizerShardRecord_shard_id)
    self.(V4OptimizerShardRecord_owner) self.(V4OptimizerShardRecord_replicas)
    self.(V4OptimizerShardRecord_content_hash) self.(V4OptimizerShardRecord_state_bytes) v.

Definition with_manifest_hash (v : ArtifactId) (self : V4CheckpointRecord) : V4CheckpointRecord :=
    mkV4CheckpointRecord self.(V4CheckpointRecord_job_id)
    self.(V4CheckpointRecord_plan_generation) self.(V4CheckpointRecord_model_generation)
    self.(V4CheckpointRecord_optimizer_generation) self.(V4CheckpointRecord_membership_epoch)
    self.(V4CheckpointRecord_checkpoint_generation) self.(V4CheckpointRecord_branch)
    self.(V4CheckpointRecord_parent) self.(V4CheckpointRecord_shard_hashes)
    self.(V4CheckpointRecord_providers) self.(V4CheckpointRecord_complete) v.

Definition with_graph_hash (v : ArtifactId) (self : V4ExecutionGraph) : V4ExecutionGraph :=
    mkV4ExecutionGraph self.(V4ExecutionGraph_job_id) self.(V4ExecutionGraph_graph_generation)
    self.(V4ExecutionGraph_parent_graph_generation) self.(V4ExecutionGraph_proposer)
    self.(V4ExecutionGraph_coordinator) self.(V4ExecutionGraph_reply_to)
    self.(V4ExecutionGraph_plan_hash) self.(V4ExecutionGraph_branch)
    self.(V4ExecutionGraph_training_epoch) self.(V4ExecutionGraph_membership_epoch)
    self.(V4ExecutionGraph_coordination_term) self.(V4ExecutionGraph_optimizer_generation)
    self.(V4ExecutionGraph_checkpoint_generation) self.(V4ExecutionGraph_workers)
    self.(V4ExecutionGraph_retired_workers) self.(V4ExecutionGraph_tensor_groups)
    self.(V4ExecutionGraph_pipeline_stages) self.(V4ExecutionGraph_aggregation_groups)
    self.(V4ExecutionGraph_shards) self.(V4ExecutionGraph_optimizer_shards)
    self.(V4ExecutionGraph_collective_generation) self.(V4ExecutionGraph_local_steps)
    self.(V4ExecutionGraph_max_staleness) self.(V4ExecutionGraph_checkpoint_replication)
    self.(V4ExecutionGraph_strategy) self.(V4ExecutionGraph_election_certificate)
    self.(V4ExecutionGraph_backend_assignments) v.

Definition with_integrated_state_hash (v : ArtifactId) (self : V4IntegratedStateRecord) : V4IntegratedStateRecord :=
    mkV4IntegratedStateRecord self.(V4IntegratedStateRecord_job_id)
    self.(V4IntegratedStateRecord_graph_generation) self.(V4IntegratedStateRecord_plan_hash)
    self.(V4IntegratedStateRecord_branch) self.(V4IntegratedStateRecord_coordinator)
    self.(V4IntegratedStateRecord_phase) self.(V4IntegratedStateRecord_window)
    self.(V4IntegratedStateRecord_target_windows)
    self.(V4IntegratedStateRecord_initial_loss_micros)
    self.(V4IntegratedStateRecord_current_loss_micros)
    self.(V4IntegratedStateRecord_checkpoint_generation)
    self.(V4IntegratedStateRecord_model_generation)
    self.(V4IntegratedStateRecord_optimizer_generation)
    self.(V4IntegratedStateRecord_membership_epoch)
    self.(V4IntegratedStateRecord_collective_generation)
    self.(V4IntegratedStateRecord_recovery_count) v.

Definition with_optimizer_state_hash (v : ArtifactId) (self : V4OptimizerStateInstall) : V4OptimizerStateInstall :=
    mkV4OptimizerStateInstall self.(V4OptimizerStateInstall_job_id)
    self.(V4OptimizerStateInstall_plan_generation)
    self.(V4OptimizerStateInstall_model_generation)
    self.(V4OptimizerStateInstall_optimizer_generation) self.(V4OptimizerStateInstall_shard_id)
    self.(V4OptimizerStateInstall_values) v self.(V4OptimizerStateInstall_state_generation)
    self.(V4OptimizerStateInstall_sequence) self.(V4OptimizerStateInstall_last_sequence)
    self.(V4OptimizerStateInstall_source).

Definition with_backend_assignments (self : V4TrainingPlan) (requirements : list ComputeRequirements)
    (assignments : list BackendAssignment) : V4TrainingPlan :=
    mkV4TrainingPlan self.(V4TrainingPlan_job_id) self.(V4TrainingPlan_proposer)
    self.(V4TrainingPlan_plan_generation) self.(V4TrainingPlan_model_generation)
    self.(V4TrainingPlan_training_epoch) self.(V4TrainingPlan_membership_epoch)
    self.(V4TrainingPlan_coordination_term) self.(V4TrainingPlan_branch)
    self.(V4TrainingPlan_strategy) self.(V4TrainingPlan_support) self.(V4TrainingPlan_workers)
    self.(V4TrainingPlan_groups) self.(V4TrainingPlan_shards)
    self.(V4TrainingPlan_tensor_degree) self.(V4TrainingPlan_pipeline_stages)
    self.(V4TrainingPlan_local_steps) self.(V4TrainingPlan_max_staleness)
    self.(V4TrainingPlan_checkpoint_replication) self.(V4TrainingPlan_data_locality)
    self.(V4TrainingPlan_accelerator) self.(V4TrainingPlan_worker_capabilities)
    self.(V4TrainingPlan_rationale) self.(V4TrainingPlan_plan_hash)
    self.(V4TrainingPlan_parent_plan_hash) requirements assignments.

(** ** The state of a node *)

Record V4State := mkV4State {
  V4State_world : World;
  V4State_security : LocalSecurityState;
  V4State_compute : BackendRegistry AnyBackend;
  V4State_next_mailbox : N;
  V4State_jobs : gmap JobId N;
  V4State_data_shards : gmap (JobId * N) V4LocalDataShard;
  V4State_tensor_shards : gmap (JobId * N) V4LocalTensorShard;
  V4State_pipeline_stages : gmap (JobId * N) V4LocalPipelineStage;
  V4State_collectives : gmap JobId V4CollectiveState;
  V4State_byzantine : gmap JobId V4ByzantineState;
  V4State_training_states : gmap JobId V4TrainingStateRecord;
  V4State_integrated_states : gmap JobId V4IntegratedStateRecord;
  V4State_integrated_graphs : gmap JobId V4ExecutionGraph;
  V4State_integrated_elections : gmap JobId V4IntegratedElectionRecord;
  V4State_optimizer_states : gmap (JobId * N) V4LocalOptimizerState;
  V4State_optimizer_shards : gmap (JobId * N) V4OptimizerShardRecord;
  V4State_checkpoints : gmap (JobId * N) V4CheckpointRecord;
  V4State_plans : gmap JobId V4TrainingPlan;
  V4State_plan_proposals : gmap JobId V4TrainingPlan;
  V4State_challenge_windows : gmap NodeId (N * N)
}.

Definition set_V4State_world (v : World) (self : V4State) : V4State :=
    mkV4State v self.(V4State_security) self.(V4State_compute) self.(V4State_next_mailbox)
    self.(V4State_jobs) self.(V4State_data_shards) self.(V4State_tensor_shards)
    self.(V4State_pipeline_stages) self.(V4State_collectives) self.(V4State_byzantine)
    self.(V4State_training_states) self.(V4State_integrated_states)
    self.(V4State_integrated_graphs) self.(V4State_integrated_elections)
    self.(V4State_optimizer_states) self.(V4State_optimizer_shards) self.(V4State_checkpoints)
    self.(V4State_plans) self.(V4State_plan_proposals) self.(V4State_challenge_windows).

Definition set_V4State_security (v : LocalSecurityState) (self : V4State) : V4State :=
    mkV4State self.(V4State_world) v self.(V4State_compute) self.(V4State_next_mailbox)
    self.(V4State_jobs) self.(V4State_data_shards) self.(V4State_tensor_shards)
    self.(V4State_pipeline_stages) self.(V4State_collectives) self.(V4State_byzantine)
    self.(V4State_training_states) self.(V4State_integrated_states)
    self.(V4State_integrated_graphs) self.(V4State_integrated_elections)
    self.(V4State_optimizer_states) self.(V4State_optimizer_shards) self.(V4State_checkpoints)
    self.(V4State_plans) self.(V4State_plan_proposals) self.(V4State_challenge_windows).

Definition set_V4State_compute (v : BackendRegistry AnyBackend) (self : V4State) : V4State :=
    mkV4State self.(V4State_world) self.(V4State_security) v self.(V4State_next_mailbox)
    self.(V4State_jobs) self.(V4State_data_shards) self.(V4State_tensor_shards)
    self.(V4State_pipeline_stages) self.(V4State_collectives) self.(V4State_byzantine)
    self.(V4State_training_states) self.(V4State_integrated_states)
    self.(V4State_integrated_graphs) self.(V4State_integrated_elections)
    self.(V4State_optimizer_states) self.(V4State_optimizer_shards) self.(V4State_checkpoints)
    self.(V4State_plans) self.(V4State_plan_proposals) self.(V4State_challenge_windows).

Definition set_V4State_next_mailbox (v : N) (self : V4State) : V4State :=
    mkV4State self.(V4State_world) self.(V4State_security) self.(V4State_compute) v
    self.(V4State_jobs) self.(V4State_data_shards) self.(V4State_tensor_shards)
    self.(V4State_pipeline_stages) self.(V4State_collectives) self.(V4State_byzantine)
    self.(V4State_training_states) self.(V4State_integrated_states)
    self.(V4State_integrated_graphs) self.(V4State_integrated_elections)
    self.(V4State_optimizer_states) self.(V4State_optimizer_shards) self.(V4State_checkpoints)
    self.(V4State_plans) self.(V4State_plan_proposals) self.(V4State_challenge_windows).

Definition set_V4State_jobs (v : gmap JobId N) (self : V4State) : V4State :=
    mkV4State self.(V4State_world) self.(V4State_security) self.(V4State_compute)
    self.(V4State_next_mailbox) v self.(V4State_data_shards) self.(V4State_tensor_shards)
    self.(V4State_pipeline_stages) self.(V4State_collectives) self.(V4State_byzantine)
    self.(V4State_training_states) self.(V4State_integrated_states)
    self.(V4State_integrated_graphs) self.(V4State_integrated_elections)
    self.(V4State_optimizer_states) self.(V4State_optimizer_shards) self.(V4State_checkpoints)
    self.(V4State_plans) self.(V4State_plan_proposals) self.(V4State_challenge_windows).

Definition set_V4State_data_shards (v : gmap (JobId * N) V4LocalDataShard) (self : V4State) : V4State :=
    mkV4State self.(V4State_world) self.(V4State_security) self.(V4State_compute)
    self.(V4State_next_mailbox) self.(V4State_jobs) v self.(V4State_tensor_shards)
    self.(V4State_pipeline_stages) self.(V4State_collectives) self.(V4State_byzantine)
    self.(V4State_training_states) self.(V4State_integrated_states)
    self.(V4State_integrated_graphs) self.(V4State_integrated_elections)
    self.(V4State_optimizer_states) self.(V4State_optimizer_shards) self.(V4State_checkpoints)
    self.(V4State_plans) self.(V4State_plan_proposals) self.(V4State_challenge_windows).

Definition set_V4State_tensor_shards (v : gmap (JobId * N) V4LocalTensorShard) (self : V4State) : V4State :=
    mkV4State self.(V4State_world) self.(V4State_security) self.(V4State_compute)
    self.(V4State_next_mailbox) self.(V4State_jobs) self.(V4State_data_shards) v
    self.(V4State_pipeline_stages) self.(V4State_collectives) self.(V4State_byzantine)
    self.(V4State_training_states) self.(V4State_integrated_states)
    self.(V4State_integrated_graphs) self.(V4State_integrated_elections)
    self.(V4State_optimizer_states) self.(V4State_optimizer_shards) self.(V4State_checkpoints)
    self.(V4State_plans) self.(V4State_plan_proposals) self.(V4State_challenge_windows).

Definition set_V4State_pipeline_stages (v : gmap (JobId * N) V4LocalPipelineStage) (self : V4State) : V4State :=
    mkV4State self.(V4State_world) self.(V4State_security) self.(V4State_compute)
    self.(V4State_next_mailbox) self.(V4State_jobs) self.(V4State_data_shards)
    self.(V4State_tensor_shards) v self.(V4State_collectives) self.(V4State_byzantine)
    self.(V4State_training_states) self.(V4State_integrated_states)
    self.(V4State_integrated_graphs) self.(V4State_integrated_elections)
    self.(V4State_optimizer_states) self.(V4State_optimizer_shards) self.(V4State_checkpoints)
    self.(V4State_plans) self.(V4State_plan_proposals) self.(V4State_challenge_windows).

Definition set_V4State_collectives (v : gmap JobId V4CollectiveState) (self : V4State) : V4State :=
    mkV4State self.(V4State_world) self.(V4State_security) self.(V4State_compute)
    self.(V4State_next_mailbox) self.(V4State_jobs) self.(V4State_data_shards)
    self.(V4State_tensor_shards) self.(V4State_pipeline_stages) v self.(V4State_byzantine)
    self.(V4State_training_states) self.(V4State_integrated_states)
    self.(V4State_integrated_graphs) self.(V4State_integrated_elections)
    self.(V4State_optimizer_states) self.(V4State_optimizer_shards) self.(V4State_checkpoints)
    self.(V4State_plans) self.(V4State_plan_proposals) self.(V4State_challenge_windows).

Definition set_V4State_byzantine (v : gmap JobId V4ByzantineState) (self : V4State) : V4State :=
    mkV4State self.(V4State_world) self.(V4State_security) self.(V4State_compute)
    self.(V4State_next_mailbox) self.(V4State_jobs) self.(V4State_data_shards)
    self.(V4State_tensor_shards) self.(V4State_pipeline_stages) self.(V4State_collectives) v
    self.(V4State_training_states) self.(V4State_integrated_states)
    self.(V4State_integrated_graphs) self.(V4State_integrated_elections)
    self.(V4State_optimizer_states) self.(V4State_optimizer_shards) self.(V4State_checkpoints)
    self.(V4State_plans) self.(V4State_plan_proposals) self.(V4State_challenge_windows).

Definition set_V4State_training_states (v : gmap JobId V4TrainingStateRecord) (self : V4State) : V4State :=
    mkV4State self.(V4State_world) self.(V4State_security) self.(V4State_compute)
    self.(V4State_next_mailbox) self.(V4State_jobs) self.(V4State_data_shards)
    self.(V4State_tensor_shards) self.(V4State_pipeline_stages) self.(V4State_collectives)
    self.(V4State_byzantine) v self.(V4State_integrated_states) self.(V4State_integrated_graphs)
    self.(V4State_integrated_elections) self.(V4State_optimizer_states)
    self.(V4State_optimizer_shards) self.(V4State_checkpoints) self.(V4State_plans)
    self.(V4State_plan_proposals) self.(V4State_challenge_windows).

Definition set_V4State_integrated_states (v : gmap JobId V4IntegratedStateRecord) (self : V4State) : V4State :=
    mkV4State self.(V4State_world) self.(V4State_security) self.(V4State_compute)
    self.(V4State_next_mailbox) self.(V4State_jobs) self.(V4State_data_shards)
    self.(V4State_tensor_shards) self.(V4State_pipeline_stages) self.(V4State_collectives)
    self.(V4State_byzantine) self.(V4State_training_states) v self.(V4State_integrated_graphs)
    self.(V4State_integrated_elections) self.(V4State_optimizer_states)
    self.(V4State_optimizer_shards) self.(V4State_checkpoints) self.(V4State_plans)
    self.(V4State_plan_proposals) self.(V4State_challenge_windows).

Definition set_V4State_integrated_graphs (v : gmap JobId V4ExecutionGraph) (self : V4State) : V4State :=
    mkV4State self.(V4State_world) self.(V4State_security) self.(V4State_compute)
    self.(V4State_next_mailbox) self.(V4State_jobs) self.(V4State_data_shards)
    self.(V4State_tensor_shards) self.(V4State_pipeline_stages) self.(V4State_collectives)
    self.(V4State_byzantine) self.(V4State_training_states) self.(V4State_integrated_states) v
    self.(V4State_integrated_elections) self.(V4State_optimizer_states)
    self.(V4State_optimizer_shards) self.(V4State_checkpoints) self.(V4State_plans)
    self.(V4State_plan_proposals) self.(V4State_challenge_windows).

Definition set_V4State_integrated_elections (v : gmap JobId V4IntegratedElectionRecord) (self : V4State) : V4State :=
    mkV4State self.(V4State_world) self.(V4State_security) self.(V4State_compute)
    self.(V4State_next_mailbox) self.(V4State_jobs) self.(V4State_data_shards)
    self.(V4State_tensor_shards) self.(V4State_pipeline_stages) self.(V4State_collectives)
    self.(V4State_byzantine) self.(V4State_training_states) self.(V4State_integrated_states)
    self.(V4State_integrated_graphs) v self.(V4State_optimizer_states)
    self.(V4State_optimizer_shards) self.(V4State_checkpoints) self.(V4State_plans)
    self.(V4State_plan_proposals) self.(V4State_challenge_windows).

Definition set_V4State_optimizer_states (v : gmap (JobId * N) V4LocalOptimizerState) (self : V4State) : V4State :=
    mkV4State self.(V4State_world) self.(V4State_security) self.(V4State_compute)
    self.(V4State_next_mailbox) self.(V4State_jobs) self.(V4State_data_shards)
    self.(V4State_tensor_shards) self.(V4State_pipeline_stages) self.(V4State_collectives)
    self.(V4State_byzantine) self.(V4State_training_states) self.(V4State_integrated_states)
    self.(V4State_integrated_graphs) self.(V4State_integrated_elections) v
    self.(V4State_optimizer_shards) self.(V4State_checkpoints) self.(V4State_plans)
    self.(V4State_plan_proposals) self.(V4State_challenge_windows).

Definition set_V4State_optimizer_shards (v : gmap (JobId * N) V4OptimizerShardRecord) (self : V4State) : V4State :=
    mkV4State self.(V4State_world) self.(V4State_security) self.(V4State_compute)
    self.(V4State_next_mailbox) self.(V4State_jobs) self.(V4State_data_shards)
    self.(V4State_tensor_shards) self.(V4State_pipeline_stages) self.(V4State_collectives)
    self.(V4State_byzantine) self.(V4State_training_states) self.(V4State_integrated_states)
    self.(V4State_integrated_graphs) self.(V4State_integrated_elections)
    self.(V4State_optimizer_states) v self.(V4State_checkpoints) self.(V4State_plans)
    self.(V4State_plan_proposals) self.(V4State_challenge_windows).

Definition set_V4State_checkpoints (v : gmap (JobId * N) V4CheckpointRecord) (self : V4State) : V4State :=
    mkV4State self.(V4State_world) self.(V4State_security) self.(V4State_compute)
    self.(V4State_next_mailbox) self.(V4State_jobs) self.(V4State_data_shards)
    self.(V4State_tensor_shards) self.(V4State_pipeline_stages) self.(V4State_collectives)
    self.(V4State_byzantine) self.(V4State_training_states) self.(V4State_integrated_states)
    self.(V4State_integrated_graphs) self.(V4State_integrated_elections)
    self.(V4State_optimizer_states) self.(V4State_optimizer_shards) v self.(V4State_plans)
    self.(V4State_plan_proposals) self.(V4State_challenge_windows).

Definition set_V4State_plans (v : gmap JobId V4TrainingPlan) (self : V4State) : V4State :=
    mkV4State self.(V4State_world) self.(V4State_security) self.(V4State_compute)
    self.(V4State_next_mailbox) self.(V4State_jobs) self.(V4State_data_shards)
    self.(V4State_tensor_shards) self.(V4State_pipeline_stages) self.(V4State_collectives)
    self.(V4State_byzantine) self.(V4State_training_states) self.(V4State_integrated_states)
    self.(V4State_integrated_graphs) self.(V4State_integrated_elections)
    self.(V4State_optimizer_states) self.(V4State_optimizer_shards) self.(V4State_checkpoints) v
    self.(V4State_plan_proposals) self.(V4State_challenge_windows).

Definition set_V4State_plan_proposals (v : gmap JobId V4TrainingPlan) (self : V4State) : V4State :=
    mkV4State self.(V4State_world) self.(V4State_security) self.(V4State_compute)
    self.(V4State_next_mailbox) self.(V4State_jobs) self.(V4State_data_shards)
    self.(V4State_tensor_shards) self.(V4State_pipeline_stages) self.(V4State_collectives)
    self.(V4State_byzantine) self.(V4State_training_states) self.(V4State_integrated_states)
    self.(V4State_integrated_graphs) self.(V4State_integrated_elections)
    self.(V4State_optimizer_states) self.(V4State_optimizer_shards) self.(V4State_checkpoints)
    self.(V4State_plans) v self.(V4State_challenge_windows).

Definition set_V4State_challenge_windows (v : gmap NodeId (N * N)) (self : V4State) : V4State :=
    mkV4State self.(V4State_world) self.(V4State_security) self.(V4State_compute)
    self.(V4State_next_mailbox) self.(V4State_jobs) self.(V4State_data_shards)
    self.(V4State_tensor_shards) self.(V4State_pipeline_stages) self.(V4State_collectives)
    self.(V4State_byzantine) self.(V4State_training_states) self.(V4State_integrated_states)
    self.(V4State_integrated_graphs) self.(V4State_integrated_elections)
    self.(V4State_optimizer_states) self.(V4State_optimizer_shards) self.(V4State_checkpoints)
    self.(V4State_plans) self.(V4State_plan_proposals) v.

(** ** Surroundings *)

Record V4Env := mkV4Env {
  ve_now : N;
  ve_elapsed : bool;
  ve_send : option NetworkError;
  ve_faults : list Fault;
  ve_event : option (option V4Inbound);
  ve_closed : bool;
  ve_micros : N;
  ve_order : list nat;
  ve_random : JobId;
  ve_records : list PeerRecord;
  ve_connected : list NodeId;
  ve_answers : list NodeId
}.

(** What the operations do to the outside (a session that is closed and dialed again included), the
    votes a node casts ([Did_Vote]), its candidacies when they are saved ([Did_Stand]) and the tasks of
    an integrated job it starts. *)
Inductive V4Effect :=
  | Did_Transmit (peer : NodeId) (message : TrainingV4Message)
  | Did_Mail (mailbox : N) (inbound : V4Inbound)
  | Did_Transmit_V5 (peer : NodeId) (message : TrainingV5Message)
  | Did_Vote (record : V4IntegratedElectionRecord)
  | Did_Stand (record : V4IntegratedElectionRecord)
  | Did_Start_Driver (graph : V4ExecutionGraph) (plan : V4TrainingPlan)
      (state : V4IntegratedStateRecord) (windows checkpoint_every : N) (resumed : bool) (mailbox : N)
  | Did_Start_Participant (graph : V4ExecutionGraph) (windows checkpoint_every : N) (mailbox : N)
  | Did_Reconnect (peer : NodeId).

Notation vtask := (Task V4Env V4State V4Effect).
Notation v4 A := (vtask (result A NodeError)).

(** [return Err(NodeError::InvalidConfig(text.to_string()))] *)
Definition refuse {A} (text : str) : v4 A := Done (Err (invalid_config text)).

(** [value.ok_or_else(|| NodeError::InvalidConfig(..))?] *)
Definition expect {A} (text : str) (value : option A) : v4 A := Done (ok_or value (invalid_config text)).

(** A condition under which a handler returns an error. *)
Definition reject_if (condition : bool) (text : str) : v4 unit :=
  Done (fail_if condition (invalid_config text)).

(** [value.validate().map_err(|error| NodeError::InvalidConfig(error.to_string()))?] *)
Definition validated (r : result unit ValidationError) : v4 unit :=
  Done (map_err (fun error => invalid_config (ValidationError_to_string error)) r).

Definition SecurityError_to_string (error : SecurityError) : str :=
  (match error with
   | SecurityError_InvalidPolicy message => "invalid V6 security policy: " ++ message
   | SecurityError_InvalidRecord message => "security record is malformed: " ++ message
   | SecurityError_UnauthorizedTraining => "training contributor is not authorized for this group"
   | SecurityError_StaleTraining => "training contribution is stale"
   | SecurityError_DuplicateTraining => "training contribution is a duplicate"
   | SecurityError_TrainingEquivocation => "training contributor equivocated"
   | SecurityError_Quarantined => "peer is locally quarantined"
   | SecurityError_TrainingBounds => "training contribution exceeds the local safety bound"
   | SecurityError_InvalidEquivocationProof => "equivocation proof is invalid"
   end)%string.

Definition V4PlannerError_to_string (error : V4PlannerError) : str :=
  (match error with
   | V4PlannerError_InvalidModelSize => "V4 model size must be positive"
   | V4PlannerError_InvalidWorkerCount max => "V4 plan requires between two and " ++ decimal max ++ " workers"
   | V4PlannerError_InsufficientWorkers => "V4 plan requires at least two eligible workers"
   | V4PlannerError_InvalidTensorDegree => "V4 tensor degree is unsupported"
   | V4PlannerError_InvalidPipelineStages => "V4 pipeline stage count is unsupported"
   | V4PlannerError_UnsupportedStrategy =>
       "V4 strategy parameters are not supported by the reference runtime"
   | V4PlannerError_InvalidTopology => "V4 topology link is invalid or references an unknown worker"
   | V4PlannerError_InvalidLocalSteps => "V4 local steps must be positive"
   | V4PlannerError_InvalidReplication => "V4 checkpoint replication is invalid"
   | V4PlannerError_InvalidWorkerProfile => "V4 worker profile contains invalid reliability"
   | V4PlannerError_InvalidUpdates => "V4 update vectors must be non-empty, equal length, and bounded"
   | V4PlannerError_IncompatibleBranches => "V4 branch histories are not compatible"
   | V4PlannerError_UnsupportedBackendAssignment message => "unsupported backend assignment: " ++ message
   end)%string.

(** A list in the order in which a hash map happens to be traversed: the next element is the one
    at the next position of [order]. *)
Fixpoint shuffle {A} (order : list nat) (xs : list A) : list A :=
  match order with
  | [] => xs
  | i :: order =>
      match xs !! (i mod length xs)%nat with
      | Some x => x :: shuffle order (remove_at (i mod length xs)%nat xs)
      | None => xs
      end
  end.

Definition map_values {K V} `{Countable K} (m : gmap K V) : list V := (map_to_list m).*2.

(** ** Sections *)

Definition clock : vtask N := reading (fun e _ => e.(ve_now)).

(** [network.send_to(peer, Message::TrainingV4(message)).await] *)
Definition transmit (peer : NodeId) (message : TrainingV4Message) : v4 unit :=
  atomic (fun e s =>
    match e.(ve_send) with
    | None => (Ok tt, s, [Did_Transmit peer message])
    | Some error => (Err (NodeError_Network error), s, [])
    end).

(** [network.send_to(peer, Message::TrainingV5(message)).await] *)
Definition transmit_v5 (peer : NodeId) (message : TrainingV5Message) : v4 unit :=
  atomic (fun e s =>
    match e.(ve_send) with
    | None => (Ok tt, s, [Did_Transmit_V5 peer message])
    | Some error => (Err (NodeError_Network error), s, [])
    end).

Definition pause : vtask unit := Step (fun e s => if e.(ve_elapsed) then Some (tt, s, []) else None) Done.

Definition transmitted_in_time (peer : NodeId) (message : TrainingV4Message) : vtask bool :=
  let! r := timeout ve_elapsed (transmit peer message) in
  Done (match r with Some (Ok _) => true | _ => false end).

Definition send_control_message (peer : NodeId) (message : TrainingV4Message) : vtask bool :=
  let! first := transmitted_in_time peer message in
  if (first : bool) then Done true
  else pause ;! transmitted_in_time peer message.

Definition send_v4_control_message (peer : NodeId) (message : TrainingV4Message) : v4 unit :=
  let! sent := send_control_message peer message in
  if (sent : bool) then Done (Ok tt)
  else refuse ("V4 control response could not reach peer " ++ hex_encode (NodeId_0 peer))%string.

(** [sender.send(inbound).await] into a mailbox that may be closed. *)
Definition mail (mailbox : N) (inbound : V4Inbound) : vtask bool :=
  atomic (fun e s =>
    if e.(ve_closed) then (false, s, []) else (true, s, [Did_Mail mailbox inbound])).

Definition mailbox_of (job : JobId) : vtask (option N) := reading (fun _ s => s.(V4State_jobs) !! job).

(** Calls of the operating system, as one section.  When the process is killed in the middle,
    nothing follows. *)
Definition run_files {A} (e : V4Env) (p : Prog (result A NodeError)) (s : V4State)
    : option (result A NodeError * V4State) :=
  match run e.(ve_faults) p s.(V4State_world) with
  | (world, Some r) => Some (r, set_V4State_world world s)
  | (_, None) => None
  end.

Definition files_section {A} (p : Prog (result A NodeError)) : v4 A :=
  Step (fun e s =>
      match run_files e p s with
      | Some (r, s) => Some (r, s, [])
      | None => None
      end) Done.

(** A call of the local store. *)
Definition stored {A} (p : Prog (result A StorageError)) : Prog (result A NodeError) :=
  let* r := p in Ret (map_err NodeError_Storage r).

(** [fs::remove_file(path)] in the state directory, where a missing file is no error. *)
Definition remove_state_file (name : str) : Prog (result unit NodeError) :=
  match state_entry name with
  | DirEntry _ => Ret (Err (NodeError_Io IsADirectory))
  | FileEntry path =>
      let* r := call (OpRemove path) in
      Ret (match r with
           | Ok _ | Err NotFound => Ok tt
           | Err error => Err (NodeError_Io error)
           end)
  end.

Definition create_job (job : JobId) : vtask N :=
  atomic (fun _ s =>
    let mailbox := s.(V4State_next_mailbox) in
    (mailbox,
     set_V4State_next_mailbox (mailbox + 1)
       (set_V4State_jobs (<[job := mailbox]> s.(V4State_jobs)) s), [])).

Definition remove_job (job : JobId) : vtask unit :=
  updating (fun _ s => set_V4State_jobs (delete job s.(V4State_jobs)) s).

(** [timeout(V4_MESSAGE_TIMEOUT, receiver.recv()).await] *)
Definition receive_next : v4 (option V4Inbound) :=
  Step (fun e s =>
      match e.(ve_event) with
      | Some event => Some (Ok event, s, [])
      | None =>
          if e.(ve_elapsed) then Some (Err (invalid_config "V4 operation timed out"), s, [])
          else None
      end) Done.

(** Disconnections are skipped, as many as [fuel] says; a run of the model stops there. *)
Fixpoint receive_message (fuel : nat) : v4 (option (NodeId * TrainingV4Message)) :=
  match fuel with
  | O => forever
  | S fuel =>
      try! event := receive_next in
      match event with
      | Some (V4Inbound_Message peer message) => Done (Ok (Some (peer, message)))
      | Some (V4Inbound_PeerDisconnected _) => receive_message fuel
      | None => Done (Ok None)
      end
  end.

(** ** Hashes *)

(** serde_json at the records a node keeps and at what it hashes. *)
Class V4Json := {
  json_data_shard :: Json V4LocalDataShard;
  json_tensor_shard :: Json V4LocalTensorShard;
  json_optimizer_state :: Json V4LocalOptimizerState;
  json_pipeline_stage :: Json V4LocalPipelineStage;
  json_branch_commit :: Json V4IntegratedBranchCommit;
  json_election :: Json V4IntegratedElectionRecord;
  json_plan :: Json V4TrainingPlan;
  json_training_state :: Json V4TrainingStateRecord;
  json_optimizer_shard :: Json V4OptimizerShardRecord;
  json_checkpoint :: Json V4CheckpointRecord;
  json_graph :: Json V4ExecutionGraph;
  json_integrated_state :: Json V4IntegratedStateRecord;
  json_result :: Json V4IntegratedResult;
  json_tensor :: Json (N * N * N * list Z);
  json_optimizer :: Json (JobId * N * N * N * N * list Z * N * N);
  json_pipeline :: Json (Z * Z);
  json_branch :: Json (JobId * ArtifactId * N * NodeId * option NodeId);
  json_bytes :: Json (list N)
}.

(** [serde_json::to_vec(value).unwrap_or_default()] *)
Definition bytes_or_empty {T} `{Json T} (value : T) : list N :=
  match to_vec value with Ok bytes => bytes | Err _ => [] end.

Section Hashes.
Context `{Blake3} `{V4Json}.

Definition training_state_hash (state : V4TrainingStateRecord) : ArtifactId :=
  ArtifactId_from_bytes_hashed (bytes_or_empty (with_training_state_hash ArtifactId_default state)).

Definition optimizer_shard_hash (shard : V4OptimizerShardRecord) : ArtifactId :=
  ArtifactId_from_bytes_hashed (bytes_or_empty (with_optimizer_shard_hash ArtifactId_default shard)).

Definition optimizer_state_hash (state : V4OptimizerStateInstall) : ArtifactId :=
  ArtifactId_from_bytes_hashed (bytes_or_empty
    (state.(V4OptimizerStateInstall_job_id), state.(V4OptimizerStateInstall_plan_generation),
     state.(V4OptimizerStateInstall_model_generation),
     state.(V4OptimizerStateInstall_optimizer_generation), state.(V4OptimizerStateInstall_shard_id),
     state.(V4OptimizerStateInstall_values), state.(V4OptimizerStateInstall_state_generation),
     state.(V4OptimizerStateInstall_last_sequence))).

Definition checkpoint_hash (checkpoint : V4CheckpointRecord) : ArtifactId :=
  ArtifactId_from_bytes_hashed (bytes_or_empty (with_manifest_hash ArtifactId_default checkpoint)).

Definition execution_graph_hash (graph : V4ExecutionGraph) : ArtifactId :=
  ArtifactId_from_bytes_hashed (bytes_or_empty (with_graph_hash ArtifactId_default graph)).

Definition integrated_state_hash (state : V4IntegratedStateRecord) : ArtifactId :=
  ArtifactId_from_bytes_hashed (bytes_or_empty (with_integrated_state_hash ArtifactId_default state)).

Definition integrated_election_hash (election : V4IntegratedElectionRecord) : ArtifactId :=
  ArtifactId_from_bytes_hashed
    (bytes_or_empty (set_V4IntegratedElectionRecord_vote_hash ArtifactId_default election)).

Definition tensor_hash (weights : list Z) (rows cols row_offset : N) : ArtifactId :=
  ArtifactId_from_bytes_hashed (bytes_or_empty (rows, cols, row_offset, weights)).

Definition pipeline_hash (coefficient bias : Z) : ArtifactId :=
  ArtifactId_from_bytes_hashed (bytes_or_empty (coefficient, bias)).

Definition next_integrated_branch (old_graph : V4ExecutionGraph) (proposer : NodeId)
    (failed : option NodeId) : ArtifactId :=
  ArtifactId_from_bytes_hashed (bytes_or_empty
    (old_graph.(V4ExecutionGraph_job_id), old_graph.(V4ExecutionGraph_branch),
     old_graph.(V4ExecutionGraph_graph_generation), proposer, failed)).

(** ** Local checks *)

Definition valid_local_tensor_shard (shard : V4LocalTensorShard) : bool :=
  (0 <? shard.(V4LocalTensorShard_plan_generation))
  && (0 <? shard.(V4LocalTensorShard_model_generation))
  && (0 <? shard.(V4LocalTensorShard_rows))
  && (0 <? shard.(V4LocalTensorShard_cols))
  && (shard.(V4LocalTensorShard_rows) * shard.(V4LocalTensorShard_cols)
      =? len shard.(V4LocalTensorShard_weights))
  && (len shard.(V4LocalTensorShard_weights) <=? MAX_V4_VECTOR * MAX_V4_VECTOR)
  && (shard.(V4LocalTensorShard_row_offset) + shard.(V4LocalTensorShard_rows) <=? MAX_V4_VECTOR)
  && forallb (fun weight => unsigned_abs weight <=? 1000000000) shard.(V4LocalTensorShard_weights)
  && (tensor_hash shard.(V4LocalTensorShard_weights) shard.(V4LocalTensorShard_rows)
        shard.(V4LocalTensorShard_cols) shard.(V4LocalTensorShard_row_offset)
      == shard.(V4LocalTensorShard_state_hash)).

(** The message whose hash a local optimizer state carries. *)
Definition install_of_state (state : V4LocalOptimizerState) : V4OptimizerStateInstall :=
  mkV4OptimizerStateInstall state.(V4LocalOptimizerState_job_id)
    state.(V4LocalOptimizerState_plan_generation) state.(V4LocalOptimizerState_model_generation)
    state.(V4LocalOptimizerState_optimizer_generation) state.(V4LocalOptimizerState_shard_id)
    state.(V4LocalOptimizerState_values) ArtifactId_default
    state.(V4LocalOptimizerState_state_generation) 1 state.(V4LocalOptimizerState_last_sequence)
    NodeId_default.

Definition valid_local_optimizer_state (state : V4LocalOptimizerState) : bool :=
  if (state.(V4LocalOptimizerState_plan_generation) =? 0)
     || (state.(V4LocalOptimizerState_model_generation) =? 0)
     || (state.(V4LocalOptimizerState_optimizer_generation) =? 0)
     || (state.(V4LocalOptimizerState_state_generation) =? 0)
     || is_empty state.(V4LocalOptimizerState_values)
     || (MAX_V4_VECTOR <? len state.(V4LocalOptimizerState_values))
     || existsb (fun value => 1000000000 <? unsigned_abs value) state.(V4LocalOptimizerState_values)
  then false
  else optimizer_state_hash (install_of_state state) == state.(V4LocalOptimizerState_state_hash).

(** The check of a pipeline stage that is read from disk. *)
Definition valid_local_pipeline_stage (stage : V4LocalPipelineStage) : bool :=
  (2 <=? stage.(V4LocalPipelineStage_stage_count))
  && (stage.(V4LocalPipelineStage_stage_count) <=? 16)
  && (stage.(V4LocalPipelineStage_stage_id) <? stage.(V4LocalPipelineStage_stage_count))
  && (unsigned_abs stage.(V4LocalPipelineStage_coefficient) <=? 1000000000)
  && (pipeline_hash stage.(V4LocalPipelineStage_coefficient) stage.(V4LocalPipelineStage_bias)
      == stage.(V4LocalPipelineStage_state_hash)).

(** The check of a data shard that is read from disk. *)
Definition valid_local_data_shard (shard : V4LocalDataShard) : bool :=
  (len shard.(V4LocalDataShard_bytes) <=? V4_MAX_STATE_BYTES)
  && (ArtifactId_from_bytes_hashed shard.(V4LocalDataShard_bytes) == shard.(V4LocalDataShard_hash)).

(** A majority of the parent's workers, the candidate among them, and the next generation. *)
Definition valid_integrated_election_certificate (parent candidate : V4ExecutionGraph) : bool :=
  let voters := candidate.(V4ExecutionGraph_election_certificate) in
  (candidate.(V4ExecutionGraph_parent_graph_generation)
   == Some parent.(V4ExecutionGraph_graph_generation))
  && (candidate.(V4ExecutionGraph_graph_generation)
      =? sat_add u64_max parent.(V4ExecutionGraph_graph_generation) 1)
  && (parent.(V4ExecutionGraph_coordination_term) <? candidate.(V4ExecutionGraph_coordination_term))
  && negb (has_duplicates voters)
  && (len parent.(V4ExecutionGraph_workers) / 2 <? len voters)
  && contains candidate.(V4ExecutionGraph_coordinator) voters
  && forallb (fun voter => contains voter parent.(V4ExecutionGraph_workers)) voters.

Definition integrated_state (graph : V4ExecutionGraph) (phase : V4IntegratedPhase)
    (window target_windows : N) (initial_loss_micros current_loss_micros : Z) (recovery_count : N)
    : option V4IntegratedStateRecord :=
  shard ← head graph.(V4ExecutionGraph_shards);
  let state := mkV4IntegratedStateRecord graph.(V4ExecutionGraph_job_id)
    graph.(V4ExecutionGraph_graph_generation) graph.(V4ExecutionGraph_plan_hash)
    graph.(V4ExecutionGraph_branch) graph.(V4ExecutionGraph_coordinator) phase window
    target_windows initial_loss_micros current_loss_micros
    graph.(V4ExecutionGraph_checkpoint_generation) shard.(V4ShardOwnership_model_generation)
    graph.(V4ExecutionGraph_optimizer_generation) graph.(V4ExecutionGraph_membership_epoch)
    graph.(V4ExecutionGraph_collective_generation) recovery_count ArtifactId_default in
  Some (with_integrated_state_hash (integrated_state_hash state) state).
End Hashes.

(** ** File names *)

Definition job_file (kind : str) (job : JobId) : str :=
  ("v4-" ++ kind ++ "-" ++ hex_encode (JobId_0 job) ++ ".json")%string.

Definition numbered_file (kind : str) (job : JobId) (number : N) : str :=
  ("v4-" ++ kind ++ "-" ++ hex_encode (JobId_0 job) ++ "-" ++ decimal number ++ ".json")%string.

Definition training_state_file (job_id : JobId) : str := job_file "training-state" job_id.

Definition plan_file (job_id : JobId) : str := job_file "plan" job_id.

Definition plan_proposal_file (job_id : JobId) : str := job_file "plan-proposal" job_id.

Definition optimizer_shard_file (job_id : JobId) (shard_id : N) : str :=
  numbered_file "optimizer-shard" job_id shard_id.

Definition optimizer_state_file (job_id : JobId) (shard_id : N) : str :=
  numbered_file "optimizer-state" job_id shard_id.

Definition checkpoint_file (job_id : JobId) (generation : N) : str :=
  numbered_file "checkpoint" job_id generation.

Definition execution_graph_file (job_id : JobId) : str := job_file "integrated-graph" job_id.

Definition integrated_state_file (job_id : JobId) : str := job_file "integrated-state" job_id.

Definition integrated_election_file (job_id : JobId) : str := job_file "integrated-election" job_id.

Definition integrated_result_file (job_id : JobId) : str := job_file "integrated-result" job_id.

Definition integrated_branch_file (job_id : JobId) (graph_generation : N) : str :=
  numbered_file "integrated-branch" job_id graph_generation.

Definition data_shard_file (job_id : JobId) (shard_id : N) : str := numbered_file "data-shard" job_id shard_id.

Definition tensor_shard_file (job_id : JobId) (shard_id : N) : str :=
  numbered_file "tensor-shard" job_id shard_id.

Definition pipeline_stage_file (job_id : JobId) (stage_id : N) : str :=
  numbered_file "pipeline-stage" job_id stage_id.

(** ** Arguments of an operator *)

Definition parse_strategy (value : str) : result V4ParallelismStrategy NodeError :=
  if value == "local_sgd"%string then Ok V4ParallelismStrategy_LocalSgd
  else if (value == "tensor"%string) || (value == "tensor_parallel"%string)
  then Ok V4ParallelismStrategy_TensorParallel
  else if (value == "pipeline"%string) || (value == "pipeline_parallel"%string)
  then Ok V4ParallelismStrategy_PipelineParallel
  else if value == "hybrid"%string then Ok V4ParallelismStrategy_Hybrid
  else Err (invalid_config
    "V4 strategy must be local_sgd, tensor_parallel, pipeline_parallel, or hybrid").

Definition parse_policy (value : str) : result V4ReconciliationPolicy NodeError :=
  if value == "abort"%string then Ok V4ReconciliationPolicy_AbortBranch
  else if value == "select"%string then Ok V4ReconciliationPolicy_SelectBranch
  else if value == "average"%string then Ok V4ReconciliationPolicy_AverageCompatibleState
  else if value == "local_sgd"%string then Ok V4ReconciliationPolicy_MergeLocalSgdState
  else if value == "manual"%string then Ok V4ReconciliationPolicy_ManualOperatorRequired
  else Err (invalid_config
    "V4 reconciliation policy must be abort, select, average, local_sgd, or manual").

Definition parse_byzantine_policy (value : str) : result V4ByzantinePolicy NodeError :=
  if value == "mean"%string then Ok V4ByzantinePolicy_Mean
  else if value == "clipped_mean"%string then Ok V4ByzantinePolicy_ClippedMean
  else if value == "trimmed_mean"%string then Ok V4ByzantinePolicy_TrimmedMean
  else if (value == "median"%string) || (value == "coordinate_median"%string)
  then Ok V4ByzantinePolicy_CoordinateMedian
  else Err (invalid_config
    "V4 Byzantine policy must be mean, clipped_mean, trimmed_mean, or median").

Definition message_job_id (message : TrainingV4Message) : JobId :=
  match message with
  | TrainingV4Message_Plan value => value.(V4TrainingPlan_job_id)
  | TrainingV4Message_StateRecord value => value.(V4TrainingStateRecord_job_id)
  | TrainingV4Message_OptimizerShard value => value.(V4OptimizerShardRecord_job_id)
  | TrainingV4Message_CheckpointRecord value => value.(V4CheckpointRecord_job_id)
  | TrainingV4Message_StateAck value => value.(V4StateAck_job_id)
  | TrainingV4Message_ShardMigration value => value.(V4ShardMigration_job_id)
  | TrainingV4Message_ShardMigrationAck value => value.(V4ShardMigrationAck_job_id)
  | TrainingV4Message_TensorInstall value => value.(V4TensorInstall_job_id)
  | TrainingV4Message_TensorInstallAck value => value.(V4TensorInstallAck_job_id)
  | TrainingV4Message_TensorForward value => value.(V4TensorForward_job_id)
  | TrainingV4Message_TensorForwardResult value => value.(V4TensorForwardResult_job_id)
  | TrainingV4Message_TensorBackward value => value.(V4TensorBackward_job_id)
  | TrainingV4Message_TensorBackwardResult value => value.(V4TensorBackwardResult_job_id)
  | TrainingV4Message_PipelineInstall value => value.(V4PipelineInstall_job_id)
  | TrainingV4Message_PipelineInstallAck value => value.(V4PipelineInstallAck_job_id)
  | TrainingV4Message_PipelineForward value => value.(V4PipelineForward_job_id)
  | TrainingV4Message_PipelineForwardResult value => value.(V4PipelineForwardResult_job_id)
  | TrainingV4Message_PipelineBackward value => value.(V4PipelineBackward_job_id)
  | TrainingV4Message_PipelineBackwardResult value => value.(V4PipelineBackwardResult_job_id)
  | TrainingV4Message_CollectiveContribute value => value.(V4CollectiveContribute_job_id)
  | TrainingV4Message_CollectiveAggregate value => value.(V4CollectiveAggregate_job_id)
  | TrainingV4Message_CollectiveResult value => value.(V4CollectiveResult_job_id)
  | TrainingV4Message_Branch value => value.(V4TrainingBranch_job_id)
  | TrainingV4Message_Reconcile value => value.(V4ReconcileRequest_job_id)
  | TrainingV4Message_ReconcileResult value => value.(V4ReconcileResult_job_id)
  | TrainingV4Message_ByzantineUpdate value => value.(V4ByzantineUpdate_job_id)
  | TrainingV4Message_ByzantineResult value => value.(V4ByzantineResult_job_id)
  | TrainingV4Message_PlanAck value => value.(V4PlanAck_job_id)
  | TrainingV4Message_PlanProposal value => value.(V4TrainingPlan_job_id)
  | TrainingV4Message_PlanProposalAck value => value.(V4PlanProposalAck_job_id)
  | TrainingV4Message_ShardMigrationRequest value => value.(V4ShardMigrationRequest_job_id)
  | TrainingV4Message_ShardMigrationResult value => value.(V4ShardMigrationResult_job_id)
  | TrainingV4Message_IntegratedStart value => value.(V4IntegratedStart_graph).(V4ExecutionGraph_job_id)
  | TrainingV4Message_IntegratedAck value => value.(V4IntegratedAck_job_id)
  | TrainingV4Message_IntegratedState value => value.(V4IntegratedStateRecord_job_id)
  | TrainingV4Message_IntegratedStateAck value => value.(V4IntegratedStateAck_job_id)
  | TrainingV4Message_IntegratedElectionRequest value => value.(V4IntegratedElectionRequest_job_id)
  | TrainingV4Message_IntegratedElectionVote value => value.(V4IntegratedElectionVote_job_id)
  | TrainingV4Message_IntegratedResult value => value.(V4IntegratedResult_job_id)
  | TrainingV4Message_TensorReplica value => value.(V4TensorReplica_job_id)
  | TrainingV4Message_TensorReplicaAck value => value.(V4TensorReplicaAck_job_id)
  | TrainingV4Message_OptimizerStateInstall value => value.(V4OptimizerStateInstall_job_id)
  | TrainingV4Message_OptimizerStateAck value => value.(V4OptimizerStateAck_job_id)
  | TrainingV4Message_IntegratedProbe value => value.(V4IntegratedProbe_job_id)
  | TrainingV4Message_IntegratedProbeAck value => value.(V4IntegratedProbeAck_job_id)
  end.
