(* ===== verification/V4Control.v ===== *)
(** * Frontier training: plans, records, shards and elections (crates/node/src/frontier_training.rs)

    What a node does with the control messages of a planned job: it takes over plans and proposals,
    replicated records and checkpoints, hands data shards over, follows the execution graphs and
    states of an integrated job, answers probes and votes for a new coordinator; and what it reads
    back and resumes when it starts.  Each message is handled by a task of its own.

    The driver and the participant loop of an integrated job are tasks of their own: they are started
    by an effect ([Did_Start_Driver], [Did_Start_Participant]) and modelled in [V4Driver].  Waits for
    a mailbox take [fuel], as many messages as a run looks at. *)

From Stdlib Require Import String ZArith NArith Lia.
From stdpp Require Import base tactics sets strings numbers list gmap.
From S2P Require Import Prelude OrdMap Types Validation FileSystem Storage Aggregation Compute Float32 Planner Runtime Trust Security Network NodeConfig Tasks V4Model.
Local Open Scope N_scope.
Local Open Scope rust_scope.

(** ** Names of files *)

Fixpoint strip_prefix (prefix s : str) : option str :=
  match prefix, s with
  | EmptyString, _ => Some s
  | String c prefix, String d s => if Ascii.eqb c d then strip_prefix prefix s else None
  | _, EmptyString => None
  end.

Definition strip_suffix (suffix s : str) : option str :=
  let keep := (String.length s - String.length suffix)%nat in
  if (String.length suffix <=? String.length s)%nat
     && (String.substring keep (String.length suffix) s == suffix)
  then Some (String.substring 0 keep s) else None.

(** [name.strip_prefix(prefix).and_then(|value| value.strip_suffix(".json"))] *)
Definition between (prefix name : str) : option str := strip_prefix prefix name ≫= strip_suffix ".json".

Definition is_named (prefix name : str) : bool := bool_decide (is_Some (between prefix name)).

(** The names [fs::read_dir] lists in the state directory. *)
Definition state_names (entries : list Entry) : list str :=
  omap (fun entry => match entry with
                     | FileEntry (StatePath name) => Some name
                     | DirEntry TransfersDir => Some "transfers"%string
                     | _ => None
                     end) entries.

Definition read_state_dir : Prog (result (list str) NodeError) :=
  let* entries := call (OpReadDir StateDir) in
  Ret (match entries with
       | Ok entries => Ok (state_names entries)
       | Err error => Err (NodeError_Io error)
       end).

(** ** Plans *)

Definition is_tensor_plan (plan : V4TrainingPlan) : bool :=
  match plan.(V4TrainingPlan_strategy) with
  | V4ParallelismStrategy_TensorParallel | V4ParallelismStrategy_Hybrid => true
  | _ => false
  end.

Definition is_pipeline_plan (plan : V4TrainingPlan) : bool :=
  match plan.(V4TrainingPlan_strategy) with
  | V4ParallelismStrategy_PipelineParallel | V4ParallelismStrategy_Hybrid => true
  | _ => false
  end.

Definition is_collective_plan (plan : V4TrainingPlan) : bool :=
  match plan.(V4TrainingPlan_strategy) with
  | V4ParallelismStrategy_LocalSgd | V4ParallelismStrategy_Hybrid => true
  | _ => false
  end.

Definition find_shard (shard_id : N) (shards : list V4ShardOwnership) : option V4ShardOwnership :=
  List.find (fun shard => shard.(V4ShardOwnership_shard_id) =? shard_id) shards.

Definition find_stage (stage_id : N) (stages : list V4PipelineStageAssignment)
    : option V4PipelineStageAssignment :=
  List.find (fun stage => stage.(V4PipelineStageAssignment_stage_id) =? stage_id) stages.

Definition find_placement (shard_id : N) (placements : list V4OptimizerPlacement)
    : option V4OptimizerPlacement :=
  List.find (fun placement => placement.(V4OptimizerPlacement_shard_id) =? shard_id) placements.

(** The predicate of a value that may be missing ([is_some_and], [is_none_or]). *)
Definition is_some_and {A} (o : option A) (p : A -> bool) : bool :=
  match o with Some a => p a | None => false end.

Definition is_none_or {A} (o : option A) (p : A -> bool) : bool :=
  match o with Some a => p a | None => true end.

Section Control.
Context `{Blake3} `{PlanPostcard} `{V4Json}.
Context (security_to_allocvec : LocalSecurityState -> result (list N) str).
Context (local : NodeId) (store : LocalStore) (fuel : nat).

Definition write_state {T} `{Json T} (name : str) (value : T) : v4 unit :=
  files_section (stored (write_json store name value)).

Definition persist_security_state : vtask unit :=
  let! state := reading (fun _ s => s.(V4State_security)) in
  match security_to_allocvec state with
  | Err _ => Done tt
  | Ok encoded => ignore (write_state "v6-security.json" encoded)
  end.

(** [security.lock().await.observe_authenticated_claim(.., now_secs())] *)
Definition observe_claim (signer : NodeId) (object : str) (job_id : JobId) (branch : option ArtifactId)
    (generation sequence : N) (digest : ArtifactId) : vtask (result bool SecurityError) :=
  atomic (fun e s =>
    let '(r, security) := observe_authenticated_claim s.(V4State_security) signer object (Some job_id)
                            branch generation sequence digest e.(ve_now) in
    (r, set_V4State_security security s, [])).

(** The claim is observed and the security state saved; a conflict refuses the message. *)
Definition claimed (signer : NodeId) (object : str) (job_id : JobId) (branch : option ArtifactId)
    (generation sequence : N) (digest : ArtifactId) : v4 unit :=
  let! r := observe_claim signer object job_id branch generation sequence digest in
  match r with
  | Err error => refuse (SecurityError_to_string error)
  | Ok _ => persist_security_state ;! Done (Ok tt)
  end.

Definition active_plan (job_id : JobId) : vtask (option V4TrainingPlan) :=
  reading (fun _ s => s.(V4State_plans) !! job_id).

Definition active_graph (job_id : JobId) : vtask (option V4ExecutionGraph) :=
  reading (fun _ s => s.(V4State_integrated_graphs) !! job_id).

(** ** What goes to disk *)

Definition persist_data_shard (shard : V4LocalDataShard) : v4 unit :=
  write_state (data_shard_file shard.(V4LocalDataShard_job_id) shard.(V4LocalDataShard_shard_id)) shard.

Definition persist_plan (plan : V4TrainingPlan) : v4 unit :=
  write_state (plan_file plan.(V4TrainingPlan_job_id)) plan.

Definition persist_plan_proposal (plan : V4TrainingPlan) : Prog (result unit NodeError) :=
  stored (write_json store (plan_proposal_file plan.(V4TrainingPlan_job_id)) plan).

Definition remove_plan_proposal (job_id : JobId) : v4 unit :=
  files_section (remove_state_file (plan_proposal_file job_id)).

Definition persist_training_state (state : V4TrainingStateRecord) : v4 unit :=
  write_state (training_state_file state.(V4TrainingStateRecord_job_id)) state.

Definition persist_optimizer_shard (shard : V4OptimizerShardRecord) : v4 unit :=
  write_state (optimizer_shard_file shard.(V4OptimizerShardRecord_job_id)
                 shard.(V4OptimizerShardRecord_shard_id)) shard.

Definition persist_optimizer_state (state : V4LocalOptimizerState) : v4 unit :=
  write_state (optimizer_state_file state.(V4LocalOptimizerState_job_id)
                 state.(V4LocalOptimizerState_shard_id)) state.

Definition persist_tensor_shard (shard : V4LocalTensorShard) : v4 unit :=
  write_state (tensor_shard_file shard.(V4LocalTensorShard_job_id) shard.(V4LocalTensorShard_shard_id))
    shard.

Definition persist_pipeline_stage (stage : V4LocalPipelineStage) : v4 unit :=
  write_state (pipeline_stage_file stage.(V4LocalPipelineStage_job_id)
                 stage.(V4LocalPipelineStage_stage_id)) stage.

Definition persist_execution_graph (graph : V4ExecutionGraph) : v4 unit :=
  write_state (execution_graph_file graph.(V4ExecutionGraph_job_id)) graph.

Definition persist_integrated_state (state : V4IntegratedStateRecord) : v4 unit :=
  write_state (integrated_state_file state.(V4IntegratedStateRecord_job_id)) state.

Definition persist_integrated_election (election : V4IntegratedElectionRecord)
    : Prog (result unit NodeError) :=
  stored (write_json store (integrated_election_file election.(V4IntegratedElectionRecord_job_id)) election).

Definition persist_integrated_result (result : V4IntegratedResult) : v4 unit :=
  write_state (integrated_result_file result.(V4IntegratedResult_job_id)) result.

Definition persist_integrated_branch_commit (old_graph graph : V4ExecutionGraph) (failed : NodeId)
    (policy : V4ReconciliationPolicy) : v4 unit :=
  let unsigned := mkV4IntegratedBranchCommit graph.(V4ExecutionGraph_job_id)
    old_graph.(V4ExecutionGraph_branch) graph.(V4ExecutionGraph_branch)
    old_graph.(V4ExecutionGraph_graph_generation) graph.(V4ExecutionGraph_graph_generation) failed
    policy graph.(V4ExecutionGraph_plan_hash) ArtifactId_default in
  let commit := set_V4IntegratedBranchCommit_commit_hash
    (ArtifactId_from_bytes_hashed (bytes_or_empty unsigned)) unsigned in
  write_state (integrated_branch_file commit.(V4IntegratedBranchCommit_job_id)
                 commit.(V4IntegratedBranchCommit_graph_generation)) commit.

(** The generations of a job's checkpoint manifests with the names of their files. *)
Definition checkpoint_files (job_id : JobId) (names : list str) : list (N * str) :=
  let prefix := ("v4-checkpoint-" ++ hex_encode (JobId_0 job_id) ++ "-")%string in
  omap (fun name =>
    number ← between prefix name;
    match parse_u64 number with Ok generation => Some (generation, name) | Err _ => None end) names.

Fixpoint remove_state_files (names : list str) : v4 unit :=
  match names with
  | [] => Done (Ok tt)
  | name :: names => files_section (remove_state_file name) ?! remove_state_files names
  end.

Definition prune_checkpoint_history (job_id : JobId) (retain : nat) : v4 unit :=
  try! names := files_section read_state_dir in
  let files := sort_by_key (fun file => mkReverse file.1) (checkpoint_files job_id names) in
  remove_state_files (drop retain files).*2.

Definition persist_checkpoint (checkpoint : V4CheckpointRecord) : v4 unit :=
  prune_checkpoint_history checkpoint.(V4CheckpointRecord_job_id) (V4_CHECKPOINT_HISTORY - 1) ?!
  write_state (checkpoint_file checkpoint.(V4CheckpointRecord_job_id)
                 checkpoint.(V4CheckpointRecord_checkpoint_generation)) checkpoint ?!
  prune_checkpoint_history checkpoint.(V4CheckpointRecord_job_id) V4_CHECKPOINT_HISTORY.

(** ** State that follows the active plan *)

(** The new version of a data shard that the plan places here. *)
Definition sync_data_shard (plan : V4TrainingPlan) (entry : (JobId * N) * V4LocalDataShard)
    : option ((JobId * N) * V4LocalDataShard) :=
  let '((job_id, shard_id), shard) := entry in
  if job_id != plan.(V4TrainingPlan_job_id) then None
  else
    ownership ← find_shard shard_id plan.(V4TrainingPlan_shards);
    if (contains local ownership.(V4ShardOwnership_owners)
        || contains local ownership.(V4ShardOwnership_replicas))
       && (ownership.(V4ShardOwnership_content_hash) == shard.(V4LocalDataShard_hash))
       && (shard.(V4LocalDataShard_ownership_generation)
           <=? ownership.(V4ShardOwnership_ownership_generation))
    then Some ((job_id, shard_id),
           set_V4LocalDataShard_ownership_generation ownership.(V4ShardOwnership_ownership_generation)
             (set_V4LocalDataShard_plan_generation plan.(V4TrainingPlan_plan_generation) shard))
    else None.

(** The entries that change, in the order in which the map is traversed, and the new map. *)
Definition sync_map {V} (sync : (JobId * N) * V -> option ((JobId * N) * V)) (order : list nat)
    (m : gmap (JobId * N) V) : list V * gmap (JobId * N) V :=
  let updates := omap sync (shuffle order (map_to_list m)) in
  (updates.*2, list_to_map updates ∪ m).

Definition sync_local_data_shards_to_plan (plan : V4TrainingPlan) : vtask unit :=
  let! updates := atomic (fun e s =>
    let '(updates, shards) := sync_map (sync_data_shard plan) e.(ve_order) s.(V4State_data_shards) in
    (updates, set_V4State_data_shards shards s, [])) in
  for_task (fun shard => ignore (persist_data_shard shard)) updates.

Definition sync_tensor_shard (plan : V4TrainingPlan) (entry : (JobId * N) * V4LocalTensorShard)
    : option ((JobId * N) * V4LocalTensorShard) :=
  let '((job_id, shard_id), shard) := entry in
  if job_id != plan.(V4TrainingPlan_job_id) then None
  else
    ownership ← find_shard shard_id plan.(V4TrainingPlan_shards);
    if (ownership.(V4ShardOwnership_model_generation) =? shard.(V4LocalTensorShard_model_generation))
       && (ownership.(V4ShardOwnership_content_hash) == shard.(V4LocalTensorShard_state_hash))
       && (contains local ownership.(V4ShardOwnership_owners)
           || contains local ownership.(V4ShardOwnership_replicas))
    then Some ((job_id, shard_id),
           set_V4LocalTensorShard_plan_generation plan.(V4TrainingPlan_plan_generation) shard)
    else None.

Definition sync_pipeline_stage (plan : V4TrainingPlan) (entry : (JobId * N) * V4LocalPipelineStage)
    : option ((JobId * N) * V4LocalPipelineStage) :=
  let '((job_id, stage_id), stage) := entry in
  if job_id != plan.(V4TrainingPlan_job_id) then None
  else if (plan.(V4TrainingPlan_pipeline_stages) =? stage.(V4LocalPipelineStage_stage_count))
          && contains local plan.(V4TrainingPlan_workers)
  then Some ((job_id, stage_id),
         set_V4LocalPipelineStage_plan_generation plan.(V4TrainingPlan_plan_generation) stage)
  else None.

Definition sync_local_execution_state_to_plan (plan : V4TrainingPlan) : vtask unit :=
  sync_local_data_shards_to_plan plan ;!
  (let! updates := atomic (fun e s =>
     let '(updates, shards) :=
       sync_map (sync_tensor_shard plan) e.(ve_order) s.(V4State_tensor_shards) in
     (updates, set_V4State_tensor_shards shards s, [])) in
   for_task (fun shard => ignore (persist_tensor_shard shard)) updates) ;!
  (let! updates := atomic (fun e s =>
     let '(updates, stages) :=
       sync_map (sync_pipeline_stage plan) e.(ve_order) s.(V4State_pipeline_stages) in
     (updates, set_V4State_pipeline_stages stages s, [])) in
   for_task (fun stage => ignore (persist_pipeline_stage stage)) updates).

(** ** An active plan arrives *)

Definition valid_plan (plan : V4TrainingPlan) : bool :=
  (plan.(V4TrainingPlan_plan_hash) == hash_plan plan) && is_ok (v4_plan plan).

Definition proposer_delivery (peer : NodeId) (plan : V4TrainingPlan) : bool :=
  (peer == plan.(V4TrainingPlan_proposer))
  && (contains local plan.(V4TrainingPlan_workers) || (plan.(V4TrainingPlan_proposer) == local)).

Definition worker_update (peer : NodeId) (plan : V4TrainingPlan) (current : option V4TrainingPlan) : bool :=
  is_some_and current (fun current =>
    contains peer current.(V4TrainingPlan_workers)
    && (plan.(V4TrainingPlan_parent_plan_hash) == Some current.(V4TrainingPlan_plan_hash))
    && (current.(V4TrainingPlan_plan_generation) <? plan.(V4TrainingPlan_plan_generation))
    && (contains local plan.(V4TrainingPlan_workers) || (current.(V4TrainingPlan_proposer) == local))).

Definition idempotent_delivery (peer : NodeId) (plan : V4TrainingPlan) (current : option V4TrainingPlan)
    : bool :=
  is_some_and current (fun current =>
    (current.(V4TrainingPlan_plan_generation) =? plan.(V4TrainingPlan_plan_generation))
    && (current.(V4TrainingPlan_plan_hash) == plan.(V4TrainingPlan_plan_hash))
    && ((peer == plan.(V4TrainingPlan_proposer)) || contains peer current.(V4TrainingPlan_workers))
    && (contains local plan.(V4TrainingPlan_workers) || (plan.(V4TrainingPlan_proposer) == local))).

(** The plan is not older than the active one, and not another one of its generation. *)
Definition plan_is_current (plan : V4TrainingPlan) (current : option V4TrainingPlan) : bool :=
  is_none_or current (fun current =>
    (current.(V4TrainingPlan_plan_generation) <? plan.(V4TrainingPlan_plan_generation))
    || ((plan.(V4TrainingPlan_plan_generation) =? current.(V4TrainingPlan_plan_generation))
        && (plan.(V4TrainingPlan_plan_hash) == current.(V4TrainingPlan_plan_hash)))).

Definition accepts_plan (peer : NodeId) (plan : V4TrainingPlan) (current : option V4TrainingPlan)
    (claim_conflict : bool) : bool :=
  negb claim_conflict && valid_plan plan
  && (proposer_delivery peer plan || worker_update peer plan current
      || idempotent_delivery peer plan current)
  && plan_is_current plan current.

Definition plan_reason (plan : V4TrainingPlan) (current : option V4TrainingPlan) (accepted : bool) : str :=
  let conflicts (current : V4TrainingPlan) :=
    (plan.(V4TrainingPlan_plan_generation) =? current.(V4TrainingPlan_plan_generation))
    && (plan.(V4TrainingPlan_plan_hash) != current.(V4TrainingPlan_plan_hash)) in
  (if accepted then "active plan persisted"
   else if negb (valid_plan plan) then "active plan hash or validation failed"
   else match current with
        | Some current =>
            if conflicts current
            then "same plan generation has a conflicting hash (local="
                 ++ hex_encode (ArtifactId_0 current.(V4TrainingPlan_plan_hash)) ++ ")"
            else "active plan generation/hash mismatch (local_generation="
                 ++ decimal current.(V4TrainingPlan_plan_generation) ++ ", local_hash="
                 ++ hex_encode (ArtifactId_0 current.(V4TrainingPlan_plan_hash)) ++ ")"
        | None => "active plan authorization, validation, or generation check failed"
        end)%string.

(** [v4_plans.insert], and the proposal that the plan ends. *)
Definition activate (plan : V4TrainingPlan) : vtask unit :=
  updating (fun _ s =>
    set_V4State_plans (<[plan.(V4TrainingPlan_job_id) := plan]> s.(V4State_plans)) s) ;!
  (let! removed := atomic (fun _ s =>
     (bool_decide (is_Some (s.(V4State_plan_proposals) !! plan.(V4TrainingPlan_job_id))),
      set_V4State_plan_proposals
        (delete plan.(V4TrainingPlan_job_id) s.(V4State_plan_proposals)) s, [])) in
   if (removed : bool) then ignore (remove_plan_proposal plan.(V4TrainingPlan_job_id)) else Done tt) ;!
  sync_local_execution_state_to_plan plan.

Context (NodeError_to_string : NodeError -> str).

Definition receive_plan (peer : NodeId) (plan : V4TrainingPlan) : vtask unit :=
  let! claim := observe_claim peer "v4.plan" plan.(V4TrainingPlan_job_id)
    (Some plan.(V4TrainingPlan_branch)) plan.(V4TrainingPlan_plan_generation)
    plan.(V4TrainingPlan_plan_generation) plan.(V4TrainingPlan_plan_hash) in
  let claim_conflict := is_err claim in
  (if claim_conflict then persist_security_state else Done tt) ;!
  let! current := active_plan plan.(V4TrainingPlan_job_id) in
  let accepted := accepts_plan peer plan current claim_conflict in
  let reason := plan_reason plan current accepted in
  let! outcome :=
    (if accepted then
       let! written := persist_plan plan in
       match written with
       | Err error =>
           Done (false, ("active plan persistence failed: " ++ NodeError_to_string error)%string)
       | Ok _ => activate plan ;! Done (true, reason)
       end
     else Done (false, reason)) in
  ignore (send_control_message peer (TrainingV4Message_PlanAck
    (mkV4PlanAck plan.(V4TrainingPlan_job_id) plan.(V4TrainingPlan_plan_generation)
       plan.(V4TrainingPlan_plan_hash) outcome.1 outcome.2))).

(** ** A proposal arrives *)

Definition accepts_proposal (peer : NodeId) (plan : V4TrainingPlan) (current : option V4TrainingPlan)
    : bool :=
  (peer == plan.(V4TrainingPlan_proposer))
  && (contains local plan.(V4TrainingPlan_workers)
      || is_some_and current (fun current => contains local current.(V4TrainingPlan_workers)))
  && bool_decide (is_Some plan.(V4TrainingPlan_parent_plan_hash))
  && (plan.(V4TrainingPlan_plan_hash) == hash_plan plan)
  && is_ok (v4_plan plan)
  && is_none_or current (fun current =>
       (plan.(V4TrainingPlan_parent_plan_hash) == Some current.(V4TrainingPlan_plan_hash))
       && (current.(V4TrainingPlan_plan_generation) <? plan.(V4TrainingPlan_plan_generation))).

Definition proposal_reason (peer : NodeId) (plan : V4TrainingPlan) (accepted : bool) : str :=
  if accepted then "proposal persisted for activation"%string
  else if peer != plan.(V4TrainingPlan_proposer)
  then "proposal sender is not the authenticated proposer"%string
  else if bool_decide (plan.(V4TrainingPlan_parent_plan_hash) = None)
  then "proposal has no parent plan hash"%string
  else if (plan.(V4TrainingPlan_plan_hash) != hash_plan plan) || is_err (v4_plan plan)
  then "proposal hash or validation failed"%string
  else "proposal parent does not match the local active plan"%string.

(** Under the lock of the proposals: the newest one of a job is saved and kept. *)
Definition keep_proposal (plan : V4TrainingPlan) : v4 unit :=
  Step (fun e s =>
      let proposals := s.(V4State_plan_proposals) in
      let job_id := plan.(V4TrainingPlan_job_id) in
      if is_none_or (proposals !! job_id) (fun existing =>
           existing.(V4TrainingPlan_plan_generation) <=? plan.(V4TrainingPlan_plan_generation))
      then
        if (V4_MAX_PLAN_PROPOSALS <=? N.of_nat (size proposals))
           && bool_decide (proposals !! job_id = None)
        then Some (Err (invalid_config "V4 plan proposal cache is full"), s, [])
        else
          match run_files e (persist_plan_proposal plan) s with
          | None => None
          | Some (Err error, s) => Some (Err error, s, [])
          | Some (Ok _, s) =>
              Some (Ok tt, set_V4State_plan_proposals (<[job_id := plan]> s.(V4State_plan_proposals)) s, [])
          end
      else Some (Ok tt, s, [])) Done.

Definition receive_plan_proposal (peer : NodeId) (plan : V4TrainingPlan) : v4 unit :=
  claimed peer "v4.plan_proposal" plan.(V4TrainingPlan_job_id) (Some plan.(V4TrainingPlan_branch))
    plan.(V4TrainingPlan_plan_generation) plan.(V4TrainingPlan_plan_generation)
    plan.(V4TrainingPlan_plan_hash) ?!
  let! current := active_plan plan.(V4TrainingPlan_job_id) in
  let accepted := accepts_proposal peer plan current in
  (if accepted then keep_proposal plan else Done (Ok tt)) ?!
  let! sent := send_control_message peer (TrainingV4Message_PlanProposalAck
    (mkV4PlanProposalAck plan.(V4TrainingPlan_job_id) plan.(V4TrainingPlan_plan_generation)
       plan.(V4TrainingPlan_plan_hash) accepted (proposal_reason peer plan accepted))) in
  reject_if (negb sent) "V4 proposal acknowledgement could not reach the proposer" ?!
  reject_if (negb accepted) "V4 proposal is not authorized by the current plan lineage".
(** ** Replicated records *)

Definition training_state_generation (state : V4TrainingStateRecord) : list N :=
  [state.(V4TrainingStateRecord_plan_generation); state.(V4TrainingStateRecord_membership_epoch);
   state.(V4TrainingStateRecord_coordination_term); state.(V4TrainingStateRecord_optimizer_generation);
   state.(V4TrainingStateRecord_checkpoint_generation)].

Definition accepts_training_state (record : V4TrainingStateRecord)
    (current : option V4TrainingStateRecord) : bool :=
  is_none_or current (fun current =>
    ltb (training_state_generation current) (training_state_generation record)
    || ((training_state_generation record == training_state_generation current)
        && (current.(V4TrainingStateRecord_state_hash) == record.(V4TrainingStateRecord_state_hash)))).

Definition send_state_ack (peer : NodeId) (ack : V4StateAck) : v4 unit :=
  transmit peer (TrainingV4Message_StateAck ack).

Definition receive_state_record (peer : NodeId) (record : V4TrainingStateRecord) : v4 unit :=
  claimed peer "v4.training_state" record.(V4TrainingStateRecord_job_id)
    (Some record.(V4TrainingStateRecord_branch))
    (N.max record.(V4TrainingStateRecord_checkpoint_generation) 1)
    (N.max record.(V4TrainingStateRecord_optimizer_generation) 1)
    record.(V4TrainingStateRecord_state_hash) ?!
  reject_if
    ((peer != record.(V4TrainingStateRecord_coordinator))
     && negb (contains peer record.(V4TrainingStateRecord_workers))
     || (record.(V4TrainingStateRecord_state_hash) != training_state_hash record)
     || is_err (V4TrainingStateRecord_validate record))
    "V4 training state failed authorization or integrity validation" ?!
  let! current := reading (fun _ s => s.(V4State_training_states) !! record.(V4TrainingStateRecord_job_id)) in
  let accepted := accepts_training_state record current in
  (if accepted then
     persist_training_state record ?!
     updating (fun _ s => set_V4State_training_states
       (<[record.(V4TrainingStateRecord_job_id) := record]> s.(V4State_training_states)) s) ;!
     Done (Ok tt)
   else Done (Ok tt)) ?!
  send_state_ack peer (mkV4StateAck record.(V4TrainingStateRecord_job_id)
    record.(V4TrainingStateRecord_plan_generation) record.(V4TrainingStateRecord_checkpoint_generation)
    V4StateAckKind_TrainingState record.(V4TrainingStateRecord_state_hash) accepted).

Definition accepts_optimizer_shard (record : V4OptimizerShardRecord)
    (current : option V4OptimizerShardRecord) : bool :=
  is_none_or current (fun current =>
    (current.(V4OptimizerShardRecord_optimizer_generation)
     <? record.(V4OptimizerShardRecord_optimizer_generation))
    || ((record.(V4OptimizerShardRecord_optimizer_generation)
         =? current.(V4OptimizerShardRecord_optimizer_generation))
        && (record.(V4OptimizerShardRecord_state_hash) == current.(V4OptimizerShardRecord_state_hash)))).

Definition receive_optimizer_shard (peer : NodeId) (record : V4OptimizerShardRecord) : v4 unit :=
  let key := (record.(V4OptimizerShardRecord_job_id), record.(V4OptimizerShardRecord_shard_id)) in
  claimed peer ("v4.optimizer_state/" ++ decimal record.(V4OptimizerShardRecord_shard_id))%string
    record.(V4OptimizerShardRecord_job_id) None record.(V4OptimizerShardRecord_optimizer_generation)
    (N.max record.(V4OptimizerShardRecord_plan_generation) 1)
    record.(V4OptimizerShardRecord_state_hash) ?!
  reject_if
    ((record.(V4OptimizerShardRecord_owner) != local)
     && negb (contains local record.(V4OptimizerShardRecord_replicas))
     || (record.(V4OptimizerShardRecord_state_hash) != optimizer_shard_hash record)
     || is_err (V4OptimizerShardRecord_validate record))
    "V4 optimizer shard failed authorization or integrity validation" ?!
  let! current := reading (fun _ s => s.(V4State_optimizer_shards) !! key) in
  let accepted := accepts_optimizer_shard record current in
  (if accepted then
     persist_optimizer_shard record ?!
     updating (fun _ s =>
       set_V4State_optimizer_shards (<[key := record]> s.(V4State_optimizer_shards)) s) ;!
     Done (Ok tt)
   else Done (Ok tt)) ?!
  send_state_ack peer (mkV4StateAck record.(V4OptimizerShardRecord_job_id)
    record.(V4OptimizerShardRecord_plan_generation) record.(V4OptimizerShardRecord_optimizer_generation)
    V4StateAckKind_OptimizerShard record.(V4OptimizerShardRecord_state_hash) accepted).

Definition accepts_checkpoint (record : V4CheckpointRecord) (current : option V4CheckpointRecord) : bool :=
  is_none_or current (fun current =>
    (record.(V4CheckpointRecord_manifest_hash) == current.(V4CheckpointRecord_manifest_hash))
    || (current.(V4CheckpointRecord_checkpoint_generation)
        <? record.(V4CheckpointRecord_checkpoint_generation))).

Definition receive_checkpoint_record (peer : NodeId) (record : V4CheckpointRecord) : v4 unit :=
  let key := (record.(V4CheckpointRecord_job_id), record.(V4CheckpointRecord_checkpoint_generation)) in
  claimed peer "v4.checkpoint" record.(V4CheckpointRecord_job_id)
    (Some record.(V4CheckpointRecord_branch)) record.(V4CheckpointRecord_checkpoint_generation)
    (N.max record.(V4CheckpointRecord_plan_generation) 1)
    record.(V4CheckpointRecord_manifest_hash) ?!
  reject_if
    (negb (contains local record.(V4CheckpointRecord_providers))
     || (record.(V4CheckpointRecord_manifest_hash) != checkpoint_hash record)
     || is_err (V4CheckpointRecord_validate record))
    "V4 checkpoint failed provider authorization or integrity validation" ?!
  let! current := reading (fun _ s => s.(V4State_checkpoints) !! key) in
  let accepted := accepts_checkpoint record current in
  (if accepted then
     persist_checkpoint record ?!
     updating (fun _ s => set_V4State_checkpoints (<[key := record]> s.(V4State_checkpoints)) s) ;!
     Done (Ok tt)
   else Done (Ok tt)) ?!
  send_state_ack peer (mkV4StateAck record.(V4CheckpointRecord_job_id)
    record.(V4CheckpointRecord_plan_generation) record.(V4CheckpointRecord_checkpoint_generation)
    V4StateAckKind_Checkpoint record.(V4CheckpointRecord_manifest_hash) accepted).

(** ** Migration of a data shard *)

Definition send_migration_ack (peer : NodeId) (migration : V4ShardMigration) (verified : bool) : v4 unit :=
  transmit peer (TrainingV4Message_ShardMigrationAck
    (mkV4ShardMigrationAck migration.(V4ShardMigration_job_id) migration.(V4ShardMigration_plan_generation)
       migration.(V4ShardMigration_shard_id) local migration.(V4ShardMigration_ownership_generation)
       migration.(V4ShardMigration_content_hash) verified migration.(V4ShardMigration_phase))).

(** The shard is the one the migration speaks of. *)
Definition is_migrated (migration : V4ShardMigration) (shard : V4LocalDataShard) : bool :=
  (shard.(V4LocalDataShard_ownership_generation) =? migration.(V4ShardMigration_ownership_generation))
  && (shard.(V4LocalDataShard_hash) == migration.(V4ShardMigration_content_hash)).

Definition prepare_migration (peer : NodeId) (migration : V4ShardMigration) : v4 unit :=
  let key := (migration.(V4ShardMigration_job_id), migration.(V4ShardMigration_shard_id)) in
  reject_if (is_empty migration.(V4ShardMigration_state)
             || (V4_MAX_STATE_BYTES <? len migration.(V4ShardMigration_state)))
    "V4 migration payload is empty or oversized" ?!
  reject_if (ArtifactId_from_bytes_hashed migration.(V4ShardMigration_state)
             != migration.(V4ShardMigration_content_hash))
    "V4 migration hash does not match state" ?!
  let! existing := reading (fun _ s => s.(V4State_data_shards) !! key) in
  match existing with
  | Some existing =>
      if is_migrated migration existing
         && (existing.(V4LocalDataShard_bytes) == migration.(V4ShardMigration_state))
      then send_migration_ack peer migration true
      else refuse "V4 migration would overwrite a different prepared shard"
  | None =>
      let shard := mkV4LocalDataShard migration.(V4ShardMigration_job_id)
        migration.(V4ShardMigration_shard_id) migration.(V4ShardMigration_plan_generation)
        migration.(V4ShardMigration_ownership_generation) migration.(V4ShardMigration_content_hash)
        migration.(V4ShardMigration_state) in
      persist_data_shard shard ?!
      updating (fun _ s => set_V4State_data_shards (<[key := shard]> s.(V4State_data_shards)) s) ;!
      send_migration_ack peer migration true
  end.

Definition abort_migration (migration : V4ShardMigration) : v4 unit :=
  let key := (migration.(V4ShardMigration_job_id), migration.(V4ShardMigration_shard_id)) in
  let! remove_local := reading (fun _ s =>
    is_some_and (s.(V4State_data_shards) !! key) (is_migrated migration)) in
  if (remove_local : bool) then
    updating (fun _ s => set_V4State_data_shards (delete key s.(V4State_data_shards)) s) ;!
    files_section (remove_state_file (data_shard_file key.1 key.2))
  else Done (Ok tt).

Definition receive_shard_migration (peer : NodeId) (migration : V4ShardMigration) : v4 unit :=
  let key := (migration.(V4ShardMigration_job_id), migration.(V4ShardMigration_shard_id)) in
  reject_if ((migration.(V4ShardMigration_to) != local) || (migration.(V4ShardMigration_from) != peer))
    "V4 migration peer binding failed" ?!
  match migration.(V4ShardMigration_phase) with
  | V4ShardMigrationPhase_Prepare => prepare_migration peer migration
  | V4ShardMigrationPhase_Commit =>
      let! known := reading (fun _ s => s.(V4State_data_shards) !! key) in
      reject_if (is_none_or known (fun shard => negb (is_migrated migration shard)))
        "V4 migration commit has no verified prepared state" ?!
      send_migration_ack peer migration true
  | V4ShardMigrationPhase_Abort => abort_migration migration
  end.

Definition is_migration_ack (target : NodeId) (phase : V4ShardMigrationPhase) (hash : ArtifactId)
    (ownership_generation : N) (received : NodeId * TrainingV4Message) : bool :=
  (received.1 == target)
  && match received.2 with
     | TrainingV4Message_ShardMigrationAck ack =>
         (ack.(V4ShardMigrationAck_phase) == phase) && ack.(V4ShardMigrationAck_verified)
         && (ack.(V4ShardMigrationAck_content_hash) == hash)
         && (ack.(V4ShardMigrationAck_ownership_generation) =? ownership_generation)
     | _ => false
     end.

(** [while let Some(..) = receive_message(..).await? { if .. { found = true; break; } }] *)
Fixpoint await_message (fuel' : nat) (wanted : NodeId * TrainingV4Message -> bool) : v4 bool :=
  match fuel' with
  | O => forever
  | S fuel' =>
      try! received := receive_message fuel in
      match received with
      | None => Done (Ok false)
      | Some received => if wanted received then Done (Ok true) else await_message fuel' wanted
      end
  end.

Definition migration_of (shard : V4LocalDataShard) (target : NodeId)
    (plan_generation ownership_generation : N) (state : list N) (phase : V4ShardMigrationPhase)
    : V4ShardMigration :=
  mkV4ShardMigration shard.(V4LocalDataShard_job_id) plan_generation shard.(V4LocalDataShard_shard_id)
    local target ownership_generation shard.(V4LocalDataShard_hash) state phase.

Definition transfer_shard (shard : V4LocalDataShard) (target : NodeId)
    (plan_generation ownership_generation : N) : v4 unit :=
  let migration := migration_of shard target plan_generation ownership_generation in
  let acknowledged phase :=
    await_message fuel (is_migration_ack target phase shard.(V4LocalDataShard_hash) ownership_generation) in
  transmit target (TrainingV4Message_ShardMigration
    (migration shard.(V4LocalDataShard_bytes) V4ShardMigrationPhase_Prepare)) ?!
  try! verified := acknowledged V4ShardMigrationPhase_Prepare in
  reject_if (negb verified) "V4 proposed shard transfer verification timed out" ?!
  transmit target (TrainingV4Message_ShardMigration (migration [] V4ShardMigrationPhase_Commit)) ?!
  try! committed := acknowledged V4ShardMigrationPhase_Commit in
  if (committed : bool) then Done (Ok tt)
  else
    ignore (transmit target (TrainingV4Message_ShardMigration (migration [] V4ShardMigrationPhase_Abort))) ;!
    refuse "V4 proposed shard transfer commit was not acknowledged".

(** The mailbox of the job is this task's until the transfer is over. *)
Definition transfer_shard_without_plan_commit (shard : V4LocalDataShard) (target : NodeId)
    (plan_generation ownership_generation : N) : v4 unit :=
  let! _ := create_job shard.(V4LocalDataShard_job_id) in
  let! result := transfer_shard shard target plan_generation ownership_generation in
  remove_job shard.(V4LocalDataShard_job_id) ;!
  Done result.

Definition migration_authorized (request : V4ShardMigrationRequest) (current proposal : V4TrainingPlan)
    (local_shard : option V4LocalDataShard) : bool :=
  (proposal.(V4TrainingPlan_proposer) == request.(V4ShardMigrationRequest_proposer))
  && (proposal.(V4TrainingPlan_plan_hash) == request.(V4ShardMigrationRequest_proposal_hash))
  && (proposal.(V4TrainingPlan_parent_plan_hash) == Some current.(V4TrainingPlan_plan_hash))
  && (proposal.(V4TrainingPlan_plan_generation) =? request.(V4ShardMigrationRequest_plan_generation))
  && (proposal.(V4TrainingPlan_plan_hash) == hash_plan proposal)
  && is_ok (v4_plan proposal)
  && (current.(V4TrainingPlan_plan_generation) <? proposal.(V4TrainingPlan_plan_generation))
  && is_some_and (find_shard request.(V4ShardMigrationRequest_shard_id) current.(V4TrainingPlan_shards))
       (fun shard =>
          (shard.(V4ShardOwnership_owners) == [local])
          && (shard.(V4ShardOwnership_content_hash) == request.(V4ShardMigrationRequest_content_hash))
          && (sat_add u64_max shard.(V4ShardOwnership_ownership_generation) 1
              =? request.(V4ShardMigrationRequest_ownership_generation)))
  && is_some_and (find_shard request.(V4ShardMigrationRequest_shard_id) proposal.(V4TrainingPlan_shards))
       (fun shard =>
          (shard.(V4ShardOwnership_owners) == [request.(V4ShardMigrationRequest_to)])
          && (shard.(V4ShardOwnership_content_hash) == request.(V4ShardMigrationRequest_content_hash))
          && (shard.(V4ShardOwnership_ownership_generation)
              =? request.(V4ShardMigrationRequest_ownership_generation))
          && contains request.(V4ShardMigrationRequest_to) proposal.(V4TrainingPlan_workers))
  && is_some_and local_shard (fun shard =>
       (shard.(V4LocalDataShard_plan_generation) =? current.(V4TrainingPlan_plan_generation))
       && (shard.(V4LocalDataShard_ownership_generation)
           =? sat_sub request.(V4ShardMigrationRequest_ownership_generation) 1)
       && (shard.(V4LocalDataShard_hash) == request.(V4ShardMigrationRequest_content_hash))
       && (ArtifactId_from_bytes_hashed shard.(V4LocalDataShard_bytes) == shard.(V4LocalDataShard_hash))).

(** Whether the shard was handed over, and the reason. *)
Definition serve_migration (peer : NodeId) (request : V4ShardMigrationRequest) : vtask (bool * str) :=
  let job_id := request.(V4ShardMigrationRequest_job_id) in
  if (peer == request.(V4ShardMigrationRequest_proposer))
     && (request.(V4ShardMigrationRequest_from) == local)
  then
    let! current := active_plan job_id in
    let! proposal := reading (fun _ s => s.(V4State_plan_proposals) !! job_id) in
    match current, proposal with
    | Some current, Some proposal =>
        let! local_shard := reading (fun _ s =>
          s.(V4State_data_shards) !! (job_id, request.(V4ShardMigrationRequest_shard_id))) in
        match migration_authorized request current proposal local_shard, local_shard with
        | true, Some shard =>
            let! r := transfer_shard_without_plan_commit shard request.(V4ShardMigrationRequest_to)
              request.(V4ShardMigrationRequest_plan_generation)
              request.(V4ShardMigrationRequest_ownership_generation) in
            Done (match r with
                  | Ok _ => (true, "verified transfer completed; active plan unchanged"%string)
                  | Err error => (false, NodeError_to_string error)
                  end)
        | true, None => Done (false, "request did not match an active plan proposal"%string)
        | false, _ => Done (false, "request failed active/proposed ownership validation"%string)
        end
    | _, _ => Done (false, "request did not match an active plan proposal"%string)
    end
  else Done (false, "migration request sender or source binding failed"%string).

Definition receive_shard_migration_request (peer : NodeId) (request : V4ShardMigrationRequest) : v4 unit :=
  let! outcome := serve_migration peer request in
  transmit request.(V4ShardMigrationRequest_reply_to) (TrainingV4Message_ShardMigrationResult
    (mkV4ShardMigrationResult request.(V4ShardMigrationRequest_request_id)
       request.(V4ShardMigrationRequest_job_id) request.(V4ShardMigrationRequest_plan_generation)
       request.(V4ShardMigrationRequest_shard_id) request.(V4ShardMigrationRequest_from)
       request.(V4ShardMigrationRequest_to) request.(V4ShardMigrationRequest_ownership_generation)
       request.(V4ShardMigrationRequest_content_hash) outcome.1 outcome.2)).
End Control.
