(* ===== verification/V4Integrated.v ===== *)
(** * Frontier training: integrated jobs (crates/node/src/frontier_training.rs)

    An integrated job runs on an execution graph, one generation after the other.  A node takes
    over the graphs and states its coordinator sends, answers probes, votes for a new coordinator,
    and reads all of it back when it starts. *)

From Stdlib Require Import String ZArith NArith Lia.
From stdpp Require Import base tactics sets strings numbers list gmap.
From S2P Require Import Prelude OrdMap Types Validation FileSystem Storage Aggregation Compute Float32 Planner Runtime Trust Security Network NodeConfig Tasks V4Model V4Control.
Local Open Scope N_scope.
Local Open Scope rust_scope.

(** [advanced]: a state moved to a newer graph. *)
Definition state_on_graph `{Blake3} `{V4Json} (graph : V4ExecutionGraph)
    (state : V4IntegratedStateRecord) : V4IntegratedStateRecord :=
  let advanced := mkV4IntegratedStateRecord state.(V4IntegratedStateRecord_job_id)
    graph.(V4ExecutionGraph_graph_generation) graph.(V4ExecutionGraph_plan_hash)
    graph.(V4ExecutionGraph_branch) graph.(V4ExecutionGraph_coordinator)
    V4IntegratedPhase_Reconfiguring state.(V4IntegratedStateRecord_window)
    state.(V4IntegratedStateRecord_target_windows) state.(V4IntegratedStateRecord_initial_loss_micros)
    state.(V4IntegratedStateRecord_current_loss_micros) graph.(V4ExecutionGraph_checkpoint_generation)
    state.(V4IntegratedStateRecord_model_generation) graph.(V4ExecutionGraph_optimizer_generation)
    graph.(V4ExecutionGraph_membership_epoch) state.(V4IntegratedStateRecord_collective_generation)
    state.(V4IntegratedStateRecord_recovery_count) state.(V4IntegratedStateRecord_state_hash) in
  with_integrated_state_hash (integrated_state_hash advanced) advanced.

(** The job of the graph has not ended. *)
Definition is_active_phase (phase : V4IntegratedPhase) : bool :=
  match phase with
  | V4IntegratedPhase_Preparing | V4IntegratedPhase_Running | V4IntegratedPhase_Reconfiguring
  | V4IntegratedPhase_Partitioned => true
  | _ => false
  end.

Section Integrated.
Context `{Blake3} `{PlanPostcard} `{V4Json}.
Context (security_to_allocvec : LocalSecurityState -> result (list N) str).
Context (local : NodeId) (store : LocalStore).
Notation claimed := (claimed security_to_allocvec store).
Notation persist_plan := (persist_plan store).
Notation persist_execution_graph := (persist_execution_graph store).
Notation persist_integrated_state := (persist_integrated_state store).
Notation persist_integrated_election := (persist_integrated_election store).

(** ** A graph arrives *)

Definition is_initial_controller (peer : NodeId) (start : V4IntegratedStart) : bool :=
  (local == start.(V4IntegratedStart_graph).(V4ExecutionGraph_coordinator))
  && (peer == start.(V4IntegratedStart_reply_to)).

Definition is_propagated (peer : NodeId) (start : V4IntegratedStart) : bool :=
  contains local start.(V4IntegratedStart_graph).(V4ExecutionGraph_workers)
  && (peer == start.(V4IntegratedStart_graph).(V4ExecutionGraph_coordinator)).

(** Why a graph does not follow the current one. *)
Definition graph_conflict (current graph : V4ExecutionGraph) : option str :=
  if graph.(V4ExecutionGraph_graph_generation) <? current.(V4ExecutionGraph_graph_generation)
  then Some "integrated V4 start is stale"%string
  else if (current.(V4ExecutionGraph_graph_generation) =? graph.(V4ExecutionGraph_graph_generation))
          && ((current.(V4ExecutionGraph_graph_hash) != graph.(V4ExecutionGraph_graph_hash))
              || (current.(V4ExecutionGraph_plan_hash) != graph.(V4ExecutionGraph_plan_hash))
              || (current.(V4ExecutionGraph_branch) != graph.(V4ExecutionGraph_branch))
              || (current.(V4ExecutionGraph_coordinator) != graph.(V4ExecutionGraph_coordinator)))
  then Some "integrated V4 graph generation has a conflicting hash or coordinator"%string
  else if (current.(V4ExecutionGraph_graph_generation) <? graph.(V4ExecutionGraph_graph_generation))
          && (current.(V4ExecutionGraph_coordinator) != graph.(V4ExecutionGraph_coordinator))
          && negb (valid_integrated_election_certificate current graph)
  then Some "integrated V4 coordinator replacement lacks a parent-graph majority certificate"%string
  else None.

(** The state of the job on the graph: the one known, moved to the graph, or a new one. *)
Definition state_for_start (start : V4IntegratedStart) (existing : option V4IntegratedStateRecord)
    : option V4IntegratedStateRecord :=
  let graph := start.(V4IntegratedStart_graph) in
  state ← match existing with
          | Some state => Some state
          | None => integrated_state graph V4IntegratedPhase_Preparing 0
                      start.(V4IntegratedStart_windows) 0 0 0
          end;
  Some (if state.(V4IntegratedStateRecord_graph_generation) <? graph.(V4ExecutionGraph_graph_generation)
        then state_on_graph graph state else state).

(** The plan and the graph go to disk, then into the maps. *)
Definition adopt_graph (start : V4IntegratedStart) : v4 unit :=
  let graph := start.(V4IntegratedStart_graph) in
  let plan := start.(V4IntegratedStart_plan) in
  persist_plan plan ?!
  persist_execution_graph graph ?!
  updating (fun _ s =>
    set_V4State_plans (<[plan.(V4TrainingPlan_job_id) := plan]> s.(V4State_plans)) s) ;!
  updating (fun _ s => set_V4State_integrated_graphs
    (<[graph.(V4ExecutionGraph_job_id) := graph]> s.(V4State_integrated_graphs)) s) ;!
  Done (Ok tt).

Definition publish_state (state : V4IntegratedStateRecord) : v4 unit :=
  persist_integrated_state state ?!
  updating (fun _ s => set_V4State_integrated_states
    (<[state.(V4IntegratedStateRecord_job_id) := state]> s.(V4State_integrated_states)) s) ;!
  Done (Ok tt).

Definition start_driver (graph : V4ExecutionGraph) (plan : V4TrainingPlan)
    (state : V4IntegratedStateRecord) (windows checkpoint_every : N) (resumed : bool) (mailbox : N)
    : vtask unit :=
  atomic (fun _ s => (tt, s, [Did_Start_Driver graph plan state windows checkpoint_every resumed mailbox])).

Definition start_participant (graph : V4ExecutionGraph) (windows checkpoint_every mailbox : N) : vtask unit :=
  atomic (fun _ s => (tt, s, [Did_Start_Participant graph windows checkpoint_every mailbox])).

(** The part of [receive_integrated_start] after its checks: the graph is adopted, the state of the job
    published, the sender answered, and the task of the job started when none is running. *)
Definition follow_integrated_start (peer : NodeId) (start : V4IntegratedStart) : v4 unit :=
  let graph := start.(V4IntegratedStart_graph) in
  let job_id := graph.(V4ExecutionGraph_job_id) in
  adopt_graph start ?!
  let! existing := reading (fun _ s => s.(V4State_integrated_states) !! job_id) in
  match state_for_start start existing with
  | None => forever
  | Some state =>
      let! running := mailbox_of job_id in
      publish_state state ?!
      let! mailbox := match running with
                      | Some _ => Done None
                      | None => let! mailbox := create_job job_id in Done (Some mailbox)
                      end in
      let! acknowledged := send_control_message
        (if is_initial_controller peer start then peer else graph.(V4ExecutionGraph_coordinator))
        (TrainingV4Message_IntegratedAck
           (mkV4IntegratedAck job_id graph.(V4ExecutionGraph_graph_generation) local true
              "durable graph persisted")) in
      if negb acknowledged then
        match mailbox with Some _ => remove_job job_id | None => Done tt end ;!
        refuse "integrated V4 graph acknowledgement could not reach the proposer"
      else
        match mailbox with
        | None => Done (Ok tt)
        | Some mailbox =>
            (if is_initial_controller peer start
             then start_driver graph start.(V4IntegratedStart_plan) state
                    start.(V4IntegratedStart_windows) start.(V4IntegratedStart_checkpoint_every)
                    false mailbox
             else start_participant graph start.(V4IntegratedStart_windows)
                    start.(V4IntegratedStart_checkpoint_every) mailbox) ;!
            Done (Ok tt)
        end
  end.

Definition receive_integrated_start (peer : NodeId) (start : V4IntegratedStart) : v4 unit :=
  let graph := start.(V4IntegratedStart_graph) in
  let job_id := graph.(V4ExecutionGraph_job_id) in
  validated (V4IntegratedStart_validate start) ?!
  claimed peer "v4.execution_graph" job_id (Some graph.(V4ExecutionGraph_branch))
    graph.(V4ExecutionGraph_graph_generation) (N.max graph.(V4ExecutionGraph_coordination_term) 1)
    graph.(V4ExecutionGraph_graph_hash) ?!
  reject_if ((negb (is_initial_controller peer start) && negb (is_propagated peer start))
             || (graph.(V4ExecutionGraph_proposer) != graph.(V4ExecutionGraph_coordinator)))
    "integrated V4 start sender is not an authorized job member" ?!
  let! current := active_graph job_id in
  match current ≫= fun current => graph_conflict current graph with
  | Some text => refuse text
  | None => follow_integrated_start peer start
  end.

(** ** A state arrives *)

Definition integrated_generation (state : V4IntegratedStateRecord) : list N :=
  [state.(V4IntegratedStateRecord_graph_generation); state.(V4IntegratedStateRecord_checkpoint_generation);
   state.(V4IntegratedStateRecord_window)].

Definition accepts_integrated_state (state : V4IntegratedStateRecord)
    (current : option V4IntegratedStateRecord) : bool :=
  is_none_or current (fun current => leb (integrated_generation current) (integrated_generation state)).

Definition ack_integrated_state (peer : NodeId) (state : V4IntegratedStateRecord) (accepted : bool)
    : v4 unit :=
  ignore (send_control_message peer (TrainingV4Message_IntegratedStateAck
    (mkV4IntegratedStateAck state.(V4IntegratedStateRecord_job_id)
       state.(V4IntegratedStateRecord_graph_generation) state.(V4IntegratedStateRecord_state_hash)
       local accepted))) ;!
  Done (Ok tt).

Definition receive_integrated_state (peer : NodeId) (state : V4IntegratedStateRecord) : v4 unit :=
  let job_id := state.(V4IntegratedStateRecord_job_id) in
  validated (V4IntegratedStateRecord_validate state) ?!
  reject_if (state.(V4IntegratedStateRecord_state_hash) != integrated_state_hash state)
    "integrated V4 state hash mismatch" ?!
  let! known := active_graph job_id in
  try! graph := expect "integrated V4 graph is unknown" known in
  reject_if
    (negb (contains peer graph.(V4ExecutionGraph_workers))
     || negb (graph.(V4ExecutionGraph_graph_generation) =? state.(V4IntegratedStateRecord_graph_generation))
     || (graph.(V4ExecutionGraph_plan_hash) != state.(V4IntegratedStateRecord_plan_hash))
     || (graph.(V4ExecutionGraph_branch) != state.(V4IntegratedStateRecord_branch)))
    "integrated V4 state sender or graph generation is unauthorized" ?!
  if peer != state.(V4IntegratedStateRecord_coordinator) then ack_integrated_state peer state false
  else
    let! accepted := reading (fun _ s =>
      accepts_integrated_state state (s.(V4State_integrated_states) !! job_id)) in
    (if (accepted : bool) then publish_state state else Done (Ok tt)) ?!
    ack_integrated_state peer state accepted.

(** ** Probes *)

Definition receive_integrated_probe (peer : NodeId) (probe : V4IntegratedProbe) : v4 unit :=
  validated (V4IntegratedProbe_validate probe) ?!
  reject_if (peer != probe.(V4IntegratedProbe_requester))
    "integrated V4 liveness probe sender does not match requester" ?!
  let! known := active_graph probe.(V4IntegratedProbe_job_id) in
  try! graph := expect "integrated V4 probe graph is unknown" known in
  let accepted :=
    (graph.(V4ExecutionGraph_graph_generation) =? probe.(V4IntegratedProbe_graph_generation))
    && (graph.(V4ExecutionGraph_graph_hash) == probe.(V4IntegratedProbe_graph_hash))
    && contains peer graph.(V4ExecutionGraph_workers) in
  let! sent := transmitted_in_time peer (TrainingV4Message_IntegratedProbeAck
    (mkV4IntegratedProbeAck probe.(V4IntegratedProbe_request_id) probe.(V4IntegratedProbe_job_id)
       probe.(V4IntegratedProbe_graph_generation) local accepted)) in
  reject_if (negb sent) "integrated liveness probe response could not reach requester".

Definition receive_integrated_probe_ack (peer : NodeId) (ack : V4IntegratedProbeAck) : v4 unit :=
  validated (V4IntegratedProbeAck_validate ack) ?!
  reject_if (peer != ack.(V4IntegratedProbeAck_responder))
    "integrated V4 liveness probe acknowledgement sender does not match responder" ?!
  let! known := mailbox_of ack.(V4IntegratedProbeAck_job_id) in
  try! mailbox := expect "integrated V4 probe job is unknown" known in
  let! delivered := mail mailbox (V4Inbound_Message peer (TrainingV4Message_IntegratedProbeAck ack)) in
  reject_if (negb delivered) "integrated V4 probe mailbox is closed".

(** ** Elections *)

(** Why a vote is refused before the earlier votes are looked at. *)
Definition vote_refusal (peer : NodeId) (request : V4IntegratedElectionRequest)
    (graph : V4ExecutionGraph) (state : V4IntegratedStateRecord) : option str :=
  if peer != request.(V4IntegratedElectionRequest_candidate)
  then Some "election sender is not the candidate"%string
  else if negb (contains peer graph.(V4ExecutionGraph_workers))
  then Some "election candidate is not a graph member"%string
  else if negb (graph.(V4ExecutionGraph_graph_generation)
                =? request.(V4IntegratedElectionRequest_graph_generation))
          || (graph.(V4ExecutionGraph_graph_hash) != request.(V4IntegratedElectionRequest_graph_hash))
          || (graph.(V4ExecutionGraph_branch) != request.(V4IntegratedElectionRequest_branch))
  then Some "election graph generation or branch is stale"%string
  else if graph.(V4ExecutionGraph_coordinator) == local
  then Some "current coordinator will not vote for a replacement"%string
  else if negb match state.(V4IntegratedStateRecord_phase) with
               | V4IntegratedPhase_Running | V4IntegratedPhase_Partitioned => true
               | _ => false
               end
  then Some "graph transition is not in a voteable stable phase"%string
  else if request.(V4IntegratedElectionRequest_term) <=? graph.(V4ExecutionGraph_coordination_term)
  then Some "election term is not newer than the active graph"%string
  else None.

(** The earlier vote does not stand in the way. *)
Definition can_replace (request : V4IntegratedElectionRequest)
    (existing : option V4IntegratedElectionRecord) : bool :=
  is_none_or existing (fun existing =>
    negb (existing.(V4IntegratedElectionRecord_graph_generation)
          =? request.(V4IntegratedElectionRequest_graph_generation))
    || (existing.(V4IntegratedElectionRecord_graph_hash)
        != request.(V4IntegratedElectionRequest_graph_hash))
    || (existing.(V4IntegratedElectionRecord_term) <? request.(V4IntegratedElectionRequest_term))
    || ((request.(V4IntegratedElectionRequest_term) =? existing.(V4IntegratedElectionRecord_term))
        && (existing.(V4IntegratedElectionRecord_candidate)
            == request.(V4IntegratedElectionRequest_candidate)))).

Definition vote_of (request : V4IntegratedElectionRequest) : V4IntegratedElectionRecord :=
  let record := mkV4IntegratedElectionRecord request.(V4IntegratedElectionRequest_job_id)
    request.(V4IntegratedElectionRequest_graph_generation)
    request.(V4IntegratedElectionRequest_graph_hash) request.(V4IntegratedElectionRequest_term)
    request.(V4IntegratedElectionRequest_candidate) ArtifactId_default in
  set_V4IntegratedElectionRecord_vote_hash (integrated_election_hash record) record.

(** Under the lock of the elections: the vote is saved, then recorded. *)
Definition cast_vote (request : V4IntegratedElectionRequest) : v4 bool :=
  Step (fun e s =>
      let job_id := request.(V4IntegratedElectionRequest_job_id) in
      if can_replace request (s.(V4State_integrated_elections) !! job_id) then
        let record := vote_of request in
        match run_files e (persist_integrated_election record) s with
        | None => None
        | Some (Err error, s) => Some (Err error, s, [])
        | Some (Ok _, s) =>
            Some (Ok true,
                  set_V4State_integrated_elections
                    (<[job_id := record]> s.(V4State_integrated_elections)) s, [Did_Vote record])
        end
      else Some (Ok false, s, [])) Done.

Definition receive_integrated_election_request (peer : NodeId) (request : V4IntegratedElectionRequest)
    : v4 unit :=
  let job_id := request.(V4IntegratedElectionRequest_job_id) in
  validated (V4IntegratedElectionRequest_validate request) ?!
  let! known_graph := active_graph job_id in
  try! graph := expect "integrated election graph is unknown" known_graph in
  let! known_state := reading (fun _ s => s.(V4State_integrated_states) !! job_id) in
  try! state := expect "integrated election state is unknown" known_state in
  try! outcome :=
    match vote_refusal peer request graph state with
    | Some reason => Done (Ok (false, reason))
    | None =>
        try! granted := cast_vote request in
        Done (Ok (if (granted : bool) then (true, "majority-election vote persisted"%string)
                  else (false, "a different candidate already owns this election term"%string)))
    end in
  let! sent := send_control_message peer (TrainingV4Message_IntegratedElectionVote
    (mkV4IntegratedElectionVote job_id request.(V4IntegratedElectionRequest_graph_generation)
       request.(V4IntegratedElectionRequest_graph_hash) request.(V4IntegratedElectionRequest_term)
       request.(V4IntegratedElectionRequest_candidate) local outcome.1 outcome.2)) in
  reject_if (negb sent) "integrated election vote could not reach candidate".
End Integrated.
