(* ===== verification/V4Data.v ===== *)
(** * Frontier training: tensors, optimizers, pipelines and collectives (crates/node/src/frontier_training.rs)

    The data plane of a planned job: a node runs kernels on its tensor shards and pipeline stages,
    keeps and replicates their state and that of the optimizer, and takes part in sums over groups
    of workers and in robust aggregation.

    The state of a collective and of a robust aggregation changes under one lock; the security
    events of a robust aggregation are recorded in sections of their own, as are the completion and
    the answer, so that more interleavings are possible here than in the source. *)

From Stdlib Require Import String ZArith NArith Lia.
From stdpp Require Import base tactics sets strings numbers list gmap.
From S2P Require Import Prelude OrdMap Types Validation FileSystem Storage Aggregation Compute Float32 Planner Runtime Trust Security Network NodeConfig Tasks V4Model V4Control.
Local Open Scope N_scope.
Local Open Scope rust_scope.

(** ** Vectors *)

(** The assignments of a loop over [slots.iter_mut().zip(values)]. *)
Fixpoint zip_update (f : Z -> Z -> Z) (slots values : list Z) : list Z :=
  match slots, values with
  | slot :: slots, value :: values => f slot value :: zip_update f slots values
  | slots, _ => slots
  end.

(** The sum of vectors into zeros of the length of the first one. *)
Definition sum_vectors (vectors : list (list Z)) : list Z :=
  fold_left (zip_update i64_saturating_add) vectors
    (replicate (match vectors with [] => 0%nat | first :: _ => length first end) 0%Z).

(** The step of gradient descent on one weight, in millionths. *)
Definition descend (rate weight gradient : Z) : Z :=
  clamp_to (-1000000000) 1000000000 (weight - Z.quot (gradient * rate) 1000000).

(** [value.saturating_add(gradient).clamp(..)] *)
Definition accumulate (value gradient : Z) : Z :=
  clamp_to (-1000000000) 1000000000 (i64_saturating_add value gradient).

(** Each element of the upstream gradient once per column. *)
Definition repeat_rows (cols : N) (upstream : list Z) : list Z :=
  concat ((fun value => replicate (N.to_nat cols) value) <$> upstream).

Definition f32_input (values : list Z) : ComputeInput := mkComputeInput values NumericFormat_F32.

Definition BackendKind_debug (kind : BackendKind) : str :=
  match kind with
  | BackendKind_Cpu => "Cpu"%string
  | BackendKind_Cuda => "Cuda"%string
  | BackendKind_Rocm => "Rocm"%string
  | BackendKind_Metal => "Metal"%string
  end.

(** ** Backends of a plan *)

Definition backend_assignment (plan : V4TrainingPlan) (worker : NodeId) (task_kind : ComputeTaskKind)
    : option BackendAssignment :=
  List.find (fun assignment =>
    (assignment.(BackendAssignment_worker) == worker)
    && (assignment.(BackendAssignment_task_kind) == task_kind)) plan.(V4TrainingPlan_backend_assignments).

Definition compute_task_requirements (plan : V4TrainingPlan) (worker : NodeId)
    (task_kind : ComputeTaskKind) (elements : N) (kernel_id : str) : BackendKind * ComputeRequirements :=
  match backend_assignment plan worker task_kind with
  | Some assignment => (assignment.(BackendAssignment_backend), assignment.(BackendAssignment_requirements))
  | None => (BackendKind_Cpu, default_requirements task_kind BackendKind_Cpu elements kernel_id)
  end.

(** The requirements of a worker's task on a backend; an accelerator may fall back to the worker's
    CPU. *)
Definition bound_requirements (capability : V4WorkerCapability) (task_kind : ComputeTaskKind)
    (backend : BackendKind) (elements : N) (kernel_id : str) : ComputeRequirements :=
  let requirements := default_requirements task_kind backend elements kernel_id in
  if (backend != BackendKind_Cpu)
     && existsb (fun candidate => candidate.(BackendCapabilities_kind) == BackendKind_Cpu)
          capability.(V4WorkerCapability_backends)
  then mkComputeRequirements requirements.(ComputeRequirements_task_kind)
         requirements.(ComputeRequirements_required_backend)
         requirements.(ComputeRequirements_allowed_backends)
         requirements.(ComputeRequirements_required_formats)
         requirements.(ComputeRequirements_required_memory_bytes)
         requirements.(ComputeRequirements_max_tensor_elements)
         requirements.(ComputeRequirements_required_features)
         requirements.(ComputeRequirements_kernel_id) requirements.(ComputeRequirements_kernel_version)
         (requirements.(ComputeRequirements_fallback_backends) ++ [BackendKind_Cpu]) true
  else requirements.

(** The first backend, accelerators before the CPU, that the worker advertises and that can run the
    task. *)
Fixpoint select_backend (capability : V4WorkerCapability) (task_kind : ComputeTaskKind) (elements : N)
    (kernel_id : str) (backends : list BackendKind) : option (BackendKind * ComputeRequirements) :=
  match backends with
  | [] => None
  | backend :: backends =>
      let rest := select_backend capability task_kind elements kernel_id backends in
      match List.find (fun advertised => advertised.(BackendCapabilities_kind) == backend)
              capability.(V4WorkerCapability_backends) with
      | None => rest
      | Some advertised =>
          let requirements := bound_requirements capability task_kind backend elements kernel_id in
          if backend_satisfies_requirements advertised requirements
          then Some (backend, requirements) else rest
      end
  end.

(** The capability of a worker: the last one listed. *)
Definition capability_of (plan : V4TrainingPlan) (worker : NodeId) : option V4WorkerCapability :=
  List.find (fun capability => capability.(V4WorkerCapability_node) == worker)
    (reverse plan.(V4TrainingPlan_worker_capabilities)).

Definition bind_task (plan : V4TrainingPlan) (worker : NodeId) (task_kind : ComputeTaskKind)
    (elements : N) (kernel_id : str) (assignments : list BackendAssignment)
    : result (list BackendAssignment) NodeError :=
  if existsb (fun assignment =>
       (assignment.(BackendAssignment_worker) == worker)
       && (assignment.(BackendAssignment_task_kind) == task_kind)) assignments
  then Ok assignments
  else
    let? capability := ok_or (capability_of plan worker) (invalid_config
      ("backend assignment worker " ++ hex_encode (NodeId_0 worker) ++ " has no signed capability")%string) in
    let? selected := ok_or (select_backend capability task_kind elements kernel_id
        [BackendKind_Cuda; BackendKind_Rocm; BackendKind_Metal; BackendKind_Cpu]) (invalid_config
      ("worker " ++ hex_encode (NodeId_0 worker) ++ " cannot satisfy backend requirements for "
       ++ ComputeTaskKind_debug task_kind)%string) in
    Ok (assignments ++ [mkBackendAssignment task_kind worker selected.1 0 selected.2]).

Definition bind_shard (plan : V4TrainingPlan) (assignments : list BackendAssignment)
    (shard : V4ShardOwnership) : result (list BackendAssignment) NodeError :=
  let? owner := ok_or (head shard.(V4ShardOwnership_owners))
    (invalid_config "backend-bound shard has no owner") in
  let? assignments :=
    bind_task plan owner ComputeTaskKind_TensorForward 16 "v5.tensor.forward.v1" assignments in
  bind_task plan owner ComputeTaskKind_TensorBackward 16 "v5.tensor.backward.v1" assignments.

Definition bind_stage (plan : V4TrainingPlan) (assignments : list BackendAssignment)
    (stage : V4PipelineStageAssignment) : result (list BackendAssignment) NodeError :=
  let worker := stage.(V4PipelineStageAssignment_worker) in
  let? assignments :=
    bind_task plan worker ComputeTaskKind_PipelineForward 8 "v5.pipeline.forward.v1" assignments in
  bind_task plan worker ComputeTaskKind_PipelineBackward 8 "v5.pipeline.backward.v1" assignments.

Definition bind_backend_assignments (plan : V4TrainingPlan)
    (pipeline_stages : list V4PipelineStageAssignment) : result V4TrainingPlan NodeError :=
  let? assignments :=
    (if is_tensor_plan plan then try_fold (bind_shard plan) [] plan.(V4TrainingPlan_shards) else Ok []) in
  let? assignments :=
    (if is_pipeline_plan plan then try_fold (bind_stage plan) assignments pipeline_stages
     else Ok assignments) in
  Ok (with_backend_assignments plan (BackendAssignment_requirements <$> assignments) assignments).

Section Data.
Context `{Blake3} `{PlanPostcard} `{V4Json} `{Profile} `{ContributionPostcard}.
Context (security_to_allocvec : LocalSecurityState -> result (list N) str).
Context (local : NodeId) (store : LocalStore) (arch : str) (host_memory : N).
Notation persist_security_state := (persist_security_state security_to_allocvec store).
Notation persist_tensor_shard := (persist_tensor_shard store).
Notation persist_optimizer_state := (persist_optimizer_state store).
Notation persist_pipeline_stage := (persist_pipeline_stage store).
Notation registry_execute :=
  (BackendRegistry_execute (H := AnyBackend_ComputeBackend arch host_memory)).

(** ** Kernels *)

Definition kernel_of (task_kind : ComputeTaskKind) : str :=
  match task_kind with
  | ComputeTaskKind_TensorForward => "v5.tensor.forward.v1"%string
  | ComputeTaskKind_TensorBackward => "v5.tensor.backward.v1"%string
  | ComputeTaskKind_PipelineForward => "v5.pipeline.forward.v1"%string
  | ComputeTaskKind_PipelineBackward => "v5.pipeline.backward.v1"%string
  | _ => "v5.training.reference.v1"%string
  end.

(** The task on a fallback backend. *)
Definition fallback_task (task : ComputeTask) (fallback : BackendKind) : ComputeTask :=
  let r := task.(ComputeTask_requirements) in
  mkComputeTask task.(ComputeTask_operation)
    (mkComputeRequirements r.(ComputeRequirements_task_kind) (Some fallback) [fallback]
       r.(ComputeRequirements_required_formats) r.(ComputeRequirements_required_memory_bytes)
       r.(ComputeRequirements_max_tensor_elements) r.(ComputeRequirements_required_features)
       r.(ComputeRequirements_kernel_id) r.(ComputeRequirements_kernel_version)
       r.(ComputeRequirements_fallback_backends) r.(ComputeRequirements_fallback_allowed))
    task.(ComputeTask_input_elements) task.(ComputeTask_output_elements)
    task.(ComputeTask_graph_generation) task.(ComputeTask_model_generation) task.(ComputeTask_shard_id)
    task.(ComputeTask_deadline_ms).

Fixpoint try_fallbacks (registry : BackendRegistry AnyBackend) (task : ComputeTask)
    (inputs : list ComputeInput) (micros : N) (fallbacks : list BackendKind)
    : option (option ComputeOutput * BackendRegistry AnyBackend) :=
  match fallbacks with
  | [] => Some (None, registry)
  | fallback :: fallbacks =>
      '(r, registry) ← registry_execute registry fallback (fallback_task task fallback) inputs micros;
      match r with
      | Ok output => Some (Some output, registry)
      | Err _ => try_fallbacks registry task inputs micros fallbacks
      end
  end.

(** The task on its backend and, when that fails and the requirements allow it, on the others. *)
Definition run_backends (registry : BackendRegistry AnyBackend) (backend : BackendKind)
    (task : ComputeTask) (inputs : list ComputeInput) (micros : N)
    : option (result ComputeOutput NodeError * BackendRegistry AnyBackend) :=
  '(r, registry) ← registry_execute registry backend task inputs micros;
  match r with
  | Ok output => Some (Ok output, registry)
  | Err error =>
      let failed (policy : str) := Err (invalid_config
        ("backend task failed on " ++ BackendKind_debug backend ++ policy ++ ": "
         ++ ComputeError_to_string error)%string) in
      if task.(ComputeTask_requirements).(ComputeRequirements_fallback_allowed) then
        '(output, registry) ← try_fallbacks registry task inputs micros
           task.(ComputeTask_requirements).(ComputeRequirements_fallback_backends);
        Some (match output with
              | Some output => Ok output
              | None => failed " with explicit fallback policy"%string
              end, registry)
      else Some (failed EmptyString, registry)
  end.

(** The registry is locked for the whole task. *)
Definition execute_backend_task (plan : V4TrainingPlan) (worker : NodeId) (task_kind : ComputeTaskKind)
    (operation : ComputeOperation) (input_elements output_elements : N) (inputs : list ComputeInput)
    (graph_generation model_generation shard_id deadline_ms : N) : v4 (list Z) :=
  let '(backend, requirements) := compute_task_requirements plan worker task_kind
    (N.max (sat_add u64_max input_elements output_elements) 1) (kernel_of task_kind) in
  let task := mkComputeTask operation requirements input_elements output_elements
    (N.max graph_generation 1) (N.max model_generation 1) shard_id (N.max 1 (N.min deadline_ms 120000)) in
  Step (fun e s =>
      '(r, registry) ← run_backends s.(V4State_compute) backend task inputs e.(ve_micros);
      Some ((let? output := r in Ok output.(ComputeOutput_values)), set_V4State_compute registry s, []))
    Done.

(** ** Authorization *)

Definition authorized_reference_plan (peer : NodeId) (job_id : JobId) (plan_generation : N)
    : v4 V4TrainingPlan :=
  let! known := active_plan job_id in
  try! plan := expect "V4 operation has no active plan" known in
  reject_if
    ((plan.(V4TrainingPlan_proposer) != peer)
     || negb (plan.(V4TrainingPlan_plan_generation) =? plan_generation)
     || negb (contains local plan.(V4TrainingPlan_workers))
     || (plan.(V4TrainingPlan_plan_hash) != hash_plan plan)
     || is_err (v4_plan plan))
    "V4 operation is not authorized by the active plan" ?!
  Done (Ok plan).

Definition context_valid (peer : NodeId) (plan_generation : N) (plan : V4TrainingPlan)
    (graph : V4ExecutionGraph) : bool :=
  (0 <? graph.(V4ExecutionGraph_graph_generation))
  && (graph.(V4ExecutionGraph_graph_hash) == execution_graph_hash graph)
  && (graph.(V4ExecutionGraph_plan_hash) == plan.(V4TrainingPlan_plan_hash))
  && (plan.(V4TrainingPlan_plan_generation) =? plan_generation)
  && (plan.(V4TrainingPlan_plan_hash) == hash_plan plan)
  && is_ok (v4_plan plan)
  && is_ok (V4ExecutionGraph_validate graph)
  && (graph.(V4ExecutionGraph_proposer) == graph.(V4ExecutionGraph_coordinator))
  && (plan.(V4TrainingPlan_proposer) == graph.(V4ExecutionGraph_coordinator))
  && contains local graph.(V4ExecutionGraph_workers)
  && contains peer graph.(V4ExecutionGraph_workers)
  && (plan.(V4TrainingPlan_workers) == graph.(V4ExecutionGraph_workers)).

Definition authorized_integrated_pipeline_context (peer : NodeId) (job_id : JobId) (plan_generation : N)
    : v4 (option (V4TrainingPlan * V4ExecutionGraph)) :=
  let! known := active_graph job_id in
  match known with
  | None => Done (Ok None)
  | Some graph =>
      let! known := active_plan job_id in
      try! plan := expect "integrated V4 operation has no active graph plan" known in
      if context_valid peer plan_generation plan graph then Done (Ok (Some (plan, graph)))
      else refuse ("integrated V4 operation is not authorized by graph generation "
        ++ decimal graph.(V4ExecutionGraph_graph_generation) ++ " (peer=" ++ hex_encode (NodeId_0 peer)
        ++ ", requested_plan_generation=" ++ decimal plan_generation ++ ", active_plan_generation="
        ++ decimal plan.(V4TrainingPlan_plan_generation) ++ ")")%string
  end.

(** To another node, or into the mailbox of the job when it is this one. *)
Definition deliver_v4_message (peer : NodeId) (job_id : JobId) (message : TrainingV4Message) : v4 unit :=
  if peer == local then
    let! known := mailbox_of job_id in
    try! mailbox := expect "local V4 job mailbox is unavailable" known in
    let! delivered := mail mailbox (V4Inbound_Message peer message) in
    reject_if (negb delivered) "local V4 job mailbox is closed"
  else send_v4_control_message peer message.
(** ** Tensor shards *)

(** The plan has the node own the shard. *)
Definition owns_tensor (plan : V4TrainingPlan) (model_generation shard_id : N) : bool :=
  is_tensor_plan plan
  && (plan.(V4TrainingPlan_tensor_degree) =? 2)
  && (plan.(V4TrainingPlan_model_generation) =? model_generation)
  && existsb (fun shard =>
       (shard.(V4ShardOwnership_shard_id) =? shard_id)
       && (shard.(V4ShardOwnership_model_generation) =? model_generation)
       && contains local shard.(V4ShardOwnership_owners)) plan.(V4TrainingPlan_shards).

Definition installed_tensor (install : V4TensorInstall) : V4LocalTensorShard :=
  mkV4LocalTensorShard install.(V4TensorInstall_job_id) install.(V4TensorInstall_plan_generation)
    install.(V4TensorInstall_model_generation) install.(V4TensorInstall_shard_id)
    install.(V4TensorInstall_rows) install.(V4TensorInstall_cols) install.(V4TensorInstall_row_offset)
    install.(V4TensorInstall_weights) install.(V4TensorInstall_state_hash) 1 0.

Definition same_shape (shard : V4LocalTensorShard) (install : V4TensorInstall) : bool :=
  (shard.(V4LocalTensorShard_model_generation) =? install.(V4TensorInstall_model_generation))
  && (shard.(V4LocalTensorShard_rows) =? install.(V4TensorInstall_rows))
  && (shard.(V4LocalTensorShard_cols) =? install.(V4TensorInstall_cols))
  && (shard.(V4LocalTensorShard_row_offset) =? install.(V4TensorInstall_row_offset)).

Definition insert_tensor (shard : V4LocalTensorShard) : vtask unit :=
  updating (fun _ s => set_V4State_tensor_shards
    (<[(shard.(V4LocalTensorShard_job_id), shard.(V4LocalTensorShard_shard_id)) := shard]>
       s.(V4State_tensor_shards)) s).

Definition ack_tensor (peer : NodeId) (install : V4TensorInstall) (state_hash : ArtifactId) : v4 unit :=
  send_v4_control_message peer (TrainingV4Message_TensorInstallAck
    (mkV4TensorInstallAck install.(V4TensorInstall_job_id) install.(V4TensorInstall_plan_generation)
       install.(V4TensorInstall_shard_id) state_hash true)).

Definition receive_tensor_install (peer : NodeId) (install : V4TensorInstall) : v4 unit :=
  let key := (install.(V4TensorInstall_job_id), install.(V4TensorInstall_shard_id)) in
  validated (v4_tensor_install install) ?!
  reject_if (tensor_hash install.(V4TensorInstall_weights) install.(V4TensorInstall_rows)
               install.(V4TensorInstall_cols) install.(V4TensorInstall_row_offset)
             != install.(V4TensorInstall_state_hash))
    "V4 tensor shard integrity check failed" ?!
  try! plan := authorized_reference_plan peer install.(V4TensorInstall_job_id)
                 install.(V4TensorInstall_plan_generation) in
  reject_if (negb (owns_tensor plan install.(V4TensorInstall_model_generation)
                     install.(V4TensorInstall_shard_id)))
    "V4 tensor install is not authorized for this plan shard" ?!
  let! existing := reading (fun _ s => s.(V4State_tensor_shards) !! key) in
  match existing with
  | Some existing =>
      if (existing.(V4LocalTensorShard_plan_generation) =? install.(V4TensorInstall_plan_generation))
         && same_shape existing install
         && (existing.(V4LocalTensorShard_weights) == install.(V4TensorInstall_weights))
         && (existing.(V4LocalTensorShard_state_hash) == install.(V4TensorInstall_state_hash))
      then ack_tensor peer install install.(V4TensorInstall_state_hash)
      else if (existing.(V4LocalTensorShard_plan_generation)
               <? install.(V4TensorInstall_plan_generation))
              && same_shape existing install && valid_local_tensor_shard existing
      then
        let promoted := set_V4LocalTensorShard_plan_generation
                          install.(V4TensorInstall_plan_generation) existing in
        persist_tensor_shard promoted ?!
        updating (fun _ s =>
          set_V4State_tensor_shards (<[key := promoted]> s.(V4State_tensor_shards)) s) ;!
        ack_tensor peer install promoted.(V4LocalTensorShard_state_hash)
      else refuse "V4 tensor shard conflicts with existing state"
  | None =>
      let! full := reading (fun _ s =>
        V4_MAX_TENSOR_SHARDS <=? N.of_nat (size s.(V4State_tensor_shards))) in
      reject_if full "V4 tensor shard entry limit reached" ?!
      let shard := installed_tensor install in
      persist_tensor_shard shard ?!
      insert_tensor shard ;!
      ack_tensor peer install shard.(V4LocalTensorShard_state_hash)
  end.

Definition replica_authorized (peer : NodeId) (replica : V4TensorReplica) (plan : V4TrainingPlan) : bool :=
  is_tensor_plan plan
  && (plan.(V4TrainingPlan_plan_generation) =? replica.(V4TensorReplica_plan_generation))
  && (plan.(V4TrainingPlan_tensor_degree) =? 2)
  && contains local plan.(V4TrainingPlan_workers)
  && contains peer plan.(V4TrainingPlan_workers)
  && contains replica.(V4TensorReplica_source) plan.(V4TrainingPlan_workers)
  && existsb (fun shard =>
       (shard.(V4ShardOwnership_shard_id) =? replica.(V4TensorReplica_shard_id))
       && (shard.(V4ShardOwnership_model_generation) =? replica.(V4TensorReplica_model_generation))
       && (shard.(V4ShardOwnership_ownership_generation)
           <=? replica.(V4TensorReplica_ownership_generation))
       && contains local shard.(V4ShardOwnership_replicas)
       && (contains replica.(V4TensorReplica_source) shard.(V4ShardOwnership_owners)
           || contains replica.(V4TensorReplica_source) shard.(V4ShardOwnership_replicas)))
       plan.(V4TrainingPlan_shards).

Definition replicated_tensor (replica : V4TensorReplica) : V4LocalTensorShard :=
  mkV4LocalTensorShard replica.(V4TensorReplica_job_id) replica.(V4TensorReplica_plan_generation)
    replica.(V4TensorReplica_model_generation) replica.(V4TensorReplica_shard_id)
    replica.(V4TensorReplica_rows) replica.(V4TensorReplica_cols) replica.(V4TensorReplica_row_offset)
    replica.(V4TensorReplica_weights) replica.(V4TensorReplica_state_hash)
    replica.(V4TensorReplica_state_generation) replica.(V4TensorReplica_last_sequence).

(** A newer state of the same shape is already there. *)
Definition is_superseded (existing incoming : V4LocalTensorShard) : bool :=
  (incoming.(V4LocalTensorShard_state_generation) <? existing.(V4LocalTensorShard_state_generation))
  && (existing.(V4LocalTensorShard_model_generation) =? incoming.(V4LocalTensorShard_model_generation))
  && (existing.(V4LocalTensorShard_rows) =? incoming.(V4LocalTensorShard_rows))
  && (existing.(V4LocalTensorShard_cols) =? incoming.(V4LocalTensorShard_cols))
  && (existing.(V4LocalTensorShard_row_offset) =? incoming.(V4LocalTensorShard_row_offset))
  && valid_local_tensor_shard existing.

(** Under the lock of the shards: whether the replica is accepted, and what is kept. *)
Definition merge_replica (incoming : V4LocalTensorShard) (shards : gmap (JobId * N) V4LocalTensorShard)
    : bool * gmap (JobId * N) V4LocalTensorShard :=
  let key := (incoming.(V4LocalTensorShard_job_id), incoming.(V4LocalTensorShard_shard_id)) in
  match shards !! key with
  | Some existing =>
      if is_superseded existing incoming then (true, shards)
      else if (existing.(V4LocalTensorShard_state_generation)
               =? incoming.(V4LocalTensorShard_state_generation))
              && (existing.(V4LocalTensorShard_state_hash) != incoming.(V4LocalTensorShard_state_hash))
      then (false, shards)
      else (true, <[key := incoming]> shards)
  | None => (true, <[key := incoming]> shards)
  end.

Definition receive_tensor_replica (peer : NodeId) (replica : V4TensorReplica) : v4 unit :=
  validated (v4_tensor_replica replica) ?!
  reject_if (tensor_hash replica.(V4TensorReplica_weights) replica.(V4TensorReplica_rows)
               replica.(V4TensorReplica_cols) replica.(V4TensorReplica_row_offset)
             != replica.(V4TensorReplica_state_hash))
    "V4 tensor replica integrity check failed" ?!
  let! known := active_plan replica.(V4TensorReplica_job_id) in
  try! plan := expect "V4 replica plan is unavailable" known in
  reject_if (negb (replica_authorized peer replica plan))
    "V4 tensor replica is not authorized by the active plan" ?!
  let incoming := replicated_tensor replica in
  reject_if (negb (valid_local_tensor_shard incoming)) "V4 tensor replica shape or bounds are invalid" ?!
  let! accepted := atomic (fun _ s =>
    let '(accepted, shards) := merge_replica incoming s.(V4State_tensor_shards) in
    (accepted, set_V4State_tensor_shards shards s, [])) in
  (if (accepted : bool) then persist_tensor_shard incoming else Done (Ok tt)) ?!
  send_v4_control_message peer (TrainingV4Message_TensorReplicaAck
    (mkV4TensorReplicaAck replica.(V4TensorReplica_job_id) replica.(V4TensorReplica_plan_generation)
       replica.(V4TensorReplica_shard_id) replica.(V4TensorReplica_state_hash)
       replica.(V4TensorReplica_state_generation) accepted)).

Definition receive_tensor_forward (peer : NodeId) (forward : V4TensorForward) : v4 unit :=
  let key := (forward.(V4TensorForward_job_id), forward.(V4TensorForward_shard_id)) in
  try! plan := authorized_reference_plan peer forward.(V4TensorForward_job_id)
                 forward.(V4TensorForward_plan_generation) in
  reject_if (negb (owns_tensor plan forward.(V4TensorForward_model_generation)
                     forward.(V4TensorForward_shard_id)))
    "V4 tensor forward is not authorized for this plan shard" ?!
  let! known := reading (fun _ s => s.(V4State_tensor_shards) !! key) in
  try! shard := expect "V4 tensor shard is unavailable" known in
  reject_if
    (negb (shard.(V4LocalTensorShard_plan_generation) =? forward.(V4TensorForward_plan_generation))
     || negb (shard.(V4LocalTensorShard_model_generation) =? forward.(V4TensorForward_model_generation))
     || negb (shard.(V4LocalTensorShard_cols) =? len forward.(V4TensorForward_input)))
    "V4 tensor forward generation or shape mismatch" ?!
  try! output := execute_backend_task plan local ComputeTaskKind_TensorForward
    (ComputeOperation_MatrixVector shard.(V4LocalTensorShard_rows) shard.(V4LocalTensorShard_cols))
    shard.(V4LocalTensorShard_cols) shard.(V4LocalTensorShard_rows)
    [f32_input shard.(V4LocalTensorShard_weights); f32_input forward.(V4TensorForward_input)]
    forward.(V4TensorForward_plan_generation) forward.(V4TensorForward_model_generation)
    forward.(V4TensorForward_shard_id) 8000 in
  deliver_v4_message peer forward.(V4TensorForward_job_id) (TrainingV4Message_TensorForwardResult
    (mkV4TensorForwardResult forward.(V4TensorForward_request_id) forward.(V4TensorForward_job_id)
       forward.(V4TensorForward_plan_generation) forward.(V4TensorForward_shard_id)
       forward.(V4TensorForward_sequence) output shard.(V4LocalTensorShard_state_hash))).

(** ** Optimizer state *)

Definition insert_optimizer_state (key : JobId * N) (state : V4LocalOptimizerState) : vtask unit :=
  updating (fun _ s =>
    set_V4State_optimizer_states (<[key := state]> s.(V4State_optimizer_states)) s).

Definition state_of_install (install : V4OptimizerStateInstall) : V4LocalOptimizerState :=
  mkV4LocalOptimizerState install.(V4OptimizerStateInstall_job_id)
    install.(V4OptimizerStateInstall_plan_generation) install.(V4OptimizerStateInstall_model_generation)
    install.(V4OptimizerStateInstall_optimizer_generation) install.(V4OptimizerStateInstall_shard_id)
    install.(V4OptimizerStateInstall_values) install.(V4OptimizerStateInstall_state_hash)
    install.(V4OptimizerStateInstall_state_generation) install.(V4OptimizerStateInstall_last_sequence).

(** The values known here under the newer generations of the two. *)
Definition promote_optimizer_state (existing : V4LocalOptimizerState) (install : V4OptimizerStateInstall)
    : V4LocalOptimizerState :=
  let last_sequence := N.max existing.(V4LocalOptimizerState_last_sequence)
                         install.(V4OptimizerStateInstall_last_sequence) in
  let promoted := mkV4OptimizerStateInstall existing.(V4LocalOptimizerState_job_id)
    (N.max existing.(V4LocalOptimizerState_plan_generation)
       install.(V4OptimizerStateInstall_plan_generation))
    existing.(V4LocalOptimizerState_model_generation)
    (N.max existing.(V4LocalOptimizerState_optimizer_generation)
       install.(V4OptimizerStateInstall_optimizer_generation))
    existing.(V4LocalOptimizerState_shard_id) existing.(V4LocalOptimizerState_values)
    ArtifactId_default
    (N.max existing.(V4LocalOptimizerState_state_generation)
       install.(V4OptimizerStateInstall_state_generation))
    (N.max last_sequence 1) last_sequence NodeId_default in
  state_of_install (with_optimizer_state_hash (optimizer_state_hash promoted) promoted).

Definition optimizer_authorized (peer : NodeId) (install : V4OptimizerStateInstall)
    (plan : V4TrainingPlan) (graph : V4ExecutionGraph) (placement : V4OptimizerPlacement) : bool :=
  let stores node := (placement.(V4OptimizerPlacement_owner) == node)
                     || contains node placement.(V4OptimizerPlacement_replicas) in
  (plan.(V4TrainingPlan_strategy) == V4ParallelismStrategy_Hybrid)
  && negb (graph.(V4ExecutionGraph_graph_generation) =? 0)
  && (plan.(V4TrainingPlan_plan_generation) =? install.(V4OptimizerStateInstall_plan_generation))
  && (plan.(V4TrainingPlan_plan_hash) == graph.(V4ExecutionGraph_plan_hash))
  && is_ok (v4_plan plan)
  && (placement.(V4OptimizerPlacement_generation)
      =? install.(V4OptimizerStateInstall_optimizer_generation))
  && stores install.(V4OptimizerStateInstall_source)
  && stores local
  && ((peer == plan.(V4TrainingPlan_proposer)) || (peer == install.(V4OptimizerStateInstall_source))
      || stores peer)
  && contains local plan.(V4TrainingPlan_workers)
  && contains peer plan.(V4TrainingPlan_workers)
  && contains install.(V4OptimizerStateInstall_source) plan.(V4TrainingPlan_workers).

(** Whether the state is accepted, and what replaces the one known. *)
Definition merge_optimizer_state (install : V4OptimizerStateInstall)
    (current : option V4LocalOptimizerState) : result (bool * option V4LocalOptimizerState) NodeError :=
  let incoming := state_of_install install in
  match current with
  | None => Ok (true, Some incoming)
  | Some current =>
      fail_if
        (negb (current.(V4LocalOptimizerState_model_generation)
               =? incoming.(V4LocalOptimizerState_model_generation))
         || negb (len current.(V4LocalOptimizerState_values) =? len incoming.(V4LocalOptimizerState_values)))
        (invalid_config "V4 optimizer state conflicts with model lineage") ;?
      Ok (if incoming.(V4LocalOptimizerState_state_generation)
             <? current.(V4LocalOptimizerState_state_generation)
          then (true, None)
          else if current.(V4LocalOptimizerState_state_generation)
                  =? incoming.(V4LocalOptimizerState_state_generation)
          then
            if current.(V4LocalOptimizerState_state_hash) == incoming.(V4LocalOptimizerState_state_hash)
            then (true, None)
            else if ((current.(V4LocalOptimizerState_plan_generation)
                      <? incoming.(V4LocalOptimizerState_plan_generation))
                     || (current.(V4LocalOptimizerState_optimizer_generation)
                         <? incoming.(V4LocalOptimizerState_optimizer_generation)))
                    && valid_local_optimizer_state current
            then (true, Some (promote_optimizer_state current install))
            else (false, None)
          else (true, Some incoming))
  end.

Definition receive_optimizer_state_install (peer : NodeId) (install : V4OptimizerStateInstall) : v4 unit :=
  let key := (install.(V4OptimizerStateInstall_job_id), install.(V4OptimizerStateInstall_shard_id)) in
  validated (v4_optimizer_state_install install) ?!
  reject_if (optimizer_state_hash install != install.(V4OptimizerStateInstall_state_hash))
    "V4 optimizer state integrity check failed" ?!
  let! known := active_plan install.(V4OptimizerStateInstall_job_id) in
  try! plan := expect "V4 optimizer plan is unavailable" known in
  let! known := active_graph install.(V4OptimizerStateInstall_job_id) in
  try! graph := expect "V4 optimizer graph is unavailable" known in
  try! placement := expect "V4 optimizer placement is unavailable"
    (find_placement install.(V4OptimizerStateInstall_shard_id) graph.(V4ExecutionGraph_optimizer_shards)) in
  reject_if (negb (optimizer_authorized peer install plan graph placement))
    "V4 optimizer state is not authorized by the active graph" ?!
  let! model := reading (fun _ s => s.(V4State_tensor_shards) !! key) in
  reject_if (is_some_and model (fun model =>
      negb (len model.(V4LocalTensorShard_weights) =? len install.(V4OptimizerStateInstall_values))))
    "V4 optimizer state does not match model shard" ?!
  let! merged := reading (fun _ s => merge_optimizer_state install (s.(V4State_optimizer_states) !! key)) in
  try! outcome := Done merged in
  match outcome.2 with
  | Some replacement => persist_optimizer_state replacement ?! insert_optimizer_state key replacement ;! Done (Ok tt)
  | None => Done (Ok tt)
  end ?!
  let! acknowledged_hash := reading (fun _ s =>
    match s.(V4State_optimizer_states) !! key with
    | Some state => state.(V4LocalOptimizerState_state_hash)
    | None => install.(V4OptimizerStateInstall_state_hash)
    end) in
  send_v4_control_message peer (TrainingV4Message_OptimizerStateAck
    (mkV4OptimizerStateAck install.(V4OptimizerStateInstall_job_id)
       install.(V4OptimizerStateInstall_plan_generation)
       install.(V4OptimizerStateInstall_optimizer_generation) install.(V4OptimizerStateInstall_shard_id)
       acknowledged_hash install.(V4OptimizerStateInstall_state_generation) outcome.1)).

(** The message that carries the state after a step of the optimizer. *)
Definition optimizer_step (job_id : JobId) (plan_generation model_generation : N)
    (placement : V4OptimizerPlacement) (shard_id : N) (existing : option V4LocalOptimizerState)
    (gradients : list Z) (sequence : N) : V4OptimizerStateInstall :=
  let values := match existing with
                | Some state => state.(V4LocalOptimizerState_values)
                | None => replicate (length gradients) 0%Z
                end in
  let state_generation := sat_add u64_max
    (match existing with Some state => state.(V4LocalOptimizerState_state_generation) | None => 1 end) 1 in
  let install := mkV4OptimizerStateInstall job_id plan_generation model_generation
    placement.(V4OptimizerPlacement_generation) shard_id (zip_update accumulate values gradients)
    ArtifactId_default state_generation sequence sequence local in
  with_optimizer_state_hash (optimizer_state_hash install) install.

(** Sends to each replica; how many were reached. *)
Fixpoint replicate_install (install : V4OptimizerStateInstall) (replicas : list NodeId) : vtask N :=
  match replicas with
  | [] => Done 0
  | replica :: replicas =>
      if replica == local then replicate_install install replicas
      else
        let! r := send_v4_control_message replica (TrainingV4Message_OptimizerStateInstall install) in
        let! reached := replicate_install install replicas in
        Done (if is_ok r then reached + 1 else reached)
  end.

Definition update_optimizer_state_and_replicate (job_id : JobId) (plan_generation shard_id : N)
    (gradients : list Z) (sequence : N) : v4 (option (ArtifactId * N)) :=
  let key := (job_id, shard_id) in
  let! known := active_graph job_id in
  match known with
  | None => Done (Ok None)
  | Some graph =>
      let! plan := active_plan job_id in
      reject_if (graph.(V4ExecutionGraph_plan_hash)
                 != match plan with
                    | Some plan => plan.(V4TrainingPlan_plan_hash)
                    | None => ArtifactId_default
                    end)
        "integrated optimizer graph is not bound to the active plan" ?!
      try! placement := expect "integrated optimizer placement is missing"
        (find_placement shard_id graph.(V4ExecutionGraph_optimizer_shards)) in
      reject_if (placement.(V4OptimizerPlacement_owner) != local)
        "only the current optimizer owner may apply a shard update" ?!
      try! model_shard := expect "integrated optimizer model shard is missing"
        (find_shard shard_id graph.(V4ExecutionGraph_shards)) in
      let! existing := reading (fun _ s => s.(V4State_optimizer_states) !! key) in
      reject_if (is_some_and existing (fun state =>
          negb (len state.(V4LocalOptimizerState_values) =? len gradients)))
        "optimizer update does not match model shard state" ?!
      reject_if (is_some_and existing (fun state => sequence <=? state.(V4LocalOptimizerState_last_sequence)))
        "optimizer update sequence is stale or replayed" ?!
      let install := optimizer_step job_id plan_generation
        model_shard.(V4ShardOwnership_model_generation) placement shard_id existing gradients sequence in
      let state := state_of_install install in
      reject_if (negb (valid_local_optimizer_state state))
        "computed optimizer state failed local validation" ?!
      persist_optimizer_state state ?!
      insert_optimizer_state key state ;!
      let! replicated := replicate_install install placement.(V4OptimizerPlacement_replicas) in
      reject_if (negb (is_empty placement.(V4OptimizerPlacement_replicas)) && (replicated =? 0))
        "optimizer state has no reachable replica" ?!
      Done (Ok (Some (install.(V4OptimizerStateInstall_state_hash),
                      install.(V4OptimizerStateInstall_state_generation))))
  end.

(** ** A step of gradient descent *)

(** The shard after a step, with its new hash. *)
Definition step_tensor (shard : V4LocalTensorShard) (rate : Z) (gradients : list Z) (sequence : N)
    : V4LocalTensorShard :=
  let weights := zip_update (descend rate) shard.(V4LocalTensorShard_weights) gradients in
  mkV4LocalTensorShard shard.(V4LocalTensorShard_job_id) shard.(V4LocalTensorShard_plan_generation)
    shard.(V4LocalTensorShard_model_generation) shard.(V4LocalTensorShard_shard_id)
    shard.(V4LocalTensorShard_rows) shard.(V4LocalTensorShard_cols)
    shard.(V4LocalTensorShard_row_offset) weights
    (tensor_hash weights shard.(V4LocalTensorShard_rows) shard.(V4LocalTensorShard_cols)
       shard.(V4LocalTensorShard_row_offset))
    (sat_add u64_max shard.(V4LocalTensorShard_state_generation) 1) sequence.

(** The gradients of the weights and of the input. *)
Definition tensor_gradients (plan : V4TrainingPlan) (shard : V4LocalTensorShard) (upstream : list Z)
    (plan_generation model_generation shard_id : N) : v4 (list Z * list Z) :=
  let weights := shard.(V4LocalTensorShard_weights) in
  try! gradients := execute_backend_task plan local ComputeTaskKind_TensorBackward
    ComputeOperation_ElementwiseMultiply (len weights) (len weights)
    [f32_input weights; f32_input (repeat_rows shard.(V4LocalTensorShard_cols) upstream)]
    plan_generation model_generation shard_id 8000 in
  try! input_gradient := execute_backend_task plan local ComputeTaskKind_TensorBackward
    (ComputeOperation_MatrixTransposeVector shard.(V4LocalTensorShard_rows) shard.(V4LocalTensorShard_cols))
    shard.(V4LocalTensorShard_rows) shard.(V4LocalTensorShard_cols)
    [f32_input weights; f32_input upstream] plan_generation model_generation shard_id 8000 in
  Done (Ok (gradients, input_gradient)).

(** The shard of a step, which a repeated sequence number does not take again. *)
Definition apply_gradients (key : JobId * N) (shard : V4LocalTensorShard) (rate : Z)
    (gradients : list Z) (sequence : N) : v4 V4LocalTensorShard :=
  if sequence =? shard.(V4LocalTensorShard_last_sequence) then Done (Ok shard)
  else
    let shard := step_tensor shard rate gradients sequence in
    persist_tensor_shard shard ?!
    updating (fun _ s => set_V4State_tensor_shards (<[key := shard]> s.(V4State_tensor_shards)) s) ;!
    Done (Ok shard).

(** The optimizer takes the step too, or answers what it has when the step was taken before. *)
Definition apply_optimizer (key : JobId * N) (already_applied : bool) (plan_generation : N)
    (gradients : list Z) (sequence : N) : v4 (option (ArtifactId * N)) :=
  if already_applied then
    let! state := reading (fun _ s => s.(V4State_optimizer_states) !! key) in
    Done (Ok ((fun state => (state.(V4LocalOptimizerState_state_hash),
                             state.(V4LocalOptimizerState_state_generation))) <$> state))
  else update_optimizer_state_and_replicate key.1 plan_generation key.2 gradients sequence.

Definition replica_message (shard : V4LocalTensorShard) (ownership_generation : N) : V4TensorReplica :=
  mkV4TensorReplica shard.(V4LocalTensorShard_job_id) shard.(V4LocalTensorShard_plan_generation)
    shard.(V4LocalTensorShard_model_generation) shard.(V4LocalTensorShard_shard_id)
    shard.(V4LocalTensorShard_rows) shard.(V4LocalTensorShard_cols)
    shard.(V4LocalTensorShard_row_offset) shard.(V4LocalTensorShard_weights)
    shard.(V4LocalTensorShard_state_hash) shard.(V4LocalTensorShard_state_generation)
    shard.(V4LocalTensorShard_last_sequence) ownership_generation local.

Definition replicate_tensor (plan : V4TrainingPlan) (shard : V4LocalTensorShard) : vtask unit :=
  match find_shard shard.(V4LocalTensorShard_shard_id) plan.(V4TrainingPlan_shards) with
  | None => Done tt
  | Some ownership =>
      for_task (fun replica =>
        if replica == local then Done tt
        else ignore (send_control_message replica (TrainingV4Message_TensorReplica
               (replica_message shard ownership.(V4ShardOwnership_ownership_generation)))))
        ownership.(V4ShardOwnership_replicas)
  end.

Definition backward_result (request_id job_id : JobId) (plan_generation shard_id sequence : N)
    (shard : V4LocalTensorShard) (gradients : list Z * list Z) (optimizer : option (ArtifactId * N))
    : V4TensorBackwardResult :=
  mkV4TensorBackwardResult request_id job_id plan_generation shard_id sequence gradients.1 gradients.2
    shard.(V4LocalTensorShard_state_hash)
    shard.(V4LocalTensorShard_state_generation) (fst <$> optimizer)
    (match optimizer with Some optimizer => optimizer.2 | None => 0 end).

Definition receive_tensor_backward (peer : NodeId) (backward : V4TensorBackward) : v4 unit :=
  let job_id := backward.(V4TensorBackward_job_id) in
  let key := (job_id, backward.(V4TensorBackward_shard_id)) in
  let sequence := backward.(V4TensorBackward_sequence) in
  try! plan := authorized_reference_plan peer job_id backward.(V4TensorBackward_plan_generation) in
  reject_if (negb (owns_tensor plan backward.(V4TensorBackward_model_generation)
                     backward.(V4TensorBackward_shard_id)))
    "V4 tensor backward is not authorized for this plan shard" ?!
  let! known := reading (fun _ s => s.(V4State_tensor_shards) !! key) in
  try! shard := expect "V4 tensor shard is unavailable" known in
  reject_if
    (negb (shard.(V4LocalTensorShard_plan_generation) =? backward.(V4TensorBackward_plan_generation))
     || negb (shard.(V4LocalTensorShard_model_generation) =? backward.(V4TensorBackward_model_generation))
     || negb (shard.(V4LocalTensorShard_cols) =? len backward.(V4TensorBackward_input))
     || negb (shard.(V4LocalTensorShard_rows) =? len backward.(V4TensorBackward_upstream)))
    "V4 tensor backward generation or shape mismatch" ?!
  reject_if (sequence <? shard.(V4LocalTensorShard_last_sequence))
    "V4 tensor backward sequence is stale or replayed" ?!
  try! gradients := tensor_gradients plan shard backward.(V4TensorBackward_upstream)
    backward.(V4TensorBackward_plan_generation) backward.(V4TensorBackward_model_generation)
    backward.(V4TensorBackward_shard_id) in
  try! stepped := apply_gradients
    (shard.(V4LocalTensorShard_job_id), shard.(V4LocalTensorShard_shard_id)) shard
    backward.(V4TensorBackward_learning_rate_micros) gradients.1 sequence in
  try! optimizer := apply_optimizer key (sequence =? shard.(V4LocalTensorShard_last_sequence))
    backward.(V4TensorBackward_plan_generation) gradients.1 sequence in
  replicate_tensor plan stepped ;!
  deliver_v4_message peer job_id (TrainingV4Message_TensorBackwardResult
    (backward_result backward.(V4TensorBackward_request_id) job_id
       backward.(V4TensorBackward_plan_generation) backward.(V4TensorBackward_shard_id) sequence stepped
       gradients optimizer)).
(** ** The same on the shards of the node that drives the job *)

Definition install_local_tensor_shard (install : V4TensorInstall) : v4 unit :=
  let key := (install.(V4TensorInstall_job_id), install.(V4TensorInstall_shard_id)) in
  let fresh :=
    let shard := installed_tensor install in
    reject_if (negb (valid_local_tensor_shard shard)) "integrated V4 local tensor shard is invalid" ?!
    persist_tensor_shard shard ?!
    insert_tensor shard ;!
    Done (Ok tt) in
  let! existing := reading (fun _ s => s.(V4State_tensor_shards) !! key) in
  match existing with
  | None => fresh
  | Some existing =>
      reject_if (install.(V4TensorInstall_plan_generation)
                 <? existing.(V4LocalTensorShard_plan_generation))
        "stale tensor shard install would regress the active plan generation" ?!
      if same_shape existing install
         && (existing.(V4LocalTensorShard_plan_generation) <=? install.(V4TensorInstall_plan_generation))
         && ((1 <? existing.(V4LocalTensorShard_state_generation))
             || (existing.(V4LocalTensorShard_state_hash) != install.(V4TensorInstall_state_hash)))
         && valid_local_tensor_shard existing
      then
        let promoted := set_V4LocalTensorShard_plan_generation
                          install.(V4TensorInstall_plan_generation) existing in
        persist_tensor_shard promoted ?!
        updating (fun _ s =>
          set_V4State_tensor_shards (<[key := promoted]> s.(V4State_tensor_shards)) s) ;!
        Done (Ok tt)
      else fresh
  end.

Definition local_tensor_forward (plan : V4TrainingPlan) (graph_generation : N) (job_id : JobId)
    (shard_id : N) (input : list Z) : v4 (list Z) :=
  let! known := reading (fun _ s => s.(V4State_tensor_shards) !! (job_id, shard_id)) in
  try! shard := expect "local V4 tensor shard is unavailable" known in
  reject_if (negb (valid_local_tensor_shard shard)
             || negb (shard.(V4LocalTensorShard_cols) =? len input))
    "local V4 tensor forward shape or integrity mismatch" ?!
  execute_backend_task plan local ComputeTaskKind_TensorForward
    (ComputeOperation_MatrixVector shard.(V4LocalTensorShard_rows) shard.(V4LocalTensorShard_cols))
    shard.(V4LocalTensorShard_cols) shard.(V4LocalTensorShard_rows)
    [f32_input shard.(V4LocalTensorShard_weights); f32_input input]
    graph_generation shard.(V4LocalTensorShard_model_generation) shard_id 8000.

Definition local_tensor_backward (plan : V4TrainingPlan) (job_id : JobId) (plan_generation : N)
    (shard_spec : V4ShardOwnership) (sequence : N) (input upstream : list Z) : v4 V4TensorBackwardResult :=
  let key := (job_id, shard_spec.(V4ShardOwnership_shard_id)) in
  let! known := reading (fun _ s => s.(V4State_tensor_shards) !! key) in
  try! shard := expect "local V4 tensor shard is unavailable" known in
  reject_if
    (negb (shard.(V4LocalTensorShard_plan_generation) =? plan_generation)
     || negb (shard.(V4LocalTensorShard_model_generation) =? shard_spec.(V4ShardOwnership_model_generation))
     || negb (shard.(V4LocalTensorShard_cols) =? len input)
     || negb (shard.(V4LocalTensorShard_rows) =? len upstream))
    "local V4 tensor backward generation, shape, or sequence mismatch" ?!
  reject_if (sequence <? shard.(V4LocalTensorShard_last_sequence))
    "local V4 tensor backward sequence is stale or replayed" ?!
  try! gradients := tensor_gradients plan shard upstream plan.(V4TrainingPlan_plan_generation)
    shard.(V4LocalTensorShard_model_generation) shard.(V4LocalTensorShard_shard_id) in
  try! stepped := apply_gradients key shard 100000 gradients.1 sequence in
  try! optimizer := apply_optimizer key (sequence =? shard.(V4LocalTensorShard_last_sequence))
    plan_generation gradients.1 sequence in
  Done (Ok (backward_result JobId_default job_id plan_generation stepped.(V4LocalTensorShard_shard_id)
              sequence stepped gradients optimizer)).

Definition install_local_optimizer_state (install : V4OptimizerStateInstall) : v4 unit :=
  let key := (install.(V4OptimizerStateInstall_job_id), install.(V4OptimizerStateInstall_shard_id)) in
  let fresh :=
    let state := state_of_install install in
    reject_if (negb (valid_local_optimizer_state state)) "V4 local optimizer state is invalid" ?!
    persist_optimizer_state state ?!
    insert_optimizer_state key state ;!
    Done (Ok tt) in
  let! existing := reading (fun _ s => s.(V4State_optimizer_states) !! key) in
  match existing with
  | None => fresh
  | Some existing =>
      reject_if
        (negb (existing.(V4LocalOptimizerState_model_generation)
               =? install.(V4OptimizerStateInstall_model_generation))
         || negb (len existing.(V4LocalOptimizerState_values)
                  =? len install.(V4OptimizerStateInstall_values)))
        "V4 local optimizer state conflicts with model shard" ?!
      if install.(V4OptimizerStateInstall_state_generation)
         <=? existing.(V4LocalOptimizerState_state_generation)
      then
        let promoted := promote_optimizer_state existing install in
        persist_optimizer_state promoted ?!
        insert_optimizer_state key promoted ;!
        Done (Ok tt)
      else fresh
  end.

(** ** Pipeline stages *)

Definition installed_stage (install : V4PipelineInstall) : V4LocalPipelineStage :=
  mkV4LocalPipelineStage install.(V4PipelineInstall_job_id) install.(V4PipelineInstall_plan_generation)
    install.(V4PipelineInstall_stage_id) install.(V4PipelineInstall_stage_count)
    install.(V4PipelineInstall_coefficient) install.(V4PipelineInstall_bias)
    install.(V4PipelineInstall_state_hash).

Definition insert_stage (stage : V4LocalPipelineStage) : vtask unit :=
  updating (fun _ s => set_V4State_pipeline_stages
    (<[(stage.(V4LocalPipelineStage_job_id), stage.(V4LocalPipelineStage_stage_id)) := stage]>
       s.(V4State_pipeline_stages)) s).

Definition install_local_pipeline_stage (install : V4PipelineInstall) : v4 unit :=
  let stage := installed_stage install in
  reject_if
    ((pipeline_hash install.(V4PipelineInstall_coefficient) install.(V4PipelineInstall_bias)
      != install.(V4PipelineInstall_state_hash))
     || negb (install.(V4PipelineInstall_stage_count) =? 2)
     || (install.(V4PipelineInstall_stage_count) <=? install.(V4PipelineInstall_stage_id)))
    "integrated V4 local pipeline stage is invalid" ?!
  persist_pipeline_stage stage ?!
  insert_stage stage ;!
  Done (Ok tt).

(** The stage may be installed here: it is the node's in the graph, or the plan is a reference
    plan of the sender. *)
Definition pipeline_install_plan (peer : NodeId) (install : V4PipelineInstall) : v4 V4TrainingPlan :=
  let job_id := install.(V4PipelineInstall_job_id) in
  try! integrated :=
    authorized_integrated_pipeline_context peer job_id install.(V4PipelineInstall_plan_generation) in
  match integrated with
  | Some (plan, graph) =>
      reject_if (negb (is_some_and
          (find_stage install.(V4PipelineInstall_stage_id) graph.(V4ExecutionGraph_pipeline_stages))
          (fun stage =>
             ((stage.(V4PipelineStageAssignment_worker) == local)
              || contains local stage.(V4PipelineStageAssignment_replicas))
             && (peer == graph.(V4ExecutionGraph_coordinator)))))
        "integrated V4 pipeline install sender or stage target is unauthorized" ?!
      Done (Ok plan)
  | None => authorized_reference_plan peer job_id install.(V4PipelineInstall_plan_generation)
  end.

Definition same_stage (stage : V4LocalPipelineStage) (install : V4PipelineInstall) : bool :=
  (stage.(V4LocalPipelineStage_stage_count) =? install.(V4PipelineInstall_stage_count))
  && (stage.(V4LocalPipelineStage_coefficient) =? install.(V4PipelineInstall_coefficient))%Z
  && (stage.(V4LocalPipelineStage_bias) =? install.(V4PipelineInstall_bias))%Z
  && (stage.(V4LocalPipelineStage_state_hash) == install.(V4PipelineInstall_state_hash)).

Definition ack_stage (peer : NodeId) (install : V4PipelineInstall) : v4 unit :=
  send_v4_control_message peer (TrainingV4Message_PipelineInstallAck
    (mkV4PipelineInstallAck install.(V4PipelineInstall_job_id)
       install.(V4PipelineInstall_plan_generation) install.(V4PipelineInstall_stage_id)
       install.(V4PipelineInstall_state_hash) true)).

Definition receive_pipeline_install (peer : NodeId) (install : V4PipelineInstall) : v4 unit :=
  let key := (install.(V4PipelineInstall_job_id), install.(V4PipelineInstall_stage_id)) in
  validated (v4_pipeline_install install) ?!
  reject_if (pipeline_hash install.(V4PipelineInstall_coefficient) install.(V4PipelineInstall_bias)
             != install.(V4PipelineInstall_state_hash))
    "V4 pipeline stage integrity check failed" ?!
  try! plan := pipeline_install_plan peer install in
  reject_if
    (negb (is_pipeline_plan plan)
     || negb (plan.(V4TrainingPlan_pipeline_stages) =? install.(V4PipelineInstall_stage_count))
     || negb (install.(V4PipelineInstall_stage_count) =? 2)
     || (install.(V4PipelineInstall_stage_count) <=? install.(V4PipelineInstall_stage_id))
     || negb (contains local plan.(V4TrainingPlan_workers)))
    "V4 pipeline install is not authorized for this plan stage" ?!
  let! existing := reading (fun _ s => s.(V4State_pipeline_stages) !! key) in
  match existing with
  | Some existing =>
      if (existing.(V4LocalPipelineStage_plan_generation) =? install.(V4PipelineInstall_plan_generation))
         && same_stage existing install
      then ack_stage peer install
      else if (existing.(V4LocalPipelineStage_plan_generation)
               <? install.(V4PipelineInstall_plan_generation))
              && same_stage existing install
      then
        let promoted := set_V4LocalPipelineStage_plan_generation
                          install.(V4PipelineInstall_plan_generation) existing in
        persist_pipeline_stage promoted ?!
        updating (fun _ s =>
          set_V4State_pipeline_stages (<[key := promoted]> s.(V4State_pipeline_stages)) s) ;!
        ack_stage peer install
      else refuse "V4 pipeline stage conflicts with existing state"
  | None =>
      let! full := reading (fun _ s =>
        V4_MAX_PIPELINE_STAGES <=? N.of_nat (size s.(V4State_pipeline_stages))) in
      reject_if full "V4 pipeline stage entry limit reached" ?!
      let stage := installed_stage install in
      persist_pipeline_stage stage ?!
      insert_stage stage ;!
      ack_stage peer install
  end.

(** The plan of a pipeline operation, with its graph when the job is an integrated one; [reply_to]
    is the proposer of a reference plan. *)
Definition pipeline_context (peer reply_to : NodeId) (job_id : JobId) (plan_generation : N)
    : v4 (V4TrainingPlan * option V4ExecutionGraph) :=
  try! integrated := authorized_integrated_pipeline_context peer job_id plan_generation in
  match integrated with
  | Some (plan, graph) => Done (Ok (plan, Some graph))
  | None =>
      try! plan := authorized_reference_plan reply_to job_id plan_generation in
      Done (Ok (plan, None))
  end.

(** The workers of the two stages of a graph. *)
Definition stage_workers (graph : V4ExecutionGraph) : option (NodeId * NodeId) :=
  zero ← find_stage 0 graph.(V4ExecutionGraph_pipeline_stages);
  one ← find_stage 1 graph.(V4ExecutionGraph_pipeline_stages);
  Some (zero.(V4PipelineStageAssignment_worker), one.(V4PipelineStageAssignment_worker)).

Definition stage_is_local (graph : V4ExecutionGraph) (stage_id : N) : bool :=
  is_some_and (find_stage stage_id graph.(V4ExecutionGraph_pipeline_stages))
    (fun stage => stage.(V4PipelineStageAssignment_worker) == local).

Definition forward_route (peer : NodeId) (forward : V4PipelineForward) (graph : V4ExecutionGraph) : bool :=
  is_some_and (stage_workers graph) (fun workers =>
    (forward.(V4PipelineForward_reply_to) == graph.(V4ExecutionGraph_coordinator))
    && stage_is_local graph forward.(V4PipelineForward_stage_id)
    && match forward.(V4PipelineForward_stage_id) with
       | 0 => (peer == graph.(V4ExecutionGraph_coordinator))
              && (forward.(V4PipelineForward_next_stage) == Some workers.2)
       | 1 => (peer == workers.1) && bool_decide (forward.(V4PipelineForward_next_stage) = None)
       | _ => false
       end).

(** The two stages of an integrated graph of the plan: the proposer's, then this node's. *)
Definition proposer_then_local (plan : V4TrainingPlan) (graph : V4ExecutionGraph) : bool :=
  (graph.(V4ExecutionGraph_plan_hash) == plan.(V4TrainingPlan_plan_hash))
  && (0 <? graph.(V4ExecutionGraph_graph_generation))
  && match graph.(V4ExecutionGraph_pipeline_stages) with
     | [zero; one] =>
         (zero.(V4PipelineStageAssignment_worker) == plan.(V4TrainingPlan_proposer))
         && (one.(V4PipelineStageAssignment_worker) == local)
     | _ => false
     end.

(** The route of a reference plan. *)
Definition reference_forward_route (peer : NodeId) (forward : V4PipelineForward) (plan : V4TrainingPlan)
    : vtask bool :=
  let stage_id := forward.(V4PipelineForward_stage_id) in
  let! direct :=
    (if (stage_id =? 1) && (peer == plan.(V4TrainingPlan_proposer)) then
       let! graph := active_graph forward.(V4PipelineForward_job_id) in
       Done (is_some_and graph (proposer_then_local plan))
     else Done false) in
  Done (((stage_id =? 0) && (peer == plan.(V4TrainingPlan_proposer)))
        || ((0 <? stage_id) && ((peer != plan.(V4TrainingPlan_proposer)) || direct))).

Definition deliver_pipeline_result (reply_to : NodeId) (job_id : JobId) (message : TrainingV4Message)
    : v4 unit := deliver_v4_message reply_to job_id message.

Definition receive_pipeline_forward (peer : NodeId) (forward : V4PipelineForward) : v4 unit :=
  let job_id := forward.(V4PipelineForward_job_id) in
  let stage_id := forward.(V4PipelineForward_stage_id) in
  let stage_count := forward.(V4PipelineForward_stage_count) in
  try! context := pipeline_context peer forward.(V4PipelineForward_reply_to) job_id
                    forward.(V4PipelineForward_plan_generation) in
  let plan := context.1 in
  let! route_authorized := match context.2 with
                           | Some graph => Done (forward_route peer forward graph)
                           | None => reference_forward_route peer forward plan
                           end in
  reject_if
    (negb (is_pipeline_plan plan)
     || negb (plan.(V4TrainingPlan_pipeline_stages) =? stage_count)
     || negb (stage_count =? 2)
     || (stage_count <=? stage_id)
     || negb (contains local plan.(V4TrainingPlan_workers))
     || is_some_and forward.(V4PipelineForward_next_stage)
          (fun next_stage => negb (contains next_stage plan.(V4TrainingPlan_workers)))
     || negb route_authorized)
    "V4 pipeline forward is not authorized for this plan route" ?!
  let! known := reading (fun _ s => s.(V4State_pipeline_stages) !! (job_id, stage_id)) in
  try! stage := expect "V4 pipeline stage is unavailable" known in
  reject_if
    (negb (stage.(V4LocalPipelineStage_plan_generation) =? forward.(V4PipelineForward_plan_generation))
     || negb (stage.(V4LocalPipelineStage_stage_count) =? stage_count)
     || negb (stage.(V4LocalPipelineStage_stage_count) =? 2))
    "V4 pipeline generation mismatch" ?!
  try! activation := execute_backend_task plan local ComputeTaskKind_PipelineForward
    (ComputeOperation_Affine stage.(V4LocalPipelineStage_coefficient) stage.(V4LocalPipelineStage_bias))
    (len forward.(V4PipelineForward_activation)) (len forward.(V4PipelineForward_activation))
    [f32_input forward.(V4PipelineForward_activation)] forward.(V4PipelineForward_plan_generation) 1
    stage_id (N.min forward.(V4PipelineForward_deadline_ms) u32_max) in
  match forward.(V4PipelineForward_next_stage) with
  | Some next_stage =>
      reject_if (stage_count <=? sat_add u16_max stage_id 1)
        "V4 pipeline stage has an invalid successor" ?!
      deliver_v4_message next_stage job_id (TrainingV4Message_PipelineForward
        (mkV4PipelineForward forward.(V4PipelineForward_request_id) job_id
           forward.(V4PipelineForward_plan_generation) (stage_id + 1) stage_count
           forward.(V4PipelineForward_microbatch) activation None forward.(V4PipelineForward_reply_to)
           forward.(V4PipelineForward_deadline_ms)))
  | None =>
      reject_if (negb (sat_add u16_max stage_id 1 =? stage_count))
        "V4 pipeline stage is missing its required successor" ?!
      deliver_pipeline_result forward.(V4PipelineForward_reply_to) job_id
        (TrainingV4Message_PipelineForwardResult
           (mkV4PipelineForwardResult forward.(V4PipelineForward_request_id) job_id
              forward.(V4PipelineForward_plan_generation) forward.(V4PipelineForward_microbatch)
              stage_id activation stage.(V4LocalPipelineStage_state_hash)))
  end.

Definition backward_route (peer : NodeId) (backward : V4PipelineBackward) (graph : V4ExecutionGraph) : bool :=
  is_some_and (stage_workers graph) (fun workers =>
    (graph.(V4ExecutionGraph_coordinator) == backward.(V4PipelineBackward_reply_to))
    && stage_is_local graph backward.(V4PipelineBackward_stage_id)
    && match backward.(V4PipelineBackward_stage_id) with
       | 0 => (peer == workers.2) && bool_decide (backward.(V4PipelineBackward_previous_stage) = None)
       | 1 => (peer == graph.(V4ExecutionGraph_coordinator))
              && (backward.(V4PipelineBackward_previous_stage) == Some workers.1)
       | _ => false
       end).

Definition receive_pipeline_backward (peer : NodeId) (backward : V4PipelineBackward) : v4 unit :=
  let job_id := backward.(V4PipelineBackward_job_id) in
  let stage_id := backward.(V4PipelineBackward_stage_id) in
  let stage_count := backward.(V4PipelineBackward_stage_count) in
  let previous_stage := backward.(V4PipelineBackward_previous_stage) in
  try! context := pipeline_context peer backward.(V4PipelineBackward_reply_to) job_id
                    backward.(V4PipelineBackward_plan_generation) in
  let plan := context.1 in
  let route_authorized :=
    match context.2 with
    | Some graph => backward_route peer backward graph
    | None => ((stage_id =? 1) && (peer == plan.(V4TrainingPlan_proposer)))
              || ((stage_id =? 0) && (peer != plan.(V4TrainingPlan_proposer)))
    end in
  reject_if
    (negb (is_pipeline_plan plan)
     || negb (plan.(V4TrainingPlan_pipeline_stages) =? stage_count)
     || negb (stage_count =? 2)
     || (stage_count <=? stage_id)
     || negb (contains local plan.(V4TrainingPlan_workers))
     || is_some_and previous_stage
          (fun previous_stage => negb (contains previous_stage plan.(V4TrainingPlan_workers)))
     || negb route_authorized)
    "V4 pipeline backward is not authorized for this plan route" ?!
  let! known := reading (fun _ s => s.(V4State_pipeline_stages) !! (job_id, stage_id)) in
  try! stage := expect "V4 pipeline stage is unavailable" known in
  reject_if
    (negb (stage.(V4LocalPipelineStage_plan_generation) =? backward.(V4PipelineBackward_plan_generation))
     || negb (stage.(V4LocalPipelineStage_stage_count) =? stage_count)
     || negb (stage.(V4LocalPipelineStage_stage_count) =? 2)
     || (stage_count <=? stage_id))
    "V4 pipeline backward generation mismatch" ?!
  reject_if (bool_decide (is_Some previous_stage) && (stage_id =? 0))
    "V4 pipeline stage zero cannot send backward to a previous stage" ?!
  reject_if (bool_decide (previous_stage = None) && negb (stage_id =? 0))
    "V4 pipeline backward route terminated before stage zero" ?!
  try! gradient := execute_backend_task plan local ComputeTaskKind_PipelineBackward
    (ComputeOperation_Gradient stage.(V4LocalPipelineStage_coefficient))
    (len backward.(V4PipelineBackward_gradient)) (len backward.(V4PipelineBackward_gradient))
    [f32_input backward.(V4PipelineBackward_gradient)] backward.(V4PipelineBackward_plan_generation) 1
    stage_id (N.min backward.(V4PipelineBackward_deadline_ms) u32_max) in
  match previous_stage with
  | Some previous_stage =>
      deliver_v4_message previous_stage job_id (TrainingV4Message_PipelineBackward
        (mkV4PipelineBackward backward.(V4PipelineBackward_request_id) job_id
           backward.(V4PipelineBackward_plan_generation) (sat_sub stage_id 1) stage_count
           backward.(V4PipelineBackward_microbatch) gradient None
           backward.(V4PipelineBackward_reply_to) backward.(V4PipelineBackward_deadline_ms)))
  | None =>
      deliver_pipeline_result backward.(V4PipelineBackward_reply_to) job_id
        (TrainingV4Message_PipelineBackwardResult
           (mkV4PipelineBackwardResult backward.(V4PipelineBackward_request_id) job_id
              backward.(V4PipelineBackward_plan_generation) backward.(V4PipelineBackward_microbatch)
              stage_id gradient stage.(V4LocalPipelineStage_state_hash)))
  end.

Definition local_stage (job_id : JobId) (plan_generation stage_id : N) : v4 V4LocalPipelineStage :=
  let! known := reading (fun _ s => s.(V4State_pipeline_stages) !! (job_id, stage_id)) in
  try! stage := expect "local V4 pipeline stage is unavailable" known in
  reject_if (negb (stage.(V4LocalPipelineStage_plan_generation) =? plan_generation))
    "local V4 pipeline stage generation mismatch" ?!
  Done (Ok stage).

Definition local_pipeline_stage_forward (plan : V4TrainingPlan) (job_id : JobId)
    (plan_generation stage_id : N) (activation : list Z) : v4 (list Z) :=
  try! stage := local_stage job_id plan_generation stage_id in
  execute_backend_task plan local ComputeTaskKind_PipelineForward
    (ComputeOperation_Affine stage.(V4LocalPipelineStage_coefficient) stage.(V4LocalPipelineStage_bias))
    (len activation) (len activation) [f32_input activation] plan_generation 1 stage_id 8000.

Definition local_pipeline_stage_backward (plan : V4TrainingPlan) (job_id : JobId)
    (plan_generation stage_id : N) (gradient : list Z) : v4 (list Z) :=
  try! stage := local_stage job_id plan_generation stage_id in
  execute_backend_task plan local ComputeTaskKind_PipelineBackward
    (ComputeOperation_Gradient stage.(V4LocalPipelineStage_coefficient))
    (len gradient) (len gradient) [f32_input gradient] plan_generation 1 stage_id 8000.
End Data.
