(* ===== verification/V4Node.v ===== *)
(** * Frontier training: collectives, messages and restarts (crates/node/src/frontier_training.rs)

    Sums over groups of workers, robust aggregation, reconciliation of branches; the handler of all
    messages of planned jobs; what a node reads back from disk and resumes. *)

From Stdlib Require Import String ZArith NArith Lia.
From stdpp Require Import base tactics sets strings numbers list gmap.
From S2P Require Import Prelude OrdMap Types Validation FileSystem Storage Aggregation Compute Float32 Planner Runtime Trust Security Network NodeConfig Tasks V4Model V4Control V4Integrated V4Data.
Local Open Scope N_scope.
Local Open Scope rust_scope.

(** ** Collective states *)

Definition collective_of_contribution (c : V4CollectiveContribute) : V4CollectiveState :=
  mkV4CollectiveState c.(V4CollectiveContribute_job_id) c.(V4CollectiveContribute_plan_generation)
    c.(V4CollectiveContribute_generation) c.(V4CollectiveContribute_expected_contributors)
    c.(V4CollectiveContribute_expected_groups) c.(V4CollectiveContribute_group_id)
    c.(V4CollectiveContribute_parent) c.(V4CollectiveContribute_reply_to)
    (len c.(V4CollectiveContribute_values)) ∅ ∅.

Definition collective_of_aggregate (a : V4CollectiveAggregate) : V4CollectiveState :=
  mkV4CollectiveState a.(V4CollectiveAggregate_job_id) a.(V4CollectiveAggregate_plan_generation)
    a.(V4CollectiveAggregate_generation) 0 a.(V4CollectiveAggregate_expected_groups) 0 None
    a.(V4CollectiveAggregate_reply_to) (len a.(V4CollectiveAggregate_values)) ∅ ∅.

Definition collective_of_completion (c : V4CollectiveCompletion) : V4CollectiveState :=
  mkV4CollectiveState c.(V4CollectiveCompletion_job_id) c.(V4CollectiveCompletion_plan_generation)
    c.(V4CollectiveCompletion_generation) 0 c.(V4CollectiveCompletion_expected_groups)
    c.(V4CollectiveCompletion_group_id) None c.(V4CollectiveCompletion_reply_to)
    (len c.(V4CollectiveCompletion_values)) ∅ ∅.

(** The fields that every message of a collective repeats. *)
Definition collective_matches (state : V4CollectiveState) (job_id : JobId)
    (plan_generation generation expected_groups : N) (reply_to : NodeId) (value_len : N) : bool :=
  (state.(V4CollectiveState_job_id) == job_id)
  && (state.(V4CollectiveState_plan_generation) =? plan_generation)
  && (state.(V4CollectiveState_generation) =? generation)
  && (state.(V4CollectiveState_expected_groups) =? expected_groups)
  && (state.(V4CollectiveState_reply_to) == reply_to)
  && (state.(V4CollectiveState_value_len) =? value_len).

Definition group_matches (state : V4CollectiveState) (c : V4CollectiveContribute) : bool :=
  (state.(V4CollectiveState_expected_contributors) =? c.(V4CollectiveContribute_expected_contributors))
  && (state.(V4CollectiveState_group_id) =? c.(V4CollectiveContribute_group_id))
  && (state.(V4CollectiveState_parent) == c.(V4CollectiveContribute_parent)).

(** The group of a state that an aggregate created first. *)
Definition set_group (c : V4CollectiveContribute) (state : V4CollectiveState) : V4CollectiveState :=
  set_V4CollectiveState_parent c.(V4CollectiveContribute_parent)
    (set_V4CollectiveState_group_id c.(V4CollectiveContribute_group_id)
       (set_V4CollectiveState_expected_contributors
          c.(V4CollectiveContribute_expected_contributors) state)).

(** A value is recorded once per key; another one under the same key is a conflict. *)
Definition record_once {K V} `{Countable K} `{EqDecision V} (key : K) (value : V) (m : gmap K V)
    : option (gmap K V) :=
  match m !! key with
  | None => Some (<[key := value]> m)
  | Some known => if known == value then Some m else None
  end.

(** A complete group: its sum, the number of contributors, and where it goes. *)
Record GroupSum := mkGroupSum {
  GroupSum_values : list Z;
  GroupSum_contributors : N;
  GroupSum_expected_groups : N;
  GroupSum_group_id : N;
  GroupSum_parent : option NodeId;
  GroupSum_reply_to : NodeId
}.

(** The contributions are added up when all have arrived. *)
Definition complete_group (order : list nat) (state : V4CollectiveState)
    : option GroupSum * V4CollectiveState :=
  let contributions := state.(V4CollectiveState_contributions) in
  if N.of_nat (size contributions) =? state.(V4CollectiveState_expected_contributors) then
    let sum := sum_vectors (shuffle order (map_values contributions)) in
    let contributors := state.(V4CollectiveState_expected_contributors) in
    (Some (mkGroupSum sum contributors state.(V4CollectiveState_expected_groups)
             state.(V4CollectiveState_group_id) state.(V4CollectiveState_parent)
             state.(V4CollectiveState_reply_to)),
     set_V4CollectiveState_contributions ∅
       (set_V4CollectiveState_groups
          (<[state.(V4CollectiveState_group_id) := (sum, contributors)]> state.(V4CollectiveState_groups))
          state))
  else (None, state).

(** A contribution joins the state of its request. *)
Definition join_contribution (order : list nat) (c : V4CollectiveContribute) (state : V4CollectiveState)
    : result (option GroupSum) NodeError * V4CollectiveState :=
  let aggregate_first := state.(V4CollectiveState_expected_contributors) =? 0 in
  if negb (collective_matches state c.(V4CollectiveContribute_job_id)
             c.(V4CollectiveContribute_plan_generation) c.(V4CollectiveContribute_generation)
             c.(V4CollectiveContribute_expected_groups) c.(V4CollectiveContribute_reply_to)
             (len c.(V4CollectiveContribute_values)))
     || (negb aggregate_first && negb (group_matches state c))
  then (Err (invalid_config "V4 collective state conflicts with existing generation"), state)
  else
    let state := if aggregate_first then set_group c state else state in
    match record_once c.(V4CollectiveContribute_contributor) c.(V4CollectiveContribute_values)
            state.(V4CollectiveState_contributions) with
    | None =>
        (Err (invalid_config "V4 collective duplicate contributor has conflicting values"), state)
    | Some contributions =>
        let '(sum, state) :=
          complete_group order (set_V4CollectiveState_contributions contributions state) in
        (Ok sum, state)
    end.

(** The sum of all groups and the number of contributors, when every group has reported. *)
Definition total_of_groups (order : list nat) (expected_groups : N) (state : V4CollectiveState)
    : option (list Z * N) :=
  let groups := state.(V4CollectiveState_groups) in
  if N.of_nat (size groups) =? expected_groups then
    let reports := shuffle order (map_values groups) in
    Some (sum_vectors reports.*1,
          fold_left (fun total report => sat_add u16_max total report.2) reports 0)
  else None.

(** The report of a group joins the state. *)
Definition join_group (order : list nat) (group_id : N) (values : list Z) (contributors : N)
    (expected_groups : N) (conflict : str) (state : V4CollectiveState)
    : result (option (list Z * N)) NodeError * V4CollectiveState :=
  match record_once group_id (values, contributors) state.(V4CollectiveState_groups) with
  | None => (Err (invalid_config conflict), state)
  | Some groups =>
      let state := set_V4CollectiveState_groups groups state in
      (Ok (total_of_groups order expected_groups state), state)
  end.

Section Node.
Context `{Blake3} `{PlanPostcard} `{V4Json} `{Profile} `{ContributionPostcard}.
Context (security_to_allocvec : LocalSecurityState -> result (list N) str).
Context (NodeError_to_string : NodeError -> str).
Context (local : NodeId) (store : LocalStore) (arch : str) (host_memory : N) (fuel : nat).
Notation persist_security_state := (persist_security_state security_to_allocvec store).
Notation deliver_v4_message := (deliver_v4_message local).
Notation authorized_reference_plan := (authorized_reference_plan local).

(** Under the lock of the collectives: the state of the request, or a new one while there is room. *)
Definition with_collective {A} (request_id : JobId) (fresh : V4CollectiveState)
    (f : list nat -> V4CollectiveState -> result A NodeError * V4CollectiveState) : v4 A :=
  atomic (fun e s =>
    let states := s.(V4State_collectives) in
    if bool_decide (states !! request_id = None)
       && (V4_MAX_AGGREGATION_REQUESTS <=? N.of_nat (size states))
    then (Err (invalid_config "V4 collective request limit reached"), s, [])
    else
      let '(r, state) := f e.(ve_order) (default fresh (states !! request_id)) in
      (r, set_V4State_collectives (<[request_id := state]> states) s, [])).

Definition remove_collective (request_id : JobId) : vtask unit :=
  updating (fun _ s => set_V4State_collectives (delete request_id s.(V4State_collectives)) s).

Definition collective_result (request_id job_id : JobId) (plan_generation generation groups : N)
    (values : list Z) (contributors : N) : V4CollectiveResult :=
  mkV4CollectiveResult request_id job_id plan_generation generation values groups 2
    (sat_mul u64_max (sat_mul u64_max contributors (len values)) 8)
    (sat_mul u64_max (sat_mul u64_max groups (len values)) 8).

Definition finish_collective_group (c : V4CollectiveCompletion) : v4 unit :=
  let request_id := c.(V4CollectiveCompletion_request_id) in
  let expected_groups := c.(V4CollectiveCompletion_expected_groups) in
  try! total := with_collective request_id (collective_of_completion c) (fun order state =>
    if negb (collective_matches state c.(V4CollectiveCompletion_job_id)
               c.(V4CollectiveCompletion_plan_generation) c.(V4CollectiveCompletion_generation)
               expected_groups c.(V4CollectiveCompletion_reply_to) (len c.(V4CollectiveCompletion_values)))
    then (Err (invalid_config "V4 collective completion generation conflict"), state)
    else join_group order c.(V4CollectiveCompletion_group_id) c.(V4CollectiveCompletion_values)
           c.(V4CollectiveCompletion_contributors) expected_groups
           "V4 collective completion has conflicting group values" state) in
  match total with
  | None => Done (Ok tt)
  | Some (values, count) =>
      remove_collective request_id ;!
      deliver_v4_message c.(V4CollectiveCompletion_reply_to) c.(V4CollectiveCompletion_job_id)
        (TrainingV4Message_CollectiveResult
           (collective_result request_id c.(V4CollectiveCompletion_job_id)
              c.(V4CollectiveCompletion_plan_generation) c.(V4CollectiveCompletion_generation)
              expected_groups values count))
  end.

Definition contribution_authorized (c : V4CollectiveContribute) (plan : V4TrainingPlan) : bool :=
  is_collective_plan plan
  && contains c.(V4CollectiveContribute_contributor) plan.(V4TrainingPlan_workers)
  && contains c.(V4CollectiveContribute_aggregator) plan.(V4TrainingPlan_workers)
  && is_none_or c.(V4CollectiveContribute_parent)
       (fun parent => contains parent plan.(V4TrainingPlan_workers)).

Definition receive_collective_contribution (peer : NodeId) (c : V4CollectiveContribute) : v4 unit :=
  let key := c.(V4CollectiveContribute_request_id) in
  let job_id := c.(V4CollectiveContribute_job_id) in
  try! plan := authorized_reference_plan c.(V4CollectiveContribute_reply_to) job_id
                 c.(V4CollectiveContribute_plan_generation) in
  reject_if (negb (contribution_authorized c plan))
    "V4 collective contribution is not authorized by the plan" ?!
  if c.(V4CollectiveContribute_aggregator) != local then
    reject_if (c.(V4CollectiveContribute_contributor) != local)
      "V4 collective forward is not bound to the local contributor" ?!
    deliver_v4_message c.(V4CollectiveContribute_aggregator) job_id
      (TrainingV4Message_CollectiveContribute c)
  else
    reject_if ((c.(V4CollectiveContribute_contributor) != local)
               && (c.(V4CollectiveContribute_contributor) != peer))
      "V4 collective contributor/aggregator binding failed" ?!
    try! complete := with_collective key (collective_of_contribution c)
                       (fun order => join_contribution order c) in
    match complete with
    | None => Done (Ok tt)
    | Some sum =>
        match sum.(GroupSum_parent) with
        | Some parent =>
            deliver_v4_message parent job_id (TrainingV4Message_CollectiveAggregate
              (mkV4CollectiveAggregate key job_id c.(V4CollectiveContribute_plan_generation)
                 c.(V4CollectiveContribute_generation) sum.(GroupSum_group_id) local
                 sum.(GroupSum_values) sum.(GroupSum_contributors) sum.(GroupSum_expected_groups)
                 sum.(GroupSum_reply_to)))
        | None => Done (Ok tt)
        end ?!
        finish_collective_group (mkV4CollectiveCompletion key job_id
          c.(V4CollectiveContribute_plan_generation) c.(V4CollectiveContribute_generation)
          sum.(GroupSum_group_id) sum.(GroupSum_values) sum.(GroupSum_contributors)
          sum.(GroupSum_expected_groups) sum.(GroupSum_reply_to))
    end.

Definition receive_collective_aggregate (peer : NodeId) (a : V4CollectiveAggregate) : v4 unit :=
  let request_id := a.(V4CollectiveAggregate_request_id) in
  let job_id := a.(V4CollectiveAggregate_job_id) in
  try! plan := authorized_reference_plan a.(V4CollectiveAggregate_reply_to) job_id
                 a.(V4CollectiveAggregate_plan_generation) in
  reject_if (negb (is_collective_plan plan)
             || negb (contains a.(V4CollectiveAggregate_aggregator) plan.(V4TrainingPlan_workers))
             || (a.(V4CollectiveAggregate_aggregator) != peer))
    "V4 collective aggregate is not authorized by the plan" ?!
  try! total := with_collective request_id (collective_of_aggregate a) (fun order state =>
    if negb (collective_matches state job_id a.(V4CollectiveAggregate_plan_generation)
               a.(V4CollectiveAggregate_generation) a.(V4CollectiveAggregate_expected_groups)
               a.(V4CollectiveAggregate_reply_to) (len a.(V4CollectiveAggregate_values)))
    then (Err (invalid_config "V4 collective aggregate generation conflict"), state)
    else if (a.(V4CollectiveAggregate_aggregator) != peer) && (a.(V4CollectiveAggregate_aggregator) != local)
    then (Err (invalid_config "V4 collective aggregate is not bound to its sender"), state)
    else join_group order a.(V4CollectiveAggregate_group_id) a.(V4CollectiveAggregate_values)
           a.(V4CollectiveAggregate_contributors) state.(V4CollectiveState_expected_groups)
           "V4 collective duplicate group has conflicting values" state) in
  match total with
  | None => Done (Ok tt)
  | Some (values, contributors) =>
      remove_collective request_id ;!
      deliver_v4_message a.(V4CollectiveAggregate_reply_to) job_id (TrainingV4Message_CollectiveResult
        (collective_result request_id job_id a.(V4CollectiveAggregate_plan_generation)
           a.(V4CollectiveAggregate_generation) a.(V4CollectiveAggregate_expected_groups) values
           contributors))
  end.

(** ** Robust aggregation *)

Definition byzantine_of_update (u : V4ByzantineUpdate) : V4ByzantineState :=
  mkV4ByzantineState u.(V4ByzantineUpdate_job_id) u.(V4ByzantineUpdate_plan_generation)
    u.(V4ByzantineUpdate_generation) u.(V4ByzantineUpdate_aggregator)
    u.(V4ByzantineUpdate_expected_updates) u.(V4ByzantineUpdate_policy) u.(V4ByzantineUpdate_reply_to)
    (len u.(V4ByzantineUpdate_values)) ∅ None.

Definition replay_matches (state : V4ByzantineState) (u : V4ByzantineUpdate) : bool :=
  (state.(V4ByzantineState_job_id) == u.(V4ByzantineUpdate_job_id))
  && (state.(V4ByzantineState_plan_generation) =? u.(V4ByzantineUpdate_plan_generation))
  && (state.(V4ByzantineState_generation) =? u.(V4ByzantineUpdate_generation))
  && (state.(V4ByzantineState_policy) == u.(V4ByzantineUpdate_policy))
  && (state.(V4ByzantineState_reply_to) == u.(V4ByzantineUpdate_reply_to)).

Definition update_matches (state : V4ByzantineState) (u : V4ByzantineUpdate) : bool :=
  replay_matches state u
  && (state.(V4ByzantineState_aggregator) == u.(V4ByzantineUpdate_aggregator))
  && (state.(V4ByzantineState_expected_updates) =? u.(V4ByzantineUpdate_expected_updates))
  && (state.(V4ByzantineState_value_len) =? len u.(V4ByzantineUpdate_values)).

(** A worker whose update exceeds the bound of the aggregation. *)
Definition exceeds_bound (entry : NodeId * (N * list Z)) : bool :=
  existsb (fun value => 100 <? unsigned_abs value) entry.2.2.

Definition byzantine_result (u : V4ByzantineUpdate) (updates : list (NodeId * (N * list Z)))
    (aggregate : list Z) : V4ByzantineResult :=
  let rejected := (List.filter exceeds_bound updates).*1 in
  mkV4ByzantineResult u.(V4ByzantineUpdate_request_id) u.(V4ByzantineUpdate_job_id)
    u.(V4ByzantineUpdate_plan_generation) u.(V4ByzantineUpdate_generation) u.(V4ByzantineUpdate_policy)
    aggregate (List.filter (fun worker => negb (contains worker rejected)) updates.*1) rejected
    (u.(V4ByzantineUpdate_policy) != V4ByzantinePolicy_Mean).

(** What an update comes to: an answer given before, nothing yet, or a new result. *)
Inductive ByzantineOutcome :=
  | ByzantineOutcome_Replayed (result : V4ByzantineResult)
  | ByzantineOutcome_Pending
  | ByzantineOutcome_Finished (reply_to : NodeId) (result : V4ByzantineResult).

(** An update joins the state of its request. *)
Definition join_update (order : list nat) (u : V4ByzantineUpdate) (state : V4ByzantineState)
    : result ByzantineOutcome NodeError * V4ByzantineState :=
  match state.(V4ByzantineState_completed) with
  | Some result =>
      (if replay_matches state u then Ok (ByzantineOutcome_Replayed result)
       else Err (invalid_config "V4 Byzantine replay has conflicting lineage"), state)
  | None =>
      if negb (update_matches state u)
      then (Err (invalid_config "V4 Byzantine update generation conflict"), state)
      else
        match record_once u.(V4ByzantineUpdate_worker)
                (u.(V4ByzantineUpdate_sequence), u.(V4ByzantineUpdate_values))
                state.(V4ByzantineState_updates) with
        | None => (Err (invalid_config "V4 Byzantine duplicate worker has conflicting update"), state)
        | Some updates =>
            let state := set_V4ByzantineState_updates updates state in
            if N.of_nat (size updates) =? state.(V4ByzantineState_expected_updates) then
              let arrived := shuffle order (map_to_list updates) in
              (match aggregate_updates state.(V4ByzantineState_policy)
                       ((fun entry => entry.2.2) <$> arrived) 100 with
               | Err error => Err (invalid_config (V4PlannerError_to_string error))
               | Ok report =>
                   Ok (ByzantineOutcome_Finished state.(V4ByzantineState_reply_to)
                         (byzantine_result u arrived report.(V4ByzantineReport_aggregate)))
               end, state)
            else (Ok ByzantineOutcome_Pending, state)
        end
  end.

Definition contribute_update (u : V4ByzantineUpdate) : v4 ByzantineOutcome :=
  atomic (fun e s =>
    let states := s.(V4State_byzantine) in
    let request_id := u.(V4ByzantineUpdate_request_id) in
    if bool_decide (states !! request_id = None)
       && (V4_MAX_AGGREGATION_REQUESTS <=? N.of_nat (size states))
    then (Err (invalid_config "V4 Byzantine aggregation request limit reached"), s, [])
    else
      let '(r, state) := join_update e.(ve_order) u (default (byzantine_of_update u) (states !! request_id)) in
      (r, set_V4State_byzantine (<[request_id := state]> states) s, [])).

Definition contribution_of (u : V4ByzantineUpdate) (plan : V4TrainingPlan) : TrainingContribution :=
  mkTrainingContribution u.(V4ByzantineUpdate_job_id) u.(V4ByzantineUpdate_worker)
    plan.(V4TrainingPlan_branch) u.(V4ByzantineUpdate_plan_generation) u.(V4ByzantineUpdate_generation)
    u.(V4ByzantineUpdate_sequence) u.(V4ByzantineUpdate_values).

(** The local security state admits the update. *)
Definition admit_update (u : V4ByzantineUpdate) (plan : V4TrainingPlan) : v4 unit :=
  let! r := atomic (fun e s =>
    let '(r, security) := admit_training_update s.(V4State_security) (contribution_of u plan)
                            plan.(V4TrainingPlan_workers) e.(ve_now) in
    (r, set_V4State_security security s, [])) in
  match r with
  | Err error => refuse ("V6 training update rejected: " ++ SecurityError_to_string error)%string
  | Ok _ => persist_security_state ;! Done (Ok tt)
  end.

(** The workers whose updates the aggregation left out are remembered. *)
Definition note_rejected (workers : list NodeId) : vtask unit :=
  if is_empty workers then Done tt
  else
    updating (fun e s =>
      set_V4State_security
        (fold_left (fun security worker =>
           record_event security e.(ve_now) (Some worker) SecurityEventKind_TrainingUpdateRejected
             "v4_byzantine_aggregation" "bounded robust aggregation excluded an outlier update")
           workers s.(V4State_security)) s) ;!
    persist_security_state.

Definition complete_byzantine (request_id : JobId) (result : V4ByzantineResult) : vtask unit :=
  updating (fun _ s =>
    set_V4State_byzantine
      (alter (fun state => set_V4ByzantineState_completed (Some result)
                             (set_V4ByzantineState_updates ∅ state)) request_id s.(V4State_byzantine)) s).

Definition receive_byzantine_update (peer : NodeId) (u : V4ByzantineUpdate) : v4 unit :=
  try! plan := authorized_reference_plan u.(V4ByzantineUpdate_reply_to) u.(V4ByzantineUpdate_job_id)
                 u.(V4ByzantineUpdate_plan_generation) in
  reject_if ((plan.(V4TrainingPlan_strategy) != V4ParallelismStrategy_LocalSgd)
             || negb (contains u.(V4ByzantineUpdate_worker) plan.(V4TrainingPlan_workers))
             || negb (contains u.(V4ByzantineUpdate_aggregator) plan.(V4TrainingPlan_workers)))
    "V4 Byzantine update is not authorized by the plan" ?!
  if u.(V4ByzantineUpdate_aggregator) != local then
    reject_if (u.(V4ByzantineUpdate_worker) != local)
      "V4 update forward is not bound to the local worker" ?!
    transmit u.(V4ByzantineUpdate_aggregator) (TrainingV4Message_ByzantineUpdate u)
  else
    reject_if ((u.(V4ByzantineUpdate_worker) != local) && (u.(V4ByzantineUpdate_worker) != peer))
      "V4 update worker binding failed" ?!
    admit_update u plan ?!
    try! outcome := contribute_update u in
    match outcome with
    | ByzantineOutcome_Replayed result =>
        transmit u.(V4ByzantineUpdate_reply_to) (TrainingV4Message_ByzantineResult result)
    | ByzantineOutcome_Pending => Done (Ok tt)
    | ByzantineOutcome_Finished reply_to result =>
        note_rejected result.(V4ByzantineResult_rejected_workers) ;!
        complete_byzantine u.(V4ByzantineUpdate_request_id) result ;!
        transmit reply_to (TrainingV4Message_ByzantineResult result)
    end.

(** ** Branches *)

Definition receive_reconcile (peer : NodeId) (request : V4ReconcileRequest) : v4 unit :=
  reject_if (peer == local) "V4 reconciliation cannot target the local requester" ?!
  match reconcile_branches request.(V4ReconcileRequest_left) request.(V4ReconcileRequest_right)
          request.(V4ReconcileRequest_policy) request.(V4ReconcileRequest_left_value)
          request.(V4ReconcileRequest_right_value) with
  | Err error => refuse (V4PlannerError_to_string error)
  | Ok decision =>
      transmit peer (TrainingV4Message_ReconcileResult
        (mkV4ReconcileResult request.(V4ReconcileRequest_request_id)
           request.(V4ReconcileRequest_job_id) request.(V4ReconcileRequest_plan_generation)
           decision.(V4BranchDecision_accepted) decision.(V4BranchDecision_branch)
           decision.(V4BranchDecision_value) decision.(V4BranchDecision_reason)))
  end.

(** ** All messages *)

(** Answers go to the task of the job. *)
Definition route_to_job (peer : NodeId) (message : TrainingV4Message) : vtask unit :=
  let! mailbox := mailbox_of (message_job_id message) in
  match mailbox with
  | Some mailbox => ignore (mail mailbox (V4Inbound_Message peer message))
  | None => Done tt
  end.

Definition handle_message (peer : NodeId) (message : TrainingV4Message) : vtask unit :=
  match message with
  | TrainingV4Message_PlanProposal plan =>
      ignore (receive_plan_proposal security_to_allocvec local store peer plan)
  | TrainingV4Message_ShardMigrationRequest request =>
      ignore (receive_shard_migration_request local fuel NodeError_to_string peer request)
  | TrainingV4Message_ShardMigration migration => ignore (receive_shard_migration local store peer migration)
  | TrainingV4Message_TensorInstall install => ignore (receive_tensor_install local store peer install)
  | TrainingV4Message_TensorForward forward =>
      ignore (receive_tensor_forward local arch host_memory peer forward)
  | TrainingV4Message_TensorBackward backward =>
      ignore (receive_tensor_backward local store arch host_memory peer backward)
  | TrainingV4Message_PipelineInstall install => ignore (receive_pipeline_install local store peer install)
  | TrainingV4Message_PipelineForward forward =>
      ignore (receive_pipeline_forward local arch host_memory peer forward)
  | TrainingV4Message_PipelineBackward backward =>
      ignore (receive_pipeline_backward local arch host_memory peer backward)
  | TrainingV4Message_CollectiveContribute contribution =>
      ignore (receive_collective_contribution peer contribution)
  | TrainingV4Message_CollectiveAggregate aggregate => ignore (receive_collective_aggregate peer aggregate)
  | TrainingV4Message_ByzantineUpdate update => ignore (receive_byzantine_update peer update)
  | TrainingV4Message_IntegratedStart start =>
      ignore (receive_integrated_start security_to_allocvec local store peer start)
  | TrainingV4Message_IntegratedState state => ignore (receive_integrated_state local store peer state)
  | TrainingV4Message_IntegratedProbe probe => ignore (receive_integrated_probe local peer probe)
  | TrainingV4Message_IntegratedProbeAck ack => ignore (receive_integrated_probe_ack peer ack)
  | TrainingV4Message_IntegratedElectionRequest request =>
      ignore (receive_integrated_election_request local store peer request)
  | TrainingV4Message_TensorReplica replica => ignore (receive_tensor_replica local store peer replica)
  | TrainingV4Message_OptimizerStateInstall install =>
      ignore (receive_optimizer_state_install local store peer install)
  | TrainingV4Message_Reconcile request => ignore (receive_reconcile peer request)
  | TrainingV4Message_Plan plan =>
      receive_plan security_to_allocvec local store NodeError_to_string peer plan
  | TrainingV4Message_StateRecord record =>
      ignore (receive_state_record security_to_allocvec store peer record)
  | TrainingV4Message_OptimizerShard record =>
      ignore (receive_optimizer_shard security_to_allocvec local store peer record)
  | TrainingV4Message_CheckpointRecord record =>
      ignore (receive_checkpoint_record security_to_allocvec local store peer record)
  | _ => route_to_job peer message
  end.

(** ** Challenges of a backend *)

(** At most eight challenges of a peer in a minute. *)
Definition challenge_allowed (now : N) (peer : NodeId) (windows : gmap NodeId (N * N))
    : bool * gmap NodeId (N * N) :=
  let entry := default (now, 0) (windows !! peer) in
  let entry := if 60 <=? sat_sub now entry.1 then (now, 0) else entry in
  if 8 <=? entry.2 then (false, <[peer := entry]> windows)
  else (true, <[peer := (entry.1, sat_add u16_max entry.2 1)]> windows).

Definition allow_challenge (now : N) (peer : NodeId) : vtask bool :=
  atomic (fun _ s =>
    let '(allowed, windows) := challenge_allowed now peer s.(V4State_challenge_windows) in
    (allowed, set_V4State_challenge_windows windows s, [])).

(** [compute.lock().await.challenge(&challenge, now)] *)
Definition run_challenge (challenge : CapabilityChallenge) (now : N) : vtask CapabilityChallengeResult :=
  Step (fun e s =>
      '(result, registry) ← BackendRegistry_challenge (H := AnyBackend_ComputeBackend arch host_memory)
         s.(V4State_compute) challenge now e.(ve_micros) e.(ve_micros);
      Some (result, set_V4State_compute registry s, []))
    Done.

Definition may_challenge (peer : NodeId) (plan : V4TrainingPlan) : bool :=
  contains peer plan.(V4TrainingPlan_workers) || (plan.(V4TrainingPlan_proposer) == peer).

Definition handle_v5_message (peer : NodeId) (message : TrainingV5Message) : vtask unit :=
  match message with
  | TrainingV5Message_CapabilityChallenge challenge =>
      if (challenge.(CapabilityChallenge_worker) != local)
         || (challenge.(CapabilityChallenge_task_kind) != ComputeTaskKind_CapabilityChallenge)
      then Done tt
      else
        let! plan := active_plan challenge.(CapabilityChallenge_job_id) in
        if negb (is_some_and plan (may_challenge peer)) then Done tt
        else
          let! now := clock in
          let now := N.max now 1 in
          let! allowed := allow_challenge now peer in
          if negb allowed then Done tt
          else
            let! result := run_challenge challenge now in
            ignore (timeout ve_elapsed (transmit_v5 peer (TrainingV5Message_CapabilityChallengeResult result)))
  | TrainingV5Message_CapabilityChallengeResult result =>
      if (result.(CapabilityChallengeResult_worker) != peer)
         || is_err (Message_validate (Message_TrainingV5 message))
      then Done tt
      else
        updating (fun e s => set_V4State_security (record_capability_challenge s.(V4State_security) peer
          result.(CapabilityChallengeResult_backend) result.(CapabilityChallengeResult_success) e.(ve_now)) s) ;!
        persist_security_state
  | TrainingV5Message_CapabilityEvidence _ => Done tt
  end.

Definition peer_disconnected (peer : NodeId) : vtask unit :=
  let! mailboxes := reading (fun e s => shuffle e.(ve_order) (map_values s.(V4State_jobs))) in
  for_task (fun mailbox => ignore (mail mailbox (V4Inbound_PeerDisconnected peer))) mailboxes.
End Node.

(** * Frontier training: restarts (crates/node/src/frontier_training.rs)

    When a node starts it reads the state files of planned jobs back, leaves out those that fail
    their check, and enters the integrated jobs again that had not ended. *)

Section Restart.
Context `{Blake3} `{PlanPostcard} `{V4Json}.
Context (local : NodeId) (store : LocalStore).

(** A state file is read; when it is there and passes its check, it goes into its map. *)
Definition restore_from {T} `{Json T} (name : str) (valid : T -> bool) (insert : T -> V4State -> V4State)
    : v4 unit :=
  try! value := files_section (stored (read_json name)) in
  match value with
  | Some value => if valid value then updating (fun _ s => insert value s) ;! Done (Ok tt) else Done (Ok tt)
  | None => Done (Ok tt)
  end.

Definition valid_election (election : V4IntegratedElectionRecord) : bool :=
  (election.(V4IntegratedElectionRecord_vote_hash) == integrated_election_hash election)
  && (0 <? election.(V4IntegratedElectionRecord_graph_generation))
  && (0 <? election.(V4IntegratedElectionRecord_term)).

Definition insert_bounded {V} (limit : N) (key : JobId * N) (value : V) (m : gmap (JobId * N) V)
    : gmap (JobId * N) V :=
  if N.of_nat (size m) <? limit then <[key := value]> m else m.

(** A proposal is kept when there is room: the number of proposals is read before it is inserted. *)
Definition restore_proposal (name : str) : v4 unit :=
  try! value := files_section (stored (read_json name)) in
  match value with
  | Some plan =>
      if bool_decide (is_Some plan.(V4TrainingPlan_parent_plan_hash)) && valid_plan plan then
        let! room := reading (fun _ s =>
          N.of_nat (size s.(V4State_plan_proposals)) <? V4_MAX_PLAN_PROPOSALS) in
        (if (room : bool)
         then updating (fun _ s => set_V4State_plan_proposals
                (<[plan.(V4TrainingPlan_job_id) := plan]> s.(V4State_plan_proposals)) s)
         else Done tt) ;!
        Done (Ok tt)
      else Done (Ok tt)
  | None => Done (Ok tt)
  end.

Definition restore_file (name : str) : v4 unit :=
  if is_named "v4-data-shard-" name then
    restore_from name valid_local_data_shard (fun shard s =>
      set_V4State_data_shards
        (<[(shard.(V4LocalDataShard_job_id), shard.(V4LocalDataShard_shard_id)) := shard]>
           s.(V4State_data_shards)) s)
  else if is_named "v4-training-state-" name then
    restore_from name (fun state =>
        (state.(V4TrainingStateRecord_state_hash) == training_state_hash state)
        && is_ok (V4TrainingStateRecord_validate state))
      (fun state s => set_V4State_training_states
        (<[state.(V4TrainingStateRecord_job_id) := state]> s.(V4State_training_states)) s)
  else if is_named "v4-integrated-graph-" name then
    restore_from name (fun graph =>
        (graph.(V4ExecutionGraph_graph_hash) == execution_graph_hash graph)
        && is_ok (V4ExecutionGraph_validate graph))
      (fun graph s => set_V4State_integrated_graphs
        (<[graph.(V4ExecutionGraph_job_id) := graph]> s.(V4State_integrated_graphs)) s)
  else if is_named "v4-integrated-state-" name then
    restore_from name (fun state =>
        (state.(V4IntegratedStateRecord_state_hash) == integrated_state_hash state)
        && is_ok (V4IntegratedStateRecord_validate state))
      (fun state s => set_V4State_integrated_states
        (<[state.(V4IntegratedStateRecord_job_id) := state]> s.(V4State_integrated_states)) s)
  else if is_named "v4-integrated-election-" name then
    restore_from name valid_election (fun election s =>
      set_V4State_integrated_elections
        (<[election.(V4IntegratedElectionRecord_job_id) := election]> s.(V4State_integrated_elections)) s)
  else if is_named "v4-plan-" name && negb (String.prefix "v4-plan-proposal-" name) then
    restore_from name valid_plan (fun plan s =>
      set_V4State_plans (<[plan.(V4TrainingPlan_job_id) := plan]> s.(V4State_plans)) s)
  else if is_named "v4-plan-proposal-" name then restore_proposal name
  else if is_named "v4-optimizer-state-" name then
    restore_from name valid_local_optimizer_state (fun state s =>
      set_V4State_optimizer_states
        (<[(state.(V4LocalOptimizerState_job_id), state.(V4LocalOptimizerState_shard_id)) := state]>
           s.(V4State_optimizer_states)) s)
  else if is_named "v4-optimizer-shard-" name then
    restore_from name (fun shard =>
        (shard.(V4OptimizerShardRecord_state_hash) == optimizer_shard_hash shard)
        && is_ok (V4OptimizerShardRecord_validate shard))
      (fun shard s => set_V4State_optimizer_shards
        (<[(shard.(V4OptimizerShardRecord_job_id), shard.(V4OptimizerShardRecord_shard_id)) := shard]>
           s.(V4State_optimizer_shards)) s)
  else if is_named "v4-checkpoint-" name then
    restore_from name (fun checkpoint =>
        (checkpoint.(V4CheckpointRecord_manifest_hash) == checkpoint_hash checkpoint)
        && is_ok (V4CheckpointRecord_validate checkpoint))
      (fun checkpoint s => set_V4State_checkpoints
        (<[(checkpoint.(V4CheckpointRecord_job_id),
            checkpoint.(V4CheckpointRecord_checkpoint_generation)) := checkpoint]>
           s.(V4State_checkpoints)) s)
  else if is_named "v4-tensor-shard-" name then
    restore_from name valid_local_tensor_shard (fun shard s =>
      set_V4State_tensor_shards
        (insert_bounded V4_MAX_TENSOR_SHARDS
           (shard.(V4LocalTensorShard_job_id), shard.(V4LocalTensorShard_shard_id)) shard
           s.(V4State_tensor_shards)) s)
  else if is_named "v4-pipeline-stage-" name then
    restore_from name valid_local_pipeline_stage (fun stage s =>
      set_V4State_pipeline_stages
        (insert_bounded V4_MAX_PIPELINE_STAGES
           (stage.(V4LocalPipelineStage_job_id), stage.(V4LocalPipelineStage_stage_id)) stage
           s.(V4State_pipeline_stages)) s)
  else Done (Ok tt).

Fixpoint restore_files (names : list str) : v4 unit :=
  match names with
  | [] => Done (Ok tt)
  | name :: names => restore_file name ?! restore_files names
  end.

Definition restore : v4 unit :=
  try! names := files_section read_state_dir in
  restore_files names.

(** ** Resuming integrated jobs *)

(** The job of the graph, with its plan and state, when the node is to go on with it. *)
Definition resumable (graph : V4ExecutionGraph) (s : V4State)
    : option (V4ExecutionGraph * V4TrainingPlan * V4IntegratedStateRecord) :=
  state ← s.(V4State_integrated_states) !! graph.(V4ExecutionGraph_job_id);
  plan ← s.(V4State_plans) !! graph.(V4ExecutionGraph_job_id);
  if negb (contains local graph.(V4ExecutionGraph_workers))
     || contains local graph.(V4ExecutionGraph_retired_workers)
     || negb (is_active_phase state.(V4IntegratedStateRecord_phase))
     || negb (state.(V4IntegratedStateRecord_graph_generation) =? graph.(V4ExecutionGraph_graph_generation))
     || (state.(V4IntegratedStateRecord_plan_hash) != graph.(V4ExecutionGraph_plan_hash))
     || (state.(V4IntegratedStateRecord_branch) != graph.(V4ExecutionGraph_branch))
  then None
  else Some (graph, plan, state).

Definition resumable_job (job_id : JobId) (s : V4State)
    : option (V4ExecutionGraph * V4TrainingPlan * V4IntegratedStateRecord) :=
  graph ← s.(V4State_integrated_graphs) !! job_id;
  resumable graph s.

(** One job: after a pause in which peers may send a newer graph it is looked up again. *)
Definition resume_job (job_id : JobId) : vtask unit :=
  pause ;!
  let! job := reading (fun _ s => resumable_job job_id s) in
  match job with
  | None => Done tt
  | Some (graph, plan, state) =>
      let! running := mailbox_of job_id in
      match running with
      | Some _ => Done tt
      | None =>
          let! mailbox := create_job job_id in
          let windows := state.(V4IntegratedStateRecord_target_windows) in
          if graph.(V4ExecutionGraph_coordinator) == local
          then start_driver graph plan state windows 1 true mailbox
          else start_participant graph windows 1 mailbox
      end
  end.

Definition resume_integrated_jobs : vtask unit :=
  let! jobs := reading (fun e s =>
    omap (M := list) (fun graph => resumable graph s) (shuffle e.(ve_order) (map_values s.(V4State_integrated_graphs)))) in
  for_task (fun job => resume_job job.1.1.(V4ExecutionGraph_job_id)) jobs.
End Restart.
