(* ===== verification/V4Reconfigure.v ===== *)
(** * Frontier training: liveness, elections and graph changes (crates/node/src/frontier_training.rs)

    What a member of an integrated job does when another one is missing: it probes the members of
    the graph, stands for election, and computes the next graph and plan, with the failed worker
    out or a joined one in. *)

From Stdlib Require Import String ZArith NArith Lia.
From stdpp Require Import base tactics sets strings numbers list gmap.
From S2P Require Import Prelude OrdMap Types Validation FileSystem Storage Aggregation Compute Float32 TrainingPlan Planner Runtime Trust Security Network NodeConfig Tasks V4Model V4Control V4Integrated V4Data V4Node.
Local Open Scope N_scope.
Local Open Scope rust_scope.

Definition V4_MAX_WORKERS : N := 16.

Definition V4_TAKEOVER_MISSES_REQUIRED : N := 3.

Definition V4_UNAVAILABLE_PROBE_ROUNDS : nat := 2.

Definition V4_STRAGGLER_FAILURES_REQUIRED : N := 2.

Definition V4_INTEGRATED_MIN_WORKERS : N := 4.

Definition V4_INTEGRATED_MAX_WINDOWS : N := 4096.

Definition V4_JOIN_COOLDOWN_WINDOWS : N := 1.

(** ** Waiting *)

(** What [timeout(remaining, receiver.recv())] returns.  The surroundings say when the time is up; a
    loop that looks at its deadline first is left in the same way. *)
Inductive Waited :=
  | Waited_Event (inbound : V4Inbound)
  | Waited_Closed
  | Waited_Elapsed.

Definition wait_event : vtask Waited :=
  Step (fun e s =>
      match e.(ve_event) with
      | Some (Some inbound) => Some (Waited_Event inbound, s, [])
      | Some None => Some (Waited_Closed, s, [])
      | None => if e.(ve_elapsed) then Some (Waited_Elapsed, s, []) else None
      end) Done.

(** A set in the order in which it happens to be traversed. *)
Definition traversed (set : gset NodeId) : vtask (list NodeId) :=
  reading (fun e _ => shuffle e.(ve_order) (elements set)).

Definition random_job_id : vtask JobId := reading (fun e _ => e.(ve_random)).

(** [nodes.sort_unstable()] *)
Definition sort_nodes (nodes : list NodeId) : list NodeId := sort_by_key NodeId_0 nodes.

Definition quorum_of (graph : V4ExecutionGraph) : N := len graph.(V4ExecutionGraph_workers) / 2 + 1.

Section Reconfigure.
Context `{Blake3} `{PlanPostcard} `{V4Json}.
Context (local : NodeId) (store : LocalStore) (fuel : nat).
Notation persist_plan := (persist_plan store).
Notation persist_execution_graph := (persist_execution_graph store).
Notation persist_integrated_state := (persist_integrated_state store).

(** ** Probes *)

Definition other_workers (graph : V4ExecutionGraph) : list NodeId :=
  List.filter (fun worker => worker != local) graph.(V4ExecutionGraph_workers).

Definition probe_of (request_id : JobId) (graph : V4ExecutionGraph) (state : V4IntegratedStateRecord)
    : V4IntegratedProbe :=
  mkV4IntegratedProbe request_id graph.(V4ExecutionGraph_job_id) graph.(V4ExecutionGraph_graph_generation)
    graph.(V4ExecutionGraph_graph_hash) state.(V4IntegratedStateRecord_state_hash) local.

(** Those the probe cannot be sent to are not waited for. *)
Fixpoint send_probes (probe : V4IntegratedProbe) (peers : list NodeId) (pending : gset NodeId)
    : vtask (gset NodeId) :=
  match peers with
  | [] => Done pending
  | peer :: peers =>
      let! sent := transmitted_in_time peer (TrainingV4Message_IntegratedProbe probe) in
      send_probes probe peers (if (sent : bool) then pending else pending ∖ {[peer]})
  end.

Definition is_probe_answer (request_id : JobId) (graph : V4ExecutionGraph) (peer : NodeId)
    (ack : V4IntegratedProbeAck) : bool :=
  (ack.(V4IntegratedProbeAck_request_id) == request_id)
  && (ack.(V4IntegratedProbeAck_job_id) == graph.(V4ExecutionGraph_job_id))
  && (ack.(V4IntegratedProbeAck_graph_generation) =? graph.(V4ExecutionGraph_graph_generation))
  && (ack.(V4IntegratedProbeAck_responder) == peer)
  && ack.(V4IntegratedProbeAck_accepted).

Fixpoint await_probes (fuel : nat) (request_id : JobId) (graph : V4ExecutionGraph)
    (pending confirmed : gset NodeId) : vtask (gset NodeId) :=
  match fuel with
  | O => forever
  | S fuel =>
      if bool_decide (pending = ∅) then Done confirmed
      else
        let! waited := wait_event in
        match waited with
        | Waited_Event (V4Inbound_Message peer (TrainingV4Message_IntegratedProbeAck ack)) =>
            if is_probe_answer request_id graph peer ack && bool_decide (peer ∈ pending)
            then await_probes fuel request_id graph (pending ∖ {[peer]}) ({[peer]} ∪ confirmed)
            else await_probes fuel request_id graph pending confirmed
        | Waited_Event _ => await_probes fuel request_id graph pending confirmed
        | Waited_Closed | Waited_Elapsed => Done confirmed
        end
  end.

Definition probe_integrated_members (graph : V4ExecutionGraph) (state : V4IntegratedStateRecord)
    : vtask (gset NodeId) :=
  let! request_id := random_job_id in
  let pending : gset NodeId := list_to_set (other_workers graph) in
  let! peers := traversed pending in
  let! pending := send_probes (probe_of request_id graph state) peers pending in
  await_probes fuel request_id graph pending ∅.

(** The node itself and those that answered. *)
Definition is_live (confirmed : gset NodeId) (worker : NodeId) : bool :=
  (worker == local) || bool_decide (worker ∈ confirmed).

Definition has_integrated_reconfiguration_quorum (graph : V4ExecutionGraph)
    (state : V4IntegratedStateRecord) (failed : NodeId) : vtask bool :=
  let! confirmed := probe_integrated_members graph state in
  let live_members := len (List.filter (fun candidate => (candidate != failed) && is_live confirmed candidate)
                             graph.(V4ExecutionGraph_workers)) in
  Done (quorum_of graph <=? live_members).

Definition missing_workers (graph : V4ExecutionGraph) (confirmed : gset NodeId) : list NodeId :=
  List.filter (fun worker => (worker != local) && negb (bool_decide (worker ∈ confirmed)))
    graph.(V4ExecutionGraph_workers).

(** A worker missing in two probes in a row. *)
Fixpoint unavailable_rounds (rounds : nat) (graph : V4ExecutionGraph) (state : V4IntegratedStateRecord)
    (previous_missing : option (gset NodeId)) : vtask (option NodeId) :=
  match rounds with
  | O => Done None
  | S rounds =>
      let! confirmed := probe_integrated_members graph state in
      let missing : gset NodeId := list_to_set (missing_workers graph confirmed) in
      match previous_missing ≫= fun previous => head (sort_nodes (elements (previous ∩ missing))) with
      | Some worker => Done (Some worker)
      | None => if bool_decide (missing = ∅) then Done None else unavailable_rounds rounds graph state (Some missing)
      end
  end.

Definition first_unavailable_worker (graph : V4ExecutionGraph) (state : V4IntegratedStateRecord)
    : vtask (option NodeId) :=
  unavailable_rounds V4_UNAVAILABLE_PROBE_ROUNDS graph state None.

Definition detect_unavailable_worker (graph : V4ExecutionGraph) (state : V4IntegratedStateRecord)
    : vtask (option NodeId) :=
  first_unavailable_worker graph state.

Definition slowest_responsive_worker (graph : V4ExecutionGraph) (state : V4IntegratedStateRecord)
    : vtask (option NodeId) :=
  let! confirmed := probe_integrated_members graph state in
  Done (head (sort_nodes (missing_workers graph confirmed))).

(** ** Elections *)

(** The term a candidate stands for. *)
Definition candidacy_term (graph : V4ExecutionGraph) (record : option V4IntegratedElectionRecord) : N :=
  let previous_term := record ≫= fun record =>
    if (record.(V4IntegratedElectionRecord_graph_generation) =? graph.(V4ExecutionGraph_graph_generation))
       && (record.(V4IntegratedElectionRecord_graph_hash) == graph.(V4ExecutionGraph_graph_hash))
       && (record.(V4IntegratedElectionRecord_candidate) == local)
    then Some record.(V4IntegratedElectionRecord_term) else None in
  N.max (sat_add u64_max (default graph.(V4ExecutionGraph_coordination_term) previous_term) 1)
    (sat_add u64_max graph.(V4ExecutionGraph_coordination_term) 1).

Definition self_vote_of (graph : V4ExecutionGraph) (term : N) : V4IntegratedElectionRecord :=
  let record := mkV4IntegratedElectionRecord graph.(V4ExecutionGraph_job_id)
    graph.(V4ExecutionGraph_graph_generation) graph.(V4ExecutionGraph_graph_hash) term local
    ArtifactId_default in
  set_V4IntegratedElectionRecord_vote_hash (integrated_election_hash record) record.

(** [persist_integrated_election(node, &self_vote)?] *)
Definition save_self_vote (vote : V4IntegratedElectionRecord) : v4 unit :=
  Step (fun e s =>
      match run_files e (persist_integrated_election store vote) s with
      | Some (Ok u, s) => Some (Ok u, s, [Did_Stand vote])
      | Some (Err error, s) => Some (Err error, s, [])
      | None => None
      end) Done.

(** The candidate's own vote is saved, then recorded; an earlier vote is not looked at. *)
Definition cast_self_vote (vote : V4IntegratedElectionRecord) : v4 unit :=
  save_self_vote vote ?!
  atomic (fun _ s =>
    (Ok tt, set_V4State_integrated_elections
       (<[vote.(V4IntegratedElectionRecord_job_id) := vote]> s.(V4State_integrated_elections)) s,
     [Did_Vote vote])).

Definition election_request (graph : V4ExecutionGraph) (state : V4IntegratedStateRecord) (term : N)
    : V4IntegratedElectionRequest :=
  mkV4IntegratedElectionRequest graph.(V4ExecutionGraph_job_id) graph.(V4ExecutionGraph_job_id)
    graph.(V4ExecutionGraph_graph_generation) graph.(V4ExecutionGraph_graph_hash)
    graph.(V4ExecutionGraph_branch) state.(V4IntegratedStateRecord_state_hash) term local.

Fixpoint request_votes (request : V4IntegratedElectionRequest) (voters : list NodeId)
    (pending : gset NodeId) : vtask (gset NodeId) :=
  match voters with
  | [] => Done pending
  | voter :: voters =>
      let! sent := send_control_message voter (TrainingV4Message_IntegratedElectionRequest request) in
      request_votes request voters (if (sent : bool) then {[voter]} ∪ pending else pending)
  end.

(** A vote for the node in the term. *)
Definition is_ballot (graph : V4ExecutionGraph) (term : N) (peer : NodeId)
    (vote : V4IntegratedElectionVote) : bool :=
  (vote.(V4IntegratedElectionVote_job_id) == graph.(V4ExecutionGraph_job_id))
  && (vote.(V4IntegratedElectionVote_graph_generation) =? graph.(V4ExecutionGraph_graph_generation))
  && (vote.(V4IntegratedElectionVote_graph_hash) == graph.(V4ExecutionGraph_graph_hash))
  && (vote.(V4IntegratedElectionVote_term) =? term)
  && (vote.(V4IntegratedElectionVote_candidate) == local)
  && (vote.(V4IntegratedElectionVote_voter) == peer).

Fixpoint count_ballots (fuel : nat) (graph : V4ExecutionGraph) (term : N) (votes pending : gset NodeId)
    : vtask (gset NodeId) :=
  match fuel with
  | O => forever
  | S fuel =>
      if (quorum_of graph <=? N.of_nat (size votes)) || bool_decide (pending = ∅) then Done votes
      else
        let! waited := wait_event in
        match waited with
        | Waited_Event (V4Inbound_Message peer (TrainingV4Message_IntegratedElectionVote vote)) =>
            if is_ballot graph term peer vote && bool_decide (peer ∈ pending)
            then count_ballots fuel graph term
                   (if vote.(V4IntegratedElectionVote_granted) then {[peer]} ∪ votes else votes)
                   (pending ∖ {[peer]})
            else count_ballots fuel graph term votes pending
        | Waited_Event _ => count_ballots fuel graph term votes pending
        | Waited_Closed | Waited_Elapsed => Done votes
        end
  end.

Definition is_voteable (phase : V4IntegratedPhase) : bool :=
  match phase with
  | V4IntegratedPhase_Running | V4IntegratedPhase_Partitioned => true
  | _ => false
  end.

Definition request_integrated_election (graph : V4ExecutionGraph) (state : V4IntegratedStateRecord)
    (confirmed : gset NodeId) : v4 (list NodeId) :=
  let job_id := graph.(V4ExecutionGraph_job_id) in
  let eligible := sort_nodes (List.filter (fun worker => worker != graph.(V4ExecutionGraph_coordinator))
    (List.filter (is_live confirmed) graph.(V4ExecutionGraph_workers))) in
  (if head eligible != Some local then pause else Done tt) ;!
  let! known_graph := active_graph job_id in
  try! current_graph := expect "integrated election graph disappeared" known_graph in
  let! known_state := reading (fun _ s => s.(V4State_integrated_states) !! job_id) in
  try! current_state := expect "integrated election state disappeared" known_state in
  reject_if ((current_graph.(V4ExecutionGraph_graph_hash) != graph.(V4ExecutionGraph_graph_hash))
             || negb (current_graph.(V4ExecutionGraph_graph_generation)
                      =? graph.(V4ExecutionGraph_graph_generation))
             || negb (is_voteable current_state.(V4IntegratedStateRecord_phase)))
    "integrated election graph changed before voting" ?!
  reject_if (current_graph.(V4ExecutionGraph_coordinator) != graph.(V4ExecutionGraph_coordinator))
    "integrated election already has a replacement coordinator" ?!
  reject_if (head eligible != Some local)
    "another eligible member owns the deterministic election slot" ?!
  let! term := reading (fun _ s => candidacy_term graph (s.(V4State_integrated_elections) !! job_id)) in
  cast_self_vote (self_vote_of graph term) ?!
  let! pending := request_votes (election_request graph state term) (other_workers graph) ∅ in
  let! votes := count_ballots fuel graph term {[local]} pending in
  if N.of_nat (size votes) <? quorum_of graph
  then refuse ("integrated coordinator election did not reach quorum: " ++ decimal (N.of_nat (size votes))
               ++ "/" ++ decimal (quorum_of graph))%string
  else Done (Ok (sort_nodes (elements votes))).

(** ** Workers *)

(** A backend of another node counts when it is the portable one or has stood local challenges. *)
Definition trusted_backend (security : LocalSecurityState) (node : NodeId) (backend : BackendCapabilities) : bool :=
  backend.(BackendCapabilities_runtime_available)
  && (backend.(BackendCapabilities_health) != BackendHealth_Unavailable)
  && ((backend.(BackendCapabilities_kind) == BackendKind_Cpu)
      || is_some_and (capability_confidence security node backend.(BackendCapabilities_kind))
           (fun confidence => 500 <=? confidence_permille confidence)).

Definition metadata_value (key : str) (capability : Capability) : option str :=
  MetadataEntry_value <$> List.find (fun entry => entry.(MetadataEntry_key) == key)
                            capability.(Capability_metadata).

(** [value.parse::<u32>().ok()] *)
Definition parse_u32 (value : str) : option N :=
  match parse_u64 value with
  | Ok n => if n <=? u32_max then Some n else None
  | Err _ => None
  end.

Definition worker_profile (now : N) (security : LocalSecurityState) (record : PeerRecord)
    : option WorkerProfile :=
  capability ← List.find (fun capability =>
      (capability.(Capability_name) == "training.reference"%string)
      && (now <=? capability.(Capability_expires_at)))
    record.(PeerRecord_capabilities);
  let node := record.(PeerRecord_node_id) in
  let memory_bytes := capability.(Capability_resources).(ResourceLimits_memory_bytes) in
  let backends := List.filter (trusted_backend security node) capability.(Capability_compute_backends) in
  let hardware :=
    if is_empty backends then HardwareKind_Cpu
    else match metadata_value "hardware" capability with
         | Some value => parse_hardware_kind value
         | None => HardwareKind_Cpu
         end in
  Some (mkWorkerProfile node hardware memory_bytes
    (trunc u32_max (N.max (capability.(Capability_resources).(ResourceLimits_cpu_millis) / 1000) 1))
    (default 5000 record.(PeerRecord_observed_latency_ms))
    (default 1 (metadata_value "throughput_mbps" capability ≫= parse_u32))
    0x3F666666 true
    (if is_empty backends then [reference_backend_capability BackendKind_Cpu memory_bytes true] else backends)).

Definition worker_profiles : vtask (list WorkerProfile) :=
  reading (fun e s =>
    omap (M := list) (worker_profile e.(ve_now) s.(V4State_security))
      (List.filter (fun record => e.(ve_now) <=? record.(PeerRecord_expires_at)) e.(ve_records))).

Definition v4_worker_capability (worker : WorkerProfile) : V4WorkerCapability :=
  {| V4WorkerCapability_node := worker.(WorkerProfile_node);
     V4WorkerCapability_accelerator :=
       {| V4AcceleratorCapability_family := accelerator_family worker.(WorkerProfile_hardware);
          V4AcceleratorCapability_device_model := HardwareKind_debug worker.(WorkerProfile_hardware);
          V4AcceleratorCapability_device_count := 1;
          V4AcceleratorCapability_memory_bytes := N.max worker.(WorkerProfile_memory_bytes) 1;
          V4AcceleratorCapability_formats := [V4NumericalFormat_I8; V4NumericalFormat_F32];
          V4AcceleratorCapability_runtime := "reference";
          V4AcceleratorCapability_runtime_version := "v4";
          V4AcceleratorCapability_physical_verified :=
            worker.(WorkerProfile_hardware) == HardwareKind_Cpu |};
     V4WorkerCapability_memory_bytes := N.max worker.(WorkerProfile_memory_bytes) 1;
     V4WorkerCapability_compute_units := N.max worker.(WorkerProfile_compute_units) 1;
     V4WorkerCapability_rtt_ms := worker.(WorkerProfile_rtt_ms);
     V4WorkerCapability_bandwidth_mbps := N.max worker.(WorkerProfile_throughput_mbps) 1;
     V4WorkerCapability_reliability_permille :=
       f32_round_to u16_max
         (f32_mul (f32_clamp f32_0 f32_1 (f32_value worker.(WorkerProfile_reliability))) f32_1000);
     V4WorkerCapability_backends :=
       if is_empty worker.(WorkerProfile_backends)
       then [reference_backend_capability BackendKind_Cpu worker.(WorkerProfile_memory_bytes) true]
       else worker.(WorkerProfile_backends) |}.

Definition find_joined_worker (graph : V4ExecutionGraph) : vtask (option NodeId) :=
  if V4_MAX_WORKERS <=? len graph.(V4ExecutionGraph_workers) then Done None
  else
    let! profiles := worker_profiles in
    Done (head (sort_nodes (List.filter (fun candidate =>
        negb (contains candidate graph.(V4ExecutionGraph_workers))
        && negb (contains candidate graph.(V4ExecutionGraph_retired_workers)))
      (map WorkerProfile_node profiles)))).

(** ** Layouts *)

(** [members.find(|member| member != avoid).unwrap_or(members[0])]; indexing panics when empty. *)
Definition aggregator_of (members : list NodeId) (avoid : NodeId) : option NodeId :=
  match List.find (fun member => member != avoid) members with
  | Some member => Some member
  | None => head members
  end.

Definition integrated_groups (workers : list NodeId) (avoid : NodeId) : option (list V4AggregationGroup) :=
  if len workers <? 4 then
    aggregator ← aggregator_of workers avoid;
    Some [mkV4AggregationGroup 0 workers aggregator None]
  else
    let split := Nat.min (Nat.max (length workers / 2) 2) (length workers - 2) in
    let left := take split workers in
    let right := drop split workers in
    left_root ← aggregator_of left avoid;
    right_root ← aggregator_of right avoid;
    Some [mkV4AggregationGroup 0 left left_root (Some right_root);
          mkV4AggregationGroup 1 right right_root (Some left_root)].

Definition initial_tensor_weights (shard_id : N) : list Z :=
  if shard_id =? 0 then [1; 0; 0; 1; 1; 1; 2; 0]%Z else [0; 2; 1; 1; 1; 0; 1; 2]%Z.

(** Weights, rows, columns and row offset. *)
Definition integrated_tensor_layout (shard_id : N) (shard_count : N) : list Z * N * N * N :=
  if (shard_count =? 4) && (2 <=? shard_id) && (shard_id <=? 5) then
    let split_id := shard_id - 2 in
    let source_shard := split_id / 2 in
    let source := initial_tensor_weights source_shard in
    (take 4 (drop (N.to_nat (split_id mod 2) * 4) source), 1, 4,
     sat_add u16_max (sat_mul u16_max source_shard 2) (split_id mod 2))
  else (initial_tensor_weights shard_id, 2, 4, sat_mul u16_max shard_id 2).

(** [nodes.cycle().take(2)] *)
Definition cycle_two (nodes : list NodeId) : list NodeId :=
  match nodes with
  | [] => []
  | [a] => [a; a]
  | a :: b :: _ => [a; b]
  end.

Definition split_part (workers : list NodeId) (source : V4ShardOwnership) (part : N)
    : option V4ShardOwnership :=
  let shard_id := sat_add u16_max (sat_add u16_max 2 (sat_mul u16_max source.(V4ShardOwnership_shard_id) 2)) part in
  owner ← workers !! (N.to_nat (shard_id - 2) mod length workers)%nat;
  let '(weights, rows, cols, row_offset) := integrated_tensor_layout shard_id 4 in
  Some (mkV4ShardOwnership shard_id source.(V4ShardOwnership_model_generation) [owner]
    (cycle_two (List.filter (fun candidate => candidate != owner) workers))
    (sat_add u64_max source.(V4ShardOwnership_ownership_generation) 1)
    (tensor_hash weights rows cols row_offset) (len weights * 8) (len weights * 8 * 2)
    "reference.cpu.i64.tensor-row.split" V4ShardLifecycle_Active).

Fixpoint split_sources (workers : list NodeId) (sources : list V4ShardOwnership)
    : option (result (list V4ShardOwnership) NodeError) :=
  match sources with
  | [] => Some (Ok [])
  | source :: sources =>
      if 1 <? source.(V4ShardOwnership_shard_id)
      then Some (Err (invalid_config "reference shard split received a non-reference source identity"))
      else
        first ← split_part workers source 0;
        second ← split_part workers source 1;
        rest ← split_sources workers sources;
        Some (let? rest := rest in Ok (first :: second :: rest))
  end.

Definition split_integrated_reference_shards (old_plan : V4TrainingPlan) (workers : list NodeId)
    : option (result (list V4ShardOwnership) NodeError) :=
  if negb (len old_plan.(V4TrainingPlan_shards) =? 2) || (len workers <? 4)
  then Some (Err (invalid_config "reference shard split requires two source shards and four workers"))
  else split_sources workers old_plan.(V4TrainingPlan_shards).

(** ** The next graph *)

Definition next_workers (old_graph : V4ExecutionGraph) (failed joined : option NodeId) : list NodeId :=
  let workers := List.filter (fun worker => failed != Some worker) old_graph.(V4ExecutionGraph_workers) in
  let workers := match joined with
                 | Some joined => if contains joined workers then workers else workers ++ [joined]
                 | None => workers
                 end in
  dedup_by_key (fun worker => worker) (sort_nodes workers).

(** A shard stays with a live owner and otherwise moves to a live replica, or to any live worker. *)
Definition move_shard (workers : list NodeId) (failed : option NodeId) (shard : V4ShardOwnership)
    : option (result V4ShardOwnership NodeError) :=
  previous_owner ← head shard.(V4ShardOwnership_owners);
  let alive candidate := contains candidate workers in
  let new_owner :=
    if (failed != Some previous_owner) && alive previous_owner then Some previous_owner
    else match List.find alive shard.(V4ShardOwnership_replicas) with
         | Some candidate => Some candidate
         | None => List.find (fun candidate => failed != Some candidate) workers
         end in
  Some (let? new_owner := ok_or new_owner (invalid_config "no verified V4 shard replacement exists") in
    let replicas := List.filter (fun candidate =>
        (candidate != new_owner) && (failed != Some candidate) && alive candidate)
      (shard.(V4ShardOwnership_replicas) ++ [previous_owner] ++ workers) in
    Ok (mkV4ShardOwnership shard.(V4ShardOwnership_shard_id) shard.(V4ShardOwnership_model_generation)
      [new_owner] (take 2 (dedup_by_key (fun node => node) replicas))
      (sat_add u64_max shard.(V4ShardOwnership_ownership_generation) 1)
      shard.(V4ShardOwnership_content_hash) shard.(V4ShardOwnership_state_bytes)
      shard.(V4ShardOwnership_memory_bytes) shard.(V4ShardOwnership_runtime_requirement)
      V4ShardLifecycle_Active)).

Fixpoint move_shards (workers : list NodeId) (failed : option NodeId) (shards : list V4ShardOwnership)
    : option (result (list V4ShardOwnership) NodeError) :=
  match shards with
  | [] => Some (Ok [])
  | shard :: shards =>
      moved ← move_shard workers failed shard;
      match moved with
      | Err error => Some (Err error)
      | Ok moved =>
          rest ← move_shards workers failed shards;
          Some (let? rest := rest in Ok (moved :: rest))
      end
  end.

(** Every stage gets a worker of its own: a live one stays, then its replicas, then any worker. *)
Fixpoint assign_stages (workers : list NodeId) (failed : option NodeId) (generation : N)
    (assigned : list NodeId) (stages : list V4PipelineStageAssignment)
    : result (list V4PipelineStageAssignment) NodeError :=
  match stages with
  | [] => Ok []
  | stage :: stages =>
      let? replacement := ok_or
        (List.find (fun candidate =>
             contains candidate workers && (failed != Some candidate) && negb (contains candidate assigned))
           (stage.(V4PipelineStageAssignment_worker)
              :: stage.(V4PipelineStageAssignment_replicas) ++ workers))
        (invalid_config "integrated V4 cannot assign distinct live pipeline stage workers") in
      let? rest := assign_stages workers failed generation (replacement :: assigned) stages in
      Ok (mkV4PipelineStageAssignment stage.(V4PipelineStageAssignment_stage_id) replacement
            (take 2 (List.filter (fun candidate => (candidate != replacement) && (failed != Some candidate)) workers))
            generation :: rest)
  end.

(** The split of the reference model before the first window. *)
Definition splits_reference (old_graph : V4ExecutionGraph) (old_state : V4IntegratedStateRecord)
    (workers : list NodeId) (failed joined : option NodeId) : bool :=
  bool_decide (is_Some joined) && (failed == None)
  && (old_state.(V4IntegratedStateRecord_window) =? 0)
  && (old_graph.(V4ExecutionGraph_checkpoint_generation) <=? 1)
  && (len old_graph.(V4ExecutionGraph_shards) =? 2) && (4 <=? len workers).

(** The plan of the next generation, before its backends are bound. *)
Definition next_plan (old_graph : V4ExecutionGraph) (old_plan : V4TrainingPlan) (workers : list NodeId)
    (failed : option NodeId) (capabilities : list V4WorkerCapability) (groups : list V4AggregationGroup)
    (shards : list V4ShardOwnership) : V4TrainingPlan :=
  mkV4TrainingPlan old_plan.(V4TrainingPlan_job_id) local
    (sat_add u64_max old_plan.(V4TrainingPlan_plan_generation) 1)
    old_plan.(V4TrainingPlan_model_generation)
    (sat_add u64_max old_plan.(V4TrainingPlan_training_epoch) 1)
    (sat_add u64_max old_plan.(V4TrainingPlan_membership_epoch) 1)
    (sat_add u64_max old_plan.(V4TrainingPlan_coordination_term) 1)
    (if bool_decide (is_Some failed) then next_integrated_branch old_graph local failed
     else old_plan.(V4TrainingPlan_branch))
    old_plan.(V4TrainingPlan_strategy) old_plan.(V4TrainingPlan_support) workers groups shards
    old_plan.(V4TrainingPlan_tensor_degree) old_plan.(V4TrainingPlan_pipeline_stages)
    old_plan.(V4TrainingPlan_local_steps) old_plan.(V4TrainingPlan_max_staleness)
    old_plan.(V4TrainingPlan_checkpoint_replication) old_plan.(V4TrainingPlan_data_locality)
    old_plan.(V4TrainingPlan_accelerator) capabilities old_plan.(V4TrainingPlan_rationale)
    old_plan.(V4TrainingPlan_plan_hash) (Some old_plan.(V4TrainingPlan_plan_hash))
    old_plan.(V4TrainingPlan_compute_requirements) old_plan.(V4TrainingPlan_backend_assignments).

Definition retired_after (old_graph : V4ExecutionGraph) (failed joined : option NodeId) : list NodeId :=
  let retired := old_graph.(V4ExecutionGraph_retired_workers) in
  let retired := match failed with
                 | Some failed => if contains failed retired then retired else retired ++ [failed]
                 | None => retired
                 end in
  match joined with
  | Some joined => List.filter (fun worker => worker != joined) retired
  | None => retired
  end.

(** The graph of the next generation over its plan; the hash comes last. *)
Definition next_graph (old_graph : V4ExecutionGraph) (old_state : V4IntegratedStateRecord)
    (plan : V4TrainingPlan) (failed joined : option NodeId) (stages : list V4PipelineStageAssignment)
    (certificate : list NodeId) : V4ExecutionGraph :=
  let generation := sat_add u64_max old_graph.(V4ExecutionGraph_graph_generation) 1 in
  let optimizer_generation := sat_add u64_max old_graph.(V4ExecutionGraph_optimizer_generation) 1 in
  let workers := plan.(V4TrainingPlan_workers) in
  let graph := mkV4ExecutionGraph old_graph.(V4ExecutionGraph_job_id) generation
    (Some old_graph.(V4ExecutionGraph_graph_generation)) local local old_graph.(V4ExecutionGraph_reply_to)
    plan.(V4TrainingPlan_plan_hash) plan.(V4TrainingPlan_branch) plan.(V4TrainingPlan_training_epoch)
    plan.(V4TrainingPlan_membership_epoch) plan.(V4TrainingPlan_coordination_term) optimizer_generation
    (N.max old_graph.(V4ExecutionGraph_checkpoint_generation)
       old_state.(V4IntegratedStateRecord_checkpoint_generation))
    workers (retired_after old_graph failed joined)
    [mkV4TensorGroup 0 (take 2 workers) (map V4ShardOwnership_shard_id plan.(V4TrainingPlan_shards)) generation]
    stages plan.(V4TrainingPlan_groups) plan.(V4TrainingPlan_shards)
    (omap (M := list) (fun shard =>
       owner ← head shard.(V4ShardOwnership_owners);
       Some (mkV4OptimizerPlacement shard.(V4ShardOwnership_shard_id) owner
               shard.(V4ShardOwnership_replicas) optimizer_generation)) plan.(V4TrainingPlan_shards))
    (sat_add u64_max old_graph.(V4ExecutionGraph_collective_generation) 1)
    old_graph.(V4ExecutionGraph_local_steps) old_graph.(V4ExecutionGraph_max_staleness)
    old_graph.(V4ExecutionGraph_checkpoint_replication) old_graph.(V4ExecutionGraph_strategy) certificate
    plan.(V4TrainingPlan_backend_assignments) old_graph.(V4ExecutionGraph_graph_hash) in
  with_graph_hash (execution_graph_hash graph) graph.

(** What [reconfigure_integrated_graph_membership] computes; [None] is a panic. *)
Definition reconfigured (old_graph : V4ExecutionGraph) (old_plan : V4TrainingPlan)
    (old_state : V4IntegratedStateRecord) (failed joined : option NodeId) (certificate : list NodeId)
    (workers : list NodeId) (capabilities : list V4WorkerCapability)
    : option (result (V4ExecutionGraph * V4TrainingPlan * V4IntegratedStateRecord) NodeError) :=
  groups ← integrated_groups workers local;
  moved ← (if splits_reference old_graph old_state workers failed joined
           then split_integrated_reference_shards old_plan workers
           else move_shards workers failed old_plan.(V4TrainingPlan_shards));
  match moved with
  | Err error => Some (Err error)
  | Ok shards =>
      let generation := sat_add u64_max old_graph.(V4ExecutionGraph_graph_generation) 1 in
      let next :=
        let? stages := assign_stages workers failed generation [] old_graph.(V4ExecutionGraph_pipeline_stages) in
        let? plan := bind_backend_assignments
          (next_plan old_graph old_plan workers failed capabilities groups shards) stages in
        let plan := with_plan_hash plan (hash_plan plan) in
        map_err (fun error => invalid_config (ValidationError_to_string error)) (V4TrainingPlan_validate plan) ;?
        let graph := next_graph old_graph old_state plan failed joined stages certificate in
        map_err (fun error => invalid_config (ValidationError_to_string error)) (V4ExecutionGraph_validate graph) ;?
        Ok (graph, plan) in
      match next with
      | Err error => Some (Err error)
      | Ok (graph, plan) =>
          state ← integrated_state graph V4IntegratedPhase_Reconfiguring
            old_state.(V4IntegratedStateRecord_window) old_state.(V4IntegratedStateRecord_target_windows)
            old_state.(V4IntegratedStateRecord_initial_loss_micros)
            old_state.(V4IntegratedStateRecord_current_loss_micros)
            (sat_add u32_max old_state.(V4IntegratedStateRecord_recovery_count) 1);
          Some (Ok (graph, plan, state))
      end
  end.

Definition reconfigure_integrated_graph_membership (old_graph : V4ExecutionGraph)
    (old_plan : V4TrainingPlan) (old_state : V4IntegratedStateRecord) (failed joined : option NodeId)
    (election_certificate : option (list NodeId))
    : v4 (V4ExecutionGraph * V4TrainingPlan * V4IntegratedStateRecord) :=
  let workers := next_workers old_graph failed joined in
  reject_if (len workers <? 2) "integrated V4 cannot reconfigure below two live workers" ?!
  reject_if (bool_decide (is_Some failed)
             && (len workers * 2 <=? len old_graph.(V4ExecutionGraph_workers)))
    ("integrated V4 failure reconfiguration requires quorum: " ++ decimal (len workers) ++ "/"
     ++ decimal (len old_graph.(V4ExecutionGraph_workers)) ++ " live workers")%string ?!
  let kept := List.filter (fun capability => contains capability.(V4WorkerCapability_node) workers)
                old_plan.(V4TrainingPlan_worker_capabilities) in
  try! capabilities :=
    match joined with
    | Some joined =>
        if existsb (fun capability => capability.(V4WorkerCapability_node) == joined) kept
        then Done (Ok kept)
        else
          let! profiles := worker_profiles in
          try! profile := expect "joined worker has no current signed training capability"
            (List.find (fun profile => profile.(WorkerProfile_node) == joined) profiles) in
          Done (Ok (kept ++ [v4_worker_capability profile]))
    | None => Done (Ok kept)
    end in
  match reconfigured old_graph old_plan old_state failed joined (default [] election_certificate)
          workers capabilities with
  | None => forever
  | Some (Err error) => Done (Err error)
  | Some (Ok (graph, plan, state)) =>
      persist_plan plan ?!
      persist_execution_graph graph ?!
      persist_integrated_state state ?!
      updating (fun _ s =>
        set_V4State_plans (<[plan.(V4TrainingPlan_job_id) := plan]> s.(V4State_plans)) s) ;!
      updating (fun _ s => set_V4State_integrated_graphs
        (<[graph.(V4ExecutionGraph_job_id) := graph]> s.(V4State_integrated_graphs)) s) ;!
      updating (fun _ s => set_V4State_integrated_states
        (<[state.(V4IntegratedStateRecord_job_id) := state]> s.(V4State_integrated_states)) s) ;!
      match failed with
      | Some failed =>
          persist_integrated_branch_commit store old_graph graph failed V4ReconciliationPolicy_SelectBranch
      | None => Done (Ok tt)
      end ?!
      Done (Ok (graph, plan, state))
  end.

Definition reconfigure_integrated_graph (old_graph : V4ExecutionGraph) (old_plan : V4TrainingPlan)
    (old_state : V4IntegratedStateRecord) (failed : NodeId)
    : v4 (V4ExecutionGraph * V4TrainingPlan * V4IntegratedStateRecord) :=
  reconfigure_integrated_graph_membership old_graph old_plan old_state (Some failed) None None.

Definition reconfigure_integrated_graph_with_certificate (old_graph : V4ExecutionGraph)
    (old_plan : V4TrainingPlan) (old_state : V4IntegratedStateRecord) (failed : NodeId)
    (election_certificate : list NodeId)
    : v4 (V4ExecutionGraph * V4TrainingPlan * V4IntegratedStateRecord) :=
  reconfigure_integrated_graph_membership old_graph old_plan old_state (Some failed) None
    (Some election_certificate).

Definition maybe_reconfigure_straggler (graph : V4ExecutionGraph) (plan : V4TrainingPlan)
    (state : V4IntegratedStateRecord)
    : v4 (option (NodeId * (V4ExecutionGraph * V4TrainingPlan * V4IntegratedStateRecord))) :=
  let! slowest := slowest_responsive_worker graph state in
  match slowest with
  | None => Done (Ok None)
  | Some straggler =>
      let! quorum := has_integrated_reconfiguration_quorum graph state straggler in
      if negb quorum then Done (Ok None)
      else
        try! next := reconfigure_integrated_graph graph plan state straggler in
        Done (Ok (Some (straggler, next)))
  end.
End Reconfigure.
