(* ===== verification/V4Driver.v ===== *)
(** * Frontier training: the driver of an integrated job (crates/node/src/frontier_training.rs)

    The coordinator of a graph activates it on all workers, installs tensor shards, optimizer
    states and pipeline stages, and runs window after window: a tensor round, a pipeline round, a
    collective round, a checkpoint.  Workers that stay silent are replaced by a new graph.  A
    participant watches the coordinator and stands in for it when it is gone.

    Loops take [fuel]: as many messages, or turns of the driver, as a run looks at. *)

From Stdlib Require Import String ZArith NArith Lia.
From stdpp Require Import base tactics sets strings numbers list gmap.
From S2P Require Import Prelude OrdMap Types Validation FileSystem Storage Aggregation Compute Float32 TrainingPlan Planner Runtime Trust Security Network NodeConfig Tasks V4Model V4Control V4Integrated V4Data V4Node V4Reconfigure.
Local Open Scope N_scope.
Local Open Scope rust_scope.

(** An instant the code compares the clock with has passed. *)
Definition is_past : vtask bool := reading (fun e _ => e.(ve_elapsed)).

(** ** Waiting for answers *)

(** Until every answer that is [pending] has come; anything else is dropped. *)
Fixpoint await_all {K} `{Countable K} (fuel : nat) (what : str) (answer : V4Inbound -> option K)
    (pending : gset K) : v4 unit :=
  match fuel with
  | O => forever
  | S fuel =>
      if bool_decide (pending = ∅) then Done (Ok tt)
      else
        let! waited := wait_event in
        match waited with
        | Waited_Event inbound =>
            await_all fuel what answer
              (match answer inbound with Some key => pending ∖ {[key]} | None => pending end)
        | Waited_Closed => refuse (what ++ " mailbox closed")%string
        | Waited_Elapsed => refuse (what ++ " timed out")%string
        end
  end.

(** The same with what an answer brings; each counts once. *)
Fixpoint collect_answers {K A} `{Countable K} (fuel : nat) (what : str)
    (answer : V4Inbound -> option (K * (A -> A))) (pending : gset K) (got : A) : v4 A :=
  match fuel with
  | O => forever
  | S fuel =>
      if bool_decide (pending = ∅) then Done (Ok got)
      else
        try! event := receive_next in
        match event with
        | None => refuse (what ++ " mailbox closed")%string
        | Some inbound =>
            match answer inbound with
            | Some (key, add) =>
                if bool_decide (key ∈ pending)
                then collect_answers fuel what answer (pending ∖ {[key]}) (add got)
                else collect_answers fuel what answer pending got
            | None => collect_answers fuel what answer pending got
            end
        end
  end.

(** Until every answer has come, the mailbox is closed or the time is up: those that are missing. *)
Fixpoint await_some {K} `{Countable K} (fuel : nat) (answer : V4Inbound -> option K) (pending : gset K)
    : vtask (gset K) :=
  match fuel with
  | O => forever
  | S fuel =>
      if bool_decide (pending = ∅) then Done pending
      else
        let! waited := wait_event in
        match waited with
        | Waited_Event inbound =>
            await_some fuel answer
              (match answer inbound with Some key => pending ∖ {[key]} | None => pending end)
        | Waited_Closed | Waited_Elapsed => Done pending
        end
  end.

(** ** A job's own numbers *)

Record DriverCounts := mkDriverCounts {
  tensor_steps : N;
  pipeline_steps : N;
  collective_rounds : N;
  checkpoint_generations : N;
  graph_reconfigurations : N;
  coordinator_replacements : N;
  shard_recoveries : N;
  tensor_recoveries : N;
  pipeline_recoveries : N;
  optimizer_recoveries : N;
  checkpoint_recoveries : N
}.

Definition no_counts : DriverCounts := mkDriverCounts 0 0 0 0 0 0 0 0 0 0 0.

(** [counter = counter.saturating_add(..)], for all counters. *)
Definition count_more (a b : DriverCounts) : DriverCounts :=
  let add field := sat_add u64_max (field a) (field b) in
  mkDriverCounts (add tensor_steps) (add pipeline_steps) (add collective_rounds)
    (add checkpoint_generations) (add graph_reconfigurations) (add coordinator_replacements)
    (add shard_recoveries) (add tensor_recoveries) (add pipeline_recoveries)
    (add optimizer_recoveries) (add checkpoint_recoveries).

(** What a replacement counts, by the round that failed. *)
Definition tensor_replacement : DriverCounts := mkDriverCounts 0 0 0 0 1 0 1 1 0 1 0.

Definition pipeline_replacement : DriverCounts := mkDriverCounts 0 0 0 0 1 0 1 0 1 0 0.

Definition one_reconfiguration : DriverCounts := mkDriverCounts 0 0 0 0 1 0 0 0 0 0 0.

Definition checkpoint_replacement : DriverCounts := mkDriverCounts 0 0 0 0 1 0 0 0 0 0 1.

(** The variables of [run_integrated_driver]. *)
Record DriverRun := mkDriverRun {
  run_graph : V4ExecutionGraph;
  run_plan : V4TrainingPlan;
  run_state : V4IntegratedStateRecord;
  run_initial_loss : Z;
  run_current_loss : Z;
  run_counts : DriverCounts;
  run_max_update_fanin : N;
  run_branch_reconciled : bool;
  run_round_timeout_streak : N;
  run_window : N;
  run_join_allowed_after_window : N
}.

Definition transition : Type := V4ExecutionGraph * V4TrainingPlan * V4IntegratedStateRecord.

(** [(graph, plan, state) = next] *)
Definition moved_to (next : transition) (run : DriverRun) : DriverRun :=
  mkDriverRun next.1.1 next.1.2 next.2 run.(run_initial_loss) run.(run_current_loss) run.(run_counts)
    run.(run_max_update_fanin) run.(run_branch_reconciled) run.(run_round_timeout_streak)
    run.(run_window) run.(run_join_allowed_after_window).

Definition with_state (state : V4IntegratedStateRecord) (run : DriverRun) : DriverRun :=
  moved_to (run.(run_graph), run.(run_plan), state) run.

Definition counted (more : DriverCounts) (run : DriverRun) : DriverRun :=
  mkDriverRun run.(run_graph) run.(run_plan) run.(run_state) run.(run_initial_loss)
    run.(run_current_loss) (count_more run.(run_counts) more) run.(run_max_update_fanin)
    run.(run_branch_reconciled) run.(run_round_timeout_streak) run.(run_window)
    run.(run_join_allowed_after_window).

Definition reconciled (run : DriverRun) : DriverRun :=
  mkDriverRun run.(run_graph) run.(run_plan) run.(run_state) run.(run_initial_loss)
    run.(run_current_loss) run.(run_counts) run.(run_max_update_fanin) true
    run.(run_round_timeout_streak) run.(run_window) run.(run_join_allowed_after_window).

Definition with_streak (streak : N) (run : DriverRun) : DriverRun :=
  mkDriverRun run.(run_graph) run.(run_plan) run.(run_state) run.(run_initial_loss)
    run.(run_current_loss) run.(run_counts) run.(run_max_update_fanin) run.(run_branch_reconciled)
    streak run.(run_window) run.(run_join_allowed_after_window).

Definition with_window (window : N) (run : DriverRun) : DriverRun :=
  mkDriverRun run.(run_graph) run.(run_plan) run.(run_state) run.(run_initial_loss)
    run.(run_current_loss) run.(run_counts) run.(run_max_update_fanin) run.(run_branch_reconciled)
    run.(run_round_timeout_streak) window run.(run_join_allowed_after_window).

Definition joins_after (window : N) (run : DriverRun) : DriverRun :=
  mkDriverRun run.(run_graph) run.(run_plan) run.(run_state) run.(run_initial_loss)
    run.(run_current_loss) run.(run_counts) run.(run_max_update_fanin) run.(run_branch_reconciled)
    run.(run_round_timeout_streak) run.(run_window) window.

(** The loss of a tensor round; the first one that is not zero stays the initial one. *)
Definition with_loss (loss : Z) (run : DriverRun) : DriverRun :=
  mkDriverRun run.(run_graph) run.(run_plan) run.(run_state)
    (if Z.eqb run.(run_initial_loss) 0 then loss else run.(run_initial_loss)) loss run.(run_counts)
    (N.max run.(run_max_update_fanin) 2) run.(run_branch_reconciled) run.(run_round_timeout_streak)
    run.(run_window) run.(run_join_allowed_after_window).

(** The state after [window] windows, before its hash. *)
Definition progressed (run : DriverRun) : V4IntegratedStateRecord :=
  let graph := run.(run_graph) in
  let state := run.(run_state) in
  mkV4IntegratedStateRecord state.(V4IntegratedStateRecord_job_id)
    graph.(V4ExecutionGraph_graph_generation) graph.(V4ExecutionGraph_plan_hash)
    graph.(V4ExecutionGraph_branch) graph.(V4ExecutionGraph_coordinator)
    state.(V4IntegratedStateRecord_phase) run.(run_window)
    state.(V4IntegratedStateRecord_target_windows)
    (if Z.eqb run.(run_initial_loss) 0 then state.(V4IntegratedStateRecord_initial_loss_micros)
     else run.(run_initial_loss)) run.(run_current_loss)
    state.(V4IntegratedStateRecord_checkpoint_generation)
    state.(V4IntegratedStateRecord_model_generation)
    state.(V4IntegratedStateRecord_optimizer_generation)
    state.(V4IntegratedStateRecord_membership_epoch)
    state.(V4IntegratedStateRecord_collective_generation)
    state.(V4IntegratedStateRecord_recovery_count) state.(V4IntegratedStateRecord_state_hash).

Definition with_checkpoint_generation (generation : N) (state : V4IntegratedStateRecord)
    : V4IntegratedStateRecord :=
  mkV4IntegratedStateRecord state.(V4IntegratedStateRecord_job_id)
    state.(V4IntegratedStateRecord_graph_generation) state.(V4IntegratedStateRecord_plan_hash)
    state.(V4IntegratedStateRecord_branch) state.(V4IntegratedStateRecord_coordinator)
    state.(V4IntegratedStateRecord_phase) state.(V4IntegratedStateRecord_window)
    state.(V4IntegratedStateRecord_target_windows) state.(V4IntegratedStateRecord_initial_loss_micros)
    state.(V4IntegratedStateRecord_current_loss_micros) generation
    state.(V4IntegratedStateRecord_model_generation)
    state.(V4IntegratedStateRecord_optimizer_generation)
    state.(V4IntegratedStateRecord_membership_epoch)
    state.(V4IntegratedStateRecord_collective_generation)
    state.(V4IntegratedStateRecord_recovery_count) state.(V4IntegratedStateRecord_state_hash).

Definition in_phase (phase : V4IntegratedPhase) (state : V4IntegratedStateRecord)
    : V4IntegratedStateRecord :=
  mkV4IntegratedStateRecord state.(V4IntegratedStateRecord_job_id)
    state.(V4IntegratedStateRecord_graph_generation) state.(V4IntegratedStateRecord_plan_hash)
    state.(V4IntegratedStateRecord_branch) state.(V4IntegratedStateRecord_coordinator) phase
    state.(V4IntegratedStateRecord_window)
    state.(V4IntegratedStateRecord_target_windows) state.(V4IntegratedStateRecord_initial_loss_micros)
    state.(V4IntegratedStateRecord_current_loss_micros)
    state.(V4IntegratedStateRecord_checkpoint_generation)
    state.(V4IntegratedStateRecord_model_generation)
    state.(V4IntegratedStateRecord_optimizer_generation)
    state.(V4IntegratedStateRecord_membership_epoch)
    state.(V4IntegratedStateRecord_collective_generation)
    state.(V4IntegratedStateRecord_recovery_count) state.(V4IntegratedStateRecord_state_hash).

(** The fields [commit_integrated_graph_activation] sets, before the hash. *)
Definition running_on (graph : V4ExecutionGraph) (windows : N) (state : V4IntegratedStateRecord)
    : V4IntegratedStateRecord :=
  mkV4IntegratedStateRecord state.(V4IntegratedStateRecord_job_id)
    graph.(V4ExecutionGraph_graph_generation) graph.(V4ExecutionGraph_plan_hash)
    graph.(V4ExecutionGraph_branch) graph.(V4ExecutionGraph_coordinator) V4IntegratedPhase_Running
    state.(V4IntegratedStateRecord_window) windows
    state.(V4IntegratedStateRecord_initial_loss_micros)
    state.(V4IntegratedStateRecord_current_loss_micros)
    (N.max state.(V4IntegratedStateRecord_checkpoint_generation)
       graph.(V4ExecutionGraph_checkpoint_generation))
    state.(V4IntegratedStateRecord_model_generation) graph.(V4ExecutionGraph_optimizer_generation)
    graph.(V4ExecutionGraph_membership_epoch) state.(V4IntegratedStateRecord_collective_generation)
    state.(V4IntegratedStateRecord_recovery_count) state.(V4IntegratedStateRecord_state_hash).

Section Driver.
Context `{Blake3} `{PlanPostcard} `{V4Json} `{Profile}.
Context (local : NodeId) (store : LocalStore) (arch : str) (host_memory : N) (fuel : nat).
Notation persist_integrated_state := (persist_integrated_state store).
Notation publish_state := (publish_state store).
Notation probe_integrated_members := (probe_integrated_members local fuel).
Notation first_unavailable_worker := (first_unavailable_worker local fuel).
Notation detect_unavailable_worker := (detect_unavailable_worker local fuel).
Notation has_integrated_reconfiguration_quorum := (has_integrated_reconfiguration_quorum local fuel).
Notation reconfigure_integrated_graph := (reconfigure_integrated_graph local store).

(** The hash of the state is set last. *)
Definition sealed (state : V4IntegratedStateRecord) : V4IntegratedStateRecord :=
  with_integrated_state_hash (integrated_state_hash state) state.

(** ** The plan on all workers *)

Definition send_plan_notification (worker : NodeId) (plan : V4TrainingPlan) : vtask bool :=
  if worker == local then Done true
  else send_control_message worker (TrainingV4Message_Plan plan).

(** How one round of waiting for acknowledgements ends. *)
Fixpoint await_plan_acks (fuel' : nat) (plan : V4TrainingPlan) (pending : gset NodeId)
    : v4 (gset NodeId) :=
  match fuel' with
  | O => forever
  | S fuel' =>
      if bool_decide (pending = ∅) then Done (Ok pending)
      else
        let! next := timeout ve_elapsed (receive_message fuel) in
        match next with
        | Some (Ok (Some (peer, TrainingV4Message_PlanAck ack))) =>
            if negb (bool_decide (peer ∈ pending))
               || (ack.(V4PlanAck_job_id) != plan.(V4TrainingPlan_job_id))
               || negb (ack.(V4PlanAck_plan_generation) =? plan.(V4TrainingPlan_plan_generation))
               || (ack.(V4PlanAck_plan_hash) != plan.(V4TrainingPlan_plan_hash))
            then await_plan_acks fuel' plan pending
            else if negb ack.(V4PlanAck_accepted)
            then refuse ("V4 participant " ++ hex_encode (NodeId_0 peer)
                         ++ " rejected active plan generation "
                         ++ decimal plan.(V4TrainingPlan_plan_generation) ++ ": " ++ ack.(V4PlanAck_reason))%string
            else await_plan_acks fuel' plan (pending ∖ {[peer]})
        | Some (Ok (Some _)) => await_plan_acks fuel' plan pending
        | _ => Done (Ok pending)
        end
  end.

Fixpoint plan_attempts (attempts : nat) (first : bool) (plan : V4TrainingPlan) (pending : gset NodeId)
    : v4 (gset NodeId) :=
  match attempts with
  | O => Done (Ok pending)
  | S attempts =>
      let! over := is_past in
      if bool_decide (pending = ∅) || over then Done (Ok pending)
      else
        let! peers := traversed pending in
        for_task (fun peer =>
          (if first then Done tt else pause) ;! ignore (send_plan_notification peer plan)) peers ;!
        try! pending := await_plan_acks fuel plan pending in
        plan_attempts attempts false plan pending
  end.

Definition acknowledge_plan_update (plan : V4TrainingPlan) (recipients : list NodeId) : v4 N :=
  let pending : gset NodeId := list_to_set (List.filter (fun peer => peer != local) recipients) in
  let expected := N.of_nat (size pending) in
  try! missing := plan_attempts 3 true plan pending in
  reject_if (negb (bool_decide (missing = ∅)))
    ("V4 active plan generation " ++ decimal plan.(V4TrainingPlan_plan_generation)
     ++ " was not acknowledged by " ++ decimal (N.of_nat (size missing)) ++ " of " ++ decimal expected
     ++ " participant(s)")%string ?!
  Done (Ok expected).

(** ** The graph on all workers *)

Definition start_of (graph : V4ExecutionGraph) (plan : V4TrainingPlan) (windows checkpoint_every : N)
    : V4IntegratedStart :=
  mkV4IntegratedStart graph.(V4ExecutionGraph_job_id) graph plan windows checkpoint_every
    graph.(V4ExecutionGraph_reply_to).

Definition is_graph_ack (graph : V4ExecutionGraph) (peer : NodeId) (ack : V4IntegratedAck) : bool :=
  ack.(V4IntegratedAck_accepted)
  && (ack.(V4IntegratedAck_job_id) == graph.(V4ExecutionGraph_job_id))
  && (ack.(V4IntegratedAck_graph_generation) =? graph.(V4ExecutionGraph_graph_generation))
  && (ack.(V4IntegratedAck_worker) == peer).

(** The start is sent again while answers are missing. *)
Fixpoint await_graph_acks (fuel' : nat) (first : bool) (graph : V4ExecutionGraph)
    (start : V4IntegratedStart) (pending : gset NodeId) : v4 unit :=
  match fuel' with
  | O => forever
  | S fuel' =>
      if bool_decide (pending = ∅) then Done (Ok tt)
      else
        let! over := is_past in
        reject_if over
          ("integrated graph activation missing " ++ decimal (N.of_nat (size pending))
           ++ " participant acknowledgements")%string ?!
        let! due := is_past in
        (if first || due then
           let! workers := traversed pending in
           for_task (fun worker =>
             ignore (send_control_message worker (TrainingV4Message_IntegratedStart start))) workers
         else Done tt) ;!
        let! waited := wait_event in
        match waited with
        | Waited_Event (V4Inbound_Message peer (TrainingV4Message_IntegratedAck ack)) =>
            await_graph_acks fuel' false graph start
              (if bool_decide (peer ∈ pending) && is_graph_ack graph peer ack
               then pending ∖ {[peer]} else pending)
        | Waited_Closed => refuse "integrated graph activation mailbox closed"
        | Waited_Event _ | Waited_Elapsed => await_graph_acks fuel' false graph start pending
        end
  end.

Definition activate_integrated_graph (graph : V4ExecutionGraph) (plan : V4TrainingPlan)
    (windows checkpoint_every : N) : v4 unit :=
  await_graph_acks fuel true graph (start_of graph plan windows checkpoint_every)
    (list_to_set (other_workers local graph)) ?!
  try! _ := acknowledge_plan_update plan graph.(V4ExecutionGraph_workers) in
  sync_local_execution_state_to_plan local store plan ;!
  Done (Ok tt).

(** ** Tensor shards *)

Definition tensor_install_of (graph : V4ExecutionGraph) (plan : V4TrainingPlan) (shard : V4ShardOwnership)
    : V4TensorInstall :=
  let '(weights, rows, cols, row_offset) :=
    integrated_tensor_layout shard.(V4ShardOwnership_shard_id) (len graph.(V4ExecutionGraph_shards)) in
  mkV4TensorInstall graph.(V4ExecutionGraph_job_id) plan.(V4TrainingPlan_plan_generation)
    shard.(V4ShardOwnership_model_generation) shard.(V4ShardOwnership_shard_id) rows cols row_offset
    weights (tensor_hash weights rows cols row_offset).

Definition tensor_replica_of (install : V4TensorInstall) (shard : V4ShardOwnership) (owner : NodeId)
    : V4TensorReplica :=
  mkV4TensorReplica install.(V4TensorInstall_job_id) install.(V4TensorInstall_plan_generation)
    install.(V4TensorInstall_model_generation) install.(V4TensorInstall_shard_id)
    install.(V4TensorInstall_rows) install.(V4TensorInstall_cols) install.(V4TensorInstall_row_offset)
    install.(V4TensorInstall_weights) install.(V4TensorInstall_state_hash) 1 0
    shard.(V4ShardOwnership_ownership_generation) owner.

(** A message to a worker, or the same done here; who has to answer. *)
Definition install_at {K} `{Countable K} (target : NodeId) (here : v4 unit) (message : TrainingV4Message)
    (unreachable : str) (key : K) (pending : gset K) : v4 (gset K) :=
  if target == local then here ?! Done (Ok pending)
  else
    let! sent := send_control_message target message in
    reject_if (negb sent) unreachable ?!
    Done (Ok ({[key]} ∪ pending)).

Fixpoint install_at_all {K} `{Countable K} (targets : list NodeId) (here : v4 unit)
    (message : TrainingV4Message) (unreachable : NodeId -> str) (key : NodeId -> K) (pending : gset K)
    : v4 (gset K) :=
  match targets with
  | [] => Done (Ok pending)
  | target :: targets =>
      try! pending := install_at target here message (unreachable target) (key target) pending in
      install_at_all targets here message unreachable key pending
  end.

Fixpoint install_tensors (graph : V4ExecutionGraph) (plan : V4TrainingPlan)
    (shards : list V4ShardOwnership) (pending : gset (NodeId * N * bool)) : v4 (gset (NodeId * N * bool)) :=
  match shards with
  | [] => Done (Ok pending)
  | shard :: shards =>
      let install := tensor_install_of graph plan shard in
      let shard_id := shard.(V4ShardOwnership_shard_id) in
      let unreachable (kind : str) (target : NodeId) :=
        ("tensor shard " ++ decimal shard_id ++ kind ++ " install could not reach "
         ++ hex_encode (NodeId_0 target))%string in
      let here := install_local_tensor_shard store install in
      try! owner := expect "integrated tensor shard has no owner" (head shard.(V4ShardOwnership_owners)) in
      try! pending := install_at owner here (TrainingV4Message_TensorInstall install)
        (unreachable EmptyString owner) (owner, shard_id, false) pending in
      try! pending := install_at_all shard.(V4ShardOwnership_replicas) here
        (TrainingV4Message_TensorReplica (tensor_replica_of install shard owner))
        (unreachable " replica"%string) (fun replica => (replica, shard_id, true)) pending in
      install_tensors graph plan shards pending
  end.

Definition tensor_installed (inbound : V4Inbound) : option (NodeId * N * bool) :=
  match inbound with
  | V4Inbound_Message peer (TrainingV4Message_TensorInstallAck ack) =>
      if ack.(V4TensorInstallAck_accepted) then Some (peer, ack.(V4TensorInstallAck_shard_id), false) else None
  | V4Inbound_Message peer (TrainingV4Message_TensorReplicaAck ack) =>
      if ack.(V4TensorReplicaAck_accepted) then Some (peer, ack.(V4TensorReplicaAck_shard_id), true) else None
  | _ => None
  end.

Definition install_integrated_tensor_state (graph : V4ExecutionGraph) (plan : V4TrainingPlan) : v4 unit :=
  try! pending := install_tensors graph plan graph.(V4ExecutionGraph_shards) ∅ in
  await_all fuel "integrated tensor installation" tensor_installed pending.

(** ** Optimizer states *)

(** As many zeros as the shard has weights here, and otherwise eight. *)
Definition initial_values (shard : option V4LocalTensorShard) : list Z :=
  match shard with
  | Some shard => replicate (length shard.(V4LocalTensorShard_weights)) 0%Z
  | None => replicate 8 0%Z
  end.

Definition optimizer_install_of (graph : V4ExecutionGraph) (plan : V4TrainingPlan)
    (placement : V4OptimizerPlacement) (values : list Z) : V4OptimizerStateInstall :=
  let install := mkV4OptimizerStateInstall graph.(V4ExecutionGraph_job_id)
    plan.(V4TrainingPlan_plan_generation)
    (match find_shard placement.(V4OptimizerPlacement_shard_id) graph.(V4ExecutionGraph_shards) with
     | Some shard => shard.(V4ShardOwnership_model_generation)
     | None => 1
     end) placement.(V4OptimizerPlacement_generation) placement.(V4OptimizerPlacement_shard_id) values
    ArtifactId_default 1 1 0 placement.(V4OptimizerPlacement_owner) in
  with_optimizer_state_hash (optimizer_state_hash install) install.

Fixpoint install_optimizers (graph : V4ExecutionGraph) (plan : V4TrainingPlan)
    (placements : list V4OptimizerPlacement) (pending : gset (NodeId * N)) : v4 (gset (NodeId * N)) :=
  match placements with
  | [] => Done (Ok pending)
  | placement :: placements =>
      let shard_id := placement.(V4OptimizerPlacement_shard_id) in
      let owner := placement.(V4OptimizerPlacement_owner) in
      let unreachable (kind : str) (target : NodeId) :=
        ("optimizer shard " ++ decimal shard_id ++ kind ++ " install could not reach "
         ++ hex_encode (NodeId_0 target))%string in
      let! values := reading (fun _ s => initial_values
        (s.(V4State_tensor_shards) !! (graph.(V4ExecutionGraph_job_id), shard_id))) in
      let install := optimizer_install_of graph plan placement values in
      let here := install_local_optimizer_state store install in
      let message := TrainingV4Message_OptimizerStateInstall install in
      try! pending := install_at owner here message (unreachable " owner"%string owner) (owner, shard_id)
        pending in
      try! pending := install_at_all placement.(V4OptimizerPlacement_replicas) here message
        (unreachable " replica"%string) (fun replica => (replica, shard_id)) pending in
      install_optimizers graph plan placements pending
  end.

Definition optimizer_installed (inbound : V4Inbound) : option (NodeId * N) :=
  match inbound with
  | V4Inbound_Message peer (TrainingV4Message_OptimizerStateAck ack) =>
      if ack.(V4OptimizerStateAck_accepted) then Some (peer, ack.(V4OptimizerStateAck_shard_id)) else None
  | _ => None
  end.

Definition install_integrated_optimizer_state (graph : V4ExecutionGraph) (plan : V4TrainingPlan) : v4 unit :=
  try! pending := install_optimizers graph plan graph.(V4ExecutionGraph_optimizer_shards) ∅ in
  await_all fuel "integrated optimizer installation" optimizer_installed pending.

(** ** Pipeline stages *)

Definition pipeline_install_of (graph : V4ExecutionGraph) (plan : V4TrainingPlan)
    (stage : V4PipelineStageAssignment) : V4PipelineInstall :=
  let coefficient : Z := if stage.(V4PipelineStageAssignment_stage_id) =? 0 then 2%Z else 3%Z in
  let bias : Z := if stage.(V4PipelineStageAssignment_stage_id) =? 0 then 1%Z else 2%Z in
  mkV4PipelineInstall graph.(V4ExecutionGraph_job_id) plan.(V4TrainingPlan_plan_generation)
    stage.(V4PipelineStageAssignment_stage_id)
    (trunc u16_max (len graph.(V4ExecutionGraph_pipeline_stages))) coefficient bias
    (pipeline_hash coefficient bias).

Fixpoint install_stages (graph : V4ExecutionGraph) (plan : V4TrainingPlan)
    (stages : list V4PipelineStageAssignment) (pending : gset (NodeId * N)) : v4 (gset (NodeId * N)) :=
  match stages with
  | [] => Done (Ok pending)
  | stage :: stages =>
      let install := pipeline_install_of graph plan stage in
      let stage_id := stage.(V4PipelineStageAssignment_stage_id) in
      try! pending := install_at_all
        (stage.(V4PipelineStageAssignment_worker) :: stage.(V4PipelineStageAssignment_replicas))
        (install_local_pipeline_stage store install) (TrainingV4Message_PipelineInstall install)
        (fun target => ("pipeline stage " ++ decimal stage_id ++ " install could not reach "
                        ++ hex_encode (NodeId_0 target))%string)
        (fun target => (target, stage_id)) pending in
      install_stages graph plan stages pending
  end.

Definition stage_installed (inbound : V4Inbound) : option (NodeId * N) :=
  match inbound with
  | V4Inbound_Message peer (TrainingV4Message_PipelineInstallAck ack) =>
      if ack.(V4PipelineInstallAck_accepted) then Some (peer, ack.(V4PipelineInstallAck_stage_id)) else None
  | _ => None
  end.

Definition install_integrated_pipeline_state (graph : V4ExecutionGraph) (plan : V4TrainingPlan) : v4 unit :=
  try! pending := install_stages graph plan graph.(V4ExecutionGraph_pipeline_stages) ∅ in
  await_all fuel "integrated pipeline installation" stage_installed pending.

(** ** A graph becomes active *)

Definition activate_and_install_integrated_graph (graph : V4ExecutionGraph) (plan : V4TrainingPlan)
    (windows checkpoint_every : N) : v4 unit :=
  activate_integrated_graph graph plan windows checkpoint_every ?!
  install_integrated_tensor_state graph plan ?!
  install_integrated_optimizer_state graph plan ?!
  install_integrated_pipeline_state graph plan.

Definition broadcast_integrated_state (graph : V4ExecutionGraph) (state : V4IntegratedStateRecord)
    : vtask unit :=
  for_task (fun worker => ignore (transmitted_in_time worker (TrainingV4Message_IntegratedState state)))
    (other_workers local graph).

(** The new state, once it is saved, known and on its way to the others. *)
Definition commit_integrated_graph_activation (graph : V4ExecutionGraph) (state : V4IntegratedStateRecord)
    (windows : N) : v4 V4IntegratedStateRecord :=
  let state := sealed (running_on graph windows state) in
  publish_state state ?!
  broadcast_integrated_state graph state ;!
  Done (Ok state).

Fixpoint activation_attempts (attempts : nat) (next : transition) (windows checkpoint_every : N)
    : v4 transition :=
  let '(graph, plan, state) := next in
  match attempts with
  | O => refuse "integrated V4 graph transition exceeded bounded recovery attempts"
  | S attempts =>
      let! activated := activate_and_install_integrated_graph graph plan windows checkpoint_every in
      match activated with
      | Ok _ =>
          try! state := commit_integrated_graph_activation graph state windows in
          Done (Ok (graph, plan, state))
      | Err error =>
          let! failed := first_unavailable_worker graph state in
          match failed with
          | None => activation_attempts attempts next windows checkpoint_every
          | Some failed =>
              let! quorum := has_integrated_reconfiguration_quorum graph state failed in
              if negb quorum then Done (Err error)
              else
                try! next := reconfigure_integrated_graph graph plan state failed in
                activation_attempts attempts next windows checkpoint_every
          end
      end
  end.

Definition activate_integrated_graph_with_recovery (next : transition) (windows checkpoint_every : N)
    : v4 transition :=
  activation_attempts (N.to_nat V4_MAX_WORKERS) next windows checkpoint_every.

(** ** The tensor round *)

(** The number of a step: the windows of a generation come after those of the one before. *)
Definition step_sequence (graph_generation window : N) : N :=
  sat_add u64_max (sat_add u64_max
    (sat_mul u64_max graph_generation (sat_add u64_max V4_INTEGRATED_MAX_WINDOWS 1)) window) 1.

Definition round_input : list Z := [2; 4; 6; 8]%Z.

(** Every owner computes; the outputs of the shards owned here, and the others that are due. *)
Fixpoint forward_shards (request_id : JobId) (sequence : N) (graph : V4ExecutionGraph)
    (plan : V4TrainingPlan) (shards : list V4ShardOwnership) (outputs : gmap N (list Z)) (pending : gset N)
    : v4 (gmap N (list Z) * gset N) :=
  match shards with
  | [] => Done (Ok (outputs, pending))
  | shard :: shards =>
      let shard_id := shard.(V4ShardOwnership_shard_id) in
      match head shard.(V4ShardOwnership_owners) with
      | None => forever
      | Some owner =>
          if owner == local then
            try! output := local_tensor_forward local arch host_memory plan
              graph.(V4ExecutionGraph_graph_generation) graph.(V4ExecutionGraph_job_id) shard_id
              round_input in
            forward_shards request_id sequence graph plan shards (<[shard_id := output]> outputs) pending
          else
            let! sent := send_control_message owner (TrainingV4Message_TensorForward
              (mkV4TensorForward request_id graph.(V4ExecutionGraph_job_id)
                 plan.(V4TrainingPlan_plan_generation) shard.(V4ShardOwnership_model_generation) shard_id
                 sequence round_input)) in
            reject_if (negb sent)
              ("tensor forward could not reach owner " ++ hex_encode (NodeId_0 owner))%string ?!
            forward_shards request_id sequence graph plan shards outputs ({[shard_id]} ∪ pending)
      end
  end.

Definition forward_answer (request_id : JobId) (plan : V4TrainingPlan) (inbound : V4Inbound)
    : option (N * (gmap N (list Z) -> gmap N (list Z))) :=
  match inbound with
  | V4Inbound_Message _ (TrainingV4Message_TensorForwardResult result) =>
      if (result.(V4TensorForwardResult_request_id) == request_id)
         && (result.(V4TensorForwardResult_plan_generation) =? plan.(V4TrainingPlan_plan_generation))
      then Some (result.(V4TensorForwardResult_shard_id),
                 insert result.(V4TensorForwardResult_shard_id) result.(V4TensorForwardResult_output))
      else None
  | _ => None
  end.

Fixpoint square_errors (loss : Z) (errors : list Z) : option Z :=
  match errors with
  | [] => Some loss
  | error :: errors => loss ← i128_add loss (error * error); square_errors loss errors
  end.

(** The loss over the shards and the gradient of each; [None] is a panic. *)
Fixpoint measure_outputs (shard_ids : list N) (outputs : gmap N (list Z)) (loss : Z)
    (upstream : gmap N (list Z)) : option (result (Z * gmap N (list Z)) NodeError) :=
  match shard_ids with
  | [] => Some (Ok (loss, upstream))
  | shard_id :: shard_ids =>
      match outputs !! shard_id with
      | None => Some (Err (invalid_config "tensor result missing shard"))
      | Some values =>
          let errors := map (fun value => clamp_to i64_min i64_max (value - 32)) values in
          loss ← square_errors loss errors;
          measure_outputs shard_ids outputs loss (<[shard_id := errors]> upstream)
      end
  end.

(** The hashes of the shards and of their optimizer states after the step. *)
Definition RoundHashes : Type := gmap N ArtifactId * gmap N ArtifactId.

Definition record_hashes (shard_id : N) (state_hash : ArtifactId) (optimizer : option ArtifactId)
    (hashes : RoundHashes) : RoundHashes :=
  (<[shard_id := state_hash]> hashes.1,
   match optimizer with Some hash => <[shard_id := hash]> hashes.2 | None => hashes.2 end).

Fixpoint backward_shards (request_id : JobId) (sequence : N) (graph : V4ExecutionGraph)
    (plan : V4TrainingPlan) (upstream : gmap N (list Z)) (shards : list V4ShardOwnership)
    (hashes : RoundHashes) (pending : gset N) : v4 (RoundHashes * gset N) :=
  match shards with
  | [] => Done (Ok (hashes, pending))
  | shard :: shards =>
      let shard_id := shard.(V4ShardOwnership_shard_id) in
      match head shard.(V4ShardOwnership_owners) with
      | None => forever
      | Some owner =>
          if owner == local then
            try! gradient := expect "tensor gradient missing shard" (upstream !! shard_id) in
            try! result := local_tensor_backward local store arch host_memory plan
              graph.(V4ExecutionGraph_job_id) plan.(V4TrainingPlan_plan_generation) shard sequence
              round_input gradient in
            backward_shards request_id sequence graph plan upstream shards
              (record_hashes shard_id result.(V4TensorBackwardResult_state_hash)
                 result.(V4TensorBackwardResult_optimizer_state_hash) hashes) pending
          else
            match upstream !! shard_id with
            | None => forever
            | Some gradient =>
                let! sent := send_control_message owner (TrainingV4Message_TensorBackward
                  (mkV4TensorBackward request_id graph.(V4ExecutionGraph_job_id)
                     plan.(V4TrainingPlan_plan_generation) shard.(V4ShardOwnership_model_generation)
                     shard_id sequence round_input gradient 10000)) in
                reject_if (negb sent)
                  ("tensor backward could not reach owner " ++ hex_encode (NodeId_0 owner))%string ?!
                backward_shards request_id sequence graph plan upstream shards hashes
                  ({[shard_id]} ∪ pending)
            end
      end
  end.

Definition backward_answer (request_id : JobId) (plan : V4TrainingPlan) (inbound : V4Inbound)
    : option (N * (RoundHashes -> RoundHashes)) :=
  match inbound with
  | V4Inbound_Message _ (TrainingV4Message_TensorBackwardResult result) =>
      if (result.(V4TensorBackwardResult_request_id) == request_id)
         && (result.(V4TensorBackwardResult_plan_generation) =? plan.(V4TrainingPlan_plan_generation))
      then Some (result.(V4TensorBackwardResult_shard_id),
                 record_hashes result.(V4TensorBackwardResult_shard_id)
                   result.(V4TensorBackwardResult_state_hash)
                   result.(V4TensorBackwardResult_optimizer_state_hash))
      else None
  | _ => None
  end.

(** The loss, the hashes, and the number of shards. *)
Definition tensor_training_round (graph : V4ExecutionGraph) (plan : V4TrainingPlan) (window : N)
    : v4 (Z * RoundHashes * N) :=
  let! request_id := random_job_id in
  let sequence := step_sequence graph.(V4ExecutionGraph_graph_generation) window in
  let shards := graph.(V4ExecutionGraph_shards) in
  try! forwarded := forward_shards request_id sequence graph plan shards ∅ ∅ in
  try! outputs := collect_answers fuel "tensor forward" (forward_answer request_id plan) forwarded.2 forwarded.1 in
  match measure_outputs (map V4ShardOwnership_shard_id shards) outputs 0 ∅ with
  | None => forever
  | Some measured =>
      try! measured := Done measured in
      try! stepped := backward_shards request_id sequence graph plan measured.2 shards (∅, ∅) ∅ in
      try! hashes := collect_answers fuel "tensor backward" (backward_answer request_id plan) stepped.2 stepped.1 in
      Done (Ok (clamp_to 0 i64_max measured.1, hashes, len shards))
  end.

(** ** The pipeline round *)

(** [i64::try_from(window).unwrap_or(i64::MAX)] *)
Definition window_value (window : N) : Z := Z.min (Z.of_N window) i64_max.

(** A microbatch goes forward through both stages; whether an answer is due. *)
Definition forward_microbatch (request_id : JobId) (graph : V4ExecutionGraph) (plan : V4TrainingPlan)
    (window : N) (first second : NodeId) (microbatch : N) : v4 bool :=
  let job_id := graph.(V4ExecutionGraph_job_id) in
  let plan_generation := plan.(V4TrainingPlan_plan_generation) in
  let activation := [i64_saturating_add (window_value window) 1; 2%Z] in
  let forward stage_id activation next_stage := TrainingV4Message_PipelineForward
    (mkV4PipelineForward request_id job_id plan_generation stage_id 2 microbatch activation next_stage
       local 8000) in
  if first == local then
    try! activation := local_pipeline_stage_forward local arch host_memory plan job_id plan_generation 0
      activation in
    if second == local then
      try! _ := local_pipeline_stage_forward local arch host_memory plan job_id plan_generation 1
        activation in
      Done (Ok false)
    else
      let! sent := send_control_message second (forward 1 activation None) in
      reject_if (negb sent) "pipeline stage one is unavailable" ?! Done (Ok true)
  else
    let! sent := send_control_message first (forward 0 activation (Some second)) in
    reject_if (negb sent) "pipeline stage zero is unavailable" ?! Done (Ok true).

Definition backward_microbatch (request_id : JobId) (graph : V4ExecutionGraph) (plan : V4TrainingPlan)
    (first second : NodeId) (microbatch : N) : v4 bool :=
  let job_id := graph.(V4ExecutionGraph_job_id) in
  let plan_generation := plan.(V4TrainingPlan_plan_generation) in
  let backward stage_id gradient previous_stage := TrainingV4Message_PipelineBackward
    (mkV4PipelineBackward request_id job_id plan_generation stage_id 2 microbatch gradient previous_stage
       local 8000) in
  if second == local then
    try! gradient := local_pipeline_stage_backward local arch host_memory plan job_id plan_generation 1
      [1; 1]%Z in
    if first == local then
      try! _ := local_pipeline_stage_backward local arch host_memory plan job_id plan_generation 0
        gradient in
      Done (Ok false)
    else
      let! sent := send_control_message first (backward 0 gradient None) in
      reject_if (negb sent) "pipeline stage zero is unavailable" ?! Done (Ok true)
  else
    let! sent := send_control_message second (backward 1 [1; 1]%Z (Some first)) in
    reject_if (negb sent) "pipeline stage one is unavailable" ?! Done (Ok true).

Fixpoint microbatches (send : N -> v4 bool) (numbers : list N) (pending : gset N) : v4 (gset N) :=
  match numbers with
  | [] => Done (Ok pending)
  | number :: numbers =>
      try! due := send number in
      microbatches send numbers (if (due : bool) then {[number]} ∪ pending else pending)
  end.

Definition pipeline_answer (request_id : JobId) (plan : V4TrainingPlan) (inbound : V4Inbound)
    : option (N * (unit -> unit)) :=
  match inbound with
  | V4Inbound_Message _ (TrainingV4Message_PipelineForwardResult result) =>
      if (result.(V4PipelineForwardResult_request_id) == request_id)
         && (result.(V4PipelineForwardResult_plan_generation) =? plan.(V4TrainingPlan_plan_generation))
      then Some (result.(V4PipelineForwardResult_microbatch), fun u => u) else None
  | _ => None
  end.

Definition pipeline_gradient_answer (request_id : JobId) (plan : V4TrainingPlan) (inbound : V4Inbound)
    : option (N * (unit -> unit)) :=
  match inbound with
  | V4Inbound_Message _ (TrainingV4Message_PipelineBackwardResult result) =>
      if (result.(V4PipelineBackwardResult_request_id) == request_id)
         && (result.(V4PipelineBackwardResult_plan_generation) =? plan.(V4TrainingPlan_plan_generation))
      then Some (result.(V4PipelineBackwardResult_microbatch), fun u => u) else None
  | _ => None
  end.

Definition pipeline_training_round (graph : V4ExecutionGraph) (plan : V4TrainingPlan) (window : N)
    : v4 unit :=
  match graph.(V4ExecutionGraph_pipeline_stages) with
  | [first; second] =>
      let first := first.(V4PipelineStageAssignment_worker) in
      let second := second.(V4PipelineStageAssignment_worker) in
      let! request_id := random_job_id in
      try! pending := microbatches (forward_microbatch request_id graph plan window first second) [0; 1] ∅ in
      collect_answers fuel "pipeline forward" (pipeline_answer request_id plan) pending tt ?!
      try! pending := microbatches (backward_microbatch request_id graph plan first second) [0; 1] ∅ in
      collect_answers fuel "pipeline backward" (pipeline_gradient_answer request_id plan) pending tt
  | _ => refuse "integrated reference requires two pipeline stages"
  end.

(** ** The collective round *)

Definition contribution_for (request_id : JobId) (graph : V4ExecutionGraph) (plan : V4TrainingPlan)
    (window : N) (group : V4AggregationGroup) (contributors : list NodeId) (contributor : NodeId)
    : V4CollectiveContribute :=
  mkV4CollectiveContribute request_id graph.(V4ExecutionGraph_job_id)
    plan.(V4TrainingPlan_plan_generation)
    (sat_add u64_max graph.(V4ExecutionGraph_collective_generation) window)
    group.(V4AggregationGroup_group_id) contributor group.(V4AggregationGroup_aggregator)
    group.(V4AggregationGroup_parent) (trunc u16_max (len contributors))
    (trunc u16_max (len graph.(V4ExecutionGraph_aggregation_groups))) [window_value window; 1%Z] local.

(** The node's own contribution goes to the aggregator, the others are asked for theirs. *)
Fixpoint ask_contributors (message : NodeId -> V4CollectiveContribute) (aggregator : NodeId)
    (contributors : list NodeId) : v4 unit :=
  match contributors with
  | [] => Done (Ok tt)
  | contributor :: contributors =>
      let! sent := send_control_message (if contributor == local then aggregator else contributor)
        (TrainingV4Message_CollectiveContribute (message contributor)) in
      reject_if (negb sent) "collective contributor is unavailable" ?!
      ask_contributors message aggregator contributors
  end.

Fixpoint ask_groups (request_id : JobId) (graph : V4ExecutionGraph) (plan : V4TrainingPlan) (window : N)
    (groups : list V4AggregationGroup) (roots : gset NodeId) : v4 (gset NodeId) :=
  match groups with
  | [] => Done (Ok roots)
  | group :: groups =>
      let aggregator := group.(V4AggregationGroup_aggregator) in
      let contributors := List.filter (fun member => member != aggregator) group.(V4AggregationGroup_members) in
      reject_if (is_empty contributors) "collective group has no remote contributor" ?!
      ask_contributors (contribution_for request_id graph plan window group contributors) aggregator
        contributors ?!
      ask_groups request_id graph plan window groups ({[aggregator]} ∪ roots)
  end.

Definition is_collective_answer (request_id : JobId) (graph : V4ExecutionGraph) (plan : V4TrainingPlan)
    (window : N) (roots : gset NodeId) (peer : NodeId) (result : V4CollectiveResult) : bool :=
  (result.(V4CollectiveResult_request_id) == request_id)
  && bool_decide (peer ∈ roots)
  && (result.(V4CollectiveResult_plan_generation) =? plan.(V4TrainingPlan_plan_generation))
  && (result.(V4CollectiveResult_generation)
      =? sat_add u64_max graph.(V4ExecutionGraph_collective_generation) window)
  && (result.(V4CollectiveResult_group_count)
      =? trunc u16_max (len graph.(V4ExecutionGraph_aggregation_groups)))
  && (result.(V4CollectiveResult_max_fan_in) <=? 2).

Fixpoint await_roots (fuel' : nat) (accepted : NodeId -> V4CollectiveResult -> bool)
    (roots results : gset NodeId) : v4 unit :=
  match fuel' with
  | O => forever
  | S fuel' =>
      if (size roots <=? size results)%nat then Done (Ok tt)
      else
        try! event := receive_next in
        match event with
        | None => refuse "collective result mailbox closed"
        | Some (V4Inbound_Message peer (TrainingV4Message_CollectiveResult result)) =>
            await_roots fuel' accepted roots
              (if accepted peer result then {[peer]} ∪ results else results)
        | Some _ => await_roots fuel' accepted roots results
        end
  end.

Definition collective_training_round (graph : V4ExecutionGraph) (plan : V4TrainingPlan) (window : N)
    : v4 unit :=
  let! request_id := random_job_id in
  try! roots := ask_groups request_id graph plan window graph.(V4ExecutionGraph_aggregation_groups) ∅ in
  await_roots fuel (is_collective_answer request_id graph plan window roots) roots ∅.

(** ** The checkpoint *)

Fixpoint hashes_of (missing : str) (hashes : gmap N ArtifactId) (shard_ids : list N)
    : result (list ArtifactId) NodeError :=
  match shard_ids with
  | [] => Ok []
  | shard_id :: shard_ids =>
      let? hash := ok_or (hashes !! shard_id) (invalid_config missing) in
      let? rest := hashes_of missing hashes shard_ids in
      Ok (hash :: rest)
  end.

Definition providers_of (graph : V4ExecutionGraph) : list NodeId :=
  dedup_by_key (fun node => node) (sort_nodes (flat_map (fun shard =>
    shard.(V4ShardOwnership_owners) ++ shard.(V4ShardOwnership_replicas)) graph.(V4ExecutionGraph_shards))).

Definition checkpoint_of (graph : V4ExecutionGraph) (plan : V4TrainingPlan)
    (state : V4IntegratedStateRecord) (shard_hashes : list ArtifactId) (parent : option ArtifactId)
    : option V4CheckpointRecord :=
  shard ← head graph.(V4ExecutionGraph_shards);
  let checkpoint := mkV4CheckpointRecord graph.(V4ExecutionGraph_job_id)
    plan.(V4TrainingPlan_plan_generation) shard.(V4ShardOwnership_model_generation)
    graph.(V4ExecutionGraph_optimizer_generation) graph.(V4ExecutionGraph_membership_epoch)
    (sat_add u64_max state.(V4IntegratedStateRecord_checkpoint_generation) 1)
    graph.(V4ExecutionGraph_branch) parent shard_hashes (providers_of graph) true ArtifactId_default in
  Some (with_manifest_hash (checkpoint_hash checkpoint) checkpoint).

Fixpoint send_checkpoint (checkpoint : V4CheckpointRecord) (providers : list NodeId) (pending : gset NodeId)
    : v4 (gset NodeId) :=
  match providers with
  | [] => Done (Ok pending)
  | provider :: providers =>
      if provider == local then send_checkpoint checkpoint providers pending
      else
        let! sent := send_control_message provider (TrainingV4Message_CheckpointRecord checkpoint) in
        reject_if (negb sent)
          ("checkpoint provider " ++ hex_encode (NodeId_0 provider) ++ " is unavailable")%string ?!
        send_checkpoint checkpoint providers ({[provider]} ∪ pending)
  end.

Definition checkpoint_answer (checkpoint : V4CheckpointRecord) (inbound : V4Inbound) : option NodeId :=
  match inbound with
  | V4Inbound_Message peer (TrainingV4Message_StateAck ack) =>
      if (peer != local) && ack.(V4StateAck_accepted)
         && (ack.(V4StateAck_kind) == V4StateAckKind_Checkpoint)
         && (ack.(V4StateAck_state_hash) == checkpoint.(V4CheckpointRecord_manifest_hash))
      then Some peer else None
  | _ => None
  end.

Definition commit_integrated_checkpoint (graph : V4ExecutionGraph) (plan : V4TrainingPlan)
    (hashes : RoundHashes) (state : V4IntegratedStateRecord) : v4 V4CheckpointRecord :=
  let job_id := graph.(V4ExecutionGraph_job_id) in
  let shard_ids := map V4ShardOwnership_shard_id graph.(V4ExecutionGraph_shards) in
  try! tensor_hashes := Done (hashes_of "checkpoint is missing a tensor shard" hashes.1 shard_ids) in
  try! optimizer_hashes := Done (hashes_of "checkpoint is missing an optimizer shard" hashes.2 shard_ids) in
  let! parent := reading (fun _ s => option_map V4CheckpointRecord_manifest_hash
    (s.(V4State_checkpoints) !! (job_id, state.(V4IntegratedStateRecord_checkpoint_generation)))) in
  match checkpoint_of graph plan state (tensor_hashes ++ optimizer_hashes) parent with
  | None => forever
  | Some checkpoint =>
      persist_checkpoint store checkpoint ?!
      updating (fun _ s => set_V4State_checkpoints
        (<[(job_id, checkpoint.(V4CheckpointRecord_checkpoint_generation)) := checkpoint]>
           s.(V4State_checkpoints)) s) ;!
      try! pending := send_checkpoint checkpoint checkpoint.(V4CheckpointRecord_providers) ∅ in
      let! missing := await_some fuel (checkpoint_answer checkpoint) pending in
      reject_if (negb (bool_decide (missing = ∅)))
        ("checkpoint manifest was not acknowledged by " ++ decimal (N.of_nat (size missing))
         ++ " provider(s)")%string ?!
      Done (Ok checkpoint)
  end.

(** ** The driver *)

Context (training_window_delay_ms : N) (windows checkpoint_every : N).
Notation activate_or_recover next :=
  (activate_integrated_graph_with_recovery next windows checkpoint_every).

(** Another graph has taken the place of the driver's. *)
Definition is_fenced (graph : V4ExecutionGraph) (current : option V4ExecutionGraph) : bool :=
  is_none_or current (fun current =>
    negb (current.(V4ExecutionGraph_graph_generation) =? graph.(V4ExecutionGraph_graph_generation))
    || (current.(V4ExecutionGraph_graph_hash) != graph.(V4ExecutionGraph_graph_hash))
    || (current.(V4ExecutionGraph_plan_hash) != graph.(V4ExecutionGraph_plan_hash))
    || (current.(V4ExecutionGraph_coordinator) != local)).

Definition split_settling (graph : V4ExecutionGraph) (window : N) : bool :=
  (window =? 0) && (len graph.(V4ExecutionGraph_shards) =? 4)
  && (graph.(V4ExecutionGraph_checkpoint_generation) <=? 1).

(** A worker joins. *)
Definition admit_worker (run : DriverRun) (joined : NodeId) : v4 DriverRun :=
  try! next := reconfigure_integrated_graph_membership local store run.(run_graph) run.(run_plan)
    run.(run_state) None (Some joined) None in
  try! next := activate_or_recover next in
  Done (Ok (moved_to next (joins_after (sat_add u64_max run.(run_window) V4_JOIN_COOLDOWN_WINDOWS)
                          (counted one_reconfiguration run)))).

(** A failed worker is replaced, if the others are a majority; otherwise the driver waits. *)
Definition replace_worker (run : DriverRun) (failed : NodeId)
    (more : V4ExecutionGraph -> DriverCounts) (after : DriverRun -> DriverRun) : v4 DriverRun :=
  let! quorum := has_integrated_reconfiguration_quorum run.(run_graph) run.(run_state) failed in
  if negb quorum then pause ;! Done (Ok run)
  else
    try! next := reconfigure_integrated_graph run.(run_graph) run.(run_plan) run.(run_state) failed in
    let counts := more next.1.1 in
    try! next := activate_or_recover next in
    Done (Ok (after (moved_to next (counted counts run)))).

(** What the replacement of a silent worker counts, between two windows. *)
Definition silent_replacement (old_coordinator failed : NodeId) (graph : V4ExecutionGraph) : DriverCounts :=
  let one (condition : bool) : N := if condition then 1 else 0 in
  let owns := existsb (fun shard => contains local shard.(V4ShardOwnership_owners))
                graph.(V4ExecutionGraph_shards) in
  let works := existsb (fun stage => stage.(V4PipelineStageAssignment_worker) == local)
                 graph.(V4ExecutionGraph_pipeline_stages) in
  mkDriverCounts 0 0 0 0 1 (one (failed == old_coordinator)) 1 (one owns) (one works) (one owns) 0.

(** The job waits for a probe and a moment, then tries again. *)
Definition try_again (run : DriverRun) : v4 DriverRun :=
  ignore (probe_integrated_members run.(run_graph) run.(run_state)) ;!
  pause ;!
  Done (Ok run).

(** A round failed: an unavailable worker is replaced, a slow one after two failures in a row. *)
Definition round_failed (run : DriverRun) (counts : DriverCounts) : v4 DriverRun :=
  let! failed := detect_unavailable_worker run.(run_graph) run.(run_state) in
  match failed with
  | Some failed => replace_worker run failed (fun _ => counts) (with_streak 0)
  | None =>
      let streak := sat_add u8_max run.(run_round_timeout_streak) 1 in
      let run := with_streak streak run in
      if V4_STRAGGLER_FAILURES_REQUIRED <=? streak then
        try! straggler := maybe_reconfigure_straggler local store fuel run.(run_graph) run.(run_plan)
          run.(run_state) in
        match straggler with
        | Some (_, next) =>
            try! next := activate_or_recover next in
            Done (Ok (with_streak 0 (reconciled (moved_to next (counted counts run)))))
        | None => try_again run
        end
      else try_again run
  end.

(** The window is over: its checkpoint, if it is due, and its state. *)
Definition finish_window (run : DriverRun) (hashes : RoundHashes) : v4 DriverRun :=
  let window := sat_add u64_max run.(run_window) 1 in
  let run := with_window window (with_streak 0 run) in
  let run := with_state (progressed run) run in
  let publish (run : DriverRun) :=
    let state := sealed run.(run_state) in
    publish_state state ?!
    broadcast_integrated_state run.(run_graph) state ;!
    Done (Ok (with_state state run)) in
  if checkpoint_every =? 0 then forever
  else if (window mod checkpoint_every =? 0) || (window =? windows) then
    let! committed := commit_integrated_checkpoint run.(run_graph) run.(run_plan) hashes run.(run_state) in
    match committed with
    | Ok checkpoint =>
        publish (counted (mkDriverCounts 0 0 0 1 0 0 0 0 0 0 0)
          (with_state (with_checkpoint_generation
             checkpoint.(V4CheckpointRecord_checkpoint_generation) run.(run_state)) run))
    | Err _ =>
        let! failed := detect_unavailable_worker run.(run_graph) run.(run_state) in
        match failed with
        | Some failed => replace_worker run failed (fun _ => checkpoint_replacement) (fun run => run)
        | None => try_again run
        end
    end
  else publish run.

(** The three rounds of a window. *)
Definition window_rounds (run : DriverRun) : v4 DriverRun :=
  let! tensor := tensor_training_round run.(run_graph) run.(run_plan) run.(run_window) in
  match tensor with
  | Err _ => round_failed run tensor_replacement
  | Ok (loss, hashes, steps) =>
      let run := with_loss loss (counted (mkDriverCounts steps 0 0 0 0 0 0 0 0 0 0) run) in
      let! pipeline := pipeline_training_round run.(run_graph) run.(run_plan) run.(run_window) in
      match pipeline with
      | Err _ => round_failed run pipeline_replacement
      | Ok _ =>
          let run := counted (mkDriverCounts 0 1 0 0 0 0 0 0 0 0 0) run in
          let! collective := collective_training_round run.(run_graph) run.(run_plan) run.(run_window) in
          match collective with
          | Err _ => round_failed run one_reconfiguration
          | Ok _ => finish_window (counted (mkDriverCounts 0 0 1 0 0 0 0 0 0 0 0) run) hashes
          end
      end
  end.

(** One turn of the loop over the windows. *)
Definition driver_turn (run : DriverRun) : v4 DriverRun :=
  let graph := run.(run_graph) in
  (if 0 <? training_window_delay_ms then pause else Done tt) ;!
  let! current := active_graph graph.(V4ExecutionGraph_job_id) in
  reject_if (is_fenced graph current) "integrated V4 driver fenced by a newer execution graph" ?!
  let! joined :=
    (if negb (split_settling graph run.(run_window))
        && (run.(run_join_allowed_after_window) <=? run.(run_window))
     then find_joined_worker graph else Done None) in
  match joined with
  | Some joined => admit_worker run joined
  | None =>
      let! failed := first_unavailable_worker graph run.(run_state) in
      match failed with
      | Some failed =>
          replace_worker run failed (silent_replacement graph.(V4ExecutionGraph_coordinator) failed)
            reconciled
      | None => window_rounds run
      end
  end.

Fixpoint drive (turns : nat) (run : DriverRun) : v4 DriverRun :=
  match turns with
  | O => forever
  | S turns =>
      if run.(run_window) <? windows then
        try! run := driver_turn run in
        drive turns run
      else Done (Ok run)
  end.

Definition integrated_result (run : DriverRun) : V4IntegratedResult :=
  let counts := run.(run_counts) in
  let job_id := run.(run_graph).(V4ExecutionGraph_job_id) in
  mkV4IntegratedResult job_id job_id run.(run_graph).(V4ExecutionGraph_graph_generation)
    run.(run_window) run.(run_initial_loss) run.(run_current_loss) counts.(tensor_steps)
    counts.(pipeline_steps) counts.(collective_rounds) counts.(checkpoint_generations)
    counts.(graph_reconfigurations) counts.(coordinator_replacements) counts.(shard_recoveries)
    counts.(tensor_recoveries) counts.(pipeline_recoveries) counts.(optimizer_recoveries)
    counts.(checkpoint_recoveries) run.(run_max_update_fanin) false false false false false
    (Z.ltb 0 run.(run_initial_loss) && Z.ltb run.(run_current_loss) run.(run_initial_loss))
    run.(run_branch_reconciled) V4IntegratedPhase_Committed
    (sat_add u64_max (sat_add u64_max counts.(tensor_steps) counts.(pipeline_steps))
       counts.(collective_rounds))
    counts.(graph_reconfigurations) 0 (0 <? counts.(checkpoint_generations)).

(** All windows are done: the job is committed, and its result saved and reported. *)
Definition finish_job (run : DriverRun) : v4 V4IntegratedResult :=
  let graph := run.(run_graph) in
  let state := sealed (in_phase V4IntegratedPhase_Committed run.(run_state)) in
  publish_state state ?!
  broadcast_integrated_state graph state ;!
  let result := integrated_result run in
  persist_integrated_result store result ?!
  (if graph.(V4ExecutionGraph_reply_to) != local
   then ignore (send_control_message graph.(V4ExecutionGraph_reply_to)
                  (TrainingV4Message_IntegratedResult result))
   else Done tt) ;!
  remove_job graph.(V4ExecutionGraph_job_id) ;!
  Done (Ok result).

Definition run_integrated_driver (graph : V4ExecutionGraph) (plan : V4TrainingPlan)
    (state : V4IntegratedStateRecord) (resumed : bool) : v4 V4IntegratedResult :=
  (if resumed then Done (Ok tt)
   else activate_and_install_integrated_graph graph plan windows checkpoint_every) ?!
  try! state := commit_integrated_graph_activation graph state windows in
  let window := state.(V4IntegratedStateRecord_window) in
  try! run := drive fuel (mkDriverRun graph plan state
    state.(V4IntegratedStateRecord_initial_loss_micros)
    state.(V4IntegratedStateRecord_current_loss_micros) no_counts 0 false 0 window window) in
  finish_job run.

(** The task of a driver: when it fails, the job has no mailbox any more. *)
Definition driver_task (graph : V4ExecutionGraph) (plan : V4TrainingPlan)
    (state : V4IntegratedStateRecord) (resumed : bool) : vtask unit :=
  let! r := run_integrated_driver graph plan state resumed in
  match r with
  | Ok _ => Done tt
  | Err _ => remove_job graph.(V4ExecutionGraph_job_id)
  end.

(** ** The participant *)

Inductive IntegratedTakeoverOutcome :=
  | IntegratedTakeoverOutcome_CoordinatorAlive
  | IntegratedTakeoverOutcome_TransitionInProgress
  | IntegratedTakeoverOutcome_CoordinatorMissingWithoutQuorum
  | IntegratedTakeoverOutcome_AnotherCandidate
  | IntegratedTakeoverOutcome_ReplacementCompleted
  | IntegratedTakeoverOutcome_Terminal.

Definition is_terminal (phase : V4IntegratedPhase) : bool :=
  match phase with V4IntegratedPhase_Committed | V4IntegratedPhase_Failed => true | _ => false end.

Definition is_transition (phase : V4IntegratedPhase) : bool :=
  match phase with V4IntegratedPhase_Preparing | V4IntegratedPhase_Reconfiguring => true | _ => false end.

(** The node holds a part of the model. *)
Definition is_provider (graph : V4ExecutionGraph) (candidate : NodeId) : bool :=
  existsb (fun shard => contains candidate shard.(V4ShardOwnership_replicas)
                        || contains candidate shard.(V4ShardOwnership_owners))
    graph.(V4ExecutionGraph_shards)
  || existsb (fun stage => contains candidate stage.(V4PipelineStageAssignment_replicas)
                           || (stage.(V4PipelineStageAssignment_worker) == candidate))
       graph.(V4ExecutionGraph_pipeline_stages).

(** Who may stand for election: the live providers, or all that live. *)
Definition takeover_candidates (graph : V4ExecutionGraph) (confirmed : gset NodeId) : list NodeId :=
  let live := List.filter (fun candidate => is_live local confirmed candidate
                && (candidate != graph.(V4ExecutionGraph_coordinator))) graph.(V4ExecutionGraph_workers) in
  let providers := List.filter (is_provider graph) live in
  sort_nodes (if is_empty providers then live else providers).

Definition maybe_take_over_integrated_job (job_id : JobId) (coordinator_misses : N)
    : v4 IntegratedTakeoverOutcome :=
  let! known := active_graph job_id in
  try! graph := expect "takeover graph is unavailable" known in
  let! known := active_plan job_id in
  try! plan := expect "takeover plan is unavailable" known in
  let! known := reading (fun _ s => s.(V4State_integrated_states) !! job_id) in
  try! state := expect "takeover state is unavailable" known in
  if is_terminal state.(V4IntegratedStateRecord_phase)
  then Done (Ok IntegratedTakeoverOutcome_Terminal)
  else if is_transition state.(V4IntegratedStateRecord_phase)
  then Done (Ok IntegratedTakeoverOutcome_TransitionInProgress)
  else
    let! confirmed := probe_integrated_members graph state in
    if (graph.(V4ExecutionGraph_coordinator) != local)
       && bool_decide (graph.(V4ExecutionGraph_coordinator) ∈ confirmed)
    then Done (Ok IntegratedTakeoverOutcome_CoordinatorAlive)
    else if (len (List.filter (is_live local confirmed) graph.(V4ExecutionGraph_workers)) <? quorum_of graph)
            || (sat_add u8_max coordinator_misses 1 <? V4_TAKEOVER_MISSES_REQUIRED)
    then Done (Ok IntegratedTakeoverOutcome_CoordinatorMissingWithoutQuorum)
    else if head (takeover_candidates graph confirmed) != Some local
    then Done (Ok IntegratedTakeoverOutcome_AnotherCandidate)
    else
      try! election_certificate := request_integrated_election local store fuel graph state confirmed in
      try! next := reconfigure_integrated_graph_with_certificate local store graph plan state
        graph.(V4ExecutionGraph_coordinator) election_certificate in
      try! _ := run_integrated_driver next.1.1 next.1.2 next.2 false in
      Done (Ok IntegratedTakeoverOutcome_ReplacementCompleted).

(** The count of misses after an attempt; [None] ends the loop. *)
Definition after_attempt (misses : N) (outcome : result IntegratedTakeoverOutcome NodeError) : option N :=
  match outcome with
  | Ok IntegratedTakeoverOutcome_ReplacementCompleted | Ok IntegratedTakeoverOutcome_Terminal => None
  | Ok IntegratedTakeoverOutcome_CoordinatorAlive | Ok IntegratedTakeoverOutcome_TransitionInProgress
  | Ok IntegratedTakeoverOutcome_AnotherCandidate => Some 0
  | Ok IntegratedTakeoverOutcome_CoordinatorMissingWithoutQuorum => Some (sat_add u8_max misses 1)
  | Err _ => Some misses
  end.

Fixpoint participant_turns (turns : nat) (job_id : JobId) (misses : N) : vtask unit :=
  match turns with
  | O => forever
  | S turns =>
      let! waited := wait_event in
      match waited with
      | Waited_Closed => Done tt
      | Waited_Event (V4Inbound_PeerDisconnected _) =>
          pause ;!
          let! outcome := maybe_take_over_integrated_job job_id misses in
          match after_attempt misses outcome with
          | Some misses => participant_turns turns job_id misses
          | None => Done tt
          end
      | Waited_Event _ => participant_turns turns job_id misses
      | Waited_Elapsed =>
          let! due := is_past in
          let! next := (if (due : bool) then
                          let! outcome := maybe_take_over_integrated_job job_id misses in
                          Done (after_attempt misses outcome)
                        else Done (Some misses)) in
          match next with
          | None => Done tt
          | Some misses =>
              let! terminal := reading (fun _ s => is_some_and (s.(V4State_integrated_states) !! job_id)
                (fun state => is_terminal state.(V4IntegratedStateRecord_phase))) in
              if (terminal : bool) then Done tt else participant_turns turns job_id misses
          end
      end
  end.

Definition integrated_participant_loop (initial_graph : V4ExecutionGraph) : vtask unit :=
  let job_id := initial_graph.(V4ExecutionGraph_job_id) in
  participant_turns fuel job_id 0 ;!
  remove_job job_id.
End Driver.
