(* ===== verification/V4Plans.v ===== *)
(** * Frontier training: an operator's plans and shards (crates/node/src/frontier_training.rs)

    The commands by which an operator of a node makes a plan, proposes another one for a job and
    activates it, puts the bytes of a data shard in place, hands a shard over, and has the state of
    a job replicated.  What a command returns is what its report says besides constants.

    A time limit is reached when the surroundings say so; waits take [fuel], as many messages as a
    run looks at. *)

From Stdlib Require Import String ZArith NArith Lia SpecFloat.
From stdpp Require Import base tactics sets strings numbers list gmap.
From S2P Require Import Prelude OrdMap Types Validation FileSystem Storage Aggregation Compute Float32 TrainingPlan Planner Runtime Trust Security Network NodeConfig Tasks V4Model V4Control V4Integrated V4Data V4Node V4Reconfigure V4Driver.
Local Open Scope N_scope.
Local Open Scope rust_scope.

(** ** The surroundings of a command *)

(** [{:?}] of an identity. *)
Definition NodeId_debug (node : NodeId) : str :=
  ("NodeId([" ++ String.concat ", " (map decimal (NodeId_0 node)) ++ "])")%string.

(** [network.reconnect_peer(peer)]: the session is closed and the peer dialed again. *)
Definition reconnect_peer (peer : NodeId) : vtask bool :=
  atomic (fun e s => (contains peer e.(ve_answers), s, [Did_Reconnect peer])).

(** [timeout(.., network.reconnect_peer(peer)).await.is_ok_and(|result| result.is_ok())] *)
Definition reconnected_in_time (peer : NodeId) : vtask bool :=
  let! r := timeout ve_elapsed (reconnect_peer peer) in
  Done (default false r).

(** [network.authenticated_ping(peer).await.is_ok()] *)
Definition answers_ping (peer : NodeId) : vtask bool := reading (fun e _ => contains peer e.(ve_answers)).

(** [for x in xs { body(x).await?; }] *)
Fixpoint for_try {A} (body : A -> v4 unit) (xs : list A) : v4 unit :=
  match xs with
  | [] => Done (Ok tt)
  | x :: xs => body x ?! for_try body xs
  end.

(** [while !full { let Some(V4Inbound::Message { peer, message }) = receive_next(..).await? else { break }; .. }]:
    a disconnection ends the wait. *)
Fixpoint collect_until {A} (fuel : nat) (full : A -> bool) (add : NodeId -> TrainingV4Message -> A -> A)
    (got : A) : v4 A :=
  match fuel with
  | O => forever
  | S fuel =>
      if full got then Done (Ok got)
      else
        try! event := receive_next in
        match event with
        | Some (V4Inbound_Message peer message) => collect_until fuel full add (add peer message got)
        | _ => Done (Ok got)
        end
  end.

(** [plan_v4(&request).map_err(|error| NodeError::InvalidConfig(error.to_string()))?] *)
Definition planned (r : result V4PlanDecision V4PlannerError) : v4 V4PlanDecision :=
  Done (map_err (fun error => invalid_config (V4PlannerError_to_string error)) r).

(** ** Links *)

(** [x.min(y)] and [x.clamp(0.0, 1.0)] on the bits. *)
Definition f32_min_bits (x y : f32) : f32 :=
  if f32_is_nan (f32_value x) then y
  else if f32_is_nan (f32_value y) then x
  else if SFltb (f32_value y) (f32_value x) then y else x.

Definition f32_clamp_unit_bits (x : f32) : f32 :=
  if SFltb (f32_value x) f32_0 then 0
  else if SFltb f32_1 (f32_value x) then 0x3F800000 else x.

Definition link_between (left right : WorkerProfile) : V4TopologyLink :=
  mkV4TopologyLink left.(WorkerProfile_node) right.(WorkerProfile_node)
    (N.max (N.max left.(WorkerProfile_rtt_ms) right.(WorkerProfile_rtt_ms)) 1)
    (N.max (N.min left.(WorkerProfile_throughput_mbps) right.(WorkerProfile_throughput_mbps)) 1)
    (f32_clamp_unit_bits (f32_min_bits left.(WorkerProfile_reliability) right.(WorkerProfile_reliability))).

(** A link between every two workers. *)
Fixpoint topology_links (workers : list WorkerProfile) : list V4TopologyLink :=
  match workers with
  | [] => []
  | worker :: workers => map (link_between worker) workers ++ topology_links workers
  end.

(** ** Plans that follow another one *)

(** The revision of a plan with other shards, before its hash. *)
Definition revised_plan (plan : V4TrainingPlan) (shards : list V4ShardOwnership) : V4TrainingPlan :=
  mkV4TrainingPlan plan.(V4TrainingPlan_job_id) plan.(V4TrainingPlan_proposer)
    (sat_add u64_max plan.(V4TrainingPlan_plan_generation) 1) plan.(V4TrainingPlan_model_generation)
    plan.(V4TrainingPlan_training_epoch) (sat_add u64_max plan.(V4TrainingPlan_membership_epoch) 1)
    (sat_add u64_max plan.(V4TrainingPlan_coordination_term) 1) plan.(V4TrainingPlan_branch)
    plan.(V4TrainingPlan_strategy) plan.(V4TrainingPlan_support) plan.(V4TrainingPlan_workers)
    plan.(V4TrainingPlan_groups) shards plan.(V4TrainingPlan_tensor_degree)
    plan.(V4TrainingPlan_pipeline_stages) plan.(V4TrainingPlan_local_steps)
    plan.(V4TrainingPlan_max_staleness) plan.(V4TrainingPlan_checkpoint_replication)
    plan.(V4TrainingPlan_data_locality) plan.(V4TrainingPlan_accelerator)
    plan.(V4TrainingPlan_worker_capabilities) plan.(V4TrainingPlan_rationale)
    plan.(V4TrainingPlan_plan_hash) (Some plan.(V4TrainingPlan_plan_hash))
    plan.(V4TrainingPlan_compute_requirements) plan.(V4TrainingPlan_backend_assignments).

(** The fields [replan] sets in the planner's plan, before its hash. *)
Definition proposed_after (previous plan : V4TrainingPlan) (shards : list V4ShardOwnership) : V4TrainingPlan :=
  mkV4TrainingPlan plan.(V4TrainingPlan_job_id) plan.(V4TrainingPlan_proposer)
    (sat_add u64_max previous.(V4TrainingPlan_plan_generation) 1) plan.(V4TrainingPlan_model_generation)
    (sat_add u64_max previous.(V4TrainingPlan_training_epoch) 1)
    (sat_add u64_max previous.(V4TrainingPlan_membership_epoch) 1)
    (sat_add u64_max previous.(V4TrainingPlan_coordination_term) 1) previous.(V4TrainingPlan_branch)
    plan.(V4TrainingPlan_strategy) plan.(V4TrainingPlan_support) plan.(V4TrainingPlan_workers)
    plan.(V4TrainingPlan_groups) shards plan.(V4TrainingPlan_tensor_degree)
    plan.(V4TrainingPlan_pipeline_stages) plan.(V4TrainingPlan_local_steps)
    plan.(V4TrainingPlan_max_staleness) plan.(V4TrainingPlan_checkpoint_replication)
    plan.(V4TrainingPlan_data_locality) plan.(V4TrainingPlan_accelerator)
    plan.(V4TrainingPlan_worker_capabilities) plan.(V4TrainingPlan_rationale)
    plan.(V4TrainingPlan_plan_hash) (Some previous.(V4TrainingPlan_plan_hash))
    plan.(V4TrainingPlan_compute_requirements) plan.(V4TrainingPlan_backend_assignments).

(** A shard of the planner's plan that keeps what the previous plan knows of it. *)
Definition carried_shard (old shard : V4ShardOwnership) : V4ShardOwnership :=
  let old_owner := head old.(V4ShardOwnership_owners) in
  let new_owner := head shard.(V4ShardOwnership_owners) in
  let replicas := dedup_by_key (fun node => node)
    (List.filter (fun candidate => Some candidate != new_owner)
       (old.(V4ShardOwnership_owners) ++ old.(V4ShardOwnership_replicas))) in
  mkV4ShardOwnership shard.(V4ShardOwnership_shard_id) old.(V4ShardOwnership_model_generation)
    shard.(V4ShardOwnership_owners) (take 16 replicas)
    (sat_add u64_max old.(V4ShardOwnership_ownership_generation) 1) old.(V4ShardOwnership_content_hash)
    old.(V4ShardOwnership_state_bytes) old.(V4ShardOwnership_memory_bytes)
    shard.(V4ShardOwnership_runtime_requirement)
    (if old_owner == new_owner then V4ShardLifecycle_Active else V4ShardLifecycle_Transferring).

Definition carry_shards (previous plan : V4TrainingPlan) : result (list V4ShardOwnership) NodeError :=
  try_map (fun shard =>
      let? old := ok_or (find_shard shard.(V4ShardOwnership_shard_id) previous.(V4TrainingPlan_shards))
                    (invalid_config "V4 replan changed the shard identity set") in
      Ok (carried_shard old shard))
    plan.(V4TrainingPlan_shards).

(** The stages shown in a plan: its first workers, each with another one as its replica. *)
Definition role_stages (plan : V4TrainingPlan) : list V4PipelineStageAssignment :=
  let workers := plan.(V4TrainingPlan_workers) in
  map (fun '(stage_id, worker) =>
      mkV4PipelineStageAssignment (trunc u16_max (N.of_nat stage_id)) worker
        (option_list (List.find (fun candidate => candidate != worker) workers))
        plan.(V4TrainingPlan_plan_generation))
    (enumerate (take (N.to_nat plan.(V4TrainingPlan_pipeline_stages)) workers)).

(** [let shard = shards.iter_mut().find(|shard| shard.shard_id == shard_id)], and what is assigned to it. *)
Fixpoint update_shard (shard_id : N) (f : V4ShardOwnership -> V4ShardOwnership)
    (shards : list V4ShardOwnership) : list V4ShardOwnership :=
  match shards with
  | [] => []
  | shard :: shards =>
      if shard.(V4ShardOwnership_shard_id) =? shard_id then f shard :: shards
      else shard :: update_shard shard_id f shards
  end.

(** A shard whose bytes are put in place by its owner. *)
Definition seeded (hash : ArtifactId) (bytes : list N) (shard : V4ShardOwnership) : V4ShardOwnership :=
  mkV4ShardOwnership shard.(V4ShardOwnership_shard_id) shard.(V4ShardOwnership_model_generation)
    shard.(V4ShardOwnership_owners) shard.(V4ShardOwnership_replicas)
    shard.(V4ShardOwnership_ownership_generation) hash (len bytes)
    (N.max shard.(V4ShardOwnership_memory_bytes) (len bytes))
    shard.(V4ShardOwnership_runtime_requirement) V4ShardLifecycle_Active.

(** A shard that has a new owner; the old ones stay as replicas. *)
Definition handed_over (target : NodeId) (ownership_generation : N) (content_hash : ArtifactId)
    (state_bytes : N) (shard : V4ShardOwnership) : V4ShardOwnership :=
  let replicas := dedup_by_key (fun node => node)
    (List.filter (fun candidate => candidate != target)
       (shard.(V4ShardOwnership_owners) ++ shard.(V4ShardOwnership_replicas))) in
  mkV4ShardOwnership shard.(V4ShardOwnership_shard_id) shard.(V4ShardOwnership_model_generation)
    [target] (take 16 replicas) ownership_generation content_hash state_bytes
    (N.max shard.(V4ShardOwnership_memory_bytes) state_bytes)
    shard.(V4ShardOwnership_runtime_requirement) V4ShardLifecycle_Active.

Section Plans.
Context `{Blake3} `{PlanPostcard} `{V4Json}.
Context (local : NodeId) (store : LocalStore) (fuel : nat).
Notation persist_plan := (persist_plan store).
Notation persist_data_shard := (persist_data_shard store).
Notation persist_training_state := (persist_training_state store).
Notation send_plan_notification := (send_plan_notification local).
Notation acknowledge_plan_update := (acknowledge_plan_update local fuel).

Definition hashed_plan (plan : V4TrainingPlan) : V4TrainingPlan := with_plan_hash plan (hash_plan plan).

(** [node.v4_plans.lock().await.insert(job_id, plan)] *)
Definition insert_plan (job_id : JobId) (plan : V4TrainingPlan) : vtask unit :=
  updating (fun _ s => set_V4State_plans (<[job_id := plan]> s.(V4State_plans)) s).

(** ** Making a plan *)

Definition operator_objective : V4PlannerObjective := mkV4PlannerObjective 2 2 3 1.

Definition plan (model_bytes requested_workers : N) (strategy : str) (tensor_degree pipeline_stages : N)
    : v4 (V4PlanDecision * N) :=
  try! strategy := Done (parse_strategy strategy) in
  let! workers := worker_profiles in
  let links := topology_links workers in
  let! job_id := random_job_id in
  try! decision := planned (plan_v4 (mkV4PlanRequest job_id local model_bytes requested_workers strategy
    tensor_degree pipeline_stages 2 2 2 DataLocality_Selective workers links operator_objective [])) in
  try! plan := Done (bind_backend_assignments decision.(V4PlanDecision_plan)
                       (role_stages decision.(V4PlanDecision_plan))) in
  let plan := hashed_plan plan in
  validated (V4TrainingPlan_validate plan) ?!
  persist_plan plan ?!
  insert_plan plan.(V4TrainingPlan_job_id) plan ;!
  let! _ := create_job job_id in
  let! acknowledged := acknowledge_plan_update plan decision.(V4PlanDecision_selected_workers) in
  remove_job job_id ;!
  try! acknowledged := Done acknowledged in
  Done (Ok (mkV4PlanDecision plan decision.(V4PlanDecision_selected_workers)
              decision.(V4PlanDecision_rejected_workers) decision.(V4PlanDecision_explanations),
            acknowledged)).

(** ** Proposing another plan for a job *)

Definition replan (job_id : JobId) (model_bytes requested_workers : N) (strategy : str)
    (tensor_degree pipeline_stages : N) : v4 V4PlanDecision :=
  let! known := active_plan job_id in
  try! previous := expect "V4 plan is not locally known" known in
  let! workers := worker_profiles in
  let links := topology_links workers in
  try! strategy := Done (parse_strategy strategy) in
  try! decision := planned (plan_v4 (mkV4PlanRequest job_id local model_bytes requested_workers strategy
    tensor_degree pipeline_stages previous.(V4TrainingPlan_local_steps)
    previous.(V4TrainingPlan_max_staleness) previous.(V4TrainingPlan_checkpoint_replication)
    previous.(V4TrainingPlan_data_locality) workers links operator_objective
    previous.(V4TrainingPlan_compute_requirements))) in
  reject_if (negb (len decision.(V4PlanDecision_plan).(V4TrainingPlan_shards)
                   =? len previous.(V4TrainingPlan_shards)))
    "V4 live replan currently requires the existing shard count; add capacity through a separately verified shard-split migration" ?!
  try! shards := Done (carry_shards previous decision.(V4PlanDecision_plan)) in
  let plan := hashed_plan (proposed_after previous decision.(V4PlanDecision_plan) shards) in
  validated (V4TrainingPlan_validate plan) ?!
  files_section (persist_plan_proposal store plan) ?!
  updating (fun _ s => set_V4State_plan_proposals (<[job_id := plan]> s.(V4State_plan_proposals)) s) ;!
  Done (Ok (mkV4PlanDecision plan decision.(V4PlanDecision_selected_workers)
              decision.(V4PlanDecision_rejected_workers) decision.(V4PlanDecision_explanations))).

(** ** Activating a proposal *)

Section Activation.
Context (job_id : JobId).

Definition send_plan_proposal (worker : NodeId) (plan : V4TrainingPlan) : vtask bool :=
  if worker == local then Done true
  else send_control_message worker (TrainingV4Message_PlanProposal plan).

Definition is_proposal_ack (participant : NodeId) (proposal : V4TrainingPlan) (peer : NodeId)
    (ack : V4PlanProposalAck) : bool :=
  (peer == participant)
  && (ack.(V4PlanProposalAck_proposal_hash) == proposal.(V4TrainingPlan_plan_hash))
  && (ack.(V4PlanProposalAck_plan_generation) =? proposal.(V4TrainingPlan_plan_generation)).

(** Whether the participant accepts before the time is up; a refusal ends the activation. *)
Fixpoint await_proposal_ack (fuel' : nat) (participant : NodeId) (proposal : V4TrainingPlan) : v4 bool :=
  match fuel' with
  | O => forever
  | S fuel' =>
      let! next := timeout ve_elapsed (receive_message fuel) in
      match next with
      | Some (Ok (Some (peer, TrainingV4Message_PlanProposalAck ack))) =>
          if is_proposal_ack participant proposal peer ack then
            if ack.(V4PlanProposalAck_accepted) then Done (Ok true)
            else
              remove_job job_id ;!
              refuse ("V4 participant " ++ hex_encode (NodeId_0 peer) ++ " rejected the plan proposal: "
                      ++ ack.(V4PlanProposalAck_reason))%string
          else await_proposal_ack fuel' participant proposal
      | Some (Ok (Some _)) => await_proposal_ack fuel' participant proposal
      | _ => Done (Ok false)
      end
  end.

(** Every attempt is made, also after the participant has accepted. *)
Fixpoint proposal_attempts (attempts : nat) (first : bool) (participant : NodeId)
    (proposal : V4TrainingPlan) (accepted : bool) : v4 bool :=
  match attempts with
  | O => Done (Ok accepted)
  | S attempts =>
      (if first then Done tt else ignore (reconnected_in_time participant)) ;!
      let! sent := send_plan_proposal participant proposal in
      if (sent : bool) then
        try! answered := await_proposal_ack fuel participant proposal in
        proposal_attempts attempts false participant proposal (accepted || answered)
      else proposal_attempts attempts false participant proposal accepted
  end.

Fixpoint offer_proposal (participants : list NodeId) (proposal : V4TrainingPlan)
    (acknowledged : gset NodeId) : v4 (gset NodeId) :=
  match participants with
  | [] => Done (Ok acknowledged)
  | participant :: participants =>
      try! accepted := proposal_attempts 2 true participant proposal false in
      if (accepted : bool) then offer_proposal participants proposal ({[participant]} ∪ acknowledged)
      else
        remove_job job_id ;!
        let! seen := traversed acknowledged in
        refuse ("V4 proposal acknowledgement was not received from participant "
                ++ hex_encode (NodeId_0 participant) ++ "; acknowledged={"
                ++ String.concat ", " (map NodeId_debug seen) ++ "}")%string
  end.

(** The local node owns the shard and hands it over itself. *)
Definition move_local_shard (current proposal : V4TrainingPlan) (proposed : V4ShardOwnership)
    (new_owner : NodeId) : v4 unit :=
  let! known := reading (fun _ s =>
    s.(V4State_data_shards) !! (job_id, proposed.(V4ShardOwnership_shard_id))) in
  try! shard := expect "V4 local owner has no state for the proposed shard transfer" known in
  if negb (shard.(V4LocalDataShard_plan_generation) =? current.(V4TrainingPlan_plan_generation))
     || negb (shard.(V4LocalDataShard_ownership_generation)
              =? sat_sub proposed.(V4ShardOwnership_ownership_generation) 1)
     || (shard.(V4LocalDataShard_hash) != proposed.(V4ShardOwnership_content_hash))
  then
    remove_job job_id ;!
    refuse "V4 local shard is stale relative to the proposed ownership"
  else
    transfer_shard_without_plan_commit local fuel shard new_owner
      proposal.(V4TrainingPlan_plan_generation) proposed.(V4ShardOwnership_ownership_generation).

(** [while let Some(V4Inbound::Message { .. }) = receive_next(..).await?]: whether the old owner has
    moved the shard; a disconnection ends the wait. *)
Fixpoint await_migration_result (fuel' : nat) (old_owner : NodeId) (request_id : JobId)
    (shard_id : N) : v4 bool :=
  match fuel' with
  | O => forever
  | S fuel' =>
      try! event := receive_next in
      match event with
      | Some (V4Inbound_Message peer (TrainingV4Message_ShardMigrationResult result)) =>
          if (peer != old_owner) || (result.(V4ShardMigrationResult_request_id) != request_id)
          then await_migration_result fuel' old_owner request_id shard_id
          else if negb result.(V4ShardMigrationResult_accepted) then
            remove_job job_id ;!
            refuse ("V4 shard " ++ decimal shard_id ++ " migration rejected: "
                    ++ result.(V4ShardMigrationResult_reason))%string
          else Done (Ok true)
      | Some (V4Inbound_Message _ _) => await_migration_result fuel' old_owner request_id shard_id
      | _ => Done (Ok false)
      end
  end.

Definition migration_request (proposal : V4TrainingPlan) (proposed : V4ShardOwnership)
    (request_id : JobId) (old_owner new_owner : NodeId) : V4ShardMigrationRequest :=
  mkV4ShardMigrationRequest request_id job_id local
    proposal.(V4TrainingPlan_plan_hash) proposal.(V4TrainingPlan_plan_generation)
    proposed.(V4ShardOwnership_shard_id) old_owner new_owner
    proposed.(V4ShardOwnership_ownership_generation) proposed.(V4ShardOwnership_content_hash) local.

Definition move_remote_shard (proposal : V4TrainingPlan) (proposed : V4ShardOwnership)
    (request_id : JobId) (old_owner new_owner : NodeId) : v4 unit :=
  transmit old_owner (TrainingV4Message_ShardMigrationRequest
    (migration_request proposal proposed request_id old_owner new_owner)) ?!
  try! accepted := await_migration_result fuel old_owner request_id
                     proposed.(V4ShardOwnership_shard_id) in
  if (accepted : bool) then Done (Ok tt)
  else
    remove_job job_id ;!
    refuse "V4 shard migration result was not received".

(** Whether the shard has another owner and was moved. *)
Definition move_proposed_shard (current proposal : V4TrainingPlan) (proposed : V4ShardOwnership) : v4 bool :=
  try! old_owner := expect "V4 current shard has no owner"
    (find_shard proposed.(V4ShardOwnership_shard_id) current.(V4TrainingPlan_shards)
     ≫= fun shard => head shard.(V4ShardOwnership_owners)) in
  try! new_owner := expect "V4 proposed shard has no owner" (head proposed.(V4ShardOwnership_owners)) in
  if old_owner == new_owner then Done (Ok false)
  else
    let! request_id := random_job_id in
    (if old_owner == local then move_local_shard current proposal proposed new_owner
     else move_remote_shard proposal proposed request_id old_owner new_owner) ?!
    Done (Ok true).

Fixpoint move_proposed_shards (current proposal : V4TrainingPlan) (shards : list V4ShardOwnership)
    (migrated : N) : v4 N :=
  match shards with
  | [] => Done (Ok migrated)
  | shard :: shards =>
      try! moved := move_proposed_shard current proposal shard in
      move_proposed_shards current proposal shards (if (moved : bool) then migrated + 1 else migrated)
  end.

(** Whether the worker takes the committed plan before the time is up. *)
Fixpoint await_commit_ack (fuel' : nat) (worker : NodeId) (plan : V4TrainingPlan) : v4 bool :=
  match fuel' with
  | O => forever
  | S fuel' =>
      let! next := timeout ve_elapsed (receive_message fuel) in
      match next with
      | Some (Ok (Some (peer, TrainingV4Message_PlanAck ack))) =>
          if (peer != worker) || (ack.(V4PlanAck_plan_hash) != plan.(V4TrainingPlan_plan_hash))
             || negb (ack.(V4PlanAck_plan_generation) =? plan.(V4TrainingPlan_plan_generation))
          then await_commit_ack fuel' worker plan
          else if negb ack.(V4PlanAck_accepted) then
            remove_job job_id ;!
            refuse ("V4 participant " ++ hex_encode (NodeId_0 peer) ++ " rejected the committed plan: "
                    ++ ack.(V4PlanAck_reason))%string
          else Done (Ok true)
      | Some (Ok (Some _)) => await_commit_ack fuel' worker plan
      | _ => Done (Ok false)
      end
  end.

Fixpoint commit_attempts (attempts : nat) (first : bool) (worker : NodeId) (plan : V4TrainingPlan)
    : v4 bool :=
  match attempts with
  | O => Done (Ok false)
  | S attempts =>
      (if first then Done tt else ignore (reconnected_in_time worker)) ;!
      let! sent := send_plan_notification worker plan in
      if (sent : bool) then
        try! acknowledged := await_commit_ack fuel worker plan in
        if (acknowledged : bool) then Done (Ok true) else commit_attempts attempts false worker plan
      else commit_attempts attempts false worker plan
  end.

(** The number of workers that did not take the committed plan. *)
Fixpoint notify_workers (workers : list NodeId) (plan : V4TrainingPlan) (failed : N) : v4 N :=
  match workers with
  | [] => Done (Ok failed)
  | worker :: workers =>
      try! acknowledged := commit_attempts 2 true worker plan in
      notify_workers workers plan (if (acknowledged : bool) then failed else failed + 1)
  end.

(** A proposal of the node itself that follows the active plan. *)
Definition can_activate (current proposal : V4TrainingPlan) : bool :=
  (proposal.(V4TrainingPlan_proposer) == local)
  && (proposal.(V4TrainingPlan_parent_plan_hash) == Some current.(V4TrainingPlan_plan_hash))
  && (current.(V4TrainingPlan_plan_generation) <? proposal.(V4TrainingPlan_plan_generation))
  && (proposal.(V4TrainingPlan_plan_hash) == hash_plan proposal)
  && is_ok (V4TrainingPlan_validate proposal).

(** The identities of the shards as a set. *)
Definition shard_ids (plan : V4TrainingPlan) : gset N :=
  list_to_set (map V4ShardOwnership_shard_id plan.(V4TrainingPlan_shards)).

(** All workers of the proposal and all current owners, but not the node itself. *)
Definition activation_participants (current proposal : V4TrainingPlan) : list NodeId :=
  List.filter (fun peer => peer != local)
    (dedup_by_key (fun node => node)
       (sort_nodes (proposal.(V4TrainingPlan_workers)
          ++ omap (fun shard => head shard.(V4ShardOwnership_owners)) current.(V4TrainingPlan_shards)))).

Definition remote_workers (plan : V4TrainingPlan) : list NodeId :=
  List.filter (fun peer => peer != local) plan.(V4TrainingPlan_workers).

(** The proposal takes the place of the active plan, and the workers are told. *)
Definition commit_proposal (proposal : V4TrainingPlan) : v4 unit :=
  persist_plan proposal ?!
  insert_plan job_id proposal ;!
  try! notifications_failed := notify_workers (remote_workers proposal) proposal 0 in
  if 0 <? notifications_failed then
    remove_job job_id ;!
    refuse ("V4 committed plan was not acknowledged by " ++ decimal notifications_failed ++ " worker(s)")%string
  else
    updating (fun _ s => set_V4State_plan_proposals (delete job_id s.(V4State_plan_proposals)) s) ;!
    remove_plan_proposal job_id ?!
    sync_local_execution_state_to_plan local store proposal ;!
    remove_job job_id ;!
    Done (Ok tt).

(** Everything before the proposal takes the place of the active plan: the proposal, the number of
    shards that were moved and the participants that accepted. *)
Definition prepare_activation : v4 (V4TrainingPlan * N * gset NodeId) :=
  let! known := active_plan job_id in
  try! current := expect "V4 active plan is not locally known" known in
  let! known := reading (fun _ s => s.(V4State_plan_proposals) !! job_id) in
  try! proposal := expect "V4 plan proposal is not locally known" known in
  reject_if (negb (can_activate current proposal))
    "V4 proposal is stale, invalid, or owned by another proposer" ?!
  reject_if (negb (bool_decide (shard_ids current = shard_ids proposal)))
    "V4 activation cannot change the shard identity set" ?!
  let participants := activation_participants current proposal in
  reject_if (V4_MAX_WORKERS <? len participants)
    "V4 activation participant set exceeds the bounded limit" ?!
  let! _ := create_job job_id in
  for_task (fun participant => ignore (send_plan_notification participant current))
    (remote_workers current) ;!
  try! acknowledged := offer_proposal participants proposal ∅ in
  try! migrated := move_proposed_shards current proposal proposal.(V4TrainingPlan_shards) 0 in
  Done (Ok (proposal, migrated, acknowledged)).

(** How many shards were moved and how many participants accepted. *)
Definition activate_plan : v4 (N * N) :=
  try! ready := prepare_activation in
  let '(proposal, migrated, acknowledged) := ready in
  commit_proposal proposal ?!
  Done (Ok (migrated, N.of_nat (size acknowledged))).
End Activation.

(** ** Data shards *)

(** Everyone that follows a plan: its workers, and its proposer when that is another node. *)
Definition plan_recipients (plan : V4TrainingPlan) : list NodeId :=
  dedup_by_key (fun node => node)
    (sort_nodes (plan.(V4TrainingPlan_workers)
       ++ (if plan.(V4TrainingPlan_proposer) != local then [plan.(V4TrainingPlan_proposer)] else []))).

(** The plan with the seeded shard is saved, made active and acknowledged. *)
Definition seed_plan (job_id : JobId) (shard_id : N) (hash : ArtifactId) (bytes : list N)
    (current : V4TrainingPlan) : v4 (V4TrainingPlan * V4ShardOwnership * N) :=
  try! shard := expect "V4 plan does not contain the seeded shard"
    (find_shard shard_id current.(V4TrainingPlan_shards)) in
  reject_if (negb (contains local shard.(V4ShardOwnership_owners)))
    "V4 plan does not authorize the local node as the shard owner" ?!
  let plan := hashed_plan (revised_plan current
    (update_shard shard_id (seeded hash bytes) current.(V4TrainingPlan_shards))) in
  validated (V4TrainingPlan_validate plan) ?!
  persist_plan plan ?!
  insert_plan job_id plan ;!
  let! _ := create_job job_id in
  let! acknowledged := acknowledge_plan_update plan (plan_recipients plan) in
  remove_job job_id ;!
  try! acknowledged := Done acknowledged in
  Done (Ok (plan, shard, acknowledged)).

Definition seed_shard (job_id : JobId) (shard_id : N) (bytes : list N)
    : v4 (V4LocalDataShard * option (V4TrainingPlan * N)) :=
  reject_if (is_empty bytes || (V4_MAX_STATE_BYTES <? len bytes))
    "V4 shard state must be between 1 byte and 64 KiB" ?!
  let hash := ArtifactId_from_bytes_hashed bytes in
  let! current_plan := active_plan job_id in
  try! update :=
    match current_plan with
    | Some current =>
        try! seeded_plan := seed_plan job_id shard_id hash bytes current in
        let '(plan, shard, acknowledged) := seeded_plan in
        Done (Ok (plan.(V4TrainingPlan_plan_generation), shard.(V4ShardOwnership_ownership_generation),
                  Some (plan, acknowledged)))
    | None => Done (Ok (1, 1, None))
    end in
  let '(plan_generation, ownership_generation, plan_update) := update in
  let shard := mkV4LocalDataShard job_id shard_id plan_generation ownership_generation hash bytes in
  persist_data_shard shard ?!
  updating (fun _ s =>
    set_V4State_data_shards (<[(job_id, shard_id) := shard]> s.(V4State_data_shards)) s) ;!
  Done (Ok (shard, plan_update)).

(** The active plan names the new owner, is saved and acknowledged; [None] when the job has no plan. *)
Definition commit_plan_shard_migration (job_id : JobId) (shard_id : N) (target : NodeId)
    (ownership_generation : N) (content_hash : ArtifactId) (state_bytes : N)
    : v4 (option (V4TrainingPlan * N)) :=
  let! known := active_plan job_id in
  match known with
  | None => Done (Ok None)
  | Some current =>
      try! shard := expect "V4 plan does not contain the migrated shard"
        (find_shard shard_id current.(V4TrainingPlan_shards)) in
      reject_if (negb (contains local shard.(V4ShardOwnership_owners)))
        "V4 plan does not authorize the local node as the current shard owner" ?!
      reject_if (negb (ownership_generation
                       =? sat_add u64_max shard.(V4ShardOwnership_ownership_generation) 1))
        "V4 migration ownership generation is stale or skipped" ?!
      reject_if (negb (contains target current.(V4TrainingPlan_workers)))
        "V4 migration target is not a worker in the current V4 plan" ?!
      reject_if ((shard.(V4ShardOwnership_content_hash) != content_hash)
                 || negb (shard.(V4ShardOwnership_state_bytes) =? state_bytes))
        "V4 migration content does not match the active shard record" ?!
      let plan := hashed_plan (revised_plan current
        (update_shard shard_id (handed_over target ownership_generation content_hash state_bytes)
           current.(V4TrainingPlan_shards))) in
      validated (V4TrainingPlan_validate plan) ?!
      persist_plan plan ?!
      insert_plan job_id plan ;!
      try! acknowledged := acknowledge_plan_update plan (plan_recipients plan) in
      Done (Ok (Some (plan, acknowledged)))
  end.

(** The acknowledgement [migrate_shard] waits for after the first phase; it does not look at the
    generation. *)
Definition is_prepared_ack (target : NodeId) (hash : ArtifactId) (received : NodeId * TrainingV4Message)
    : bool :=
  (received.1 == target)
  && match received.2 with
     | TrainingV4Message_ShardMigrationAck ack =>
         ack.(V4ShardMigrationAck_verified)
         && (ack.(V4ShardMigrationAck_phase) == V4ShardMigrationPhase_Prepare)
         && (ack.(V4ShardMigrationAck_content_hash) == hash)
     | _ => false
     end.

(** Whether the message arrives before the time is up. *)
Fixpoint await_in_time (fuel' : nat) (wanted : NodeId * TrainingV4Message -> bool) : vtask bool :=
  match fuel' with
  | O => forever
  | S fuel' =>
      let! next := timeout ve_elapsed (receive_message fuel) in
      match next with
      | Some (Ok (Some received)) => if wanted received then Done true else await_in_time fuel' wanted
      | _ => Done false
      end
  end.

(** The shard and the update of the plan. *)
Definition migrate_shard (job_id : JobId) (shard_id : N) (target : NodeId)
    : v4 (V4LocalDataShard * option (V4TrainingPlan * N)) :=
  reject_if (target == local) "V4 shard migration target must be another peer" ?!
  let! known := reading (fun _ s => s.(V4State_data_shards) !! (job_id, shard_id)) in
  try! shard := expect "V4 shard is not local" known in
  let! active := active_plan job_id in
  match active with
  | Some plan =>
      try! plan_shard := expect "V4 plan does not contain the local shard"
        (find_shard shard_id plan.(V4TrainingPlan_shards)) in
      reject_if
        (negb (contains local plan_shard.(V4ShardOwnership_owners))
         || negb (shard.(V4LocalDataShard_plan_generation) =? plan.(V4TrainingPlan_plan_generation))
         || negb (shard.(V4LocalDataShard_ownership_generation)
                  =? plan_shard.(V4ShardOwnership_ownership_generation))
         || (shard.(V4LocalDataShard_hash) != plan_shard.(V4ShardOwnership_content_hash)))
        "V4 local shard is stale relative to its active plan"
  | None => Done (Ok tt)
  end ?!
  let! _ := create_job job_id in
  let generation := sat_add u64_max shard.(V4LocalDataShard_ownership_generation) 1 in
  let migration state phase := TrainingV4Message_ShardMigration
    (mkV4ShardMigration job_id shard.(V4LocalDataShard_plan_generation) shard_id local target generation
       shard.(V4LocalDataShard_hash) state phase) in
  transmit target (migration shard.(V4LocalDataShard_bytes) V4ShardMigrationPhase_Prepare) ?!
  try! verified := await_message fuel fuel (is_prepared_ack target shard.(V4LocalDataShard_hash)) in
  if negb verified then
    remove_job job_id ;!
    refuse "V4 shard migration verification timed out"
  else
    transmit target (migration [] V4ShardMigrationPhase_Commit) ?!
    let! committed := await_in_time fuel
      (is_migration_ack target V4ShardMigrationPhase_Commit shard.(V4LocalDataShard_hash) generation) in
    if negb committed then
      ignore (transmit target (migration [] V4ShardMigrationPhase_Abort)) ;!
      remove_job job_id ;!
      refuse "V4 shard migration commit was not acknowledged"
    else
      let! update := commit_plan_shard_migration job_id shard_id target generation
        shard.(V4LocalDataShard_hash) (len shard.(V4LocalDataShard_bytes)) in
      remove_job job_id ;!
      try! plan_update := Done update in
      updating (fun _ s =>
        set_V4State_data_shards (delete (job_id, shard_id) s.(V4State_data_shards)) s) ;!
      files_section (remove_state_file (data_shard_file job_id shard_id)) ?!
      Done (Ok (shard, plan_update)).

(** ** Replicated state *)

(** [ArtifactId::from_bytes_hashed(format!("{name}:{job_id}").as_bytes())] *)
Definition named_hash (name : str) (job_id : JobId) : ArtifactId :=
  ArtifactId_from_bytes_hashed (as_bytes (name ++ ":" ++ hex_encode (JobId_0 job_id))%string).

Definition numbered_hash (name : str) (job_id : JobId) (number : N) : ArtifactId :=
  ArtifactId_from_bytes_hashed
    (as_bytes (name ++ ":" ++ hex_encode (JobId_0 job_id) ++ ":" ++ decimal number)%string).

(** The owner and the replica of the shard at a position. *)
Definition placed_at (workers : list NodeId) (i : nat) : option (NodeId * NodeId) :=
  owner ← workers !! i;
  replica ← workers !! ((i + 1) mod length workers)%nat;
  Some (owner, replica).

Definition sample_shard (job_id : JobId) (workers : list NodeId) (i : nat) : option V4ShardOwnership :=
  place ← placed_at workers i;
  Some (mkV4ShardOwnership (trunc u16_max (N.of_nat i)) 1 [place.1] [place.2] 1
    (numbered_hash "v4-model-state" job_id (N.of_nat i)) 1024 2048 "reference.cpu.i64"
    V4ShardLifecycle_Active).

Definition sample_optimizer (job_id : JobId) (workers : list NodeId) (i : nat) : option V4OptimizerShardRecord :=
  place ← placed_at workers i;
  let record := mkV4OptimizerShardRecord job_id 1 1 1 (trunc u16_max (N.of_nat i)) place.1 [place.2]
    (numbered_hash "v4-optimizer-state" job_id (N.of_nat i)) 2048 ArtifactId_default in
  Some (with_optimizer_shard_hash (optimizer_shard_hash record) record).

Definition sample_state (job_id : JobId) (workers : list NodeId) (shards : list V4ShardOwnership)
    : V4TrainingStateRecord :=
  let state := mkV4TrainingStateRecord job_id local (named_hash "v4-state-plan" job_id) 1 1 1 1 1 1
    (named_hash "v4-state-branch" job_id) V4TrainingPhase_Running workers shards
    (map (fun _ => 0) workers) None ArtifactId_default in
  with_training_state_hash (training_state_hash state) state.

Definition sample_checkpoint (job_id : JobId) (workers : list NodeId) (shards : list V4ShardOwnership)
    : V4CheckpointRecord :=
  let checkpoint := mkV4CheckpointRecord job_id 1 1 1 1 1 (named_hash "v4-state-branch" job_id) None
    (map V4ShardOwnership_content_hash shards) workers true ArtifactId_default in
  with_manifest_hash (checkpoint_hash checkpoint) checkpoint.

Definition state_key : Type := NodeId * V4StateAckKind * ArtifactId.

(** An acknowledgement of a copy counts once. *)
Definition take_state_ack (expected : list state_key) (peer : NodeId) (message : TrainingV4Message)
    (acknowledged : list state_key) : list state_key :=
  match message with
  | TrainingV4Message_StateAck ack =>
      let key := (peer, ack.(V4StateAck_kind), ack.(V4StateAck_state_hash)) in
      if ack.(V4StateAck_accepted) && contains key expected && negb (contains key acknowledged)
      then acknowledged ++ [key] else acknowledged
  | _ => acknowledged
  end.

(** The copies that are sent, in order: what is sent to whom, and the answer it asks for. *)
Definition state_copies (workers : list NodeId) (state : V4TrainingStateRecord)
    (optimizers : list V4OptimizerShardRecord) (checkpoint : V4CheckpointRecord)
    : list (TrainingV4Message * state_key) :=
  map (fun worker => (TrainingV4Message_StateRecord state,
         (worker, V4StateAckKind_TrainingState, state.(V4TrainingStateRecord_state_hash)))) workers
  ++ List.flat_map (fun optimizer =>
       map (fun target => (TrainingV4Message_OptimizerShard optimizer,
              (target, V4StateAckKind_OptimizerShard, optimizer.(V4OptimizerShardRecord_state_hash))))
         (optimizer.(V4OptimizerShardRecord_owner) :: optimizer.(V4OptimizerShardRecord_replicas)))
       optimizers
  ++ map (fun provider => (TrainingV4Message_CheckpointRecord checkpoint,
            (provider, V4StateAckKind_Checkpoint, checkpoint.(V4CheckpointRecord_manifest_hash)))) workers.

Definition replicate_state (workers : list NodeId)
    : v4 (V4TrainingStateRecord * list V4OptimizerShardRecord * V4CheckpointRecord * N) :=
  reject_if ((len workers <? 2) || (V4_MAX_WORKERS <? len workers) || contains local workers)
    "V4 state replication requires 2-16 remote peers" ?!
  let! job_id := random_job_id in
  let positions := seq 0 (Nat.min (length workers) 4) in
  let shards := omap (sample_shard job_id workers) positions in
  let optimizers := omap (sample_optimizer job_id workers) positions in
  let state := sample_state job_id workers shards in
  validated (V4TrainingStateRecord_validate state) ?!
  let checkpoint := sample_checkpoint job_id workers shards in
  persist_training_state state ?!
  updating (fun _ s =>
    set_V4State_training_states (<[job_id := state]> s.(V4State_training_states)) s) ;!
  let! _ := create_job job_id in
  let copies := state_copies workers state optimizers checkpoint in
  for_try (fun '(message, (target, _, _)) => transmit target message) copies ?!
  try! acknowledged := collect_until fuel (fun acknowledged => len copies.*2 <=? len acknowledged)
                         (take_state_ack copies.*2) [] in
  remove_job job_id ;!
  reject_if (negb (len acknowledged =? len copies.*2))
    ("V4 state replication acknowledged " ++ decimal (len acknowledged) ++ "/" ++ decimal (len copies.*2)
     ++ " copies")%string ?!
  Done (Ok (state, optimizers, checkpoint, len acknowledged)).
End Plans.
