(* ===== verification/V4Commands.v ===== *)
(** * Frontier training: an operator's runs (crates/node/src/frontier_training.rs)

    The commands by which an operator of a node runs one operation of the fabric on a few workers
    (tensor, pipeline, collective, reconciliation, robust aggregation), each under a plan of its
    own, and those that start an integrated job.  What a command returns is what its report says
    besides constants. *)

From Stdlib Require Import String ZArith NArith Lia.
From stdpp Require Import base tactics sets strings numbers list gmap.
From S2P Require Import Prelude OrdMap Types Validation FileSystem Storage Aggregation Compute Float32 TrainingPlan Planner Runtime Trust Security Network NodeConfig Tasks V4Model V4Control V4Integrated V4Data V4Node V4Reconfigure V4Driver V4Plans.
Local Open Scope N_scope.
Local Open Scope rust_scope.

Definition branch (job_id : JobId) (branch created_by : list N) : V4TrainingBranch :=
  mkV4TrainingBranch job_id (mkArtifactId branch) 1 1 1 1 1 (mkNodeId created_by).

(** What a reference run takes from the messages that arrive. *)

Definition take_tensor_ack (plan_generation : N) (_ : NodeId) (message : TrainingV4Message)
    (installed : gmap N ArtifactId) : gmap N ArtifactId :=
  match message with
  | TrainingV4Message_TensorInstallAck ack =>
      if ack.(V4TensorInstallAck_accepted) && (ack.(V4TensorInstallAck_plan_generation) =? plan_generation)
      then <[ack.(V4TensorInstallAck_shard_id) := ack.(V4TensorInstallAck_state_hash)]> installed
      else installed
  | _ => installed
  end.

Definition take_forward (_ : NodeId) (message : TrainingV4Message)
    (forwards : gmap N V4TensorForwardResult) : gmap N V4TensorForwardResult :=
  match message with
  | TrainingV4Message_TensorForwardResult result =>
      <[result.(V4TensorForwardResult_shard_id) := result]> forwards
  | _ => forwards
  end.

Definition take_backward (_ : NodeId) (message : TrainingV4Message)
    (backwards : gmap N V4TensorBackwardResult) : gmap N V4TensorBackwardResult :=
  match message with
  | TrainingV4Message_TensorBackwardResult result =>
      <[result.(V4TensorBackwardResult_shard_id) := result]> backwards
  | _ => backwards
  end.

Definition take_stage_ack (plan_generation : N) (_ : NodeId) (message : TrainingV4Message)
    (installed : gmap N ArtifactId) : gmap N ArtifactId :=
  match message with
  | TrainingV4Message_PipelineInstallAck ack =>
      if ack.(V4PipelineInstallAck_accepted) && (ack.(V4PipelineInstallAck_plan_generation) =? plan_generation)
      then <[ack.(V4PipelineInstallAck_stage_id) := ack.(V4PipelineInstallAck_state_hash)]> installed
      else installed
  | _ => installed
  end.

Definition take_stage_forward (_ : NodeId) (message : TrainingV4Message)
    (forwards : list V4PipelineForwardResult) : list V4PipelineForwardResult :=
  match message with
  | TrainingV4Message_PipelineForwardResult result => forwards ++ [result]
  | _ => forwards
  end.

Definition take_stage_backward (_ : NodeId) (message : TrainingV4Message)
    (backward : option V4PipelineBackwardResult) : option V4PipelineBackwardResult :=
  match message with
  | TrainingV4Message_PipelineBackwardResult result => Some result
  | _ => backward
  end.

(** One result of each root. *)
Definition take_collective (job_id : JobId) (roots : list NodeId) (peer : NodeId)
    (message : TrainingV4Message) (results : list (NodeId * V4CollectiveResult))
    : list (NodeId * V4CollectiveResult) :=
  match message with
  | TrainingV4Message_CollectiveResult result =>
      if (result.(V4CollectiveResult_request_id) == job_id) && contains peer roots
         && negb (contains peer results.*1)
      then results ++ [(peer, result)] else results
  | _ => results
  end.

Definition take_byzantine (_ : NodeId) (message : TrainingV4Message)
    (response : option V4ByzantineResult) : option V4ByzantineResult :=
  match message with
  | TrainingV4Message_ByzantineResult result => Some result
  | _ => response
  end.

Definition is_some {A} (o : option A) : bool := match o with Some _ => true | None => false end.

(** The rows of the reference matrix a shard holds. *)
Definition reference_matrix : list Z := [1; 0; 0; 1; 1; 1; 2; 0; 0; 2; 1; 1; 1; 0; 1; 2]%Z.

Definition reference_weights (index : nat) : list Z := take 8 (drop (index * 8) reference_matrix).

(** The coefficient and the bias of a reference stage. *)
Definition reference_stage (stage_id : nat) : Z * Z := if (stage_id =? 0)%nat then (2, 1)%Z else (3, 2)%Z.

(** The plan of a new integrated job over the planner's plan, before its backends are bound. *)
Definition integrated_plan (plan : V4TrainingPlan) (coordinator : NodeId)
    (groups : list V4AggregationGroup) (shards : list V4ShardOwnership) : V4TrainingPlan :=
  mkV4TrainingPlan plan.(V4TrainingPlan_job_id) coordinator plan.(V4TrainingPlan_plan_generation)
    plan.(V4TrainingPlan_model_generation) plan.(V4TrainingPlan_training_epoch)
    plan.(V4TrainingPlan_membership_epoch) plan.(V4TrainingPlan_coordination_term)
    plan.(V4TrainingPlan_branch) plan.(V4TrainingPlan_strategy) plan.(V4TrainingPlan_support)
    plan.(V4TrainingPlan_workers) groups shards plan.(V4TrainingPlan_tensor_degree)
    plan.(V4TrainingPlan_pipeline_stages) plan.(V4TrainingPlan_local_steps)
    plan.(V4TrainingPlan_max_staleness) plan.(V4TrainingPlan_checkpoint_replication)
    plan.(V4TrainingPlan_data_locality) plan.(V4TrainingPlan_accelerator)
    plan.(V4TrainingPlan_worker_capabilities) plan.(V4TrainingPlan_rationale)
    plan.(V4TrainingPlan_plan_hash) plan.(V4TrainingPlan_parent_plan_hash)
    plan.(V4TrainingPlan_compute_requirements) plan.(V4TrainingPlan_backend_assignments).

Section Commands.
Context `{Blake3} `{PlanPostcard} `{V4Json}.
Context (local : NodeId) (store : LocalStore) (fuel : nat).
Notation persist_plan := (persist_plan store).
Notation send_plan_notification := (send_plan_notification local).
Notation hashed_plan := V4Plans.hashed_plan.

(** ** The plan of a reference run *)

(** Acknowledgements until all have answered or the time is up; a refusal ends the run. *)
Fixpoint await_reference_acks (fuel' : nat) (job_id : JobId) (plan : V4TrainingPlan)
    (participants : list NodeId) (acknowledged : gset NodeId) : v4 (gset NodeId) :=
  match fuel' with
  | O => forever
  | S fuel' =>
      if len participants <=? N.of_nat (size acknowledged) then Done (Ok acknowledged)
      else
        let! next := timeout ve_elapsed (receive_message fuel) in
        match next with
        | Some (Ok (Some (peer, TrainingV4Message_PlanAck ack))) =>
            if negb (contains peer participants)
               || (ack.(V4PlanAck_job_id) != job_id)
               || negb (ack.(V4PlanAck_plan_generation) =? plan.(V4TrainingPlan_plan_generation))
               || (ack.(V4PlanAck_plan_hash) != plan.(V4TrainingPlan_plan_hash))
            then await_reference_acks fuel' job_id plan participants acknowledged
            else if negb ack.(V4PlanAck_accepted) then
              remove_job job_id ;!
              refuse ("V4 reference participant " ++ hex_encode (NodeId_0 peer) ++ " rejected the plan: "
                      ++ ack.(V4PlanAck_reason))%string
            else await_reference_acks fuel' job_id plan participants ({[peer]} ∪ acknowledged)
        | Some (Ok (Some _)) => await_reference_acks fuel' job_id plan participants acknowledged
        | _ => Done (Ok acknowledged)
        end
  end.

Fixpoint reference_attempts (attempts : nat) (first : bool) (job_id : JobId) (plan : V4TrainingPlan)
    (participants : list NodeId) (acknowledged : gset NodeId) : v4 (gset NodeId) :=
  match attempts with
  | O => Done (Ok acknowledged)
  | S attempts =>
      if len participants =? N.of_nat (size acknowledged) then Done (Ok acknowledged)
      else
        for_task (fun worker =>
            (if first then Done tt else ignore (reconnected_in_time worker)) ;!
            ignore (send_plan_notification worker plan))
          (List.filter (fun worker => negb (bool_decide (worker ∈ acknowledged))) participants) ;!
        try! acknowledged := await_reference_acks fuel job_id plan participants acknowledged in
        reference_attempts attempts false job_id plan participants acknowledged
  end.

Definition prepare_reference_plan (workers : list NodeId) (strategy : V4ParallelismStrategy)
    (tensor_degree pipeline_stages : N) : v4 V4TrainingPlan :=
  reject_if ((len workers <? 2) || (V4_MAX_WORKERS <? len workers) || contains local workers)
    "V4 reference plan requires 2-16 remote workers" ?!
  reject_if (has_duplicates workers) "V4 reference plan contains duplicate workers" ?!
  let! profiles := worker_profiles in
  let profiles := List.filter (fun profile => contains profile.(WorkerProfile_node) workers) profiles in
  reject_if (negb (len profiles =? len workers))
    "V4 reference plan workers are not all advertised training peers" ?!
  let! job_id := random_job_id in
  try! decision := planned (plan_v4 (mkV4PlanRequest job_id local 2048 (len workers) strategy tensor_degree
    pipeline_stages 1 1 2 DataLocality_Selective profiles (topology_links profiles)
    (mkV4PlannerObjective 1 1 2 1) [])) in
  let plan := decision.(V4PlanDecision_plan) in
  persist_plan plan ?!
  insert_plan job_id plan ;!
  let! _ := create_job job_id in
  let participants := List.filter (fun worker => worker != local) plan.(V4TrainingPlan_workers) in
  try! acknowledged := reference_attempts 3 true job_id plan participants ∅ in
  remove_job job_id ;!
  reject_if (negb (N.of_nat (size acknowledged) =? len participants))
    "V4 reference plan acknowledgement timed out" ?!
  Done (Ok plan).

(** ** Reference runs *)

(** The first owner of a shard. *)
Definition shard_worker (plan : V4TrainingPlan) (shard_id : N) : result NodeId NodeError :=
  ok_or (find_shard shard_id plan.(V4TrainingPlan_shards) ≫= fun shard => head shard.(V4ShardOwnership_owners))
    (invalid_config "V4 tensor plan has an ownerless shard").

Definition tensor_install (plan : V4TrainingPlan) (index : nat) : V4TensorInstall :=
  let weights := reference_weights index in
  let offset := N.of_nat index * 2 in
  mkV4TensorInstall plan.(V4TrainingPlan_job_id) plan.(V4TrainingPlan_plan_generation)
    plan.(V4TrainingPlan_model_generation) (N.of_nat index) 2 4 offset weights (tensor_hash weights 2 4 offset).

(** The results of shards 0 to [n - 1]; [None] is the panic of a missing backward result. *)
Definition tensor_report (n : nat) (forwards : gmap N V4TensorForwardResult)
    (backwards : gmap N V4TensorBackwardResult) : option (list Z * list ArtifactId) :=
  hashes ← mapM (fun index =>
      V4TensorBackwardResult_state_hash <$> backwards !! N.of_nat index) (seq 0 n);
  Some (List.flat_map (fun index =>
      match forwards !! N.of_nat index with
      | Some result => result.(V4TensorForwardResult_output)
      | None => []
      end) (seq 0 n), hashes).

(** When answers are missing, the mailbox goes and the run fails. *)
Definition or_give_up {A} (job_id : JobId) (complete : bool) (text : str) (k : v4 A) : v4 A :=
  if complete then k else remove_job job_id ;! refuse text.

Definition tensor_demo (workers : list NodeId) : v4 (list Z * list ArtifactId) :=
  reject_if (negb (len workers =? 2) || contains local workers)
    "V4 tensor reference requires exactly two remote workers" ?!
  try! plan := prepare_reference_plan workers V4ParallelismStrategy_TensorParallel 2 0 in
  let job_id := plan.(V4TrainingPlan_job_id) in
  let generation := plan.(V4TrainingPlan_plan_generation) in
  try! shard_workers := Done (try_map (fun i => shard_worker plan (N.of_nat i)) (seq 0 (length workers))) in
  reject_if (negb (len plan.(V4TrainingPlan_shards) =? len workers))
    "V4 tensor reference plan changed the shard count" ?!
  let! request_id := random_job_id in
  let! _ := create_job job_id in
  let complete {V} (answers : gmap N V) := len workers =? N.of_nat (size answers) in
  let enough {V} (answers : gmap N V) := len workers <=? N.of_nat (size answers) in
  for_try (fun '(index, worker) =>
      transmit worker (TrainingV4Message_TensorInstall (tensor_install plan index)))
    (enumerate shard_workers) ?!
  try! installed := collect_until fuel enough (take_tensor_ack generation) ∅ in
  or_give_up job_id (complete installed) "V4 tensor installation did not receive every acknowledgement"
    (for_try (fun '(index, worker) =>
        transmit worker (TrainingV4Message_TensorForward
          (mkV4TensorForward request_id job_id generation plan.(V4TrainingPlan_model_generation)
             (N.of_nat index) 1 [1; 2; 3; 4]%Z)))
      (enumerate shard_workers) ?!
    try! forwards := collect_until fuel enough take_forward ∅ in
    or_give_up job_id (complete forwards) "V4 tensor forward did not receive every shard result"
      (for_try (fun '(index, worker) =>
          transmit worker (TrainingV4Message_TensorBackward
            (mkV4TensorBackward request_id job_id generation plan.(V4TrainingPlan_model_generation)
               (N.of_nat index) 1 [1; 2; 3; 4]%Z [1; 1]%Z 10)))
        (enumerate shard_workers) ?!
      try! backwards := collect_until fuel enough take_backward ∅ in
      remove_job job_id ;!
      reject_if (negb (complete backwards)) "V4 tensor backward did not receive every shard result" ?!
      match tensor_report (length workers) forwards backwards with
      | Some report => Done (Ok report)
      | None => forever
      end)).

Definition pipeline_demo (stages : list NodeId) (microbatches : N)
    : v4 (list V4PipelineForwardResult * V4PipelineBackwardResult) :=
  match stages with
  | [first; second] =>
      reject_if (contains local stages) "V4 pipeline reference requires exactly two remote stages" ?!
      let microbatches := N.min (N.max microbatches 1) 8 in
      try! plan := prepare_reference_plan stages V4ParallelismStrategy_PipelineParallel 0 2 in
      let job_id := plan.(V4TrainingPlan_job_id) in
      let generation := plan.(V4TrainingPlan_plan_generation) in
      let! _ := create_job job_id in
      for_try (fun '(stage_id, stage) =>
          let '(coefficient, bias) := reference_stage stage_id in
          transmit stage (TrainingV4Message_PipelineInstall
            (mkV4PipelineInstall job_id generation (N.of_nat stage_id) 2 coefficient bias
               (pipeline_hash coefficient bias))))
        (enumerate stages) ?!
      try! installed := collect_until fuel (fun installed => 2 <=? N.of_nat (size installed))
                          (take_stage_ack generation) ∅ in
      or_give_up job_id (N.of_nat (size installed) =? 2)
        "V4 pipeline installation did not receive every acknowledgement"
        (for_try (fun microbatch =>
            transmit first (TrainingV4Message_PipelineForward
              (mkV4PipelineForward job_id job_id generation 0 2 (N.of_nat microbatch)
                 [(Z.of_nat microbatch + 1)%Z] (Some second) local 4000)))
          (seq 0 (N.to_nat microbatches)) ?!
        try! forwards := collect_until fuel (fun forwards => microbatches <=? len forwards)
                           take_stage_forward [] in
        or_give_up job_id (len forwards =? microbatches) "V4 pipeline forward timed out"
          (transmit second (TrainingV4Message_PipelineBackward
             (mkV4PipelineBackward job_id job_id generation 1 2 0 [1]%Z (Some first) local 4000)) ?!
          try! backward := collect_until fuel is_some take_stage_backward None in
          remove_job job_id ;!
          try! backward := expect "V4 pipeline backward timed out" backward in
          Done (Ok (sort_by_key V4PipelineForwardResult_microbatch forwards, backward))))
  | _ => refuse "V4 pipeline reference requires exactly two remote stages"
  end.

(** Group and position of the workers that are asked to contribute. *)
Definition contributors : list (N * nat) := [(0, 0%nat); (0, 1%nat); (1, 2%nat); (1, 3%nat)].

(** Indexing panics when the planner has left a worker out. *)
Definition ask_contribution (plan : V4TrainingPlan) (entry : N * nat) : v4 unit :=
  let '(group_id, worker_index) := entry in
  let workers := plan.(V4TrainingPlan_workers) in
  let job_id := plan.(V4TrainingPlan_job_id) in
  let '(root, other) := if group_id =? 0 then (0%nat, 2%nat) else (2%nat, 0%nat) in
  match workers !! root, workers !! other, workers !! worker_index with
  | Some aggregator, Some parent, Some contributor =>
      send_v4_control_message contributor (TrainingV4Message_CollectiveContribute
        (mkV4CollectiveContribute job_id job_id plan.(V4TrainingPlan_plan_generation) 1 group_id
           contributor aggregator (Some parent) 2 2 [Z.of_nat (worker_index + 1); 1%Z] local))
  | _, _, _ => forever
  end.

Definition same_collective (a b : V4CollectiveResult) : bool :=
  (a.(V4CollectiveResult_values) == b.(V4CollectiveResult_values))
  && (a.(V4CollectiveResult_generation) =? b.(V4CollectiveResult_generation))
  && (a.(V4CollectiveResult_plan_generation) =? b.(V4CollectiveResult_plan_generation)).

(** The workers are taken from the plan, in its order. *)
Definition collective_demo (workers : list NodeId) : v4 (list (NodeId * V4CollectiveResult)) :=
  reject_if (negb (len workers =? 4) || contains local workers)
    "V4 collective reference requires exactly four remote workers" ?!
  try! plan := prepare_reference_plan workers V4ParallelismStrategy_LocalSgd 0 0 in
  let job_id := plan.(V4TrainingPlan_job_id) in
  let workers := plan.(V4TrainingPlan_workers) in
  let! _ := create_job job_id in
  for_try (ask_contribution plan) contributors ?!
  match workers !! 0%nat, workers !! 2%nat with
  | Some first_root, Some second_root =>
      try! results := collect_until fuel (fun results => 2 <=? len results)
                        (take_collective job_id [first_root; second_root]) [] in
      remove_job job_id ;!
      reject_if (negb (len results =? 2))
        "V4 root-free collective did not receive all independent results" ?!
      let results := sort_by_key (fun entry => NodeId_0 entry.1) results in
      match results with
      | (_, result) :: others =>
          reject_if (existsb (fun entry => negb (same_collective entry.2 result)) others)
            "V4 independent collective roots produced conflicting results" ?!
          Done (Ok results)
      | [] => forever
      end
  | _, _ => forever
  end.

Definition reconcile_demo (worker : NodeId) (left_value right_value : Z) (policy : V4ReconciliationPolicy)
    : v4 V4ReconcileResult :=
  let! job_id := random_job_id in
  let! _ := create_job job_id in
  transmit worker (TrainingV4Message_Reconcile
    (mkV4ReconcileRequest job_id job_id 1 (branch job_id (repeat 1 32) (repeat 2 32))
       (branch job_id (repeat 3 32) (repeat 4 32)) policy left_value right_value)) ?!
  try! event := receive_next in
  remove_job job_id ;!
  match event with
  | Some (V4Inbound_Message _ (TrainingV4Message_ReconcileResult result)) => Done (Ok result)
  | _ => refuse "V4 branch reconciliation timed out"
  end.

(** The update a worker is asked to contribute; [values] are those of a worker that misbehaves or not. *)
Definition byzantine_values (malicious index : nat) : list Z :=
  if (index <? malicious)%nat then [-1000; -1000]%Z else [10 + Z.of_nat index; 10]%Z.

Definition byzantine_demo (workers : list NodeId) (malicious : nat) (policy : V4ByzantinePolicy)
    : v4 V4ByzantineResult :=
  reject_if ((len workers <? 3) || (V4_MAX_WORKERS <? len workers) || (length workers <=? malicious)%nat)
    "V4 Byzantine reference requires 3-16 workers and fewer malicious than total" ?!
  try! plan := prepare_reference_plan workers V4ParallelismStrategy_LocalSgd 0 0 in
  let job_id := plan.(V4TrainingPlan_job_id) in
  match workers with
  | [] => forever
  | aggregator :: _ =>
      let! _ := create_job job_id in
      let update worker values := TrainingV4Message_ByzantineUpdate
        (mkV4ByzantineUpdate job_id job_id plan.(V4TrainingPlan_plan_generation) 1 worker aggregator 1
           values policy (trunc u16_max (len workers)) local) in
      for_try (fun '(index, worker) =>
          let values := byzantine_values malicious index in
          transmit worker (update worker values) ?!
          if (index <? malicious)%nat then
            transmit worker (update worker values) ?!
            transmit worker (update worker (map (fun value => i64_saturating_add value 1) values))
          else Done (Ok tt))
        (enumerate workers) ?!
      try! response := collect_until fuel is_some take_byzantine None in
      remove_job job_id ;!
      expect "V4 Byzantine aggregation timed out" response
  end.

(** ** An integrated job *)

(** The workers that are connected, can be dialed or answer. *)
Fixpoint reach (connected : list NodeId) (profiles : list WorkerProfile) : vtask (list WorkerProfile) :=
  match profiles with
  | [] => Done []
  | profile :: profiles =>
      let! reachable :=
        (if contains profile.(WorkerProfile_node) connected then Done true
         else
           let! reconnected := reconnected_in_time profile.(WorkerProfile_node) in
           if (reconnected : bool) then Done true else answers_ping profile.(WorkerProfile_node)) in
      let! rest := reach connected profiles in
      Done (if (reachable : bool) then profile :: rest else rest)
  end.

Fixpoint reachable_rounds (attempts : nat) (minimum_workers minimum_memory_bytes : N)
    (last : list WorkerProfile) : vtask (list WorkerProfile) :=
  match attempts with
  | O => Done last
  | S attempts =>
      let! profiles := worker_profiles in
      let profiles := sort_by_key (fun profile => NodeId_0 profile.(WorkerProfile_node))
        (List.filter (fun profile => minimum_memory_bytes <=? profile.(WorkerProfile_memory_bytes)) profiles) in
      let! connected := reading (fun e _ => e.(ve_connected)) in
      let! reachable := reach connected profiles in
      if minimum_workers <=? len reachable then Done reachable
      else
        (match attempts with O => Done tt | S _ => pause end) ;!
        reachable_rounds attempts minimum_workers minimum_memory_bytes reachable
  end.

Definition reachable_worker_profiles (minimum_workers minimum_memory_bytes : N)
    : vtask (list WorkerProfile) :=
  reachable_rounds 16 minimum_workers minimum_memory_bytes [].

(** A row shard of the reference model. *)
Definition initial_shard (shard_id : N) (owner replica : NodeId) : V4ShardOwnership :=
  let weights := initial_tensor_weights shard_id in
  mkV4ShardOwnership shard_id 1 [owner] [replica] 1
    (tensor_hash weights 2 4 (sat_mul u16_max shard_id 2)) (len weights * 8) (len weights * 8 * 2)
    "reference.cpu.i64.tensor-row" V4ShardLifecycle_Active.

Definition initial_placement (shard : V4ShardOwnership) : option V4OptimizerPlacement :=
  owner ← head shard.(V4ShardOwnership_owners);
  Some (mkV4OptimizerPlacement shard.(V4ShardOwnership_shard_id) owner shard.(V4ShardOwnership_replicas) 1).

(** The first graph of a job over its plan; the hash comes last. *)
Definition first_graph (job_id : JobId) (plan : V4TrainingPlan) (coordinator : NodeId)
    (tensor_members : list NodeId) (stages : list V4PipelineStageAssignment) : V4ExecutionGraph :=
  let graph := mkV4ExecutionGraph job_id 1 None coordinator coordinator local
    plan.(V4TrainingPlan_plan_hash) plan.(V4TrainingPlan_branch) plan.(V4TrainingPlan_training_epoch)
    plan.(V4TrainingPlan_membership_epoch) plan.(V4TrainingPlan_coordination_term) 1 1
    plan.(V4TrainingPlan_workers) [] [mkV4TensorGroup 0 tensor_members [0; 1] 1] stages
    plan.(V4TrainingPlan_groups) plan.(V4TrainingPlan_shards)
    (omap initial_placement plan.(V4TrainingPlan_shards)) 1 1 2 2 V4ParallelismStrategy_Hybrid []
    plan.(V4TrainingPlan_backend_assignments) ArtifactId_default in
  with_graph_hash (execution_graph_hash graph) graph.

(** What [build_integrated_start] makes of the planner's plan; [None] is a panic. *)
Definition start_from_plan (job_id : JobId) (decided : V4TrainingPlan) (windows checkpoint_every : N)
    : option (result V4IntegratedStart NodeError) :=
  match decided.(V4TrainingPlan_workers) with
  | w0 :: w1 :: w2 :: w3 :: _ =>
      groups ← integrated_groups decided.(V4TrainingPlan_workers) w0;
      let stages := [mkV4PipelineStageAssignment 0 w2 [w0] 1; mkV4PipelineStageAssignment 1 w3 [w1] 1] in
      Some (
        let? plan := bind_backend_assignments
          (integrated_plan decided w0 groups [initial_shard 0 w0 w2; initial_shard 1 w1 w3]) stages in
        let plan := hashed_plan plan in
        map_err (fun error => invalid_config (ValidationError_to_string error)) (V4TrainingPlan_validate plan) ;?
        let graph := first_graph job_id plan w0 [w0; w1] stages in
        map_err (fun error => invalid_config (ValidationError_to_string error)) (V4ExecutionGraph_validate graph) ;?
        Ok (mkV4IntegratedStart job_id graph plan windows checkpoint_every local))
  | _ => None
  end.

Definition build_integrated_start (requested_workers windows checkpoint_every : N) : v4 V4IntegratedStart :=
  reject_if ((requested_workers <? V4_INTEGRATED_MIN_WORKERS) || (V4_MAX_WORKERS <? requested_workers))
    ("integrated V4 training requires " ++ decimal V4_INTEGRATED_MIN_WORKERS ++ "-"
     ++ decimal V4_MAX_WORKERS ++ " workers")%string ?!
  reject_if ((windows =? 0) || (V4_INTEGRATED_MAX_WINDOWS <? windows) || (checkpoint_every =? 0))
    "integrated V4 windows/checkpoint interval are outside bounded limits" ?!
  let model_bytes := 4096 in
  let shard_memory := sat_mul u64_max (div_ceil model_bytes (N.max requested_workers 2)) 2 in
  let! profiles := reachable_worker_profiles requested_workers shard_memory in
  reject_if (len profiles <? requested_workers)
    ("integrated V4 needs " ++ decimal requested_workers ++ " advertised training peers, found "
     ++ decimal (len profiles))%string ?!
  let! job_id := random_job_id in
  match head profiles with
  | None => forever
  | Some first =>
      try! decision := planned (plan_v4 (mkV4PlanRequest job_id first.(WorkerProfile_node) model_bytes
        requested_workers V4ParallelismStrategy_Hybrid 2 2 1 2 2 DataLocality_Selective profiles
        (topology_links profiles) (mkV4PlannerObjective 2 2 4 1) [])) in
      let plan := decision.(V4PlanDecision_plan) in
      let selected := len plan.(V4TrainingPlan_workers) in
      reject_if ((selected <? V4_INTEGRATED_MIN_WORKERS) || (selected <? requested_workers))
        ("integrated V4 planner selected " ++ decimal selected ++ " workers; at least "
         ++ decimal (N.max requested_workers V4_INTEGRATED_MIN_WORKERS)
         ++ " live, capable workers are required")%string ?!
      match start_from_plan job_id plan windows checkpoint_every with
      | Some start => Done start
      | None => forever
      end
  end.

(** The start is saved and known here, then handed to the coordinator. *)
Definition announce_start (start : V4IntegratedStart) : v4 unit :=
  let graph := start.(V4IntegratedStart_graph) in
  let plan := start.(V4IntegratedStart_plan) in
  match integrated_state graph V4IntegratedPhase_Preparing 0 start.(V4IntegratedStart_windows) 0 0 0 with
  | None => forever
  | Some state =>
      persist_plan plan ?!
      persist_execution_graph store graph ?!
      persist_integrated_state store state ?!
      insert_plan plan.(V4TrainingPlan_job_id) plan ;!
      updating (fun _ s => set_V4State_integrated_graphs
        (<[graph.(V4ExecutionGraph_job_id) := graph]> s.(V4State_integrated_graphs)) s) ;!
      updating (fun _ s => set_V4State_integrated_states
        (<[state.(V4IntegratedStateRecord_job_id) := state]> s.(V4State_integrated_states)) s) ;!
      let! _ := create_job graph.(V4ExecutionGraph_job_id) in
      let! sent := send_control_message graph.(V4ExecutionGraph_coordinator)
        (TrainingV4Message_IntegratedStart start) in
      if (sent : bool) then Done (Ok tt)
      else
        remove_job graph.(V4ExecutionGraph_job_id) ;!
        refuse "integrated V4 controller did not accept the start message"
  end.

(** Until the result of the job arrives.  When the timer runs out during the wait, the mailbox stays. *)
Fixpoint await_job_result (fuel' : nat) (start : V4IntegratedStart) : v4 V4IntegratedResult :=
  match fuel' with
  | O => forever
  | S fuel' =>
      let job_id := start.(V4IntegratedStart_graph).(V4ExecutionGraph_job_id) in
      let! over := is_past in
      if (over : bool) then
        remove_job job_id ;!
        refuse "integrated V4 training timed out"
      else
        let! waited := wait_event in
        match waited with
        | Waited_Event (V4Inbound_Message _ (TrainingV4Message_IntegratedResult result)) =>
            if result.(V4IntegratedResult_request_id) == start.(V4IntegratedStart_request_id) then
              remove_job job_id ;!
              persist_integrated_result store result ?!
              Done (Ok result)
            else await_job_result fuel' start
        | Waited_Event _ => await_job_result fuel' start
        | Waited_Closed =>
            remove_job job_id ;!
            refuse "integrated V4 controller ended without a result"
        | Waited_Elapsed => refuse "integrated V4 training timed out"
        end
  end.

Definition start_integrated (requested_workers windows checkpoint_every : N) : v4 V4IntegratedResult :=
  try! start := build_integrated_start requested_workers windows checkpoint_every in
  announce_start start ?!
  await_job_result fuel start.

(** The first result of the job is saved; a pause of the messages ends the wait. *)
Fixpoint watch_job (fuel' : nat) : vtask unit :=
  match fuel' with
  | O => forever
  | S fuel' =>
      let! over := is_past in
      if (over : bool) then Done tt
      else
        let! waited := wait_event in
        match waited with
        | Waited_Event (V4Inbound_Message _ (TrainingV4Message_IntegratedResult result)) =>
            ignore (persist_integrated_result store result)
        | Waited_Event _ => watch_job fuel'
        | Waited_Closed | Waited_Elapsed => Done tt
        end
  end.

Definition start_integrated_background (requested_workers windows checkpoint_every : N) : v4 JobId :=
  try! start := build_integrated_start requested_workers windows checkpoint_every in
  announce_start start ?!
  let job_id := start.(V4IntegratedStart_graph).(V4ExecutionGraph_job_id) in
  spawn (watch_job fuel ;! remove_job job_id) ;!
  Done (Ok job_id).

(** ** What an operator can ask for *)

Inductive v4_command : vtask unit -> Prop :=
  | command_plan model_bytes workers strategy tensor_degree stages :
      v4_command (ignore (plan local store fuel model_bytes workers strategy tensor_degree stages))
  | command_replan job_id model_bytes workers strategy tensor_degree stages :
      v4_command (ignore (replan local store job_id model_bytes workers strategy tensor_degree stages))
  | command_activate job_id : v4_command (ignore (activate_plan local store fuel job_id))
  | command_seed job_id shard_id bytes : v4_command (ignore (seed_shard local store fuel job_id shard_id bytes))
  | command_migrate job_id shard_id target :
      v4_command (ignore (migrate_shard local store fuel job_id shard_id target))
  | command_replicate workers : v4_command (ignore (replicate_state local store fuel workers))
  | command_tensor workers : v4_command (ignore (tensor_demo workers))
  | command_pipeline stages microbatches : v4_command (ignore (pipeline_demo stages microbatches))
  | command_collective workers : v4_command (ignore (collective_demo workers))
  | command_reconcile worker left_value right_value policy :
      v4_command (ignore (reconcile_demo worker left_value right_value policy))
  | command_byzantine workers malicious policy : v4_command (ignore (byzantine_demo workers malicious policy))
  | command_start workers windows checkpoint_every :
      v4_command (ignore (start_integrated workers windows checkpoint_every))
  | command_start_background workers windows checkpoint_every :
      v4_command (ignore (start_integrated_background workers windows checkpoint_every)).
End Commands.
