(* ===== verification/V4DriverFacts.v ===== *)
(** * Frontier training: what a coordinator has heard

    A node decides what to do with a job by the answers it gets: it stands as coordinator when a
    majority has voted for it, takes a worker for lost when it stays silent, makes a graph active when
    all workers have it, counts a checkpoint when all providers have it.  The theorems trace each
    decision back to the messages that arrived, over every interleaving with other tasks. *)

From Stdlib Require Import String ZArith NArith Lia.
From stdpp Require Import base tactics sets strings numbers list gmap.
From S2P Require Import Prelude OrdMap Types Validation FileSystem Storage Aggregation Compute Float32 TrainingPlan Planner Runtime Trust Security Network NodeConfig Tasks TaskLogic V4Model V4Control V4Integrated V4Data V4Node V4Reconfigure V4Driver.
Local Open Scope N_scope.
Local Open Scope rust_scope.

(** ** Messages that arrived *)

Definition heard (envs : list V4Env) (peer : NodeId) (message : TrainingV4Message) : Prop :=
  Exists (fun e => e.(ve_event) = Some (Some (V4Inbound_Message peer message))) envs.

Lemma heard_more envs e peer message : heard envs peer message -> heard (envs ++ [e]) peer message.
Proof. intros Hh. apply Exists_app. by left. Qed.

Lemma heard_now envs e peer message :
  e.(ve_event) = Some (Some (V4Inbound_Message peer message)) -> heard (envs ++ [e]) peer message.
Proof. intros He. apply Exists_app. right. by constructor. Qed.

Lemma learns_wait {A} known (k : Waited -> vtask A) Q :
  (forall e inbound, e.(ve_event) = Some (Some inbound) -> learns (known ++ [e]) (k (Waited_Event inbound)) Q) ->
  (forall e, learns (known ++ [e]) (k Waited_Closed) Q) ->
  (forall e, learns (known ++ [e]) (k Waited_Elapsed) Q) ->
  learns known (tbind wait_event k) Q.
Proof.
  intros He Hc Ht e s x s' out. destruct (ve_event e) as [[inbound|]|] eqn:Hev.
  - intros [= <- <- <-]. by apply He.
  - intros [= <- <- <-]. apply Hc.
  - destruct (ve_elapsed e); [|done]. intros [= <- <- <-]. apply Ht.
Qed.

Lemma learns_receive {A} known (k : option V4Inbound -> v4 A) (Q : list V4Env -> result A NodeError -> Prop) :
  (forall known e, Q known (Err e)) ->
  (forall e inbound, e.(ve_event) = Some (Some inbound) -> learns (known ++ [e]) (k (Some inbound)) Q) ->
  (forall e, learns (known ++ [e]) (k None) Q) ->
  learns known (try_task receive_next k) Q.
Proof.
  intros He Hs Hn e s x s' out. destruct (ve_event e) as [[inbound|]|] eqn:Hev.
  - intros [= <- <- <-]. by apply Hs.
  - intros [= <- <- <-]. apply Hn.
  - destruct (ve_elapsed e); [|done]. intros [= <- <- <-]. apply He.
Qed.

Lemma learns_forever {A} known (Q : list V4Env -> A -> Prop) :
  learns known (@forever V4Env V4State V4Effect A) Q.
Proof. by intros e s []. Qed.

(** A condition that rejects, and a value that is expected. *)
Lemma learns_reject {A} known condition text (k : v4 A) (Q : list V4Env -> result A NodeError -> Prop) :
  (forall known e, Q known (Err e)) -> (condition = false -> learns known k Q) ->
  learns known (reject_if condition text ?! k) Q.
Proof. intros He Hk. destruct condition; [apply He | by apply Hk]. Qed.

Lemma learns_expect {A B} known text (o : option A) (k : A -> v4 B) (Q : list V4Env -> result B NodeError -> Prop) :
  (forall known e, Q known (Err e)) -> (forall a, o = Some a -> learns known (k a) Q) ->
  learns known (try_task (expect text o) k) Q.
Proof. intros He Hk. destruct o; [by apply Hk | apply He]. Qed.

Lemma learns_result {A B} known (r : result A NodeError) (k : A -> v4 B) (Q : list V4Env -> result B NodeError -> Prop) :
  (forall known e, Q known (Err e)) -> (forall a, r = Ok a -> learns known (k a) Q) ->
  learns known (try_task (Done r) k) Q.
Proof. intros He Hk. destruct r; [by apply Hk | apply He]. Qed.

(** What stays true as more is met goes through a task that says nothing. *)
Lemma learns_skip {A B} (F : list V4Env -> Prop) known (t : vtask A) (k : A -> vtask B) Q :
  (forall known e, F known -> F (known ++ [e])) -> F known ->
  (forall known a, F known -> learns known (k a) Q) -> learns known (tbind t k) Q.
Proof.
  intros HF Hk Hq. apply learns_tbind. eapply learns_mono; [by apply (learns_more t F)|]. auto.
Qed.

Lemma learns_try_skip {A B} (F : list V4Env -> Prop) known (t : v4 A) (k : A -> v4 B)
    (Q : list V4Env -> result B NodeError -> Prop) :
  (forall known e, F known -> F (known ++ [e])) -> F known -> (forall known e, Q known (Err e)) ->
  (forall known a, F known -> learns known (k a) Q) -> learns known (try_task t k) Q.
Proof.
  intros HF Hk He Hq. apply learns_try; [done|]. eapply learns_mono; [by apply (learns_more t F)|]. auto.
Qed.

(** ** Answers that were waited for *)

(** The keys of answers that have come. *)
Definition answered {K} (answer : V4Inbound -> option K) (envs : list V4Env) (key : K) : Prop :=
  Exists (fun e => exists inbound, e.(ve_event) = Some (Some inbound) /\ answer inbound = Some key) envs.

Lemma answered_more {K} (answer : V4Inbound -> option K) envs e key :
  answered answer envs key -> answered answer (envs ++ [e]) key.
Proof. intros Ha. apply Exists_app. by left. Qed.

Lemma answered_now {K} (answer : V4Inbound -> option K) envs e inbound key :
  e.(ve_event) = Some (Some inbound) -> answer inbound = Some key -> answered answer (envs ++ [e]) key.
Proof. intros He Ha. apply Exists_app. right. constructor. eauto. Qed.

Section Answers.
Context {K : Type} `{Countable K} (answer : V4Inbound -> option K) (all : gset K).

(** Everything asked for is pending or has been answered. *)
Definition accounted (pending : gset K) (envs : list V4Env) : Prop :=
  forall key, key ∈ all -> key ∈ pending \/ answered answer envs key.

Lemma accounted_start envs : accounted all envs.
Proof. intros key Hk. by left. Qed.

Lemma accounted_more pending envs e : accounted pending envs -> accounted pending (envs ++ [e]).
Proof. intros Hp key Hk. destruct (Hp key Hk); [by left | right; by apply answered_more]. Qed.

Lemma accounted_next pending envs e inbound :
  e.(ve_event) = Some (Some inbound) -> accounted pending envs ->
  accounted (match answer inbound with Some key => pending ∖ {[key]} | None => pending end) (envs ++ [e]).
Proof.
  intros He Hp key Hk. destruct (answer inbound) as [key'|] eqn:Ha; [|by apply accounted_more].
  destruct (decide (key = key')) as [<-|Hn]; [right; by eapply answered_now|].
  destruct (Hp key Hk); [left; set_solver | right; by apply answered_more].
Qed.

Lemma accounted_none envs : accounted ∅ envs -> forall key, key ∈ all -> answered answer envs key.
Proof. intros Hp key Hk. destruct (Hp key Hk); [set_solver | done]. Qed.

(** The loop that waits for all answers ends well only when all have come. *)
Lemma await_all_answered fuel what pending known :
  accounted pending known ->
  learns known (await_all fuel what answer pending)
    (fun envs r => r = Ok tt -> forall key, key ∈ all -> answered answer envs key).
Proof.
  revert pending known. induction fuel as [|fuel IH]; intros pending known Hp; [apply learns_forever|].
  cbn [await_all]. case_bool_decide as He; [subst; cbn; intros _; by apply accounted_none|].
  apply learns_wait; [|done..]. intros e inbound Hev. apply IH. by apply accounted_next.
Qed.

Lemma await_some_accounted fuel pending known :
  accounted pending known -> learns known (await_some fuel answer pending) (fun envs missing => accounted missing envs).
Proof.
  revert pending known. induction fuel as [|fuel IH]; intros pending known Hp; [apply learns_forever|].
  cbn [await_some]. case_bool_decide as He; [done|].
  apply learns_wait; [|intros e; by apply accounted_more..]. intros e inbound Hev. apply IH. by apply accounted_next.
Qed.
End Answers.

(** Tasks whose surroundings do not matter. *)
Definition nothing (envs : list V4Env) : Prop := True.

Ltac passing := first
  [ apply (learns_try_skip nothing); [done | done | done | intros ? ? _]
  | apply (learns_skip nothing); [done | done | intros ? ? _] ].

Section DriverFacts.
Context `{Blake3} `{PlanPostcard} `{V4Json} `{Profile}.
Context (local : NodeId) (store : LocalStore) (arch : str) (host_memory : N) (fuel : nat).

(** ** Probes *)

(** A worker's answer to a probe has arrived. *)
Definition answered_probe (graph : V4ExecutionGraph) (envs : list V4Env) (worker : NodeId) : Prop :=
  exists ack, heard envs worker (TrainingV4Message_IntegratedProbeAck ack) /\
    ack.(V4IntegratedProbeAck_job_id) = graph.(V4ExecutionGraph_job_id) /\
    ack.(V4IntegratedProbeAck_graph_generation) = graph.(V4ExecutionGraph_graph_generation) /\
    ack.(V4IntegratedProbeAck_responder) = worker /\ ack.(V4IntegratedProbeAck_accepted) = true.

Lemma answered_probe_more graph envs e worker :
  answered_probe graph envs worker -> answered_probe graph (envs ++ [e]) worker.
Proof. intros (ack & Hh & ?). exists ack. by split; [apply heard_more|]. Qed.

Definition all_answered (graph : V4ExecutionGraph) (confirmed : gset NodeId) (envs : list V4Env) : Prop :=
  forall worker, worker ∈ confirmed -> answered_probe graph envs worker.

Lemma all_answered_more graph confirmed envs e :
  all_answered graph confirmed envs -> all_answered graph confirmed (envs ++ [e]).
Proof. intros Hc worker Hw. by apply answered_probe_more, Hc. Qed.

Lemma await_probes_answered fuel' request_id graph pending confirmed known :
  all_answered graph confirmed known ->
  learns known (await_probes fuel' request_id graph pending confirmed)
    (fun envs confirmed => all_answered graph confirmed envs).
Proof.
  revert pending confirmed known.
  induction fuel' as [|fuel' IH]; intros pending confirmed known Hc; [apply learns_forever|].
  cbn [await_probes]. case_bool_decide; [done|].
  apply learns_wait; [|intros e; by apply all_answered_more..]. intros e inbound Hev.
  assert (Hskip : learns (known ++ [e]) (await_probes fuel' request_id graph pending confirmed)
    (fun envs confirmed => all_answered graph confirmed envs)) by (by apply IH, all_answered_more).
  destruct inbound as [peer message|]; [|done]. destruct message; try done.
  destruct (is_probe_answer _ _ _ _ && _) eqn:Hb; [|done]. unfold is_probe_answer in Hb.
  rewrite !andb_true_iff, !N.eqb_eq, !bool_decide_eq_true in Hb. apply IH.
  intros worker [->%elem_of_singleton|Hw]%elem_of_union; [|by apply answered_probe_more, Hc].
  eexists. split; [by apply heard_now|]. by destruct_and?; split_and!.
Qed.

Lemma probe_learns graph state known :
  learns known (probe_integrated_members local fuel graph state)
    (fun envs confirmed => all_answered graph confirmed envs).
Proof. unfold probe_integrated_members. cbv zeta. do 3 passing. by apply await_probes_answered. Qed.

(** Before a worker is replaced, a majority of the graph without it has answered. *)
Lemma quorum_learns graph state failed known :
  learns known (has_integrated_reconfiguration_quorum local fuel graph state failed)
    (fun envs quorum => quorum = true -> exists members,
       members `sublist_of` graph.(V4ExecutionGraph_workers) /\ quorum_of graph <= len members /\
       forall member, member ∈ members -> member <> failed /\ (member = local \/ answered_probe graph envs member)).
Proof.
  unfold has_integrated_reconfiguration_quorum. apply learns_tbind.
  eapply learns_mono; [apply probe_learns|]. intros envs confirmed Hc. cbn. intros Hq%N.leb_le.
  eexists. split_and!; [|exact Hq|]; [apply filter_sublist|]. intros member Hm.
  apply list_elem_of_In, filter_In in Hm as [_ Hm]. unfold is_live in Hm.
  rewrite andb_true_iff, orb_true_iff, negb_true_iff, bool_decide_eq_false, !bool_decide_eq_true in Hm.
  destruct Hm as [Hf [->|Hm]]; auto.
Qed.

(** ** Elections *)

(** A worker's vote for the node has arrived. *)
Definition voted (graph : V4ExecutionGraph) (term : N) (envs : list V4Env) (voter : NodeId) : Prop :=
  voter ∈ graph.(V4ExecutionGraph_workers) /\
  exists vote, heard envs voter (TrainingV4Message_IntegratedElectionVote vote) /\
    vote.(V4IntegratedElectionVote_job_id) = graph.(V4ExecutionGraph_job_id) /\
    vote.(V4IntegratedElectionVote_graph_generation) = graph.(V4ExecutionGraph_graph_generation) /\
    vote.(V4IntegratedElectionVote_graph_hash) = graph.(V4ExecutionGraph_graph_hash) /\
    vote.(V4IntegratedElectionVote_term) = term /\ vote.(V4IntegratedElectionVote_candidate) = local /\
    vote.(V4IntegratedElectionVote_voter) = voter /\ vote.(V4IntegratedElectionVote_granted) = true.

Lemma voted_more graph term envs e voter : voted graph term envs voter -> voted graph term (envs ++ [e]) voter.
Proof. intros (Hw & vote & Hh & ?). split; [done|]. exists vote. by split; [apply heard_more|]. Qed.

Definition ballots_backed (graph : V4ExecutionGraph) (term : N) (votes : gset NodeId) (envs : list V4Env) : Prop :=
  local ∈ votes /\ forall voter, voter ∈ votes -> voter = local \/ voted graph term envs voter.

Lemma ballots_backed_more graph term votes envs e :
  ballots_backed graph term votes envs -> ballots_backed graph term votes (envs ++ [e]).
Proof. intros [Hl Hv]. split; [done|]. intros voter Hin. destruct (Hv voter Hin); [by left | right; by apply voted_more]. Qed.

Lemma count_ballots_backed fuel' graph term votes pending known :
  (forall voter, voter ∈ pending -> voter ∈ graph.(V4ExecutionGraph_workers)) ->
  ballots_backed graph term votes known ->
  learns known (count_ballots local fuel' graph term votes pending)
    (fun envs votes => ballots_backed graph term votes envs).
Proof.
  revert votes pending known. induction fuel' as [|fuel' IH]; intros votes pending known Hp Hv; [apply learns_forever|].
  cbn [count_ballots]. destruct (_ || _); [done|].
  apply learns_wait; [|intros e; by apply ballots_backed_more..]. intros e inbound Hev.
  assert (Hskip : learns (known ++ [e]) (count_ballots local fuel' graph term votes pending)
    (fun envs votes => ballots_backed graph term votes envs)) by (by apply IH; [|apply ballots_backed_more]).
  destruct inbound as [peer message|]; [|done]. destruct message; try done.
  destruct (is_ballot _ _ _ _ _) eqn:Hb; [|done]. case_bool_decide as Hpeer; [|done].
  unfold is_ballot in Hb. rewrite !andb_true_iff, !N.eqb_eq, !bool_decide_eq_true in Hb.
  apply IH; [set_solver|]. destruct (V4IntegratedElectionVote_granted _) eqn:Hg; [|by apply ballots_backed_more].
  destruct Hv as [Hl Hv]. split; [set_solver|]. intros voter [->%elem_of_singleton|Hin]%elem_of_union.
  - right. split; [by apply Hp|]. eexists. split; [by apply heard_now|]. by destruct_and?; split_and!.
  - destruct (Hv voter Hin); [by left | right; by apply voted_more].
Qed.

Lemma request_votes_pending request voters pending known :
  learns known (request_votes request voters pending)
    (fun _ asked => forall voter, voter ∈ asked -> voter ∈ pending \/ voter ∈ voters).
Proof.
  revert pending known. induction voters as [|voter voters IH]; intros pending known; cbn [request_votes]; [cbn; auto|].
  apply (learns_skip nothing); [done..|]. intros known' sent _.
  eapply learns_mono; [apply IH|]. intros envs asked Ha v Hv. destruct (Ha v Hv); destruct sent; set_solver.
Qed.

Lemma elem_of_other_workers graph worker :
  worker ∈ other_workers local graph <-> worker ∈ graph.(V4ExecutionGraph_workers) /\ worker <> local.
Proof. unfold other_workers. rewrite list_elem_of_In, filter_In, <- list_elem_of_In, negb_true_iff, bool_decide_eq_false. done. Qed.

Lemma candidacy_term_newer graph record :
  graph.(V4ExecutionGraph_coordination_term) < u64_max ->
  graph.(V4ExecutionGraph_coordination_term) < candidacy_term local graph record.
Proof. intros Ht. unfold candidacy_term, sat_add. lia. Qed.

(** What an election that was won says. *)
Record elected (graph : V4ExecutionGraph) (certificate : list NodeId) (envs : list V4Env) : Prop := mkElected {
  elected_once : NoDup certificate;
  elected_majority : len graph.(V4ExecutionGraph_workers) / 2 < len certificate;
  elected_candidate : local ∈ certificate;
  elected_worker : local ∈ graph.(V4ExecutionGraph_workers) /\ local <> graph.(V4ExecutionGraph_coordinator);
  elected_votes : exists term,
    (graph.(V4ExecutionGraph_coordination_term) < u64_max -> graph.(V4ExecutionGraph_coordination_term) < term) /\
    forall voter, voter ∈ certificate -> voter = local \/ voted graph term envs voter
}.

Lemma eligible_head graph confirmed :
  head (sort_nodes (List.filter (fun worker => worker != graph.(V4ExecutionGraph_coordinator))
    (List.filter (is_live local confirmed) graph.(V4ExecutionGraph_workers)))) = Some local ->
  local ∈ graph.(V4ExecutionGraph_workers) /\ local <> graph.(V4ExecutionGraph_coordinator).
Proof.
  destruct (sort_nodes _) as [|x xs] eqn:Hs; [done|]. intros [= ->].
  assert (Hin : local ∈ local :: xs) by left. rewrite <- Hs in Hin.
  apply elem_of_sort_by_key, list_elem_of_In in Hin.
  rewrite !filter_In, <- list_elem_of_In, negb_true_iff, bool_decide_eq_false in Hin. tauto.
Qed.

Lemma certificate_of_votes graph term votes envs :
  local ∈ graph.(V4ExecutionGraph_workers) /\ local <> graph.(V4ExecutionGraph_coordinator) ->
  (graph.(V4ExecutionGraph_coordination_term) < u64_max -> graph.(V4ExecutionGraph_coordination_term) < term) ->
  ballots_backed graph term votes envs -> quorum_of graph <= N.of_nat (size votes) ->
  elected graph (sort_nodes (elements votes)) envs.
Proof.
  intros Hw Ht [Hl Hv] Hq. split; [| | |done|].
  - unfold sort_nodes. rewrite sort_by_key_perm. apply NoDup_elements.
  - unfold len, sort_nodes. rewrite sort_by_key_length. unfold quorum_of, len in Hq.
    change (size votes) with (length (elements votes)) in Hq. lia.
  - by apply elem_of_sort_by_key, elem_of_elements.
  - exists term. split; [done|]. intros voter Hin. by apply Hv, elem_of_elements, (elem_of_sort_by_key NodeId_0).
Qed.

Lemma election_learns graph state confirmed known :
  learns known (request_integrated_election local store fuel graph state confirmed)
    (fun envs r => forall certificate, r = Ok certificate -> elected graph certificate envs).
Proof.
  unfold request_integrated_election. cbv zeta. passing.
  passing. apply learns_expect; [done|]. intros current_graph _. passing. apply learns_expect; [done|].
  intros current_state _. do 2 (apply learns_reject; [done|]; intros _).
  apply learns_reject; [done|]. intros Hh. apply negb_false_iff, bool_decide_eq_true in Hh.
  apply eligible_head in Hh. apply learns_tbind. intros e s term s' out [= <- _ _]. cbn [learns].
  set (term := candidacy_term local graph _). assert (Ht := candidacy_term_newer graph (s.(V4State_integrated_elections) !! graph.(V4ExecutionGraph_job_id))).
  fold term in Ht. clearbody term. passing. apply learns_tbind. eapply learns_mono; [apply request_votes_pending|].
  intros envs pending Hp. apply learns_tbind. eapply learns_mono; [apply count_ballots_backed|].
  - intros voter Hv. destruct (Hp voter Hv); [set_solver | by apply elem_of_other_workers].
  - split; [set_solver|]. intros voter ->%elem_of_singleton. by left.
  - intros envs' votes Hv. destruct (_ <? _) eqn:Hq; cbn; [done|]. apply N.ltb_ge in Hq.
    intros certificate [= <-]. by apply (certificate_of_votes graph term).
Qed.
(** ** Activation *)

(** The worker has saved the graph, and the plan. *)
Definition has_graph (graph : V4ExecutionGraph) (envs : list V4Env) (worker : NodeId) : Prop :=
  exists ack, heard envs worker (TrainingV4Message_IntegratedAck ack) /\
    ack.(V4IntegratedAck_job_id) = graph.(V4ExecutionGraph_job_id) /\
    ack.(V4IntegratedAck_graph_generation) = graph.(V4ExecutionGraph_graph_generation) /\
    ack.(V4IntegratedAck_worker) = worker /\ ack.(V4IntegratedAck_accepted) = true.

Definition has_plan (plan : V4TrainingPlan) (envs : list V4Env) (worker : NodeId) : Prop :=
  exists ack, heard envs worker (TrainingV4Message_PlanAck ack) /\
    ack.(V4PlanAck_job_id) = plan.(V4TrainingPlan_job_id) /\
    ack.(V4PlanAck_plan_generation) = plan.(V4TrainingPlan_plan_generation) /\
    ack.(V4PlanAck_plan_hash) = plan.(V4TrainingPlan_plan_hash) /\ ack.(V4PlanAck_accepted) = true.

Lemma has_graph_more graph envs e worker : has_graph graph envs worker -> has_graph graph (envs ++ [e]) worker.
Proof. intros (ack & Hh & ?). exists ack. by split; [apply heard_more|]. Qed.

Lemma has_plan_more plan envs e worker : has_plan plan envs worker -> has_plan plan (envs ++ [e]) worker.
Proof. intros (ack & Hh & ?). exists ack. by split; [apply heard_more|]. Qed.

(** The workers that are not waited for any more have it. *)
Definition others_have (has : list V4Env -> NodeId -> Prop) (workers : list NodeId) (pending : gset NodeId)
    (envs : list V4Env) : Prop :=
  forall worker, worker ∈ workers -> worker <> local -> worker ∈ pending \/ has envs worker.

Lemma others_have_more has workers pending envs e :
  (forall envs e worker, has envs worker -> has (envs ++ [e]) worker) ->
  others_have has workers pending envs -> others_have has workers pending (envs ++ [e]).
Proof. intros Hm Hp worker Hw Hl. destruct (Hp worker Hw Hl); auto. Qed.

Lemma others_have_one has workers pending envs peer :
  has envs peer -> others_have has workers pending envs ->
  others_have has workers (pending ∖ {[peer]}) envs.
Proof.
  intros Hh Hp worker Hw Hl. destruct (decide (worker = peer)) as [->|]; [by right|].
  destruct (Hp worker Hw Hl); [left; set_solver | by right].
Qed.

Lemma graph_acks_learn fuel' first graph start pending known :
  others_have (has_graph graph) graph.(V4ExecutionGraph_workers) pending known ->
  learns known (await_graph_acks fuel' first graph start pending)
    (fun envs r => r = Ok tt -> others_have (has_graph graph) graph.(V4ExecutionGraph_workers) ∅ envs).
Proof.
  revert first pending known. induction fuel' as [|fuel' IH]; intros first pending known Hp; [apply learns_forever|].
  assert (Hmore : forall envs e, others_have (has_graph graph) graph.(V4ExecutionGraph_workers) pending envs ->
    others_have (has_graph graph) graph.(V4ExecutionGraph_workers) pending (envs ++ [e])).
  { intros envs e. apply others_have_more, has_graph_more. }
  cbn [await_graph_acks]. case_bool_decide as He; [cbn; by rewrite He in Hp|].
  eapply learns_skip; [exact Hmore | done |]. intros envs over Hp1. apply learns_reject; [done|]. intros _.
  eapply learns_skip; [exact Hmore | done |]. intros envs2 due Hp2.
  eapply learns_skip; [exact Hmore | done |]. intros envs3 _ Hp3.
  apply learns_wait; [|done|intros e; by apply IH, Hmore]. intros e inbound Hev.
  destruct inbound as [peer message|]; [|by apply IH, Hmore]. destruct message; try (by apply IH, Hmore).
  apply IH. destruct (_ && _) eqn:Hb; [|by apply Hmore]. unfold is_graph_ack in Hb.
  rewrite !andb_true_iff, N.eqb_eq, !bool_decide_eq_true in Hb. apply others_have_one; [|by apply Hmore].
  eexists. split; [by apply heard_now|]. by destruct_and?; split_and!.
Qed.

Lemma receive_message_heard fuel' known :
  learns known (receive_message fuel')
    (fun envs r => forall peer message, r = Ok (Some (peer, message)) -> heard envs peer message).
Proof.
  revert known. induction fuel' as [|fuel' IH]; intros known; [apply learns_forever|]. cbn [receive_message].
  apply learns_receive; [done| |done]. intros e [peer message|peer] Hev; [|apply IH].
  intros ? ? [= <- <-]. by apply heard_now.
Qed.

Lemma plan_acks_learn fuel' plan workers pending known :
  others_have (has_plan plan) workers pending known ->
  learns known (await_plan_acks fuel fuel' plan pending)
    (fun envs r => forall missing, r = Ok missing -> others_have (has_plan plan) workers missing envs).
Proof.
  revert pending known. induction fuel' as [|fuel' IH]; intros pending known Hp; [apply learns_forever|].
  assert (Hmore : forall envs e, others_have (has_plan plan) workers pending envs ->
    others_have (has_plan plan) workers pending (envs ++ [e])).
  { intros envs e. apply others_have_more, has_plan_more. }
  cbn [await_plan_acks]. case_bool_decide as He; [by intros ? [= <-]|].
  apply learns_tbind. eapply (learns_mono _ _ (fun envs r => (forall a, r = Some a -> forall peer message,
    a = Ok (Some (peer, message)) -> heard envs peer message) /\ others_have (has_plan plan) workers pending envs)).
  { apply learns_and; [apply learns_timeout, receive_message_heard | by apply learns_more]. }
  intros envs r [Hr Hp']. destruct r as [[[[peer message]|]|]|]; [|by intros ? [= <-]..].
  specialize (Hr _ eq_refl peer message eq_refl). destruct message; try (by apply IH).
  destruct (_ || _) eqn:Hb; [by apply IH|]. rewrite !orb_false_iff, !negb_false_iff, N.eqb_eq, !bool_decide_eq_true in Hb.
  destruct (V4PlanAck_accepted _) eqn:Ha; cbn [negb]; [|done]. apply IH, others_have_one; [|done].
  eexists. split; [done|]. by destruct_and?; split_and!.
Qed.

Lemma plan_attempts_learn attempts first plan workers pending known :
  others_have (has_plan plan) workers pending known ->
  learns known (plan_attempts local fuel attempts first plan pending)
    (fun envs r => forall missing, r = Ok missing -> others_have (has_plan plan) workers missing envs).
Proof.
  revert first pending known. induction attempts as [|attempts IH]; intros first pending known Hp; [by intros ? [= <-]|].
  assert (Hmore : forall envs e, others_have (has_plan plan) workers pending envs ->
    others_have (has_plan plan) workers pending (envs ++ [e])).
  { intros envs e. apply others_have_more, has_plan_more. }
  cbn [plan_attempts]. eapply learns_skip; [exact Hmore | done |]. intros envs over Hp1.
  destruct (_ || _); [by intros ? [= <-]|].
  eapply learns_skip; [exact Hmore | done |]. intros envs2 peers Hp2.
  eapply learns_skip; [exact Hmore | done |]. intros envs3 _ Hp3.
  apply learns_try; [done|]. eapply learns_mono; [by apply plan_acks_learn|]. intros envs4 r Hr missing ->. by apply IH, Hr.
Qed.

Lemma acknowledge_learns plan recipients known :
  learns known (acknowledge_plan_update local fuel plan recipients)
    (fun envs r => is_ok r = true -> others_have (has_plan plan) recipients ∅ envs).
Proof.
  unfold acknowledge_plan_update. cbv zeta. apply learns_try; [done|].
  eapply learns_mono; [apply (plan_attempts_learn _ _ _ recipients)|].
  - intros worker Hw Hl. left. apply elem_of_list_to_set, list_elem_of_In, filter_In.
    rewrite negb_true_iff, bool_decide_eq_false. by rewrite <- list_elem_of_In.
  - intros envs r Hr missing ->. apply learns_reject; [done|]. intros He%negb_false_iff%bool_decide_eq_true.
    subst. intros _. by apply Hr.
Qed.

Lemma activation_learns graph plan windows checkpoint_every known :
  learns known (activate_integrated_graph local store fuel graph plan windows checkpoint_every)
    (fun envs r => r = Ok tt -> forall worker, worker ∈ graph.(V4ExecutionGraph_workers) -> worker <> local ->
       has_graph graph envs worker /\ has_plan plan envs worker).
Proof.
  unfold activate_integrated_graph. apply learns_try; [done|]. eapply learns_mono; [apply graph_acks_learn|].
  { intros worker Hw Hl. left. apply elem_of_list_to_set, elem_of_other_workers. auto. }
  intros envs r Hg [] ->. specialize (Hg eq_refl).
  assert (Hmore : forall envs e, others_have (has_graph graph) graph.(V4ExecutionGraph_workers) ∅ envs ->
    others_have (has_graph graph) graph.(V4ExecutionGraph_workers) ∅ (envs ++ [e])).
  { intros envs' e. apply others_have_more, has_graph_more. }
  apply learns_try; [done|]. eapply (learns_mono _ _ (fun envs r =>
    (is_ok r = true -> others_have (has_plan plan) graph.(V4ExecutionGraph_workers) ∅ envs) /\
    others_have (has_graph graph) graph.(V4ExecutionGraph_workers) ∅ envs)).
  { apply learns_and; [apply acknowledge_learns | by apply learns_more]. }
  intros envs' r' [Ha Hg'] n ->. specialize (Ha eq_refl).
  eapply (learns_skip (fun envs => others_have (has_graph graph) graph.(V4ExecutionGraph_workers) ∅ envs /\
    others_have (has_plan plan) graph.(V4ExecutionGraph_workers) ∅ envs)); [|done|].
  - intros known' e []. split; [by apply Hmore | by apply others_have_more; [apply has_plan_more|]].
  - intros known' _ [Hg1 Hp1] _ worker Hw Hl. destruct (Hg1 worker Hw Hl), (Hp1 worker Hw Hl); set_solver.
Qed.
(** ** Installation *)

Section Installs.
Context {K : Type} `{Countable K} (here : v4 unit) (message : TrainingV4Message).

Lemma install_at_pending target unreachable (key : K) pending known :
  learns known (install_at local target here message unreachable key pending)
    (fun _ r => forall asked, r = Ok asked -> pending ⊆ asked /\ (target <> local -> key ∈ asked)).
Proof.
  unfold install_at. case_bool_decide as Hl.
  - passing. intros asked [= <-]. done.
  - passing. apply learns_reject; [done|]. intros _ asked [= <-]. set_solver.
Qed.

Lemma install_at_all_pending targets unreachable (key : NodeId -> K) pending known :
  learns known (install_at_all local targets here message unreachable key pending)
    (fun _ r => forall asked, r = Ok asked ->
       pending ⊆ asked /\ forall target, target ∈ targets -> target <> local -> key target ∈ asked).
Proof.
  revert pending known. induction targets as [|target targets IH]; intros pending known; cbn [install_at_all].
  - intros asked [= <-]. set_solver.
  - apply learns_try; [done|]. eapply learns_mono; [apply install_at_pending|].
    intros envs r Hr asked ->. destruct (Hr asked eq_refl) as [Hp Ht].
    eapply learns_mono; [apply IH|]. intros envs' r' Hr' asked' ->. destruct (Hr' asked' eq_refl) as [Hp' Ht'].
    split; [set_solver|]. intros t [->|Hin]%elem_of_cons; auto.
Qed.
End Installs.

(** Who has to hold a part of the model. *)
Definition tensor_holder (shards : list V4ShardOwnership) (key : NodeId * N * bool) : Prop :=
  exists shard, shard ∈ shards /\ key.1.2 = shard.(V4ShardOwnership_shard_id) /\
    if key.2 then key.1.1 ∈ shard.(V4ShardOwnership_replicas) else head shard.(V4ShardOwnership_owners) = Some key.1.1.

Definition optimizer_holder (placements : list V4OptimizerPlacement) (key : NodeId * N) : Prop :=
  exists placement, placement ∈ placements /\ key.2 = placement.(V4OptimizerPlacement_shard_id) /\
    key.1 ∈ placement.(V4OptimizerPlacement_owner) :: placement.(V4OptimizerPlacement_replicas).

Definition stage_holder (stages : list V4PipelineStageAssignment) (key : NodeId * N) : Prop :=
  exists stage, stage ∈ stages /\ key.2 = stage.(V4PipelineStageAssignment_stage_id) /\
    key.1 ∈ stage.(V4PipelineStageAssignment_worker) :: stage.(V4PipelineStageAssignment_replicas).

Lemma install_tensors_pending graph plan shards pending known :
  learns known (install_tensors local store graph plan shards pending)
    (fun _ r => forall asked, r = Ok asked ->
       pending ⊆ asked /\ forall key, tensor_holder shards key -> key.1.1 <> local -> key ∈ asked).
Proof.
  revert pending known. induction shards as [|shard shards IH]; intros pending known; cbn [install_tensors].
  { intros asked [= <-]. split; [done|]. intros key (shard & Hs & _). set_solver. }
  cbv zeta. apply learns_expect; [done|]. intros owner Ho.
  apply learns_try; [done|]. eapply learns_mono; [apply install_at_pending|].
  intros envs r Hr asked1 ->. destruct (Hr asked1 eq_refl) as [Hp1 Ho1].
  apply learns_try; [done|]. eapply learns_mono; [apply install_at_all_pending|].
  intros envs2 r2 Hr2 asked2 ->. destruct (Hr2 asked2 eq_refl) as [Hp2 Ht2].
  eapply learns_mono; [apply IH|]. intros envs3 r3 Hr3 asked3 ->. destruct (Hr3 asked3 eq_refl) as [Hp3 Ht3].
  split; [set_solver|]. intros [[node id] replica] (shard' & [->|Hs]%elem_of_cons & Hid & Hn) Hl; [|apply Ht3; [|done]; by exists shard'].
  cbn in Hid, Hn, Hl. subst id. destruct replica; [by apply Hp3, (Ht2 node)|].
  rewrite Hn in Ho. injection Ho as ->. apply Hp3, Hp2. auto.
Qed.

Lemma install_optimizers_pending graph plan placements pending known :
  learns known (install_optimizers local store graph plan placements pending)
    (fun _ r => forall asked, r = Ok asked ->
       pending ⊆ asked /\ forall key, optimizer_holder placements key -> key.1 <> local -> key ∈ asked).
Proof.
  revert pending known. induction placements as [|placement placements IH]; intros pending known; cbn [install_optimizers].
  { intros asked [= <-]. split; [done|]. intros key (placement & Hs & _). set_solver. }
  cbv zeta. passing. cbv zeta. apply learns_try; [done|]. eapply learns_mono; [apply install_at_pending|].
  intros envs r Hr asked1 ->. destruct (Hr asked1 eq_refl) as [Hp1 Ho1].
  apply learns_try; [done|]. eapply learns_mono; [apply install_at_all_pending|].
  intros envs2 r2 Hr2 asked2 ->. destruct (Hr2 asked2 eq_refl) as [Hp2 Ht2].
  eapply learns_mono; [apply IH|]. intros envs3 r3 Hr3 asked3 ->. destruct (Hr3 asked3 eq_refl) as [Hp3 Ht3].
  split; [set_solver|]. intros [node id] (placement' & [->|Hs]%elem_of_cons & Hid & Hn) Hl; [|apply Ht3; [|done]; by exists placement'].
  cbn in Hid, Hn, Hl. subst id. apply elem_of_cons in Hn as [->|Hn]; [|by apply Hp3, (Ht2 node)].
  apply Hp3, Hp2. auto.
Qed.

Lemma install_stages_pending graph plan stages pending known :
  learns known (install_stages local store graph plan stages pending)
    (fun _ r => forall asked, r = Ok asked ->
       pending ⊆ asked /\ forall key, stage_holder stages key -> key.1 <> local -> key ∈ asked).
Proof.
  revert pending known. induction stages as [|stage stages IH]; intros pending known; cbn [install_stages].
  { intros asked [= <-]. split; [done|]. intros key (stage & Hs & _). set_solver. }
  cbv zeta. apply learns_try; [done|]. eapply learns_mono; [apply install_at_all_pending|].
  intros envs2 r2 Hr2 asked2 ->. destruct (Hr2 asked2 eq_refl) as [Hp2 Ht2].
  eapply learns_mono; [apply IH|]. intros envs3 r3 Hr3 asked3 ->. destruct (Hr3 asked3 eq_refl) as [Hp3 Ht3].
  split; [set_solver|]. intros [node id] (stage' & [->|Hs]%elem_of_cons & Hid & Hn) Hl; [|apply Ht3; [|done]; by exists stage'].
  cbn in Hid, Hn, Hl. subst id. by apply Hp3, (Ht2 node).
Qed.

(** An installation ends well when every holder has answered. *)
Lemma installation_learns {K} `{Countable K} (install : v4 (gset K)) what answer (holder : K -> Prop) known :
  (forall known, learns known install (fun _ r => forall asked, r = Ok asked -> forall key, holder key -> key ∈ asked)) ->
  learns known (try! pending := install in await_all fuel what answer pending)
    (fun envs r => r = Ok tt -> forall key, holder key -> answered answer envs key).
Proof.
  intros Hi. apply learns_try; [done|]. eapply learns_mono; [apply Hi|]. intros envs r Hr asked ->.
  eapply learns_mono; [apply (await_all_answered answer asked), accounted_start|].
  intros envs' r' Hr' -> key Hk. apply Hr'; [done|]. by apply (Hr asked).
Qed.
(** All answers that a coordinator waits for when it puts a graph in place. *)
Record in_place (graph : V4ExecutionGraph) (plan : V4TrainingPlan) (envs : list V4Env) : Prop := mkInPlace {
  place_graph : forall worker, worker ∈ graph.(V4ExecutionGraph_workers) -> worker <> local ->
    has_graph graph envs worker /\ has_plan plan envs worker;
  place_tensors : forall key, tensor_holder graph.(V4ExecutionGraph_shards) key -> key.1.1 <> local ->
    answered tensor_installed envs key;
  place_optimizers : forall key, optimizer_holder graph.(V4ExecutionGraph_optimizer_shards) key -> key.1 <> local ->
    answered optimizer_installed envs key;
  place_stages : forall key, stage_holder graph.(V4ExecutionGraph_pipeline_stages) key -> key.1 <> local ->
    answered stage_installed envs key
}.

(** A fact established by one task and kept by those that follow. *)
Lemma learns_try_keep {A B} (F G : list V4Env -> Prop) known (t : v4 A) (k : A -> v4 B)
    (Q : list V4Env -> result B NodeError -> Prop) :
  (forall known e, Q known (Err e)) -> (forall known e, G known -> G (known ++ [e])) -> G known ->
  (forall known, learns known t (fun known r => is_ok r = true -> F known)) ->
  (forall known a, G known -> F known -> learns known (k a) Q) -> learns known (try_task t k) Q.
Proof.
  intros He HG Hg Ht Hk. apply learns_try; [done|].
  eapply (learns_mono _ _ (fun known r => (is_ok r = true -> F known) /\ G known)).
  - apply learns_and; [apply Ht | by apply learns_more].
  - intros known' r [Hf Hg'] a ->. by apply Hk; [|apply Hf].
Qed.

Lemma unit_ok (r : result unit NodeError) : is_ok r = true -> r = Ok tt.
Proof. by destruct r as [[]|]. Qed.

(** Every holder but the node itself. *)
Definition tensors_placed (graph : V4ExecutionGraph) (envs : list V4Env) : Prop :=
  forall key, tensor_holder graph.(V4ExecutionGraph_shards) key /\ key.1.1 <> local ->
    answered tensor_installed envs key.

Definition optimizers_placed (graph : V4ExecutionGraph) (envs : list V4Env) : Prop :=
  forall key, optimizer_holder graph.(V4ExecutionGraph_optimizer_shards) key /\ key.1 <> local ->
    answered optimizer_installed envs key.

Definition stages_placed (graph : V4ExecutionGraph) (envs : list V4Env) : Prop :=
  forall key, stage_holder graph.(V4ExecutionGraph_pipeline_stages) key /\ key.1 <> local ->
    answered stage_installed envs key.

Definition graph_placed (graph : V4ExecutionGraph) (plan : V4TrainingPlan) (envs : list V4Env) : Prop :=
  forall worker, worker ∈ graph.(V4ExecutionGraph_workers) -> worker <> local ->
    has_graph graph envs worker /\ has_plan plan envs worker.

Lemma graph_placed_learns graph plan windows checkpoint_every known :
  learns known (activate_integrated_graph local store fuel graph plan windows checkpoint_every)
    (fun envs r => is_ok r = true -> graph_placed graph plan envs).
Proof. eapply learns_mono; [apply activation_learns|]. intros envs r Hr Hok%unit_ok. exact (Hr Hok). Qed.

Lemma tensors_placed_learns graph plan known :
  learns known (install_integrated_tensor_state local store fuel graph plan)
    (fun envs r => is_ok r = true -> tensors_placed graph envs).
Proof.
  eapply learns_mono; [eapply installation_learns|intros envs r Hr Hok%unit_ok; exact (Hr Hok)].
  intros known'. eapply learns_mono; [apply install_tensors_pending|].
  intros envs r Hr asked -> key [Hk Hl]. by apply (Hr asked).
Qed.

Lemma optimizers_placed_learns graph plan known :
  learns known (install_integrated_optimizer_state local store fuel graph plan)
    (fun envs r => is_ok r = true -> optimizers_placed graph envs).
Proof.
  eapply learns_mono; [eapply installation_learns|intros envs r Hr Hok%unit_ok; exact (Hr Hok)].
  intros known'. eapply learns_mono; [apply install_optimizers_pending|].
  intros envs r Hr asked -> key [Hk Hl]. by apply (Hr asked).
Qed.

Lemma stages_placed_learns graph plan known :
  learns known (install_integrated_pipeline_state local store fuel graph plan)
    (fun envs r => is_ok r = true -> stages_placed graph envs).
Proof.
  eapply learns_mono; [eapply installation_learns|intros envs r Hr Hok%unit_ok; exact (Hr Hok)].
  intros known'. eapply learns_mono; [apply install_stages_pending|].
  intros envs r Hr asked -> key [Hk Hl]. by apply (Hr asked).
Qed.

Lemma graph_placed_more graph plan envs e : graph_placed graph plan envs -> graph_placed graph plan (envs ++ [e]).
Proof. intros Hg worker Hw Hl. destruct (Hg worker Hw Hl). by split; [apply has_graph_more | apply has_plan_more]. Qed.

Lemma tensors_placed_more graph envs e : tensors_placed graph envs -> tensors_placed graph (envs ++ [e]).
Proof. intros Ht key Hk. by apply answered_more, Ht. Qed.

Lemma optimizers_placed_more graph envs e : optimizers_placed graph envs -> optimizers_placed graph (envs ++ [e]).
Proof. intros Ho key Hk. by apply answered_more, Ho. Qed.

Lemma install_learns graph plan windows checkpoint_every known :
  learns known (activate_and_install_integrated_graph local store fuel graph plan windows checkpoint_every)
    (fun envs r => r = Ok tt -> in_place graph plan envs).
Proof.
  unfold activate_and_install_integrated_graph.
  apply (learns_try_keep (graph_placed graph plan) nothing); [done..|by apply graph_placed_learns|].
  intros known1 _ _ Hg. apply (learns_try_keep (tensors_placed graph) (graph_placed graph plan));
    [done | by apply graph_placed_more | done | by apply tensors_placed_learns |].
  intros known2 _ Hg2 Ht. apply (learns_try_keep (optimizers_placed graph) (fun envs => graph_placed graph plan envs /\ tensors_placed graph envs));
    [done | | done | by apply optimizers_placed_learns |].
  { intros ? ? []. by split; [apply graph_placed_more | apply tensors_placed_more]. }
  intros known3 _ [Hg3 Ht3] Ho.
  eapply (learns_mono _ _ (fun envs r => (is_ok r = true -> stages_placed graph envs) /\
    (graph_placed graph plan envs /\ tensors_placed graph envs /\ optimizers_placed graph envs))).
  - apply learns_and; [apply stages_placed_learns|]. apply learns_more; [|done]. intros ? ? (? & ? & ?).
    split_and!; [by apply graph_placed_more | by apply tensors_placed_more | by apply optimizers_placed_more].
  - intros envs r [Hs (Hg4 & Ht4 & Ho4)] ->. specialize (Hs eq_refl). by split; auto.
Qed.

Lemma in_place_more graph plan envs e : in_place graph plan envs -> in_place graph plan (envs ++ [e]).
Proof.
  intros [Hg Ht Ho Hs]. split; [|intros key Hk Hl; apply answered_more; auto..].
  intros worker Hw Hl. destruct (Hg worker Hw Hl). by split; [apply has_graph_more | apply has_plan_more].
Qed.

(** The state that a graph runs in. *)
Definition runs_on (graph : V4ExecutionGraph) (state : V4IntegratedStateRecord) : Prop :=
  state.(V4IntegratedStateRecord_phase) = V4IntegratedPhase_Running /\
  state.(V4IntegratedStateRecord_graph_generation) = graph.(V4ExecutionGraph_graph_generation) /\
  state.(V4IntegratedStateRecord_plan_hash) = graph.(V4ExecutionGraph_plan_hash) /\
  state.(V4IntegratedStateRecord_coordinator) = graph.(V4ExecutionGraph_coordinator).

Lemma commit_runs graph state windows (F : list V4Env -> Prop) known :
  (forall known e, F known -> F (known ++ [e])) -> F known ->
  learns known (commit_integrated_graph_activation local store graph state windows)
    (fun envs r => forall state', r = Ok state' -> runs_on graph state' /\ F envs).
Proof.
  intros HF Hf. unfold commit_integrated_graph_activation. cbv zeta.
  eapply learns_try_skip; [exact HF | done | done |]. intros known' _ Hf'.
  eapply learns_skip; [exact HF | done |]. intros known'' _ Hf'' state' [= <-]. done.
Qed.

Lemma attempts_learn attempts next windows checkpoint_every known :
  learns known (activation_attempts local store fuel attempts next windows checkpoint_every)
    (fun envs r => forall graph plan state, r = Ok (graph, plan, state) ->
       runs_on graph state /\ in_place graph plan envs).
Proof.
  revert next known. induction attempts as [|attempts IH]; intros [[graph plan] state] known; [done|].
  cbn [activation_attempts]. apply learns_tbind. eapply learns_mono; [apply install_learns|].
  intros envs [[]|error] Hr.
  - apply learns_try; [done|]. eapply learns_mono; [apply (commit_runs _ _ _ (in_place graph plan))|].
    + intros known' e. apply in_place_more.
    + by apply Hr.
    + intros envs' r Hc state' -> ? ? ? [= <- <- <-]. by apply Hc.
  - passing. destruct a as [failed|]; [|apply IH]. passing. destruct a; cbn [negb]; [|done].
    passing. apply IH.
Qed.

(** (C18) A new graph runs only once everyone it needs has answered: the coordinator makes it active,
    after any number of failed attempts and replacements, only when every other worker has answered
    that it saved this generation of the graph and exactly this plan, and every holder has answered
    that it installed a tensor shard, an optimizer state or a pipeline stage of that id.  The answers
    of installation name no attempt, so an answer to an earlier installation of the same id counts. *)
Theorem graphs_run_once_answered next windows checkpoint_every envs graph plan state :
  came_to (activate_integrated_graph_with_recovery local store fuel next windows checkpoint_every) envs
    (Ok (graph, plan, state)) ->
  runs_on graph state /\ in_place graph plan envs.
Proof.
  intros Hc. exact (learns_came_to _ _ _ Hc [] _ (attempts_learn _ next windows checkpoint_every []) _ _ _ eq_refl).
Qed.

(** (C23) An election is won only by a majority: when a node takes the certificate of an election, it is
    itself a worker of the graph and not its coordinator; the certificate names each member once,
    more than half of the workers and the node among them; and every other member is a worker whose
    vote for the node, for this graph and one and the same newer term, has arrived. *)
Theorem elections_need_a_majority graph state confirmed envs certificate :
  came_to (request_integrated_election local store fuel graph state confirmed) envs (Ok certificate) ->
  elected graph certificate envs.
Proof. intros Hc. exact (learns_came_to _ _ _ Hc [] _ (election_learns graph state confirmed []) _ eq_refl). Qed.
(** ** Checkpoints *)
Lemma send_checkpoint_pending checkpoint providers pending known :
  learns known (send_checkpoint local checkpoint providers pending)
    (fun _ r => forall asked, r = Ok asked ->
       pending ⊆ asked /\ forall provider, provider ∈ providers -> provider <> local -> provider ∈ asked).
Proof.
  revert pending known. induction providers as [|provider providers IH]; intros pending known; cbn [send_checkpoint].
  { intros asked [= <-]. set_solver. }
  case_bool_decide as Hl.
  - eapply learns_mono; [apply IH|]. intros envs r Hr asked ->. destruct (Hr asked eq_refl). set_solver.
  - passing. apply learns_reject; [done|]. intros _. eapply learns_mono; [apply IH|].
    intros envs r Hr asked ->. destruct (Hr asked eq_refl). set_solver.
Qed.

(** The provider has accepted the checkpoint. *)
Definition holds_checkpoint (checkpoint : V4CheckpointRecord) (envs : list V4Env) (provider : NodeId) : Prop :=
  exists ack, heard envs provider (TrainingV4Message_StateAck ack) /\
    ack.(V4StateAck_kind) = V4StateAckKind_Checkpoint /\ ack.(V4StateAck_accepted) = true /\
    ack.(V4StateAck_state_hash) = checkpoint.(V4CheckpointRecord_manifest_hash).

Lemma checkpoint_answer_holds checkpoint envs provider :
  answered (checkpoint_answer local checkpoint) envs provider -> holds_checkpoint checkpoint envs provider.
Proof.
  unfold answered, holds_checkpoint, heard. rewrite !Exists_exists. intros (e & He & inbound & Hev & Ha).
  destruct inbound as [peer message|]; [|done]. destruct message; try done. cbn in Ha.
  destruct (_ && _) eqn:Hb; [|done]. injection Ha as ->.
  rewrite !andb_true_iff, !bool_decide_eq_true in Hb. destruct_and? Hb. eexists.
  split; [apply Exists_exists; by exists e | by split_and!].
Qed.

(** What a checkpoint that is counted says. *)
Record checkpointed (graph : V4ExecutionGraph) (hashes : RoundHashes) (state : V4IntegratedStateRecord)
    (checkpoint : V4CheckpointRecord) (envs : list V4Env) : Prop := mkCheckpointed {
  checkpointed_hash : checkpoint.(V4CheckpointRecord_manifest_hash) = checkpoint_hash checkpoint;
  checkpointed_next : checkpoint.(V4CheckpointRecord_checkpoint_generation)
    = sat_add u64_max state.(V4IntegratedStateRecord_checkpoint_generation) 1;
  checkpointed_shards : let ids := map V4ShardOwnership_shard_id graph.(V4ExecutionGraph_shards) in
    Some <$> checkpoint.(V4CheckpointRecord_shard_hashes)
    = map (fun id => hashes.1 !! id) ids ++ map (fun id => hashes.2 !! id) ids;
  checkpointed_holders : forall shard node, shard ∈ graph.(V4ExecutionGraph_shards) ->
    node ∈ shard.(V4ShardOwnership_owners) ++ shard.(V4ShardOwnership_replicas) -> node <> local ->
    holds_checkpoint checkpoint envs node
}.

Lemma hashes_of_spec missing hashes ids found :
  hashes_of missing hashes ids = Ok found -> Some <$> found = map (fun id => hashes !! id) ids.
Proof.
  revert found. induction ids as [|id ids IH]; intros found; cbn; [by intros [= <-]|].
  destruct (hashes !! id) as [hash|]; cbn; [|done]. destruct (hashes_of _ _ _) as [rest|]; cbn; [|done].
  intros [= <-]. cbn. by rewrite (IH rest eq_refl).
Qed.

Lemma elem_of_providers graph shard node :
  shard ∈ graph.(V4ExecutionGraph_shards) ->
  node ∈ shard.(V4ShardOwnership_owners) ++ shard.(V4ShardOwnership_replicas) -> node ∈ providers_of graph.
Proof.
  intros Hs Hn. destruct (dedup_by_key_covers (fun node => node) (sort_nodes (flat_map (fun shard =>
    shard.(V4ShardOwnership_owners) ++ shard.(V4ShardOwnership_replicas)) graph.(V4ExecutionGraph_shards))) node)
    as (y & Hy & <-); [|done].
  apply elem_of_sort_by_key, list_elem_of_In, in_flat_map. exists shard. by rewrite <- !list_elem_of_In.
Qed.

Lemma checkpoint_of_spec graph plan state shard_hashes parent checkpoint :
  checkpoint_of graph plan state shard_hashes parent = Some checkpoint ->
  checkpoint.(V4CheckpointRecord_manifest_hash) = checkpoint_hash checkpoint /\
  checkpoint.(V4CheckpointRecord_checkpoint_generation)
  = sat_add u64_max state.(V4IntegratedStateRecord_checkpoint_generation) 1 /\
  checkpoint.(V4CheckpointRecord_shard_hashes) = shard_hashes /\
  checkpoint.(V4CheckpointRecord_providers) = providers_of graph.
Proof. unfold checkpoint_of. destruct (head _); [|done]. by intros [= <-]. Qed.

Lemma checkpoint_learns graph plan hashes state known :
  learns known (commit_integrated_checkpoint local store fuel graph plan hashes state)
    (fun envs r => forall checkpoint, r = Ok checkpoint -> checkpointed graph hashes state checkpoint envs).
Proof.
  unfold commit_integrated_checkpoint. cbv zeta.
  apply learns_result; [done|]. intros tensors Ht. apply learns_result; [done|]. intros optimizers Ho.
  passing. destruct (checkpoint_of _ _ _ _ _) as [checkpoint|] eqn:Hc; [|apply learns_forever].
  apply checkpoint_of_spec in Hc as (Hh & Hg & Hs & Hp). do 2 passing.
  apply learns_try; [done|]. eapply learns_mono; [apply send_checkpoint_pending|].
  intros envs r Hr asked ->. destruct (Hr asked eq_refl) as [_ Hasked]. apply learns_tbind.
  eapply learns_mono; [apply (await_some_accounted _ asked), accounted_start|].
  intros envs' missing Hm. apply learns_reject; [done|]. intros He%negb_false_iff%bool_decide_eq_true. subst missing.
  intros checkpoint' [= <-]. split; [done..| |].
  - cbn zeta. by rewrite Hs, fmap_app, (hashes_of_spec _ _ _ _ Ht), (hashes_of_spec _ _ _ _ Ho).
  - intros shard node Hin Hn Hl. apply checkpoint_answer_holds. apply (accounted_none _ _ _ Hm), Hasked; [|done].
    rewrite Hp. by eapply elem_of_providers.
Qed.

End DriverFacts.
