(* ===== verification/V4Graphs.v ===== *)
(** * Frontier training: the next graph

    What a change of membership makes of a graph: the failed worker is gone, every part of the model
    and every stage of the pipeline is on workers that are left, and the graph that an elected
    coordinator sends passes every check of the workers that hold the one before. *)

From Stdlib Require Import String ZArith NArith Lia Sorting.Sorted.
From stdpp Require Import base tactics sets strings numbers list gmap.
From S2P Require Import Prelude OrdMap Types Validation FileSystem Storage Aggregation Compute Float32 TrainingPlan Planner Runtime Trust Security Network NodeConfig Tasks TaskLogic V4Model V4Control V4Integrated V4Data V4Node V4Reconfigure V4Driver V4DriverFacts.
Local Open Scope N_scope.
Local Open Scope rust_scope.

Lemma ok_or_some {A E} (o : option A) (e : E) a : ok_or o e = Ok a -> o = Some a.
Proof. destruct o; [by intros [= ->] | done]. Qed.

(** ** Members *)
Lemma elem_of_dedup_nodes (nodes : list NodeId) node :
  node ∈ dedup_by_key (fun node => node) (sort_nodes nodes) <-> node ∈ nodes.
Proof.
  split.
  - intros Hn. apply (elem_of_sort_by_key NodeId_0). eapply elem_of_sublist; [exact Hn | apply dedup_by_key_sublist].
  - intros Hn. destruct (dedup_by_key_covers (fun node => node) (sort_nodes nodes) node) as (y & Hy & <-); [|done].
    by apply elem_of_sort_by_key.
Qed.

Lemma NoDup_dedup_nodes (nodes : list NodeId) : NoDup (dedup_by_key (fun node => node) (sort_nodes nodes)).
Proof.
  assert (Hs : StronglySorted (fun x y => cmp (NodeId_0 x) (NodeId_0 y) = Lt)
    (dedup_by_key (fun node => node) (sort_nodes nodes))).
  { apply dedup_by_key_strict; [apply _ | apply sort_by_key_sorted |]. intros [x] [y] _ _. cbn. by split; [intros -> | intros [= ->]]. }
  induction Hs as [|x xs Hxs IH Hx]; constructor; [|done]. intros Hin. rewrite Forall_forall in Hx.
  specialize (Hx x Hin). by rewrite (proj2 (cmp_eq _ _) eq_refl) in Hx.
Qed.

Lemma elem_of_next_workers old_graph failed joined node :
  node ∈ next_workers old_graph failed joined <->
  node ∈ old_graph.(V4ExecutionGraph_workers) /\ failed <> Some node \/ joined = Some node.
Proof.
  unfold next_workers. cbv zeta. rewrite elem_of_dedup_nodes.
  assert (Hf : forall node, node ∈ List.filter (fun worker => failed != Some worker) old_graph.(V4ExecutionGraph_workers)
    <-> node ∈ old_graph.(V4ExecutionGraph_workers) /\ failed <> Some node).
  { intros w. by rewrite list_elem_of_In, filter_In, <- list_elem_of_In, negb_true_iff, bool_decide_eq_false. }
  destruct joined as [joined|]; [|rewrite Hf; naive_solver].
  destruct (contains joined _) eqn:Hc.
  - apply contains_true in Hc. rewrite Hf. split; [naive_solver|]. intros [?|[= <-]]; [done|]. by apply Hf.
  - rewrite elem_of_app, Hf, list_elem_of_singleton. naive_solver.
Qed.

(** ** Shards *)

(** A shard is on workers that are left, its owner not among its replicas. *)
Definition placed_on (workers : list NodeId) (shard : V4ShardOwnership) : Prop :=
  exists owner, shard.(V4ShardOwnership_owners) = [owner] /\ owner ∈ workers /\
    forall replica, replica ∈ shard.(V4ShardOwnership_replicas) -> replica ∈ workers /\ replica <> owner.

Lemma find_elem {A} (p : A -> bool) xs x : List.find p xs = Some x -> x ∈ xs /\ p x = true.
Proof. intros [Hi Hp]%find_some. by rewrite <- list_elem_of_In in Hi. Qed.

Lemma move_shard_placed workers failed shard moved :
  move_shard workers failed shard = Some (Ok moved) ->
  placed_on workers moved /\ moved.(V4ShardOwnership_shard_id) = shard.(V4ShardOwnership_shard_id) /\
  moved.(V4ShardOwnership_content_hash) = shard.(V4ShardOwnership_content_hash) /\
  moved.(V4ShardOwnership_model_generation) = shard.(V4ShardOwnership_model_generation).
Proof.
  unfold move_shard. destruct (head _) as [previous|]; [|done]. cbn [mbind option_bind].
  cbv zeta. intros [= Hm]. apply rbind_ok in Hm as (owner & Ho%ok_or_some & Hm). injection Hm as <-. split; [|done]. exists owner. split; [done|]. split.
  - destruct (_ && _) eqn:Hp.
    + injection Ho as <-. by apply andb_true_iff in Hp as [_ Hp%contains_true].
    + destruct (List.find _ (V4ShardOwnership_replicas shard)) as [c|] eqn:Hf.
      * injection Ho as <-. by apply find_elem in Hf as [_ Hc%contains_true].
      * by apply find_elem in Ho as [Hc _].
  - intros replica Hr. cbn in Hr. eapply elem_of_sublist in Hr; [|apply sublist_take].
    eapply elem_of_sublist in Hr; [|apply dedup_by_key_sublist].
    apply list_elem_of_In, filter_In in Hr as [_ Hr].
    rewrite !andb_true_iff, !negb_true_iff, !bool_decide_eq_false, contains_true in Hr. naive_solver.
Qed.

Lemma move_shards_placed workers failed shards moved :
  move_shards workers failed shards = Some (Ok moved) ->
  Forall (placed_on workers) moved /\
  map V4ShardOwnership_shard_id moved = map V4ShardOwnership_shard_id shards.
Proof.
  revert moved. induction shards as [|shard shards IH]; intros moved; cbn; [by intros [= <-]|].
  destruct (move_shard _ _ _) as [[shard'|]|] eqn:Hs; cbn; try done.
  destruct (move_shards _ _ _) as [rest|]; cbn; [|done]. intros [= Hr].
  destruct rest as [rest|]; [|done]. injection Hr as <-. destruct (IH rest eq_refl) as [Hp Hi].
  destruct (move_shard_placed _ _ _ _ Hs) as (? & Hid & _). split; [by constructor|]. cbn. by rewrite Hid, Hi.
Qed.

Section Graphs.
Context `{Blake3} `{PlanPostcard} `{V4Json}.
Context (local : NodeId) (store : LocalStore) (fuel : nat).

Lemma elem_of_cycle_two nodes node : node ∈ cycle_two nodes -> node ∈ nodes.
Proof. destruct nodes as [|a [|b nodes]]; cbn; set_solver. Qed.

Lemma split_part_placed workers source part shard :
  split_part workers source part = Some shard -> placed_on workers shard.
Proof.
  unfold split_part. destruct (workers !! _) as [owner|] eqn:Ho; [|done]. cbn [mbind option_bind].
  destruct (integrated_tensor_layout _ _) as [[[weights rows] cols] row_offset]. intros [= <-].
  exists owner. split_and!; [done | by eapply list_elem_of_lookup_2 |].
  intros replica Hr%elem_of_cycle_two%list_elem_of_In%filter_In. rewrite <- list_elem_of_In in Hr.
  destruct Hr as [Hr Hn]. by breflect.
Qed.

Lemma split_sources_placed workers sources shards :
  split_sources workers sources = Some (Ok shards) -> Forall (placed_on workers) shards.
Proof.
  revert shards. induction sources as [|source sources IH]; intros shards; cbn [split_sources]; [by intros [= <-]|].
  destruct (1 <? _); [done|]. destruct (split_part workers source 0) as [first|] eqn:H1'; [|done].
  destruct (split_part workers source 1) as [second|] eqn:H2'; [|done].
  destruct (split_sources workers sources) as [[rest|]|] eqn:Hs; [|done..]. intros [= <-].
  repeat constructor; [by eapply split_part_placed..|]. by apply IH.
Qed.

(** ** Stages *)
Lemma assign_stages_spec workers failed generation assigned stages assigned_stages :
  assign_stages workers failed generation assigned stages = Ok assigned_stages ->
  NoDup (map V4PipelineStageAssignment_worker assigned_stages) /\
  map V4PipelineStageAssignment_stage_id assigned_stages = map V4PipelineStageAssignment_stage_id stages /\
  forall stage, stage ∈ assigned_stages ->
    stage.(V4PipelineStageAssignment_worker) ∈ workers /\
    stage.(V4PipelineStageAssignment_worker) ∉ assigned /\
    forall replica, replica ∈ stage.(V4PipelineStageAssignment_replicas) ->
      replica ∈ workers /\ replica <> stage.(V4PipelineStageAssignment_worker).
Proof.
  revert assigned assigned_stages. induction stages as [|stage stages IH]; intros assigned assigned_stages; cbn [assign_stages].
  { intros [= <-]. split_and!; [constructor | done | set_solver]. }
  intros Hs. apply rbind_ok in Hs as (worker & Hw%ok_or_some%find_elem & Hs). destruct Hw as [_ Hw].
  rewrite !andb_true_iff, !negb_true_iff, contains_true, contains_false in Hw. destruct Hw as [[Hw _] Hn].
  apply rbind_ok in Hs as (rest & Hr & [= <-]). destruct (IH _ _ Hr) as (Hnd & Hid & Hp). split_and!.
  - cbn. constructor; [|done]. intros (stage' & He & Hin)%list_elem_of_fmap. destruct (Hp stage' Hin) as (_ & Hna & _).
    set_solver.
  - cbn. by rewrite Hid.
  - intros stage' [->|Hin]%elem_of_cons; cbn; [|destruct (Hp stage' Hin) as (? & ? & ?); set_solver].
    split_and!; [done..|]. intros replica Hin. eapply elem_of_sublist in Hin; [|apply sublist_take].
    apply list_elem_of_In, filter_In in Hin as [Hin Hb]. rewrite <- list_elem_of_In in Hin. by breflect.
Qed.

Lemma bind_keeps plan stages bound :
  bind_backend_assignments plan stages = Ok bound ->
  exists requirements assignments, bound = with_backend_assignments plan requirements assignments.
Proof.
  unfold bind_backend_assignments. intros Hb. apply rbind_ok in Hb as (? & _ & Hb).
  apply rbind_ok in Hb as (? & _ & Hb). injection Hb as <-. eauto.
Qed.

(** ** The next graph *)

(** What becomes of the graph, the plan and the state of a job. *)
Record succeeds (old_graph : V4ExecutionGraph) (old_plan : V4TrainingPlan) (old_state : V4IntegratedStateRecord)
    (failed joined : option NodeId) (certificate : list NodeId)
    (graph : V4ExecutionGraph) (plan : V4TrainingPlan) (state : V4IntegratedStateRecord) : Prop := mkSucceeds {
  next_members : graph.(V4ExecutionGraph_workers) = next_workers old_graph failed joined /\
    plan.(V4TrainingPlan_workers) = graph.(V4ExecutionGraph_workers);
  next_shards : Forall (placed_on graph.(V4ExecutionGraph_workers)) graph.(V4ExecutionGraph_shards);
  next_stage_workers : NoDup (map V4PipelineStageAssignment_worker graph.(V4ExecutionGraph_pipeline_stages)) /\
    map V4PipelineStageAssignment_stage_id graph.(V4ExecutionGraph_pipeline_stages)
    = map V4PipelineStageAssignment_stage_id old_graph.(V4ExecutionGraph_pipeline_stages) /\
    forall stage, stage ∈ graph.(V4ExecutionGraph_pipeline_stages) ->
      stage.(V4PipelineStageAssignment_worker) ∈ graph.(V4ExecutionGraph_workers);
  next_coordinator : graph.(V4ExecutionGraph_coordinator) = local /\ graph.(V4ExecutionGraph_proposer) = local /\
    graph.(V4ExecutionGraph_election_certificate) = certificate;
  next_generation : graph.(V4ExecutionGraph_job_id) = old_graph.(V4ExecutionGraph_job_id) /\
    graph.(V4ExecutionGraph_graph_generation) = sat_add u64_max old_graph.(V4ExecutionGraph_graph_generation) 1 /\
    graph.(V4ExecutionGraph_parent_graph_generation) = Some old_graph.(V4ExecutionGraph_graph_generation) /\
    graph.(V4ExecutionGraph_coordination_term) = sat_add u64_max old_plan.(V4TrainingPlan_coordination_term) 1 /\
    graph.(V4ExecutionGraph_reply_to) = old_graph.(V4ExecutionGraph_reply_to) /\
    graph.(V4ExecutionGraph_strategy) = old_graph.(V4ExecutionGraph_strategy);
  next_plan_of : plan.(V4TrainingPlan_job_id) = old_plan.(V4TrainingPlan_job_id) /\
    plan.(V4TrainingPlan_strategy) = old_plan.(V4TrainingPlan_strategy) /\
    plan.(V4TrainingPlan_parent_plan_hash) = Some old_plan.(V4TrainingPlan_plan_hash) /\
    graph.(V4ExecutionGraph_plan_hash) = plan.(V4TrainingPlan_plan_hash);
  next_valid : V4TrainingPlan_validate plan = Ok tt /\ V4ExecutionGraph_validate graph = Ok tt /\
    graph.(V4ExecutionGraph_graph_hash) = execution_graph_hash graph;
  next_progress : state.(V4IntegratedStateRecord_phase) = V4IntegratedPhase_Reconfiguring /\
    state.(V4IntegratedStateRecord_window) = old_state.(V4IntegratedStateRecord_window) /\
    state.(V4IntegratedStateRecord_current_loss_micros) = old_state.(V4IntegratedStateRecord_current_loss_micros) /\
    old_state.(V4IntegratedStateRecord_checkpoint_generation) <= state.(V4IntegratedStateRecord_checkpoint_generation)
}.

Lemma reconfigured_shards old_graph old_plan old_state failed joined workers shards :
  (if splits_reference old_graph old_state workers failed joined
   then split_integrated_reference_shards old_plan workers
   else move_shards workers failed old_plan.(V4TrainingPlan_shards)) = Some (Ok shards) ->
  Forall (placed_on workers) shards.
Proof.
  destruct (splits_reference _ _ _ _ _); [|by intros [? _]%move_shards_placed].
  unfold split_integrated_reference_shards. destruct (_ || _); [done|]. apply split_sources_placed.
Qed.

(** The fields of the next plan, once its backends are bound and its hash is set. *)
Lemma next_plan_fields old_graph old_plan workers failed capabilities groups shards requirements assignments hash :
  let plan := with_plan_hash (with_backend_assignments
    (next_plan local old_graph old_plan workers failed capabilities groups shards) requirements assignments) hash in
  plan.(V4TrainingPlan_workers) = workers /\ plan.(V4TrainingPlan_shards) = shards /\
  plan.(V4TrainingPlan_job_id) = old_plan.(V4TrainingPlan_job_id) /\
  plan.(V4TrainingPlan_strategy) = old_plan.(V4TrainingPlan_strategy) /\
  plan.(V4TrainingPlan_parent_plan_hash) = Some old_plan.(V4TrainingPlan_plan_hash) /\
  plan.(V4TrainingPlan_coordination_term) = sat_add u64_max old_plan.(V4TrainingPlan_coordination_term) 1.
Proof. done. Qed.

(** The graph and the state over a plan with these fields. *)
Lemma next_graph_succeeds old_graph old_plan old_state failed joined certificate stages plan state :
  let workers := next_workers old_graph failed joined in
  let graph := next_graph local old_graph old_state plan failed joined stages certificate in
  plan.(V4TrainingPlan_workers) = workers /\ Forall (placed_on workers) plan.(V4TrainingPlan_shards) /\
  plan.(V4TrainingPlan_job_id) = old_plan.(V4TrainingPlan_job_id) /\
  plan.(V4TrainingPlan_strategy) = old_plan.(V4TrainingPlan_strategy) /\
  plan.(V4TrainingPlan_parent_plan_hash) = Some old_plan.(V4TrainingPlan_plan_hash) /\
  plan.(V4TrainingPlan_coordination_term) = sat_add u64_max old_plan.(V4TrainingPlan_coordination_term) 1 ->
  assign_stages workers failed (sat_add u64_max old_graph.(V4ExecutionGraph_graph_generation) 1) []
    old_graph.(V4ExecutionGraph_pipeline_stages) = Ok stages ->
  V4TrainingPlan_validate plan = Ok tt -> V4ExecutionGraph_validate graph = Ok tt ->
  integrated_state graph V4IntegratedPhase_Reconfiguring old_state.(V4IntegratedStateRecord_window)
    old_state.(V4IntegratedStateRecord_target_windows) old_state.(V4IntegratedStateRecord_initial_loss_micros)
    old_state.(V4IntegratedStateRecord_current_loss_micros)
    (sat_add u32_max old_state.(V4IntegratedStateRecord_recovery_count) 1) = Some state ->
  succeeds old_graph old_plan old_state failed joined certificate graph plan state.
Proof.
  intros workers graph (Hw & Hsh & Hj & Hst & Hpp & Ht) Has Hv Hg Hs.
  destruct (assign_stages_spec _ _ _ _ _ _ Has) as (Hnd & Hid & Hp).
  unfold integrated_state in Hs. destruct (head _) in Hs; [|done]. injection Hs as <-.
  split; [split; [exact Hw | done] | unfold graph; cbn; by rewrite Hw | | done | | | done | ].
  - split_and!; [done..|]. intros stage Hin. cbn. rewrite Hw. by apply Hp.
  - split_and!; [done..|exact Ht|done|done].
  - by split_and!.
  - split_and!; [done..|]. apply N.le_max_r.
Qed.

Lemma reconfigured_succeeds old_graph old_plan old_state failed joined certificate capabilities graph plan state :
  reconfigured local old_graph old_plan old_state failed joined certificate
    (next_workers old_graph failed joined) capabilities = Some (Ok (graph, plan, state)) ->
  succeeds old_graph old_plan old_state failed joined certificate graph plan state.
Proof.
  set (workers := next_workers old_graph failed joined). unfold reconfigured.
  destruct (integrated_groups _ _) as [groups|]; [|done]. cbn [mbind option_bind].
  destruct (if splits_reference _ _ _ _ _ then _ else _) as [[shards|]|] eqn:Hsh; [|done..].
  apply reconfigured_shards in Hsh. cbn [mbind option_bind]. cbv zeta.
  match goal with |- match ?next with _ => _ end = _ -> _ => destruct next as [[next_g next_p]|] eqn:Hn end; [|done].
  apply rbind_ok in Hn as (stages & Hst & Hn). apply rbind_ok in Hn as (bound & Hb & Hn).
  apply bind_keeps in Hb as (requirements & assignments & ->).
  destruct (next_plan_fields old_graph old_plan workers failed capabilities groups shards requirements assignments
    (hash_plan (with_backend_assignments (next_plan local old_graph old_plan workers failed capabilities groups shards)
      requirements assignments))) as (Hw & Hs & Hfields).
  revert Hn Hw Hs Hfields. generalize (with_plan_hash (with_backend_assignments
    (next_plan local old_graph old_plan workers failed capabilities groups shards) requirements assignments)
    (hash_plan (with_backend_assignments (next_plan local old_graph old_plan workers failed capabilities groups shards)
      requirements assignments))). intros bound Hn Hw Hs Hfields.
  apply rbind_ok in Hn as ([] & Hv & Hn). apply rbind_ok in Hn as ([] & Hg & Hn).
  rewrite map_err_ok in Hv, Hg. injection Hn as <- <-.
  destruct (integrated_state _ _ _ _ _ _ _) as [next_s|] eqn:Hst'; [|done]. intros [= <- <- <-].
  eapply next_graph_succeeds; [|done..]. subst shards. exact (conj Hw (conj Hsh Hfields)).
Qed.

Lemma reconfigure_learns old_graph old_plan old_state failed joined certificate known :
  learns known (reconfigure_integrated_graph_membership local store old_graph old_plan old_state failed joined certificate)
    (fun _ r => forall graph plan state, r = Ok (graph, plan, state) ->
       succeeds old_graph old_plan old_state failed joined (default [] certificate) graph plan state /\
       2 <= len graph.(V4ExecutionGraph_workers) /\
       (is_Some failed -> len old_graph.(V4ExecutionGraph_workers) < len graph.(V4ExecutionGraph_workers) * 2)).
Proof.
  unfold reconfigure_integrated_graph_membership. cbv zeta.
  apply learns_reject; [done|]. intros Htwo. apply learns_reject; [done|]. intros Hquorum.
  passing. destruct (reconfigured _ _ _ _ _ _ _ _ _) as [[[[graph plan] state]|]|] eqn:Hr; [|done|apply learns_forever].
  apply reconfigured_succeeds in Hr as Hs. do 7 passing.
  intros ? ? ? [= <- <- <-]. destruct (next_members _ _ _ _ _ _ _ _ _ Hs) as [Hw _]. rewrite Hw. breflect.
  split_and!; [done | done |]. intros Hf. rewrite andb_false_iff, bool_decide_eq_false, N.leb_gt in Hquorum.
  by destruct Hquorum.
Qed.

(** (C20) A change of membership keeps a job whole: the graph that a coordinator computes when a worker has
    failed or one joins is of the next generation, names the one before and the coordinator itself,
    and passes its own validation; a failed worker is in no part of it, more than half of the old
    workers are left, no worker is named twice; every shard has one owner and every replica is another
    worker, all of them left; the stages of the pipeline are the same and on different workers; and
    the windows done, the loss and the newest checkpoint of the job are kept. *)
Theorem next_graphs_keep_jobs_whole old_graph old_plan old_state failed joined certificate envs graph plan state :
  came_to (reconfigure_integrated_graph_membership local store old_graph old_plan old_state failed joined certificate)
    envs (Ok (graph, plan, state)) ->
  succeeds old_graph old_plan old_state failed joined (default [] certificate) graph plan state /\
  NoDup graph.(V4ExecutionGraph_workers) /\
  (forall node, failed = Some node -> joined = None -> node ∉ graph.(V4ExecutionGraph_workers) /\
     len old_graph.(V4ExecutionGraph_workers) < len graph.(V4ExecutionGraph_workers) * 2).
Proof.
  intros Hc. destruct (learns_came_to _ _ _ Hc [] _ (reconfigure_learns _ _ _ _ _ _ []) _ _ _ eq_refl) as (Hs & _ & Hq).
  destruct (next_members _ _ _ _ _ _ _ _ _ Hs) as [Hw _]. split_and!; [done | rewrite Hw; apply NoDup_dedup_nodes |].
  intros node -> ->. split; [|by apply Hq]. rewrite Hw, elem_of_next_workers. naive_solver.
Qed.

(** ** The graph of an elected coordinator *)
Lemma elected_certificate old_graph old_plan old_state failed certificate envs graph plan state :
  elected local old_graph certificate envs ->
  old_plan.(V4TrainingPlan_coordination_term) = old_graph.(V4ExecutionGraph_coordination_term) ->
  old_graph.(V4ExecutionGraph_coordination_term) < u64_max ->
  succeeds old_graph old_plan old_state failed None certificate graph plan state ->
  valid_integrated_election_certificate old_graph graph = true.
Proof.
  intros [Ho Hm Hl Hw (term & _ & Hv)] Ht Hu Hs.
  destruct (next_coordinator _ _ _ _ _ _ _ _ _ Hs) as (Hc & _ & Hce).
  destruct (next_generation _ _ _ _ _ _ _ _ _ Hs) as (_ & Hg & Hp & Hte & _).
  unfold valid_integrated_election_certificate. rewrite Hc, Hce, Hg, Hp, Hte, Ht, N.eqb_refl.
  rewrite !andb_true_iff, bool_decide_eq_true, !N.ltb_lt, contains_true, negb_true_iff, has_duplicates_false, forallb_forall.
  split_and!; try done; [unfold sat_add; lia|].
  intros voter Hin%list_elem_of_In. apply contains_true. destruct (Hv voter Hin) as [->|[? _]]; [apply Hw | done].
Qed.

Lemma start_valid old_graph old_plan old_state failed certificate graph plan state windows checkpoint_every :
  V4IntegratedStart_validate (start_of old_graph old_plan windows checkpoint_every) = Ok tt ->
  succeeds old_graph old_plan old_state failed None certificate graph plan state ->
  V4IntegratedStart_validate (start_of graph plan windows checkpoint_every) = Ok tt.
Proof.
  intros Hv Hs. destruct (next_generation _ _ _ _ _ _ _ _ _ Hs) as (Hj & Hg & _ & _ & Hr & Hst).
  destruct (next_plan_of _ _ _ _ _ _ _ _ _ Hs) as (Hpj & Hps & _ & Hph).
  destruct (next_valid _ _ _ _ _ _ _ _ _ Hs) as (Hpv & Hgv & _).
  unfold V4IntegratedStart_validate, v4_integrated_start, start_of in *. cbn in *. rewrite Hj, Hr.
  apply rbind_ok in Hv as ([] & H1' & Hv). apply rbind_ok in Hv as ([] & H2' & Hv).
  apply rbind_ok in Hv as ([] & H3' & Hv). rewrite H1'. cbn. rewrite H2'. cbn. rewrite H3'. cbn.
  apply fail_if_ok in Hv. breflect. apply fail_if_ok.
  rewrite Hst, Hpj, Hps, Hph, Hpv, Hg. unfold V4ExecutionGraph_validate in Hgv. rewrite Hgv. cbn.
  rewrite !orb_false_iff, !negb_false_iff, !bool_decide_eq_true, N.eqb_neq. split_and!; try done.
  unfold sat_add, u64_max. lia.
Qed.

(** What a start has to pass at a worker that holds the old graph. *)
Definition passes_checks (worker : NodeId) (old_graph : V4ExecutionGraph) (start : V4IntegratedStart) : Prop :=
  V4IntegratedStart_validate start = Ok tt /\ is_propagated worker local start = true /\
  start.(V4IntegratedStart_graph).(V4ExecutionGraph_proposer)
  = start.(V4IntegratedStart_graph).(V4ExecutionGraph_coordinator) /\
  graph_conflict old_graph start.(V4IntegratedStart_graph) = None.

Lemma elected_passes old_graph old_plan old_state windows checkpoint_every certificate envs graph plan state worker :
  V4IntegratedStart_validate (start_of old_graph old_plan windows checkpoint_every) = Ok tt ->
  old_plan.(V4TrainingPlan_coordination_term) = old_graph.(V4ExecutionGraph_coordination_term) ->
  old_graph.(V4ExecutionGraph_coordination_term) < u64_max ->
  old_graph.(V4ExecutionGraph_graph_generation) < u64_max ->
  elected local old_graph certificate envs ->
  succeeds old_graph old_plan old_state (Some old_graph.(V4ExecutionGraph_coordinator)) None certificate graph plan state ->
  worker ∈ graph.(V4ExecutionGraph_workers) ->
  passes_checks worker old_graph (start_of graph plan windows checkpoint_every).
Proof.
  intros Hv Ht Hu Hgen Hel Hs Hw.
  destruct (next_coordinator _ _ _ _ _ _ _ _ _ Hs) as (Hc & Hp & _).
  destruct (next_generation _ _ _ _ _ _ _ _ _ Hs) as (_ & Hg & _).
  split_and!; [by eapply start_valid| |cbn; congruence|].
  - unfold is_propagated. cbn. apply andb_true_iff. by rewrite contains_true, bool_decide_eq_true.
  - cbn. unfold graph_conflict. rewrite (elected_certificate _ _ _ _ _ _ _ _ _ Hel Ht Hu Hs), andb_false_r, Hg.
    assert (Hlt : (sat_add u64_max old_graph.(V4ExecutionGraph_graph_generation) 1
      <? old_graph.(V4ExecutionGraph_graph_generation)) = false) by (apply N.ltb_ge; unfold sat_add; lia).
    rewrite Hlt. assert (Hne : (old_graph.(V4ExecutionGraph_graph_generation)
      =? sat_add u64_max old_graph.(V4ExecutionGraph_graph_generation) 1) = false)
      by (apply N.eqb_neq; unfold sat_add; lia). by rewrite Hne.
Qed.

(** The handler goes past its checks. *)
Lemma start_followed security_to_allocvec worker store' old_graph start seen r :
  passes_checks worker old_graph start ->
  saw (receive_integrated_start security_to_allocvec worker store' local start) seen r ->
  exists admission checked rest, seen = admission ++ rest /\
    saw (claimed security_to_allocvec store' local "v4.execution_graph"
           start.(V4IntegratedStart_graph).(V4ExecutionGraph_job_id)
           (Some start.(V4IntegratedStart_graph).(V4ExecutionGraph_branch))
           start.(V4IntegratedStart_graph).(V4ExecutionGraph_graph_generation)
           (N.max start.(V4IntegratedStart_graph).(V4ExecutionGraph_coordination_term) 1)
           start.(V4IntegratedStart_graph).(V4ExecutionGraph_graph_hash)) admission checked /\
    match checked with
    | Err error => rest = [] /\ r = Err error
    | Ok _ => exists e s rest', rest = (e, s) :: rest' /\
        (s.(V4State_integrated_graphs) !! start.(V4IntegratedStart_graph).(V4ExecutionGraph_job_id) = Some old_graph ->
         saw (follow_integrated_start worker store' local start) rest' r)
    end.
Proof.
  intros (Hv & Hp & Hc & Hg) Hsaw. unfold receive_integrated_start in Hsaw. rewrite Hv, Hp, Hc in Hsaw.
  apply (saw_tbind (claimed _ _ _ _ _ _ _ _ _)) in Hsaw as (admission & checked & rest & -> & Hclaim & Hsaw).
  exists admission, checked, rest. split_and!; [done..|]. destruct checked as [[]|error].
  - rewrite andb_false_r, bool_decide_eq_true_2 in Hsaw by done. cbn [negb orb reject_if fail_if] in Hsaw.
    apply saw_reading in Hsaw as (e & s & rest' & -> & Hsaw). exists e, s, rest'. split; [done|].
    intros Hs. rewrite Hs in Hsaw. cbn [mbind option_bind] in Hsaw. by rewrite Hg in Hsaw.
  - destruct Hsaw as [-> <-]. done.
Qed.

(** (C19) The winner of an election is followed: when a node has won the election of a job and computed the
    next graph from the one it held, without the coordinator that is gone, the start message that it
    sends passes the checks of each worker of the new graph that still holds the old one: it is valid,
    it comes from the coordinator it names to a worker it names, and the certificate is the majority
    of the old graph that a change of coordinator needs.  So [receive_integrated_start] at that worker
    either is stopped by the worker's own record of signed claims, which is checked apart and may
    refuse the claim, or, if the worker holds the old graph at that moment, goes on to adopt the new
    one, however its sections interleave with others.  The old graph and plan have to belong together,
    with generations and terms that can still grow. *)
Theorem elected_graphs_are_accepted security_to_allocvec store' old_graph old_plan old_state confirmed windows
    checkpoint_every certificate envs graph plan state envs' worker :
  V4IntegratedStart_validate (start_of old_graph old_plan windows checkpoint_every) = Ok tt ->
  old_plan.(V4TrainingPlan_coordination_term) = old_graph.(V4ExecutionGraph_coordination_term) ->
  old_graph.(V4ExecutionGraph_coordination_term) < u64_max ->
  old_graph.(V4ExecutionGraph_graph_generation) < u64_max ->
  came_to (request_integrated_election local store fuel old_graph old_state confirmed) envs (Ok certificate) ->
  came_to (reconfigure_integrated_graph_with_certificate local store old_graph old_plan old_state
             old_graph.(V4ExecutionGraph_coordinator) certificate) envs' (Ok (graph, plan, state)) ->
  worker ∈ graph.(V4ExecutionGraph_workers) ->
  let start := start_of graph plan windows checkpoint_every in
  passes_checks worker old_graph start /\
  forall seen r, saw (receive_integrated_start security_to_allocvec worker store' local start) seen r ->
  exists admission checked rest, seen = admission ++ rest /\
    saw (claimed security_to_allocvec store' local "v4.execution_graph" graph.(V4ExecutionGraph_job_id)
           (Some graph.(V4ExecutionGraph_branch)) graph.(V4ExecutionGraph_graph_generation)
           (N.max graph.(V4ExecutionGraph_coordination_term) 1) graph.(V4ExecutionGraph_graph_hash))
      admission checked /\
    match checked with
    | Err error => rest = [] /\ r = Err error
    | Ok _ => exists e s rest', rest = (e, s) :: rest' /\
        (s.(V4State_integrated_graphs) !! graph.(V4ExecutionGraph_job_id) = Some old_graph ->
         saw (follow_integrated_start worker store' local start) rest' r)
    end.
Proof.
  intros Hv Ht Hu Hgen He Hr Hw start.
  assert (Hel := learns_came_to _ _ _ He [] _ (election_learns local store fuel _ _ _ []) _ eq_refl).
  destruct (learns_came_to _ _ _ Hr [] _ (reconfigure_learns _ _ _ _ _ _ []) _ _ _ eq_refl) as (Hs & _ & _).
  assert (Hpass : passes_checks worker old_graph start) by (by eapply elected_passes).
  split; [exact Hpass|]. intros seen r. by apply (start_followed _ _ _ old_graph start).
Qed.
End Graphs.
