(* ===== verification/V4Operator.v ===== *)
(** * Frontier training: what an operator's commands rely on

    A plan is replaced only when everyone it concerns has accepted the proposal and every shard that
    changes hands has arrived; an integrated job is started only on workers that could be reached,
    with a start message that its coordinator accepts. *)

From Stdlib Require Import String ZArith NArith Lia.
From stdpp Require Import base tactics sets strings numbers list gmap.
From S2P Require Import Prelude OrdMap Types Validation ValidationFacts FileSystem Storage Aggregation Compute Float32 TrainingPlan Planner PlannerFacts Runtime Trust Security Network NodeConfig Tasks TaskLogic V4Model V4Control V4Integrated V4Data V4Node V4Reconfigure V4Driver V4Plans V4Commands V4DriverFacts V4Graphs.
Local Open Scope N_scope.
Local Open Scope rust_scope.

Create HintDb plans discriminated.

(** The message for which a wait with a time limit ends, and what was known before. *)
Lemma learns_next {A} (F : list V4Env -> Prop) fuel known
    (k : option (result (option (NodeId * TrainingV4Message)) NodeError) -> vtask A) Q :
  (forall known e, F known -> F (known ++ [e])) -> F known ->
  (forall envs peer message, F envs -> heard envs peer message ->
     learns envs (k (Some (Ok (Some (peer, message))))) Q) ->
  (forall envs r, F envs -> (forall received, r <> Some (Ok (Some received))) -> learns envs (k r) Q) ->
  learns known (tbind (timeout ve_elapsed (receive_message fuel)) k) Q.
Proof.
  intros HF Hk Hm Hn. apply learns_tbind.
  eapply (learns_mono _ _ (fun envs r => (forall a, r = Some a -> forall peer message,
    a = Ok (Some (peer, message)) -> heard envs peer message) /\ F envs)).
  { apply learns_and; [apply learns_timeout, receive_message_heard | by apply learns_more]. }
  intros envs r [Hr Hf]. destruct r as [[[[peer message]|]|]|]; [|by apply Hn..].
  apply Hm; [done|]. by eapply Hr.
Qed.

(** A task that leaves the active plans alone. *)
Definition keeps_plans {A} (t : vtask A) : Prop :=
  obeys (fun _ => True) (fun s _ s' => s'.(V4State_plans) = s.(V4State_plans)) t (fun _ => True).

Section Activation.
Context `{Blake3} `{PlanPostcard} `{V4Json}.
Context (local : NodeId) (store : LocalStore) (fuel : nat) (job_id : JobId).

(** ** What was heard *)

(** The peer has accepted the proposal. *)
Definition accepted_proposal (proposal : V4TrainingPlan) (envs : list V4Env) (peer : NodeId) : Prop :=
  exists ack, heard envs peer (TrainingV4Message_PlanProposalAck ack) /\
    ack.(V4PlanProposalAck_proposal_hash) = proposal.(V4TrainingPlan_plan_hash) /\
    ack.(V4PlanProposalAck_plan_generation) = proposal.(V4TrainingPlan_plan_generation) /\
    ack.(V4PlanProposalAck_accepted) = true.

Lemma accepted_proposal_more proposal envs e peer :
  accepted_proposal proposal envs peer -> accepted_proposal proposal (envs ++ [e]) peer.
Proof. intros (ack & Hh & ?). exists ack. by split; [apply heard_more|]. Qed.

Definition owner_in (plan : V4TrainingPlan) (shard_id : N) : option NodeId :=
  find_shard shard_id plan.(V4TrainingPlan_shards) ≫= fun shard => head shard.(V4ShardOwnership_owners).

(** The bytes of a shard that changes hands are with its new owner: it has said so when the node
    itself sent them, and otherwise the old owner has, in answer to a request of the node. *)
Definition arrived (current : V4TrainingPlan) (envs : list V4Env) (shard : V4ShardOwnership) : Prop :=
  forall old_owner new_owner,
    owner_in current shard.(V4ShardOwnership_shard_id) = Some old_owner ->
    head shard.(V4ShardOwnership_owners) = Some new_owner -> old_owner <> new_owner ->
    (old_owner = local /\ exists message, heard envs new_owner message /\
       is_migration_ack new_owner V4ShardMigrationPhase_Commit shard.(V4ShardOwnership_content_hash)
         shard.(V4ShardOwnership_ownership_generation) (new_owner, message) = true) \/
    (exists result, heard envs old_owner (TrainingV4Message_ShardMigrationResult result) /\
       result.(V4ShardMigrationResult_accepted) = true /\
       result.(V4ShardMigrationResult_request_id) ∈ map ve_random envs).

Lemma arrived_more current envs e shard :
  arrived current envs shard -> arrived current (envs ++ [e]) shard.
Proof.
  intros Ha old_owner new_owner Ho Hn Hd.
  destruct (Ha old_owner new_owner Ho Hn Hd) as [(-> & message & Hh & Hm)|(result & Hh & Hr & Hi)].
  - left. split; [done|]. exists message. by split; [apply heard_more|].
  - right. exists result. split_and!; [by apply heard_more | done |]. rewrite map_app, elem_of_app. by left.
Qed.

(** ** Acceptance *)
Lemma await_proposal_learns fuel' participant proposal known :
  learns known (await_proposal_ack fuel job_id fuel' participant proposal)
    (fun envs r => r = Ok true -> accepted_proposal proposal envs participant).
Proof.
  revert known. induction fuel' as [|fuel' IH]; intros known; [apply learns_forever|].
  cbn [await_proposal_ack]. apply (learns_next nothing); [done | done | |].
  - intros envs peer message _ Hh. destruct message; try apply IH.
    destruct (is_proposal_ack _ _ _ _) eqn:Hb; [|apply IH].
    destruct (V4PlanProposalAck_accepted _) eqn:Ha; [|by passing]. cbn. intros _. unfold is_proposal_ack in Hb.
    rewrite !andb_true_iff, N.eqb_eq, !bool_decide_eq_true in Hb. destruct Hb as [[-> Hhash] Hgen].
    by eexists.
  - intros envs r _ Hr. destruct r as [[[received|]|]|]; [by destruct (Hr received)|done..].
Qed.

Lemma proposal_attempts_learn attempts first participant proposal accepted known :
  (accepted = true -> accepted_proposal proposal known participant) ->
  learns known (proposal_attempts local fuel job_id attempts first participant proposal accepted)
    (fun envs r => r = Ok true -> accepted_proposal proposal envs participant).
Proof.
  revert first accepted known. induction attempts as [|attempts IH]; intros first accepted known Hk;
    cbn [proposal_attempts]; [by intros [= ->]; apply Hk|].
  set (F := fun envs => accepted = true -> accepted_proposal proposal envs participant).
  assert (HF : forall envs e, F envs -> F (envs ++ [e])).
  { intros envs e Hf Ha. by apply accepted_proposal_more, Hf. }
  apply (learns_skip F); [done..|]. intros known1 ? Hf1. apply (learns_skip F); [done..|]. intros known2 sent Hf2.
  destruct (sent : bool); [|by apply IH].
  apply learns_try; [done|]. eapply learns_mono; [apply learns_and; [apply await_proposal_learns | apply (learns_more _ F); done]|].
  intros envs r [Hr Hf] answered ->. apply IH. intros [Ha| ->]%orb_true_iff; [by apply Hf | by apply Hr].
Qed.

Lemma offer_learns participants proposal acknowledged known :
  (forall peer, peer ∈ acknowledged -> accepted_proposal proposal known peer) ->
  learns known (offer_proposal local fuel job_id participants proposal acknowledged)
    (fun envs r => forall all, r = Ok all ->
       forall peer, peer ∈ acknowledged \/ peer ∈ participants -> accepted_proposal proposal envs peer).
Proof.
  revert acknowledged known. induction participants as [|participant participants IH];
    intros acknowledged known Hk; cbn [offer_proposal].
  - intros all _ peer [Hp|Hp]; [by apply Hk | set_solver].
  - set (F := fun envs => forall peer, peer ∈ acknowledged -> accepted_proposal proposal envs peer).
    assert (HF : forall envs e, F envs -> F (envs ++ [e])).
    { intros envs e Hf peer Hp. by apply accepted_proposal_more, Hf. }
    apply learns_try; [done|].
    eapply learns_mono; [apply learns_and; [by apply proposal_attempts_learn | by apply (learns_more _ F)]|].
    intros envs r [Hr Hf] accepted ->. destruct accepted; [|by do 2 passing].
    eapply learns_mono; [apply IH|].
    + intros peer [->%elem_of_singleton|Hp]%elem_of_union; [by apply Hr | by apply Hf].
    + intros envs' r' Hall all Hr' peer Hp. eapply Hall; [done|]. set_solver.
Qed.

(** ** Transfers *)
Lemma await_message_learns fuel' wanted known :
  learns known (await_message fuel fuel' wanted)
    (fun envs r => r = Ok true -> exists received, heard envs received.1 received.2 /\ wanted received = true).
Proof.
  revert known. induction fuel' as [|fuel' IH]; intros known; [apply learns_forever|].
  cbn [await_message]. apply learns_try; [done|]. eapply learns_mono; [apply receive_message_heard|].
  intros envs r Hr [[peer message]|] ->; [|done]. destruct (wanted _) eqn:Hw; [|apply IH].
  intros _. exists (peer, message). split; [by apply Hr | done].
Qed.

Lemma transfer_learns shard target plan_generation ownership_generation known :
  learns known (transfer_shard_without_plan_commit local fuel shard target plan_generation ownership_generation)
    (fun envs r => r = Ok tt -> exists message, heard envs target message /\
       is_migration_ack target V4ShardMigrationPhase_Commit shard.(V4LocalDataShard_hash)
         ownership_generation (target, message) = true).
Proof.
  unfold transfer_shard_without_plan_commit. passing. apply learns_tbind.
  eapply (learns_mono _ _ (fun envs r => r = Ok tt -> exists message, heard envs target message /\
       is_migration_ack target V4ShardMigrationPhase_Commit shard.(V4LocalDataShard_hash)
         ownership_generation (target, message) = true)).
  - unfold transfer_shard. cbv zeta. do 2 passing. apply learns_reject; [done|]. intros _. passing.
    apply learns_try; [done|]. eapply learns_mono; [apply await_message_learns|].
    intros envs r Hr [|] ->; [|by passing]. intros _. destruct (Hr eq_refl) as ([peer message] & Hh & Hw).
    assert (peer = target) as ->.
    { unfold is_migration_ack in Hw. cbn in Hw. apply andb_true_iff in Hw as [Hp _]. by apply bool_decide_eq_true in Hp. }
    by exists message.
  - intros envs r Hr. apply (learns_skip (fun envs => r = Ok tt -> exists message, heard envs target message /\
       is_migration_ack target V4ShardMigrationPhase_Commit shard.(V4LocalDataShard_hash)
         ownership_generation (target, message) = true)); [|done|done].
    intros envs' e Hf Hok. destruct (Hf Hok) as (message & Hh & Hm). exists message. by split; [apply heard_more|].
Qed.

Lemma migration_result_learns fuel' old_owner request_id shard_id known :
  learns known (await_migration_result job_id fuel' old_owner request_id shard_id)
    (fun envs r => r = Ok true -> exists result, heard envs old_owner (TrainingV4Message_ShardMigrationResult result) /\
       result.(V4ShardMigrationResult_accepted) = true /\ result.(V4ShardMigrationResult_request_id) = request_id).
Proof.
  revert known. induction fuel' as [|fuel' IH]; intros known; [apply learns_forever|].
  cbn [await_migration_result]. apply learns_receive; [done| |done]. intros e [peer message|peer] He; [|done].
  destruct message; try apply IH. destruct (_ || _) eqn:Hb; [apply IH|].
  rewrite orb_false_iff, !negb_false_iff, !bool_decide_eq_true in Hb. destruct Hb as [-> Hid].
  destruct (V4ShardMigrationResult_accepted _) eqn:Ha; cbn [negb]; [|by passing].
  intros _. eexists. split; [by apply heard_now|]. done.
Qed.

Lemma move_learns current proposal shard known :
  learns known (move_proposed_shard local fuel job_id current proposal shard)
    (fun envs r => is_ok r = true -> arrived current envs shard).
Proof.
  unfold move_proposed_shard. apply learns_expect; [done|]. intros old_owner Ho.
  apply learns_expect; [done|]. intros new_owner Hn. case_bool_decide as He.
  { intros _ old' new'. unfold owner_in. rewrite Ho, Hn. by intros [= <-] [= <-]. }
  apply learns_tbind. intros e s request_id s' out [= <- _ _]. cbn [learns].
  assert (Hresult : forall envs, ((old_owner = local /\ exists message, heard envs new_owner message /\
      is_migration_ack new_owner V4ShardMigrationPhase_Commit shard.(V4ShardOwnership_content_hash)
        shard.(V4ShardOwnership_ownership_generation) (new_owner, message) = true) \/
    (exists result, heard envs old_owner (TrainingV4Message_ShardMigrationResult result) /\
       result.(V4ShardMigrationResult_accepted) = true /\
       result.(V4ShardMigrationResult_request_id) ∈ map ve_random envs)) -> arrived current envs shard).
  { intros envs Ha old' new'. unfold owner_in. rewrite Ho, Hn. by intros [= <-] [= <-]. }
  case_bool_decide as Hl.
  - unfold move_local_shard. apply learns_try; [done|]. passing. apply learns_expect; [done|]. intros local_shard _.
    destruct (_ || _) eqn:Hb; [by passing|]. rewrite !orb_false_iff, !negb_false_iff, bool_decide_eq_true in Hb.
    destruct Hb as [_ Hhash]. eapply learns_mono; [apply transfer_learns|]. intros envs r Hr [] -> _.
    apply Hresult. left. split; [done|]. rewrite <- Hhash. by apply Hr.
  - unfold move_remote_shard. apply learns_try; [done|].
    set (F := fun envs => e.(ve_random) ∈ map ve_random envs).
    assert (HF : forall envs e', F envs -> F (envs ++ [e'])).
    { intros envs e' Hf. unfold F. rewrite map_app, elem_of_app. by left. }
    apply (learns_try_skip F); [done | | done |].
    { unfold F. rewrite map_app, elem_of_app. right. by left. }
    intros envs _ Hf. apply learns_try; [done|].
    eapply learns_mono; [apply learns_and; [apply migration_result_learns | by apply (learns_more _ F)]|].
    intros envs' r [Hr Hf'] accepted ->. destruct accepted; [|by passing]. intros [] _ _.
    apply Hresult. right. destruct (Hr eq_refl) as (result & Hh & Ha & Hid). exists result. by rewrite Hid.
Qed.

Lemma moves_learn current proposal shards before migrated known :
  Forall (arrived current known) before ->
  learns known (move_proposed_shards local fuel job_id current proposal shards migrated)
    (fun envs r => is_ok r = true -> Forall (arrived current envs) (before ++ shards)).
Proof.
  revert before migrated known. induction shards as [|shard shards IH]; intros before migrated known Hk;
    cbn [move_proposed_shards]; [intros _; by rewrite app_nil_r|].
  set (F := fun envs => Forall (arrived current envs) before).
  assert (HF : forall envs e, F envs -> F (envs ++ [e])).
  { intros envs e Hf. eapply Forall_impl; [exact Hf|]. intros ? ?. by apply arrived_more. }
  apply learns_try; [done|]. eapply learns_mono; [apply learns_and; [apply move_learns | by apply (learns_more _ F)]|].
  intros envs r [Hr Hf] moved ->. replace (before ++ shard :: shards) with ((before ++ [shard]) ++ shards) by by rewrite <- app_assoc.
  apply IH, Forall_app. by split; [|constructor; [apply Hr|]].
Qed.

(** What an activation knows before the proposal takes the place of the active plan. *)
Record activation (current proposal : V4TrainingPlan) (envs : list V4Env) : Prop := mkActivation {
  activation_follows : can_activate local current proposal = true;
  activation_same_shards : shard_ids current = shard_ids proposal;
  activation_accepted : forall peer, peer <> local ->
    peer ∈ proposal.(V4TrainingPlan_workers) \/ (exists shard_id, shard_id ∈ shard_ids current /\ owner_in current shard_id = Some peer) ->
    accepted_proposal proposal envs peer;
  activation_arrived : Forall (arrived current envs) proposal.(V4TrainingPlan_shards)
}.

Lemma find_shard_elem shard_id shards shard : find_shard shard_id shards = Some shard -> shard ∈ shards.
Proof. intros Hf. by apply list_elem_of_In, (find_some _ _ Hf). Qed.

Lemma participants_cover current proposal peer :
  peer <> local ->
  peer ∈ proposal.(V4TrainingPlan_workers) \/ (exists shard_id, shard_id ∈ shard_ids current /\ owner_in current shard_id = Some peer) ->
  peer ∈ activation_participants local current proposal.
Proof.
  intros Hl Hp. unfold activation_participants.
  rewrite list_elem_of_In, filter_In, <- list_elem_of_In, negb_true_iff, bool_decide_eq_false. split; [|done].
  enough (Hin : peer ∈ sort_nodes (proposal.(V4TrainingPlan_workers)
    ++ omap (fun shard => head shard.(V4ShardOwnership_owners)) current.(V4TrainingPlan_shards))).
  { by destruct (dedup_by_key_covers (fun node => node) _ _ Hin) as (y & Hy & <-). }
  apply elem_of_sort_by_key, elem_of_app. destruct Hp as [Hw|(shard_id & _ & Ho)]; [by left|right].
  unfold owner_in in Ho. apply bind_Some in Ho as (shard & Hf & Hh). apply list_elem_of_omap.
  exists shard. split; [by eapply find_shard_elem | done].
Qed.

(** The rest of the preparation, once the active plan and the proposal are known. *)
Lemma preparation_goes_on :
  exists rest : V4TrainingPlan -> V4TrainingPlan -> v4 (V4TrainingPlan * N * gset NodeId),
    prepare_activation local fuel job_id =
      (let! known := active_plan job_id in
       try! current := expect "V4 active plan is not locally known" known in
       let! known := reading (fun _ s => s.(V4State_plan_proposals) !! job_id) in
       try! proposal := expect "V4 plan proposal is not locally known" known in
       rest current proposal) /\
    forall current proposal known, learns known (rest current proposal)
      (fun envs r => forall proposal' migrated acknowledged, r = Ok (proposal', migrated, acknowledged) ->
         proposal' = proposal /\ activation current proposal envs).
Proof.
  eexists (fun current proposal => _). split; [reflexivity|]. intros current proposal known. cbn beta.
  apply learns_reject; [done|]. intros Hc%negb_false_iff.
  apply learns_reject; [done|]. intros Hs%negb_false_iff%bool_decide_eq_true. cbv zeta.
  apply learns_reject; [done|]. intros _. do 2 passing. apply learns_try; [done|].
  eapply learns_mono; [by apply offer_learns|]. intros envs r Hr acknowledged ->.
  set (F := fun envs => forall peer, peer ∈ activation_participants local current proposal ->
    accepted_proposal proposal envs peer).
  assert (HF : forall envs e, F envs -> F (envs ++ [e])).
  { intros envs' e Hf peer Hp. by apply accepted_proposal_more, Hf. }
  apply learns_try; [done|]. eapply learns_mono; [apply learns_and; [by apply (moves_learn _ _ _ [])|apply (learns_more _ F)]|].
  - done.
  - intros peer Hp. eapply Hr; [done | by right].
  - intros envs' r' [Hm Hf] migrated -> proposal' migrated' acknowledged' [= <- <- <-]. split; [done|].
    split; [done | done | | by apply Hm]. intros peer Hl Hp. by apply Hf, participants_cover.
Qed.

Lemma preparation_learns known :
  learns known (prepare_activation local fuel job_id)
    (fun envs r => forall proposal migrated acknowledged, r = Ok (proposal, migrated, acknowledged) ->
       exists current, activation current proposal envs).
Proof.
  destruct preparation_goes_on as (rest & -> & Hrest).
  passing. apply learns_expect; [done|]. intros current _. passing.
  apply learns_expect; [done|]. intros proposal _. eapply learns_mono; [apply Hrest|].
  intros envs r Hr proposal' migrated acknowledged He. exists current. by destruct (Hr _ _ _ He) as [-> ?].
Qed.

(** ** The active plans meanwhile *)
Lemma keeps_section {A} (f : V4Env -> V4State -> option (A * V4State * list V4Effect)) :
  (forall e s a s' out, f e s = Some (a, s', out) -> s'.(V4State_plans) = s.(V4State_plans)) ->
  keeps_plans (Step f Done).
Proof. intros Hf. apply obeys_step. intros e s a s' out _ Ha. split_and!; [done | by eapply Hf | done]. Qed.

Lemma keeps_atomic {A} (f : V4Env -> V4State -> A * V4State * list V4Effect) :
  (forall e s, (f e s).1.2.(V4State_plans) = s.(V4State_plans)) -> keeps_plans (atomic f).
Proof. intros Hf. apply keeps_section. intros e s a s' out [= Ha]. specialize (Hf e s). by rewrite Ha in Hf. Qed.

Lemma keeps_then {A B} (t : vtask A) (k : A -> vtask B) :
  keeps_plans t -> (forall a, keeps_plans (k a)) -> keeps_plans (tbind t k).
Proof. apply obeys_then. Qed.

Lemma keeps_try {A B} (t : v4 A) (k : A -> v4 B) :
  keeps_plans t -> (forall a, keeps_plans (k a)) -> keeps_plans (try_task t k).
Proof. intros Ht Hk. apply keeps_then; [done|]. by intros [a|error]; [apply Hk|]. Qed.

Lemma keeps_timeout {A} elapsed (t : vtask A) : keeps_plans t -> keeps_plans (timeout elapsed t).
Proof. intros Ht. by eapply obeys_any, obeys_timeout. Qed.

Lemma keeps_for {A} (body : A -> vtask unit) xs : (forall x, keeps_plans (body x)) -> keeps_plans (for_task body xs).
Proof. intros Hb. apply obeys_for, Forall_forall. intros x _. apply Hb. Qed.

Lemma keeps_transmit peer message : keeps_plans (transmit peer message).
Proof. apply keeps_atomic. intros e s. by destruct (ve_send e). Qed.

Lemma keeps_receive_next : keeps_plans receive_next.
Proof.
  apply keeps_section. intros e s a s' out. destruct (ve_event e); [|destruct (ve_elapsed e); [|done]];
    by intros [= <- <- <-].
Qed.

Lemma keeps_pause : keeps_plans pause.
Proof. apply keeps_section. intros e s a s' out. destruct (ve_elapsed e); [|done]. by intros [= <- <- <-]. Qed.

#[local] Hint Resolve keeps_transmit keeps_receive_next keeps_pause : plans.

Ltac keep := repeat match goal with
  | |- forall _, _ => intros ?
  | |- keeps_plans (Done _) => done
  | |- keeps_plans forever => by intros ? ? []
  | |- keeps_plans (refuse _) => done
  | |- keeps_plans (let _ := _ in _) => cbv zeta
  | |- keeps_plans (match ?x with _ => _ end) => destruct x
  | |- keeps_plans (try_task (reject_if ?c _) _) => apply keeps_try; [by destruct c|]
  | |- keeps_plans (try_task (expect _ ?o) _) => apply keeps_try; [by destruct o|]
  | |- keeps_plans (tbind _ _) => apply keeps_then
  | |- keeps_plans (try_task _ _) => apply keeps_try
  | |- keeps_plans (ignore _) => apply keeps_then
  | |- keeps_plans (timeout _ _) => apply keeps_timeout
  | |- keeps_plans (reading _) => by apply keeps_atomic
  | |- keeps_plans (updating _) => by apply keeps_atomic
  | |- keeps_plans (for_task _ _) => apply keeps_for
  | |- _ => solve [eauto 2 with plans]
  end.

Lemma keeps_receive_message n : keeps_plans (receive_message n).
Proof. induction n; cbn [receive_message]; keep. Qed.

Lemma keeps_send_control peer message : keeps_plans (send_control_message peer message).
Proof. unfold send_control_message, transmitted_in_time. keep. Qed.

Lemma keeps_create_job job : keeps_plans (create_job job).
Proof. by apply keeps_atomic. Qed.

Lemma keeps_remove_job job : keeps_plans (remove_job job).
Proof. unfold remove_job. keep. Qed.

#[local] Hint Resolve keeps_receive_message keeps_send_control keeps_create_job keeps_remove_job : plans.

Lemma keeps_transfer shard target plan_generation ownership_generation :
  keeps_plans (transfer_shard_without_plan_commit local fuel shard target plan_generation ownership_generation).
Proof.
  assert (Hawait : forall n wanted, keeps_plans (await_message fuel n wanted)).
  { intros n wanted. induction n; cbn [await_message]; keep. }
  unfold transfer_shard_without_plan_commit, transfer_shard. keep.
Qed.

Lemma keeps_proposal_ack n participant proposal : keeps_plans (await_proposal_ack fuel job_id n participant proposal).
Proof. induction n; cbn [await_proposal_ack]; keep. Qed.

Lemma keeps_reconnected peer : keeps_plans (reconnected_in_time peer).
Proof. unfold reconnected_in_time, reconnect_peer. keep. by apply keeps_atomic. Qed.

Lemma keeps_offer_one attempts first participant proposal accepted :
  keeps_plans (proposal_attempts local fuel job_id attempts first participant proposal accepted).
Proof.
  pose proof keeps_proposal_ack. pose proof keeps_reconnected. revert first accepted.
  induction attempts; intros first accepted; cbn [proposal_attempts]; unfold send_plan_proposal; keep.
Qed.

Lemma keeps_offer participants proposal acknowledged :
  keeps_plans (offer_proposal local fuel job_id participants proposal acknowledged).
Proof.
  pose proof keeps_offer_one. revert acknowledged.
  induction participants; intros acknowledged; cbn [offer_proposal]; unfold traversed; keep.
Qed.

Lemma keeps_result n old_owner request_id shard_id :
  keeps_plans (await_migration_result job_id n old_owner request_id shard_id).
Proof. induction n; cbn [await_migration_result]; keep. Qed.

Lemma keeps_moves current proposal shards migrated :
  keeps_plans (move_proposed_shards local fuel job_id current proposal shards migrated).
Proof.
  pose proof keeps_transfer. pose proof keeps_result. revert migrated.
  induction shards; intros migrated; cbn [move_proposed_shards]; [done|].
  unfold move_proposed_shard, move_local_shard, move_remote_shard, random_job_id. keep.
Qed.

Lemma keeps_preparation : keeps_plans (prepare_activation local fuel job_id).
Proof.
  pose proof keeps_offer. pose proof keeps_moves.
  unfold prepare_activation, active_plan, send_plan_notification. keep.
Qed.

End Activation.

(** ** Starting an integrated job *)

(** The workers that can be reached. *)
Definition was_reached (envs : list V4Env) (node : NodeId) : Prop :=
  Exists (fun e => node ∈ e.(ve_connected) \/ node ∈ e.(ve_answers)) envs.

(** A current record of the node offers training with the memory. *)
Definition offered (memory : N) (envs : list V4Env) (node : NodeId) : Prop :=
  Exists (fun e => exists record capability,
    record ∈ e.(ve_records) /\ record.(PeerRecord_node_id) = node /\
    e.(ve_now) <= record.(PeerRecord_expires_at) /\
    capability ∈ record.(PeerRecord_capabilities) /\
    capability.(Capability_name) = "training.reference"%string /\
    e.(ve_now) <= capability.(Capability_expires_at) /\
    memory <= capability.(Capability_resources).(ResourceLimits_memory_bytes)) envs.

Definition usable (memory : N) (envs : list V4Env) (node : NodeId) : Prop :=
  was_reached envs node /\ offered memory envs node.

Lemma exists_more (Q : V4Env -> Prop) envs e : Exists Q envs -> Exists Q (envs ++ [e]).
Proof. intros Hq. apply Exists_app. by left. Qed.

Lemma exists_now (Q : V4Env -> Prop) envs e : Q e -> Exists Q (envs ++ [e]).
Proof. intros Hq. apply Exists_app. right. by constructor. Qed.

Lemma usable_more memory envs e node : usable memory envs node -> usable memory (envs ++ [e]) node.
Proof. intros [? ?]. by split; apply exists_more. Qed.

Lemma worker_profile_offered now security record profile :
  worker_profile now security record = Some profile ->
  profile.(WorkerProfile_node) = record.(PeerRecord_node_id) /\
  exists capability, capability ∈ record.(PeerRecord_capabilities) /\
    capability.(Capability_name) = "training.reference"%string /\
    now <= capability.(Capability_expires_at) /\
    profile.(WorkerProfile_memory_bytes) = capability.(Capability_resources).(ResourceLimits_memory_bytes).
Proof.
  unfold worker_profile. intros Hp. apply bind_Some in Hp as (capability & Hf & [= <-]). cbn. split; [done|].
  exists capability. apply find_some in Hf as [Hin Hb]. apply andb_true_iff in Hb as [Hn He].
  apply bool_decide_eq_true in Hn. apply N.leb_le in He. split_and!; [by apply list_elem_of_In | done | done | done].
Qed.

(** Everyone with enough memory has a current record. *)
Lemma profiles_offered e s known memory profile :
  profile ∈ omap (M := list) (worker_profile e.(ve_now) s.(V4State_security))
    (List.filter (fun record => e.(ve_now) <=? record.(PeerRecord_expires_at)) e.(ve_records)) ->
  memory <= profile.(WorkerProfile_memory_bytes) ->
  offered memory (known ++ [e]) profile.(WorkerProfile_node).
Proof.
  intros Hp Hm. apply list_elem_of_omap in Hp as (record & Hr & Hp).
  apply elem_of_filter_b in Hr as [Hr He%N.leb_le].
  apply worker_profile_offered in Hp as (-> & capability & Hc & Hn & Hx & Hmem).
  apply exists_now. exists record, capability. rewrite <- Hmem. by split_and!.
Qed.

Section Starts.
Context `{Blake3} `{PlanPostcard} `{V4Json}.
Context (local : NodeId) (fuel : nat).

Lemma reach_learns memory connected profiles known :
  Exists (fun e => connected = e.(ve_connected)) known ->
  Forall (fun profile => offered memory known profile.(WorkerProfile_node)) profiles ->
  learns known (reach connected profiles)
    (fun envs reachable => Forall (fun profile => usable memory envs profile.(WorkerProfile_node)) reachable).
Proof.
  revert known. induction profiles as [|profile profiles IH]; intros known Hc Ho; cbn [reach]; [constructor|].
  set (node := profile.(WorkerProfile_node)).
  set (F := fun envs => Exists (fun e => connected = e.(ve_connected)) envs /\
    Forall (fun profile => offered memory envs profile.(WorkerProfile_node)) (profile :: profiles)).
  assert (HF : forall envs e, F envs -> F (envs ++ [e])).
  { intros envs e [Hc' Ho']. split; [by apply exists_more|]. eapply Forall_impl; [exact Ho'|]. intros ? ?. by apply exists_more. }
  apply learns_tbind.
  eapply (learns_mono _ _ (fun envs (reachable : bool) => (reachable = true -> was_reached envs node) /\ F envs)).
  - apply learns_and; [|by apply (learns_more _ F)]. destruct (contains node connected) eqn:Hin.
    + intros _. apply contains_true in Hin. eapply Exists_impl; [exact Hc|]. intros e ->. by left.
    + apply learns_tbind. eapply (learns_mono _ _ (fun envs (reconnected : bool) => reconnected = true -> was_reached envs node)).
      * unfold reconnected_in_time, reconnect_peer. apply learns_tbind.
        eapply (learns_mono _ _ (fun envs r => forall a : bool, r = Some a -> a = true -> was_reached envs node)).
        -- apply learns_timeout. intros e s x s' out [= <- _ _] Ha%contains_true. apply exists_now. by right.
        -- intros envs [a|] Ha; cbn; [by apply Ha | done].
      * intros envs [|] Hr; [done|]. intros e s x s' out [= <- _ _] Ha%contains_true. apply exists_now. by right.
  - intros envs reachable [Hr [Hc' Ho']]. apply learns_tbind.
    set (G := fun envs => (reachable = true -> usable memory envs node)).
    assert (HG : forall envs e, G envs -> G (envs ++ [e])).
    { intros envs' e Hg Hre. by apply usable_more, Hg. }
    apply Forall_cons in Ho' as [Hn Ho'].
    eapply learns_mono; [apply learns_and; [by apply IH | apply (learns_more _ G); [done|]]|].
    + intros Hre. split; [by apply Hr | done].
    + intros envs' rest [Hrest Hg]. cbn. destruct reachable; [|done]. constructor; [by apply Hg | done].
Qed.

Lemma rounds_learn attempts minimum memory last known :
  Forall (fun profile => usable memory known profile.(WorkerProfile_node)) last ->
  learns known (reachable_rounds attempts minimum memory last)
    (fun envs reachable => Forall (fun profile => usable memory envs profile.(WorkerProfile_node)) reachable).
Proof.
  revert last known. induction attempts as [|attempts IH]; intros last known Hl; cbn [reachable_rounds]; [done|].
  apply learns_tbind. intros e s profiles s' out [= <- _ _]. cbn [learns]. cbv zeta. set (profiles := sort_by_key _ _).
  assert (Ho : Forall (fun profile => offered memory (known ++ [e]) profile.(WorkerProfile_node)) profiles).
  { apply Forall_forall. intros profile Hp. apply elem_of_sort_by_key, elem_of_filter_b in Hp as [Hp Hm%N.leb_le].
    by eapply profiles_offered. }
  apply learns_tbind. intros e2 s2 connected s2' out2 [= <- _ _]. cbn [learns]. apply learns_tbind.
  eapply learns_mono; [apply (reach_learns memory)|].
  - by apply exists_now.
  - eapply Forall_impl; [exact Ho|]. intros ? ?. by apply exists_more.
  - intros envs reachable Hr. destruct (_ <=? _); [done|].
    eapply (learns_skip (fun envs => Forall (fun profile => usable memory envs profile.(WorkerProfile_node)) reachable)); [|exact Hr|].
    + intros envs' e' Hf. eapply Forall_impl; [exact Hf|]. intros ? ?. by apply usable_more.
    + intros envs' [] Hf. by apply IH.
Qed.

(** The start that is made of a plan of the planner. *)
Lemma start_from_plan_ok job_id decided windows checkpoint_every start :
  0 < windows <= V4_INTEGRATED_MAX_WINDOWS -> 0 < checkpoint_every ->
  decided.(V4TrainingPlan_job_id) = job_id ->
  decided.(V4TrainingPlan_strategy) = V4ParallelismStrategy_Hybrid ->
  start_from_plan local job_id decided windows checkpoint_every = Some (Ok start) ->
  let graph := start.(V4IntegratedStart_graph) in
  V4IntegratedStart_validate start = Ok tt /\
  start.(V4IntegratedStart_reply_to) = local /\
  graph.(V4ExecutionGraph_workers) = decided.(V4TrainingPlan_workers) /\
  graph.(V4ExecutionGraph_proposer) = graph.(V4ExecutionGraph_coordinator) /\
  V4ExecutionGraph_validate graph = Ok tt.
Proof.
  intros Hw Hc Hj Hst. unfold start_from_plan.
  destruct decided.(V4TrainingPlan_workers) as [|w0 [|w1 [|w2 [|w3 rest]]]] eqn:Hworkers; try done.
  intros Hs. apply bind_Some in Hs as (groups & _ & Hs). injection Hs as Hs.
  apply rbind_ok in Hs as (plan & Hb & Hs). apply rbind_ok in Hs as ([] & Hp%map_err_ok & Hs).
  apply rbind_ok in Hs as ([] & Hg%map_err_ok & Hs). injection Hs as <-. cbn zeta.
  apply bind_keeps in Hb as (requirements & assignments & ->).
  assert (Hheader := Hg). unfold V4ExecutionGraph_validate, v4_execution_graph in Hheader.
  apply rbind_ok in Hheader as ([] & Hheader & _). unfold v4_graph_header in Hheader.
  apply rbind_ok in Hheader as ([] & Hjob & Hheader). do 2 apply rbind_ok in Hheader as ([] & _ & Hheader).
  apply rbind_ok in Hheader as ([] & Hreply & _).
  cbn [V4IntegratedStart_graph V4IntegratedStart_reply_to]. split_and!; try done.
  unfold V4IntegratedStart_validate, v4_integrated_start. cbn [V4IntegratedStart_request_id V4IntegratedStart_reply_to].
  apply fail_if_ok in Hjob, Hreply. unfold training_job_id, node_id. cbn in Hjob, Hreply. rewrite Hjob, Hreply. cbn [fail_if rbind].
  unfold V4ExecutionGraph_validate in Hg. unfold V4TrainingPlan_validate in *.
  cbn [V4IntegratedStart_graph V4IntegratedStart_plan V4IntegratedStart_windows V4IntegratedStart_checkpoint_every].
  rewrite Hp, Hg. replace (windows =? 0) with false by (symmetry; apply N.eqb_neq; lia).
  replace (4096 <? windows) with false by (symmetry; apply N.ltb_ge; unfold V4_INTEGRATED_MAX_WINDOWS in Hw; lia).
  replace (checkpoint_every =? 0) with false by (symmetry; apply N.eqb_neq; lia). cbn.
  rewrite Hj, Hst, !bool_decide_eq_true_2; done.
Qed.

(** What a start that was built says. *)
Record startable (requested : N) (envs : list V4Env) (start : V4IntegratedStart) : Prop := mkStartable {
  startable_valid : V4IntegratedStart_validate start = Ok tt;
  startable_controller :
    is_initial_controller start.(V4IntegratedStart_graph).(V4ExecutionGraph_coordinator) local start = true;
  startable_proposer : start.(V4IntegratedStart_graph).(V4ExecutionGraph_proposer)
    = start.(V4IntegratedStart_graph).(V4ExecutionGraph_coordinator);
  startable_coordinator : start.(V4IntegratedStart_graph).(V4ExecutionGraph_coordinator)
    ∈ start.(V4IntegratedStart_graph).(V4ExecutionGraph_workers);
  startable_distinct : NoDup start.(V4IntegratedStart_graph).(V4ExecutionGraph_workers);
  startable_count : len start.(V4IntegratedStart_graph).(V4ExecutionGraph_workers) = requested;
  startable_reached : Forall (usable (sat_mul u64_max (div_ceil 4096 (N.max requested 2)) 2) envs)
    start.(V4IntegratedStart_graph).(V4ExecutionGraph_workers)
}.

Lemma build_learns requested windows checkpoint_every known :
  learns known (build_integrated_start local requested windows checkpoint_every)
    (fun envs r => forall start, r = Ok start -> startable requested envs start).
Proof.
  unfold build_integrated_start. apply learns_reject; [done|]. intros _.
  apply learns_reject; [done|]. intros Hb. rewrite !orb_false_iff, !N.eqb_neq, N.ltb_ge in Hb.
  cbv zeta. set (memory := sat_mul _ _ _). apply learns_tbind. unfold reachable_worker_profiles.
  eapply learns_mono; [by apply rounds_learn|]. intros envs profiles Hprofiles.
  apply learns_reject; [done|]. intros _. set (F := fun envs => Forall (fun profile => usable memory envs profile.(WorkerProfile_node)) profiles).
  apply (learns_skip F); [|exact Hprofiles|].
  { intros envs' e' Hf. eapply Forall_impl; [exact Hf|]. intros ? ?. by apply usable_more. }
  clear known envs Hprofiles. intros envs job_id Hf. destruct (head profiles) as [first|]; [|apply learns_forever].
  unfold planned. destruct (plan_v4 _) as [decision|] eqn:Hplan; [|by intros ?]. cbn [map_err try_task tbind].
  apply learns_reject; [done|]. intros [_ Hcount]%orb_false_iff. apply N.ltb_ge in Hcount.
  destruct (plan_v4_ok _ _ Hplan) as (eligible & assignments & support & Hcheck & Hselect & _ & _ & _ & _ & _ & hash & Hdecided).
  destruct (check_request_ok _ _ Hcheck) as (Hnd & _).
  destruct (select_workers_ok _ _ Hnd Hselect) as (Hlen & Hdistinct & Hsel).
  destruct (start_from_plan _ _ _ _ _) as [start|] eqn:Hs; [|apply learns_forever]. intros start' ->.
  apply start_from_plan_ok in Hs as (Hv & Hr & Hw & Hpc & Hg); [|lia|lia|by rewrite Hdecided|by rewrite Hdecided].
  rewrite Hdecided in Hw, Hcount. cbn in Hw, Hcount, Hlen.
  apply v4_execution_graph_sound in Hg as (_ & Hco & _). split; try done.
  - unfold is_initial_controller. rewrite Hr, !bool_decide_eq_true_2; done.
  - by rewrite Hw.
  - rewrite Hw. unfold len in *. rewrite length_fmap in *. lia.
  - rewrite Hw. apply Forall_forall. intros node (profile & -> & Hp)%list_elem_of_fmap.
    unfold F in Hf. rewrite Forall_forall in Hf. by apply Hf, Hsel.
Qed.

(** (C22) A job is started only where it can run: the start that [build_integrated_start] makes for a job
    passes the validation of its receiver and comes from the node its coordinator expects it from;
    it has exactly the requested number of distinct workers, and each of them was connected or
    answered while the command looked, and had a current record that offers training with the
    memory a shard needs. *)
Theorem started_jobs_are_reachable requested windows checkpoint_every envs start :
  came_to (build_integrated_start local requested windows checkpoint_every) envs (Ok start) ->
  startable requested envs start.
Proof. intros Hc. exact (learns_came_to _ _ _ Hc [] _ (build_learns _ _ _ []) _ eq_refl). Qed.
End Starts.
