(* ===== verification/V4Facts.v ===== *)
(** * Frontier training: what a node keeps (facts)

    The tensors, optimizer states, pipeline stages and data shards a node keeps pass the checks
    with which it reads them from disk ([intact]), and the operations that produce new ones keep it
    so.  Operations on state files leave the files of the votes alone ([harmless]). *)

From Stdlib Require Import String ZArith NArith Lia.
From stdpp Require Import base tactics sets strings numbers list gmap.
From S2P Require Import Prelude OrdMap Types Validation FileSystem Storage StorageFacts Aggregation Compute Float32 Planner Runtime Trust Security Network NodeConfig Tasks TaskLogic V4Model V4Control V4Integrated V4Data V4Node.
Local Open Scope N_scope.
Local Open Scope rust_scope.

(** ** Vectors *)
Lemma length_zip_update f slots values : length (zip_update f slots values) = length slots.
Proof. revert values. induction slots as [|x slots IH]; intros [|y values]; cbn; auto. Qed.

Lemma forallb_zip_update (p : Z -> bool) f slots values :
  (forall x y, p (f x y) = true) -> forallb p slots = true ->
  forallb p (zip_update f slots values) = true.
Proof.
  intros Hf. revert values. induction slots as [|x slots IH]; intros [|y values]; cbn; auto.
  intros Hp. breflect. rewrite Hf. by apply IH.
Qed.

Lemma elem_of_shuffle {A} order (xs : list A) x : x ∈ shuffle order xs -> x ∈ xs.
Proof.
  revert xs. induction order as [|i order IH]; intros xs; cbn; [done|].
  destruct (xs !! _) as [y|] eqn:Hy; [|done]. rewrite elem_of_cons. intros [->|Hin].
  - by eapply list_elem_of_lookup_2.
  - apply IH in Hin. revert Hin. generalize (i mod length xs)%nat. clear. intros j.
    revert j. induction xs as [|z xs IHx]; intros [|j]; cbn; rewrite ?elem_of_cons; auto.
    intros [->|Hin]; eauto.
Qed.

(** ** Names *)
Lemma hex_digit_inj a b : a < 16 -> b < 16 -> hex_digit a = hex_digit b -> a = b.
Proof.
  intros Ha Hb Hd. apply (f_equal Ascii.N_of_ascii) in Hd. unfold hex_digit in Hd.
  destruct (a <? 10) eqn:Hca, (b <? 10) eqn:Hcb; breflect; rewrite Ascii.N_ascii_embedding in Hd by lia;
    rewrite Ascii.N_ascii_embedding in Hd by lia; lia.
Qed.

Lemma hex_encode_inj xs ys :
  Forall (fun byte => byte < 256) xs -> Forall (fun byte => byte < 256) ys ->
  hex_encode xs = hex_encode ys -> xs = ys.
Proof.
  intros Hx. revert ys. induction Hx as [|x xs Hx Hxs IH]; intros [|y ys] Hys; cbn; try done.
  inversion Hys as [|? ? Hy]; subst. intros [= Hh Hl Hr]. cbn in Hx, Hy.
  apply hex_digit_inj in Hh; [|apply N.Div0.div_lt_upper_bound; lia..].
  apply hex_digit_inj in Hl; [|apply N.mod_lt; lia..]. f_equal; [|by apply IH].
  rewrite (N.div_mod x 16), (N.div_mod y 16) by lia. congruence.
Qed.

Lemma string_app_length (a b : str) : String.length (a ++ b)%string = (String.length a + String.length b)%nat.
Proof. induction a as [|x a IH]; [done | exact (f_equal S IH)]. Qed.

Lemma app_inj_right (a b c : str) : (a ++ c = b ++ c)%string -> a = b.
Proof.
  intros Hab. assert (Hlen : String.length a = String.length b).
  { apply (f_equal String.length) in Hab. rewrite !string_app_length in Hab. lia. }
  revert b Hab Hlen. induction a as [|x a IH]; intros [|y b]; cbn; try done.
  intros [= -> Hab] [= Hlen]. f_equal. by apply IH.
Qed.

(** ** State files that are left alone *)

(** The name of a temporary file. *)
Definition dotted (s : str) : str := String (Ascii.ascii_of_N 46) s.

Section Guard.
Context (guard : str -> bool).

(** A guarded state file, or a file outside the state directory. *)
Definition guards_path (path : Path) : bool :=
  match path with StatePath name => guard name | _ => true end.

(** The guarded files are the same. *)
Definition same_guarded (f g : Files) : Prop :=
  forall path, guards_path path = true -> g !! path = f !! path.

(** A call that does not touch a guarded file. *)
Definition spares_guarded (o : Op) : bool :=
  match o with
  | OpCreateNew p | OpOpenAppend p | OpWriteAll p _ | OpRemove p | OpRename p (DirEntry _) =>
      negb (guards_path p)
  | OpRename p (FileEntry q) => negb (guards_path p) && negb (guards_path q)
  | _ => true
  end.

#[export] Instance same_guarded_preorder : PreOrder same_guarded.
Proof. split; [by intros f path|]. intros f g h Hfg Hgh path Hn. by rewrite Hgh, Hfg. Qed.

Lemma same_guarded_insert f p d : guards_path p = false -> same_guarded f (<[p := d]> f).
Proof. intros Hp path Hn. apply lookup_insert_ne. intros ->. congruence. Qed.

Lemma same_guarded_delete f p : guards_path p = false -> same_guarded f (delete p f).
Proof. intros Hp path Hn. apply lookup_delete_ne. intros ->. congruence. Qed.

Lemma append_file_same_guarded w p bytes :
  guards_path p = false -> same_guarded w.(files) (append_file w p bytes).(files).
Proof. intros Hp. unfold append_file. destruct (_ !! p); [by apply same_guarded_insert | done]. Qed.

Lemma spares_guarded_same o w :
  spares_guarded o = true ->
  same_guarded w.(files) (perform o w).1.(files) /\ forall n, same_guarded w.(files) (cut_short o n w).(files).
Proof.
  intros Ho. destruct o as [| | | | |p|p|p bytes| |p [d|q]|p| | |]; cbn in Ho |- *; breflect; try done.
  - split; [|done]. destruct (_ !! p); [done|]. by apply same_guarded_insert.
  - split; [|done]. destruct (_ !! p); [done|]. by apply same_guarded_insert.
  - split; [by apply append_file_same_guarded|]. intros n. by apply append_file_same_guarded.
  - split; [|done]. by destruct (_ !! p).
  - split; [|done]. destruct (_ !! p); [|done]. cbn.
    etransitivity; [by apply (same_guarded_delete _ p)|]. by apply same_guarded_insert.
  - split; [|done]. destruct (_ !! p); [|done]. by apply same_guarded_delete.
Qed.

(** A program of calls that leave the guarded files alone. *)
Definition harmless {A} (p : Prog A) : Prop := calls_only spares_guarded p.

Lemma harmless_run {A} (p : Prog A) faults w :
  harmless p -> same_guarded w.(files) (run faults p w).1.(files).
Proof.
  intros Hp. refine (proj1 (always_sound (same_guarded w.(files)) (fun _ _ => True) p w faults _)).
  apply (always_calls_only _ spares_guarded); [|exact Hp|done|done].
  intros o w' Ho Hw. destruct (spares_guarded_same o w' Ho) as [H1 H2].
  split; [by etransitivity|]. intros n. by etransitivity.
Qed.

Lemma asks_harmless {A} (p : Prog A) : calls_only asks p -> harmless p.
Proof. apply calls_only_mono. by intros []. Qed.

Lemma write_json_harmless {T} `{Json T} store name (v : T) :
  (forall s, guard (dotted s) = false) -> guard name = false -> harmless (write_json store name v).
Proof.
  intros Hdot Hn. unfold harmless, write_json, fail. destruct (not_local name); [done|].
  apply calls_only_try; [done|]. intros bytes. destruct (_ <? _); [done|].
  apply calls_only_bind; [by apply calls_only_call|]. intros m. cbn zeta.
  apply calls_only_try; [apply asks_harmless, used_bytes_asks|]. intros used.
  destruct (_ <? _); [done|]. do 3 (split; [done|]; intros ?).
  assert (Htemp : forall s, guards_path (StatePath (dotted s)) = false) by exact Hdot.
  apply calls_only_try; [repeat (split; [cbn [spares_guarded]; by rewrite ?Htemp|]; intros [?|?]; try done)|].
  intros _. apply calls_only_try; [|done]. apply calls_only_io, calls_only_call.
  unfold state_entry. repeat case_bool_decide; cbn [spares_guarded]; rewrite Htemp; try done. cbn. by rewrite Hn.
Qed.

(** Files are written to completely or left as they were, and removed by name. *)
Lemma stored_harmless {A} (p : Prog (result A StorageError)) : harmless p -> harmless (stored p).
Proof. intros Hp. by apply calls_only_bind. Qed.

Lemma remove_harmless name : guard name = false -> harmless (remove_state_file name).
Proof.
  intros Hn. unfold harmless, remove_state_file, state_entry. repeat case_bool_decide; try done.
  split; [|done]. cbn. by rewrite Hn.
Qed.
End Guard.

(** ** The files of the votes *)

Definition is_vote_file (name : str) : bool := String.prefix "v4-integrated-election-" name.

Notation same_votes := (same_guarded is_vote_file).

Lemma strip_prefix_app prefix s rest : strip_prefix prefix s = Some rest -> s = (prefix ++ rest)%string.
Proof.
  revert s. induction prefix as [|c prefix IH]; intros [|d s]; cbn; [by intros [= <-]..|done|].
  destruct (Ascii.eqb c d) eqn:Hc; [|done]. apply Ascii.eqb_eq in Hc as ->. intros Hs. by rewrite (IH s).
Qed.

Lemma between_not_vote job name number :
  between ("v4-checkpoint-" ++ hex_encode (JobId_0 job) ++ "-") name = Some number ->
  is_vote_file name = false.
Proof. unfold between. intros (rest & Hr & _)%bind_Some. apply strip_prefix_app in Hr as ->. done. Qed.

Section Facts.
Context `{Blake3} `{PlanPostcard} `{V4Json} `{Profile} `{ContributionPostcard}.

(** ** Records that pass their check *)

Definition tensor_kept (key : JobId * N) (shard : V4LocalTensorShard) : Prop :=
  key = (shard.(V4LocalTensorShard_job_id), shard.(V4LocalTensorShard_shard_id)) /\
  valid_local_tensor_shard shard = true.

Definition optimizer_kept (key : JobId * N) (state : V4LocalOptimizerState) : Prop :=
  key = (state.(V4LocalOptimizerState_job_id), state.(V4LocalOptimizerState_shard_id)) /\
  valid_local_optimizer_state state = true.

Definition stage_kept (key : JobId * N) (stage : V4LocalPipelineStage) : Prop :=
  key = (stage.(V4LocalPipelineStage_job_id), stage.(V4LocalPipelineStage_stage_id)) /\
  valid_local_pipeline_stage stage = true.

Definition data_kept (key : JobId * N) (shard : V4LocalDataShard) : Prop :=
  key = (shard.(V4LocalDataShard_job_id), shard.(V4LocalDataShard_shard_id)) /\
  valid_local_data_shard shard = true.

Record intact (s : V4State) : Prop := mkIntact {
  intact_data : map_Forall data_kept s.(V4State_data_shards);
  intact_tensors : map_Forall tensor_kept s.(V4State_tensor_shards);
  intact_optimizers : map_Forall optimizer_kept s.(V4State_optimizer_states);
  intact_stages : map_Forall stage_kept s.(V4State_pipeline_stages)
}.

Lemma installed_tensor_valid install :
  v4_tensor_install install = Ok tt ->
  tensor_hash install.(V4TensorInstall_weights) install.(V4TensorInstall_rows)
    install.(V4TensorInstall_cols) install.(V4TensorInstall_row_offset)
  = install.(V4TensorInstall_state_hash) ->
  valid_local_tensor_shard (installed_tensor install) = true.
Proof.
  intros Hv Hh. unfold v4_tensor_install in Hv. inv_ok Hv. unfold valid_local_tensor_shard. cbn.
  rewrite Hh, bool_decide_eq_true_2, andb_true_r by done.
  repeat (apply andb_true_iff; split); try (apply N.ltb_lt; lia); try (apply N.leb_le; lia);
    [by apply N.eqb_eq|]. clear - Hv. induction (V4TensorInstall_weights install) as [|x xs IH]; [done|].
  cbn in *. breflect. rewrite (proj2 (N.leb_le _ _)) by done. by apply IH.
Qed.

Lemma valid_tensor_spec shard :
  valid_local_tensor_shard shard = true <->
  0 < shard.(V4LocalTensorShard_plan_generation) /\ 0 < shard.(V4LocalTensorShard_model_generation) /\
  0 < shard.(V4LocalTensorShard_rows) /\ 0 < shard.(V4LocalTensorShard_cols) /\
  shard.(V4LocalTensorShard_rows) * shard.(V4LocalTensorShard_cols) = len shard.(V4LocalTensorShard_weights) /\
  len shard.(V4LocalTensorShard_weights) <= MAX_V4_VECTOR * MAX_V4_VECTOR /\
  shard.(V4LocalTensorShard_row_offset) + shard.(V4LocalTensorShard_rows) <= MAX_V4_VECTOR /\
  forallb (fun weight => unsigned_abs weight <=? 1000000000) shard.(V4LocalTensorShard_weights) = true /\
  tensor_hash shard.(V4LocalTensorShard_weights) shard.(V4LocalTensorShard_rows)
    shard.(V4LocalTensorShard_cols) shard.(V4LocalTensorShard_row_offset)
  = shard.(V4LocalTensorShard_state_hash).
Proof.
  unfold valid_local_tensor_shard.
  rewrite !andb_true_iff, !N.ltb_lt, !N.leb_le, N.eqb_eq, bool_decide_eq_true. tauto.
Qed.

(** The plan generation of a shard may move forward. *)
Lemma tensor_kept_generation key shard generation :
  0 < generation -> tensor_kept key shard ->
  tensor_kept key (set_V4LocalTensorShard_plan_generation generation shard).
Proof.
  intros Hg [Hk Hv]. split; [done|]. rewrite valid_tensor_spec in Hv |- *. cbn. naive_solver.
Qed.

Lemma descend_bounded rate weight gradient :
  (unsigned_abs (descend rate weight gradient) <=? 1000000000) = true.
Proof. apply N.leb_le. unfold descend, clamp_to, unsigned_abs. lia. Qed.

(** A step of gradient descent keeps a shard, whatever the gradients. *)
Lemma step_tensor_kept key shard rate gradients sequence :
  tensor_kept key shard -> tensor_kept key (step_tensor shard rate gradients sequence).
Proof.
  intros [Hk Hv]. split; [done|]. rewrite valid_tensor_spec in Hv |- *. cbn.
  unfold len in *. rewrite length_zip_update. destruct Hv as (? & ? & ? & ? & ? & ? & ? & Hw & ?).
  split_and!; try done. by apply forallb_zip_update; [intros; apply descend_bounded|].
Qed.

Lemma valid_optimizer_spec state :
  valid_local_optimizer_state state = true <->
  0 < state.(V4LocalOptimizerState_plan_generation) /\ 0 < state.(V4LocalOptimizerState_model_generation) /\
  0 < state.(V4LocalOptimizerState_optimizer_generation) /\
  0 < state.(V4LocalOptimizerState_state_generation) /\
  is_empty state.(V4LocalOptimizerState_values) = false /\
  len state.(V4LocalOptimizerState_values) <= MAX_V4_VECTOR /\
  existsb (fun value => 1000000000 <? unsigned_abs value) state.(V4LocalOptimizerState_values) = false /\
  optimizer_state_hash (install_of_state state) = state.(V4LocalOptimizerState_state_hash).
Proof.
  unfold valid_local_optimizer_state. split.
  - destruct (_ || _) eqn:Hb; [done|]. intros Hh. breflect. split_and!; try done; lia.
  - intros (? & ? & ? & ? & He & ? & Hx & Hh). rewrite He, Hx, !orb_false_r.
    do 5 nfalse. cbn. by rewrite bool_decide_eq_true.
Qed.

Lemma state_of_install_valid install :
  v4_optimizer_state_install install = Ok tt ->
  optimizer_state_hash install = install.(V4OptimizerStateInstall_state_hash) ->
  valid_local_optimizer_state (state_of_install install) = true.
Proof.
  intros Hv Hh. unfold v4_optimizer_state_install, v4_vector in Hv. inv_ok Hv.
  apply valid_optimizer_spec. split_and!; try (cbn; lia); done.
Qed.

Lemma promote_kept key existing install :
  optimizer_kept key existing -> optimizer_kept key (promote_optimizer_state existing install).
Proof.
  intros [Hk Hv]. split; [done|]. rewrite valid_optimizer_spec in Hv |- *.
  destruct Hv as (? & ? & ? & ? & ? & ? & ? & Hh). split_and!; try (cbn; lia); done.
Qed.

Lemma installed_stage_valid install :
  v4_pipeline_install install = Ok tt ->
  pipeline_hash install.(V4PipelineInstall_coefficient) install.(V4PipelineInstall_bias)
  = install.(V4PipelineInstall_state_hash) ->
  valid_local_pipeline_stage (installed_stage install) = true.
Proof.
  intros Hv Hh. unfold v4_pipeline_install in Hv. inv_ok Hv. unfold valid_local_pipeline_stage. cbn.
  rewrite Hh, bool_decide_eq_true_2, andb_true_r by done. change MAX_V4_STAGES with 16 in *.
  repeat (apply andb_true_iff; split); first [apply N.leb_le | apply N.ltb_lt]; lia.
Qed.

(** ** State that follows a plan *)
Lemma sync_map_kept {V} (K : JobId * N -> V -> Prop)
    (sync : (JobId * N) * V -> option ((JobId * N) * V)) (order : list nat) (m : gmap (JobId * N) V) :
  (forall entry entry', sync entry = Some entry' -> K entry.1 entry.2 -> K entry'.1 entry'.2) ->
  map_Forall K m -> map_Forall K (sync_map sync order m).2.
Proof.
  intros Hs Hm key value. cbn. rewrite lookup_union_Some_raw. intros [Hu|[_ Hk]]; [|by apply Hm].
  apply elem_of_list_to_map_2, list_elem_of_omap in Hu as ([key' value'] & Hin & Hsync).
  apply elem_of_shuffle, elem_of_map_to_list in Hin. by apply (Hs _ _ Hsync), Hm.
Qed.

Lemma sync_data_kept local plan entry entry' :
  sync_data_shard local plan entry = Some entry' -> data_kept entry.1 entry.2 -> data_kept entry'.1 entry'.2.
Proof.
  destruct entry as [[job id] shard]. unfold sync_data_shard. destruct (negb _); [done|].
  intros (ownership & _ & Hs)%bind_Some [Hk Hv]. destruct (_ && _); [|done]. by injection Hs as <-.
Qed.

Lemma sync_tensor_kept local plan entry entry' :
  0 < plan.(V4TrainingPlan_plan_generation) ->
  sync_tensor_shard local plan entry = Some entry' ->
  tensor_kept entry.1 entry.2 -> tensor_kept entry'.1 entry'.2.
Proof.
  destruct entry as [[job id] shard]. unfold sync_tensor_shard. intros Hg. destruct (negb _); [done|].
  intros (ownership & _ & Hs)%bind_Some Hk. destruct (_ && _); [|done]. injection Hs as <-.
  by apply tensor_kept_generation.
Qed.

Lemma sync_stage_kept local plan entry entry' :
  sync_pipeline_stage local plan entry = Some entry' ->
  stage_kept entry.1 entry.2 -> stage_kept entry'.1 entry'.2.
Proof.
  destruct entry as [[job id] stage]. unfold sync_pipeline_stage. destruct (negb _); [done|].
  destruct (_ && _); [|done]. by intros [= <-] [Hk Hv].
Qed.

Lemma plan_generation_positive plan :
  V4TrainingPlan_validate plan = Ok tt -> 0 < plan.(V4TrainingPlan_plan_generation).
Proof. unfold V4TrainingPlan_validate. intros Hv. by inv_ok Hv; unfold v4_plan in *; inv_ok Hv; lia. Qed.

Lemma valid_plan_generation plan : valid_plan plan = true -> 0 < plan.(V4TrainingPlan_plan_generation).
Proof.
  unfold valid_plan. intros Hp. breflect. destruct (v4_plan plan) as [[]|] eqn:Hv; [|done].
  unfold v4_plan in Hv. inv_ok Hv. lia.
Qed.
End Facts.
