(* ===== verification/V4Pool.v ===== *)
(** * Frontier training: every section of every task

    The rules of [TaskLogic] applied to the handlers of planned jobs.  The invariant is [intact]
    with a property [V] of the votes in memory and on disk; [P] is what a section may do to the
    votes.  Both are parameters: all sections but the one that casts a vote leave them alone. *)

From Stdlib Require Import String ZArith NArith Lia.
From stdpp Require Import base tactics sets strings numbers list gmap.
From S2P Require Import Prelude OrdMap Types Validation FileSystem Storage StorageFacts Aggregation Compute Float32 Planner Runtime Trust Security Network NodeConfig Tasks TaskLogic V4Model V4Control V4Integrated V4Data V4Node V4Reconfigure V4Driver V4Plans V4Commands V4DriverFacts V4Graphs V4Operator V4Facts.
Local Open Scope N_scope.
Local Open Scope rust_scope.

Create HintDb v4 discriminated.

(** No vote is cast. *)
Definition no_vote (effect : V4Effect) : Prop :=
  match effect with Did_Vote _ | Did_Stand _ => False | _ => True end.

(** A section that leaves what is kept and the votes alone. *)
Record frame (s s' : V4State) : Prop := mkFrame {
  frame_data : s'.(V4State_data_shards) = s.(V4State_data_shards);
  frame_tensors : s'.(V4State_tensor_shards) = s.(V4State_tensor_shards);
  frame_optimizers : s'.(V4State_optimizer_states) = s.(V4State_optimizer_states);
  frame_stages : s'.(V4State_pipeline_stages) = s.(V4State_pipeline_stages);
  frame_elections : s'.(V4State_integrated_elections) = s.(V4State_integrated_elections);
  frame_files : same_votes s.(V4State_world).(files) s'.(V4State_world).(files)
}.

Lemma frame_refl s : frame s s.
Proof. by split. Qed.

(** A job is known by bytes. *)
Definition job_wf (job_id : JobId) : Prop := Forall (fun byte => byte < 256) (JobId_0 job_id).

Section Pool.
Context `{Blake3} `{PlanPostcard} `{V4Json} `{Profile} `{ContributionPostcard}.
Context (security_to_allocvec : LocalSecurityState -> result (list N) str).
Context (NodeError_to_string : NodeError -> str).
Context (local : NodeId) (store : LocalStore) (arch : str) (host_memory : N) (fuel : nat).

Context (V : gmap JobId V4IntegratedElectionRecord -> Files -> Prop).
Context (P : V4State -> list V4Effect -> V4State -> Prop).

Definition pool_inv (s : V4State) : Prop :=
  intact s /\ V s.(V4State_integrated_elections) s.(V4State_world).(files).

Notation ok t Q := (obeys pool_inv P t Q).
Notation ok_any t := (obeys pool_inv P t (fun _ => True)).

Hypothesis V_same : forall m f g, same_votes f g -> V m f -> V m g.
Hypothesis P_same : forall s out s',
  s'.(V4State_integrated_elections) = s.(V4State_integrated_elections) ->
  same_votes s.(V4State_world).(files) s'.(V4State_world).(files) -> Forall no_vote out -> P s out s'.
Hypothesis cast_ok : forall request,
  V4IntegratedElectionRequest_validate request = Ok tt ->
  job_wf request.(V4IntegratedElectionRequest_job_id) -> ok_any (cast_vote store request).
Hypothesis self_ok : forall vote,
  vote.(V4IntegratedElectionRecord_candidate) = local -> ok_any (cast_self_vote store vote).

Lemma P_refl s : P s [] s.
Proof. by apply P_same. Qed.

(** ** Sections *)
Lemma ok_frame_step {A} (f : V4Env -> V4State -> option (A * V4State * list V4Effect)) (Q : A -> Prop) :
  (forall e s a s' out, f e s = Some (a, s', out) -> frame s s' /\ Forall no_vote out /\ Q a) ->
  ok (Step f Done) Q.
Proof.
  intros Hf. apply obeys_step. intros e s a s' out [[] HV] Ha.
  destruct (Hf e s a s' out Ha) as ([Hd Ht Ho Hs He Hw] & Hout & HQ). split_and!; [|by apply P_same|done].
  split; [by split; rewrite ?Hd, ?Ht, ?Ho, ?Hs|]. rewrite He. by eapply V_same.
Qed.

Lemma ok_frame {A} (f : V4Env -> V4State -> A * V4State * list V4Effect) :
  (forall e s, frame s (f e s).1.2 /\ Forall no_vote (f e s).2) -> ok_any (atomic f).
Proof.
  intros Hf. apply ok_frame_step. intros e s a s' out [= Ha]. specialize (Hf e s). rewrite Ha in Hf.
  by destruct Hf.
Qed.

Lemma ok_look {A} (f : V4Env -> V4State -> A) : ok_any (reading f).
Proof. apply ok_frame. intros e s. by split; [apply frame_refl|]. Qed.

Lemma ok_change (f : V4Env -> V4State -> V4State) :
  (forall e s, frame s (f e s)) -> ok_any (updating f).
Proof. intros Hf. apply ok_frame. intros e s. by split; [apply Hf|]. Qed.

(** What is read of the state kept is intact. *)
Lemma ok_reads {A} (f : V4Env -> V4State -> A) (Q : A -> Prop) :
  (forall e s, intact s -> Q (f e s)) -> ok (reading f) Q.
Proof. intros Hf. apply obeys_reading; [apply P_refl|]. intros e s [Hi _]. by apply Hf. Qed.

Lemma ok_keeps (f : V4Env -> V4State -> V4State) :
  (forall e s, intact s -> intact (f e s)) ->
  (forall e s, (f e s).(V4State_integrated_elections) = s.(V4State_integrated_elections) /\
               (f e s).(V4State_world) = s.(V4State_world)) ->
  ok_any (updating f).
Proof.
  intros Hi Hf. apply obeys_updating. intros e s [Hs HV]. destruct (Hf e s) as [He Hw].
  split; [|by apply P_same; [|rewrite Hw|]]. split; [by apply Hi|]. by rewrite He, Hw.
Qed.

Lemma ok_files {A} (p : Prog (result A NodeError)) : harmless is_vote_file p -> ok_any (files_section p).
Proof.
  intros Hp. apply ok_frame_step. intros e s a s' out. unfold run_files.
  pose proof (harmless_run is_vote_file p e.(ve_faults) s.(V4State_world) Hp) as Hw.
  destruct (run _ p _) as [world [r|]]; [|done]. intros [= <- <- <-]. by split_and!.
Qed.

Lemma ok_attempt {A B} (t : v4 A) (k : A -> v4 B) : ok_any t -> (forall a, ok_any (k a)) -> ok_any (try_task t k).
Proof. intros Ht Hk. eapply obeys_try; [exact (obeys_mono _ _ _ _ _ Ht (fun _ _ _ _ => Logic.I)) | done | auto]. Qed.

Lemma ok_forever {A} : ok_any (@forever V4Env V4State V4Effect A).
Proof. by intros e s []. Qed.

Lemma ok_reject {A} condition text (k : v4 A) :
  (condition = false -> ok_any k) -> ok_any (reject_if condition text ?! k).
Proof. intros Hk. by destruct condition; [|apply Hk]. Qed.

Lemma ok_validated {A} r (k : v4 A) : (r = Ok tt -> ok_any k) -> ok_any (validated r ?! k).
Proof. intros Hk. destruct r as [[]|]; [by apply Hk | done]. Qed.

Lemma ok_expect {A B} text (o : option A) (k : A -> v4 B) :
  (forall a, o = Some a -> ok_any (k a)) -> ok_any (try_task (expect text o) k).
Proof. intros Hk. destruct o; [by apply Hk | done]. Qed.

(** ** What the handlers are made of *)
Lemma ok_transmit peer message : ok_any (transmit peer message).
Proof.
  apply ok_frame. intros e s. destruct (ve_send e); (split; [apply frame_refl|]); by repeat constructor.
Qed.

Lemma ok_mail mailbox inbound : ok_any (mail mailbox inbound).
Proof.
  apply ok_frame. intros e s. destruct (ve_closed e); (split; [apply frame_refl|]); by repeat constructor.
Qed.

Lemma ok_pause : ok_any pause.
Proof.
  apply ok_frame_step. intros e s a s' out. destruct (ve_elapsed e); [|done]. intros [= <- <- <-].
  by split_and!; [apply frame_refl|..].
Qed.

Lemma ok_receive_next : ok_any receive_next.
Proof.
  apply ok_frame_step. intros e s a s' out. destruct (ve_event e); [|destruct (ve_elapsed e); [|done]];
    intros [= <- <- <-]; by split_and!; [apply frame_refl|..].
Qed.

Lemma ok_create_job job : ok_any (create_job job).
Proof. apply ok_frame. intros e s. by split. Qed.

Lemma ok_in_time peer message : ok_any (transmitted_in_time peer message).
Proof.
  apply obeys_then; [|done]. eapply obeys_any, obeys_timeout; [apply P_refl | apply ok_transmit].
Qed.

Lemma ok_observe signer object job_id branch generation sequence digest :
  ok_any (V4Control.observe_claim signer object job_id branch generation sequence digest).
Proof.
  apply ok_frame. intros e s. by destruct (observe_authenticated_claim _ _ _ _ _ _ _ _ _).
Qed.

Lemma ok_write {T} `{Json T} name (value : T) : is_vote_file name = false -> ok_any (write_state store name value).
Proof. intros Hn. by apply ok_files, stored_harmless, write_json_harmless. Qed.

Lemma ok_remove name : is_vote_file name = false -> ok_any (files_section (remove_state_file name)).
Proof. intros Hn. by apply ok_files, remove_harmless. Qed.

Lemma ok_execute plan worker kind operation input output inputs graph model shard deadline :
  ok_any (execute_backend_task arch host_memory plan worker kind operation input output inputs graph
            model shard deadline).
Proof.
  unfold execute_backend_task. destruct (compute_task_requirements _ _ _ _ _) as [backend requirements].
  apply ok_frame_step. intros e s a s' out. cbn zeta.
  destruct (run_backends _ _ _ _ _ _ _) as [[r registry]|]; [|done]. intros [= <- <- <-]. by split_and!.
Qed.

#[local] Hint Resolve ok_look ok_transmit ok_mail ok_pause ok_receive_next ok_create_job ok_in_time
  ok_observe ok_execute ok_forever : v4.

(** Follows a task down to its sections. *)
Ltac walk :=
  repeat match goal with
    | |- forall _, _ => intros ?
    | |- obeys _ _ (Done _) _ => done
    | |- obeys _ _ (let _ := _ in _) _ => cbv zeta
    | |- obeys _ _ (match ?x with _ => _ end) _ => destruct x eqn:?
    | |- obeys _ _ (reject_if _ _ ?! _) _ => apply ok_reject
    | |- obeys _ _ (validated _ ?! _) _ => apply ok_validated
    | |- obeys _ _ (try_task (expect _ _) _) _ => apply ok_expect
    | |- obeys _ _ (tbind _ _) _ => apply obeys_then
    | |- obeys _ _ (try_task _ _) _ => apply ok_attempt
    | |- obeys _ _ (ignore _) _ => eapply obeys_ignore
    | |- obeys _ _ (updating _) _ => apply ok_change; intros ? ?; by split
    | |- obeys _ _ (for_task _ _) _ => apply obeys_for, Forall_forall; intros ? _
    | |- obeys _ _ (refuse _) _ => done
    | |- obeys _ _ (reject_if ?c _) _ => by destruct c
    | |- obeys _ _ (write_state _ _ _) _ => by apply ok_write
    | |- obeys _ _ (timeout _ _) _ => eapply obeys_any, obeys_timeout; [apply P_refl|]
    | |- _ => solve [eauto 2 with v4]
    end.

Lemma ok_send_control peer message : ok_any (send_control_message peer message).
Proof. unfold send_control_message. walk. Qed.

Lemma ok_send_v4 peer message : ok_any (send_v4_control_message peer message).
Proof. pose proof ok_send_control. unfold send_v4_control_message. walk. Qed.

Lemma ok_receive_message n : ok_any (receive_message n).
Proof. induction n; cbn [receive_message]; walk. Qed.

Lemma ok_remove_job job : ok_any (V4Model.remove_job job).
Proof. unfold V4Model.remove_job. walk. Qed.

Lemma ok_persist_security : ok_any (V4Control.persist_security_state security_to_allocvec store).
Proof. unfold V4Control.persist_security_state. walk. Qed.

#[local] Hint Resolve ok_send_control ok_send_v4 ok_receive_message ok_remove_job ok_persist_security : v4.

Lemma ok_claimed signer object job_id branch generation sequence digest :
  ok_any (claimed security_to_allocvec store signer object job_id branch generation sequence digest).
Proof. unfold claimed. walk. Qed.

Lemma ok_deliver peer job_id message : ok_any (deliver_v4_message local peer job_id message).
Proof. unfold deliver_v4_message, mailbox_of. walk. Qed.

#[local] Hint Resolve ok_claimed ok_deliver : v4.

(** ** Plans and records *)
Lemma ok_remove_files names : Forall (fun name => is_vote_file name = false) names -> ok_any (remove_state_files names).
Proof. induction 1; cbn [remove_state_files]; [done|]. apply ok_attempt; [by apply ok_remove | done]. Qed.

Lemma ok_prune job_id retain : ok_any (prune_checkpoint_history job_id retain).
Proof.
  apply ok_attempt; [apply ok_files, asks_harmless; by split|]. intros names. cbv zeta.
  apply ok_remove_files, Forall_forall. intros name Hin.
  apply list_elem_of_fmap in Hin as ([generation name'] & -> & Hin). cbn.
  apply subseteq_drop, elem_of_sort_by_key in Hin.
  apply list_elem_of_omap in Hin as (name & _ & Hname). apply bind_Some in Hname as (number & Hb & Hn).
  destruct (parse_u64 number); [|done]. injection Hn as -> ->. by eapply between_not_vote.
Qed.

Lemma ok_persist_checkpoint checkpoint : ok_any (V4Control.persist_checkpoint store checkpoint).
Proof. pose proof ok_prune. unfold V4Control.persist_checkpoint. walk. Qed.

#[local] Hint Resolve ok_persist_checkpoint : v4.

Lemma ok_state_record peer record : ok_any (receive_state_record security_to_allocvec store peer record).
Proof. unfold receive_state_record, persist_training_state, send_state_ack. walk. Qed.

Lemma ok_optimizer_shard peer record :
  ok_any (receive_optimizer_shard security_to_allocvec local store peer record).
Proof. unfold receive_optimizer_shard, persist_optimizer_shard, send_state_ack. walk. Qed.

Lemma ok_checkpoint_record peer record :
  ok_any (receive_checkpoint_record security_to_allocvec local store peer record).
Proof. unfold receive_checkpoint_record, send_state_ack. walk. Qed.

Lemma ok_keep_proposal plan : ok_any (keep_proposal store plan).
Proof.
  apply ok_frame_step. intros e s a s' out. cbn zeta. destruct (is_none_or _ _).
  2:{ intros [= <- <- <-]. by split_and!; [apply frame_refl|..]. }
  destruct (_ && _); [intros [= <- <- <-]; by split_and!; [apply frame_refl|..]|]. unfold run_files.
  assert (Hp : harmless is_vote_file (persist_plan_proposal store plan))
    by by apply stored_harmless, write_json_harmless.
  pose proof (harmless_run is_vote_file _ e.(ve_faults) s.(V4State_world) Hp) as Hw.
  destruct (run _ _ _) as [world [[[]|error]|]]; [| |done]; intros [= <- <- <-]; by split_and!.
Qed.

#[local] Hint Resolve ok_keep_proposal : v4.

Lemma ok_plan_proposal peer plan :
  ok_any (receive_plan_proposal security_to_allocvec local store peer plan).
Proof. unfold receive_plan_proposal, active_plan. walk. Qed.

(** A section that updates one of the maps of what is kept. *)
Lemma ok_keep {A} (f : V4Env -> V4State -> A * V4State * list V4Effect) :
  (forall e s, intact s -> intact (f e s).1.2) ->
  (forall e s, (f e s).1.2.(V4State_integrated_elections) = s.(V4State_integrated_elections) /\
               (f e s).1.2.(V4State_world) = s.(V4State_world) /\ (f e s).2 = []) ->
  ok_any (atomic f).
Proof.
  intros Hi Hf. apply obeys_atomic. intros e s [Hs HV]. specialize (Hi e s Hs). specialize (Hf e s).
  destruct (f e s) as [[a s'] out]. cbn in *. destruct Hf as (He & Hw & ->).
  split_and!; [|by apply P_same; [|rewrite Hw|]|done]. split; [done|]. by rewrite He, Hw.
Qed.

Lemma ok_sync plan :
  0 < plan.(V4TrainingPlan_plan_generation) ->
  ok_any (sync_local_execution_state_to_plan local store plan).
Proof.
  intros Hg. unfold sync_local_execution_state_to_plan, sync_local_data_shards_to_plan,
    persist_data_shard, persist_tensor_shard, persist_pipeline_stage.
  apply obeys_then; [|intros _; apply obeys_then; [|intros _]]; (apply obeys_then; [|by intros ?; walk]);
    apply ok_keep; try done; intros e s []; split; try done; apply sync_map_kept; try done; intros entry entry'.
  - apply sync_data_kept.
  - by apply sync_tensor_kept.
  - apply sync_stage_kept.
Qed.

Lemma ok_activate plan : valid_plan plan = true -> ok_any (activate local store plan).
Proof.
  intros Hp. pose proof (ok_sync plan (valid_plan_generation _ Hp)).
  assert (ok_any (remove_plan_proposal plan.(V4TrainingPlan_job_id))) by by apply ok_remove.
  unfold activate. walk. by apply ok_frame.
Qed.

Lemma ok_plan peer plan :
  ok_any (receive_plan security_to_allocvec local store NodeError_to_string peer plan).
Proof.
  unfold receive_plan, active_plan, persist_plan. walk. apply ok_activate.
  match goal with Ha : accepts_plan _ _ _ _ _ = true |- _ => unfold accepts_plan in Ha end. by breflect.
Qed.

(** ** Data shards *)
Lemma ok_insert_data shard :
  valid_local_data_shard shard = true ->
  ok_any (updating (fun _ s => set_V4State_data_shards
    (<[(shard.(V4LocalDataShard_job_id), shard.(V4LocalDataShard_shard_id)) := shard]>
       s.(V4State_data_shards)) s) : vtask unit).
Proof. intros Hv. apply ok_keeps; [|done]. intros e s []. split; try done. by apply map_Forall_insert_2. Qed.

Lemma ok_migration peer migration : ok_any (receive_shard_migration local store peer migration).
Proof.
  unfold receive_shard_migration, prepare_migration, abort_migration, send_migration_ack. walk.
  - unfold persist_data_shard. walk.
  - apply ok_insert_data. unfold valid_local_data_shard. cbn. breflect.
    rewrite bool_decide_eq_true_2, andb_true_r by done. by apply N.leb_le.
  - apply ok_keeps; [|done]. intros e s []. split; try done. by apply map_Forall_delete.
  - by apply ok_remove.
Qed.

Lemma ok_await n wanted : ok_any (await_message fuel n wanted).
Proof. induction n; cbn [await_message]; walk. Qed.

#[local] Hint Resolve ok_await : v4.

Lemma ok_transfer shard target plan_generation ownership_generation :
  ok_any (transfer_shard_without_plan_commit local fuel shard target plan_generation ownership_generation).
Proof. unfold transfer_shard_without_plan_commit, transfer_shard. walk. Qed.

#[local] Hint Resolve ok_transfer : v4.

Lemma ok_migration_request peer request :
  ok_any (receive_shard_migration_request local fuel NodeError_to_string peer request).
Proof. unfold receive_shard_migration_request, serve_migration, active_plan. walk. Qed.

(** ** Integrated jobs *)
Lemma ok_publish state : ok_any (publish_state store state).
Proof. unfold publish_state, persist_integrated_state. walk. Qed.

Lemma ok_start_driver graph plan state windows every resumed mailbox :
  ok_any (start_driver graph plan state windows every resumed mailbox).
Proof. apply ok_frame. intros e s. split; [apply frame_refl | by repeat constructor]. Qed.

Lemma ok_start_participant graph windows every mailbox :
  ok_any (start_participant graph windows every mailbox).
Proof. apply ok_frame. intros e s. split; [apply frame_refl | by repeat constructor]. Qed.

#[local] Hint Resolve ok_publish ok_start_driver ok_start_participant : v4.

Lemma ok_integrated_start peer start :
  ok_any (receive_integrated_start security_to_allocvec local store peer start).
Proof.
  unfold receive_integrated_start, follow_integrated_start, adopt_graph, persist_plan, persist_execution_graph, active_graph,
    mailbox_of. walk.
Qed.

Lemma ok_integrated_state peer state : ok_any (receive_integrated_state local store peer state).
Proof. unfold receive_integrated_state, ack_integrated_state, active_graph. walk. Qed.

Lemma ok_probe peer probe : ok_any (receive_integrated_probe local peer probe).
Proof. unfold receive_integrated_probe, active_graph. walk. Qed.

Lemma ok_probe_ack peer ack : ok_any (receive_integrated_probe_ack peer ack).
Proof. unfold receive_integrated_probe_ack, mailbox_of. walk. Qed.

Lemma ok_election peer request :
  job_wf request.(V4IntegratedElectionRequest_job_id) ->
  ok_any (receive_integrated_election_request local store peer request).
Proof.
  intros Hj. pose proof cast_ok. unfold receive_integrated_election_request, active_graph. walk.
Qed.

(** ** Tensors *)
Lemma ok_authorized peer job_id plan_generation :
  ok_any (authorized_reference_plan local peer job_id plan_generation).
Proof. unfold authorized_reference_plan, active_plan. walk. Qed.

Lemma ok_context peer job_id plan_generation :
  ok_any (authorized_integrated_pipeline_context local peer job_id plan_generation).
Proof. unfold authorized_integrated_pipeline_context, active_plan, active_graph. walk. Qed.

Lemma ok_persist_tensor shard : ok_any (persist_tensor_shard store shard).
Proof. by apply ok_write. Qed.

Lemma ok_put_tensor key shard :
  tensor_kept key shard ->
  ok_any (updating (fun _ s =>
    set_V4State_tensor_shards (<[key := shard]> s.(V4State_tensor_shards)) s) : vtask unit).
Proof. intros Hv. apply ok_keeps; [|done]. intros e s []. split; try done. by apply map_Forall_insert_2. Qed.

Lemma ok_insert_tensor shard :
  valid_local_tensor_shard shard = true -> ok_any (insert_tensor shard).
Proof. intros Hv. by apply ok_put_tensor. Qed.

Lemma ok_read_tensor key :
  ok (reading (fun _ s => s.(V4State_tensor_shards) !! key) : vtask (option V4LocalTensorShard))
     (fun known => forall shard, known = Some shard -> tensor_kept key shard).
Proof. apply ok_reads. intros e s Hs shard Hk. by apply (intact_tensors s Hs). Qed.

#[local] Hint Resolve ok_authorized ok_context ok_persist_tensor : v4.

Lemma ok_tensor_install peer install : ok_any (receive_tensor_install local store peer install).
Proof.
  unfold receive_tensor_install, ack_tensor. cbv zeta. apply ok_validated. intros Hv. apply ok_reject. intros Hh.
  breflect. apply ok_attempt; [apply ok_authorized|]. intros plan. apply ok_reject. intros _.
  eapply obeys_tbind; [apply ok_read_tensor|]. intros existing He. walk.
  - apply ok_put_tensor, tensor_kept_generation; [breflect; lia | by apply He].
  - by apply ok_insert_tensor, installed_tensor_valid.
Qed.

Lemma merge_replica_kept incoming shards :
  valid_local_tensor_shard incoming = true -> map_Forall tensor_kept shards ->
  map_Forall tensor_kept (merge_replica incoming shards).2.
Proof.
  intros Hv Hs. unfold merge_replica. cbv zeta.
  repeat case_match; cbn; try done; by apply map_Forall_insert_2.
Qed.

Lemma ok_tensor_replica peer replica : ok_any (receive_tensor_replica local store peer replica).
Proof.
  unfold receive_tensor_replica, active_plan. walk. breflect. apply ok_keep.
  - intros e s []. destruct (merge_replica _ _) as [accepted shards] eqn:Hm. split; try done.
    change shards with (accepted, shards).2. rewrite <- Hm. by apply merge_replica_kept.
  - intros e s. by destruct (merge_replica _ _).
Qed.

Lemma ok_tensor_forward peer forward : ok_any (receive_tensor_forward local arch host_memory peer forward).
Proof. unfold receive_tensor_forward. walk. Qed.

(** ** Optimizer states *)
Lemma ok_persist_optimizer state : ok_any (persist_optimizer_state store state).
Proof. by apply ok_write. Qed.

Lemma ok_insert_optimizer key state : optimizer_kept key state -> ok_any (insert_optimizer_state key state).
Proof. intros Hv. apply ok_keeps; [|done]. intros e s []. split; try done. by apply map_Forall_insert_2. Qed.

Lemma ok_read_optimizer key :
  ok (reading (fun _ s => s.(V4State_optimizer_states) !! key) : vtask (option V4LocalOptimizerState))
     (fun known => forall state, known = Some state -> optimizer_kept key state).
Proof. apply ok_reads. intros e s Hs state Hk. by apply (intact_optimizers s Hs). Qed.

#[local] Hint Resolve ok_persist_optimizer : v4.

Lemma merge_optimizer_kept install current outcome replacement :
  (forall state, current = Some state ->
     optimizer_kept (install.(V4OptimizerStateInstall_job_id), install.(V4OptimizerStateInstall_shard_id)) state) ->
  valid_local_optimizer_state (state_of_install install) = true ->
  merge_optimizer_state install current = Ok outcome -> outcome.2 = Some replacement ->
  optimizer_kept (install.(V4OptimizerStateInstall_job_id), install.(V4OptimizerStateInstall_shard_id)) replacement.
Proof.
  intros Hc Hv Hm Hr. unfold merge_optimizer_state in Hm. destruct current as [current|].
  - inv_ok Hm. injection Hm as <-. repeat case_match; try done; injection Hr as <-; [|done].
    apply promote_kept. by apply Hc.
  - injection Hm as <-. by injection Hr as <-.
Qed.

Lemma ok_optimizer_install peer install : ok_any (receive_optimizer_state_install local store peer install).
Proof.
  unfold receive_optimizer_state_install, active_plan, active_graph. cbv zeta.
  apply ok_validated. intros Hv. apply ok_reject. intros Hh. breflect.
  pose proof (state_of_install_valid _ Hv Hh) as Hvalid.
  apply obeys_then; [apply ok_look|]. intros known. apply ok_expect. intros plan _.
  apply obeys_then; [apply ok_look|]. intros known'. apply ok_expect. intros graph _.
  apply ok_expect. intros placement _. apply ok_reject. intros _. apply obeys_then; [apply ok_look|].
  intros model. apply ok_reject. intros _.
  eapply (obeys_tbind _ _ _ _ _ (fun merged => forall outcome replacement, merged = Ok outcome ->
    outcome.2 = Some replacement -> optimizer_kept _ replacement)).
  { apply ok_reads. intros e s Hs outcome replacement. apply merge_optimizer_kept; [|done].
    intros state Hst. by apply (intact_optimizers s Hs). }
  intros [outcome|error] Hm; [|done].
  unfold try_task at 1. cbn [tbind]. walk. apply ok_insert_optimizer. by eapply Hm.
Qed.

Lemma ok_replicate_install install replicas : ok_any (replicate_install local install replicas).
Proof. induction replicas; cbn [replicate_install]; walk. Qed.

#[local] Hint Resolve ok_replicate_install : v4.

Lemma ok_update_optimizer job_id plan_generation shard_id gradients sequence :
  ok_any (update_optimizer_state_and_replicate local store job_id plan_generation shard_id gradients sequence).
Proof.
  unfold update_optimizer_state_and_replicate, active_graph, active_plan. walk. breflect.
  by apply ok_insert_optimizer.
Qed.

#[local] Hint Resolve ok_update_optimizer : v4.

Lemma ok_apply_optimizer key already plan_generation gradients sequence :
  ok_any (apply_optimizer local store key already plan_generation gradients sequence).
Proof. unfold apply_optimizer. walk. Qed.

Lemma ok_apply_gradients key shard rate gradients sequence :
  tensor_kept key shard -> ok_any (apply_gradients store key shard rate gradients sequence).
Proof. intros Hk. unfold apply_gradients. walk. by apply ok_put_tensor, step_tensor_kept. Qed.

Lemma ok_gradients plan shard upstream plan_generation model_generation shard_id :
  ok_any (tensor_gradients local arch host_memory plan shard upstream plan_generation model_generation shard_id).
Proof. unfold tensor_gradients. walk. Qed.

Lemma ok_replicate_tensor plan shard : ok_any (replicate_tensor local plan shard).
Proof. unfold replicate_tensor. walk. Qed.

#[local] Hint Resolve ok_apply_optimizer ok_gradients ok_replicate_tensor : v4.

Lemma ok_tensor_backward peer backward :
  ok_any (receive_tensor_backward local store arch host_memory peer backward).
Proof.
  unfold receive_tensor_backward. cbv zeta. apply ok_attempt; [apply ok_authorized|]. intros plan.
  apply ok_reject. intros _. eapply obeys_tbind; [apply ok_read_tensor|]. intros known Hk.
  apply ok_expect. intros shard ->. destruct (Hk shard eq_refl) as [Hkey Hv]. walk. by apply ok_apply_gradients.
Qed.

Lemma ok_install_local_tensor install : ok_any (install_local_tensor_shard store install).
Proof.
  unfold install_local_tensor_shard. cbv zeta. eapply obeys_tbind; [apply ok_read_tensor|].
  intros existing He. walk; breflect; [|by apply ok_insert_tensor..].
  specialize (He _ eq_refl). apply ok_put_tensor, tensor_kept_generation; [|exact He].
  destruct He as [_ Hv%valid_tensor_spec]. destruct Hv. lia.
Qed.

Lemma ok_local_forward plan graph_generation job_id shard_id input :
  ok_any (local_tensor_forward local arch host_memory plan graph_generation job_id shard_id input).
Proof. unfold local_tensor_forward. walk. Qed.

Lemma ok_local_backward plan job_id plan_generation spec sequence input upstream :
  ok_any (local_tensor_backward local store arch host_memory plan job_id plan_generation spec sequence
            input upstream).
Proof.
  unfold local_tensor_backward. cbv zeta. eapply obeys_tbind; [apply ok_read_tensor|]. intros known Hk.
  apply ok_expect. intros shard ->. walk. apply ok_apply_gradients. by apply Hk.
Qed.

Lemma ok_install_local_optimizer install : ok_any (install_local_optimizer_state store install).
Proof.
  unfold install_local_optimizer_state. cbv zeta. eapply obeys_tbind; [apply ok_read_optimizer|].
  intros existing He. walk; breflect; apply ok_insert_optimizer; [|by split..]. by apply promote_kept, He.
Qed.

(** ** Pipeline stages *)
Lemma ok_persist_stage stage : ok_any (persist_pipeline_stage store stage).
Proof. by apply ok_write. Qed.

Lemma ok_put_stage key stage :
  stage_kept key stage ->
  ok_any (updating (fun _ s =>
    set_V4State_pipeline_stages (<[key := stage]> s.(V4State_pipeline_stages)) s) : vtask unit).
Proof. intros Hv. apply ok_keeps; [|done]. intros e s []. split; try done. by apply map_Forall_insert_2. Qed.

Lemma ok_insert_stage stage : valid_local_pipeline_stage stage = true -> ok_any (insert_stage stage).
Proof. intros Hv. by apply ok_put_stage. Qed.

Lemma ok_install_plan peer install : ok_any (pipeline_install_plan local peer install).
Proof. unfold pipeline_install_plan. walk. Qed.

Lemma ok_pipeline_context peer reply_to job_id plan_generation :
  ok_any (pipeline_context local peer reply_to job_id plan_generation).
Proof. unfold pipeline_context. walk. Qed.

#[local] Hint Resolve ok_persist_stage ok_install_plan ok_pipeline_context : v4.

Lemma ok_pipeline_install peer install : ok_any (receive_pipeline_install local store peer install).
Proof.
  unfold receive_pipeline_install, ack_stage. cbv zeta. apply ok_validated. intros Hv. apply ok_reject. intros Hh.
  breflect. apply ok_attempt; [apply ok_install_plan|]. intros plan. apply ok_reject. intros _.
  eapply (obeys_tbind _ _ _ _ _ (fun known => forall stage, known = Some stage -> stage_kept _ stage)).
  { apply ok_reads. intros e s Hs stage Hk. by apply (intact_stages s Hs). }
  intros existing He. walk.
  - apply ok_put_stage. by destruct (He _ eq_refl).
  - by apply ok_insert_stage, installed_stage_valid.
Qed.

Lemma ok_install_local_stage install :
  unsigned_abs install.(V4PipelineInstall_coefficient) <= 1000000000 ->
  ok_any (install_local_pipeline_stage store install).
Proof.
  intros Hc. unfold install_local_pipeline_stage. walk. breflect. apply ok_insert_stage.
  unfold valid_local_pipeline_stage. cbn. rewrite bool_decide_eq_true_2, andb_true_r by done.
  repeat (apply andb_true_iff; split); first [apply N.leb_le | apply N.ltb_lt]; lia.
Qed.

Lemma ok_pipeline_forward peer forward :
  ok_any (receive_pipeline_forward local arch host_memory peer forward).
Proof.
  unfold receive_pipeline_forward, reference_forward_route, deliver_pipeline_result, active_graph. walk.
Qed.

Lemma ok_pipeline_backward peer backward :
  ok_any (receive_pipeline_backward local arch host_memory peer backward).
Proof. unfold receive_pipeline_backward, deliver_pipeline_result. walk. Qed.

Lemma ok_local_stage_forward plan job_id plan_generation stage_id activation :
  ok_any (local_pipeline_stage_forward local arch host_memory plan job_id plan_generation stage_id activation).
Proof. unfold local_pipeline_stage_forward, local_stage. walk. Qed.

Lemma ok_local_stage_backward plan job_id plan_generation stage_id gradient :
  ok_any (local_pipeline_stage_backward local arch host_memory plan job_id plan_generation stage_id gradient).
Proof. unfold local_pipeline_stage_backward, local_stage. walk. Qed.

(** ** Collectives and aggregation *)
Lemma ok_with_collective {A} request_id fresh
    (f : list nat -> V4CollectiveState -> result A NodeError * V4CollectiveState) :
  ok_any (with_collective request_id fresh f).
Proof.
  apply ok_frame. intros e s. cbv zeta. destruct (_ && _); [by split; [apply frame_refl|]|].
  by destruct (f _ _).
Qed.

#[local] Hint Resolve ok_with_collective : v4.

Lemma ok_finish_group c : ok_any (finish_collective_group local c).
Proof. unfold finish_collective_group, remove_collective. walk. Qed.

#[local] Hint Resolve ok_finish_group : v4.

Lemma ok_contribution peer c : ok_any (receive_collective_contribution local peer c).
Proof. unfold receive_collective_contribution. walk. Qed.

Lemma ok_aggregate peer a : ok_any (receive_collective_aggregate local peer a).
Proof. unfold receive_collective_aggregate, remove_collective. walk. Qed.

Lemma ok_admit u plan : ok_any (V4Node.admit_update security_to_allocvec store u plan).
Proof.
  unfold V4Node.admit_update. walk. apply ok_frame. intros e s. by destruct (admit_training_update _ _ _ _).
Qed.

Lemma ok_contribute u : ok_any (contribute_update u).
Proof.
  apply ok_frame. intros e s. cbv zeta. destruct (_ && _); [by split; [apply frame_refl|]|].
  by destruct (join_update _ _ _).
Qed.

Lemma ok_note_rejected workers : ok_any (note_rejected security_to_allocvec store workers).
Proof. unfold note_rejected. walk. Qed.

Lemma ok_complete request_id result : ok_any (complete_byzantine request_id result).
Proof. unfold complete_byzantine. walk. Qed.

#[local] Hint Resolve ok_admit ok_contribute ok_note_rejected ok_complete : v4.

Lemma ok_byzantine peer u : ok_any (receive_byzantine_update security_to_allocvec local store peer u).
Proof. unfold receive_byzantine_update. walk. Qed.

Lemma ok_reconcile peer request : ok_any (receive_reconcile local peer request).
Proof. unfold receive_reconcile. walk. Qed.

(** ** Probes and changes of the graph *)
Lemma ok_wait : ok_any wait_event.
Proof.
  apply ok_frame_step. intros e s a s' out. destruct (ve_event e) as [[]|]; [| |destruct (ve_elapsed e); [|done]];
    intros [= <- <- <-]; by split_and!; [apply frame_refl|..].
Qed.

Lemma ok_passed : ok_any is_past.
Proof. apply ok_look. Qed.

Lemma ok_traversed nodes : ok_any (traversed nodes).
Proof. apply ok_look. Qed.

Lemma ok_random : ok_any random_job_id.
Proof. apply ok_look. Qed.

Lemma ok_profiles : ok_any worker_profiles.
Proof. apply ok_look. Qed.

#[local] Hint Resolve ok_wait ok_passed ok_traversed ok_random ok_profiles : v4.

Lemma ok_send_probes probe peers pending : ok_any (send_probes probe peers pending).
Proof. revert pending. induction peers; intros pending; cbn [send_probes]; walk. Qed.

Lemma ok_await_probes n request_id graph pending confirmed : ok_any (await_probes n request_id graph pending confirmed).
Proof. revert pending confirmed. induction n; intros pending confirmed; cbn [await_probes]; walk. Qed.

#[local] Hint Resolve ok_send_probes ok_await_probes : v4.

Lemma ok_probe_members graph state : ok_any (probe_integrated_members local fuel graph state).
Proof. unfold probe_integrated_members. walk. Qed.

#[local] Hint Resolve ok_probe_members : v4.

Lemma ok_quorum graph state failed : ok_any (has_integrated_reconfiguration_quorum local fuel graph state failed).
Proof. unfold has_integrated_reconfiguration_quorum. walk. Qed.

Lemma ok_unavailable graph state : ok_any (first_unavailable_worker local fuel graph state).
Proof.
  unfold first_unavailable_worker. generalize (@None (gset NodeId)).
  induction V4_UNAVAILABLE_PROBE_ROUNDS as [|n IH]; intros previous; cbn [unavailable_rounds]; walk.
Qed.

Lemma ok_detect graph state : ok_any (detect_unavailable_worker local fuel graph state).
Proof. apply ok_unavailable. Qed.

Lemma ok_slowest graph state : ok_any (slowest_responsive_worker local fuel graph state).
Proof. unfold slowest_responsive_worker. walk. Qed.

Lemma ok_joined graph : ok_any (find_joined_worker graph).
Proof. unfold find_joined_worker. walk. Qed.

Lemma ok_branch_commit old_graph graph failed policy :
  ok_any (persist_integrated_branch_commit store old_graph graph failed policy).
Proof. unfold persist_integrated_branch_commit. walk. Qed.

#[local] Hint Resolve ok_quorum ok_unavailable ok_detect ok_slowest ok_joined ok_branch_commit : v4.

(** The plan of a graph that is active, or becomes so. *)
Definition next_ok (next : transition) : Prop := 0 < next.1.2.(V4TrainingPlan_plan_generation).

Notation ok_next t := (ok t (fun r => forall next, r = Ok next -> next_ok next)).

Lemma succeeds_ok old_graph old_plan old_state failed joined certificate graph plan state :
  succeeds local old_graph old_plan old_state failed joined certificate graph plan state -> next_ok (graph, plan, state).
Proof. intros Hs. destruct (next_valid _ _ _ _ _ _ _ _ _ _ Hs) as (Hv & _). by apply plan_generation_positive. Qed.

Lemma ok_reconfigure old_graph old_plan old_state failed joined certificate :
  ok_next (reconfigure_integrated_graph_membership local store old_graph old_plan old_state failed joined certificate).
Proof.
  apply (obeys_learns _ _ _ []).
  - unfold reconfigure_integrated_graph_membership, persist_plan, persist_execution_graph, persist_integrated_state. walk.
  - eapply learns_mono; [apply reconfigure_learns|]. intros envs r Hr [[graph plan] state] ->.
    destruct (Hr _ _ _ eq_refl) as [Hs _]. by eapply succeeds_ok.
Qed.

Lemma ok_straggler graph plan state :
  ok (maybe_reconfigure_straggler local store fuel graph plan state)
    (fun r => forall worker next, r = Ok (Some (worker, next)) -> next_ok next).
Proof.
  unfold maybe_reconfigure_straggler. apply obeys_then; [auto with v4|]. intros [worker|]; [|done].
  apply obeys_then; [auto with v4|]. intros []; cbn [negb]; [|done].
  eapply obeys_try; [apply ok_reconfigure | done |]. intros next Hn ? ? [= <- <-]. done.
Qed.

(** ** The driver *)

#[local] Hint Resolve ok_install_local_tensor ok_install_local_optimizer ok_local_forward ok_local_backward
  ok_local_stage_forward ok_local_stage_backward ok_straggler : v4.

Lemma ok_await_all {K} `{Countable K} n what answer pending : ok_any (await_all (K := K) n what answer pending).
Proof. revert pending. induction n; intros pending; cbn [await_all]; walk. Qed.

Lemma ok_collect {K A} `{Countable K} n what answer pending got :
  ok_any (collect_answers (K := K) (A := A) n what answer pending got).
Proof. revert pending got. induction n; intros pending got; cbn [collect_answers]; walk. Qed.

Lemma ok_await_some {K} `{Countable K} n answer pending : ok_any (await_some (K := K) n answer pending).
Proof. revert pending. induction n; intros pending; cbn [await_some]; walk. Qed.

Lemma ok_notify worker plan : ok_any (send_plan_notification local worker plan).
Proof. unfold send_plan_notification. walk. Qed.

Lemma ok_plan_acks n plan pending : ok_any (await_plan_acks fuel n plan pending).
Proof. revert pending. induction n; intros pending; cbn [await_plan_acks]; walk. Qed.

#[local] Hint Resolve ok_await_all ok_collect ok_await_some ok_notify ok_plan_acks : v4.

Lemma ok_plan_attempts n first plan pending : ok_any (plan_attempts local fuel n first plan pending).
Proof. revert first pending. induction n; intros first pending; cbn [plan_attempts]; walk. Qed.

#[local] Hint Resolve ok_plan_attempts : v4.

Lemma ok_acknowledge plan recipients : ok_any (acknowledge_plan_update local fuel plan recipients).
Proof. unfold acknowledge_plan_update. walk. Qed.

Lemma ok_graph_acks n first graph start pending : ok_any (await_graph_acks n first graph start pending).
Proof. revert first pending. induction n; intros first pending; cbn [await_graph_acks]; walk. Qed.

#[local] Hint Resolve ok_acknowledge ok_graph_acks : v4.

Lemma ok_install_at {K} `{Countable K} target here message unreachable key pending :
  ok_any here -> ok_any (install_at (K := K) local target here message unreachable key pending).
Proof. intros Hh. unfold install_at. walk. Qed.

Lemma ok_install_at_all {K} `{Countable K} targets here message unreachable key pending :
  ok_any here -> ok_any (install_at_all (K := K) local targets here message unreachable key pending).
Proof.
  intros Hh. revert pending. induction targets; intros pending; cbn [install_at_all]; walk. by apply ok_install_at.
Qed.

#[local] Hint Resolve ok_install_at ok_install_at_all : v4.

Lemma ok_install_tensors graph plan shards pending : ok_any (install_tensors local store graph plan shards pending).
Proof. revert pending. induction shards; intros pending; cbn [install_tensors]; walk. Qed.

Lemma ok_install_optimizers graph plan placements pending :
  ok_any (install_optimizers local store graph plan placements pending).
Proof. revert pending. induction placements; intros pending; cbn [install_optimizers]; walk. Qed.

Lemma ok_install_stages graph plan stages pending : ok_any (install_stages local store graph plan stages pending).
Proof.
  revert pending. induction stages as [|stage stages IH]; intros pending; cbn [install_stages]; [done|]. cbv zeta.
  apply ok_attempt; [|done]. apply ok_install_at_all, ok_install_local_stage. cbn. by destruct (_ =? 0).
Qed.

#[local] Hint Resolve ok_install_tensors ok_install_optimizers ok_install_stages : v4.

Lemma ok_broadcast graph state : ok_any (broadcast_integrated_state local graph state).
Proof. unfold broadcast_integrated_state. walk. Qed.

#[local] Hint Resolve ok_broadcast : v4.

Lemma ok_commit_activation graph state windows :
  ok_any (commit_integrated_graph_activation local store graph state windows).
Proof. unfold commit_integrated_graph_activation. walk. Qed.

Lemma ok_activate_install graph plan windows checkpoint_every :
  0 < plan.(V4TrainingPlan_plan_generation) ->
  ok_any (activate_and_install_integrated_graph local store fuel graph plan windows checkpoint_every).
Proof.
  intros Hg. pose proof (ok_sync plan Hg).
  unfold activate_and_install_integrated_graph, activate_integrated_graph, install_integrated_tensor_state,
    install_integrated_optimizer_state, install_integrated_pipeline_state. walk.
Qed.

#[local] Hint Resolve ok_commit_activation ok_activate_install : v4.

Lemma ok_attempts n next windows checkpoint_every :
  next_ok next -> ok_next (activation_attempts local store fuel n next windows checkpoint_every).
Proof.
  revert next. induction n as [|n IH]; intros [[graph plan] state] Hn; cbn [activation_attempts]; [done|].
  apply obeys_then; [by apply ok_activate_install|]. intros [u|error].
  - eapply obeys_try with (R := fun _ => True); [|done|by intros ? _ ? [= <-]].
    eapply obeys_mono; [apply ok_commit_activation | done].
  - apply obeys_then; [auto with v4|]. intros [failed|]; [|by apply IH].
    apply obeys_then; [auto with v4|]. intros []; cbn [negb]; [|done].
    eapply obeys_try; [apply ok_reconfigure | done | apply IH].
Qed.

Lemma ok_recover next windows checkpoint_every :
  next_ok next -> ok_next (activate_integrated_graph_with_recovery local store fuel next windows checkpoint_every).
Proof. apply ok_attempts. Qed.

Lemma ok_forward_shards request_id sequence graph plan shards outputs pending :
  ok_any (forward_shards local arch host_memory request_id sequence graph plan shards outputs pending).
Proof. revert outputs pending. induction shards; intros outputs pending; cbn [forward_shards]; walk. Qed.

Lemma ok_backward_shards request_id sequence graph plan upstream shards hashes pending :
  ok_any (backward_shards local store arch host_memory request_id sequence graph plan upstream shards hashes pending).
Proof. revert hashes pending. induction shards; intros hashes pending; cbn [backward_shards]; walk. Qed.

#[local] Hint Resolve ok_forward_shards ok_backward_shards : v4.

Lemma ok_tensor_round graph plan window :
  ok_any (tensor_training_round local store arch host_memory fuel graph plan window).
Proof. unfold tensor_training_round. walk. Qed.

Lemma ok_microbatches send numbers pending :
  (forall number, ok_any (send number)) -> ok_any (microbatches send numbers pending).
Proof. intros Hs. revert pending. induction numbers; intros pending; cbn [microbatches]; walk. Qed.

Lemma ok_pipeline_round graph plan window :
  ok_any (pipeline_training_round local arch host_memory fuel graph plan window).
Proof.
  unfold pipeline_training_round. walk; apply ok_microbatches; intros number;
    [unfold forward_microbatch | unfold backward_microbatch]; walk.
Qed.

Lemma ok_ask_contributors message aggregator contributors :
  ok_any (ask_contributors local message aggregator contributors).
Proof. induction contributors; cbn [ask_contributors]; walk. Qed.

#[local] Hint Resolve ok_ask_contributors : v4.

Lemma ok_ask_groups request_id graph plan window groups roots :
  ok_any (ask_groups local request_id graph plan window groups roots).
Proof. revert roots. induction groups; intros roots; cbn [ask_groups]; walk. Qed.

Lemma ok_await_roots n accepted roots results : ok_any (await_roots n accepted roots results).
Proof. revert results. induction n; intros results; cbn [await_roots]; walk. Qed.

#[local] Hint Resolve ok_ask_groups ok_await_roots : v4.

Lemma ok_collective_round graph plan window : ok_any (collective_training_round local fuel graph plan window).
Proof. unfold collective_training_round. walk. Qed.

Lemma ok_send_checkpoint checkpoint providers pending : ok_any (send_checkpoint local checkpoint providers pending).
Proof. revert pending. induction providers; intros pending; cbn [send_checkpoint]; walk. Qed.

#[local] Hint Resolve ok_tensor_round ok_pipeline_round ok_collective_round ok_send_checkpoint : v4.

Lemma ok_commit_checkpoint graph plan hashes state :
  ok_any (commit_integrated_checkpoint local store fuel graph plan hashes state).
Proof. unfold commit_integrated_checkpoint. walk. Qed.

#[local] Hint Resolve ok_commit_checkpoint : v4.

(** The plan a driver is at has a generation. *)
Definition run_ok (run : DriverRun) : Prop := 0 < run.(run_plan).(V4TrainingPlan_plan_generation).

Notation ok_run t := (ok t (fun r => forall run, r = Ok run -> run_ok run)).

(** What a task yields does not matter to the rest. *)
Lemma ok_try_any {A B} (t : v4 A) (k : A -> v4 B) (Q : B -> Prop) :
  ok_any t -> (forall a, ok (k a) (fun r => forall b, r = Ok b -> Q b)) ->
  ok (try_task t k) (fun r => forall b, r = Ok b -> Q b).
Proof.
  intros Ht Hk. eapply (obeys_try _ _ _ _ (fun _ => True)); [by eapply obeys_mono | done | by intros a _; apply Hk].
Qed.

Section Windows.
Context (training_window_delay_ms windows checkpoint_every : N).
Notation recovers next := (activate_integrated_graph_with_recovery local store fuel next windows checkpoint_every).

Lemma ok_moves (next : transition) (after : transition -> DriverRun) :
  next_ok next -> (forall next, next_ok next -> run_ok (after next)) ->
  ok_run (try! next := recovers next in Done (Ok (after next))).
Proof. intros Hn Ha. eapply obeys_try; [by apply ok_recover | done | by intros ? ? ? [= <-]; apply Ha]. Qed.

Lemma ok_admit_worker run joined :
  ok_run (admit_worker local store fuel windows checkpoint_every run joined).
Proof. eapply obeys_try; [apply ok_reconfigure | done | by intros next Hn; apply ok_moves]. Qed.

Lemma ok_replace run failed more after :
  run_ok run -> (forall run, run_ok run -> run_ok (after run)) ->
  ok_run (replace_worker local store fuel windows checkpoint_every run failed more after).
Proof.
  intros Hr Ha. unfold replace_worker. apply obeys_then; [auto with v4|]. intros []; cbn [negb].
  - eapply obeys_try; [apply ok_reconfigure | done | intros next Hn; apply ok_moves; [done|]].
    intros next' Hn'. by apply Ha.
  - apply obeys_then; [auto with v4 | by intros _ ? [= <-]].
Qed.

Lemma ok_try_again run : run_ok run -> ok_run (try_again local fuel run).
Proof.
  intros Hr. unfold try_again. apply obeys_then; [by eapply obeys_ignore, ok_probe_members|]. intros _.
  apply obeys_then; [auto with v4 | by intros _ ? [= <-]].
Qed.

Lemma ok_round_failed run counts :
  run_ok run -> ok_run (round_failed local store fuel windows checkpoint_every run counts).
Proof.
  intros Hr. unfold round_failed. apply obeys_then; [auto with v4|]. intros [failed|]; [by apply ok_replace|].
  cbv zeta. destruct (_ <=? _); [|by apply ok_try_again].
  eapply obeys_tbind; [apply ok_straggler|].
  intros [[[worker next]|]|error] Hn; [apply ok_moves; [by eapply Hn | done] | by apply ok_try_again | done].
Qed.

Lemma ok_finish_window run hashes :
  run_ok run -> ok_run (finish_window local store fuel windows checkpoint_every run hashes).
Proof.
  intros Hr. unfold finish_window. cbv zeta. destruct (checkpoint_every =? 0); [by intros e s []|].
  assert (Hpublish : forall run', run_ok run' -> ok_run
    (publish_state store (sealed run'.(run_state)) ?!
     broadcast_integrated_state local run'.(run_graph) (sealed run'.(run_state)) ;!
     Done (Ok (with_state (sealed run'.(run_state)) run')))).
  { intros run' Hr'. apply ok_try_any; [auto with v4|]. intros _. apply obeys_then; [auto with v4|]. by intros _ ? [= <-]. }
  destruct (_ || _); [|by apply Hpublish]. apply obeys_then; [auto with v4|].
  intros [checkpoint|error]; [by apply Hpublish|]. apply obeys_then; [auto with v4|].
  intros [failed|]; [by apply ok_replace | by apply ok_try_again].
Qed.

Lemma ok_training_window run :
  run_ok run -> ok_run (window_rounds local store arch host_memory fuel windows checkpoint_every run).
Proof.
  intros Hr. unfold window_rounds. apply obeys_then; [auto with v4|].
  intros [[[loss hashes] steps]|error]; [|by apply ok_round_failed]. cbv zeta.
  apply obeys_then; [auto with v4|]. intros [u|error]; [|by apply ok_round_failed].
  apply obeys_then; [auto with v4|]. intros [u'|error]; [by apply ok_finish_window | by apply ok_round_failed].
Qed.

Lemma ok_turn run :
  run_ok run ->
  ok_run (driver_turn local store arch host_memory fuel training_window_delay_ms windows checkpoint_every run).
Proof.
  intros Hr. unfold driver_turn, active_graph. cbv zeta. apply obeys_then; [by walk|]. intros _.
  apply obeys_then; [auto with v4|]. intros current. apply ok_try_any; [by walk|]. intros _.
  apply obeys_then; [by walk|]. intros [joined|]; [apply ok_admit_worker|].
  apply obeys_then; [auto with v4|]. intros [failed|]; [by apply ok_replace | by apply ok_training_window].
Qed.

Lemma ok_drive turns run :
  run_ok run ->
  ok_any (drive local store arch host_memory fuel training_window_delay_ms windows checkpoint_every turns run).
Proof.
  revert run. induction turns as [|turns IH]; intros run Hr; cbn [drive]; [apply ok_forever|].
  destruct (_ <? _); [|done]. eapply obeys_try; [by apply ok_turn | done | by apply IH].
Qed.

Lemma ok_finish_job run : ok_any (finish_job local store run).
Proof. unfold finish_job, persist_integrated_result. walk. Qed.

#[local] Hint Resolve ok_finish_job : v4.

Lemma ok_run_driver graph plan state resumed :
  0 < plan.(V4TrainingPlan_plan_generation) ->
  ok_any (run_integrated_driver local store arch host_memory fuel training_window_delay_ms windows
            checkpoint_every graph plan state resumed).
Proof. intros Hg. unfold run_integrated_driver. walk. by apply ok_drive. Qed.

Lemma ok_driver graph plan state resumed :
  0 < plan.(V4TrainingPlan_plan_generation) ->
  ok_any (driver_task local store arch host_memory fuel training_window_delay_ms windows
            checkpoint_every graph plan state resumed).
Proof. intros Hg. pose proof (ok_run_driver graph plan state resumed Hg). unfold driver_task. walk. Qed.
End Windows.

(** ** Commands *)
Lemma ok_reconnected peer : ok_any (reconnected_in_time peer).
Proof.
  unfold reconnected_in_time, reconnect_peer. walk. apply ok_frame. intros e s.
  by split; [apply frame_refl | repeat constructor].
Qed.

Lemma ok_for_try {A} (body : A -> v4 unit) xs : (forall x, ok_any (body x)) -> ok_any (for_try body xs).
Proof. intros Hb. induction xs; cbn [for_try]; [done|]. by apply ok_attempt. Qed.

Lemma ok_collect_until {A} n full add (got : A) : ok_any (collect_until n full add got).
Proof. revert got. induction n; intros got; cbn [collect_until]; walk. Qed.

Lemma ok_planned r : ok_any (planned r).
Proof. done. Qed.

Lemma ok_persist_plan plan : ok_any (persist_plan store plan).
Proof. unfold persist_plan. walk. Qed.

Lemma ok_insert_plan job_id plan : ok_any (insert_plan job_id plan).
Proof. unfold insert_plan. walk. Qed.

#[local] Hint Resolve ok_reconnected ok_collect_until ok_persist_plan ok_insert_plan ok_acknowledge ok_profiles
  ok_random ok_traversed ok_notify ok_transfer ok_await ok_wait ok_passed ok_planned : v4.

Ltac stroll := repeat first
  [ progress walk
  | match goal with
    | |- obeys _ _ (for_try _ _) _ => apply ok_for_try; intros ?
    | |- obeys _ _ (expect _ ?o) _ => by destruct o
    end ].

Lemma ok_plan_command model_bytes workers strategy tensor_degree stages :
  ok_any (plan local store fuel model_bytes workers strategy tensor_degree stages).
Proof. unfold plan. stroll. Qed.

Lemma ok_replan job_id model_bytes workers strategy tensor_degree stages :
  ok_any (replan local store job_id model_bytes workers strategy tensor_degree stages).
Proof. unfold replan, active_plan. stroll. by apply ok_files, stored_harmless, write_json_harmless. Qed.

Lemma ok_migration_result job_id n old_owner request_id shard_id :
  ok_any (await_migration_result job_id n old_owner request_id shard_id).
Proof. induction n; cbn [await_migration_result]; walk. Qed.

Lemma ok_proposal_ack job_id n participant proposal :
  ok_any (await_proposal_ack fuel job_id n participant proposal).
Proof. induction n; cbn [await_proposal_ack]; walk. Qed.

Lemma ok_commit_ack job_id n worker plan : ok_any (await_commit_ack fuel job_id n worker plan).
Proof. induction n; cbn [await_commit_ack]; walk. Qed.

#[local] Hint Resolve ok_migration_result ok_proposal_ack ok_commit_ack : v4.

Lemma ok_proposal_attempts job_id n first participant proposal accepted :
  ok_any (proposal_attempts local fuel job_id n first participant proposal accepted).
Proof.
  revert first accepted. induction n; intros first accepted; cbn [proposal_attempts]; unfold send_plan_proposal; walk.
Qed.

Lemma ok_commit_attempts job_id n first worker plan : ok_any (commit_attempts local fuel job_id n first worker plan).
Proof. revert first. induction n; intros first; cbn [commit_attempts]; walk. Qed.

#[local] Hint Resolve ok_proposal_attempts ok_commit_attempts : v4.

Lemma ok_offer job_id participants proposal acknowledged :
  ok_any (offer_proposal local fuel job_id participants proposal acknowledged).
Proof. revert acknowledged. induction participants; intros acknowledged; cbn [offer_proposal]; walk. Qed.

Lemma ok_moves_shards job_id current proposal shards migrated :
  ok_any (move_proposed_shards local fuel job_id current proposal shards migrated).
Proof.
  revert migrated. induction shards; intros migrated; cbn [move_proposed_shards]; [done|].
  unfold move_proposed_shard, move_local_shard, move_remote_shard. walk.
Qed.

Lemma ok_notify_workers job_id workers plan failed : ok_any (notify_workers local fuel job_id workers plan failed).
Proof. revert failed. induction workers; intros failed; cbn [notify_workers]; walk. Qed.

#[local] Hint Resolve ok_offer ok_moves_shards ok_notify_workers : v4.

Lemma ok_preparation job_id : ok_any (prepare_activation local fuel job_id).
Proof. unfold prepare_activation, active_plan. walk. Qed.

Lemma ok_commit_proposal job_id proposal :
  0 < proposal.(V4TrainingPlan_plan_generation) -> ok_any (commit_proposal local store fuel job_id proposal).
Proof.
  intros Hg. pose proof (ok_sync proposal Hg). unfold commit_proposal. walk. by apply ok_remove.
Qed.

Lemma ok_activate_plan job_id : ok_any (activate_plan local store fuel job_id).
Proof.
  assert (Hp : ok (prepare_activation local fuel job_id) (fun r => forall ready, r = Ok ready ->
    0 < ready.1.1.(V4TrainingPlan_plan_generation))).
  { eapply (obeys_learns _ _ _ []); [apply ok_preparation|].
    eapply learns_mono; [apply (preparation_learns local fuel job_id)|].
    intros envs r Hr [[proposal migrated] acknowledged] ->. destruct (Hr _ _ _ eq_refl) as [current [Hf _ _ _]].
    unfold can_activate in Hf. apply andb_true_iff in Hf as [_ Hv]. apply plan_generation_positive.
    cbn. by destruct (V4TrainingPlan_validate proposal) as [[]|]. }
  eapply obeys_try; [exact Hp | done |]. intros [[proposal migrated] acknowledged] Hg. cbn in Hg.
  apply ok_attempt; [by apply ok_commit_proposal | done].
Qed.

Lemma ok_seed job_id shard_id bytes : ok_any (seed_shard local store fuel job_id shard_id bytes).
Proof.
  unfold seed_shard, seed_plan, active_plan, persist_data_shard. stroll.
  apply (ok_insert_data (mkV4LocalDataShard job_id shard_id _ _ _ bytes)).
  unfold valid_local_data_shard. cbn. breflect. rewrite bool_decide_eq_true_2, andb_true_r by done. by apply N.leb_le.
Qed.

Lemma ok_commit_migration job_id shard_id target ownership_generation content_hash state_bytes :
  ok_any (commit_plan_shard_migration local store fuel job_id shard_id target ownership_generation content_hash
            state_bytes).
Proof. unfold commit_plan_shard_migration, active_plan. stroll. Qed.

Lemma ok_await_in_time n wanted : ok_any (await_in_time fuel n wanted).
Proof. induction n; cbn [await_in_time]; walk. Qed.

#[local] Hint Resolve ok_commit_migration ok_await_in_time : v4.

Lemma ok_migrate job_id shard_id target : ok_any (migrate_shard local store fuel job_id shard_id target).
Proof.
  unfold migrate_shard, active_plan. stroll.
  - apply ok_keeps; [|done]. intros e s []. split; try done. by apply map_Forall_delete.
  - by apply ok_remove.
Qed.

Lemma ok_replicate workers : ok_any (replicate_state local store fuel workers).
Proof. unfold replicate_state, persist_training_state. stroll. Qed.

(** ** Reference runs *)
Lemma ok_reference_acks n job_id plan participants acknowledged :
  ok_any (await_reference_acks fuel n job_id plan participants acknowledged).
Proof. revert acknowledged. induction n; intros acknowledged; cbn [await_reference_acks]; walk. Qed.

#[local] Hint Resolve ok_reference_acks : v4.

Lemma ok_reference_attempts n first job_id plan participants acknowledged :
  ok_any (reference_attempts local fuel n first job_id plan participants acknowledged).
Proof. revert first acknowledged. induction n; intros first acknowledged; cbn [reference_attempts]; walk. Qed.

#[local] Hint Resolve ok_reference_attempts : v4.

Lemma ok_reference_plan workers strategy tensor_degree stages :
  ok_any (prepare_reference_plan local store fuel workers strategy tensor_degree stages).
Proof. unfold prepare_reference_plan. stroll. Qed.

#[local] Hint Resolve ok_reference_plan : v4.

Lemma ok_tensor_demo workers : ok_any (tensor_demo local store fuel workers).
Proof. unfold tensor_demo, or_give_up. stroll. Qed.

Lemma ok_pipeline_demo stages microbatches : ok_any (pipeline_demo local store fuel stages microbatches).
Proof. unfold pipeline_demo, or_give_up. stroll. Qed.

Lemma ok_collective_demo workers : ok_any (collective_demo local store fuel workers).
Proof. unfold collective_demo, ask_contribution. stroll. Qed.

Lemma ok_reconcile_demo worker left_value right_value policy :
  ok_any (reconcile_demo worker left_value right_value policy).
Proof. unfold reconcile_demo. stroll. Qed.

Lemma ok_byzantine_demo workers malicious policy : ok_any (byzantine_demo local store fuel workers malicious policy).
Proof. unfold byzantine_demo. stroll. Qed.

(** ** Starts *)
Lemma ok_reach connected profiles : ok_any (reach connected profiles).
Proof. induction profiles; cbn [reach]; unfold answers_ping; walk. Qed.

#[local] Hint Resolve ok_reach : v4.

Lemma ok_reachable_rounds n minimum memory last : ok_any (reachable_rounds n minimum memory last).
Proof. revert last. induction n; intros last; cbn [reachable_rounds]; walk. Qed.

#[local] Hint Resolve ok_reachable_rounds : v4.

Lemma ok_build workers windows checkpoint_every : ok_any (build_integrated_start local workers windows checkpoint_every).
Proof. unfold build_integrated_start, reachable_worker_profiles. stroll. Qed.

Lemma ok_announce start : ok_any (announce_start store start).
Proof. unfold announce_start, persist_execution_graph, persist_integrated_state. stroll. Qed.

Lemma ok_await_result n start : ok_any (await_job_result store n start).
Proof. induction n; cbn [await_job_result]; unfold persist_integrated_result; walk. Qed.

Lemma ok_watch n : ok_any (watch_job store n).
Proof. induction n; cbn [watch_job]; unfold persist_integrated_result; walk. Qed.

#[local] Hint Resolve ok_build ok_announce ok_await_result ok_watch : v4.

Lemma ok_start workers windows checkpoint_every : ok_any (start_integrated local store fuel workers windows checkpoint_every).
Proof. unfold start_integrated. stroll. Qed.

Lemma ok_start_background workers windows checkpoint_every :
  ok_any (start_integrated_background local store fuel workers windows checkpoint_every).
Proof. unfold start_integrated_background. stroll. apply obeys_spawn. walk. Qed.

#[local] Hint Resolve ok_plan_command ok_replan ok_activate_plan ok_seed ok_migrate ok_replicate ok_tensor_demo
  ok_pipeline_demo ok_collective_demo ok_reconcile_demo ok_byzantine_demo ok_start ok_start_background : v4.

Lemma ok_command t : v4_command local store fuel t -> ok_any t.
Proof. destruct 1; walk. Qed.

(** ** All tasks *)

#[local] Hint Resolve ok_plan_proposal ok_migration_request ok_migration ok_tensor_install ok_tensor_forward
  ok_tensor_backward ok_pipeline_install ok_pipeline_forward ok_pipeline_backward ok_contribution
  ok_aggregate ok_byzantine ok_integrated_start ok_integrated_state ok_probe ok_probe_ack ok_election
  ok_tensor_replica ok_optimizer_install ok_reconcile ok_plan ok_state_record ok_optimizer_shard
  ok_checkpoint_record : v4.

Lemma ok_message peer message :
  job_wf (message_job_id message) ->
  ok_any (V4Node.handle_message security_to_allocvec NodeError_to_string local store arch host_memory fuel
            peer message).
Proof. intros Hj. destruct message; cbn [V4Node.handle_message message_job_id] in *; unfold route_to_job, mailbox_of; walk. Qed.

Lemma ok_disconnected peer : ok_any (peer_disconnected peer).
Proof. unfold peer_disconnected. walk. Qed.

Lemma ok_resume : ok_any (resume_integrated_jobs local).
Proof. unfold resume_integrated_jobs, resume_job, mailbox_of. walk. Qed.

(** ** The participant *)
Section Participant.
Context (training_window_delay_ms windows checkpoint_every : N).

Lemma ok_request_votes request voters pending : ok_any (request_votes request voters pending).
Proof. revert pending. induction voters; intros pending; cbn [request_votes]; walk. Qed.

Lemma ok_count_ballots n graph term votes pending : ok_any (count_ballots local n graph term votes pending).
Proof. revert votes pending. induction n; intros votes pending; cbn [count_ballots]; walk. Qed.

Lemma ok_self_vote graph term : ok_any (cast_self_vote store (self_vote_of local graph term)).
Proof. by apply self_ok. Qed.

#[local] Hint Resolve ok_request_votes ok_count_ballots ok_self_vote : v4.

Lemma ok_request_election graph state confirmed :
  ok_any (request_integrated_election local store fuel graph state confirmed).
Proof. unfold request_integrated_election, active_graph. walk. Qed.

#[local] Hint Resolve ok_request_election : v4.

Lemma ok_take_over job_id misses :
  ok_any (maybe_take_over_integrated_job local store arch host_memory fuel training_window_delay_ms windows
            checkpoint_every job_id misses).
Proof.
  unfold maybe_take_over_integrated_job, active_graph, active_plan.
  do 3 (apply obeys_then; [auto with v4|]; intros ?; apply ok_expect; intros ? _).
  destruct (is_terminal _); [done|]. destruct (is_transition _); [done|].
  apply obeys_then; [auto with v4|]. intros confirmed. do 3 (destruct (_ : bool); [done|]).
  apply ok_attempt; [auto with v4|]. intros certificate.
  eapply obeys_try; [apply ok_reconfigure | done |]. intros next Hn. apply ok_attempt; [by apply ok_run_driver | done].
Qed.

#[local] Hint Resolve ok_take_over : v4.

Lemma ok_participant_turns turns job_id misses :
  ok_any (participant_turns local store arch host_memory fuel training_window_delay_ms windows
            checkpoint_every turns job_id misses).
Proof. revert misses. induction turns; intros misses; cbn [participant_turns]; walk. Qed.

Lemma ok_participant graph :
  ok_any (integrated_participant_loop local store arch host_memory fuel training_window_delay_ms windows
            checkpoint_every graph).
Proof. apply obeys_then; [apply ok_participant_turns | intros _; apply ok_remove_job]. Qed.
End Participant.

Lemma ok_transmit_v5 peer message : ok_any (transmit_v5 peer message).
Proof.
  apply ok_frame. intros e s. destruct (ve_send e); (split; [apply frame_refl|]); by repeat constructor.
Qed.

Lemma ok_v5_message peer message :
  ok_any (handle_v5_message security_to_allocvec local store arch host_memory peer message).
Proof.
  unfold handle_v5_message, active_plan, clock. destruct message as [challenge|result|evidence]; [| |done].
  - destruct (_ || _); [done|]. apply obeys_then; [apply ok_look|]. intros plan. destruct (negb _); [done|].
    apply obeys_then; [apply ok_look|]. intros now. cbv zeta.
    apply obeys_then; [apply ok_frame; intros e s; by destruct (challenge_allowed _ _ _)|].
    intros allowed. destruct (negb _); [done|]. apply obeys_then.
    { apply ok_frame_step. intros e s a s' out. destruct (BackendRegistry_challenge _ _ _ _ _) as [[r registry]|]; [|done].
      intros [= <- <- <-]. by split_and!. }
    intros outcome. eapply obeys_ignore, obeys_timeout; [apply P_refl | apply ok_transmit_v5].
  - destruct (_ || _); [done|]. apply obeys_then; [by apply ok_change; intros|]. intros _. auto with v4.
Qed.

(** What a node runs for planned jobs: a task per message, the loss of a peer, the resumption of
    jobs, the commands of its operator, the driver of a job it coordinates, whose plan has passed its
    check, and the task that stands in for the coordinator of a job it takes part in. *)
Inductive v4_entry : vtask unit -> Prop :=
  | entry_message peer message :
      job_wf (message_job_id message) ->
      v4_entry (V4Node.handle_message security_to_allocvec NodeError_to_string local store arch host_memory
                  fuel peer message)
  | entry_v5_message peer message :
      v4_entry (handle_v5_message security_to_allocvec local store arch host_memory peer message)
  | entry_disconnected peer : v4_entry (peer_disconnected peer)
  | entry_resume : v4_entry (resume_integrated_jobs local)
  | entry_command t : v4_command local store fuel t -> v4_entry t
  | entry_driver delay_ms windows checkpoint_every graph plan state resumed :
      V4TrainingPlan_validate plan = Ok tt ->
      v4_entry (driver_task local store arch host_memory fuel delay_ms windows checkpoint_every graph plan
                  state resumed)
  | entry_participate delay_ms windows checkpoint_every graph :
      v4_entry (integrated_participant_loop local store arch host_memory fuel delay_ms windows
                  checkpoint_every graph).

Lemma entry_ok t : v4_entry t -> ok_any t.
Proof.
  destruct 1; [by apply ok_message | apply ok_v5_message | apply ok_disconnected | apply ok_resume
    | by apply ok_command | | apply ok_participant].
  by apply ok_driver, plan_generation_positive.
Qed.
End Pool.
