(* ===== verification/V4Votes.v ===== *)
(** * Frontier training: votes

    The votes a node casts in the elections of integrated jobs, over every interleaving of its
    tasks: of the votes of a job for one execution graph the terms never go back and a term has one
    candidate, until the node stands for election itself; and as long as it does not, the last vote of
    a job is on disk, from where a restart reads it back. *)

From Stdlib Require Import String ZArith NArith Lia.
From stdpp Require Import base tactics sets strings numbers list gmap.
From S2P Require Import Prelude OrdMap Types Validation FileSystem Storage StorageFacts StorageRuns Aggregation Compute Float32 Planner Runtime Trust Security Network NodeConfig Tasks TaskLogic V4Model V4Control V4Integrated V4Data V4Node V4Reconfigure V4Driver V4Facts V4Pool.
Local Open Scope N_scope.
Local Open Scope rust_scope.

(** ** Sequences of votes *)

Definition same_graph (v w : V4IntegratedElectionRecord) : Prop :=
  v.(V4IntegratedElectionRecord_graph_generation) = w.(V4IntegratedElectionRecord_graph_generation) /\
  v.(V4IntegratedElectionRecord_graph_hash) = w.(V4IntegratedElectionRecord_graph_hash).

(** On one graph a vote comes after another of an older term, or repeats it. *)
Definition may_follow (v w : V4IntegratedElectionRecord) : Prop :=
  same_graph v w ->
  v.(V4IntegratedElectionRecord_term) < w.(V4IntegratedElectionRecord_term) \/
  v.(V4IntegratedElectionRecord_term) = w.(V4IntegratedElectionRecord_term) /\
  v.(V4IntegratedElectionRecord_candidate) = w.(V4IntegratedElectionRecord_candidate).

Section Turns.
Context (local : NodeId).

(** The vote of the node for itself. *)
Definition own_vote (vote : V4IntegratedElectionRecord) : Prop :=
  vote.(V4IntegratedElectionRecord_candidate) = local.

(** Each vote for another candidate may follow the one before, the first one the vote known already. *)
Fixpoint in_turn (known : option V4IntegratedElectionRecord) (votes : list V4IntegratedElectionRecord) : Prop :=
  match votes with
  | [] => True
  | vote :: votes =>
      (own_vote vote \/ match known with Some v => may_follow v vote | None => True end) /\
      in_turn (Some vote) votes
  end.

Fixpoint last_vote (known : option V4IntegratedElectionRecord) (votes : list V4IntegratedElectionRecord)
    : option V4IntegratedElectionRecord :=
  match votes with
  | [] => known
  | vote :: votes => last_vote (Some vote) votes
  end.

(** The votes a job was given. *)
Definition votes_for (job_id : JobId) (out : list V4Effect) : list V4IntegratedElectionRecord :=
  omap (fun effect =>
    match effect with
    | Did_Vote vote => if vote.(V4IntegratedElectionRecord_job_id) == job_id then Some vote else None
    | _ => None
    end) out.

Lemma in_turn_app known votes votes' :
  in_turn known votes -> in_turn (last_vote known votes) votes' -> in_turn known (votes ++ votes').
Proof.
  revert known. induction votes as [|vote votes IH]; intros known; cbn; [done|].
  intros [Hv Ht] Hl. by split; [|apply IH].
Qed.

Lemma last_vote_app known votes votes' :
  last_vote known (votes ++ votes') = last_vote (last_vote known votes) votes'.
Proof. revert known. induction votes; cbn; auto. Qed.

Lemma votes_for_app job_id out out' : votes_for job_id (out ++ out') = votes_for job_id out ++ votes_for job_id out'.
Proof. apply omap_app. Qed.

(** On a stretch of votes for one graph, none of them the node's own, the terms never go back, and a
    term has one candidate. *)
Lemma in_turn_stretch v votes w :
  in_turn (Some v) (votes ++ [w]) -> Forall (same_graph v) (votes ++ [w]) ->
  Forall (fun u => ~ own_vote u) (votes ++ [w]) ->
  v.(V4IntegratedElectionRecord_term) < w.(V4IntegratedElectionRecord_term) \/
  v.(V4IntegratedElectionRecord_term) = w.(V4IntegratedElectionRecord_term) /\
  v.(V4IntegratedElectionRecord_candidate) = w.(V4IntegratedElectionRecord_candidate).
Proof.
  revert v. induction votes as [|u votes IH]; intros v; cbn.
  - intros [[Hf|Hf] _] Hs Ho; apply Forall_cons_1 in Hs as [Hs _], Ho as [Ho _]; [done | by apply Hf].
  - intros [Hf Ht] [Hu Hs']%Forall_cons_1 [Ho Ho']%Forall_cons_1. destruct Hf as [Hf|Hf]; [done|].
    assert (Hu' : Forall (same_graph u) (votes ++ [w])).
    { eapply Forall_impl; [exact Hs'|]. intros x [? ?]. destruct Hu. split; congruence. }
    destruct (Hf Hu) as [?|[? ?]], (IH u Ht Hu' Ho') as [?|[? ?]]; [left; lia..|right; split; congruence].
Qed.

(** The known vote goes before the others. *)
Lemma in_turn_known known votes : in_turn known votes -> in_turn None (option_list known ++ votes).
Proof. destruct known; [|done]. intros Ht. split; [by right | done]. Qed.

(** A part of a sequence of votes. *)
Lemma in_turn_from before v votes after :
  in_turn None (before ++ v :: votes ++ after) -> in_turn (Some v) votes.
Proof.
  generalize (@None V4IntegratedElectionRecord). induction before as [|u before IH]; intros known; cbn.
  - intros [_ Ht]. clear known. revert v Ht. induction votes as [|w votes IH]; [done|].
    intros v [Hf Ht]. split; [exact Hf | by apply IH].
  - intros [_ Ht]. by apply (IH (Some u)).
Qed.

(** What a section does to the votes. *)
Definition voting (s : V4State) (out : list V4Effect) (s' : V4State) : Prop :=
  forall job_id,
    in_turn (s.(V4State_integrated_elections) !! job_id) (votes_for job_id out) /\
    s'.(V4State_integrated_elections) !! job_id
    = last_vote (s.(V4State_integrated_elections) !! job_id) (votes_for job_id out).

Lemma voting_same s out s' :
  s'.(V4State_integrated_elections) = s.(V4State_integrated_elections) -> Forall no_vote out -> voting s out s'.
Proof.
  intros He Hout job_id. rewrite He. replace (votes_for job_id out) with (@nil V4IntegratedElectionRecord); [done|].
  induction Hout as [|effect out Hn Ho IH]; [done|]. by destruct effect.
Qed.

Lemma voting_trans s out s' out' s'' : voting s out s' -> voting s' out' s'' -> voting s (out ++ out') s''.
Proof.
  intros H1 H2 job_id. destruct (H1 job_id) as [Ht He], (H2 job_id) as [Ht' He'].
  rewrite votes_for_app, last_vote_app, <- He. split; [|done]. apply in_turn_app; [done|]. by rewrite <- He.
Qed.

End Turns.

Section Votes.
Context `{Blake3} `{PlanPostcard} `{V4Json} `{Profile} `{ContributionPostcard}.
Context `{!JsonLaws V4IntegratedElectionRecord}.
Context (security_to_allocvec : LocalSecurityState -> result (list N) str).
Context (NodeError_to_string : NodeError -> str).
Context (local : NodeId) (store : LocalStore) (arch : str) (host_memory : N) (fuel : nat).

(** ** Votes on disk *)

(** The file holds the vote. *)
Definition vote_saved (f : Files) (vote : V4IntegratedElectionRecord) : Prop :=
  not_local (integrated_election_file vote.(V4IntegratedElectionRecord_job_id)) = false /\
  exists d, f !! StatePath (integrated_election_file vote.(V4IntegratedElectionRecord_job_id)) = Some d /\
    to_vec vote = Ok d.(content) /\ file_len d <= MAX_STATE_BYTES.

(** The votes in memory are in order and on disk; the file of a vote is named after its job. *)
Record votes_kept (m : gmap JobId V4IntegratedElectionRecord) (f : Files) : Prop := mkVotesKept {
  kept_votes : forall job_id vote, m !! job_id = Some vote ->
    vote.(V4IntegratedElectionRecord_job_id) = job_id /\ job_wf job_id /\ valid_election vote = true /\
    vote_saved f vote;
  kept_names : forall name d vote, is_vote_file name = true -> f !! StatePath name = Some d ->
    from_slice d.(content) = Ok vote ->
    name = integrated_election_file vote.(V4IntegratedElectionRecord_job_id)
}.

Lemma election_file_is_vote job_id : is_vote_file (integrated_election_file job_id) = true.
Proof.
  unfold integrated_election_file, job_file. generalize (hex_encode (JobId_0 job_id) ++ ".json")%string.
  by intros [|c s].
Qed.

Lemma votes_kept_same m f g : same_votes f g -> votes_kept m f -> votes_kept m g.
Proof.
  intros Hs [Hv Hn]. split.
  - intros job_id vote Hm. destruct (Hv job_id vote Hm) as (? & ? & ? & ? & d & Hd & ?). split_and!; [done..|].
    split; [done|]. exists d. by rewrite (Hs (StatePath _) (election_file_is_vote _)).
  - intros name d vote Hname. rewrite (Hs (StatePath name) Hname). by apply Hn.
Qed.

Lemma election_file_inj job_id job_id' :
  job_wf job_id -> job_wf job_id' ->
  integrated_election_file job_id = integrated_election_file job_id' -> job_id = job_id'.
Proof.
  destruct job_id as [a], job_id' as [b]. intros Ha Hb [= He].
  apply (app_inj_right _ _ (".json"%string)) in He.
  f_equal. by apply hex_encode_inj.
Qed.

(** The vote is on disk, or nothing has changed; other votes are left alone. *)
Definition vote_outcome (w : World) (vote : V4IntegratedElectionRecord) (r : result unit NodeError)
    (w' : World) : Prop :=
  let name := integrated_election_file vote.(V4IntegratedElectionRecord_job_id) in
  match r with
  | Ok _ => vote_saved w'.(files) vote
  | Err _ => w'.(files) !! StatePath name = w.(files) !! StatePath name
  end.

Lemma persist_vote_outcome faults vote w w' r :
  run faults (persist_integrated_election store vote) w = (w', Some r) -> vote_outcome w vote r w'.
Proof.
  intros Hrun. set (name := integrated_election_file vote.(V4IntegratedElectionRecord_job_id)).
  assert (Ha : always (fun _ => True) (vote_outcome w vote) (persist_integrated_election store vote) w).
  { apply always_bind. destruct (to_vec vote) as [bytes|error] eqn:Hv.
    - destruct (MAX_STATE_BYTES <? len bytes) eqn:Hlen.
      { unfold write_json. fold name. rewrite Hv. destruct (not_local name); [done|]. cbn. by rewrite Hlen. }
      destruct (not_local name) eqn:Hlocal; [unfold write_json; fold name; by rewrite Hlocal|].
      eapply always_weaken, always_mono; [| |apply (write_json_old_or_new store name vote bytes w); [done|exact Hv]];
        [done|]. intros [u|error] w1 _ Hw1; apply always_ret; try done.
      destruct Hw1 as (d & Hd & Hc). split; [done|]. exists d. rewrite Hv, Hc. split_and!; [done..|].
      unfold file_len. rewrite Hc. by apply N.ltb_ge.
    - unfold write_json. fold name. rewrite Hv. by destruct (not_local name). }
  destruct (always_sound _ _ _ _ faults Ha) as [_ HQ]. rewrite Hrun in HQ. by apply HQ.
Qed.

Lemma persist_vote_others faults vote w :
  same_guarded (fun name => is_vote_file name && negb (bool_decide
      (name = integrated_election_file vote.(V4IntegratedElectionRecord_job_id))))
    w.(files) (run faults (persist_integrated_election store vote) w).1.(files).
Proof.
  apply harmless_run, stored_harmless, write_json_harmless; [done|].
  by rewrite bool_decide_eq_true_2, andb_false_r.
Qed.

Lemma votes_kept_cast m f f' vote :
  votes_kept m f -> job_wf vote.(V4IntegratedElectionRecord_job_id) ->
  valid_election vote = true -> vote_saved f' vote ->
  same_guarded (fun name => is_vote_file name && negb (bool_decide
      (name = integrated_election_file vote.(V4IntegratedElectionRecord_job_id)))) f f' ->
  votes_kept (<[vote.(V4IntegratedElectionRecord_job_id) := vote]> m) f'.
Proof.
  intros [Hv Hn] Hwf Hvalid Hsaved Hs. split.
  - intros job_id other. rewrite lookup_insert_Some. intros [[<- <-]|[Hne Ho]]; [done|].
    destruct (Hv job_id other Ho) as (<- & Hwf' & Hother & ? & d & Hd & ? & ?). split_and!; [done..|].
    split; [done|]. exists d. split_and!; [|done..]. rewrite (Hs (StatePath _)); [done|]. cbn [guards_path]. rewrite election_file_is_vote. cbn [andb].
    rewrite bool_decide_eq_false_2; [done|]. intros He. apply Hne. symmetry.
    by apply election_file_inj in He.
  - intros name d other Hname Hd Hother.
    destruct (decide (name = integrated_election_file vote.(V4IntegratedElectionRecord_job_id))) as [->|Hne].
    + destruct Hsaved as (_ & d' & Hd' & Hvec & _). rewrite Hd' in Hd. injection Hd as ->.
      apply from_slice_to_vec in Hvec. rewrite Hvec in Hother. by injection Hother as <-.
    + rewrite (Hs (StatePath name)) in Hd; [by eapply Hn|]. cbn [guards_path]. by rewrite Hname, bool_decide_eq_false_2.
Qed.

Lemma vote_of_valid request :
  V4IntegratedElectionRequest_validate request = Ok tt -> valid_election (vote_of request) = true.
Proof.
  intros Hv. unfold V4IntegratedElectionRequest_validate, v4_integrated_election_request in Hv. inv_ok Hv.
  unfold valid_election. rewrite bool_decide_eq_true_2 by reflexivity. cbn.
  by rewrite !(proj2 (N.ltb_lt _ _)) by lia.
Qed.

Lemma can_replace_follows request existing :
  can_replace request (Some existing) = true -> may_follow existing (vote_of request).
Proof.
  intros Hc [Hg Hh]. cbn in Hc, Hg, Hh |- *. rewrite Hg, Hh, N.eqb_refl, bool_decide_eq_true_2 in Hc by done.
  cbn in Hc. apply orb_true_iff in Hc as [Hc|Hc]; breflect; [by left | by right].
Qed.

Lemma voting_cast s s' vote :
  s'.(V4State_integrated_elections)
  = <[vote.(V4IntegratedElectionRecord_job_id) := vote]> s.(V4State_integrated_elections) ->
  (own_vote local vote \/
   forall v, s.(V4State_integrated_elections) !! vote.(V4IntegratedElectionRecord_job_id) = Some v ->
     may_follow v vote) ->
  voting local s [Did_Vote vote] s'.
Proof.
  intros He Hf job_id. rewrite He. cbn.
  destruct (decide (vote.(V4IntegratedElectionRecord_job_id) = job_id)) as [<-|Hne].
  - rewrite bool_decide_eq_true_2, lookup_insert_eq by done. cbn. split; [|done]. split; [|done].
    destruct Hf as [Hf|Hf]; [by left | right]. destruct (_ !! _) eqn:Hv; [by apply Hf | done].
  - by rewrite bool_decide_eq_false_2, lookup_insert_ne by done.
Qed.

(** ** What a section does *)

(** The node does not stand for election. *)
Definition no_candidacy (effect : V4Effect) : Prop :=
  match effect with
  | Did_Stand _ => False
  | Did_Vote vote => ~ own_vote local vote
  | _ => True
  end.

(** Without a candidacy of the node, the votes stay on disk. *)
Definition saving (s : V4State) (out : list V4Effect) (s' : V4State) : Prop :=
  Forall no_candidacy out ->
  votes_kept s.(V4State_integrated_elections) s.(V4State_world).(files) ->
  votes_kept s'.(V4State_integrated_elections) s'.(V4State_world).(files).

Definition vote_step (s : V4State) (out : list V4Effect) (s' : V4State) : Prop :=
  voting local s out s' /\ saving s out s'.

(** Nothing is said of the votes in a single state. *)
Definition any_votes (m : gmap JobId V4IntegratedElectionRecord) (f : Files) : Prop := True.

Definition any_section (s : V4State) (out : list V4Effect) (s' : V4State) : Prop := True.

Lemma vote_step_same s out s' :
  s'.(V4State_integrated_elections) = s.(V4State_integrated_elections) ->
  same_votes s.(V4State_world).(files) s'.(V4State_world).(files) -> Forall no_vote out -> vote_step s out s'.
Proof.
  intros He Hw Hout. split; [by apply voting_same|]. intros _ Hk. rewrite He. by eapply votes_kept_same.
Qed.

Lemma vote_step_trans s out s' out' s'' :
  vote_step s out s' -> vote_step s' out' s'' -> vote_step s (out ++ out') s''.
Proof.
  intros [Hv Hs] [Hv' Hs']. split; [by eapply voting_trans|]. intros [Ho Ho']%Forall_app Hk. by apply Hs', Hs.
Qed.

(** A vote that could not be written has changed nothing. *)
Lemma failed_vote_same faults vote w w' error :
  run faults (persist_integrated_election store vote) w = (w', Some (Err error)) ->
  same_votes w.(files) w'.(files).
Proof.
  intros Hr. pose proof (persist_vote_others faults vote w) as Ho. rewrite Hr in Ho.
  apply persist_vote_outcome in Hr. intros path Hp.
  destruct (decide (path = StatePath (integrated_election_file vote.(V4IntegratedElectionRecord_job_id)))) as [->|Hne];
    [exact Hr|]. apply Ho. destruct path as [| | | |]; try done. cbn in Hp |- *. rewrite Hp. cbn.
  rewrite bool_decide_eq_false_2; [done|]. congruence.
Qed.

(** A vote is cast in its turn, and saved before it counts. *)
Lemma cast_voting request :
  V4IntegratedElectionRequest_validate request = Ok tt ->
  job_wf request.(V4IntegratedElectionRequest_job_id) ->
  obeys (pool_inv any_votes) vote_step (cast_vote store request) (fun _ => True).
Proof.
  intros Hv Hwf. apply obeys_step. intros e s a s' out [Hs _]. cbn zeta.
  destruct (can_replace request _) eqn:Hc; [|intros [= <- <- <-]; split_and!; [done | by apply vote_step_same | done]].
  unfold run_files. pose proof (persist_vote_others e.(ve_faults) (vote_of request) s.(V4State_world)) as Ho.
  destruct (run _ _ _) as [world [r|]] eqn:Hr; [|done].
  destruct r as [[]|error]; intros [= <- <- <-]; cbn in Ho.
  - apply persist_vote_outcome in Hr. split_and!; [split; [by destruct Hs | done]|split|done].
    + apply voting_cast; [done|]. right. intros v Hk. apply can_replace_follows. by rewrite <- Hk.
    + intros _ Hkept. apply (votes_kept_cast _ s.(V4State_world).(files)); try done. by apply vote_of_valid.
  - split_and!; [split; [by destruct Hs | done]| |done]. apply vote_step_same; [done | | done].
    by eapply failed_vote_same.
Qed.

(** The vote of a candidate for itself is not held against anything. *)
Lemma self_voting vote :
  own_vote local vote -> obeys (pool_inv any_votes) vote_step (cast_self_vote store vote) (fun _ => True).
Proof.
  intros Hown. apply ok_attempt.
  - apply obeys_step. intros e s a s' out [Hs _]. unfold run_files.
    destruct (run _ _ _) as [world [r|]] eqn:Hr; [|done]. destruct r as [u|error]; intros [= <- <- <-].
    + split_and!; [split; [by destruct Hs | done]|split; [by intros job_id|]|done].
      by intros [[] _]%Forall_cons_1.
    + split_and!; [split; [by destruct Hs | done]| |done]. apply vote_step_same; [done | | done].
      by eapply failed_vote_same.
  - intros _. apply obeys_atomic. intros e s [Hs _]. split_and!; [split; [by destruct Hs | done]|split|done].
    + apply voting_cast; [done | by left].
    + by intros [[] _]%Forall_cons_1.
Qed.

Notation v4_entry := (v4_entry security_to_allocvec NodeError_to_string local store arch host_memory fuel).

(** Every run casts its votes in turn, and saves them. *)
Lemma runs_vote s out s' ts : intact s -> pool_steps v4_entry (s, []) out (s', ts) -> vote_step s out s'.
Proof.
  intros Hi Hsteps. destruct (pool_obeys (pool_inv any_votes) vote_step v4_entry (s, []) out (s', ts)) as (_ & Hv & _);
    try done.
  - intros s0. by apply vote_step_same.
  - intros *. apply vote_step_trans.
  - intros t. apply entry_ok; [done | apply vote_step_same | apply cast_voting | apply self_voting].
Qed.

End Votes.
