(* ===== verification/V4Recovery.v ===== *)
(** * Frontier training: a restart reads the votes back

    A node that starts again on the disk of its last run reads every state file and ends with the
    last vote of each job: the file of each is listed, passes its check, and no other file speaks of the
    same job. *)

From Stdlib Require Import String ZArith NArith Lia.
From stdpp Require Import base tactics sets strings numbers list gmap.
From S2P Require Import Prelude OrdMap Types Validation FileSystem Storage StorageFacts StorageRuns Aggregation Compute Float32 Planner Runtime Trust Security Network NodeConfig Tasks TaskLogic V4Model V4Control V4Integrated V4Data V4Node V4Reconfigure V4Driver V4Facts V4Pool V4Votes.
Local Open Scope N_scope.
Local Open Scope rust_scope.

(** ** Names *)
Lemma strip_prefix_of prefix rest : strip_prefix prefix (prefix ++ rest) = Some rest.
Proof.
  induction prefix as [|c prefix IH]; [by destruct rest|].
  change ((if Ascii.eqb c c then strip_prefix prefix (prefix ++ rest) else None) = Some rest).
  by rewrite Ascii.eqb_refl.
Qed.

Lemma substring_all s : String.substring 0 (String.length s) s = s.
Proof. induction s as [|c s IH]; [done|]. cbn. by rewrite IH. Qed.

Lemma substring_front a b : String.substring 0 (String.length a) (a ++ b) = a.
Proof. induction a as [|c a IH]; [by destruct b|]. exact (f_equal (String c) IH). Qed.

Lemma substring_back a b : String.substring (String.length a) (String.length b) (a ++ b) = b.
Proof. induction a as [|c a IH]; [apply substring_all | exact IH]. Qed.

Lemma strip_suffix_of a suffix : strip_suffix suffix (a ++ suffix) = Some a.
Proof.
  unfold strip_suffix. rewrite string_app_length.
  replace (String.length a + String.length suffix - String.length suffix)%nat with (String.length a) by lia.
  rewrite substring_back, substring_front, bool_decide_eq_true_2 by done.
  by rewrite (proj2 (Nat.leb_le _ _)) by lia.
Qed.

Lemma prefix_of_app prefix rest : String.prefix prefix (prefix ++ rest) = true.
Proof.
  induction prefix as [|c prefix IH]; [by destruct rest|].
  change ((if Ascii.ascii_dec c c then String.prefix prefix (prefix ++ rest) else false) = true).
  destruct (Ascii.ascii_dec c c); [exact IH | done].
Qed.

Lemma is_named_vote name : is_named "v4-integrated-election-" name = true -> is_vote_file name = true.
Proof.
  unfold is_named, between. rewrite bool_decide_eq_true. intros (x & (rest & Hr & _)%bind_Some).
  apply strip_prefix_app in Hr as ->. apply prefix_of_app.
Qed.

Lemma election_file_named job_id :
  is_named "v4-integrated-election-" (integrated_election_file job_id) = true.
Proof.
  unfold is_named, between.
  change (integrated_election_file job_id) with
    ("v4-integrated-election-" ++ (hex_encode (JobId_0 job_id) ++ ".json"))%string.
  rewrite strip_prefix_of. cbn [mbind option_bind]. rewrite strip_suffix_of. done.
Qed.

Section Recovery.
Context `{Blake3} `{PlanPostcard} `{V4Json} `{Profile} `{ContributionPostcard}.
Context `{!JsonLaws V4IntegratedElectionRecord}.

(** No call of the operating system fails. *)
Definition undisturbed (e : V4Env) : Prop := e.(ve_faults) = [].

Notation settled := (settles undisturbed).

Context (f : Files).
Hypothesis names_kept : forall name d vote, is_vote_file name = true -> f !! StatePath name = Some d ->
  from_slice d.(content) = Ok vote -> name = integrated_election_file vote.(V4IntegratedElectionRecord_job_id).

(** The disk is [f], and the votes in memory come from it. *)
Definition reading_back (s : V4State) : Prop :=
  s.(V4State_world).(files) = f /\
  forall job_id vote, s.(V4State_integrated_elections) !! job_id = Some vote ->
    exists d, f !! StatePath (integrated_election_file job_id) = Some d /\ from_slice d.(content) = Ok vote.

Lemma settled_read {A} (p : Prog (result A NodeError)) s (Q : result A NodeError -> V4State -> Prop) :
  Q (exec p s.(V4State_world)).2 (set_V4State_world (exec p s.(V4State_world)).1 s) -> settled (files_section p) s Q.
Proof.
  intros HQ e He. unfold run_files. rewrite He, run_complete. by eexists _, _, _.
Qed.

Lemma asks_same_files {A} (p : Prog A) w : calls_only asks p -> (exec p w).1.(files) = w.(files).
Proof.
  intros Hp. destruct (always_sound (fun _ => True) (fun _ w' => w'.(files) = w.(files)) p w []) as [_ HQ].
  - by apply always_asks.
  - rewrite run_complete in HQ. by apply (HQ (exec p w).2).
Qed.

Lemma read_json_asks {T} `{Json T} name : calls_only asks (read_json (T := T) name).
Proof. unfold read_json, read_file, fail. solve_calls. Qed.

Lemma read_json_some {T} `{Json T} name w (value : T) :
  (exec (read_json name) w).2 = Ok (Some value) -> state_entry name = FileEntry (StatePath name) ->
  exists d, w.(files) !! StatePath name = Some d /\ from_slice d.(content) = Ok value.
Proof.
  unfold read_json, fail. destruct (not_local name); [done|]. intros Hr He. rewrite He, exec_bind in Hr.
  replace (exec (call (OpMetadata (FileEntry (StatePath name)))) w)
    with (w, stat (w.(files) !! StatePath name)) in Hr by done.
  destruct (files w !! StatePath name) as [d|] eqn:Hd; [|done]. cbn [fst snd stat meta_len] in Hr.
  exists d. split; [done|]. destruct (_ <? _); [done|]. rewrite exec_try, exec_io, exec_read_file, Hd in Hr.
  cbn in Hr. destruct (from_slice _); [|done]. by injection Hr as ->.
Qed.

Lemma vote_file_entry name : is_vote_file name = true -> state_entry name = FileEntry (StatePath name).
Proof. intros Hn. unfold state_entry. by repeat (case_bool_decide; [by subst|]). Qed.

(** What is known of the job stays known. *)
Definition still_known (job_id : JobId) (s s' : V4State) : Prop :=
  is_Some (s.(V4State_integrated_elections) !! job_id) -> is_Some (s'.(V4State_integrated_elections) !! job_id).

(** What restoring a file is to do to the votes. *)
Definition restoring (job_id : JobId) (t : v4 unit) : Prop :=
  forall s, reading_back s -> settled t s (fun r s' => reading_back s' /\ still_known job_id s s').

Lemma as_before job_id s s' :
  s'.(V4State_world).(files) = f -> s'.(V4State_integrated_elections) = s.(V4State_integrated_elections) ->
  reading_back s -> reading_back s' /\ still_known job_id s s'.
Proof. unfold reading_back, still_known. intros Hw He [_ Hv]. by rewrite Hw, He. Qed.

(** A file is read without any change; what was read is given to the rest. *)
Lemma settled_read_json {T} `{Json T} name s (k : option T -> v4 unit) Q :
  reading_back s ->
  (forall error cause world, world.(files) = f -> (exec (read_json (T := T) name) s.(V4State_world)).2 = Err cause ->
     Q (Err error) (set_V4State_world world s)) ->
  (forall value world, world.(files) = f -> (exec (read_json name) s.(V4State_world)).2 = Ok value ->
     settled (k value) (set_V4State_world world s) Q) ->
  settled (try_task (files_section (stored (read_json name))) k) s Q.
Proof.
  intros [Hf _] Herr Hok. apply settles_try, settled_read. unfold stored. rewrite exec_bind.
  assert (Hw : (exec (read_json (T := T) name) (V4State_world s)).1.(files) = f).
  { rewrite <- Hf. apply asks_same_files, read_json_asks. }
  destruct (exec (read_json name) (V4State_world s)) as [world [value|error]]; cbn in Hw |- *; eauto.
Qed.

Lemma restoring_from {T} `{Json T} name (valid : T -> bool) insert job_id :
  (forall value s, (insert value s).(V4State_world) = s.(V4State_world) /\
     (insert value s).(V4State_integrated_elections) = s.(V4State_integrated_elections)) ->
  restoring job_id (restore_from name valid insert).
Proof.
  intros Hi s Hs. apply settled_read_json; [done| |].
  - intros error cause world Hw _. by apply as_before.
  - intros [value|] world Hw _; [|by apply as_before].
    destruct (valid value); [|by apply as_before]. apply settles_tbind, settles_updating.
    intros e. destruct (Hi value (set_V4State_world world s)) as [Hiw Hie].
    apply as_before; [by rewrite Hiw | by rewrite Hie | done].
Qed.

Lemma restoring_proposal name job_id : restoring job_id (restore_proposal name).
Proof.
  intros s Hs. apply settled_read_json; [done| |].
  - intros error cause world Hw _. by apply as_before.
  - intros [plan|] world Hw _; [|by apply as_before].
    destruct (_ && _); [|by apply as_before].
    apply settles_tbind, settles_reading. intros e. cbn zeta beta. apply settles_tbind.
    destruct (_ <? _); [|by apply as_before]. apply settles_updating. intros e'. by apply as_before.
Qed.

(** The file of a vote: the vote it holds is the vote of the job it is named after. *)
Lemma restoring_vote name job_id :
  is_vote_file name = true ->
  restoring job_id (restore_from name valid_election (fun election s =>
    set_V4State_integrated_elections
      (<[election.(V4IntegratedElectionRecord_job_id) := election]> s.(V4State_integrated_elections)) s)).
Proof.
  intros Hname s Hs. apply settled_read_json; [done| |].
  - intros error cause world Hw _. by apply as_before.
  - intros [vote|] world Hw Hread; [|by apply as_before].
    destruct (valid_election vote); [|by apply as_before].
    apply settles_tbind, settles_updating. intros e.
    destruct Hs as [Hf Hv]. apply read_json_some in Hread as (d & Hd & Hvote); [|by apply vote_file_entry]. rewrite Hf in Hd.
    split; [split; [done|]|]; cbn.
    + intros job_id' vote'. rewrite lookup_insert_Some. intros [[<- <-]|[_ Hk]]; [|by apply Hv].
      exists d. by rewrite <- (names_kept name d vote).
    + intros [v Hk]. cbn. destruct (decide (vote.(V4IntegratedElectionRecord_job_id) = job_id)) as [->|Hne].
      * by rewrite lookup_insert_eq.
      * rewrite lookup_insert_ne by done. by exists v.
Qed.

Lemma restoring_nothing job_id : restoring job_id (Done (Ok tt)).
Proof. intros s Hs. apply as_before; [by destruct Hs | done..]. Qed.

Lemma restoring_file name job_id : restoring job_id (restore_file name).
Proof.
  unfold restore_file. repeat case_match; try (by apply restoring_from; intros);
    [by apply restoring_vote, is_named_vote | apply restoring_proposal | apply restoring_nothing].
Qed.

(** The file of the vote itself brings the vote back. *)
Lemma restore_own_vote vote s :
  vote_saved f vote -> valid_election vote = true -> reading_back s ->
  settled (restore_file (integrated_election_file vote.(V4IntegratedElectionRecord_job_id))) s (fun _ s' =>
    is_Some (s'.(V4State_integrated_elections) !! vote.(V4IntegratedElectionRecord_job_id))).
Proof.
  intros (Hlocal & d & Hd & Hvec & Hlen) Hvalid Hs. unfold restore_file.
  pose proof (election_file_named vote.(V4IntegratedElectionRecord_job_id)) as Hname.
  set (name := integrated_election_file _) in *.
  change (is_named "v4-data-shard-" name) with false. change (is_named "v4-training-state-" name) with false.
  change (is_named "v4-integrated-graph-" name) with false.
  change (is_named "v4-integrated-state-" name) with false. rewrite Hname.
  assert (Hread : (exec (read_json (T := V4IntegratedElectionRecord) name) (V4State_world s)).2 = Ok (Some vote)).
  { destruct Hs as [Hf _]. rewrite (exec_read_json name _ d); [|done| |by rewrite Hf|done].
    - cbn. by rewrite (from_slice_to_vec _ _ Hvec).
    - apply vote_file_entry, election_file_is_vote. }
  apply settled_read_json; [done|congruence|]. intros value world Hw Hvalue. rewrite Hread in Hvalue.
  injection Hvalue as <-. rewrite Hvalid. apply settles_tbind, settles_updating. intros e. cbn. by rewrite lookup_insert_eq.
Qed.

(** After all files are read the vote is known. *)
Lemma restore_files_settled vote names s :
  vote_saved f vote -> valid_election vote = true -> reading_back s ->
  integrated_election_file vote.(V4IntegratedElectionRecord_job_id) ∈ names \/
  is_Some (s.(V4State_integrated_elections) !! vote.(V4IntegratedElectionRecord_job_id)) ->
  settled (restore_files names) s (fun r s' => reading_back s' /\ (r = Ok tt ->
    is_Some (s'.(V4State_integrated_elections) !! vote.(V4IntegratedElectionRecord_job_id)))).
Proof.
  intros Hsaved Hvalid. revert s. induction names as [|name names IH]; intros s Hs Hk.
  { destruct Hk as [Hk|Hk]; [by apply not_elem_of_nil in Hk | done]. }
  cbn [restore_files]. apply settles_try.
  destruct (decide (name = integrated_election_file vote.(V4IntegratedElectionRecord_job_id))) as [->|Hne].
  - eapply settles_mono; [apply settles_and; [by apply (restoring_file _ vote.(V4IntegratedElectionRecord_job_id)) | by apply restore_own_vote]|].
    intros [[]|error] s' [[Hs' _] Hknown]; [|done]. by apply IH; [|right].
  - eapply settles_mono; [by apply (restoring_file _ vote.(V4IntegratedElectionRecord_job_id))|].
    intros [[]|error] s' [Hs' Hknown]; [|done]. apply IH; [done|]. destruct Hk as [Hk|Hk]; [left; set_solver | right; auto].
Qed.

(** The directory lists the file of the vote. *)
Lemma vote_listed w name d :
  w.(files) !! StatePath name = Some d ->
  exists names, (exec read_state_dir w) = (w, Ok names) /\ name ∈ names.
Proof.
  intros Hd. eexists. split; [done|]. cbn. right. apply list_elem_of_omap. exists (FileEntry (StatePath name)).
  split; [|done]. apply list_elem_of_fmap. exists (StatePath name). split; [done|].
  apply in_dir_elem. by rewrite Hd.
Qed.

Lemma restore_settled vote s :
  vote_saved f vote -> valid_election vote = true -> s.(V4State_world).(files) = f ->
  s.(V4State_integrated_elections) = ∅ ->
  settled restore s (fun r s' => r = Ok tt ->
    s'.(V4State_integrated_elections) !! vote.(V4IntegratedElectionRecord_job_id) = Some vote).
Proof.
  intros Hsaved Hvalid Hf He. destruct Hsaved as (Hlocal & d & Hd & Hvec & Hlen).
  destruct (vote_listed s.(V4State_world) (integrated_election_file vote.(V4IntegratedElectionRecord_job_id)) d)
    as (names & Hdir & Hin); [by rewrite Hf|].
  apply settles_try, settled_read. rewrite Hdir. cbn. eapply settles_mono; [apply (restore_files_settled vote)|].
  - split; [done|]. by exists d.
  - done.
  - split; [done|]. cbn. by rewrite He.
  - by left.
  - cbn. intros r s' [[_ Hv] Hk] Hr. destruct (Hk Hr) as [w Hw]. rewrite Hw. f_equal.
    destruct (Hv _ _ Hw) as (d' & Hd' & Hw'). apply from_slice_to_vec in Hvec. congruence.
Qed.
End Recovery.

Section Restarts.
Context `{Blake3} `{PlanPostcard} `{V4Json} `{Profile} `{ContributionPostcard}.
Context `{!JsonLaws V4IntegratedElectionRecord}.
Context (security_to_allocvec : LocalSecurityState -> result (list N) str).
Context (NodeError_to_string : NodeError -> str).
Context (local : NodeId) (store : LocalStore) (arch : str) (host_memory : N) (fuel : nat).

Notation v4_entry := (v4_entry security_to_allocvec NodeError_to_string local store arch host_memory fuel).

End Restarts.

(** * Frontier training: the shards a node keeps pass their check

    Every data shard, tensor shard, optimizer state and pipeline stage a node keeps for a planned
    job is under its own key and passes the check of its kind: its hash is the hash of its contents,
    its shape and its values are within bounds.  This holds after any interleaving of messages, local
    steps, plan changes and reads of the disk. *)

Section Intact.
Context `{Blake3} `{PlanPostcard} `{V4Json} `{Profile} `{ContributionPostcard}.
Context (security_to_allocvec : LocalSecurityState -> result (list N) str).
Context (NodeError_to_string : NodeError -> str).
Context (local : NodeId) (store : LocalStore) (arch : str) (host_memory : N) (fuel : nat).

Notation ok t := (obeys (pool_inv any_votes) any_section t (fun _ => True)).

Lemma pool_inv_intact s : pool_inv any_votes s <-> intact s.
Proof. by split; [intros [Hs _] | split]. Qed.

(** ** Restoring *)
Lemma keeps_read {A} (p : Prog (result A NodeError)) : ok (files_section p).
Proof.
  apply obeys_step. intros e s a s' out Hs. unfold run_files. destruct (run _ p _) as [world [r|]]; [|done].
  intros [= <- <- <-]. split_and!; [|done..]. apply pool_inv_intact in Hs. apply pool_inv_intact. by destruct Hs.
Qed.

Lemma keeps_change (f : V4Env -> V4State -> V4State) :
  (forall e s, intact s -> intact (f e s)) -> ok (updating f).
Proof. intros Hf. apply obeys_updating. intros e s Hs. split; [|done]. apply pool_inv_intact in Hs. apply pool_inv_intact. auto. Qed.

Lemma keeps_restored {T} `{Json T} name (valid : T -> bool) insert :
  (forall value s, valid value = true -> intact s -> intact (insert value s)) ->
  ok (restore_from name valid insert).
Proof.
  intros Hi. apply ok_attempt; [apply keeps_read|]. intros [value|]; [|done].
  destruct (valid value) eqn:Hv; [|done]. apply obeys_then; [|done]. apply keeps_change. intros e s Hs. by apply Hi.
Qed.

Lemma keeps_proposal name : ok (restore_proposal name).
Proof.
  apply ok_attempt; [apply keeps_read|]. intros [plan|]; [|done]. destruct (_ && _); [|done].
  apply obeys_then; [by apply obeys_reading|]. intros []; apply obeys_then; try done.
  apply keeps_change. by intros e s [].
Qed.

Lemma insert_bounded_kept {V} (kept : JobId * N -> V -> Prop) limit key value m :
  kept key value -> map_Forall kept m -> map_Forall kept (insert_bounded limit key value m).
Proof. intros Hk Hm. unfold insert_bounded. destruct (_ <? _); [|done]. by apply map_Forall_insert_2. Qed.

Lemma keeps_restored_file name : ok (restore_file name).
Proof.
  unfold restore_file. repeat case_match; [..|done]; try (apply keeps_proposal); apply keeps_restored;
    intros value s Hv []; split; try done; cbn;
    first [by apply insert_bounded_kept | by apply map_Forall_insert_2].
Qed.

Lemma restore_intact : ok restore.
Proof.
  apply ok_attempt; [apply keeps_read|]. intros names. induction names as [|name names IH]; [done|].
  apply ok_attempt; [apply keeps_restored_file | done].
Qed.

(** ** All tasks *)

(** A node reads its disk, serves planned jobs, and stands in for coordinators that are gone. *)
Inductive node_entry : vtask unit -> Prop :=
  | entry_restore : node_entry (ignore restore)
  | entry_serve t :
      v4_entry security_to_allocvec NodeError_to_string local store arch host_memory fuel t -> node_entry t.

Lemma keeps_cast request : ok (cast_vote store request).
Proof.
  apply obeys_step. intros e s a s' out Hs. cbn zeta.
  destruct (can_replace request _); [|by intros [= <- <- <-]]. unfold run_files.
  destruct (run _ _ _) as [world [[[]|error]|]]; try done; intros [= <- <- <-]; (split_and!; [|done..]);
    apply pool_inv_intact in Hs; apply pool_inv_intact; by destruct Hs.
Qed.

Lemma keeps_self_vote vote : ok (cast_self_vote store vote).
Proof.
  apply ok_attempt.
  - apply obeys_step. intros e s a s' out Hs. unfold run_files.
    destruct (run _ _ _) as [world [[u|error]|]]; [| |done]; intros [= <- <- <-]; (split_and!; [|done..]);
      apply pool_inv_intact in Hs; apply pool_inv_intact; by destruct Hs.
  - intros _. apply obeys_atomic. intros e s Hs. split_and!; [|done..].
    apply pool_inv_intact in Hs. apply pool_inv_intact. by destruct Hs.
Qed.

Lemma node_entry_ok t : node_entry t -> ok t.
Proof.
  destruct 1 as [|t Ht]; [eapply obeys_ignore, restore_intact|].
  eapply entry_ok; [done..| | |exact Ht]; [intros request _ _; apply keeps_cast | intros vote _; apply keeps_self_vote].
Qed.

(** (C16) Whatever the peers send, whatever is on the disk and however the tasks interleave, every
    data shard, tensor shard, optimizer state and pipeline stage a node holds in memory is filed under
    its own job and id (and rank, or stage) and passes the check of its kind: the stated hash is the
    hash of its contents, and its shape and values are within bounds. *)
Theorem kept_shards_are_intact s out s' ts :
  intact s -> pool_steps node_entry (s, []) out (s', ts) -> intact s'.
Proof.
  intros Hs Hsteps. apply (proj1 (pool_inv_intact s')).
  refine (proj1 (pool_obeys (pool_inv any_votes) any_section node_entry (s, []) out (s', ts) _ _ _ Hsteps _ _)); try done.
  intros t. apply node_entry_ok.
Qed.
End Intact.

(** * Frontier training: collective sums

    The contributions of a group of workers to one collective operation are added up exactly, in
    whatever order they arrive and are read from their map: sixty-four values of at most a billion
    stay far from the bounds of [i64], so that no saturating addition saturates. *)

(** ** Orders *)
Lemma shuffle_permutation {A} order (xs : list A) : shuffle order xs ≡ₚ xs.
Proof.
  revert xs. induction order as [|i order IH]; intros xs; cbn; [done|].
  destruct (xs !! _) as [x|] eqn:Hx; [|done]. rewrite IH. unfold remove_at. rewrite <- delete_take_drop.
  symmetry. by apply delete_Permutation.
Qed.

(** ** Sums *)

(** The sum of vectors of a given width, without any bound. *)
Definition exact_sum (width : nat) (vectors : list (list Z)) : list Z :=
  foldr (zip_with Z.add) (replicate width 0%Z) vectors.

Lemma zip_add_comm (a b : list Z) : zip_with Z.add a b = zip_with Z.add b a.
Proof. revert b. induction a as [|x a IH]; intros [|y b]; cbn; [done..|]. f_equal; [lia | apply IH]. Qed.

Lemma zip_add_swap (a b c : list Z) :
  zip_with Z.add a (zip_with Z.add b c) = zip_with Z.add b (zip_with Z.add a c).
Proof.
  revert b c. induction a as [|x a IH]; intros [|y b] [|z c]; cbn; [done..|]. f_equal; [lia | apply IH].
Qed.

Lemma exact_sum_permutation width vectors vectors' :
  vectors ≡ₚ vectors' -> exact_sum width vectors = exact_sum width vectors'.
Proof. apply foldr_permutation_proper; [apply _ | apply _ |]. intros a b c. apply zip_add_swap. Qed.

Lemma foldr_zip_add_push (acc v : list Z) vectors :
  foldr (zip_with Z.add) (zip_with Z.add acc v) vectors = zip_with Z.add v (foldr (zip_with Z.add) acc vectors).
Proof.
  induction vectors as [|w vectors IH]; cbn; [apply zip_add_comm|]. by rewrite IH, zip_add_swap.
Qed.

Definition within (bound : Z) (values : list Z) : Prop := Forall (fun value => (Z.abs value <= bound)%Z) values.

(** One addition, far from the bounds. *)
Lemma saturating_step (k : Z) (acc v : list Z) :
  (k <= 1000)%Z -> length acc = length v -> within (k * 1000000000) acc -> within 1000000000 v ->
  zip_update i64_saturating_add acc v = zip_with Z.add acc v /\
  within ((k + 1) * 1000000000) (zip_with Z.add acc v).
Proof.
  intros Hk. revert v. induction acc as [|a acc IH]; intros [|x v] Hlen Ha Hv; [by split; [|constructor] | done..|].
  inversion Ha as [|? ? Hax Ha']; inversion Hv as [|? ? Hvx Hv']; subst. cbn in Hlen.
  destruct (IH v ltac:(lia) Ha' Hv') as [He Hw]. cbn. split.
  - f_equal; [|exact He]. unfold i64_saturating_add, clamp_to, i64_min, i64_max. lia.
  - constructor; [lia | exact Hw].
Qed.

Lemma saturating_sum (k : Z) width (acc : list Z) vectors :
  (0 <= k)%Z -> (k + Z.of_nat (length vectors) <= 1000)%Z -> length acc = width ->
  within (k * 1000000000) acc ->
  Forall (fun v => length v = width /\ within 1000000000 v) vectors ->
  fold_left (zip_update i64_saturating_add) vectors acc = foldr (zip_with Z.add) acc vectors.
Proof.
  intros Hk Hlen Hw Ha Hv. revert k acc Hk Hlen Hw Ha.
  induction Hv as [|v vectors [Hvl Hvw] _ IH]; intros k acc Hk Hlen Hw Ha; [done|]. cbn [fold_left length] in *.
  destruct (saturating_step k acc v) as [He Hb]; [lia | congruence | done..|]. rewrite He.
  rewrite (IH (k + 1)%Z); [apply foldr_zip_add_push | lia | lia | | done].
  rewrite length_zip_with. lia.
Qed.

Lemma sum_vectors_exact width vectors :
  (length vectors <= 1000)%nat -> vectors <> [] ->
  Forall (fun v => length v = width /\ within 1000000000 v) vectors ->
  sum_vectors vectors = exact_sum width vectors.
Proof.
  intros Hlen Hne Hv. unfold sum_vectors, exact_sum. destruct vectors as [|v vectors]; [done|].
  pose proof (Forall_inv Hv) as [Hw _]. cbn in Hw. subst width. apply (saturating_sum 0 (length v)); [done | lia | apply length_replicate | | exact Hv].
  apply Forall_replicate. lia.
Qed.

(** ** Contributions *)

(** The other contributions of the request. *)
Definition same_request (first c : V4CollectiveContribute) : Prop :=
  collective_of_contribution c = collective_of_contribution first.

(** What is told of each contribution as they arrive one after another, each with an order in which
    the map of contributions is read. *)
Fixpoint outcomes (arrivals : list (list nat * V4CollectiveContribute)) (state : V4CollectiveState)
    : list (result (option GroupSum) NodeError) :=
  match arrivals with
  | [] => []
  | (order, c) :: arrivals =>
      let '(outcome, state) := join_contribution order c state in
      outcome :: outcomes arrivals state
  end.

Definition contributor (arrival : list nat * V4CollectiveContribute) : NodeId :=
  arrival.2.(V4CollectiveContribute_contributor).

Definition contributed (arrival : list nat * V4CollectiveContribute) : NodeId * list Z :=
  (contributor arrival, arrival.2.(V4CollectiveContribute_values)).

(** The sum that is due. *)
Definition group_sum (first : V4CollectiveContribute) (arrivals : list (list nat * V4CollectiveContribute))
    : GroupSum :=
  mkGroupSum (exact_sum (length first.(V4CollectiveContribute_values)) (contributed <$> arrivals).*2)
    first.(V4CollectiveContribute_expected_contributors) first.(V4CollectiveContribute_expected_groups)
    first.(V4CollectiveContribute_group_id) first.(V4CollectiveContribute_parent)
    first.(V4CollectiveContribute_reply_to).

(** The state after some of the contributions. *)
Definition after_arrivals (first : V4CollectiveContribute) (arrivals : list (list nat * V4CollectiveContribute))
    : V4CollectiveState :=
  set_V4CollectiveState_contributions (list_to_map (contributed <$> arrivals)) (collective_of_contribution first).

Lemma vector_within values field :
  v4_vector values field = Ok tt -> within 1000000000 values.
Proof.
  intros Hv. unfold v4_vector in Hv. inv_ok Hv. unfold within. clear - Hv.
  induction values as [|x xs IH]; [done|]. cbn in Hv. breflect. constructor; [unfold unsigned_abs in *; lia | by apply IH].
Qed.

Lemma contribution_spec c :
  v4_collective_contribute c = Ok tt ->
  within 1000000000 c.(V4CollectiveContribute_values) /\
  0 < c.(V4CollectiveContribute_expected_contributors) <= MAX_V4_PLAN_WORKERS.
Proof.
  intros Hv. unfold v4_collective_contribute in Hv. inv_ok Hv. split; [by eapply vector_within | lia].
Qed.

(** A contribution of the request joins those before it. *)
Lemma join_next first arrivals order c :
  v4_collective_contribute first = Ok tt -> same_request first c ->
  c.(V4CollectiveContribute_contributor) ∉ map contributor arrivals ->
  join_contribution order c (after_arrivals first arrivals)
  = let '(sum, state) := complete_group order (after_arrivals first (arrivals ++ [(order, c)])) in (Ok sum, state).
Proof.
  intros Hfirst Hsame Hnew. apply contribution_spec in Hfirst as [_ Hexp]. unfold same_request in Hsame.
  assert (Hmaps : <[c.(V4CollectiveContribute_contributor) := c.(V4CollectiveContribute_values)]>
            (list_to_map (contributed <$> arrivals) : gmap NodeId (list Z))
          = list_to_map (contributed <$> (arrivals ++ [(order, c)]))).
  { rewrite fmap_app. symmetry. apply list_to_map_snoc. rewrite <- list_fmap_compose. exact Hnew. }
  unfold join_contribution. injection Hsame as Hj Hp Hg Hc He Hi Hr Ht Hl.
  assert (Hzero : (V4CollectiveState_expected_contributors (after_arrivals first arrivals) =? 0) = false).
  { apply N.eqb_neq. cbn. lia. }
  rewrite Hzero. unfold collective_matches, group_matches. cbn.
  rewrite Hj, Hp, Hg, Hc, He, Hi, Hr, Ht. rewrite !N.eqb_refl, !bool_decide_eq_true_2 by done.
  rewrite <- Hl, N.eqb_refl. cbn.
  unfold record_once.
  assert (Hnone : (list_to_map (contributed <$> arrivals) : gmap NodeId (list Z))
                    !! c.(V4CollectiveContribute_contributor) = None).
  { apply not_elem_of_list_to_map_1. rewrite <- list_fmap_compose. exact Hnew. }
  rewrite Hnone, Hmaps. done.
Qed.

Lemma after_size first arrivals :
  NoDup (map contributor arrivals) ->
  size (after_arrivals first arrivals).(V4CollectiveState_contributions) = length arrivals.
Proof.
  intros Hnd. unfold after_arrivals. cbn.
  rewrite <- length_map_to_list, map_to_list_to_map, length_fmap; [done|]. rewrite <- list_fmap_compose. exact Hnd.
Qed.

(** Before the last contribution there is nothing to tell, with it the sum. *)
Lemma complete_after first arrivals order :
  Forall (fun arrival => v4_collective_contribute arrival.2 = Ok tt /\ same_request first arrival.2) arrivals ->
  NoDup (map contributor arrivals) -> v4_collective_contribute first = Ok tt -> arrivals <> [] ->
  if N.of_nat (length arrivals) =? first.(V4CollectiveContribute_expected_contributors)
  then (complete_group order (after_arrivals first arrivals)).1 = Some (group_sum first arrivals)
  else complete_group order (after_arrivals first arrivals) = (None, after_arrivals first arrivals).
Proof.
  intros Hall Hnd Hfirst Hne. apply contribution_spec in Hfirst as [_ Hexp].
  unfold complete_group. rewrite (after_size first arrivals Hnd).
  change (V4CollectiveState_expected_contributors (after_arrivals first arrivals))
    with first.(V4CollectiveContribute_expected_contributors).
  destruct (_ =? _) eqn:Hn; [|done]. apply N.eqb_eq in Hn. cbn. unfold group_sum. do 2 f_equal.
  set (vectors := shuffle _ _).
  assert (Hp : vectors ≡ₚ (contributed <$> arrivals).*2).
  { unfold vectors. rewrite shuffle_permutation. unfold map_values.
    rewrite map_to_list_to_map; [done|]. rewrite <- list_fmap_compose. exact Hnd. }
  rewrite <- (exact_sum_permutation _ _ _ Hp). unfold MAX_V4_PLAN_WORKERS in Hexp. apply sum_vectors_exact.
  - rewrite Hp, !length_fmap. lia.
  - intros Hnil. rewrite Hnil in Hp. apply Permutation_nil in Hp. by destruct arrivals.
  - rewrite Hp. rewrite !Forall_fmap. eapply Forall_impl; [exact Hall|]. intros [o c] [Hc Hs]. cbn.
    apply contribution_spec in Hc as [Hw _]. split; [|done]. unfold same_request in Hs.
    injection Hs as _ _ _ _ _ _ _ _ Hl. unfold len in Hl. by apply Nat2N.inj in Hl.
Qed.

Lemma outcomes_from first arrivals rest :
  Forall (fun arrival => v4_collective_contribute arrival.2 = Ok tt /\ same_request first arrival.2)
    (arrivals ++ rest) ->
  NoDup (map contributor (arrivals ++ rest)) -> v4_collective_contribute first = Ok tt -> rest <> [] ->
  N.of_nat (length (arrivals ++ rest)) = first.(V4CollectiveContribute_expected_contributors) ->
  outcomes rest (after_arrivals first arrivals)
  = replicate (length rest - 1) (Ok None) ++ [Ok (Some (group_sum first (arrivals ++ rest)))].
Proof.
  intros Hall Hnd Hfirst. revert arrivals Hall Hnd. induction rest as [|[order c] rest IH]; [done|].
  intros arrivals Hall Hnd _ Hlen. cbn [outcomes].
  change ((order, c) :: rest) with ([(order, c)] ++ rest) in Hall, Hnd, Hlen |- *.
  rewrite (assoc_L (++)) in Hall, Hnd, Hlen |- *.
  pose proof (proj1 (proj1 (Forall_app _ _ _) Hall)) as Hall1.
  assert (Hnd1 : NoDup (map contributor (arrivals ++ [(order, c)]))).
  { rewrite map_app in Hnd. by apply NoDup_app in Hnd as (? & _ & _). }
  rewrite join_next; [|done| |].
  - pose proof (complete_after first (arrivals ++ [(order, c)]) order Hall1 Hnd1 Hfirst) as Hc.
    rewrite length_app in Hlen. destruct rest as [|next rest].
    + rewrite !app_nil_r in *. cbn [length] in Hlen. rewrite Nat.add_0_r in Hlen. rewrite Hlen, N.eqb_refl in Hc.
      destruct (complete_group _ _) as [sum state]. cbn in Hc |- *. rewrite Hc; [done|]. by destruct arrivals.
    + rewrite (proj2 (N.eqb_neq _ _)) in Hc by (cbn [length] in Hlen; lia). rewrite Hc by (by destruct arrivals).
      rewrite IH; [|done..|by rewrite length_app]. cbn. by rewrite Nat.sub_0_r.
  - apply Forall_app in Hall1 as [_ Hc]. by inversion Hc as [|? ? [_ ?] _].
  - rewrite map_app in Hnd1. apply NoDup_app in Hnd1 as (_ & Hd & _). intros Hin. apply (Hd _ Hin). cbn. by left.
Qed.

(** (C17) The contributions of the workers of a group to one collective operation, each valid and from
    another worker, are acknowledged one after another, and the last one brings the exact sum of all
    of them, whatever the order in which they arrive and in which the map is read. *)
Theorem collective_sum_is_exact first arrivals :
  Forall (fun arrival => v4_collective_contribute arrival.2 = Ok tt /\ same_request first arrival.2) arrivals ->
  NoDup (map contributor arrivals) -> v4_collective_contribute first = Ok tt ->
  N.of_nat (length arrivals) = first.(V4CollectiveContribute_expected_contributors) ->
  outcomes arrivals (collective_of_contribution first)
  = replicate (length arrivals - 1) (Ok None) ++ [Ok (Some (group_sum first arrivals))].
Proof.
  intros Hall Hnd Hfirst Hlen. apply (outcomes_from first []); try done.
  intros ->. apply contribution_spec in Hfirst as [_ Hexp]. cbn in Hlen. lia.
Qed.
