(* ===== verification/V4Examples.v ===== *)
(** * Frontier training: a sample job

    A worker of an integrated job, elections it votes in, a restart, the replacement of a coordinator,
    a whole run of a driver, runs in which jobs are not protected, and the witnesses of the theorems
    about planned jobs. *)

From Stdlib Require Import String ZArith NArith Lia.
From stdpp Require Import base tactics sets strings numbers list gmap countable.
From S2P Require Import Prelude OrdMap Types Validation FileSystem Storage StorageFacts Aggregation Compute Float32 Planner Runtime Trust Security Network NetworkExamples NodeConfig Tasks TaskLogic NodeExamples V4Model V4Control V4Integrated V4Data V4Node V4Reconfigure V4Driver V4Plans V4Commands V4DriverFacts V4Graphs V4Operator V4Facts V4Pool V4Votes V4Recovery.
Local Open Scope N_scope.
Local Open Scope rust_scope.

(** ** Surroundings *)

Definition vote_fields (vote : V4IntegratedElectionRecord) : JobId * N * ArtifactId * N * NodeId * ArtifactId :=
  (vote.(V4IntegratedElectionRecord_job_id), vote.(V4IntegratedElectionRecord_graph_generation),
   vote.(V4IntegratedElectionRecord_graph_hash), vote.(V4IntegratedElectionRecord_term),
   vote.(V4IntegratedElectionRecord_candidate), vote.(V4IntegratedElectionRecord_vote_hash)).

Definition fields_vote (v : JobId * N * ArtifactId * N * NodeId * ArtifactId) : V4IntegratedElectionRecord :=
  let '(job, generation, hash, term, candidate, vote_hash) := v in
  mkV4IntegratedElectionRecord job generation hash term candidate vote_hash.

#[local] Instance vote_eq_dec : EqDecision V4IntegratedElectionRecord.
Proof. solve_decision. Defined.

Lemma vote_countable : Countable V4IntegratedElectionRecord.
Proof. apply (inj_countable' vote_fields fields_vote). by intros []. Defined.

(** Votes are read back, other records are written only. *)
Definition unread (T : Type) : Json T :=
  {| to_vec := fun _ => Ok [1]; from_slice := fun _ => Err "not read"%string |}.

(** A tensor shard is written as its generation. *)
Definition generation_json : Json V4LocalTensorShard :=
  {| to_vec := fun shard => Ok [shard.(V4LocalTensorShard_state_generation)];
     from_slice := fun _ => Err "not read"%string |}.

#[local] Instance fx_json : V4Json :=
  {| json_data_shard := unread _; json_tensor_shard := generation_json; json_optimizer_state := unread _;
     json_pipeline_stage := unread _; json_branch_commit := unread _;
     json_election := @countable_json _ _ vote_countable;
     json_plan := unread _; json_training_state := unread _; json_optimizer_shard := unread _;
     json_checkpoint := unread _; json_graph := unread _; json_integrated_state := unread _;
     json_result := unread _; json_tensor := unread _; json_optimizer := unread _;
     json_pipeline := unread _; json_branch := unread _; json_bytes := unread _ |}.

Lemma fx_vote_laws : JsonLaws V4IntegratedElectionRecord.
Proof. apply (@countable_json_laws _ _ vote_countable). Defined.

#[local] Existing Instances net_hash fx_vote_laws.

(** A plan is written as its generation. *)
#[local] Instance fx_plan_bytes : PlanPostcard := fun plan => Some [plan.(V4TrainingPlan_plan_generation)].

#[local] Instance fx_contribution : ContributionPostcard := fun _ => Some [1].

#[local] Instance fx_profile : Profile := true.

Definition fx_node (n : N) : NodeId := mkNodeId (repeat n 32).

Definition fx_job : JobId := mkJobId (repeat 7 16).

Definition fx_hash (n : N) : ArtifactId := mkArtifactId (repeat n 32).

Definition fx_env : V4Env := mkV4Env 100 false None [] None false 5 [] (mkJobId []) [] [] [].

(** ** The worker *)

(** Four workers, the fourth of them the coordinator. *)
Definition fx_graph : V4ExecutionGraph :=
  mkV4ExecutionGraph fx_job 1 None (fx_node 9) (fx_node 4) (fx_node 9) (fx_hash 1) (fx_hash 2) 1 1 1 1 0
    (map fx_node [1; 2; 3; 4]) [] [] [] [] [] [] 1 1 1 1 V4ParallelismStrategy_LocalSgd [] [] (fx_hash 3).

Definition fx_running : V4IntegratedStateRecord :=
  mkV4IntegratedStateRecord fx_job 1 (fx_hash 1) (fx_hash 2) (fx_node 4) V4IntegratedPhase_Running 1 4 0 0 0 1 1 1 1 0
    (fx_hash 4).

Definition fx_empty : V4State :=
  mkV4State nx_world nx_security (mkBackendRegistry [] [] []) 0 ∅ ∅ ∅ ∅ ∅ ∅ ∅ ∅ ∅ ∅ ∅ ∅ ∅ ∅ ∅ ∅.

Definition fx_worker : V4State :=
  set_V4State_integrated_states {[fx_job := fx_running]} (set_V4State_integrated_graphs {[fx_job := fx_graph]} fx_empty).

Lemma fx_worker_intact : intact fx_worker.
Proof. split; apply map_Forall_empty. Defined.

Lemma fx_worker_votes :
  votes_kept fx_worker.(V4State_integrated_elections) fx_worker.(V4State_world).(files).
Proof. by split. Defined.

Notation fx_entry := (v4_entry nx_security_bytes (fun _ => "error"%string) (fx_node 1) nx_store "x86_64" 1000 10).

(** ** Elections *)

(** A candidate asks for the vote. *)
Definition fx_ask (candidate term : N) : vtask unit :=
  V4Node.handle_message nx_security_bytes (fun _ => "error"%string) (fx_node 1) nx_store "x86_64" 1000 10
    (fx_node candidate) (TrainingV4Message_IntegratedElectionRequest
      (mkV4IntegratedElectionRequest fx_job fx_job 1 (fx_hash 3) (fx_hash 2) (fx_hash 4) term (fx_node candidate))).

Lemma fx_ask_entry candidate term : fx_entry (fx_ask candidate term).
Proof. apply entry_message. cbn. by repeat constructor. Defined.

(** The second worker asks, then the third one in the same term and in the next one. *)
Definition fx_first : vtask unit * V4State * list V4Effect := run_task (fx_ask 2 2) (repeat fx_env 20) fx_worker.

Definition fx_second : vtask unit * V4State * list V4Effect :=
  run_task (fx_ask 3 2) (repeat fx_env 20) fx_first.1.2.

Definition fx_third : vtask unit * V4State * list V4Effect :=
  run_task (fx_ask 3 3) (repeat fx_env 20) fx_second.1.2.

Definition fx_votes : list V4Effect := (fx_first.2 ++ fx_second.2) ++ fx_third.2.

Definition fx_vote (candidate term : N) : V4IntegratedElectionRecord :=
  vote_of (mkV4IntegratedElectionRequest fx_job fx_job 1 (fx_hash 3) (fx_hash 2) (fx_hash 4) term (fx_node candidate)).

Lemma fx_votes_run : exists ts, pool_steps fx_entry (fx_worker, []) fx_votes (fx_third.1.2, ts).
Proof.
  destruct (pool_serves fx_entry (fx_ask 2 2) (repeat fx_env 20) fx_worker [] (fx_ask_entry 2 2)) as (ts1 & H1).
  destruct (pool_serves fx_entry (fx_ask 3 2) (repeat fx_env 20) fx_first.1.2 ts1 (fx_ask_entry 3 2)) as (ts2 & H2).
  destruct (pool_serves fx_entry (fx_ask 3 3) (repeat fx_env 20) fx_second.1.2 ts2 (fx_ask_entry 3 3)) as (ts3 & H3).
  exists ts3. unfold fx_votes. exact (pool_steps_trans _ _ _ _ _ _ (pool_steps_trans _ _ _ _ _ _ H1 H2) H3).
Defined.

Lemma fx_votes_cast :
  option_list (fx_worker.(V4State_integrated_elections) !! fx_job) ++ votes_for fx_job fx_votes
  = [] ++ fx_vote 2 2 :: [] ++ fx_vote 3 3 :: [].
Proof. vm_compute. reflexivity. Defined.


(** ** A restart *)

(** A node that starts on a disk. *)
Definition fx_start (world : World) : V4State := set_V4State_world world fx_empty.

Lemma fx_start_world world : (fx_start world).(V4State_world) = world.
Proof. reflexivity. Defined.

Lemma fx_start_votes world : (fx_start world).(V4State_integrated_elections) = ∅.
Proof. reflexivity. Defined.

Definition fx_fresh : V4State := fx_start fx_third.1.2.(V4State_world).

Lemma fx_vote_last :
  last_vote (fx_worker.(V4State_integrated_elections) !! fx_job) (votes_for fx_job fx_votes) = Some (fx_vote 3 3).
Proof. vm_compute. reflexivity. Defined.

Definition stands (effect : V4Effect) : bool :=
  match effect with
  | Did_Stand _ => true
  | Did_Vote vote => bool_decide (vote.(V4IntegratedElectionRecord_candidate) = fx_node 1)
  | _ => false
  end.

(** The worker only answers others. *)
Lemma fx_no_candidacy : Forall (no_candidacy (fx_node 1)) fx_votes.
Proof.
  assert (Hs : forallb (fun effect => negb (stands effect)) fx_votes = true) by (vm_compute; reflexivity).
  rewrite forallb_forall in Hs. apply Forall_forall. intros effect Hin. specialize (Hs effect Hin).
  destruct effect; try done. cbn in Hs. by apply negb_true_iff, bool_decide_eq_false in Hs.
Qed.


(** The restart of the sample ends well. *)
Example fx_restored :
  match run_task restore (repeat fx_env 20) fx_fresh with
  | (Done r, s, _) => r = Ok tt /\ s.(V4State_integrated_elections) !! fx_job = Some (fx_vote 3 3)
  | _ => False
  end.
Proof. vm_compute. split; reflexivity. Qed.

(** ** A collective operation *)

Definition fx_contribute (n : N) (values : list Z) : V4CollectiveContribute :=
  mkV4CollectiveContribute fx_job fx_job 1 1 0 (fx_node n) (fx_node 4) None 3 1 values (fx_node 9).

Definition fx_arrivals : list (list nat * V4CollectiveContribute) :=
  [([], fx_contribute 2 [5; -7]%Z); ([], fx_contribute 1 [1000000000; 3]%Z);
   ([1; 0]%nat, fx_contribute 3 [1000000000; -1]%Z)].

Lemma collective_sum_is_exact_witness :
  outcomes fx_arrivals (collective_of_contribution (fx_contribute 2 [5; -7]%Z))
  = [Ok None; Ok None; Ok (Some (mkGroupSum [2000000005; -5]%Z 3 1 0 None (fx_node 9)))].
Proof.
  refine (collective_sum_is_exact (fx_contribute 2 [5; -7]%Z) fx_arrivals _ _ _ _).
  - repeat constructor.
  - apply (bool_decide_eq_true_1 (NoDup _)). vm_compute. reflexivity.
  - vm_compute. reflexivity.
  - vm_compute. reflexivity.
Defined.

(** * Where planned jobs are not protected

    Runs of the worker of [V4Examples] in which the code does not do what it says: a peer that is no
    part of a job replaces its plan, two graphs become active under one generation, a coordinator is
    replaced on votes nobody cast, and a newer tensor on disk is overwritten by an older one. *)

#[local] Existing Instances net_hash fx_json fx_vote_laws fx_plan_bytes fx_contribution fx_profile.

(** ** A plan and its graph *)

Definition fd_capability (node : NodeId) : V4WorkerCapability :=
  mkV4WorkerCapability node
    (mkV4AcceleratorCapability V4AcceleratorFamily_Cpu "cpu" 1 1000 [V4NumericalFormat_F32] "native" "1" false)
    1000 1 1 1 1000 [].

Definition fd_shard (owner : NodeId) (replicas : list NodeId) : V4ShardOwnership :=
  mkV4ShardOwnership 0 1 [owner] replicas 1 (fx_hash 5) 8 8 "native" V4ShardLifecycle_Active.

Definition fd_plan (strategy : V4ParallelismStrategy) (degree : N) (proposer : NodeId) (generation : N)
    (workers : list NodeId) : V4TrainingPlan :=
  mkV4TrainingPlan fx_job proposer generation 1 1 1 1 (fx_hash 2) strategy V4SupportLevel_Supported workers
    [mkV4AggregationGroup 0 workers (hd (fx_node 0) workers) None]
    [fd_shard (hd (fx_node 0) workers) (tl workers)] degree 0 1 1 1 DataLocality_LocalOnly None
    (map fd_capability workers) "sample" (ArtifactId_from_bytes_hashed [generation]) None [] [].

Definition fd_sgd (proposer generation : N) (workers : list N) : V4TrainingPlan :=
  fd_plan V4ParallelismStrategy_LocalSgd 0 (fx_node proposer) generation (map fx_node workers).

Definition fd_graph (coordinator generation : N) (parent : option N) (term : N) (certificate : list N) (hash : N)
    : V4ExecutionGraph :=
  let workers := map fx_node [1; 2; 3; 4] in
  mkV4ExecutionGraph fx_job generation parent (fx_node coordinator) (fx_node coordinator) (fx_node coordinator)
    (ArtifactId_from_bytes_hashed [generation]) (fx_hash 2) 1 1 term 1 1 workers [] [] []
    [mkV4AggregationGroup 0 workers (fx_node 1) None] [fd_shard (fx_node 1) []]
    [mkV4OptimizerPlacement 0 (fx_node 1) [] 1] 1 1 1 1 V4ParallelismStrategy_LocalSgd
    (map fx_node certificate) [] (fx_hash hash).

Definition fd_start (coordinator generation : N) (parent : option N) (term : N) (certificate : list N) (hash : N)
    : V4IntegratedStart :=
  mkV4IntegratedStart fx_job (fd_graph coordinator generation parent term certificate hash)
    (fd_sgd coordinator generation [1; 2; 3; 4]) 4 1 (fx_node coordinator).

Definition fd_receive (peer : N) (message : TrainingV4Message) : vtask unit :=
  V4Node.handle_message nx_security_bytes (fun _ => "error"%string) (fx_node 1) nx_store "x86_64" 1000 10
    (fx_node peer) message.

Definition fd_run (t : vtask unit) (s : V4State) : vtask unit * V4State * list V4Effect :=
  run_task t (repeat fx_env 40) s.

Lemma fd_entry peer message : job_wf (message_job_id message) -> fx_entry (fd_receive peer message).
Proof. apply entry_message. Qed.

(** ** A plan is taken over *)

Definition taken_before : V4State := set_V4State_plans {[fx_job := fd_sgd 4 1 [1; 2; 3; 4]]} fx_worker.

Definition taken_plan : V4TrainingPlan := fd_sgd 5 2 [1; 5].

Definition taken_run : vtask unit * V4State * list V4Effect :=
  fd_run (fd_receive 5 (TrainingV4Message_Plan taken_plan)) taken_before.

(** The fifth node, neither a worker of the active plan nor its proposer, names itself the proposer of
    the next generation and becomes the authority over the job. *)
Theorem stranger_replaces_the_plan :
  exists ts, pool_steps fx_entry (taken_before, []) taken_run.2 (taken_run.1.2, ts) /\
  (forall plan, taken_before.(V4State_plans) !! fx_job = Some plan ->
     fx_node 5 ∉ plan.(V4TrainingPlan_workers) /\ plan.(V4TrainingPlan_proposer) <> fx_node 5) /\
  taken_run.1.2.(V4State_plans) !! fx_job = Some taken_plan /\
  taken_plan.(V4TrainingPlan_proposer) = fx_node 5.
Proof.
  destruct (pool_serves fx_entry (fd_receive 5 (TrainingV4Message_Plan taken_plan)) (repeat fx_env 40) taken_before [])
    as (ts & Hrun); [apply fd_entry; cbn; by repeat constructor|].
  exists ts. split_and!; [exact Hrun| | vm_compute; reflexivity | reflexivity].
  intros plan [= <-]. split; [|done]. apply (bool_decide_eq_true_1 (_ ∉ _)). vm_compute. reflexivity.
Qed.

(** ** Two graphs under one generation *)

Definition fence_first : TrainingV4Message := TrainingV4Message_IntegratedStart (fd_start 2 1 None 1 [] 6).

Definition fence_second : TrainingV4Message := TrainingV4Message_IntegratedStart (fd_start 3 1 None 1 [] 7).

(** The second worker's graph is checked, the third worker's becomes active, then the first goes on. *)
Definition fence_checked : vtask unit * V4State * list V4Effect :=
  run_task (fd_receive 2 fence_first) (repeat fx_env 5) fx_empty.

Definition fence_between : vtask unit * V4State * list V4Effect :=
  fd_run (fd_receive 3 fence_second) fence_checked.1.2.

Definition fence_late : vtask unit * V4State * list V4Effect := fd_run fence_checked.1.1 fence_between.1.2.

Lemma fence_run :
  exists ts, pool_steps fx_entry (fx_empty, []) (fence_checked.2 ++ fence_between.2 ++ fence_late.2)
    (fence_late.1.2, ts).
Proof.
  apply (pool_interleaved fx_entry (fd_receive 2 fence_first) (fd_receive 3 fence_second) (repeat fx_env 5)
    (repeat fx_env 40) (repeat fx_env 40) fx_empty fence_checked.1.1 fence_checked.1.2 fence_checked.2
    fence_between.1.1 fence_between.1.2 fence_between.2 fence_late.1.1 fence_late.1.2 fence_late.2);
    [apply fd_entry; cbn; by repeat constructor.. | | |].
  - unfold fence_checked. by destruct (run_task _ _ _) as [[t s] out].
  - unfold fence_between, fd_run. by destruct (run_task _ _ _) as [[t s] out].
  - unfold fence_late, fd_run. by destruct (run_task _ _ _) as [[t s] out].
Qed.

(** The acceptance of a graph of the first generation by the worker. *)
Definition accepted_by_worker : V4IntegratedAck := mkV4IntegratedAck fx_job 1 (fx_node 1) true "durable graph persisted".

(** (C40) Two graphs of one generation with different coordinators and hashes are both acknowledged, and one
    takes the place of the other: the current graph is read long before it is replaced. *)
Theorem generations_do_not_fence :
  exists ts, pool_steps fx_entry (fx_empty, []) (fence_checked.2 ++ fence_between.2 ++ fence_late.2)
    (fence_late.1.2, ts) /\
  fence_between.1.2.(V4State_integrated_graphs) !! fx_job = Some (fd_graph 3 1 None 1 [] 7) /\
  fence_late.1.2.(V4State_integrated_graphs) !! fx_job = Some (fd_graph 2 1 None 1 [] 6) /\
  Did_Transmit (fx_node 3) (TrainingV4Message_IntegratedAck accepted_by_worker) ∈ fence_between.2 /\
  Did_Transmit (fx_node 2) (TrainingV4Message_IntegratedAck accepted_by_worker) ∈ fence_late.2.
Proof.
  destruct fence_run as [ts Hrun]. exists ts. split_and!; [exact Hrun | vm_compute; reflexivity | vm_compute; reflexivity |..].
  - assert (He : exists rest, fence_between.2 = Did_Transmit (fx_node 3) (TrainingV4Message_IntegratedAck accepted_by_worker) :: rest)
      by (eexists; vm_compute; reflexivity).
    destruct He as [rest ->]. by left.
  - assert (He : exists rest, fence_late.2 = Did_Transmit (fx_node 2) (TrainingV4Message_IntegratedAck accepted_by_worker) :: rest)
      by (eexists; vm_compute; reflexivity).
    destruct He as [rest ->]. by left.
Qed.

(** ** A certificate without votes *)

(** The worker knows the graph of the fourth node; the second one presents the next graph. *)
Definition forged_before : V4State :=
  set_V4State_integrated_graphs {[fx_job := fd_graph 4 1 None 1 [] 6]} fx_worker.

Definition forged_graph : V4ExecutionGraph := fd_graph 2 2 (Some 1) 2 [1; 2; 3] 7.

Definition forged_message : TrainingV4Message :=
  TrainingV4Message_IntegratedStart (fd_start 2 2 (Some 1) 2 [1; 2; 3] 7).

Definition forged_run : vtask unit * V4State * list V4Effect := fd_run (fd_receive 2 forged_message) forged_before.

(** The worker has never voted, and accepts a coordinator whose certificate names it among the voters. *)
Theorem certificates_need_no_votes :
  exists ts, pool_steps fx_entry (forged_before, []) forged_run.2 (forged_run.1.2, ts) /\
  forged_before.(V4State_integrated_elections) !! fx_job = None /\
  votes_for fx_job forged_run.2 = [] /\
  fx_node 1 ∈ forged_graph.(V4ExecutionGraph_election_certificate) /\
  forged_run.1.2.(V4State_integrated_graphs) !! fx_job = Some forged_graph.
Proof.
  destruct (pool_serves fx_entry (fd_receive 2 forged_message) (repeat fx_env 40) forged_before []) as (ts & Hrun);
    [apply fd_entry; cbn; by repeat constructor|].
  exists ts. split_and!; [exact Hrun | reflexivity | vm_compute; reflexivity | | vm_compute; reflexivity].
  cbn. by left.
Qed.

(** ** A newer tensor is lost on disk *)

Definition stale_plan : V4TrainingPlan :=
  fd_plan V4ParallelismStrategy_TensorParallel 2 (fx_node 4) 1 (map fx_node [2; 1; 3; 4]).

(** The sample serializer gives every tensor the same hash. *)
Definition stale_hash : ArtifactId := tensor_hash [7%Z] 1 1 0.

Definition stale_newer : V4LocalTensorShard := mkV4LocalTensorShard fx_job 1 1 0 1 1 0 [7%Z] stale_hash 5 5.

Definition stale_before : V4State :=
  set_V4State_tensor_shards {[(fx_job, 0) := stale_newer]} (set_V4State_plans {[fx_job := stale_plan]} fx_worker).

Definition stale_replica : V4TensorReplica := mkV4TensorReplica fx_job 1 1 0 1 1 0 [7%Z] stale_hash 1 1 1 (fx_node 2).

Definition stale_run : vtask unit * V4State * list V4Effect :=
  fd_run (fd_receive 2 (TrainingV4Message_TensorReplica stale_replica)) stale_before.

(** The worker keeps its newer tensor in memory and writes the older one, which a restart reads back. *)
Theorem older_replica_reaches_the_disk :
  exists ts, pool_steps fx_entry (stale_before, []) stale_run.2 (stale_run.1.2, ts) /\
  stale_run.1.2.(V4State_tensor_shards) !! (fx_job, 0) = Some stale_newer /\
  content <$> stale_run.1.2.(V4State_world).(files) !! StatePath (tensor_shard_file fx_job 0) = Some [1] /\
  to_vec (replicated_tensor stale_replica) = Ok [1] /\ to_vec stale_newer = Ok [5].
Proof.
  destruct (pool_serves fx_entry (fd_receive 2 (TrainingV4Message_TensorReplica stale_replica)) (repeat fx_env 40)
    stale_before []) as (ts & Hrun); [apply fd_entry; cbn; by repeat constructor|].
  exists ts. split_and!; [exact Hrun | vm_compute; reflexivity | vm_compute; reflexivity | reflexivity | reflexivity].
Qed.

(** ** A worker in the middle of its work *)

Definition stocked_data : V4LocalDataShard :=
  mkV4LocalDataShard fx_job 0 1 1 (ArtifactId_from_bytes_hashed (repeat 3 8)) (repeat 3 8).

Definition stocked_optimizer : V4LocalOptimizerState :=
  let state hash := mkV4LocalOptimizerState fx_job 1 1 1 0 [5%Z] hash 1 1 in
  state (optimizer_state_hash (install_of_state (state (fx_hash 0)))).

Definition stocked_stage : V4LocalPipelineStage := mkV4LocalPipelineStage fx_job 1 0 2 3 4 (pipeline_hash 3 4).

Definition stocked : V4State :=
  set_V4State_data_shards {[(fx_job, 0) := stocked_data]}
    (set_V4State_optimizer_states {[(fx_job, 0) := stocked_optimizer]}
      (set_V4State_pipeline_stages {[(fx_job, 0) := stocked_stage]}
        (set_V4State_plans {[fx_job := stale_plan]} fx_worker))).

Lemma stocked_intact : intact stocked.
Proof. split; [|apply map_Forall_empty|..]; apply map_Forall_singleton; (split; [reflexivity | vm_compute; reflexivity]). Qed.

Notation fx_node_entry := (node_entry nx_security_bytes (fun _ => "error"%string) (fx_node 1) nx_store "x86_64" 1000 10).

Notation stocked_receives := (fd_receive 2 (TrainingV4Message_TensorReplica stale_replica)).

(** A tensor shard arrives; afterwards the worker holds something of each kind. *)
Definition stocked_run : vtask unit * V4State * list V4Effect := fd_run stocked_receives stocked.

Lemma stocked_entry : fx_node_entry stocked_receives.
Proof. apply entry_serve, fd_entry. cbn. by repeat constructor. Qed.

Lemma kept_shards_are_intact_witness :
  intact stocked_run.1.2 /\
  (size stocked_run.1.2.(V4State_data_shards), size stocked_run.1.2.(V4State_tensor_shards),
   size stocked_run.1.2.(V4State_optimizer_states), size stocked_run.1.2.(V4State_pipeline_stages))
  = (1, 1, 1, 1)%nat.
Proof.
  split; [|vm_compute; reflexivity].
  destruct (pool_serves fx_node_entry stocked_receives (repeat fx_env 40) stocked [] stocked_entry) as (ts & Hrun).
  exact (kept_shards_are_intact _ _ _ _ _ _ _ _ _ _ _ stocked_intact Hrun).
Defined.

(** * Frontier training: a coordinator is replaced

    Three workers train with two shards and two stages; the third one, the coordinator, is gone.  The
    first one wins the election with the vote of the second, computes the next graph, puts it in place
    on the second worker and saves a checkpoint there. *)

Definition dx_capability (n : N) : V4WorkerCapability :=
  mkV4WorkerCapability (fx_node n)
    (mkV4AcceleratorCapability V4AcceleratorFamily_Cpu "cpu" 1 1048576 [V4NumericalFormat_F32] "native" "1" false)
    1048576 1 1 1 1000 [reference_backend_capability BackendKind_Cpu 1048576 true].

Definition dx_shard (shard_id owner : N) (replicas : list N) : V4ShardOwnership :=
  mkV4ShardOwnership shard_id 1 [fx_node owner] (map fx_node replicas) 1 (fx_hash 5) 64 128 "native"
    V4ShardLifecycle_Active.

Definition dx_shards : list V4ShardOwnership := [dx_shard 0 1 [2; 3]; dx_shard 1 3 [1; 2]].

Definition dx_workers : list NodeId := map fx_node [1; 2; 3].

Definition dx_group : V4AggregationGroup := mkV4AggregationGroup 0 dx_workers (fx_node 1) None.

Definition dx_plan : V4TrainingPlan :=
  mkV4TrainingPlan fx_job (fx_node 3) 1 1 1 1 1 (fx_hash 2) V4ParallelismStrategy_Hybrid
    V4SupportLevel_Experimental dx_workers [dx_group] dx_shards 2 2 1 1 1 DataLocality_LocalOnly None
    (map dx_capability [1; 2; 3]) "sample" (fx_hash 8) None [] [].

Definition dx_stage (stage_id worker : N) : V4PipelineStageAssignment :=
  mkV4PipelineStageAssignment stage_id (fx_node worker) [] 1.

Definition dx_graph : V4ExecutionGraph :=
  mkV4ExecutionGraph fx_job 1 None (fx_node 3) (fx_node 3) (fx_node 3) (fx_hash 8)
    (fx_hash 2) 1 1 1 1 1 dx_workers [] [mkV4TensorGroup 0 (map fx_node [1; 2]) [0; 1] 1]
    [dx_stage 0 3; dx_stage 1 2] [dx_group] dx_shards
    [mkV4OptimizerPlacement 0 (fx_node 1) (map fx_node [2; 3]) 1;
     mkV4OptimizerPlacement 1 (fx_node 3) (map fx_node [1; 2]) 1]
    1 1 1 1 V4ParallelismStrategy_Hybrid [] [] (fx_hash 3).

Definition dx_state : V4IntegratedStateRecord :=
  mkV4IntegratedStateRecord fx_job 1 (fx_hash 8) (fx_hash 2) (fx_node 3)
    V4IntegratedPhase_Running 3 8 900 400 1 1 1 1 1 0 (fx_hash 4).

(** The CPU backend of a node. *)
Definition dx_compute : BackendRegistry AnyBackend :=
  mkBackendRegistry [(BackendKind_Cpu, AnyBackend_Cpu (CpuBackend_new "x86_64" 1048576 None))] [] [].

Definition dx_worker : V4State :=
  set_V4State_compute dx_compute (set_V4State_plans {[fx_job := dx_plan]} (set_V4State_integrated_states {[fx_job := dx_state]}
    (set_V4State_integrated_graphs {[fx_job := dx_graph]} fx_empty))).

Definition dx_hears (n : N) (message : TrainingV4Message) : V4Env :=
  mkV4Env 100 false None [] (Some (Some (V4Inbound_Message (fx_node n) message))) false 5 [] (mkJobId []) [] [] [].

(** A run in which every wait ends with the next of [waits]: what it took, what is left of it, the state. *)
Fixpoint fed {A} (t : vtask A) (waits : list V4Env) (s : V4State) : list V4Env * vtask A * V4State :=
  match t with
  | Done a => ([], Done a, s)
  | Step f k =>
      match f fx_env s with
      | Some (x, s', _) => let '(envs, t', s') := fed (k x) waits s' in (fx_env :: envs, t', s')
      | None =>
          match waits with
          | [] => ([], Step f k, s)
          | e :: waits =>
              match f e s with
              | Some (x, s', _) => let '(envs, t', s') := fed (k x) waits s' in (e :: envs, t', s')
              | None => ([], Step f k, s)
              end
          end
      end
  | Fork _ k => fed k waits s
  end.

Lemma fed_came_to {A} (t : vtask A) waits s envs a s' : fed t waits s = (envs, Done a, s') -> came_to t envs a.
Proof.
  revert waits s envs s'. induction t as [A b|A X f k IH|A t _ k IHk]; intros waits s envs s'; cbn.
  - intros [= <- <- <-]. constructor.
  - destruct (f fx_env s) as [[[x s1] out]|] eqn:Hf.
    + destruct (fed (k x) waits s1) as [[envs1 t1] s2] eqn:Hr. intros [= <- -> <-]. by econstructor; [|eapply IH].
    + destruct waits as [|e waits]; [done|]. destruct (f e s) as [[[x s1] out]|] eqn:He; [|done].
      destruct (fed (k x) waits s1) as [[envs1 t1] s2] eqn:Hr. intros [= <- -> <-]. by econstructor; [|eapply IH].
  - intros Hr. constructor. by eapply IHk.
Qed.

(** ** The runs *)

Definition ended_well {A} (r : list V4Env * vtask (result A NodeError) * V4State) : bool :=
  match r.1.2 with Done (Ok _) => true | _ => false end.

(** What a run took, what it came to and what it left. *)
Definition dx_run {A} (t : v4 A) (waits : list V4Env) (s : V4State) (otherwise : A) : list V4Env * A * V4State :=
  let '(envs, t', s') := fed t waits s in
  (envs, match t' with Done (Ok a) => a | _ => otherwise end, s').

Lemma dx_run_came_to {A} (t : v4 A) waits s otherwise :
  ended_well (fed t waits s) = true ->
  came_to t (dx_run t waits s otherwise).1.1 (Ok (dx_run t waits s otherwise).1.2).
Proof.
  unfold dx_run, ended_well. destruct (fed t waits s) as [[envs t'] s'] eqn:Hf. cbn.
  destruct t' as [[a|error]|X f k|t0 k]; cbn; try done. intros _. by eapply fed_came_to.
Qed.

Lemma came_to_parts {A B C} (t : v4 (A * B * C)) envs next :
  came_to t envs (Ok next) -> came_to t envs (Ok (next.1.1, next.1.2, next.2)).
Proof. by destruct next as [[]]. Qed.

(** ** The election *)

Definition dx_ballot : V4Env :=
  dx_hears 2 (TrainingV4Message_IntegratedElectionVote
    (mkV4IntegratedElectionVote fx_job 1 (fx_hash 3) 2 (fx_node 1) (fx_node 2) true "granted")).

Notation dx_election :=
  (request_integrated_election (fx_node 1) nx_store 10 dx_graph dx_state {[fx_node 2]}).

Definition dx_elected := dx_run dx_election [dx_ballot] dx_worker [].

Lemma dx_elected_well : ended_well (fed dx_election [dx_ballot] dx_worker) = true.
Proof. vm_compute. reflexivity. Qed.

Lemma dx_election_run : came_to dx_election dx_elected.1.1 (Ok dx_elected.1.2).
Proof. exact (dx_run_came_to _ _ _ _ dx_elected_well). Qed.

Lemma elections_need_a_majority_witness : elected (fx_node 1) dx_graph dx_elected.1.2 dx_elected.1.1.
Proof. exact (elections_need_a_majority (fx_node 1) nx_store 10 dx_graph dx_state {[fx_node 2]}
  dx_elected.1.1 dx_elected.1.2 dx_election_run). Defined.

(** ** The next graph *)

Notation dx_replacement :=
  (reconfigure_integrated_graph_with_certificate (fx_node 1) nx_store dx_graph dx_plan dx_state (fx_node 3)
    dx_elected.1.2).

Definition dx_replaced := dx_run dx_replacement [] dx_elected.2 (dx_graph, dx_plan, dx_state).

Lemma dx_replaced_well : ended_well (fed dx_replacement [] dx_elected.2) = true.
Proof. vm_compute. reflexivity. Qed.

Notation dx_next := dx_replaced.1.2.

Lemma dx_replacement_run :
  came_to dx_replacement dx_replaced.1.1 (Ok (dx_next.1.1, dx_next.1.2, dx_next.2)).
Proof. apply came_to_parts. exact (dx_run_came_to _ _ _ _ dx_replaced_well). Qed.

Lemma next_graphs_keep_jobs_whole_witness :
  succeeds (fx_node 1) dx_graph dx_plan dx_state (Some (fx_node 3)) None dx_elected.1.2 dx_next.1.1 dx_next.1.2 dx_next.2 /\
  NoDup dx_next.1.1.(V4ExecutionGraph_workers) /\
  (forall node, Some (fx_node 3) = Some node -> None = @None NodeId -> node ∉ dx_next.1.1.(V4ExecutionGraph_workers) /\
     len dx_graph.(V4ExecutionGraph_workers) < len dx_next.1.1.(V4ExecutionGraph_workers) * 2).
Proof.
  exact (next_graphs_keep_jobs_whole (fx_node 1) nx_store dx_graph dx_plan dx_state (Some (fx_node 3)) None
    (Some dx_elected.1.2) dx_replaced.1.1 dx_next.1.1 dx_next.1.2 dx_next.2 dx_replacement_run).
Defined.

Lemma elected_graphs_are_accepted_witness :
  let start := start_of dx_next.1.1 dx_next.1.2 8 2 in
  passes_checks (fx_node 1) (fx_node 2) dx_graph start /\
  forall seen r, saw (receive_integrated_start nx_security_bytes (fx_node 2) nx_store (fx_node 1) start) seen r ->
  exists admission checked rest, seen = admission ++ rest /\
    saw (claimed nx_security_bytes nx_store (fx_node 1) "v4.execution_graph" dx_next.1.1.(V4ExecutionGraph_job_id)
           (Some dx_next.1.1.(V4ExecutionGraph_branch)) dx_next.1.1.(V4ExecutionGraph_graph_generation)
           (N.max dx_next.1.1.(V4ExecutionGraph_coordination_term) 1) dx_next.1.1.(V4ExecutionGraph_graph_hash))
      admission checked /\
    match checked with
    | Err error => rest = [] /\ r = Err error
    | Ok _ => exists e s rest', rest = (e, s) :: rest' /\
        (s.(V4State_integrated_graphs) !! dx_next.1.1.(V4ExecutionGraph_job_id) = Some dx_graph ->
         saw (follow_integrated_start (fx_node 2) nx_store (fx_node 1) start) rest' r)
    end.
Proof.
  refine (elected_graphs_are_accepted (fx_node 1) nx_store 10 nx_security_bytes nx_store dx_graph dx_plan dx_state {[fx_node 2]} 8 2
    dx_elected.1.2 dx_elected.1.1 dx_next.1.1 dx_next.1.2 dx_next.2 dx_replaced.1.1 (fx_node 2) _ _ _ _ dx_election_run dx_replacement_run _).
  - vm_compute. reflexivity.
  - reflexivity.
  - vm_compute. reflexivity.
  - vm_compute. reflexivity.
  - apply (bool_decide_eq_true_1 (_ ∈ _)). vm_compute. reflexivity.
Defined.

(** The second worker, which still holds the old graph, takes the new one. *)
Example dx_next_followed :
  let start := start_of dx_next.1.1 dx_next.1.2 8 2 in
  match run_task (receive_integrated_start nx_security_bytes (fx_node 2) nx_store (fx_node 1) start)
          (repeat fx_env 40) dx_worker with
  | (Done r, s, _) => r = Ok tt /\ s.(V4State_integrated_graphs) !! fx_job = Some dx_next.1.1
  | _ => False
  end.
Proof. vm_compute. split; reflexivity. Qed.

(** ** The next graph is put in place *)

Definition dx_answers : list V4Env :=
  let plan_hash := dx_next.1.2.(V4TrainingPlan_plan_hash) in
  map (dx_hears 2)
    ([TrainingV4Message_IntegratedAck (mkV4IntegratedAck fx_job 2 (fx_node 2) true "durable graph persisted");
      TrainingV4Message_PlanAck (mkV4PlanAck fx_job 2 plan_hash true "active")]
     ++ map (fun shard_id => TrainingV4Message_TensorReplicaAck
               (mkV4TensorReplicaAck fx_job 2 shard_id (fx_hash 5) 1 true)) [0; 1]
     ++ map (fun shard_id => TrainingV4Message_OptimizerStateAck
               (mkV4OptimizerStateAck fx_job 2 2 shard_id (fx_hash 5) 1 true)) [0; 1]
     ++ map (fun stage_id => TrainingV4Message_PipelineInstallAck
               (mkV4PipelineInstallAck fx_job 2 stage_id (fx_hash 5) true)) [0; 1]).

Notation dx_activation :=
  (activate_integrated_graph_with_recovery (fx_node 1) nx_store 10 dx_next 8 2).

Definition dx_activated := dx_run dx_activation dx_answers dx_replaced.2 dx_next.

Lemma dx_activated_well : ended_well (fed dx_activation dx_answers dx_replaced.2) = true.
Proof. vm_compute. reflexivity. Qed.

Lemma dx_activation_run :
  came_to dx_activation dx_activated.1.1
    (Ok (dx_activated.1.2.1.1, dx_activated.1.2.1.2, dx_activated.1.2.2)).
Proof. apply came_to_parts. exact (dx_run_came_to _ _ _ _ dx_activated_well). Qed.

Lemma graphs_run_once_answered_witness :
  runs_on dx_activated.1.2.1.1 dx_activated.1.2.2 /\
  in_place (fx_node 1) dx_activated.1.2.1.1 dx_activated.1.2.1.2 dx_activated.1.1.
Proof. exact (graphs_run_once_answered (fx_node 1) nx_store 10 dx_next 8 2 dx_activated.1.1
  dx_activated.1.2.1.1 dx_activated.1.2.1.2 dx_activated.1.2.2 dx_activation_run). Defined.

(** ** A checkpoint *)

Definition dx_hashes : RoundHashes := ({[0 := fx_hash 5; 1 := fx_hash 6]}, {[0 := fx_hash 7; 1 := fx_hash 8]}).

Notation dx_checkpoint :=
  (commit_integrated_checkpoint (fx_node 1) nx_store 10 dx_next.1.1 dx_next.1.2 dx_hashes dx_next.2).

Definition dx_kept : V4Env :=
  dx_hears 2 (TrainingV4Message_StateAck
    (mkV4StateAck fx_job 2 2 V4StateAckKind_Checkpoint (ArtifactId_from_bytes_hashed [1]) true)).

Definition dx_no_checkpoint : V4CheckpointRecord :=
  mkV4CheckpointRecord fx_job 1 1 1 1 1 (fx_hash 2) None [] [] true (fx_hash 2).

Definition dx_saved := dx_run dx_checkpoint [dx_kept] dx_activated.2 dx_no_checkpoint.

Lemma dx_saved_well : ended_well (fed dx_checkpoint [dx_kept] dx_activated.2) = true.
Proof. vm_compute. reflexivity. Qed.

Lemma dx_checkpoint_run : came_to dx_checkpoint dx_saved.1.1 (Ok dx_saved.1.2).
Proof. exact (dx_run_came_to _ _ _ _ dx_saved_well). Qed.


(** ** A whole run *)

Definition dx_probed : V4Env :=
  dx_hears 2 (TrainingV4Message_IntegratedProbeAck (mkV4IntegratedProbeAck (mkJobId []) fx_job 2 (fx_node 2) true)).

(** The answers of the second worker in one window: a probe, two microbatches forth and back, and the
    sum of its group. *)
Definition dx_window : list V4Env :=
  let request := mkJobId [] in
  dx_probed :: map (dx_hears 2)
    (map (fun microbatch => TrainingV4Message_PipelineForwardResult
            (mkV4PipelineForwardResult request fx_job 2 microbatch 1 [1%Z] (fx_hash 5))) [0; 1]
     ++ map (fun microbatch => TrainingV4Message_PipelineBackwardResult
               (mkV4PipelineBackwardResult request fx_job 2 microbatch 0 [1%Z] (fx_hash 5))) [1; 0]
     ++ [TrainingV4Message_CollectiveResult (mkV4CollectiveResult request fx_job 2 5 [1%Z] 1 1 16 16)]).

(** The new coordinator runs the fourth and last window. *)
Notation dx_driver :=
  (run_integrated_driver (fx_node 1) nx_store "x86_64" 1048576 10 0 4 2 dx_next.1.1 dx_next.1.2 dx_next.2 false).

(** How the job ended on the coordinator: its phase and its newest checkpoint, and what was reported. *)
Definition dx_outcome (r : list V4Env * vtask (result V4IntegratedResult NodeError) * V4State) :=
  (match r.1.2 with
   | Done (Ok result) => Some (result.(V4IntegratedResult_phase), result.(V4IntegratedResult_windows_completed),
                               result.(V4IntegratedResult_checkpoint_generations))
   | _ => None
   end,
   option_map (fun state => (state.(V4IntegratedStateRecord_phase), state.(V4IntegratedStateRecord_window),
     state.(V4IntegratedStateRecord_checkpoint_generation))) (r.2.(V4State_integrated_states) !! fx_job)).

(** With the answers of the second worker the driver comes to the end of the job. *)
Example dx_job_ends :
  dx_outcome (fed dx_driver (dx_answers ++ dx_window ++ [dx_kept]) dx_replaced.2)
  = (Some (V4IntegratedPhase_Committed, 4, 1), Some (V4IntegratedPhase_Committed, 4, 2)).
Proof. vm_compute. reflexivity. Qed.

(** ** The last checkpoint is not taken *)

Definition dx_elapsed : V4Env := mkV4Env 100 true None [] None false 5 [] (mkJobId []) [] [] [].

(** No answer to the checkpoint of the last window; the second worker answers the probes. *)
Theorem job_commits_without_its_last_checkpoint :
  dx_outcome (fed dx_driver (dx_answers ++ dx_window ++ [dx_elapsed; dx_probed; dx_probed; dx_elapsed]) dx_replaced.2)
  = (Some (V4IntegratedPhase_Committed, 4, 0), Some (V4IntegratedPhase_Committed, 4, 1)).
Proof. vm_compute. reflexivity. Qed.

(** ** A candidate votes twice *)

(** The worker grants its vote in term two to the second worker, then loses the coordinator and stands
    for election itself. *)
Definition twice_first : vtask unit * V4State * list V4Effect :=
  run_task (fx_ask 2 2) (repeat fx_env 20) taken_before.

Definition twice_loop : vtask unit :=
  integrated_participant_loop (fx_node 1) nx_store "x86_64" 1000 10 0 4 1 fx_graph.

Definition twice_waits : list V4Env :=
  let gone := mkV4Env 100 false None [] (Some (Some (V4Inbound_PeerDisconnected (fx_node 4)))) false 5 []
                (mkJobId []) [] [] [] in
  let probed n := dx_hears n (TrainingV4Message_IntegratedProbeAck
                    (mkV4IntegratedProbeAck (mkJobId []) fx_job 1 (fx_node n) true)) in
  let turn := [gone; dx_elapsed; probed 2; probed 3; dx_elapsed] in
  turn ++ turn ++ turn.

Definition twice_envs : list V4Env := (fed twice_loop twice_waits twice_first.1.2).1.1.

Definition twice_run : vtask unit * V4State * list V4Effect := run_task twice_loop twice_envs twice_first.1.2.

(** Both votes are of the second term and for this graph, for the second worker and for the node itself. *)
Theorem candidate_votes_twice :
  exists ts, pool_steps fx_entry (taken_before, []) (twice_first.2 ++ twice_run.2) (twice_run.1.2, ts) /\
  map (fun vote => (vote.(V4IntegratedElectionRecord_graph_hash), vote.(V4IntegratedElectionRecord_term),
                    vote.(V4IntegratedElectionRecord_candidate))) (votes_for fx_job (twice_first.2 ++ twice_run.2))
  = [(fx_hash 3, 2, fx_node 2); (fx_hash 3, 2, fx_node 1)].
Proof.
  destruct (pool_serves fx_entry (fx_ask 2 2) (repeat fx_env 20) taken_before [] (fx_ask_entry 2 2)) as (ts1 & H1).
  destruct (pool_serves fx_entry twice_loop twice_envs twice_first.1.2 ts1
    (entry_participate _ _ _ _ _ _ _ 0 4 1 fx_graph)) as (ts2 & H2).
  exists ts2. split; [exact (pool_steps_trans _ _ _ _ _ _ H1 H2) | vm_compute; reflexivity].
Qed.

(** * Frontier training: the commands of an operator

    The first node moves its shard to the second one by a new plan, hands it over with a command of
    its own, and starts a job on four other nodes. *)

(** ** A plan is replaced *)

Definition ax_current : V4TrainingPlan := fd_sgd 1 1 [1; 2].

Definition ax_proposal : V4TrainingPlan :=
  hashed_plan (proposed_after ax_current (fd_sgd 1 1 [2; 1])
    [carried_shard (fd_shard (fx_node 1) [fx_node 2]) (fd_shard (fx_node 2) [fx_node 1])]).

Definition ax_data : V4LocalDataShard := mkV4LocalDataShard fx_job 0 1 1 (fx_hash 5) (repeat 3 8).

Definition ax_owner : V4State :=
  set_V4State_plan_proposals {[fx_job := ax_proposal]} (set_V4State_plans {[fx_job := ax_current]}
    (set_V4State_data_shards {[(fx_job, 0) := ax_data]} fx_empty)).

Definition ax_accepts : TrainingV4Message :=
  TrainingV4Message_PlanProposalAck (mkV4PlanProposalAck fx_job 2 ax_proposal.(V4TrainingPlan_plan_hash) true "ok").

Definition ax_takes (plan_generation : N) (phase : V4ShardMigrationPhase) : TrainingV4Message :=
  TrainingV4Message_ShardMigrationAck
    (mkV4ShardMigrationAck fx_job plan_generation 0 (fx_node 2) 2 (fx_hash 5) true phase).

(** The second node accepts, is asked and accepts again, and takes the shard. *)
Definition ax_waits : list V4Env :=
  map (dx_hears 2) [ax_accepts; ax_accepts; ax_takes 2 V4ShardMigrationPhase_Prepare;
                    ax_takes 2 V4ShardMigrationPhase_Commit].

Notation ax_preparation := (prepare_activation (fx_node 1) 10 fx_job).

Definition ax_prepared := dx_run ax_preparation ax_waits ax_owner (ax_current, 0, ∅).

Notation ax_trail := (trail ax_preparation ax_prepared.1.1 ax_owner).

Lemma ax_preparation_run :
  saw ax_preparation ax_trail (Ok (ax_proposal, 1, {[fx_node 2]})).
Proof.
  assert (Hr : exists s out, run_task ax_preparation ax_prepared.1.1 ax_owner = (Done (Ok (ax_proposal, 1, {[fx_node 2]})), s, out))
    by (do 2 eexists; vm_compute; reflexivity).
  destruct Hr as (s & out & Hr). exact (run_task_saw _ _ _ _ _ _ Hr).
Qed.


(** What the sample came to: the shard is moved, and the second node has accepted. *)
Example ax_prepared_result : ax_prepared.1.2 = (ax_proposal, 1, {[fx_node 2]}).
Proof. vm_compute. reflexivity. Qed.

(** The second node has accepted the proposal when its session is closed and dialed again, and the
    proposal sent once more. *)
Theorem accepted_proposals_are_sent_again :
  (run_task ax_preparation ax_prepared.1.1 ax_owner).2
  = [Did_Transmit (fx_node 2) (TrainingV4Message_Plan ax_current);
     Did_Transmit (fx_node 2) (TrainingV4Message_PlanProposal ax_proposal); Did_Reconnect (fx_node 2);
     Did_Transmit (fx_node 2) (TrainingV4Message_PlanProposal ax_proposal);
     Did_Transmit (fx_node 2) (TrainingV4Message_ShardMigration
       (migration_of (fx_node 1) ax_data (fx_node 2) 2 2 (repeat 3 8) V4ShardMigrationPhase_Prepare));
     Did_Transmit (fx_node 2) (TrainingV4Message_ShardMigration
       (migration_of (fx_node 1) ax_data (fx_node 2) 2 2 [] V4ShardMigrationPhase_Commit))].
Proof. vm_compute. reflexivity. Qed.

Definition ax_plan_ack : TrainingV4Message :=
  TrainingV4Message_PlanAck (mkV4PlanAck fx_job 2 ax_proposal.(V4TrainingPlan_plan_hash) true "active plan persisted").

(** After it has handed over a shard itself, the activation has no mailbox any more: the
    acknowledgement of the plan that it commits next goes nowhere. *)
Theorem activation_loses_its_mailbox :
  ax_prepared.2.(V4State_jobs) !! fx_job = None /\
  (fd_run (fd_receive 2 ax_plan_ack) ax_prepared.2).1.1 = Done tt /\
  (fd_run (fd_receive 2 ax_plan_ack) ax_prepared.2).2 = [].
Proof. split_and!; vm_compute; reflexivity. Qed.

(** ** A shard is handed over *)

Notation ax_migration := (migrate_shard (fx_node 1) nx_store 10 fx_job 0 (fx_node 2)).

Definition ax_migrated := dx_run ax_migration
  (map (dx_hears 2) [ax_takes 1 V4ShardMigrationPhase_Prepare; ax_takes 1 V4ShardMigrationPhase_Commit; ax_plan_ack])
  ax_owner (ax_data, None).

(** The plan names the old owner as a replica, which has deleted its copy. *)
Theorem replica_without_a_copy :
  map V4ShardOwnership_replicas (from_option V4TrainingPlan_shards [] (ax_migrated.2.(V4State_plans) !! fx_job))
  = [[fx_node 1]] /\
  ax_migrated.2.(V4State_data_shards) !! (fx_job, 0) = None.
Proof. split; vm_compute; reflexivity. Qed.

(** ** A job is started *)

Definition sx_capability : Capability :=
  mkCapability "training.reference" 1 None (mkResourceLimits 1000 1000 1048576 4000) CapabilityEvidence_Claimed 1000 [] [].

Definition sx_record (n : N) : PeerRecord :=
  mkPeerRecord (fx_node n) (repeat n 32) [] [sx_capability] 50 1000 (Some n).

(** Three of the nodes are connected, the fifth one answers when it is dialed. *)
Definition sx_env : V4Env :=
  mkV4Env 100 false None [] None false 5 [] fx_job (map sx_record [2; 3; 4; 5]) (map fx_node [2; 3; 4]) [fx_node 5].

Notation sx_build := (build_integrated_start (fx_node 1) 4 8 2).

Definition sx_run : vtask (result V4IntegratedStart NodeError) * V4State * list V4Effect :=
  run_task sx_build (repeat sx_env 8) fx_empty.

Definition sx_start : V4IntegratedStart :=
  match sx_run.1.1 with Done (Ok start) => start | _ => fd_start 2 1 None 1 [] 6 end.

Lemma sx_started :
  exists s out, run_task sx_build (repeat sx_env 8) fx_empty = (Done (Ok sx_start), s, out).
Proof. exists sx_run.1.2, sx_run.2. vm_compute. reflexivity. Qed.

Lemma started_jobs_are_reachable_witness : exists envs, startable (fx_node 1) 4 envs sx_start.
Proof.
  destruct sx_started as (s & out & Hr). destruct (run_task_came_to _ _ _ _ _ _ Hr) as (envs & Hc & _).
  exists envs. exact (started_jobs_are_reachable (fx_node 1) 4 8 2 envs sx_start Hc).
Defined.

(** Its coordinator is the last of the workers. *)
Example sx_started_on :
  (map NodeId_0 sx_start.(V4IntegratedStart_graph).(V4ExecutionGraph_workers), sx_start.(V4IntegratedStart_windows))
  = (map (fun n => repeat n 32) [2; 3; 4; 5], 8).
Proof. vm_compute. reflexivity. Qed.

(** ** The result of a job is lost *)

Definition wx_result : V4IntegratedResult :=
  mkV4IntegratedResult (mkJobId (repeat 9 16)) fx_job 1 4 0%Z 0%Z 1 1 1 1 0 0 0 0 0 0 0 2 false false false false false
    true true V4IntegratedPhase_Committed 0 0 0 true.

Definition wx_watcher : vtask unit := watch_job nx_store 10 ;! remove_job fx_job.

Definition wx_start : V4State := set_V4State_jobs {[fx_job := 0]} fx_empty.

(** The watcher of a job that runs in the background: the deadline has not passed, nothing is heard
    for one time limit, and the result comes afterwards. *)
Definition wx_given_up : vtask unit * V4State * list V4Effect :=
  run_task wx_watcher [fx_env; dx_elapsed; fx_env] wx_start.

Definition wx_late : vtask unit * V4State * list V4Effect :=
  fd_run (fd_receive 2 (TrainingV4Message_IntegratedResult wx_result)) wx_given_up.1.2.

(** A quiet job loses its result: nothing is written, and nobody is told. *)
Theorem quiet_job_loses_its_result :
  wx_given_up.1.1 = Done tt /\ wx_late.1.1 = Done tt /\ wx_late.2 = [] /\
  wx_late.1.2.(V4State_world) = wx_start.(V4State_world).
Proof. split_and!; vm_compute; reflexivity. Qed.

(** When the result comes before the pause, it is written. *)
Example prompt_result_is_kept :
  (size (files wx_start.(V4State_world)),
   size (files (run_task wx_watcher [fx_env; dx_hears 2 (TrainingV4Message_IntegratedResult wx_result); fx_env; fx_env]
     wx_start).1.2.(V4State_world))) = (0%nat, 1%nat).
Proof. vm_compute. reflexivity. Qed.
