(* ===== verification/WholeNode.v ===== *)
(** * The whole node (crates/node/src/lib.rs, [event_loop] and [handle_network_message])

    The tasks for jobs and artifacts, for distributed training and for frontier training in one pool.
    They share the files and the security state; a task of frontier training works on its own maps,
    the others on the rest.  Over every interleaving of all of them: a job is executed at most once
    per stay in the history, also across restarts, every execution follows the local policy, and what
    a submission returns is genuine. *)

From Stdlib Require Import String ZArith NArith Lia.
From stdpp Require Import base tactics sets strings numbers list gmap.
From S2P Require Import Prelude OrdMap Types Validation FileSystem Storage StorageFacts StorageRuns Aggregation Compute Float32 Planner Runtime Trust Security Facade Network NodeConfig NodeConfigFacts Tasks TaskLogic NodeState NodeJobs NodeArtifacts NodeFacts NodePool V3Model V3Tasks V3Coordinator V3Aside V4Model V4Control V4Integrated V4Data V4Node V4Reconfigure V4Driver V4Facts V4Pool V4Votes.
Local Open Scope N_scope.
Local Open Scope rust_scope.

(** ** State *)

(** The node and its maps for planned jobs; the files and the security state are those of the node. *)
Record Whole := mkWhole {
  whole_node : NodeState;
  whole_v4 : V4State
}.

Definition get_v4 (w : Whole) : V4State :=
  set_V4State_security w.(whole_node).(NodeState_security)
    (set_V4State_world w.(whole_node).(NodeState_world) w.(whole_v4)).

Definition put_v4 (s : V4State) (w : Whole) : Whole :=
  mkWhole (set_NodeState_security s.(V4State_security) (set_NodeState_world s.(V4State_world) w.(whole_node))) s.

Definition put_node (s : NodeState) (w : Whole) : Whole := mkWhole s w.(whole_v4).

Definition wtask (A : Type) : Type := Task (NodeEnv * V4Env) Whole (NodeEffect + V4Effect) A.

Definition lift_node {A} (t : ntask A) : wtask A := embed fst whole_node put_node inl t.

Definition lift_v4 {A} (t : vtask A) : wtask A := embed snd get_v4 put_v4 inr t.

(** The effects of the tasks for jobs, artifacts and distributed training. *)
Definition node_effects (out : list (NodeEffect + V4Effect)) : list NodeEffect :=
  omap (fun e => match e with inl e => Some e | inr _ => None end) out.

Lemma node_effects_inl out : node_effects (map inl out) = out.
Proof. induction out as [|e out IH]; [done|]. exact (f_equal (cons e) IH). Qed.

Lemma node_effects_inr out : node_effects (map inr out) = [].
Proof. by induction out. Qed.

Lemma node_effects_app out out' : node_effects (out ++ out') = node_effects out ++ node_effects out'.
Proof. apply omap_app. Qed.

Definition on_node (p : NodeEffect -> bool) (e : NodeEffect + V4Effect) : bool :=
  match e with inl e => p e | inr _ => false end.

Lemma count_on_node p out : count (on_node p) out = count p (node_effects out).
Proof. induction out as [|[e|e] out IH]; [done| |]; cbn -[count]; by rewrite ?count_cons, IH. Qed.

Section Whole.
Context `{Blake3} `{Ed25519} `{Ed25519Signer} `{EvidencePostcard} `{NodeText} `{JobPayloadJson} `{Hex}.
Context `{Json (StateFile PersistedJob)} `{Json (StateFile SignedEvidence)} `{Json SignedEvidence}.
Context `{Json (list N)} `{Profile} `{ContributionPostcard}.
Context `{Json (JobId * N * N * Z * Z)} `{Json TrainingCheckpointManifest} `{Json TrainingStart}.
Context `{Json TrainingState} `{Json TrainingShardState} `{Json (str * JobId)}.
Context `{Json (str * list NodeId * list TrainingGroup * list TrainingShardAssignment * N * N * N)}.
Context `{PlanPostcard} `{V4Json}.
Context (security_to_allocvec : LocalSecurityState -> result (list N) str).
Context (config : NodeConfig) (identity : Identity) (store : LocalStore) (arch : str) (host_memory : N) (fuel : nat).
Notation node_id := identity.(Identity_node_id).

(** ** Entries *)

Notation v3_message := (handle_v3_message security_to_allocvec config identity store fuel).

Definition handle_v3 (peer : NodeId) (message : Message) : ntask unit :=
  match message with
  | Message_Training training => v3_message peer training
  | _ => Done tt
  end.

(** [handle_network_message] *)
Definition handle_message (peer : NodeId) (message : Message) : wtask unit :=
  match message with
  | Message_TrainingV4 training =>
      lift_v4 (V4Node.handle_message security_to_allocvec NodeError_to_string node_id store arch host_memory fuel
                 peer training)
  | Message_TrainingV5 training =>
      lift_v4 (handle_v5_message security_to_allocvec node_id store arch host_memory peer training)
  | _ => lift_node (handle_network_message security_to_allocvec config identity store handle_v3 peer message)
  end.

(** [NetworkEvent::PeerDisconnected] *)
Definition handle_disconnected (peer : NodeId) : wtask unit :=
  lift_node (fail_pending_for_peer peer) ;!
  lift_node (v3_peer_disconnected peer) ;!
  lift_v4 (peer_disconnected peer).

Notation v4_entry :=
  (v4_entry security_to_allocvec NodeError_to_string node_id store arch host_memory fuel).

(** What starts a task: an event of the network (a message has passed its validation, the origin of a
    job request is the authenticated peer, and ids are bytes), the commands of the operator, and the
    tasks that jobs in training start. *)
Inductive whole_entry : wtask unit -> Prop :=
  | whole_message peer message :
      Message_validate message = Ok tt ->
      (forall request, message = Message_JobRequest request -> request.(JobRequest_origin) = peer) ->
      (forall training, message = Message_TrainingV4 training -> job_wf (message_job_id training)) ->
      whole_entry (handle_message peer message)
  | whole_disconnected peer : whole_entry (handle_disconnected peer)
  | whole_submit request :
      request.(JobRequest_origin) = node_id ->
      whole_entry (lift_node (ignore (submit_request config identity store request)))
  | whole_submit_to peer request : whole_entry (lift_node (ignore (submit_remote_to_peer peer request)))
  | whole_cancel job_id : whole_entry (lift_node (ignore (cancel_job job_id)))
  | whole_fetch peer artifact : whole_entry (lift_node (ignore (fetch_artifact store peer artifact)))
  | whole_v3_command t : v3_command security_to_allocvec config identity store fuel t -> whole_entry (lift_node t)
  | whole_v4_task t : v4_entry t -> whole_entry (lift_v4 t).

Notation node_entry := (node_entry security_to_allocvec config identity store handle_v3).
Notation node_step := (node_step config identity).

(** ** The invariant *)

Definition whole_ok (w : Whole) : Prop := node_ok w.(whole_node) /\ intact w.(whole_v4).

Definition whole_step (w : Whole) (out : list (NodeEffect + V4Effect)) (w' : Whole) : Prop :=
  node_step w.(whole_node) (node_effects out) w'.(whole_node).

Notation ok t := (obeys whole_ok whole_step t (fun _ => True)).

Lemma whole_step_refl w : whole_step w [] w.
Proof. apply node_step_refl. Qed.

Lemma whole_step_trans w out w' out' w'' :
  whole_step w out w' -> whole_step w' out' w'' -> whole_step w (out ++ out') w''.
Proof. unfold whole_step. rewrite node_effects_app. apply node_step_trans. Qed.

Lemma ok_node {A} (t : ntask A) (Q : A -> Prop) :
  obeys node_ok node_step t Q -> obeys whole_ok whole_step (lift_node t) Q.
Proof.
  apply obeys_embed; [by intros w []|]. intros w out s [_ Hi] Hs Hp. unfold whole_step. by rewrite node_effects_inl.
Qed.

(** Frontier training: the artifacts on disk are not its files. *)
Definition addressed_kept (m : gmap JobId V4IntegratedElectionRecord) (f : Files) : Prop := addressed f.

Lemma addressed_same guard f g : same_guarded guard f g -> addressed f -> addressed g.
Proof. intros Hs Hf a d Ha. apply (Hf a d). by rewrite <- (Hs (ArtifactPath a)). Qed.

Notation ok_v4 t := (obeys (pool_inv addressed_kept) any_section t (fun _ => True)).

Lemma saved_vote_ok vote e s world (r : result unit NodeError) :
  pool_inv addressed_kept s ->
  run e (persist_integrated_election store vote) s.(V4State_world) = (world, Some r) ->
  addressed world.(files).
Proof.
  intros [_ Hf] Hr. pose proof (persist_vote_others store e vote s.(V4State_world)) as Ho. rewrite Hr in Ho.
  by eapply addressed_same.
Qed.

Lemma cast_ok request : ok_v4 (cast_vote store request).
Proof.
  apply obeys_step. intros e s a s' out Hs. cbn zeta.
  destruct (can_replace request _); [|by intros [= <- <- <-]]. unfold run_files.
  destruct (run _ _ _) as [world [r|]] eqn:Hr; [|done]. pose proof (saved_vote_ok _ _ _ _ _ Hs Hr) as Hf.
  destruct Hs as [[] _]. destruct r; intros [= <- <- <-]; by split_and!.
Qed.

Lemma self_ok vote : ok_v4 (cast_self_vote store vote).
Proof.
  apply ok_attempt.
  - apply obeys_step. intros e s a s' out Hs. unfold run_files.
    destruct (run _ _ _) as [world [r|]] eqn:Hr; [|done]. pose proof (saved_vote_ok _ _ _ _ _ Hs Hr) as Hf.
    destruct Hs as [[] _]. destruct r; intros [= <- <- <-]; by split_and!.
  - intros _. apply obeys_atomic. intros e s [[] Hf]. by split_and!.
Qed.

Lemma v4_task_ok t : v4_entry t -> ok_v4 t.
Proof.
  apply entry_ok; [|done|intros request _ _; apply cast_ok|intros vote _; apply self_ok].
  intros m f g. apply addressed_same.
Qed.

Lemma ok_lift_v4 {A} (t : vtask A) : ok_v4 t -> ok (lift_v4 t).
Proof.
  apply obeys_embed.
  - intros w [[] []]. split; [by split | done].
  - intros w out s [[] Hv] [[] Hf] _. unfold whole_step. rewrite node_effects_inr.
    split; [split; by split|]. by apply node_step_same.
Qed.

Lemma handle_v3_aloof peer message : aloof (handle_v3 peer message).
Proof. destruct message; try done. apply aloof_v3_message. Qed.

Lemma node_task_ok t : node_entry t -> ok (lift_node t).
Proof. intros Ht. apply ok_node. eapply ok_entry; [|exact Ht]. intros. apply aloof_ok, handle_v3_aloof. Qed.

Lemma whole_entry_ok t : whole_entry t -> ok t.
Proof.
  destruct 1 as [peer message Hv Ho Hj|peer|request Ho|peer request|job_id|peer artifact|t Ht|t Ht];
    [| |apply node_task_ok; by constructor..| |].
  - destruct message; cbn [handle_message]; try (apply node_task_ok; by apply NodeArtifacts.entry_message);
      apply ok_lift_v4, v4_task_ok; [by apply V4Pool.entry_message, Hj | by apply entry_v5_message].
  - apply obeys_then; [apply node_task_ok; constructor|]. intros _.
    apply obeys_then; [apply ok_node, aloof_ok, aloof_disconnected|]. intros _.
    apply ok_lift_v4, v4_task_ok. constructor.
  - apply ok_node, aloof_ok. by eapply v3_command_aloof.
  - by apply ok_lift_v4, v4_task_ok.
Qed.

(** ** Reservations pay for executions *)

Notation pays j t := (funded (on_node (reserves j)) (on_node (executes j)) 0 t (fun _ => 0)).

Lemma pays_node j c t : funded (reserves j) (executes j) c t (fun _ => 0) ->
  funded (on_node (reserves j)) (on_node (executes j)) c (lift_node t) (fun _ : unit => 0).
Proof. by apply funded_embed. Qed.

Lemma pays_aloof j (t : ntask unit) : aloof t -> pays j (lift_node t).
Proof. intros Ht. apply pays_node, pays_idle. by apply aloof_idle. Qed.

(** No effect of frontier training is about a job of the history. *)
Lemma pays_v4 j (t : vtask unit) : pays j (lift_v4 t).
Proof.
  apply (funded_embed _ _ _ _ (fun _ => false) (fun _ => false)); [done..|].
  apply funded_idle. eapply obeys_under; [|apply obeys_trivial]. intros s out s' _ _.
  split; [done|]. split; by induction out.
Qed.

Lemma whole_entry_pays j t : whole_entry t -> pays j t.
Proof.
  assert (Hn : forall t, node_entry t -> pays j (lift_node t)).
  { intros t' Ht. apply pays_node. eapply pays_entry; [|exact Ht]. intros. apply aloof_idle, handle_v3_aloof. }
  destruct 1 as [peer message Hv Ho Hj|peer|request Ho|peer request|job_id|peer artifact|t Ht|t Ht];
    [| |apply Hn; by constructor..| |].
  - destruct message; cbn [handle_message]; try (apply Hn; by apply NodeArtifacts.entry_message); apply pays_v4.
  - eapply funded_tbind; [apply Hn; constructor|]. intros u. cbn beta.
    eapply funded_tbind; [apply pays_aloof, aloof_disconnected|]. intros u'. apply pays_v4.
  - apply pays_aloof. by eapply v3_command_aloof.
  - apply pays_v4.
Qed.

(** ** Runs *)

(** A node whose tasks are all still to come. *)
Definition whole_run (w : Whole) (out : list (NodeEffect + V4Effect)) (w' : Whole) : Prop :=
  exists ts, pool_steps whole_entry (w, []) out (w', ts).

Lemma whole_run_ok w out w' : whole_ok w -> whole_run w out w' -> whole_ok w' /\ whole_step w out w'.
Proof.
  intros Hw [ts Hrun].
  destruct (pool_obeys whole_ok whole_step whole_entry (w, []) out (w', ts)) as (Hok & Hst & _); auto.
  - apply whole_step_refl.
  - intros *. apply whole_step_trans.
  - apply whole_entry_ok.
Qed.

Lemma executions_bounded w out w' j :
  whole_ok w -> whole_run w out w' ->
  count (executes j) (node_effects out) + b2N (known j w.(whole_node)) <= 1 + count (evicts j) (node_effects out).
Proof.
  intros Hw Hrun. destruct (whole_run_ok w out w' Hw Hrun) as [_ [_ Hh]]. specialize (Hh j).
  destruct Hrun as [ts Hrun].
  destruct (pool_solvent (on_node (reserves j)) (on_node (executes j)) whole_entry (w, []) out (w', ts) 0) as [Hle _].
  - apply whole_entry_pays.
  - done.
  - exists []. split; [constructor | done].
  - rewrite !count_on_node in Hle.
    assert (Hk : b2N (known j w'.(whole_node)) <= 1) by (destruct (known j w'.(whole_node)); cbn; lia). lia.
Qed.

(** (C9) At most once: over any run of a whole node from a state of its invariant (that of a node that
    starts, for one), however its tasks interleave, those of both kinds of training included, whatever
    its peers send (the same request twice at the same moment included) and whatever its disk refuses,
    a job is executed at most once more than it was evicted from the history, and not even once if it
    was in the history from the start and was never evicted. *)
Theorem jobs_run_at_most_once (w : Whole) (out : list (NodeEffect + V4Effect)) (w' : Whole) (j : JobId) :
  whole_ok w -> whole_run w out w' ->
  count (executes j) (node_effects out) + b2N (known j w.(whole_node)) <= 1 + count (evicts j) (node_effects out).
Proof. apply executions_bounded. Qed.

(** (C27) After a restart with the jobs of a saved history: every one of them is finished (those that
    were not have failed), and over any run of the whole node, from a state of its invariant, none of
    them is executed again while the history still holds it. *)
Theorem restart_keeps_jobs_finished (now : N) (loaded : list PersistedJob) (w : Whole)
    (out : list (NodeEffect + V4Effect)) (w' : Whole) :
  w.(whole_node).(NodeState_jobs) = recover_jobs now loaded -> whole_ok w -> whole_run w out w' ->
  (forall id job, w.(whole_node).(NodeState_jobs) !! id = Some job ->
     JobState_terminal job.(PersistedJob_state) = true /\
     exists saved, saved ∈ loaded /\ job = recover_job now saved) /\
  forall job, job ∈ loaded ->
    count (executes job.(PersistedJob_job_id)) (node_effects out)
    <= count (evicts job.(PersistedJob_job_id)) (node_effects out).
Proof.
  intros Hj Hw Hrun. rewrite Hj. split.
  - intros id job Hjob. destruct (recover_jobs_from now loaded id job Hjob) as (saved & Hin & ->).
    split; [apply recover_job_terminal | by exists saved].
  - intros job Hin. pose proof (executions_bounded w out w' job.(PersistedJob_job_id) Hw Hrun) as Hb.
    assert (Hk : known (PersistedJob_job_id job) w.(whole_node) = true).
    { apply bool_decide_eq_true_2. rewrite Hj. by apply recover_jobs_known. }
    rewrite Hk in Hb. cbn in Hb. lia.
Qed.

(** The job history is keyed by job and never holds more than 4096 jobs, a reply slot never
    holds a result for another job or a success without its hash, every artifact on disk hashes to
    its name, and the shards of planned jobs pass their checks, in every state a node reaches. *)
Theorem node_invariant (w : Whole) (out : list (NodeEffect + V4Effect)) (w' : Whole) :
  whole_ok w -> whole_run w out w' -> whole_ok w'.
Proof. intros Hw Hrun. by apply (whole_run_ok w out w' Hw Hrun). Qed.

(** (C26) Local policy holds of every execution of a run of the whole node from a state of its
    invariant: the request names a capability of the configuration and keeps to its limits, it runs with that capability's executor,
    and unless the node itself asked, the capability is public, accepts remote jobs, the request lets
    its input travel and a process runs in the bubblewrap sandbox. *)
Theorem executions_follow_policy (w : Whole) (out : list (NodeEffect + V4Effect)) (w' : Whole)
    (request : JobRequest) (executor : ExecutorSpec) :
  whole_ok w -> whole_run w out w' -> inl (Did_Execute request executor) ∈ out ->
  exists capability,
    capabilities config !! request.(JobRequest_capability) = Some capability /\
    CapabilityConfig_executor capability = Ok executor /\
    len request.(JobRequest_input) <= capability.(CapabilityConfig_max_input_bytes) /\
    request.(JobRequest_max_output_bytes) <= capability.(CapabilityConfig_max_output_bytes) /\
    (request.(JobRequest_origin) <> node_id ->
     capability.(CapabilityConfig_public) = true /\
     capability.(CapabilityConfig_accept_remote_jobs) = true /\
     request.(JobRequest_privacy).(PrivacyPolicy_allow_input_transfer) = true /\
     forall sandbox, executor_sandbox executor = Some sandbox ->
       sandbox = ProcessSandbox_Bubblewrap "bwrap").
Proof.
  intros Hw Hrun Hin. destruct (whole_run_ok w out w' Hw Hrun) as [_ [He _]].
  rewrite Forall_forall in He. destruct (He (Did_Execute request executor)) as (c & Hc & Hx & Hi & Ho & Hwho).
  { apply list_elem_of_omap. by eexists. }
  exists c. split_and!; try done. intros Hremote. destruct Hwho as [Hself|Hcheck]; [done|].
  unfold remote_job_check in Hcheck. rewrite Hc in Hcheck.
  destruct (is_process c && _) eqn:Hp; [done|]. destruct (_ || _) eqn:Hpol; [done|]. breflect.
  split_and!; try done. intros sandbox Hsand.
  apply (executor_in_bubblewrap c executor sandbox Hx Hsand). intros Hproc. rewrite Hproc in Hp.
  cbn in Hp. by breflect.
Qed.

(** Every update a worker sends about a job can be one of its state: the kind and the state
    agree, its sequence number is positive and a success carries the hash of its output. *)
Theorem updates_sent_are_consistent (w : Whole) (out : list (NodeEffect + V4Effect)) (w' : Whole)
    (peer : NodeId) (update : JobUpdate) :
  whole_ok w -> whole_run w out w' -> inl (Did_Send peer (Message_JobUpdate update)) ∈ out ->
  JobUpdate_state_matches update = true /\ update.(JobUpdate_sequence) <> 0 /\
  forall output hash evidence, update.(JobUpdate_update) = JobUpdateKind_Succeeded output hash evidence ->
    hash = ArtifactId_from_bytes_hashed output.
Proof.
  intros Hw Hrun Hin. destruct (whole_run_ok w out w' Hw Hrun) as [_ [He _]].
  rewrite Forall_forall in He. apply (He (Did_Send peer (Message_JobUpdate update))).
  apply list_elem_of_omap. by eexists.
Qed.

(** ** Submissions *)

(** A node that starts: nobody waits for a reply yet, the history read from disk is keyed and
    bounded, every artifact on disk hashes to its name, and the shards read pass their checks. *)
Record starting (w : Whole) : Prop := mkStarting {
  starting_jobs : forall id job, w.(whole_node).(NodeState_jobs) !! id = Some job -> job.(PersistedJob_job_id) = id;
  starting_bounded : N.of_nat (size w.(whole_node).(NodeState_jobs)) <= MAX_JOB_HISTORY;
  starting_pending : w.(whole_node).(NodeState_pending) = ∅;
  starting_replies : w.(whole_node).(NodeState_job_replies) = ∅;
  starting_files : addressed w.(whole_node).(NodeState_world).(files);
  starting_shards : intact w.(whole_v4)
}.

Lemma starting_ok w : starting w -> whole_ok w.
Proof.
  intros [Hj Hb Hp Hr Hf Hi]. split; [|done]. split; try done.
  - intros id job. by rewrite Hp, lookup_empty.
  - intros sender r. by rewrite Hr, lookup_empty.
Qed.

(** (C25) What a submission returns is for the job that was submitted, and a success has the hash of
    its output: from the start of a node on, whichever peer ran the job, whatever the peers send and
    however the submission interleaves with all other tasks of the node, those that handle the
    updates of the job included. *)
Theorem submitted_results_are_genuine (w : Whole) (request : JobRequest) p (r : JobResult) :
  starting w -> request.(JobRequest_origin) = node_id ->
  finishes whole_entry (w, []) (lift_node (submit_request config identity store request)) p (Ok r) ->
  r.(JobResult_job_id) = request.(JobRequest_job_id) /\
  (r.(JobResult_state) = JobState_Succeeded ->
   exists output, r.(JobResult_output) = Some output /\
     r.(JobResult_output_hash) = Some (ArtifactId_from_bytes_hashed output)).
Proof.
  intros Hw Ho Hf.
  apply (obeys_finishes whole_entry whole_ok whole_step (w, []) _ p (Ok r)
    (fun result => forall value, result = Ok value -> result_for request.(JobRequest_job_id) value)
    whole_step_refl whole_step_trans whole_entry_ok Hf (starting_ok w Hw)); [constructor | | done].
  by apply ok_node, ok_submit.
Qed.
End Whole.
