(* ===== verification/WholeExamples.v ===== *)
(** * A whole node at work

    The node of [NodeExamples] with the worker of [V4Examples]: its operator submits jobs, a candidate
    of a planned job asks for its vote, and the witnesses of the theorems about whole nodes. *)

From Stdlib Require Import String ZArith NArith Lia.
From stdpp Require Import base tactics sets strings numbers list gmap countable.
From S2P Require Import Prelude OrdMap Types Validation FileSystem Storage StorageFacts Aggregation Compute Float32 Planner Runtime Trust Security Facade Network NetworkExamples NodeConfig Tasks TaskLogic NodeState NodeJobs NodeArtifacts NodeFacts NodePool NodeExamples V3Model V3Coordinator V3Aside V4Model V4Control V4Node V4Facts V4Pool V4Examples WholeNode.
Local Open Scope N_scope.
Local Open Scope rust_scope.

#[local] Existing Instances net_hash net_verifier net_signer nx_text nx_payload nx_evidence_postcard
  jobs_json bytes_json nx_hex nx_evidence_file nx_evidence_json fx_json fx_plan_bytes fx_contribution fx_profile.

(** Nothing of distributed training is written in these runs. *)
#[local] Instance wx_state_bytes : Json (JobId * N * N * Z * Z) := no_json _.
#[local] Instance wx_manifest : Json TrainingCheckpointManifest := no_json _.
#[local] Instance wx_start_json : Json TrainingStart := no_json _.
#[local] Instance wx_training_state : Json TrainingState := no_json _.
#[local] Instance wx_shard_state : Json TrainingShardState := no_json _.
#[local] Instance wx_branch : Json (str * JobId) := no_json _.
#[local] Instance wx_plan : Json (str * list NodeId * list TrainingGroup * list TrainingShardAssignment * N * N * N) :=
  no_json _.

Notation wx_entry := (whole_entry nx_security_bytes nx_node_config nx_node_identity nx_store "x86_64" 1000 10).
Notation wx_run := (whole_run nx_security_bytes nx_node_config nx_node_identity nx_store "x86_64" 1000 10).

Definition wx_env : NodeEnv * V4Env := (nx_env, fx_env).

Definition wx_node (jobs : gmap JobId PersistedJob) : Whole := mkWhole (nx_node nx_world jobs) fx_worker.

Definition wx_start : Whole := wx_node ∅.

Lemma wx_starting : starting wx_start.
Proof. split; cbn; try done; intros *; rewrite ?lookup_empty; try done; by apply fx_worker_intact. Qed.

Lemma wx_start_ok : whole_ok wx_start.
Proof. apply starting_ok, wx_starting. Qed.

(** ** A job, and a vote in between *)

Notation wx_submit := (lift_node (ignore (submit_request nx_node_config nx_node_identity nx_store (nx_local 1)))).

Definition wx_ballot : TrainingV4Message :=
  TrainingV4Message_IntegratedElectionRequest
    (mkV4IntegratedElectionRequest fx_job fx_job 1 (fx_hash 3) (fx_hash 2) (fx_hash 4) 2 (fx_node 2)).

Notation wx_asked := (handle_message nx_security_bytes nx_node_config nx_node_identity nx_store "x86_64" 1000 10
  (fx_node 2) (Message_TrainingV4 wx_ballot)).

Lemma wx_submit_entry : wx_entry wx_submit.
Proof. by apply whole_submit. Qed.

Lemma wx_asked_entry : wx_entry wx_asked.
Proof.
  apply whole_message; [vm_compute; reflexivity | done |]. intros training [= <-]. cbn. by repeat constructor.
Qed.

Definition wx_first := run_task wx_submit (repeat wx_env 3) wx_start.

Definition wx_second := run_task wx_asked (repeat wx_env 20) wx_first.1.2.

Definition wx_third := run_task wx_first.1.1 (repeat wx_env 20) wx_second.1.2.

Definition wx_out : list (NodeEffect + V4Effect) := wx_first.2 ++ wx_second.2 ++ wx_third.2.

Lemma run_parts {A} (t : wtask A) envs w :
  run_task t envs w = ((run_task t envs w).1.1, (run_task t envs w).1.2, (run_task t envs w).2).
Proof. by destruct (run_task t envs w) as [[t' w'] out]. Qed.

Lemma wx_served : wx_run wx_start wx_out wx_third.1.2.
Proof.
  apply (pool_interleaved wx_entry wx_submit wx_asked (repeat wx_env 3) (repeat wx_env 20) (repeat wx_env 20) wx_start
    wx_first.1.1 wx_first.1.2 wx_first.2 wx_second.1.1 wx_second.1.2 wx_second.2 wx_third.1.1 wx_third.1.2 wx_third.2).
  - apply wx_submit_entry.
  - apply wx_asked_entry.
  - unfold wx_first. exact (run_parts wx_submit (repeat wx_env 3) wx_start).
  - unfold wx_second. exact (run_parts wx_asked (repeat wx_env 20) wx_first.1.2).
  - unfold wx_third. exact (run_parts wx_first.1.1 (repeat wx_env 20) wx_second.1.2).
Qed.

(** Both came to their end: the job ran, the vote was cast. *)
Example wx_both_done :
  count (executes (mkJobId [1])) (node_effects wx_out) = 1 /\
  exists vote, wx_third.1.2.(whole_v4).(V4State_integrated_elections) !! fx_job = Some vote.
Proof. split; [vm_compute; reflexivity|]. eexists. vm_compute. reflexivity. Qed.

Lemma jobs_run_at_most_once_witness :
  count (executes (mkJobId [1])) (node_effects wx_out) + b2N (known (mkJobId [1]) wx_start.(whole_node))
  <= 1 + count (evicts (mkJobId [1])) (node_effects wx_out).
Proof.
  exact (jobs_run_at_most_once nx_security_bytes nx_node_config nx_node_identity nx_store "x86_64" 1000 10
           wx_start wx_out wx_third.1.2 (mkJobId [1]) wx_start_ok wx_served).
Defined.

Lemma node_invariant_witness : whole_ok wx_third.1.2.
Proof.
  exact (node_invariant nx_security_bytes nx_node_config nx_node_identity nx_store "x86_64" 1000 10
           wx_start wx_out wx_third.1.2 wx_start_ok wx_served).
Defined.

Lemma wx_executed : inl (Did_Execute (nx_local 1) nx_executor) ∈ wx_out.
Proof.
  assert (Hi : exists i, wx_out !! i = Some (inl (Did_Execute (nx_local 1) nx_executor)))
    by (exists 3%nat; vm_compute; reflexivity).
  destruct Hi as [i Hi]. by eapply list_elem_of_lookup_2.
Qed.

Lemma executions_follow_policy_witness :
  exists capability,
    capabilities nx_node_config !! "inference.text"%string = Some capability /\
    CapabilityConfig_executor capability = Ok nx_executor.
Proof.
  destruct (executions_follow_policy nx_security_bytes nx_node_config nx_node_identity nx_store "x86_64" 1000 10
    wx_start wx_out wx_third.1.2 (nx_local 1) nx_executor wx_start_ok wx_served wx_executed) as (c & Hc & Hx & _).
  by exists c.
Defined.

(** ** A restart *)

Definition wx_restarted : Whole := wx_node (recover_jobs 100 nx_saved).

Lemma wx_restarted_ok : whole_ok wx_restarted.
Proof. split; [apply nx_restarted_ok | apply fx_worker_intact]. Qed.

(** The same job is asked for again. *)
Definition wx_again := run_task wx_submit (repeat wx_env 20) wx_restarted.

Lemma wx_again_run : wx_run wx_restarted wx_again.2 wx_again.1.2.
Proof. apply (pool_serves wx_entry wx_submit (repeat wx_env 20) wx_restarted []), wx_submit_entry. Qed.

Lemma restart_keeps_jobs_finished_witness :
  count (executes (mkJobId [1])) (node_effects wx_again.2) <= count (evicts (mkJobId [1])) (node_effects wx_again.2).
Proof.
  refine (proj2 (restart_keeps_jobs_finished nx_security_bytes nx_node_config nx_node_identity nx_store "x86_64" 1000 10
    100 nx_saved wx_restarted wx_again.2 wx_again.1.2 eq_refl wx_restarted_ok wx_again_run)
    (mkPersistedJob (mkJobId [1]) nx_peer JobState_Running 5 None None None) _).
  by apply list_elem_of_singleton.
Defined.

(** ** A job for a peer *)

Definition wx_offer : PeerRecord :=
  mkPeerRecord nx_peer [] ["10.0.0.1:1"%string]
    [mkCapability "inference.far" 1 None (mkResourceLimits 65536 16384 1048576 1000) CapabilityEvidence_Claimed 1000 [] []]
    0 1000 None.

Definition wx_routes : NodeEnv * V4Env :=
  (mkNodeEnv 100 100000 false None [] None (Execution_Output []) [] false [wx_offer] [] None false false false, fx_env).

Definition wx_request : JobRequest :=
  mkJobRequest (mkJobId (repeat 5 16)) nx_node_identity.(Identity_node_id) JobKind_Inference "inference.far" None
    (as_bytes "a good day") 500 1024 (PrivacyPolicy_default).

Notation wx_remote := (lift_node (submit_request nx_node_config nx_node_identity nx_store wx_request)).

(** The request is sent, and the submission waits. *)
Definition wx_waiting := run_task wx_remote (repeat wx_routes 20) wx_start.

(** The answer of the peer. *)
Definition wx_update : Message :=
  Message_JobUpdate (mkJobUpdate (mkJobId (repeat 5 16)) JobState_Succeeded 3
    (JobUpdateKind_Succeeded [1; 2] (ArtifactId_from_bytes_hashed [1; 2]) None)).

Notation wx_answered := (handle_message nx_security_bytes nx_node_config nx_node_identity nx_store "x86_64" 1000 10
  nx_peer wx_update).

Lemma wx_answered_entry : wx_entry wx_answered.
Proof. apply whole_message; [vm_compute; reflexivity | done | done]. Qed.

Definition wx_delivered := run_task wx_answered (repeat wx_routes 20) wx_waiting.1.2.

Definition wx_result : JobResult :=
  mkJobResult (mkJobId (repeat 5 16)) JobState_Succeeded (Some [1; 2])
    (Some (ArtifactId_from_bytes_hashed [1; 2])) None None.

Definition wx_returned := run_task wx_waiting.1.1 (repeat wx_routes 20) wx_delivered.1.2.

Lemma wx_returned_result : wx_returned.1.1 = Done (Ok wx_result).
Proof. vm_compute. reflexivity. Qed.

Lemma wx_finished : exists p, finishes wx_entry (wx_start, []) wx_remote p (Ok wx_result).
Proof.
  apply (finishes_run wx_entry wx_remote (repeat wx_routes 20) wx_start [] wx_waiting.1.1 wx_waiting.1.2 wx_waiting.2).
  { unfold wx_waiting. exact (run_parts wx_remote (repeat wx_routes 20) wx_start). }
  intros ts.
  destruct (pool_serves wx_entry wx_answered (repeat wx_routes 20) wx_waiting.1.2 ts wx_answered_entry) as (ts' & Hs).
  destruct (finishes_run wx_entry wx_waiting.1.1 (repeat wx_routes 20) wx_delivered.1.2 ts' wx_returned.1.1
    wx_returned.1.2 wx_returned.2 (Ok wx_result)) as [p Hp].
  - unfold wx_returned. exact (run_parts wx_waiting.1.1 (repeat wx_routes 20) wx_delivered.1.2).
  - intros ts''. rewrite wx_returned_result. eexists. constructor.
  - exists p. exact (finishes_after wx_entry _ _ _ _ _ _ Hs Hp).
Qed.

Lemma submitted_results_are_genuine_witness :
  wx_result.(JobResult_job_id) = mkJobId (repeat 5 16) /\
  (wx_result.(JobResult_state) = JobState_Succeeded ->
   exists output, wx_result.(JobResult_output) = Some output /\
     wx_result.(JobResult_output_hash) = Some (ArtifactId_from_bytes_hashed output)).
Proof.
  destruct wx_finished as [p Hp].
  exact (submitted_results_are_genuine nx_security_bytes nx_node_config nx_node_identity nx_store "x86_64" 1000 10
    wx_start wx_request p wx_result wx_starting eq_refl Hp).
Defined.
